(* ===== verification/_CoqProject ===== *)
-Q . S2P
Prelude.v
Posix.v
CArray.v
Numbers.v
Output.v
Resources.v
CTokens.v
PerlRegex.v
Cmsg.v
Crc32.v
Vrl4.v
ParseVdso.v
VdsoTest.v
Cfag12864b.v
Mic.v
MicSysfs.v
MicLog.v
MicRing.v
MicNet.v
MicBlock.v
MicDaemon.v
MicControl.v
V4l2Skeleton.v
V4l2Ioctl.v
MeiAmt.v
Getdelays.v
Configfs.v
ConfigfsTree.v
Timestamping.v
TxTimestamp.v
Hwtstamp.v
TestPtp.v
Hpet.v
Laptop.v
Aliasing.v
Connector.v
Spi.v
Tsc.v
Samples.v
Xc3028.v
Edid.v
Scripts.v
Config3270.v
DvbFirmware.v
TcmModule.v
TracePagealloc.v
