(* ===== verification/Prelude.v ===== *)
(** * Verified models of the programs of the kernel documentation tree

    The tree under src/Documentation holds, besides text, the programs, sample
    drivers and scripts the text describes.  They do not link with each other, with
    three exceptions (the vDSO parser and its two test programs, the connector module
    and its listener, the coprocessor daemon and its two control scripts): each is a
    command, a daemon or a module of its own.  What they share is the world they run
    in, C on fixed-width integers and a kernel whose answers they do not choose, and
    that is the shared part of this library.

    ** Shared files

    - Prelude.v (this file): wrap-around integers ([u8] .. [u64], [i32], [i64],
      [wrap], [sint]), alignment, bit extensionality tactics, bytes, strings and
      little-endian encoding, lists indexed by Z ([zlen], [ztake], [zdrop]), the
      reflexive-transitive closure [star] with its invariant rule.
    - Posix.v: programs that make calls.  [io call S A] takes a kernel (any function
      from the history of calls and answers and the next call to an answer), a state
      and the history; it ends in an outcome: a value, an exit status, a [Crash]
      (failed assertion, access outside an object) or [NoFuel].  [wp] is the
      weakest precondition, with one rule for each constructor and the tactics
      [wp_step], [wp_go] and [wp_name]; [wp_result] reads a concrete run off it.
    - CArray.v: arrays and structures in memory ([load], [store], [rd], [poke],
      [sub], [cstr]), counted loops, [atoi] and its agreement with printed numbers.
    - Numbers.v: numbers printed in a base, read back, and how long they get.
    - Output.v: the class [Shows] says what a call prints; [output] is what a history
      printed, [prints] the rule for programs that only print.
    - Resources.v: the class [Resources] says for each call of a program what it
      acquires and releases; [held] replays a history and is [None] after a double
      release.  Leak freedom is stated with it everywhere.
    - Cmsg.v: the control messages of recvmsg, with the walk of CMSG_FIRSTHDR and
      CMSG_NXTHDR, for the two time stamping tools.
    - CTokens.v: a reader of C text, for programs that print it: tokens, declarations,
      the functions, tables and structures of a file, and that all of these commute with
      filling a name into a text with holes.
    - PerlRegex.v: regular expressions of Perl, read from text and matched with
      backtracking, for scripts that make them at run time.

    ** Programs

    - Crc32.v, pcmcia/crc32hash.c: [crc32] against division of polynomials over
      the two-element field.
    - Vrl4.v, arm/SH-Mobile/vrl4.c: the boot image and its header for every way the
      kernel may split reads and writes, and termination.
    - ParseVdso.v, vDSO/parse_vdso.c: the ELF hash, symbol lookup through hash
      chains and versions, collection of the tables from the image and from the
      auxiliary vector.  VdsoTest.v, vdso_test.c and vdso_standalone_test_x86.c, uses
      its lemmas: from the stack a process starts with to the line it prints.
    - Cfag12864b.v, auxdisplay/cfag12864b-example.c: pixel primitives against the
      picture a buffer shows, the transposition to the device format, the whole
      demo, and what happens without the coordinate check and at end of input.
    - Mic.v, MicSysfs.v, MicLog.v, MicRing.v, MicNet.v, MicBlock.v, MicDaemon.v,
      MicControl.v, mic/mpssd/: the daemon for coprocessor cards.  Mic.v has the data
      of mpssd.h and the calls; MicSysfs.v sysfs.c; the others the parts of mpssd.c: rings and
      device pages, network and console threads, block device thread, card state
      machine and start-up, and in MicLog.v the log, with sysfs.c once more where it
      writes messages; MicControl.v has the scripts
      micctrl and mpss.  MicDaemon uses MicSysfs and MicRing, the threads use
      MicRing.  Theorems: balanced resources and round trip of sysfs, descriptor
      lookup, faithful relay of packets in both directions and the setup around it,
      all-or-nothing backends, served requests and their error paths, shutdown,
      configuration and the card list; what sysfs.c and the report of a state put into the
      log and what overruns it; what the service script does
      to the cards when it starts and stops, and that the address it looks for is the
      one the daemon gave the card.
    - V4l2Skeleton.v, video4linux/v4l2-pci-skeleton.c: every ioctl and queue
      operation of the driver as a function on [struct skeleton]; videobuf2 is a step
      relation that calls them.  A well-formedness invariant of all reachable states,
      ioctls on a busy queue, buffers given back, queue setup, probe and remove.
      V4l2Ioctl.v has the ioctl table over it: what was set is what is read back.
    - MeiAmt.v, misc-devices/mei/mei-amt-version.c: round trip of a version list
      from the firmware to the output, and every outcome of a run, with
      the only message sizes and responses that make the tool leave its buffers.
    - Getdelays.v, accounting/getdelays.c: requests on the wire and the walk over
      replies.
    - Configfs.v, filesystems/configfs/: the attribute files of both example modules,
      their equivalence, and the life of the module and its items under any sequence
      of calls.  ConfigfsTree.v adds the tables of both modules and configfs following
      them: the refinement of a file system to a tree of values.
    - Timestamping.v, TxTimestamp.v, Hwtstamp.v, networking/timestamping/: the
      control messages of a packet reach the output, packets go out on schedule,
      the four packets of a transmit test and their stamps, the name tables of the
      configuration tool.
    - TestPtp.v, ptp/testptp.c: the frequency adjustment computed in double precision
      against integer arithmetic, the printed clock offsets, the event protocol.
    - Hpet.v, timers/hpet_example.c: every command gives back what it took.
    - Laptop.v, laptops/freefall.c and dslm.c: the heads follow the sensor with a
      signal at any place; the times of the sleep monitor add up.
    - Aliasing.v, ia64/aliasing-test.c: the walk over directory trees against its
      flattening, and the mapping routine's errors.
    - Connector.v, connector/cn_test.c and ucon.c: the module's life, the listener's
      output, and both together through a kernel that delivers in order.
    - Spi.v, spi/spidev_fdx.c and spidev_test.c: buffers and settings of the transfers.
    - Tsc.v, prctl/: each child of the stress tests ends with the first thing the
      kernel did wrong or by its alarm, and
      the transcript of the basic test.
    - Xc3028.v, video4linux/extract_xc3028.pl: the firmware files the script writes
      are read back by a reader of their format, with the data of the driver.
    - Edid.v, EDID/: the macros and data of the blocks against a reader of the EDID
      layout, and the six blocks of the tree.
    - Scripts.v: networking/cxacru-cf.py and filesystems/cifs/winucase_convert.pl, each
      read back from what it prints.
    - Config3270.v, s390/config3270.sh: the script it writes, and what running that does
      to the device nodes, their directory and inittab.
    - DvbFirmware.v, dvb/get_dvb_firmware: the 39 components as calls of the utilities, and
      a table of the firmwares with the checked content each is made of.
    - TcmModule.v, target/tcm_mod_builder.py: the script with all its text; the C files it
      writes, read back, are consistent with each other for every module name.
    - TracePagealloc.v, trace/postprocess/trace-pagealloc-postprocess.pl: what the table of
      counts says of an input of lines with and without flags, read without an interrupt.
    - Samples.v: watchdog/src, blackfin/gptimers-example.c, filesystems/dnotify_test.c.

    Definitions keep the names of the source.  A handler is one definition; where a
    loop or a branch of a long function has a definition of its own, it is named
    after what it does and the handler calls it.

    ** Choices and bounds

    Code that is not in the tree enters as a class or a call: kernel headers with
    structure sizes ([Mic.MicAbi], [Delays.Layout]), the timings helpers of the video
    core ([Skel.VideoCore]), [simple_strtoul] ([KernelLib]), and every system or
    library call (a constructor of the program's [call] type).  What a theorem needs
    of them is a named hypothesis that states documented behaviour, and its witness
    gives a concrete instance.  Debug output is left out, and so is the log but in
    MicLog.v; standard output that a theorem speaks of is a call.

    A signal handler runs where the program asks the kernel, by a call of its own,
    whether the signal arrived; theorems hold for every answer.

    Loops without a structural bound take fuel.  Theorems about results either hold
    for every amount (a run that ends has the property, and a companion bounds the
    fuel) or name an amount that is enough: the length of the input for vrl4, the
    lengths of the chains for the vDSO parser and of the environment for its
    stand-alone test, 61 turns for the shutdown of a card, 4096 for the descriptor
    walk of a device page, the number of bytes for a netlink request, 67 plus the
    number of replies for the reply loop, the size of the directory tree for the
    aliasing test, one more than the seconds the cards take for the service script,
    the number of lines for the readers of printed tables, one more than that for the trace
    script.  Endless loops (the daemons) are shown to go on for every amount.

    Theorems that describe defects (overruns of fixed tables, lost error codes, leaks
    on error paths) state exactly what the code does; among them are
    [Cfag.unchecked_coordinates], [Cfag.eof_never_returns], [Net.tap_address_cut],
    [Block.errors_reported_as_success], [Block.malformed_requests_crash],
    [Daemon.shutdown_spins], [Control.stop_ignores_refusal], [Tx.one_byte_payload] and parts of [Log.messages_logged], [Net.setup_resources],
    [Block.round_resources], [Skel.probe_resources], [Mei.versions_roundtrip],
    [Aliasing.map_mem_result], [Pagealloc.pages_counted] and [Dslm.times_add_up].

    ** Not modelled

    The entry point and system call instruction of the stand-alone vDSO test
    (assembler), code under #if 0 or #ifdef TODO, devicetree/bindings/sound/ak4554.c (a
    comment), and these scripts: aoe/, which runs system programs; trace/postprocess/
    trace-vmscan-postprocess.pl, which sums floating point numbers kept as text; arm/Samsung/
    clksrc-change-registers.awk and the scripts in src/tools, which print or rewrite text
    line by line. *)

From stdpp Require Export prelude list_numbers strings pretty.
From Stdlib Require Export ZArith Lia ZifyBool Btauto.

#[export] Set Default Goal Selector "!".

Open Scope Z_scope.

(** ** Fixed-width integers

    A [w]-bit unsigned value is a [Z] between [0] and [2^w - 1]; a signed one
    is its two's complement reading.  Every C conversion to a narrower or
    differently signed type is one of the functions below. *)

Definition wrap (w x : Z) : Z := x mod 2 ^ w.

Definition sint (w x : Z) : Z := (x + 2 ^ (w - 1)) mod 2 ^ w - 2 ^ (w - 1).

Definition u8 (x : Z) : Z := wrap 8 x.
Definition u16 (x : Z) : Z := wrap 16 x.
Definition u32 (x : Z) : Z := wrap 32 x.
Definition u64 (x : Z) : Z := wrap 64 x.
Definition i32 (x : Z) : Z := sint 32 x.
Definition i64 (x : Z) : Z := sint 64 x.

Definition fits (w x : Z) : Prop := 0 <= x < 2 ^ w.

(** C's truth value of an integer expression, and the test [e & mask]. *)
Definition truthy (x : Z) : bool := negb (x =? 0).
Definition has (x mask : Z) : bool := truthy (Z.land x mask).

(** Round [x] up to a multiple of [a], a power of two, the way C does it. *)
Definition align_up (x a : Z) : Z := Z.land (x + a - 1) (Z.lnot (a - 1)).

Lemma pow2_pos w : 0 <= w -> 0 < 2 ^ w.
Proof. intros. apply Z.pow_pos_nonneg; lia. Qed.

Lemma wrap_range w x : 0 <= w -> fits w (wrap w x).
Proof. intros. apply Z.mod_pos_bound, pow2_pos; lia. Qed.

Lemma wrap_small w x : fits w x -> wrap w x = x.
Proof. apply Z.mod_small. Qed.

Lemma wrap_wrap w x : 0 <= w -> wrap w (wrap w x) = wrap w x.
Proof. intros. apply wrap_small, wrap_range; lia. Qed.

Lemma wrap_land w x : 0 <= w -> wrap w x = Z.land x (Z.ones w).
Proof. intros. by rewrite Z.land_ones. Qed.

Lemma wrap_testbit w x i :
  0 <= w -> 0 <= i -> Z.testbit (wrap w x) i = Z.testbit x i && (i <? w).
Proof.
  intros. rewrite wrap_land, Z.land_spec, Z.testbit_ones_nonneg by lia. done.
Qed.

Lemma sint_small w x : 0 < w -> - 2 ^ (w - 1) <= x < 2 ^ (w - 1) -> sint w x = x.
Proof.
  intros Hw Hx. unfold sint.
  assert (2 ^ w = 2 * 2 ^ (w - 1)) as E
    by (rewrite <- Z.pow_succ_r by lia; f_equal; lia).
  rewrite Z.mod_small; lia.
Qed.

Lemma i64_wrap x : - 2 ^ 63 <= x < 2 ^ 63 -> i64 (x mod 2 ^ 64) = x.
Proof.
  intros Hx. unfold i64, sint. rewrite Z.add_mod_idemp_l by done. change (64 - 1) with 63.
  change (2 ^ 64) with (2 ^ 63 + 2 ^ 63). rewrite Z.mod_small; lia.
Qed.

Lemma i64_small x : - 2 ^ 63 <= x < 2 ^ 63 -> i64 x = x.
Proof. intros. apply sint_small; [done|]. change (64 - 1) with 63. lia. Qed.

Lemma i32_wrap x : - 2 ^ 31 <= x < 2 ^ 31 -> i32 (x mod 2 ^ 32) = x.
Proof.
  intros Hx. unfold i32, sint. rewrite Z.add_mod_idemp_l by done. rewrite Z.mod_small; lia.
Qed.

Lemma i32_small x : - 2 ^ 31 <= x < 2 ^ 31 -> i32 x = x.
Proof. intros. apply sint_small; [done|]. change (32 - 1) with 31. lia. Qed.

Lemma i32_add_l x y : i32 (i32 x + y) = i32 (x + y).
Proof.
  unfold i32, sint. f_equal. replace ((x + 2 ^ (32 - 1)) mod 2 ^ 32 - 2 ^ (32 - 1) + y + 2 ^ (32 - 1)) with ((x + 2 ^ (32 - 1)) mod 2 ^ 32 + y) by lia.
  rewrite Z.add_mod_idemp_l by done. f_equal. lia.
Qed.

Lemma sint_range w x : 0 < w -> - 2 ^ (w - 1) <= sint w x < 2 ^ (w - 1).
Proof.
  intros Hw. unfold sint.
  assert (2 ^ w = 2 * 2 ^ (w - 1)) as E
    by (rewrite <- Z.pow_succ_r by lia; f_equal; lia).
  pose proof (Z.mod_pos_bound (x + 2 ^ (w - 1)) (2 ^ w)). lia.
Qed.

Lemma fits_testbit_high w x i : 0 <= w -> fits w x -> w <= i -> Z.testbit x i = false.
Proof.
  intros Hw Hx Hi. rewrite <- (Z.mod_small x (2 ^ w)) by done.
  by apply Z.mod_pow2_bits_high.
Qed.

Lemma fits_bits w x :
  0 <= w -> 0 <= x -> (forall i, w <= i -> Z.testbit x i = false) -> fits w x.
Proof.
  intros Hw Hx Hb. split; [done|].
  destruct (decide (x = 0)) as [->|]; [by apply pow2_pos|].
  apply Z.log2_lt_pow2; [lia|].
  destruct (Z.lt_ge_cases (Z.log2 x) w) as [|Hge]; [done|].
  pose proof (Hb _ Hge) as Hf. by rewrite Z.bit_log2 in Hf by lia.
Qed.

Lemma fits_lxor w x y : 0 <= w -> fits w x -> fits w y -> fits w (Z.lxor x y).
Proof.
  intros Hw Hx Hy. apply fits_bits; [done| |].
  - apply Z.lxor_nonneg. destruct Hx, Hy; lia.
  - intros i Hi. by rewrite Z.lxor_spec, !(fits_testbit_high w) by done.
Qed.

Lemma fits_lor w x y : 0 <= w -> fits w x -> fits w y -> fits w (Z.lor x y).
Proof.
  intros Hw Hx Hy. apply fits_bits; [done| |].
  - apply Z.lor_nonneg. destruct Hx, Hy; lia.
  - intros i Hi. by rewrite Z.lor_spec, !(fits_testbit_high w) by done.
Qed.

Lemma fits_land w x y : 0 <= w -> fits w x -> 0 <= y -> fits w (Z.land x y).
Proof.
  intros Hw Hx Hy. apply fits_bits; [done| |].
  - apply Z.land_nonneg. destruct Hx; lia.
  - intros i Hi. by rewrite Z.land_spec, (fits_testbit_high w x) by done.
Qed.

(** [align_up] is the least multiple of [2^k] that is at least [x]. *)
Lemma align_up_eq x k :
  0 <= k -> align_up x (2 ^ k) = (x + 2 ^ k - 1) / 2 ^ k * 2 ^ k.
Proof.
  intros Hk. unfold align_up.
  replace (2 ^ k - 1) with (Z.ones k) by (rewrite Z.ones_equiv; lia).
  replace (x + 2 ^ k - 1) with (x + Z.ones k) by (rewrite Z.ones_equiv; lia).
  rewrite <- Z.ldiff_land, Z.ldiff_ones_r by lia.
  by rewrite Z.shiftl_mul_pow2, Z.shiftr_div_pow2 by lia.
Qed.

Lemma align_up_spec x k :
  0 <= k ->
  x <= align_up x (2 ^ k) < x + 2 ^ k /\ align_up x (2 ^ k) mod 2 ^ k = 0.
Proof.
  intros Hk. rewrite align_up_eq by done. pose proof (pow2_pos k Hk).
  split; [|apply Z.mod_mul; lia].
  pose proof (Z.div_mod (x + 2 ^ k - 1) (2 ^ k)).
  pose proof (Z.mod_pos_bound (x + 2 ^ k - 1) (2 ^ k)). lia.
Qed.

(** The number whose [i]-th bit is [f i], for [i < n]. *)
Fixpoint bits_to_Z (f : Z -> bool) (n : nat) : Z :=
  match n with
  | O => 0
  | S k => Z.lor (bits_to_Z f k) (if f (Z.of_nat k) then 2 ^ Z.of_nat k else 0)
  end.

Lemma testbit_bits_to_Z f n i :
  0 <= i -> Z.testbit (bits_to_Z f n) i = (i <? Z.of_nat n) && f i.
Proof.
  intros Hi. induction n as [|n IH]; cbn [bits_to_Z].
  - rewrite Z.bits_0. by replace (i <? Z.of_nat 0) with false by lia.
  - rewrite Z.lor_spec, IH.
    destruct (decide (i = Z.of_nat n)) as [->|Hne].
    + rewrite Z.ltb_irrefl, (proj2 (Z.ltb_lt _ _)) by lia.
      destruct (f (Z.of_nat n)); [by rewrite Z.pow2_bits_true by lia|by rewrite Z.bits_0].
    + replace (Z.testbit _ i) with false.
      * rewrite orb_false_r. f_equal. destruct (Z.ltb_spec i (Z.of_nat n)), (Z.ltb_spec i (Z.of_nat (S n))); lia.
      * destruct (f (Z.of_nat n)); [by rewrite Z.pow2_bits_false by lia|by rewrite Z.bits_0].
Qed.

(** ** Tactics and hint databases *)

Create HintDb cint.
Create Rewrite HintDb cint.
#[export] Hint Resolve pow2_pos wrap_range fits_lxor fits_lor : cint.
#[export] Hint Extern 1 (_ <= _) => lia : cint.
#[export] Hint Extern 1 (_ < _) => lia : cint.

(** Turn boolean integer comparisons in hypotheses into propositions. *)
Ltac zbool :=
  repeat match goal with
  | H : (_ =? _) = true |- _ => apply Z.eqb_eq in H
  | H : (_ =? _) = false |- _ => apply Z.eqb_neq in H
  | H : (_ <? _) = true |- _ => apply Z.ltb_lt in H
  | H : (_ <? _) = false |- _ => apply Z.ltb_ge in H
  | H : (_ <=? _) = true |- _ => apply Z.leb_le in H
  | H : (_ <=? _) = false |- _ => apply Z.leb_gt in H
  | H : negb _ = true |- _ => apply negb_true_iff in H
  | H : negb _ = false |- _ => apply negb_false_iff in H
  | H : _ && _ = true |- _ => apply andb_true_iff in H as [? ?]
  | H : _ || _ = false |- _ => apply orb_false_iff in H as [? ?]
  end.

(** Case analysis on one boolean test of the goal, innermost first. *)
Ltac case_test :=
  match goal with
  | |- context [if ?b then _ else _] =>
      lazymatch type of b with
      | bool =>
          lazymatch b with
          | context [if _ then _ else _] => fail
          | _ => destruct b eqn:?
          end
      end
  end.

Ltac bsolve := intros; zbool; subst; try done; try lia; try congruence.

(** Equality of two integers bit by bit. *)
Ltac push_testbit :=
  repeat first
    [ rewrite Z.lxor_spec | rewrite Z.lor_spec | rewrite Z.land_spec
    | rewrite Z.ldiff_spec | rewrite Z.bits_0
    | rewrite Z.shiftl_spec by lia | rewrite Z.shiftr_spec by lia ].

Ltac bitwise i := apply Z.bits_inj'; intros i ?; push_testbit.

(** ** Bytes and strings *)

Definition byte_ok (b : Z) : Prop := 0 <= b < 256.
Definition bytes_ok (l : list Z) : Prop := Forall byte_ok l.

#[export] Instance byte_ok_dec b : Decision (byte_ok b).
Proof. unfold byte_ok. apply _. Defined.

Definition byte_of_ascii (a : Ascii.ascii) : Z := Z.of_N (Ascii.N_of_ascii a).

Fixpoint bytes_of_string (s : string) : list Z :=
  match s with
  | EmptyString => []
  | String a s' => byte_of_ascii a :: bytes_of_string s'
  end.

Definition strlen (s : string) : Z := Z.of_nat (String.length s).

(** The string of one line feed. *)
Definition nl : string := String (Ascii.ascii_of_nat 10) EmptyString.

(** Comparison that ignores the case of ASCII letters: [!strcasecmp(a, b)]. *)
Definition lower (a : Ascii.ascii) : Ascii.ascii :=
  let n := Ascii.nat_of_ascii a in
  if (65 <=? n)%nat && (n <=? 90)%nat then Ascii.ascii_of_nat (n + 32) else a.

Fixpoint lowercase (s : string) : string :=
  match s with EmptyString => EmptyString | String a r => String (lower a) (lowercase r) end.

Definition same_word (a b : string) : bool := String.eqb (lowercase a) (lowercase b).

Lemma byte_of_ascii_ok a : byte_ok (byte_of_ascii a).
Proof. unfold byte_ok, byte_of_ascii. pose proof (Ascii.N_ascii_bounded a). lia. Qed.

Lemma byte_of_ascii_inj a b : byte_of_ascii a = byte_of_ascii b -> a = b.
Proof.
  unfold byte_of_ascii. intros H%N2Z.inj.
  by rewrite <- (Ascii.ascii_N_embedding a), <- (Ascii.ascii_N_embedding b), H.
Qed.

Lemma bytes_of_string_ok s : bytes_ok (bytes_of_string s).
Proof. induction s; constructor; auto using byte_of_ascii_ok. Qed.

Lemma bytes_of_string_inj s t : bytes_of_string s = bytes_of_string t -> s = t.
Proof.
  revert t. induction s as [|a s IH]; intros [|b t]; simpl; try done.
  intros [= ?%byte_of_ascii_inj ?%IH]. by subst.
Qed.

Lemma length_bytes_of_string s : length (bytes_of_string s) = String.length s.
Proof. induction s; simpl; congruence. Qed.

(** Little-endian field of [n] bytes, and its reading. *)
Definition le_bytes (n : nat) (x : Z) : list Z := Z_to_little_endian (Z.of_nat n) 8 x.
Definition le_val (l : list Z) : Z := little_endian_to_Z 8 l.

Lemma length_le_bytes n x : length (le_bytes n x) = n.
Proof. apply Nat2Z.inj. unfold le_bytes. rewrite length_Z_to_little_endian; lia. Qed.

Lemma le_val_bytes n x : le_val (le_bytes n x) = x mod 2 ^ (8 * Z.of_nat n).
Proof.
  unfold le_val, le_bytes.
  rewrite little_endian_to_Z_to_little_endian by lia. f_equal. f_equal. lia.
Qed.

Lemma le_bytes_ok n x : bytes_ok (le_bytes n x).
Proof.
  pose proof (Z_to_little_endian_bound (Z.of_nat n) 8 x) as H.
  unfold bytes_ok, le_bytes. eapply Forall_impl; [apply H; lia|].
  intros ? ?. unfold byte_ok. by change 256 with (2 ^ 8).
Qed.

(** ** Lists *)

Definition zlen {A} (l : list A) : Z := Z.of_nat (length l).
Definition ztake {A} (n : Z) (l : list A) : list A := take (Z.to_nat n) l.
Definition zdrop {A} (n : Z) (l : list A) : list A := drop (Z.to_nat n) l.

Lemma zlen_nonneg {A} (l : list A) : 0 <= zlen l.
Proof. unfold zlen. lia. Qed.

Lemma zlen_app {A} (l k : list A) : zlen (l ++ k) = zlen l + zlen k.
Proof. unfold zlen. rewrite length_app. lia. Qed.

Lemma zlen_cons {A} (x : A) l : zlen (x :: l) = 1 + zlen l.
Proof. unfold zlen. simpl. lia. Qed.

Lemma ztake_zdrop {A} n (l : list A) : ztake n l ++ zdrop n l = l.
Proof. apply take_drop. Qed.

Lemma zlen_zdrop {A} n (l : list A) : 0 <= n <= zlen l -> zlen (zdrop n l) = zlen l - n.
Proof. unfold zlen, zdrop. rewrite length_drop. lia. Qed.

Lemma zlen_ztake {A} n (l : list A) : 0 <= n <= zlen l -> zlen (ztake n l) = n.
Proof. unfold zlen, ztake. rewrite length_take. lia. Qed.

(** Whether a text has another in it. *)
Fixpoint contains (pat l : list Z) : bool :=
  bool_decide (take (length pat) l = pat) || match l with [] => false | _ :: r => contains pat r end.

Lemma contains_app pat a b : contains pat (a ++ pat ++ b) = true.
Proof.
  induction a as [|c a IH].
  - assert (take (length pat) (pat ++ b) = pat) as E by apply take_app_length.
    cbn [app]. destruct (pat ++ b) as [|c l]; cbn [contains]; by rewrite bool_decide_eq_true_2.
  - cbn [app contains]. by rewrite IH, orb_true_r.
Qed.

Lemma contains_split pat l : contains pat l = true -> exists a b, l = a ++ pat ++ b.
Proof.
  assert (forall k : list Z, take (length pat) k = pat -> k = [] ++ pat ++ drop (length pat) k) as Ht.
  { intros k E. cbn [app]. rewrite <- E at 1. symmetry. apply take_drop. }
  induction l as [|c l IH]; cbn [contains]; intros [H%bool_decide_eq_true|H]%orb_true_iff; eauto; [done|].
  destruct (IH H) as (a & b & ->). by exists (c :: a), b.
Qed.

Lemma contains_trans a b c : contains a b = true -> contains b c = true -> contains a c = true.
Proof.
  intros (x & y & ->)%contains_split (x' & y' & ->)%contains_split. rewrite <- !app_assoc, (app_assoc x'). apply contains_app.
Qed.

(** A decidable property of every integer of a range, by evaluation. *)
Lemma seqZ_forallb (P : Z -> bool) lo n :
  forallb P (seqZ lo n) = true -> forall i, lo <= i < lo + n -> P i = true.
Proof. intros HP i Hi. rewrite forallb_forall in HP. apply HP, list_elem_of_In, elem_of_seqZ. lia. Qed.

#[export] Hint Rewrite @zlen_app @zlen_cons @length_app @length_le_bytes
  @length_replicate : cint.

(** ** Transition sequences *)

Section Star.
Context {A : Type} (R : A -> A -> Prop).

Inductive star : A -> A -> Prop :=
| star_refl a : star a a
| star_step a b c : R a b -> star b c -> star a c.

Lemma star_inv (P : A -> Prop) :
  (forall a b, P a -> R a b -> P b) -> forall a b, star a b -> P a -> P b.
Proof. intros HP a b. induction 1; eauto. Qed.

Lemma star_one a b : R a b -> star a b.
Proof. eauto using star. Qed.

Lemma star_trans a b c : star a b -> star b c -> star a c.
Proof. induction 1; eauto using star. Qed.
End Star.

#[export] Hint Constructors star : cint.
