(* ===== verification/Posix.v ===== *)
(** * Programs that talk to the kernel

    Every program of the tree is a sequence of system calls and library calls
    whose answers it does not choose.  A program is an [io call S A]: from the
    kernel, its own state [S] and the history of the calls made so far it
    computes an outcome, a new state and a longer history.

    The kernel is an argument: any function from the history and the next call
    to an answer.  A theorem that quantifies over the kernel speaks of every
    sequence of answers; what a program relies on is a named hypothesis about
    that function. *)

From S2P Require Import Prelude.

(** ** Error numbers of the Linux ABI *)

Definition EIO := 5.
Definition EAGAIN := 11.
Definition EWOULDBLOCK := 11.
Definition ENOMEM := 12.
Definition EBUSY := 16.
Definition EINVAL := 22.
Definition ENODATA := 61.
Definition ERANGE := 34.
Definition EINTR := 4.
Definition ENOTSUP := 95.
Definition ENOMSG := 42.

(** ** Outcomes and answers *)

(** A run returns a value, leaves through [exit], stops on a failed assertion
    or an invalid access, or uses up the fuel of a loop. *)
Inductive outcome (A : Type) : Type :=
| Ret (a : A)
| Exit (code : Z)
| Crash
| NoFuel.
Arguments Ret {A} a.
Arguments Exit {A} code.
Arguments Crash {A}.
Arguments NoFuel {A}.

(** What a call gives back: its return value, [errno], and the bytes it stored
    in the buffer it was handed. *)
Record ans := Ans { ret : Z; errno : Z; data : list Z }.

Definition aret (r : Z) : ans := Ans r 0 [].
Definition aerr (e : Z) : ans := Ans (-1) e [].

Definition out_bind {A B} (o : outcome A) (k : A -> outcome B) : outcome B :=
  match o with
  | Ret a => k a
  | Exit c => Exit c
  | Crash => Crash
  | NoFuel => NoFuel
  end.

Declare Scope out_scope.
Delimit Scope out_scope with out.

Notation "'let!' x ':=' m 'in' k" := (out_bind m (fun x => k))
  (at level 10, x pattern, m at level 100, k at level 200) : out_scope.

Lemma out_bind_Ret {A B} (o : outcome A) (k : A -> outcome B) b :
  out_bind o k = Ret b -> exists a, o = Ret a /\ k a = Ret b.
Proof. destruct o; simpl; try done. eauto. Qed.

(** ** The monad *)

Section Io.
Context {call : Type}.

(** Newest event first. *)
Definition event : Type := call * ans.
Definition kernel : Type := list event -> call -> ans.

Definition io (S A : Type) : Type :=
  kernel -> S -> list event -> outcome A * S * list event.

Definition io_ret {S A} (a : A) : io S A := fun _ s h => (Ret a, s, h).

Definition io_bind {S A B} (m : io S A) (k : A -> io S B) : io S B :=
  fun K s h =>
    match m K s h with
    | (Ret a, s', h') => k a K s' h'
    | (Exit c, s', h') => (Exit c, s', h')
    | (Crash, s', h') => (Crash, s', h')
    | (NoFuel, s', h') => (NoFuel, s', h')
    end.

(** Make one call. *)
Definition sys {S} (c : call) : io S ans :=
  fun K s h => (Ret (K h c), s, (c, K h c) :: h).

Definition get {S} : io S S := fun _ s h => (Ret s, s, h).
Definition put {S} (s : S) : io S unit := fun _ _ h => (Ret tt, s, h).
Definition modify {S} (f : S -> S) : io S unit := fun _ s h => (Ret tt, f s, h).
Definition exit_ {S A} (code : Z) : io S A := fun _ s h => (Exit code, s, h).
Definition crash {S A} : io S A := fun _ s h => (Crash, s, h).
Definition nofuel {S A} : io S A := fun _ s h => (NoFuel, s, h).

(** Run code that makes no call on the state. *)
Definition update {S} (f : S -> outcome S) : io S unit := fun _ s h =>
  match f s with
  | Ret s' => (Ret tt, s', h)
  | Exit c => (Exit c, s, h)
  | Crash => (Crash, s, h)
  | NoFuel => (NoFuel, s, h)
  end.

(** Code that makes no call and has no state. *)
Definition lift {S A} (o : outcome A) : io S A := fun _ s h => (o, s, h).

(** ** Weakest preconditions

    [wp m K s h Q]: running [m] ends in an outcome, a state and a history that
    satisfy [Q]. *)
Definition wp {S A} (m : io S A) (K : kernel) (s : S) (h : list event)
    (Q : outcome A -> S -> list event -> Prop) : Prop :=
  match m K s h with (o, s', h') => Q o s' h' end.

Definition wp_k {S A B} (K : kernel) (k : A -> io S B)
    (Q : outcome B -> S -> list event -> Prop) : outcome A -> S -> list event -> Prop :=
  fun o s h =>
    match o with
    | Ret a => wp (k a) K s h Q
    | Exit c => Q (Exit c) s h
    | Crash => Q Crash s h
    | NoFuel => Q NoFuel s h
    end.

Lemma wp_ret {S A} (a : A) K (s : S) h Q : Q (Ret a) s h -> wp (io_ret a) K s h Q.
Proof. done. Qed.

Lemma wp_bind {S A B} (m : io S A) (k : A -> io S B) K s h Q :
  wp m K s h (wp_k K k Q) -> wp (io_bind m k) K s h Q.
Proof.
  unfold wp, io_bind, wp_k. destruct (m K s h) as [[[]]]; done.
Qed.

(** Nothing need be known of [m] when every continuation and every way to stop
    satisfies the postcondition. *)
Lemma wp_bind_any {S A B} (m : io S A) (k : A -> io S B) K s h Q :
  (forall a s' h', wp (k a) K s' h' Q) -> (forall c s' h', Q (Exit c) s' h') ->
  (forall s' h', Q Crash s' h') -> (forall s' h', Q NoFuel s' h') ->
  wp (io_bind m k) K s h Q.
Proof. intros. apply wp_bind. unfold wp. destruct (m K s h) as [[[]]]; cbn; auto. Qed.

Lemma wp_sys {S} c K (s : S) h Q : Q (Ret (K h c)) s ((c, K h c) :: h) -> wp (sys c) K s h Q.
Proof. done. Qed.

Lemma wp_get {S} K (s : S) h Q : Q (Ret s) s h -> wp get K s h Q.
Proof. done. Qed.

Lemma wp_put {S} K (s s' : S) h Q : Q (Ret tt) s' h -> wp (put s') K s h Q.
Proof. done. Qed.

Lemma wp_modify {S} f K (s : S) h Q : Q (Ret tt) (f s) h -> wp (modify f) K s h Q.
Proof. done. Qed.

Lemma wp_lift {S A} (o : outcome A) K (s : S) h Q : Q o s h -> wp (lift o) K s h Q.
Proof. done. Qed.

Lemma wp_update {S} (f : S -> outcome S) K s s' h Q :
  f s = Ret s' -> Q (Ret tt) s' h -> wp (update f) K s h Q.
Proof. unfold wp, update. by intros ->. Qed.

Lemma wp_exit {S A} c K (s : S) h Q : Q (Exit c) s h -> wp (A := A) (exit_ c) K s h Q.
Proof. done. Qed.

Lemma wp_crash {S A} K (s : S) h Q : Q Crash s h -> wp (A := A) crash K s h Q.
Proof. done. Qed.

Lemma wp_nofuel {S A} K (s : S) h Q : Q NoFuel s h -> wp (A := A) nofuel K s h Q.
Proof. done. Qed.

Lemma wp_wand {S A} (m : io S A) K s h (Q Q' : outcome A -> S -> list event -> Prop) :
  wp m K s h Q -> (forall o s' h', Q o s' h' -> Q' o s' h') -> wp m K s h Q'.
Proof. unfold wp. destruct (m K s h) as [[]]. auto. Qed.

Lemma wp_and {S A} (m : io S A) K s h P Q :
  wp m K s h P -> wp m K s h Q -> wp m K s h (fun o s' h' => P o s' h' /\ Q o s' h').
Proof. unfold wp. destruct (m K s h) as [[o s'] h']. auto. Qed.

Lemma wp_elim {S A} (m : io S A) K s h Q o s' h' :
  wp m K s h Q -> m K s h = (o, s', h') -> Q o s' h'.
Proof. unfold wp. intros ? E. by rewrite E in *. Qed.

Lemma wp_result {S A} (m : io S A) K s h Q :
  wp m K s h Q -> Q (m K s h).1.1 (m K s h).1.2 (m K s h).2.
Proof. unfold wp. by destruct (m K s h) as [[o s'] h']. Qed.

Lemma wp_intro {S A} (m : io S A) K s h (Q : outcome A -> S -> list event -> Prop) :
  (forall o s' h', m K s h = (o, s', h') -> Q o s' h') -> wp m K s h Q.
Proof. unfold wp. destruct (m K s h) as [[o s'] h'] eqn:E. auto. Qed.

End Io.

Arguments event : clear implicits.
Arguments kernel : clear implicits.
Arguments io : clear implicits.

Declare Scope io_scope.
Delimit Scope io_scope with io.

Notation "'let*' x ':=' m 'in' k" := (io_bind m (fun x => k))
  (at level 10, x pattern, m at level 100, k at level 200) : io_scope.
Notation "m ;; k" := (io_bind m (fun _ => k))
  (at level 100, k at level 200, right associativity) : io_scope.

(** One symbolic step of the goal's program. *)
Ltac wp_step :=
  lazymatch goal with
  | |- wp (io_bind _ _) _ _ _ _ => apply wp_bind
  | |- wp (io_ret _) _ _ _ _ => apply wp_ret
  | |- wp (sys _) _ _ _ _ => apply wp_sys
  | |- wp get _ _ _ _ => apply wp_get
  | |- wp (put _) _ _ _ _ => apply wp_put
  | |- wp (modify _) _ _ _ _ => apply wp_modify
  | |- wp (exit_ _) _ _ _ _ => apply wp_exit
  | |- wp crash _ _ _ _ => apply wp_crash
  | |- wp nofuel _ _ _ _ => apply wp_nofuel
  | |- wp_k _ _ _ (Ret _) _ _ => unfold wp_k at 1; cbv beta
  | |- wp_k _ _ _ _ _ _ => unfold wp_k at 1
  | |- wp (if ?b then _ else _) _ _ _ _ => destruct b eqn:?
  | |- wp (match ?x with _ => _ end) _ _ _ _ => destruct x eqn:?
  | |- wp (let _ := _ in _) _ _ _ _ => cbv zeta
  end.

Ltac wp_run := repeat wp_step.

(** The same, forgetting where each answer came from ([wp_go]) or naming it
    ([wp_name]): histories stay short. *)
Lemma wp_sys_any {call S} c (K : kernel call) (s : S) h Q :
  (forall a, Q (Ret a) s ((c, a) :: h)) -> wp (sys c) K s h Q.
Proof. intros H. apply H. Qed.

Lemma wp_sys_eq {call S} c (K : kernel call) (s : S) h Q :
  (forall a, K h c = a -> Q (Ret a) s ((c, a) :: h)) -> wp (sys c) K s h Q.
Proof. intros H. by apply H. Qed.

Ltac wp_const :=
  lazymatch goal with
  | |- wp (if negb true then _ else _) _ _ _ _ => cbn [negb]
  | |- wp (if negb false then _ else _) _ _ _ _ => cbn [negb]
  | |- wp (if true then _ else _) _ _ _ _ => cbn iota
  | |- wp (if false then _ else _) _ _ _ _ => cbn iota
  end.

Ltac wp_go :=
  repeat lazymatch goal with
         | |- wp (sys _) _ _ _ _ => apply wp_sys_any; intros ?
         | _ => first [wp_const | wp_step]
         end.

Ltac wp_name :=
  repeat lazymatch goal with
         | |- wp (sys _) _ _ _ _ => apply wp_sys_eq; intros ? ?
         | _ => first [wp_const | wp_step]
         end.

(** ** The calls of a program

    [emits P m]: whatever the kernel answers and however [m] ends, it makes only
    calls that satisfy [P]. *)
Section Emits.
Context {call S : Type} (P : call -> Prop).

Definition emits {A} (m : io call S A) : Prop :=
  forall K s h, wp m K s h (fun _ _ h' => exists t, h' = t ++ h /\ Forall (fun e => P e.1) t).

Lemma emits_pure {A} (m : io call S A) : (forall K s h, (m K s h).2 = h) -> emits m.
Proof.
  intros Hm K s h. specialize (Hm K s h). unfold wp. destruct (m K s h) as [[o s'] h']. simpl in Hm. subst. by exists [].
Qed.

Lemma emits_bind {A B} (m : io call S A) (k : A -> io call S B) :
  emits m -> (forall a, emits (k a)) -> emits (io_bind m k).
Proof.
  intros Hm Hk K s h. apply wp_bind. eapply wp_wand; [apply Hm|]. intros o s' h' (t & -> & Ht).
  destruct o; wp_step; eauto. eapply wp_wand; [apply Hk|]. intros ? ? ? (u & -> & Hu). exists (u ++ t).
  split; [apply app_assoc|by apply Forall_app].
Qed.

Lemma emits_sys c : P c -> emits (sys c).
Proof. intros Hc K s h. exists [(c, K h c)]. auto. Qed.

Lemma emits_update (f : S -> outcome S) : emits (update f).
Proof. apply emits_pure. intros K s h. unfold update. by destruct (f s). Qed.
End Emits.

Lemma wp_emits {call S A B} (P : call -> Prop) (m : io call S A) (k : A -> io call S B) K s h Q :
  emits P m -> (forall r s' t, Forall (fun e => P e.1) t -> wp_k K k Q r s' (t ++ h)) -> wp (io_bind m k) K s h Q.
Proof. intros Hm Hk. apply wp_bind. eapply wp_wand; [apply Hm|]. intros r s' h' (t & -> & Ht). auto. Qed.

Lemma emits_mono {call S A} (P Q : call -> Prop) (m : io call S A) :
  (forall c, P c -> Q c) -> emits P m -> emits Q m.
Proof.
  intros HPQ Hm K s h. eapply wp_wand; [apply Hm|]. intros ? ? ? (t & -> & Ht). exists t. split; [done|].
  eapply Forall_impl; [exact Ht|]. auto.
Qed.

Create HintDb emits.

(** Follow the program; what remains are the loops and procedures it calls. *)
Ltac emits :=
  repeat lazymatch goal with
         | |- emits _ (io_bind _ _) => apply emits_bind; [|intros ?]
         | |- emits _ (sys _) => apply emits_sys; first [exact I | done | idtac]
         | |- emits _ (update _) => apply emits_update
         | |- emits _ (lift _) => by apply emits_pure
         | |- emits _ (io_ret _) => by apply emits_pure
         | |- emits _ (exit_ _) => by apply emits_pure
         | |- emits _ crash => by apply emits_pure
         | |- emits _ nofuel => by apply emits_pure
         | |- emits _ get => by apply emits_pure
         | |- emits _ (put _) => by apply emits_pure
         | |- emits _ (modify _) => by apply emits_pure
         | |- emits _ (if ?b then _ else _) => destruct b
         | |- emits _ (match ?x with _ => _ end) => destruct x
         | |- emits _ (let _ := _ in _) => cbv zeta
         | |- emits _ _ => progress eauto with emits
         end.
