(* ===== verification/CArray.v ===== *)
(** * C arrays and counted loops

    An array of bytes or words is a list; an access outside it is a [Crash].
    A [for] loop keeps its counter at the width of its C type, so a bound the
    counter cannot reach shows up as a run without end ([NoFuel]). *)

From S2P Require Import Prelude Posix.

Open Scope out_scope.

Definition znth (l : list Z) (i : Z) : Z := nth (Z.to_nat i) l 0.
Definition zset (l : list Z) (i v : Z) : list Z := <[Z.to_nat i := v]> l.

Definition load (l : list Z) (i : Z) : outcome Z :=
  if (0 <=? i) && (i <? zlen l) then Ret (znth l i) else Crash.

Definition store (l : list Z) (i v : Z) : outcome (list Z) :=
  if (0 <=? i) && (i <? zlen l) then Ret (zset l i v) else Crash.

Lemma load_in l i : 0 <= i < zlen l -> load l i = Ret (znth l i).
Proof. intros. unfold load. by replace ((0 <=? i) && (i <? zlen l)) with true by lia. Qed.

Lemma store_in l i v : 0 <= i < zlen l -> store l i v = Ret (zset l i v).
Proof. intros. unfold store. by replace ((0 <=? i) && (i <? zlen l)) with true by lia. Qed.

Lemma store_at pre x post v : store (pre ++ x :: post) (zlen pre) v = Ret (pre ++ v :: post).
Proof.
  pose proof (zlen_nonneg pre). pose proof (zlen_nonneg post). rewrite store_in by (rewrite zlen_app, zlen_cons; lia). f_equal.
  unfold zset, zlen. rewrite Nat2Z.id. replace (length pre) with (length pre + 0)%nat by lia. by rewrite insert_app_r.
Qed.

Lemma zlen_zset l i v : zlen (zset l i v) = zlen l.
Proof. unfold zlen, zset. by rewrite length_insert. Qed.

Lemma znth_zset l i v k :
  0 <= i < zlen l -> 0 <= k -> znth (zset l i v) k = if k =? i then v else znth l k.
Proof.
  unfold znth, zset, zlen. intros Hi Hk. rewrite !nth_lookup.
  destruct (Z.eqb_spec k i) as [->|Hne].
  - by rewrite list_lookup_insert_eq by lia.
  - by rewrite list_lookup_insert_ne by lia.
Qed.

Lemma znth_ok l k : bytes_ok l -> byte_ok (znth l k).
Proof.
  intros Hl. unfold znth. rewrite nth_lookup.
  destruct (l !! Z.to_nat k) eqn:E; simpl; [|unfold byte_ok; lia].
  unfold bytes_ok in Hl. rewrite Forall_lookup in Hl. eauto.
Qed.

Lemma zset_ok l i v : bytes_ok l -> byte_ok v -> bytes_ok (zset l i v).
Proof. intros. by apply Forall_insert. Qed.

Lemma znth_replicate n v k : 0 <= k < Z.of_nat n -> znth (replicate n v) k = v.
Proof.
  intros. unfold znth. rewrite nth_lookup, lookup_replicate_2 by lia. done.
Qed.

#[export] Hint Resolve zset_ok znth_ok : cint.

(** [for (i = i0; i < lim; i += step) body(i)], the counter [w] bits wide. *)
Fixpoint for_loop {A} (fuel : nat) (w i lim step : Z) (body : Z -> A -> outcome A) (a : A)
    : outcome A :=
  match fuel with
  | O => NoFuel
  | S fuel' =>
      if i <? lim then
        let! a := body i a in
        for_loop fuel' w (wrap w (i + step)) lim step body a
      else Ret a
  end.

(** Loop rule: an invariant over the counter, a counter that cannot wrap below
    the bound, and fuel for every turn and the final test. *)
Lemma for_loop_inv {A} (P : Z -> A -> Prop) fuel w lim step body :
  0 <= w -> 0 < step -> lim + step <= 2 ^ w ->
  (forall i a, 0 <= i < lim -> P i a ->
     exists a', body i a = Ret a' /\ P (i + step) a') ->
  forall i a, 0 <= i -> P i a -> i < lim + step ->
  0 < Z.of_nat fuel -> lim - i <= step * (Z.of_nat fuel - 1) ->
  exists a' i', for_loop fuel w i lim step body a = Ret a' /\ P i' a' /\ lim <= i' < lim + step.
Proof.
  intros Hw Hstep Hlim Hbody. induction fuel as [|fuel IH]; intros i a Hi HP Hlt Hf0 Hf; [lia|].
  cbn [for_loop]. destruct (Z.ltb_spec i lim) as [Hlt'|Hge]; [|by exists a, i].
  destruct (Hbody i a) as (a' & -> & HP'); [lia|done|]. cbn [out_bind].
  rewrite wrap_small by (unfold fits; lia).
  apply IH; (done || nia).
Qed.

(** ** Fields of structures in memory *)

(** An unsigned little-endian field of [n] bytes. *)
Definition rd (n : Z) (buf : list Z) (off : Z) : outcome Z :=
  if (0 <=? off) && (off + n <=? zlen buf) then Ret (le_val (ztake n (zdrop off buf))) else Crash.

Lemma zlen_le_bytes n x : zlen (le_bytes n x) = Z.of_nat n.
Proof. unfold zlen. by rewrite length_le_bytes. Qed.

Lemma zlen_replicate n (x : Z) : 0 <= n -> zlen (replicate (Z.to_nat n) x) = n.
Proof. intros. unfold zlen. rewrite length_replicate. lia. Qed.

Lemma replicate_zapp a b (x : Z) : 0 <= a -> 0 <= b ->
  replicate (Z.to_nat (a + b)) x = replicate (Z.to_nat a) x ++ replicate (Z.to_nat b) x.
Proof. intros. by rewrite Z2Nat.inj_add, replicate_add by lia. Qed.

Lemma znth_zdrop l n k : 0 <= n -> 0 <= k -> znth (zdrop n l) k = znth l (n + k).
Proof.
  intros. unfold znth, zdrop. rewrite List.nth_skipn. f_equal. lia.
Qed.

Lemma rd_in n buf off : 0 <= off -> off + n <= zlen buf ->
  rd n buf off = Ret (le_val (ztake n (zdrop off buf))).
Proof. intros. unfold rd. by replace (_ && _) with true by lia. Qed.

(** A field inside the first part of a buffer. *)
Lemma rd_app n got rest off : 0 <= off -> 0 <= n -> off + n <= zlen got ->
  rd n (got ++ rest) off = rd n got off.
Proof.
  intros Ho Hn Hl. pose proof (zlen_nonneg rest). rewrite !rd_in by (rewrite ?zlen_app; lia).
  unfold ztake, zdrop, zlen in *. rewrite drop_app_le by lia. rewrite take_app_le; [done|].
  rewrite length_drop. lia.
Qed.

Lemma rd_range n buf off v : bytes_ok buf -> 0 <= n -> rd n buf off = Ret v -> 0 <= v < 2 ^ (8 * n).
Proof.
  intros Hb Hn. unfold rd. destruct (_ && _) eqn:E; [|done]. intros Hv. simplify_eq.
  assert (zlen (ztake n (zdrop off buf)) = n) as Hl.
  { rewrite zlen_ztake; [done|]. rewrite zlen_zdrop; lia. }
  unfold le_val.
  assert (Forall (fun b => 0 <= b < 2 ^ 8) (ztake n (zdrop off buf))) as Hf.
  { unfold ztake, zdrop. by apply Forall_take, Forall_drop. }
  pose proof (little_endian_to_Z_bound 8 _ ltac:(lia) Hf) as Hbd. unfold zlen in Hl. rewrite Hl in Hbd.
  by rewrite (Z.mul_comm 8 n).
Qed.

Lemma rd_at n x pre post buf off :
  buf = pre ++ le_bytes (Z.to_nat n) x ++ post -> 0 <= n -> zlen pre = off -> 0 <= x < 2 ^ (8 * n) ->
  rd n buf off = Ret x.
Proof.
  intros -> Hn Hp Hx. pose proof (zlen_nonneg post). pose proof (zlen_nonneg pre).
  assert (zlen (le_bytes (Z.to_nat n) x) = n) as Hl by (unfold zlen; rewrite length_le_bytes; lia).
  rewrite rd_in by (rewrite ?zlen_app; lia). f_equal. unfold ztake, zdrop, zlen in *.
  rewrite drop_app_length' by lia. rewrite take_app_length' by lia. rewrite le_val_bytes.
  rewrite Z2Nat.id by lia. by apply Z.mod_small.
Qed.

(** ** Structures as bytes *)

(** [memcpy] into a structure. *)
Definition poke (buf : list Z) (off : Z) (bytes : list Z) : outcome (list Z) :=
  if (0 <=? off) && (off + zlen bytes <=? zlen buf)
  then Ret (ztake off buf ++ bytes ++ zdrop (off + zlen bytes) buf) else Crash.

Definition sub (buf : list Z) (off n : Z) : outcome (list Z) :=
  if (0 <=? off) && (0 <=? n) && (off + n <=? zlen buf) then Ret (ztake n (zdrop off buf)) else Crash.

(** The bytes of an object of a given size that nothing has initialised. *)
Definition uninit (size : Z) (a : ans) : list Z :=
  ztake size (data a ++ replicate (Z.to_nat size) 0).

Lemma poke_at pre old new post buf off :
  buf = pre ++ old ++ post -> zlen pre = off -> zlen old = zlen new -> poke buf off new = Ret (pre ++ new ++ post).
Proof.
  intros -> Hp Ho. pose proof (zlen_nonneg pre). pose proof (zlen_nonneg post). unfold poke. rewrite !zlen_app.
  replace (_ && _) with true by lia. f_equal. unfold ztake, zdrop, zlen in *.
  rewrite take_app_length' by lia. do 2 f_equal. rewrite app_assoc. apply drop_app_length'. rewrite length_app. lia.
Qed.

Lemma sub_at pre mid post buf off n :
  buf = pre ++ mid ++ post -> zlen pre = off -> zlen mid = n -> sub buf off n = Ret mid.
Proof.
  intros -> Hp Hm. pose proof (zlen_nonneg pre). pose proof (zlen_nonneg mid). pose proof (zlen_nonneg post).
  unfold sub. rewrite !zlen_app. replace (_ && _) with true by lia. f_equal. unfold ztake, zdrop, zlen in *.
  rewrite drop_app_length' by lia. apply take_app_length'. lia.
Qed.

(** Cut the first [n] bytes off. *)
Lemma cut n (l : list Z) : 0 <= n <= zlen l -> exists x r, l = x ++ r /\ zlen x = n /\ zlen r = zlen l - n.
Proof.
  intros Hn. exists (ztake n l), (zdrop n l). rewrite ztake_zdrop, zlen_ztake, zlen_zdrop by done. done.
Qed.

Lemma zlen_one (x : Z) : zlen [x] = 1.
Proof. done. Qed.

Ltac lens := first [reflexivity | rewrite ?zlen_app, ?zlen_le_bytes, ?zlen_one; lia].

(** What a call leaves in an object when it stores some bytes at its start. *)
Definition overlay (buf got : list Z) : list Z := ztake (zlen buf) got ++ zdrop (zlen got) buf.

Lemma zlen_overlay buf got : zlen (overlay buf got) = zlen buf.
Proof. unfold overlay, ztake, zdrop, zlen. rewrite length_app, length_take, length_drop. lia. Qed.

Lemma overlay_same buf got : zlen got = zlen buf -> overlay buf got = got.
Proof.
  unfold overlay, ztake, zdrop, zlen. intros E. rewrite take_ge, drop_ge by lia. apply app_nil_r.
Qed.

Lemma zlen_uninit n a : 0 <= n -> zlen (uninit n a) = n.
Proof.
  intros. unfold uninit. apply zlen_ztake. rewrite zlen_app, zlen_replicate by lia.
  pose proof (zlen_nonneg (data a)). lia.
Qed.

Lemma rd_mid n pre mid post off k :
  0 <= n -> 0 <= k -> k + n <= zlen mid -> off = zlen pre + k ->
  rd n (pre ++ mid ++ post) off = Ret (le_val (ztake n (zdrop k mid))).
Proof.
  intros Hn Hk Hl ->. pose proof (zlen_nonneg pre). pose proof (zlen_nonneg post).
  rewrite rd_in by (rewrite ?zlen_app; lia). do 2 f_equal. unfold ztake, zdrop, zlen in *.
  rewrite drop_app_ge by lia. replace (Z.to_nat _ - length pre)%nat with (Z.to_nat k) by lia.
  rewrite drop_app_le by lia. apply take_app_le. rewrite length_drop. lia.
Qed.

Lemma align4 x : x <= align_up x 4 < x + 4 /\ align_up x 4 mod 4 = 0.
Proof. apply (align_up_spec x 2). lia. Qed.

Lemma align4_id x : x mod 4 = 0 -> align_up x 4 = x.
Proof.
  intros Hx. destruct (align4 x) as [Hr Hm]. apply Z.mod_divide in Hx as [q ->]; [|done].
  apply Z.mod_divide in Hm as [r Hr']; [|done]. rewrite Hr' in *. lia.
Qed.

Lemma rd_byte x pre post buf off : buf = pre ++ [x] ++ post -> zlen pre = off -> rd 1 buf off = Ret x.
Proof.
  intros -> Hp. rewrite (rd_mid 1 pre [x] post off 0) by (try done; lia). f_equal. apply Z.lor_0_r.
Qed.

(** A stored field reads back, modulo its width. *)
Lemma rd_le n x pre post buf off :
  buf = pre ++ le_bytes (Z.to_nat n) x ++ post -> 0 <= n -> zlen pre = off -> rd n buf off = Ret (x mod 2 ^ (8 * n)).
Proof.
  intros -> Hn Hp. rewrite (rd_mid n _ _ _ _ 0); [|lia|lia|rewrite zlen_le_bytes; lia|lia].
  change (zdrop 0 ?l) with l. unfold ztake. rewrite take_ge by (rewrite length_le_bytes; lia).
  rewrite le_val_bytes. by rewrite Z2Nat.id by lia.
Qed.

(** ** Strings *)

Fixpoint upto_nul (l : list Z) : outcome (list Z) :=
  match l with
  | [] => Crash
  | b :: r => if b =? 0 then Ret [] else let! s := upto_nul r in Ret (b :: s)
  end.

(** The C string at an offset. *)
Definition cstr (buf : list Z) (off : Z) : outcome (list Z) :=
  if (0 <=? off) && (off <=? zlen buf) then upto_nul (zdrop off buf) else Crash.

Lemma upto_nul_ex l k : 0 <= k < zlen l -> znth l k = 0 -> exists s, upto_nul l = Ret s /\ zlen s <= k.
Proof.
  revert k. induction l as [|b l IH]; intros k Hk Hz; [change (zlen []) with 0 in Hk; lia|]. cbn.
  destruct (Z.eqb_spec b 0) as [|Hne]; [exists []; split; [done|change (0 <= k); lia]|].
  rewrite zlen_cons in Hk. destruct (Z.eqb_spec k 0) as [->|Hk0]; [done|].
  destruct (IH (k - 1)) as (s & -> & Hs).
  - lia.
  - unfold znth in *. by replace (Z.to_nat k) with (S (Z.to_nat (k - 1))) in Hz by lia.
  - exists (b :: s). split; [done|]. rewrite zlen_cons. lia.
Qed.

Lemma cstr_ex buf off k : 0 <= off -> 0 <= k -> off + k < zlen buf -> znth buf (off + k) = 0 ->
  exists s, cstr buf off = Ret s /\ zlen s <= k.
Proof.
  intros Ho Hk Hl Hz. unfold cstr. replace (_ && _) with true by lia.
  apply upto_nul_ex; [rewrite zlen_zdrop; lia|]. by rewrite znth_zdrop by lia.
Qed.

Lemma upto_nul_cases l : upto_nul l = Crash \/ exists s, upto_nul l = Ret s.
Proof.
  induction l as [|b l IH]; [by left|]. cbn. destruct (b =? 0); [right; eauto|].
  destruct IH as [-> |[s ->]]; [by left|right; cbn; eauto].
Qed.

Lemma cstr_cases buf off : cstr buf off = Crash \/ exists s, cstr buf off = Ret s.
Proof. unfold cstr. destruct (_ && _); [apply upto_nul_cases|by left]. Qed.

Lemma cstr_at s pre post buf off :
  buf = pre ++ s ++ 0 :: post -> zlen pre = off -> Forall (fun b => 0 < b < 256) s -> cstr buf off = Ret s.
Proof.
  intros -> Hp Hs. unfold cstr. pose proof (zlen_nonneg pre). pose proof (zlen_nonneg (s ++ 0 :: post)).
  rewrite zlen_app. replace (_ && _) with true by lia.
  assert (zdrop off (pre ++ s ++ 0 :: post) = s ++ 0 :: post) as ->
    by (unfold zdrop, zlen in *; apply drop_app_length'; lia).
  clear -Hs. induction Hs as [|b s Hb Hs IH]; [done|]. cbn. replace (b =? 0) with false by lia. by rewrite IH.
Qed.

(** ** [atoi] *)

Fixpoint digits (acc : Z) (l : list Z) : Z :=
  match l with
  | c :: l' => if (48 <=? c) && (c <=? 57) then digits (10 * acc + (c - 48)) l' else acc
  | [] => acc
  end.
Definition is_space (c : Z) : bool := (c =? 32) || ((9 <=? c) && (c <=? 13)).

(** [strtol(s, NULL, 10)] on 64-bit Linux saturates; [atoi] is its low 32 bits. *)
Definition clamp64 (v : Z) : Z := Z.max (- 2 ^ 63) (Z.min v (2 ^ 63 - 1)).
Fixpoint strtol (l : list Z) : Z :=
  match l with
  | [] => 0
  | c :: l' =>
      if is_space c then strtol l'
      else if c =? 45 then clamp64 (- digits 0 l')
      else if c =? 43 then clamp64 (digits 0 l')
      else clamp64 (digits 0 l)
  end.
Definition atoi (l : list Z) : Z := i32 (strtol l).

(** [strtoul(s, NULL, 10)] on 64-bit Linux: saturating, a minus sign negates. *)
Definition ULONG_MAX : Z := 2 ^ 64 - 1.
Fixpoint strtoul (l : list Z) : Z :=
  match l with
  | [] => 0
  | c :: l' =>
      let sat v := Z.min v ULONG_MAX in
      if is_space c then strtoul l'
      else if c =? 45 then (if ULONG_MAX <? digits 0 l' then ULONG_MAX else u64 (- digits 0 l'))
      else if c =? 43 then sat (digits 0 l')
      else sat (digits 0 l)
  end.

(** ** Printed numbers are read back *)

Definition digit (c : Z) : Prop := 48 <= c <= 57.

Lemma digits_app acc ds rest : Forall digit ds -> digits acc (ds ++ rest) = digits (digits acc ds) rest.
Proof.
  intros Hd. revert acc. induction Hd as [|c ds Hc _ IH]; intros acc; [done|]. unfold digit in Hc. cbn.
  replace (_ && _) with true by lia. apply IH.
Qed.

(** Digits stop at anything else. *)
Lemma digits_stop acc c rest : ~ digit c -> digits acc (c :: rest) = acc.
Proof. unfold digit. intros Hc. cbn. by replace (_ && _) with false by lia. Qed.

Lemma pretty_char_byte r : (r < 10)%N -> byte_of_ascii (pretty_N_char r) = 48 + Z.of_N r.
Proof.
  intros Hr. assert (r = 0 \/ r = 1 \/ r = 2 \/ r = 3 \/ r = 4 \/ r = 5 \/ r = 6 \/ r = 7 \/ r = 8 \/ r = 9)%N as Hc by lia.
  by repeat (destruct Hc as [->|Hc]; [done|]); subst r.
Qed.

Lemma pretty_go_digits x s : (0 < x)%N ->
  exists ds, bytes_of_string (pretty_N_go x s) = ds ++ bytes_of_string s /\ Forall digit ds /\
    digits 0 ds = Z.of_N x.
Proof.
  revert s. induction (N.lt_wf_0 x) as [x _ IH]; intros s Hx. rewrite pretty_N_go_step by done.
  pose proof (N.div_mod x 10 ltac:(done)) as Hdm. pose proof (N.mod_lt x 10 ltac:(done)) as Hr.
  set (r := (x mod 10)%N) in *. set (q := (x / 10)%N) in *.
  assert (bytes_of_string (String (pretty_N_char r) s) = [48 + Z.of_N r] ++ bytes_of_string s) as Hb
    by (cbn; by rewrite pretty_char_byte).
  assert (Forall digit [48 + Z.of_N r]) as Hdr by (repeat constructor; lia).
  assert (forall acc, digits acc [48 + Z.of_N r] = 10 * acc + Z.of_N r) as Hdig.
  { intros acc. cbn. replace (_ && _) with true by lia. lia. }
  destruct (decide (q = 0)%N) as [E|E].
  - rewrite E, pretty_N_go_0. exists [48 + Z.of_N r]. split_and!; [done|done|]. rewrite Hdig. lia.
  - destruct (IH q) with (s := String (pretty_N_char r) s) as (ds & E1 & E2 & E3).
    { by apply N.div_lt. }
    { lia. }
    exists (ds ++ [48 + Z.of_N r]). split_and!.
    + by rewrite E1, Hb, app_assoc.
    + by apply Forall_app.
    + rewrite digits_app, E3, Hdig by done. lia.
Qed.

(** The decimal digits of a number that is not negative. *)
Lemma pretty_digits n : 0 <= n ->
  exists d ds, bytes_of_string (pretty n) = d :: ds /\ Forall digit (d :: ds) /\ digits 0 (d :: ds) = n.
Proof.
  intros Hn. destruct n as [|p|p]; [by exists 48, []; split_and!; repeat constructor|..|lia].
  destruct (pretty_go_digits (Npos p) "") as (ds & E1 & E2 & E3); [done|]. cbn in E1. rewrite app_nil_r in E1.
  destruct ds as [|d ds]; [by cbn in E3|]. exists d, ds. split_and!; [|done|done]. exact E1.
Qed.
