(* ===== verification/Numbers.v ===== *)
(** * Numbers written in a base and read back

    What printf and the scripts print of a number, and what a reader makes of it. *)

From S2P Require Import Prelude CArray.

Open Scope Z_scope.

(** ** Numbers in a base *)

Definition digit_char (d : Z) : Z := if d <? 10 then 48 + d else 87 + d.

Definition char_digit (b c : Z) : option Z :=
  let d := if (48 <=? c) && (c <=? 57) then c - 48
           else if (97 <=? c) && (c <=? 102) then c - 87
           else if (65 <=? c) && (c <=? 70) then c - 55
           else 16 in
  if d <? b then Some d else None.

Fixpoint print_base (fuel : nat) (b v : Z) : list Z :=
  match fuel with
  | O => []
  | S fuel => (if v <? b then [] else print_base fuel b (v / b)) ++ [digit_char (v mod b)]
  end.

(** The number of binary digits is enough fuel in any base. *)
Definition print_number (b v : Z) : list Z := print_base (S (Z.to_nat (Z.log2 v))) b v.

(** A number up to the first character that is no digit. *)
Fixpoint read_base (b acc : Z) (l : list Z) : Z * list Z :=
  match l with
  | [] => (acc, [])
  | c :: r => match char_digit b c with Some d => read_base b (acc * b + d) r | None => (acc, l) end
  end.

Lemma char_digit_char b d : 0 <= d < b -> b <= 16 -> char_digit b (digit_char d) = Some d.
Proof.
  intros Hd Hb. unfold char_digit, digit_char. destruct (Z.ltb_spec d 10).
  - replace ((48 <=? 48 + d) && (48 + d <=? 57)) with true by lia. replace (48 + d - 48) with d by lia.
    by rewrite (proj2 (Z.ltb_lt _ _)) by lia.
  - replace ((48 <=? 87 + d) && (87 + d <=? 57)) with false by lia.
    replace ((97 <=? 87 + d) && (87 + d <=? 102)) with true by lia. replace (87 + d - 87) with d by lia.
    by rewrite (proj2 (Z.ltb_lt _ _)) by lia.
Qed.

Lemma read_print_base b fuel : 2 <= b <= 16 -> forall v acc rest, 0 <= v < 2 ^ Z.of_nat fuel -> (0 < fuel)%nat ->
  exists k, 0 <= k /\ read_base b acc (print_base fuel b v ++ rest) = read_base b (acc * b ^ k + v) rest.
Proof.
  intros Hb. induction fuel as [|fuel IH]; intros v acc rest Hv Hf; [lia|]. cbn [print_base].
  destruct (Z.ltb_spec v b) as [Hlt|Hge].
  - exists 1. split; [lia|]. cbn [app read_base]. rewrite Z.mod_small, char_digit_char by lia. by rewrite Z.pow_1_r.
  - rewrite Nat2Z.inj_succ, Z.pow_succ_r in Hv by lia.
    assert (0 <= v / b < 2 ^ Z.of_nat fuel) as Hq by (split; [apply Z.div_pos|apply Z.div_lt_upper_bound]; nia).
    assert (0 < fuel)%nat as Hf' by (destruct fuel; [cbn in Hv; lia|lia]).
    destruct (IH (v / b) acc ([digit_char (v mod b)] ++ rest) Hq Hf') as (k & Hk & E). exists (k + 1). split; [lia|].
    rewrite <- app_assoc, E. cbn [app read_base]. rewrite char_digit_char by (pose proof (Z.mod_pos_bound v b); lia).
    f_equal. rewrite Z.pow_add_r, Z.pow_1_r by lia. pose proof (Z.div_mod v b). lia.
Qed.

(** What is printed is read back, and the rest is left. *)
Lemma read_print b v c rest : 2 <= b <= 16 -> 0 <= v -> char_digit b c = None ->
  read_base b 0 (print_number b v ++ c :: rest) = (v, c :: rest).
Proof.
  intros Hb Hv Hc. unfold print_number. destruct (read_print_base b (S (Z.to_nat (Z.log2 v))) Hb v 0 (c :: rest)) as (k & _ & E).
  - split; [lia|]. rewrite Nat2Z.inj_succ, Z2Nat.id by apply Z.log2_nonneg.
    destruct (decide (v = 0)) as [-> |]; [done|]. apply Z.log2_spec. lia.
  - lia.
  - rewrite E. cbn [read_base]. rewrite Hc. f_equal.
Qed.

(** ** How long they get *)

Lemma print_base_length fuel b v : (length (print_base fuel b v) <= fuel)%nat.
Proof.
  revert v. induction fuel as [|fuel IH]; intros v; cbn [print_base]; [done|]. rewrite length_app. cbn.
  specialize (IH (v / b)). destruct (v <? b); cbn; lia.
Qed.

Lemma zlen_print_number b v n : 0 < n -> 0 <= v < 2 ^ n -> zlen (print_number b v) <= n.
Proof.
  intros Hn Hv. unfold zlen, print_number. pose proof (print_base_length (S (Z.to_nat (Z.log2 v))) b v).
  assert (Z.log2 v < n) by (destruct (decide (v = 0)) as [-> |]; [done|apply Z.log2_lt_pow2; lia]).
  pose proof (Z.log2_nonneg v). lia.
Qed.

Lemma pretty_go_length n : forall x s, (x < 2 ^ N.of_nat n)%N -> (String.length (pretty_N_go x s) <= n + String.length s)%nat.
Proof.
  induction n as [|n IH]; intros x s Hx.
  - replace x with 0%N by (cbn in Hx; lia). by rewrite pretty_N_go_0.
  - destruct (decide (x = 0%N)) as [-> |]; [rewrite pretty_N_go_0; lia|]. rewrite pretty_N_go_step by lia.
    etransitivity; [apply IH|cbn; lia]. rewrite Nat2N.inj_succ, N.pow_succ_r' in Hx. apply N.Div0.div_lt_upper_bound. lia.
Qed.

Lemma zlen_pretty (v : Z) (n : nat) : Z.abs v < 2 ^ Z.of_nat n -> zlen (bytes_of_string (pretty v)) <= Z.of_nat n + 1.
Proof.
  intros Hv. unfold zlen. rewrite length_bytes_of_string.
  assert (forall p, Z.pos p < 2 ^ Z.of_nat n -> (String.length (pretty (Npos p)) <= n)%nat) as Hp.
  { intros p Hp. etransitivity; [apply (pretty_go_length n)|cbn; lia]. lia. }
  destruct v as [|p|p]; [cbn; lia| |]; specialize (Hp p Hv).
  - change (pretty (Z.pos p)) with (pretty (Npos p)). lia.
  - change (String.length (pretty (Z.neg p))) with (S (String.length (pretty (Npos p)))). lia.
Qed.
