(* ===== verification/Output.v ===== *)
(** * What a program writes

    [Shows call text] says which calls write which text.  [output] is the text a
    history wrote, oldest first; [prints m K s r ts]: [m] returns [r], leaves the
    state alone and writes exactly [ts]. *)

From S2P Require Import Prelude Posix.

(** The calls of a history that a filter keeps, oldest first. *)
Section Trace.
Context {call B : Type} (f : call -> option B).

Definition trace (h : list (event call)) : list B := reverse (omap (fun e => f e.1) h).

Lemma trace_cons c a h : trace ((c, a) :: h) = trace h ++ match f c with Some t => [t] | None => [] end.
Proof.
  unfold trace. cbn [omap list_omap fst]. destruct (f c); [by rewrite reverse_cons|by rewrite app_nil_r].
Qed.

Lemma trace_app h1 h2 : trace (h1 ++ h2) = trace h2 ++ trace h1.
Proof. unfold trace. by rewrite omap_app, reverse_app. Qed.

Lemma trace_quiet t h : Forall (fun e => f e.1 = None) t -> trace (t ++ h) = trace h.
Proof.
  intros Ht. induction Ht as [|[c a] t Hc _ IH]; [done|]. cbn [app fst] in *. by rewrite trace_cons, Hc, app_nil_r.
Qed.
End Trace.

Class Shows (call text : Type) := shown : call -> option text.

Section Output.
Context {call text : Type} `{!Shows call text}.

Definition output (h : list (event call)) : list text := trace shown h.

Lemma output_cons c a h :
  output ((c, a) :: h) = output h ++ match shown c with Some t => [t] | None => [] end.
Proof. apply trace_cons. Qed.

Lemma output_silent c a h : shown c = None -> output ((c, a) :: h) = output h.
Proof. intros E. by rewrite output_cons, E, app_nil_r. Qed.

Context {S : Type}.

Definition prints {A} (m : io call S A) (K : kernel call) (s : S) (r : A) (ts : list text) : Prop :=
  forall h, wp m K s h (fun o s' h' => o = Ret r /\ s' = s /\ output h' = output h ++ ts).

Lemma prints_bind {A B} (m : io call S A) (k : A -> io call S B) K s a b ts us :
  prints m K s a ts -> prints (k a) K s b us -> prints (io_bind m k) K s b (ts ++ us).
Proof.
  intros Hm Hk h. apply wp_bind. eapply wp_wand; [apply Hm|]. intros o s' h' (-> & -> & Ho). wp_step.
  eapply wp_wand; [apply Hk|]. intros o s' h2 (-> & -> & Ho2). by rewrite Ho2, Ho, app_assoc.
Qed.

Lemma prints_ret {A} (a : A) K s : prints (io_ret a) K s a [].
Proof. intros h. wp_step. by rewrite app_nil_r. Qed.

Lemma prints_lift {A} (o : outcome A) a K s : o = Ret a -> prints (lift o) K s a [].
Proof. intros -> h. apply wp_lift. by rewrite app_nil_r. Qed.

Lemma prints_text c t K s : shown c = Some t -> prints (io_bind (sys c) (fun _ => io_ret tt)) K s tt [t].
Proof. intros E h. wp_go. by rewrite output_cons, E. Qed.

Lemma prints_silent {A} c (k : ans -> io call S A) K s a ts :
  shown c = None -> (forall r, prints (k r) K s a ts) -> prints (io_bind (sys c) k) K s a ts.
Proof.
  intros Hc Hk h. wp_step. apply wp_sys_any. intros r. wp_step. eapply wp_wand; [apply Hk|].
  intros o s' h' (-> & -> & Ho). by rewrite Ho, output_cons, Hc, app_nil_r.
Qed.

Lemma prints_if {A} (b : bool) (m : io call S A) a K s ts :
  prints m K s a ts -> prints (if b then m else io_ret a) K s a (if b then ts else []).
Proof. intros Hm. destruct b; [done|apply prints_ret]. Qed.

Lemma prints_get {A} (k : S -> io call S A) K s a ts :
  prints (k s) K s a ts -> prints (io_bind get k) K s a ts.
Proof. intros Hk h. wp_step. wp_step. wp_step. apply Hk. Qed.

(** A step that reads a value. *)
Lemma prints_read {A B} (o : outcome A) a (k : A -> io call S B) K s b ts :
  o = Ret a -> prints (k a) K s b ts -> prints (io_bind (lift o) k) K s b ts.
Proof. intros -> Hk h. apply wp_bind, wp_lift. apply Hk. Qed.

(** A step that writes one text. *)
Lemma prints_line {A} (m : io call S unit) (k : unit -> io call S A) K s b t ts :
  prints m K s tt [t] -> prints (k tt) K s b ts -> prints (io_bind m k) K s b (t :: ts).
Proof. intros Hm Hk. by apply (prints_bind m k K s tt b [t]). Qed.
End Output.
