(* ===== verification/Resources.v ===== *)
(** * Resources held by a run

    Descriptors, mappings, heap blocks, registrations: a call may acquire one
    and another call releases it.  [held] replays a history and gives the
    resources still held, newest first; it is [None] once something is released
    that is not held (a double [free], a [close] of a closed descriptor).  An
    interface says for each call of a program what it acquires and releases, so
    that leak freedom is stated once for every program. *)

From S2P Require Import Prelude Posix.

Class Resources (call res : Type) := {
  acquires : call -> ans -> option res;
  releases : call -> ans -> option res
}.
#[global] Hint Mode Resources ! - : typeclass_instances.

Section Held.
Context {call res : Type} `{EqDecision res} `{Resources call res}.

Fixpoint drop_res (r : res) (l : list res) : option (list res) :=
  match l with
  | [] => None
  | r' :: l' => if decide (r = r') then Some l' else
      match drop_res r l' with Some k => Some (r' :: k) | None => None end
  end.

Definition held_step (c : call) (a : ans) (l : list res) : option (list res) :=
  match releases c a with
  | Some r => drop_res r l
  | None => match acquires c a with Some r => Some (r :: l) | None => Some l end
  end.

Fixpoint held_from (l0 : list res) (h : list (event call)) : option (list res) :=
  match h with
  | [] => Some l0
  | (c, a) :: h' => match held_from l0 h' with Some l => held_step c a l | None => None end
  end.

Definition held : list (event call) -> option (list res) := held_from [].

Lemma held_cons c a h : held ((c, a) :: h) = match held h with Some l => held_step c a l | None => None end.
Proof. reflexivity. Qed.

Lemma drop_res_here r l : drop_res r (r :: l) = Some l.
Proof. simpl. by rewrite decide_True. Qed.

Lemma drop_res_next r r' l :
  r <> r' ->
  drop_res r (r' :: l) = match drop_res r l with Some k => Some (r' :: k) | None => None end.
Proof. intros. simpl. by rewrite decide_False. Qed.

(** One below the top, whether or not the top is the same. *)
Lemma drop_res_second r r' l : drop_res r (r' :: r :: l) = Some (r' :: l).
Proof.
  destruct (decide (r = r')) as [->|Hne]; [apply drop_res_here|].
  by rewrite drop_res_next, drop_res_here.
Qed.

Lemma held_acquire c a h l r :
  held h = Some l -> releases c a = None -> acquires c a = Some r ->
  held ((c, a) :: h) = Some (r :: l).
Proof. unfold held. simpl. intros -> E1 E2. unfold held_step. by rewrite E1, E2. Qed.

Lemma held_neutral c a h l :
  held h = Some l -> releases c a = None -> acquires c a = None -> held ((c, a) :: h) = Some l.
Proof. unfold held. simpl. intros -> E1 E2. unfold held_step. by rewrite E1, E2. Qed.

Lemma held_release c a h l r k :
  held h = Some l -> releases c a = Some r -> drop_res r l = Some k ->
  held ((c, a) :: h) = Some k.
Proof. unfold held. simpl. intros -> E1 E2. unfold held_step. by rewrite E1. Qed.

End Held.

#[global] Arguments drop_res : simpl never.
#[global] Arguments held : simpl never.

(** Solve [held h = Some l] from a known [held] of a suffix of [h]: every event
    is neutral, acquires or releases by computation, given the tests on its
    answer that are in the context. *)
Ltac held_facts :=
  repeat match goal with
         | E : ?b = true |- _ => progress rewrite E
         | E : ?b = false |- _ => progress rewrite E
         end.

Ltac drop_simpl :=
  first [ apply drop_res_here
        | rewrite drop_res_next by (first [congruence | intros ?; simplify_eq; lia]);
          rewrite ?drop_res_here; reflexivity
        | rewrite !drop_res_next by (first [congruence | intros ?; simplify_eq; lia]);
          rewrite ?drop_res_here; reflexivity ].

Ltac held_step_tac :=
  first [ eassumption
        | eapply held_release; [ | simpl; held_facts; reflexivity | ]; [held_solve | drop_simpl]
        | eapply held_acquire; [ | simpl; held_facts; reflexivity
                               | simpl; held_facts; reflexivity ]; held_solve
        | eapply held_neutral; [ | simpl; held_facts; reflexivity
                               | simpl; held_facts; reflexivity ]; held_solve ]
with held_solve := held_step_tac.
