(* ===== verification/CTokens.v ===== *)
(** * Reading C text back

    Programs of the tree that print C text are judged by what a reader of C makes of it.
    [lex] splits text into words, punctuation and string literals, without comments and
    directives; [items] splits the tokens into declarations with their bodies.  On these
    are defined the functions of a file with their types ([functions]), the entries of its
    tables ([table]), and the structures and their use.

    Text that has a name filled in is the instance of a text with holes, and everything
    above commutes with filling the holes ([lex_subst], [items_subst], ...): so what holds
    of the text with holes, which is checked by evaluation, holds for every name. *)

From S2P Require Import Prelude.

Module CText.

Open Scope Z_scope.

Abbreviation text := (list Z).

(** ** Tokens *)

Inductive token : Type :=
| Ident (x : text)
| Struct                       (* the keyword *)
| Num
| Str                          (* a string literal *)
| Arrow
| Punct (c : Z).

#[export] Instance token_eq : EqDecision token.
Proof. solve_decision. Defined.

(** Numbers from 256 on are holes: the name, the name in capitals, and the rest of the name behind its prefix. *)
Definition NAME : Z := 256.
Definition UPPER : Z := 257.
Definition TAIL : Z := 258.

Definition letter (c : Z) : bool :=
  (65 <=? c) && (c <=? 90) || (97 <=? c) && (c <=? 122) || (c =? 95) || (c =? NAME) || (c =? UPPER).
Definition digit (c : Z) : bool := (48 <=? c) && (c <=? 57).
Definition word_char (c : Z) : bool := letter c || digit c.
Definition space (c : Z) : bool := (c =? 32) || (9 <=? c) && (c <=? 13).

(** Where the reader is: between tokens, in a word or number, behind a slash, in a comment or directive of one line,
    in a comment, behind a star in it, in a string, behind a backslash in it, behind a minus sign. *)
Inductive mode : Type :=
| Between | Word (cur : text) | Digits | Slash | Line | Comment | Star | InStr | Escape | Minus | Bad.

Definition word (cur : text) : token :=
  if bool_decide (cur = bytes_of_string "struct") then Struct else Ident cur.

Definition start (c : Z) : mode * list token :=
  if letter c then (Word [c], [])
  else if digit c then (Digits, [])
  else if space c then (Between, [])
  else if c =? 47 then (Slash, [])
  else if c =? 35 then (Line, [])
  else if c =? 34 then (InStr, [])
  else if c =? 45 then (Minus, [])
  else if (33 <=? c) && (c <=? 126) then (Between, [Punct c])
  else (Bad, []).

Definition after (t : token) (r : mode * list token) : mode * list token := (r.1, t :: r.2).

Definition step (m : mode) (c : Z) : mode * list token :=
  match m with
  | Between => start c
  | Word cur => if word_char c then (Word (cur ++ [c]), []) else after (word cur) (start c)
  | Digits => if digit c then (Digits, []) else if letter c then (Bad, []) else after Num (start c)
  | Slash => if c =? 47 then (Line, []) else if c =? 42 then (Comment, []) else after (Punct 47) (start c)
  | Line => (if c =? 10 then Between else Line, [])
  | Comment => (if c =? 42 then Star else Comment, [])
  | Star => (if c =? 47 then Between else if c =? 42 then Star else if c =? TAIL then Bad else Comment, [])
  | InStr => if c =? 34 then (Between, [Str]) else (if c =? 92 then Escape else InStr, [])
  | Escape => (if 256 <=? c then Bad else InStr, [])
  | Minus => if c =? 62 then (Between, [Arrow]) else after (Punct 45) (start c)
  | Bad => (Bad, [])
  end.

Fixpoint lex (m : mode) (t : text) : mode * list token :=
  match t with
  | [] => (m, [])
  | c :: r => let (m1, ts) := step m c in let (m2, us) := lex m1 r in (m2, ts ++ us)
  end.

(** The tokens of a text that ends between tokens. *)
Definition tokens (t : text) : option (list token) :=
  match lex Between t with (Between, ts) => Some ts | _ => None end.

(** ** Declarations *)

(** A declaration at the outer level: what is before the semicolon, or before the body in braces. *)
Record item : Type := Item { head : list token; body : option (list token) }.

(** [cur]: the head so far; [inner]: the braces open, and the body so far. *)
Fixpoint items_from (cur : list token) (inner : option (nat * list token)) (ts : list token) : option (list item) :=
  match ts with
  | [] => match cur, inner with [], None => Some [] | _, _ => None end
  | t :: r =>
      match inner with
      | None =>
          if bool_decide (t = Punct 59) then
            match cur with [] => items_from [] None r | _ => cons (Item cur None) <$> items_from [] None r end
          else if bool_decide (t = Punct 123) then items_from cur (Some (O, [])) r
          else if bool_decide (t = Punct 125) then None
          else items_from (cur ++ [t]) None r
      | Some (n, b) =>
          if bool_decide (t = Punct 123) then items_from cur (Some (S n, b ++ [t])) r
          else if bool_decide (t = Punct 125) then
            match n with
            | O => cons (Item cur (Some b)) <$> items_from [] None r
            | S n => items_from cur (Some (n, b ++ [t])) r
            end
          else items_from cur (Some (n, b ++ [t])) r
      end
  end.

Definition items (ts : list token) : option (list item) := items_from [] None ts.

(** The declarations of a text: it ends between tokens and every brace is closed. *)
Definition parse (t : text) : option (list item) := tokens t ≫= items.

(** ** Functions *)

Fixpoint split_first (c : Z) (ts : list token) : option (list token * list token) :=
  match ts with
  | [] => None
  | t :: r => if bool_decide (t = Punct c) then Some ([], r) else prod_map (cons t) id <$> split_first c r
  end.

Fixpoint split_on (c : Z) (cur ts : list token) : list (list token) :=
  match ts with
  | [] => [cur]
  | t :: r => if bool_decide (t = Punct c) then cur :: split_on c [] r else split_on c (cur ++ [t]) r
  end.

Definition is_ident (t : token) : bool := match t with Ident _ => true | _ => false end.

(** A parameter without its name: a type of one word has none. *)
Definition unnamed (p : list token) : list token :=
  match p with
  | [] | [_] => p
  | _ => match last p with Some t => if is_ident t then take (length p - 1) p else p | None => p end
  end.

(** The type before the name, the name, and the types of the parameters. *)
Record signature : Type := Sig { result : list token; fname : text; params : list (list token) }.

(** A function has a type before its name; so an invocation of a macro is not one.  In a definition the parameters have names. *)
Definition function (i : item) : option signature :=
  match split_first 40 (head i) with
  | Some (pre, rest) =>
      match last pre with
      | Some (Ident f) =>
          if (2 <=? length pre)%nat && bool_decide (last rest = Some (Punct 41)) then
            let ps := split_on 44 [] (take (length rest - 1) rest) in
            Some (Sig (take (length pre - 1) pre) f (match body i with Some _ => map unnamed ps | None => ps end))
          else None
      | _ => None
      end
  | None => None
  end.

Definition functions (ds : list item) : list signature := omap function ds.
Definition defined (ds : list item) : list signature := functions (filter (fun i => is_Some (body i)) ds).
Definition declared (ds : list item) : list signature := functions (filter (fun i => body i = None) ds).

(** ** Tables and structures *)

Fixpoint entries (ts : list token) : list (text * text) :=
  match ts with
  | Punct c :: ((Ident s :: Punct d :: Ident f :: _) as r) => if (c =? 46) && (d =? 61) then (s, f) :: entries r else entries r
  | _ :: r => entries r
  | [] => []
  end.

(** The entries of the tables of a file: what stands behind the field in an initialisation in braces. *)
Definition table_of (i : item) : list (text * text) :=
  match body i with
  | Some b => if bool_decide (last (head i) = Some (Punct 61)) then entries b else []
  | None => []
  end.

Definition table (ds : list item) : list (text * text) := concat (table_of <$> ds).

Fixpoint members (ts : list token) : list text :=
  match ts with
  | Ident x :: ((Punct c :: _) as r) => if (c =? 59) || (c =? 91) then x :: members r else members r
  | _ :: r => members r
  | [] => []
  end.

(** A structure and its members. *)
Definition struct_of (i : item) : option (text * list text) :=
  match head i, body i with [Struct; Ident s], Some b => Some (s, members b) | _, _ => None end.

Definition structs (ds : list item) : list (text * list text) := omap struct_of ds.

(** The pointers a piece of code declares, as variable and structure. *)
Fixpoint pointers (ts : list token) : list (text * text) :=
  match ts with
  | Struct :: ((Ident s :: Punct c :: Ident v :: _) as r) => if c =? 42 then (v, s) :: pointers r else pointers r
  | _ :: r => pointers r
  | [] => []
  end.

(** The members reached through a variable. *)
Fixpoint accesses (ts : list token) : list (text * text) :=
  match ts with
  | Ident v :: ((Arrow :: Ident m :: _) as r) => (v, m) :: accesses r
  | _ :: r => accesses r
  | [] => []
  end.

(** The structures and members that container_of is given. *)
Fixpoint containers (ts : list token) : list (text * text) :=
  match ts with
  | Struct :: ((Ident s :: Punct c :: Ident m :: _) as r) => if c =? 44 then (s, m) :: containers r else containers r
  | _ :: r => containers r
  | [] => []
  end.

Fixpoint mentioned (ts : list token) : list text :=
  match ts with
  | Struct :: ((Ident s :: _) as r) => s :: mentioned r
  | _ :: r => mentioned r
  | [] => []
  end.

(** Head and body. *)
Definition code (i : item) : list token := head i ++ default [] (body i).

(** The structures and members a declaration uses: by a pointer of its own, or by container_of. *)
Definition uses (i : item) : list (text * text) :=
  containers (code i) ++
  concat ((fun a => (fun p => (p.2, a.2)) <$> filter (fun p => p.1 = a.1) (pointers (code i))) <$> accesses (code i)).

(** ** One text behind another *)

Lemma lex_app m a b :
  lex m (a ++ b) = ((lex (lex m a).1 b).1, (lex m a).2 ++ (lex (lex m a).1 b).2).
Proof.
  revert m. induction a as [|c a IH]; intros m; cbn [app lex fst snd]; [by destruct (lex m b)|].
  destruct (step m c) as [m1 ts]. rewrite IH. destruct (lex m1 a) as [m2 us]. cbn [fst snd].
  destruct (lex m2 b). cbn [fst snd]. by rewrite app_assoc.
Qed.

Lemma items_app us : forall ts cur inner x,
  items_from cur inner ts = Some x -> items_from cur inner (ts ++ us) = app x <$> items us.
Proof.
  intros ts. induction ts as [|t ts IH]; intros cur inner x E; cbn [app items_from] in E |- *.
  - destruct cur, inner; try done. injection E as <-. unfold items. by destruct (items_from [] None us).
  - destruct inner as [[n b]|]; repeat case_bool_decide; try done; try by apply IH.
    + destruct n as [|n]; [|by apply IH]. destruct (items_from [] None ts) as [y|] eqn:Ey; [|done]. injection E as <-.
      rewrite (IH _ _ _ Ey). by destruct (items us).
    + destruct cur as [|t' cur]; [by apply IH|]. destruct (items_from [] None ts) as [y|] eqn:Ey; [|done]. injection E as <-.
      rewrite (IH _ _ _ Ey). by destruct (items us).
Qed.

Lemma parse_app a b x y : parse a = Some x -> parse b = Some y -> parse (a ++ b) = Some (x ++ y).
Proof.
  unfold parse, tokens. intros Ea Eb. rewrite lex_app. destruct (lex Between a) as [[] ts]; try done. cbn [fst snd].
  destruct (lex Between b) as [[] us]; try done. cbn [fst snd mbind option_bind] in *.
  unfold items in *. rewrite (items_app us _ _ _ _ Ea). unfold items. by rewrite Eb.
Qed.

Lemma parse_nil : parse [] = Some [].
Proof. done. Qed.

(** ** Filling the holes *)

Record names : Type := Names { name : text; upper_name : text; tail_name : text }.

Definition hole (v : names) (c : Z) : text :=
  if c =? NAME then name v else if c =? UPPER then upper_name v else if c =? TAIL then tail_name v else [c].

Definition subst (v : names) (t : text) : text := concat (hole v <$> t).

Definition tsubst (v : names) (t : token) : token := match t with Ident x => Ident (subst v x) | _ => t end.
Definition msubst (v : names) (m : mode) : mode := match m with Word cur => Word (subst v cur) | _ => m end.
Definition tsubsts (v : names) (ts : list token) : list token := map (tsubst v) ts.
Definition isubst (v : names) (i : item) : item := Item (tsubsts v (head i)) (option_map (tsubsts v) (body i)).
Definition ssubst (v : names) (s : signature) : signature :=
  Sig (tsubsts v (result s)) (subst v (fname s)) (map (tsubsts v) (params s)).
Definition psubst (v : names) (p : text * text) : text * text := (subst v p.1, subst v p.2).

(** A word with an underscore: no keyword. *)
Definition word_ok (w : text) : Prop :=
  95 ∈ w /\ Forall (fun c => word_char c = true /\ c < 256) w /\ exists a r, w = a :: r /\ letter a = true.

Record names_ok (v : names) : Prop := {
  name_word : word_ok (name v);
  upper_word : word_ok (upper_name v);
  tail_word : Forall (fun c => word_char c = true /\ c < 256) (tail_name v)
}.

Section Subst.
Context (v : names) (Hv : names_ok v).

Lemma subst_app a b : subst v (a ++ b) = subst v a ++ subst v b.
Proof. unfold subst. by rewrite fmap_app, concat_app. Qed.

Lemma subst_single c : subst v [c] = hole v c.
Proof. unfold subst. cbn. apply app_nil_r. Qed.

Lemma hole_other c : c <> NAME -> c <> UPPER -> c <> TAIL -> hole v c = [c].
Proof. intros. unfold hole. by rewrite !(proj2 (Z.eqb_neq _ _)). Qed.

Lemma subst_filled t : (forall c, c ∈ t -> c <> NAME /\ c <> UPPER /\ c <> TAIL) -> subst v t = t.
Proof.
  unfold subst. induction t as [|c t IH]; intros Ht; [done|]. cbn. destruct (Ht c) as (? & ? & ?); [left|].
  rewrite hole_other, IH by done || (intros; apply Ht; by right). done.
Qed.

Lemma subst_bytes t : Forall (fun c => c < 256) t -> subst v t = t.
Proof. intros Ht. apply subst_filled. intros c Hc. rewrite Forall_forall in Ht. specialize (Ht c Hc). unfold NAME, UPPER, TAIL. lia. Qed.

Lemma hole_word c : c = NAME \/ c = UPPER -> word_ok (hole v c).
Proof. destruct Hv. by intros [-> | ->]. Qed.

(** A word with a hole stays a word that is no keyword. *)
Lemma word_subst cur : (forall c, c ∈ cur -> c <> TAIL) -> word (subst v cur) = tsubst v (word cur).
Proof.
  intros Ht. unfold word. destruct (decide (Exists (fun c => c = NAME \/ c = UPPER) cur)) as [He|Hn].
  - apply Exists_exists in He as (c & Hc & Hh). rewrite !bool_decide_eq_false_2; [done| |].
    + intros ->. revert Hc. destruct Hh as [-> | ->]; apply (bool_decide_unpack _); vm_compute; exact I.
    + intros E. assert (95 ∈ subst v cur) as H95.
      { apply list_elem_of_split in Hc as (l1 & l2 & ->). rewrite subst_app. change (c :: l2) with ([c] ++ l2).
        rewrite subst_app, subst_single. apply elem_of_app. right. apply elem_of_app. left. apply (hole_word c Hh). }
      rewrite E in H95. revert H95. apply (bool_decide_unpack _). vm_compute. exact I.
  - assert (subst v cur = cur) as Hs; [|rewrite Hs; case_bool_decide; [done|cbn; by rewrite Hs]].
    apply subst_filled. intros c Hc. split_and!; [| |by apply Ht]; intros ->; apply Hn, Exists_exists; eauto.
Qed.

Definition wordy (w : text) : Prop := Forall (fun c => word_char c = true /\ c < 256) w.

Lemma lex_word w : wordy w -> forall cur, lex (Word cur) w = (Word (cur ++ w), []).
Proof.
  induction 1 as [|c w [Hc _] _ IH]; intros cur; cbn [lex step]; [by rewrite app_nil_r|].
  rewrite Hc, IH, <- app_assoc. done.
Qed.

Lemma lex_stay w m : m = Line \/ m = Comment \/ m = InStr -> wordy w -> lex m w = (m, []).
Proof.
  intros Hm. induction 1 as [|c w [Hc Hb] _ IH]; [done|]. cbn [lex].
  assert (step m c = (m, [])) as ->; [|by rewrite IH].
  unfold word_char, letter, digit, NAME, UPPER in Hc.
  destruct Hm as [-> | [-> | ->]]; cbn [step]; repeat case_match; try done; lia.
Qed.

Definition mode_ok (m : mode) : Prop := match m with Word cur => forall c, c ∈ cur -> c <> TAIL | _ => True end.

Lemma lex_bad t : lex Bad t = (Bad, []).
Proof. induction t as [|c t IH]; [done|]. cbn. by rewrite IH. Qed.

(** A letter begins a word wherever a token may begin, and nothing else depends on which letter it is. *)
Lemma start_letter a : letter a = true -> start a = (Word [a], []).
Proof. intros Ha. unfold start. by rewrite Ha. Qed.

Lemma step_letter m a : letter a = true -> (step m a).1 <> Bad ->
  step m a = match m with
             | Between => (Word [a], []) | Word cur => (Word (cur ++ [a]), [])
             | Slash => (Word [a], [Punct 47]) | Minus => (Word [a], [Punct 45])
             | Star => (Comment, []) | Escape => (InStr, []) | m => (m, [])
             end.
Proof.
  intros Ha Hb. assert (digit a = false /\ (a =? 47) = false /\ (a =? 42) = false /\ (a =? 10) = false /\ (a =? 34) = false /\
    (a =? 92) = false /\ (a =? 62) = false /\ (a =? TAIL) = false) as (Hd & E1 & E2 & E3 & E4 & E5 & E6 & E7)
    by (unfold letter, digit, NAME, UPPER, TAIL in *; lia).
  destruct m; cbn [step] in *; unfold word_char in *; rewrite ?Ha, ?Hd, ?E1, ?E2, ?E3, ?E4, ?E5, ?E6, ?E7, ?start_letter in * by done;
    cbn [orb after fst snd] in *; try done.
  by destruct (256 <=? a).
Qed.

Lemma step_word c m : c = NAME \/ c = UPPER -> (step m c).1 <> Bad ->
  lex (msubst v m) (hole v c) = (msubst v (step m c).1, tsubsts v (step m c).2).
Proof.
  intros Hc Hb. destruct (hole_word c Hc) as (_ & Hw & a & r & E & Ha).
  assert (letter c = true) as Hl by by destruct Hc as [-> | ->].
  rewrite (step_letter m c Hl Hb). rewrite E in Hw |- *. inversion Hw as [|? ? [Hwa Hba] Hr]; subst.
  assert (m <> Escape /\ m <> Digits /\ m <> Bad) as (He & Hd & Hbad).
  { split_and!; intros ->; apply Hb; cbn [step]; [by destruct Hc as [-> | ->]| |done]. rewrite Hl. by destruct Hc as [-> | ->]. }
  cbn [lex]. rewrite (step_letter (msubst v m) a Ha); [|destruct m; cbn [msubst step]; try done].
  - destruct m; cbn [msubst fst snd tsubsts map] in *; try done; rewrite ?lex_word, ?lex_stay by auto;
      rewrite ?subst_app, ?subst_single, ?E, <- ?app_assoc; done.
  - by rewrite start_letter.
  - unfold word_char. by rewrite Ha.
  - repeat case_match; by rewrite ?start_letter.
  - by case_match.
  - by case_match.
  - unfold TAIL. repeat case_match; try done. lia.
  - by repeat case_match.
  - case_match; by rewrite ?start_letter.
Qed.

Lemma step_tail m : (step m TAIL).1 <> Bad -> lex (msubst v m) (hole v TAIL) = (msubst v (step m TAIL).1, tsubsts v (step m TAIL).2).
Proof. intros Hb. destruct m; cbn in Hb; try done; cbn [msubst]; apply lex_stay; auto; apply Hv. Qed.

Lemma start_other c : c <> NAME -> c <> UPPER -> c <> TAIL ->
  start c = (msubst v (start c).1, tsubsts v (start c).2).
Proof. intros. unfold start. repeat case_match; try done. cbn [msubst fst snd tsubsts map]. by rewrite subst_single, hole_other. Qed.

Lemma step_other c m : mode_ok m -> c <> NAME -> c <> UPPER -> c <> TAIL ->
  step (msubst v m) c = (msubst v (step m c).1, tsubsts v (step m c).2).
Proof.
  intros Hm H1 H2 H3. pose proof (start_other c H1 H2 H3) as Hs. destruct m; cbn [msubst step]; try done;
    repeat case_match; try done; cbn [fst snd tsubsts map msubst];
    rewrite ?subst_app, ?subst_single, ?hole_other by done; try done; unfold after; destruct (start c) as [m0 ts0];
    cbn [fst snd tsubsts map tsubst] in *; injection Hs as E1 E2; unfold tsubsts in E2; rewrite <- E1, <- E2; try done.
  by rewrite word_subst.
Qed.

Lemma step_mode_ok m c : mode_ok m -> (step m c).1 <> Bad -> mode_ok (step m c).1.
Proof.
  assert ((start c).1 <> Bad -> mode_ok (start c).1) as Hs.
  { unfold start. repeat case_match; cbn; try done. intros _ d Hd ->. apply list_elem_of_singleton in Hd as <-. done. }
  intros Hm Hb. destruct m; cbn [step] in *; repeat case_match; cbn [after fst] in *; try done; auto.
  cbn. intros d [Hd|Hd]%elem_of_app; [by apply Hm|]. apply list_elem_of_singleton in Hd as ->. intros ->. done.
Qed.

(** The tokens of a text with its holes filled. *)
Lemma lex_subst t : forall m, mode_ok m -> (lex m t).1 <> Bad ->
  lex (msubst v m) (subst v t) = (msubst v (lex m t).1, tsubsts v (lex m t).2).
Proof.
  induction t as [|c t IH]; intros m Hm Hb; [done|]. change (c :: t) with ([c] ++ t). rewrite subst_app, subst_single, lex_app.
  cbn [app lex] in Hb |- *. destruct (step m c) as [m1 ts] eqn:Es. destruct (lex m1 t) as [m2 us] eqn:El. cbn [fst snd] in Hb |- *.
  assert (m1 <> Bad) as H1. { intros ->. rewrite lex_bad in El. congruence. }
  assert (lex (msubst v m) (hole v c) = (msubst v m1, tsubsts v ts)) as ->.
  { destruct (decide (c = NAME \/ c = UPPER)) as [Hc|Hc]; [rewrite step_word; rewrite ?Es; done|].
    destruct (decide (c = TAIL)) as [->|Ht]; [rewrite step_tail; rewrite ?Es; done|].
    rewrite hole_other by tauto. cbn [lex]. rewrite step_other, Es by tauto. cbn. by rewrite app_nil_r. }
  cbn [fst snd]. rewrite IH; rewrite ?El; [|replace m1 with (step m c).1 by (by rewrite Es); apply step_mode_ok; rewrite ?Es; done|done].
  cbn [fst snd]. unfold tsubsts. by rewrite map_app.
Qed.

Lemma tokens_subst t ts : tokens t = Some ts -> tokens (subst v t) = Some (tsubsts v ts).
Proof.
  unfold tokens. intros E. assert ((lex Between t).1 = Between /\ (lex Between t).2 = ts) as [E1 E2]
    by (destruct (lex Between t) as [[] us]; by simplify_eq). pose proof (lex_subst t Between I) as Hs. rewrite E1, E2 in Hs.
  cbn [msubst] in Hs. by rewrite Hs.
Qed.

(** ** Declarations with their holes filled *)

Lemma punct_subst t c : bool_decide (tsubst v t = Punct c) = bool_decide (t = Punct c).
Proof. apply bool_decide_ext. by destruct t. Qed.

Lemma items_from_subst ts : forall cur inner,
  items_from (tsubsts v cur) (prod_map id (tsubsts v) <$> inner) (tsubsts v ts) = map (isubst v) <$> items_from cur inner ts.
Proof.
  assert (forall cur t, tsubsts v cur ++ [tsubst v t] = tsubsts v (cur ++ [t])) as Ha by (intros; unfold tsubsts; by rewrite map_app).
  induction ts as [|t ts IH]; intros cur inner.
  - by destruct cur, inner as [[]|].
  - pose proof (IH [] None) as H0. change (items_from [] None (tsubsts v ts) = map (isubst v) <$> items_from [] None ts) in H0.
    change (tsubsts v (t :: ts)) with (tsubst v t :: tsubsts v ts). cbn [items_from]. rewrite !punct_subst.
    destruct inner as [[n b]|]; cbn [fmap option_fmap option_map prod_map fst snd id].
    + rewrite Ha. repeat case_bool_decide; [apply (IH _ (Some (S n, _)))| |apply (IH _ (Some (n, _)))].
      destruct n as [|n]; [|apply (IH _ (Some (n, _)))].
      rewrite H0. by destruct (items_from [] None ts).
    + rewrite Ha. repeat case_bool_decide; [|apply (IH _ (Some (O, [])))|done|apply (IH _ None)].
      destruct cur as [|t' cur]; [exact H0|]. change (tsubsts v (t' :: cur)) with (tsubst v t' :: tsubsts v cur).
      cbv iota. rewrite H0. by destruct (items_from [] None ts).
Qed.

Lemma parse_subst t ds : parse t = Some ds -> parse (subst v t) = Some (map (isubst v) ds).
Proof.
  unfold parse. destruct (tokens t) as [ts|] eqn:E; [|done]. rewrite (tokens_subst t ts E). cbn [mbind option_bind].
  unfold items. intros Ei. pose proof (items_from_subst ts [] None) as Hs. rewrite Ei in Hs. exact Hs.
Qed.

Lemma split_first_subst c ts :
  split_first c (tsubsts v ts) = prod_map (tsubsts v) (tsubsts v) <$> split_first c ts.
Proof.
  induction ts as [|t ts IH]; [done|]. cbn [tsubsts map split_first]. rewrite punct_subst. case_bool_decide; [done|].
  unfold tsubsts in IH. rewrite IH. by destruct (split_first c ts) as [[]|].
Qed.

Lemma split_on_subst c ts : forall cur, split_on c (tsubsts v cur) (tsubsts v ts) = map (tsubsts v) (split_on c cur ts).
Proof.
  induction ts as [|t ts IH]; intros cur; [done|]. change (tsubsts v (t :: ts)) with (tsubst v t :: tsubsts v ts).
  cbn [split_on]. rewrite punct_subst. case_bool_decide.
  - cbn [map]. f_equal. apply (IH []).
  - replace (tsubsts v cur ++ [tsubst v t]) with (tsubsts v (cur ++ [t])) by (unfold tsubsts; by rewrite map_app). apply IH.
Qed.

Lemma last_subst ts : last (tsubsts v ts) = tsubst v <$> last ts.
Proof. apply fmap_last. Qed.

Lemma take_subst n ts : take n (tsubsts v ts) = tsubsts v (take n ts).
Proof. symmetry. apply fmap_take. Qed.

Lemma length_subst ts : length (tsubsts v ts) = length ts.
Proof. apply length_map. Qed.

Lemma unnamed_subst p : unnamed (tsubsts v p) = tsubsts v (unnamed p).
Proof.
  destruct p as [|t [|t2 p]]; [done|done|]. unfold unnamed.
  change (tsubsts v (t :: t2 :: p)) with (tsubst v t :: tsubst v t2 :: tsubsts v p). cbv iota.
  change (tsubst v t :: tsubst v t2 :: tsubsts v p) with (tsubsts v (t :: t2 :: p)). rewrite last_subst.
  destruct (last (t :: t2 :: p)) as [x|]; [|done]. cbn [fmap option_fmap option_map].
  replace (is_ident (tsubst v x)) with (is_ident x) by by destruct x. destruct (is_ident x); [|done].
  by rewrite length_subst, take_subst.
Qed.

Lemma function_subst i : function (isubst v i) = ssubst v <$> function i.
Proof.
  unfold function. cbn [isubst head body]. rewrite split_first_subst. destruct (split_first 40 (head i)) as [[pre rest]|]; [|done].
  cbn [fmap option_fmap option_map prod_map fst snd]. rewrite last_subst, length_subst.
  destruct (last pre) as [[f| | | | |]|]; try done. cbn [fmap option_fmap option_map tsubst]. rewrite last_subst, length_subst.
  replace (bool_decide (tsubst v <$> last rest = Some (Punct 41))) with (bool_decide (last rest = Some (Punct 41)))
    by (apply bool_decide_ext; by destruct (last rest) as [[]|]).
  destruct (_ && _); [|done]. rewrite !take_subst.
  pose proof (split_on_subst 44 (take (length rest - 1) rest) []) as Es. change (tsubsts v []) with (@nil token) in Es. rewrite Es.
  unfold ssubst. cbn [fmap option_fmap option_map result fname params]. f_equal. f_equal.
  destruct (body i); cbn [option_map]; [|done]. rewrite !map_map. apply map_ext. intros p. apply unnamed_subst.
Qed.

Lemma functions_subst ds : functions (map (isubst v) ds) = map (ssubst v) (functions ds).
Proof.
  unfold functions. induction ds as [|i ds IH]; [done|]. cbn. rewrite function_subst. destruct (function i); cbn; by rewrite IH.
Qed.

Lemma defined_subst ds : defined (map (isubst v) ds) = map (ssubst v) (defined ds).
Proof.
  unfold defined. rewrite <- functions_subst. f_equal. induction ds as [|i ds IH]; [done|]. cbn [map].
  rewrite !filter_cons, IH. destruct i as [h [b|]]; cbn [isubst body option_map]; repeat case_decide; try done; exfalso; by auto using is_Some_None.
Qed.

Lemma declared_subst ds : declared (map (isubst v) ds) = map (ssubst v) (declared ds).
Proof.
  unfold declared. rewrite <- functions_subst. f_equal. induction ds as [|i ds IH]; [done|]. cbn [map].
  rewrite !filter_cons, IH. destruct i as [h [b|]]; cbn [isubst body option_map]; repeat case_decide; try done; exfalso; by auto using is_Some_None.
Qed.

(** ** Tables and structures with their holes filled *)

Ltac by_tokens ts :=
  let t := fresh "t" in let IH := fresh "IH" in
  induction ts as [|t ts IH]; [done|]; unfold tsubsts in *; cbn [map];
  destruct t; cbn [tsubst]; try exact IH;
  destruct ts as [|[] [|[] [|[] ts]]]; cbn [map tsubst entries members pointers containers accesses mentioned] in IH |- *; try exact IH.

Ltac by_test :=
  lazymatch goal with
  | IH : _ = _ |- (if ?b then _ else _) = _ => destruct b; cbn [map]; [f_equal|]; exact IH
  end.

Lemma entries_subst ts : entries (tsubsts v ts) = map (psubst v) (entries ts).
Proof. by_tokens ts. all: by_test. Qed.

Lemma members_subst ts : members (tsubsts v ts) = map (subst v) (members ts).
Proof. by_tokens ts. all: by_test. Qed.

Lemma pointers_subst ts : pointers (tsubsts v ts) = map (psubst v) (pointers ts).
Proof. by_tokens ts. all: by_test. Qed.

Lemma containers_subst ts : containers (tsubsts v ts) = map (psubst v) (containers ts).
Proof. by_tokens ts. all: by_test. Qed.

Lemma accesses_subst ts : accesses (tsubsts v ts) = map (psubst v) (accesses ts).
Proof. by_tokens ts. all: cbn [map]; f_equal; exact IH. Qed.

Lemma mentioned_subst ts : mentioned (tsubsts v ts) = map (subst v) (mentioned ts).
Proof. by_tokens ts. all: cbn [map]; f_equal; exact IH. Qed.

Lemma code_subst i : code (isubst v i) = tsubsts v (code i).
Proof. unfold code, tsubsts. rewrite map_app. by destruct i as [h [b|]]. Qed.

Lemma table_subst ds : table (map (isubst v) ds) = map (psubst v) (table ds).
Proof.
  unfold table. induction ds as [|i ds IH]; [done|]. cbn. rewrite IH, map_app. f_equal.
  unfold table_of. destruct i as [h [b|]]; [|done]. cbn [isubst head body option_map]. rewrite last_subst.
  replace (bool_decide (tsubst v <$> last h = Some (Punct 61))) with (bool_decide (last h = Some (Punct 61)))
    by (apply bool_decide_ext; by destruct (last h) as [[]|]).
  case_bool_decide; [apply entries_subst|done].
Qed.

Lemma structs_subst ds : structs (map (isubst v) ds) = map (prod_map (subst v) (map (subst v))) (structs ds).
Proof.
  unfold structs. induction ds as [|i ds IH]; [done|]. cbn.
  replace (struct_of (isubst v i)) with (prod_map (subst v) (map (subst v)) <$> struct_of i).
  { destruct (struct_of i); cbn; by rewrite IH. }
  destruct i as [h [b|]]; unfold struct_of; cbn [isubst head body option_map]; rewrite ?members_subst;
    destruct h as [|[] [|[] [|[] h]]]; done.
Qed.

(** Words that stay different: without holes and without the first letters of the name, or the name with something behind it. *)
Context (prefix : text) (Hprefix : exists r, name v = prefix ++ r).

Definition distinct_word (x : text) : bool :=
  match x with
  | c :: s => if c =? NAME then forallb (fun c => c <? 256) s
              else forallb (fun c => c <? 256) x && negb (bool_decide (take (length prefix) x = prefix))
  | [] => false
  end.

Lemma distinct_word_cases x : distinct_word x = true ->
  (exists s, subst v x = name v ++ s /\ x = NAME :: s) \/ subst v x = x /\ take (length prefix) x <> prefix.
Proof.
  assert (forall s, forallb (fun c => c <? 256) s = true -> subst v s = s) as Hb.
  { intros s Hs. apply subst_bytes, Forall_forall. intros c Hc. rewrite forallb_forall in Hs.
    apply Z.ltb_lt, Hs, list_elem_of_In. done. }
  destruct x as [|c s]; [done|]. cbn [distinct_word]. destruct (Z.eqb_spec c NAME) as [->|Hc].
  - intros Hs. left. exists s. split; [|done]. change (NAME :: s) with ([NAME] ++ s). by rewrite subst_app, subst_single, Hb.
  - intros [Hs Hp]%andb_true_iff. right. split; [by apply Hb|]. apply negb_true_iff, bool_decide_eq_false in Hp. done.
Qed.

Lemma subst_inj a b : distinct_word a = true -> distinct_word b = true -> subst v a = subst v b -> a = b.
Proof.
  intros Ha Hb E. destruct Hprefix as [r Er].
  destruct (distinct_word_cases a Ha) as [(s & Es & ->)|[Es Hp]], (distinct_word_cases b Hb) as [(s' & Es' & ->)|[Es' Hp']];
    rewrite Es, Es' in E.
  - f_equal. by eapply app_inv_head.
  - destruct Hp'. by rewrite <- E, Er, <- app_assoc, take_app_length.
  - destruct Hp. by rewrite E, Er, <- app_assoc, take_app_length.
  - done.
Qed.

Lemma uses_subst i :
  forallb (fun p => distinct_word p.1) (pointers (code i) ++ accesses (code i)) = true ->
  uses (isubst v i) = map (psubst v) (uses i).
Proof.
  rewrite forallb_app. intros [Hp Ha]%andb_true_iff. unfold uses. rewrite code_subst, containers_subst, accesses_subst, pointers_subst, map_app.
  f_equal. set (ps := pointers (code i)) in *. induction (accesses (code i)) as [|a l IH]; [done|].
  cbn in Ha |- *. apply andb_true_iff in Ha as [Ha Hl]. rewrite map_app, IH by done. f_equal. clear IH Hl.
  induction ps as [|p ps IH]; [done|]. cbn [forallb map] in Hp |- *. apply andb_true_iff in Hp as [Hp Hps]. specialize (IH Hps).
  rewrite !filter_cons. cbn [psubst fst snd]. destruct (decide (p.1 = a.1)) as [E|E].
  - rewrite decide_True by (by rewrite E). cbn. by rewrite IH.
  - rewrite decide_False; [exact IH|]. intros E2. apply E. by apply subst_inj.
Qed.

End Subst.

End CText.
