(* ===== verification/PerlRegex.v ===== *)
(** * Regular expressions of Perl

    The part of them that the scripts of the tree use: characters, classes, greedy
    repetition of one character, groups that are captured and hold alternatives, and the
    two anchors.  [compile] reads an expression as the scripts write it; [search] finds the
    leftmost match, with backtracking, and gives what the groups captured. *)

From S2P Require Import Prelude.

Module Regex.

Open Scope Z_scope.

Abbreviation text := (list Z).

(** A class is a list of ranges. *)
Definition cls : Type := list (Z * Z).

Definition within (c : cls) (x : Z) : bool := existsb (fun r => (r.1 <=? x) && (x <=? r.2)) c.

Inductive atom : Type := One (c : cls) | Many (c : cls).

Inductive elem : Type :=
| Atom (a : atom)
| Group (alts : list (list atom))
| Start | End_.

Definition spaces : cls := [(9, 13); (32, 32)].
Definition any : cls := [(0, 9); (11, 255)].

(** ** Matching *)

Section Match.
Context {A : Type}.

(** As many characters as possible, and fewer of them when the rest does not match. *)
Fixpoint many (c : cls) (t : text) (k : text -> option A) : option A :=
  match t with
  | x :: r => if within c x then match many c r k with Some a => Some a | None => k t end else k t
  | [] => k []
  end.

Definition match_atom (a : atom) (t : text) (k : text -> option A) : option A :=
  match a with
  | One c => match t with x :: r => if within c x then k r else None | [] => None end
  | Many c => many c t k
  end.

Fixpoint match_atoms (l : list atom) (t : text) (k : text -> option A) : option A :=
  match l with [] => k t | a :: l => match_atom a t (fun r => match_atoms l r k) end.

Fixpoint match_alts (alts : list (list atom)) (t : text) (k : text -> option A) : option A :=
  match alts with
  | [] => None
  | l :: alts => match match_atoms l t k with Some a => Some a | None => match_alts alts t k end
  end.
End Match.

(** What the groups captured, and what is behind the match.  [first]: at the start of the text. *)
Fixpoint match_here (first : bool) (l : list elem) (t : text) (caps : list text) : option (list text * text) :=
  match l with
  | [] => Some (caps, t)
  | Atom a :: l => match_atom a t (fun r => match_here false l r caps)
  | Group alts :: l => match_alts alts t (fun r => match_here false l r (caps ++ [take (length t - length r) t]))
  | Start :: l => if first then match_here first l t caps else None
  | End_ :: l => if bool_decide (t = [] \/ t = [10]) then match_here first l t caps else None
  end.

(** The leftmost match: what is before it, the captures, and what is behind it. *)
Fixpoint search_from (before : text) (l : list elem) (t : text) : option (text * list text * text) :=
  match match_here (bool_decide (before = [])) l t [] with
  | Some (caps, r) => Some (before, caps, r)
  | None => match t with [] => None | x :: t => search_from (before ++ [x]) l t end
  end.

Definition search (l : list elem) (t : text) : option (text * list text * text) := search_from [] l t.

Definition captures (l : list elem) (t : text) : option (list text) := (fun x => x.1.2) <$> search l t.

(** ** Reading an expression *)

Definition lit (c : Z) : cls := [(c, c)].

(** The members of a class up to the bracket. *)
Fixpoint read_class (t : text) (acc : cls) : option (cls * text) :=
  match t with
  | [] => None
  | c :: r =>
      if (c =? 93) && negb (bool_decide (acc = [])) then Some (acc, r)
      else
        match r with
        | d :: e :: r' => if (d =? 45) && negb (e =? 93) && negb (c =? 45) then read_class r' (acc ++ [(c, e)]) else read_class r (acc ++ lit c)
        | _ => read_class r (acc ++ lit c)
        end
  end.

(** Operators that are not covered. *)
Definition unsupported (c : Z) : bool := (c =? 43) || (c =? 63) || (c =? 123) || (c =? 42) || (c =? 41) || (c =? 124).

(** One character of the text, class or escape; with the star that may follow. *)
Definition starred (c : cls) (t : text) : atom * text :=
  match t with x :: r => if x =? 42 then (Many c, r) else (One c, t) | [] => (One c, []) end.

Definition read_atom (t : text) : option (atom * text) :=
  match t with
  | [] => None
  | c :: r =>
      if c =? 92 then
        match r with
        | d :: r => Some (starred (if d =? 115 then spaces else lit d) r)
        | [] => None
        end
      else if c =? 46 then Some (starred any r)
      else if c =? 91 then match read_class r [] with Some (l, r) => Some (starred l r) | None => None end
      else if unsupported c || (c =? 40) then None
      else Some (starred (lit c) r)
  end.

(** The inside of a group, up to its end. *)
Fixpoint read_group (fuel : nat) (t : text) (alts : list (list atom)) (cur : list atom) : option (list (list atom) * text) :=
  match fuel, t with
  | S fuel, c :: r =>
      if c =? 41 then Some (alts ++ [cur], r)
      else if c =? 124 then read_group fuel r (alts ++ [cur]) []
      else match read_atom t with Some (a, r) => read_group fuel r alts (cur ++ [a]) | None => None end
  | _, _ => None
  end.

Fixpoint read_elems (fuel : nat) (first : bool) (t : text) : option (list elem) :=
  match fuel, t with
  | _, [] => Some []
  | O, _ => None
  | S fuel, c :: r =>
      if (c =? 94) && first then cons Start <$> read_elems fuel false r
      else if (c =? 36) && bool_decide (r = []) then Some [End_]
      else if c =? 40 then
        match read_group fuel r [] [] with Some (alts, r) => cons (Group alts) <$> read_elems fuel false r | None => None end
      else match read_atom t with Some (a, r) => cons (Atom a) <$> read_elems fuel false r | None => None end
  end.

(** None: the expression has operators that are not covered, or is not one. *)
Definition compile (t : text) : option (list elem) := read_elems (length t) true t.

(** ** Text that is matched without a choice *)

(** The text goes on with nothing of the class. *)
Definition stops (c : cls) (t : text) : Prop := match t with x :: _ => within c x = false | [] => True end.

Lemma many_take {A} c a b (k : text -> option A) x :
  Forall (fun y => within c y = true) a -> stops c b -> k b = Some x -> many c (a ++ b) k = Some x.
Proof.
  intros Ha Hb Hk. induction Ha as [|y a Hy _ IH]; cbn [app many]; [|by rewrite Hy, IH].
  destruct b as [|y b]; cbn [many]; [done|]. cbn in Hb. by rewrite Hb.
Qed.

(** [l] takes [a] where [b] follows. *)
Definition takes (l : list atom) (a b : text) : Prop :=
  forall A (k : text -> option A) x, k b = Some x -> match_atoms l (a ++ b) k = Some x.

Lemma takes_nil b : takes [] [] b.
Proof. by intros A k x Hk. Qed.

Lemma takes_one c l x a b : within c x = true -> takes l a b -> takes (One c :: l) (x :: a) b.
Proof. intros Hx Hl A k y Hk. cbn. rewrite Hx. by apply Hl. Qed.

Lemma takes_many c l a1 a2 b : Forall (fun y => within c y = true) a1 -> stops c (a2 ++ b) -> takes l a2 b -> takes (Many c :: l) (a1 ++ a2) b.
Proof. intros Ha Hs Hl A k x Hk. cbn. rewrite <- app_assoc. apply many_take; [done|done|]. by apply Hl. Qed.

Lemma takes_class c a b : Forall (fun y => within c y = true) a -> stops c b -> takes [Many c] a b.
Proof. intros Ha Hs. rewrite <- (app_nil_r a). apply takes_many; [done|done|apply takes_nil]. Qed.

Lemma here_atom first a l t b caps r : takes [a] t b -> match_here false l b caps = Some r -> match_here first (Atom a :: l) (t ++ b) caps = Some r.
Proof. intros Ht Hk. cbn. by apply (Ht _ (fun r => match_here false l r caps)). Qed.

Lemma here_many first c l a b caps r : Forall (fun y => within c y = true) a -> stops c b ->
  match_here false l b caps = Some r -> match_here first (Atom (Many c) :: l) (a ++ b) caps = Some r.
Proof. intros Ha Hs. apply here_atom. by apply takes_class. Qed.

Lemma here_one first c l x b caps r : within c x = true ->
  match_here false l b caps = Some r -> match_here first (Atom (One c) :: l) (x :: b) caps = Some r.
Proof. intros Hx Hk. cbn. by rewrite Hx. Qed.

(** A text without special characters. *)
Definition literal (s : text) : list elem := (fun c => Atom (One (lit c))) <$> s.

Lemma here_literal c s first l b caps r : match_here false l b caps = Some r ->
  match_here first (literal (c :: s) ++ l) ((c :: s) ++ b) caps = Some r.
Proof.
  intros Hk. revert first c. induction s as [|d s IH]; intros first c; (apply here_one; [unfold within; cbn; lia|]); [done|apply IH].
Qed.

Lemma here_group first g l a b caps r : takes g a b ->
  match_here false l b (caps ++ [a]) = Some r -> match_here first (Group [g] :: l) (a ++ b) caps = Some r.
Proof.
  intros Ht Hk. cbn. erewrite (Ht _ (fun r => match_here false l r _)); [done|].
  rewrite length_app. replace (length a + length b - length b)%nat with (length a) by lia. by rewrite take_app_length.
Qed.

(** The match is found behind a text where it cannot start. *)
Lemma search_later l front t caps r :
  (forall first a b, front = a ++ b -> b <> [] -> match_here first l (b ++ t) [] = None) ->
  (forall first, match_here first l t [] = Some (caps, r)) -> captures l (front ++ t) = Some caps.
Proof.
  intros Hf Ht. unfold captures, search. assert (forall before, search_from before l (front ++ t) <> None /\
    (fun x : text * list text * text => x.1.2) <$> search_from before l (front ++ t) = Some caps) as H; [|apply H].
  induction front as [|x front IH]; intros before.
  - cbn [app]. destruct t; cbn [search_from]; by rewrite Ht.
  - cbn [app search_from]. rewrite (Hf _ [] (x :: front)) by done. apply IH. intros first a b -> Hb. by apply (Hf first (x :: a) b).
Qed.

(** ** Text that is matched *)

Lemma many_inv {A} c t (k : text -> option A) x : many c t k = Some x ->
  exists a b, t = a ++ b /\ Forall (fun y => within c y = true) a /\ k b = Some x.
Proof.
  induction t as [|y t IH]; cbn [many]; intros E; [by exists [], []|]. destruct (within c y) eqn:Ey; [|by exists [], (y :: t)].
  destruct (many c t k) as [x'|] eqn:Em; [|by exists [], (y :: t)]. injection E as ->.
  destruct (IH eq_refl) as (a & b & -> & Ha & Hb). exists (y :: a), b. split_and!; [done|by constructor|done].
Qed.

Lemma one_inv {A} c t (k : text -> option A) x : match_atom (One c) t k = Some x ->
  exists y b, t = y :: b /\ within c y = true /\ k b = Some x.
Proof. cbn. destruct t as [|y t]; [done|]. destruct (within c y) eqn:Ey; [|done]. intros E. by exists y, t. Qed.

Lemma search_inv l t x : captures l t = Some x -> exists first a b y, t = a ++ b /\ match_here first l b [] = Some y.
Proof.
  unfold captures, search. assert (forall before y, search_from before l t = Some y -> exists first a b z, t = a ++ b /\ match_here first l b [] = Some z) as H.
  { induction t as [|c t IH]; intros before y; cbn [search_from]; destruct (match_here _ l _ []) as [z|] eqn:E; intros Hy; try done.
    - by eexists _, [], [], z.
    - by eexists _, [], (c :: t), z.
    - destruct (IH _ _ Hy) as (first & a & b & z & -> & Hz). by exists first, (c :: a), b, z. }
  destruct (search_from [] l t) as [y|] eqn:E; [|done]. intros _. by apply (H [] y).
Qed.

Lemma search_first l t caps r : match_here true l t [] = Some (caps, r) -> captures l t = Some caps.
Proof. intros E. unfold captures, search. destruct t; cbn [search_from]; rewrite bool_decide_eq_true_2 by done; by rewrite E. Qed.

End Regex.
