(* ===== verification/Cmsg.v ===== *)
(** * Control messages

    [timestamping.c] and [txtimestamp.c] walk the ancillary data of a received
    message with the [CMSG_] macros of the C library.  A control buffer is a byte
    array in host (little-endian, 64-bit) order; a [struct cmsghdr] is its address,
    an offset into the buffer.  The macros are those of glibc: a header is handed
    out only when it and the message it announces end inside the buffer. *)

From S2P Require Import Prelude Posix CArray.

Definition sizeof_cmsghdr := 16.

Definition CMSG_ALIGN (len : Z) : Z := u64 (align_up len 8).
Definition CMSG_DATA (cmsg : Z) : Z := cmsg + sizeof_cmsghdr.

Open Scope out_scope.

Definition cmsg_len (ctrl : list Z) (cmsg : Z) : outcome Z := rd 8 ctrl cmsg.
Definition cmsg_level (ctrl : list Z) (cmsg : Z) : outcome Z := let! v := rd 4 ctrl (cmsg + 8) in Ret (i32 v).
Definition cmsg_type (ctrl : list Z) (cmsg : Z) : outcome Z := let! v := rd 4 ctrl (cmsg + 12) in Ret (i32 v).

Definition CMSG_FIRSTHDR (controllen : Z) : option Z :=
  if sizeof_cmsghdr <=? controllen then Some 0 else None.

Definition CMSG_NXTHDR (ctrl : list Z) (controllen cmsg : Z) : outcome (option Z) :=
  let! len := cmsg_len ctrl cmsg in
  if len <? sizeof_cmsghdr then Ret None
  else
    let next := cmsg + CMSG_ALIGN len in
    if controllen <? next + sizeof_cmsghdr then Ret None
    else
      let! len' := cmsg_len ctrl next in
      if controllen <? next + CMSG_ALIGN len' then Ret None else Ret (Some next).

Close Scope out_scope.
Open Scope io_scope.

(** [for (cmsg = CMSG_FIRSTHDR(msg); cmsg && cond; cmsg = CMSG_NXTHDR(msg, cmsg)) body];
    the condition is one on [cmsg_len]. *)
Fixpoint each_cmsg {call S} (fuel : nat) (cond : Z -> bool) (ctrl : list Z) (controllen : Z) (cmsg : option Z)
    (body : Z -> io call S unit) : io call S unit :=
  match fuel with
  | O => nofuel
  | Datatypes.S fuel =>
      match cmsg with
      | None => io_ret tt
      | Some p =>
          let* len := lift (cmsg_len ctrl p) in
          if cond len then
            body p ;;
            let* next := lift (CMSG_NXTHDR ctrl controllen p) in
            each_cmsg fuel cond ctrl controllen next body
          else io_ret tt
      end
  end.

(** ** Time stamps *)

(** Seconds and microseconds or nanoseconds. *)
Definition time : Type := Z * Z.

(** The pair of 64-bit integers at an offset. *)
Definition time_at (buf : list Z) (off : Z) : outcome time :=
  out_bind (rd 8 buf off) (fun s => out_bind (rd 8 buf (off + 8)) (fun f => Ret (i64 s, i64 f))).

Definition time_bytes (t : time) : list Z := le_bytes 8 t.1 ++ le_bytes 8 t.2.

Definition time_ok (t : time) : Prop := - 2 ^ 63 <= t.1 < 2 ^ 63 /\ - 2 ^ 63 <= t.2 < 2 ^ 63.

(** ** What the kernel writes *)

(** A message of the kernel: its level, its type and its payload. *)
Record cmsg : Type := Cmsg { c_level : Z; c_type : Z; c_data : list Z }.

Definition padding (n : Z) : list Z := replicate (Z.to_nat (align_up n 8 - n)) 0.

Definition encode (m : cmsg) : list Z :=
  le_bytes 8 (16 + zlen (c_data m)) ++ le_bytes 4 (c_level m) ++ le_bytes 4 (c_type m) ++ c_data m ++
  padding (zlen (c_data m)).

Definition encode_all (ms : list cmsg) : list Z := concat (encode <$> ms).

Definition cmsg_ok (m : cmsg) : Prop :=
  - 2 ^ 31 <= c_level m < 2 ^ 31 /\ - 2 ^ 31 <= c_type m < 2 ^ 31 /\ zlen (c_data m) < 2 ^ 32.

(** ** Reading it back *)

Lemma align8 x : x <= align_up x 8 < x + 8 /\ align_up x 8 mod 8 = 0.
Proof. apply (align_up_spec x 3). lia. Qed.

Lemma align8_add x : align_up (16 + x) 8 = 16 + align_up x 8.
Proof.
  destruct (align8 x) as [H1 H2], (align8 (16 + x)) as [H3 H4].
  apply Z.mod_divide in H2 as [q Hq]; [|done]. apply Z.mod_divide in H4 as [r Hr]; [|done]. lia.
Qed.

Lemma zlen_encode m : zlen (encode m) = 16 + align_up (zlen (c_data m)) 8.
Proof.
  unfold encode, padding. destruct (align8 (zlen (c_data m))). rewrite !zlen_app, !zlen_le_bytes, zlen_replicate; lia.
Qed.

Lemma encode_all_app a b : encode_all (a ++ b) = encode_all a ++ encode_all b.
Proof. unfold encode_all. by rewrite fmap_app, concat_app. Qed.

Lemma encode_all_cons m ms : encode_all (m :: ms) = encode m ++ encode_all ms.
Proof. done. Qed.

Lemma encode_all_length ms : 16 * zlen ms <= zlen (encode_all ms).
Proof.
  induction ms as [|m ms IH]; [done|]. rewrite encode_all_cons, zlen_app, zlen_encode, zlen_cons.
  destruct (align8 (zlen (c_data m))). pose proof (zlen_nonneg (c_data m)). lia.
Qed.

Lemma time_at_le t a b buf off :
  buf = a ++ time_bytes t ++ b -> zlen a = off -> time_ok t -> time_at buf off = Ret t.
Proof.
  intros -> Ha [H1 H2]. unfold time_at, time_bytes. rewrite <- app_assoc.
  erewrite (rd_le 8); [|reflexivity|lia|done]. cbn [out_bind]. rewrite (app_assoc a).
  erewrite (rd_le 8); [|reflexivity|lia|rewrite zlen_app, zlen_le_bytes; lia]. cbn [out_bind].
  change (8 * 8) with 64. rewrite !i64_wrap by done. by destruct t.
Qed.

Lemma zlen_time t : zlen (time_bytes t) = 16.
Proof. unfold time_bytes. by rewrite zlen_app, !zlen_le_bytes. Qed.

Lemma time_at_uninit a : exists t, time_at (uninit 16 a) 0 = Ret t.
Proof.
  unfold time_at. rewrite !rd_in by (rewrite ?zlen_uninit; lia). cbn [out_bind]. eauto.
Qed.

(** The fields of a message behind [pre]. *)
Section Fields.
Context (m : cmsg) (pre post ctrl : list Z) (p : Z).
Context (Hm : cmsg_ok m) (Hc : ctrl = pre ++ encode m ++ post) (Hp : zlen pre = p).

Lemma cmsg_len_at : cmsg_len ctrl p = Ret (16 + zlen (c_data m)).
Proof using All.
  pose proof (zlen_nonneg (c_data m)). destruct Hm as (_ & _ & Hd). unfold cmsg_len, encode in *.
  rewrite <- !app_assoc in Hc. eapply (rd_at 8); [exact Hc|lia|done|]. lia.
Qed.

Lemma cmsg_level_at : cmsg_level ctrl p = Ret (c_level m).
Proof using All.
  destruct Hm as (Hl & _ & _). unfold cmsg_level, encode in *. subst ctrl. rewrite <- !app_assoc, (app_assoc pre).
  erewrite (rd_le 4); [|reflexivity|lia|rewrite zlen_app, zlen_le_bytes; lia].
  cbn [out_bind]. f_equal. by apply i32_wrap.
Qed.

Lemma cmsg_type_at : cmsg_type ctrl p = Ret (c_type m).
Proof using All.
  destruct Hm as (_ & Ht & _). unfold cmsg_type, encode in *. subst ctrl.
  rewrite <- !app_assoc, (app_assoc pre), (app_assoc (pre ++ _)).
  erewrite (rd_le 4); [|reflexivity|lia|rewrite !zlen_app, !zlen_le_bytes; lia].
  cbn [out_bind]. f_equal. by apply i32_wrap.
Qed.

(** A field of the payload. *)
Lemma cmsg_data_at n k : 0 <= n -> 0 <= k -> k + n <= zlen (c_data m) ->
  rd n ctrl (CMSG_DATA p + k) = rd n (c_data m) k.
Proof using All.
  intros Hn Hk Hl. rewrite (rd_in n (c_data m)) by lia. unfold encode, CMSG_DATA, sizeof_cmsghdr in *.
  subst ctrl. rewrite <- !app_assoc, (app_assoc pre), (app_assoc (pre ++ _)), (app_assoc ((pre ++ _) ++ _)).
  apply rd_mid; [done..|]. rewrite !zlen_app, !zlen_le_bytes. lia.
Qed.

Lemma time_in_cmsg k : 0 <= k -> k + 16 <= zlen (c_data m) -> 
  time_at ctrl (CMSG_DATA p + k) = time_at (c_data m) k.
Proof using All.
  intros Hk Hl. unfold time_at. rewrite <- Z.add_assoc. by rewrite !cmsg_data_at by (done || lia).
Qed.

Lemma cmsg_next_at : CMSG_ALIGN (16 + zlen (c_data m)) = zlen (encode m).
Proof using Hm.
  destruct Hm as (_ & _ & Hd). pose proof (zlen_nonneg (c_data m)). destruct (align8 (zlen (c_data m))) as [? _].
  unfold CMSG_ALIGN. rewrite align8_add, zlen_encode. apply wrap_small. unfold fits. lia.
Qed.
End Fields.

(** The message after [m], if there is one. *)
Lemma nxthdr_at m pre ms rest :
  cmsg_ok m -> Forall cmsg_ok ms ->
  CMSG_NXTHDR (pre ++ encode m ++ encode_all ms ++ rest) (zlen (pre ++ encode m ++ encode_all ms)) (zlen pre) =
  Ret (match ms with [] => None | _ => Some (zlen (pre ++ encode m)) end).
Proof.
  intros Hm Hms. unfold CMSG_NXTHDR. erewrite cmsg_len_at by eauto. cbn [out_bind].
  pose proof (zlen_nonneg (c_data m)). unfold sizeof_cmsghdr. replace (_ <? 16) with false by lia.
  rewrite cmsg_next_at, !zlen_app by done. destruct ms as [|m' ms].
  - change (zlen (encode_all [])) with 0. by replace (_ <? _) with true by lia.
  - inversion Hms as [|? ? Hm' _]; subst. rewrite encode_all_cons, zlen_app.
    pose proof (zlen_nonneg (encode_all ms)). pose proof (zlen_encode m') as E. destruct (align8 (zlen (c_data m'))).
    pose proof (zlen_nonneg (c_data m')).
    replace (_ <? _) with false by lia.
    rewrite (cmsg_len_at m' (pre ++ encode m) (encode_all ms ++ rest)); [|done|by rewrite <- !app_assoc|by rewrite zlen_app].
    cbn [out_bind]. rewrite cmsg_next_at by done. by replace (_ <? _) with false by lia.
Qed.

#[local] Arguments wp : simpl never.
#[local] Arguments wp_k : simpl never.
#[local] Arguments io_bind : simpl never.

(** The loop runs its body once for every message, in order. *)
Lemma each_cmsg_wp {call S} (I : list cmsg -> S -> list (event call) -> Prop) K cond body rest fuel :
  (forall n, 16 <= n -> cond n = true) ->
  forall todo pre s h,
  Forall cmsg_ok (pre ++ todo) -> (length todo < fuel)%nat -> I pre s h ->
  let ctrl := encode_all (pre ++ todo) ++ rest in
  (forall pre' m post s h, pre ++ todo = pre' ++ m :: post -> I pre' s h ->
     wp (body (zlen (encode_all pre'))) K s h (fun o s' h' => o = Ret tt /\ I (pre' ++ [m]) s' h')) ->
  wp (each_cmsg fuel cond ctrl (zlen (encode_all (pre ++ todo)))
        (match todo with [] => None | _ => Some (zlen (encode_all pre)) end) body) K s h
     (fun o s' h' => o = Ret tt /\ I (pre ++ todo) s' h').
Proof.
  intros Hcond. induction fuel as [|fuel IH]; intros todo pre s h Hok Hf HI ctrl Hbody; [lia|]. cbn [each_cmsg].
  destruct todo as [|m todo]; [rewrite app_nil_r in *; by apply wp_ret|].
  assert (ctrl = encode_all pre ++ encode m ++ encode_all todo ++ rest) as Hc.
  { unfold ctrl. by rewrite encode_all_app, encode_all_cons, <- !app_assoc. }
  apply Forall_app in Hok as [Hpre Hmt]. inversion Hmt as [|? ? Hm Ht]; subst.
  apply wp_bind, wp_lift. erewrite cmsg_len_at by eauto. unfold wp_k at 1.
  pose proof (zlen_nonneg (c_data m)). rewrite Hcond by lia. apply wp_bind.
  eapply wp_wand; [by eapply Hbody|]. intros ? s1 h1 [-> HI1]. unfold wp_k at 1. apply wp_bind, wp_lift.
  rewrite Hc. replace (zlen (encode_all (pre ++ m :: todo))) with (zlen (encode_all pre ++ encode m ++ encode_all todo))
    by (by rewrite encode_all_app, encode_all_cons).
  rewrite nxthdr_at by done. unfold wp_k at 1. rewrite <- Hc. unfold ctrl.
  replace (encode_all pre ++ encode m) with (encode_all (pre ++ [m]))
    by (rewrite encode_all_app, encode_all_cons; change (encode_all []) with (@nil Z); by rewrite app_nil_r).
  rewrite <- encode_all_cons, <- encode_all_app. rewrite (cons_middle m pre todo) in *. rewrite app_assoc in *.
  apply IH; try done; [|simpl in Hf; lia]. rewrite !Forall_app, Forall_singleton. done.
Qed.

(** The walk from the first header. *)
Lemma walk_cmsg_wp {call S} (I : list cmsg -> S -> list (event call) -> Prop) K cond body rest fuel ms s h :
  (forall n, 16 <= n -> cond n = true) -> Forall cmsg_ok ms -> (length ms < fuel)%nat -> I [] s h ->
  (forall pre m post s h, ms = pre ++ m :: post -> I pre s h ->
     wp (body (zlen (encode_all pre))) K s h (fun o s' h' => o = Ret tt /\ I (pre ++ [m]) s' h')) ->
  wp (each_cmsg fuel cond (encode_all ms ++ rest) (zlen (encode_all ms)) (CMSG_FIRSTHDR (zlen (encode_all ms))) body)
     K s h (fun o s' h' => o = Ret tt /\ I ms s' h').
Proof.
  intros Hcond Hok Hf HI Hb.
  replace (CMSG_FIRSTHDR _) with (match ms with [] => None | _ => Some (zlen (encode_all [])) end).
  - by apply (each_cmsg_wp I K cond body rest fuel Hcond ms [] s h).
  - unfold CMSG_FIRSTHDR, sizeof_cmsghdr. destruct ms as [|m ms]; [done|]. rewrite encode_all_cons, zlen_app, zlen_encode.
    destruct (align8 (zlen (c_data m))). pose proof (zlen_nonneg (c_data m)). pose proof (zlen_nonneg (encode_all ms)).
    by replace (_ <=? _) with true by lia.
Qed.

Lemma each_cmsg_emits {call S} (P : call -> Prop) fuel cond ctrl n p (body : Z -> io call S unit) :
  (forall c, emits P (body c)) -> emits P (each_cmsg fuel cond ctrl n p body).
Proof.
  intros Hb. revert p. induction fuel as [|fuel IH]; intros p; cbn [each_cmsg]; emits.
Qed.
