(* ===== verification/Crc32.v ===== *)
(** * The hash of PCMCIA product strings: Documentation/pcmcia/crc32hash.c

    [crc32] is the bit-serial loop of the source on 32-bit words; [main] is the
    command.  The reference is division of polynomials over the two-element
    field: the returned word, read in reflected bit order, is the remainder of
    the message times [x^32] by the CRC-32 generator. *)

From S2P Require Import Prelude Posix.
From Stdlib Require Import HexString.

Module Crc32.

(** ** The program *)

(** One turn of the inner [for] loop. *)
Definition crc32_shift (crc : Z) : Z :=
  Z.lxor (Z.shiftr crc 1) (if truthy (Z.land crc 1) then 0xedb88320 else 0).

(** [for (i = 0; i < 8; i++)]. *)
Fixpoint crc32_for (n : nat) (crc : Z) : Z :=
  match n with
  | O => crc
  | S n' => crc32_for n' (crc32_shift crc)
  end.

(** [while (len--)]; [None] when the loop reads past the buffer. *)
Fixpoint crc32_while (len : nat) (p : list Z) (crc : Z) : option Z :=
  match len with
  | O => Some crc
  | S len' =>
      match p with
      | [] => None
      | b :: p' => crc32_while len' p' (crc32_for 8 (Z.lxor crc b))
      end
  end.

(** The parameter [len] is an [unsigned int]. *)
Definition crc32 (p : list Z) (len : Z) : option Z :=
  crc32_while (Z.to_nat (u32 len)) p 0.

(** What the command prints, and its exit status. *)
Definition main (argv : list string) : option (string * Z) :=
  match argv with
  | [_; arg] =>
      match crc32 (bytes_of_string arg) (strlen arg) with
      | Some result => Some (HexString.of_Z result +:+ nl, 0)
      | None => None
      end
  | _ => Some ("no string passed as argument" +:+ nl, -1)
  end.

(** ** The reference: division by the generator polynomial *)

(** Coefficients as lists, highest degree first. *)
Definition poly_of_bits (l : list bool) : Z :=
  foldl (fun (acc : Z) (b : bool) => Z.lxor (Z.shiftl acc 1) (Z.b2z b)) 0 l.

(** Product of the polynomial with coefficients [q] and the polynomial [P]. *)
Definition clmul (q : list bool) (P : Z) : Z :=
  foldl (fun (acc : Z) (t : bool) => Z.lxor (Z.shiftl acc 1) (if t then P else 0)) 0 q.

(** Bits travel least significant first. *)
Definition byte_bits (b : Z) : list bool := Z.testbit b <$> [0; 1; 2; 3; 4; 5; 6; 7].
Definition message_bits (p : list Z) : list bool := p ≫= byte_bits.

Definition rev32 (x : Z) : Z := bits_to_Z (fun i => Z.testbit x (31 - i)) 32.

(** x^32+x^26+x^23+x^22+x^16+x^12+x^11+x^10+x^8+x^7+x^5+x^4+x^2+x+1 *)
Definition generator : Z := 0x104c11db7.

(** ** Lemmas *)

Lemma land_1_truthy x : truthy (Z.land x 1) = Z.testbit x 0.
Proof.
  unfold truthy. change 1 with (Z.ones 1) at 1. rewrite Z.land_ones by lia.
  change (2 ^ 1) with 2. rewrite Zmod_odd, Z.bit0_odd. by destruct (Z.odd x).
Qed.

Lemma shift_fits crc : fits 32 crc -> fits 32 (crc32_shift crc).
Proof.
  intros H. unfold crc32_shift. apply fits_lxor; [lia| |].
  - unfold fits in *. rewrite Z.shiftr_div_pow2 by lia. change (2 ^ 1) with 2.
    split; [apply Z.div_pos; lia|]. apply Z.div_lt_upper_bound; lia.
  - case_test; unfold fits; simpl; lia.
Qed.

Lemma for_fits n crc : fits 32 crc -> fits 32 (crc32_for n crc).
Proof. revert crc. induction n; simpl; auto using shift_fits. Qed.

(** Feeding one message bit. *)
Definition feed (crc : Z) (b : bool) : Z := crc32_shift (Z.lxor crc (Z.b2z b)).

Lemma shift_lxor x y :
  Z.testbit y 0 = false -> crc32_shift (Z.lxor x y) = Z.lxor (crc32_shift x) (Z.shiftr y 1).
Proof.
  intros Hy. unfold crc32_shift. rewrite !land_1_truthy, Z.lxor_spec, Hy, xorb_false_r.
  bitwise i. btauto.
Qed.

Lemma testbit_b2z b i : 0 <= i -> Z.testbit (Z.b2z b) i = b && (i =? 0).
Proof.
  intros Hi. destruct b; [|by rewrite Z.bits_0].
  change (Z.b2z true) with (2 ^ 0). rewrite Z.pow2_bits_eqb by lia. lia.
Qed.

Lemma split_low_bit b : b = Z.lxor (Z.b2z (Z.testbit b 0)) (Z.shiftl (Z.shiftr b 1) 1).
Proof.
  bitwise i. rewrite testbit_b2z by lia. destruct (Z.eqb_spec i 0) as [->|].
  - rewrite (Z.testbit_neg_r (Z.shiftr b 1) (0 - 1)) by lia. btauto.
  - rewrite Z.shiftr_spec by lia. replace (i - 1 + 1) with i by lia. btauto.
Qed.

(** Eight shifts after xoring a byte in are eight single-bit feeds. *)
Lemma for_feed n crc b :
  crc32_for (S n) (Z.lxor crc b) =
  crc32_for n (Z.lxor (feed crc (Z.testbit b 0)) (Z.shiftr b 1)).
Proof.
  cbn [crc32_for]. f_equal. unfold feed.
  rewrite (split_low_bit b) at 1.
  rewrite <- Z.lxor_assoc, shift_lxor by (rewrite Z.shiftl_spec_low; done).
  f_equal. bitwise i. f_equal. lia.
Qed.

Lemma byte_feed crc b :
  byte_ok b -> crc32_for 8 (Z.lxor crc b) = foldl feed crc (byte_bits b).
Proof.
  intros Hb. unfold byte_bits. cbn [fmap list_fmap foldl].
  rewrite !for_feed, !Z.shiftr_shiftr by lia. rewrite !Z.shiftr_spec by lia.
  cbn [crc32_for].
  replace (Z.shiftr b _) with 0; [by rewrite Z.lxor_0_r|].
  rewrite Z.shiftr_div_pow2 by lia. symmetry. by apply Z.div_small.
Qed.

Lemma testbit_rev32 x i : 0 <= i -> Z.testbit (rev32 x) i = (i <? 32) && Z.testbit x (31 - i).
Proof. intros. unfold rev32. by rewrite testbit_bits_to_Z. Qed.

Lemma generator_rev i :
  0 <= i < 32 -> Z.testbit generator i = Z.testbit 0xedb88320 (31 - i).
Proof.
  intros Hi. assert (rev32 0xedb88320 = Z.land generator (Z.ones 32)) as E by done.
  apply (f_equal (fun z => Z.testbit z i)) in E.
  rewrite testbit_rev32, Z.land_spec, Z.testbit_ones_nonneg in E by lia.
  replace (i <? 32) with true in E by lia. by rewrite andb_true_r in E.
Qed.

(** One bit in the reflected register is one step of long division. *)
Lemma feed_divides crc b :
  fits 32 crc ->
  Z.lxor (Z.shiftl (rev32 crc) 1) (Z.shiftl (Z.b2z b) 32) =
  Z.lxor (if xorb (Z.testbit crc 0) b then generator else 0) (rev32 (feed crc b)).
Proof.
  intros Hc. unfold feed, crc32_shift. rewrite land_1_truthy, Z.lxor_spec, Z.b2z_bit0.
  bitwise i. rewrite (testbit_rev32 (Z.lxor _ _) i), Z.lxor_spec by lia.
  replace (Z.testbit (rev32 crc) (i - 1))
    with ((1 <=? i) && (i <? 33) && Z.testbit crc (32 - i)).
  2: { destruct (decide (i = 0)) as [->|]; [by rewrite (Z.testbit_neg_r (rev32 crc) (0 - 1))|].
       rewrite testbit_rev32 by lia. replace (31 - (i - 1)) with (32 - i) by lia.
       f_equal. lia. }
  replace (Z.testbit (Z.b2z b) (i - 32)) with (b && (i =? 32)).
  2: { destruct (Z.lt_ge_cases i 32); [rewrite Z.testbit_neg_r by lia; lia|].
       rewrite testbit_b2z by lia. lia. }
  destruct (Z.ltb_spec i 32) as [Hi|Hi]; cbn [andb].
  - rewrite Z.shiftr_spec, !Z.lxor_spec, testbit_b2z by lia.
    replace (31 - i + 1) with (32 - i) by lia.
    replace (32 - i =? 0) with false by lia. replace (i =? 32) with false by lia.
    replace (i <? 33) with true by lia.
    assert (Z.testbit (if xorb (Z.testbit crc 0) b then generator else 0) i =
            Z.testbit (if xorb (Z.testbit crc 0) b then 0xedb88320 else 0) (31 - i)) as ->.
    { destruct (xorb (Z.testbit crc 0) b); [|by rewrite !Z.bits_0]. by apply generator_rev. }
    destruct (decide (i = 0)) as [->|].
    + rewrite (fits_testbit_high 32 crc (32 - 0)) by (done || lia). btauto.
    + replace (1 <=? i) with true by lia. btauto.
  - destruct (decide (i = 32)) as [->|].
    + change (32 - 32) with 0. destruct (Z.testbit crc 0), b; reflexivity.
    + replace (i <? 33) with false by lia. replace (i =? 32) with false by lia.
      destruct (xorb (Z.testbit crc 0) b); [|rewrite Z.bits_0; btauto].
      rewrite (fits_testbit_high 33 generator) by (done || lia). btauto.
Qed.

Lemma feed_fits crc b : fits 32 crc -> fits 32 (feed crc b).
Proof.
  intros H. apply shift_fits, fits_lxor; [lia|done|]. by destruct b; unfold fits.
Qed.

(** Long division of the bits fed so far. *)
Lemma feeds_divide l crc M q :
  fits 32 crc ->
  Z.shiftl M 32 = Z.lxor (clmul q generator) (rev32 crc) ->
  exists q', Z.shiftl (foldl (fun acc b => Z.lxor (Z.shiftl acc 1) (Z.b2z b)) M l) 32 =
             Z.lxor (clmul q' generator) (rev32 (foldl feed crc l)).
Proof.
  revert crc M q. induction l as [|b l IH]; intros crc M q Hc HM; [by exists q|].
  simpl. eapply (IH _ _ (q ++ [xorb (Z.testbit crc 0) b])); [by apply feed_fits|].
  unfold clmul. rewrite foldl_app. cbn [foldl]. fold (clmul q generator).
  rewrite Z.lxor_assoc, <- feed_divides by done.
  rewrite <- Z.lxor_assoc, <- Z.shiftl_lxor, <- HM, Z.shiftl_lxor.
  by f_equal.
Qed.

Lemma while_feeds p crc :
  bytes_ok p -> crc32_while (length p) p crc = Some (foldl feed crc (message_bits p)).
Proof.
  revert crc. induction p as [|b p IH]; intros crc Hp; [done|].
  inversion Hp; subst. cbn [length crc32_while].
  rewrite byte_feed, IH by done. by f_equal.
Qed.

Lemma feeds_fit l crc : fits 32 crc -> fits 32 (foldl feed crc l).
Proof. revert crc. induction l; simpl; auto using feed_fits. Qed.

(** ** Properties *)

(** C1: on every byte string shorter than 4 GiB, [crc32] stays inside the
    buffer and returns a 32-bit word whose reflected bits are the remainder of
    (message times x^32) by the CRC-32 generator polynomial. *)
Theorem crc32_is_remainder (p : list Z) :
  bytes_ok p -> fits 32 (zlen p) ->
  exists crc q, crc32 p (zlen p) = Some crc /\ fits 32 crc /\
    Z.shiftl (poly_of_bits (message_bits p)) 32 = Z.lxor (clmul q generator) (rev32 crc).
Proof.
  intros Hp Hl. assert (fits 32 0) as H0 by (unfold fits; lia).
  destruct (feeds_divide (message_bits p) 0 0 [] H0 eq_refl) as [q Hq].
  eexists _, q. split_and!; [|by apply (feeds_fit (message_bits p))|exact Hq].
  unfold crc32, u32. rewrite wrap_small by done. unfold zlen. rewrite Nat2Z.id.
  by apply while_feeds.
Qed.

Lemma crc32_is_remainder_witness :
  exists crc q, crc32 [0x31; 0x32; 0x33] 3 = Some crc /\ fits 32 crc /\
    Z.shiftl (poly_of_bits (message_bits [0x31; 0x32; 0x33])) 32
    = Z.lxor (clmul q generator) (rev32 crc).
Proof.
  apply (crc32_is_remainder [0x31; 0x32; 0x33]).
  - unfold bytes_ok. by apply (bool_decide_unpack _).
  - unfold fits, zlen. simpl. lia.
Defined.

Example crc32_check : crc32 (bytes_of_string "123456789") 9 = Some 0x2dfd2d88.
Proof. reflexivity. Qed.

Example main_usage : main ["crc32hash"] = Some ("no string passed as argument" +:+ nl, -1).
Proof. reflexivity. Qed.

End Crc32.
