(* ===== verification/Vrl4.v ===== *)
(** * The SH-Mobile boot image generator: Documentation/arm/SH-Mobile/vrl4.c

    The program copies a zImage from standard input to standard output behind a
    header sector for the mask ROM.  [do_read], [do_write] and [write_zero] are
    the loops of the source over partial reads and writes; [main] is the whole
    program.  [be] says whether the host is big-endian.

    The theorems are about every kernel that reads a given file from descriptor
    0 and accepts a prefix of what is written to descriptor 1. *)

From S2P Require Import Prelude Posix.

Module Vrl4.

Open Scope io_scope.

(** ** Data *)

Inductive call : Type :=
| Read (fd count : Z)
| Write (fd : Z) (buf : list Z).

Record hdr : Type := Hdr {
  magic1 : Z; reserved1 : Z; magic2 : Z; reserved2 : Z;
  copy_size : Z; boot_options : Z;
  reserved3 : Z; start_address : Z; reserved4 : Z; reserved5 : Z;
  reserved6 : list Z
}.

Definition ALIGN_BITS : Z := 9.
Definition ALIGN : Z := Z.shiftl 1 ALIGN_BITS.
Definition START_BASE : Z := 0xe55b0000.
Definition MAX_BOOT_PROG_LEN : Z := 16 * 512.
Definition ROUND_UP (x : Z) : Z := Z.land (x + ALIGN - 1) (Z.lnot (ALIGN - 1)).
Definition sizeof_hdr : Z := 344.

(** Host byte order: conversions and the bytes of a stored field. *)
Definition host16 (be : bool) (x : Z) : list Z :=
  if be then reverse (le_bytes 2 x) else le_bytes 2 x.
Definition host32 (be : bool) (x : Z) : list Z :=
  if be then reverse (le_bytes 4 x) else le_bytes 4 x.
Definition htole16 (be : bool) (x : Z) : Z :=
  if be then le_val (reverse (le_bytes 2 x)) else u16 x.
Definition htole32 (be : bool) (x : Z) : Z :=
  if be then le_val (reverse (le_bytes 4 x)) else u32 x.

Definition DECLARE_HDR (be : bool) : hdr :=
  {| magic1 := htole32 be 0xea000000;
     reserved1 := htole32 be 0x56;
     magic2 := htole32 be 0xe59ff008;
     reserved2 := 0;
     copy_size := 0; boot_options := 0;
     reserved3 := htole16 be 0x1;
     start_address := 0; reserved4 := 0; reserved5 := 0;
     reserved6 := replicate 308 0 |}.

(** The object representation of the structure; it has no padding. *)
Definition hdr_bytes (be : bool) (h : hdr) : list Z :=
  host32 be (magic1 h) ++ host32 be (reserved1 h) ++ host32 be (magic2 h) ++
  host32 be (reserved2 h) ++ host16 be (copy_size h) ++ host16 be (boot_options h) ++
  host32 be (reserved3 h) ++ host32 be (start_address h) ++ host32 be (reserved4 h) ++
  host32 be (reserved5 h) ++ reserved6 h.

(** ** The program *)

Definition again (e : Z) : bool := (e =? EAGAIN) || (e =? EWOULDBLOCK).

(** Returns the number of bytes and the bytes stored in the buffer. *)
Fixpoint do_read_loop (fuel : nat) (fd count offset : Z) (buf : list Z)
    : io call unit (Z * list Z) :=
  match fuel with
  | O => nofuel
  | S fuel' =>
      if offset <? count then
        let* a := sys (Read fd (count - offset)) in
        if ret a =? 0 then io_ret (offset, buf)
        else if ret a <? 0 then
          if again (errno a) then do_read_loop fuel' fd count offset buf
          else io_ret (-1, buf)
        else do_read_loop fuel' fd count (offset + ret a) (buf ++ data a)
      else io_ret (offset, buf)
  end.

Definition do_read (fuel : nat) (fd count : Z) : io call unit (Z * list Z) :=
  do_read_loop fuel fd count 0 [].

Fixpoint do_write_loop (fuel : nat) (fd : Z) (buf : list Z) (count offset : Z)
    : io call unit Z :=
  match fuel with
  | O => nofuel
  | S fuel' =>
      if offset <? count then
        let* a := sys (Write fd (zdrop offset (ztake count buf))) in
        if ret a <? 0 then
          if again (errno a) then do_write_loop fuel' fd buf count offset
          else io_ret (-1)
        else do_write_loop fuel' fd buf count (offset + ret a)
      else io_ret offset
  end.

Definition do_write (fuel : nat) (fd : Z) (buf : list Z) (count : Z) : io call unit Z :=
  do_write_loop fuel fd buf count 0.

Fixpoint write_zero_loop (fuel : nat) (fd : Z) (i : nat) (len : Z) : io call unit Z :=
  match i with
  | O => io_ret len
  | S i' =>
      let* r := do_write fuel fd [0] 1 in
      if r <? 0 then io_ret (-1) else write_zero_loop fuel fd i' len
  end.

Definition write_zero (fuel : nat) (fd len : Z) : io call unit Z :=
  write_zero_loop fuel fd (Z.to_nat len) len.

(** [while (1)]: write out the rest of the kernel. *)
Fixpoint copy_rest (fuel n : nat) : io call unit Z :=
  match n with
  | O => nofuel
  | S n' =>
      let* (prog_len, boot_program) := do_read fuel 0 MAX_BOOT_PROG_LEN in
      if prog_len <? 0 then io_ret 1
      else if prog_len =? 0 then io_ret 0
      else
        let* r := do_write fuel 1 boot_program prog_len in
        if r <? 0 then io_ret 1 else copy_rest fuel n'
  end.

Definition main (be : bool) (fuel : nat) : io call unit Z :=
  let* (prog_len, boot_program) := do_read fuel 0 MAX_BOOT_PROG_LEN in
  if prog_len <=? 0 then io_ret (-1)
  else
    let aligned_hdr_len := ROUND_UP sizeof_hdr in
    let alligned_prog_len := ROUND_UP prog_len in
    let h0 := DECLARE_HDR be in
    let h :=
      {| magic1 := magic1 h0; reserved1 := reserved1 h0; magic2 := magic2 h0;
         reserved2 := reserved2 h0;
         copy_size := htole16 be (aligned_hdr_len + alligned_prog_len);
         boot_options := boot_options h0; reserved3 := reserved3 h0;
         start_address := htole32 be (START_BASE + aligned_hdr_len);
         reserved4 := reserved4 h0; reserved5 := reserved5 h0;
         reserved6 := reserved6 h0 |} in
    let* r := do_write fuel 1 (hdr_bytes be h) sizeof_hdr in
    if r <? 0 then io_ret (-1)
    else
      let* r := write_zero fuel 1 (aligned_hdr_len - sizeof_hdr) in
      if r <? 0 then io_ret (-1)
      else
        let* r := do_write fuel 1 boot_program prog_len in
        if r <? 0 then io_ret 1 else copy_rest fuel fuel.

(** ** What a run consumed and produced *)

Fixpoint consumed (h : list (event call)) : list Z :=
  match h with
  | [] => []
  | (Read 0 _, a) :: h' => consumed h' ++ (if 0 <? ret a then data a else [])
  | _ :: h' => consumed h'
  end.

Fixpoint written (h : list (event call)) : list Z :=
  match h with
  | [] => []
  | (Write 1 buf, a) :: h' => written h' ++ (if 0 <? ret a then ztake (ret a) buf else [])
  | _ :: h' => written h'
  end.

(** The image the mask ROM expects for a kernel of [n] bytes. *)
Definition image_header (be : bool) (n : Z) : list Z :=
  le_bytes 4 0xea000000 ++ le_bytes 4 0x56 ++ le_bytes 4 0xe59ff008 ++ le_bytes 4 0 ++
  le_bytes 2 (512 + align_up (Z.min n 8192) 512) ++ le_bytes 2 0 ++
  host32 be (htole16 be 1) ++ le_bytes 4 0xe55b0200 ++ le_bytes 4 0 ++ le_bytes 4 0 ++
  replicate 308 0.

(** The whole output: the header, zeros up to the sector boundary, the kernel. *)
Definition image (be : bool) (input : list Z) : list Z :=
  image_header be (zlen input) ++ replicate 168 0 ++ input.

(** POSIX [read] on a regular file holding [input]: an error, or the next bytes
    of the file, none only at its end. *)
Definition file_reader (K : kernel call) (input : list Z) : Prop :=
  forall h count rest,
    input = consumed h ++ rest -> 0 < count ->
    ret (K h (Read 0 count)) < 0 \/
    exists rest', rest = data (K h (Read 0 count)) ++ rest' /\
      ret (K h (Read 0 count)) = zlen (data (K h (Read 0 count))) /\
      ret (K h (Read 0 count)) <= count /\
      (ret (K h (Read 0 count)) = 0 -> rest' = []).

(** POSIX [write] accepts at most what it is given. *)
Definition partial_writer (K : kernel call) : Prop :=
  forall h buf, ret (K h (Write 1 buf)) <= zlen buf.

(** The calls of a history that came to nothing: reads and writes that failed, writes that
    accepted nothing. *)
Definition stalled (e : event call) : bool :=
  match e with
  | (Read _ _, a) => ret a <? 0
  | (Write _ _, a) => ret a <=? 0
  end.

Definition stalls (h : list (event call)) : Z := zlen (List.filter stalled h).

(** A kernel that fails only with EAGAIN or EWOULDBLOCK, and comes to nothing at most [n]
    times in a run, whenever that may be. *)
Definition transient (n : Z) (K : kernel call) : Prop :=
  (forall h count, 0 < count ->
    0 <= ret (K h (Read 0 count)) \/ again (errno (K h (Read 0 count))) = true /\ stalls h < n) /\
  (forall h buf, 0 < zlen buf ->
    let a := K h (Write 1 buf) in
    0 < ret a \/ (ret a = 0 \/ again (errno a) = true) /\ stalls h < n).

Lemma stalls_cons e h : stalls (e :: h) = stalls h + (if stalled e then 1 else 0).
Proof. unfold stalls. cbn. destruct (stalled e); unfold zlen; cbn [length]; lia. Qed.

Lemma stalls_nonneg h : 0 <= stalls h.
Proof. apply zlen_nonneg. Qed.

Section Correct.
Context (K : kernel call) (input : list Z) (n : Z).
Hypothesis reads_file : file_reader K input.
Hypothesis writes_some : partial_writer K.

Lemma do_read_loop_spec fuel count off buf h rest :
  0 <= off <= count -> input = consumed h ++ rest ->
  wp (do_read_loop fuel 0 count off buf) K tt h (fun o _ h' =>
    match o with
    | Ret (k, buf') =>
        written h' = written h /\
        (k = -1 /\ ~ transient n K \/
         exists got rest', buf' = buf ++ got /\ consumed h' = consumed h ++ got /\
           rest = got ++ rest' /\ k = off + zlen got /\ k <= count /\
           (k = count \/ rest' = []))
    | NoFuel => transient n K -> Z.of_nat fuel <= count - off + Z.max 0 (n - stalls h)
    | _ => False
    end).
Proof.
  revert off buf h rest. induction fuel as [|fuel IH]; intros off buf h rest Hoff Hin; simpl.
  { apply wp_nofuel. lia. }
  assert (forall h', written h' = written h -> consumed h' = consumed h ->
    off = count \/ rest = [] ->
    written h' = written h /\ (off = -1 /\ ~ transient n K \/
      exists got rest', buf = buf ++ got /\ consumed h' = consumed h ++ got /\
        rest = got ++ rest' /\ off = off + zlen got /\ off <= count /\
        (off = count \/ rest' = []))) as Hstop.
  { intros h' Hw Hc Hs. split; [done|]. right. exists [], rest.
    rewrite !app_nil_r. split_and!; try done; unfold zlen; simpl; lia. }
  destruct (Z.ltb_spec off count) as [Hlt|Hge]; [|apply wp_ret, Hstop; auto; lia].
  apply wp_bind, wp_sys. cbn [wp_k].
  pose proof (reads_file h (count - off) rest Hin ltac:(lia)) as Ha.
  set (a := K h (Read 0 (count - off))) in *.
  destruct (Z.eqb_spec (ret a) 0) as [H0|H0].
  - apply wp_ret, Hstop; simpl; [done|by rewrite H0, app_nil_r|].
    destruct Ha as [?|(rest' & -> & Hr & _ & Hr0)]; [lia|]. right.
    rewrite Hr0 by done. rewrite H0 in Hr. unfold zlen in Hr.
    by rewrite app_nil_r, (nil_length_inv (data a)) by lia.
  - destruct (Z.ltb_spec (ret a) 0) as [Hneg|Hpos].
    + assert (transient n K -> again (errno a) = true /\ stalls h < n) as Hgood.
      { intros [Hr _]. specialize (Hr h (count - off)). fold a in Hr. destruct Hr; [lia|lia|done]. }
      destruct (again (errno a)).
      * eapply wp_wand; [apply (IH off buf _ rest Hoff)|];
          simpl; rewrite (proj2 (Z.ltb_ge 0 _)), app_nil_r by lia; [done|].
        intros [[k buf']| | |] [] h'; try done. rewrite stalls_cons. cbn [stalled].
        rewrite (proj2 (Z.ltb_lt (ret a) 0)) by done. intros HQ Hh. specialize (HQ Hh). destruct (Hgood Hh). lia.
      * apply wp_ret. simpl. split; [done|]. left. split; [done|]. intros [? _]%Hgood. done.
    + destruct Ha as [?|(rest' & -> & Hr & Hle & _)]; [lia|].
      eapply wp_wand.
      * apply (IH (off + ret a) (buf ++ data a) _ rest'); [lia|].
        simpl. rewrite (proj2 (Z.ltb_lt 0 _)) by lia. by rewrite <- app_assoc.
      * intros [[k buf']| | |] _ h' HQ; try done.
        2: { intros Hh. specialize (HQ Hh). rewrite stalls_cons in HQ. destruct (stalled _) in HQ; lia. }
        simpl in HQ. rewrite (proj2 (Z.ltb_lt 0 _)) in HQ by lia.
        destruct HQ as [Hw [[-> ?]|(got & r & -> & Hc & -> & -> & Hn & Hs)]]; [by auto|].
        split; [done|]. right. exists (data a ++ got), r.
        rewrite Hc, zlen_app, !app_assoc. split_and!; try done; lia.
Qed.

Lemma do_write_loop_spec fuel buf count off h :
  0 <= off <= count -> count <= zlen buf ->
  wp (do_write_loop fuel 1 buf count off) K tt h (fun o _ h' =>
    match o with
    | Ret r =>
        consumed h' = consumed h /\
        (r = -1 /\ ~ transient n K \/
         r = count /\ written h' = written h ++ zdrop off (ztake count buf))
    | NoFuel => transient n K -> Z.of_nat fuel <= count - off + Z.max 0 (n - stalls h)
    | _ => False
    end).
Proof.
  revert off h. induction fuel as [|fuel IH]; intros off h Hoff Hb; simpl.
  { apply wp_nofuel. lia. }
  destruct (Z.ltb_spec off count) as [Hlt|Hge].
  2: { apply wp_ret. assert (off = count) as -> by lia. split; [done|]. right.
       split; [done|]. rewrite (nil_length_inv (zdrop _ _)), app_nil_r; [done|].
       apply Nat2Z.inj. fold (zlen (zdrop count (ztake count buf))).
       rewrite zlen_zdrop; rewrite zlen_ztake; lia. }
  apply wp_bind, wp_sys. cbn [wp_k].
  set (rest := zdrop off (ztake count buf)). pose proof (writes_some h rest) as Ha.
  assert (zlen rest = count - off) as Hrest
    by (unfold rest; rewrite zlen_zdrop; rewrite zlen_ztake; lia).
  set (a := K h (Write 1 rest)) in *.
  assert (transient n K -> 0 < ret a \/ (ret a = 0 \/ again (errno a) = true) /\ stalls h < n) as Hgood
    by (intros [_ Hw]; apply Hw; lia).
  destruct (Z.ltb_spec (ret a) 0) as [Hneg|Hpos].
  - destruct (again (errno a)).
    2: { apply wp_ret. split; [done|]. left. split; [done|]. intros [?|[[?|?] _]]%Hgood; (lia || done). }
    eapply wp_wand; [apply (IH off _ Hoff Hb)|].
    simpl. rewrite (proj2 (Z.ltb_ge 0 _)), app_nil_r by lia. intros [r| | |] [] h'; try done.
    rewrite stalls_cons. cbn [stalled]. rewrite (proj2 (Z.leb_le (ret a) 0)) by lia.
    intros HQ Hh. specialize (HQ Hh). destruct (Hgood Hh) as [?|[_ ?]]; lia.
  - eapply wp_wand; [apply (IH (off + ret a)); lia|].
    intros [r| | |] _ h' HQ; try done.
    2: { intros Hh. specialize (HQ Hh). specialize (Hgood Hh). rewrite stalls_cons in HQ. cbn [stalled] in HQ.
         destruct (Z.leb_spec (ret a) 0) in HQ; destruct Hgood as [?|[_ ?]]; lia. }
    destruct HQ as [Hc [[-> ?]|[-> Hw]]]; [by auto|].
    split; [done|]. right. split; [done|]. rewrite Hw. cbn [written].
    rewrite <- app_assoc. f_equal.
    replace (zdrop (off + ret a) (ztake count buf)) with (zdrop (ret a) rest).
    2: { unfold rest, zdrop. rewrite drop_drop. f_equal. lia. }
    destruct (Z.ltb_spec 0 (ret a)); [apply ztake_zdrop|].
    by replace (ret a) with 0 by lia.
Qed.

Lemma write_zero_loop_spec fuel i len h :
  0 <= len ->
  wp (write_zero_loop fuel 1 i len) K tt h (fun o _ h' =>
    match o with
    | Ret r =>
        consumed h' = consumed h /\
        (r = -1 /\ ~ transient n K \/ r = len /\ written h' = written h ++ replicate i 0)
    | NoFuel => transient n K -> Z.of_nat fuel <= 1 + Z.max 0 n
    | _ => False
    end).
Proof.
  intros Hlen. revert h. induction i as [|i IH]; intros h; simpl.
  { apply wp_ret. split; [done|]. right. by rewrite app_nil_r. }
  apply wp_bind. eapply wp_wand.
  { apply do_write_loop_spec; unfold zlen; simpl; lia. }
  intros [r| | |] [] h1; simpl; try done; [|pose proof (stalls_nonneg h); intros HQ Hh; specialize (HQ Hh); lia].
  intros [Hc [[-> ?]|[-> Hw]]]; [by apply wp_ret; auto|].
  eapply wp_wand; [apply IH|].
  intros [r| | |] [] h2; simpl; try done.
  intros [Hc2 [[-> ?]|[-> Hw2]]]; rewrite Hc2, Hc; [by auto|].
  split; [done|]. right. split; [done|]. by rewrite Hw2, Hw, <- app_assoc.
Qed.

Lemma copy_rest_spec fuel m h rest :
  input = consumed h ++ rest ->
  wp (copy_rest fuel m) K tt h (fun o _ h' =>
    match o with
    | Ret r =>
        r = 1 /\ ~ transient n K \/
        r = 0 /\ consumed h' = input /\ written h' = written h ++ rest
    | NoFuel => transient n K -> Z.of_nat fuel <= MAX_BOOT_PROG_LEN + Z.max 0 n \/ Z.of_nat m <= zlen rest
    | _ => False
    end).
Proof.
  revert h rest. induction m as [|m IH]; intros h rest Hin; cbn [copy_rest].
  { apply wp_nofuel. right. unfold zlen. lia. }
  apply wp_bind. eapply wp_wand; [by apply do_read_loop_spec|].
  intros [[len buf]| | |] [] h1; simpl; try done; [|pose proof (stalls_nonneg h); intros HQ Hh; left; specialize (HQ Hh); lia].
  intros [Hw [[-> ?]|(got & rest' & -> & Hc & -> & -> & Hn & Hs)]]; [by apply wp_ret; auto|].
  pose proof (zlen_nonneg got) as Hg. rewrite (proj2 (Z.ltb_ge _ _)) by lia.
  destruct (Z.eqb_spec (0 + zlen got) 0) as [H0|H0].
  { assert (got = []) as -> by (apply nil_length_inv; unfold zlen in H0; lia).
    apply wp_ret. right. destruct Hs as [Hs|Hs]; [by vm_compute in Hs|].
    rewrite Hw, Hc, Hin, Hs. by rewrite !app_nil_r. }
  apply wp_bind. eapply wp_wand; [apply do_write_loop_spec; lia|].
  intros [r| | |] [] h2; simpl; try done; [|pose proof (stalls_nonneg h1); intros HQ Hh; left; specialize (HQ Hh); lia].
  intros [Hc2 [[-> ?]|[-> Hw2]]]; [by apply wp_ret; auto|].
  rewrite (proj2 (Z.ltb_ge _ _)) by lia.
  eapply wp_wand; [apply (IH h2 rest')|].
  { by rewrite Hc2, Hc, <- app_assoc. }
  intros [r| | |] [] h3; simpl; try done;
    [|intros HQ Hh; destruct (HQ Hh); [by left|right; rewrite zlen_app; lia]].
  intros [[-> ?]|(-> & Hc3 & Hw3)]; [by auto|]. right. split_and!; try done.
  rewrite Hw3, Hw2, Hw, <- app_assoc. f_equal. f_equal.
  unfold zdrop, ztake. rewrite drop_0, take_ge by (unfold zlen; lia). done.
Qed.

End Correct.

(** *** The header *)

Lemma le_bytes_val l : bytes_ok l -> le_bytes (length l) (le_val l) = l.
Proof.
  intros Hl. unfold le_bytes, le_val. apply Z_to_little_endian_to_Z; [done|lia|].
  eapply Forall_impl; [exact Hl|]. intros b Hb. by unfold byte_ok in Hb.
Qed.

Lemma le_bytes_mod n x : le_bytes n (x mod 2 ^ (8 * Z.of_nat n)) = le_bytes n x.
Proof.
  rewrite <- le_val_bytes. rewrite <- (length_le_bytes n x) at 1.
  apply le_bytes_val, le_bytes_ok.
Qed.

Lemma le_bytes_val_reverse n x :
  reverse (le_bytes n (le_val (reverse (le_bytes n x)))) = le_bytes n x.
Proof.
  rewrite <- (reverse_involutive (le_bytes n x)) at 2. f_equal.
  rewrite <- (length_le_bytes n x) at 1. rewrite <- length_reverse.
  apply le_bytes_val. apply Forall_reverse, le_bytes_ok.
Qed.

Lemma host32_htole32 be x : host32 be (htole32 be x) = le_bytes 4 x.
Proof. destruct be; [apply le_bytes_val_reverse|apply (le_bytes_mod 4)]. Qed.

Lemma host16_htole16 be x : host16 be (htole16 be x) = le_bytes 2 x.
Proof. destruct be; [apply le_bytes_val_reverse|apply (le_bytes_mod 2)]. Qed.

Lemma host32_0 be : host32 be 0 = le_bytes 4 0.
Proof. by destruct be. Qed.

Lemma host16_0 be : host16 be 0 = le_bytes 2 0.
Proof. by destruct be. Qed.

(** ** Properties *)

#[local] Arguments image : simpl never.
#[local] Arguments replicate : simpl never.

Lemma main_spec be fuel K input n :
  file_reader K input -> partial_writer K ->
  wp (main be fuel) K tt [] (fun o _ h' =>
    match o with
    | Ret r =>
        (r = -1 \/ r = 1) /\ (~ transient n K \/ input = []) \/
        r = 0 /\ input <> [] /\ consumed h' = input /\
        written h' = image be input
    | NoFuel =>
        transient n K -> Z.of_nat fuel <= MAX_BOOT_PROG_LEN + Z.max 0 n \/ Z.of_nat fuel <= zlen input
    | _ => False
    end).
Proof.
  intros HR HW. pose proof stalls_nonneg as Hst. unfold main.
  apply wp_bind. eapply wp_wand; [by apply (do_read_loop_spec K input n) with (rest := input)|].
  intros [[len buf]| | |] [] h1; simpl; try done; [|intros HQ Hh; left; specialize (HQ Hh); specialize (Hst []); lia].
  intros [Hw [[-> ?]|(got & rest & -> & Hc & Hin & -> & Hn & Hs)]];
    [by apply wp_ret; auto|].
  pose proof (zlen_nonneg got) as Hg.
  destruct (Z.leb_spec (0 + zlen got) 0) as [H0|H0].
  { apply wp_ret. left. split; [auto|]. right.
    assert (got = []) as -> by (apply nil_length_inv; unfold zlen in H0; lia).
    rewrite Hin. destruct Hs as [Hs|Hs]; [by vm_compute in Hs|by rewrite Hs]. }
  set (hb := hdr_bytes _ _).
  assert (hb = image_header be (zlen input)) as Hhb.
  { unfold hb, image_header, hdr_bytes, DECLARE_HDR.
    cbn [magic1 reserved1 magic2 reserved2 copy_size boot_options reserved3
         start_address reserved4 reserved5 reserved6].
    rewrite !host32_htole32, host16_htole16, !host32_0, host16_0.
    change (ROUND_UP sizeof_hdr) with 512. change (START_BASE + 512) with 0xe55b0200.
    replace (ROUND_UP (0 + zlen got)) with (align_up (Z.min (zlen input) 8192) 512);
      [done|].
    change (ROUND_UP (0 + zlen got)) with (align_up (0 + zlen got) 512).
    f_equal. rewrite Hin, zlen_app. unfold MAX_BOOT_PROG_LEN in *.
    destruct Hs as [Hs|Hs]; subst; unfold zlen in *; simpl; lia. }
  assert (zlen hb = sizeof_hdr) as Hlen by (rewrite Hhb; by destruct be).
  apply wp_bind. eapply wp_wand; [apply (do_write_loop_spec K n); [done|done|lia]|].
  intros [r| | |] [] h2; simpl; try done;
    [|intros HQ Hh; left; specialize (HQ Hh); specialize (Hst h1); unfold MAX_BOOT_PROG_LEN, sizeof_hdr in *; lia].
  intros [Hc2 [[-> ?]|[-> Hw2]]]; [by apply wp_ret; auto|].
  change (sizeof_hdr <? 0) with false. cbv iota.
  change (ROUND_UP sizeof_hdr - sizeof_hdr) with 168.
  apply wp_bind. eapply wp_wand; [by apply (write_zero_loop_spec K n)|].
  intros [r| | |] [] h3; simpl; try done;
    [|intros HQ Hh; left; specialize (HQ Hh); unfold MAX_BOOT_PROG_LEN in *; lia].
  intros [Hc3 [[-> ?]|[-> Hw3]]]; [by apply wp_ret; auto|].
  change (168 <? 0) with false. cbv iota.
  apply wp_bind. eapply wp_wand; [apply (do_write_loop_spec K n); [done|lia|lia]|].
  intros [r| | |] [] h4; simpl; try done; [|intros HQ Hh; left; specialize (HQ Hh); specialize (Hst h3); lia].
  intros [Hc4 [[-> ?]|[-> Hw4]]]; [by apply wp_ret; auto|].
  rewrite (proj2 (Z.ltb_ge _ _)) by lia.
  eapply wp_wand; [by apply (copy_rest_spec K input n) with (rest := rest);
    [..|rewrite Hc4, Hc3, Hc2, Hc]|].
  intros [r| | |] [] h5; simpl; try done;
    [|intros HQ Hh; destruct (HQ Hh); [by left|right; rewrite Hin, zlen_app; lia]].
  intros [[-> ?]|(-> & Hc5 & Hw5)]; [by auto|]. right. split_and!; try done.
  - intros ->. destruct got; [by simpl in H0|done].
  - rewrite Hw5, Hw4, Hw3, Hw2, Hw. unfold image. rewrite <- Hhb. simpl.
    rewrite <- !app_assoc, Hin. f_equal; [|f_equal; f_equal].
    + unfold zdrop, ztake. rewrite drop_0, take_ge; [done|]. unfold zlen in Hlen. lia.
    + unfold zdrop, ztake. rewrite drop_0, take_ge; [done|]. unfold zlen. lia.
Qed.

Lemma image_of_run be fuel K input h :
  file_reader K input -> partial_writer K ->
  main be fuel K tt [] = (Ret 0, tt, h) ->
  input <> [] /\ consumed h = input /\ written h = image be input.
Proof.
  intros HR HW E. pose proof (wp_elim _ _ _ _ _ _ _ _ (main_spec be fuel K input 0 HR HW) E) as H.
  simpl in H. destruct H as [[[|] _]|[_ H]]; [done|done|exact H].
Qed.

(** C6: on every kernel that reads the file [input] and accepts partial writes,
    if the program exits with status 0 then standard input was consumed to its
    end and standard output holds exactly the header sector (344 header bytes
    and 168 zeros) followed by the unmodified input. *)
Theorem image_correct be fuel K input h :
  file_reader K input -> partial_writer K ->
  main be fuel K tt [] = (Ret 0, tt, h) ->
  input <> [] /\ consumed h = input /\
  written h = image be input.
Proof. apply image_of_run. Qed.

(** C7: when the kernel fails only transiently, with EAGAIN or EWOULDBLOCK, and at most
    [n] reads and writes of the run come to nothing, at whatever places, the program
    terminates with status 0 on every non-empty input, with loop fuel above the buffer
    size plus [n] and above the input length; by then the whole image is written. *)
Theorem main_terminates be fuel K input n :
  file_reader K input -> partial_writer K -> transient n K -> 0 <= n -> input <> [] ->
  MAX_BOOT_PROG_LEN + n < Z.of_nat fuel -> zlen input < Z.of_nat fuel ->
  exists h, main be fuel K tt [] = (Ret 0, tt, h) /\ consumed h = input /\ written h = image be input.
Proof.
  intros HR HW HT H0 Hne Hf Hl. pose proof (main_spec be fuel K input n HR HW) as H. unfold wp in H.
  destruct (main be fuel K tt []) as [[[r| | |] []] h]; try done.
  - destruct H as [[_ [?|?]]|(-> & _ & ? & ?)]; [done|done|by exists h].
  - destruct (H HT); lia.
Qed.

(** Field of [n] bytes at offset [off] of the output, little-endian. *)
Definition field (off n : nat) (out : list Z) : Z := le_val (take n (drop off out)).

Lemma field_app off n a b c :
  length a = off -> length b = n -> field off n (a ++ b ++ c) = le_val b.
Proof. intros <- <-. unfold field. by rewrite drop_app_length, take_app_length. Qed.

Lemma image_reserved3 be input : field 20 4 (image be input) = if be then 0x10000 else 1.
Proof.
  unfold image, image_header. rewrite <- !app_assoc. do 5 rewrite app_assoc.
  rewrite field_app; [by destruct be|by rewrite !length_app, !length_le_bytes|by destruct be].
Qed.

Lemma image_copy_size be input :
  field 16 2 (image be input) = 512 + align_up (Z.min (zlen input) 8192) 512.
Proof.
  unfold image, image_header. rewrite <- !app_assoc. do 3 rewrite app_assoc.
  rewrite field_app by by rewrite ?length_app, ?length_le_bytes.
  rewrite le_val_bytes. apply Z.mod_small. pose proof (zlen_nonneg input).
  destruct (align_up_spec (Z.min (zlen input) 8192) 9) as [? _]; [lia|].
  change (2 ^ 9) with 512 in *. change (2 ^ (8 * Z.of_nat 2)) with 65536. lia.
Qed.

(** The header of a successful run.  The mask ROM is told to load the header
    sector and the boot program, rounded up to whole sectors: at least
    [512 + min (size, 8192)] bytes, less than one sector more, at most 17
    sectors, so the 16-bit field does not overflow.  The top comment's
    [min (size, 8192) + ALIGN] is exact only for whole sectors.  The 32-bit word
    [reserved3], converted with [htole16], is 1 on a little-endian host and
    0x10000 on a big-endian one. *)
Theorem header_fields be fuel K input h :
  file_reader K input -> partial_writer K ->
  main be fuel K tt [] = (Ret 0, tt, h) ->
  let boot := Z.min (zlen input) MAX_BOOT_PROG_LEN in
  field 16 2 (written h) mod ALIGN = 0 /\
  boot + ALIGN <= field 16 2 (written h) < boot + 2 * ALIGN /\
  field 16 2 (written h) <= 17 * ALIGN /\
  (field 16 2 (written h) = boot + ALIGN <-> boot mod ALIGN = 0) /\
  field 20 4 (written h) = (if be then 0x10000 else 1).
Proof.
  intros HR HW E boot. destruct (image_of_run be fuel K input h HR HW E) as (_ & _ & ->).
  rewrite image_copy_size, image_reserved3. change 8192 with MAX_BOOT_PROG_LEN. fold boot.
  change ALIGN with 512. destruct (align_up_spec boot 9) as [Hb Hm]; [lia|].
  change (2 ^ 9) with 512 in *.
  assert (boot <= 8192) by (unfold boot, MAX_BOOT_PROG_LEN; lia).
  set (u := align_up boot 512) in *. split_and!; try done.
  - rewrite <- Zplus_mod_idemp_r, Hm. done.
  - lia.
  - lia.
  - pose proof (Z.div_mod u 512). lia.
  - split; intros Hx; [by replace boot with u by lia|].
    pose proof (Z.div_mod u 512). pose proof (Z.div_mod boot 512). lia.
Qed.

(** *** Witnesses: a kernel that serves a file and accepts every write *)

Definition file_kernel (input : list Z) : kernel call := fun h c =>
  match c with
  | Read _ count =>
      let chunk := ztake count (zdrop (zlen (consumed h)) input) in
      Ans (zlen chunk) 0 chunk
  | Write _ buf => aret (zlen buf)
  end.

Lemma file_kernel_ok input :
  file_reader (file_kernel input) input /\ partial_writer (file_kernel input).
Proof.
  split_and!.
  - intros h count rest Hin Hc. right. simpl.
    replace (zdrop (zlen (consumed h)) input) with rest.
    2: { rewrite Hin. unfold zdrop, zlen. by rewrite Nat2Z.id, drop_app_length. }
    exists (zdrop count rest). split_and!; [by rewrite ztake_zdrop|done| |].
    + unfold zlen, ztake. rewrite length_take. lia.
    + unfold zlen, ztake, zdrop. rewrite length_take. intros H0. apply nil_length_inv.
      rewrite length_drop. lia.
  - intros h buf. simpl. lia.
Qed.

(** The same, but the first read and the first two writes fail with EAGAIN. *)
Definition flaky_kernel (input : list Z) : kernel call := fun h c =>
  match c with
  | Read _ _ => if stalls h <? 1 then aerr EAGAIN else file_kernel input h c
  | Write _ _ => if stalls h <? 3 then aerr EAGAIN else file_kernel input h c
  end.

Lemma flaky_kernel_ok input :
  file_reader (flaky_kernel input) input /\ partial_writer (flaky_kernel input) /\ transient 3 (flaky_kernel input).
Proof.
  destruct (file_kernel_ok input) as [HR HW]. split_and!.
  - intros h count rest Hin Hc. cbn [flaky_kernel]. destruct (stalls h <? 1); [by left|]. by apply HR.
  - intros h buf. cbn [flaky_kernel]. pose proof (zlen_nonneg buf). destruct (stalls h <? 3); [cbn; lia|]. apply HW.
  - split; cbn [flaky_kernel]; intros h.
    + intros count _. destruct (Z.ltb_spec (stalls h) 1); [right; split; [done|lia]|]. left. apply zlen_nonneg.
    + intros buf Hb. destruct (Z.ltb_spec (stalls h) 3); [right; split; [by right|lia]|]. by left.
Qed.

Definition sample : list Z := [0xde; 0xad; 0xbe; 0xef].

Lemma image_correct_witness :
  let r := main false 400 (file_kernel sample) tt [] in
  sample <> [] /\ consumed r.2 = sample /\ written r.2 = image false sample.
Proof.
  destruct (file_kernel_ok sample) as [HR HW].
  apply (image_correct false 400 (file_kernel sample) sample); [done|done|].
  vm_compute. reflexivity.
Defined.

Lemma main_terminates_witness :
  exists h, main true (Z.to_nat 8196) (flaky_kernel sample) tt [] = (Ret 0, tt, h) /\
    consumed h = sample /\ written h = image true sample.
Proof.
  destruct (flaky_kernel_ok sample) as (HR & HW & HT).
  apply (main_terminates true (Z.to_nat 8196) (flaky_kernel sample) sample 3); try done.
Defined.

Lemma header_fields_witness :
  field 16 2 (written (main true 400 (file_kernel sample) tt []).2) mod ALIGN = 0.
Proof.
  destruct (file_kernel_ok sample) as [HR HW].
  apply (header_fields true 400 (file_kernel sample) sample
           (main true 400 (file_kernel sample) tt []).2); [done|done|].
  vm_compute. reflexivity.
Defined.

End Vrl4.
