(* ===== verification/ParseVdso.v ===== *)
(** * The reference vDSO parser: Documentation/vDSO/parse_vdso.c

    The parser walks an ELF image in the process's memory.  Memory is a partial
    map from addresses to bytes; a load outside it is a [Crash].  The static
    [vdso_info] is a record passed through the functions.  The build is the
    64-bit one (ELF_BITS = 64) on a little-endian machine, except that
    [elf_hash] takes the width of [unsigned long].

    Loops over data of unknown length (dynamic section, hash chain, version
    definitions, auxiliary vector) take fuel; the theorems say how much is
    enough. *)

From S2P Require Import Prelude Posix.

Module ParseVdso.

Open Scope out_scope.

(** ** Memory *)

Definition mem : Type := Z -> option Z.

Fixpoint ld (m : mem) (n : nat) (a : Z) : outcome Z :=
  match n with
  | O => Ret 0
  | S n' =>
      match m a with
      | Some b => let! r := ld m n' (u64 (a + 1)) in Ret (b + 256 * r)
      | None => Crash
      end
  end.

(** [strcmp (s, p) == 0], [s] without its terminator, [p] in memory. *)
Fixpoint streq (m : mem) (s : list Z) (p : Z) : outcome bool :=
  let! b := ld m 1 p in
  match s with
  | [] => Ret (b =? 0)
  | c :: s' => if b =? c then streq m s' (u64 (p + 1)) else Ret false
  end.

(** ** ELF64 layout and constants (elf.h) *)

Definition ELFCLASS64 := 2.
Definition EI_CLASS := 4.
Definition PT_LOAD := 1.
Definition PT_DYNAMIC := 2.
Definition DT_NULL := 0.
Definition DT_HASH := 4.
Definition DT_STRTAB := 5.
Definition DT_SYMTAB := 6.
Definition DT_VERSYM := 0x6ffffff0.
Definition DT_VERDEF := 0x6ffffffc.
Definition VER_FLG_BASE := 1.
Definition STN_UNDEF := 0.
Definition STT_FUNC := 2.
Definition STB_GLOBAL := 1.
Definition STB_WEAK := 2.
Definition SHN_UNDEF := 0.
Definition AT_NULL := 0.
Definition AT_SYSINFO_EHDR := 33.

Definition e_class m hdr := ld m 1 (u64 (hdr + EI_CLASS)).
Definition e_phoff m hdr := ld m 8 (u64 (hdr + 32)).
Definition e_phnum m hdr := ld m 2 (u64 (hdr + 56)).
Definition p_type m ph := ld m 4 ph.
Definition p_offset m ph := ld m 8 (u64 (ph + 8)).
Definition p_vaddr m ph := ld m 8 (u64 (ph + 16)).
Definition d_tag m d := ld m 8 d.
Definition d_ptr m d := ld m 8 (u64 (d + 8)).
Definition st_name m s := ld m 4 s.
Definition st_info m s := ld m 1 (u64 (s + 4)).
Definition st_shndx m s := ld m 2 (u64 (s + 6)).
Definition st_value m s := ld m 8 (u64 (s + 8)).
Definition vd_flags m d := ld m 2 (u64 (d + 2)).
Definition vd_ndx m d := ld m 2 (u64 (d + 4)).
Definition vd_hash m d := ld m 4 (u64 (d + 8)).
Definition vd_aux m d := ld m 4 (u64 (d + 12)).
Definition vd_next m d := ld m 4 (u64 (d + 16)).
Definition vda_name m a := ld m 4 a.
Definition word m p i := ld m 4 (u64 (p + 4 * i)).
Definition versym_at m p i := ld m 2 (u64 (p + 2 * i)).
Definition ELF64_ST_BIND (i : Z) : Z := Z.shiftr i 4.
Definition ELF64_ST_TYPE (i : Z) : Z := Z.land i 0xf.

(** ** State *)

Record vdso_info : Type := Info {
  valid : bool;
  load_addr : Z; load_offset : Z;
  symtab : Z; symstrings : Z;
  bucket : Z; chain : Z; nbucket : Z; nchain : Z;
  versym : Z; verdef : Z
}.

Definition set_valid b i := Info b (load_addr i) (load_offset i) (symtab i) (symstrings i)
  (bucket i) (chain i) (nbucket i) (nchain i) (versym i) (verdef i).
Definition set_load_addr a i := Info (valid i) a (load_offset i) (symtab i) (symstrings i)
  (bucket i) (chain i) (nbucket i) (nchain i) (versym i) (verdef i).
Definition set_load_offset o i := Info (valid i) (load_addr i) o (symtab i) (symstrings i)
  (bucket i) (chain i) (nbucket i) (nchain i) (versym i) (verdef i).
Definition set_symtab s i := Info (valid i) (load_addr i) (load_offset i) s (symstrings i)
  (bucket i) (chain i) (nbucket i) (nchain i) (versym i) (verdef i).
Definition set_symstrings s i := Info (valid i) (load_addr i) (load_offset i) (symtab i) s
  (bucket i) (chain i) (nbucket i) (nchain i) (versym i) (verdef i).
Definition set_hash_table b c nb nc i := Info (valid i) (load_addr i) (load_offset i)
  (symtab i) (symstrings i) b c nb nc (versym i) (verdef i).
Definition set_versym v i := Info (valid i) (load_addr i) (load_offset i) (symtab i)
  (symstrings i) (bucket i) (chain i) (nbucket i) (nchain i) v (verdef i).
Definition set_verdef v i := Info (valid i) (load_addr i) (load_offset i) (symtab i)
  (symstrings i) (bucket i) (chain i) (nbucket i) (nchain i) (versym i) v.

(** ** The hash *)

(** One turn of the loop, [unsigned long] being [w] bits wide. *)
Definition elf_hash_step (w h c : Z) : Z :=
  let h := wrap w (wrap w (Z.shiftl h 4) + c) in
  let g := Z.land h 0xf0000000 in
  let h := if truthy g then Z.lxor h (Z.shiftr g 24) else h in
  Z.ldiff h g.

Definition elf_hash (w : Z) (name : list Z) : Z := foldl (elf_hash_step w) 0 name.

(** ** Initialisation *)

(** The scan of the program headers: [i] is the index, [n] what is left. *)
Fixpoint scan_phdrs (m : mem) (base pt : Z) (n : nat) (i : Z)
    (found_vaddr : bool) (dyn : Z) (info : vdso_info) : outcome (bool * Z * vdso_info) :=
  match n with
  | O => Ret (found_vaddr, dyn, info)
  | S n' =>
      let ph := u64 (pt + 56 * i) in
      let! t := p_type m ph in
      if (t =? PT_LOAD) && negb found_vaddr then
        let! off := p_offset m ph in
        let! va := p_vaddr m ph in
        scan_phdrs m base pt n' (i + 1) true dyn
          (set_load_offset (u64 (base + off - va)) info)
      else if t =? PT_DYNAMIC then
        let! off := p_offset m ph in
        scan_phdrs m base pt n' (i + 1) found_vaddr (u64 (base + off)) info
      else scan_phdrs m base pt n' (i + 1) found_vaddr dyn info
  end.

(** The scan of the dynamic section, up to the DT_NULL entry. *)
Fixpoint scan_dyn (fuel : nat) (m : mem) (dyn i hash : Z) (info : vdso_info)
    : outcome (Z * vdso_info) :=
  match fuel with
  | O => NoFuel
  | S fuel' =>
      let d := u64 (dyn + 16 * i) in
      let! tag := d_tag m d in
      if tag =? DT_NULL then Ret (hash, info)
      else if tag =? DT_STRTAB then
        let! p := d_ptr m d in
        scan_dyn fuel' m dyn (i + 1) hash (set_symstrings (u64 (p + load_offset info)) info)
      else if tag =? DT_SYMTAB then
        let! p := d_ptr m d in
        scan_dyn fuel' m dyn (i + 1) hash (set_symtab (u64 (p + load_offset info)) info)
      else if tag =? DT_HASH then
        let! p := d_ptr m d in
        scan_dyn fuel' m dyn (i + 1) (u64 (p + load_offset info)) info
      else if tag =? DT_VERSYM then
        let! p := d_ptr m d in
        scan_dyn fuel' m dyn (i + 1) hash (set_versym (u64 (p + load_offset info)) info)
      else if tag =? DT_VERDEF then
        let! p := d_ptr m d in
        scan_dyn fuel' m dyn (i + 1) hash (set_verdef (u64 (p + load_offset info)) info)
      else scan_dyn fuel' m dyn (i + 1) hash info
  end.

Definition vdso_init_from_sysinfo_ehdr (fuel : nat) (m : mem) (base : Z) (info : vdso_info)
    : outcome vdso_info :=
  let info := set_load_addr base (set_valid false info) in
  let! c := e_class m base in
  if negb (c =? ELFCLASS64) then Ret info
  else
    let! phoff := e_phoff m base in
    let pt := u64 (load_addr info + phoff) in
    let! phnum := e_phnum m base in
    let! (found_vaddr, dyn, info) := scan_phdrs m base pt (Z.to_nat phnum) 0 false 0 info in
    if negb found_vaddr || (dyn =? 0) then Ret info
    else
      let info := set_verdef 0 (set_versym 0 (set_symtab 0 (set_symstrings 0 info))) in
      let! (hash, info) := scan_dyn fuel m dyn 0 0 info in
      if (symstrings info =? 0) || (symtab info =? 0) || (hash =? 0) then Ret info
      else
        let info := if verdef info =? 0 then set_versym 0 info else info in
        let! nb := word m hash 0 in
        let! nc := word m hash 1 in
        Ret (set_valid true
               (set_hash_table (u64 (hash + 4 * 2)) (u64 (hash + 4 * u32 (nb + 2))) nb nc info)).

Fixpoint scan_auxv (fuel n : nat) (m : mem) (auxv i : Z) (info : vdso_info)
    : outcome vdso_info :=
  match n with
  | O => NoFuel
  | S n' =>
      let e := u64 (auxv + 16 * i) in
      let! t := ld m 8 e in
      if t =? AT_NULL then Ret (set_valid false info)
      else if t =? AT_SYSINFO_EHDR then
        let! v := ld m 8 (u64 (e + 8)) in
        vdso_init_from_sysinfo_ehdr fuel m v info
      else scan_auxv fuel n' m auxv (i + 1) info
  end.

Definition vdso_init_from_auxv (fuel : nat) (m : mem) (auxv : Z) (info : vdso_info)
    : outcome vdso_info :=
  scan_auxv fuel fuel m auxv 0 info.

(** ** Lookup *)

Fixpoint find_verdef (fuel : nat) (m : mem) (ver def : Z) : outcome (option Z) :=
  match fuel with
  | O => NoFuel
  | S fuel' =>
      let! fl := vd_flags m def in
      let! ndx := vd_ndx m def in
      if (Z.land fl VER_FLG_BASE =? 0) && (Z.land ndx 0x7fff =? ver) then Ret (Some def)
      else
        let! nx := vd_next m def in
        if nx =? 0 then Ret None else find_verdef fuel' m ver (u64 (def + nx))
  end.

Definition vdso_match_version (fuel : nat) (m : mem) (info : vdso_info)
    (ver : Z) (name : list Z) (hash : Z) : outcome bool :=
  let ver := Z.land ver 0x7fff in
  let! d := find_verdef fuel m ver (verdef info) in
  match d with
  | None => Ret false
  | Some def =>
      let! aux_off := vd_aux m def in
      let aux := u64 (def + aux_off) in
      let! h := vd_hash m def in
      if h =? hash then
        let! n := vda_name m aux in
        streq m name (u64 (symstrings info + n))
      else Ret false
  end.

(** The tests of the loop body of [vdso_sym] on one symbol. *)
Definition sym_ok (fuel : nat) (m : mem) (info : vdso_info) (version name : list Z)
    (ver_hash ch : Z) : outcome bool :=
  let sym := u64 (symtab info + 24 * ch) in
  let! i := st_info m sym in
  if negb (ELF64_ST_TYPE i =? STT_FUNC) then Ret false
  else if negb (ELF64_ST_BIND i =? STB_GLOBAL) && negb (ELF64_ST_BIND i =? STB_WEAK) then Ret false
  else
    let! shndx := st_shndx m sym in
    if shndx =? SHN_UNDEF then Ret false
    else
      let! n := st_name m sym in
      let! eq := streq m name (u64 (symstrings info + n)) in
      if negb eq then Ret false
      else if negb (versym info =? 0) then
        let! v := versym_at m (versym info) ch in
        vdso_match_version fuel m info v version (u32 ver_hash)
      else Ret true.

Fixpoint sym_loop (fuel : nat) (m : mem) (info : vdso_info) (version name : list Z)
    (ver_hash ch : Z) : outcome Z :=
  match fuel with
  | O => NoFuel
  | S fuel' =>
      if ch =? STN_UNDEF then Ret 0
      else
        let! ok := sym_ok fuel m info version name ver_hash ch in
        if ok then
          let! v := st_value m (u64 (symtab info + 24 * ch)) in
          Ret (u64 (load_offset info + v))
        else
          let! nx := word m (chain info) ch in
          sym_loop fuel' m info version name ver_hash nx
  end.

Definition vdso_sym (fuel : nat) (m : mem) (info : vdso_info) (version name : list Z)
    : outcome Z :=
  if negb (valid info) then Ret 0
  else if nbucket info =? 0 then Crash
  else
    let ver_hash := elf_hash 64 version in
    let! ch := word m (bucket info) (elf_hash 64 name mod nbucket info) in
    sym_loop fuel m info version name ver_hash ch.

(** ** The hash: bounds, and the two widths of [unsigned long] *)

(** The part of a step after the addition. *)
Definition fold_top (x : Z) : Z :=
  let g := Z.land x 0xf0000000 in Z.ldiff (Z.lxor x (Z.shiftr g 24)) g.

Lemma step_fold w h c : elf_hash_step w h c = fold_top (wrap w (wrap w (Z.shiftl h 4) + c)).
Proof.
  unfold elf_hash_step, fold_top. set (x := wrap w _). cbv zeta. f_equal.
  unfold truthy. destruct (Z.eqb_spec (Z.land x 0xf0000000) 0) as [->|]; [|done].
  simpl. by rewrite Z.shiftr_0_l, Z.lxor_0_r.
Qed.

Lemma mask_testbit i : 0 <= i -> Z.testbit 0xf0000000 i = (28 <=? i) && (i <? 32).
Proof.
  intros Hi. change 0xf0000000 with (Z.shiftl (Z.ones 4) 28).
  rewrite Z.shiftl_spec, Z.testbit_ones by lia. lia.
Qed.

Lemma fold_top_testbit x i :
  0 <= i ->
  Z.testbit (fold_top x) i =
  (xorb (Z.testbit x i) (Z.testbit x (i + 24) && (4 <=? i) && (i <? 8))) &&
  negb ((28 <=? i) && (i <? 32) && Z.testbit x i).
Proof.
  intros Hi. unfold fold_top. push_testbit. rewrite !mask_testbit by lia.
  replace (28 <=? i + 24) with (4 <=? i) by lia. replace (i + 24 <? 32) with (i <? 8) by lia.
  btauto.
Qed.

Lemma fold_top_nonneg x : 0 <= x -> 0 <= fold_top x.
Proof.
  intros Hx. unfold fold_top. apply Z.ldiff_nonneg. left. apply Z.lxor_nonneg.
  rewrite Z.shiftr_nonneg, Z.land_nonneg. lia.
Qed.

Lemma fold_top_fits x : fits 32 x -> fits 28 (fold_top x).
Proof.
  intros Hx. apply fits_bits; [lia|apply fold_top_nonneg; apply Hx|].
  intros i Hi. rewrite fold_top_testbit by lia.
  replace (i <? 8) with false by lia. replace (28 <=? i) with true by lia.
  destruct (Z.ltb_spec i 32); [btauto|].
  rewrite (fits_testbit_high 32 x i) by (done || lia). btauto.
Qed.

Lemma fold_top_u32 x : u32 (fold_top x) = fold_top (u32 x).
Proof.
  apply Z.bits_inj'. intros i Hi. unfold u32.
  rewrite wrap_testbit, !fold_top_testbit, !wrap_testbit by lia.
  destruct (Z.ltb_spec i 32) as [H|H].
  - destruct (Z.ltb_spec i 8) as [H8|H8]; [|btauto].
    replace (i + 24 <? 32) with true by lia. btauto.
  - replace (i <? 8) with false by lia. btauto.
Qed.

Lemma step_u32 h c : u32 (elf_hash_step 64 h c) = elf_hash_step 32 (u32 h) c.
Proof.
  rewrite !step_fold, fold_top_u32. f_equal. unfold u32, wrap.
  rewrite !Z.shiftl_mul_pow2 by lia.
  assert (forall z, (z mod 2 ^ 64) mod 2 ^ 32 = z mod 2 ^ 32) as E.
  { intros z. apply Z.mod_mod_divide. by exists (2 ^ 32). }
  rewrite E, <- Zplus_mod_idemp_l, E, Zplus_mod_idemp_l.
  rewrite Zplus_mod_idemp_l. rewrite <- (Zplus_mod_idemp_l (_ mod _ * _)).
  by rewrite Zmult_mod_idemp_l, Zplus_mod_idemp_l.
Qed.

Lemma elf_hash_u32 name : u32 (elf_hash 64 name) = elf_hash 32 name.
Proof.
  unfold elf_hash. change 0 with (u32 0) at 2. generalize 0 as h.
  induction name as [|c name IH]; intros h; [done|]. simpl. by rewrite IH, step_u32.
Qed.

Lemma elf_hash_32_fits name : fits 28 (elf_hash 32 name).
Proof.
  destruct name as [|c name _] using rev_ind; [done|].
  unfold elf_hash. rewrite foldl_app. simpl. rewrite step_fold.
  apply fold_top_fits, wrap_range. lia.
Qed.

(** With a 32-bit [unsigned long] the hash of every name is below 2^28, and
    the 64-bit hash agrees with it modulo 2^32.  It does not agree beyond that:
    the addition can carry into bit 32, which the loop never clears, and the
    64-bit hash, used unreduced for the bucket index, then differs from the hash
    the table was built with. *)
Theorem elf_hash_widths :
  (forall name, fits 28 (elf_hash 32 name) /\ u32 (elf_hash 64 name) = elf_hash 32 name) /\
  (exists name, Forall (fun c => 0 < c < 256) name /\
     elf_hash 64 name = 0x100000002 /\ elf_hash 32 name = 2).
Proof.
  split; [eauto using elf_hash_32_fits, elf_hash_u32|].
  exists [0xff; 0x0f; 0x0f; 0x0f; 0x0f; 0x0f; 0x12]. split; [|done].
  by repeat constructor.
Qed.

(** ** Lookup refines an abstract symbol table *)

Arguments ld : simpl never.

(** A NUL-terminated string in memory. *)
Fixpoint cstr (m : mem) (p : Z) (s : list Z) : Prop :=
  match s with
  | [] => ld m 1 p = Ret 0
  | c :: s' => ld m 1 p = Ret c /\ c <> 0 /\ cstr m (u64 (p + 1)) s'
  end.

Lemma streq_cstr m p s name :
  cstr m p s -> Forall (fun c => c <> 0) name -> streq m name p = Ret (bool_decide (name = s)).
Proof.
  revert p s. induction name as [|c name IH]; intros p s Hs Hn.
  - destruct s as [|d s]; simpl in *; [by rewrite Hs|].
    destruct Hs as (-> & Hd & _). simpl. by rewrite (proj2 (Z.eqb_neq _ _) Hd).
  - inversion Hn as [|? ? Hc Hn']; subst. destruct s as [|d s]; simpl in *.
    + rewrite Hs. unfold out_bind. by rewrite (proj2 (Z.eqb_neq 0 c)) by auto.
    + destruct Hs as (-> & Hd & Hs). simpl.
      destruct (Z.eqb_spec d c) as [->|Hdc].
      * rewrite (IH _ s) by done. f_equal. apply bool_decide_ext. naive_solver.
      * f_equal. symmetry. apply bool_decide_eq_false. naive_solver.
Qed.

(** A version definition and the linked list of them. *)
Record vdef : Type := VDef { v_flags : Z; v_ndx : Z; v_hash : Z; v_name : list Z }.

Inductive verdefs_at (m : mem) (info : vdso_info) : Z -> list vdef -> Prop :=
| verdefs_last d v aux n :
    vdef_at m info d v aux n -> vd_next m d = Ret 0 -> verdefs_at m info d [v]
| verdefs_next d v aux n nx vs :
    vdef_at m info d v aux n -> vd_next m d = Ret nx -> nx <> 0 ->
    verdefs_at m info (u64 (d + nx)) vs -> verdefs_at m info d (v :: vs)
with vdef_at (m : mem) (info : vdso_info) : Z -> vdef -> Z -> Z -> Prop :=
| vdef_here d v aux n :
    vd_flags m d = Ret (v_flags v) -> vd_ndx m d = Ret (v_ndx v) ->
    vd_hash m d = Ret (v_hash v) -> vd_aux m d = Ret aux ->
    vda_name m (u64 (d + aux)) = Ret n ->
    cstr m (u64 (symstrings info + n)) (v_name v) -> vdef_at m info d v aux n.

(** The definition a version index names: the first one that is not the base
    definition and carries the index. *)
Definition is_version (ver : Z) (v : vdef) : bool :=
  (Z.land (v_flags v) VER_FLG_BASE =? 0) && (Z.land (v_ndx v) 0x7fff =? Z.land ver 0x7fff).

Definition version_named (vs : list vdef) (ver : Z) (version : list Z) : bool :=
  match List.find (is_version ver) vs with
  | Some v => bool_decide (v_name v = version)
  | None => false
  end.

Lemma find_verdef_spec fuel m info vs ver d :
  verdefs_at m info d vs -> (length vs <= fuel)%nat ->
  match List.find (is_version ver) vs with
  | Some v => exists d' aux n,
      find_verdef fuel m (Z.land ver 0x7fff) d = Ret (Some d') /\ vdef_at m info d' v aux n
  | None => find_verdef fuel m (Z.land ver 0x7fff) d = Ret None
  end.
Proof.
  intros Hvs. revert fuel. induction Hvs as [d v aux n Hv Hnx|d v aux n nx vs Hv Hnx Hne _ IH];
    intros [|fuel] Hf; simpl in Hf; try lia; simpl; inversion Hv; subst.
  all: fold (is_version ver v);
    repeat match goal with H : _ = Ret _ |- _ => rewrite H; simpl end.
  all: change ((Z.land (v_flags v) VER_FLG_BASE =? 0) &&
               (Z.land (v_ndx v) 0x7fff =? Z.land ver 0x7fff)) with (is_version ver v).
  all: destruct (is_version ver v); [by eauto 10|].
  - done.
  - rewrite (proj2 (Z.eqb_neq _ _) Hne). apply IH. lia.
Qed.

Lemma match_version_spec fuel m info vs ver version :
  verdefs_at m info (verdef info) vs -> (length vs <= fuel)%nat ->
  Forall (fun v => v_hash v = elf_hash 32 (v_name v)) vs ->
  Forall (fun c => c <> 0) version ->
  vdso_match_version fuel m info ver version (elf_hash 32 version) =
  Ret (version_named vs ver version).
Proof.
  intros Hvs Hf Hh Hn. unfold vdso_match_version, version_named.
  pose proof (find_verdef_spec fuel m info vs ver _ Hvs Hf) as Hs.
  destruct (List.find _ vs) as [v|] eqn:Ev; [|by rewrite Hs].
  destruct Hs as (d & aux & n & -> & Hv). inversion Hv; subst. simpl.
  repeat match goal with H : _ = Ret _ |- _ => rewrite H; simpl end.
  apply List.find_some in Ev as [Hin _].
  rewrite List.Forall_forall in Hh. rewrite (Hh v Hin).
  destruct (Z.eqb_spec (elf_hash 32 (v_name v)) (elf_hash 32 version)) as [E|E].
  - rewrite (streq_cstr _ _ (v_name v)) by done. f_equal. apply bool_decide_ext. naive_solver.
  - f_equal. symmetry. apply bool_decide_eq_false. congruence.
Qed.

(** A symbol, and the hash chain that links the symbols of a bucket. *)
Record sym : Type := Sym { s_name : list Z; s_info : Z; s_shndx : Z; s_value : Z; s_ver : Z }.

Inductive sym_at (m : mem) (info : vdso_info) : Z -> sym -> Prop :=
| sym_here ch s n :
    let p := u64 (symtab info + 24 * ch) in
    st_info m p = Ret (s_info s) -> st_shndx m p = Ret (s_shndx s) ->
    st_value m p = Ret (s_value s) -> st_name m p = Ret n ->
    cstr m (u64 (symstrings info + n)) (s_name s) ->
    (versym info <> 0 -> versym_at m (versym info) ch = Ret (s_ver s)) -> sym_at m info ch s.

Inductive chain_at (m : mem) (info : vdso_info) : Z -> list sym -> Prop :=
| chain_end : chain_at m info STN_UNDEF []
| chain_link ch s nx l :
    ch <> STN_UNDEF -> sym_at m info ch s -> word m (chain info) ch = Ret nx ->
    chain_at m info nx l -> chain_at m info ch (s :: l).

(** The hash table [tbl], one list of symbols per bucket, is stored in memory the
    way the ELF specification builds it, with the version definitions [vs]. *)
Record stored (m : mem) (info : vdso_info) (tbl : list (list sym)) (vs : list vdef) : Prop := {
  stored_valid : valid info = true;
  stored_size : zlen tbl = nbucket info /\ 0 < nbucket info;
  stored_bucket : forall i l, tbl !! i = Some l ->
    exists ch, word m (bucket info) (Z.of_nat i) = Ret ch /\ chain_at m info ch l;
  stored_hash : forall i l s, tbl !! i = Some l -> s ∈ l ->
    elf_hash 32 (s_name s) mod nbucket info = Z.of_nat i;
  stored_versions : versym info <> 0 ->
    verdefs_at m info (verdef info) vs /\ Forall (fun v => v_hash v = elf_hash 32 (v_name v)) vs
}.

(** What [vdso_sym] looks for: a defined global or weak function of that name and
    version. *)
Definition wanted (info : vdso_info) (vs : list vdef) (version name : list Z) (s : sym) : bool :=
  (ELF64_ST_TYPE (s_info s) =? STT_FUNC) &&
  ((ELF64_ST_BIND (s_info s) =? STB_GLOBAL) || (ELF64_ST_BIND (s_info s) =? STB_WEAK)) &&
  negb (s_shndx s =? SHN_UNDEF) && bool_decide (name = s_name s) &&
  ((versym info =? 0) || version_named vs (s_ver s) version).

(** The address of the first such symbol of the table, 0 when there is none. *)
Definition address_of (info : vdso_info) (o : option sym) : Z :=
  match o with Some s => u64 (load_offset info + s_value s) | None => 0 end.

Definition zero_free (s : list Z) : Prop := Forall (fun c => c <> 0) s.

Lemma sym_ok_spec fuel m info tbl vs version name ch s :
  stored m info tbl vs -> zero_free name -> zero_free version ->
  sym_at m info ch s -> (length vs <= fuel)%nat ->
  sym_ok fuel m info version name (elf_hash 64 version) ch = Ret (wanted info vs version name s).
Proof.
  intros St Hn Hv Hs Hf. inversion Hs as [? ? n p Hi Hx _ Hnm Hstr Hver]; subst.
  unfold sym_ok, wanted. fold p. rewrite Hi. simpl.
  destruct (_ =? STT_FUNC); simpl; [|done].
  destruct (_ =? STB_GLOBAL), (_ =? STB_WEAK); simpl; try done.
  all: rewrite Hx; simpl; destruct (_ =? SHN_UNDEF); simpl; [done|].
  all: rewrite Hnm; simpl; rewrite (streq_cstr _ _ (s_name s)) by done; simpl.
  all: destruct (bool_decide (name = s_name s)); simpl; [|done].
  all: destruct (Z.eqb_spec (versym info) 0) as [E|E]; simpl; [done|].
  all: rewrite (Hver E); simpl; rewrite elf_hash_u32.
  all: destruct (stored_versions _ _ _ _ St E); by apply match_version_spec.
Qed.

Lemma sym_loop_spec fuel m info tbl vs version name ch l :
  stored m info tbl vs -> zero_free name -> zero_free version ->
  chain_at m info ch l -> (length l + length vs < fuel)%nat ->
  sym_loop fuel m info version name (elf_hash 64 version) ch =
  Ret (address_of info (List.find (wanted info vs version name) l)).
Proof.
  intros St Hn Hv Hc. revert fuel. induction Hc as [|ch s nx l Hne Hs Hnx Hc IH];
    intros [|fuel] Hf; simpl in Hf; try lia; simpl; [done|].
  rewrite (proj2 (Z.eqb_neq _ _) Hne).
  rewrite (sym_ok_spec _ _ _ tbl vs _ _ _ s) by (done || lia). simpl.
  destruct (wanted info vs version name s) eqn:Ew.
  - inversion Hs as [? ? ? p ? ? Hval ? ? ?]; subst. fold p. by rewrite Hval.
  - rewrite Hnx. simpl. apply IH. lia.
Qed.

Lemma find_app {A} (f : A -> bool) l k :
  List.find f (l ++ k) = match List.find f l with Some a => Some a | None => List.find f k end.
Proof. induction l as [|a l IH]; simpl; [done|]. by destruct (f a). Qed.

(** The matches of a table all lie in one bucket: searching the bucket is
    searching the table. *)
Lemma find_concat {A} (f : A -> bool) (tbl : list (list A)) i l :
  tbl !! i = Some l ->
  (forall j l' a, tbl !! j = Some l' -> a ∈ l' -> f a = true -> j = i) ->
  List.find f (concat tbl) = List.find f l.
Proof.
  revert i. induction tbl as [|k tbl IH]; intros i Hi Hf; [done|]. simpl.
  rewrite find_app. destruct i as [|i]; simpl in Hi.
  - injection Hi as ->. destruct (List.find f l) eqn:El; [done|].
    destruct (List.find f (concat tbl)) as [a|] eqn:Ea; [|done]. exfalso.
    apply List.find_some in Ea as [Ha Hfa]. rewrite in_concat in Ha.
    destruct Ha as (l' & Hl' & Hal'). apply list_elem_of_In, list_elem_of_lookup in Hl' as [j Hj].
    specialize (Hf (S j) l' a Hj). rewrite list_elem_of_In in Hf. naive_solver.
  - destruct (List.find f k) as [a|] eqn:Ek.
    + apply List.find_some in Ek as [Ha Hfa]. apply list_elem_of_In in Ha.
      discriminate (Hf O k a eq_refl Ha Hfa).
    + apply (IH i); [done|]. intros j l' a Hj Ha Hfa.
      specialize (Hf (S j) l' a Hj Ha Hfa). lia.
Qed.

(** Names that the two hashes put in the same bucket. *)
Definition same_bucket (info : vdso_info) (name : list Z) : bool :=
  elf_hash 64 name mod nbucket info =? elf_hash 32 name mod nbucket info.

Lemma wanted_name info vs version name s : wanted info vs version name s = true -> name = s_name s.
Proof.
  unfold wanted. intros Hw. apply andb_prop in Hw as [Hw _]. apply andb_prop in Hw as [_ Hw].
  by apply bool_decide_eq_true in Hw.
Qed.

Lemma vdso_sym_bucket fuel m info tbl vs version name :
  stored m info tbl vs -> zero_free name -> zero_free version ->
  (forall l, l ∈ tbl -> length l + length vs < fuel)%nat ->
  exists l, tbl !! Z.to_nat (elf_hash 64 name mod nbucket info) = Some l /\
    vdso_sym fuel m info version name = Ret (address_of info (List.find (wanted info vs version name) l)).
Proof.
  intros St Hn Hv Hfuel. unfold vdso_sym.
  rewrite (stored_valid _ _ _ _ St). destruct (stored_size _ _ _ _ St) as [Hlen Hnb].
  simpl. rewrite (proj2 (Z.eqb_neq _ _)) by lia.
  set (b := elf_hash 64 name mod nbucket info).
  pose proof (Z.mod_pos_bound (elf_hash 64 name) _ Hnb) as Hb. fold b in Hb.
  destruct (lookup_lt_is_Some_2 tbl (Z.to_nat b)) as [l Hl]; [unfold zlen in Hlen; lia|].
  destruct (stored_bucket _ _ _ _ St _ _ Hl) as (ch & Hch & Hchain).
  rewrite Z2Nat.id in Hch by lia. rewrite Hch. exists l. split; [done|]. simpl.
  apply (sym_loop_spec _ _ _ tbl); try done. apply Hfuel. by eapply list_elem_of_lookup_2.
Qed.

Lemma vdso_sym_all_names fuel m info tbl vs version name :
  stored m info tbl vs -> zero_free name -> zero_free version ->
  (forall l, l ∈ tbl -> length l + length vs < fuel)%nat ->
  vdso_sym fuel m info version name =
  Ret (if same_bucket info name then address_of info (List.find (wanted info vs version name) (concat tbl)) else 0).
Proof.
  intros St Hn Hv Hfuel. destruct (vdso_sym_bucket fuel m info tbl vs version name) as (l & Hl & ->); try done.
  destruct (stored_size _ _ _ _ St) as [_ Hnb]. pose proof (Z.mod_pos_bound (elf_hash 64 name) _ Hnb) as Hb.
  pose proof (Z.mod_pos_bound (elf_hash 32 name) _ Hnb) as Hb32.
  unfold same_bucket. destruct (Z.eqb_spec (elf_hash 64 name mod nbucket info) (elf_hash 32 name mod nbucket info)) as [E|E].
  - rewrite (find_concat _ tbl _ l Hl); [done|]. intros j l' s Hj Hs Hw%wanted_name.
    pose proof (stored_hash _ _ _ _ St _ _ _ Hj Hs) as Hh. subst name. lia.
  - destruct (List.find _ l) as [s|] eqn:Ef; [|done]. exfalso. apply List.find_some in Ef as [Hs Hw%wanted_name].
    apply list_elem_of_In in Hs. pose proof (stored_hash _ _ _ _ St _ _ _ Hl Hs) as Hh. subst name. lia.
Qed.

Lemma fits_same_bucket info name : fits 32 (elf_hash 64 name) -> same_bucket info name = true.
Proof. intros Hf. unfold same_bucket. rewrite <- elf_hash_u32. unfold u32. rewrite wrap_small by done. apply Z.eqb_refl. Qed.

Lemma power_same_bucket info name k : 0 <= k <= 32 -> nbucket info = 2 ^ k -> same_bucket info name = true.
Proof.
  intros Hk Hn. unfold same_bucket. rewrite Hn, <- elf_hash_u32. unfold u32, wrap. apply Z.eqb_eq.
  symmetry. apply Z.mod_mod_divide. exists (2 ^ (32 - k)). rewrite <- Z.pow_add_r by lia. f_equal. lia.
Qed.

Lemma vdso_sym_lookup fuel m info tbl vs version name :
  stored m info tbl vs -> zero_free name -> zero_free version ->
  fits 32 (elf_hash 64 name) ->
  (forall l, l ∈ tbl -> length l + length vs < fuel)%nat ->
  vdso_sym fuel m info version name =
  Ret (address_of info (List.find (wanted info vs version name) (concat tbl))).
Proof. intros. erewrite vdso_sym_all_names by done. by rewrite fits_same_bucket. Qed.

(** C2: on a hash table stored as the ELF specification lays it out, for every name,
    [vdso_sym] returns as soon as the fuel exceeds the longest chain plus the version
    list.  When the 64-bit hash of the name falls in the bucket of its 32-bit hash, with
    which the table was built, the result is the address of the first symbol of the whole
    table that is a defined global or weak function with the wanted name and version, and
    0 when the table has none.  Otherwise the result is 0, also when the table has the
    symbol.  The buckets agree for every name whose 64-bit hash stays in 32 bits, and in
    every table of a power of two buckets, up to 2^32. *)
Theorem vdso_sym_finds fuel m info tbl vs version name :
  stored m info tbl vs -> zero_free name -> zero_free version ->
  (forall l, l ∈ tbl -> length l + length vs < fuel)%nat ->
  vdso_sym fuel m info version name =
    Ret (if same_bucket info name then address_of info (List.find (wanted info vs version name) (concat tbl)) else 0) /\
  (fits 32 (elf_hash 64 name) -> same_bucket info name = true) /\
  (forall k, 0 <= k <= 32 -> nbucket info = 2 ^ k -> same_bucket info name = true).
Proof.
  intros. split; [by apply vdso_sym_all_names|]. split; [apply fits_same_bucket|]. apply power_same_bucket.
Qed.

(** ** Initialisation collects the tables of the image *)

Record phdr : Type := Phdr { ph_type : Z; ph_offset : Z; ph_vaddr : Z }.
Record dynent : Type := Dyn { dyn_tag : Z; dyn_ptr : Z }.

(** Program headers [phs] from index [i] of the table at [pt]. *)
Fixpoint phdrs_at (m : mem) (pt i : Z) (phs : list phdr) : Prop :=
  match phs with
  | [] => True
  | ph :: phs' =>
      let a := u64 (pt + 56 * i) in
      p_type m a = Ret (ph_type ph) /\ p_offset m a = Ret (ph_offset ph) /\
      p_vaddr m a = Ret (ph_vaddr ph) /\ phdrs_at m pt (i + 1) phs'
  end.

(** Dynamic entries [ds] from index [i], ended by a DT_NULL entry. *)
Fixpoint dyns_at (m : mem) (dyn i : Z) (ds : list dynent) : Prop :=
  match ds with
  | [] => d_tag m (u64 (dyn + 16 * i)) = Ret DT_NULL
  | d :: ds' =>
      let a := u64 (dyn + 16 * i) in
      d_tag m a = Ret (dyn_tag d) /\ dyn_tag d <> DT_NULL /\ d_ptr m a = Ret (dyn_ptr d) /\
      dyns_at m dyn (i + 1) ds'
  end.

(** The first loadable segment gives the offset, the last dynamic segment the
    dynamic section, the last entry of a tag its table. *)
Definition first_load (base : Z) (phs : list phdr) : option Z :=
  match List.find (fun ph => ph_type ph =? PT_LOAD) phs with
  | Some ph => Some (u64 (base + ph_offset ph - ph_vaddr ph))
  | None => None
  end.

Definition last_dynamic (base : Z) (phs : list phdr) : Z :=
  match List.find (fun ph => ph_type ph =? PT_DYNAMIC) (reverse phs) with
  | Some ph => u64 (base + ph_offset ph)
  | None => 0
  end.

Definition entry_or (old off tag : Z) (ds : list dynent) : Z :=
  match List.find (fun d => dyn_tag d =? tag) (reverse ds) with
  | Some d => u64 (dyn_ptr d + off)
  | None => old
  end.

Definition last_entry (off tag : Z) (ds : list dynent) : Z := entry_or 0 off tag ds.

Lemma last_dynamic_cons base ph phs :
  last_dynamic base (ph :: phs) =
  match List.find (fun ph => ph_type ph =? PT_DYNAMIC) (reverse phs) with
  | Some ph' => u64 (base + ph_offset ph')
  | None => if ph_type ph =? PT_DYNAMIC then u64 (base + ph_offset ph) else 0
  end.
Proof.
  unfold last_dynamic. rewrite reverse_cons, find_app. simpl.
  destruct (List.find _ (reverse phs)); [done|]. by destruct (_ =? PT_DYNAMIC).
Qed.

Definition found {A} (o : option A) : bool := match o with Some _ => true | None => false end.

(** [o] is the offset of a PT_LOAD already found, [dyn] a PT_DYNAMIC already found. *)
Lemma scan_phdrs_spec m base pt phs i o dyn info :
  phdrs_at m pt i phs ->
  (forall x, o = Some x -> load_offset info = x) ->
  let o' := match o with Some x => Some x | None => first_load base phs end in
  let dyn' := match List.find (fun ph => ph_type ph =? PT_DYNAMIC) (reverse phs) with
              | Some _ => last_dynamic base phs
              | None => dyn
              end in
  scan_phdrs m base pt (length phs) i (found o) dyn info =
  Ret (found o', dyn', set_load_offset (default (load_offset info) o') info).
Proof.
  revert i o dyn info. induction phs as [|ph phs IH]; intros i o dyn info Hp Ho.
  - cbn. destruct o as [x|]; cbn.
    + rewrite <- (Ho x) by done. by destruct info.
    + by destruct info.
  - destruct Hp as (Ht & Hof & Hva & Hp). cbn zeta. rewrite last_dynamic_cons, reverse_cons, find_app.
    simpl scan_phdrs. rewrite Ht. simpl out_bind.
    pose proof (fun o dyn info => IH (i + 1) o dyn info Hp) as IH'. cbn zeta in IH'.
    unfold first_load in *. unfold last_dynamic in *. simpl List.find.
    destruct (Z.eqb_spec (ph_type ph) PT_LOAD) as [E|E]; simpl.
    + rewrite E. destruct o as [x|]; simpl.
      * pose proof (IH' (Some x) dyn info Ho) as IHx. simpl in IHx. rewrite IHx.
        by destruct (List.find _ (reverse phs)).
      * rewrite Hof, Hva. simpl. set (x := u64 (base + _ - _)).
        pose proof (IH' (Some x) dyn (set_load_offset x info)) as IHx. simpl in IHx.
        rewrite IHx by congruence. by destruct (List.find _ (reverse phs)).
    + destruct (Z.eqb_spec (ph_type ph) PT_DYNAMIC) as [E2|E2]; simpl.
      * rewrite Hof. simpl. rewrite (IH' o) by done.
        by destruct (List.find _ (reverse phs)).
      * rewrite (IH' o) by done. by destruct (List.find _ (reverse phs)).
Qed.

Lemma entry_or_cons old off tag d ds :
  entry_or old off tag (d :: ds) =
  entry_or (if dyn_tag d =? tag then u64 (dyn_ptr d + off) else old) off tag ds.
Proof.
  unfold entry_or. rewrite reverse_cons, find_app. simpl.
  destruct (List.find _ (reverse ds)); [done|]. by destruct (_ =? tag).
Qed.

Definition collect (ds : list dynent) (info : vdso_info) : vdso_info :=
  let off := load_offset info in
  set_verdef (entry_or (verdef info) off DT_VERDEF ds)
    (set_versym (entry_or (versym info) off DT_VERSYM ds)
      (set_symtab (entry_or (symtab info) off DT_SYMTAB ds)
        (set_symstrings (entry_or (symstrings info) off DT_STRTAB ds) info))).

Lemma scan_dyn_spec fuel m dyn i ds hash info :
  dyns_at m dyn i ds -> (length ds < fuel)%nat ->
  scan_dyn fuel m dyn i hash info =
  Ret (entry_or hash (load_offset info) DT_HASH ds, collect ds info).
Proof.
  revert fuel i hash info. induction ds as [|d ds IH]; intros [|fuel] i hash info Hd Hf;
    simpl in Hf; try lia; simpl.
  - simpl in Hd. rewrite Hd. by destruct info.
  - destruct Hd as (Ht & Hne & Hp & Hd). rewrite Ht. simpl.
    rewrite (proj2 (Z.eqb_neq _ _) Hne), Hp. simpl.
    unfold collect. rewrite !entry_or_cons.
    assert (forall hash info, scan_dyn fuel m dyn (i + 1) hash info =
      Ret (entry_or hash (load_offset info) DT_HASH ds, collect ds info)) as IH'.
    { intros. apply IH; [done|lia]. }
    destruct (Z.eqb_spec (dyn_tag d) DT_STRTAB) as [E|_]; [by rewrite IH', E|].
    destruct (Z.eqb_spec (dyn_tag d) DT_SYMTAB) as [E|_]; [by rewrite IH', E|].
    destruct (Z.eqb_spec (dyn_tag d) DT_HASH) as [E|_]; [by rewrite IH', E|].
    destruct (Z.eqb_spec (dyn_tag d) DT_VERSYM) as [E|_]; [by rewrite IH', E|].
    destruct (Z.eqb_spec (dyn_tag d) DT_VERDEF) as [E|_]; by rewrite IH'.
Qed.

(** The image at [base]: its class, its program headers, and, where they are
    reached, its dynamic entries and the header of its hash table. *)
Record elf_image : Type := Elf {
  el_class : Z; el_phoff : Z; el_phs : list phdr; el_dyns : list dynent; el_nb : Z; el_nc : Z
}.

Definition image_at (m : mem) (base : Z) (e : elf_image) : Prop :=
  let dyn := last_dynamic base (el_phs e) in
  e_class m base = Ret (el_class e) /\ e_phoff m base = Ret (el_phoff e) /\
  e_phnum m base = Ret (zlen (el_phs e)) /\
  phdrs_at m (u64 (base + el_phoff e)) 0 (el_phs e) /\
  (dyn <> 0 -> dyns_at m dyn 0 (el_dyns e)) /\
  (forall off, first_load base (el_phs e) = Some off ->
     let hash := last_entry off DT_HASH (el_dyns e) in
     hash <> 0 -> word m hash 0 = Ret (el_nb e) /\ word m hash 1 = Ret (el_nc e)).

(** The image has the right class and everything the parser needs. *)
Definition complete (base : Z) (e : elf_image) : bool :=
  (el_class e =? ELFCLASS64) && negb (last_dynamic base (el_phs e) =? 0) &&
  match first_load base (el_phs e) with
  | Some off =>
      negb (last_entry off DT_STRTAB (el_dyns e) =? 0) &&
      negb (last_entry off DT_SYMTAB (el_dyns e) =? 0) &&
      negb (last_entry off DT_HASH (el_dyns e) =? 0)
  | None => false
  end.

Definition parsed (base : Z) (e : elf_image) : vdso_info :=
  let off := default 0 (first_load base (el_phs e)) in
  let tab t := last_entry off t (el_dyns e) in
  Info true base off (tab DT_SYMTAB) (tab DT_STRTAB)
    (u64 (tab DT_HASH + 8)) (u64 (tab DT_HASH + 4 * u32 (el_nb e + 2))) (el_nb e) (el_nc e)
    (if tab DT_VERDEF =? 0 then 0 else tab DT_VERSYM) (tab DT_VERDEF).

Lemma init_image fuel m base e info :
  image_at m base e -> (length (el_dyns e) < fuel)%nat ->
  exists info', vdso_init_from_sysinfo_ehdr fuel m base info = Ret info' /\
    valid info' = complete base e /\ load_addr info' = base /\
    (complete base e = true -> info' = parsed base e).
Proof.
  intros (Hc & Ho & Hn & Hp & Hd & Hh) Hf. unfold vdso_init_from_sysinfo_ehdr, complete.
  rewrite Hc. simpl. destruct (_ =? ELFCLASS64); simpl; [|by eexists].
  rewrite Ho, Hn. simpl. unfold zlen. rewrite Nat2Z.id.
  rewrite (scan_phdrs_spec _ _ _ _ 0 None 0 _ Hp) by done. simpl.
  replace (match List.find _ (reverse (el_phs e)) with Some _ => _ | None => 0 end)
    with (last_dynamic base (el_phs e)) by (unfold last_dynamic; by destruct (List.find _ _)).
  destruct (Z.eqb_spec (last_dynamic base (el_phs e)) 0) as [|Hne]; simpl.
  { rewrite orb_true_r. by eexists. }
  rewrite orb_false_r. unfold parsed.
  destruct (first_load base (el_phs e)) as [off|] eqn:El; simpl; [|by eexists].
  rewrite (scan_dyn_spec _ _ _ _ (el_dyns e)) by auto. simpl.
  specialize (Hh off eq_refl). fold (last_entry off DT_HASH (el_dyns e)) in *.
  fold (last_entry off DT_STRTAB (el_dyns e)). fold (last_entry off DT_SYMTAB (el_dyns e)).
  destruct (last_entry off DT_STRTAB _ =? 0); simpl; [by eexists|].
  destruct (last_entry off DT_SYMTAB _ =? 0); simpl; [by eexists|].
  destruct (Z.eqb_spec (last_entry off DT_HASH (el_dyns e)) 0) as [|Hnz]; simpl; [by eexists|].
  destruct (Hh Hnz) as [-> ->]. simpl. eexists. split; [done|].
  unfold collect. simpl. fold (last_entry off DT_VERDEF (el_dyns e)).
  by destruct (last_entry off DT_VERDEF (el_dyns e) =? 0).
Qed.

(** C11: from any earlier state, initialisation on a stored image returns; when the
    image has the right class, a loadable and a dynamic segment and the string,
    symbol and hash tables, the result is exactly the tables of the image with
    [valid] set, and otherwise [valid] is false, so every later lookup returns 0. *)
Theorem init_collects fuel m base e info :
  image_at m base e -> (length (el_dyns e) < fuel)%nat ->
  exists info', vdso_init_from_sysinfo_ehdr fuel m base info = Ret info' /\
    valid info' = complete base e /\ load_addr info' = base /\
    (complete base e = true -> info' = parsed base e).
Proof. apply init_image. Qed.

(** The auxiliary vector [l] from index [i], ended by AT_NULL. *)
Fixpoint auxv_at (m : mem) (auxv i : Z) (l : list (Z * Z)) : Prop :=
  match l with
  | [] => ld m 8 (u64 (auxv + 16 * i)) = Ret AT_NULL
  | (t, v) :: l' =>
      let e := u64 (auxv + 16 * i) in
      ld m 8 e = Ret t /\ t <> AT_NULL /\ ld m 8 (u64 (e + 8)) = Ret v /\ auxv_at m auxv (i + 1) l'
  end.

Lemma scan_auxv_spec fuel n m auxv i l info :
  auxv_at m auxv i l -> (length l < n)%nat ->
  scan_auxv fuel n m auxv i info =
  match List.find (fun e => fst e =? AT_SYSINFO_EHDR) l with
  | Some (_, v) => vdso_init_from_sysinfo_ehdr fuel m v info
  | None => Ret (set_valid false info)
  end.
Proof.
  revert n i. induction l as [|[t v] l IH]; intros [|n] i Ha Hn; simpl in Hn; try lia; simpl.
  - simpl in Ha. by rewrite Ha.
  - destruct Ha as (-> & Hne & Hv & Ha). simpl. rewrite (proj2 (Z.eqb_neq _ _) Hne).
    destruct (t =? AT_SYSINFO_EHDR); [by rewrite Hv|]. apply IH; [done|lia].
Qed.

(** Given an auxiliary vector, initialisation uses the first AT_SYSINFO_EHDR
    entry and gives exactly the result of initialising from its value; without
    such an entry it returns with [valid] cleared and every lookup gives 0. *)
Theorem init_from_auxv fuel m auxv l info :
  auxv_at m auxv 0 l -> (length l < fuel)%nat ->
  vdso_init_from_auxv fuel m auxv info =
    match List.find (fun e => fst e =? AT_SYSINFO_EHDR) l with
    | Some (_, v) => vdso_init_from_sysinfo_ehdr fuel m v info
    | None => Ret (set_valid false info)
    end /\
  (List.find (fun e => fst e =? AT_SYSINFO_EHDR) l = None ->
   forall n version name, exists info', vdso_init_from_auxv fuel m auxv info = Ret info' /\
     vdso_sym n m info' version name = Ret 0).
Proof.
  intros Ha Hf. unfold vdso_init_from_auxv. rewrite (scan_auxv_spec _ _ _ _ _ l) by done.
  split; [done|]. intros -> n version name. by eexists.
Qed.

(** ** A small image: one symbol [f] of version [V] at 0x500 *)

Definition mem_of (base : Z) (bytes : list Z) : mem :=
  fun a => if base <=? a then bytes !! Z.to_nat (a - base) else None.

Definition sample_bytes : list Z :=
  (* ELF header *)
  [0x7f; 69; 76; 70; 2] ++ replicate 27 0 ++ le_bytes 8 64 ++ replicate 16 0 ++ le_bytes 2 2 ++
  replicate 6 0 ++
  (* program headers *)
  le_bytes 8 PT_LOAD ++ le_bytes 8 0 ++ le_bytes 8 0 ++ replicate 32 0 ++
  le_bytes 8 PT_DYNAMIC ++ le_bytes 8 176 ++ le_bytes 8 176 ++ replicate 32 0 ++
  (* dynamic section *)
  concat (map (fun e => le_bytes 8 (fst e) ++ le_bytes 8 (snd e))
    [(DT_STRTAB, 272); (DT_SYMTAB, 280); (DT_HASH, 328); (DT_VERSYM, 348); (DT_VERDEF, 352);
     (DT_NULL, 0)]) ++
  (* strings *)
  [0; 102; 0; 86; 0; 0; 0; 0] ++
  (* symbols *)
  replicate 24 0 ++ le_bytes 4 1 ++ [0x12; 0] ++ le_bytes 2 1 ++ le_bytes 8 0x500 ++ le_bytes 8 0 ++
  (* hash table *)
  concat (map (le_bytes 4) [1; 2; 1; 0; 0]) ++
  (* versions *)
  le_bytes 2 0 ++ le_bytes 2 2 ++
  le_bytes 2 1 ++ le_bytes 2 0 ++ le_bytes 2 2 ++ le_bytes 2 1 ++ le_bytes 4 86 ++ le_bytes 4 20 ++
  le_bytes 4 0 ++ le_bytes 4 3 ++ le_bytes 4 0 ++
  (* auxiliary vector, at 380 *)
  concat (map (fun e => le_bytes 8 (fst e) ++ le_bytes 8 (snd e))
    [(6, 4096); (AT_SYSINFO_EHDR, 0x1000); (AT_NULL, 0)]).

Definition sample_mem : mem := mem_of 0x1000 sample_bytes.

Definition sample_elf : elf_image :=
  Elf 2 64 [Phdr PT_LOAD 0 0; Phdr PT_DYNAMIC 176 176]
    [Dyn DT_STRTAB 272; Dyn DT_SYMTAB 280; Dyn DT_HASH 328; Dyn DT_VERSYM 348; Dyn DT_VERDEF 352]
    1 2.

Definition blank : vdso_info := Info false 0 0 0 0 0 0 0 0 0 0.

Definition sample_sym : sym := Sym [102] 0x12 1 0x500 2.
Definition sample_ver : vdef := VDef 0 2 86 [86].

Lemma sample_image : image_at sample_mem 0x1000 sample_elf.
Proof.
  split_and!; [by vm_compute..| |].
  - intros _. by vm_compute.
  - intros off E. vm_compute in E. injection E as <-. intros hash _. by vm_compute.
Defined.

Lemma sample_stored :
  stored sample_mem (parsed 0x1000 sample_elf) [[sample_sym]] [sample_ver].
Proof.
  split.
  - done.
  - done.
  - intros [|[|]] l E; simpl in E; try done. injection E as <-. exists 1. split; [by vm_compute|].
    apply (chain_link _ _ 1 _ 0); [done| |by vm_compute|apply chain_end].
    apply (sym_here _ _ 1 sample_sym 1); intros; by vm_compute.
  - intros [|[|]] l s E Hs; simpl in E; try done. injection E as <-.
    apply list_elem_of_singleton in Hs. subst s. by vm_compute.
  - intros _. split; [|repeat constructor].
    apply (verdefs_last _ _ _ _ 20 3); [apply vdef_here|]; by vm_compute.
Defined.

Lemma init_collects_witness :
  exists info', vdso_init_from_sysinfo_ehdr 10 sample_mem 0x1000 blank = Ret info' /\
    info' = parsed 0x1000 sample_elf.
Proof.
  destruct (init_collects 10 sample_mem 0x1000 sample_elf blank) as (i & E & _ & _ & H).
  - exact sample_image.
  - simpl. lia.
  - exists i. split; [exact E|]. apply H. reflexivity.
Defined.

(** The same table with three buckets and the symbol under a name whose hashes differ: it
    lies in bucket 2, the 64-bit hash looks in bucket 0. *)
Definition far_name : list Z := [0xff; 0x0f; 0x0f; 0x0f; 0x0f; 0x0f; 0x12].

Definition far_bytes : list Z :=
  [0] ++ far_name ++ [0] ++ replicate 24 0 ++ le_bytes 4 1 ++ [0x12; 0] ++ le_bytes 2 1 ++ le_bytes 8 0x500 ++
  le_bytes 8 0 ++ concat (map (le_bytes 4) [0; 0; 1; 0; 0]).

Definition far_info : vdso_info := Info true 0x1000 0x1000 (0x1000 + 9) 0x1000 (0x1000 + 57) (0x1000 + 69) 3 2 0 0.

Definition far_sym : sym := Sym far_name 0x12 1 0x500 0.

Lemma far_stored : stored (mem_of 0x1000 far_bytes) far_info [[]; []; [far_sym]] [].
Proof.
  split.
  - done.
  - done.
  - intros [|[|[|]]] l E; simpl in E; try done; injection E as <-.
    + exists 0. split; [by vm_compute|apply chain_end].
    + exists 0. split; [by vm_compute|apply chain_end].
    + exists 1. split; [by vm_compute|].
      apply (chain_link _ _ 1 _ 0); [done| |by vm_compute|apply chain_end].
      apply (sym_here _ _ 1 far_sym 1); intros; by vm_compute.
  - intros [|[|[|]]] l s E Hs; simpl in E; try done; injection E as <-; try by apply elem_of_nil in Hs.
    apply list_elem_of_singleton in Hs. subst s. by vm_compute.
  - done.
Defined.

Lemma vdso_sym_finds_witness :
  vdso_sym 10 sample_mem (parsed 0x1000 sample_elf) [86] [102] = Ret 0x1500 /\
  vdso_sym 10 sample_mem (parsed 0x1000 sample_elf) [87] [102] = Ret 0 /\
  List.find (wanted far_info [] [86] far_name) (concat [[]; []; [far_sym]]) = Some far_sym /\
  vdso_sym 10 (mem_of 0x1000 far_bytes) far_info [86] far_name = Ret 0.
Proof.
  assert (forall l, l ∈ [[sample_sym]] -> length l + length [sample_ver] < 10)%nat as Hf.
  { intros l Hl. apply list_elem_of_singleton in Hl. subst l. simpl. lia. }
  assert (forall c, c <> 0 -> zero_free [c]) as Hz by (intros; by repeat constructor).
  split_and!.
  - etrans; [apply (vdso_sym_finds 10 _ _ _ _ [86] [102] sample_stored); auto|].
    vm_compute. reflexivity.
  - etrans; [apply (vdso_sym_finds 10 _ _ _ _ [87] [102] sample_stored); auto|].
    vm_compute. reflexivity.
  - by vm_compute.
  - etrans; [apply (vdso_sym_finds 10 _ _ _ _ [86] far_name far_stored)|].
    + by repeat constructor.
    + auto.
    + intros l Hl. repeat (apply elem_of_cons in Hl as [->|Hl]; [simpl; lia|]). by apply elem_of_nil in Hl.
    + vm_compute. reflexivity.
Defined.

Lemma init_from_auxv_witness :
  vdso_init_from_auxv 10 sample_mem (0x1000 + 380) blank =
  vdso_init_from_sysinfo_ehdr 10 sample_mem 0x1000 blank.
Proof.
  set (l := [(6, 4096); (AT_SYSINFO_EHDR, 0x1000)]).
  assert (auxv_at sample_mem (0x1000 + 380) 0 l) as Ha by (by vm_compute).
  assert (List.find (fun e => fst e =? AT_SYSINFO_EHDR) l = Some (AT_SYSINFO_EHDR, 0x1000)) as F
    by reflexivity.
  destruct (init_from_auxv 10 sample_mem (0x1000 + 380) l blank Ha) as [E _].
  - apply Nat.leb_le. reflexivity.
  - rewrite F in E. exact E.
Defined.

End ParseVdso.
