(* ===== verification/VdsoTest.v ===== *)
(** * Users of the vDSO parser: Documentation/vDSO/vdso_test.c and
    vdso_standalone_test_x86.c

    Both look up gettimeofday with the parser of ParseVdso.v and print the time.
    [Standalone] runs without a C library: it walks the initial stack itself, has its own
    [strcmp] and its own conversion to decimal. *)

From S2P Require Import Prelude Posix CArray Output ParseVdso.

Import ParseVdso.

Open Scope Z_scope.

Definition LINUX_2_6 : list Z := bytes_of_string "LINUX_2.6".
Definition gettimeofday : list Z := bytes_of_string "__vdso_gettimeofday".

Module Standalone.

Open Scope out_scope.

(** ** The missing library *)

(** The C strings at [a] and [b]; [int] results. *)
Fixpoint strcmp (fuel : nat) (m : mem) (a b : Z) : outcome Z :=
  match fuel with
  | O => NoFuel
  | S fuel =>
      let! x := ld m 1 a in
      let! y := ld m 1 b in
      if truthy x || truthy y then
        if negb (x =? y) then Ret 1
        else if (x =? 0) || (y =? 0) then Ret 1
        else strcmp fuel m (u64 (a + 1)) (u64 (b + 1))
      else Ret 0
  end.

(** [lastdig] is an index of [buf]; C division truncates. *)
Fixpoint to_base10 (fuel : nat) (buf : list Z) (lastdig n : Z) : outcome (list Z) :=
  match fuel with
  | O => NoFuel
  | S fuel =>
      if n =? 0 then Ret buf
      else
        let! buf := store buf lastdig (u8 (Z.rem n 10 + 48)) in
        to_base10 fuel buf (lastdig - 1) (Z.quot n 10)
  end.

(** ** The program *)

(** [Gtod f] calls the function at [f], which leaves seconds and microseconds. *)
Inductive call : Type :=
| Gtod (f : Z)
| Write (fd : Z) (buf : list Z).

Abbreviation prog := (io call unit).

Definition linux_write (fd : Z) (buf : list Z) : prog unit := (sys (Write fd buf) ;; io_ret tt)%io.
(** The parameter is an int: a longer argument is converted. *)
Definition linux_exit (code : Z) : prog unit := exit_ (i32 code).

(** What waitpid shows of the argument of the exit system call: its low eight bits. *)
Definition exit_status (code : Z) : Z := u8 code.

Fixpoint skip_env (fuel : nat) (m : mem) (stack : Z) : outcome Z :=
  match fuel with
  | O => NoFuel
  | S fuel =>
      let! p := ld m 8 stack in
      if truthy p then skip_env fuel m (u64 (stack + 8)) else Ret (u64 (stack + 8))
  end.

Definition template : list Z := bytes_of_string "The time is                     .000000" ++ [10].

Definition time_line (sec usec : Z) : outcome (list Z) :=
  let! b := to_base10 64 template 31 sec in
  to_base10 64 b 38 usec.

(** The symbol that [c_main] looks up in the memory it starts with. *)
Definition find_gtod (fuel : nat) (m : mem) (stack : Z) : outcome Z :=
  let! argc := ld m 8 stack in
  let! auxv := skip_env fuel m (u64 (stack + 8 * (argc + 2))) in
  let! info := vdso_init_from_auxv fuel m auxv blank in
  vdso_sym fuel m info LINUX_2_6 gettimeofday.

Open Scope io_scope.

Definition c_main (fuel : nat) (m : mem) (stack : Z) : prog unit :=
  let* gtod := lift (find_gtod fuel m stack) in
  (if gtod =? 0 then linux_exit 1 else io_ret tt) ;;
  let* r := sys (Gtod gtod) in
  (if ret r =? 0 then
     let* buf := lift (time_line (znth (data r) 0) (znth (data r) 1)) in
     linux_write 1 buf
   else linux_exit (ret r)) ;;
  linux_exit 0.

(** ** It is the library *)

Lemma strcmp_cstr m s : forall fuel a b t, cstr m a s -> cstr m b t -> (length s < fuel)%nat ->
  strcmp fuel m a b = Ret (if bool_decide (s = t) then 0 else 1).
Proof.
  induction s as [|c s IH]; intros [|fuel] a b t Ha Hb Hf; cbn [length] in Hf; try lia; cbn [strcmp cstr] in *.
  - rewrite Ha. destruct t as [|d t]; cbn [cstr] in Hb; [by rewrite Hb|]. destruct Hb as (-> & Hd & _). cbn [out_bind].
    apply Z.eqb_neq in Hd. unfold truthy. rewrite (Z.eqb_sym 0 d), Hd. done.
  - destruct Ha as (-> & Hc & Ha). apply Z.eqb_neq in Hc. destruct t as [|d t]; cbn [cstr] in Hb.
    + rewrite Hb. cbn [out_bind]. unfold truthy. by rewrite Hc.
    + destruct Hb as (-> & Hd & Hb). apply Z.eqb_neq in Hd. cbn [out_bind]. unfold truthy. rewrite Hc, Hd. cbn [negb orb].
      destruct (Z.eqb_spec c d) as [->|Hcd]; cbn [negb]; [|by rewrite bool_decide_false by congruence].
      rewrite (IH fuel _ _ t) by (done || lia). repeat case_bool_decide; congruence.
Qed.

(** The [strcmp] of the stand-alone program gives 0 for equal strings and 1 for all others, which is the
    comparison the model of the parser makes. *)
Theorem strcmp_agrees m a b s t fuel : cstr m a s -> cstr m b t -> (length s < fuel)%nat ->
  strcmp fuel m a b = Ret (if bool_decide (s = t) then 0 else 1) /\
  streq m s b = (let! r := strcmp fuel m a b in Ret (r =? 0)).
Proof.
  intros Ha Hb Hf. assert (Forall (fun c => c <> 0) s) as Hs.
  { clear -Ha. revert a Ha. induction s as [|c s IH]; intros a Ha; constructor; [by destruct Ha as (_ & ? & _)|]. destruct Ha as (_ & _ & Ha). by apply (IH _ Ha). }
  rewrite (strcmp_cstr m s fuel a b t), (streq_cstr m b t) by done. split; [done|]. cbn [out_bind]. by case_bool_decide.
Qed.

(** The decimal digits of a number below [10 ^ k]; none for 0. *)
Fixpoint dec (k : nat) (n : Z) : list Z :=
  match k with
  | O => []
  | S k => if n =? 0 then [] else dec k (n / 10) ++ [48 + n mod 10]
  end.

Lemma dec_digits k : forall n, Forall digit (dec k n) /\ zlen (dec k n) <= Z.of_nat k.
Proof.
  induction k as [|k IH]; intros n; cbn [dec]; [done|]. destruct (n =? 0); [split; [constructor|done]|].
  destruct (IH (n / 10)) as [Hd Hl]. pose proof (Z.mod_pos_bound n 10). split.
  - apply Forall_app. split; [done|]. constructor; [unfold digit; lia|constructor].
  - rewrite zlen_app, zlen_one. lia.
Qed.

Lemma dec_value k : forall n, 0 <= n < 10 ^ Z.of_nat k -> digits 0 (dec k n) = n.
Proof.
  induction k as [|k IH]; intros n Hn; cbn [dec]; [cbn in Hn |- *; lia|]. destruct (Z.eqb_spec n 0) as [->|Hne]; [done|].
  rewrite digits_app by apply dec_digits. rewrite IH.
  - pose proof (Z.mod_pos_bound n 10). pose proof (Z.div_mod n 10). cbn [digits]. replace (_ && _) with true by lia. lia.
  - rewrite Nat2Z.inj_succ, Z.pow_succ_r in Hn by lia. split; [apply Z.div_pos; lia|]. apply Z.div_lt_upper_bound; lia.
Qed.

(** The digits take the place of the bytes before [post]. *)
Lemma to_base10_dec k : forall fuel n pre mid post, (k < fuel)%nat -> zlen mid = Z.of_nat k -> 0 <= n < 10 ^ Z.of_nat k ->
  to_base10 fuel (pre ++ mid ++ post) (zlen pre + zlen mid - 1) n =
  Ret (pre ++ ztake (zlen mid - zlen (dec k n)) mid ++ dec k n ++ post).
Proof.
  induction k as [|k IH]; intros [|fuel] n pre mid post Hf Hm Hn; try lia; cbn [to_base10 dec].
  { assert (n = 0) as -> by (cbn in Hn; lia). destruct mid; [done|]. rewrite zlen_cons in Hm. pose proof (zlen_nonneg mid). lia. }
  destruct (Z.eqb_spec n 0) as [->|Hne].
  { cbn [app]. change (zlen []) with 0. rewrite Z.sub_0_r. unfold ztake, zlen. by rewrite Nat2Z.id, take_ge. }
  destruct (exists_last (l := mid)) as (mid' & x & ->); [by intros ->|]. rewrite zlen_app, zlen_one in Hm |- *.
  rewrite <- (app_assoc mid'), app_assoc. replace (zlen pre + (zlen mid' + 1) - 1) with (zlen (pre ++ mid')) by (rewrite zlen_app; lia).
  cbn [app]. rewrite store_at, <- app_assoc. cbn [out_bind]. rewrite zlen_app.
  rewrite Z.rem_mod_nonneg, Z.quot_div_nonneg by lia. pose proof (Z.mod_pos_bound n 10).
  unfold u8. rewrite wrap_small by (unfold fits; lia). rewrite IH; [|lia|lia|].
  - rewrite zlen_app, zlen_one. f_equal. rewrite <- (app_assoc (dec k _)). cbn [app]. rewrite (Z.add_comm (n mod 10)).
    replace (zlen mid' + 1 - (zlen (dec k (n / 10)) + 1)) with (zlen mid' - zlen (dec k (n / 10))) by lia. f_equal. f_equal.
    unfold ztake, zlen. rewrite take_app_le by lia. done.
  - rewrite Nat2Z.inj_succ, Z.pow_succ_r in Hn by lia. split; [apply Z.div_pos; lia|]. apply Z.div_lt_upper_bound; lia.
Qed.

(** The line for a time. *)
Definition line_of (sec usec : Z) : list Z :=
  bytes_of_string "The time is " ++ replicate (Z.to_nat (20 - zlen (dec 20 sec))) 32 ++ dec 20 sec ++ [46] ++
  replicate (Z.to_nat (6 - zlen (dec 6 usec))) 48 ++ dec 6 usec ++ [10].

Lemma ztake_replicate n m (x : Z) : 0 <= n <= Z.of_nat m -> ztake n (replicate m x) = replicate (Z.to_nat n) x.
Proof. intros. unfold ztake. rewrite take_replicate. f_equal. lia. Qed.

Lemma time_line_eq sec usec : 0 <= sec < 2 ^ 63 -> 0 <= usec < 10 ^ 6 -> time_line sec usec = Ret (line_of sec usec).
Proof.
  intros Hs Hu. unfold time_line. destruct (dec_digits 20 sec) as [_ H1]. destruct (dec_digits 6 usec) as [_ H2].
  pose proof (zlen_nonneg (dec 20 sec)). pose proof (zlen_nonneg (dec 6 usec)).
  pose proof (to_base10_dec 20 64 sec (bytes_of_string "The time is ") (replicate 20 32) (46 :: replicate 6 48 ++ [10])) as E.
  change (_ ++ replicate 20 32 ++ _) with template in E. change (zlen (bytes_of_string "The time is ") + _ - 1) with 31 in E.
  rewrite E; [|lia|done|lia]. cbn [out_bind]. change (zlen (replicate 20 32)) with 20. rewrite ztake_replicate by lia.
  set (pre := bytes_of_string "The time is " ++ replicate (Z.to_nat (20 - zlen (dec 20 sec))) 32 ++ dec 20 sec ++ [46]).
  pose proof (to_base10_dec 6 64 usec pre (replicate 6 48) [10]) as E2.
  replace (zlen pre + zlen (replicate 6 48) - 1) with 38 in E2.
  2:{ unfold pre. rewrite !zlen_app, zlen_replicate by lia. change (zlen (bytes_of_string "The time is ")) with 12.
      change (zlen (replicate 6 48)) with 6. change (zlen [46]) with 1. lia. }
  change (zlen (replicate 6 48)) with 6 in E2. rewrite ztake_replicate in E2 by lia.
  unfold pre in E2. rewrite <- !app_assoc in E2. unfold line_of. cbn [app] in E2 |- *. apply E2; [lia|done|done].
Qed.

Lemma to_base10_safe k : forall fuel buf i n, (k < fuel)%nat -> - 10 ^ Z.of_nat k < n < 10 ^ Z.of_nat k ->
  Z.of_nat k <= i + 1 -> i < zlen buf -> exists buf', to_base10 fuel buf i n = Ret buf' /\ zlen buf' = zlen buf.
Proof.
  induction k as [|k IH]; intros [|fuel] buf i n Hf Hn Hi Hl; try lia; cbn [to_base10].
  { assert (n = 0) as -> by (cbn in Hn; lia). by exists buf. }
  destruct (Z.eqb_spec n 0) as [->|Hne]; [by exists buf|]. rewrite store_in by lia. cbn [out_bind].
  destruct (IH fuel (zset buf i (u8 (Z.rem n 10 + 48))) (i - 1) (Z.quot n 10)) as (b & E & Hb).
  - lia.
  - rewrite Nat2Z.inj_succ, Z.pow_succ_r in Hn by lia. generalize dependent (10 ^ Z.of_nat k). intros.
    Z.to_euclidean_division_equations. lia.
  - lia.
  - rewrite zlen_zset. lia.
  - exists b. by rewrite Hb, zlen_zset.
Qed.

(** The line has room for every time of 64 bits: nothing is stored outside it.  For a time of the clock it shows
    both numbers, the microseconds with their zeros, except that second 0 is left blank. *)
Theorem time_line_shows sec usec : - 2 ^ 63 <= sec < 2 ^ 63 -> - 2 ^ 63 <= usec < 2 ^ 63 ->
  (exists b, time_line sec usec = Ret b /\ zlen b = 40) /\
  (0 <= sec -> 0 <= usec < 10 ^ 6 -> time_line sec usec = Ret (line_of sec usec) /\
     digits 0 (zdrop (32 - zlen (dec 20 sec)) (line_of sec usec)) = sec /\ digits 0 (zdrop 33 (line_of sec usec)) = usec).
Proof.
  intros Hs Hu. split.
  - unfold time_line. destruct (to_base10_safe 19 64 template 31 sec) as (b & -> & Hb); [lia|lia|lia|done|]. cbn [out_bind].
    change (zlen template) with 40 in Hb. destruct (to_base10_safe 19 64 b 38 usec) as (b2 & -> & Hb2); [lia|lia|lia|lia|]. exists b2. split; [done|lia].
  - intros Hs0 Hu0. split; [apply time_line_eq; lia|]. unfold line_of. destruct (dec_digits 20 sec) as [Hd1 H1]. destruct (dec_digits 6 usec) as [Hd2 H2].
    pose proof (zlen_nonneg (dec 20 sec)). pose proof (zlen_nonneg (dec 6 usec)). pose proof (dec_value 20 sec ltac:(lia)) as Hv1.
    pose proof (dec_value 6 usec ltac:(lia)) as Hv2. set (a := bytes_of_string "The time is "). set (x := replicate (Z.to_nat (20 - _)) 32).
    set (z := replicate (Z.to_nat (6 - _)) 48). assert (zlen x = 20 - zlen (dec 20 sec)) as Hx by (apply zlen_replicate; lia).
    assert (zlen a = 12) as Ha by done. split.
    + rewrite (app_assoc a x). unfold zdrop, zlen in *. rewrite drop_app_length' by (rewrite length_app; lia).
      rewrite digits_app by done. rewrite Hv1. cbn [app]. apply digits_stop. unfold digit. lia.
    + rewrite (app_assoc a x), (app_assoc (a ++ x)), (app_assoc _ [46]). unfold zdrop, zlen in *.
      rewrite drop_app_length' by (rewrite !length_app; cbn [length]; lia).
      assert (Forall digit z) as Hz by (apply Forall_replicate; unfold digit; lia).
      assert (digits 0 z = 0) as Hz0. { unfold z. generalize (Z.to_nat (6 - Z.of_nat (length (dec 6 usec)))). intros k. induction k as [|k IH]; [done|exact IH]. }
      rewrite digits_app, digits_app, Hz0, Hv2 by done. apply digits_stop. unfold digit. lia.
Qed.

(** ** It finds the function *)

(** Pointers up to a null pointer. *)
Fixpoint words_at (m : mem) (p : Z) (l : list Z) : Prop :=
  match l with
  | [] => ld m 8 p = Ret 0
  | v :: l => ld m 8 p = Ret v /\ v <> 0 /\ words_at m (u64 (p + 8)) l
  end.

Fixpoint behind (p : Z) (l : list Z) : Z :=
  match l with [] => u64 (p + 8) | _ :: l => behind (u64 (p + 8)) l end.

Lemma skip_env_spec m l : forall fuel p, words_at m p l -> (length l < fuel)%nat -> skip_env fuel m p = Ret (behind p l).
Proof.
  induction l as [|v l IH]; intros [|fuel] p Hw Hf; cbn [length] in Hf; try lia; cbn [skip_env words_at behind] in *.
  - by rewrite Hw.
  - destruct Hw as (-> & Hv & Hw). cbn [out_bind]. apply Z.eqb_neq in Hv. unfold truthy. rewrite Hv. apply IH; [done|lia].
Qed.

Lemma exit_status_int x : exit_status (i32 x) = x mod 256.
Proof.
  unfold exit_status, i32, sint, u8, wrap. change (2 ^ (32 - 1)) with (2 ^ 23 * 256). change (2 ^ 8) with 256.
  rewrite Zminus_mod, Z.mod_mod_divide by (by exists (2 ^ 24)). rewrite <- Zminus_mod. f_equal. lia.
Qed.

Lemma low_byte_nonzero x : -255 <= x <= -1 -> x mod 256 <> 0.
Proof. intros Hx. rewrite <- (Z.mod_add x 1 256), Z.mod_small by lia. lia. Qed.

Definition clock_ok (K : kernel call) : Prop := forall h f, let a := K h (Gtod f) in
  ret a = 0 -> 0 <= znth (data a) 0 < 2 ^ 63 /\ 0 <= znth (data a) 1 < 10 ^ 6.

(** C10: Started by the kernel with arguments, environment and auxiliary vector on its stack and a complete vDSO image in
    memory, the program calls the function gettimeofday of that image and prints the time it
    gives, with status 0.  Without that function the status is 1.  When the call fails the program exits with its
    long result cut to an int, and the status that is seen has the low eight bits of that result: not 0 for an error
    number between -255 and -1, but 0, as for success, for a multiple of 256. *)
Theorem c_main_prints fuel m stack argc env auxl base e tbl vs K :
  let info := parsed base e in
  let f := address_of info (List.find (wanted info vs LINUX_2_6 gettimeofday) (concat tbl)) in
  let g := K [] (Gtod f) in
  let p := u64 (stack + 8 * (argc + 2)) in
  ld m 8 stack = Ret argc -> words_at m p env -> auxv_at m (behind p env) 0 auxl ->
  List.find (fun a => fst a =? AT_SYSINFO_EHDR) auxl = Some (AT_SYSINFO_EHDR, base) ->
  image_at m base e -> complete base e = true -> stored m info tbl vs ->
  (length env < fuel)%nat -> (length auxl < fuel)%nat -> (length (el_dyns e) < fuel)%nat ->
  (forall l, l ∈ tbl -> length l + length vs < fuel)%nat -> clock_ok K ->
  wp (c_main fuel m stack) K tt [] (fun r _ h =>
    if f =? 0 then r = Exit 1 /\ h = []
    else if ret g =? 0 then r = Exit 0 /\ exists w, h = [(Write 1 (line_of (znth (data g) 0) (znth (data g) 1)), w); (Gtod f, g)]
    else r = Exit (i32 (ret g)) /\ h = [(Gtod f, g)] /\
      exit_status (i32 (ret g)) = ret g mod 256 /\ (-255 <= ret g <= -1 -> exit_status (i32 (ret g)) <> 0)).
Proof.
  intros info f g p Ha He Hx Hfind Him Hcomp Hst Hf1 Hf2 Hf3 Hf4 HK.
  assert (find_gtod fuel m stack = Ret f) as Hfound.
  { unfold find_gtod. rewrite Ha. cbn [out_bind]. fold p. rewrite (skip_env_spec m env) by done. cbn [out_bind].
    unfold vdso_init_from_auxv. rewrite (scan_auxv_spec _ _ _ _ _ auxl) by done. rewrite Hfind.
    destruct (init_image fuel m base e blank Him Hf3) as (info' & -> & _ & _ & Hi). cbn [out_bind]. rewrite (Hi Hcomp).
    apply vdso_sym_lookup; [done|by apply (bool_decide_unpack _); vm_compute|by apply (bool_decide_unpack _); vm_compute|by vm_compute|done]. }
  unfold c_main, linux_exit, linux_write. wp_step. rewrite Hfound. apply wp_lift. do 2 wp_step. destruct (f =? 0); [by wp_go|].
  do 3 wp_step. apply wp_sys_eq. intros a Ea. assert (a = g) as -> by (symmetry; exact Ea). do 2 wp_step. specialize (HK [] f). fold g in HK.
  destruct (Z.eqb_spec (ret g) 0) as [Hg|Hg]; [|wp_go; rewrite exit_status_int; split_and!; try done; intros Hr; by apply low_byte_nonzero]. destruct (HK Hg). wp_step. rewrite time_line_eq by done. apply wp_lift. wp_go. eauto.
Qed.

(** ** Witnesses *)

(** An image with the one function and, behind it, an initial stack. *)
Definition demo_bytes : list Z :=
  [0x7f; 69; 76; 70; 2] ++ replicate 27 0 ++ le_bytes 8 64 ++ replicate 16 0 ++ le_bytes 2 2 ++ replicate 6 0 ++
  le_bytes 8 PT_LOAD ++ le_bytes 8 0 ++ le_bytes 8 0 ++ replicate 32 0 ++
  le_bytes 8 PT_DYNAMIC ++ le_bytes 8 176 ++ le_bytes 8 176 ++ replicate 32 0 ++
  concat (map (fun e => le_bytes 8 (fst e) ++ le_bytes 8 (snd e))
    [(DT_STRTAB, 272); (DT_SYMTAB, 304); (DT_HASH, 352); (DT_VERSYM, 372); (DT_VERDEF, 376); (DT_NULL, 0)]) ++
  [0] ++ gettimeofday ++ [0] ++ LINUX_2_6 ++ [0; 0] ++
  replicate 24 0 ++ le_bytes 4 1 ++ [0x12; 0] ++ le_bytes 2 1 ++ le_bytes 8 0x500 ++ le_bytes 8 0 ++
  concat (map (le_bytes 4) [1; 2; 1; 0; 0]) ++
  le_bytes 2 0 ++ le_bytes 2 2 ++
  le_bytes 2 1 ++ le_bytes 2 0 ++ le_bytes 2 2 ++ le_bytes 2 1 ++ le_bytes 4 (elf_hash 32 LINUX_2_6) ++ le_bytes 4 20 ++ le_bytes 4 0 ++
  le_bytes 4 21 ++ le_bytes 4 0 ++
  concat (map (le_bytes 8) [1; 0x9000; 0; 0x9100; 0; 6; 4096; AT_SYSINFO_EHDR; 0x1000; AT_NULL; 0]).

Definition demo_mem : mem := mem_of 0x1000 demo_bytes.
Definition demo_elf : elf_image :=
  Elf 2 64 [Phdr PT_LOAD 0 0; Phdr PT_DYNAMIC 176 176]
    [Dyn DT_STRTAB 272; Dyn DT_SYMTAB 304; Dyn DT_HASH 352; Dyn DT_VERSYM 372; Dyn DT_VERDEF 376] 1 2.
Definition demo_sym : sym := Sym gettimeofday 0x12 1 0x500 2.
Definition demo_ver : vdef := VDef 0 2 (elf_hash 32 LINUX_2_6) LINUX_2_6.

Lemma demo_image : image_at demo_mem 0x1000 demo_elf.
Proof.
  split_and!; [by vm_compute..| |].
  - intros _. by vm_compute.
  - intros off E. vm_compute in E. injection E as <-. intros hash _. by vm_compute.
Qed.

Lemma demo_stored : stored demo_mem (parsed 0x1000 demo_elf) [[demo_sym]] [demo_ver].
Proof.
  split.
  - done.
  - done.
  - intros [|[|]] l E; simpl in E; try done. injection E as <-. exists 1. split; [by vm_compute|].
    apply (chain_link _ _ 1 _ 0); [done| |by vm_compute|apply chain_end].
    apply (sym_here _ _ 1 demo_sym 1); intros; by vm_compute.
  - intros [|[|]] l s E Hs; simpl in E; try done. injection E as <-.
    apply list_elem_of_singleton in Hs. subst s. by vm_compute.
  - intros _. split; [|repeat constructor].
    apply (verdefs_last _ _ _ _ 20 21); [apply vdef_here|]; by vm_compute.
Qed.

Definition demo_clock : kernel call := fun _ c => match c with Gtod _ => Ans 0 0 [1234567890; 42] | _ => aret 0 end.

Definition broken_clock : kernel call := fun _ c => match c with Gtod _ => aret (-22) | _ => aret 0 end.

Lemma c_main_prints_witness :
  wp (c_main 10 demo_mem (0x1000 + 404)) demo_clock tt [] (fun r _ h => r = Exit 0 /\
    exists w, h = [(Write 1 (bytes_of_string "The time is           1234567890.000042" ++ [10]), w); (Gtod 0x1500, Ans 0 0 [1234567890; 42])]) /\
  wp (c_main 10 demo_mem (0x1000 + 404)) broken_clock tt [] (fun r _ h => r = Exit (-22) /\ h = [(Gtod 0x1500, aret (-22))] /\
    exit_status (-22) = 234 /\ (-255 <= -22 <= -1 -> exit_status (-22) <> 0)).
Proof.
  set (aux := [(6, 4096); (AT_SYSINFO_EHDR, 0x1000)]). set (env := [0x9100]).
  assert (length env < 10 /\ length aux < 10 /\ length (el_dyns demo_elf) < 10)%nat as (L1 & L2 & L3) by (cbn; lia).
  assert (forall l, l ∈ [[demo_sym]] -> length l + length [demo_ver] < 10)%nat as L4.
  { intros l Hl. apply list_elem_of_singleton in Hl. subst l. cbn. lia. }
  assert (ld demo_mem 8 (0x1000 + 404) = Ret 1) as M1 by (by vm_compute).
  assert (words_at demo_mem (u64 (0x1000 + 404 + 8 * (1 + 2))) env) as M2 by (by vm_compute).
  assert (complete 0x1000 demo_elf = true) as M4 by (vm_compute; reflexivity).
  assert (auxv_at demo_mem (behind (u64 (0x1000 + 404 + 8 * (1 + 2))) env) 0 aux) as M3
    by (by vm_compute).
  split.
  - apply (c_main_prints 10 demo_mem (0x1000 + 404) 1 env aux 0x1000 demo_elf
      [[demo_sym]] [demo_ver] demo_clock M1 M2 M3 eq_refl demo_image M4 demo_stored L1 L2 L3 L4).
    intros h f a _. by vm_compute.
  - apply (c_main_prints 10 demo_mem (0x1000 + 404) 1 env aux 0x1000 demo_elf
      [[demo_sym]] [demo_ver] broken_clock M1 M2 M3 eq_refl demo_image M4 demo_stored L1 L2 L3 L4).
    intros h f a Ha. discriminate Ha.
Defined.

(** "abc" and "abd" in memory. *)
Definition two_strings : mem := mem_of 0 [97; 98; 99; 0; 97; 98; 100; 0].

Lemma strcmp_agrees_witness :
  strcmp 9 two_strings 0 4 = Ret 1 /\ streq two_strings [97; 98; 99] 4 = Ret false.
Proof.
  destruct (strcmp_agrees two_strings 0 4 [97; 98; 99] [97; 98; 100] 9) as [E1 E2]; [by vm_compute|by vm_compute|cbn; lia|].
  rewrite E2, E1. split; reflexivity.
Defined.

Lemma time_line_shows_witness :
  time_line 1234567890 42 = Ret (line_of 1234567890 42) /\
  line_of 1234567890 42 = bytes_of_string "The time is           1234567890.000042" ++ [10].
Proof.
  destruct (time_line_shows 1234567890 42) as [_ H]; [lia|lia|]. destruct H as (E & _ & _); [lia|lia|]. split; [exact E|vm_compute; reflexivity].
Defined.

End Standalone.

Module Test.

Open Scope io_scope.

Inductive text : Type :=
| NotPresent
| NotFound
| TheTime (sec usec : Z)
| Failed.

Inductive call : Type :=
| Getauxval (type : Z)
| Gtod (f : Z)
| Printf (t : text).

#[export] Instance shows : Shows call text := fun c => match c with Printf t => Some t | _ => None end.

(** The state is the parser's [vdso_info]. *)
Abbreviation prog := (io call vdso_info).

Definition printf (t : text) : prog unit := sys (Printf t) ;; io_ret tt.

Definition main (fuel : nat) (m : mem) : prog Z :=
  let* sysinfo_ehdr := sys (Getauxval AT_SYSINFO_EHDR) in
  if ret sysinfo_ehdr =? 0 then printf NotPresent ;; io_ret 0
  else
    let* base := sys (Getauxval AT_SYSINFO_EHDR) in
    update (vdso_init_from_sysinfo_ehdr fuel m (ret base)) ;;
    let* info := get in
    let* gtod := lift (vdso_sym fuel m info LINUX_2_6 gettimeofday) in
    if gtod =? 0 then printf NotFound ;; io_ret 1
    else
      let* r := sys (Gtod gtod) in
      (if ret r =? 0 then printf (TheTime (znth (data r) 0) (znth (data r) 1)) else printf Failed) ;;
      io_ret 0.

(** Given a complete image at the address the auxiliary vector names, the program prints the time that the function
    gettimeofday of the image gives, or that it failed, and returns 0; it returns 1 when the
    image has no such function. *)
Theorem test_prints fuel m base e tbl vs K info0 :
  let info := parsed base e in
  let f := address_of info (List.find (wanted info vs LINUX_2_6 gettimeofday) (concat tbl)) in
  (forall h, ret (K h (Getauxval AT_SYSINFO_EHDR)) = base) -> base <> 0 ->
  image_at m base e -> complete base e = true -> stored m info tbl vs ->
  (length (el_dyns e) < fuel)%nat -> (forall l, l ∈ tbl -> length l + length vs < fuel)%nat ->
  wp (main fuel m) K info0 [] (fun r s h => s = info /\
    if f =? 0 then r = Ret 1 /\ output h = [NotFound]
    else r = Ret 0 /\ exists g, output h = [if ret g =? 0 then TheTime (znth (data g) 0) (znth (data g) 1) else Failed] /\
           Exists (eq (Gtod f, g)) h).
Proof.
  intros info f Hb Hne Him Hcomp Hst Hf1 Hf2. destruct (init_image fuel m base e info0 Him Hf1) as (info' & Hinit & _ & _ & Hi).
  specialize (Hi Hcomp). subst info'. unfold main, printf. wp_step. apply wp_sys_eq. intros a Ea. wp_step.
  assert (ret a = base) as Ra by (rewrite <- Ea; apply Hb). replace (ret a =? 0) with false by lia. wp_step. apply wp_sys_eq. intros b Eb. wp_step.
  assert (ret b = base) as Rb by (rewrite <- Eb; apply Hb). wp_step. eapply wp_update; [rewrite Rb; exact Hinit|]. do 4 wp_step. wp_step.
  rewrite (vdso_sym_lookup fuel m _ tbl vs);
    [|done|by apply (bool_decide_unpack _); vm_compute|by apply (bool_decide_unpack _); vm_compute|by vm_compute|done].
  apply wp_lift. fold info. fold f. wp_step. destruct (f =? 0).
  - wp_go. split; [done|]. split; [done|]. by rewrite output_cons, !output_silent.
  - wp_step. apply wp_sys_any. intros g. wp_step. wp_step.
    destruct (ret g =? 0) eqn:Eg; wp_go; (split; [done|]); (split; [done|]); exists g; rewrite Eg;
      (split; [by rewrite output_cons, !output_silent|by right; left]).
Qed.

Definition demo : kernel call := fun _ c =>
  match c with Getauxval _ => aret 0x1000 | Gtod _ => Ans 0 0 [1234567890; 42] | _ => aret 0 end.

Lemma test_prints_witness :
  wp (main 10 Standalone.demo_mem) demo blank [] (fun r s h => s = parsed 0x1000 Standalone.demo_elf /\
    r = Ret 0 /\ exists g, output h = [if ret g =? 0 then TheTime (znth (data g) 0) (znth (data g) 1) else Failed] /\
      Exists (eq (Gtod 0x1500, g)) h) /\
  output (main 10 Standalone.demo_mem demo blank []).2 = [TheTime 1234567890 42].
Proof.
  split; [|vm_compute; reflexivity].
  apply (test_prints 10 Standalone.demo_mem 0x1000 Standalone.demo_elf [[Standalone.demo_sym]] [Standalone.demo_ver] demo blank).
  - reflexivity.
  - lia.
  - exact Standalone.demo_image.
  - reflexivity.
  - exact Standalone.demo_stored.
  - cbn. lia.
  - intros l Hl. apply list_elem_of_singleton in Hl. subst l. cbn. lia.
Defined.

End Test.
