(* ===== verification/Cfag12864b.v ===== *)
(** * The cfag12864b LCD example: Documentation/auxdisplay/cfag12864b-example.c

    The drawing primitives work on the global [cfag12864b_buffer], 1024 bytes of
    eight pixels each; the model passes the buffer.  [CFAG12864B_DOCHECK] is
    undefined in the source, so there is no coordinate check: an address outside
    the buffer is a [Crash].  The device memory is written through [memcpy], an
    event the outside sees, as are the system calls and the output.

    The abstraction of a buffer is the picture it shows: a function from
    coordinates to booleans. *)

From S2P Require Import Prelude Posix CArray.

Module Cfag.

Open Scope out_scope.

(** ** The buffer *)

Definition CFAG12864B_WIDTH := 128.
Definition CFAG12864B_HEIGHT := 64.
Definition CFAG12864B_SIZE := 128 * 64 / 8.
Definition CFAG12864B_BPB := 8.

Definition CFAG12864B_ADDRESS (x y : Z) : Z :=
  y * CFAG12864B_WIDTH / CFAG12864B_BPB + x / CFAG12864B_BPB.
Definition CFAG12864B_BIT (n : Z) : Z := Z.shiftl 1 n.

Definition buffer : Type := list Z.

Definition cfag12864b_set (x y : Z) (buf : buffer) : outcome buffer :=
  let! b := load buf (CFAG12864B_ADDRESS x y) in
  store buf (CFAG12864B_ADDRESS x y) (u8 (Z.lor b (CFAG12864B_BIT (x mod CFAG12864B_BPB)))).

Definition cfag12864b_unset (x y : Z) (buf : buffer) : outcome buffer :=
  let! b := load buf (CFAG12864B_ADDRESS x y) in
  store buf (CFAG12864B_ADDRESS x y)
    (u8 (Z.land b (Z.lnot (CFAG12864B_BIT (x mod CFAG12864B_BPB))))).

Definition cfag12864b_isset (x y : Z) (buf : buffer) : outcome Z :=
  let! b := load buf (CFAG12864B_ADDRESS x y) in
  Ret (if has b (CFAG12864B_BIT (x mod CFAG12864B_BPB)) then 1 else 0).

Definition cfag12864b_not (x y : Z) (buf : buffer) : outcome buffer :=
  let! r := cfag12864b_isset x y buf in
  if truthy r then cfag12864b_unset x y buf else cfag12864b_set x y buf.

(** The fuel of each loop is its number of turns and the last test. *)
Definition cfag12864b_fill (buf : buffer) : outcome buffer :=
  for_loop 1025 16 0 CFAG12864B_SIZE 1 (fun i buf => store buf i 0xFF) buf.

Definition cfag12864b_clear (buf : buffer) : outcome buffer :=
  for_loop 1025 16 0 CFAG12864B_SIZE 1 (fun i buf => store buf i 0) buf.

Definition cfag12864b_format (matrix : list Z) (buf : buffer) : outcome buffer :=
  for_loop 65 8 0 CFAG12864B_HEIGHT 1 (fun i buf =>
    for_loop 17 8 0 (CFAG12864B_WIDTH / CFAG12864B_BPB) 1 (fun j buf =>
      let a := i * CFAG12864B_WIDTH / CFAG12864B_BPB + j in
      let! buf := store buf a 0 in
      for_loop 9 8 0 CFAG12864B_BPB 1 (fun n buf =>
        let! v := load matrix (i * CFAG12864B_WIDTH + j * CFAG12864B_BPB + n) in
        if truthy v then
          let! b := load buf a in store buf a (u8 (Z.lor b (CFAG12864B_BIT n)))
        else Ret buf) buf) buf) buf.

(** ** The program *)

Inductive call : Type :=
| Open (path : string)
| Mmap (len fd : Z)
| Munmap (addr len : Z)
| Close (fd : Z)
| Memcpy (dst : Z) (bytes : list Z)
| Getchar
| Printf (s : string).

Record state : Type := State { cfag12864b_fd : Z; cfag12864b_mem : Z; cfag12864b_buffer : buffer }.

Definition set_fd fd s := State fd (cfag12864b_mem s) (cfag12864b_buffer s).
Definition set_mem m s := State (cfag12864b_fd s) m (cfag12864b_buffer s).
Definition on_buffer (f : buffer -> outcome buffer) (s : state) : outcome state :=
  let! b := f (cfag12864b_buffer s) in Ret (State (cfag12864b_fd s) (cfag12864b_mem s) b).

Definition MAP_FAILED := -1.
Definition EXAMPLES := 6.

Open Scope io_scope.

Definition cfag12864b_init (path : string) : io call state Z :=
  let* r := sys (Open path) in
  modify (set_fd (ret r)) ;;
  if ret r =? -1 then io_ret (-1)
  else
    let* p := sys (Mmap CFAG12864B_SIZE (ret r)) in
    modify (set_mem (ret p)) ;;
    if ret p =? MAP_FAILED then
      sys (Close (ret r)) ;; io_ret (-2)
    else io_ret 0.

Definition cfag12864b_exit : io call state unit :=
  let* s := get in
  sys (Munmap (cfag12864b_mem s) CFAG12864B_SIZE) ;;
  sys (Close (cfag12864b_fd s)) ;; io_ret tt.

Definition cfag12864b_blit : io call state unit :=
  let* s := get in
  sys (Memcpy (cfag12864b_mem s) (ztake CFAG12864B_SIZE (cfag12864b_buffer s))) ;; io_ret tt.

(** The two nested loops of the examples; the counters are [unsigned short] and
    the primitives take [unsigned char]. *)
Definition each_pixel (si sj : Z) (act : Z -> Z -> buffer -> outcome buffer) (buf : buffer)
    : outcome buffer :=
  for_loop 129 16 0 CFAG12864B_WIDTH si (fun i buf =>
    for_loop 65 16 0 CFAG12864B_HEIGHT sj (fun j buf => act (u8 i) (u8 j) buf) buf) buf.

Definition rows_matrix : outcome (list Z) :=
  for_loop 129 16 0 CFAG12864B_WIDTH 1 (fun i m =>
    for_loop 65 16 0 CFAG12864B_HEIGHT 2 (fun j m =>
      store m (j * CFAG12864B_WIDTH + i) 1) m)
    (replicate (Z.to_nat (CFAG12864B_WIDTH * CFAG12864B_HEIGHT)) 0).

Definition print (s : string) : io call state unit := sys (Printf s) ;; io_ret tt.

Definition example (n : Z) : io call state unit :=
  if EXAMPLES <? n then io_ret tt
  else
    print ("Example " +:+ pretty n +:+ "/" +:+ pretty EXAMPLES +:+ " - ") ;;
    (if n =? 1 then
       print "Draw points setting bits" ;;
       update (on_buffer cfag12864b_clear) ;;
       update (on_buffer (each_pixel 2 2 cfag12864b_set))
     else if n =? 2 then
       print "Clear the LCD" ;;
       update (on_buffer cfag12864b_clear)
     else if n =? 3 then
       print "Draw rows formatting a [128*64] matrix" ;;
       update (on_buffer (fun buf => (let! m := rows_matrix in cfag12864b_format m buf)%out))
     else if n =? 4 then
       print "Fill the lcd" ;;
       update (on_buffer cfag12864b_fill)
     else if n =? 5 then
       print "Draw columns unsetting bits" ;;
       update (on_buffer (each_pixel 2 1 cfag12864b_unset))
     else if n =? 6 then
       print "Do negative not-ing all bits" ;;
       update (on_buffer (each_pixel 1 1 cfag12864b_not))
     else io_ret tt) ;;
    print (" - [Press Enter]" +:+ nl).

Definition newline : Z := 10.

(** [while (getchar() != '\n');] *)
Fixpoint wait_enter (fuel : nat) : io call state unit :=
  match fuel with
  | O => nofuel
  | S fuel' =>
      let* c := sys Getchar in
      if ret c =? newline then io_ret tt else wait_enter fuel'
  end.

(** The loop of [main] over the examples, [left] of them to go. *)
Fixpoint show_examples (fuel left : nat) (n : Z) : io call state unit :=
  match left with
  | O => io_ret tt
  | S left' =>
      example n ;; cfag12864b_blit ;; wait_enter fuel ;; show_examples fuel left' (u8 (n + 1))
  end.

Definition main (fuel : nat) (argv : list string) : io call state Z :=
  match argv with
  | [_; path] =>
      let* r := cfag12864b_init path in
      if truthy r then
        print ("Can't init " +:+ path +:+ " fbdev" +:+ nl) ;; io_ret (-2)
      else
        show_examples fuel (Z.to_nat EXAMPLES) 1 ;;
        cfag12864b_exit ;;
        io_ret 0
  | _ =>
      print ("Sintax:  " +:+ nth 0 argv "" +:+ " fbdev" +:+ nl +:+
             "Usually: /dev/fb0, /dev/fb1..." +:+ nl) ;;
      io_ret (-1)
  end.

Close Scope io_scope.

(** ** Pictures *)

Definition inside (x y : Z) : Prop := 0 <= x < 128 /\ 0 <= y < 64.
Definition buffer_ok (buf : buffer) : Prop := zlen buf = 1024 /\ bytes_ok buf.

(** The pixel: bit [x mod 8] of byte [16 y + x / 8]. *)
Definition pixel (buf : buffer) (x y : Z) : bool :=
  Z.testbit (znth buf (16 * y + x / 8)) (x mod 8).

Definition picture : Type := Z -> Z -> bool.
Definition shows (buf : buffer) (f : picture) : Prop :=
  buffer_ok buf /\ forall x y, inside x y -> pixel buf x y = f x y.
Definition point (f : picture) (x y : Z) (v : bool) : picture :=
  fun x' y' => if (x' =? x) && (y' =? y) then v else f x' y'.

Lemma address_eq x y : CFAG12864B_ADDRESS x y = 16 * y + x / 8.
Proof.
  unfold CFAG12864B_ADDRESS, CFAG12864B_WIDTH, CFAG12864B_BPB.
  replace (y * 128) with (16 * y * 8) by lia. rewrite Z.div_mul by lia. lia.
Qed.

Lemma address_range x y : inside x y -> 0 <= 16 * y + x / 8 < 1024.
Proof. intros [Hx Hy]. pose proof (Z.div_mod x 8). pose proof (Z.mod_pos_bound x 8). lia. Qed.

Lemma shows_ext buf f g :
  shows buf f -> (forall x y, inside x y -> f x y = g x y) -> shows buf g.
Proof. intros [Hb Hf] E. split; [done|]. intros. rewrite Hf by done. auto. Qed.

Lemma has_bit b n : 0 <= n -> has b (CFAG12864B_BIT n) = Z.testbit b n.
Proof.
  intros Hn. unfold has, truthy, CFAG12864B_BIT. rewrite Z.shiftl_1_l.
  destruct (Z.testbit b n) eqn:E.
  - apply negb_true_iff, Z.eqb_neq. intros H0.
    assert (Z.testbit (Z.land b (2 ^ n)) n = true) as H.
    { by rewrite Z.land_spec, E, Z.pow2_bits_true by lia. }
    by rewrite H0, Z.bits_0 in H.
  - apply negb_false_iff, Z.eqb_eq. apply Z.bits_inj'. intros i Hi.
    rewrite Z.land_spec, Z.bits_0, Z.pow2_bits_eqb by lia.
    destruct (Z.eqb_spec n i) as [->|]; [by rewrite E|btauto].
Qed.

Lemma bit_test n i : 0 <= n -> Z.testbit (CFAG12864B_BIT n) i = (n =? i).
Proof. intros. unfold CFAG12864B_BIT. rewrite Z.shiftl_1_l. by apply Z.pow2_bits_eqb. Qed.

Lemma u8_ok x : byte_ok (u8 x).
Proof. apply (wrap_range 8). lia. Qed.

(** Writing one byte that differs from the old one in one bit at most. *)
Lemma store_point buf f x y b v :
  shows buf f -> inside x y -> byte_ok b ->
  (forall i, 0 <= i < 8 -> Z.testbit b i =
     if i =? x mod 8 then v else Z.testbit (znth buf (16 * y + x / 8)) i) ->
  exists buf', store buf (16 * y + x / 8) b = Ret buf' /\ shows buf' (point f x y v).
Proof.
  intros [[Hlen Hok] Hf] Hin Hb Hbits. pose proof (address_range x y Hin) as Ha.
  eexists. split; [apply store_in; lia|]. split.
  { split; [by rewrite zlen_zset|by apply zset_ok]. }
  intros x' y' Hin'. unfold pixel, point. pose proof (address_range x' y' Hin').
  rewrite znth_zset by lia. rewrite <- (Hf x' y' Hin').
  assert (0 <= x' mod 8 < 8) as Hm by (apply Z.mod_pos_bound; lia).
  pose proof (Z.div_mod x 8). pose proof (Z.div_mod x' 8). pose proof (Z.mod_pos_bound x 8).
  destruct Hin as [Hx Hy], Hin' as [Hx' Hy'].
  destruct (Z.eqb_spec (16 * y' + x' / 8) (16 * y + x / 8)) as [E|E].
  - rewrite Hbits by done. unfold pixel. rewrite E.
    destruct (Z.eqb_spec (x' mod 8) (x mod 8)) as [Em|Em].
    + by replace ((x' =? x) && (y' =? y)) with true by lia.
    + by replace ((x' =? x) && (y' =? y)) with false by lia.
  - replace ((x' =? x) && (y' =? y)) with false; [done|].
    symmetry. apply andb_false_iff. destruct (Z.eqb_spec x' x) as [->|]; [right|by left].
    apply Z.eqb_neq. lia.
Qed.

Section Pixel.
Context (buf : buffer) (f : picture) (x y : Z).
Context (Hs : shows buf f) (Hin : inside x y).

Lemma load_pixel : load buf (16 * y + x / 8) = Ret (znth buf (16 * y + x / 8)).
Proof. apply load_in. destruct Hs as [[-> _] _]. by apply address_range. Qed.

Lemma set_shows : exists buf',
  cfag12864b_set x y buf = Ret buf' /\ shows buf' (point f x y true).
Proof.
  unfold cfag12864b_set. rewrite address_eq, load_pixel. cbn [out_bind].
  apply store_point; [done|done|apply u8_ok|]. intros i Hi. unfold u8, CFAG12864B_BPB.
  pose proof (Z.mod_pos_bound x 8).
  rewrite wrap_testbit, Z.lor_spec, bit_test by lia. rewrite (Z.eqb_sym (x mod 8)).
  replace (i <? 8) with true by lia. by destruct (i =? x mod 8); btauto.
Qed.

Lemma unset_shows : exists buf',
  cfag12864b_unset x y buf = Ret buf' /\ shows buf' (point f x y false).
Proof.
  unfold cfag12864b_unset. rewrite address_eq, load_pixel. cbn [out_bind].
  apply store_point; [done|done|apply u8_ok|]. intros i Hi. unfold u8, CFAG12864B_BPB.
  pose proof (Z.mod_pos_bound x 8).
  rewrite wrap_testbit, Z.land_spec, Z.lnot_spec, bit_test by lia. rewrite (Z.eqb_sym (x mod 8)).
  replace (i <? 8) with true by lia. by destruct (i =? x mod 8); btauto.
Qed.

Lemma isset_shows : cfag12864b_isset x y buf = Ret (Z.b2z (f x y)).
Proof.
  unfold cfag12864b_isset. rewrite address_eq, load_pixel. cbn [out_bind].
  unfold CFAG12864B_BPB. rewrite has_bit by (apply Z.mod_pos_bound; lia).
  fold (pixel buf x y). destruct Hs as [_ ->]; [|done]. by destruct (f x y).
Qed.

Lemma not_shows : exists buf',
  cfag12864b_not x y buf = Ret buf' /\ shows buf' (point f x y (negb (f x y))).
Proof.
  unfold cfag12864b_not. rewrite isset_shows. cbn [out_bind].
  destruct (f x y); [apply unset_shows|apply set_shows].
Qed.
End Pixel.

(** ** Loops over the whole screen *)

(** The side conditions of the loop rule at the constants of this file. *)
Ltac loop_side :=
  try match goal with
      | |- _ <= _ => first [solve [vm_compute; congruence] | unfold CFAG12864B_HEIGHT, CFAG12864B_WIDTH; lia]
      | |- _ < _ => first [solve [vm_compute; congruence] | unfold CFAG12864B_HEIGHT, CFAG12864B_WIDTH; lia]
      end.

(** [store] of a constant over the first [i] bytes. *)
Lemma flood_shows v (g : bool) buf :
  zlen buf = 1024 -> bytes_ok buf -> byte_ok v ->
  (forall i, 0 <= i < 8 -> Z.testbit v i = g) ->
  exists buf', for_loop 1025 16 0 CFAG12864B_SIZE 1 (fun i b => store b i v) buf = Ret buf' /\
    shows buf' (fun _ _ => g).
Proof.
  intros Hlen Hok Hv Hg.
  destruct (for_loop_inv (fun i b => buffer_ok b /\ forall k, 0 <= k < i -> znth b k = v)
    1025 16 CFAG12864B_SIZE 1 (fun i b => store b i v)) with (i := 0) (a := buf)
    as (b & i' & E & [Hb Hk] & Hi'); loop_side.
  - intros i b Hi [[Hl Ho] Hk]. change CFAG12864B_SIZE with 1024 in Hi.
    eexists. split; [apply store_in; lia|]. split.
    + split; [by rewrite zlen_zset|by apply zset_ok].
    + intros k Hk'. rewrite znth_zset by lia. destruct (Z.eqb_spec k i); [done|]. apply Hk. lia.
  - split; [done|]. lia.
  - exists b. split; [done|]. split; [done|]. intros x y Hin. unfold pixel.
    change CFAG12864B_SIZE with 1024 in Hi'. pose proof (address_range x y Hin).
    rewrite Hk by lia. apply Hg. apply Z.mod_pos_bound. lia.
Qed.

Lemma fill_shows buf : zlen buf = 1024 -> bytes_ok buf ->
  exists buf', cfag12864b_fill buf = Ret buf' /\ shows buf' (fun _ _ => true).
Proof.
  intros. apply flood_shows; [done|done|unfold byte_ok; lia|].
  intros i Hi. change 0xFF with (Z.ones 8). apply Z.ones_spec_low. lia.
Qed.

Lemma clear_shows buf : zlen buf = 1024 -> bytes_ok buf ->
  exists buf', cfag12864b_clear buf = Ret buf' /\ shows buf' (fun _ _ => false).
Proof.
  intros. apply flood_shows; [done|done|unfold byte_ok; lia|]. intros. by rewrite Z.bits_0.
Qed.

Lemma stride s i x : 0 < s -> i mod s = 0 -> x mod s = 0 -> x < i + s -> x <= i.
Proof.
  intros Hs Hi Hx Hlt. apply Z.mod_divide in Hi as [a ->]; [|lia].
  apply Z.mod_divide in Hx as [b ->]; [|lia].
  apply Z.mul_le_mono_nonneg_r; [lia|]. apply Z.lt_succ_r, (Z.mul_lt_mono_pos_r s); lia.
Qed.

(** A primitive that applies [op] to the addressed pixel. *)
Definition acts (act : Z -> Z -> buffer -> outcome buffer) (op : bool -> bool) : Prop :=
  forall buf f x y, shows buf f -> inside x y ->
    exists buf', act x y buf = Ret buf' /\ shows buf' (point f x y (op (f x y))).

(** One column: the pixels [(i, 0)], [(i, sj)], ... *)
Lemma column_shows act op i sj f buf :
  acts act op -> 0 <= i < 128 -> 0 < sj <= 2 -> shows buf f ->
  exists buf', for_loop 65 16 0 CFAG12864B_HEIGHT sj (fun j b => act (u8 i) (u8 j) b) buf = Ret buf' /\
    shows buf' (fun x y => if (x =? i) && (y mod sj =? 0) then op (f x y) else f x y).
Proof.
  intros Hact Hi Hsj Hs.
  destruct (for_loop_inv (fun j b => j mod sj = 0 /\
      shows b (fun x y => if (x =? i) && (y mod sj =? 0) && (y <? j) then op (f x y) else f x y))
    65 16 CFAG12864B_HEIGHT sj (fun j b => act (u8 i) (u8 j) b)) with (i := 0) (a := buf)
    as (b & j' & E & [Hm Hb] & Hj'); loop_side.
  - intros j b Hj [Hm Hb]. change CFAG12864B_HEIGHT with 64 in Hj.
    assert (u8 i = i) as -> by (apply wrap_small; unfold fits; lia).
    assert (u8 j = j) as -> by (apply wrap_small; unfold fits; lia).
    destruct (Hact b _ i j Hb) as (b' & -> & Hb'); [unfold inside; lia|].
    exists b'. split; [done|]. split; [by rewrite Z.add_mod, Hm, Z.mod_same, Z.mod_0_l by lia|].
    eapply shows_ext; [exact Hb'|]. intros x y Hin. unfold point. cbv beta.
    destruct (Z.eqb_spec x i) as [->|]; [|done].
    pose proof (stride sj j y) as Hstep.
    destruct (Z.eqb_spec y j) as [->|]; simpl.
    + rewrite Z.eqb_refl, (proj2 (Z.eqb_eq _ _) Hm). simpl.
      replace (j <? j) with false by lia. by replace (j <? j + sj) with true by lia.
    + destruct (Z.eqb_spec (y mod sj) 0); simpl; [|done].
      by replace (y <? j + sj) with (y <? j) by lia.
  - split; [by rewrite Z.mod_0_l by lia|]. eapply shows_ext; [exact Hs|]. intros x y [_ Hy].
    replace (y <? 0) with false by lia. by rewrite andb_false_r.
  - exists b. split; [done|]. eapply shows_ext; [exact Hb|]. intros x y [_ Hy].
    change CFAG12864B_HEIGHT with 64 in Hj'. replace (y <? j') with true by lia.
    by rewrite andb_true_r.
Qed.

(** Every [si]-th column and [sj]-th row. *)
Lemma each_pixel_shows act op si sj f buf :
  acts act op -> 0 < si <= 2 -> 0 < sj <= 2 -> shows buf f ->
  exists buf', each_pixel si sj act buf = Ret buf' /\
    shows buf' (fun x y => if (x mod si =? 0) && (y mod sj =? 0) then op (f x y) else f x y).
Proof.
  intros Hact Hsi Hsj Hs. unfold each_pixel.
  edestruct (for_loop_inv (fun i b => i mod si = 0 /\ shows b (fun x y =>
      if (x mod si =? 0) && (x <? i) && (y mod sj =? 0) then op (f x y) else f x y))
    129 16 CFAG12864B_WIDTH si) with (i := 0) (a := buf)
    as (b & i' & E & [Hm Hb] & Hi'); loop_side.
  2: { split; [by rewrite Z.mod_0_l by lia|]. eapply shows_ext; [exact Hs|]. intros x y [Hx _].
       replace (x <? 0) with false by lia. by rewrite andb_false_r. }
  2: { exists b. split; [exact E|]. eapply shows_ext; [exact Hb|]. intros x y [Hx _].
       change CFAG12864B_WIDTH with 128 in Hi'. replace (x <? i') with true by lia.
       by rewrite andb_true_r. }
  intros i b Hi [Hm Hb]. change CFAG12864B_WIDTH with 128 in Hi.
  destruct (column_shows act op i sj _ b Hact Hi Hsj Hb) as (b' & E & Hb').
  exists b'. split; [exact E|]. split; [by rewrite Z.add_mod, Hm, Z.mod_same, Z.mod_0_l by lia|].
  eapply shows_ext; [exact Hb'|]. intros x y Hin. cbv beta.
  pose proof (stride si i x) as Hstep.
  destruct (Z.eqb_spec x i) as [->|]; simpl.
  - rewrite (proj2 (Z.eqb_eq _ _) Hm). replace (i <? i) with false by lia.
    replace (i <? i + si) with true by lia. by destruct (y mod sj =? 0).
  - destruct (Z.eqb_spec (x mod si) 0); simpl; [|done].
    by replace (x <? i + si) with (x <? i) by lia.
Qed.

(** ** Formatting a matrix *)

(** The first [k] bytes of the buffer hold the first [8 k] cells of the matrix. *)
Definition packed (matrix : list Z) (k : Z) (buf : buffer) : Prop :=
  buffer_ok buf /\
  forall a m, 0 <= a < k -> 0 <= m < 8 -> Z.testbit (znth buf a) m = truthy (znth matrix (8 * a + m)).

(** The innermost loop fills in byte [a]. *)
Lemma pack_byte matrix a buf :
  zlen matrix = 8192 -> 0 <= a < 1024 -> packed matrix a buf ->
  exists buf',
    out_bind (store buf a 0) (fun buf =>
      for_loop 9 8 0 CFAG12864B_BPB 1 (fun n buf =>
        let! v := load matrix (8 * a + n) in
        if truthy v then
          let! b := load buf a in store buf a (u8 (Z.lor b (CFAG12864B_BIT n)))
        else Ret buf) buf) = Ret buf' /\ packed matrix (a + 1) buf'.
Proof.
  intros Hm Ha [[Hl Ho] Hp]. rewrite store_in by lia. cbn [out_bind].
  edestruct (for_loop_inv (fun n b => packed matrix a b /\
      forall m, 0 <= m -> Z.testbit (znth b a) m = (m <? n) && truthy (znth matrix (8 * a + m)))
    9 8 CFAG12864B_BPB 1) with (i := 0) (a := zset buf a 0)
    as (b & n' & E & [[Hb Hpb] Hn] & Hn'); try (unfold CFAG12864B_BPB; simpl; lia).
  2: { split; [split; [split|]|].
       - by rewrite zlen_zset.
       - apply zset_ok; [done|]. unfold byte_ok. lia.
       - intros a' m Ha' Hm'. rewrite znth_zset by lia.
         replace (a' =? a) with false by lia. by apply Hp.
       - intros m Hm'. rewrite znth_zset, Z.eqb_refl, Z.bits_0 by lia.
         by replace (m <? 0) with false by lia. }
  2: { exists b. split; [exact E|]. split; [done|]. change CFAG12864B_BPB with 8 in Hn'.
       intros a' m Ha' Hm'. destruct (Z.eqb_spec a' a) as [->|]; [|apply Hpb; lia].
       rewrite Hn by lia. by replace (m <? n') with true by lia. }
  intros n b Hn [[[Hlb Hob] Hpb] Hbit]. change CFAG12864B_BPB with 8 in Hn.
  rewrite load_in by lia. cbn [out_bind].
  destruct (truthy (znth matrix (8 * a + n))) eqn:Et.
  - rewrite load_in by lia. cbn [out_bind]. rewrite store_in by lia. eexists. split; [done|].
    split; [split; [split|]|].
    + by rewrite zlen_zset.
    + apply zset_ok; [done|apply u8_ok].
    + intros a' m Ha' Hm'. rewrite znth_zset by lia.
      replace (a' =? a) with false by lia. by apply Hpb.
    + intros m Hm'. rewrite znth_zset, Z.eqb_refl by lia. unfold u8.
      rewrite wrap_testbit, Z.lor_spec, bit_test, Hbit by lia.
      destruct (Z.eqb_spec n m) as [<-|Hne].
      * rewrite Et. replace (n <? n + 1) with true by lia. replace (n <? 8) with true by lia. btauto.
      * replace (m <? n + 1) with (m <? n) by lia. rewrite orb_false_r.
        destruct (Z.ltb_spec m n); [|done]. replace (m <? 8) with true by lia. btauto.
  - eexists. split; [done|]. split; [by split|]. intros m Hm'. rewrite Hbit by done.
    destruct (Z.eqb_spec m n) as [->|]; [by rewrite Et, !andb_false_r|].
    by replace (m <? n + 1) with (m <? n) by lia.
Qed.

Lemma format_packs matrix buf :
  zlen matrix = 8192 -> buffer_ok buf ->
  exists buf', cfag12864b_format matrix buf = Ret buf' /\ packed matrix 1024 buf'.
Proof.
  intros Hm Hb. unfold cfag12864b_format.
  edestruct (for_loop_inv (fun i b => packed matrix (16 * i) b) 65 8 CFAG12864B_HEIGHT 1)
    with (i := 0) (a := buf) as (b & i' & E & Hp & Hi'); loop_side.
  2: { split; [done|]. lia. }
  2: { exists b. split; [exact E|]. change CFAG12864B_HEIGHT with 64 in Hi'.
       by replace 1024 with (16 * i') by lia. }
  intros i b1 Hi Hb1. change CFAG12864B_HEIGHT with 64 in Hi.
  edestruct (for_loop_inv (fun j b => packed matrix (16 * i + j) b) 17 8
    (CFAG12864B_WIDTH / CFAG12864B_BPB) 1) with (i := 0) (a := b1)
    as (b2 & j' & E & Hp & Hj'); loop_side.
  2: { by rewrite Z.add_0_r. }
  2: { exists b2. split; [exact E|]. change (CFAG12864B_WIDTH / CFAG12864B_BPB) with 16 in Hj'.
       by replace (16 * (i + 1)) with (16 * i + j') by lia. }
  intros j b2 Hj Hb2. change (CFAG12864B_WIDTH / CFAG12864B_BPB) with 16 in Hj. cbv zeta.
  replace (i * CFAG12864B_WIDTH / CFAG12864B_BPB) with (16 * i).
  2: { unfold CFAG12864B_WIDTH, CFAG12864B_BPB. replace (i * 128) with (16 * i * 8) by lia.
       by rewrite Z.div_mul. }
  replace (i * CFAG12864B_WIDTH + j * CFAG12864B_BPB) with (8 * (16 * i + j))
    by (unfold CFAG12864B_WIDTH, CFAG12864B_BPB; lia).
  replace (16 * i + (j + 1)) with (16 * i + j + 1) by lia.
  apply pack_byte; [done|lia|done].
Qed.

Definition matrix_picture (matrix : list Z) : picture :=
  fun x y => truthy (znth matrix (128 * y + x)).

Lemma packed_shows matrix buf : packed matrix 1024 buf -> shows buf (matrix_picture matrix).
Proof.
  intros [Hb Hp]. split; [done|]. intros x y Hin. pose proof (address_range x y Hin).
  unfold pixel, matrix_picture. pose proof (Z.mod_pos_bound x 8). rewrite Hp by lia.
  do 2 f_equal. pose proof (Z.div_mod x 8). lia.
Qed.

(** The matrix of example 3: even rows on. *)
Definition rows_upto (i : Z) (m : list Z) : Prop :=
  zlen m = 8192 /\ forall x y, inside x y ->
    znth m (128 * y + x) = Z.b2z ((y mod 2 =? 0) && (x <? i)).

Lemma row_cell x y i j :
  inside x y -> inside i j -> (128 * y + x =? j * CFAG12864B_WIDTH + i) = (x =? i) && (y =? j).
Proof. unfold inside, CFAG12864B_WIDTH. intros. lia. Qed.

Lemma rows_column m i :
  0 <= i < 128 -> rows_upto i m ->
  exists m', for_loop 65 16 0 CFAG12864B_HEIGHT 2
    (fun j m => store m (j * CFAG12864B_WIDTH + i) 1) m = Ret m' /\ rows_upto (i + 1) m'.
Proof.
  intros Hi [Hl Hr].
  edestruct (for_loop_inv (fun j m => j mod 2 = 0 /\ zlen m = 8192 /\ forall x y, inside x y ->
      znth m (128 * y + x) = Z.b2z ((y mod 2 =? 0) && ((x <? i) || ((x =? i) && (y <? j)))))
    65 16 CFAG12864B_HEIGHT 2) with (i := 0) (a := m)
    as (b & j' & E & (Hm & Hlb & Hb) & Hj'); loop_side.
  2: { split; [done|]. split; [done|]. intros x y Hin. rewrite Hr by done.
       destruct Hin. replace (y <? 0) with false by lia. f_equal. btauto. }
  2: { exists b. split; [exact E|]. split; [done|]. intros x y Hin. rewrite Hb by done.
       change CFAG12864B_HEIGHT with 64 in Hj'. destruct Hin. replace (y <? j') with true by lia.
       do 2 f_equal. lia. }
  intros j b Hj (Hm & Hlb & Hb). change CFAG12864B_HEIGHT with 64 in Hj.
  eexists. split; [apply store_in; unfold CFAG12864B_WIDTH; lia|].
  split; [by rewrite Z.add_mod, Hm by lia|]. split; [by rewrite zlen_zset|].
  intros x y Hin. rewrite znth_zset by (unfold inside, CFAG12864B_WIDTH in *; lia).
  rewrite row_cell by (unfold inside in *; lia).
  pose proof (stride 2 j y) as Hstep. rewrite Hb by done.
  destruct (Z.eqb_spec x i) as [->|]; simpl; [|done].
  replace (i <? i) with false by lia. simpl.
  destruct (Z.eqb_spec y j) as [->|].
  - by rewrite Hm, (proj2 (Z.ltb_lt j (j + 2))) by lia.
  - destruct (Z.eqb_spec (y mod 2) 0); simpl; [|done]. f_equal. lia.
Qed.

Lemma rows_matrix_spec : exists m, rows_matrix = Ret m /\ rows_upto 128 m.
Proof.
  unfold rows_matrix.
  edestruct (for_loop_inv (fun i m => rows_upto i m) 129 16 CFAG12864B_WIDTH 1)
    with (i := 0) (a := replicate (Z.to_nat (CFAG12864B_WIDTH * CFAG12864B_HEIGHT)) 0)
    as (m & i' & E & Hm & Hi'); loop_side.
  - intros i m Hi Hm. change CFAG12864B_WIDTH with 128 in Hi. by apply rows_column.
  - split.
    + unfold zlen. by rewrite length_replicate, Z2Nat.id by (vm_compute; congruence).
    + intros x y [Hx Hy]. rewrite znth_replicate.
      * replace (x <? 0) with false by lia. by rewrite andb_false_r.
      * rewrite Z2Nat.id by (vm_compute; congruence). unfold CFAG12864B_WIDTH, CFAG12864B_HEIGHT. lia.
  - exists m. split; [exact E|]. change CFAG12864B_WIDTH with 128 in Hi'.
    by replace 128 with i' by lia.
Qed.

(** ** The pictures of the examples *)

(** What the display shows after example [n], whatever it showed before. *)
Definition expected (n : Z) : picture := fun x y =>
  if n =? 1 then (x mod 2 =? 0) && (y mod 2 =? 0)
  else if n =? 2 then false
  else if n =? 3 then y mod 2 =? 0
  else if n =? 4 then true
  else if n =? 5 then negb (x mod 2 =? 0)
  else x mod 2 =? 0.

(** Examples 5 and 6 draw over the picture of the one before. *)
Definition before (n : Z) (buf : buffer) : Prop :=
  buffer_ok buf /\ (4 < n -> shows buf (expected (n - 1))).

Lemma set_acts : acts cfag12864b_set (fun _ => true).
Proof. intros buf f x y. apply set_shows. Qed.
Lemma unset_acts : acts cfag12864b_unset (fun _ => false).
Proof. intros buf f x y. apply unset_shows. Qed.
Lemma not_acts : acts cfag12864b_not negb.
Proof. intros buf f x y. apply not_shows. Qed.

#[local] Arguments wp : simpl never.
#[local] Arguments wp_k : simpl never.
#[local] Arguments io_bind : simpl never.

(** Printing and reading leave the visible trace alone. *)
Fixpoint visible (h : list (event call)) : list call :=
  match h with
  | [] => []
  | (Printf _, _) :: h' | (Getchar, _) :: h' => visible h'
  | (c, _) :: h' => c :: visible h'
  end.

Lemma wp_update_buffer f (K : kernel call) s b' h Q :
  f (cfag12864b_buffer s) = Ret b' ->
  Q (Ret tt) (State (cfag12864b_fd s) (cfag12864b_mem s) b') h ->
  wp (update (on_buffer f)) K s h Q.
Proof. intros E HQ. eapply wp_update; [|exact HQ]. unfold on_buffer. by rewrite E. Qed.

Lemma rows_picture buf : buffer_ok buf -> exists buf',
  (let! m := rows_matrix in cfag12864b_format m buf)%out = Ret buf' /\ shows buf' (expected 3).
Proof.
  intros Hb. destruct rows_matrix_spec as (m & -> & Hl & Hm). cbn [out_bind].
  destruct (format_packs m buf Hl Hb) as (b & -> & Hp). exists b. split; [done|].
  eapply shows_ext; [by apply packed_shows|]. intros x y Hin. unfold matrix_picture, expected.
  rewrite Hm by done. destruct Hin. replace (x <? 128) with true by lia. simpl.
  by destruct (y mod 2 =? 0).
Qed.

(** The buffer after the drawing of example [n]. *)
Lemma drawn n buf : 1 <= n <= 6 -> before n buf -> exists buf',
  match n with
  | 1 => let! b := cfag12864b_clear buf in each_pixel 2 2 cfag12864b_set b
  | 2 => cfag12864b_clear buf
  | 3 => let! m := rows_matrix in cfag12864b_format m buf
  | 4 => cfag12864b_fill buf
  | 5 => each_pixel 2 1 cfag12864b_unset buf
  | _ => each_pixel 1 1 cfag12864b_not buf
  end = Ret buf' /\ shows buf' (expected n).
Proof.
  intros Hn [[Hl Ho] Hprev].
  assert (n = 1 \/ n = 2 \/ n = 3 \/ n = 4 \/ n = 5 \/ n = 6) as Hc by lia.
  destruct Hc as [-> | [-> | [-> | [-> | [-> | ->]]]]].
  - destruct (clear_shows buf Hl Ho) as (b & -> & Hb). cbn [out_bind].
    destruct (each_pixel_shows _ _ 2 2 (fun _ _ => false) b set_acts) as (b' & -> & Hb'); [lia|lia|exact Hb|].
    exists b'. split; [done|]. eapply shows_ext; [exact Hb'|]. intros. cbn.
    by destruct (_ && _).
  - by apply clear_shows.
  - by apply rows_picture.
  - by apply fill_shows.
  - destruct (each_pixel_shows _ _ 2 1 (expected 4) buf unset_acts) as (b' & -> & Hb');
      [lia|lia|by apply Hprev|].
    exists b'. split; [done|]. eapply shows_ext; [exact Hb'|]. intros. cbn.
    rewrite Z.mod_1_r. by destruct (x mod 2 =? 0).
  - destruct (each_pixel_shows _ _ 1 1 (expected 5) buf not_acts) as (b' & -> & Hb');
      [lia|lia|by apply Hprev|].
    exists b'. split; [done|]. eapply shows_ext; [exact Hb'|]. intros. cbn.
    rewrite !Z.mod_1_r. simpl. by destruct (x mod 2 =? 0).
Qed.

Lemma wp_example n K s h Q :
  1 <= n <= 6 -> before n (cfag12864b_buffer s) ->
  (forall b' h', shows b' (expected n) -> visible h' = visible h ->
     Q (Ret tt) (State (cfag12864b_fd s) (cfag12864b_mem s) b') h') ->
  wp (example n) K s h Q.
Proof.
  intros Hn Hb HQ. destruct (drawn n _ Hn Hb) as (b' & E & Hs).
  assert (n = 1 \/ n = 2 \/ n = 3 \/ n = 4 \/ n = 5 \/ n = 6) as Hc by lia.
  unfold example, print. replace (EXAMPLES <? n) with false by (unfold EXAMPLES; lia).
  destruct Hc as [-> | [-> | [-> | [-> | [-> | ->]]]]]; simpl Z.eqb; cbn iota.
  1: apply out_bind_Ret in E as (b & E1 & E).
  all: repeat first [wp_step | eapply wp_update_buffer; [eassumption|]].
  all: by apply HQ.
Qed.

(** Enter arrives within [n] characters from any point of the run. *)
Fixpoint typed (K : kernel call) (h : list (event call)) (k : nat) : list (event call) :=
  match k with
  | O => h
  | S k' => typed K ((Getchar, K h Getchar) :: h) k'
  end.

Definition presses_enter (K : kernel call) (n : nat) : Prop :=
  forall h, exists k, (k < n)%nat /\ ret (K (typed K h k) Getchar) = newline.

Lemma wp_wait_enter fuel K s h (Q : outcome unit -> state -> list (event call) -> Prop) :
  (exists k, (k < fuel)%nat /\ ret (K (typed K h k) Getchar) = newline) ->
  (forall h', visible h' = visible h -> Q (Ret tt) s h') ->
  wp (wait_enter fuel) K s h Q.
Proof.
  revert h. induction fuel as [|fuel IH]; intros h (k & Hk & Hn) HQ; [lia|]. cbn [wait_enter].
  wp_step. wp_step. wp_step. destruct (Z.eqb_spec (ret (K h Getchar)) newline) as [E|E].
  - wp_step. by apply HQ.
  - apply IH; [|done]. destruct k as [|k]; [done|]. exists k. split; [lia|done].
Qed.

Lemma u8_next n : 1 <= n <= 6 -> u8 (n + 1) = n + 1.
Proof. intros. apply wrap_small. unfold fits. lia. Qed.

Lemma wp_show_examples fuel left n K s h Q :
  presses_enter K fuel -> n + Z.of_nat left = 7 -> 1 <= n ->
  before n (cfag12864b_buffer s) ->
  (forall bs s' h', Forall2 (fun m b => shows b (expected m)) (seqZ n (Z.of_nat left)) bs ->
     cfag12864b_fd s' = cfag12864b_fd s -> cfag12864b_mem s' = cfag12864b_mem s ->
     visible h' = reverse (Memcpy (cfag12864b_mem s) <$> bs) ++ visible h -> Q (Ret tt) s' h') ->
  wp (show_examples fuel left n) K s h Q.
Proof.
  intros HK. revert n s h. induction left as [|left IH]; intros n s h Hn Hn1 Hb HQ.
  { cbn. wp_step. by apply (HQ []). }
  cbn [show_examples]. wp_step. apply wp_example; [lia|done|]. intros b h1 Hs Hv1. wp_step.
  unfold cfag12864b_blit. wp_run. cbn. apply wp_wait_enter; [apply HK|]. intros h2 Hv2. wp_step.
  rewrite u8_next by lia. destruct Hs as [[Hl Ho] Hp].
  apply IH; [lia|lia| |].
  - split; [done|]. intros _. replace (n + 1 - 1) with n by lia. done.
  - cbn. intros bs s' h' Hbs Hfd Hmem Hv. apply (HQ (b :: bs)); [|done|done|].
    + rewrite seqZ_cons by lia. constructor; [done|].
      by replace (Z.succ n) with (n + 1) by lia; replace (Z.pred (Z.of_nat (S left))) with (Z.of_nat left) by lia.
    + rewrite Hv, Hv2, fmap_cons, reverse_cons, <- app_assoc. cbn. rewrite Hv1. do 3 f_equal.
      unfold ztake. rewrite firstn_all2; [done|]. unfold zlen in Hl.
      change (Z.to_nat CFAG12864B_SIZE) with (Z.to_nat 1024). lia.
Qed.

(** ** Claims *)

(** C8: on a well-formed buffer and coordinates on the screen, the four pixel
    primitives succeed and act on the picture as their names say: [set], [unset]
    and [not] change the addressed pixel and no other, [isset] reads it. *)
Theorem pixel_primitives buf f x y :
  shows buf f -> inside x y ->
  (exists b, cfag12864b_set x y buf = Ret b /\ shows b (point f x y true)) /\
  (exists b, cfag12864b_unset x y buf = Ret b /\ shows b (point f x y false)) /\
  (exists b, cfag12864b_not x y buf = Ret b /\ shows b (point f x y (negb (f x y)))) /\
  cfag12864b_isset x y buf = Ret (Z.b2z (f x y)).
Proof.
  intros. split_and!; [by apply set_shows|by apply unset_shows|by apply not_shows|
    by apply isset_shows].
Qed.

(** Formatting any 128 by 64 matrix, over whatever was in the buffer, shows
    exactly the cells that are not zero. *)
Theorem format_shows matrix buf :
  zlen matrix = 8192 -> buffer_ok buf ->
  exists b, cfag12864b_format matrix buf = Ret b /\ shows b (matrix_picture matrix).
Proof.
  intros Hm Hb. destruct (format_packs matrix buf Hm Hb) as (b & E & Hp).
  exists b. split; [done|]. by apply packed_shows.
Qed.

(** C9: when the device opens and maps and the user keeps pressing Enter, the
    program returns 0; outside printing and reading it opens and maps the device,
    copies six frames to the mapping, which show the six pictures in order, and
    unmaps and closes what it opened. *)
Theorem main_shows_examples fuel (K : kernel call) prog path s :
  let fd := ret (K [] (Open path)) in
  let mem := ret (K [(Open path, K [] (Open path))] (Mmap 1024 fd)) in
  buffer_ok (cfag12864b_buffer s) -> fd <> -1 -> mem <> MAP_FAILED -> presses_enter K fuel ->
  exists s' h bs, main fuel [prog; path] K s [] = (Ret 0, s', h) /\
    Forall2 (fun n b => shows b (expected n)) [1; 2; 3; 4; 5; 6] bs /\
    reverse (visible h) =
      [Open path; Mmap 1024 fd] ++ (Memcpy mem <$> bs) ++ [Munmap mem 1024; Close fd].
Proof.
  intros fd mem Hb Hfd Hmem HK.
  assert (wp (main fuel [prog; path]) K s [] (fun o s' h => o = Ret 0 /\ exists bs,
    Forall2 (fun n b => shows b (expected n)) [1; 2; 3; 4; 5; 6] bs /\
    visible h = [Close fd; Munmap mem 1024] ++ reverse (Memcpy mem <$> bs) ++
      [Mmap 1024 fd; Open path])) as Hwp.
  { unfold main, cfag12864b_init. repeat wp_step.
    all: subst fd mem; change CFAG12864B_SIZE with 1024 in *.
    all: unfold event, MAP_FAILED in *; try lia; try discriminate.
    - apply (wp_show_examples _ _ _ K); [done|done|lia|by split|].
      intros bs s' h' Hbs Hfd' Hmem' Hv. cbn in Hfd', Hmem'. unfold cfag12864b_exit. wp_run.
      split; [done|]. exists bs. split; [exact Hbs|]. cbn. by rewrite Hfd', Hmem', Hv. }
  unfold wp in Hwp. destruct (main fuel _ K s []) as [[o s'] h].
  destruct Hwp as (-> & bs & Hbs & Hv). exists s', h, bs. split; [done|]. split; [done|].
  rewrite Hv, !reverse_app, reverse_involutive, <- app_assoc. done.
Qed.

(** A device that cannot be opened or mapped ends the program with -2, and
    the descriptor of one that could not be mapped is closed. *)
Theorem main_init_fails fuel (K : kernel call) prog path s :
  let fd := ret (K [] (Open path)) in
  let mem := ret (K [(Open path, K [] (Open path))] (Mmap 1024 fd)) in
  fd = -1 \/ mem = MAP_FAILED ->
  exists s' h, main fuel [prog; path] K s [] = (Ret (-2), s', h) /\
    reverse (visible h) = Open path :: (if fd =? -1 then [] else [Mmap 1024 fd; Close fd]).
Proof.
  intros fd mem H.
  assert (wp (main fuel [prog; path]) K s [] (fun o s' h => o = Ret (-2) /\
    visible h = (if fd =? -1 then [] else [Close fd; Mmap 1024 fd]) ++ [Open path])) as Hwp.
  { unfold main, cfag12864b_init, print. repeat wp_step.
    all: subst fd mem; change CFAG12864B_SIZE with 1024 in *.
    all: unfold event, MAP_FAILED in *; try lia; try discriminate.
    all: try match goal with E : (_ =? -1) = _ |- _ => rewrite E end; try done. }
  unfold wp in Hwp. destruct (main fuel _ K s []) as [[o s'] h].
  destruct Hwp as (-> & Hv). exists s', h. split; [done|]. rewrite Hv. by destruct (fd =? -1).
Qed.

(** The coordinate check is compiled out, so a column past the right edge
    addresses the next row, and the access leaves the buffer exactly when the row
    reached that way is 64 or more. *)
Theorem unchecked_coordinates buf x y :
  zlen buf = 1024 -> 0 <= x < 256 -> 0 <= y < 256 ->
  (128 <= x -> cfag12864b_set x y buf = cfag12864b_set (x - 128) (y + 1) buf) /\
  (cfag12864b_set x y buf = Crash <-> 64 <= y + x / 128).
Proof.
  intros Hl Hx Hy. unfold cfag12864b_set. rewrite !address_eq. split.
  - intros Hge. unfold CFAG12864B_BPB.
    replace ((x - 128) / 8) with (x / 8 - 16) by (replace (x - 128) with (x + -16 * 8) by lia; rewrite Z.div_add; lia).
    replace ((x - 128) mod 8) with (x mod 8) by (replace (x - 128) with (x + -16 * 8) by lia; by rewrite Z.mod_add).
    by replace (16 * (y + 1) + (x / 8 - 16)) with (16 * y + x / 8) by lia.
  - assert (x / 128 = x / 8 / 16) as Hd by (by rewrite Z.div_div by lia).
    pose proof (Z.div_mod x 8). pose proof (Z.mod_pos_bound x 8).
    pose proof (Z.div_mod (x / 8) 16). pose proof (Z.mod_pos_bound (x / 8) 16).
    unfold load, store. rewrite Hl.
    destruct ((0 <=? 16 * y + x / 8) && (16 * y + x / 8 <? 1024)) eqn:E; simpl.
    + split; [done|]. lia.
    + split; [lia|done].
Qed.

(** Standard input at its end never gives the newline the program waits for:
    with the device open and mapped, no amount of fuel lets it return. *)
Theorem eof_never_returns fuel (K : kernel call) prog path s :
  (forall h, ret (K h Getchar) = -1) ->
  buffer_ok (cfag12864b_buffer s) ->
  (forall h, ret (K h (Open path)) = 3) -> (forall h l fd, ret (K h (Mmap l fd)) = 4096) ->
  exists s' h, main fuel [prog; path] K s [] = (NoFuel, s', h).
Proof.
  intros Hc Hb Hfd Hmem.
  assert (forall n s h (Q : outcome unit -> state -> list (event call) -> Prop),
    (forall h', Q NoFuel s h') -> wp (wait_enter n) K s h Q) as Hwait.
  { induction n as [|n IH]; intros s1 h1 Q HQ; cbn [wait_enter]; wp_run; [done| |].
    - rewrite Hc in *. discriminate.
    - by apply IH. }
  assert (wp (main fuel [prog; path]) K s [] (fun o _ _ => o = NoFuel)) as Hwp.
  { unfold main, cfag12864b_init. repeat wp_step; rewrite ?Hfd, ?Hmem in *; try discriminate.
    change (Z.to_nat EXAMPLES) with 6%nat. cbn [show_examples]. wp_step.
    apply wp_example; [lia|by split|]. intros b h1 _ _. unfold cfag12864b_blit. wp_run.
    apply Hwait. done. }
  unfold wp in Hwp. destruct (main fuel _ K s []) as [[o s'] h]. subst o. by eexists _, _.
Qed.

(** ** Concrete runs *)

Definition blank : buffer := replicate 1024 0.
Definition start : state := State 0 0 blank.

Definition enter_kernel : kernel call := fun h c =>
  match c with
  | Open _ => aret 3
  | Mmap _ _ => aret 4096
  | Getchar => aret newline
  | _ => aret 0
  end.

Definition eof_kernel : kernel call := fun h c =>
  match c with
  | Open _ => aret 3
  | Mmap _ _ => aret 4096
  | Getchar => aret (-1)
  | _ => aret 0
  end.

Definition no_map_kernel : kernel call := fun h c =>
  match c with Open _ => aret 3 | Mmap _ _ => aerr ENOMEM | _ => aret 0 end.

Lemma blank_ok : buffer_ok blank.
Proof. split; [done|]. apply Forall_replicate. unfold byte_ok. lia. Defined.

Lemma blank_shows : shows blank (fun _ _ => false).
Proof.
  split; [exact blank_ok|]. intros x y Hin. unfold pixel, blank.
  rewrite znth_replicate, Z.bits_0; [done|]. by apply address_range.
Defined.

Lemma pixel_primitives_witness :
  cfag12864b_isset 5 7 blank = Ret 0 /\ exists b, cfag12864b_set 5 7 blank = Ret b.
Proof.
  destruct (pixel_primitives blank (fun _ _ => false) 5 7 blank_shows) as ((b & E & _) & _ & _ & H).
  - split; lia.
  - split; [exact H|]. exists b. exact E.
Defined.

Lemma format_shows_witness :
  exists b, cfag12864b_format (replicate (Z.to_nat 8192) 1) blank = Ret b.
Proof.
  destruct (format_shows (replicate (Z.to_nat 8192) 1) blank) as (b & E & _).
  - unfold zlen. by rewrite length_replicate, Z2Nat.id.
  - exact blank_ok.
  - exists b. exact E.
Defined.

Lemma main_shows_examples_witness :
  exists s' h, main 2 ["lcd"; "/dev/fb0"] enter_kernel start [] = (Ret 0, s', h).
Proof.
  destruct (main_shows_examples 2 enter_kernel "lcd" "/dev/fb0" start)
    as (s' & h & bs & E & _); [exact blank_ok|done|done| |].
  - intros h. exists 0%nat. split; [lia|done].
  - exists s', h. exact E.
Defined.

Lemma main_init_fails_witness :
  exists s' h, main 2 ["lcd"; "/dev/fb0"] no_map_kernel start [] = (Ret (-2), s', h) /\
    reverse (visible h) = [Open "/dev/fb0"; Mmap 1024 3; Close 3].
Proof.
  apply (main_init_fails 2 no_map_kernel "lcd" "/dev/fb0" start). right. reflexivity.
Defined.

Lemma unchecked_coordinates_witness :
  cfag12864b_set 130 3 blank = cfag12864b_set 2 4 blank /\ cfag12864b_set 0 64 blank = Crash.
Proof.
  split.
  - apply (unchecked_coordinates blank 130 3); [done|lia..].
  - apply (unchecked_coordinates blank 0 64); [done|lia|lia|]. vm_compute. discriminate.
Defined.

Lemma eof_never_returns_witness :
  exists s' h, main 100 ["lcd"; "/dev/fb0"] eof_kernel start [] = (NoFuel, s', h).
Proof. apply (eof_never_returns 100 eof_kernel "lcd" "/dev/fb0" start); done || exact blank_ok. Defined.

End Cfag.
