(* ===== verification/Mic.v ===== *)
(** * The MIC daemon: data and calls (mic/mpssd/mpssd.h, mpssd.c)

    The daemon talks to the kernel, to the card through shared rings and to the C
    library.  All of it is one type of calls, answered by a kernel.  Memory the
    card or the driver changes behind the daemon's back (the device page, the
    rings, the [signaled] flag set by a signal handler) is read by calls, so that
    each read may give a different value.  Log output ([mpsslog]) is left out.

    C strings are lists of bytes without the terminator; a [char *] that may be
    NULL is an option. *)

From S2P Require Import Prelude Posix Resources.

Module Mic.

(** ** Constants of the virtio and Linux interfaces *)

Definition O_RDONLY := 0.
Definition O_RDWR := 2.
Definition PATH_MAX := 4096.
Definition PAGE_SIZE := 4096.
Definition IFNAMSIZ := 16.
Definition MAP_FAILED := -1.
Definition SIGTERM := 15.
Definition POLLIN := 1.
Definition POLLPRI := 2.
Definition POLLERR := 8.
Definition VIRTIO_ID_NET := 1.
Definition VIRTIO_ID_BLOCK := 2.
Definition VIRTIO_ID_CONSOLE := 3.
Definition VIRTIO_CONFIG_S_DRIVER_OK := 4.
Definition VRING_DESC_F_NEXT := 1.
Definition VRING_DESC_F_WRITE := 2.
Definition VIRTIO_BLK_T_OUT := 1.
Definition VIRTIO_BLK_T_GET_ID := 8.
Definition sizeof_virtio_net_hdr := 10.
Definition sizeof_virtio_blk_outhdr := 16.
Definition SEEK_SET := 0.
Definition SEEK_END := 2.

(** ** Data *)

(** struct vring_desc, in host order; struct mic_device_desc; struct iovec. *)
Record vring_desc : Type := VDesc { d_len : Z; d_flags : Z; d_next : Z }.
Record mic_device_desc : Type := DDesc {
  dd_type : Z; num_vq : Z; feature_len : Z; config_len : Z; dd_status : Z
}.
Record iovec : Type := IOV { iov_base : Z; iov_len : Z }.

(** struct mic_copy_desc: the argument of the copy ioctl. *)
Record mic_copy_desc : Type := Copy {
  iov : list iovec; iovcnt : Z; vr_idx : Z; update_used : bool; out_len : Z
}.

(** What mic_common.h and mic_ioctl.h, which are not part of the tree, provide. *)
Class MicAbi := {
  sizeof_mic_bootparam : Z;
  mic_total_desc_size : mic_device_desc -> Z;
  MIC_VRING_ENTRIES : Z;
  vring_size : Z;
  sizeof_mic_vring_info : Z;
  MIC_MAGIC : Z;
  sizeof_virtio_console_config : Z;
  sizeof_virtio_net_config : Z;
  sizeof_virtio_blk_config : Z
}.

(** Values of the shape those headers give, for concrete runs. *)
Definition sample_abi : MicAbi := {|
  sizeof_mic_bootparam := 64;
  mic_total_desc_size d := 8 + 8 * num_vq d + config_len d;
  MIC_VRING_ENTRIES := 128;
  vring_size := 5126;
  sizeof_mic_vring_info := 8;
  MIC_MAGIC := 0xc0ffee00;
  sizeof_virtio_console_config := 12;
  sizeof_virtio_net_config := 8;
  sizeof_virtio_blk_config := 32
|}.

(** A [char *] with its block, when it was allocated. *)
Record cptr : Type := Cptr { block : Z; text : list Z }.

Record mic_console_info : Type := Console {
  virtio_console_fd : Z; console_dp : Z
}.
Record mic_net_info : Type := Net {
  virtio_net_fd : Z; tap_fd : Z; net_dp : Z
}.
Record mic_virtblk_info : Type := Virtblk {
  virtio_block_fd : Z; block_dp : Z;
  backend_file : cptr; backend : Z; backend_addr : Z; backend_size : Z
}.
Record mic_info : Type := Info {
  id : Z; name : option (list Z); pid : Z;
  mic_console : mic_console_info; mic_net : mic_net_info; mic_virtblk : mic_virtblk_info;
  restart : Z; boot_on_resume : Z
}.

(** The state of the process that serves one card: its [mic_info] and the
    capacity field of the static block device page, in host order. *)
Record world : Type := World { mic : mic_info; capacity : Z }.

(** Field updates. *)
Definition set_console c m := Info (id m) (name m) (pid m) c (mic_net m) (mic_virtblk m)
  (restart m) (boot_on_resume m).
Definition set_net n m := Info (id m) (name m) (pid m) (mic_console m) n (mic_virtblk m)
  (restart m) (boot_on_resume m).
Definition set_virtblk b m := Info (id m) (name m) (pid m) (mic_console m) (mic_net m) b
  (restart m) (boot_on_resume m).
Definition set_pid p m := Info (id m) (name m) p (mic_console m) (mic_net m) (mic_virtblk m)
  (restart m) (boot_on_resume m).
Definition set_restart r m := Info (id m) (name m) (pid m) (mic_console m) (mic_net m)
  (mic_virtblk m) r (boot_on_resume m).
Definition set_boot_on_resume b m := Info (id m) (name m) (pid m) (mic_console m) (mic_net m)
  (mic_virtblk m) (restart m) b.
Definition on_mic (f : mic_info -> mic_info) (w : world) : world := World (f (mic w)) (capacity w).

(** ** Calls

    [CopyDesc] carries, beside the ioctl's argument, the bytes the daemon offers
    behind the iovec, for the copies towards the card; what a copy from the card
    delivers is the answer's data after the [out_len] word. *)

Inductive ring : Type := TxRing | RxRing.
Inductive thread : Type := ConsoleThread | NetThread | BlockThread | ConfigThread.

Inductive call : Type :=
| Open (path : list Z) (flags : Z)
| Read (fd count : Z)
| Write (fd : Z) (bytes : list Z)
| Close (fd : Z)
| Lseek (fd off whence : Z)
| Mmap (len fd : Z)
| Munmap (addr len : Z)
| Malloc (n : Z)
| Free (p : Z)
| Fopen (path : list Z)
| Fgets (f n : Z)
| Fclose (f : Z)
| Opendir (path : list Z)
| Readdir (d : Z)
| Closedir (d : Z)
| Poll (fds : list Z) (timeout : Z)
| Readv (fd : Z) (iov : list iovec)
| Writev (fd : Z) (iov : list iovec) (bytes : list Z)
| CopyDesc (fd : Z) (copy : mic_copy_desc) (bytes : list Z)
| AddDevice (fd : Z) (dd : mic_device_desc)
| TunSetIff (fd : Z) (ifname : list Z)
| TunSetOffload (fd : Z)
| PeekDesc (addr : Z)
| RingMagic (va : Z)
| InfoAvail (r : ring)
| RingAvail (r : ring)
| RingEntry (r : ring) (i : Z)
| RingDesc (r : ring) (i : Z)
| Signaled
| ClearSignaled
| RaiseSignaled
| SchedYield
| Sleep (n : Z)
| Fork
| Execvp (argv : list (list Z))
| Waitpid (pid : Z)
| Kill (pid sig : Z)
| Sigaction (ignore : bool)
| PthreadCreate (t : thread)
| PthreadExit
| PosixOpenpt
| Ptsname (fd : Z)
| Grantpt (fd : Z)
| Unlockpt (fd : Z).

(** A descriptor read from shared memory comes back as three words. *)
Definition desc_of (a : ans) : vring_desc :=
  VDesc (nth 0 (data a) 0) (nth 1 (data a) 0) (nth 2 (data a) 0).
Definition ddesc_of (a : ans) : mic_device_desc :=
  DDesc (nth 0 (data a) 0) (nth 1 (data a) 0) (nth 2 (data a) 0) (nth 3 (data a) 0)
    (nth 4 (data a) 0).

(** ** Resources *)

Inductive resource : Type :=
| Fd (fd : Z)
| Block (p : Z)
| Mapping (addr len : Z)
| Stream (f : Z)
| Dir (d : Z).

#[export] Instance resource_eq : EqDecision resource.
Proof. solve_decision. Defined.

#[export] Instance mic_resources : Resources call resource := {
  acquires c a :=
    match c with
    | Open _ _ | PosixOpenpt => if ret a <? 0 then None else Some (Fd (ret a))
    | Mmap len _ => if ret a =? MAP_FAILED then None else Some (Mapping (ret a) len)
    | Malloc _ => if ret a =? 0 then None else Some (Block (ret a))
    | Fopen _ => if ret a =? 0 then None else Some (Stream (ret a))
    | Opendir _ => if ret a =? 0 then None else Some (Dir (ret a))
    | _ => None
    end;
  releases c _ :=
    match c with
    | Close fd => Some (Fd fd)
    | Munmap addr len => Some (Mapping addr len)
    | Free p => Some (Block p)
    | Fclose f => Some (Stream f)
    | Closedir d => Some (Dir d)
    | _ => None
    end
}.

(** ** Strings *)

Definition B (s : string) : list Z := bytes_of_string s.
Definition dec (n : Z) : list Z := B (pretty n).

(** The C string at the start of a buffer. *)
Fixpoint cstr (l : list Z) : list Z :=
  match l with
  | [] => []
  | c :: l' => if c =? 0 then [] else c :: cstr l'
  end.

(** [snprintf (buf, n, ...)] keeps at most [n - 1] characters. *)
Definition snprintf (n : Z) (s : list Z) : list Z := ztake (n - 1) s.

Definition MICSYSFSDIR : list Z := B "/sys/class/mic".

Definition sysfs_path (dir : option (list Z)) (entry : list Z) : list Z :=
  snprintf PATH_MAX
    match dir with
    | None => MICSYSFSDIR ++ B "/" ++ entry
    | Some d => MICSYSFSDIR ++ B "/" ++ d ++ B "/" ++ entry
    end.

Lemma cstr_zero_free l : Forall (fun c => c <> 0) (cstr l).
Proof.
  induction l as [|c l IH]; simpl; [constructor|].
  destruct (Z.eqb_spec c 0); [constructor|]. by constructor.
Qed.

Lemma cstr_id l k : Forall (fun c => c <> 0) l -> cstr (l ++ 0 :: k) = l.
Proof.
  induction 1 as [|c l Hc _ IH]; simpl; [done|].
  by rewrite (proj2 (Z.eqb_neq _ _) Hc), IH.
Qed.

End Mic.
