(* ===== verification/MicSysfs.v ===== *)
(** * Reading and setting sysfs entries: mic/mpssd/sysfs.c *)

From S2P Require Import Prelude Posix Resources Mic.
Import Mic.

Module Sysfs.

Open Scope io_scope.

Definition readsysfs (dir : option (list Z)) (entry : list Z) : io call world (option cptr) :=
  let filename := sysfs_path dir entry in
  let* f := sys (Open filename O_RDONLY) in
  if ret f <? 0 then io_ret None
  else
    let* r := sys (Read (ret f) PAGE_SIZE) in
    let len := i32 (ret r) in
    if len <? 0 then sys (Close (ret f)) ;; io_ret None
    else if len =? 0 then sys (Close (ret f)) ;; io_ret None
    else
      let value := cstr (ztake (len - 1) (data r)) in
      let* p := sys (Malloc (zlen value + 1)) in
      if ret p =? 0 then sys (Close (ret f)) ;; io_ret None
      else sys (Close (ret f)) ;; io_ret (Some (Cptr (ret p) value)).

Definition free_opt (p : option cptr) : io call world unit :=
  match p with
  | Some c => sys (Free (block c)) ;; io_ret tt
  | None => io_ret tt
  end.

Definition setsysfs (dir : option (list Z)) (entry value : list Z) : io call world Z :=
  let filename := sysfs_path dir entry in
  let* oldvalue := readsysfs dir entry in
  let* f := sys (Open filename O_RDWR) in
  if ret f <? 0 then
    free_opt oldvalue ;; io_ret (errno f)
  else
    let same := match oldvalue with
                | Some o => bool_decide (value = text o)
                | None => false
                end in
    let* r := (if same then io_ret 0
               else
                 let* w := sys (Write (ret f) value) in
                 io_ret (if ret w <? 0 then errno w else 0)) in
    sys (Close (ret f)) ;;
    free_opt oldvalue ;;
    io_ret r.

Close Scope io_scope.

(** ** Resources *)

(** What a caller owns of a string it got back. *)
Definition owned (p : option cptr) : list resource :=
  match p with Some c => [Block (block c)] | None => [] end.

Definition zero_free (l : list Z) : Prop := Forall (fun c => c <> 0) l.

Lemma readsysfs_held dir entry K w h l Q :
  held h = Some l ->
  (forall p h', held h' = Some (owned p ++ l) ->
     match p with Some c => zero_free (text c) | None => True end -> Q (Ret p) w h') ->
  wp (readsysfs dir entry) K w h Q.
Proof.
  intros Hh HQ. unfold readsysfs. wp_go; apply HQ; try done; try held_solve.
  apply cstr_zero_free.
Qed.

Lemma free_opt_held p K w h l (Q : outcome unit -> world -> list (event call) -> Prop) :
  held h = Some (owned p ++ l) ->
  (forall h', held h' = Some l -> Q (Ret tt) w h') ->
  wp (free_opt p) K w h Q.
Proof. intros Hh HQ. destruct p; simpl in *; wp_run; apply HQ; held_solve. Qed.

Lemma setsysfs_held dir entry value K w h l (Q : outcome Z -> world -> list (event call) -> Prop) :
  held h = Some l ->
  (forall r h', held h' = Some l -> Q (Ret r) w h') ->
  wp (setsysfs dir entry value) K w h Q.
Proof.
  intros Hh HQ. unfold setsysfs. wp_step. apply (readsysfs_held _ _ _ _ _ l); [done|].
  intros p h1 H1 _. wp_go.
  all: eapply free_opt_held; [|intros h2 H2; wp_run; by apply HQ].
  all: first [held_solve | eassumption].
Qed.

(** Whatever the kernel answers, [readsysfs] and [setsysfs] return; the only
    thing [readsysfs] leaves behind is the block of the string it returns, and
    [setsysfs] leaves nothing: every descriptor is closed once, every block freed
    once, on every path. *)
Theorem sysfs_balanced dir entry value K w h l :
  held h = Some l ->
  (exists p h', readsysfs dir entry K w h = (Ret p, w, h') /\ held h' = Some (owned p ++ l)) /\
  (exists r h', setsysfs dir entry value K w h = (Ret r, w, h') /\ held h' = Some l).
Proof.
  intros Hh. split.
  - pose proof (readsysfs_held dir entry K w h l (fun o w' h' =>
      exists p, o = Ret p /\ w' = w /\ held h' = Some (owned p ++ l)) Hh) as H.
    unfold wp in H. destruct (readsysfs dir entry K w h) as [[o w'] h'].
    destruct H as (p & -> & -> & H); [by eauto|]. by eauto.
  - pose proof (setsysfs_held dir entry value K w h l (fun o w' h' =>
      exists r, o = Ret r /\ w' = w /\ held h' = Some l) Hh) as H.
    unfold wp in H. destruct (setsysfs dir entry value K w h) as [[o w'] h'].
    destruct H as (p & -> & -> & H); [by eauto|]. by eauto.
Qed.

(** ** A sysfs attribute *)

(** The value of an attribute after a run: the last one written, or [v0]. *)
Fixpoint attr (v0 : list Z) (h : list (event call)) : list Z :=
  match h with
  | [] => v0
  | (Write _ v, a) :: h' => if ret a <? 0 then attr v0 h' else v
  | _ :: h' => attr v0 h'
  end.

(** An attribute file the way sysfs documents it: it opens, a read gives the value
    and a newline, a write replaces the value; memory is not exhausted. *)
Record attribute (K : kernel call) (v0 : list Z) : Prop := {
  attr_open : forall h p f, 0 <= ret (K h (Open p f));
  attr_read : forall h fd n, zlen (attr v0 h) < n ->
    ret (K h (Read fd n)) = zlen (attr v0 h) + 1 /\ data (K h (Read fd n)) = attr v0 h ++ [10];
  attr_write : forall h fd v, 0 <= ret (K h (Write fd v));
  attr_malloc : forall h n, ret (K h (Malloc n)) <> 0
}.

Definition settled (v : list Z) : Prop := zero_free v /\ zlen v < 4095.

Lemma cstr_whole v : zero_free v -> cstr v = v.
Proof.
  induction 1 as [|c v Hc _ IH]; simpl; [done|]. by rewrite (proj2 (Z.eqb_neq _ _) Hc), IH.
Qed.

Section Attribute.
Context (K : kernel call) (v0 : list Z) (HK : attribute K v0).

Lemma readsysfs_attr dir entry w h Q :
  settled (attr v0 h) ->
  (forall b h', attr v0 h' = attr v0 h -> Q (Ret (Some (Cptr b (attr v0 h)))) w h') ->
  wp (readsysfs dir entry) K w h Q.
Proof.
  intros [Hz Hl] HQ. unfold readsysfs. pose proof (zlen_nonneg (attr v0 h)).
  wp_step. apply wp_sys_eq. intros f Hf. wp_step.
  pose proof (attr_open _ _ HK h (sysfs_path dir entry) O_RDONLY) as Ho. rewrite Hf in Ho.
  replace (ret f <? 0) with false by lia. wp_step. apply wp_sys_eq. intros r Hr. wp_step. cbv zeta.
  set (h1 := (Open _ _, f) :: h) in *.
  destruct (attr_read _ _ HK h1 (ret f) PAGE_SIZE) as [Hret Hdata];
    [change (attr v0 h1) with (attr v0 h); unfold PAGE_SIZE; lia|].
  rewrite Hr in Hret, Hdata. change (attr v0 h1) with (attr v0 h) in Hret, Hdata.
  assert (i32 (ret r) = zlen (attr v0 h) + 1) as -> by (rewrite Hret; apply sint_small; lia).
  replace (zlen (attr v0 h) + 1 <? 0) with false by lia.
  replace (zlen (attr v0 h) + 1 =? 0) with false by lia.
  wp_step. apply wp_sys_eq. intros m Hm. wp_step.
  assert (ret m <> 0) as Hmal by (rewrite <- Hm; apply (attr_malloc _ _ HK)).
  replace (ret m =? 0) with false by lia.
  wp_go. rewrite Hdata. replace (zlen (attr v0 h) + 1 - 1) with (zlen (attr v0 h)) by lia.
  assert (ztake (zlen (attr v0 h)) (attr v0 h ++ [10]) = attr v0 h) as ->.
  { unfold ztake, zlen. by rewrite Nat2Z.id, take_app_length. }
  rewrite cstr_whole by done. by apply HQ.
Qed.

Lemma setsysfs_attr dir entry v w h (Q : outcome Z -> world -> list (event call) -> Prop) :
  settled (attr v0 h) ->
  (forall h', attr v0 h' = v -> Q (Ret 0) w h') ->
  wp (setsysfs dir entry v) K w h Q.
Proof.
  intros Hs HQ. unfold setsysfs. wp_step. apply readsysfs_attr; [done|]. intros b h1 H1.
  wp_step. wp_step. apply wp_sys_eq. intros f Hf. wp_step.
  pose proof (attr_open _ _ HK h1 (sysfs_path dir entry) O_RDWR) as Ho. rewrite Hf in Ho.
  replace (ret f <? 0) with false by lia. cbn [text block free_opt].
  case_bool_decide as Hv.
  - wp_go. apply HQ. simpl. congruence.
  - wp_step. wp_step. apply wp_sys_eq. intros x Hx.
    pose proof (attr_write _ _ HK ((Open (sysfs_path dir entry) O_RDWR, f) :: h1) (ret f) v) as Hw.
    rewrite Hx in Hw. assert ((ret x <? 0) = false) as E by lia. wp_go. rewrite E. apply HQ.
    simpl. by rewrite E.
Qed.
End Attribute.

(** On a working attribute, [setsysfs] returns 0 and a following [readsysfs]
    returns the value that was set, whatever the old one was. *)
Theorem setsysfs_roundtrip dir entry v v0 K w :
  attribute K v0 -> settled v0 -> settled v ->
  exists h b h', setsysfs dir entry v K w [] = (Ret 0, w, h) /\
    readsysfs dir entry K w h = (Ret (Some (Cptr b v)), w, h').
Proof.
  intros HK Hv0 Hv.
  pose proof (setsysfs_attr K v0 HK dir entry v w []
    (fun o w' h => o = Ret 0 /\ w' = w /\ attr v0 h = v) Hv0) as H1.
  unfold wp in H1. destruct (setsysfs dir entry v K w []) as [[o w'] h].
  destruct H1 as (-> & -> & Ha); [done|].
  pose proof (readsysfs_attr K v0 HK dir entry w h
    (fun o w' _ => exists b, o = Ret (Some (Cptr b v)) /\ w' = w)) as H2.
  unfold wp in H2. rewrite Ha in H2. destruct (readsysfs dir entry K w h) as [[o' w''] h'] eqn:E.
  destruct H2 as (b & -> & ->); [done|by eauto|]. by exists h, b, h'.
Qed.

(** ** A concrete attribute *)

Definition attr_kernel (v0 : list Z) : kernel call := fun h c =>
  match c with
  | Open _ _ => aret 3
  | Read _ _ => Ans (zlen (attr v0 h) + 1) 0 (attr v0 h ++ [10])
  | Malloc _ => aret 64
  | Write _ v => aret (zlen v)
  | _ => aret 0
  end.

Lemma attr_kernel_ok v0 : attribute (attr_kernel v0) v0.
Proof. split; simpl; intros; try done. apply zlen_nonneg. Defined.

Definition some_world : world :=
  World (Info 0 (Some (B "mic0")) 0 (Console 0 0) (Net 0 0 0)
           (Virtblk 0 0 (Cptr 0 []) 0 0 0) 0 0) 0.

Lemma sysfs_balanced_witness :
  exists r h', setsysfs (Some (B "mic0")) (B "state") (B "boot") (fun _ _ => aerr ENOMEM)
    some_world [] = (Ret r, some_world, h') /\ held h' = Some [].
Proof.
  apply (sysfs_balanced (Some (B "mic0")) (B "state") (B "boot") (fun _ _ => aerr ENOMEM)
    some_world [] []). reflexivity.
Defined.

Lemma setsysfs_roundtrip_witness :
  exists h b h',
    setsysfs (Some (B "mic0")) (B "state") (B "boot") (attr_kernel (B "offline"))
      some_world [] = (Ret 0, some_world, h) /\
    readsysfs (Some (B "mic0")) (B "state") (attr_kernel (B "offline")) some_world h =
      (Ret (Some (Cptr b (B "boot"))), some_world, h').
Proof.
  apply (setsysfs_roundtrip _ _ _ (B "offline")); [apply attr_kernel_ok|split..].
  1, 3: by repeat constructor.
  all: reflexivity.
Defined.

End Sysfs.
