(* ===== verification/MicLog.v ===== *)
(** * The log of the MIC daemon: [mpsslog] and [disp_iovec] of mic/mpssd/mpssd.c, and its messages

    The daemon formats a message into a buffer of 4096 bytes and appends it to its log
    behind the date.  The other files of the daemon leave the messages out; here sysfs.c and the
    report of the state of a card are modelled with them, and followed into the log. *)

From S2P Require Import Prelude Posix Numbers Mic.
Import Mic.

Module Log.

Open Scope Z_scope.

(** ** Formatting *)

Inductive arg : Type := Str (s : list Z) | Int (n : Z) | Ptr (p : Z).

Definition print_hex (n : Z) : list Z := print_number 16 n.

(** The conversions the daemon uses: [%s], [%d], [%x], [%p] and, with a length modifier, [%lx],
    [%zx] and [%zd].  [None]: the argument is not of the type the conversion takes. *)
Definition convert (wide : bool) (c : Z) (a : arg) : option (list Z) :=
  match a with
  | Str s => if c =? 115 then Some s else None
  | Int n =>
      if c =? 100 then Some (dec (if wide then i64 n else i32 n))
      else if c =? 120 then Some (print_hex (if wide then u64 n else u32 n))
      else None
  | Ptr p => if c =? 112 then Some (if p =? 0 then B "(nil)" else B "0x" ++ print_hex (u64 p)) else None
  end.

Definition modifier (c : Z) : bool := (c =? 108) || (c =? 122).

Fixpoint vsprintf (format : list Z) (args : list arg) : option (list Z) :=
  match format with
  | [] => Some []
  | c :: r =>
      if negb (c =? 37) then (fun s => c :: s) <$> vsprintf r args
      else
        match r, args with
        | c1 :: r1, a :: args' =>
            if modifier c1 then
              match r1 with
              | c2 :: r2 => t ← convert true c2 a; (fun s => t ++ s) <$> vsprintf r2 args'
              | [] => None
              end
            else t ← convert false c1 a; (fun s => t ++ s) <$> vsprintf r1 args'
        | _, _ => None
        end
  end.

(** ** The log *)

Section Mpsslog.

(** [ctime_r]: the date and a newline, or nothing for a time it cannot show. *)
Context (ctime_r : Z -> option (list Z)).

Definition sizeof_buffer := 4096.

(** [logfp] is what the log file holds.  A message that does not fit the buffer with its
    terminating zero damages the stack. *)
Definition mpsslog (logfp : option (list Z)) (now : Z) (format : list Z) (args : list arg) : outcome (option (list Z)) :=
  match logfp with
  | None => Ret None
  | Some log =>
      match vsprintf format args with
      | None => Crash
      | Some buffer =>
          if sizeof_buffer <=? zlen buffer then Crash
          else
            match ctime_r now with
            | None => Crash
            | Some ts =>
                let ts1 := take (length ts - 1) ts in
                Ret (Some (log ++ ts1 ++ B ": " ++ buffer))
            end
      end
  end.

(** [disp_iovec]: a line for each vector of a copy; [times] is when each is written. *)
Fixpoint disp_from (mic_name s : list Z) (line i : Z) (iov : list iovec) (times : nat -> Z) (logfp : option (list Z))
    : outcome (option (list Z)) :=
  match iov with
  | [] => Ret logfp
  | v :: rest =>
      match mpsslog logfp (times (Z.to_nat i)) (B "%s %s %d copy->iov[%d] addr %p len 0x%zx" ++ [10])
              [Str mic_name; Str s; Int line; Int i; Ptr (iov_base v); Int (iov_len v)] with
      | Ret logfp => disp_from mic_name s line (i + 1) rest times logfp
      | o => o
      end
  end.

Definition disp_iovec (mic_name : list Z) (iov : list iovec) (s : list Z) (line : Z) (times : nat -> Z)
    (logfp : option (list Z)) : outcome (option (list Z)) :=
  disp_from mic_name s line 0 iov times logfp.

(** ** sysfs.c with its messages *)

(** The calls of the daemon, and the time. *)
Inductive lcall : Type := Sys (c : call) | Time.

Context (strerror : Z -> list Z).

Open Scope io_scope.

(** The state is the log file. *)
Definition log_ (format : list Z) (args : list arg) : io lcall (option (list Z)) unit :=
  let* logfp := get in
  match logfp with
  | None => io_ret tt
  | Some _ =>
      let* t := sys Time in
      let* logfp := lift (mpsslog logfp (ret t) format args) in
      put logfp
  end.

Definition readsysfs (dir : option (list Z)) (entry : list Z) : io lcall (option (list Z)) (option cptr) :=
  let filename := sysfs_path dir entry in
  let* f := sys (Sys (Open filename O_RDONLY)) in
  if ret f <? 0 then
    log_ (B "Failed to open sysfs entry '%s': %s" ++ [10]) [Str filename; Str (strerror (errno f))] ;;
    io_ret None
  else
    let* r := sys (Sys (Read (ret f) PAGE_SIZE)) in
    let len := i32 (ret r) in
    if len <? 0 then
      log_ (B "Failed to read sysfs entry '%s': %s" ++ [10]) [Str filename; Str (strerror (errno r))] ;;
      sys (Sys (Close (ret f))) ;;
      io_ret None
    else if len =? 0 then sys (Sys (Close (ret f))) ;; io_ret None
    else
      let value := cstr (ztake (len - 1) (data r)) in
      let* p := sys (Sys (Malloc (zlen value + 1))) in
      sys (Sys (Close (ret f))) ;;
      io_ret (if ret p =? 0 then None else Some (Cptr (ret p) value)).

Definition free_opt (p : option cptr) : io lcall (option (list Z)) unit :=
  match p with Some c => sys (Sys (Free (block c))) ;; io_ret tt | None => io_ret tt end.

Definition setsysfs (dir : option (list Z)) (entry value : list Z) : io lcall (option (list Z)) Z :=
  let filename := sysfs_path dir entry in
  let* oldvalue := readsysfs dir entry in
  let* f := sys (Sys (Open filename O_RDWR)) in
  if ret f <? 0 then
    log_ (B "Failed to open sysfs entry '%s': %s" ++ [10]) [Str filename; Str (strerror (errno f))] ;;
    free_opt oldvalue ;;
    io_ret (errno f)
  else
    let same := match oldvalue with Some o => bool_decide (value = text o) | None => false end in
    let* r :=
      (if same then io_ret 0
       else
         let* w := sys (Sys (Write (ret f) value)) in
         if ret w <? 0 then
           log_ (B "Failed to write new sysfs entry '%s': %s" ++ [10]) [Str filename; Str (strerror (errno w))] ;;
           io_ret (errno w)
         else io_ret 0) in
    sys (Sys (Close (ret f))) ;;
    free_opt oldvalue ;;
    io_ret r.

(** The state of a card in [mic_config], from [retry] to the report. *)
Fixpoint config_state (fuel : nat) (mic_name : list Z) : io lcall (option (list Z)) cptr :=
  match fuel with
  | O => nofuel
  | S fuel =>
      let* state := readsysfs (Some mic_name) (B "state") in
      match state with
      | None => config_state fuel mic_name
      | Some state =>
          log_ (B "%s: %s %d state %s" ++ [10]) [Str mic_name; Str (B "mic_config"); Int 1433; Str (text state)] ;;
          io_ret state
      end
  end.

Close Scope io_scope.

(** ** What the log holds *)

Context (stamp : Z -> list Z).
Hypothesis ctime_r_stamp : forall t, ctime_r t = Some (stamp t ++ [10]).

Definition record (now : Z) (msg : list Z) : list Z := stamp now ++ B ": " ++ msg.

Lemma mpsslog_eq log now format args msg : vsprintf format args = Some msg ->
  mpsslog (Some log) now format args = if zlen msg <? 4096 then Ret (Some (log ++ record now msg)) else Crash.
Proof.
  intros E. cbn. rewrite E, ctime_r_stamp. unfold sizeof_buffer. rewrite Z.leb_antisym. destruct (zlen msg <? 4096); [|done]. cbn.
  by rewrite length_app, Nat.add_sub, take_app_length.
Qed.

Lemma zlen_dec n k : - 2 ^ Z.of_nat k < n < 2 ^ Z.of_nat k -> zlen (dec n) <= Z.of_nat k + 1.
Proof. intros. apply zlen_pretty. lia. Qed.

Lemma zlen_dec_i32 n : zlen (dec (i32 n)) <= 33.
Proof. apply (zlen_dec _ 32). pose proof (sint_range 32 n ltac:(done)) as Hr. unfold i32. cbn in Hr |- *. lia. Qed.

Lemma zlen_hex_u64 n : zlen (print_hex (u64 n)) <= 64.
Proof. apply zlen_print_number; [done|]. by apply wrap_range. Qed.

(** What [%p] prints. *)
Definition print_ptr (p : Z) : list Z := if p =? 0 then B "(nil)" else B "0x" ++ print_hex (u64 p).

Lemma zlen_print_ptr p : zlen (print_ptr p) <= 66.
Proof.
  unfold print_ptr. pose proof (zlen_hex_u64 p). destruct (p =? 0); [by vm_compute|]. rewrite zlen_app. change (zlen (B "0x")) with 2. lia.
Qed.

(** A line of [disp_iovec]. *)
Definition iov_line (mic_name s : list Z) (line i : Z) (v : iovec) : list Z :=
  mic_name ++ B " " ++ s ++ B " " ++ dec (i32 line) ++ B " copy->iov[" ++ dec (i32 i) ++ B "] addr " ++ print_ptr (iov_base v) ++
  B " len 0x" ++ print_hex (u64 (iov_len v)) ++ [10].

Lemma iov_line_format mic_name s line i v :
  vsprintf (B "%s %s %d copy->iov[%d] addr %p len 0x%zx" ++ [10])
    [Str mic_name; Str s; Int line; Int i; Ptr (iov_base v); Int (iov_len v)] = Some (iov_line mic_name s line i v).
Proof. reflexivity. Qed.

Lemma zlen_iov_line mic_name s line i v : zlen mic_name <= 255 -> zlen s <= 255 -> zlen (iov_line mic_name s line i v) < 4096.
Proof.
  intros Hn Hs. unfold iov_line. rewrite !zlen_app. pose proof (zlen_dec_i32 line). pose proof (zlen_dec_i32 i).
  pose proof (zlen_hex_u64 (iov_len v)). pose proof (zlen_print_ptr (iov_base v)).
  change (zlen (B " ")) with 1. change (zlen (B " copy->iov[")) with 11. change (zlen (B "] addr ")) with 7.
  change (zlen (B " len 0x")) with 7. change (zlen [10]) with 1. lia.
Qed.

Lemma disp_from_logs mic_name s line times : zlen mic_name <= 255 -> zlen s <= 255 -> forall iov i log, 0 <= i ->
  disp_from mic_name s line i iov times (Some log) =
  Ret (Some (log ++ concat (imap (fun k v => record (times (Z.to_nat i + k)%nat) (iov_line mic_name s line (i + Z.of_nat k) v)) iov))).
Proof.
  intros Hn Hs iov. induction iov as [|v iov IH]; intros i log Hi; cbn [disp_from].
  - cbn. by rewrite app_nil_r.
  - rewrite (mpsslog_eq _ _ _ _ _ (iov_line_format mic_name s line i v)).
    rewrite (proj2 (Z.ltb_lt _ _)) by by apply zlen_iov_line. rewrite IH by lia. rewrite imap_cons. cbn [concat].
    rewrite <- app_assoc, Nat.add_0_r, Z.add_0_r. do 5 f_equal. apply imap_ext. intros k w _. cbn. f_equal; f_equal; lia.
Qed.

(** The messages of sysfs.c name a file and an error. *)
Definition sysfs_message (what path err : list Z) : list Z := B "Failed to " ++ what ++ B " sysfs entry '" ++ path ++ B "': " ++ err ++ [10].

Definition fits_name (l : list Z) : Prop := zlen l <= 255.

(** The path is not cut short. *)
Lemma sysfs_path_whole dir entry : fits_name entry -> (forall d, dir = Some d -> fits_name d) ->
  sysfs_path dir entry = MICSYSFSDIR ++ B "/" ++ match dir with Some d => d ++ B "/" | None => [] end ++ entry /\
  zlen (sysfs_path dir entry) <= 530.
Proof.
  intros He Hd. unfold sysfs_path, snprintf, fits_name in *. set (p := match dir with None => _ | Some d => _ end).
  assert (p = MICSYSFSDIR ++ B "/" ++ match dir with Some d => d ++ B "/" | None => [] end ++ entry) as Ep
    by (unfold p; destruct dir; [by rewrite <- app_assoc|done]).
  assert (zlen p <= 530) as Hp.
  { rewrite Ep, !zlen_app. change (zlen MICSYSFSDIR) with 14. change (zlen (B "/")) with 1.
    destruct dir as [d|]; [rewrite zlen_app; change (zlen (B "/")) with 1; specialize (Hd d eq_refl)|change (zlen (@nil Z)) with 0]; lia. }
  unfold ztake. rewrite take_ge by (unfold zlen, PATH_MAX in *; lia). done.
Qed.

Definition state_message (mic_name state : list Z) : list Z := mic_name ++ B ": mic_config 1433 state " ++ state ++ [10].

(** The full path of a file of a card. *)
Definition full_path (dir : option (list Z)) (entry : list Z) : list Z :=
  B "/sys/class/mic/" ++ match dir with Some d => d ++ B "/" | None => [] end ++ entry.

(** The messages that are due for calls that failed, in their order. *)
Definition failure (path : list Z) (e : event lcall) : option (list Z) :=
  match e with
  | (Sys (Open p _), a) => if ret a <? 0 then Some (sysfs_message (B "open") p (strerror (errno a))) else None
  | (Sys (Read _ _), a) => if i32 (ret a) <? 0 then Some (sysfs_message (B "read") path (strerror (errno a))) else None
  | (Sys (Write _ _), a) => if ret a <? 0 then Some (sysfs_message (B "write new") path (strerror (errno a))) else None
  | _ => None
  end.

Definition failures (path : list Z) (h : list (event lcall)) : list (list Z) := reverse (omap (failure path) h).

(** The log grew by the failures of the calls since, each with the date. *)
Definition reported (path : list Z) (log : list Z) (h : list (event lcall)) (log' : list Z) (h' : list (event lcall)) : Prop :=
  exists msgs times, failures path h' = failures path h ++ msgs /\ length times = length msgs /\
    log' = log ++ concat (zip_with record times msgs).

Lemma reported_refl path log h : reported path log h log h.
Proof. exists [], []. by rewrite !app_nil_r. Qed.

Lemma reported_trans path l1 h1 l2 h2 l3 h3 : reported path l1 h1 l2 h2 -> reported path l2 h2 l3 h3 -> reported path l1 h1 l3 h3.
Proof.
  intros (m1 & t1 & E1 & L1 & ->) (m2 & t2 & E2 & L2 & ->). exists (m1 ++ m2), (t1 ++ t2). split_and!.
  - by rewrite E2, E1, app_assoc.
  - rewrite !length_app. lia.
  - rewrite zip_with_app by done. by rewrite concat_app, app_assoc.
Qed.

Lemma reported_silent path log h log' h' e : reported path log h log' h' -> failure path e = None -> reported path log h log' (e :: h').
Proof. intros (m & t & E & L & ->) He. exists m, t. split_and!; [|done|done]. unfold failures in *. cbn [omap list_omap]. by rewrite He. Qed.

Lemma reported_message path log h log' h' e now m t : reported path log h log' h' -> failure path e = Some m ->
  reported path log h (log' ++ record now m) ((Time, t) :: e :: h').
Proof.
  intros Hr He. apply reported_silent; [|done]. eapply reported_trans; [exact Hr|]. exists [m], [now]. split_and!; [|done|cbn; by rewrite app_nil_r].
  unfold failures. cbn [omap list_omap]. rewrite He. by rewrite reverse_cons.
Qed.

Hypothesis strerror_short : forall e, zlen (strerror e) <= 1024.

Lemma log_wp format args msg K log h Q : vsprintf format args = Some msg -> zlen msg < 4096 ->
  (forall t, Q (Ret tt) (Some (log ++ record (ret t) msg)) ((Time, t) :: h)) -> wp (log_ format args) K (Some log) h Q.
Proof using ctime_r_stamp.
  intros Ef Hl HQ. unfold log_. do 3 wp_step. wp_step. apply wp_sys_any. intros t. do 2 wp_step. apply wp_lift.
  rewrite (mpsslog_eq _ _ _ _ _ Ef), (proj2 (Z.ltb_lt _ _)) by done. do 2 wp_step. apply HQ.
Qed.

Section Entry.
Context (dir : option (list Z)) (entry : list Z).
Hypothesis Hentry : fits_name entry.
Hypothesis Hdir : forall d, dir = Some d -> fits_name d.
Let path := full_path dir entry.

Lemma path_is : sysfs_path dir entry = path /\ zlen path <= 530.
Proof using Hentry Hdir. destruct (sysfs_path_whole dir entry Hentry Hdir) as [E Hz]. rewrite E in Hz |- *. done. Qed.

Lemma zlen_sysfs_message what e : zlen what <= 9 -> zlen (sysfs_message what path (strerror e)) < 4096.
Proof using Hentry Hdir strerror_short.
  intros Hw. unfold sysfs_message. rewrite !zlen_app. pose proof (proj2 path_is). pose proof (strerror_short e).
  change (zlen (B "Failed to ")) with 10. change (zlen (B " sysfs entry '")) with 14. change (zlen (B "': ")) with 3. change (zlen [10]) with 1. lia.
Qed.

(** One of the three messages, behind the call it is about. *)
Lemma fail_wp format args what c a K log0 h0 log h Q :
  vsprintf format args = Some (sysfs_message what path (strerror (errno a))) -> zlen what <= 9 ->
  failure path (Sys c, a) = Some (sysfs_message what path (strerror (errno a))) -> reported path log0 h0 log h ->
  (forall log' h', reported path log0 h0 log' h' -> (forall e, e ∈ (Sys c, a) :: h -> e ∈ h') -> Q (Ret tt) (Some log') h') ->
  wp (log_ format args) K (Some log) ((Sys c, a) :: h) Q.
Proof using ctime_r_stamp Hentry Hdir strerror_short.
  intros Ef Hw Hfail Hr HQ. eapply log_wp; [exact Ef|by apply zlen_sysfs_message|]. intros t. apply HQ; [by apply reported_message|]. intros e He. by right.
Qed.

(** What was read is what a read of the file gave. *)
Definition read_text (h : list (event lcall)) (t : list Z) : Prop :=
  exists fd a, (Sys (Read fd PAGE_SIZE), a) ∈ h /\ t = cstr (ztake (i32 (ret a) - 1) (data a)).

Lemma readsysfs_logs K log0 h0 log h Q : reported path log0 h0 log h ->
  (forall p log' h', reported path log0 h0 log' h' -> (forall c, p = Some c -> read_text h' (text c)) -> Q (Ret p) (Some log') h') ->
  wp (readsysfs dir entry) K (Some log) h Q.
Proof using ctime_r_stamp Hentry Hdir strerror_short.
  intros Hr HQ. unfold readsysfs. rewrite (proj1 path_is). wp_step. apply wp_sys_any. intros f. wp_step. destruct (ret f <? 0) eqn:Ef.
  { wp_step. eapply (fail_wp _ _ (B "open")); [reflexivity|done|cbn; by rewrite Ef|exact Hr|]. intros log' h' Hr' _. do 2 wp_step. by apply HQ. }
  assert (reported path log0 h0 log ((Sys (Open path O_RDONLY), f) :: h)) as Hr1 by (apply reported_silent; [done|cbn; by rewrite Ef]).
  wp_step. apply wp_sys_any. intros r. wp_step. cbv zeta. destruct (i32 (ret r) <? 0) eqn:Er.
  { wp_step. eapply (fail_wp _ _ (B "read")); [reflexivity|done|cbn; by rewrite Er|exact Hr1|]. intros log' h' Hr' _. do 2 wp_step.
    apply wp_sys_any. intros c. do 2 wp_step. apply HQ; [by apply reported_silent|done]. }
  assert (reported path log0 h0 log ((Sys (Read (ret f) PAGE_SIZE), r) :: (Sys (Open path O_RDONLY), f) :: h)) as Hr2
    by (apply reported_silent; [done|cbn; by rewrite Er]).
  destruct (i32 (ret r) =? 0).
  { wp_step. apply wp_sys_any. intros c. do 2 wp_step. apply HQ; [by apply reported_silent|done]. }
  wp_step. apply wp_sys_any. intros m. do 2 wp_step. apply wp_sys_any. intros c. do 2 wp_step. apply HQ; [do 2 (apply reported_silent; [|done]); done|].
  intros p. destruct (ret m =? 0); [done|]. intros [= <-]. exists (ret f), r. split; [|done]. do 2 right. left.
Qed.

Lemma setsysfs_logs value K log h :
  wp (setsysfs dir entry value) K (Some log) h (fun o log' h' => exists r l, o = Ret r /\ log' = Some l /\ reported path log h l h').
Proof using ctime_r_stamp Hentry Hdir strerror_short.
  unfold setsysfs. wp_step. eapply readsysfs_logs; [apply reported_refl|]. intros old log1 h1 Hr1 _. wp_step. rewrite (proj1 path_is).
  assert (forall (r : Z) log2 h2, reported path log h log2 h2 -> wp (io_bind (free_opt old) (fun _ => io_ret r)) K (Some log2) h2
    (fun o log' h' => exists r l, o = Ret r /\ log' = Some l /\ reported path log h l h')) as Hfree.
  { intros r log2 h2 Hr2. unfold free_opt. destruct old; wp_go; eexists _, _; (split; [done|]); (split; [done|]); [by apply reported_silent|done]. }
  wp_step. apply wp_sys_any. intros f. wp_step. destruct (ret f <? 0) eqn:Ef.
  { wp_step. eapply (fail_wp _ _ (B "open")); [reflexivity|done|cbn; by rewrite Ef|exact Hr1|]. intros log' h' Hr' _. wp_step. by apply Hfree. }
  assert (reported path log h log1 ((Sys (Open path O_RDWR), f) :: h1)) as Hr2 by (apply reported_silent; [done|cbn; by rewrite Ef]).
  assert (forall (r : Z) log2 h2, reported path log h log2 h2 ->
    wp (io_bind (sys (Sys (Close (ret f)))) (fun _ => io_bind (free_opt old) (fun _ => io_ret r))) K (Some log2) h2
    (fun o log' h' => exists r l, o = Ret r /\ log' = Some l /\ reported path log h l h')) as Hclose.
  { intros r log2 h2 Hr3. wp_step. apply wp_sys_any. intros c. wp_step. apply Hfree. by apply reported_silent. }
  cbv zeta. wp_step. destruct (match old with Some o => bool_decide (value = text o) | None => false end).
  { do 2 wp_step. by apply Hclose. }
  wp_step. apply wp_sys_any. intros w. wp_step. destruct (ret w <? 0) eqn:Ew.
  - wp_step. eapply (fail_wp _ _ (B "write new")); [reflexivity|done|cbn; by rewrite Ew|exact Hr2|]. intros log' h' Hr' _. do 3 wp_step. by apply Hclose.
  - do 2 wp_step. apply Hclose. apply reported_silent; [done|]. cbn. by rewrite Ew.
Qed.
End Entry.

(** The end of reading the state of a card: the failures of all attempts are logged, and behind them the
    state; a report that does not fit the buffer damages the stack. *)
Definition state_reported (mic_name log : list Z) (h : list (event lcall)) (o : outcome cptr) (log' : option (list Z)) (h' : list (event lcall)) : Prop :=
  exists l, reported (full_path (Some mic_name) (B "state")) log h l h' /\
    match o with
    | Ret state => read_text h' (text state) /\ zlen (state_message mic_name (text state)) < 4096 /\
        exists now, log' = Some (l ++ record now (state_message mic_name (text state)))
    | Crash => exists state, read_text h' state /\ 4096 <= zlen (state_message mic_name state)
    | NoFuel => log' = Some l
    | Exit _ => False
    end.

Lemma config_state_logs K mic_name log0 h0 fuel : forall log h, fits_name mic_name ->
  reported (full_path (Some mic_name) (B "state")) log0 h0 log h ->
  wp (config_state fuel mic_name) K (Some log) h (state_reported mic_name log0 h0).
Proof using ctime_r_stamp strerror_short.
  induction fuel as [|fuel IH]; intros log h Hn Hr; cbn [config_state]; [wp_step; by exists log|].
  wp_step. eapply (readsysfs_logs (Some mic_name) (B "state")); [done|by intros d [= <-]|exact Hr|]. intros [c|] log2 h2 Hr2 Hc; wp_step; [|by apply IH].
  specialize (Hc c eq_refl).
  assert (forall t, read_text ((Time, t) :: h2) (text c)) as Hc' by (intros t; destruct Hc as (fd & a & Hin & E); exists fd, a; split; [by right|done]).
  assert (vsprintf (B "%s: %s %d state %s" ++ [10]) [Str mic_name; Str (B "mic_config"); Int 1433; Str (text c)] = Some (state_message mic_name (text c)))
    as Em by reflexivity.
  unfold log_. do 4 wp_step. wp_step. apply wp_sys_any. intros t. do 2 wp_step. apply wp_lift.
  rewrite (mpsslog_eq _ _ _ _ _ Em). destruct (Z.ltb_spec (zlen (state_message mic_name (text c))) 4096).
  - do 4 wp_step. exists log2. split; [by apply reported_silent|]. split; [done|]. split; [done|]. by exists (ret t).
  - wp_step. exists log2. split; [by apply reported_silent|]. by exists (text c).
Qed.

(** C35: What the daemon logs of sysfs.c and of the state of a card, for a device and an entry whose names are file names and error texts up to 1024 characters.
    Setting an entry logs exactly the calls on it that failed, in order and each with the date, the full path and the error.  Reading the state of a card
    logs the failures of all its attempts in the same way and then the state that was read,
    when the message has less than 4096 characters; a longer one overruns the buffer.  The vectors of a copy are logged one line each in order. *)
Theorem messages_logged K log h :
  (forall dir entry value, fits_name entry -> (forall d, dir = Some d -> fits_name d) ->
     wp (setsysfs dir entry value) K (Some log) h (fun o log' h' =>
       exists r l, o = Ret r /\ log' = Some l /\ reported (full_path dir entry) log h l h')) /\
  (forall fuel mic_name, fits_name mic_name ->
     wp (config_state fuel mic_name) K (Some log) h (state_reported mic_name log h)) /\
  (forall mic_name s line iov times, fits_name mic_name -> fits_name s ->
     disp_iovec mic_name iov s line times (Some log) =
     Ret (Some (log ++ concat (imap (fun k v => record (times k) (iov_line mic_name s line (Z.of_nat k) v)) iov)))).
Proof using ctime_r_stamp strerror_short.
  split; [|split].
  - intros dir entry value He Hd. by apply setsysfs_logs.
  - intros fuel mic_name Hn. apply config_state_logs; [done|apply reported_refl].
  - intros mic_name s line iov times Hn Hs. unfold disp_iovec. by rewrite disp_from_logs.
Qed.

End Mpsslog.

(** ** Witness *)

Definition sample_stamp (t : Z) : list Z := B "Thu Jan  1 00:00:00 1970".
Definition sample_ctime (t : Z) : option (list Z) := Some (sample_stamp t ++ [10]).

Definition sample_strerror (e : Z) : list Z := B "I/O error".

(** The first attempt to open the state fails; then it reads as so many characters. *)
Definition sample_kernel (n : nat) : kernel lcall := fun h c =>
  match c with
  | Sys (Open _ _) => match h with [] => aerr 5 | _ => aret 4 end
  | Sys (Read _ _) => Ans (Z.of_nat n + 1) 0 (replicate n 120 ++ [10])
  | Sys (Malloc _) => aret 64
  | _ => aret 0
  end.

Definition logged {A} (x : outcome A * option (list Z) * list (event lcall)) : option (list Z) := x.1.2.

(** The failed open and then the state; a state of 4090 characters overruns the buffer. *)
Lemma messages_logged_witness :
  let run n := config_state sample_ctime sample_strerror 2 (B "mic0") (sample_kernel n) (Some []) [] in
  (exists st, (run 6%nat).1.1 = Ret st /\ zlen (state_message (B "mic0") (text st)) < 4096) /\
  logged (run 6%nat) = Some (
    B "Thu Jan  1 00:00:00 1970: Failed to open sysfs entry '/sys/class/mic/mic0/state': I/O error" ++ [10] ++
    B "Thu Jan  1 00:00:00 1970: mic0: mic_config 1433 state xxxxxx" ++ [10]) /\
  (run 4090%nat).1.1 = Crash.
Proof.
  intros run. split; [|split; vm_compute; reflexivity].
  destruct (messages_logged sample_ctime sample_strerror sample_stamp (fun _ => eq_refl) ltac:(by vm_compute) (sample_kernel 6) [] []) as (_ & Hs & _).
  specialize (Hs 2%nat (B "mic0") ltac:(by vm_compute)). apply wp_result in Hs. fold (run 6%nat) in Hs.
  assert ((run 6%nat).1.1 = Ret (Cptr 64 (B "xxxxxx"))) as E by (vm_compute; reflexivity). rewrite E in Hs |- *.
  destruct Hs as (l & _ & _ & Hz & _). by eexists.
Defined.

End Log.
