(* ===== verification/MicRing.v ===== *)
(** * Device pages and vrings of the MIC daemon: mic/mpssd/mpssd.c, lines 51-518

    The static device pages, the lookup of a device descriptor in the page the
    driver exports, the mapping of the rings and the small helpers every virtio
    thread uses. *)

From stdpp Require Import gmap.
From S2P Require Import Prelude Posix Resources Mic.
Import Mic.

Module Ring.

(** The buffers of a thread by their addresses. *)
Abbreviation ram := (gmap Z (list Z)).

Section Ring.
Context `{MicAbi}.

Open Scope io_scope.

(** ** Alignment and sizes *)

Definition _ALIGN_DOWN (addr size : Z) : Z := Z.land addr (Z.lnot (size - 1)).
Definition _ALIGN_UP (addr size : Z) : Z := _ALIGN_DOWN (addr + size - 1) size.
Definition PAGE_ALIGN (addr : Z) : Z := _ALIGN_UP addr PAGE_SIZE.

Definition MAX_GSO_SIZE := 64 * 1024.
Definition ETH_H_LEN := 14.
Definition MAX_NET_PKT_SIZE := _ALIGN_UP (MAX_GSO_SIZE + ETH_H_LEN) 64.
Definition MIC_DEVICE_PAGE_END := 0x1000.
Definition VIRTIO_NET_HDR_F_DATA_VALID := 2.

(** ** The static device pages *)

Definition VIRTIO_NET_F_CSUM := 0.
Definition VIRTIO_NET_F_GSO := 6.
Definition VIRTIO_NET_F_GUEST_TSO4 := 7.
Definition VIRTIO_NET_F_GUEST_TSO6 := 8.
Definition VIRTIO_NET_F_GUEST_ECN := 9.
Definition VIRTIO_NET_F_GUEST_UFO := 10.
Definition VIRTIO_BLK_F_SEG_MAX := 2.

Record dev_page : Type := Page { dd : mic_device_desc; vq_num : list Z; host_features : Z }.

Definition virtcons_dev_page : dev_page :=
  Page (DDesc VIRTIO_ID_CONSOLE 2 4 sizeof_virtio_console_config 0)
    [MIC_VRING_ENTRIES; MIC_VRING_ENTRIES] 0.

Definition virtnet_dev_page : dev_page :=
  Page (DDesc VIRTIO_ID_NET 2 4 sizeof_virtio_net_config 0)
    [MIC_VRING_ENTRIES; MIC_VRING_ENTRIES]
    (Z.lor (Z.shiftl 1 VIRTIO_NET_F_CSUM)
      (Z.lor (Z.shiftl 1 VIRTIO_NET_F_GSO)
        (Z.lor (Z.shiftl 1 VIRTIO_NET_F_GUEST_TSO4)
          (Z.lor (Z.shiftl 1 VIRTIO_NET_F_GUEST_TSO6)
            (Z.lor (Z.shiftl 1 VIRTIO_NET_F_GUEST_ECN)
              (Z.shiftl 1 VIRTIO_NET_F_GUEST_UFO)))))).

Definition virtblk_dev_page : dev_page :=
  Page (DDesc VIRTIO_ID_BLOCK 1 4 sizeof_virtio_blk_config 0)
    [MIC_VRING_ENTRIES] (Z.shiftl 1 VIRTIO_BLK_F_SEG_MAX).
Definition seg_max : Z := u32 (MIC_VRING_ENTRIES - 2).

(** ** The device page of a type *)

Definition set_dp (type dp : Z) : io call world unit :=
  if type =? VIRTIO_ID_CONSOLE then
    modify (on_mic (fun m => set_console (Console (virtio_console_fd (mic_console m)) dp) m))
  else if type =? VIRTIO_ID_NET then
    modify (on_mic (fun m =>
      set_net (Net (virtio_net_fd (mic_net m)) (tap_fd (mic_net m)) dp) m))
  else if type =? VIRTIO_ID_BLOCK then
    modify (on_mic (fun m => let b := mic_virtblk m in
      set_virtblk (Virtblk (virtio_block_fd b) dp (backend_file b) (backend b)
                     (backend_addr b) (backend_size b)) m))
  else crash.

Definition get_dp (type : Z) : io call world Z :=
  let* w := get in
  if type =? VIRTIO_ID_CONSOLE then io_ret (console_dp (mic_console (mic w)))
  else if type =? VIRTIO_ID_NET then io_ret (net_dp (mic_net (mic w)))
  else if type =? VIRTIO_ID_BLOCK then io_ret (block_dp (mic_virtblk (mic w)))
  else crash.

(** The walk over the descriptors of the page; the result is the address of the
    descriptor, whose status is read again later.  [d->type] is an [__u8], so the
    test against -1 compares a value in 0..255 with -1. *)
Fixpoint desc_walk (fuel : nat) (dp i type : Z) : io call world Z :=
  match fuel with
  | O => nofuel
  | S fuel' =>
      if i <? PAGE_SIZE then
        let* a := sys (PeekDesc (dp + i)) in
        let d := ddesc_of a in
        if dd_type d =? 0 then crash
        else if dd_type d =? -1 then desc_walk fuel' dp (i + mic_total_desc_size d) type
        else if dd_type d =? u8 type then io_ret (dp + i)
        else desc_walk fuel' dp (i + mic_total_desc_size d) type
      else crash
  end.

Definition get_device_desc (fuel : nat) (type : Z) : io call world Z :=
  let* dp := get_dp type in
  desc_walk fuel dp sizeof_mic_bootparam type.

(** ** Descriptors, iovecs, copies *)

Definition next_desc (desc : vring_desc) : Z :=
  if negb (has (d_flags desc) VRING_DESC_F_NEXT) then u32 (-1) else d_next desc.

Definition sum_iovec_len (copy : mic_copy_desc) : Z :=
  foldl (fun sum v => i64 (sum + iov_len v)) 0 (ztake (iovcnt copy) (iov copy)).

Definition verify_out_len (copy : mic_copy_desc) : io call world unit :=
  if negb (out_len copy =? sum_iovec_len copy) then crash else io_ret tt.

Definition set_iov_len (i : nat) (len : Z) (v : list iovec) : list iovec :=
  match v !! i with
  | Some e => <[i := IOV (iov_base e) len]> v
  | None => v
  end.

Definition txrx_prepare (type : Z) (tx : bool) (copy : mic_copy_desc) (len : Z) : mic_copy_desc :=
  let v := if type =? VIRTIO_ID_NET
           then set_iov_len 1 (u64 (len - sizeof_virtio_net_hdr)) (iov copy)
           else set_iov_len 0 (u64 len) (iov copy) in
  Copy v (iovcnt copy) (if tx then 0 else 1) true (out_len copy).

(** A call that reads through an iovec finds the first [iov_len] bytes of each buffer, one
    that stores through it fills them in order. *)
Definition gather (m : ram) (v : list iovec) : list Z :=
  concat ((fun i => ztake (iov_len i) (default [] (m !! iov_base i))) <$> v).

Definition overwrite (new old : list Z) : list Z := new ++ drop (length new) old.

Fixpoint scatter (m : ram) (v : list iovec) (bytes : list Z) : ram :=
  match v with
  | [] => m
  | i :: v =>
      scatter (<[iov_base i := overwrite (ztake (iov_len i) bytes) (default [] (m !! iov_base i))]> m) v
        (zdrop (iov_len i) bytes)
  end.

(** The ioctl finds the bytes of the buffers and stores [out_len]; what it copied from the
    card to the buffers follows. *)
Definition mic_virtio_copy (fd : Z) (copy : mic_copy_desc) (m : ram) : io call world (Z * mic_copy_desc * ram) :=
  let v := ztake (iovcnt copy) (iov copy) in
  let* r := sys (CopyDesc fd copy (gather m v)) in
  match data r with
  | n :: got => io_ret (ret r, Copy (iov copy) (iovcnt copy) (vr_idx copy) (update_used copy) n, scatter m v got)
  | [] => io_ret (ret r, copy, m)
  end.

(** ** Rings *)

Definition vr_bytes : Z := PAGE_ALIGN (vring_size + sizeof_mic_vring_info).

(** The mapping of the device page and [num_vq] rings, whose magic numbers are
    asserted; [two] says whether the caller passed a second ring. *)
Definition init_vr (fd type : Z) (two : bool) (nvq : Z) : io call world Z :=
  let* va := sys (Mmap (MIC_DEVICE_PAGE_END + vr_bytes * nvq) fd) in
  if ret va =? MAP_FAILED then io_ret (ret va)
  else
    set_dp type (ret va) ;;
    let* m0 := sys (RingMagic (ret va + MIC_DEVICE_PAGE_END + vring_size)) in
    if negb (ret m0 =? MIC_MAGIC + type) then crash
    else if two then
      let* m1 := sys (RingMagic (ret va + MIC_DEVICE_PAGE_END + vr_bytes + vring_size)) in
      if negb (ret m1 =? MIC_MAGIC + type + 1) then crash else io_ret (ret va)
    else io_ret (ret va).

(** The poll loop until the card's driver is up. *)
Fixpoint wait_loop (fuel : nat) (fd desc : Z) : io call world unit :=
  match fuel with
  | O => nofuel
  | S fuel' =>
      let* p := sys (Poll [fd] (-1)) in
      if ret p <? 0 then wait_loop fuel' fd desc
      else if truthy (nth 0 (data p) 0) then
        let* a := sys (PeekDesc desc) in
        if has (dd_status (ddesc_of a)) VIRTIO_CONFIG_S_DRIVER_OK then io_ret tt
        else wait_loop fuel' fd desc
      else wait_loop fuel' fd desc
  end.

Definition wait_for_card_driver (fuel : nat) (fd type : Z) : io call world unit :=
  let* desc := get_device_desc fuel type in
  wait_loop fuel fd desc.

(** Spin till the card has put descriptors into the ring. *)
Fixpoint spin_loop (fuel : nat) (avail_idx : Z) (r : ring) : io call world unit :=
  match fuel with
  | O => nofuel
  | S fuel' =>
      let* i := sys (RingAvail r) in
      if avail_idx =? ret i then sys SchedYield ;; spin_loop fuel' avail_idx r
      else io_ret tt
  end.

Definition spin_for_descriptors (fuel : nat) (r : ring) : io call world unit :=
  let* i := sys (InfoAvail r) in
  spin_loop fuel (ret i) r.

Definition add_virtio_device (d : mic_device_desc) : io call world unit :=
  let* w := get in
  let path := snprintf PATH_MAX (B "/dev/mic" ++ dec (id (mic w))) in
  let* f := sys (Open path O_RDWR) in
  if ret f <? 0 then io_ret tt
  else
    let* e := sys (AddDevice (ret f) d) in
    if ret e <? 0 then sys (Close (ret f)) ;; io_ret tt
    else if dd_type d =? VIRTIO_ID_NET then
      modify (on_mic (fun m => set_net (Net (ret f) (tap_fd (mic_net m)) (net_dp (mic_net m))) m))
    else if dd_type d =? VIRTIO_ID_CONSOLE then
      modify (on_mic (fun m => set_console (Console (ret f) (console_dp (mic_console m))) m))
    else if dd_type d =? VIRTIO_ID_BLOCK then
      modify (on_mic (fun m => let b := mic_virtblk m in
        set_virtblk (Virtblk (ret f) (block_dp b) (backend_file b) (backend b)
                       (backend_addr b) (backend_size b)) m))
    else io_ret tt.

Close Scope io_scope.

(** ** The descriptor walk *)

(** The part of the device page the walk depends on does not change under it. *)
Definition stable (K : kernel call) (page : Z -> mic_device_desc) : Prop :=
  forall h a, dd_type (ddesc_of (K h (PeekDesc a))) = dd_type (page a) /\
    mic_total_desc_size (ddesc_of (K h (PeekDesc a))) = mic_total_desc_size (page a).

(** The descriptors stored one after the other from offset [i], up to a type of 0
    or the end of the page. *)
Inductive descs_at (page : Z -> mic_device_desc) (dp : Z) : Z -> list mic_device_desc -> Prop :=
| descs_null i : i < PAGE_SIZE -> dd_type (page (dp + i)) = 0 -> descs_at page dp i []
| descs_full i : PAGE_SIZE <= i -> descs_at page dp i []
| descs_cons i ds :
    i < PAGE_SIZE -> 0 < dd_type (page (dp + i)) < 256 ->
    descs_at page dp (i + mic_total_desc_size (page (dp + i))) ds ->
    descs_at page dp i (page (dp + i) :: ds).

(** The offset of the first descriptor of a type. *)
Fixpoint offset_of (type i : Z) (ds : list mic_device_desc) : option Z :=
  match ds with
  | [] => None
  | d :: ds' => if dd_type d =? type then Some i
                else offset_of type (i + mic_total_desc_size d) ds'
  end.

Lemma desc_walk_spec fuel K page dp i type ds w h
    (Q : outcome Z -> world -> list (event call) -> Prop) :
  stable K page -> descs_at page dp i ds -> (length ds < fuel)%nat -> fits 8 type ->
  (forall h', held h' = held h ->
     Q (match offset_of type i ds with Some o => Ret (dp + o) | None => Crash end) w h') ->
  wp (desc_walk fuel dp i type) K w h Q.
Proof.
  intros HK Hd. revert fuel h. induction Hd as [i Hi H0|i Hi|i ds Hi Ht Hd IH];
    intros [|fuel] h Hf Hty HQ; simpl in Hf; try lia; cbn [desc_walk].
  - replace (i <? PAGE_SIZE) with true by lia. wp_step. apply wp_sys_eq. intros a Ha. wp_step.
    destruct (HK h (dp + i)) as [Et _]. rewrite Ha, H0 in Et. cbv zeta. rewrite Et. simpl.
    wp_step. apply HQ. unfold held. simpl. by destruct (held_from [] h).
  - replace (i <? PAGE_SIZE) with false by lia. wp_step. by apply HQ.
  - replace (i <? PAGE_SIZE) with true by lia. wp_step. apply wp_sys_eq. intros a Ha. wp_step.
    destruct (HK h (dp + i)) as [Et Es]. rewrite Ha in Et, Es. cbv zeta. rewrite Et, Es.
    assert (u8 type = type) as -> by (by apply wrap_small).
    replace (dd_type (page (dp + i)) =? 0) with false by lia.
    replace (dd_type (page (dp + i)) =? -1) with false by lia.
    assert (held ((PeekDesc (dp + i), a) :: h) = held h) as Hheld.
    { unfold held. simpl. by destruct (held_from [] h). }
    simpl offset_of in HQ. destruct (_ =? type).
    + wp_step. by apply HQ.
    + apply IH; [lia|done|]. intros h' Hh'. apply HQ. congruence.
Qed.

(** [get_device_desc] returns the address of the first descriptor of the
    wanted type on the device page and fails its assertion exactly when there is
    none before the end of the list or of the page, in one turn per descriptor and
    without acquiring anything. *)
Theorem get_device_desc_finds fuel K page ds type w h :
  stable K page -> type = VIRTIO_ID_CONSOLE \/ type = VIRTIO_ID_NET \/ type = VIRTIO_ID_BLOCK ->
  let dp := if type =? VIRTIO_ID_CONSOLE then console_dp (mic_console (mic w))
            else if type =? VIRTIO_ID_NET then net_dp (mic_net (mic w))
            else block_dp (mic_virtblk (mic w)) in
  descs_at page dp sizeof_mic_bootparam ds -> (length ds < fuel)%nat ->
  exists h', get_device_desc fuel type K w h =
    (match offset_of type sizeof_mic_bootparam ds with Some o => Ret (dp + o) | None => Crash end,
     w, h') /\ held h' = held h.
Proof.
  intros HK Hty dp Hd Hf.
  assert (wp (get_device_desc fuel type) K w h (fun o w' h' =>
    o = match offset_of type sizeof_mic_bootparam ds with Some o => Ret (dp + o) | None => Crash end
    /\ w' = w /\ held h' = held h)) as Hwp.
  { unfold get_device_desc, get_dp. wp_step. wp_step. wp_step. wp_step.
    assert (fits 8 type) as Hfit by (unfold fits; destruct Hty as [-> | [-> | ->]]; done).
    destruct Hty as [-> | [-> | ->]]; simpl Z.eqb; cbn iota; wp_step; wp_step;
      by apply (desc_walk_spec _ _ page _ _ _ ds). }
  unfold wp in Hwp. destruct (get_device_desc fuel type K w h) as [[o w'] h'].
  destruct Hwp as (-> & -> & ?). by eexists.
Qed.

(** ** Lengths of a prepared copy *)

Lemma u64_small x : 0 <= x < 2 ^ 64 -> u64 x = x.
Proof. intros. by apply wrap_small. Qed.

Lemma sum_net b0 b1 l tx n o len :
  sizeof_virtio_net_hdr <= len < 2 ^ 63 ->
  sum_iovec_len (txrx_prepare VIRTIO_ID_NET tx
    (Copy [IOV b0 sizeof_virtio_net_hdr; IOV b1 l] 2 n true o) len) = len.
Proof.
  unfold sizeof_virtio_net_hdr. intros Hlen. unfold sum_iovec_len, txrx_prepare. simpl.
  unfold sizeof_virtio_net_hdr. rewrite u64_small by lia. rewrite (i64_small (0 + 10)) by lia.
  replace (0 + 10 + (len - 10)) with len by lia. by rewrite i64_small by lia.
Qed.

Lemma sum_console b l tx n o len :
  0 <= len < 2 ^ 63 ->
  sum_iovec_len (txrx_prepare VIRTIO_ID_CONSOLE tx (Copy [IOV b l] 1 n true o) len) = len.
Proof.
  intros Hlen. unfold sum_iovec_len, txrx_prepare. simpl.
  rewrite u64_small, i64_small by lia. lia.
Qed.

(** ** Waiting for the card *)

(** Whatever calls came before, a return of the wait loop follows directly on a
    read of the descriptor with the DRIVER_OK bit. *)
Definition saw_driver (desc : Z) (h : list (event call)) : Prop :=
  exists a h', h = (PeekDesc desc, a) :: h' /\
    has (dd_status (ddesc_of a)) VIRTIO_CONFIG_S_DRIVER_OK = true.

Lemma wait_loop_safe fuel fd desc K w h l
    (Q : outcome unit -> world -> list (event call) -> Prop) :
  held h = Some l ->
  (forall h', saw_driver desc h' -> held h' = Some l -> Q (Ret tt) w h') ->
  (forall h', Q NoFuel w h') ->
  wp (wait_loop fuel fd desc) K w h Q.
Proof.
  intros Hh HQ HN. revert h Hh. induction fuel as [|fuel IH]; intros h Hh; cbn [wait_loop].
  - wp_step. apply HN.
  - wp_go; try (apply IH; held_solve). apply HQ; [|held_solve]. by eexists _, _.
Qed.

(** ** Mapping the rings *)

Definition dp_of (type : Z) (m : mic_info) : Z :=
  if type =? VIRTIO_ID_CONSOLE then console_dp (mic_console m)
  else if type =? VIRTIO_ID_NET then net_dp (mic_net m)
  else block_dp (mic_virtblk m).

(** Everything but the device page pointers. *)
Definition same_but_dp (m m' : mic_info) : Prop :=
  id m' = id m /\ name m' = name m /\ pid m' = pid m /\ restart m' = restart m /\
  boot_on_resume m' = boot_on_resume m /\
  virtio_console_fd (mic_console m') = virtio_console_fd (mic_console m) /\
  virtio_net_fd (mic_net m') = virtio_net_fd (mic_net m) /\
  tap_fd (mic_net m') = tap_fd (mic_net m) /\
  virtio_block_fd (mic_virtblk m') = virtio_block_fd (mic_virtblk m) /\
  backend_file (mic_virtblk m') = backend_file (mic_virtblk m) /\
  backend (mic_virtblk m') = backend (mic_virtblk m) /\
  backend_addr (mic_virtblk m') = backend_addr (mic_virtblk m) /\
  backend_size (mic_virtblk m') = backend_size (mic_virtblk m).

Lemma same_but_dp_refl m : same_but_dp m m.
Proof. by split_and!. Qed.

Definition virtio_type (type : Z) : Prop :=
  type = VIRTIO_ID_CONSOLE \/ type = VIRTIO_ID_NET \/ type = VIRTIO_ID_BLOCK.

Lemma wp_set_dp type dp K w h (Q : outcome unit -> world -> list (event call) -> Prop) :
  virtio_type type ->
  (forall m, same_but_dp (mic w) m -> dp_of type m = dp -> Q (Ret tt) (World m (capacity w)) h) ->
  wp (set_dp type dp) K w h Q.
Proof.
  intros Hty HQ. unfold set_dp. destruct Hty as [-> | [-> | ->]]; simpl Z.eqb; cbn iota; wp_step;
    (apply HQ; [unfold same_but_dp; by split_and!|done]).
Qed.

Lemma init_vr_held fd type two nvq K w h l (Q : outcome Z -> world -> list (event call) -> Prop) :
  virtio_type type -> held h = Some l ->
  (forall h', held h' = Some l -> Q (Ret MAP_FAILED) w h') ->
  (forall va m h', same_but_dp (mic w) m -> dp_of type m = va -> va <> MAP_FAILED ->
     held h' = Some (Mapping va (MIC_DEVICE_PAGE_END + vr_bytes * nvq) :: l) ->
     Q (Ret va) (World m (capacity w)) h') ->
  (forall w' h', Q Crash w' h') ->
  wp (init_vr fd type two nvq) K w h Q.
Proof.
  intros Hty Hh HF HQ HC. unfold init_vr. wp_step. apply wp_sys_any. intros va. wp_step.
  destruct (ret va =? MAP_FAILED) eqn:E.
  - wp_step. assert (ret va = MAP_FAILED) as -> by lia. apply HF. held_solve.
  - wp_step. apply wp_set_dp; [done|]. intros m Hm Hdp. wp_go; try apply HC.
    all: apply HQ; try done; try lia; held_solve.
Qed.

(** The kernel refuses the device node of the card or the device. *)
Definition add_refused (K : kernel call) (w : world) (d : mic_device_desc) : Prop :=
  (exists h, ret (K h (Open (snprintf PATH_MAX (B "/dev/mic" ++ dec (id (mic w)))) O_RDWR)) < 0) \/
  (exists h fd, ret (K h (AddDevice fd d)) < 0).

Lemma add_device_held d K w h l (Q : outcome unit -> world -> list (event call) -> Prop) :
  virtio_type (dd_type d) -> held h = Some l ->
  (add_refused K w d -> forall h', held h' = Some l -> Q (Ret tt) w h') ->
  (forall fd m h', held h' = Some (Fd fd :: l) -> 0 <= fd ->
     (if dd_type d =? VIRTIO_ID_CONSOLE then virtio_console_fd (mic_console m)
      else if dd_type d =? VIRTIO_ID_NET then virtio_net_fd (mic_net m)
      else virtio_block_fd (mic_virtblk m)) = fd ->
     backend_file (mic_virtblk m) = backend_file (mic_virtblk (mic w)) ->
     backend (mic_virtblk m) = backend (mic_virtblk (mic w)) ->
     backend_addr (mic_virtblk m) = backend_addr (mic_virtblk (mic w)) ->
     backend_size (mic_virtblk m) = backend_size (mic_virtblk (mic w)) ->
     Q (Ret tt) (World m (capacity w)) h') ->
  wp (add_virtio_device d) K w h Q.
Proof.
  intros Hty Hh HF HQ. unfold add_virtio_device. wp_step. wp_step. wp_step. cbv zeta.
  wp_step. apply wp_sys_eq. intros f Kf. wp_step. destruct (ret f <? 0) eqn:Ef.
  { wp_step. apply HF; [|held_solve]. left. exists h. rewrite Kf. lia. }
  wp_step. apply wp_sys_eq. intros e Ke. wp_step. destruct (ret e <? 0) eqn:Ee.
  { wp_go. apply HF; [|held_solve]. right. eexists _, _. rewrite Ke. lia. }
  destruct Hty as [E | [E | E]]; rewrite E in *; simpl Z.eqb; cbn iota; wp_step;
    apply HQ with (fd := ret f); try done; try held_solve; lia.
Qed.

End Ring.

(** A page with a network and a console descriptor. *)
Definition page_kernel : kernel call := fun _ c =>
  match c with
  | PeekDesc a => Ans 0 0 (if a =? 4160 then [VIRTIO_ID_NET; 2; 4; 8; 4]
                           else if a =? 4192 then [VIRTIO_ID_CONSOLE; 2; 4; 8; 4] else [0; 0; 0; 0; 0])
  | _ => aret 0
  end.

Definition page_world : world :=
  World (Info 3 (Some (B "mic3")) 0 (Console 8 4096) (Net 9 0 4096)
           (Virtblk 0 4096 (Cptr 0 []) 0 0 0) 0 0) 0.

Lemma get_device_desc_finds_witness :
  exists h', get_device_desc (H := sample_abi) 5 VIRTIO_ID_CONSOLE page_kernel page_world [] =
    (Ret 4192, page_world, h') /\ held h' = Some [].
Proof.
  apply (get_device_desc_finds (H := sample_abi) 5 page_kernel
    (fun a => ddesc_of (page_kernel [] (PeekDesc a)))
    [DDesc VIRTIO_ID_NET 2 4 8 4; DDesc VIRTIO_ID_CONSOLE 2 4 8 4]).
  - done.
  - by left.
  - set (page := fun a => _).
    change (descs_at (H := sample_abi) page 4096 64 [page (4096 + 64); page (4096 + 96)]).
    apply descs_cons; [done|vm_compute; done|].
    apply (descs_cons (H := sample_abi) page 4096 96); [done|vm_compute; done|].
    apply descs_null; done.
  - simpl. lia.
Defined.

End Ring.
