(* ===== verification/MicNet.v ===== *)
(** * The network and console threads of the MIC daemon: mic/mpssd/mpssd.c,
      lines 158-273 and 520-892

    [virtio_net] relays packets between a TAP interface and the card's rings,
    [virtio_console] bytes between a pseudoterminal and the rings.  Their main
    loops are the same but for the framing of the data; the model has one loop
    over a [port] that holds the differences, and the two threads instantiate
    it. *)

From stdpp Require Import gmap.
From S2P Require Import Prelude Posix Resources Mic MicRing.
Import Mic Ring.

Module Net.

Section Net.
Context `{MicAbi}.

Open Scope io_scope.

(** ** The TAP interface *)

(** [execvp] returns only when it fails; otherwise the child is gone. *)
Definition run_ip (argv : list (list Z)) : io call world Z :=
  let* e := sys (Execvp argv) in
  if ret e <? 0 then io_ret (ret e) else exit_ 0.

Definition tap_address (id : Z) : list Z :=
  snprintf IFNAMSIZ (B "172.31." ++ dec id ++ B ".254/24").

Definition tap_configure (dev : list Z) : io call world Z :=
  let* w := get in
  let* p := sys Fork in
  if ret p =? 0 then run_ip [B "ip"; B "link"; B "set"; dev; B "up"]
  else if ret p <? 0 then io_ret 0
  else
    let* r := sys (Waitpid (ret p)) in
    if ret r <? 0 then io_ret (ret r)
    else
      let ipaddr := tap_address (id (mic w)) in
      let* p2 := sys Fork in
      if ret p2 =? 0 then run_ip [B "ip"; B "addr"; B "add"; ipaddr; B "dev"; dev]
      else if ret p2 <? 0 then io_ret (ret r)
      else
        let* r2 := sys (Waitpid (ret p2)) in
        if ret r2 <? 0 then io_ret (ret r2) else io_ret 0.

(** The descriptor or a negative error, and the name the kernel chose. *)
Definition tun_alloc (dev : list Z) : io call world (Z * list Z) :=
  let* f := sys (Open (B "/dev/net/tun") O_RDWR) in
  if ret f <? 0 then io_ret (ret f, dev)
  else
    let* e := sys (TunSetIff (ret f) (ztake IFNAMSIZ dev)) in
    if ret e <? 0 then sys (Close (ret f)) ;; io_ret (ret e, dev)
    else
      let* o := sys (TunSetOffload (ret f)) in
      if ret o <? 0 then sys (Close (ret f)) ;; io_ret (ret o, dev)
      else io_ret (ret f, cstr (data e)).

(** ** The relay loop *)

(** Where the two threads differ: the device type and descriptor, the stream on
    the host side, the bytes of framing in front of the payload, the element of
    the iovec that holds the payload and its room, and what is done to the first
    buffer of a packet on its way to the card. *)
Record port : Type := Port {
  p_type : Z; p_fd : Z; p_stream : Z;
  p_hdr : Z; p_idx : nat; p_room : Z;
  p_mark : list Z -> list Z
}.

(** [iov0] and [iov1] are the two iovecs of the thread, [cp] its [copy]; [copy.iov]
    points at one of them, so what is stored through it is stored there.  [bufs] are the
    static buffers the iovecs point at. *)
Record lstate : Type := L { iov0 : list iovec; iov1 : list iovec; cp : mic_copy_desc; bufs : ram }.

Definition point_at (v : list iovec) (c : mic_copy_desc) : mic_copy_desc :=
  Copy v (iovcnt c) (vr_idx c) (update_used c) (out_len c).

(** The address of the first buffer. *)
Definition first_base (v : list iovec) : Z := match v with i :: _ => iov_base i | [] => 0 end.

(** Data from the stream to the card. *)
Definition tx_step (fuel : nat) (p : port) (l : lstate) : io call world lstate :=
  let copy := point_at (iov0 l) (cp l) in
  let v := ztake (iovcnt copy) (iov copy) in
  let* r := sys (Readv (p_stream p) v) in
  if 0 <? ret r then
    let m := alter (p_mark p) (first_base v) (scatter (bufs l) v (data r)) in
    spin_for_descriptors fuel TxRing ;;
    let copy := txrx_prepare (p_type p) true copy (ret r) in
    let* (err, copy, m) := mic_virtio_copy (p_fd p) copy m in
    (if err =? 0 then verify_out_len copy else io_ret tt) ;;
    let v := set_iov_len (p_idx p) (p_room p) (iov copy) in
    io_ret (L v (iov1 l) (point_at v copy) m)
  else io_ret (L (iov0 l) (iov1 l) copy (bufs l)).

(** Data from the card to the stream, while the ring has descriptors. *)
Fixpoint rx_loop (fuel : nat) (p : port) (l : lstate) : io call world lstate :=
  match fuel with
  | O => nofuel
  | S fuel' =>
      let* i := sys (InfoAvail RxRing) in
      let* r := sys (RingAvail RxRing) in
      if ret i =? ret r then io_ret l
      else
        let copy := point_at (iov1 l) (cp l) in
        let copy := txrx_prepare (p_type p) false copy (p_room p + p_hdr p) in
        let* (err, copy, m) := mic_virtio_copy (p_fd p) copy (bufs l) in
        if err =? 0 then
          let v := set_iov_len (p_idx p) (u64 (out_len copy - p_hdr p)) (iov copy) in
          let copy := point_at v copy in
          verify_out_len copy ;;
          let* n := sys (Writev (p_stream p) (ztake (iovcnt copy) v) (gather m (ztake (iovcnt copy) v))) in
          rx_loop fuel' p (L (iov0 l) v copy m)
        else io_ret (L (iov0 l) (iov copy) copy m)
  end.

Fixpoint relay (fuel n : nat) (p : port) (desc : Z) (l : lstate) : io call world unit :=
  match n with
  | O => nofuel
  | S n' =>
      let* e := sys (Poll [p_fd p; p_stream p] (-1)) in
      if ret e <? 0 then relay fuel n' p desc l
      else
        let* d := sys (PeekDesc desc) in
        (if negb (has (dd_status (ddesc_of d)) VIRTIO_CONFIG_S_DRIVER_OK)
         then wait_for_card_driver fuel (p_fd p) (p_type p) else io_ret tt) ;;
        let* l := (if has (nth 1 (data e) 0) POLLIN then tx_step fuel p l else io_ret l) in
        let* l := (if has (nth 0 (data e) 0) POLLIN then rx_loop fuel p l else io_ret l) in
        relay fuel n' p desc l
  end.

(** ** The threads *)

(** [hdr->flags |= VIRTIO_NET_HDR_F_DATA_VALID], the first byte of the packet. *)
Definition mark_valid (pkt : list Z) : list Z :=
  match pkt with
  | f :: rest => u8 (Z.lor f VIRTIO_NET_HDR_F_DATA_VALID) :: rest
  | [] => []
  end.

Definition net_port (fd tap : Z) : port :=
  Port VIRTIO_ID_NET fd tap sizeof_virtio_net_hdr 1 MAX_NET_PKT_SIZE mark_valid.
Definition console_port (fd pty : Z) : port :=
  Port VIRTIO_ID_CONSOLE fd pty 0 0 PAGE_SIZE (fun b => b).

(** Addresses of the static buffers. *)
Record buffers : Type := Buffers { hdr0 : Z; buf0 : Z; hdr1 : Z; buf1 : Z }.

Definition net_start (b : buffers) (m : ram) : lstate :=
  L [IOV (hdr0 b) sizeof_virtio_net_hdr; IOV (buf0 b) MAX_NET_PKT_SIZE]
    [IOV (hdr1 b) sizeof_virtio_net_hdr; IOV (buf1 b) MAX_NET_PKT_SIZE]
    (Copy [] 2 0 false 0) m.
Definition console_start (b : buffers) (m : ram) : lstate :=
  L [IOV (buf0 b) PAGE_SIZE] [IOV (buf1 b) PAGE_SIZE] (Copy [] 1 0 false 0) m.

(** Static buffers start as zeros. *)
Definition net_buffers (b : buffers) : ram :=
  <[hdr0 b := replicate (Z.to_nat sizeof_virtio_net_hdr) 0]> (<[hdr1 b := replicate (Z.to_nat sizeof_virtio_net_hdr) 0]>
  (<[buf0 b := replicate (Z.to_nat MAX_NET_PKT_SIZE) 0]> {[buf1 b := replicate (Z.to_nat MAX_NET_PKT_SIZE) 0]})).
Definition console_buffers (b : buffers) : ram :=
  <[buf0 b := replicate (Z.to_nat PAGE_SIZE) 0]> {[buf1 b := replicate (Z.to_nat PAGE_SIZE) 0]}.

Definition pthread_exit : io call world unit := sys PthreadExit ;; io_ret tt.

Definition virtio_net (fuel n : nat) (b : buffers) : io call world unit :=
  let* w := get in
  let* (fd, if_name) := tun_alloc (snprintf IFNAMSIZ (B "mic" ++ dec (id (mic w)))) in
  modify (on_mic (fun m => set_net (Net (virtio_net_fd (mic_net m)) fd (net_dp (mic_net m))) m)) ;;
  if fd <? 0 then pthread_exit
  else
    let* r := tap_configure if_name in
    if truthy r then pthread_exit
    else
      let vfd := virtio_net_fd (mic_net (mic w)) in
      let* va := init_vr vfd VIRTIO_ID_NET true (num_vq (dd virtnet_dev_page)) in
      if va =? MAP_FAILED then pthread_exit
      else
        let* desc := get_device_desc fuel VIRTIO_ID_NET in
        relay fuel n (net_port vfd fd) desc (net_start b (net_buffers b)).

Definition virtio_console (fuel n : nat) (b : buffers) : io call world unit :=
  let* w := get in
  let* pty := sys PosixOpenpt in
  if ret pty <? 0 then pthread_exit
  else
    let close_pty := (sys (Close (ret pty)) ;; pthread_exit) in
    let* pts := sys (Ptsname (ret pty)) in
    if ret pts =? 0 then close_pty
    else
      let* g := sys (Grantpt (ret pty)) in
      if ret g <? 0 then close_pty
      else
        let* u := sys (Unlockpt (ret pty)) in
        if ret u <? 0 then close_pty
        else
          let vfd := virtio_console_fd (mic_console (mic w)) in
          let* va := init_vr vfd VIRTIO_ID_CONSOLE true (num_vq (dd virtcons_dev_page)) in
          if va =? MAP_FAILED then close_pty
          else
            let* desc := get_device_desc fuel VIRTIO_ID_CONSOLE in
            relay fuel n (console_port vfd (ret pty)) desc (console_start b (console_buffers b)).

Close Scope io_scope.

#[local] Arguments i64 : simpl never.
#[local] Arguments u64 : simpl never.
#[local] Arguments wp : simpl never.
#[local] Arguments wp_k : simpl never.
#[local] Arguments io_bind : simpl never.

(** ** Framing *)

(** A change of the front of a packet. *)
Definition marks (f : list Z -> list Z) : Prop :=
  forall a b, a <> [] -> f (a ++ b) = f a ++ b /\ length (f a) = length a.

Definition p_ok (p : port) : Prop :=
  (p_type p = VIRTIO_ID_NET /\ p_hdr p = 10 /\ p_idx p = 1%nat \/
   p_type p = VIRTIO_ID_CONSOLE /\ p_hdr p = 0 /\ p_idx p = 0%nat) /\ 0 < p_room p < 2 ^ 32 /\ marks (p_mark p).

Definition p_cnt (p : port) : Z := 1 + Z.of_nat (p_idx p).

(** An iovec of the thread: the header, for the network, and the payload. *)
Definition shape (p : port) (v : list iovec) : Prop :=
  if p_type p =? VIRTIO_ID_NET then exists a b len, a <> b /\ v = [IOV a 10; IOV b len]
  else exists b len, v = [IOV b len].

Lemma prepare_eq p tx c len :
  p_ok p ->
  txrx_prepare (p_type p) tx c len =
  Copy (set_iov_len (p_idx p) (u64 (len - p_hdr p)) (iov c)) (iovcnt c) (if tx then 0 else 1) true
    (out_len c).
Proof.
  intros [[(E & Eh & Ei)|(E & Eh & Ei)] _]; unfold txrx_prepare; rewrite E, Eh, Ei; simpl.
  - done.
  - by rewrite Z.sub_0_r.
Qed.

Lemma shape_set p v len : p_ok p -> shape p v -> shape p (set_iov_len (p_idx p) len v).
Proof.
  intros [[(E & Eh & Ei)|(E & Eh & Ei)] _]; unfold shape; rewrite E, Ei; simpl.
  - intros (a & b & l & Hne & ->). cbn. by eauto 6.
  - intros (b & l & ->). cbn. by eauto.
Qed.

Lemma shape_take p v : p_ok p -> shape p v -> ztake (p_cnt p) v = v.
Proof.
  intros [[(E & Eh & Ei)|(E & Eh & Ei)] _]; unfold shape, p_cnt; rewrite E, Ei; simpl.
  - by intros (a & b & l & Hne & ->).
  - by intros (b & l & ->).
Qed.

Lemma shape_sum p v len vi u o :
  p_ok p -> shape p v -> p_hdr p <= len < 2 ^ 63 ->
  sum_iovec_len (Copy (set_iov_len (p_idx p) (u64 (len - p_hdr p)) v) (p_cnt p) vi u o) = len.
Proof.
  intros [[(E & Eh & Ei)|(E & Eh & Ei)] _]; unfold shape, p_cnt, sum_iovec_len; rewrite E, Eh, Ei; simpl.
  - intros (a & b & l & Hne & ->) Hlen. cbn. rewrite u64_small by lia.
    unfold ztake. simpl.
    rewrite (i64_small (0 + 10)) by lia.
    rewrite i64_small by lia. lia.
  - intros (b & l & ->) Hlen. cbn. rewrite u64_small by lia. unfold ztake. simpl.
    rewrite i64_small by lia. lia.
Qed.

(** ** Buffers *)

(** The bytes an iovec has room for. *)
Definition room_of (v : list iovec) : Z := foldr (fun i n => iov_len i + n) 0 v.

Lemma ztake_overwrite n new old : n = zlen new -> ztake n (overwrite new old) = new.
Proof. intros ->. unfold ztake, overwrite, zlen. by rewrite Nat2Z.id, take_app_length. Qed.

(** What was stored through an iovec is found through it, once the length of the payload is
    set; the old contents of the buffers do not show. *)
Lemma gather_scatter p m v bytes :
  p_ok p -> shape p v -> p_hdr p <= zlen bytes <= room_of v -> zlen bytes < 2 ^ 63 ->
  gather (scatter m v bytes) (set_iov_len (p_idx p) (u64 (zlen bytes - p_hdr p)) v) = bytes.
Proof.
  intros [[(E & Eh & Ei)|(E & Eh & Ei)] _]; unfold shape; rewrite E, Eh, Ei; simpl.
  - intros (a & b & l & Hne & ->) Hlen H63. cbn in Hlen. rewrite u64_small by lia. unfold gather. cbn.
    rewrite lookup_insert_eq, lookup_insert_ne, lookup_insert_eq by done. cbn.
    rewrite !ztake_overwrite; [rewrite app_nil_r|..].
    + rewrite <- (ztake_zdrop 10 bytes) at 3. f_equal. unfold ztake. apply take_ge. unfold zdrop. rewrite length_drop.
      unfold zlen in *. lia.
    + unfold zlen, ztake, zdrop in *. rewrite length_take, length_drop. lia.
    + unfold zlen, ztake in *. rewrite length_take. lia.
  - intros (b & l & ->) Hlen H63. cbn in Hlen. rewrite u64_small by lia. unfold gather. cbn.
    rewrite lookup_insert_eq. cbn. assert (ztake l bytes = bytes) as ->
      by (unfold ztake; apply take_ge; unfold zlen in *; lia).
    rewrite ztake_overwrite by lia. apply app_nil_r.
Qed.

Lemma marks_take f n c : marks f -> 0 < n -> c <> [] -> ztake n (f c) = f (ztake n c).
Proof.
  intros Hf Hn Hc. destruct (Hf (ztake n c) (zdrop n c)) as [E Hl].
  { destruct c; [done|]. unfold ztake. destruct (Z.to_nat n) eqn:En; [lia|done]. }
  rewrite ztake_zdrop in E. unfold ztake in *. destruct (decide (Z.to_nat n <= length c)%nat) as [Hle|Hgt].
  - rewrite E, take_app_le by (rewrite Hl, length_take; lia). apply take_ge. rewrite Hl, length_take. lia.
  - rewrite (take_ge c) in Hl |- * by lia. apply take_ge. lia.
Qed.

Lemma scatter_first p m v bytes :
  p_ok p -> shape p v -> p_hdr p <= zlen bytes <= room_of v -> bytes <> [] ->
  exists c, scatter m v bytes !! first_base v = Some c /\ c <> [].
Proof.
  intros [[(E & Eh & Ei)|(E & Eh & Ei)] _]; unfold shape; rewrite E, Eh; simpl.
  all: assert (forall n old, 0 < n -> bytes <> [] -> overwrite (ztake n bytes) old <> []) as Hov
    by (intros n old Hn Hb; destruct bytes; [done|]; unfold overwrite, ztake; by destruct (Z.to_nat n) eqn:En; [lia|]).
  - intros (a & b & l & Hne & ->) Hlen Hb. cbn. rewrite lookup_insert_ne, lookup_insert_eq by done. eexists. split; [done|].
    by apply Hov.
  - intros (b & l & ->) Hlen Hb. cbn in *. rewrite lookup_insert_eq. eexists. split; [done|]. apply Hov; [|done].
    destruct bytes; [done|]. rewrite zlen_cons in Hlen. pose proof (zlen_nonneg bytes). lia.
Qed.

Lemma gather_marked p m v bytes f :
  p_ok p -> shape p v -> p_hdr p <= zlen bytes <= room_of v -> zlen bytes < 2 ^ 63 -> bytes <> [] -> marks f ->
  gather (alter f (first_base v) (scatter m v bytes)) (set_iov_len (p_idx p) (u64 (zlen bytes - p_hdr p)) v) = f bytes.
Proof.
  intros Hp Hs Hlen H63 Hb Hf. destruct (scatter_first p m v bytes Hp Hs Hlen Hb) as (c & Hc & Hcne).
  rewrite <- (gather_scatter p m v bytes Hp Hs Hlen H63) at 3. assert (0 < zlen bytes) as Hpos.
  { destruct bytes; [done|]. rewrite zlen_cons. pose proof (zlen_nonneg bytes). lia. }
  assert (forall n (d : list Z), 0 < n -> d <> [] -> ztake n d <> []) as Ht
    by (intros n [|x d] Hn Hd; [done|]; unfold ztake; by destruct (Z.to_nat n) eqn:En; [lia|]).
  revert Hc. generalize (scatter m v bytes) as m'. intros m'. clear Hlen.
  revert Hs. destruct Hp as [[(E & Eh & Ei)|(E & Eh & Ei)] _]; unfold shape; rewrite E, Eh, Ei; simpl.
  - intros (a & b & l & Hne & ->) Hc. unfold gather. cbn [first_base iov_base] in *. cbn.
    rewrite lookup_alter_eq, lookup_alter_ne, Hc by done. cbn. rewrite marks_take by done.
    symmetry. by apply Hf, Ht.
  - intros (b & l & ->) Hc. unfold gather. cbn [first_base iov_base] in *. cbn.
    rewrite lookup_alter_eq, Hc. cbn. rewrite Z.sub_0_r, u64_small, !app_nil_r by lia. by apply marks_take.
Qed.

(** ** What the relay reads and writes *)

(** All newest first: packets read from the stream, the bytes that the driver was given
    for the card, with whether it took them, packets delivered by the card, and the
    bytes that were written to the stream. *)
Fixpoint taken (h : list (event call)) : list (list Z) :=
  match h with
  | [] => []
  | (Readv _ _, a) :: h' => if 0 <? ret a then data a :: taken h' else taken h'
  | _ :: h' => taken h'
  end.
Fixpoint handed (h : list (event call)) : list (list Z * bool) :=
  match h with
  | [] => []
  | (CopyDesc _ c b, a) :: h' => if vr_idx c =? 0 then (b, ret a =? 0) :: handed h' else handed h'
  | _ :: h' => handed h'
  end.
Fixpoint delivered (h : list (event call)) : list (list Z) :=
  match h with
  | [] => []
  | (CopyDesc _ c _, a) :: h' =>
      if negb (vr_idx c =? 0) && (ret a =? 0) then tl (data a) :: delivered h' else delivered h'
  | _ :: h' => delivered h'
  end.
Fixpoint written (h : list (event call)) : list (list Z) :=
  match h with
  | [] => []
  | (Writev _ _ b, _) :: h' => b :: written h'
  | _ :: h' => written h'
  end.

(** Everything read has been handed to the driver, marked, whole and in order, but for the
    packets [pending]; everything delivered has been written. *)
Definition relayed (p : port) (pending : list (list Z)) (h : list (event call)) : Prop :=
  p_mark p <$> taken h = (p_mark p <$> pending) ++ (handed h).*1 /\ written h = delivered h.

(** What the stream and the driver document: a read stores no more than the iovec has room
    for and at least the framing; a copy to the card that succeeds consumes all of the
    iovec; a copy from the card that succeeds delivers [out_len] bytes, at least the framing,
    that the iovec has room for. *)
Record port_kernel (K : kernel call) (p : port) : Prop := {
  pk_read : forall h v, let a := K h (Readv (p_stream p) v) in 0 < ret a ->
    ret a = zlen (data a) /\ p_hdr p <= ret a <= room_of v /\ ret a < 2 ^ 63;
  pk_tx : forall h c b, vr_idx c = 0 -> ret (K h (CopyDesc (p_fd p) c b)) = 0 ->
    exists got, data (K h (CopyDesc (p_fd p) c b)) = sum_iovec_len c :: got;
  pk_rx : forall h c b, vr_idx c = 1 -> ret (K h (CopyDesc (p_fd p) c b)) = 0 ->
    exists got, data (K h (CopyDesc (p_fd p) c b)) = zlen got :: got /\
      p_hdr p <= zlen got <= room_of (ztake (iovcnt c) (iov c)) /\ zlen got < 2 ^ 32
}.

Definition lstate_ok (p : port) (l : lstate) : Prop :=
  shape p (iov0 l) /\ shape p (iov1 l) /\ iovcnt (cp l) = p_cnt p.

(** Calls that move no data. *)
Definition quiet (c : call) : bool :=
  match c with Readv _ _ | Writev _ _ _ | CopyDesc _ _ _ => false | _ => true end.

Lemma quiet_relayed p pend c a h : quiet c = true -> relayed p pend ((c, a) :: h) <-> relayed p pend h.
Proof. by destruct c. Qed.

Definition inv (p : port) (w : world) (o : outcome lstate) (w' : world) (h' : list (event call))
    : Prop :=
  w' = w /\
  match o with
  | Ret l => lstate_ok p l /\ relayed p [] h'
  | NoFuel => exists pend, (length pend <= 1)%nat /\ relayed p pend h'
  | _ => False
  end.

(** ** One transfer in each direction *)

Lemma quiet_cons p pend c a h :
  quiet c = true -> relayed p pend h -> relayed p pend ((c, a) :: h).
Proof. intros Hq. by rewrite quiet_relayed. Qed.

Ltac quiet_tac := repeat (apply quiet_cons; [reflexivity|]); assumption.

Lemma wp_spin fuel r p pend K w h (Q : outcome unit -> world -> list (event call) -> Prop) :
  relayed p pend h ->
  (forall h', relayed p pend h' -> Q (Ret tt) w h') ->
  (forall h', relayed p pend h' -> Q NoFuel w h') ->
  wp (spin_for_descriptors fuel r) K w h Q.
Proof.
  intros Hr HQ HN. unfold spin_for_descriptors. wp_step. apply wp_sys_any. intros i. wp_step.
  assert (relayed p pend ((InfoAvail r, i) :: h)) as Hr' by (by apply quiet_cons).
  revert Hr'. generalize ((InfoAvail r, i) :: h). clear h Hr.
  induction fuel as [|fuel IH]; intros h Hr; cbn [spin_loop].
  - wp_step. by apply HN.
  - wp_go.
    + apply IH. quiet_tac.
    + apply HQ. quiet_tac.
Qed.

Lemma tx_step_inv fuel p l K w h :
  p_ok p -> port_kernel K p -> lstate_ok p l -> relayed p [] h ->
  wp (tx_step fuel p l) K w h (inv p w).
Proof.
  intros Hp HK (Hs0 & Hs1 & Hcnt) Hr. unfold tx_step. cbn [iov iovcnt point_at]. rewrite Hcnt, shape_take by done.
  wp_step. apply wp_sys_eq. intros a Ha. wp_step.
  destruct Hr as [Hr1 Hr2]. destruct (0 <? ret a) eqn:Epos.
  2: { wp_step. split; [done|]. split; [done|]. split; [|done]. simpl. by rewrite Epos. }
  destruct (pk_read _ _ HK h (iov0 l)) as (Hret & Hlen & H63); [rewrite Ha; lia|]. rewrite Ha in *.
  wp_step. apply (wp_spin _ _ p [data a]).
  { split; [|done]. simpl. rewrite Epos. simpl. by f_equal. }
  2: { intros h1 Hh1. wp_step. split; [done|]. exists [data a]. by split; [simpl; lia|]. }
  intros h1 [Hh1 Hh2]. wp_step. rewrite prepare_eq by done. cbn [iov iovcnt out_len point_at].
  wp_step. unfold mic_virtio_copy. cbn [iov iovcnt out_len vr_idx update_used].
  set (v := set_iov_len (p_idx p) (u64 (ret a - p_hdr p)) (iov0 l)).
  assert (shape p v) as Hv by (by apply shape_set).
  rewrite Hcnt, (shape_take p v) by done. set (m := alter _ _ _).
  assert (gather m v = p_mark p (data a)) as ->.
  { unfold m, v. rewrite Hret in *. apply gather_marked; try done; [|by destruct Hp as (_ & _ & ?)].
    intros E. rewrite E in Epos. done. }
  wp_step. apply wp_sys_eq. intros c Hc. wp_step.
  assert (relayed p [] ((CopyDesc (p_fd p) (Copy v (p_cnt p) 0 true (out_len (cp l)))
            (p_mark p (data a)), c) :: h1)) as Hr'.
  { split; [|done]. simpl. rewrite Hh1. done. }
  assert (forall o m', lstate_ok p (L (set_iov_len (p_idx p) (p_room p) v) (iov1 l)
    (point_at (set_iov_len (p_idx p) (p_room p) v) (Copy v (p_cnt p) 0 true o)) m')) as Hl'.
  { intros o m'. split_and!; [by apply shape_set|done|done]. }
  pose proof (pk_tx _ _ HK h1 (Copy v (p_cnt p) 0 true (out_len (cp l))) (p_mark p (data a)) eq_refl) as Htx.
  rewrite Hc in Htx.
  destruct (data c) as [|n got] eqn:Ed; wp_step; wp_step; cbn [point_at out_len iov iovcnt vr_idx update_used].
  - destruct (ret c =? 0) eqn:Ez; [destruct Htx as [got Hg]; [lia|done]|].
    wp_run. split; [done|]. split; [apply Hl'|done].
  - destruct (ret c =? 0) eqn:Ez.
    + destruct Htx as [got' Hg]; [lia|]. injection Hg as -> ->.
      unfold verify_out_len. cbn [out_len].
      change (sum_iovec_len (Copy v (p_cnt p) 0 true (sum_iovec_len _)))
        with (sum_iovec_len (Copy v (p_cnt p) 0 true (out_len (cp l)))).
      rewrite Z.eqb_refl. cbn [negb]. wp_run. split; [done|]. split; [apply Hl'|done].
    + wp_run. split; [done|]. split; [apply Hl'|done].
Qed.

Lemma rx_loop_inv fuel p l K w h :
  p_ok p -> port_kernel K p -> lstate_ok p l -> relayed p [] h ->
  wp (rx_loop fuel p l) K w h (inv p w).
Proof.
  intros Hp HK. revert l h. induction fuel as [|fuel IH]; intros l h (Hs0 & Hs1 & Hcnt) Hr; cbn [rx_loop].
  { wp_step. split; [done|]. exists []. by split; [simpl; lia|]. }
  wp_step. apply wp_sys_any. intros i. wp_step. wp_step. apply wp_sys_any. intros r. wp_step.
  assert (relayed p [] ((RingAvail RxRing, r) :: (InfoAvail RxRing, i) :: h)) as Hr' by quiet_tac.
  revert Hr'. generalize ((RingAvail RxRing, r) :: (InfoAvail RxRing, i) :: h). clear Hr h.
  intros h [Hr1 Hr2]. destruct (ret i =? ret r); [by wp_step|].
  rewrite prepare_eq by done. cbn [iov iovcnt out_len point_at].
  set (v := set_iov_len (p_idx p) _ (iov1 l)). assert (shape p v) as Hv by (by apply shape_set).
  wp_step. unfold mic_virtio_copy. cbn [iov iovcnt out_len vr_idx update_used].
  rewrite Hcnt, (shape_take p v) by done. wp_step. apply wp_sys_eq. intros c Hc. wp_step.
  pose proof (pk_rx _ _ HK h (Copy v (p_cnt p) 1 true (out_len (cp l))) (gather (bufs l) v) eq_refl) as Hk.
  cbn [iov iovcnt] in Hk. rewrite Hc, shape_take in Hk by done. destruct (ret c =? 0) eqn:Ez.
  - destruct Hk as (got & Hg & Hlen & H32); [lia|]. rewrite Hg. wp_step. wp_step. rewrite Ez.
    cbn [iov iovcnt out_len vr_idx update_used point_at].
    set (v' := set_iov_len (p_idx p) (u64 (zlen got - p_hdr p)) v).
    assert (shape p v') as Hv' by (by apply shape_set).
    assert (sum_iovec_len (Copy v' (p_cnt p) 1 true (zlen got)) = zlen got) as Hsum.
    { apply shape_sum; [done|done|lia]. }
    unfold verify_out_len, point_at. cbn [out_len iovcnt vr_idx update_used].
    rewrite Hsum, Z.eqb_refl, (shape_take p v') by done. cbn [negb].
    assert (gather (scatter (bufs l) v got) v' = got) as -> by (apply gather_scatter; (done || lia)).
    wp_step. wp_step. wp_step. wp_step. apply wp_sys_any. intros n. wp_step.
    apply IH; [by split_and!|]. split; [done|].
    simpl. by rewrite Ez, Hg, Hr2.
  - destruct (data c) as [|n got] eqn:Ed; wp_step; wp_step; rewrite Ez; wp_step.
    all: split; [done|]; split; [by split_and!|]; split; [done|]; simpl; by rewrite Ez.
Qed.

(** The card's page always has the descriptor of the port's type. *)
Definition page_ok (K : kernel call) (p : port) (w : world) : Prop :=
  exists page ds, stable K page /\ descs_at page (dp_of (p_type p) (mic w)) sizeof_mic_bootparam ds /\
    (length ds < 4096)%nat /\ offset_of (p_type p) sizeof_mic_bootparam ds <> None.

Lemma desc_walk_quiet fuel dp i type K w h p pend
    (Q : outcome Z -> world -> list (event call) -> Prop) :
  relayed p pend h ->
  (forall o h', relayed p pend h' -> Q o w h') ->
  wp (desc_walk fuel dp i type) K w h Q.
Proof.
  intros Hr HQ. revert i h Hr. induction fuel as [|fuel IH]; intros i h Hr; cbn [desc_walk].
  - wp_step. by apply HQ.
  - wp_go; try (apply IH; quiet_tac); apply HQ; first [done | quiet_tac].
Qed.

Lemma wait_loop_quiet fuel fd desc K w h p pend
    (Q : outcome unit -> world -> list (event call) -> Prop) :
  relayed p pend h ->
  (forall h', relayed p pend h' -> Q (Ret tt) w h' /\ Q NoFuel w h') ->
  wp (wait_loop fuel fd desc) K w h Q.
Proof.
  intros Hr HQ. revert h Hr. induction fuel as [|fuel IH]; intros h Hr; cbn [wait_loop].
  - wp_step. by apply HQ.
  - wp_go; try (apply IH; quiet_tac). apply HQ. quiet_tac.
Qed.

Lemma wait_driver_quiet fuel p K w h (Q : outcome unit -> world -> list (event call) -> Prop) :
  p_ok p -> page_ok K p w -> (4096 <= fuel)%nat -> relayed p [] h ->
  (forall h', relayed p [] h' -> Q (Ret tt) w h' /\ Q NoFuel w h') ->
  wp (wait_for_card_driver fuel (p_fd p) (p_type p)) K w h Q.
Proof.
  intros Hp (page & ds & HK & Hd & Hlen & Ho) Hf Hr HQ. unfold wait_for_card_driver. wp_step.
  unfold get_device_desc. wp_step.
  assert (virtio_type (p_type p) /\ fits 8 (p_type p)) as [Hty Hfit].
  { destruct Hp as [[(-> & _)|(-> & _)] _]; split; try done; unfold virtio_type; auto. }
  assert (wp (get_dp (p_type p)) K w h (fun o w' h' => o = Ret (dp_of (p_type p) (mic w)) /\ w' = w /\ h' = h)) as Hdp.
  { unfold get_dp, dp_of. wp_step. wp_step. wp_step.
    destruct Hty as [-> | [-> | ->]]; simpl Z.eqb; cbn iota; by wp_step. }
  eapply wp_wand; [exact Hdp|]. intros o w' h' (-> & -> & ->). wp_step.
  pose proof (desc_walk_quiet fuel (dp_of (p_type p) (mic w)) sizeof_mic_bootparam (p_type p) K w h
    p [] (fun _ w' h' => w' = w /\ relayed p [] h') Hr ltac:(by auto)) as Hq.
  pose proof (desc_walk_spec fuel K page (dp_of (p_type p) (mic w)) sizeof_mic_bootparam (p_type p)
    ds w h (fun o _ _ => exists a, o = Ret a) HK Hd ltac:(lia) Hfit) as Hs.
  unfold wp in Hq, Hs |- *.
  destruct (desc_walk fuel _ _ _ K w h) as [[o w'] h'].
  destruct Hs as [a ->]. { intros _ _. destruct (offset_of _ _ ds); [by eexists|done]. }
  destruct Hq as [-> Hr']. unfold wp_k. by apply (wait_loop_quiet _ _ _ _ _ _ p []).
Qed.

Lemma relay_inv fuel n p desc l K w h :
  p_ok p -> port_kernel K p -> page_ok K p w -> (4096 <= fuel)%nat ->
  lstate_ok p l -> relayed p [] h ->
  wp (relay fuel n p desc l) K w h (fun o w' h' =>
    o = NoFuel /\ w' = w /\ exists pend, (length pend <= 1)%nat /\ relayed p pend h').
Proof.
  intros Hp HK Hpage Hf. revert l h. induction n as [|n IH]; intros l h Hl Hr; cbn [relay].
  { wp_step. split; [done|]. split; [done|]. exists []. by split; [simpl; lia|]. }
  assert (forall h', relayed p [] h' -> NoFuel = (NoFuel : outcome unit) /\ w = w /\
    exists pend, (length pend <= 1)%nat /\ relayed p pend h') as HN.
  { intros h' Hr'. split; [done|]. split; [done|]. exists []. by split; [simpl; lia|]. }
  wp_step. apply wp_sys_any. intros e. wp_step. destruct (ret e <? 0).
  { apply IH; [done|quiet_tac]. }
  wp_step. apply wp_sys_any. intros d. wp_step. wp_step.
  set (rest := fun _ : unit => _).
  assert (forall h', relayed p [] h' -> wp (rest tt) K w h' (fun o w' h' =>
    o = NoFuel /\ w' = w /\ exists pend, (length pend <= 1)%nat /\ relayed p pend h')) as Hrest.
  { clear Hr. intros h1 Hr. unfold rest. wp_step.
    assert (wp (if has (nth 1 (data e) 0) POLLIN then tx_step fuel p l else io_ret l) K w h1 (inv p w))
      as Htx by (wp_step; [by apply tx_step_inv|by wp_step]).
    eapply wp_wand; [exact Htx|]. intros o w1 h2 [-> Ho]. destruct o; try done. destruct Ho as [Hl1 Hr1].
    wp_step. wp_step.
    assert (wp (if has (nth 0 (data e) 0) POLLIN then rx_loop fuel p a else io_ret a) K w h2 (inv p w))
      as Hrx by (wp_step; [by apply rx_loop_inv|by wp_step]).
    eapply wp_wand; [exact Hrx|]. intros o w2 h3 [-> Ho]. destruct o; try done. destruct Ho as [Hl2 Hr2].
    wp_step. by apply IH. }
  clearbody rest. wp_step.
  - apply wait_driver_quiet; [done|done|done|quiet_tac|]. intros h' Hr'.
    split; [by apply Hrest|by apply HN].
  - wp_step. wp_step. apply Hrest. quiet_tac.
Qed.

Lemma net_port_ok fd tap : p_ok (net_port fd tap).
Proof.
  split; [by left|]. split; [by vm_compute|]. intros [|x a] b Ha; [done|]. done.
Qed.
Lemma console_port_ok fd pty : p_ok (console_port fd pty).
Proof. split; [by right|]. by split; [by vm_compute|]. Qed.

(** C12: with a stream and a driver that behave as documented, and whatever was in the
    buffers, the loops of [virtio_net] and [virtio_console] never stop and never fail an
    assertion.  At any point of the run, the bytes that the iovecs gave the driver for the
    card are exactly the packets read from the stream, each once, whole and in order (with
    the checksum-valid flag set, for the network), except for at most the last one; a
    packet is lost only when the driver refuses it.  The bytes that the iovecs gave to the
    stream are exactly the packets the card delivered, unchanged and in order. *)
Theorem relay_faithful fuel n p l desc b m fd st K w :
  hdr0 b <> buf0 b -> hdr1 b <> buf1 b ->
  (p = net_port fd st /\ l = net_start b m \/ p = console_port fd st /\ l = console_start b m) ->
  port_kernel K p -> page_ok K p w -> (4096 <= fuel)%nat ->
  exists h pend, relay fuel n p desc l K w [] = (NoFuel, w, h) /\ (length pend <= 1)%nat /\
    p_mark p <$> taken h = (p_mark p <$> pend) ++ (handed h).*1 /\
    written h = delivered h.
Proof.
  intros H0 H1 Hpl HK Hpage Hf.
  assert (p_ok p /\ lstate_ok p l) as [Hp Hl].
  { destruct Hpl as [[-> ->]|[-> ->]].
    - split; [apply net_port_ok|]. split_and!; try done; (eexists _, _, _; split; [|reflexivity]; done).
    - split; [apply console_port_ok|]. split_and!; try done; by eexists _, _. }
  pose proof (relay_inv fuel n p desc l K w [] Hp HK Hpage Hf Hl) as Hwp.
  specialize (Hwp ltac:(by split)). unfold wp in Hwp.
  destruct (relay fuel n p desc l K w []) as [[o w'] h].
  destruct Hwp as (-> & -> & pend & Hpend & Hr1 & Hr2). by exists h, pend.
Qed.

(** The address given to the interface is cut to 15 characters: cards 0 to 9
    get the intended /24 network, cards 10 to 99 get a prefix length of 2. *)
Theorem tap_address_cut id :
  (0 <= id < 10 -> tap_address id = B "172.31." ++ dec id ++ B ".254/24") /\
  (10 <= id < 100 -> tap_address id = B "172.31." ++ dec id ++ B ".254/2").
Proof.
  split; intros Hid.
  - pose proof (seqZ_forallb (fun id => bool_decide (tap_address id =
      B "172.31." ++ dec id ++ B ".254/24")) 0 10 ltac:(by vm_compute) id Hid) as E.
    by apply bool_decide_eq_true in E.
  - pose proof (seqZ_forallb (fun id => bool_decide (tap_address id =
      B "172.31." ++ dec id ++ B ".254/2")) 10 90 ltac:(by vm_compute) id Hid) as E.
    by apply bool_decide_eq_true in E.
Qed.

(** ** Setting the threads up *)

Lemma relay_no_return fuel n p desc l K w h :
  wp (relay fuel n p desc l) K w h (fun o _ _ => forall u, o <> Ret u).
Proof.
  revert l w h. induction n as [|n IH]; intros l w h; cbn [relay]; [by wp_step|].
  apply wp_bind_any; try done. intros e w1 h1. wp_step; [apply IH|].
  do 4 (apply wp_bind_any; [intros|done..]). apply IH.
Qed.

Lemma tun_alloc_held dev K w h l (Q : outcome (Z * list Z) -> world -> list (event call) -> Prop) :
  held h = Some l ->
  (forall e d h', e < 0 -> held h' = Some l -> Q (Ret (e, d)) w h') ->
  (forall fd d h', 0 <= fd -> held h' = Some (Fd fd :: l) -> Q (Ret (fd, d)) w h') ->
  wp (tun_alloc dev) K w h Q.
Proof.
  intros Hh HF HQ. unfold tun_alloc. wp_go.
  1, 2, 3: apply HF; [lia|held_solve].
  apply HQ; [lia|held_solve].
Qed.

Lemma tap_configure_held dev K w h l (Q : outcome Z -> world -> list (event call) -> Prop) :
  held h = Some l ->
  (forall r h', held h' = Some l -> Q (Ret r) w h') ->
  (forall h', held h' = Some l -> Q (Exit 0) w h') ->
  wp (tap_configure dev) K w h Q.
Proof.
  intros Hh HQ HE. unfold tap_configure, run_ip. wp_go.
  all: first [apply HQ | apply HE]; held_solve.
Qed.

(** When the setup of a thread fails and it exits, [virtio_console] has closed
    everything it opened, whichever step failed; [virtio_net] has closed the TAP
    descriptor only if the interface could not be made, and otherwise leaves it
    open.  (The card's page may fail an assertion, and a forked child runs [ip];
    those runs do not return.) *)
Theorem setup_resources fuel n b K w h l w' h' :
  held h = Some l ->
  (virtio_console fuel n b K w h = (Ret tt, w', h') -> held h' = Some l) /\
  (virtio_net fuel n b K w h = (Ret tt, w', h') ->
     held h' = Some (if tap_fd (mic_net (mic w')) <? 0 then l
                     else Fd (tap_fd (mic_net (mic w'))) :: l)).
Proof.
  intros Hh. split.
  - assert (wp (virtio_console fuel n b) K w h (fun o _ h' => o = Ret tt -> held h' = Some l)) as Hwp.
    { unfold virtio_console, pthread_exit. wp_go; try (intros _; held_solve).
      eapply (init_vr_held _ _ _ _ _ _ _ (Fd (ret a) :: l)); [by left|held_solve| | |done].
      - intros h1 H1. wp_step. simpl Z.eqb. cbn iota. wp_go. intros _. held_solve.
      - intros va m h1 Hm Hdp Hva H1. wp_step. replace (va =? MAP_FAILED) with false by lia.
        apply wp_bind_any; try done. intros. eapply wp_wand; [apply relay_no_return|].
        intros o ? ? Ho ->. by destruct (Ho tt). }
    intros E. eapply wp_elim in Hwp; [|exact E]. by apply Hwp.
  - assert (wp (virtio_net fuel n b) K w h (fun o w' h' => o = Ret tt -> held h' = Some
      (if tap_fd (mic_net (mic w')) <? 0 then l else Fd (tap_fd (mic_net (mic w'))) :: l))) as Hwp.
    { unfold virtio_net, pthread_exit. wp_step. wp_step. wp_step. wp_step.
      apply (tun_alloc_held _ _ _ _ l); [done| |].
      { intros e d h1 He H1. wp_go; [|lia]. intros _. simpl.
        replace (e <? 0) with true by lia. held_solve. }
      intros fd d h1 Hfd H1. wp_step. wp_step. wp_step. wp_step. replace (fd <? 0) with false by lia.
      wp_step. apply (tap_configure_held _ _ _ _ (Fd fd :: l)); [done| |done]. intros r h2 H2. wp_step.
      destruct (truthy r).
      { wp_go. intros _. simpl. replace (fd <? 0) with false by lia. held_solve. }
      wp_step. apply (init_vr_held _ _ _ _ _ _ _ (Fd fd :: l)); [by right; left|done| | |done].
      - intros h3 H3. wp_step. simpl Z.eqb. cbn iota. wp_go. intros _. simpl.
        replace (fd <? 0) with false by lia. held_solve.
      - intros va m h3 Hm Hdp Hva H3. wp_step. replace (va =? MAP_FAILED) with false by lia.
        apply wp_bind_any; try done. intros. eapply wp_wand; [apply relay_no_return|].
        intros o ? ? Ho ->. by destruct (Ho tt). }
    intros E. eapply wp_elim in Hwp; [|exact E]. by apply Hwp.
Qed.

End Net.

(** ** Concrete runs *)

(** A card whose page has the two descriptors, always up, whose rings deliver the
    packet [sample_packet], and a TAP that does. *)
Definition sample_packet : list Z := [0; 0; 0; 0; 0; 0; 0; 0; 0; 0; 42; 43].

Definition busy_kernel : kernel call := fun h c =>
  match c with
  | PeekDesc a => Ans 0 0 (if a =? 64 then [VIRTIO_ID_NET; 2; 4; 8; 4]
                           else if a =? 96 then [VIRTIO_ID_CONSOLE; 2; 4; 8; 4] else [0; 0; 0; 0; 0])
  | Poll _ _ => Ans 1 0 [POLLIN; POLLIN]
  | Readv _ v => if 12 <=? room_of v then Ans 12 0 sample_packet else aerr EINVAL
  | CopyDesc _ c _ =>
      if vr_idx c =? 0 then Ans 0 0 [sum_iovec_len c]
      else if 12 <=? room_of (ztake (iovcnt c) (iov c)) then Ans 0 0 (12 :: sample_packet) else aerr EINVAL
  | InfoAvail _ => aret (Z.of_nat (length h) mod 2)
  | RingAvail _ => aret 1
  | Open _ _ => aret 5
  | PosixOpenpt => aret 6
  | Mmap _ _ => aerr ENOMEM
  | Fork | Waitpid _ => aret 7
  | Ptsname _ => aret 1
  | _ => aret 0
  end.

Definition card_world : world :=
  World (Info 3 (Some (B "mic3")) 0 (Console 8 0) (Net 9 0 0)
           (Virtblk 0 0 (Cptr 0 []) 0 0 0) 0 0) 0.

Lemma busy_page_ok fd st : page_ok (H := sample_abi) busy_kernel (net_port fd st) card_world.
Proof.
  exists (fun a => ddesc_of (busy_kernel [] (PeekDesc a))).
  exists [DDesc VIRTIO_ID_NET 2 4 8 4; DDesc VIRTIO_ID_CONSOLE 2 4 8 4].
  split; [done|]. split; [|split; [simpl; lia|done]].
  set (page := fun a => _).
  change (descs_at (H := sample_abi) page 0 64 [page (0 + 64); page (0 + 96)]).
  apply descs_cons; [done|vm_compute; done|].
  apply (descs_cons (H := sample_abi) page 0 96); [done|vm_compute; done|].
  apply descs_null; done.
Defined.

Lemma busy_port_kernel fd st : port_kernel busy_kernel (net_port fd st).
Proof.
  split.
  - intros h v. cbn [busy_kernel]. unfold p_hdr, net_port, sizeof_virtio_net_hdr.
    destruct (Z.leb_spec 12 (room_of v)); cbn; intros; [|lia]. split_and!; [done|lia|done|lia].
  - intros h c b Hc. cbn [busy_kernel]. rewrite Hc. cbn. by eexists.
  - intros h c b Hc. cbn [busy_kernel]. rewrite Hc. cbn [Z.eqb].
    destruct (Z.leb_spec 12 (room_of (ztake (iovcnt c) (iov c)))); [|done]. intros _. exists sample_packet.
    cbn [data]. change (zlen sample_packet) with 12. unfold p_hdr, net_port, sizeof_virtio_net_hdr. split_and!; (done || lia).
Defined.

Lemma relay_faithful_witness :
  exists h pend, relay (H := sample_abi) (Z.to_nat 4096) 3 (net_port 9 5) 64
    (net_start (Buffers 1 2 3 4) (net_buffers (Buffers 1 2 3 4))) busy_kernel card_world [] = (NoFuel, card_world, h) /\
    (length pend <= 1)%nat /\ p_mark (net_port 9 5) <$> taken h = (p_mark (net_port 9 5) <$> pend) ++ (handed h).*1 /\
    written h = delivered h.
Proof.
  apply (relay_faithful (H := sample_abi) _ 3 (net_port 9 5) (net_start (Buffers 1 2 3 4) (net_buffers (Buffers 1 2 3 4))) 64
    (Buffers 1 2 3 4) (net_buffers (Buffers 1 2 3 4)) 9 5).
  - discriminate.
  - discriminate.
  - left. split; reflexivity.
  - exact (busy_port_kernel 9 5).
  - exact (busy_page_ok 9 5).
  - lia.
Defined.

Lemma tap_address_cut_witness :
  tap_address 7 = B "172.31.7.254/24" /\ tap_address 12 = B "172.31.12.254/2".
Proof.
  split.
  - apply (proj1 (tap_address_cut 7)). lia.
  - apply (proj2 (tap_address_cut 12)). lia.
Defined.

Definition failed_setup :=
  virtio_net (H := sample_abi) 10 3 (Buffers 1 2 3 4) busy_kernel card_world [].

Lemma setup_resources_witness :
  fst (fst failed_setup) = Ret tt /\ held (snd failed_setup) = Some [Fd 5].
Proof.
  split; [vm_compute; reflexivity|].
  etrans; [apply (proj2 (setup_resources (H := sample_abi) 10 3 (Buffers 1 2 3 4) busy_kernel
    card_world [] [] (snd (fst failed_setup)) (snd failed_setup) eq_refl))|].
  all: vm_compute; reflexivity.
Defined.

End Net.
