(* ===== verification/MicBlock.v ===== *)
(** * The block device thread of the MIC daemon: mic/mpssd/mpssd.c, lines 929-1284

    The backend file named in the configuration is opened, sized and mapped, the
    block device is added, and requests are served from the ring until a signal
    asks for another backend.  The ring is shared with the card: every read of it
    is a call.  The ring has [MIC_VRING_ENTRIES] descriptors and the iovec array
    [seg_max] elements; an index beyond is a [Crash]. *)

From S2P Require Import Prelude Posix Resources Mic MicRing.
Import Mic Ring.

Module Block.

Section Block.
Context `{MicAbi}.

Open Scope io_scope.

Definition hash_char := 35.
Definition newline := 10.
Definition equals_char := 61.

Definition mic_config_dir : list Z := B "/etc/sysconfig/mic".
Definition virtblk_backend : list Z := B "VIRTBLK_BACKEND".

(** ** The backend *)

(** "%03d". *)
Definition dec3 (n : Z) : list Z :=
  if n <? 0 then B "-" ++ replicate (2 - length (dec (- n))) 48 ++ dec (- n)
  else replicate (3 - length (dec n)) 48 ++ dec n.

Definition set_file f (m : mic_info) := let b := mic_virtblk m in
  set_virtblk (Virtblk (virtio_block_fd b) (block_dp b) f (backend b) (backend_addr b)
                 (backend_size b)) m.
Definition set_backend v (m : mic_info) := let b := mic_virtblk m in
  set_virtblk (Virtblk (virtio_block_fd b) (block_dp b) (backend_file b) v (backend_addr b)
                 (backend_size b)) m.
Definition set_addr v (m : mic_info) := let b := mic_virtblk m in
  set_virtblk (Virtblk (virtio_block_fd b) (block_dp b) (backend_file b) (backend b) v
                 (backend_size b)) m.
Definition set_size v (m : mic_info) := let b := mic_virtblk m in
  set_virtblk (Virtblk (virtio_block_fd b) (block_dp b) (backend_file b) (backend b)
                 (backend_addr b) v) m.

(** The text up to a character, and from it. *)
Fixpoint before_char (c : Z) (l : list Z) : list Z :=
  match l with
  | [] => []
  | x :: l' => if x =? c then [] else x :: before_char c l'
  end.
Fixpoint strchr (l : list Z) (c : Z) : option (list Z) :=
  match l with
  | [] => None
  | x :: l' => if x =? c then Some l else strchr l' c
  end.

Definition starts (p l : list Z) : bool := bool_decide (ztake (zlen p) l = p).

(** The line that starts with the key, without its newline. *)
Fixpoint find_line (fuel : nat) (config : Z) : io call world (option (list Z)) :=
  match fuel with
  | O => nofuel
  | S fuel' =>
      let* r := sys (Fgets config PATH_MAX) in
      if ret r =? 0 then io_ret None
      else
        let line := cstr (data r) in
        let line := if nth 0 line 0 =? hash_char then line else before_char newline line in
        if starts virtblk_backend line then io_ret (Some line) else find_line fuel' config
  end.

Definition set_backend_file (fuel : nat) : io call world bool :=
  let* w := get in
  let* config := sys (Fopen (snprintf PATH_MAX
    (mic_config_dir ++ B "/mpssd" ++ dec3 (id (mic w)) ++ B ".conf"))) in
  if ret config =? 0 then io_ret false
  else
    let* line := find_line fuel (ret config) in
    sys (Fclose (ret config)) ;;
    match line with
    | None => io_ret false
    | Some line =>
        match strchr line equals_char with
        | None => io_ret false
        | Some evv =>
            let* p := sys (Malloc (zlen evv + 1)) in
            modify (on_mic (set_file (Cptr (ret p) (tl evv)))) ;;
            if ret p =? 0 then io_ret false else io_ret true
        end
    end.

Definition SECTOR_SIZE := 512.

Definition set_backend_size : io call world bool :=
  let* w := get in
  let* r := sys (Lseek (backend (mic_virtblk (mic w))) 0 SEEK_END) in
  modify (on_mic (set_size (ret r))) ;;
  if ret r <? 0 then io_ret false
  else
    let cap := ret r / SECTOR_SIZE in
    let cap := if negb (ret r mod SECTOR_SIZE =? 0) then u64 (cap + 1) else cap in
    modify (fun w => World (mic w) cap) ;;
    io_ret true.

Definition error_free : io call world bool :=
  let* w := get in
  sys (Free (block (backend_file (mic_virtblk (mic w))))) ;; io_ret false.
Definition error_close : io call world bool :=
  let* w := get in
  sys (Close (backend (mic_virtblk (mic w)))) ;; error_free.

Definition open_backend (fuel : nat) : io call world bool :=
  let* ok := set_backend_file fuel in
  if negb ok then io_ret false
  else
    let* w := get in
    let* f := sys (Open (text (backend_file (mic_virtblk (mic w)))) O_RDWR) in
    modify (on_mic (set_backend (ret f))) ;;
    if ret f <? 0 then error_free
    else
      let* sized := set_backend_size in
      if negb sized then error_close
      else
        let* w := get in
        let* a := sys (Mmap (backend_size (mic_virtblk (mic w))) (ret f)) in
        modify (on_mic (set_addr (ret a))) ;;
        if ret a =? MAP_FAILED then error_close else io_ret true.

Definition close_backend : io call world unit :=
  let* w := get in
  let b := mic_virtblk (mic w) in
  sys (Munmap (backend_addr b) (backend_size b)) ;;
  sys (Close (backend b)) ;;
  sys (Free (block (backend_file b))) ;;
  io_ret tt.

(** ** The device *)

(** [blk_config_addr] is where the linker put the static page. *)
Definition start_virtblk (blk_config_addr : Z) : io call world bool :=
  if negb (blk_config_addr mod 8 =? 0) then io_ret false
  else
    add_virtio_device (dd virtblk_dev_page) ;;
    let* w := get in
    let* va := init_vr (virtio_block_fd (mic_virtblk (mic w))) VIRTIO_ID_BLOCK false
                 (num_vq (dd virtblk_dev_page)) in
    if va =? MAP_FAILED then io_ret false else io_ret true.

Definition stop_virtblk : io call world unit :=
  let* w := get in
  sys (Munmap (block_dp (mic_virtblk (mic w)))
         (MIC_DEVICE_PAGE_END + vr_bytes * num_vq (dd virtblk_dev_page))) ;;
  sys (Close (virtio_block_fd (mic_virtblk (mic w)))) ;;
  io_ret tt.

(** ** Requests *)

Definition header_error_check (desc : vring_desc) : Z :=
  if negb (d_len desc =? sizeof_virtio_blk_outhdr) then u8 (- EIO)
  else if negb (has (d_flags desc) VRING_DESC_F_NEXT) then u8 (- EIO)
  else if has (d_flags desc) VRING_DESC_F_WRITE then u8 (- EIO)
  else 0.

Definition status_error_check (desc : vring_desc) : Z :=
  if negb (d_len desc =? 1) then u8 (- EIO) else 0.

(** struct virtio_blk_outhdr *)
Record outhdr : Type := Hdr { h_type : Z; h_sector : Z }.
Definition hdr_of (bytes : list Z) : outhdr :=
  Hdr (le_val (take 4 bytes)) (le_val (take 8 (drop 8 bytes))).

(** The addresses of the local [hdr] and [status] and of the allocated iovec. *)
Record locals : Type := Locals { hdr_addr : Z; status_addr : Z }.

Definition read_header (fd : Z) (lc : locals) : io call world (Z * outhdr) :=
  let* r := sys (CopyDesc fd
    (Copy [IOV (hdr_addr lc) sizeof_virtio_blk_outhdr] 1 0 false 0) []) in
  io_ret (ret r, hdr_of (tl (data r))).

Definition transfer_blocks (fd : Z) (v : list iovec) : io call world Z :=
  let* r := sys (CopyDesc fd (Copy v (zlen v) 0 false 0) []) in io_ret (ret r).

Definition write_status (fd : Z) (lc : locals) (status : Z) : io call world Z :=
  let* r := sys (CopyDesc fd (Copy [IOV (status_addr lc) 1] 1 0 true 0) [status]) in
  io_ret (ret r).

Definition ring_desc (i : Z) : io call world vring_desc :=
  if (0 <=? i) && (i <? MIC_VRING_ENTRIES) then
    let* d := sys (RingDesc TxRing i) in io_ret (desc_of d)
  else crash.

(** The buffer descriptors of a request, up to the last descriptor of the chain;
    [v] is the part of the iovec array filled so far. *)
Fixpoint collect (fuel : nat) (fos : Z) (desc : vring_desc) (v : list iovec)
    : io call world (list iovec * vring_desc) :=
  match fuel with
  | O => nofuel
  | S fuel' =>
      if has (d_flags desc) VRING_DESC_F_NEXT then
        if zlen v <? seg_max then
          let* d := ring_desc (next_desc desc) in
          collect fuel' (u64 (fos + d_len desc)) d (v ++ [IOV fos (d_len desc)])
        else crash
      else io_ret (v, desc)
  end.

(** One turn of the request loop after the ring showed a descriptor; [false]
    leaves the loop. *)
Definition serve (fuel : nat) (lc : locals) : io call world bool :=
  let* w := get in
  let fd := virtio_block_fd (mic_virtblk (mic w)) in
  let* i := sys (InfoAvail TxRing) in
  let avail_idx := u16 (Z.land (ret i) (MIC_VRING_ENTRIES - 1)) in
  let* e := sys (RingEntry TxRing avail_idx) in
  let* desc := ring_desc (ret e) in
  let status := header_error_check desc in
  let* (r, hdr) := read_header fd lc in
  if r <? 0 then io_ret false
  else
    let status := 0 in
    let fos := u64 (backend_addr (mic_virtblk (mic w)) + u64 (h_sector hdr * SECTOR_SIZE)) in
    let* first := ring_desc (next_desc desc) in
    let* (v, last) := collect fuel fos first [] in
    let* status :=
      (if truthy (Z.land (h_type hdr) (Z.lnot (Z.lor VIRTIO_BLK_T_OUT VIRTIO_BLK_T_GET_ID)))
       then io_ret (u8 (- ENOTSUP))
       else
         let* r := transfer_blocks fd v in
         io_ret (if (r <? 0) && negb (status =? 0) then u8 r else status)) in
    let status := if negb (status =? 0) then status_error_check last else status in
    write_status fd lc status ;;
    io_ret true.

Fixpoint serve_all (fuel n : nat) (lc : locals) : io call world unit :=
  match n with
  | O => nofuel
  | S n' =>
      let* i := sys (InfoAvail TxRing) in
      let* r := sys (RingAvail TxRing) in
      if ret i =? ret r then io_ret tt
      else
        let* more := serve fuel lc in
        if more then serve_all fuel n' lc else io_ret tt
  end.

(** Serve until the signal handler has set [signaled]. *)
Fixpoint poll_loop (fuel n : nat) (lc : locals) : io call world unit :=
  match n with
  | O => nofuel
  | S n' =>
      let* s := sys Signaled in
      if truthy (ret s) then io_ret tt
      else
        let* w := get in
        let* p := sys (Poll [virtio_block_fd (mic_virtblk (mic w))] 1000) in
        if ret p <? 0 then poll_loop fuel n' lc
        else if negb (has (nth 0 (data p) 0) POLLIN) then poll_loop fuel n' lc
        else serve_all fuel n lc ;; poll_loop fuel n' lc
  end.

Fixpoint sleep_until_signaled (n : nat) : io call world unit :=
  match n with
  | O => nofuel
  | S n' =>
      let* s := sys Signaled in
      if truthy (ret s) then io_ret tt else sys (Sleep 1) ;; sleep_until_signaled n'
  end.

(** One turn of the outermost loop. *)
Definition block_round (fuel : nat) (blk_config_addr : Z) (lc : locals) : io call world unit :=
  let* ok := open_backend fuel in
  if negb ok then sys ClearSignaled ;; sleep_until_signaled fuel
  else
    let* started := start_virtblk blk_config_addr in
    if negb started then close_backend
    else
      let* p := sys (Malloc (16 * seg_max)) in
      if ret p =? 0 then stop_virtblk ;; close_backend
      else
        sys ClearSignaled ;;
        poll_loop fuel fuel lc ;;
        sys (Free (ret p)) ;;
        stop_virtblk ;;
        close_backend.

Fixpoint virtio_block (fuel rounds : nat) (blk_config_addr : Z) (lc : locals) : io call world unit :=
  match rounds with
  | O => nofuel
  | S r => block_round fuel blk_config_addr lc ;; virtio_block fuel r blk_config_addr lc
  end.

Close Scope io_scope.

#[local] Arguments wp : simpl never.
#[local] Arguments wp_k : simpl never.
#[local] Arguments io_bind : simpl never.

(** ** The backend is acquired as a whole or not at all *)

Lemma find_line_held fuel f K w h l
    (Q : outcome (option (list Z)) -> world -> list (event call) -> Prop) :
  held h = Some l ->
  (forall x h', held h' = Some l -> Q (Ret x) w h') -> (forall h', Q NoFuel w h') ->
  wp (find_line fuel f) K w h Q.
Proof.
  intros Hh HQ HN. revert h Hh. induction fuel as [|fuel IH]; intros h Hh; cbn [find_line].
  - wp_step. apply HN.
  - wp_go; try (apply IH; held_solve). all: apply HQ; held_solve.
Qed.

(** What the state says of the backend, as resources. *)
Definition backend_res (w : world) : list resource :=
  let b := mic_virtblk (mic w) in
  [Mapping (backend_addr b) (backend_size b); Fd (backend b); Block (block (backend_file b))].

Definition sectors (size : Z) : Z := (size + 511) / 512.

Lemma set_backend_file_held fuel K w h l (Q : outcome bool -> world -> list (event call) -> Prop) :
  held h = Some l ->
  (forall w' h', held h' = Some l -> Q (Ret false) w' h') ->
  (forall f h', held h' = Some (Block (block f) :: l) ->
     Q (Ret true) (on_mic (set_file f) w) h') ->
  (forall w' h', Q NoFuel w' h') ->
  wp (set_backend_file fuel) K w h Q.
Proof.
  intros Hh HF HQ HN. unfold set_backend_file. wp_step. wp_step. wp_step. wp_step.
  apply wp_sys_any. intros f. wp_step. destruct (ret f =? 0) eqn:Ef.
  { wp_step. apply HF. held_solve. }
  wp_step. apply (find_line_held _ _ _ _ _ (Stream (ret f) :: l)); [held_solve| |].
  2: { intros. wp_step. apply HN. }
  intros line h1 H1. wp_go; try (apply HF; held_solve).
  match goal with |- Q _ (on_mic (set_file ?c) _) _ => apply (HQ c) end. held_solve.
Qed.

Lemma ceil_512 n : 0 <= n ->
  (if negb (n mod 512 =? 0) then n / 512 + 1 else n / 512) = sectors n.
Proof.
  intros Hn. unfold sectors. pose proof (Z.div_mod n 512). pose proof (Z.mod_pos_bound n 512).
  destruct (Z.eqb_spec (n mod 512) 0) as [E|E]; simpl.
  - apply Z.div_unique with (r := 511); lia.
  - apply Z.div_unique with (r := n mod 512 - 1); lia.
Qed.

Lemma open_backend_held fuel K w h l (Q : outcome bool -> world -> list (event call) -> Prop) :
  (forall h fd, ret (K h (Lseek fd 0 SEEK_END)) < 2 ^ 63) ->
  held h = Some l ->
  (forall w' h', held h' = Some l -> Q (Ret false) w' h') ->
  (forall w' h', held h' = Some (backend_res w' ++ l) ->
     0 <= backend_size (mic_virtblk (mic w')) ->
     capacity w' = sectors (backend_size (mic_virtblk (mic w'))) ->
     virtio_block_fd (mic_virtblk (mic w')) = virtio_block_fd (mic_virtblk (mic w)) ->
     Q (Ret true) w' h') ->
  (forall w' h', Q NoFuel w' h') ->
  wp (open_backend fuel) K w h Q.
Proof.
  intros Hseek Hh HF HQ HN. unfold open_backend. wp_step.
  apply (set_backend_file_held _ _ _ _ l); [done| | |done].
  { intros w' h' H'. wp_step. cbn [negb]. wp_step. by apply HF. }
  intros f h1 H1. wp_step. cbn [negb]. wp_step. wp_step. wp_step. wp_step. apply wp_sys_any. intros b.
  wp_step. wp_step. wp_step. wp_step. unfold error_close, error_free. destruct (ret b <? 0) eqn:Eb.
  { wp_go. apply HF. held_solve. }
  unfold set_backend_size. wp_step. wp_step. wp_step. wp_step. wp_step. apply wp_sys_eq. intros s Hs.
  assert (ret s < 2 ^ 63) as Hbound by (rewrite <- Hs; apply Hseek).
  wp_step. wp_step. wp_step. wp_step. destruct (ret s <? 0) eqn:Es.
  { wp_go. all: apply HF; held_solve. }
  cbv zeta. wp_step. wp_step. wp_step. wp_step. wp_step. cbn [negb]. wp_step. wp_step. wp_step. wp_step.
  apply wp_sys_any. intros a. wp_step. wp_step. wp_step. wp_step. destruct (ret a =? MAP_FAILED) eqn:Ea.
  { wp_go. apply HF. held_solve. }
  wp_step. apply HQ.
  - unfold backend_res. cbn. held_solve.
  - cbn. lia.
  - cbn. rewrite <- ceil_512 by lia. destruct (negb _); [|done].
    assert (0 <= ret s / 512 < 2 ^ 62) by (split; [apply Z.div_pos|apply Z.div_lt_upper_bound]; lia).
    by rewrite u64_small by (unfold SECTOR_SIZE; lia).
  - done.
Qed.

Lemma close_backend_held K w h l (Q : outcome unit -> world -> list (event call) -> Prop) :
  held h = Some (backend_res w ++ l) ->
  (forall h', held h' = Some l -> Q (Ret tt) w h') -> wp close_backend K w h Q.
Proof.
  intros Hh HQ. unfold close_backend, backend_res in *. wp_go. apply HQ. simpl app in Hh. held_solve.
Qed.

(** Opening the backend either fails and leaves nothing open, allocated or
    mapped, whichever of its steps failed, or succeeds with the file mapped and the
    capacity of the device page the size of the file in sectors, rounded up; and
    then [close_backend] gives everything back. *)
Theorem backend_all_or_nothing fuel (K : kernel call) w h l :
  (forall h fd, ret (K h (Lseek fd 0 SEEK_END)) < 2 ^ 63) ->
  held h = Some l ->
  match open_backend fuel K w h with
  | (Ret false, _, h') => held h' = Some l
  | (Ret true, w', h') =>
      held h' = Some (backend_res w' ++ l) /\
      capacity w' = sectors (backend_size (mic_virtblk (mic w'))) /\
      exists h'', close_backend K w' h' = (Ret tt, w', h'') /\ held h'' = Some l
  | (NoFuel, _, _) => True
  | _ => False
  end.
Proof.
  intros Hs Hh.
  enough (wp (open_backend fuel) K w h (fun o w' h' => match o with
     | Ret false => held h' = Some l
     | Ret true => held h' = Some (backend_res w' ++ l) /\
         capacity w' = sectors (backend_size (mic_virtblk (mic w'))) /\
         exists h'', close_backend K w' h' = (Ret tt, w', h'') /\ held h'' = Some l
     | NoFuel => True
     | _ => False
     end)) as Hwp.
  { unfold wp in Hwp. destruct (open_backend fuel K w h) as [[[[]| | |] w'] h']; done. }
  apply (open_backend_held _ _ _ _ l); [done|done|done| |done].
  intros w' h' H' _ Hc _. split; [done|]. split; [done|].
  pose proof (close_backend_held K w' h' l (fun o w1 h'' => o = Ret tt /\ w1 = w' /\ held h'' = Some l) H')
    as Hwp. unfold wp in Hwp. destruct (close_backend K w' h') as [[o w1] h''].
  destruct Hwp as (-> & -> & ?); [done|]. by eexists.
Qed.

(** ** Serving a request *)

(** A ring that does not change while a request is served. *)
Definition stable_ring (K : kernel call) (ring : Z -> vring_desc) : Prop :=
  forall h i, desc_of (K h (RingDesc TxRing i)) = ring i.

Definition in_ring (i : Z) : Prop := 0 <= i < MIC_VRING_ENTRIES.

(** From descriptor [i]: the buffers [ds], then a last descriptor. *)
Inductive chain (ring : Z -> vring_desc) : Z -> list vring_desc -> vring_desc -> Prop :=
| chain_last i :
    in_ring i -> has (d_flags (ring i)) VRING_DESC_F_NEXT = false -> chain ring i [] (ring i)
| chain_buffer i ds last :
    in_ring i -> has (d_flags (ring i)) VRING_DESC_F_NEXT = true ->
    chain ring (d_next (ring i)) ds last -> chain ring i (ring i :: ds) last.

(** The buffers laid out over the backend from address [fos]. *)
Fixpoint layout (fos : Z) (ds : list vring_desc) : list iovec :=
  match ds with
  | [] => []
  | d :: ds' => IOV fos (d_len d) :: layout (u64 (fos + d_len d)) ds'
  end.

(** The copies asked of the driver, newest first. *)
Fixpoint copies (h : list (event call)) : list (mic_copy_desc * list Z) :=
  match h with
  | [] => []
  | (CopyDesc _ c b, _) :: h' => (c, b) :: copies h'
  | _ :: h' => copies h'
  end.

Lemma wp_ring_desc ring i K w h (Q : outcome vring_desc -> world -> list (event call) -> Prop) :
  stable_ring K ring -> in_ring i ->
  (forall a, Q (Ret (ring i)) w ((RingDesc TxRing i, a) :: h)) ->
  wp (ring_desc i) K w h Q.
Proof.
  intros HK Hi HQ. unfold ring_desc, in_ring in *.
  replace ((0 <=? i) && (i <? MIC_VRING_ENTRIES)) with true by lia.
  wp_step. apply wp_sys_eq. intros a <-. wp_step. wp_step. rewrite HK. apply HQ.
Qed.

Lemma next_desc_next d : has (d_flags d) VRING_DESC_F_NEXT = true -> next_desc d = d_next d.
Proof. intros E. unfold next_desc. by rewrite E. Qed.

Lemma chain_in ring i ds last : chain ring i ds last -> in_ring i.
Proof. by destruct 1. Qed.

Lemma wp_collect fuel ring i ds last fos v K w h
    (Q : outcome (list iovec * vring_desc) -> world -> list (event call) -> Prop) :
  stable_ring K ring -> chain ring i ds last -> (length ds < fuel)%nat ->
  zlen v + zlen ds <= seg_max ->
  (forall h', copies h' = copies h -> Q (Ret (v ++ layout fos ds, last)) w h') ->
  wp (collect fuel fos (ring i) v) K w h Q.
Proof.
  intros HK Hc. revert fuel fos v h. induction Hc as [i Hi Hn|i ds last Hi Hn Hc IH];
    intros [|fuel] fos v h Hf Hseg HQ; simpl in Hf; try lia; cbn [collect]; rewrite Hn.
  - wp_step. rewrite app_nil_r in HQ. by apply HQ.
  - rewrite zlen_cons in Hseg. pose proof (zlen_nonneg ds).
    replace (zlen v <? seg_max) with true by lia. rewrite next_desc_next by done.
    wp_step. apply (wp_ring_desc ring); [done|by eapply chain_in|]. intros a. wp_step.
    apply IH; [lia| |].
    + rewrite zlen_app, zlen_cons. change (zlen (@nil iovec)) with 0. lia.
    + intros h' Hh'. rewrite <- app_assoc. by apply HQ.
Qed.

Definition hdr_copy (lc : locals) : mic_copy_desc :=
  Copy [IOV (hdr_addr lc) sizeof_virtio_blk_outhdr] 1 0 false 0.
Definition status_copy (lc : locals) : mic_copy_desc := Copy [IOV (status_addr lc) 1] 1 0 true 0.

Definition supported (hdr : outhdr) : bool :=
  negb (truthy (Z.land (h_type hdr) (Z.lnot (Z.lor VIRTIO_BLK_T_OUT VIRTIO_BLK_T_GET_ID)))).

(** Where sector [s] of the backend is mapped. *)
Definition sector_addr (w : world) (s : Z) : Z :=
  u64 (backend_addr (mic_virtblk (mic w)) + u64 (s * SECTOR_SIZE)).

(** The next request of the ring: a readable header [hdr] at descriptor [head]. *)
Record request (K : kernel call) (w : world) (lc : locals) (ring : Z -> vring_desc)
    (head : Z) (hdr : outhdr) : Prop := {
  rq_ring : stable_ring K ring;
  rq_entry : forall h i, ret (K h (RingEntry TxRing i)) = head;
  rq_head : in_ring head;
  rq_hdr : forall h,
    let a := K h (CopyDesc (virtio_block_fd (mic_virtblk (mic w))) (hdr_copy lc) []) in
    0 <= ret a /\ hdr_of (tl (data a)) = hdr
}.

Lemma length_layout fos ds : zlen (layout fos ds) = zlen ds.
Proof. revert fos. induction ds as [|d ds IH]; intros fos; simpl; [done|]. by rewrite !zlen_cons, IH. Qed.

(** Up to the walk over the buffers. *)
Lemma serve_prefix fuel lc K w h ring head hdr (Q : outcome bool -> world -> list (event call) -> Prop) :
  request K w lc ring head hdr ->
  (forall h', copies h' = (hdr_copy lc, []) :: copies h ->
     wp (let* first := ring_desc (next_desc (ring head)) in
         let* (v, last) := collect fuel (sector_addr w (h_sector hdr)) first [] in
         let* status :=
           (if negb (supported hdr) then io_ret (u8 (- ENOTSUP))
            else
              let* r := transfer_blocks (virtio_block_fd (mic_virtblk (mic w))) v in
              io_ret (if (r <? 0) && negb (0 =? 0) then u8 r else 0)) in
         write_status (virtio_block_fd (mic_virtblk (mic w))) lc
           (if negb (status =? 0) then status_error_check last else status) ;;
         io_ret true)%io K w h' Q) ->
  wp (serve fuel lc) K w h Q.
Proof.
  intros [Hring Hent Hin Hhdr] HQ. unfold serve. wp_step. wp_step. wp_step.
  wp_step. apply wp_sys_any. intros i. wp_step. wp_step. apply wp_sys_eq. intros e He. wp_step.
  assert (ret e = head) as -> by (rewrite <- He; apply Hent).
  wp_step. apply (wp_ring_desc ring); [done|done|]. intros d. wp_step.
  unfold read_header. wp_step. wp_step. apply wp_sys_eq. intros r Hr. wp_step. wp_step. wp_step.
  match type of Hr with K ?h0 _ = _ => destruct (Hhdr h0) as [Hret Hh] end.
  unfold hdr_copy in Hret, Hh. rewrite Hr in Hret, Hh. rewrite Hh.
  replace (ret r <? 0) with false by lia. cbv zeta. unfold supported in HQ. rewrite negb_involutive in HQ.
  apply HQ. done.
Qed.

(** C13: a request whose header and chain are well formed, of a supported type and
    with at most [seg_max] buffers, is served by exactly three copies: the header,
    one transfer whose iovec lays the buffers out contiguously from the sector's
    address in the mapped backend with the lengths of the descriptors, and the
    status byte 0 that also returns the chain. *)
Theorem serve_transfers fuel lc K w h ring head hdr ds last :
  request K w lc ring head hdr -> has (d_flags (ring head)) VRING_DESC_F_NEXT = true ->
  chain ring (d_next (ring head)) ds last -> zlen ds <= seg_max -> (length ds < fuel)%nat ->
  supported hdr = true ->
  exists h', serve fuel lc K w h = (Ret true, w, h') /\
    copies h' =
      (status_copy lc, [0]) ::
      (Copy (layout (sector_addr w (h_sector hdr)) ds) (zlen ds) 0 false 0, []) ::
      (hdr_copy lc, []) :: copies h.
Proof.
  intros Hrq Hn Hc Hseg Hf Hsup.
  enough (wp (serve fuel lc) K w h (fun o w' h' => o = Ret true /\ w' = w /\ copies h' =
    (status_copy lc, [0]) :: (Copy (layout (sector_addr w (h_sector hdr)) ds) (zlen ds) 0 false 0, []) ::
    (hdr_copy lc, []) :: copies h)) as Hwp.
  { unfold wp in Hwp. destruct (serve fuel lc K w h) as [[o w'] h'].
    destruct Hwp as (-> & -> & ?). by eexists. }
  apply (serve_prefix _ _ _ _ _ ring head hdr); [done|]. intros h1 H1. wp_step.
  rewrite next_desc_next by done.
  apply (wp_ring_desc ring); [apply Hrq|by eapply chain_in|]. intros a. wp_step. wp_step.
  apply (wp_collect _ _ _ ds last); [apply Hrq|done|done|simpl; done|]. intros h2 H2. wp_step.
  rewrite Hsup. unfold transfer_blocks, write_status. simpl app. wp_go. split; [done|].
  split; [done|]. cbn. by rewrite andb_false_r, length_layout, H2, <- H1.
Qed.

(** C38: errors are not reported.  When the driver refuses the transfer, and when
    the request's type is not supported (and the last descriptor has the length of
    a status byte), the status byte written is 0, success. *)
Theorem errors_reported_as_success fuel lc K w h ring head hdr ds last :
  request K w lc ring head hdr -> has (d_flags (ring head)) VRING_DESC_F_NEXT = true ->
  chain ring (d_next (ring head)) ds last -> zlen ds <= seg_max -> (length ds < fuel)%nat ->
  (supported hdr = true /\ forall h, ret (K h (CopyDesc (virtio_block_fd (mic_virtblk (mic w)))
     (Copy (layout (sector_addr w (h_sector hdr)) ds) (zlen ds) 0 false 0) [])) < 0) \/
  (supported hdr = false /\ d_len last = 1) ->
  exists h' c rest, serve fuel lc K w h = (Ret true, w, h') /\
    copies h' = (c, [0]) :: rest /\ update_used c = true.
Proof.
  intros Hrq Hn Hc Hseg Hf Herr.
  enough (wp (serve fuel lc) K w h (fun o w' h' => o = Ret true /\ w' = w /\
    exists rest, copies h' = (status_copy lc, [0]) :: rest)) as Hwp.
  { unfold wp in Hwp. destruct (serve fuel lc K w h) as [[o w'] h'].
    destruct Hwp as (-> & -> & rest & ?). by eexists _, _, _. }
  apply (serve_prefix _ _ _ _ _ ring head hdr); [done|]. intros h1 H1. wp_step.
  rewrite next_desc_next by done.
  apply (wp_ring_desc ring); [apply Hrq|by eapply chain_in|]. intros a. wp_step. wp_step.
  apply (wp_collect _ _ _ ds last); [apply Hrq|done|done|simpl; done|]. intros h2 H2. wp_step.
  unfold transfer_blocks, write_status. destruct (supported hdr) eqn:Es.
  - simpl app. wp_go. split; [done|]. split; [done|]. cbn. rewrite andb_false_r. by eexists.
  - destruct Herr as [[Herr _]|[_ Hlast]]; [done|]. wp_go. split; [done|]. split; [done|]. unfold status_error_check. rewrite Hlast. by eexists.
Qed.

Lemma wp_collect_overrun fuel ring i ds last fos v K w h
    (Q : outcome (list iovec * vring_desc) -> world -> list (event call) -> Prop) :
  stable_ring K ring -> chain ring i ds last -> (length ds < fuel)%nat ->
  zlen v <= seg_max < zlen v + zlen ds ->
  (forall h', Q Crash w h') ->
  wp (collect fuel fos (ring i) v) K w h Q.
Proof.
  intros HK Hc. revert fuel fos v h. induction Hc as [i Hi Hn|i ds last Hi Hn Hc IH];
    intros [|fuel] fos v h Hf Hseg HQ; simpl in Hf; try lia; cbn [collect]; rewrite Hn.
  - change (zlen (@nil vring_desc)) with 0 in Hseg. lia.
  - rewrite zlen_cons in Hseg. destruct (Z.ltb_spec (zlen v) seg_max) as [Hlt|Hge]; [|by wp_step].
    rewrite next_desc_next by done.
    wp_step. apply (wp_ring_desc ring); [done|by eapply chain_in|]. intros a. wp_step.
    apply IH; [lia| |done]. rewrite zlen_app, zlen_cons. change (zlen (@nil iovec)) with 0. lia.
Qed.

(** The checks of the header have no effect.  A header descriptor that is not
    followed by another one makes the thread index the ring with 2^32 - 1, and a
    chain of more than [seg_max] buffers makes it write past the end of the iovec
    array: the card can crash the daemon. *)
Theorem malformed_requests_crash fuel lc K w h ring head hdr :
  request K w lc ring head hdr -> MIC_VRING_ENTRIES <= 2 ^ 16 ->
  has (d_flags (ring head)) VRING_DESC_F_NEXT = false \/
  (exists ds last, has (d_flags (ring head)) VRING_DESC_F_NEXT = true /\
     chain ring (d_next (ring head)) ds last /\ seg_max < zlen ds /\ (length ds < fuel)%nat) ->
  exists h', serve fuel lc K w h = (Crash, w, h').
Proof.
  intros Hrq HN Hbad.
  enough (wp (serve fuel lc) K w h (fun o w' _ => o = Crash /\ w' = w)) as Hwp.
  { unfold wp in Hwp. destruct (serve fuel lc K w h) as [[o w'] h']. destruct Hwp as [-> ->]. by eexists. }
  apply (serve_prefix _ _ _ _ _ ring head hdr); [done|]. intros h1 _. wp_step.
  destruct Hbad as [Hn|(ds & last & Hn & Hc & Hseg & Hf)].
  - unfold ring_desc, next_desc. rewrite Hn. simpl negb. cbn iota. change (u32 (-1)) with (2 ^ 32 - 1).
    replace (2 ^ 32 - 1 <? MIC_VRING_ENTRIES) with false by lia. rewrite andb_false_r. by wp_step.
  - rewrite next_desc_next by done.
    apply (wp_ring_desc ring); [apply Hrq|by eapply chain_in|]. intros a. wp_step. wp_step.
    apply (wp_collect_overrun _ _ _ ds last); [apply Hrq|done|done| |done].
    change (zlen (@nil iovec)) with 0. unfold seg_max in *.
    pose proof (wrap_range 32 (MIC_VRING_ENTRIES - 2)). unfold fits, u32 in *. lia.
Qed.

(** ** A whole round *)

Lemma serve_held fuel lc K w h l (Q : outcome bool -> world -> list (event call) -> Prop) :
  held h = Some l ->
  (forall b h', held h' = Some l -> Q (Ret b) w h') ->
  (forall h', Q Crash w h') -> (forall h', Q NoFuel w h') ->
  wp (serve fuel lc) K w h Q.
Proof.
  intros Hh HQ HC HN.
  assert (forall fos v desc h (Q : outcome (list iovec * vring_desc) -> world -> list (event call) -> Prop),
    held h = Some l -> (forall r h', held h' = Some l -> Q (Ret r) w h') ->
    (forall h', Q Crash w h') -> (forall h', Q NoFuel w h') ->
    wp (collect fuel fos desc v) K w h Q) as Hcol.
  { clear. intros fos v desc h Q Hh HQ HC HN. revert fos v desc h Hh.
    induction fuel as [|fuel IH]; intros fos v desc h Hh; cbn [collect]; unfold ring_desc; wp_go; auto.
    apply IH. held_solve. }
  unfold serve, ring_desc, read_header, transfer_blocks, write_status. wp_go; auto.
  1: apply HQ; held_solve.
  apply Hcol; [held_solve| |by intros; wp_step|by intros; wp_step].
  intros r h' Hh'. wp_go. all: apply HQ; held_solve.
Qed.

Lemma serve_all_held fuel n lc K w h l (Q : outcome unit -> world -> list (event call) -> Prop) :
  held h = Some l ->
  (forall h', held h' = Some l -> Q (Ret tt) w h') ->
  (forall h', Q Crash w h') -> (forall h', Q NoFuel w h') ->
  wp (serve_all fuel n lc) K w h Q.
Proof.
  intros Hh HQ HC HN. revert h Hh. induction n as [|n IH]; intros h Hh; cbn [serve_all]; wp_go; auto.
  - apply HQ. held_solve.
  - apply (serve_held _ _ _ _ _ l); [held_solve| |by intros; wp_step|by intros; wp_step].
    intros b h' Hh'. wp_go; [by apply IH|by apply HQ].
Qed.

Lemma poll_loop_held fuel n lc K w h l (Q : outcome unit -> world -> list (event call) -> Prop) :
  held h = Some l ->
  (forall h', held h' = Some l -> Q (Ret tt) w h') ->
  (forall h', Q Crash w h') -> (forall h', Q NoFuel w h') ->
  wp (poll_loop fuel n lc) K w h Q.
Proof.
  intros Hh HQ HC HN. revert h Hh. induction n as [|n IH]; intros h Hh; cbn [poll_loop]; wp_go; auto.
  1: apply HQ; held_solve.
  1, 2: apply IH; held_solve.
  apply (serve_all_held _ _ _ _ _ _ l); [held_solve| |by intros; wp_step|by intros; wp_step].
  intros h' Hh'. wp_step. by apply IH.
Qed.

Lemma sleep_held n K w h l (Q : outcome unit -> world -> list (event call) -> Prop) :
  held h = Some l ->
  (forall h', held h' = Some l -> Q (Ret tt) w h') -> (forall h', Q NoFuel w h') ->
  wp (sleep_until_signaled n) K w h Q.
Proof.
  intros Hh HQ HN. revert h Hh.
  induction n as [|n IH]; intros h Hh; cbn [sleep_until_signaled]; wp_go; auto.
  - apply HQ. held_solve.
  - apply IH. held_solve.
Qed.

(** What is left when a round ends: nothing, or the descriptor of a device whose
    rings could not be mapped. *)
Definition leftover (w : world) (h : list (event call)) (l k : list resource) : Prop :=
  k = l \/
  (k = Fd (virtio_block_fd (mic_virtblk (mic w))) :: l /\
   exists a, In (Mmap (MIC_DEVICE_PAGE_END + vr_bytes * 1)
                   (virtio_block_fd (mic_virtblk (mic w))), a) h /\ ret a = MAP_FAILED).

Lemma stop_close_held K w h l (Q : outcome unit -> world -> list (event call) -> Prop) :
  held h = Some (Mapping (block_dp (mic_virtblk (mic w))) (MIC_DEVICE_PAGE_END + vr_bytes * 1)
    :: Fd (virtio_block_fd (mic_virtblk (mic w))) :: backend_res w ++ l) ->
  (forall h', held h' = Some l -> Q (Ret tt) w h') ->
  wp (io_bind stop_virtblk (fun _ => close_backend)) K w h Q.
Proof.
  intros Hh HQ. unfold stop_virtblk. wp_go. apply (close_backend_held _ _ _ l); [|done].
  change (num_vq (dd virtblk_dev_page)) with 1. held_solve.
Qed.

(** As [init_vr_held], remembering the failed call. *)
Lemma init_vr_trace fd K w h l (Q : outcome Z -> world -> list (event call) -> Prop) :
  held h = Some l ->
  (forall a h', held h' = Some l -> ret a = MAP_FAILED ->
     In (Mmap (MIC_DEVICE_PAGE_END + vr_bytes * 1) fd, a) h' -> Q (Ret MAP_FAILED) w h') ->
  (forall va m h', same_but_dp (mic w) m -> block_dp (mic_virtblk m) = va -> va <> MAP_FAILED ->
     held h' = Some (Mapping va (MIC_DEVICE_PAGE_END + vr_bytes * 1) :: l) ->
     Q (Ret va) (World m (capacity w)) h') ->
  (forall w' h', Q Crash w' h') ->
  wp (init_vr fd VIRTIO_ID_BLOCK false 1) K w h Q.
Proof.
  intros Hh HF HQ HC. unfold init_vr. wp_step. apply wp_sys_any. intros va. wp_step.
  destruct (ret va =? MAP_FAILED) eqn:E.
  - wp_step. assert (ret va = MAP_FAILED) as Eva by lia. rewrite Eva. apply (HF va); [|done|by left].
    held_solve.
  - wp_step. apply wp_set_dp; [by right; right|]. intros m Hm Hdp. wp_go; [apply HC|].
    apply HQ; [done|done|lia|held_solve].
Qed.

Lemma close_backend_under x K w h l (Q : outcome unit -> world -> list (event call) -> Prop) :
  held h = Some (x :: backend_res w ++ l) ->
  (forall h', held h' = Some (x :: l) -> (forall e, In e h -> In e h') -> Q (Ret tt) w h') ->
  wp close_backend K w h Q.
Proof.
  intros Hh HQ. unfold close_backend, backend_res in *. simpl app in Hh. wp_go. apply HQ.
  - repeat (eapply held_release; [|reflexivity|apply drop_res_second]). done.
  - intros. by do 3 right.
Qed.

Lemma block_round_held fuel addr lc K w h l (Q : outcome unit -> world -> list (event call) -> Prop) :
  (forall h fd, ret (K h (Lseek fd 0 SEEK_END)) < 2 ^ 63) ->
  (forall w, ~ add_refused K w (dd virtblk_dev_page)) ->
  held h = Some l ->
  (forall w' h' k, held h' = Some k -> leftover w' h' l k -> Q (Ret tt) w' h') ->
  (forall w' h', Q Crash w' h') -> (forall w' h', Q NoFuel w' h') ->
  wp (block_round fuel addr lc) K w h Q.
Proof.
  intros Hseek Hadd Hh HQ HC HN.
  assert (forall w' h', held h' = Some l -> Q (Ret tt) w' h') as HQ0.
  { intros w' h' H'. apply (HQ _ _ l); [done|by left]. }
  unfold block_round. wp_step. apply (open_backend_held _ _ _ _ l); [done|done| | |by intros; wp_step].
  { intros w1 h1 H1. wp_go. apply (sleep_held _ _ _ _ l); [held_solve|auto|auto]. }
  intros w1 h1 H1 _ _ _. wp_step. wp_const. unfold start_virtblk. wp_step.
  destruct (addr mod 8 =? 0); cbn [negb].
  2: { wp_step. wp_step. wp_const. by apply (close_backend_held _ _ _ l); [|auto]. }
  wp_step. apply (add_device_held _ _ _ _ (backend_res w1 ++ l)); [by right; right|done| |].
  { intros Hr. by destruct (Hadd w1). }
  intros fd m h2 H2 Hfd0 Hfd Hf Hb Ha Hs. cbn in Hfd. wp_step. wp_step. wp_step. wp_step. wp_step.
  change (num_vq (dd virtblk_dev_page)) with 1. cbn [mic]. rewrite Hfd.
  assert (backend_res (World m (capacity w1)) = backend_res w1) as Hres
    by (unfold backend_res; cbn; by rewrite Hf, Hb, Ha, Hs).
  apply (init_vr_trace _ _ _ _ (Fd fd :: backend_res w1 ++ l)); [done| | |done].
  - intros a h3 H3 Ha3 Hin. wp_step. simpl Z.eqb. wp_const. wp_step. wp_step. wp_const.
    apply (close_backend_under (Fd fd) _ _ _ l); [by rewrite Hres|]. intros h4 H4 Hsub.
    apply (HQ _ _ (Fd fd :: l)); [done|]. right. cbn [mic]. rewrite Hfd. split; [done|].
    exists a. auto.
  - intros va m' h3 Hm' Hdp Hva H3. wp_step. replace (va =? MAP_FAILED) with false by lia.
    wp_step. wp_step. wp_const. wp_step. apply wp_sys_any. intros p. wp_step. cbn [capacity].
    set (w3 := World m' (capacity w1)).
    assert (backend_res w3 = backend_res w1) as Hres3.
    { rewrite <- Hres. unfold backend_res, w3. destruct Hm' as (_&_&_&_&_&_&_&_&_&E1&E2&E3&E4).
      cbn in *. by rewrite E1, E2, E3, E4. }
    assert (virtio_block_fd (mic_virtblk (mic w3)) = fd) as Hfd3.
    { destruct Hm' as (_&_&_&_&_&_&_&_&E&_). cbn in *. congruence. }
    assert (block_dp (mic_virtblk (mic w3)) = va) as Hdp3 by done.
    clearbody w3. destruct (ret p =? 0) eqn:Ep.
    + apply (stop_close_held _ _ _ l); [|auto]. rewrite Hres3, Hfd3, Hdp3. held_solve.
    + wp_step. apply wp_sys_any. intros c. wp_step. wp_step.
      eapply (poll_loop_held _ _ _ _ _ _ (Block (ret p) :: Mapping va _ :: Fd fd :: backend_res w1 ++ l));
        [held_solve| |by intros; wp_step|by intros; wp_step].
      intros h4 H4. wp_step. wp_step. apply wp_sys_any. intros f. wp_step.
      apply (stop_close_held _ _ _ l); [|auto]. rewrite Hres3, Hfd3, Hdp3. held_solve.
Qed.

(** When the device can be added, a round of the thread that comes to its end
    (no backend, failed start, or a signal) has released everything it acquired,
    except that a device whose rings cannot be mapped stays open. *)
Theorem round_resources fuel addr lc K w h l w' h' :
  (forall h fd, ret (K h (Lseek fd 0 SEEK_END)) < 2 ^ 63) ->
  (forall w, ~ add_refused K w (dd virtblk_dev_page)) ->
  held h = Some l -> block_round fuel addr lc K w h = (Ret tt, w', h') ->
  exists k, held h' = Some k /\ leftover w' h' l k.
Proof.
  intros Hs Ha Hh E.
  pose proof (block_round_held fuel addr lc K w h l
    (fun o w' h' => o = Ret tt -> exists k, held h' = Some k /\ leftover w' h' l k) Hs Ha Hh) as Hwp.
  eapply wp_elim in Hwp; [by apply Hwp|by eauto|done|done|exact E].
Qed.

End Block.

(** ** Concrete runs *)

Definition sample_ring (i : Z) : vring_desc :=
  if i =? 0 then VDesc 16 1 1 else if i =? 1 then VDesc 512 3 2 else VDesc 1 2 0.
Definition sample_locals : locals := Locals 100 200.
Definition blk_world : world :=
  World (Info 0 (Some (B "mic0")) 0 (Console 0 0) (Net 0 0 0)
           (Virtblk 7 0 (Cptr 0 []) 5 65536 4096) 0 0) 8.

(** [lone]: the header stands alone; [type]: of the request; [tr]: what a transfer
    returns. *)
Definition blk_kernel (lone : bool) (type tr : Z) : kernel call := fun h c =>
  match c with
  | RingDesc _ i =>
      let d := if lone then VDesc 16 0 0 else sample_ring i in
      Ans 0 0 [d_len d; d_flags d; d_next d]
  | RingEntry _ _ => aret 0
  | CopyDesc _ c _ =>
      match iov c with
      | [v] => if iov_len v =? 16
               then Ans 0 0 (16 :: le_bytes 4 type ++ le_bytes 4 0 ++ le_bytes 8 3)
               else if update_used c then aret 0 else aret tr
      | _ => aret 0
      end
  | Fopen _ => aret 90
  | Fgets _ _ => Ans 1 0 (B "VIRTBLK_BACKEND=/srv/disk")
  | Malloc _ => aret 91
  | Lseek _ _ _ => aret 1000
  | Open _ _ => aret 5
  | Mmap _ fd => if fd =? 5 then aret 65536 else aerr ENOMEM
  | Signaled => aret 1
  | RingMagic _ => aret 0xc0ffee02
  | _ => aret 0
  end.

#[local] Existing Instance sample_abi.

Lemma blk_request type tr :
  request (blk_kernel false type tr) blk_world sample_locals sample_ring 0
    (hdr_of (le_bytes 4 type ++ le_bytes 4 0 ++ le_bytes 8 3)).
Proof.
  split; try done.
  intros h i. simpl. unfold desc_of, sample_ring. cbn. by repeat destruct (_ =? _).
Defined.

Lemma blk_chain : chain sample_ring 1 [VDesc 512 3 2] (VDesc 1 2 0).
Proof.
  apply (chain_buffer sample_ring 1); [done|done|]. apply (chain_last sample_ring 2); done.
Defined.

Lemma backend_all_or_nothing_witness :
  match open_backend 5 (blk_kernel false 0 0) blk_world [] with
  | (Ret true, w', h') => capacity w' = 2 /\ held h' = Some [Mapping 65536 1000; Fd 5; Block 91]
  | _ => False
  end.
Proof.
  pose proof (backend_all_or_nothing 5 (blk_kernel false 0 0) blk_world [] [] ltac:(simpl; lia) eq_refl)
    as H.
  destruct (open_backend 5 (blk_kernel false 0 0) blk_world []) as [[o w'] h'] eqn:E.
  vm_compute in E. injection E as <- <- <-. destruct H as (H1 & H2 & _).
  split; [rewrite H2; reflexivity|rewrite H1; reflexivity].
Defined.

Lemma serve_transfers_witness :
  exists h', serve 5 sample_locals (blk_kernel false 0 0) blk_world [] = (Ret true, blk_world, h') /\
    copies h' = [(status_copy sample_locals, [0]);
                 (Copy [IOV (65536 + 3 * 512) 512] 1 0 false 0, []);
                 (hdr_copy sample_locals, [])].
Proof.
  apply (serve_transfers 5 sample_locals (blk_kernel false 0 0) blk_world [] sample_ring 0 _
    [VDesc 512 3 2] (VDesc 1 2 0) (blk_request 0 0) eq_refl blk_chain).
  - vm_compute. discriminate.
  - simpl. lia.
  - reflexivity.
Defined.

Lemma errors_reported_as_success_witness :
  (exists h' c rest, serve 5 sample_locals (blk_kernel false 0 (-1)) blk_world [] =
    (Ret true, blk_world, h') /\ copies h' = (c, [0]) :: rest /\ update_used c = true) /\
  (exists h' c rest, serve 5 sample_locals (blk_kernel false 4 0) blk_world [] =
    (Ret true, blk_world, h') /\ copies h' = (c, [0]) :: rest /\ update_used c = true).
Proof.
  split.
  - apply (errors_reported_as_success 5 sample_locals (blk_kernel false 0 (-1)) blk_world [] sample_ring
      0 _ [VDesc 512 3 2] (VDesc 1 2 0) (blk_request 0 (-1)) eq_refl blk_chain).
    + vm_compute. discriminate.
    + simpl. lia.
    + left. split; reflexivity.
  - apply (errors_reported_as_success 5 sample_locals (blk_kernel false 4 0) blk_world [] sample_ring
      0 _ [VDesc 512 3 2] (VDesc 1 2 0) (blk_request 4 0) eq_refl blk_chain).
    + vm_compute. discriminate.
    + simpl. lia.
    + right. split; reflexivity.
Defined.

Lemma malformed_requests_crash_witness :
  exists h', serve 5 sample_locals (blk_kernel true 0 0) blk_world [] = (Crash, blk_world, h').
Proof.
  apply (malformed_requests_crash 5 sample_locals (blk_kernel true 0 0) blk_world []
    (fun _ => VDesc 16 0 0) 0 (hdr_of (le_bytes 4 0 ++ le_bytes 4 0 ++ le_bytes 8 3))).
  - split; done.
  - vm_compute. discriminate.
  - left. reflexivity.
Defined.

Definition sample_round := block_round 5 4096 sample_locals (blk_kernel false 0 0) blk_world [].

Lemma round_resources_witness :
  fst (fst sample_round) = Ret tt /\
  exists k, held (snd sample_round) = Some k /\ leftover (snd (fst sample_round)) (snd sample_round) [] k.
Proof.
  split; [vm_compute; reflexivity|].
  apply (round_resources 5 4096 sample_locals (blk_kernel false 0 0) blk_world []).
  - simpl. lia.
  - intros w [[h Hr]|(h & fd & Hr)]; simpl in Hr; lia.
  - reflexivity.
  - vm_compute. reflexivity.
Defined.

End Block.
