(* ===== verification/MicDaemon.v ===== *)
(** * The card state machine and start-up of the MIC daemon: mic/mpssd/mpssd.c,
      lines 1286-1728

    A configuration thread per card follows the card's sysfs state: it handles
    shutdown and suspend, resets the card, and starts it again through
    [init_mic], which forks the process that serves the card. *)

From S2P Require Import Prelude Posix CArray Resources Mic MicRing MicSysfs.
Import Mic Ring Sysfs.

Module Daemon.

Section Daemon.
Context `{MicAbi}.

Open Scope io_scope.

(** ** States *)

Inductive mic_states : Type :=
| MIC_OFFLINE | MIC_ONLINE | MIC_SHUTTING_DOWN | MIC_RESET_FAILED | MIC_SUSPENDING | MIC_SUSPENDED.
Inductive mic_status : Type :=
| MIC_NOP | MIC_CRASHED | MIC_HALTED | MIC_POWER_OFF | MIC_RESTART.

Definition strcmp_eq (a : list Z) (b : string) : bool := bool_decide (a = B b).

Definition get_mic_shutdown_status (shutdown_status : list Z) : io call world mic_status :=
  if strcmp_eq shutdown_status "nop" then io_ret MIC_NOP
  else if strcmp_eq shutdown_status "crashed" then io_ret MIC_CRASHED
  else if strcmp_eq shutdown_status "halted" then io_ret MIC_HALTED
  else if strcmp_eq shutdown_status "poweroff" then io_ret MIC_POWER_OFF
  else if strcmp_eq shutdown_status "restart" then io_ret MIC_RESTART
  else crash.

Definition get_mic_state (state : list Z) : io call world mic_states :=
  if strcmp_eq state "offline" then io_ret MIC_OFFLINE
  else if strcmp_eq state "online" then io_ret MIC_ONLINE
  else if strcmp_eq state "shutting_down" then io_ret MIC_SHUTTING_DOWN
  else if strcmp_eq state "reset_failed" then io_ret MIC_RESET_FAILED
  else if strcmp_eq state "suspending" then io_ret MIC_SUSPENDING
  else if strcmp_eq state "suspended" then io_ret MIC_SUSPENDED
  else crash.

(** ** Reset and shutdown *)

Definition RESET_TIMEOUT : nat := 120.
Definition SHUTDOWN_TIMEOUT : nat := 60.

(** [i] turns left. *)
Fixpoint reset_loop (i : nat) (nm : option (list Z)) : io call world unit :=
  match i with
  | O => io_ret tt
  | S i' =>
      let* state := readsysfs nm (B "state") in
      match state with
      | None => sys (Sleep 1) ;; reset_loop i' nm
      | Some st =>
          if strcmp_eq (text st) "offline" || strcmp_eq (text st) "suspended" then
            sys (Free (block st)) ;; io_ret tt
          else sys (Free (block st)) ;; sys (Sleep 1) ;; reset_loop i' nm
      end
  end.

Definition reset : io call world unit :=
  let* w := get in
  setsysfs (name (mic w)) (B "state") (B "reset") ;;
  reset_loop RESET_TIMEOUT (name (mic w)).

(** A failed read of the status starts the turn again without counting it. *)
Fixpoint shutdown_loop (fuel i : nat) (nm : option (list Z)) : io call world unit :=
  match fuel, i with
  | O, _ => nofuel
  | S fuel', O => io_ret tt
  | S fuel', S i' =>
      let* status := readsysfs nm (B "shutdown_status") in
      match status with
      | None => shutdown_loop fuel' i nm
      | Some st =>
          let* s := get_mic_shutdown_status (text st) in
          match s with
          | MIC_RESTART => modify (on_mic (set_restart 1)) ;; sys (Free (block st)) ;; io_ret tt
          | MIC_HALTED | MIC_POWER_OFF | MIC_CRASHED => sys (Free (block st)) ;; io_ret tt
          | MIC_NOP => sys (Free (block st)) ;; sys (Sleep 1) ;; shutdown_loop fuel' i' nm
          end
      end
  end.

Definition mic_handle_shutdown (fuel : nat) : io call world unit :=
  let* w := get in
  shutdown_loop fuel SHUTDOWN_TIMEOUT (name (mic w)) ;;
  let* w := get in
  let* k := sys (Kill (pid (mic w)) SIGTERM) in
  let* r := (if ret k =? 0 then sys (Waitpid (pid (mic w))) else io_ret k) in
  if ret r =? pid (mic w) then reset else io_ret tt.

(** ** Starting a card *)

(** The command line of the card's kernel. *)
Definition cmdline_text (id : Z) : list Z :=
  B "clocksource=tsc highres=off nohz=off " ++
  B "cpufreq_on;corec6_off;pc3_off;pc6_off " ++
  B "ifcfg=static;address,172.31." ++ dec id ++ B ".1;netmask,255.255.255.0".

Definition set_cmdline : io call world unit :=
  let* w := get in
  let buffer := snprintf PATH_MAX (cmdline_text (id (mic w))) in
  setsysfs (name (mic w)) (B "cmdline") buffer ;;
  io_ret tt.

(** The offset of the first occurrence of a string. *)
Fixpoint strstr (l pat : list Z) : option Z :=
  if bool_decide (ztake (zlen pat) l = pat) then Some 0
  else match l with
       | [] => None
       | _ :: l' => match strstr l' pat with Some i => Some (i + 1) | None => None end
       end.

(** [strncpy (log_buf, temp - 19, 16)]: the 16 characters that end three before the
    match; before the start of the mapping there is nothing to read. *)
Definition address_before (map : list Z) (i : Z) : outcome (list Z) :=
  if i <? 19 then Crash else Ret (ztake 16 (zdrop (i - 19) map)).

(** The bytes of the mapped file come with the answer of [mmap]. *)
Definition set_log_buf_info : io call world unit :=
  let* w := get in
  let nm := name (mic w) in
  let* f := sys (Open (B "/lib/firmware/mic/System.map") O_RDONLY) in
  if ret f <? 0 then io_ret tt
  else
    let* n := sys (Lseek (ret f) 0 SEEK_END) in
    if ret n <? 0 then sys (Close (ret f)) ;; io_ret tt
    else
      let* m := sys (Mmap (ret n) (ret f)) in
      if ret m =? MAP_FAILED then sys (Close (ret f)) ;; io_ret tt
      else
        let release := (sys (Munmap (ret m) (ret n)) ;; sys (Close (ret f)) ;; io_ret tt) in
        let map := cstr (data m) in
        match strstr map (B "__log_buf") with
        | None => release
        | Some i =>
            let* log_buf := lift (address_before map i) in
            setsysfs nm (B "log_buf_addr") log_buf ;;
            match strstr map (B "log_buf_len") with
            | None => release
            | Some j =>
                let* log_buf := lift (address_before map j) in
                setsysfs nm (B "log_buf_len") log_buf ;;
                release
            end
        end.

(** The signal handler: every card's flag. *)
Fixpoint change_virtblk_backend (cards : list mic_info) : io call world unit :=
  match cards with
  | [] => io_ret tt
  | _ :: rest => sys RaiseSignaled ;; change_virtblk_backend rest
  end.

(** [while (1) sleep(60);] *)
Fixpoint sleep_forever (fuel : nat) : io call world unit :=
  match fuel with
  | O => nofuel
  | S fuel' => sys (Sleep 60) ;; sleep_forever fuel'
  end.

Definition init_mic (fuel : nat) : io call world unit :=
  sys (Sigaction true) ;;
  let* p := sys Fork in
  modify (on_mic (set_pid (ret p))) ;;
  if ret p =? 0 then
    set_log_buf_info ;;
    set_cmdline ;;
    add_virtio_device (dd virtcons_dev_page) ;;
    add_virtio_device (dd virtnet_dev_page) ;;
    sys (PthreadCreate ConsoleThread) ;;
    sys (PthreadCreate NetThread) ;;
    sys (PthreadCreate BlockThread) ;;
    sys (Sigaction false) ;;
    sleep_forever fuel
  else if ret p =? -1 then io_ret tt
  else
    let* w := get in
    (if truthy (restart (mic w)) then
       setsysfs (name (mic w)) (B "state") (B "boot") ;;
       modify (on_mic (set_restart 0))
     else io_ret tt) ;;
    sys (PthreadCreate ConfigThread) ;;
    io_ret tt.

(** ** The configuration thread *)

(** [retry:] until the state can be read. *)
Fixpoint read_state (fuel : nat) (nm : option (list Z)) : io call world cptr :=
  match fuel with
  | O => nofuel
  | S fuel' =>
      let* s := readsysfs nm (B "state") in
      match s with
      | None => read_state fuel' nm
      | Some st => io_ret st
      end
  end.

(** The loop; it ends by closing [fd], after which the card is started again. *)
Fixpoint config_loop (fuel n : nat) (fd : Z) : io call world unit :=
  match n with
  | O => nofuel
  | S n' =>
      let* w := get in
      let nm := name (mic w) in
      let close_error1 := (sys (Close fd) ;; io_ret tt) in
      let* r := sys (Lseek fd 0 SEEK_SET) in
      if ret r <? 0 then close_error1
      else
        let* r := sys (Read fd 4096) in
        if ret r <? 0 then close_error1
        else
          let* st := read_state fuel nm in
          let close_error := (sys (Free (block st)) ;; close_error1) in
          let again :=
            (sys (Free (block st)) ;;
             let* p := sys (Poll [fd] (-1)) in
             if ret p <? 0 then close_error1 else config_loop fuel n' fd) in
          let* s := get_mic_state (text st) in
          match s with
          | MIC_SHUTTING_DOWN => mic_handle_shutdown fuel ;; close_error
          | MIC_SUSPENDING =>
              modify (on_mic (set_boot_on_resume 1)) ;;
              setsysfs nm (B "state") (B "suspend") ;;
              mic_handle_shutdown fuel ;; close_error
          | MIC_OFFLINE =>
              let* w := get in
              (if truthy (boot_on_resume (mic w)) then
                 setsysfs nm (B "state") (B "boot") ;;
                 modify (on_mic (set_boot_on_resume 0))
               else io_ret tt) ;;
              again
          | _ => again
          end
  end.

Definition mic_config (fuel : nat) : io call world unit :=
  let* w := get in
  let* f := sys (Open (snprintf (PATH_MAX - 1)
    (MICSYSFSDIR ++ B "/" ++ default (B "(null)") (name (mic w)) ++ B "/" ++ B "state")) O_RDONLY) in
  (if ret f <? 0 then io_ret tt else config_loop fuel fuel (ret f)) ;;
  init_mic fuel ;;
  sys PthreadExit ;; io_ret tt.

(** ** The daemon *)

Definition blank_mic (i : Z) (nm : option (list Z)) : mic_info :=
  Info i nm 0 (Console 0 0) (Net 0 0 0) (Virtblk 0 0 (Cptr 0 []) 0 0 0) 0 0.

Definition sizeof_mic_info := 160.

(** The cards of the directory, in the order it lists them; [calloc] and [malloc]
    may each fail for an entry. *)
Fixpoint list_cards (fuel : nat) (dp : Z) : io call world (list mic_info) :=
  match fuel with
  | O => nofuel
  | S fuel' =>
      let* e := sys (Readdir dp) in
      if ret e =? 0 then io_ret []
      else
        let d_name := cstr (data e) in
        if bool_decide (ztake 3 d_name = B "mic") then
          let* c := sys (Malloc sizeof_mic_info) in
          if ret c =? 0 then list_cards fuel' dp
          else
            let* p := sys (Malloc (zlen d_name + 16)) in
            let nm := if ret p =? 0 then None else Some d_name in
            let* rest := list_cards fuel' dp in
            io_ret (blank_mic (atoi (zdrop 3 d_name)) nm :: rest)
        else list_cards fuel' dp
  end.

Definition init_mic_list (fuel : nat) : io call world (list mic_info) :=
  let* dp := sys (Opendir MICSYSFSDIR) in
  if ret dp =? 0 then io_ret []
  else
    let* cards := list_cards fuel (ret dp) in
    sys (Closedir (ret dp)) ;;
    io_ret cards.

Fixpoint init_all (fuel : nat) (cards : list mic_info) : io call world unit :=
  match cards with
  | [] => io_ret tt
  | m :: rest => put (World m 0) ;; init_mic fuel ;; init_all fuel rest
  end.

Definition start_daemon (fuel : nat) (cards : list mic_info) : io call world unit :=
  init_all fuel cards ;; sleep_forever fuel.

Definition main (fuel : nat) : io call world unit :=
  let* logfp := sys (Fopen (B "/var/log/mpssd")) in
  if ret logfp =? 0 then exit_ 1
  else
    let* p := sys Fork in
    if ret p =? 0 then
      let* cards := init_mic_list fuel in
      if zlen cards =? 0 then exit_ 3
      else start_daemon fuel cards ;; exit_ 0
    else if ret p =? -1 then exit_ 2
    else exit_ 0.

Close Scope io_scope.

#[local] Arguments wp : simpl never.
#[local] Arguments wp_k : simpl never.
#[local] Arguments io_bind : simpl never.

(** ** Bounded waiting *)

Fixpoint sleeps (h : list (event call)) : Z :=
  match h with
  | [] => 0
  | (Sleep n, _) :: h' => n + sleeps h'
  | _ :: h' => sleeps h'
  end.

Lemma readsysfs_sleeps dir entry K w h l (Q : outcome (option cptr) -> world -> list (event call) -> Prop) :
  held h = Some l ->
  (forall p h', held h' = Some (owned p ++ l) -> sleeps h' = sleeps h -> Q (Ret p) w h') ->
  wp (readsysfs dir entry) K w h Q.
Proof. intros Hh HQ. unfold readsysfs. wp_go; apply HQ; try done; held_solve. Qed.

Lemma setsysfs_sleeps dir entry v K w h l (Q : outcome Z -> world -> list (event call) -> Prop) :
  held h = Some l ->
  (forall r h', held h' = Some l -> sleeps h' = sleeps h -> Q (Ret r) w h') ->
  wp (setsysfs dir entry v) K w h Q.
Proof.
  intros Hh HQ. unfold setsysfs. wp_step. apply (readsysfs_sleeps _ _ _ _ _ l); [done|].
  intros p h1 H1 S1. destruct p as [c|]; unfold free_opt; simpl owned in H1; simpl app in H1; wp_go.
  all: apply HQ; [held_solve|done].
Qed.

Lemma reset_loop_spec i nm K w h l (Q : outcome unit -> world -> list (event call) -> Prop) :
  held h = Some l ->
  (forall h', held h' = Some l -> sleeps h <= sleeps h' <= sleeps h + Z.of_nat i -> Q (Ret tt) w h') ->
  wp (reset_loop i nm) K w h Q.
Proof.
  revert h Q. induction i as [|i IH]; intros h Q Hh HQ; cbn [reset_loop].
  { wp_step. apply HQ; [done|lia]. }
  wp_step. apply (readsysfs_sleeps _ _ _ _ _ l); [done|]. intros [st|] h1 H1 S1; simpl owned in H1;
    simpl app in H1; wp_go.
  - apply HQ; [held_solve|]. cbn. lia.
  - apply IH; [held_solve|]. intros h' H' S'. apply HQ; [done|]. cbn [sleeps] in S'. lia.
  - apply IH; [held_solve|]. intros h' H' S'. apply HQ; [done|]. cbn [sleeps] in S'. lia.
Qed.

Lemma reset_spec K w h l (Q : outcome unit -> world -> list (event call) -> Prop) :
  held h = Some l ->
  (forall h', held h' = Some l -> sleeps h <= sleeps h' <= sleeps h + 120 -> Q (Ret tt) w h') ->
  wp reset K w h Q.
Proof.
  intros Hh HQ. unfold reset. wp_step. wp_step. wp_step. wp_step.
  apply (setsysfs_sleeps _ _ _ _ _ _ l); [done|]. intros r h1 H1 S1. wp_step.
  apply (reset_loop_spec _ _ _ _ _ l); [done|]. intros h2 H2 S2. apply HQ; [done|].
  change (Z.of_nat RESET_TIMEOUT) with 120 in S2. lia.
Qed.

(** ** Shutdown *)

Definition status_text (s : mic_status) : list Z :=
  match s with
  | MIC_NOP => B "nop"
  | MIC_CRASHED => B "crashed"
  | MIC_HALTED => B "halted"
  | MIC_POWER_OFF => B "poweroff"
  | MIC_RESTART => B "restart"
  end.

(** The file a descriptor was opened for last. *)
Fixpoint opened (h : list (event call)) (fd : Z) : option (list Z) :=
  match h with
  | [] => None
  | (c, a) :: h => match c with Open p _ => if ret a =? fd then Some p else opened h fd | _ => opened h fd end
  end.

(** The shutdown status of a card can be opened and reads as one of the documented values and a newline; memory is
    available.  The other files, like the state of the card, may be anything. *)
Record status_readable (K : kernel call) : Prop := {
  sr_open : forall h nm, 0 <= ret (K h (Open (sysfs_path nm (B "shutdown_status")) O_RDONLY));
  sr_read : forall h fd nm, opened h fd = Some (sysfs_path nm (B "shutdown_status")) ->
    exists s, data (K h (Read fd PAGE_SIZE)) = status_text s ++ [10] /\ ret (K h (Read fd PAGE_SIZE)) = zlen (status_text s) + 1;
  sr_malloc : forall h n, ret (K h (Malloc n)) <> 0
}.

Lemma read_status_spec nm K w h l (Q : outcome (option cptr) -> world -> list (event call) -> Prop) :
  status_readable K -> held h = Some l ->
  (forall b s h', held h' = Some (Block b :: l) -> sleeps h' = sleeps h ->
     Q (Ret (Some (Cptr b (status_text s)))) w h') ->
  wp (readsysfs nm (B "shutdown_status")) K w h Q.
Proof.
  intros [Ho Hr Hm] Hh HQ. unfold readsysfs. wp_step. apply wp_sys_eq. intros f Hf. wp_step.
  assert ((ret f <? 0) = false) as Ef by (rewrite <- Hf; specialize (Ho h nm); lia).
  rewrite Ef. wp_step. apply wp_sys_eq. intros r Hrd. wp_step. cbv zeta.
  match type of Hrd with K ?h0 _ = _ => destruct (Hr h0 (ret f) nm) as (s & Hd & Hret) end.
  { cbn [opened]. by rewrite Z.eqb_refl. }
  rewrite Hrd in Hd, Hret.
  assert (i32 (ret r) = zlen (status_text s) + 1) as -> by (rewrite Hret; by destruct s).
  replace (zlen (status_text s) + 1 <? 0) with false by (by destruct s).
  replace (zlen (status_text s) + 1 =? 0) with false by (by destruct s).
  assert (cstr (ztake (zlen (status_text s) + 1 - 1) (data r)) = status_text s) as ->
    by (rewrite Hd; by destruct s).
  wp_step. apply wp_sys_eq. intros m Hmal. wp_step.
  assert ((ret m =? 0) = false) as Em by (apply Z.eqb_neq; rewrite <- Hmal; apply Hm).
  rewrite Em. wp_go. apply HQ; [held_solve|done].
Qed.

Lemma get_status_text s K w h (Q : outcome mic_status -> world -> list (event call) -> Prop) :
  Q (Ret s) w h -> wp (get_mic_shutdown_status (status_text s)) K w h Q.
Proof. intros HQ. by destruct s. Qed.

(** The only field the shutdown changes. *)
Definition maybe_restart (w w' : world) : Prop :=
  w' = w \/ w' = on_mic (set_restart 1) w.

Lemma shutdown_loop_spec fuel i nm K w h l (Q : outcome unit -> world -> list (event call) -> Prop) :
  status_readable K -> held h = Some l -> (i < fuel)%nat ->
  (forall w' h', maybe_restart w w' -> held h' = Some l ->
     sleeps h <= sleeps h' <= sleeps h + Z.of_nat i -> Q (Ret tt) w' h') ->
  wp (shutdown_loop fuel i nm) K w h Q.
Proof.
  intros HK. revert fuel h Q. induction i as [|i IH]; intros [|fuel] h Q Hh Hf HQ; try lia;
    cbn [shutdown_loop].
  { wp_step. apply HQ; [by left|done|lia]. }
  wp_step. apply (read_status_spec _ _ _ _ l); [done|done|]. intros b s h1 H1 S1. wp_step.
  cbn [text block]. wp_step. apply get_status_text. wp_step. destruct s; wp_go.
  1: { apply IH; [held_solve|lia|]. intros w' h' Hw H' S'. apply HQ; [done|done|]. cbn [sleeps] in S'. lia. }
  all: apply HQ; [first [by left | by right]|held_solve|cbn; lia].
Qed.

(** C34: as long as the shutdown status can be read, [mic_handle_shutdown] returns,
    after sleeping at most 60 seconds for the status and 120 for the reset; it
    leaves no resource behind and changes nothing of the card but the request to
    restart it. *)
Theorem shutdown_terminates fuel K w h l :
  status_readable K -> held h = Some l -> (61 <= fuel)%nat ->
  exists w' h', mic_handle_shutdown fuel K w h = (Ret tt, w', h') /\ held h' = Some l /\
    maybe_restart w w' /\ sleeps h' <= sleeps h + 180.
Proof.
  intros HK Hh Hf.
  enough (wp (mic_handle_shutdown fuel) K w h (fun o w' h' => o = Ret tt /\ held h' = Some l /\
    maybe_restart w w' /\ sleeps h' <= sleeps h + 180)) as Hwp.
  { unfold wp in Hwp. destruct (mic_handle_shutdown fuel K w h) as [[o w'] h'].
    destruct Hwp as (-> & ?). by eexists _, _. }
  unfold mic_handle_shutdown. wp_step. wp_step. wp_step. wp_step.
  apply (shutdown_loop_spec _ _ _ _ _ _ l); [done|done|unfold SHUTDOWN_TIMEOUT; lia|].
  intros w1 h1 Hw H1 S1. change (Z.of_nat SHUTDOWN_TIMEOUT) with 60 in S1. wp_go.
  all: try (apply (reset_spec _ _ _ l); [held_solve|]; intros h2 H2 S2; cbn [sleeps] in S2; split_and!; done || lia).
  all: split_and!; [done|held_solve|done|cbn; lia].
Qed.

(** When the status cannot be read, the loop neither counts the turn nor
    sleeps: no amount of fuel lets it return. *)
Theorem shutdown_spins fuel K w h :
  (forall h p f, ret (K h (Open p f)) < 0) ->
  exists h', mic_handle_shutdown fuel K w h = (NoFuel, w, h') /\ sleeps h' = sleeps h.
Proof.
  intros HK.
  enough (wp (mic_handle_shutdown fuel) K w h (fun o w' h' => o = NoFuel /\ w' = w /\
    sleeps h' = sleeps h)) as Hwp.
  { unfold wp in Hwp. destruct (mic_handle_shutdown fuel K w h) as [[o w'] h'].
    destruct Hwp as (-> & -> & ?). by eexists. }
  unfold mic_handle_shutdown. wp_step. wp_step. wp_step. wp_step.
  assert (forall i h', sleeps h' = sleeps h -> wp (shutdown_loop fuel (S i) (name (mic w))) K w h'
    (fun o w' h' => o = NoFuel /\ w' = w /\ sleeps h' = sleeps h)) as Hloop.
  { intros i. induction fuel as [|fuel IH]; intros h1 S1; cbn [shutdown_loop]; [by wp_step|].
    unfold readsysfs. wp_step. wp_step. apply wp_sys_eq. intros f Hf. wp_step.
    replace (ret f <? 0) with true by (specialize (HK h1 (sysfs_path (name (mic w)) (B "shutdown_status"))
      O_RDONLY); rewrite Hf in HK; lia).
    wp_go. by apply IH. }
  eapply wp_wand; [by apply (Hloop 59%nat)|]. intros o w' h' (-> & -> & S'). by wp_step.
Qed.

(** ** The configuration thread leaves nothing behind *)

(** A postcondition that asks something of returning runs only. *)
Definition returning (l : list resource) (Q : outcome unit -> world -> list (event call) -> Prop) : Prop :=
  (forall w h, held h = Some l -> Q (Ret tt) w h) /\ (forall c w h, Q (Exit c) w h) /\
  (forall w h, Q Crash w h) /\ (forall w h, Q NoFuel w h).

Lemma shutdown_loop_held fuel i nm K w h l Q :
  held h = Some l -> returning l Q -> wp (shutdown_loop fuel i nm) K w h Q.
Proof.
  intros Hh (HQ & HE & HC & HN). revert i w h Hh. induction fuel as [|fuel IH]; intros i w h Hh;
    cbn [shutdown_loop]; [by wp_step|]. destruct i as [|i]; [wp_step; by apply HQ|].
  wp_step. apply (readsysfs_held _ _ _ _ _ l); [done|]. intros [st|] h1 H1 _; simpl owned in H1;
    simpl app in H1; wp_step; [|by apply IH].
  unfold get_mic_shutdown_status. wp_go; try done.
  all: first [apply HQ; held_solve | apply IH; held_solve].
Qed.

Lemma handle_shutdown_held fuel K w h l Q :
  held h = Some l -> returning l Q -> wp (mic_handle_shutdown fuel) K w h Q.
Proof.
  intros Hh HR. destruct HR as (HQ & HE & HC & HN). unfold mic_handle_shutdown.
  wp_step. wp_step. wp_step. wp_step. apply (shutdown_loop_held _ _ _ _ _ _ l); [done|].
  split_and!; intros; wp_go; try done.
  1, 3: apply (reset_spec _ _ _ l); [held_solve|]; intros; by apply HQ.
  all: apply HQ; held_solve.
Qed.

Lemma init_mic_held fuel K w h l Q :
  held h = Some l -> returning l Q -> wp (init_mic fuel) K w h Q.
Proof.
  intros Hh (HQ & HE & HC & HN).
  assert (forall n w h, wp (sleep_forever n) K w h Q) as Hsleep.
  { induction n as [|n IH]; intros w1 h1; cbn [sleep_forever]; [by wp_step|]. wp_go. apply IH. }
  unfold init_mic. wp_step. apply wp_sys_any. intros g. wp_step. wp_step. apply wp_sys_any. intros f.
  wp_step. wp_step. wp_step. wp_step. destruct (ret f =? 0).
  { do 8 (apply wp_bind_any; [intros|done..]). apply Hsleep. }
  destruct (ret f =? -1). { wp_step. apply HQ. held_solve. }
  wp_step. wp_step. wp_step. wp_step. destruct (truthy _).
  - wp_step. apply (setsysfs_held _ _ _ _ _ _ l); [held_solve|]. intros r h1 H1. wp_go. apply HQ. held_solve.
  - wp_go. apply HQ. held_solve.
Qed.

Lemma read_state_held fuel nm K w h l (Q : outcome cptr -> world -> list (event call) -> Prop) :
  held h = Some l ->
  (forall st h', held h' = Some (Block (block st) :: l) -> Q (Ret st) w h') ->
  (forall h', Q NoFuel w h') -> wp (read_state fuel nm) K w h Q.
Proof.
  intros Hh HQ HN. revert h Hh. induction fuel as [|fuel IH]; intros h Hh; cbn [read_state]; [by wp_step|].
  wp_step. apply (readsysfs_held _ _ _ _ _ l); [done|]. intros [st|] h1 H1 _; simpl owned in H1;
    simpl app in H1; wp_step; [wp_step; by apply HQ|by apply IH].
Qed.

Lemma config_loop_held fuel n fd K w h l Q :
  held h = Some (Fd fd :: l) -> returning l Q -> wp (config_loop fuel n fd) K w h Q.
Proof.
  intros Hh HR. pose proof HR as (HQ & HE & HC & HN). revert w h Hh.
  induction n as [|n IH]; intros w h Hh; cbn [config_loop]; [by wp_step|].
  wp_step. wp_step. wp_step. cbv zeta. wp_step. apply wp_sys_any. intros s. wp_step.
  destruct (ret s <? 0). { wp_go. apply HQ. held_solve. }
  wp_step. apply wp_sys_any. intros r. wp_step. destruct (ret r <? 0). { wp_go. apply HQ. held_solve. }
  wp_step. apply (read_state_held _ _ _ _ _ (Fd fd :: l)); [held_solve| |by intros; wp_step].
  intros st h1 H1. wp_step.
  unfold get_mic_state. wp_go.
  all: try first [apply HC | apply HQ; held_solve | apply IH; held_solve].
  - apply (setsysfs_held _ _ _ _ _ _ (Block (block st) :: Fd fd :: l)); [done|]. intros. wp_go.
    all: first [apply HQ; held_solve | apply IH; held_solve].
  - apply (handle_shutdown_held _ _ _ _ (Block (block st) :: Fd fd :: l)); [done|].
    split_and!; intros; wp_go; auto. apply HQ. held_solve.
  - apply (setsysfs_held _ _ _ _ _ _ (Block (block st) :: Fd fd :: l)); [done|]. intros. wp_step. wp_step.
    apply (handle_shutdown_held _ _ _ _ (Block (block st) :: Fd fd :: l)); [done|].
    split_and!; intros; wp_go; auto. apply HQ. held_solve.
Qed.

(** A configuration thread that ends, on whichever of its error paths or after
    a shutdown or a suspend, has closed the state file and freed every string it
    read. *)
Theorem config_resources fuel K w h l w' h' :
  held h = Some l -> mic_config fuel K w h = (Ret tt, w', h') -> held h' = Some l.
Proof.
  intros Hh E.
  enough (wp (mic_config fuel) K w h (fun o _ h' => o = Ret tt -> held h' = Some l)) as Hwp.
  { eapply wp_elim in Hwp; [|exact E]. by apply Hwp. }
  assert (forall w h, held h = Some l -> wp (init_mic fuel ;; (sys PthreadExit ;; io_ret tt))%io K w h
    (fun o _ h' => o = Ret tt -> held h' = Some l)) as Hend.
  { intros w1 h1 H1. wp_step. apply (init_mic_held _ _ _ _ l); [done|]. split_and!; intros; wp_go; try done.
    intros _. held_solve. }
  unfold mic_config. wp_step. wp_step. wp_step. wp_step. apply wp_sys_any. intros f. wp_step. wp_step.
  destruct (ret f <? 0) eqn:Ef; wp_const || idtac.
  - wp_step. wp_step. apply Hend. held_solve.
  - apply (config_loop_held _ _ _ _ _ _ l); [held_solve|]. split_and!; intros; wp_step; try done. by apply Hend.
Qed.

(** ** The list of cards *)

Fixpoint reads (h : list (event call)) : nat :=
  match h with
  | [] => 0
  | (Readdir _, _) :: h' => S (reads h')
  | _ :: h' => reads h'
  end.

(** A directory that lists [names], and memory for the cards. *)
Record directory (K : kernel call) (names : list (list Z)) : Prop := {
  dir_open : forall h p, ret (K h (Opendir p)) <> 0;
  dir_read : forall h d,
    match names !! reads h with
    | Some n => ret (K h (Readdir d)) <> 0 /\ data (K h (Readdir d)) = n ++ [0]
    | None => ret (K h (Readdir d)) = 0
    end;
  dir_malloc : forall h n, ret (K h (Malloc n)) <> 0;
  dir_names : Forall zero_free names
}.

Definition is_card (n : list Z) : bool := bool_decide (ztake 3 n = B "mic").
Definition card (n : list Z) : mic_info := blank_mic (atoi (zdrop 3 n)) (Some n).
Definition cards_of (names : list (list Z)) : list mic_info := card <$> List.filter is_card names.

Lemma list_cards_spec fuel dp K names w h (Q : outcome (list mic_info) -> world -> list (event call) -> Prop) :
  directory K names -> (reads h <= length names)%nat -> (length names - reads h < fuel)%nat ->
  (forall h', Q (Ret (cards_of (drop (reads h) names))) w h') ->
  wp (list_cards fuel dp) K w h Q.
Proof.
  intros HK. revert h Q. induction fuel as [|fuel IH]; intros h Q Hle Hf HQ; cbn [list_cards]; [lia|].
  wp_step. apply wp_sys_eq. intros e He. wp_step. pose proof (dir_read _ _ HK h dp) as Hd. rewrite He in Hd.
  destruct (names !! reads h) as [n|] eqn:En.
  2: { rewrite Hd. simpl Z.eqb. wp_const. wp_step. rewrite drop_ge in HQ by (by apply lookup_ge_None). apply HQ. }
  destruct Hd as [Hne Hdata]. replace (ret e =? 0) with false by lia. cbv zeta.
  assert (cstr (data e) = n) as ->.
  { rewrite Hdata. apply cstr_id. pose proof (dir_names _ _ HK) as Hz. rewrite Forall_lookup in Hz. by eapply Hz. }
  rewrite (drop_S _ n) in HQ by done. unfold cards_of in HQ. cbn [List.filter] in HQ.
  assert (reads h < length names)%nat by (by eapply lookup_lt_Some).
  unfold is_card at 1 in HQ. destruct (bool_decide (ztake 3 n = B "mic")) eqn:Ec.
  - wp_step. apply wp_sys_eq. intros c Hc. wp_step.
    assert ((ret c =? 0) = false) as -> by (apply Z.eqb_neq; rewrite <- Hc; apply (dir_malloc _ _ HK)).
    wp_step. apply wp_sys_eq. intros p Hp. wp_step.
    assert ((ret p =? 0) = false) as -> by (apply Z.eqb_neq; rewrite <- Hp; apply (dir_malloc _ _ HK)).
    wp_step. apply IH; [cbn; lia|cbn; lia|]. intros h'. wp_step. wp_step. apply HQ.
  - apply IH; [cbn; lia|cbn; lia|]. intros h'. apply HQ.
Qed.

Lemma init_mic_list_spec fuel K names w h
    (Q : outcome (list mic_info) -> world -> list (event call) -> Prop) :
  directory K names -> (length names < fuel)%nat -> reads h = 0%nat ->
  (forall h', Q (Ret (cards_of names)) w h') ->
  wp (init_mic_list fuel) K w h Q.
Proof.
  intros HK Hf Hr HQ. unfold init_mic_list. wp_step. apply wp_sys_eq. intros d Hd. wp_step.
  assert ((ret d =? 0) = false) as -> by (apply Z.eqb_neq; rewrite <- Hd; apply (dir_open _ _ HK)).
  wp_step. apply (list_cards_spec _ _ _ names); [done|cbn; lia|cbn; lia|]. intros h'. wp_go. cbn [reads].
  rewrite Hr. apply HQ.
Qed.

(** From a readable directory with memory available, [init_mic_list] makes one
    card for each entry whose name starts with "mic", in the order of the
    directory, with the number in the name as its id; [main], in the child of its
    fork, exits with 3 when there is none. *)
Theorem cards_listed fuel K names w :
  directory K names -> (length names < fuel)%nat ->
  (exists h, init_mic_list fuel K w [] = (Ret (cards_of names), w, h)) /\
  (forall n, 0 <= n < 1000 -> card (B "mic" ++ dec n) = blank_mic n (Some (B "mic" ++ dec n))) /\
  (cards_of names = [] -> (forall h, ret (K h Fork) = 0) -> (forall h p, ret (K h (Fopen p)) <> 0) ->
   exists w' h, main fuel K w [] = (Exit 3, w', h)).
Proof.
  intros HK Hf. split; [|split].
  - pose proof (init_mic_list_spec fuel K names w [] (fun o w' _ => o = Ret (cards_of names) /\ w' = w)
      HK Hf eq_refl) as Hwp.
    unfold wp in Hwp. destruct (init_mic_list fuel K w []) as [[o w'] h]. destruct Hwp as [-> ->]; [done|].
    by eexists.
  - intros n Hn. unfold card. f_equal.
    pose proof (seqZ_forallb (fun n => atoi (zdrop 3 (B "mic" ++ dec n)) =? n) 0 1000 ltac:(by vm_compute) n Hn).
    lia.
  - intros Hnil Hfork Hlog.
    enough (wp (main fuel) K w [] (fun o _ _ => o = Exit 3)) as Hwp.
    { unfold wp in Hwp. destruct (main fuel K w []) as [[o w'] h]. subst o. by eexists _, _. }
    unfold main. wp_step. apply wp_sys_eq. intros lg Hlg. wp_step.
    assert ((ret lg =? 0) = false) as -> by (apply Z.eqb_neq; rewrite <- Hlg; apply Hlog).
    wp_step. apply wp_sys_eq. intros f Hfk. wp_step.
    assert (ret f = 0) as -> by (rewrite <- Hfk; apply Hfork). simpl Z.eqb. wp_const.
    wp_step. apply (init_mic_list_spec _ _ names); [done|done|done|]. intros h'. wp_step.
    rewrite Hnil. by wp_step.
Qed.

End Daemon.

(** ** Concrete runs *)

#[local] Existing Instance sample_abi.

(** A card that has halted and is reset: its state is one of the documented values, too. *)
Definition halting_kernel : kernel call := fun h c =>
  match c with
  | Open _ _ => aret 4
  | Read fd _ =>
      match opened h fd with
      | Some p => if bool_decide (p = sysfs_path (name (mic some_world)) (B "state")) then Ans 8 0 (B "offline" ++ [10]) else Ans 7 0 (B "halted" ++ [10])
      | None => aerr EIO
      end
  | Malloc _ => aret 64
  | Kill _ _ => aret 0
  | Waitpid p => aret p
  | _ => aret 0
  end.

Lemma paths_differ nm : sysfs_path nm (B "shutdown_status") <> sysfs_path (name (mic some_world)) (B "state").
Proof.
  set (p := sysfs_path (name (mic some_world)) (B "state")). assert (zlen p < 100 /\ last p = Some 101) as [Hz Hp] by (by vm_compute).
  clearbody p. unfold sysfs_path. set (x := match nm with Some d => _ | None => _ end).
  assert (last x = Some 115) as Hx by (unfold x; destruct nm; rewrite !last_app; reflexivity). clearbody x. unfold snprintf, ztake.
  intros E. assert (length x < 4095)%nat as Hl.
  { destruct (Nat.lt_ge_cases (length x) 4095) as [|Hge]; [done|]. apply (f_equal length) in E. rewrite length_take in E. unfold zlen in Hz.
    change (Z.to_nat (PATH_MAX - 1)) with 4095%nat in E. lia. }
  rewrite take_ge in E by (change (Z.to_nat (PATH_MAX - 1)) with 4095%nat; lia). congruence.
Qed.

Lemma halting_readable : status_readable halting_kernel.
Proof.
  split; try done. intros h fd nm E. exists MIC_HALTED. cbn. rewrite E. by rewrite bool_decide_eq_false_2 by apply paths_differ.
Qed.

Lemma shutdown_terminates_witness :
  exists w' h', mic_handle_shutdown 61 halting_kernel some_world [] = (Ret tt, w', h') /\
    held h' = Some [] /\ maybe_restart some_world w' /\ sleeps h' <= 180.
Proof.
  apply (shutdown_terminates 61 halting_kernel some_world [] [] halting_readable eq_refl). lia.
Defined.

Lemma shutdown_spins_witness :
  exists h', mic_handle_shutdown 1000 (fun _ _ => aerr EIO) some_world [] = (NoFuel, some_world, h') /\
    sleeps h' = 0.
Proof. apply (shutdown_spins 1000 (fun _ _ => aerr EIO) some_world []). simpl. lia. Defined.

(** The state file reads "shutting_down", its attribute "halted"; the fork of the
    restart fails. *)
Definition config_kernel : kernel call := fun h c =>
  match c with
  | Open p _ => aret (if bool_decide (p = sysfs_path (Some (B "mic0")) (B "shutdown_status")) then 9 else 4)
  | Read fd _ => if fd =? 9 then Ans 7 0 (B "halted" ++ [10]) else Ans 14 0 (B "shutting_down" ++ [10])
  | Malloc _ => aret 64
  | Fork => aerr EAGAIN
  | _ => aret 0
  end.

Definition config_run := mic_config 70 config_kernel some_world [].

Lemma config_resources_witness :
  fst (fst config_run) = Ret tt /\ held (snd config_run) = Some [].
Proof.
  split; [vm_compute; reflexivity|].
  apply (config_resources 70 config_kernel some_world [] [] (snd (fst config_run)) (snd config_run) eq_refl).
  vm_compute. reflexivity.
Defined.

Definition names_kernel (names : list (list Z)) : kernel call := fun h c =>
  match c with
  | Readdir _ => match names !! reads h with Some n => Ans 1 0 (n ++ [0]) | None => aret 0 end
  | Opendir _ | Malloc _ => aret 64
  | _ => aret 0
  end.

Lemma cards_listed_witness :
  exists h, init_mic_list 5 (names_kernel [B "."; B "mic3"; B "mic0"]) some_world [] =
    (Ret [blank_mic 3 (Some (B "mic3")); blank_mic 0 (Some (B "mic0"))], some_world, h).
Proof.
  apply (cards_listed 5 (names_kernel [B "."; B "mic3"; B "mic0"]) [B "."; B "mic3"; B "mic0"] some_world).
  - split; try done.
    + intros h d. simpl. by destruct (_ !! reads h).
    + by repeat constructor.
  - simpl. lia.
Defined.

End Daemon.
