(* ===== verification/MicControl.v ===== *)
(** * The control scripts of the MIC stack: mic/mpssd/micctrl and mic/mpssd/mpss

    [micctrl] writes the state files of the cards; the service script [mpss] loads the
    modules, starts the daemon, boots the cards through [micctrl] and waits for them to
    answer, and takes all of it down again.  A shell command is a call whose answer has
    the exit status and what it wrote to its output.  The theorems follow the scripts
    through the cards, and tie the address [mpss] pings to the command line the daemon
    gave the card. *)

From S2P Require Import Prelude Posix CArray Output Mic MicDaemon.
Import Mic Daemon.

Module Control.

Open Scope Z_scope.

Inductive call : Type :=
| Echo (text : list Z)                        (* echo, to the terminal *)
| IsDir (path : list Z)                       (* test -d *)
| IsExec (path : list Z)                      (* test -x *)
| Cat (path : list Z)
| Put (path text : list Z)                    (* echo text > path *)
| Sleep (n : Z)
| Ps                                          (* the commands of ps -e, a line each *)
| Modprobe (remove : bool) (modules : list (list Z))
| Run (exec : list Z)
| Ping (address : list Z)
| Killall (prog : list Z)
| Success | Failure.                          (* of /etc/init.d/functions *)

(** ** Shell text *)

(** A command substitution drops the newlines at the end. *)
Fixpoint drop_newlines (l : list Z) : list Z := match l with c :: r => if c =? 10 then drop_newlines r else l | [] => [] end.
Definition subst (l : list Z) : list Z := reverse (drop_newlines (reverse l)).

(** [cut -d c -f1] of a line. *)
Fixpoint before (c : Z) (l : list Z) : list Z :=
  match l with [] => [] | x :: r => if x =? c then [] else x :: before c r end.

(** [${l#*pat}]: without the shortest prefix that ends in [pat]. *)
Fixpoint strip_through (pat l : list Z) : option (list Z) :=
  if bool_decide (ztake (zlen pat) l = pat) then Some (zdrop (zlen pat) l)
  else match l with [] => None | _ :: r => strip_through pat r end.

Definition strip_prefix (pat l : list Z) : list Z := default l (strip_through pat l).

Definition blank (c : Z) : bool := (c =? 32) || (c =? 9) || (c =? 10).

(** The arguments of a command without quotes, as [echo] joins them: [sep] holds when a blank was passed after a word. *)
Fixpoint unquoted_from (started sep : bool) (l : list Z) : list Z :=
  match l with
  | [] => []
  | c :: r =>
      if blank c then unquoted_from started started r
      else (if sep then [32; c] else [c]) ++ unquoted_from true false r
  end.

Definition unquoted (l : list Z) : list Z := unquoted_from false false l.

Fixpoint lines_from (cur : list Z) (l : list Z) : list (list Z) :=
  match l with
  | [] => if bool_decide (cur = []) then [] else [reverse cur]
  | c :: r => if c =? 10 then reverse cur :: lines_from [] r else lines_from (c :: cur) r
  end.

Definition lines (l : list Z) : list (list Z) := lines_from [] l.

(** [grep pat | head -1] *)
Definition first_with (pat : list Z) (ls : list (list Z)) : list Z := default [] (head (filter (fun l => is_Some (strstr l pat)) ls)).

(** ** micctrl *)

Section Scripts.

(** What [$sysfs/*] stands for: the names of the cards. *)
Context (cards : list (list Z)).

Open Scope io_scope.

Definition sysfs : list Z := MICSYSFSDIR.
Definition file (card f : list Z) : list Z := sysfs ++ B "/" ++ card ++ B "/" ++ f.

Definition echo (t : list Z) : io call unit Z := let* a := sys (Echo t) in io_ret (ret a).

Definition _status (card : list Z) : io call unit Z :=
  let* s := sys (Cat (file card (B "state"))) in
  let* d := sys (Cat (file card (B "shutdown_status"))) in
  echo (card ++ B " state: " ++ subst (data s) ++ B " shutdown_status: " ++ subst (data d)).

Definition _reset (card : list Z) : io call unit Z :=
  let* a := sys (Put (file card (B "state")) (B "reset")) in io_ret (ret a).

Definition _boot (card : list Z) : io call unit Z :=
  sys (Put (file card (B "bootmode")) (B "linux")) ;;
  sys (Put (file card (B "firmware")) (B "mic/uos.img")) ;;
  sys (Put (file card (B "ramdisk")) (B "mic/" ++ card ++ B ".image")) ;;
  let* a := sys (Put (file card (B "state")) (B "boot")) in io_ret (ret a).

Definition _shutdown (card : list Z) : io call unit Z :=
  let* a := sys (Put (file card (B "state")) (B "shutdown")) in io_ret (ret a).

(** [status] is that of the last command. *)
Fixpoint _wait (fuel : nat) (status : Z) (card : list Z) : io call unit Z :=
  match fuel with
  | O => nofuel
  | S fuel =>
      let* a := sys (Cat (file card (B "state"))) in
      let* b := sys (Cat (file card (B "state"))) in
      if bool_decide (subst (data a) <> B "offline") && bool_decide (subst (data b) <> B "online") then
        sys (Sleep 1) ;;
        let* r := echo (B "Waiting for " ++ card ++ B " to go offline") in
        _wait fuel r card
      else io_ret status
  end.

(** The loop over the cards. *)
Fixpoint each (f : list Z -> io call unit Z) (l : list (list Z)) : io call unit Z :=
  match l with
  | [] => io_ret 0
  | c :: r => let* s := f c in if negb (s =? 0) then io_ret s else each f r
  end.

(** A card by name, or every card. *)
Definition one_or_each (f : list Z -> io call unit Z) (arg : list Z) : io call unit Z :=
  if bool_decide (ztake 3 arg = B "mic") then f arg else each f cards.

Definition status := one_or_each _status.
Definition reset := one_or_each _reset.
Definition boot := one_or_each _boot.
Definition shutdown := one_or_each _shutdown.
Definition wait (fuel : nat) := one_or_each (_wait fuel 0).

(** The script, as the status it ends with. *)
Definition micctrl (fuel : nat) (opt arg : list Z) : io call unit Z :=
  let* d := sys (IsDir sysfs) in
  if negb (ret d =? 0) then echo (B "Module unloaded ") ;; io_ret 3
  else if bool_decide (opt = B "-s") then status arg
  else if bool_decide (opt = B "-r") then reset arg
  else if bool_decide (opt = B "-b") then boot arg
  else if bool_decide (opt = B "-S") then shutdown arg
  else if bool_decide (opt = B "-w") then wait fuel arg
  else echo (B "Usage: micctrl {-s (status) |-r (reset) |-b (boot) |-S (shutdown) |-w (wait)}") ;; io_ret 2.

(** ** mpss *)

Definition exec : list Z := B "/usr/sbin/mpssd".

(** The address in the command line of a card's kernel. *)
Definition address (cmdline : list Z) : list Z :=
  let ipaddr := subst cmdline in
  let ipaddr := strip_prefix (B "address,") ipaddr in
  before 59 (before 44 (unquoted ipaddr)).

(** [test $RETVAL -ne 0 && failure || success] and the newline. *)
Definition report (RETVAL : Z) : io call unit Z :=
  (if negb (RETVAL =? 0) then
     let* f := sys Failure in if negb (ret f =? 0) then sys Success ;; io_ret tt else io_ret tt
   else sys Success ;; io_ret tt) ;;
  echo [].

(** The pings of one card; the count and the status of the last ping. *)
Fixpoint ping_loop (n : nat) (RETVAL : Z) (card addr : list Z) : io call unit Z :=
  match n with
  | O => io_ret RETVAL
  | S n =>
      sys (Echo (B "Pinging " ++ card ++ B " ")) ;;
      let* a := sys (Ping addr) in
      if ret a =? 0 then sys Success ;; io_ret (ret a)
      else sys (Sleep 1) ;; ping_loop n (ret a) card addr
  end.

(** [count] runs from 100 down to 0. *)
Definition ping_card (RETVAL : Z) (card : list Z) : io call unit Z :=
  let* c := sys (Cat (file card (B "cmdline"))) in
  let* r := ping_loop 101 RETVAL card (address (data c)) in
  report r ;; io_ret r.

Fixpoint ping_cards (RETVAL : Z) (l : list (list Z)) : io call unit Z :=
  match l with
  | [] => io_ret RETVAL
  | c :: r => let* s := ping_card RETVAL c in ping_cards s r
  end.

Fixpoint load (l : list (list Z)) : io call unit Z :=
  match l with
  | [] => io_ret 0
  | f :: r =>
      let* a := sys (Modprobe false [f]) in
      if negb (ret a =? 0) then sys Failure ;; sys (Echo []) ;; io_ret (ret a) else load r
  end.

Definition running (ps : list Z) : bool := bool_decide (first_with (B "mpssd") (lines ps) = B "mpssd").

Definition start (fuel : nat) : io call unit Z :=
  let* x := sys (IsExec exec) in
  if negb (ret x =? 0) then exit_ 5
  else
    let* p := sys Ps in
    if running (data p) then
      echo (B "MPSSD already running! ") ;; sys Success ;; echo [] ;; io_ret 0
    else
      echo (B "Starting MPSS Stack") ;;
      echo (B "Loading MIC_X100_DMA & MIC_HOST Modules") ;;
      let* l := load [B "mic_host"; B "mic_x100_dma"] in
      if negb (l =? 0) then io_ret l
      else
        echo (B "Starting MPSSD ") ;;
        let* d := sys (Run exec) in
        if negb (ret d =? 0) then sys Failure ;; echo [] ;; io_ret (ret d)
        else
          sys Success ;; echo [] ;;
          sys (Sleep 5) ;;
          micctrl fuel (B "-b") [] ;;
          ping_cards (ret d) cards.

Fixpoint until_offline (fuel : nat) (card : list Z) : io call unit unit :=
  match fuel with
  | O => nofuel
  | S fuel =>
      let* a := sys (Cat (file card (B "state"))) in
      if bool_decide (subst (data a) = B "offline") then io_ret tt
      else
        sys (Sleep 1) ;;
        echo (B "Waiting for " ++ card ++ B " to go offline") ;;
        until_offline fuel card
  end.

Fixpoint all_offline (fuel : nat) (l : list (list Z)) : io call unit unit :=
  match l with
  | [] => io_ret tt
  | c :: r => until_offline fuel c ;; all_offline fuel r
  end.

Definition stop (fuel : nat) : io call unit Z :=
  echo (B "Shutting down MPSS Stack: ") ;;
  let* d := sys (IsDir sysfs) in
  if negb (ret d =? 0) then echo (B "Module unloaded ") ;; sys Success ;; echo [] ;; io_ret 0
  else
    micctrl fuel (B "-S") [] ;;
    all_offline fuel cards ;;
    micctrl fuel (B "-s") [] ;;
    echo (B "Killing MPSSD") ;;
    let* k := sys (Killall (B "mpssd")) in
    report (ret k) ;;
    io_ret (ret k).

Definition restart (fuel : nat) : io call unit Z := stop fuel ;; sys (Sleep 5) ;; start fuel.

Definition mpss_status (fuel : nat) : io call unit Z :=
  micctrl fuel (B "-s") [] ;;
  let* p := sys Ps in
  (if running (data p) then echo (B "mpssd is running") else echo (B "mpssd is stopped")) ;;
  io_ret 0.

Definition unload (fuel : nat) : io call unit Z :=
  let* d := sys (IsDir sysfs) in
  if negb (ret d =? 0) then echo (B "No MIC_HOST Module: ") ;; sys Success ;; echo []
  else
    stop fuel ;;
    sys (Sleep 5) ;;
    echo (B "Removing MIC_HOST & MIC_X100_DMA Modules: ") ;;
    let* r := sys (Modprobe true [B "mic_host"; B "mic_x100_dma"]) in
    report (ret r) ;;
    io_ret (ret r).

(** The script ends with the status of its command. *)
Definition mpss (fuel : nat) (cmd : list Z) : io call unit Z :=
  let* r := (if bool_decide (cmd = B "start") then start fuel
             else if bool_decide (cmd = B "stop") then stop fuel
             else if bool_decide (cmd = B "restart") then restart fuel
             else if bool_decide (cmd = B "status") then mpss_status fuel
             else if bool_decide (cmd = B "unload") then unload fuel
             else echo (B "Usage: mpss {start|stop|restart|status|unload}") ;; exit_ 2) in
  exit_ r.

Close Scope io_scope.

(** ** The address *)

Lemma before_stop c l r : Forall (fun x => x <> c) l -> before c (l ++ c :: r) = l.
Proof.
  induction 1 as [|x l Hx _ IH]; cbn; [by rewrite Z.eqb_refl|]. by rewrite (proj2 (Z.eqb_neq _ _) Hx), IH.
Qed.

Lemma unquoted_word l b : Forall (fun x => blank x = false) l -> unquoted_from b false l = l.
Proof. intros Hl. revert b. induction Hl as [|x l Hx _ IH]; intros b; cbn; [done|]. by rewrite Hx, IH. Qed.

Lemma subst_line l c : c <> 10 -> subst (l ++ [c; 10]) = l ++ [c].
Proof.
  intros Hc. unfold subst. rewrite reverse_app. change (reverse [c; 10]) with [10; c]. cbn [app drop_newlines].
  change (10 =? 10) with true. cbn iota. rewrite (proj2 (Z.eqb_neq _ _) Hc). by rewrite reverse_cons, reverse_involutive.
Qed.

Lemma address_text d : Forall digit d ->
  address (B "clocksource=tsc highres=off nohz=off cpufreq_on;corec6_off;pc3_off;pc6_off ifcfg=static;address,172.31." ++ d ++
    B ".1;netmask,255.255.255.0" ++ [10]) = B "172.31." ++ d ++ B ".1".
Proof.
  intros Hd. unfold address. set (P := B "clocksource=tsc highres=off nohz=off cpufreq_on;corec6_off;pc3_off;pc6_off ifcfg=static;address,172.31.").
  replace (subst (P ++ d ++ B ".1;netmask,255.255.255.0" ++ [10])) with (P ++ d ++ B ".1;netmask,255.255.255.0"); cycle 1.
  { change (B ".1;netmask,255.255.255.0" ++ [10]) with (B ".1;netmask,255.255.255." ++ [48; 10]).
    rewrite !app_assoc, subst_line, <- !app_assoc by done. done. }
  change (strip_prefix (B "address,") (P ++ d ++ B ".1;netmask,255.255.255.0")) with (B "172.31." ++ d ++ B ".1;netmask,255.255.255.0").
  unfold unquoted. rewrite unquoted_word; cycle 1.
  { rewrite !Forall_app. split_and!; [by repeat constructor| |by repeat constructor].
    eapply Forall_impl; [exact Hd|]. intros c Hc. unfold digit in Hc. unfold blank. lia. }
  replace (B "172.31." ++ d ++ B ".1;netmask,255.255.255.0") with ((B "172.31." ++ d ++ B ".1;netmask") ++ 44 :: B "255.255.255.0")
    by (by rewrite <- !app_assoc).
  rewrite before_stop; cycle 1.
  { rewrite !Forall_app. split_and!; [by repeat constructor| |by repeat constructor].
    eapply Forall_impl; [exact Hd|]. intros c Hc. unfold digit in Hc. lia. }
  replace (B "172.31." ++ d ++ B ".1;netmask") with ((B "172.31." ++ d ++ B ".1") ++ 59 :: B "netmask") by (by rewrite <- !app_assoc).
  apply before_stop. rewrite !Forall_app. split_and!; [by repeat constructor| |by repeat constructor].
  eapply Forall_impl; [exact Hd|]. intros c Hc. unfold digit in Hc. lia.
Qed.

Definition card_address (id : Z) : list Z := B "172.31." ++ dec id ++ B ".1".

(** The address found in the command line is the one the daemon put there. *)
Lemma address_cmdline id : 0 <= id -> address (cmdline_text id ++ [10]) = card_address id.
Proof.
  intros Hid. destruct (pretty_digits id Hid) as (d & ds & E & Hd & _). unfold card_address, cmdline_text.
  replace (dec id) with (d :: ds) by done. rewrite <- (address_text _ Hd). f_equal. by rewrite <- !app_assoc.
Qed.

(** ** Effects *)

Definition effect (c : call) : option call :=
  match c with Put _ _ | Modprobe _ _ | Run _ | Ping _ | Killall _ => Some c | _ => None end.

(** What the scripts did to the system, oldest first. *)
Definition effects (h : list (event call)) : list call := trace effect h.

Definition boot_writes (card : list Z) : list call :=
  [Put (file card (B "bootmode")) (B "linux"); Put (file card (B "firmware")) (B "mic/uos.img");
   Put (file card (B "ramdisk")) (B "mic/" ++ card ++ B ".image"); Put (file card (B "state")) (B "boot")].

Lemma effects_cons c a h : effects ((c, a) :: h) = effects h ++ match effect c with Some t => [t] | None => [] end.
Proof. apply trace_cons. Qed.

Lemma effects_quiet c a h : effect c = None -> effects ((c, a) :: h) = effects h.
Proof. intros E. by rewrite effects_cons, E, app_nil_r. Qed.

(** The pings with their status, oldest first. *)
Fixpoint pings (h : list (event call)) : list (list Z * Z) :=
  match h with
  | [] => []
  | (Ping addr, a) :: h => pings h ++ [(addr, ret a)]
  | _ :: h => pings h
  end.

(** The statuses of the pings of one card, at most [n]: it is pinged until it answers. *)
Definition answered (n : nat) (st : list Z) : Prop :=
  exists fails r, st = fails ++ [r] /\ Forall (fun x => x <> 0) fails /\ (length st <= n)%nat /\ (r = 0 \/ length st = n).

Lemma ping_loop_spec card addr K : forall n r h, (0 < n)%nat ->
  wp (ping_loop n r card addr) K tt h (fun o s h' => exists st, o = Ret (default r (last st)) /\ answered n st /\
    effects h' = effects h ++ replicate (length st) (Ping addr) /\ pings h' = pings h ++ ((addr,.) <$> st)).
Proof.
  induction n as [|n IH]; intros r h Hn; [lia|]. cbn [ping_loop]. wp_go.
  - exists [ret a0]. split_and!; [done| | |done].
    + exists [], (ret a0). split_and!; [done|done|cbn; lia|by left; apply Z.eqb_eq].
    + rewrite effects_quiet by done. by rewrite (effects_cons (Ping addr)), effects_quiet.
  - assert (forall x y, effects ((Sleep 1, x) :: (Ping addr, y) :: (Echo (B "Pinging " ++ card ++ B " "), a) :: h) = effects h ++ [Ping addr])
      as He by (intros; rewrite effects_quiet, (effects_cons (Ping addr)), effects_quiet; done).
    destruct n as [|n].
    + cbn [ping_loop]. wp_go. exists [ret a0]. split_and!; [done| |apply He|done].
      exists [], (ret a0). split_and!; [done|done|cbn; lia|by right].
    + eapply wp_wand; [apply IH; lia|]. intros o s h' (st & -> & (fails & r' & -> & Hf & Hl & Hr) & E & Ep).
      exists (ret a0 :: fails ++ [r']). split_and!.
      * by rewrite app_comm_cons, !last_snoc.
      * exists (ret a0 :: fails), r'. cbn [length] in *. split_and!; [done|constructor; [by apply Z.eqb_neq|done]|lia|].
        destruct Hr as [Hr|Hr]; [by left|right; lia].
      * by rewrite E, He, <- app_assoc.
      * rewrite Ep. cbn [pings]. by rewrite <- app_assoc.
Qed.

(** What leaves the effects alone. *)
Definition idle (c : call) : Prop := effect c = None.

Lemma emits_effects {A} (m : io call unit A) K h : emits idle m -> wp m K tt h (fun _ _ h' => effects h' = effects h).
Proof. intros Hm. eapply wp_wand; [apply Hm|]. intros o s h' (t & -> & Ht). by apply trace_quiet. Qed.

Lemma pings_idle t h : Forall (fun e => idle e.1) t -> pings (t ++ h) = pings h.
Proof. induction 1 as [|[c a] t Hc _ IH]; [done|]. by destruct c. Qed.

(** There are as many pings as the effects show. *)
Lemma pings_effects h : length (pings h) = length (List.filter (fun c => match c with Ping _ => true | _ => false end) (effects h)).
Proof.
  induction h as [|[c a] h IH]; [done|]. rewrite effects_cons, List.filter_app, length_app.
  destruct c; cbn; rewrite ?length_app, IH; cbn; lia.
Qed.

Lemma echo_idle t : emits idle (echo t).
Proof. unfold echo. emits. Qed.
#[local] Hint Resolve echo_idle : emits.

Lemma report_idle r : emits idle (report r).
Proof. unfold report. emits. Qed.
#[local] Hint Resolve report_idle : emits.

Fixpoint sleeps (h : list (event call)) : Z :=
  match h with
  | [] => 0
  | (Sleep n, _) :: h => n + sleeps h
  | _ :: h => sleeps h
  end.

Lemma report_returns r K h Q :
  (forall z t, Forall (fun e => idle e.1) t -> sleeps (t ++ h) = sleeps h -> Q (Ret z) tt (t ++ h)) -> wp (report r) K tt h Q.
Proof.
  intros HQ. unfold report, echo. wp_go; [eapply (HQ _ [_; _; _])|eapply (HQ _ [_; _])|eapply (HQ _ [_; _])]; by repeat constructor.
Qed.

Context (ids : list Z -> Z) (K : kernel call).

(** The cards have the command line the daemon gave them. *)
Definition booted_with (l : list (list Z)) : Prop :=
  Forall (fun c => 0 <= ids c /\ forall h, data (K h (Cat (file c (B "cmdline")))) = cmdline_text (ids c) ++ [10]) l.

Definition ping_writes (card : list Z) (k : nat) : list call := replicate k (Ping (card_address (ids card))).

(** The pings of the cards, from the statuses of each. *)
Definition ping_log (l : list (list Z)) (sts : list (list Z)) : list (list Z * Z) :=
  concat (zip_with (fun c st => (card_address (ids c),.) <$> st) l sts).

Lemma ping_card_spec r card h : booted_with [card] ->
  wp (ping_card r card) K tt h (fun o s h' => exists st, o = Ret (default r (last st)) /\ answered 101 st /\
    effects h' = effects h ++ ping_writes card (length st) /\ pings h' = pings h ++ ((card_address (ids card),.) <$> st)).
Proof.
  intros [[Hid Hc] _]%Forall_cons. unfold ping_card. wp_step. apply wp_sys_eq. intros a Ea. wp_step.
  rewrite <- Ea, Hc, address_cmdline by done. wp_step.
  eapply wp_wand; [apply ping_loop_spec; lia|]. intros o s h' (st & -> & Hst & E & Ep). wp_step.
  wp_step. destruct s. apply report_returns. intros z t Ht _. wp_go. exists st. split_and!; [done|done| |].
  - unfold effects at 1. rewrite trace_quiet by done. by rewrite (E : trace effect h' = _), effects_quiet.
  - by rewrite pings_idle, Ep.
Qed.

Lemma answered_last n st r : answered n st -> default r (last st) = default 0 (last st).
Proof. intros (fails & x & -> & _). by rewrite last_snoc. Qed.

Lemma ping_cards_spec : forall l r h, booted_with l ->
  wp (ping_cards r l) K tt h (fun o s h' => exists sts, length sts = length l /\ Forall (answered 101) sts /\
    o = Ret (default r (last (concat sts))) /\
    effects h' = effects h ++ concat (zip_with ping_writes l (length <$> sts)) /\ pings h' = pings h ++ ping_log l sts).
Proof.
  induction l as [|c l IH]; intros r h Hb; cbn [ping_cards].
  - wp_go. exists []. by rewrite !app_nil_r.
  - apply Forall_cons in Hb as [Hc Hl]. wp_step. eapply wp_wand; [apply ping_card_spec; by repeat constructor; apply Hc|].
    intros o [] h1 (st & -> & Hst & E1 & P1). wp_step. eapply wp_wand; [by apply IH|].
    intros o s h2 (sts & Hlen & Hall & -> & E2 & P2). exists (st :: sts). split_and!.
    + cbn. by f_equal.
    + by constructor.
    + f_equal. cbn [concat]. destruct (concat sts) as [|x xs _] using rev_ind; [by rewrite app_nil_r|]. by rewrite app_assoc, !last_snoc.
    + rewrite E2, E1. cbn [fmap list_fmap zip_with concat]. by rewrite app_assoc.
    + rewrite P2, P1. unfold ping_log. cbn [zip_with concat]. by rewrite app_assoc.
Qed.

(** The history grew by what had these effects, without sleeping. *)
Definition did (w : list call) (h h' : list (event call)) : Prop := exists t, h' = t ++ h /\ effects t = w /\ sleeps h' = sleeps h.

Lemma did_effects w h h' : did w h h' -> effects h' = effects h ++ w.
Proof. intros (t & -> & <- & _). apply trace_app. Qed.

Lemma did_trans w1 w2 h h1 h2 : did w1 h h1 -> did w2 h1 h2 -> did (w1 ++ w2) h h2.
Proof.
  intros (t & -> & <- & E1) (u & -> & <- & E2). exists (u ++ t). split_and!; [apply app_assoc|apply trace_app|congruence].
Qed.

Lemma did_nil h : did [] h h.
Proof. by exists []. Qed.

(** A command that works on every card works on all of them. *)
Lemma each_spec (f : list Z -> io call unit Z) (w : list Z -> list call) :
  (forall c h, wp (f c) K tt h (fun o s h' => o = Ret 0 /\ did (w c) h h')) ->
  forall l h, wp (each f l) K tt h (fun o s h' => o = Ret 0 /\ did (concat (w <$> l)) h h').
Proof.
  intros Hf l. induction l as [|c l IH]; intros h; cbn [each].
  - wp_go. split; [done|apply did_nil].
  - wp_step. eapply wp_wand; [apply Hf|]. intros o [] h1 [-> E1]. wp_step. change (negb (0 =? 0)) with false. cbn iota.
    eapply wp_wand; [apply IH|]. intros o [] h2 [-> E2]. split; [done|]. cbn. by eapply did_trans.
Qed.

(** The commands succeed: the daemon is there, the modules load, the files can be written. *)
Record working : Prop := {
  w_dir h : ret (K h (IsDir sysfs)) = 0;
  w_exec h : ret (K h (IsExec exec)) = 0;
  w_put h p t : ret (K h (Put p t)) = 0;
  w_load h m : ret (K h (Modprobe false m)) = 0;
  w_run h : ret (K h (Run exec)) = 0
}.

Definition shutdown_writes (card : list Z) : list call := [Put (file card (B "state")) (B "shutdown")].

Lemma boot_each : working -> forall l h,
  wp (each _boot l) K tt h (fun o s h' => o = Ret 0 /\ did (concat (boot_writes <$> l)) h h').
Proof.
  intros HK. apply each_spec. intros c h. unfold _boot. wp_run. split; [by rewrite (w_put HK)|].
  by eexists [_; _; _; _].
Qed.

Lemma shutdown_each : working -> forall l h,
  wp (each _shutdown l) K tt h (fun o s h' => o = Ret 0 /\ did (concat (shutdown_writes <$> l)) h h').
Proof.
  intros HK. apply each_spec. intros c h. unfold _shutdown. wp_run. split; [by rewrite (w_put HK)|].
  by eexists [_].
Qed.

Lemma wp_sys_ret {S A} c r (k : ans -> io call S A) s h Q : (forall h, ret (K h c) = r) ->
  (forall a, ret a = r -> wp (k a) K s ((c, a) :: h) Q) -> wp (io_bind (sys c) k) K s h Q.
Proof. intros Hc Hk. wp_step. apply wp_sys_eq. intros a Ea. wp_step. apply Hk. by rewrite <- Ea. Qed.

Lemma wp_harmless {A B} (m : io call unit A) (k : A -> io call unit B) h Q : emits idle m ->
  (forall a h', effects h' = effects h -> m K tt h = (Ret a, tt, h') -> wp (k a) K tt h' Q) ->
  (exists a h', m K tt h = (Ret a, tt, h')) -> wp (io_bind m k) K tt h Q.
Proof.
  intros Hm Hk (a & h' & E). apply wp_bind, wp_intro. intros o s' h2 E2. rewrite E in E2. simplify_eq. cbn. apply Hk; [|done].
  exact (wp_elim _ _ _ _ _ _ _ _ (emits_effects m K h Hm) E).
Qed.

(** Printing. *)
Lemma wp_echo {B} t (k : Z -> io call unit B) h Q :
  (forall a h', effects h' = effects h -> wp (k a) K tt h' Q) -> wp (io_bind (echo t) k) K tt h Q.
Proof. intros Hk. apply wp_harmless; [auto with emits|auto|]. unfold echo. by do 2 eexists. Qed.

Lemma wp_quiet {B} c (k : ans -> io call unit B) h Q : effect c = None ->
  (forall a h', effects h' = effects h -> wp (k a) K tt h' Q) -> wp (io_bind (sys c) k) K tt h Q.
Proof. intros Hc Hk. wp_step. apply wp_sys_any. intros a. wp_step. apply Hk. by rewrite effects_quiet. Qed.

Lemma load_spec : working -> forall l h,
  wp (load l) K tt h (fun o s h' => o = Ret 0 /\ effects h' = effects h ++ ((fun m => Modprobe false [m]) <$> l)).
Proof.
  intros HK l. induction l as [|m l IH]; intros h; cbn [load]; [wp_go; by rewrite app_nil_r|].
  eapply wp_sys_ret; [intros; apply (w_load HK)|]. intros a Ea. rewrite Ea. change (negb (0 =? 0)) with false. cbn iota.
  eapply wp_wand; [apply IH|]. intros o [] h1 [-> E1]. split; [done|]. rewrite E1, effects_cons. cbn. by rewrite <- app_assoc.
Qed.

Lemma micctrl_boot fuel h : working ->
  wp (micctrl fuel (B "-b") []) K tt h (fun o s h' => o = Ret 0 /\ did (concat (boot_writes <$> cards)) h h').
Proof.
  intros HK. unfold micctrl. eapply wp_sys_ret; [apply (w_dir HK)|]. intros a Ea. rewrite Ea.
  change (wp (each _boot cards) K tt ((IsDir sysfs, a) :: h) (fun o s h' => o = Ret 0 /\ did (concat (boot_writes <$> cards)) h h')).
  eapply wp_wand; [by apply boot_each|]. intros o s h' [-> Hd]. split; [done|].
  eapply (did_trans []); [|exact Hd]. by eexists [_].
Qed.

Lemma micctrl_shutdown fuel h : working ->
  wp (micctrl fuel (B "-S") []) K tt h (fun o s h' => o = Ret 0 /\ did (concat (shutdown_writes <$> cards)) h h').
Proof.
  intros HK. unfold micctrl. eapply wp_sys_ret; [apply (w_dir HK)|]. intros a Ea. rewrite Ea.
  change (wp (each _shutdown cards) K tt ((IsDir sysfs, a) :: h)
    (fun o s h' => o = Ret 0 /\ did (concat (shutdown_writes <$> cards)) h h')).
  eapply wp_wand; [by apply shutdown_each|]. intros o s h' [-> Hd]. split; [done|].
  eapply (did_trans []); [|exact Hd]. by eexists [_].
Qed.

(** The status of the cards is only shown. *)
Lemma micctrl_status fuel h : working ->
  wp (micctrl fuel (B "-s") []) K tt h (fun o s h' => (exists z, o = Ret z) /\ exists t, h' = t ++ h /\ Forall (fun e => idle e.1) t /\
    sleeps h' = sleeps h).
Proof.
  intros HK. unfold micctrl. eapply wp_sys_ret; [apply (w_dir HK)|]. intros a Ea. rewrite Ea.
  change (wp (each _status cards) K tt ((IsDir sysfs, a) :: h) (fun o s h' => (exists z, o = Ret z) /\
    exists t, h' = t ++ h /\ Forall (fun e => idle e.1) t /\ sleeps h' = sleeps h)).
  assert (forall l h0, (exists t, h0 = t ++ h /\ Forall (fun e => idle e.1) t /\ sleeps h0 = sleeps h) ->
    wp (each _status l) K tt h0 (fun o s h' => (exists z, o = Ret z) /\
      exists t, h' = t ++ h /\ Forall (fun e => idle e.1) t /\ sleeps h' = sleeps h)) as Hl.
  { induction l as [|c l IH]; intros h0 (t & -> & Ht & Es); cbn [each]; [wp_go; split; [by eexists|by exists t]|].
    unfold _status, echo. wp_go; [split; [by eexists|]|apply IH]; (eexists ([_; _; _] ++ t); split; [reflexivity|]);
      (split; [by repeat constructor|done]). }
  apply Hl. exists [(IsDir sysfs, a)]. by repeat constructor.
Qed.

(** C17: Starting the service when no daemon runs and every command works.  The two modules are loaded, then the daemon is started,
    then every card is booted by its four writes, and then the cards are pinged one after the other, each at the address the daemon
    put in its command line: as long as the pings fail, and again up to 101 times; a ping that is answered is the last one of its card.
    The status of the service is that of the last ping of the last card. *)
Theorem start_boots_cards fuel : working -> booted_with cards -> (forall h, running (data (K h Ps)) = false) ->
  exists sts h, start fuel K tt [] = (Ret (default 0 (last (concat sts))), tt, h) /\
    length sts = length cards /\ Forall (answered 101) sts /\ pings h = ping_log cards sts /\
    effects h = [Modprobe false [B "mic_host"]; Modprobe false [B "mic_x100_dma"]; Run exec] ++
      concat (boot_writes <$> cards) ++ concat (zip_with ping_writes cards (length <$> sts)).
Proof.
  intros HK Hb Hp.
  enough (wp (start fuel) K tt [] (fun o s h => exists sts, o = Ret (default 0 (last (concat sts))) /\ s = tt /\
    length sts = length cards /\ Forall (answered 101) sts /\ pings h = ping_log cards sts /\
    effects h = [Modprobe false [B "mic_host"]; Modprobe false [B "mic_x100_dma"]; Run exec] ++
      concat (boot_writes <$> cards) ++ concat (zip_with ping_writes cards (length <$> sts)))) as Hw.
  { apply wp_result in Hw. destruct (start fuel K tt []) as [[o s] h'].
    destruct Hw as (sts & Eo & Es & Hw). cbn in *. subst. by exists sts, h'. }
  unfold start. eapply wp_sys_ret; [apply (w_exec HK)|]. intros a Ea. rewrite Ea. change (negb (0 =? 0)) with false. cbn iota.
  wp_step. apply wp_sys_eq. intros p Ep. wp_step. rewrite <- Ep, Hp. cbn iota.
  apply wp_echo. intros _ h1 E1. apply wp_echo. intros _ h2 E2. rewrite E1, !effects_quiet in E2 by done. clear E1 Ep Ea.
  wp_step. eapply wp_wand; [by apply load_spec|]. intros o [] h3 [-> E3]. wp_step. change (negb (0 =? 0)) with false. cbn iota.
  apply wp_echo. intros _ h4 E4. eapply wp_sys_ret; [apply (w_run HK)|]. intros d Ed. rewrite Ed.
  change (negb (0 =? 0)) with false. cbn iota. apply wp_quiet; [done|]. intros _ h5 E5. apply wp_echo. intros _ h6 E6.
  apply wp_quiet; [done|]. intros _ h7 E7. wp_step. eapply wp_wand; [by apply micctrl_boot|]. intros o [] h8 [-> E8%did_effects]. wp_step.
  eapply wp_wand; [by apply ping_cards_spec|]. intros o [] h9 (sts & Hl & Hall & -> & E9 & P9). exists sts.
  rewrite E7, E6, E5, effects_cons, E4, E3, E2 in E8. cbn [effect fmap list_fmap] in E8. split_and!; [done..| |].
  - rewrite P9. rewrite (nil_length_inv (pings h8)); [done|]. rewrite pings_effects, E8. cbn.
    clear. induction cards as [|c l IH]; [done|exact IH].
  - rewrite E9, E8. by rewrite <- !app_assoc.
Qed.

(** ** Stopping *)

(** The card was seen offline. *)
Definition seen_offline (card : list Z) (t : list (event call)) : Prop :=
  exists a, (Cat (file card (B "state")), a) ∈ t /\ subst (data a) = B "offline".

(** After [n] seconds of sleep every card is offline. *)
Definition goes_offline (n : Z) : Prop :=
  forall h c, n <= sleeps h -> subst (data (K h (Cat (file c (B "state"))))) = B "offline".

Lemma until_offline_spec n card : goes_offline n -> forall fuel h, Z.max 0 (n - sleeps h) < Z.of_nat fuel ->
  wp (until_offline fuel card) K tt h (fun o s h' => o = Ret tt /\ exists t, h' = t ++ h /\ Forall (fun e => idle e.1) t /\
    seen_offline card t /\ sleeps h <= sleeps h' <= Z.max (sleeps h) n).
Proof.
  intros HK fuel. induction fuel as [|fuel IH]; intros h Hf; cbn [until_offline]; [lia|].
  wp_step. apply wp_sys_eq. intros a Ea. wp_step. case_bool_decide as Ha.
  - wp_go. split; [done|]. exists [(Cat (file card (B "state")), a)]. split_and!; [done|by repeat constructor| |cbn; lia|cbn; lia].
    exists a. split; [by left|done].
  - assert (sleeps h < n) as Hn by (apply Z.nle_gt; intros Hn; apply Ha; rewrite <- Ea; by apply HK).
    unfold echo. wp_step. apply wp_sys_any. intros b. do 4 wp_step. apply wp_sys_any. intros c. do 3 wp_step.
    eapply wp_wand; [apply IH; cbn; lia|]. intros o s h' (-> & t & -> & Ht & (x & Hx & Ex) & Hs). split; [done|].
    eexists (t ++ [_; _; _]). rewrite <- app_assoc. split_and!; [done| | |cbn [sleeps app] in Hs |- *; lia|cbn [sleeps app] in Hs |- *; lia].
    + apply Forall_app. split; [done|]. by repeat constructor.
    + exists x. split; [|done]. apply elem_of_app. by left.
Qed.

Lemma all_offline_spec n fuel : goes_offline n -> Z.max 0 n < Z.of_nat fuel -> forall l h, 0 <= sleeps h ->
  wp (all_offline fuel l) K tt h (fun o s h' => o = Ret tt /\ exists t, h' = t ++ h /\ Forall (fun e => idle e.1) t /\
    Forall (fun c => seen_offline c t) l /\ sleeps h <= sleeps h' <= Z.max (sleeps h) n).
Proof.
  intros HK Hf l. induction l as [|c l IH]; intros h Hs; cbn [all_offline].
  - wp_go. split; [done|]. exists []. split_and!; [done|constructor|constructor|lia|lia].
  - wp_step. eapply wp_wand; [apply until_offline_spec; [done|lia]|]. intros o [] h1 (-> & t & -> & Ht & Hc & Hs1). wp_step.
    eapply wp_wand; [apply IH; lia|]. intros o s h2 (-> & u & -> & Hu & Hl & Hs2). split; [done|]. exists (u ++ t).
    rewrite <- app_assoc. split_and!; [done|by apply Forall_app|constructor|lia|lia].
    + destruct Hc as (a & Ha & Ea). exists a. split; [|done]. apply elem_of_app. by right.
    + eapply Forall_impl; [exact Hl|]. intros x (a & Ha & Ea). exists a. split; [|done]. apply elem_of_app. by left.
Qed.

(** C18: Stopping the service when the cards go offline after some seconds.  Every card is told to shut down, then each is watched
    until it is seen offline, and only then the daemon is killed; nothing else is changed, and the scripts sleep no longer than
    the cards take. *)
Theorem stop_waits_for_cards n fuel h : working -> goes_offline n -> Z.max 0 n < Z.of_nat fuel -> 0 <= sleeps h ->
  exists t1 t2 a t3, stop fuel K tt h = (Ret (ret a), tt, t3 ++ (Killall (B "mpssd"), a) :: t2 ++ t1 ++ h) /\
    effects t1 = concat (shutdown_writes <$> cards) /\ Forall (fun e => idle e.1) (t2 ++ t3) /\
    Forall (fun c => seen_offline c t2) cards /\ sleeps (t3 ++ (Killall (B "mpssd"), a) :: t2 ++ t1 ++ h) <= Z.max (sleeps h) n.
Proof.
  intros HK Hn Hf Hs.
  enough (wp (stop fuel) K tt h (fun o s h' => exists t1 t2 a t3, o = Ret (ret a) /\ s = tt /\
    h' = t3 ++ (Killall (B "mpssd"), a) :: t2 ++ t1 ++ h /\ effects t1 = concat (shutdown_writes <$> cards) /\
    Forall (fun e => idle e.1) (t2 ++ t3) /\ Forall (fun c => seen_offline c t2) cards /\ sleeps h' <= Z.max (sleeps h) n)) as Hw.
  { apply wp_result in Hw. destruct (stop fuel K tt h) as [[o s] h'].
    destruct Hw as (t1 & t2 & a & t3 & Eo & Es & Eh & Hw). cbn in *. subst. by exists t1, t2, a, t3. }
  unfold stop, echo. do 3 wp_step. apply wp_sys_any. intros e. do 3 wp_step. eapply wp_sys_ret; [apply (w_dir HK)|]. intros d Ed.
  rewrite Ed. change (negb (0 =? 0)) with false. cbn iota.
  wp_step. eapply wp_wand; [by apply micctrl_shutdown|]. intros o [] h1 (-> & t1 & -> & E1 & S1). wp_step.
  wp_step. eapply wp_wand; [apply all_offline_spec; [done|done|by rewrite S1]|]. intros o [] h2 (-> & t2 & -> & I2 & Hc & S2). wp_step.
  wp_step. eapply wp_wand; [by apply micctrl_status|]. intros o [] h3 ((z & ->) & t3 & -> & I3 & S3). wp_step.
  do 2 wp_step. apply wp_sys_any. intros e2. do 3 wp_step. wp_step. apply wp_sys_any. intros k. do 2 wp_step.
  apply report_returns. intros z2 t4 I4 S4. wp_go.
  exists (t1 ++ [(IsDir sysfs, d); (Echo (B "Shutting down MPSS Stack: "), e)]), ((Echo (B "Killing MPSSD"), e2) :: t3 ++ t2), k, t4.
  split_and!; [done|done|by cbn [app]; rewrite <- !app_assoc| | | |].
  - unfold effects in *. rewrite trace_app, E1. done.
  - rewrite Forall_app, Forall_cons, Forall_app. done.
  - eapply Forall_impl; [exact Hc|]. intros c (a & Ha & Ea). exists a. split; [|done]. right. apply elem_of_app. by right.
  - rewrite S4. cbn [sleeps]. rewrite S3. rewrite S1 in S2. cbn [sleeps] in S2. lia.
Qed.

(** A card whose shutdown is refused ends [micctrl -S] there, and [mpss] does not look at its status: as the other cards were not
    told to shut down and stay online, [stop] waits for ever. *)
Theorem stop_ignores_refusal c rest fuel h : cards = c :: rest -> (forall h, ret (K h (IsDir sysfs)) = 0) ->
  (forall h p t, ret (K h (Put p t)) <> 0) -> (forall h c, subst (data (K h (Cat (file c (B "state"))))) = B "online") ->
  exists h', stop fuel K tt h = (NoFuel, tt, h') /\ effects h' = effects h ++ shutdown_writes c.
Proof.
  intros Hcards Hd Hp Hon.
  enough (wp (stop fuel) K tt h (fun o s h' => o = NoFuel /\ effects h' = effects h ++ shutdown_writes c)) as Hw.
  { apply wp_result in Hw. destruct (stop fuel K tt h) as [[o []] h']. destruct Hw as [Eo Eh]. cbn in *. subst. by eexists. }
  assert (forall fuel h, wp (until_offline fuel c) K tt h (fun o s h' => o = NoFuel /\ effects h' = effects h)) as Hu.
  { clear fuel h. intros fuel. induction fuel as [|fuel IH]; intros h; cbn [until_offline]; [by wp_go|].
    wp_step. apply wp_sys_eq. intros a Ea. wp_step. rewrite <- Ea, Hon. rewrite bool_decide_eq_false_2 by done.
    apply wp_quiet; [done|]. intros _ h1 E1. apply wp_echo. intros _ h2 E2. eapply wp_wand; [apply IH|]. intros o s h3 [-> E3].
    split; [done|]. by rewrite E3, E2, E1, effects_quiet. }
  unfold stop. apply wp_echo. intros _ h1 E1. eapply wp_sys_ret; [apply Hd|]. intros d Ed. rewrite Ed.
  change (negb (0 =? 0)) with false. cbn iota. unfold micctrl. wp_step. eapply wp_sys_ret; [apply Hd|]. intros d2 Ed2. rewrite Ed2.
  change (wp (each _shutdown cards) K tt ((IsDir sysfs, d2) :: (IsDir sysfs, d) :: h1)
    (wp_k K (fun _ => io_bind (all_offline fuel cards) (fun _ => io_bind (micctrl fuel (B "-s") []) (fun _ =>
       io_bind (echo (B "Killing MPSSD")) (fun _ => io_bind (sys (Killall (B "mpssd"))) (fun k =>
       io_bind (report (ret k)) (fun _ => io_ret (ret k)))))))
     (fun o s h' => o = NoFuel /\ effects h' = effects h ++ shutdown_writes c))).
  rewrite Hcards. cbn [each]. unfold _shutdown. do 2 wp_step. apply wp_sys_eq. intros a Ea. do 3 wp_step.
  rewrite (proj2 (Z.eqb_neq (ret a) 0)) by (rewrite <- Ea; apply Hp). cbn [negb]. do 2 wp_step.
  cbn [all_offline]. do 2 wp_step. eapply wp_wand; [apply Hu|]. intros o s h2 [-> E2]. cbn. split; [done|].
  by rewrite E2, effects_cons, !effects_quiet, E1.
Qed.

End Scripts.

(** ** Witnesses *)

Definition two_cards : list (list Z) := [B "mic0"; B "mic1"].
Definition sample_id (c : list Z) : Z := if bool_decide (c = B "mic1") then 1 else 0.

(** The first card never answers; the states are offline after three seconds. *)
Definition sample_kernel : kernel call := fun h c =>
  match c with
  | Cat p => Ans 0 0 (if bool_decide (p = file (B "mic0") (B "cmdline")) then cmdline_text 0 ++ [10]
                      else if bool_decide (p = file (B "mic1") (B "cmdline")) then cmdline_text 1 ++ [10]
                      else if 3 <=? sleeps h then B "offline" ++ [10] else B "online" ++ [10])
  | Ping a => aret (if bool_decide (a = card_address 1) then 0 else 1)
  | Ps => Ans 0 0 (B "systemd" ++ [10])
  | _ => aret 0
  end.

Lemma sample_working : working sample_kernel.
Proof. by split. Qed.

Lemma start_boots_cards_witness :
  exists sts h, start two_cards 5 sample_kernel tt [] = (Ret (default 0 (last (concat sts))), tt, h) /\
    length sts = length two_cards /\ Forall (answered 101) sts /\ pings h = ping_log sample_id two_cards sts /\
    effects h = [Modprobe false [B "mic_host"]; Modprobe false [B "mic_x100_dma"]; Run exec] ++
      concat (boot_writes <$> two_cards) ++ concat (zip_with (ping_writes sample_id) two_cards (length <$> sts)).
Proof.
  exact (start_boots_cards two_cards sample_id sample_kernel 5 sample_working
    ltac:(repeat (constructor; [by vm_compute|]); by constructor) ltac:(done)).
Defined.

(** Cards that are offline after three seconds. *)
Definition offline_kernel : kernel call := fun h c =>
  match c with Cat _ => Ans 0 0 ((if 3 <=? sleeps h then B "offline" else B "online") ++ [10]) | _ => aret 0 end.

Lemma stop_waits_for_cards_witness :
  exists t1 t2 a t3, stop two_cards 4 offline_kernel tt [] = (Ret (ret a), tt, t3 ++ (Killall (B "mpssd"), a) :: t2 ++ t1 ++ []) /\
    effects t1 = concat (shutdown_writes <$> two_cards) /\ Forall (fun e => idle e.1) (t2 ++ t3) /\
    Forall (fun c => seen_offline c t2) two_cards /\ sleeps (t3 ++ (Killall (B "mpssd"), a) :: t2 ++ t1 ++ []) <= 3.
Proof.
  refine (stop_waits_for_cards two_cards offline_kernel 3 4 [] _ _ _ _); [by split| |done|done].
  intros h c Hs. cbn. by rewrite (proj2 (Z.leb_le _ _) Hs).
Defined.

(** Cards that refuse to shut down. *)
Lemma stop_ignores_refusal_witness :
  exists h', stop two_cards 1000 (fun _ c => match c with IsDir _ => aret 0 | Cat _ => Ans 0 0 (B "online" ++ [10]) | _ => aret 1 end) tt [] =
    (NoFuel, tt, h') /\ effects h' = [Put (file (B "mic0") (B "state")) (B "shutdown")].
Proof.
  exact (stop_ignores_refusal two_cards (fun _ c => match c with IsDir _ => aret 0 | Cat _ => Ans 0 0 (B "online" ++ [10]) | _ => aret 1 end)
    (B "mic0") [B "mic1"] 1000 [] eq_refl ltac:(done) ltac:(done) ltac:(done)).
Defined.

End Control.
