(* ===== verification/V4l2Skeleton.v ===== *)
(** * The V4L2 PCI skeleton driver: Documentation/video4linux/v4l2-pci-skeleton.c

    The driver's operations are functions on its state [skeleton]; an operation
    returns 0 or a negative error, the new state and what it stored for its
    caller.  The video core (the timings helpers) and the videobuf2 framework are
    not part of the tree: the helpers are the class [VideoCore], and the framework
    is a step relation that calls the driver's queue operations the way videobuf2
    documents it.  Probe and remove make calls that acquire and release resources.
    The parts under [#ifdef TODO] are not compiled and not modelled. *)

From S2P Require Import Prelude Posix Resources.

Module Skel.

Open Scope Z_scope.

(** ** Constants of videodev2.h *)

Definition V4L2_PIX_FMT_YUYV := 0x56595559.
Definition V4L2_FIELD_NONE := 1.
Definition V4L2_FIELD_TOP := 2.
Definition V4L2_FIELD_BOTTOM := 3.
Definition V4L2_FIELD_INTERLACED := 4.
Definition V4L2_FIELD_ALTERNATE := 7.
Definition V4L2_COLORSPACE_SMPTE170M := 1.
Definition V4L2_COLORSPACE_REC709 := 3.
Definition V4L2_STD_525_60 := 0xf900.
Definition V4L2_STD_625_50 := 0xff06ff.
Definition V4L2_STD_ALL := 0xffffff.
Definition SKEL_TVNORMS := V4L2_STD_ALL.
Definition V4L2_CAP_VIDEO_CAPTURE := 1.
Definition V4L2_CAP_READWRITE := 0x01000000.
Definition V4L2_CAP_STREAMING := 0x04000000.
Definition V4L2_CAP_DEVICE_CAPS := 0x80000000.
Definition V4L2_INPUT_TYPE_CAMERA := 2.
Definition V4L2_IN_CAP_DV_TIMINGS := 2.
Definition V4L2_IN_CAP_STD := 4.
Definition V4L2_CID_BRIGHTNESS := 0x980900.
Definition V4L2_CID_CONTRAST := 0x980901.
Definition V4L2_CID_SATURATION := 0x980902.
Definition V4L2_CID_HUE := 0x980903.

(** ** Data *)

(** struct v4l2_pix_format; [pix_rest] stands for the fields the driver never
    touches. *)
Record pix_format : Type := Pix {
  pixelformat : Z; width : Z; height : Z; pfield : Z; colorspace : Z;
  bytesperline : Z; sizeimage : Z; priv : Z; pix_rest : Z
}.

(** struct v4l2_dv_timings, as far as the driver looks into it. *)
Record dv_timings : Type := Timings {
  bt_width : Z; bt_height : Z; interlaced : bool; bt_rest : Z
}.

(** struct v4l2_dv_timings_cap *)
Record timings_cap : Type := Cap {
  min_width : Z; max_width : Z; min_height : Z; max_height : Z;
  min_pixelclock : Z; max_pixelclock : Z
}.

Definition skel_timings_cap : timings_cap := Cap 720 1920 480 1080 27000000 74250000.

(** Helpers of the video core. *)
Class VideoCore := {
  v4l2_valid_dv_timings : dv_timings -> timings_cap -> bool;
  v4l2_find_dv_timings_cap : dv_timings -> timings_cap -> option dv_timings;
  v4l2_match_dv_timings : dv_timings -> dv_timings -> bool;
  v4l2_enum_dv_timings_cap : Z -> timings_cap -> option dv_timings
}.

(** What their documentation says of them: valid timings lie within the
    capabilities, and so do the ones found for them. *)
Class VideoCoreOk `{VideoCore} : Prop := {
  valid_in_cap t c : v4l2_valid_dv_timings t c = true ->
    min_width c <= bt_width t <= max_width c /\ min_height c <= bt_height t <= max_height c;
  find_in_cap t c t' : v4l2_find_dv_timings_cap t c = Some t' ->
    min_width c <= bt_width t' <= max_width c /\ min_height c <= bt_height t' <= max_height c
}.

(** struct skeleton; buffers are named by their index in the queue. *)
Record skeleton : Type := Skel {
  std : Z; timings : dv_timings; format : pix_format; input : Z; tvnorms : Z;
  buf_list : list Z; field : Z; sequence : Z
}.

Definition set_std x s := Skel x (timings s) (format s) (input s) (tvnorms s) (buf_list s) (field s) (sequence s).
Definition set_timings x s := Skel (std s) x (format s) (input s) (tvnorms s) (buf_list s) (field s) (sequence s).
Definition set_format x s := Skel (std s) (timings s) x (input s) (tvnorms s) (buf_list s) (field s) (sequence s).
Definition set_input x n s := Skel (std s) (timings s) (format s) x n (buf_list s) (field s) (sequence s).
Definition set_buf_list x s := Skel (std s) (timings s) (format s) (input s) (tvnorms s) x (field s) (sequence s).
Definition set_field x s := Skel (std s) (timings s) (format s) (input s) (tvnorms s) (buf_list s) x (sequence s).
Definition set_sequence x s := Skel (std s) (timings s) (format s) (input s) (tvnorms s) (buf_list s) (field s) x.

(** ** Queue operations *)

Inductive buffer_state : Type := VB2_BUF_STATE_QUEUED | VB2_BUF_STATE_DONE | VB2_BUF_STATE_ERROR.

(** [queue_setup]: error or 0, the state, the number of buffers and the plane
    size.  [fmt] is the image size of a given format. *)
Definition queue_setup (fileio_active : bool) (num_buffers : Z) (fmt : option Z) (nbuffers : Z)
    (skel : skeleton) : Z * skeleton * Z * Z :=
  let skel := set_field (pfield (format skel)) skel in
  if (field skel =? V4L2_FIELD_ALTERNATE) && fileio_active then (- EINVAL, skel, nbuffers, 0)
  else
    let skel := if field skel =? V4L2_FIELD_ALTERNATE then set_field V4L2_FIELD_TOP skel else skel in
    let nbuffers := if u32 (num_buffers + nbuffers) <? 3 then u32 (3 - num_buffers) else nbuffers in
    match fmt with
    | Some size =>
        if size <? sizeimage (format skel) then (- EINVAL, skel, nbuffers, 0)
        else (0, skel, nbuffers, size)
    | None => (0, skel, nbuffers, sizeimage (format skel))
    end.

(** [buffer_prepare]: error or 0, and the payload set. *)
Definition buffer_prepare (plane_size : Z) (skel : skeleton) : Z * option Z :=
  let size := sizeimage (format skel) in
  if plane_size <? size then (- EINVAL, None) else (0, Some size).

Definition buffer_queue (vb : Z) (skel : skeleton) : skeleton :=
  set_buf_list (buf_list skel ++ [vb]) skel.

(** The walk over the list, handing every buffer back; the second component is
    what was handed back, in order. *)
Fixpoint return_walk (bufs : list Z) (state : buffer_state) (skel : skeleton)
    : skeleton * list (Z * buffer_state) :=
  match bufs with
  | [] => (skel, [])
  | b :: rest =>
      let skel := set_buf_list (tl (buf_list skel)) skel in
      let (skel, done) := return_walk rest state skel in
      (skel, (b, state) :: done)
  end.

Definition return_all_buffers (state : buffer_state) (skel : skeleton)
    : skeleton * list (Z * buffer_state) :=
  return_walk (buf_list skel) state skel.

Definition start_streaming (skel : skeleton) : Z * skeleton * list (Z * buffer_state) :=
  let ret := 0 in
  let skel := set_sequence 0 skel in
  if truthy ret then
    let (skel, done) := return_all_buffers VB2_BUF_STATE_QUEUED skel in (ret, skel, done)
  else (ret, skel, []).

Definition stop_streaming (skel : skeleton) : skeleton * list (Z * buffer_state) :=
  return_all_buffers VB2_BUF_STATE_ERROR skel.

(** ** Ioctls *)

Section Ioctls.
Context `{VideoCore}.

Record capability : Type := Capability {
  driver : string; cap_card : string; bus_info : string; device_caps : Z; capabilities : Z
}.

Definition skeleton_querycap (modname pci_name : string) : Z * capability :=
  let dc := Z.lor V4L2_CAP_VIDEO_CAPTURE (Z.lor V4L2_CAP_READWRITE V4L2_CAP_STREAMING) in
  (0, Capability modname "V4L2 PCI Skeleton" ("PCI:" +:+ pci_name) dc (Z.lor dc V4L2_CAP_DEVICE_CAPS)).

Definition skeleton_fill_pix_format (skel : skeleton) (pix : pix_format) : pix_format :=
  let '(w, h, f, c) :=
    if input skel =? 0 then
      (720, if truthy (Z.land (std skel) V4L2_STD_525_60) then 480 else 576,
       V4L2_FIELD_INTERLACED, V4L2_COLORSPACE_SMPTE170M)
    else if interlaced (timings skel) then
      (bt_width (timings skel), bt_height (timings skel) / 2, V4L2_FIELD_ALTERNATE,
       V4L2_COLORSPACE_REC709)
    else
      (bt_width (timings skel), bt_height (timings skel), V4L2_FIELD_NONE, V4L2_COLORSPACE_REC709) in
  let bpl := u32 (w * 2) in
  Pix V4L2_PIX_FMT_YUYV w h f c bpl (u32 (bpl * h)) 0 (pix_rest pix).

Definition skeleton_try_fmt_vid_cap (pix : pix_format) (skel : skeleton) : Z * pix_format :=
  if negb (pixelformat pix =? V4L2_PIX_FMT_YUYV) then (- EINVAL, pix)
  else (0, skeleton_fill_pix_format skel pix).

Definition skeleton_s_fmt_vid_cap (busy : bool) (pix : pix_format) (skel : skeleton)
    : Z * skeleton * pix_format :=
  let (ret, pix) := skeleton_try_fmt_vid_cap pix skel in
  if truthy ret then (ret, skel, pix)
  else if busy then (- EBUSY, skel, pix)
  else (0, set_format pix skel, pix).

Definition skeleton_g_fmt_vid_cap (skel : skeleton) : Z * pix_format := (0, format skel).

Record fmtdesc : Type := Fmtdesc { fd_description : string; fd_pixelformat : Z; fd_flags : Z }.

Definition skeleton_enum_fmt_vid_cap (index : Z) : Z * option fmtdesc :=
  if negb (index =? 0) then (- EINVAL, None)
  else (0, Some (Fmtdesc "4:2:2, packed, YUYV" V4L2_PIX_FMT_YUYV 0)).

Definition skeleton_s_std (busy : bool) (s : Z) (skel : skeleton) : Z * skeleton :=
  if truthy (input skel) then (- ENODATA, skel)
  else if s =? std skel then (0, skel)
  else if busy then (- EBUSY, skel)
  else
    let skel := set_std s skel in
    (0, set_format (skeleton_fill_pix_format skel (format skel)) skel).

Definition skeleton_g_std (skel : skeleton) : Z * option Z :=
  if truthy (input skel) then (- ENODATA, None) else (0, Some (std skel)).

(** The standard is left as the framework set it. *)
Definition skeleton_querystd (s : Z) (skel : skeleton) : Z * Z :=
  if truthy (input skel) then (- ENODATA, s) else (0, s).

Definition skeleton_s_dv_timings (busy : bool) (t : dv_timings) (skel : skeleton)
    : Z * skeleton * dv_timings :=
  if input skel =? 0 then (- ENODATA, skel, t)
  else if negb (v4l2_valid_dv_timings t skel_timings_cap) then (- EINVAL, skel, t)
  else
    match v4l2_find_dv_timings_cap t skel_timings_cap with
    | None => (- EINVAL, skel, t)
    | Some t =>
        if v4l2_match_dv_timings t (timings skel) then (0, skel, t)
        else if busy then (- EBUSY, skel, t)
        else
          let skel := set_timings t skel in
          (0, set_format (skeleton_fill_pix_format skel (format skel)) skel, t)
    end.

Definition skeleton_g_dv_timings (skel : skeleton) : Z * option dv_timings :=
  if input skel =? 0 then (- ENODATA, None) else (0, Some (timings skel)).

Definition skeleton_enum_dv_timings (index : Z) (skel : skeleton) : Z * option dv_timings :=
  if input skel =? 0 then (- ENODATA, None)
  else match v4l2_enum_dv_timings_cap index skel_timings_cap with
       | Some t => (0, Some t)
       | None => (- EINVAL, None)
       end.

Definition skeleton_query_dv_timings (t : dv_timings) (skel : skeleton) : Z * dv_timings :=
  if input skel =? 0 then (- ENODATA, t) else (0, t).

Definition skeleton_dv_timings_cap (skel : skeleton) : Z * option timings_cap :=
  if input skel =? 0 then (- ENODATA, None) else (0, Some skel_timings_cap).

Record v4l2_input : Type := Input { in_type : Z; in_std : Z; in_name : string; in_capabilities : Z }.

Definition skeleton_enum_input (index : Z) : Z * option v4l2_input :=
  if 1 <? index then (- EINVAL, None)
  else if index =? 0 then
    (0, Some (Input V4L2_INPUT_TYPE_CAMERA SKEL_TVNORMS "S-Video" V4L2_IN_CAP_STD))
  else (0, Some (Input V4L2_INPUT_TYPE_CAMERA 0 "HDMI" V4L2_IN_CAP_DV_TIMINGS)).

Definition skeleton_s_input (busy : bool) (i : Z) (skel : skeleton) : Z * skeleton :=
  if 1 <? i then (- EINVAL, skel)
  else if busy then (- EBUSY, skel)
  else
    let skel := set_input i (if truthy i then 0 else SKEL_TVNORMS) skel in
    (0, set_format (skeleton_fill_pix_format skel (format skel)) skel).

Definition skeleton_g_input (skel : skeleton) : Z * Z := (0, input skel).

Definition skeleton_s_ctrl (id : Z) : Z :=
  if (id =? V4L2_CID_BRIGHTNESS) || (id =? V4L2_CID_CONTRAST) || (id =? V4L2_CID_SATURATION) ||
     (id =? V4L2_CID_HUE) then 0 else - EINVAL.

(** ** The driver under videobuf2 *)

(** The driver's state, the plane sizes of the buffers the framework has allocated,
    and the framework's flags. *)
Record world : Type := World {
  sk : skeleton; planes : list Z; streaming : bool; fileio : bool
}.

(** [vb2_is_busy]: buffers are allocated. *)
Definition busy (w : world) : bool := negb (zlen (planes w) =? 0).

Definition with_sk (w : world) (s : skeleton) : world := World s (planes w) (streaming w) (fileio w).

(** The entry points of the driver.  REQBUFS frees the old buffers and calls
    [queue_setup] without a format, CREATE_BUFS calls it with one; either may get
    fewer buffers than asked for, each with a plane of at least the size the driver
    gave.  A buffer is handed to the driver after [buffer_prepare] accepted it.
    Buffers are freed only when the driver has handed all of them back. *)
Inductive step : world -> world -> Prop :=
| step_s_fmt w pix ret s pix' :
    skeleton_s_fmt_vid_cap (busy w) pix (sk w) = (ret, s, pix') -> step w (with_sk w s)
| step_s_std w x ret s :
    skeleton_s_std (busy w) x (sk w) = (ret, s) -> step w (with_sk w s)
| step_s_dv_timings w t ret s t' :
    skeleton_s_dv_timings (busy w) t (sk w) = (ret, s, t') -> step w (with_sk w s)
| step_s_input w i ret s :
    0 <= i -> skeleton_s_input (busy w) i (sk w) = (ret, s) -> step w (with_sk w s)
| step_free w :
    streaming w = false -> buf_list (sk w) = [] -> step w (World (sk w) [] false (fileio w))
| step_setup_fails w fmt n ret s n' size :
    queue_setup (fileio w) (zlen (planes w)) fmt n (sk w) = (ret, s, n', size) -> ret <> 0 ->
    step w (with_sk w s)
| step_alloc w fmt n s n' size new :
    queue_setup (fileio w) (zlen (planes w)) fmt n (sk w) = (0, s, n', size) ->
    (fmt = None -> planes w = []) -> Forall (fun p => size <= p) new -> zlen new <= n' ->
    step w (World s (planes w ++ new) (streaming w) (fileio w))
| step_queue w vb size payload :
    planes w !! Z.to_nat vb = Some size -> 0 <= vb -> vb ∉ buf_list (sk w) ->
    buffer_prepare size (sk w) = (0, payload) -> step w (with_sk w (buffer_queue vb (sk w)))
| step_start w ret s done :
    start_streaming (sk w) = (ret, s, done) -> ret = 0 ->
    step w (World s (planes w) true (fileio w))
| step_stop w s done :
    stop_streaming (sk w) = (s, done) -> step w (World s (planes w) false (fileio w)).

Definition timings_ok (t : dv_timings) : Prop :=
  720 <= bt_width t <= 1920 /\ 480 <= bt_height t <= 1080.

(** The format is the one the input, standard and timings call for, every allocated
    plane has room for an image of it, and the buffers on the driver's list are
    allocated buffers, each on it once. *)
Record skel_ok (w : world) : Prop := {
  ok_format : format (sk w) = skeleton_fill_pix_format (sk w) (format (sk w));
  ok_timings : timings_ok (timings (sk w));
  ok_input : input (sk w) = 0 /\ tvnorms (sk w) = SKEL_TVNORMS \/ input (sk w) = 1 /\ tvnorms (sk w) = 0;
  ok_planes : Forall (fun p => sizeimage (format (sk w)) <= p) (planes w);
  ok_list : NoDup (buf_list (sk w)) /\ Forall (fun b => 0 <= b < zlen (planes w)) (buf_list (sk w))
}.

Lemma fill_rest s pix pix' : pix_rest pix = pix_rest pix' ->
  skeleton_fill_pix_format s pix = skeleton_fill_pix_format s pix'.
Proof.
  intros E. unfold skeleton_fill_pix_format. destruct (input s =? 0); [by rewrite E|].
  by destruct (interlaced (timings s)); rewrite E.
Qed.

Lemma fill_idem s pix : skeleton_fill_pix_format s (skeleton_fill_pix_format s pix) =
  skeleton_fill_pix_format s pix.
Proof.
  apply fill_rest. unfold skeleton_fill_pix_format. destruct (input s =? 0); [done|].
  by destruct (interlaced (timings s)).
Qed.

(** The fields the format depends on. *)
Lemma fill_ext s s' pix :
  input s = input s' -> std s = std s' -> timings s = timings s' ->
  skeleton_fill_pix_format s pix = skeleton_fill_pix_format s' pix.
Proof. intros Ei Es Et. unfold skeleton_fill_pix_format. by rewrite Ei, Es, Et. Qed.

Lemma not_busy w : busy w = false -> planes w = [].
Proof.
  unfold busy. rewrite negb_false_iff, Z.eqb_eq. unfold zlen. intros E. apply nil_length_inv. lia.
Qed.

(** A change of the settings with no buffers allocated. *)
Lemma skel_ok_settings w s :
  skel_ok w -> busy w = false -> format s = skeleton_fill_pix_format s (format s) ->
  timings_ok (timings s) ->
  (input s = 0 /\ tvnorms s = SKEL_TVNORMS \/ input s = 1 /\ tvnorms s = 0) ->
  buf_list s = buf_list (sk w) -> skel_ok (with_sk w s).
Proof.
  intros [Hf Ht Hi Hp Hl] Hb Hf' Ht' Hi' Hbl. apply not_busy in Hb. split; cbn; try done.
  - by rewrite Hb.
  - by rewrite Hbl.
Qed.

Lemma setup_same f n fmt nb s ret s' n' size :
  queue_setup f n fmt nb s = (ret, s', n', size) ->
  format s' = format s /\ timings s' = timings s /\ input s' = input s /\ tvnorms s' = tvnorms s /\
  std s' = std s /\ buf_list s' = buf_list s /\ (ret = 0 -> sizeimage (format s) <= size).
Proof.
  unfold queue_setup. intros E. destruct fmt as [size'|]; repeat case_match; simplify_eq; cbn in *;
    split_and!; try done; cbn; lia.
Qed.

Lemma return_walk_spec bufs st s :
  buf_list s = bufs ->
  return_walk bufs st s = (set_buf_list [] s, (fun b => (b, st)) <$> bufs).
Proof.
  revert s. induction bufs as [|b bufs IH]; intros s Hs; cbn.
  - by destruct s; cbn in *; subst.
  - rewrite (IH (set_buf_list (tl (buf_list s)) s)); [|cbn; by rewrite Hs]. done.
Qed.

(** The same state but for fields the invariant does not mention. *)
Lemma skel_ok_with w s st :
  skel_ok w -> format s = format (sk w) -> timings s = timings (sk w) -> input s = input (sk w) ->
  tvnorms s = tvnorms (sk w) -> std s = std (sk w) ->
  NoDup (buf_list s) -> Forall (fun b => 0 <= b < zlen (planes w)) (buf_list s) ->
  skel_ok (World s (planes w) st (fileio w)).
Proof.
  intros [Hf Ht Hi Hp Hl] Ef Et Ei Etv Es Hn Hb. split; cbn; try done.
  - rewrite Ef. rewrite Hf at 1. by apply fill_ext.
  - by rewrite Et.
  - by rewrite Ei, Etv.
  - by rewrite Ef.
Qed.

Context {Hcore : VideoCoreOk}.

Lemma with_sk_id w : with_sk w (sk w) = w.
Proof. by destruct w. Qed.

Lemma step_ok w w' : skel_ok w -> step w w' -> skel_ok w'.
Proof.
  intros Hok Hs. pose proof Hok as [Hf Ht Hi Hp Hl].
  destruct Hs as [w pix ret s pix' E|w x ret s E|w t ret s t' E|w i ret s Hi0 E|w _ Hbl
    |w fmt n ret s n' size E _|w fmt n s n' size new E Hnone Hnew _|w vb size payload Hvb Hvb0 Hnin E
    |w ret s done E _|w s done E].
  - unfold skeleton_s_fmt_vid_cap, skeleton_try_fmt_vid_cap in E.
    destruct (negb _); simpl in E; [simplify_eq; by rewrite with_sk_id|].
    destruct (busy w) eqn:Eb; simplify_eq; [by rewrite with_sk_id|].
    apply skel_ok_settings; try done. cbn. symmetry. etrans; [|apply fill_idem]. by apply fill_ext.
  - unfold skeleton_s_std in E. destruct (truthy (input (sk w))); [simplify_eq; by rewrite with_sk_id|].
    destruct (x =? std (sk w)); [simplify_eq; by rewrite with_sk_id|].
    destruct (busy w) eqn:Eb; simplify_eq; [by rewrite with_sk_id|].
    apply skel_ok_settings; try done. cbn. symmetry. etrans; [|apply fill_idem]. by apply fill_ext.
  - unfold skeleton_s_dv_timings in E. destruct (input (sk w) =? 0); [simplify_eq; by rewrite with_sk_id|].
    destruct (negb _); [simplify_eq; by rewrite with_sk_id|].
    destruct (v4l2_find_dv_timings_cap t _) as [t1|] eqn:Ef; [|simplify_eq; by rewrite with_sk_id].
    destruct (v4l2_match_dv_timings t1 _); [simplify_eq; by rewrite with_sk_id|].
    destruct (busy w) eqn:Eb; simplify_eq; [by rewrite with_sk_id|].
    apply skel_ok_settings; try done.
    + cbn. symmetry. etrans; [|apply fill_idem]. by apply fill_ext.
    + cbn. by apply find_in_cap in Ef.
  - unfold skeleton_s_input in E. destruct (1 <? i) eqn:Ei; [simplify_eq; by rewrite with_sk_id|].
    destruct (busy w) eqn:Eb; simplify_eq; [by rewrite with_sk_id|].
    apply skel_ok_settings; try done.
    + cbn. symmetry. etrans; [|apply fill_idem]. by apply fill_ext.
    + cbn. assert (i = 0 \/ i = 1) as [-> | ->] by lia; [by left|by right].
  - split; cbn; try done. rewrite Hbl. by split; constructor.
  - apply setup_same in E as (Ef & Et & Ein & Etv & Es & Ebl & _).
    apply (skel_ok_with w); try done; rewrite Ebl; by destruct Hl.
  - pose proof E as E'. apply setup_same in E' as (Ef & Et & Ein & Etv & Es & Ebl & Hsize).
    split; cbn; try done.
    + rewrite Ef. rewrite Hf at 1. by apply fill_ext.
    + by rewrite Et.
    + by rewrite Ein, Etv.
    + rewrite Ef, Forall_app. split; [done|]. eapply Forall_impl; [exact Hnew|]. intros p Hle. cbn in Hle.
      specialize (Hsize eq_refl). lia.
    + rewrite Ebl. split; [by destruct Hl|]. destruct Hl as [_ Hl]. eapply Forall_impl; [exact Hl|].
      intros b Hb. cbn in Hb. rewrite zlen_app. pose proof (zlen_nonneg new). lia.
  - apply (skel_ok_with w); try done; cbn.
    + apply NoDup_app. split_and!; [by destruct Hl| |repeat constructor; set_solver].
      intros b Hb Hb2. apply list_elem_of_singleton in Hb2. by subst.
    + rewrite Forall_app. split; [by destruct Hl|]. repeat constructor; [done|].
      apply lookup_lt_Some in Hvb. unfold zlen. lia.
  - unfold start_streaming in E. simpl in E. simplify_eq. apply (skel_ok_with w); try done; by destruct Hl.
  - unfold stop_streaming, return_all_buffers in E. rewrite return_walk_spec in E by done. simplify_eq.
    apply (skel_ok_with w); try done; constructor.
Qed.

(** The size of an image never overflows: two bytes a pixel. *)
Lemma sizeimage_eq w : skel_ok w ->
  sizeimage (format (sk w)) = 2 * width (format (sk w)) * height (format (sk w)) /\
  0 < sizeimage (format (sk w)).
Proof.
  intros [Hf [Hw Hh] Hi _ _]. rewrite Hf. unfold skeleton_fill_pix_format.
  assert (forall w h, 0 < w <= 1920 -> 0 < h <= 1080 ->
    u32 (u32 (w * 2) * h) = 2 * w * h /\ 0 < 2 * w * h) as Hsize.
  { intros x y Hx Hy. assert (u32 (x * 2) = x * 2) as -> by (apply wrap_small; unfold fits; lia).
    split; [|nia]. unfold u32. rewrite wrap_small by (unfold fits; nia). lia. }
  destruct (input (sk w) =? 0); cbn [sizeimage width height].
  - destruct (truthy _); by apply Hsize.
  - destruct (interlaced (timings (sk w))); cbn [sizeimage width height].
    + assert (240 <= bt_height (timings (sk w)) / 2 <= 540)
        by (split; [apply Z.div_le_lower_bound|apply Z.div_le_upper_bound]; lia).
      edestruct Hsize as [-> ?]; [..|split; [done|done]]; lia.
    + edestruct Hsize as [-> ?]; [..|split; [done|done]]; lia.
Qed.

(** C4: in every state the driver can reach from a good initial one, by any
    interleaving of ioctls and queue operations, the stored format is the one its
    input, standard and timings call for, its image size is two bytes a pixel
    without overflow, and every buffer the framework holds is big enough for it:
    [buffer_prepare] accepts it with that payload. *)
Theorem reachable_format w0 w :
  skel_ok w0 -> star step w0 w ->
  let f := format (sk w) in
  f = skeleton_fill_pix_format (sk w) f /\
  sizeimage f = 2 * width f * height f /\
  forall i size, planes w !! i = Some size ->
    buffer_prepare size (sk w) = (0, Some (2 * width f * height f)).
Proof.
  intros H0 Hs. assert (skel_ok w) as Hok by (eapply (star_inv _ skel_ok); [|exact Hs|exact H0]; eauto using step_ok).
  cbn zeta. destruct (sizeimage_eq w Hok) as [Hsz _]. split; [apply Hok|]. split; [done|].
  intros i size Hi. unfold buffer_prepare.
  pose proof (ok_planes _ Hok) as Hp. rewrite Forall_lookup in Hp. specialize (Hp _ _ Hi).
  replace (size <? sizeimage (format (sk w))) with false by lia. by rewrite Hsz.
Qed.

(** While buffers are allocated none of the ioctls that could change the format
    changes anything: each of them leaves the driver's state as it was and reports
    an error unless the call asked for what is already set. *)
Theorem busy_keeps_state s pix x t i :
  (let '(ret, s', _) := skeleton_s_fmt_vid_cap true pix s in s' = s /\ ret < 0) /\
  (let (ret, s') := skeleton_s_std true x s in s' = s /\ (ret = 0 -> x = std s)) /\
  (let '(ret, s', _) := skeleton_s_dv_timings true t s in
     s' = s /\ (ret = 0 -> exists t', v4l2_match_dv_timings t' (timings s) = true)) /\
  (let (ret, s') := skeleton_s_input true i s in s' = s /\ ret < 0).
Proof.
  split_and!.
  - unfold skeleton_s_fmt_vid_cap, skeleton_try_fmt_vid_cap. by destruct (negb _).
  - unfold skeleton_s_std. repeat case_match; simplify_eq; split; try done; unfold ENODATA, EBUSY; lia.
  - unfold skeleton_s_dv_timings. repeat case_match; simplify_eq; split; try done; by eauto.
  - unfold skeleton_s_input. by destruct (1 <? i).
Qed.

(** Stopping the stream hands every buffer the driver was given since it last
    had none back to the framework, each once, in the order they were queued, as
    erroneous, and leaves the list empty. *)
Theorem stop_returns_all s vbs :
  buf_list s = [] ->
  let queued := foldl (fun s vb => buffer_queue vb s) s vbs in
  stop_streaming queued = (s, (fun vb => (vb, VB2_BUF_STATE_ERROR)) <$> vbs).
Proof.
  intros Hs. cbn zeta.
  assert (forall l s, foldl (fun s vb => buffer_queue vb s) s l = set_buf_list (buf_list s ++ l) s) as Hfold.
  { induction l as [|vb l IH]; intros s'; cbn.
    - rewrite app_nil_r. by destruct s'.
    - rewrite IH. unfold buffer_queue. cbn. by rewrite <- app_assoc. }
  rewrite Hfold, Hs. unfold stop_streaming, return_all_buffers. cbn.
  rewrite return_walk_spec by done. f_equal. destruct s. cbn in *. by subst.
Qed.

(** A queue set up successfully has at least three buffers asked for, whatever
    number the application wanted, and never fewer than it wanted; the plane size
    is at least the image size.  It is refused when the given size is too small, and
    for read() with alternating fields. *)
Theorem queue_setup_minimum f num fmt n s ret s' n' size :
  0 <= num <= 32 -> 0 <= n <= 32 -> queue_setup f num fmt n s = (ret, s', n', size) ->
  (ret = 0 \/ ret = - EINVAL) /\
  (ret = 0 -> 3 <= num + n' /\ n <= n' /\ sizeimage (format s) <= size) /\
  (ret = - EINVAL <->
     (f = true /\ pfield (format s) = V4L2_FIELD_ALTERNATE) \/
     (exists z, fmt = Some z /\ z < sizeimage (format s))).
Proof.
  intros Hnum Hn E. unfold queue_setup in E. cbn in E.
  assert (u32 (num + n) = num + n) as Hu by (apply wrap_small; unfold fits; lia). rewrite Hu in E.
  assert (3 <= num + (if num + n <? 3 then u32 (3 - num) else n) /\
    n <= (if num + n <? 3 then u32 (3 - num) else n)) as [H1 H2].
  { destruct (Z.ltb_spec (num + n) 3); [|lia].
    assert (u32 (3 - num) = 3 - num) as -> by (apply wrap_small; unfold fits; lia). lia. }
  destruct (Z.eqb_spec (pfield (format s)) V4L2_FIELD_ALTERNATE) as [Ea|Ea]; destruct f; cbn in E.
  1: { simplify_eq. split_and!; [by right|done|]. split; [by left|done]. }
  all: destruct fmt as [z|]; [destruct (Z.ltb_spec z (sizeimage (format s)))|]; cbn in E; simplify_eq.
  all: split; [auto|].
  all: split; [intros Hr; first [discriminate | split_and!; lia]|].
  all: split; [intros Hr; first [discriminate | right; by eexists]|].
  all: intros [[? ?]|(z' & Hz & ?)]; first [done | simplify_eq; lia].
Qed.

End Ioctls.

(** ** Probe and remove *)

Inductive call : Type :=
| PciEnable | PciSetDmaMask (bits : Z) | PciDisable
| DevmKzalloc | DevmRequestIrq
| V4l2DeviceRegister | V4l2DeviceUnregister
| CtrlHandlerInit (n : Z) | CtrlNewStd (id min max step def : Z) | CtrlHandlerError | CtrlHandlerFree
| QueueInit
| InitCtx | CleanupCtx
| VideoRegister | VideoUnregister.

(** Memory and interrupt are device-managed: the core releases them. *)
Inductive resource : Type := PciDev | V4l2Dev | Ctrls | AllocCtx | VideoDev.

#[export] Instance resource_eq : EqDecision resource.
Proof. solve_decision. Defined.

#[export] Instance skel_resources : Resources call resource := {
  acquires c a :=
    match c with
    | PciEnable => if ret a =? 0 then Some PciDev else None
    | V4l2DeviceRegister => if ret a =? 0 then Some V4l2Dev else None
    | CtrlHandlerInit _ => Some Ctrls
    | InitCtx => if ret a <? 0 then None else Some AllocCtx
    | VideoRegister => if ret a =? 0 then Some VideoDev else None
    | _ => None
    end;
  releases c _ :=
    match c with
    | PciDisable => Some PciDev
    | V4l2DeviceUnregister => Some V4l2Dev
    | CtrlHandlerFree => Some Ctrls
    | CleanupCtx => Some AllocCtx
    | VideoUnregister => Some VideoDev
    | _ => None
    end
}.

(** V4L2_DV_BT_CEA_1280X720P60 *)
Definition timings_def : dv_timings := Timings 1280 720 false 0.

Definition zero_pix : pix_format := Pix 0 0 0 0 0 0 0 0 0.
Definition zero_skel : skeleton := Skel 0 (Timings 0 0 false 0) zero_pix 0 0 [] 0 0.

#[local] Arguments wp : simpl never.
#[local] Arguments wp_k : simpl never.
#[local] Arguments io_bind : simpl never.

Section Probe.
Context `{VideoCore}.

Open Scope io_scope.

Definition initial_settings (skel : skeleton) : skeleton :=
  let skel := set_std V4L2_STD_625_50 (set_timings timings_def skel) in
  set_format (skeleton_fill_pix_format skel (format skel)) skel.

Definition disable_pci (r : Z) : io call skeleton Z := sys PciDisable ;; io_ret r.
Definition free_hdl (r : Z) : io call skeleton Z :=
  sys CtrlHandlerFree ;; sys V4l2DeviceUnregister ;; disable_pci r.
Definition free_ctx (r : Z) : io call skeleton Z := sys CleanupCtx ;; free_hdl r.

Definition skeleton_probe : io call skeleton Z :=
  let* e := sys PciEnable in
  if truthy (ret e) then io_ret (ret e)
  else
    let* d := sys (PciSetDmaMask 32) in
    if truthy (ret d) then disable_pci (ret d)
    else
      let* p := sys DevmKzalloc in
      if ret p =? 0 then io_ret (- ENOMEM)
      else
        put zero_skel ;;
        let* q := sys DevmRequestIrq in
        if truthy (ret q) then disable_pci (ret q)
        else
          modify initial_settings ;;
          let* v := sys V4l2DeviceRegister in
          if truthy (ret v) then disable_pci (ret v)
          else
            sys (CtrlHandlerInit 4) ;;
            sys (CtrlNewStd V4L2_CID_BRIGHTNESS 0 255 1 127) ;;
            sys (CtrlNewStd V4L2_CID_CONTRAST 0 255 1 16) ;;
            sys (CtrlNewStd V4L2_CID_SATURATION 0 255 1 127) ;;
            sys (CtrlNewStd V4L2_CID_HUE (-128) 127 1 0) ;;
            let* err := sys CtrlHandlerError in
            if truthy (ret err) then free_hdl (ret err)
            else
              let* qi := sys QueueInit in
              if truthy (ret qi) then free_hdl (ret qi)
              else
                let* ctx := sys InitCtx in
                if ret ctx <? 0 then free_hdl (ret ctx)
                else
                  modify (fun s => set_input (input s) SKEL_TVNORMS (set_buf_list [] s)) ;;
                  let* r := sys VideoRegister in
                  if truthy (ret r) then free_ctx (ret r) else io_ret 0.

Definition skeleton_remove : io call skeleton unit :=
  sys VideoUnregister ;;
  sys CtrlHandlerFree ;;
  sys CleanupCtx ;;
  sys V4l2DeviceUnregister ;;
  sys PciDisable ;; io_ret tt.

Close Scope io_scope.

Lemma truthy_false x : truthy x = false -> (x =? 0) = true.
Proof. unfold truthy. by destruct (x =? 0). Qed.
Lemma truthy_true x : truthy x = true -> (x =? 0) = false.
Proof. unfold truthy. by destruct (x =? 0). Qed.

(** C39: a probe that succeeds holds the five resources of a registered device, with
    the driver in a good state without buffers, and remove gives them all back; a
    probe that fails has given back what it took, except that a failed allocation
    leaves the PCI device enabled. *)
Theorem probe_resources K s h l :
  held h = Some l ->
  exists r s' h', skeleton_probe K s h = (Ret r, s', h') /\
    ((r = 0 /\ skel_ok (World s' [] false false) /\
      held h' = Some (VideoDev :: AllocCtx :: Ctrls :: V4l2Dev :: PciDev :: l) /\
      exists h'', skeleton_remove K s' h' = (Ret tt, s', h'') /\ held h'' = Some l) \/
     (r <> 0 /\ held h' = Some l) \/
     (r = - ENOMEM /\ held h' = Some (PciDev :: l) /\ exists a, In (DevmKzalloc, a) h' /\ ret a = 0)).
Proof.
  intros Hh.
  enough (wp skeleton_probe K s h (fun o s' h' => exists r, o = Ret r /\
    ((r = 0 /\ skel_ok (World s' [] false false) /\
      held h' = Some (VideoDev :: AllocCtx :: Ctrls :: V4l2Dev :: PciDev :: l)) \/
     (r <> 0 /\ held h' = Some l) \/
     (r = - ENOMEM /\ held h' = Some (PciDev :: l) /\ exists a, In (DevmKzalloc, a) h' /\ ret a = 0))))
    as Hwp.
  { unfold wp in Hwp. destruct (skeleton_probe K s h) as [[o s'] h'].
    destruct Hwp as (r & -> & Hr). exists r, s', h'. split; [done|]. destruct Hr as [(-> & Hok & Hheld)|Hr]; [|by right].
    left. do 3 (split; [done|]).
    enough (wp skeleton_remove K s' h' (fun o s1 h'' => o = Ret tt /\ s1 = s' /\ held h'' = Some l)) as Hrm.
    { unfold wp in Hrm. destruct (skeleton_remove K s' h') as [[o s1] h'']. destruct Hrm as (-> & -> & ?). by eexists. }
    unfold skeleton_remove. wp_go. split; [done|]. split; [done|].
    eapply held_release; [|reflexivity|apply drop_res_here].
    eapply held_release; [|reflexivity|apply drop_res_here].
    eapply held_release; [|reflexivity|apply drop_res_here].
    eapply held_release; [|reflexivity|apply drop_res_second].
    held_solve. }
  unfold skeleton_probe, free_ctx, free_hdl, disable_pci. wp_go.
  all: repeat match goal with
         | E : truthy _ = true |- _ => pose proof (truthy_true _ E); clear E
         | E : truthy _ = false |- _ => apply truthy_false in E
         end.
  all: eexists; split; [done|].
  all: try (right; left; split; [lia|held_solve]).
  - right. right. split; [done|]. split; [held_solve|]. eexists. split; [by left|lia].
  - left. split; [done|]. split; [|held_solve]. split; cbn; try done.
    + by left.
    + by split; constructor.
Qed.

End Probe.

(** ** Witnesses *)

(** A video core that knows no standard timings: what is valid is taken as it is. *)
#[local] Instance sample_core : VideoCore := {
  v4l2_valid_dv_timings t c :=
    (min_width c <=? bt_width t) && (bt_width t <=? max_width c) &&
    (min_height c <=? bt_height t) && (bt_height t <=? max_height c);
  v4l2_find_dv_timings_cap t c :=
    if (min_width c <=? bt_width t) && (bt_width t <=? max_width c) &&
       (min_height c <=? bt_height t) && (bt_height t <=? max_height c) then Some t else None;
  v4l2_match_dv_timings t t' :=
    (bt_width t =? bt_width t') && (bt_height t =? bt_height t') &&
    Bool.eqb (interlaced t) (interlaced t');
  v4l2_enum_dv_timings_cap i c := if i =? 0 then Some timings_def else None
}.

#[local] Instance sample_core_ok : VideoCoreOk.
Proof.
  split; cbn.
  - intros t c Hv. lia.
  - intros t c t'. destruct (_ && _) eqn:E; [|done]. intros Ht. simplify_eq. lia.
Qed.

Definition probed : skeleton := set_input 0 SKEL_TVNORMS (initial_settings zero_skel).
Definition hdmi : skeleton := (skeleton_s_input false 1 probed).2.
Definition hd1080i : skeleton :=
  (skeleton_s_dv_timings false (Timings 1920 1080 true 0) hdmi).1.2.

Lemma probed_ok : skel_ok (World probed [] false false).
Proof. split; cbn; try done; [by left|by split; constructor]. Qed.

(** The input is set to HDMI and to 1080i, three buffers are allocated and one of
    them queued. *)
Lemma reachable_format_witness :
  exists w, star step (World probed [] false false) w /\ buf_list (sk w) = [1] /\
    buffer_prepare 2073600 (sk w) = (0, Some (2 * 1920 * 540)).
Proof.
  set (s1 := set_field V4L2_FIELD_TOP hd1080i).
  set (w := World (buffer_queue 1 s1) [2073600; 2073600; 2073600] false false).
  assert (star step (World probed [] false false) w) as Hs.
  { eapply star_step; [by eapply (step_s_input _ 1 0 hdmi)|].
    eapply star_step; [by eapply (step_s_dv_timings _ (Timings 1920 1080 true 0) 0 hd1080i (Timings 1920 1080 true 0))|].
    eapply star_step; [eapply (step_alloc _ None 1 s1 3 2073600 [2073600; 2073600; 2073600]); [done|done| |done]|].
    { repeat constructor; done. }
    eapply star_step; [|apply star_refl].
    eapply (step_queue (World s1 [2073600; 2073600; 2073600] false false) 1 2073600 (Some 2073600)); try done.
    apply not_elem_of_nil. }
  exists w. split; [exact Hs|]. split; [done|].
  exact (proj2 (proj2 (reachable_format _ w probed_ok Hs)) 0%nat 2073600 eq_refl).
Defined.

Lemma stop_returns_all_witness :
  buf_list probed = [] /\
  stop_streaming (foldl (fun s vb => buffer_queue vb s) probed [2; 0; 1]) =
    (probed, [(2, VB2_BUF_STATE_ERROR); (0, VB2_BUF_STATE_ERROR); (1, VB2_BUF_STATE_ERROR)]).
Proof. split; [done|]. exact (stop_returns_all probed [2; 0; 1] eq_refl). Defined.

(** One buffer asked for, three given; a size one byte short refused. *)
Lemma queue_setup_minimum_witness :
  (0 = 0 -> 3 <= 0 + 3 /\ 1 <= 3 /\ sizeimage (format probed) <= 829440) /\
  (exists z, Some 829439 = Some z /\ z < sizeimage (format probed)).
Proof.
  assert (exists s, queue_setup true 0 None 1 probed = (0, s, 3, 829440)) as [s E] by (by eexists).
  assert (exists s, queue_setup false 0 (Some 829439) 1 probed = (- EINVAL, s, 3, 0)) as [s' E'] by (by eexists).
  split.
  - refine (proj1 (proj2 (queue_setup_minimum true 0 None 1 probed 0 s 3 829440 _ _ E))); lia.
  - destruct (queue_setup_minimum false 0 (Some 829439) 1 probed (- EINVAL) s' 3 0) as (_ & _ & [H _]); [lia|lia|exact E'|].
    destruct (H eq_refl) as [[Hf _]|Hz]; [discriminate|exact Hz].
Defined.

(** A device where everything works, and one without memory. *)
Definition sample_kernel (memory : Z) : kernel call := fun _ c =>
  aret (match c with DevmKzalloc => memory | InitCtx => 4096 | _ => 0 end).

Lemma probe_resources_witness :
  (exists s' h', skeleton_probe (sample_kernel 8192) zero_skel [] = (Ret 0, s', h') /\
     skel_ok (World s' [] false false)) /\
  (exists h', skeleton_probe (sample_kernel 0) zero_skel [] = (Ret (- ENOMEM), zero_skel, h') /\
     held h' = Some [PciDev]).
Proof.
  split.
  - destruct (probe_resources (sample_kernel 8192) zero_skel [] [] eq_refl) as (r & s' & h' & E & Hr).
    vm_compute in E. injection E as <- <- <-. eexists _, _. split; [reflexivity|].
    destruct Hr as [(_ & Hok & _)|[(Hr & _)|(Hr & _)]]; [exact Hok|done|done].
  - destruct (probe_resources (sample_kernel 0) zero_skel [] [] eq_refl) as (r & s' & h' & E & Hr).
    vm_compute in E. injection E as <- <- <-. eexists. split; [reflexivity|].
    destruct Hr as [(Hr & _)|[(_ & Hr)|(_ & Hr & _)]]; [done|by vm_compute in Hr|exact Hr].
Defined.

End Skel.
