(* ===== verification/V4l2Ioctl.v ===== *)
(** * The ioctl table of the V4L2 skeleton driver: video4linux/v4l2-pci-skeleton.c

    [skel_ioctl_ops] sends every ioctl the driver serves itself to its handler.  The
    theorem is the contract an application relies on: questions change nothing,
    failures change nothing, and what was set is what is read back. *)

From S2P Require Import Prelude Posix Resources V4l2Skeleton.

Module Ioctl.
Import Skel.

Open Scope Z_scope.

(** The ioctls that reach the driver, with what the application passes. *)
Inductive request : Type :=
| querycap
| try_fmt_vid_cap (pix : pix_format)
| s_fmt_vid_cap (pix : pix_format)
| g_fmt_vid_cap
| enum_fmt_vid_cap (index : Z)
| g_std
| s_std (std : Z)
| querystd (std : Z)
| s_dv_timings (t : dv_timings)
| g_dv_timings
| enum_dv_timings (index : Z)
| query_dv_timings (t : dv_timings)
| dv_timings_cap
| enum_input (index : Z)
| g_input
| s_input (i : Z)
| s_ctrl (id : Z).

(** What is copied back. *)
Inductive answer : Type :=
| Nothing
| Caps (c : capability)
| Fmt (pix : pix_format)
| Desc (d : fmtdesc)
| Std (s : Z)
| Dv (t : dv_timings)
| DvCap (c : timings_cap)
| InputIs (i : Z)
| InputInfo (i : v4l2_input).

Definition some {A} (f : A -> answer) (o : option A) : answer := match o with Some a => f a | None => Nothing end.

Section Table.
Context `{VideoCore} (modname pci_name : string).

Definition skel_ioctl_ops (busy : bool) (r : request) (skel : skeleton) : Z * skeleton * answer :=
  match r with
  | querycap => let (ret, c) := skeleton_querycap modname pci_name in (ret, skel, Caps c)
  | try_fmt_vid_cap pix => let (ret, p) := skeleton_try_fmt_vid_cap pix skel in (ret, skel, Fmt p)
  | s_fmt_vid_cap pix => let '(ret, s, p) := skeleton_s_fmt_vid_cap busy pix skel in (ret, s, Fmt p)
  | g_fmt_vid_cap => let (ret, p) := skeleton_g_fmt_vid_cap skel in (ret, skel, Fmt p)
  | enum_fmt_vid_cap i => let (ret, d) := skeleton_enum_fmt_vid_cap i in (ret, skel, some Desc d)
  | g_std => let (ret, x) := skeleton_g_std skel in (ret, skel, some Std x)
  | s_std x => let (ret, s) := skeleton_s_std busy x skel in (ret, s, Nothing)
  | querystd x => let (ret, y) := skeleton_querystd x skel in (ret, skel, Std y)
  | s_dv_timings t => let '(ret, s, t') := skeleton_s_dv_timings busy t skel in (ret, s, Dv t')
  | g_dv_timings => let (ret, t) := skeleton_g_dv_timings skel in (ret, skel, some Dv t)
  | enum_dv_timings i => let (ret, t) := skeleton_enum_dv_timings i skel in (ret, skel, some Dv t)
  | query_dv_timings t => let (ret, t') := skeleton_query_dv_timings t skel in (ret, skel, Dv t')
  | dv_timings_cap => let (ret, c) := skeleton_dv_timings_cap skel in (ret, skel, some DvCap c)
  | enum_input i => let (ret, x) := skeleton_enum_input i in (ret, skel, some InputInfo x)
  | g_input => let (ret, i) := skeleton_g_input skel in (ret, skel, InputIs i)
  | s_input i => let (ret, s) := skeleton_s_input busy i skel in (ret, s, Nothing)
  | s_ctrl id => (skeleton_s_ctrl id, skel, Nothing)
  end.

Definition sets (r : request) : bool :=
  match r with s_fmt_vid_cap _ | s_std _ | s_dv_timings _ | s_input _ => true | _ => false end.

(** What a later question answers to the setting that [r] made in state [s]. *)
Definition read_back (busy : bool) (r : request) (ans : answer) (s : skeleton) : Prop :=
  match r with
  | s_fmt_vid_cap _ =>
      skel_ioctl_ops busy g_fmt_vid_cap s = (0, s, ans) /\
      match ans with Fmt p => skel_ioctl_ops busy (try_fmt_vid_cap p) s = (0, s, ans) | _ => False end
  | s_std x => skel_ioctl_ops busy g_std s = (0, s, Std x)
  | s_dv_timings _ =>
      match ans with
      | Dv t => exists t', skel_ioctl_ops busy g_dv_timings s = (0, s, Dv t') /\ (t' = t \/ v4l2_match_dv_timings t t' = true)
      | _ => False
      end
  | s_input i =>
      skel_ioctl_ops busy g_input s = (0, s, InputIs i) /\
      exists info, skel_ioctl_ops busy (enum_input i) s = (0, s, InputInfo info) /\
        (truthy (in_std info) = true <-> exists x, skel_ioctl_ops busy g_std s = (0, s, Std x)) /\
        (in_capabilities info = V4L2_IN_CAP_DV_TIMINGS <-> exists t, skel_ioctl_ops busy g_dv_timings s = (0, s, Dv t))
  | _ => True
  end.

(** The ioctls of the other input. *)
Definition wrong_input (r : request) (s : skeleton) : bool :=
  match r with
  | g_std | s_std _ | querystd _ => truthy (input s)
  | s_dv_timings _ | g_dv_timings | enum_dv_timings _ | query_dv_timings _ | dv_timings_cap => input s =? 0
  | _ => false
  end.

(** The format is the one the settings call for. *)
Definition consistent (s : skeleton) : Prop := format s = skeleton_fill_pix_format s (format s).

Lemma fill_set_format p s pix : skeleton_fill_pix_format (set_format p s) pix = skeleton_fill_pix_format s pix.
Proof. by apply fill_ext. Qed.

Lemma refilled s : consistent (set_format (skeleton_fill_pix_format s (format s)) s).
Proof. unfold consistent. cbn. by rewrite fill_set_format, fill_idem. Qed.

(** Every ioctl but the four settings: the state stays, errors are negative, and the ioctls of the other input get ENODATA. *)
Lemma question_keeps busy r s ret s' ans : skel_ioctl_ops busy r s = (ret, s', ans) -> sets r = false ->
  s' = s /\ ret <= 0 /\ (wrong_input r s = true -> ret = - ENODATA).
Proof.
  intros E Hr.
  destruct r; cbn in E, Hr |- *; try done; unfold skeleton_try_fmt_vid_cap, skeleton_enum_fmt_vid_cap, skeleton_g_std,
    skeleton_querystd, skeleton_g_dv_timings, skeleton_enum_dv_timings, skeleton_query_dv_timings, skeleton_dv_timings_cap,
    skeleton_enum_input, skeleton_s_ctrl, truthy in *; repeat case_match; simplify_eq; done.
Qed.

Lemma s_fmt_contract busy pix s ret s' p : skeleton_s_fmt_vid_cap busy pix s = (ret, s', p) -> consistent s ->
  ret <= 0 /\ (ret < 0 \/ busy = true -> s' = s) /\ consistent s' /\
  (ret = 0 -> format s' = p /\ skeleton_try_fmt_vid_cap p s' = (0, p)).
Proof.
  unfold skeleton_s_fmt_vid_cap, skeleton_try_fmt_vid_cap. intros E Hc.
  destruct (pixelformat pix =? V4L2_PIX_FMT_YUYV); cbn in E; [|change (truthy (- EINVAL)) with true in E; cbn in E; by simplify_eq; split_and!].
  destruct busy; simplify_eq; [by split_and!|].
  assert (skeleton_fill_pix_format (set_format (skeleton_fill_pix_format s pix) s) (skeleton_fill_pix_format s pix) =
    skeleton_fill_pix_format s pix) as Ef by (by rewrite fill_set_format, fill_idem).
  split_and!; [done|by intros [|]|by unfold consistent; cbn; rewrite Ef|].
  intros _. split; [done|]. rewrite Ef.
  by replace (pixelformat (skeleton_fill_pix_format s pix)) with V4L2_PIX_FMT_YUYV
    by (unfold skeleton_fill_pix_format; by repeat case_match; simplify_eq).
Qed.

Lemma s_std_contract busy x s ret s' : skeleton_s_std busy x s = (ret, s') -> consistent s ->
  ret <= 0 /\ (ret < 0 \/ busy = true -> s' = s) /\ consistent s' /\ (input s <> 0 -> ret = - ENODATA) /\
  (ret = 0 -> skeleton_g_std s' = (0, Some x)).
Proof.
  unfold skeleton_s_std, skeleton_g_std, truthy. intros E Hc. destruct (Z.eqb_spec (input s) 0) as [Ei|]; cbn in E; [|by simplify_eq; split_and!].
  destruct (Z.eqb_spec x (std s)); [simplify_eq; by rewrite Ei|]. destruct busy; simplify_eq; [by split_and!|].
  split_and!; [done|by intros [|]|apply (refilled (set_std _ _))|done|]. intros _. cbn. by rewrite Ei.
Qed.

Lemma s_dv_timings_contract busy t s ret s' t' : skeleton_s_dv_timings busy t s = (ret, s', t') -> consistent s ->
  ret <= 0 /\ (ret < 0 \/ busy = true -> s' = s) /\ consistent s' /\ (input s = 0 -> ret = - ENODATA) /\
  (ret = 0 -> exists t0, skeleton_g_dv_timings s' = (0, Some t0) /\ (t0 = t' \/ v4l2_match_dv_timings t' t0 = true)).
Proof.
  unfold skeleton_s_dv_timings, skeleton_g_dv_timings. intros E Hc. destruct (Z.eqb_spec (input s) 0) as [|Ei]; [by simplify_eq|].
  pose proof (proj2 (Z.eqb_neq _ _) Ei) as Ef. destruct (v4l2_valid_dv_timings _ _); cbn in E; [|by simplify_eq; split_and!].
  destruct (v4l2_find_dv_timings_cap _ _) as [t1|]; [|by simplify_eq; split_and!].
  destruct (v4l2_match_dv_timings t1 _) eqn:Em; [simplify_eq; rewrite Ef; by split_and!; eauto|].
  destruct busy; simplify_eq; [by split_and!|].
  split_and!; [done|by intros [|]|apply (refilled (set_timings _ _))|done|]. intros _. cbn. rewrite Ef. by eauto.
Qed.

Lemma s_input_contract busy i s ret s' : 0 <= i -> skeleton_s_input busy i s = (ret, s') -> consistent s ->
  ret <= 0 /\ (ret < 0 \/ busy = true -> s' = s) /\ consistent s' /\ (ret = 0 -> input s' = i /\ (i = 0 \/ i = 1)).
Proof.
  unfold skeleton_s_input. intros Hi E Hc. destruct (Z.ltb_spec 1 i); [by simplify_eq|].
  destruct busy; simplify_eq; [by split_and!|].
  split_and!; [done|by intros [|]|apply (refilled (set_input _ _ _))|]. intros _. cbn. split; [done|lia].
Qed.

(** The input is enumerated as the ioctls then treat it. *)
Lemma input_read_back busy s i : input s = i -> i = 0 \/ i = 1 -> read_back busy (s_input i) Nothing s.
Proof.
  intros Ei Hi. cbn. rewrite Ei. split; [done|]. unfold skeleton_enum_input, skeleton_g_std, skeleton_g_dv_timings. rewrite Ei.
  destruct Hi as [-> | ->]; cbn; eexists; (split; [done|]); cbn; split; (split; [|by intros []]); intros; try done; by eexists.
Qed.

(** C14: Whatever ioctl the application makes, it returns 0 or an error.  A question, a failed call and any call while buffers are
    allocated leave the driver as it was, and the format stays the one the settings call for.  An ioctl of the other input is
    refused with ENODATA.  A setting that was accepted is what the questions answer afterwards: the format got is the one returned,
    and is accepted by TRY_FMT unchanged; the standard is the one set; the timings are those returned or match them; the input is
    the one set, and standards or timings are available exactly as it was enumerated. *)
Theorem ioctl_contract busy r s ret s' ans : skel_ioctl_ops busy r s = (ret, s', ans) -> consistent s ->
  (forall i, r = s_input i -> 0 <= i) ->
  ret <= 0 /\
  (sets r = false \/ ret < 0 \/ busy = true -> s' = s) /\
  consistent s' /\
  (wrong_input r s = true -> ret = - ENODATA) /\
  (ret = 0 -> read_back busy r ans s').
Proof.
  intros E Hc Hu. destruct (sets r) eqn:Hr; cycle 1.
  { destruct (question_keeps _ _ _ _ _ _ E Hr) as (-> & ? & ?). split_and!; [done..|]. by destruct r. }
  destruct r; try done; cbn in E.
  - destruct (skeleton_s_fmt_vid_cap _ _ _) as [[??] p] eqn:Es. simplify_eq.
    destruct (s_fmt_contract _ _ _ _ _ _ Es Hc) as (? & Hk & ? & Hb). split_and!; [done|intros [? | ?]; [done|by apply Hk]|done..|].
    intros Hz. cbn. destruct (Hb Hz) as [-> ->]. done.
  - destruct (skeleton_s_std _ _ _) eqn:Es. simplify_eq. destruct (s_std_contract _ _ _ _ _ Es Hc) as (? & Hk & ? & Hw & Hb).
    split_and!; [done|intros [? | ?]; [done|by apply Hk]|done| |]; cbn; unfold truthy.
    + destruct (Z.eqb_spec (input s) 0); cbn; [done|]. intros _. by apply Hw.
    + intros Hz. by rewrite (Hb Hz).
  - destruct (skeleton_s_dv_timings _ _ _) as [[??] t'] eqn:Es. simplify_eq.
    destruct (s_dv_timings_contract _ _ _ _ _ _ Es Hc) as (? & Hk & ? & Hw & Hb).
    split_and!; [done|intros [? | ?]; [done|by apply Hk]|done|by intros ?%Z.eqb_eq; apply Hw|].
    intros Hz. cbn. destruct (Hb Hz) as (t0 & -> & Ht). by exists t0.
  - destruct (skeleton_s_input _ _ _) eqn:Es. simplify_eq.
    destruct (s_input_contract _ _ _ _ _ (Hu i eq_refl) Es Hc) as (? & Hk & ? & Hb).
    split_and!; [done|intros [? | ?]; [done|by apply Hk]|done..|]. intros Hz. destruct (Hb Hz). by apply input_read_back.
Qed.

End Table.

#[local] Existing Instance sample_core.

(** 1080i accepted on HDMI and read back, the standard refused there, and the input kept while buffers are allocated. *)
Lemma ioctl_contract_witness :
  (exists t, skel_ioctl_ops "skel" "0000:01" false g_dv_timings hd1080i = (0, hd1080i, Dv t) /\
     (t = Timings 1920 1080 true 0 \/ v4l2_match_dv_timings (Timings 1920 1080 true 0) t = true)) /\
  (skel_ioctl_ops "skel" "0000:01" false (s_std 1) hdmi).1.1 = - ENODATA /\
  (skel_ioctl_ops "skel" "0000:01" true (s_input 1) probed).1.2 = probed.
Proof.
  assert (consistent hdmi) as Hc by (by vm_compute).
  split_and!.
  - exact (proj2 (proj2 (proj2 (proj2 (ioctl_contract "skel" "0000:01" false (s_dv_timings (Timings 1920 1080 true 0)) hdmi 0 hd1080i
      (Dv (Timings 1920 1080 true 0)) eq_refl Hc ltac:(done))))) eq_refl).
  - exact (proj1 (proj2 (proj2 (proj2 (ioctl_contract "skel" "0000:01" false (s_std 1) hdmi _ hdmi
      Nothing eq_refl Hc ltac:(done))))) eq_refl).
  - refine (proj1 (proj2 (ioctl_contract "skel" "0000:01" true (s_input 1) probed (- EBUSY) _ Nothing eq_refl _ _)) _);
      [by vm_compute|intros i Ei; injection Ei as <-; lia|by right; right].
Defined.

End Ioctl.
