(* ===== verification/MeiAmt.v ===== *)
(** * The AMT version tool: Documentation/misc-devices/mei/mei-amt-version.c

    The tool connects to the management engine through /dev/mei, asks for the
    code versions, checks the answer and prints it.  The state is [struct
    amt_host_if] with its embedded [struct mei]; the response block and the copied
    [struct amt_code_versions] are byte arrays, read little-endian at the offsets of
    the packed structures; an access outside of them is a [Crash].  Messages on
    standard error are left out; [size_t] has 64 bits. *)

From S2P Require Import Prelude Posix CArray Resources.

Module Mei.

Open Scope Z_scope.

(** ** Data *)

Record mei : Type := Mei {
  guid : list Z; m_initialized : bool; verbose : bool; buf_size : Z; prot_ver : Z; fd : Z
}.

Record amt_host_if : Type := Amt { mei_cl : mei; send_timeout : Z; initialized : bool }.

Definition set_fd x m := Mei (guid m) (m_initialized m) (verbose m) (buf_size m) (prot_ver m) x.
Definition set_verbose x m := Mei (guid m) (m_initialized m) x (buf_size m) (prot_ver m) (fd m).
Definition set_client g m := Mei g true (verbose m) (buf_size m) (prot_ver m) (fd m).
Definition set_properties b p m := Mei (guid m) (m_initialized m) (verbose m) b p (fd m).
Definition on_mei (f : mei -> mei) (a : amt_host_if) : amt_host_if :=
  Amt (f (mei_cl a)) (send_timeout a) (initialized a).

(** What the tool prints on standard output. *)
Inductive message : Type :=
| Disabled
| Enabled
| Version (description version : list Z)
| ErrorOccurred.

Inductive call : Type :=
| Open
| Close (fd : Z)
| Connect (fd : Z) (uuid : list Z)
| Read (fd len : Z)
| Write (fd : Z) (buf : list Z)
| Select (nfds fd tv_sec tv_usec : Z)
| Malloc (size : Z)
| Free (p : Z)
| Printf (m : message).

Definition AMT_MAJOR_VERSION := 1.
Definition AMT_MINOR_VERSION := 1.
Definition AMT_STATUS_SUCCESS := 0x0.
Definition AMT_STATUS_INTERNAL_ERROR := 0x1.
Definition AMT_STATUS_HOST_IF_EMPTY_RESPONSE := 0x4000.
Definition AMT_STATUS_SDK_RESOURCES := 0x1004.
Definition AMT_BIOS_VERSION_LEN := 65.
Definition AMT_VERSIONS_NUMBER := 50.
Definition AMT_UNICODE_STRING_LEN := 20.

(** Sizes and offsets of the packed structures. *)
Definition sizeof_version_type : Z := 2 * (2 + AMT_UNICODE_STRING_LEN).
Definition off_versions : Z := AMT_BIOS_VERSION_LEN + 4.
Definition sizeof_code_versions : Z := off_versions + AMT_VERSIONS_NUMBER * sizeof_version_type.
Definition sizeof_msg_header : Z := 12.
Definition sizeof_resp_header : Z := 16.

Definition MEI_IAMTHIF : list Z :=
  le_bytes 4 0x12f80028 ++ le_bytes 2 0xb4b7 ++ le_bytes 2 0x4b2d ++
  [0xac; 0xa8; 0x46; 0xe0; 0xff; 0x65; 0x81; 0x4c].

Definition AMT_HOST_IF_CODE_VERSIONS_REQUEST := 0x0400001A.
Definition AMT_HOST_IF_CODE_VERSIONS_RESPONSE := 0x0480001A.

Definition msg_header (major minor reserved command length : Z) : list Z :=
  [major; minor] ++ le_bytes 2 reserved ++ le_bytes 4 command ++ le_bytes 4 length.

Definition CODE_VERSION_REQ : list Z :=
  msg_header AMT_MAJOR_VERSION AMT_MINOR_VERSION 0 AMT_HOST_IF_CODE_VERSIONS_REQUEST 0.

(** ** Memory *)

Open Scope out_scope.

(** What [read] leaves in the buffer. *)
Definition read_into (buf : list Z) (a : ans) : list Z :=
  if ret a <? 0 then buf
  else let got := ztake (zlen buf) (ztake (ret a) (data a)) in got ++ zdrop (zlen got) buf.

(** ** Verification of the response *)

(** [versions[i]] of the response, which follows its header. *)
Definition resp_version (i : Z) : Z := sizeof_resp_header + off_versions + i * sizeof_version_type.

Fixpoint verify_loop (n : nat) (resp : list Z) (i : Z) : outcome Z :=
  match n with
  | O => Ret AMT_STATUS_SUCCESS
  | S n =>
      let! len := rd 2 resp (resp_version i) in
      if AMT_UNICODE_STRING_LEN <? len then Ret AMT_STATUS_INTERNAL_ERROR
      else
        let! len := rd 2 resp (resp_version i + 22) in
        let! c := load resp (resp_version i + 24 + len) in
        if negb (c =? 0) then Ret AMT_STATUS_INTERNAL_ERROR
        else
          let! s := cstr resp (resp_version i + 24) in
          if negb (len =? zlen s) then Ret AMT_STATUS_INTERNAL_ERROR
          else verify_loop n resp (i + 1)
  end.

Definition amt_verify_code_versions (resp : list Z) : outcome Z :=
  let! length := rd 4 resp 8 in
  let code_ver_len := u64 (length - 4) in
  let ver_type_cnt := u32 (code_ver_len - AMT_BIOS_VERSION_LEN - 4) in
  let! count := rd 4 resp (sizeof_resp_header + AMT_BIOS_VERSION_LEN) in
  if negb (count =? ver_type_cnt / sizeof_version_type) then Ret AMT_STATUS_INTERNAL_ERROR
  else verify_loop (Z.to_nat count) resp 0.

Definition amt_verify_response_header (command : Z) (resp : list Z) (response_size : Z) : outcome Z :=
  if response_size <? sizeof_resp_header then Ret AMT_STATUS_INTERNAL_ERROR
  else
    let! length := rd 4 resp 8 in
    if negb (response_size =? u64 (length + sizeof_msg_header)) then Ret AMT_STATUS_INTERNAL_ERROR
    else
      let! cmd := rd 4 resp 4 in
      if negb (cmd =? command) then Ret AMT_STATUS_INTERNAL_ERROR
      else
        let! reserved := rd 2 resp 2 in
        if negb (reserved =? 0) then Ret AMT_STATUS_INTERNAL_ERROR
        else
          let! major := rd 1 resp 0 in
          let! minor := rd 1 resp 1 in
          if negb (major =? AMT_MAJOR_VERSION) || (minor <? AMT_MINOR_VERSION)
          then Ret AMT_STATUS_INTERNAL_ERROR
          else Ret AMT_STATUS_SUCCESS.

(** The status of a call that received [out_buf_sz] bytes. *)
Definition check_response (rcmd expected_sz out_buf_sz : Z) (buf : list Z) : outcome Z :=
  if out_buf_sz <=? 0 then Ret AMT_STATUS_HOST_IF_EMPTY_RESPONSE
  else
    let! status := rd 4 buf sizeof_msg_header in
    if negb (status =? AMT_STATUS_SUCCESS) then Ret status
    else
      let! status := amt_verify_response_header rcmd buf out_buf_sz in
      if negb (status =? AMT_STATUS_SUCCESS) then Ret status
      else if truthy expected_sz && negb (expected_sz =? out_buf_sz)
      then Ret AMT_STATUS_INTERNAL_ERROR
      else Ret AMT_STATUS_SUCCESS.

Close Scope out_scope.
Open Scope io_scope.

(** ** The management engine interface *)

Definition mei_deinit : io call amt_host_if unit :=
  let* a := get in
  (if negb (fd (mei_cl a) =? -1) then sys (Close (fd (mei_cl a))) ;; io_ret tt else io_ret tt) ;;
  modify (on_mei (fun m => Mei (guid m) false (verbose m) 0 0 (-1))).

Definition mei_init (g : list Z) (req_protocol_version : Z) (verb : bool) : io call amt_host_if bool :=
  modify (on_mei (set_verbose verb)) ;;
  let* f := sys Open in
  modify (on_mei (set_fd (ret f))) ;;
  if ret f =? -1 then mei_deinit ;; io_ret false
  else
    modify (on_mei (set_client g)) ;;
    let* r := sys (Connect (ret f) g) in
    if truthy (ret r) then mei_deinit ;; io_ret false
    else
      let max_msg_length := le_val (ztake 4 (data r)) in
      let protocol_version := znth (data r) 4 in
      if (0 <? req_protocol_version) && negb (protocol_version =? req_protocol_version)
      then mei_deinit ;; io_ret false
      else
        modify (on_mei (set_properties max_msg_length protocol_version)) ;; io_ret true.

(** The result and the buffer. *)
Definition mei_recv_msg (buffer : list Z) (len : Z) : io call amt_host_if (Z * list Z) :=
  let* a := get in
  let* r := sys (Read (fd (mei_cl a)) len) in
  if ret r <? 0 then mei_deinit ;; io_ret (ret r, buffer)
  else io_ret (ret r, read_into buffer r).

Definition mei_send_msg (buffer : list Z) (timeout : Z) : io call amt_host_if Z :=
  let* a := get in
  let out rc := (if rc <? 0 then mei_deinit else io_ret tt) ;; io_ret rc in
  let f := fd (mei_cl a) in
  let tv_sec := timeout / 1000 in
  let tv_usec := timeout mod 1000 * 1000000 in
  let* w := sys (Write f buffer) in
  if ret w <? 0 then out (- errno w)
  else
    let* s := sys (Select (f + 1) f tv_sec tv_usec) in
    if (0 <? ret s) && truthy (znth (data s) 0) then out (ret w) else out (ret s).

(** ** The AMT host interface *)

Definition amt_host_if_init (timeout : Z) (verb : bool) : io call amt_host_if bool :=
  modify (fun a => Amt (mei_cl a) (if truthy timeout then timeout else 20000) (initialized a)) ;;
  let* ok := mei_init MEI_IAMTHIF 0 verb in
  modify (fun a => Amt (mei_cl a) (send_timeout a) ok) ;;
  io_ret ok.

Definition amt_host_if_deinit : io call amt_host_if unit :=
  mei_deinit ;; modify (fun a => Amt (mei_cl a) (send_timeout a) false).

(** The status, the address of the response block (0 for NULL) and its contents. *)
Definition amt_host_if_call (command : list Z) (rcmd expected_sz : Z)
    : io call amt_host_if (Z * Z * list Z) :=
  let* a := get in
  let in_buf_sz := buf_size (mei_cl a) in
  let* p := sys (Malloc in_buf_sz) in
  if ret p =? 0 then io_ret (AMT_STATUS_SDK_RESOURCES, 0, [])
  else
    let buf := replicate (Z.to_nat in_buf_sz) 0 in
    let* written := mei_send_msg command (send_timeout a) in
    if negb (written =? zlen command) then io_ret (AMT_STATUS_INTERNAL_ERROR, ret p, buf)
    else
      let* (rc, buf) := mei_recv_msg buf in_buf_sz in
      let out_buf_sz := u32 rc in
      let* status := lift (check_response rcmd expected_sz out_buf_sz buf) in
      io_ret (status, ret p, buf).

(** The status, and the versions copied out of the response when it is success. *)
Definition amt_get_code_versions : io call amt_host_if (Z * list Z) :=
  let* (status, p, resp) := amt_host_if_call CODE_VERSION_REQ AMT_HOST_IF_CODE_VERSIONS_RESPONSE 0 in
  let out status vers := (if truthy p then sys (Free p) ;; io_ret tt else io_ret tt) ;; io_ret (status, vers) in
  if negb (status =? AMT_STATUS_SUCCESS) then out status []
  else
    let* status := lift (amt_verify_code_versions resp) in
    if negb (status =? AMT_STATUS_SUCCESS) then out status []
    else if zlen resp <? sizeof_resp_header + sizeof_code_versions then crash
    else out status (ztake sizeof_code_versions (zdrop sizeof_resp_header resp)).

Fixpoint print_loop (n : nat) (ver : list Z) (i : Z) : io call amt_host_if unit :=
  match n with
  | O => io_ret tt
  | S n =>
      let* d := lift (cstr ver (off_versions + i * sizeof_version_type + 2)) in
      let* v := lift (cstr ver (off_versions + i * sizeof_version_type + 24)) in
      sys (Printf (Version d v)) ;;
      print_loop n ver (i + 1)
  end.

(** The switch on the status. *)
Definition report (status : Z) (ver : list Z) : io call amt_host_if Z :=
  if status =? AMT_STATUS_HOST_IF_EMPTY_RESPONSE then sys (Printf Disabled) ;; io_ret 0
  else if status =? AMT_STATUS_SUCCESS then
    sys (Printf Enabled) ;;
    let* count := lift (rd 4 ver AMT_BIOS_VERSION_LEN) in
    print_loop (Z.to_nat count) ver 0 ;;
    io_ret 0
  else sys (Printf ErrorOccurred) ;; io_ret 1.

Definition main (argv : list string) : io call amt_host_if Z :=
  let verb := match argv with _ :: a :: _ => bool_decide (a = "-v") | _ => false end in
  let* ok := amt_host_if_init 5000 verb in
  if negb ok then io_ret 1
  else
    let* (status, ver) := amt_get_code_versions in
    amt_host_if_deinit ;;
    report status ver.

Close Scope io_scope.

(** ** Memory lemmas *)

Lemma ztake_snoc n l : 0 <= n < zlen l -> ztake (n + 1) l = ztake n l ++ [znth l n].
Proof.
  intros Hn. unfold ztake, znth, zlen in *. replace (Z.to_nat (n + 1)) with (S (Z.to_nat n)) by lia.
  apply take_S_r. destruct (nth_lookup_or_length l (Z.to_nat n) 0); [done|lia].
Qed.

Lemma le_val_snoc0 l : le_val (l ++ [0]) = le_val l.
Proof. unfold le_val. induction l as [|b l IH]; [done|]. cbn. by rewrite IH. Qed.

(** ** What the verification establishes *)

(** A response that claims more versions than the tool has room for, or a version
    string longer than its field. *)
Definition overlong (r : list Z) : Prop :=
  exists c, rd 4 r (sizeof_resp_header + AMT_BIOS_VERSION_LEN) = Ret c /\
    (AMT_VERSIONS_NUMBER < c \/
     exists i len, 0 <= i < c /\ rd 2 r (resp_version i + 22) = Ret len /\ AMT_UNICODE_STRING_LEN <= len).

Lemma header_verified cmd buf size :
  bytes_ok buf -> 16 <= zlen buf -> 0 <= size < 2 ^ 32 ->
  exists r, amt_verify_response_header cmd buf size = Ret r /\ (r = 0 \/ r = 1) /\
    (r = 0 -> 16 <= size /\ rd 4 buf 8 = Ret (size - 12)).
Proof.
  intros Hb Hl Hs. unfold amt_verify_response_header, sizeof_resp_header, sizeof_msg_header.
  destruct (Z.ltb_spec size 16) as [|H16]; [exists 1; split_and!; [done|by right|done]|].
  destruct (rd 4 buf 8) as [len| | |] eqn:Elen; [|rewrite rd_in in Elen by lia; done..]. cbn.
  assert (0 <= len < 2 ^ 32) as Hlen by (apply (rd_range 4 buf 8); [done|lia|done]).
  assert (u64 (len + 12) = len + 12) as -> by (apply wrap_small; unfold fits; lia).
  destruct (Z.eqb_spec size (len + 12)) as [->|]; [|exists 1; split_and!; [done|by right|done]]. cbn.
  rewrite !rd_in by lia. cbn.
  repeat case_match; eexists; (split; [done|]); (split; [auto|]); try done.
  all: intros _; split; [lia|]; f_equal; lia.
Qed.

Lemma response_checked cmd buf size :
  bytes_ok buf -> 16 <= zlen buf -> 0 <= size < 2 ^ 32 ->
  exists r, check_response cmd 0 size buf = Ret r /\
    (r = 0 -> 16 <= size /\ rd 4 buf 8 = Ret (size - 12)).
Proof.
  intros Hb Hl Hs. unfold check_response. destruct (size <=? 0); [by eexists|].
  rewrite rd_in by (unfold sizeof_msg_header; lia). cbn [out_bind].
  destruct (_ =? _) eqn:E; cbn [negb]; [|eexists; split; [done|]; unfold AMT_STATUS_SUCCESS in *; lia].
  destruct (header_verified cmd buf size) as (r & -> & Hr & Hsz); [done..|]. cbn [out_bind].
  destruct Hr as [-> | ->]; eexists; (split; [done|]); [done|done].
Qed.

(** In a block too small for the header of a response only the emptiness of the response can be told. *)
Lemma response_small cmd buf size :
  zlen buf < 16 -> check_response cmd 0 size buf = Ret AMT_STATUS_HOST_IF_EMPTY_RESPONSE \/ check_response cmd 0 size buf = Crash.
Proof.
  intros Hl. unfold check_response. destruct (size <=? 0); [by left|]. right. unfold rd, sizeof_msg_header.
  by replace (_ && _) with false by lia.
Qed.

(** In any block the verification gives a status or leaves the block. *)
Definition answers {A} (o : outcome A) : Prop := o = Crash \/ exists a, o = Ret a.

Lemma answers_bind {A B} (o : outcome A) (k : A -> outcome B) : answers o -> (forall a, answers (k a)) -> answers (out_bind o k).
Proof. intros [-> |[a ->]] Hk; [by left|]. apply Hk. Qed.

Lemma rd_answers n buf off : answers (rd n buf off).
Proof. unfold rd. destruct (_ && _); [right; by eexists|by left]. Qed.

Lemma verify_answers buf : answers (amt_verify_code_versions buf).
Proof.
  assert (forall n i, answers (verify_loop n buf i)) as Hl.
  { intros n. induction n as [|n IH]; intros i; [right; by eexists|]. cbn [verify_loop]. apply answers_bind; [apply rd_answers|]. intros len.
    destruct (_ <? _); [right; by eexists|]. apply answers_bind; [apply rd_answers|]. intros len'.
    apply answers_bind; [unfold load; destruct (_ && _); [right; by eexists|by left]|]. intros c. destruct (negb _); [right; by eexists|].
    apply answers_bind; [destruct (cstr_cases buf (resp_version i + 24)) as [-> |[str ->]]; [by left|right; by eexists]|]. intros str.
    destruct (negb _); [right; by eexists|apply IH]. }
  unfold amt_verify_code_versions. apply answers_bind; [apply rd_answers|]. intros len. apply answers_bind; [apply rd_answers|]. intros c.
  destruct (negb _); [right; by eexists|apply Hl].
Qed.

Section Received.
Context (got rest : list Z).
Hypothesis Hgot : bytes_ok got.
Hypothesis Hrest : Forall (eq 0) rest.
Hypothesis Hbuf : 2285 <= zlen (got ++ rest) < 2 ^ 32.
Let buf := got ++ rest.

Lemma buf_bytes : bytes_ok buf.
Proof. apply Forall_app. split; [done|]. eapply Forall_impl; [exact Hrest|]. intros ? <-. unfold byte_ok. lia. Qed.

Lemma rest_zero k : zlen got <= k -> znth buf k = 0.
Proof.
  intros Hk. unfold znth, buf. pose proof (zlen_nonneg got) as Hp. unfold zlen in Hk, Hp.
  rewrite app_nth2 by lia.
  destruct (nth_in_or_default (Z.to_nat k - length got) rest 0) as [Hin|Hd]; [|done].
  rewrite List.Forall_forall in Hrest. symmetry. by apply Hrest.
Qed.

(** The claimed number of versions of a response too short to hold the number. *)
Lemma count_short : zlen got < 85 -> exists c, rd 4 buf 81 = Ret c /\ 0 <= c < 2 ^ 24.
Proof.
  intros Hs. fold buf in Hbuf. rewrite rd_in by lia. eexists; split; [done|].
  rewrite (ztake_snoc 3) by (rewrite ?zlen_zdrop; lia).
  rewrite znth_zdrop, rest_zero, le_val_snoc0 by lia.
  apply (rd_range 3 buf 81); [apply buf_bytes|lia|]. by rewrite rd_in by lia.
Qed.

Definition terminated (j : Z) : Prop :=
  exists len, rd 2 got (resp_version j + 22) = Ret len /\ 0 <= len /\
    resp_version j + 24 + len < zlen buf /\ znth buf (resp_version j + 24 + len) = 0.

Lemma rd_got n off : 0 <= off -> 0 <= n -> off + n <= zlen got -> exists v, rd n buf off = Ret v /\ rd n got off = Ret v.
Proof. intros. unfold buf. rewrite rd_app by lia. rewrite rd_in by lia. eauto. Qed.

Lemma verify_loop_spec n i :
  0 <= i -> resp_version (i + Z.of_nat n) <= zlen got ->
  (exists r, verify_loop n buf i = Ret r /\ (r = 0 \/ r = 1) /\
     (r = 0 -> forall j, i <= j < i + Z.of_nat n -> terminated j)) \/
  (verify_loop n buf i = Crash /\
     exists j len, i <= j < i + Z.of_nat n /\ rd 2 got (resp_version j + 22) = Ret len /\ 20 <= len).
Proof.
  assert (zlen buf = zlen got + zlen rest) as Hlb by apply zlen_app.
  pose proof (zlen_nonneg rest) as Hr0.
  revert i. induction n as [|n IH]; intros i Hi Hn.
  { left. exists 0. split_and!; [done|by left|lia]. }
  assert (resp_version (i + Z.of_nat (S n)) = resp_version i + 44 + 44 * Z.of_nat n) as Hv
    by (unfold resp_version, sizeof_version_type, AMT_UNICODE_STRING_LEN; lia).
  assert (85 <= resp_version i) as Hv0
    by (unfold resp_version, sizeof_version_type, AMT_UNICODE_STRING_LEN, sizeof_resp_header, off_versions, AMT_BIOS_VERSION_LEN; lia).
  assert (forall r, r = 1 -> exists r', Ret r = Ret r' /\ (r' = 0 \/ r' = 1) /\
     (r' = 0 -> forall j, i <= j < i + Z.of_nat (S n) -> terminated j)) as Hone.
  { intros ? ->. exists 1. split_and!; [done|by right|done]. }
  cbn [verify_loop].
  destruct (rd_got 2 (resp_version i)) as (l1 & -> & _); [lia..|]. cbn [out_bind].
  destruct (AMT_UNICODE_STRING_LEN <? l1); [left; by apply Hone|].
  destruct (rd_got 2 (resp_version i + 22)) as (len & E & Egot); [lia..|]. rewrite E. cbn [out_bind].
  assert (0 <= len < 2 ^ 16) as Hlen by (apply (rd_range 2 buf (resp_version i + 22)); [apply buf_bytes|lia|done]).
  unfold load. destruct (_ && _) eqn:Eb; cbn [out_bind].
  2: { right. split; [done|]. exists i, len. split_and!; [lia|lia|done|lia]. }
  destruct (Z.eqb_spec (znth buf (resp_version i + 24 + len)) 0) as [Ez|]; [|left; by apply Hone]. cbn [negb].
  destruct (cstr_ex buf (resp_version i + 24) len) as (str & -> & _); [lia|lia|lia|done|]. cbn [out_bind].
  destruct (negb (len =? zlen str)); [left; by apply Hone|].
  destruct (IH (i + 1)) as [(r & -> & Hr & Hterm)|(-> & j & lj & Hj & Hlj)]; [lia| | |].
  - replace (i + 1 + Z.of_nat n) with (i + Z.of_nat (S n)) by lia. lia.
  - left. exists r. split_and!; [done|done|]. intros Hr0' j Hj.
    destruct (Z.eq_dec j i) as [->|]; [exists len; split_and!; [done|lia|lia|done]|apply Hterm; [done|lia]].
  - right. split; [done|]. exists j, lj. split; [lia|done].
Qed.

Lemma verify_spec size :
  size = zlen got -> 16 <= size -> rd 4 buf 8 = Ret (size - 12) ->
  (exists r, amt_verify_code_versions buf = Ret r /\ (r = 0 \/ r = 1) /\
     (r = 0 -> exists c, 0 <= c /\ rd 4 got 81 = Ret c /\ rd 4 buf 81 = Ret c /\
        resp_version c <= size /\ forall j, 0 <= j < c -> terminated j)) \/
  (amt_verify_code_versions buf = Crash /\ overlong got).
Proof.
  intros -> H16 Hlen. unfold amt_verify_code_versions. rewrite Hlen. cbn [out_bind].
  assert (zlen buf = zlen got + zlen rest) as Hlb by apply zlen_app. fold buf in Hbuf.
  pose proof (zlen_nonneg rest) as Hr0.
  replace (sizeof_resp_header + AMT_BIOS_VERSION_LEN) with 81 by done.
  assert (u64 (zlen got - 12 - 4) = zlen got - 16) as -> by (unfold u64; rewrite wrap_small by (unfold fits; lia); lia).
  replace (zlen got - 16 - AMT_BIOS_VERSION_LEN - 4) with (zlen got - 85) by (unfold AMT_BIOS_VERSION_LEN; lia).
  change sizeof_version_type with 44.
  destruct (Z.ltb_spec (zlen got) 85) as [Hs|Hs].
  - destruct (count_short Hs) as (c & -> & Hc). cbn [out_bind]. left. exists 1. split_and!; [|by right|done].
    assert (u32 (zlen got - 85) = zlen got - 85 + 2 ^ 32) as ->.
    { unfold u32, wrap. symmetry. apply (Z.mod_unique_pos _ _ (-1)); lia. }
    destruct (Z.eqb_spec c ((zlen got - 85 + 2 ^ 32) / 44)) as [->|]; [|done].
    pose proof (Z.div_le_lower_bound (zlen got - 85 + 2 ^ 32) 44 (2 ^ 24) ltac:(lia) ltac:(lia)). lia.
  - destruct (rd_got 4 81) as (c & -> & Ec); [lia..|]. cbn [out_bind].
    assert (u32 (zlen got - 85) = zlen got - 85) as -> by (apply wrap_small; unfold fits; lia).
    destruct (Z.eqb_spec c ((zlen got - 85) / 44)) as [Hc|]; cbn [negb].
    2: { left. exists 1. split_and!; [done|by right|done]. }
    assert (0 <= c /\ 85 + 44 * c <= zlen got) as [Hc0 Hcle].
    { split; [subst; apply Z.div_pos; lia|]. pose proof (Z.mul_div_le (zlen got - 85) 44 ltac:(lia)). lia. }
    assert (resp_version c <= zlen got) as Hrv by (change (85 + c * 44 <= zlen got); lia).
    destruct (verify_loop_spec (Z.to_nat c) 0) as [(r & -> & Hr & Hterm)|(-> & j & lj & Hj & Hlj & Hl20)];
      [lia|replace (0 + Z.of_nat (Z.to_nat c)) with c by lia; done| |].
    + left. exists r. split_and!; [done|done|]. intros H0. exists c. split_and!; [done|done|done|done|].
      intros j Hj. apply Hterm; [done|lia].
    + right. split; [done|]. exists c. split; [done|]. right. exists j, lj. split_and!; [lia|lia|done|done].
Qed.

End Received.

(** ** Descriptors and memory *)

Inductive resource : Type := Fd (f : Z) | Mem (p : Z).

#[export] Instance resource_eq : EqDecision resource.
Proof. solve_decision. Defined.

#[export] Instance mei_resources : Resources call resource := {
  acquires c a :=
    match c with
    | Open => if ret a =? -1 then None else Some (Fd (ret a))
    | Malloc _ => if ret a =? 0 then None else Some (Mem (ret a))
    | _ => None
    end;
  releases c _ :=
    match c with
    | Close f => Some (Fd f)
    | Free p => Some (Mem p)
    | _ => None
    end
}.

#[local] Arguments wp : simpl never.
#[local] Arguments wp_k : simpl never.
#[local] Arguments io_bind : simpl never.

(** The descriptor the state holds. *)
Definition open_fds (a : amt_host_if) : list resource :=
  if fd (mei_cl a) =? -1 then [] else [Fd (fd (mei_cl a))].

(** Memory blocks lie above the descriptor. *)
Lemma drop_fd f ps : drop_res (Fd f) ((Mem <$> ps) ++ [Fd f]) = Some (Mem <$> ps).
Proof.
  induction ps as [|p ps IH]; [apply drop_res_here|]. cbn [fmap list_fmap app].
  rewrite drop_res_next by done. by rewrite IH.
Qed.

Definition grows (h h' : list (event call)) : Prop := forall e, In e h -> In e h'.

Lemma grows_cons h h' e : grows h h' -> grows h (e :: h').
Proof. intros Hg ? ?. right. by apply Hg. Qed.
Lemma grows_refl h : grows h h.
Proof. by intros ? ?. Qed.
Lemma grows_trans h1 h2 h3 : grows h1 h2 -> grows h2 h3 -> grows h1 h3.
Proof. intros H1 H2 ? ?. by apply H2, H1. Qed.
#[local] Hint Resolve grows_cons grows_refl : cint.

Lemma mei_deinit_wp K s (h : list (event call)) ps :
  held h = Some ((Mem <$> ps) ++ open_fds s) ->
  wp mei_deinit K s h (fun o s' h' => o = Ret tt /\ fd (mei_cl s') = -1 /\
    held h' = Some (Mem <$> ps) /\ grows h h').
Proof.
  intros Hh. unfold mei_deinit, open_fds in *. wp_go; destruct (fd (mei_cl s) =? -1) eqn:E; try done.
  - split_and!; [done|done| |eauto with cint]. eapply held_release; [done|done|]. apply drop_fd.
  - split_and!; [done|done| |eauto with cint]. by rewrite app_nil_r in Hh.
Qed.

(** Initialisation either opens the device or holds nothing; the size is the one
    the driver gave. *)
Lemma init_wp K s (h : list (event call)) t v :
  held h = Some [] ->
  wp (amt_host_if_init t v) K s h (fun o s' h' => exists ok, o = Ret ok /\ grows h h' /\
    held h' = Some (open_fds s') /\
    if ok : bool then fd (mei_cl s') <> -1 /\
      exists h0 f g, In (Connect f g, K h0 (Connect f g)) h' /\ ret (K h0 (Connect f g)) = 0 /\
        buf_size (mei_cl s') = le_val (ztake 4 (data (K h0 (Connect f g))))
    else fd (mei_cl s') = -1).
Proof.
  intros Hh. unfold amt_host_if_init, mei_init.
  assert (forall s1 h1 (k : unit -> io call amt_host_if bool) Q, held h1 = Some (open_fds s1) ->
    (forall s2 h2, fd (mei_cl s2) = -1 -> held h2 = Some [] -> grows h1 h2 -> wp (k tt) K s2 h2 Q) ->
    wp mei_deinit K s1 h1 (wp_k K k Q)) as Hde.
  { intros s1 h1 k Q H1 H2. eapply wp_wand; [by apply (mei_deinit_wp K s1 h1 [])|].
    intros o s2 h2 (-> & Hfd & Hheld & Hg). by apply H2. }
  repeat lazymatch goal with
         | |- wp (sys _) _ _ _ _ => apply wp_sys_eq; intros ? ?
         | |- wp mei_deinit _ _ _ _ => apply Hde; [|intros s2 h2 Hfd Hheld Hg]
         | _ => first [wp_const | wp_step]
         end.
  all: try (unfold open_fds; cbn; held_facts; held_solve).
  all: eexists; split; [done|].
  all: try (split; [eapply grows_trans; [|exact Hg]; eauto with cint|]; cbn; split; [|exact Hfd];
            unfold open_fds; cbn; by rewrite Hfd).
  split; [eauto with cint|]. split; [unfold open_fds; cbn; held_facts; held_solve|]. cbn.
  split; [lia|]. eexists _, _, _. split; [left; by f_equal|]. split; [|by f_equal; f_equal; f_equal].
  unfold truthy in *. subst. lia.
Qed.

(** What [read] is documented to do: it fails, or stores as many bytes as it says,
    at most as many as there is room for. *)
Definition reads_ok (K : kernel call) : Prop := forall h f n,
  let a := K h (Read f n) in
  ret a < 0 \/ (0 <= ret a <= n /\ zlen (data a) = ret a /\ bytes_ok (data a)).

Lemma send_wp K s (h : list (event call)) ps buf t :
  held h = Some ((Mem <$> ps) ++ open_fds s) ->
  wp (mei_send_msg buf t) K s h (fun o s' h' => exists rc, o = Ret rc /\ grows h h' /\
    held h' = Some ((Mem <$> ps) ++ open_fds s') /\ (0 <= rc -> s' = s)).
Proof.
  intros Hh. unfold mei_send_msg.
  assert (forall rc s1 h1, s1 = s -> grows h h1 -> held h1 = Some ((Mem <$> ps) ++ open_fds s1) ->
    wp (io_bind (if rc <? 0 then mei_deinit else io_ret tt) (fun _ => io_ret rc)) K s1 h1
      (fun o s' h' => exists rc, o = Ret rc /\ grows h h' /\
        held h' = Some ((Mem <$> ps) ++ open_fds s') /\ (0 <= rc -> s' = s))) as Hout.
  { intros rc s1 h1 -> Hg H1. apply wp_bind. destruct (rc <? 0) eqn:E.
    - eapply wp_wand; [by apply mei_deinit_wp|]. intros o s2 h2 (-> & Hfd & Hheld & Hg2). wp_go.
      exists rc. split_and!; [done|by eapply grows_trans| |lia]. unfold open_fds. rewrite Hfd. cbn.
      by rewrite app_nil_r.
    - wp_go. exists rc. by split_and!. }
  repeat lazymatch goal with
         | |- wp (sys _) _ _ _ _ => apply wp_sys_any; intros ?
         | |- wp (io_bind (if _ <? 0 then mei_deinit else _) _) _ _ _ _ =>
             apply Hout; [done|eauto with cint|held_solve]
         | _ => first [wp_const | wp_step]
         end.
  eexists. split_and!; [done|eauto with cint|held_solve|done].
Qed.

(** The result of the call: on success the block holds a verified response. *)
Definition received (h : list (event call)) (size : Z) (buf : list Z) : Prop :=
  exists f n a rest, In (Read f n, a) h /\ let got := ztake (ret a) (data a) in
    bytes_ok got /\ Forall (eq 0) rest /\ buf = got ++ rest /\ zlen buf = size /\ 16 <= zlen got /\
    rd 4 buf 8 = Ret (zlen got - 12).

Lemma replicate_zero n : Forall (eq 0) (replicate n 0).
Proof. by apply Forall_replicate. Qed.

Lemma read_into_eq n a : 0 <= ret a <= n -> zlen (data a) = ret a ->
  read_into (replicate (Z.to_nat n) 0) a = data a ++ replicate (Z.to_nat (n - ret a)) 0.
Proof.
  intros Hr Hd. unfold read_into. replace (ret a <? 0) with false by lia. cbn zeta.
  assert (ztake (ret a) (data a) = data a) as -> by (unfold ztake, zlen in *; apply take_ge; lia).
  rewrite zlen_replicate by lia.
  assert (ztake n (data a) = data a) as -> by (unfold ztake, zlen in *; apply take_ge; lia).
  f_equal. unfold zdrop. rewrite drop_replicate. f_equal. lia.
Qed.

Lemma rd_zero n m off : 0 <= off -> 0 <= n -> off + n <= m -> rd n (replicate (Z.to_nat m) 0) off = Ret 0.
Proof.
  intros. rewrite rd_in by (rewrite ?zlen_replicate; lia). f_equal. unfold ztake, zdrop.
  rewrite drop_replicate, take_replicate. generalize (Z.to_nat n `min` (Z.to_nat m - Z.to_nat off))%nat.
  intros k. unfold le_val. induction k as [|k IH]; [done|]. cbn. by rewrite IH.
Qed.

Lemma call_wp K s (h : list (event call)) cmd rcmd :
  reads_ok K -> held h = Some (open_fds s) -> 0 <= buf_size (mei_cl s) < 2 ^ 32 ->
  wp (amt_host_if_call cmd rcmd 0) K s h (fun o s' h' => grows h h' /\ ((exists st p buf, o = Ret (st, p, buf) /\
    held h' = Some ((if p =? 0 then [] else [Mem p]) ++ open_fds s') /\
    (st = 0 -> p <> 0 /\ received h' (buf_size (mei_cl s)) buf)) \/ o = Crash /\ buf_size (mei_cl s) < 16)).
Proof.
  intros HK Hh Hn. unfold amt_host_if_call. set (n := buf_size (mei_cl s)) in *.
  do 3 wp_step. cbn zeta. fold n. wp_step. apply wp_sys_any. intros p. wp_step. wp_step.
  { wp_go. split; [eauto with cint|]. left. eexists _, _, _. split; [done|]. split; [held_solve|done]. }
  assert (forall st buf s2 h2, st <> 0 -> grows h h2 -> held h2 = Some (Mem (ret p) :: open_fds s2) ->
    wp (io_ret (st, ret p, buf)) K s2 h2 (fun o s' h' => grows h h' /\ ((exists st p buf, o = Ret (st, p, buf) /\
    held h' = Some ((if p =? 0 then [] else [Mem p]) ++ open_fds s') /\
    (st = 0 -> p <> 0 /\ received h' n buf)) \/ o = Crash /\ n < 16))) as Hfail.
  { intros st buf s2 h2 Hst Hg2 Hh2. apply wp_ret. split; [done|]. left. exists st, (ret p), buf.
    replace (ret p =? 0) with false by lia. by split_and!. }
  apply wp_bind. eapply wp_wand; [apply (send_wp K s _ [ret p]); cbn; held_solve|].
  intros o s1 h1 (rc & -> & Hg1 & Hh1 & Hs1).
  assert (grows h h1) as Hg by (eapply grows_trans; [|exact Hg1]; eauto with cint). wp_step. wp_step.
  { by apply Hfail. }
  assert (s1 = s) as -> by (apply Hs1; pose proof (zlen_nonneg cmd); lia).
  unfold mei_recv_msg. do 6 wp_step.
  apply wp_sys_eq. intros a Ha. specialize (HK h1 (fd (mei_cl s)) n). rewrite Ha in HK. cbn zeta in HK.
  assert (0 <= u32 (ret a) < 2 ^ 32) as Hu by (apply (wrap_range 32); lia).
  wp_step. destruct (ret a <? 0) eqn:Eneg.
  - (* the read failed, the block is all zero *)
    apply wp_bind. eapply wp_wand; [apply (mei_deinit_wp K s _ [ret p]); cbn; held_solve|].
    intros o s2 h2 (-> & Hfd & Hh2 & Hg2). do 4 wp_step.
    assert (grows h h2) as Hgr by (eapply grows_trans; [|exact Hg2]; eauto with cint).
    destruct (Z.ltb_spec n 16) as [Hsm|Hbig].
    { destruct (response_small rcmd (replicate (Z.to_nat n) 0) (u32 (ret a))) as [-> | ->]; [rewrite zlen_replicate; lia| |];
        apply wp_lift; wp_step; [|auto]. apply Hfail; [done|done|unfold open_fds; by rewrite Hfd]. }
    destruct (response_checked rcmd (replicate (Z.to_nat n) 0) (u32 (ret a))) as (r & -> & Hsz).
    { eapply Forall_impl; [apply replicate_zero|]. intros ? <-. unfold byte_ok. lia. }
    { rewrite zlen_replicate; lia. }
    { done. }
    apply wp_lift. wp_step. apply Hfail; [|done|unfold open_fds; by rewrite Hfd].
    intros ->. rewrite rd_zero in Hsz by lia. destruct (Hsz eq_refl) as [H16 Hrd]. simplify_eq. lia.
  - destruct HK as [|(Hr & Hd & Hb)]; [lia|]. rewrite read_into_eq by done. do 3 wp_step.
    assert (ztake (ret a) (data a) = data a) as Hall by (unfold ztake, zlen in *; apply take_ge; lia).
    set (buf := data a ++ _).
    assert (zlen buf = n) as Hlb by (unfold buf; rewrite zlen_app, zlen_replicate; lia).
    assert (u32 (ret a) = ret a) as -> by (apply wrap_small; unfold fits; lia).
    destruct (Z.ltb_spec n 16) as [Hsm|Hbig].
    { destruct (response_small rcmd buf (ret a)) as [-> | ->]; [lia| |]; apply wp_lift; wp_step; [|split; [eauto with cint|auto]].
      apply Hfail; [done|eauto with cint|cbn; held_solve]. }
    destruct (response_checked rcmd buf (ret a)) as (r & -> & Hsz); [|lia|lia|].
    { apply Forall_app. split; [done|]. eapply Forall_impl; [apply replicate_zero|]. intros ? <-. unfold byte_ok. lia. }
    apply wp_lift. wp_step. wp_step. split; [eauto with cint|]. left. exists r, (ret p), buf. replace (ret p =? 0) with false by lia.
    split_and!; [done|cbn; held_solve|]. intros H0. split; [lia|]. destruct (Hsz H0) as [H16 Hrd].
    exists (fd (mei_cl s)), n, a, (replicate (Z.to_nat (n - ret a)) 0). split; [by left|]. cbn zeta. rewrite Hall.
    split_and!; [done|apply replicate_zero|done|done|lia|]. by rewrite Hd.
Qed.

(** ** Printing the versions *)

Definition copied (buf : list Z) : list Z := ztake sizeof_code_versions (zdrop sizeof_resp_header buf).

Lemma zlen_copied buf : 2285 <= zlen buf -> zlen (copied buf) = 2269.
Proof. intros. unfold copied. apply zlen_ztake. rewrite zlen_zdrop; change sizeof_resp_header with 16; change sizeof_code_versions with 2269; lia. Qed.

Lemma znth_copied buf k : 0 <= k < 2269 -> znth (copied buf) k = znth buf (16 + k).
Proof.
  intros Hk. rewrite <- (znth_zdrop buf 16 k) by lia. unfold copied, ztake, znth.
  change sizeof_code_versions with 2269. change sizeof_resp_header with 16.
  rewrite !nth_lookup, lookup_take_lt; [done|lia].
Qed.

Lemma rd_copied n buf off : 2285 <= zlen buf -> 0 <= off -> 0 <= n -> off + n <= 2269 ->
  rd n (copied buf) off = rd n buf (16 + off).
Proof.
  intros Hb Ho Hn Hl. rewrite !rd_in by (rewrite ?zlen_copied; lia). do 2 f_equal.
  unfold copied, ztake, zdrop. change sizeof_code_versions with 2269. change sizeof_resp_header with 16.
  rewrite skipn_firstn_comm, take_take, drop_drop. f_equal; [lia|]. f_equal. lia.
Qed.

Lemma print_any K s (h : list (event call)) ver n i :
  wp (print_loop n ver i) K s h (fun o s' h' => s' = s /\ grows h h' /\
    (o = Ret tt /\ held h' = held h \/ o = Crash)).
Proof.
  revert i h. induction n as [|n IH]; intros i h; cbn [print_loop]; [wp_go; split_and!; eauto with cint|].
  apply wp_bind, wp_lift. destruct (cstr_cases ver (off_versions + i * sizeof_version_type + 2)) as [-> |[d ->]].
  { wp_step. split_and!; eauto with cint. }
  wp_step. apply wp_bind, wp_lift.
  destruct (cstr_cases ver (off_versions + i * sizeof_version_type + 24)) as [-> |[v ->]].
  { wp_step. split_and!; eauto with cint. }
  wp_step. wp_step. wp_step. wp_step. eapply wp_wand; [apply IH|]. intros o s' h' (-> & Hg & Ho).
  split; [done|]. split; [eapply grows_trans; [|exact Hg]; eauto with cint|].
  destruct Ho as [[-> Hh]|]; [left|by right]. split; [done|]. rewrite Hh. unfold held. cbn.
  by destruct (held_from [] h).
Qed.

Section Print.
Context (got rest : list Z) (c : Z).
Hypothesis Hbuf : 2285 <= zlen (got ++ rest).
Hypothesis Hc : rd 4 got 81 = Ret c.
Hypothesis Hterm : forall j, 0 <= j < c -> terminated got rest j.

Lemma print_wp K s (h : list (event call)) n i :
  0 <= i -> i + Z.of_nat n = c ->
  wp (print_loop n (copied (got ++ rest)) i) K s h (fun o s' h' => s' = s /\ grows h h' /\
    (o = Ret tt /\ held h' = held h \/ o = Crash /\ overlong got)).
Proof.
  revert i h. induction n as [|n IH]; intros i h Hi Hn; [cbn; wp_go; split_and!; eauto with cint|].
  assert (overlong got -> wp (print_loop (S n) (copied (got ++ rest)) i) K s h
    (fun o s' h' => s' = s /\ grows h h' /\ (o = Ret tt /\ held h' = held h \/ o = Crash /\ overlong got))) as Hover.
  { intros Ho. eapply wp_wand; [apply print_any|]. intros o s' h' (-> & Hg & [?|?]); auto. }
  destruct (Z.leb_spec 50 i); [apply Hover; exists c; split; [done|left; unfold AMT_VERSIONS_NUMBER; lia]|].
  destruct (Hterm i ltac:(lia)) as (len & Elen & Hlen & _ & Hz).
  destruct (Z.leb_spec 20 len) as [|Hl20].
  { apply Hover. exists c. split; [done|]. right. exists i, len. split_and!; [lia|lia|done|done]. }
  set (off := off_versions + i * sizeof_version_type).
  assert (off = 69 + i * 44) as Hoff by done.
  assert (znth (copied (got ++ rest)) (off + 24 + len) = 0) as Hz'.
  { rewrite znth_copied by lia. rewrite <- Hz. f_equal. rewrite Hoff.
    change (resp_version i) with (85 + i * 44). lia. }
  pose proof (zlen_copied _ Hbuf) as Hzl.
  destruct (cstr_ex (copied (got ++ rest)) (off + 2) (22 + len)) as (d & Ed & _); [lia|lia|lia| |].
  { rewrite <- Hz'. f_equal. lia. }
  destruct (cstr_ex (copied (got ++ rest)) (off + 24) len) as (v & Ev & _); [lia|lia|lia|done|].
  cbn [print_loop]. fold off. rewrite Ed, Ev.
  apply wp_bind, wp_lift. wp_step. apply wp_bind, wp_lift. do 4 wp_step.
  eapply wp_wand; [apply IH; lia|]. intros o s' h' (-> & Hg & Ho). split; [done|].
  split; [eapply grows_trans; [|exact Hg]; eauto with cint|].
  destruct Ho as [[-> Hh]|]; [left|by right]. split; [done|]. rewrite Hh. unfold held. cbn.
  by destruct (held_from [] h).
Qed.

End Print.

(** What the driver is documented to do when a client is connected: it gives the
    size of the largest message, a number of four bytes. *)
Definition connects_ok (K : kernel call) : Prop := forall h f g,
  ret (K h (Connect f g)) = 0 -> bytes_ok (data (K h (Connect f g))).

(** The driver gave a size below that of the header of a response with the tool's table. *)
Definition small_messages (h : list (event call)) : Prop :=
  exists f g a, In (Connect f g, a) h /\ ret a = 0 /\ le_val (ztake 4 (data a)) < sizeof_resp_header + sizeof_code_versions.

Lemma le_val_take4 l : bytes_ok l -> 0 <= le_val (ztake 4 l) < 2 ^ 32.
Proof.
  intros Hl. assert (bytes_ok (ztake 4 l)) as Ht by (by apply Forall_take).
  assert (zlen (ztake 4 l) <= 4) as Hz by (unfold zlen, ztake; rewrite length_take; lia). pose proof (zlen_nonneg (ztake 4 l)).
  pose proof (rd_range (zlen (ztake 4 l)) (ztake 4 l) 0 (le_val (ztake 4 l)) Ht ltac:(lia)) as Hr.
  assert (2 ^ (8 * zlen (ztake 4 l)) <= 2 ^ 32) by (apply Z.pow_le_mono_r; lia).
  enough (0 <= le_val (ztake 4 l) < 2 ^ (8 * zlen (ztake 4 l))) by lia. apply Hr. rewrite rd_in by lia. do 2 f_equal.
  unfold zdrop, zlen. generalize (ztake 4 l). intros m. unfold ztake. rewrite drop_0. rewrite take_ge; [done|lia].
Qed.

(** The versions handed out come from a verified response. *)
Definition verified (h : list (event call)) (ver : list Z) : Prop :=
  exists f n a rest c, In (Read f n, a) h /\ let got := ztake (ret a) (data a) in
    ver = copied (got ++ rest) /\ 2285 <= zlen (got ++ rest) /\ rd 4 got 81 = Ret c /\ 0 <= c /\
    rd 4 (got ++ rest) 81 = Ret c /\ forall j, 0 <= j < c -> terminated got rest j.

Definition overlong_read (h : list (event call)) : Prop :=
  exists f n a, In (Read f n, a) h /\ overlong (ztake (ret a) (data a)).

Lemma get_versions_wp K s (h : list (event call)) :
  reads_ok K -> held h = Some (open_fds s) -> 0 <= buf_size (mei_cl s) < 2 ^ 32 ->
  wp amt_get_code_versions K s h (fun o s' h' => grows h h' /\
    ((exists st ver, o = Ret (st, ver) /\ held h' = Some (open_fds s') /\ (st = 0 -> verified h' ver)) \/
     (o = Crash /\ (overlong_read h' \/ buf_size (mei_cl s) < 2285)))).
Proof.
  intros HK Hh Hn. unfold amt_get_code_versions. apply wp_bind.
  eapply wp_wand; [by apply call_wp|]. intros o s1 h1 (Hg & [(st & p & buf & -> & Hh1 & Hst)|[-> Hsm]]); wp_step;
    [|split; [done|]; right; split; [done|right; lia]].
  assert (forall st ver, (st = 0 -> p <> 0 /\ verified h1 ver) ->
    wp (io_bind (if truthy p then io_bind (sys (Free p)) (fun _ => io_ret tt) else io_ret tt)
         (fun _ => io_ret (st, ver))) K s1 h1 (fun o s' h' => grows h h' /\
      ((exists st ver, o = Ret (st, ver) /\ held h' = Some (open_fds s') /\ (st = 0 -> verified h' ver)) \/
       (o = Crash /\ (overlong_read h' \/ buf_size (mei_cl s) < 2285))))) as Hout.
  { intros st' ver Hv. unfold truthy. wp_go; (split; [eauto with cint|]); left; eexists _, _; (split; [done|]); split.
    - apply negb_true_iff in Heqb. rewrite Heqb in Hh1. eapply held_release; [done|done|]. apply drop_res_here.
    - intros H0. destruct (Hv H0) as (_ & f & n & b & rest & c & Hin & Hr). exists f, n, b, rest, c.
      split; [by right|done].
    - apply negb_false_iff in Heqb. by rewrite Heqb in Hh1.
    - intros H0. apply negb_false_iff in Heqb. destruct (Hv H0). lia. }
  cbn zeta. wp_step; [apply Hout; intros ->; done|].
  assert (st = 0) as -> by (unfold AMT_STATUS_SUCCESS in *; lia).
  destruct (Hst eq_refl) as (Hp & f & n & a & rest & Hin & Hgot & Hrest & -> & Hsz & H16 & Hrd).
  set (got := ztake (ret a) (data a)) in *. apply wp_bind, wp_lift. destruct (Z.ltb_spec (buf_size (mei_cl s)) 2285) as [Hsm|Hbig].
  { destruct (verify_answers (got ++ rest)) as [-> |[r ->]]; wp_step; [auto|]. wp_step; [apply Hout; intros ->; done|].
    replace (zlen (got ++ rest) <? _) with true by (change (sizeof_resp_header + sizeof_code_versions) with 2285; lia). wp_step. auto. }
  destruct (verify_spec got rest Hgot Hrest ltac:(lia) (zlen got) eq_refl H16 Hrd)
    as [(r & -> & _ & Hr)|[-> Hover]].
  2: { wp_step. split; [done|]. right. split; [done|]. left. by exists f, n, a. }
  wp_step. wp_step; [apply Hout; intros ->; done|].
  assert (r = 0) as -> by (unfold AMT_STATUS_SUCCESS in *; lia).
  replace (zlen (got ++ rest) <? _) with false
    by (change (sizeof_resp_header + sizeof_code_versions) with 2285; lia).
  apply Hout. intros _. split; [done|]. destruct (Hr eq_refl) as (c & Hc & Eg & Eb & _ & Hterm).
  exists f, n, a, rest, c. split; [done|]. cbn zeta. fold got. split_and!; [done|lia|done|done|done|done].
Qed.

(** C31: every run that returns has closed the device and freed the response, each
    once, and returns 0 or 1.  The tool leaves its buffers only if the driver gave a
    size of messages below 2285 bytes, that of the tool's table with its header, or if the response it read
    claims more than 50 versions or a version string longer than its field. *)
Theorem main_outcomes argv K s :
  reads_ok K -> connects_ok K ->
  exists o s' h', main argv K s [] = (o, s', h') /\
    (((o = Ret 0 \/ o = Ret 1) /\ held h' = Some [] /\ fd (mei_cl s') = -1) \/
     (o = Crash /\ (small_messages h' \/ exists f n a, In (Read f n, a) h' /\ overlong (ztake (ret a) (data a))))).
Proof.
  intros HK HC.
  enough (wp (main argv) K s [] (fun o s' h' =>
    ((o = Ret 0 \/ o = Ret 1) /\ held h' = Some [] /\ fd (mei_cl s') = -1) \/
     (o = Crash /\ (small_messages h' \/ exists f n a, In (Read f n, a) h' /\ overlong (ztake (ret a) (data a)))))) as Hwp.
  { unfold wp in Hwp. destruct (main argv K s []) as [[o s'] h']. by eexists _, _, _. }
  unfold main. apply wp_bind. eapply wp_wand; [by apply init_wp|].
  intros o s1 h1 (ok & -> & Hg1 & Hh1 & Hok). do 2 wp_step.
  { apply negb_true_iff in Heqb. subst ok. wp_go. left. split_and!; [by right| |done].
    by unfold open_fds in Hh1; rewrite Hok in Hh1. }
  apply negb_false_iff in Heqb. subst ok. destruct Hok as (Hfd & h0 & f0 & g0 & Hcon & Hret & Hsize).
  specialize (HC _ _ _ Hret). apply le_val_take4 in HC. rewrite <- Hsize in HC.
  apply wp_bind. eapply wp_wand; [by apply get_versions_wp|].
  intros o s2 h2 (Hg2 & [(st & ver & -> & Hh2 & Hver)|[-> [Hover|Hsm]]]); [|wp_step; by auto|].
  2: { wp_step. right. split; [done|]. left. exists f0, g0, (K h0 (Connect f0 g0)). split_and!; [by apply Hg2|done|].
       change (sizeof_resp_header + sizeof_code_versions) with 2285. lia. }
  wp_step. unfold amt_host_if_deinit. apply wp_bind, wp_bind.
  eapply wp_wand; [by apply (mei_deinit_wp K s2 h2 [])|]. intros o s3 h3 (-> & Hfd3 & Hh3 & Hg3).
  do 3 wp_step. unfold report. wp_step; [wp_go; left; split_and!; [by left|held_solve|done]|].
  wp_step; [|wp_go; left; split_and!; [by right|held_solve|done]].
  do 3 wp_step. destruct Hver as (f & n & a & rest & c & Hin & -> & Hb & Hc & Hc0 & Hcb & Hterm).
  { unfold AMT_STATUS_SUCCESS in *. lia. }
  apply wp_bind, wp_lift. rewrite rd_copied by (done || lia). change (16 + AMT_BIOS_VERSION_LEN) with 81.
  rewrite Hcb. wp_step. apply wp_bind. eapply wp_wand; [apply (print_wp _ rest c Hb Hc Hterm); lia|].
  intros o s4 h4 (-> & Hg4 & [[-> Hh4]|[-> Hover]]); wp_step.
  - wp_step. left. split_and!; [by left| |done]. rewrite Hh4. held_solve.
  - right. split; [done|]. right. exists f, n, a. split; [|done]. apply Hg4. right. by apply Hg3.
Qed.

(** ** A device that answers *)

Definition pad20 (s : list Z) : list Z := s ++ replicate (20 - length s) 0.

(** A version as the firmware stores it, and a whole response. *)
Definition entry (dv : list Z * list Z) : list Z :=
  le_bytes 2 (zlen dv.1) ++ pad20 dv.1 ++ le_bytes 2 (zlen dv.2) ++ pad20 dv.2.

Definition entries (vs : list (list Z * list Z)) : list Z := concat (entry <$> vs).

Definition response_head (bios : list Z) (n : Z) : list Z :=
  msg_header 1 1 0 AMT_HOST_IF_CODE_VERSIONS_RESPONSE (73 + 44 * n) ++ le_bytes 4 0 ++ bios ++ le_bytes 4 n.

Definition response (bios : list Z) (vs : list (list Z * list Z)) : list Z :=
  response_head bios (zlen vs) ++ entries vs.

(** Text that fits its field with a terminating zero. *)
Definition text (s : list Z) : Prop := zlen s < 20 /\ Forall (fun b => 0 < b < 256) s.
Definition texts (dv : list Z * list Z) : Prop := text dv.1 /\ text dv.2.

(** A padded text has a zero after it. *)
Lemma pad20_split s : zlen s < 20 -> pad20 s = s ++ 0 :: replicate (19 - length s) 0.
Proof. intros. unfold pad20, zlen in *. by replace (20 - length s)%nat with (S (19 - length s)) by lia. Qed.

Lemma zlen_pad20 s : zlen s < 20 -> zlen (pad20 s) = 20.
Proof. intros. unfold pad20, zlen in *. rewrite length_app, length_replicate. lia. Qed.

Lemma zlen_entry dv : texts dv -> zlen (entry dv) = 44.
Proof. intros [[? _] [? _]]. unfold entry. rewrite !zlen_app, !zlen_le_bytes, !zlen_pad20 by done. lia. Qed.

Lemma zlen_entries vs : Forall texts vs -> zlen (entries vs) = 44 * zlen vs.
Proof.
  unfold entries. induction 1 as [|dv vs Hdv _ IH]; [done|]. cbn [fmap list_fmap concat].
  rewrite zlen_app, zlen_entry, zlen_cons by done. lia.
Qed.

(** The four fields of an entry behind [pre], by their offsets. *)
Lemma entry_fields pre post d v off :
  zlen pre = off -> texts (d, v) ->
  let buf := pre ++ entry (d, v) ++ post in
  rd 2 buf off = Ret (zlen d) /\ cstr buf (off + 2) = Ret d /\
  rd 2 buf (off + 22) = Ret (zlen v) /\ cstr buf (off + 24) = Ret v /\
  load buf (off + 24 + zlen v) = Ret 0.
Proof.
  intros Hp [[Hd Hd'] [Hv Hv']]. cbn [fst snd] in *. cbn zeta. unfold entry. cbn [fst snd].
  pose proof (zlen_nonneg d). pose proof (zlen_nonneg v). pose proof (zlen_nonneg pre). pose proof (zlen_nonneg post).
  assert (zlen (pad20 d) = 20) as Hpd by (by apply zlen_pad20).
  split_and!.
  - eapply (rd_at 2 _ pre); [by rewrite <- !app_assoc|lia|done|lia].
  - eapply (cstr_at d (pre ++ le_bytes 2 (zlen d))); [|rewrite zlen_app, zlen_le_bytes; lia|done].
    rewrite pad20_split by done. rewrite <- !app_assoc. reflexivity.
  - eapply (rd_at 2 _ (pre ++ le_bytes 2 (zlen d) ++ pad20 d)); [by rewrite <- !app_assoc|lia| |lia].
    rewrite !zlen_app, zlen_le_bytes. lia.
  - eapply (cstr_at v (pre ++ le_bytes 2 (zlen d) ++ pad20 d ++ le_bytes 2 (zlen v))); [| |done].
    + rewrite (pad20_split v) by done. rewrite <- !app_assoc. reflexivity.
    + rewrite !zlen_app, !zlen_le_bytes. lia.
  - rewrite (pad20_split v) by done.
    set (front := pre ++ le_bytes 2 (zlen d) ++ pad20 d ++ le_bytes 2 (zlen v) ++ v).
    assert (zlen front = off + 24 + zlen v) as Hf by (unfold front; rewrite !zlen_app, !zlen_le_bytes; lia).
    eassert (pre ++ _ = front ++ 0 :: _) as -> by (unfold front; rewrite <- !app_assoc; reflexivity).
    rewrite load_in by (rewrite zlen_app, zlen_cons;
      match goal with |- context [1 + zlen ?t] => pose proof (zlen_nonneg t); lia end).
    f_equal. unfold znth. rewrite <- Hf. unfold zlen. rewrite Nat2Z.id. apply nth_middle.
Qed.

Lemma entries_app vs vs' : entries (vs ++ vs') = entries vs ++ entries vs'.
Proof. unfold entries. by rewrite fmap_app, concat_app. Qed.

Lemma entries_cons dv vs : entries (dv :: vs) = entry dv ++ entries vs.
Proof. done. Qed.

Lemma verify_entries head vs1 vs2 post :
  zlen head = 85 -> Forall texts vs1 -> Forall texts vs2 ->
  verify_loop (length vs2) (head ++ entries (vs1 ++ vs2) ++ post) (zlen vs1) = Ret 0.
Proof.
  intros Hh H1 H2. revert vs1 H1. induction H2 as [|[d v] vs2 Hdv H2 IH]; intros vs1 H1; [done|].
  cbn [verify_loop length].
  assert (zlen (head ++ entries vs1) = resp_version (zlen vs1)) as Hoff.
  { rewrite zlen_app, zlen_entries by done. change (resp_version (zlen vs1)) with (85 + zlen vs1 * 44). lia. }
  assert (head ++ entries (vs1 ++ (d, v) :: vs2) ++ post =
          (head ++ entries vs1) ++ entry (d, v) ++ (entries vs2 ++ post)) as Heq.
  { rewrite entries_app, entries_cons. by rewrite <- !app_assoc. }
  destruct (entry_fields _ (entries vs2 ++ post) d v _ Hoff Hdv) as (E1 & _ & E2 & E3 & E4).
  rewrite <- Heq in E1, E2, E3, E4. rewrite E1. cbn [out_bind]. pose proof Hdv as [[Hd _] _]. cbn in Hd.
  replace (AMT_UNICODE_STRING_LEN <? zlen d) with false by (unfold AMT_UNICODE_STRING_LEN; lia).
  rewrite E2. cbn [out_bind]. rewrite E4. cbn [out_bind Z.eqb negb]. rewrite E3. cbn [out_bind].
  rewrite Z.eqb_refl. cbn [negb].
  replace (vs1 ++ (d, v) :: vs2) with ((vs1 ++ [(d, v)]) ++ vs2) by (by rewrite <- app_assoc).
  replace (zlen vs1 + 1) with (zlen (vs1 ++ [(d, v)])) by (by rewrite zlen_app).
  apply IH. apply Forall_app. split; [done|]. by constructor; [|constructor].
Qed.

Section Answer.
Context (bios : list Z) (vs : list (list Z * list Z)) (post : list Z).
Hypothesis Hbios : zlen bios = 65.
Hypothesis Hvs : Forall texts vs.
Hypothesis Hlen : zlen (response bios vs ++ post) < 2 ^ 32.
Let buf := response bios vs ++ post.

Lemma zlen_head n : zlen (response_head bios n) = 85.
Proof. unfold response_head, msg_header. by rewrite !zlen_app, !zlen_le_bytes, Hbios. Qed.

Lemma zlen_response : zlen (response bios vs) = 85 + 44 * zlen vs.
Proof. unfold response. rewrite zlen_app, zlen_head, zlen_entries by done. lia. Qed.

Lemma vs_bound : 0 <= zlen vs /\ 73 + 44 * zlen vs < 2 ^ 32.
Proof.
  pose proof (zlen_nonneg vs). pose proof (zlen_nonneg post). pose proof zlen_response.
  rewrite zlen_app in Hlen. lia.
Qed.

(** The fields of the header and the count. *)
Lemma head_fields :
  rd 1 buf 0 = Ret 1 /\ rd 1 buf 1 = Ret 1 /\ rd 2 buf 2 = Ret 0 /\
  rd 4 buf 4 = Ret AMT_HOST_IF_CODE_VERSIONS_RESPONSE /\ rd 4 buf 8 = Ret (73 + 44 * zlen vs) /\
  rd 4 buf 12 = Ret 0 /\ rd 4 buf 81 = Ret (zlen vs).
Proof.
  pose proof vs_bound as [Hn0 Hn]. unfold buf, response, response_head, msg_header.
  set (len := 73 + 44 * zlen vs) in *. set (resp := AMT_HOST_IF_CODE_VERSIONS_RESPONSE).
  split_and!.
  - eapply (rd_at 1 1 []); [rewrite <- !app_assoc; reflexivity|lia|done|lia].
  - eapply (rd_at 1 1 [1]); [rewrite <- !app_assoc; reflexivity|lia|done|lia].
  - eapply (rd_at 2 0 [1; 1]); [rewrite <- !app_assoc; reflexivity|lia|done|lia].
  - eapply (rd_at 4 resp ([1; 1] ++ le_bytes 2 0)); [rewrite <- !app_assoc; reflexivity|lia|done|done].
  - eapply (rd_at 4 len ([1; 1] ++ le_bytes 2 0 ++ le_bytes 4 resp)); [rewrite <- !app_assoc; reflexivity|lia|done|lia].
  - eapply (rd_at 4 0 ([1; 1] ++ le_bytes 2 0 ++ le_bytes 4 resp ++ le_bytes 4 len));
      [rewrite <- !app_assoc; reflexivity|lia|by rewrite !zlen_app, !zlen_le_bytes|lia].
  - eapply (rd_at 4 (zlen vs) ([1; 1] ++ le_bytes 2 0 ++ le_bytes 4 resp ++ le_bytes 4 len ++ le_bytes 4 0 ++ bios));
      [rewrite <- !app_assoc; reflexivity|lia| |lia].
    rewrite !zlen_app, !zlen_le_bytes, Hbios. done.
Qed.

Lemma answer_accepted :
  check_response AMT_HOST_IF_CODE_VERSIONS_RESPONSE 0 (zlen (response bios vs)) buf = Ret 0 /\
  amt_verify_code_versions buf = Ret 0.
Proof.
  pose proof vs_bound as [Hn0 Hn]. destruct head_fields as (E0 & E1 & E2 & E4 & E8 & E12 & E81).
  rewrite zlen_response. split.
  - unfold check_response, amt_verify_response_header. change sizeof_msg_header with 12. change sizeof_resp_header with 16.
    replace (85 + 44 * zlen vs <=? 0) with false by lia. rewrite E12. cbn [out_bind].
    replace (85 + 44 * zlen vs <? 16) with false by lia. cbn [negb Z.eqb AMT_STATUS_SUCCESS]. rewrite E8. cbn [out_bind].
    assert (u64 (73 + 44 * zlen vs + 12) = 85 + 44 * zlen vs) as ->
      by (unfold u64; rewrite wrap_small by (unfold fits; lia); lia).
    rewrite Z.eqb_refl, E4. cbn [out_bind negb]. rewrite Z.eqb_refl, E2. cbn [out_bind negb]. rewrite E0, E1.
    reflexivity.
  - unfold amt_verify_code_versions. rewrite E8. cbn [out_bind].
    change (sizeof_resp_header + AMT_BIOS_VERSION_LEN) with 81. rewrite E81. cbn [out_bind].
    assert (u64 (73 + 44 * zlen vs - 4) = 69 + 44 * zlen vs) as ->
      by (unfold u64; rewrite wrap_small by (unfold fits; lia); lia).
    replace (u32 (69 + 44 * zlen vs - AMT_BIOS_VERSION_LEN - 4)) with (zlen vs * 44)
      by (unfold u32, AMT_BIOS_VERSION_LEN; rewrite wrap_small by (unfold fits; lia); lia).
    change sizeof_version_type with 44. rewrite Z.div_mul by done. rewrite Z.eqb_refl. cbn [negb].
    unfold zlen at 1. rewrite Nat2Z.id. unfold buf, response. rewrite <- app_assoc.
    apply (verify_entries _ [] vs post); [apply zlen_head|constructor|done].
Qed.

Lemma copied_split vs1 dv vs2 :
  vs = vs1 ++ dv :: vs2 -> zlen vs1 < 50 ->
  exists pre tail, zlen pre = 69 + 44 * zlen vs1 /\ copied buf = pre ++ entry dv ++ tail.
Proof.
  intros Hsplit Hk. pose proof Hvs as Hf. rewrite Hsplit, Forall_app, Forall_cons in Hf. destruct Hf as (H1 & Hdv & H2).
  exists (zdrop 16 (response_head bios (zlen vs)) ++ entries vs1).
  eexists. pose proof (zlen_head (zlen vs)) as Hh.
  assert (zlen (zdrop 16 (response_head bios (zlen vs))) = 69) as Hz by (rewrite zlen_zdrop; lia).
  split; [rewrite zlen_app, Hz, zlen_entries by done; lia|].
  assert (zdrop 16 buf = ((zdrop 16 (response_head bios (zlen vs)) ++ entries vs1) ++ entry dv) ++ entries vs2 ++ post) as Hd.
  { unfold buf, response. rewrite Hsplit at 2. rewrite entries_app, entries_cons, <- !app_assoc.
    unfold zdrop, zlen in *. by rewrite drop_app_le by lia. }
  unfold copied. change sizeof_resp_header with 16. rewrite Hd. unfold ztake.
  rewrite take_app_ge; [by rewrite <- app_assoc|].
  pose proof (zlen_entries vs1 H1) as He. pose proof (zlen_entry dv Hdv) as He2.
  rewrite !length_app. change sizeof_code_versions with 2269. unfold zlen in *. lia.
Qed.

Definition printed (h : list (event call)) : list message :=
  reverse (omap (fun e => match e.1 with Printf m => Some m | _ => None end) h).

Lemma print_entries K s h vs1 vs2 :
  2285 <= zlen buf -> vs = vs1 ++ vs2 -> zlen vs1 <= 50 ->
  wp (print_loop (length vs2) (copied buf) (zlen vs1)) K s h (fun o s' h' =>
    o = (if zlen vs <=? 50 then Ret tt else Crash) /\
    printed h' = printed h ++ (uncurry Version <$> take (50 - length vs1) vs2)).
Proof.
  intros Hb. revert vs1 h. induction vs2 as [|[d v] vs2 IH]; intros vs1 h Hsplit Hk.
  { cbn [print_loop length]. wp_go. rewrite app_nil_r in Hsplit. subst vs1.
    replace (zlen vs <=? 50) with true by lia. rewrite take_nil. by rewrite app_nil_r. }
  cbn [print_loop length]. change (off_versions + zlen vs1 * sizeof_version_type) with (69 + zlen vs1 * 44).
  assert (zlen vs = zlen vs1 + 1 + zlen vs2) as Hvl by (rewrite Hsplit, zlen_app, zlen_cons; lia).
  pose proof (zlen_nonneg vs2). destruct (Z.eq_dec (zlen vs1) 50) as [H50|H50].
  { apply wp_bind, wp_lift. unfold cstr. rewrite zlen_copied by done. rewrite H50. cbn [Z.add Z.mul Z.leb andb Pos.add].
    replace (_ && _) with false by done. wp_step. replace (zlen vs <=? 50) with false by lia.
    replace (50 - length vs1)%nat with 0%nat by (unfold zlen in H50; lia). cbn. by rewrite app_nil_r. }
  destruct (copied_split vs1 (d, v) vs2 Hsplit) as (pre & tail & Hpre & Heq); [lia|].
  assert (texts (d, v)) as Hdv by (pose proof Hvs as Hf; rewrite Hsplit, Forall_app, Forall_cons in Hf; tauto).
  destruct (entry_fields pre tail d v _ Hpre Hdv) as (_ & Ed & _ & Ev & _). rewrite <- Heq in Ed, Ev.
  replace (69 + zlen vs1 * 44) with (69 + 44 * zlen vs1) by lia. rewrite Ed, Ev.
  apply wp_bind, wp_lift. wp_step. apply wp_bind, wp_lift. do 4 wp_step.
  replace (zlen vs1 + 1) with (zlen (vs1 ++ [(d, v)])) by (by rewrite zlen_app).
  eapply wp_wand; [apply IH|].
  - by rewrite <- app_assoc.
  - rewrite zlen_app. change (zlen [(d, v)]) with 1. lia.
  - intros o s' h' [-> Hp]. split; [done|]. rewrite Hp. unfold printed. cbn [omap list_omap fst].
    rewrite reverse_cons, <- app_assoc. f_equal. rewrite length_app. cbn [length].
    replace (50 - length vs1)%nat with (S (50 - (length vs1 + 1))) by (unfold zlen in *; lia). done.
Qed.

End Answer.

(** A device that can be opened and connected to, takes requests and answers each of
    them with [r]. *)
Record serves (K : kernel call) (size : Z) (r : list Z) : Prop := {
  serves_open h : ret (K h Open) <> -1;
  serves_connect h f g : ret (K h (Connect f g)) = 0 /\ le_val (ztake 4 (data (K h (Connect f g)))) = size;
  serves_malloc h n : ret (K h (Malloc n)) <> 0;
  serves_write h f b : ret (K h (Write f b)) = zlen b;
  serves_select h n f sec usec : let a := K h (Select n f sec usec) in 0 < ret a /\ truthy (znth (data a) 0) = true;
  serves_read h f n : zlen r <= n -> let a := K h (Read f n) in ret a = zlen r /\ data a = r
}.

Lemma serves_init K size r s h t v :
  serves K size r ->
  wp (amt_host_if_init t v) K s h (fun o s' h' => o = Ret true /\ buf_size (mei_cl s') = size /\ printed h' = printed h).
Proof.
  intros [Ho Hc _ _ _ _]. unfold amt_host_if_init, mei_init. wp_name.
  - specialize (Ho h). subst. lia.
  - destruct (Hc ((Open, a) :: h) (ret a) MEI_IAMTHIF) as [Hr _]. subst. by rewrite Hr in *.
  - done.
  - destruct (Hc ((Open, a) :: h) (ret a) MEI_IAMTHIF) as [Hr Hs]. by subst.
Qed.

Lemma serves_call K size r s h :
  serves K size r -> buf_size (mei_cl s) = size -> zlen r <= size < 2 ^ 32 ->
  check_response AMT_HOST_IF_CODE_VERSIONS_RESPONSE 0 (zlen r) (r ++ replicate (Z.to_nat (size - zlen r)) 0) = Ret 0 ->
  wp (amt_host_if_call CODE_VERSION_REQ AMT_HOST_IF_CODE_VERSIONS_RESPONSE 0) K s h (fun o s' h' =>
    exists p, o = Ret (0, p, r ++ replicate (Z.to_nat (size - zlen r)) 0) /\ printed h' = printed h).
Proof.
  intros [_ _ Hm Hw Hs Hr] Hsize Hz Hchk. pose proof (zlen_nonneg r).
  unfold amt_host_if_call, mei_send_msg, mei_recv_msg. rewrite <- Hsize in *.
  let learn H := (apply wp_sys_eq; let a := fresh "a" in let E := fresh in intros a E; rewrite E in H; clear E) in
  repeat lazymatch goal with
         | |- wp (sys (Malloc ?n)) _ _ ?h _ => let H := fresh in pose proof (Hm h n) as H; learn H
         | |- wp (sys (Write ?f ?b)) _ _ ?h _ => let H := fresh in pose proof (Hw h f b) as H; learn H
         | |- wp (sys (Select ?n ?f ?x ?y)) _ _ ?h _ =>
             let H := fresh in pose proof (Hs h n f x y) as H; cbv zeta in H; learn H
         | |- wp (sys (Read ?f ?n)) _ _ ?h _ =>
             let H := fresh in pose proof (Hr h f n ltac:(lia)) as H; cbv zeta in H; learn H
         | |- wp (lift _) _ _ _ _ => apply wp_lift
         | |- wp (if ?b then _ else _) _ _ _ _ => destruct b eqn:?; try (pose proof (zlen_nonneg CODE_VERSION_REQ); lia)
         | _ => first [wp_const | wp_step]
         end.
  destruct H3 as [Hret Hdata]. rewrite read_into_eq by (rewrite ?Hdata; lia). rewrite Hret, Hdata.
  assert (u32 (zlen r) = zlen r) as -> by (apply wrap_small; unfold fits; lia).
  rewrite Hchk. wp_step. by eexists.
Qed.

Lemma deinit_printed K s h :
  wp amt_host_if_deinit K s h (fun o s' h' => o = Ret tt /\ printed h' = printed h).
Proof. unfold amt_host_if_deinit, mei_deinit. by wp_go. Qed.

(** Printing the versions of an accepted answer. *)
Lemma report_printed K s h bios vs post :
  zlen bios = 65 -> Forall texts vs -> 2285 <= zlen (response bios vs ++ post) < 2 ^ 32 -> printed h = [] ->
  wp (report 0 (copied (response bios vs ++ post))) K s h (fun o s' h' =>
    o = (if zlen vs <=? 50 then Ret 0 else Crash) /\
    printed h' = Enabled :: (uncurry Version <$> take 50 vs)).
Proof.
  intros Hb Hvs Hz Hp. unfold report. cbn [Z.eqb AMT_STATUS_HOST_IF_EMPTY_RESPONSE AMT_STATUS_SUCCESS].
  do 3 wp_step. apply wp_bind, wp_lift.
  rewrite rd_copied by (change AMT_BIOS_VERSION_LEN with 65; lia).
  change (16 + AMT_BIOS_VERSION_LEN) with 81.
  destruct (head_fields bios vs post Hb Hvs) as (_ & _ & _ & _ & _ & _ & E81); [lia|].
  rewrite E81. wp_step. unfold zlen at 1. rewrite Nat2Z.id. apply wp_bind.
  eapply wp_wand; [apply (print_entries bios vs post Hb Hvs K _ _ [] vs); [lia|done|done]|].
  intros o s5 h5 [-> Hp5].
  assert (printed h5 = Enabled :: (uncurry Version <$> take 50 vs)) as Hp'.
  { rewrite Hp5. unfold printed at 1. cbn [omap list_omap fst]. rewrite reverse_cons. fold (printed h).
    by rewrite Hp. }
  destruct (zlen vs <=? 50); wp_step; [wp_step|]; done.
Qed.

(** C30: a device that answers with any list of versions has every one of them
    printed, in order and unchanged, after the line that AMT is enabled, and the tool
    returns 0, as long as there are at most 50 and the messages of the device can have
    2285 bytes, the size of a response with the tool's table.  Of a longer list the first 50 are printed, then the tool reads
    behind its table; with smaller messages nothing is printed, since the tool copies the whole table
    out of a response block that is smaller. *)
Theorem versions_roundtrip argv K s size bios vs :
  serves K size (response bios vs) -> zlen bios = 65 -> Forall texts vs ->
  zlen (response bios vs) <= size < 2 ^ 32 ->
  exists o s' h', main argv K s [] = (o, s', h') /\
    if size <? 2285 then o = Crash /\ printed h' = []
    else o = (if zlen vs <=? AMT_VERSIONS_NUMBER then Ret 0 else Crash) /\
      printed h' = Enabled :: (uncurry Version <$> take 50 vs).
Proof.
  intros HK Hb Hvs Hsz. set (r := response bios vs) in *. pose proof (zlen_nonneg r).
  set (post := replicate (Z.to_nat (size - zlen r)) 0).
  assert (zlen (r ++ post) = size) as Hbuf by (unfold post; rewrite zlen_app, zlen_replicate; lia).
  destruct (answer_accepted bios vs post Hb Hvs) as [Hchk Hver]; [fold r; lia|]. fold r in Hchk, Hver.
  enough (wp (main argv) K s [] (fun o s' h' => if size <? 2285 then o = Crash /\ printed h' = []
    else o = (if zlen vs <=? 50 then Ret 0 else Crash) /\ printed h' = Enabled :: (uncurry Version <$> take 50 vs))) as Hwp.
  { unfold wp in Hwp. destruct (main argv K s []) as [[o s'] h']. by eexists _, _, _. }
  unfold main. apply wp_bind. eapply wp_wand; [by apply (serves_init K size r)|].
  intros o s1 h1 (-> & Hs1 & Hp1). wp_step. cbn [negb].
  apply wp_bind. unfold amt_get_code_versions. apply wp_bind.
  eapply wp_wand; [apply (serves_call K size r); [done|done|lia|done]|]. fold post.
  intros o s2 h2 (p & -> & Hp2). wp_step. cbv zeta. cbn [negb Z.eqb AMT_STATUS_SUCCESS].
  apply wp_bind, wp_lift. rewrite Hver. wp_step. cbn [negb Z.eqb].
  change (sizeof_resp_header + sizeof_code_versions) with 2285. rewrite Hbuf.
  assert (printed h2 = []) as Hp2' by (by rewrite Hp2, Hp1).
  change (negb match AMT_STATUS_SUCCESS with 0 => true | _ => false end) with false. cbn iota.
  destruct (Z.ltb_spec size 2285) as [Hsm|Hbig]; [wp_step; by wp_step|].
  fold (copied (r ++ post)).
  assert (forall h3, printed h3 = [] -> wp (io_bind amt_host_if_deinit (fun _ => report 0 (copied (r ++ post)))) K s2 h3
    (fun o s' h' => o = (if zlen vs <=? 50 then Ret 0 else Crash) /\
      printed h' = Enabled :: (uncurry Version <$> take 50 vs))) as Hk.
  { intros h3 Hp3. apply wp_bind. eapply wp_wand; [apply deinit_printed|].
    intros o s4 h4 [-> Hp4]. wp_step. apply report_printed; [done|done|fold r; lia|by rewrite Hp4]. }
  destruct (truthy p); repeat lazymatch goal with
                              | |- wp (io_bind amt_host_if_deinit _) _ _ _ _ => by apply Hk
                              | _ => wp_step
                              end.
Qed.

(** ** Witnesses *)

(** A device with messages of this size that answers with [r]. *)
Definition sample_device (size : Z) (r : list Z) : kernel call := fun _ c =>
  match c with
  | Open => aret 3
  | Connect _ _ => Ans 0 0 (le_bytes 4 size ++ [1])
  | Malloc _ => aret 8192
  | Write _ b => aret (zlen b)
  | Select _ _ _ _ => Ans 1 0 [1]
  | Read _ n => if n <? 0 then aret (-1) else Ans (zlen (ztake n r)) 0 (ztake n r)
  | _ => aret 0
  end.

Lemma sample_serves size r : size = 4096 \/ size = 2048 -> serves (sample_device size r) size r.
Proof.
  intros Hs. split; try done; [by destruct Hs as [-> | ->]|]. intros h f n Hn. pose proof (zlen_nonneg r). cbn zeta. cbn. replace (n <? 0) with false by lia.
  assert (ztake n r = r) as -> by (unfold ztake, zlen in *; apply take_ge; lia). done.
Qed.

Lemma sample_reads r : bytes_ok r -> reads_ok (sample_device 4096 r) /\ connects_ok (sample_device 4096 r).
Proof.
  intros Hr. split; [|intros h f g _; apply (bool_decide_unpack _); vm_compute; exact I]. intros h f n. cbn. destruct (n <? 0) eqn:E; [by left|]. right. cbn.
  unfold zlen, ztake. rewrite length_take. split_and!; [lia|lia|done|]. by apply Forall_take.
Qed.

Definition sample_mei : amt_host_if := Amt (Mei [] false false 0 0 0) 0 false.
Definition sample_bios : list Z := replicate 65 32.
Definition sample_version : list Z * list Z := ([70; 108; 97; 115; 104], [57; 46; 49]).

(** Two versions are printed; of 51 the last one is not; with messages of 2K no version is. *)
Lemma versions_roundtrip_witness :
  (exists s' h', main ["amt"] (sample_device 4096 (response sample_bios [sample_version; sample_version])) sample_mei [] =
     (Ret 0, s', h') /\ printed h' = [Enabled; Version [70; 108; 97; 115; 104] [57; 46; 49];
                                       Version [70; 108; 97; 115; 104] [57; 46; 49]]) /\
  (exists s' h', main ["amt"] (sample_device 4096 (response sample_bios (replicate 51 sample_version))) sample_mei [] =
     (Crash, s', h')) /\
  (exists s' h', main ["amt"] (sample_device 2048 (response sample_bios [sample_version; sample_version])) sample_mei [] =
     (Crash, s', h') /\ printed h' = []).
Proof.
  assert (texts sample_version) as Ht by (repeat split; repeat constructor; done).
  split; [|split].
  - destruct (versions_roundtrip ["amt"] _ sample_mei 4096 sample_bios [sample_version; sample_version]
      (sample_serves 4096 _ ltac:(by left))) as (o & s' & h' & E & -> & Hp); [done|by repeat constructor|by vm_compute|].
    exists s', h'. split; [exact E|exact Hp].
  - destruct (versions_roundtrip ["amt"] _ sample_mei 4096 sample_bios (replicate 51 sample_version)
      (sample_serves 4096 _ ltac:(by left))) as (o & s' & h' & E & -> & Hp); [done|by apply Forall_replicate|by vm_compute|].
    exists s', h'. exact E.
  - destruct (versions_roundtrip ["amt"] _ sample_mei 2048 sample_bios [sample_version; sample_version]
      (sample_serves 2048 _ ltac:(by right))) as (o & s' & h' & E & -> & Hp); [done|by repeat constructor|by vm_compute|].
    exists s', h'. split; [exact E|exact Hp].
Defined.

(** A device without a word to say: the response is empty and AMT disabled. *)
Lemma main_outcomes_witness :
  exists s' h', main ["amt"] (sample_device 4096 []) sample_mei [] = (Ret 0, s', h') /\ held h' = Some [].
Proof.
  destruct (main_outcomes ["amt"] (sample_device 4096 []) sample_mei) as (o & s' & h' & E & Ho).
  { apply sample_reads. constructor. }
  { apply sample_reads. constructor. }
  vm_compute in E. injection E as <- <- <-. eexists _, _. split; [reflexivity|].
  destruct Ho as [(_ & Hh & _)|[Ho _]]; [exact Hh|discriminate].
Defined.

End Mei.
