(* ===== verification/Getdelays.v ===== *)
(** * Delay accounting over netlink: Documentation/accounting/getdelays.c

    The tool asks the taskstats family of generic netlink for the statistics of a
    task or container and prints them.  Requests and replies are byte arrays in
    host (little-endian) order; a structure that is not initialised holds what the
    call [Uninit] answers.  The layout of [struct taskstats] and [struct
    cgroupstats] comes from kernel headers and is the class [Layout].  The variables
    [count] and [done], which nothing reads, and the debug output are left out. *)

From S2P Require Import Prelude Posix CArray Output.

Module Delays.

Open Scope Z_scope.

(** ** Constants of the netlink headers *)

Definition NLMSG_HDRLEN := 16.
Definition GENL_HDRLEN := 4.
Definition NLA_HDRLEN := 4.
Definition NLM_F_REQUEST := 1.
Definition NLMSG_ERROR := 2.
Definition GENL_ID_CTRL := 0x10.
Definition CTRL_CMD_GETFAMILY := 3.
Definition CTRL_ATTR_FAMILY_ID := 1.
Definition CTRL_ATTR_FAMILY_NAME := 2.
Definition TASKSTATS_CMD_GET := 1.
Definition TASKSTATS_CMD_ATTR_UNSPEC := 0.
Definition TASKSTATS_CMD_ATTR_PID := 1.
Definition TASKSTATS_CMD_ATTR_TGID := 2.
Definition TASKSTATS_CMD_ATTR_REGISTER_CPUMASK := 3.
Definition TASKSTATS_CMD_ATTR_DEREGISTER_CPUMASK := 4.
Definition TASKSTATS_TYPE_PID := 1.
Definition TASKSTATS_TYPE_TGID := 2.
Definition TASKSTATS_TYPE_STATS := 3.
Definition TASKSTATS_TYPE_AGGR_PID := 4.
Definition TASKSTATS_TYPE_AGGR_TGID := 5.
Definition TASKSTATS_TYPE_NULL := 6.
Definition CGROUPSTATS_CMD_GET := 4.
Definition CGROUPSTATS_CMD_ATTR_FD := 1.
Definition CGROUPSTATS_TYPE_CGROUP_STATS := 1.
Definition NETLINK_GENERIC := 16.
Definition TASKSTATS_GENL_NAME : list Z := bytes_of_string "TASKSTATS".

Definition NLA_ALIGN (x : Z) : Z := align_up x 4.
Definition NLMSG_ALIGN (x : Z) : Z := align_up x 4.

(** ** Data *)

Definition MAX_MSG_SIZE := 1024.
Definition MAX_CPUS := 32.
Definition sizeof_msgtemplate : Z := NLMSG_HDRLEN + GENL_HDRLEN + MAX_MSG_SIZE.
Definition sizeof_cpumask : Z := 100 + 6 * MAX_CPUS.
Definition sizeof_family_answer : Z := NLMSG_HDRLEN + GENL_HDRLEN + 256.

(** Offset of the attributes in a message. *)
Definition GENLMSG_DATA : Z := NLMSG_HDRLEN + GENL_HDRLEN.

(** The fields the tool prints, read at an address. *)
Inductive ts_field : Type :=
| cpu_count | cpu_run_real_total | cpu_run_virtual_total | cpu_delay_total
| blkio_count | blkio_delay_total | swapin_count | swapin_delay_total
| freepages_count | freepages_delay_total | nvcsw | nivcsw
| read_bytes | write_bytes | cancelled_write_bytes.

Inductive cg_field : Type := nr_sleeping | nr_io_wait | nr_running | nr_stopped | nr_uninterruptible.

(** The 64-bit fields of the two structures and the command name, by offset. *)
Class Layout := {
  ts_offset : ts_field -> Z;
  cg_offset : cg_field -> Z;
  ac_comm : Z;
  sizeof_taskstats : Z
}.

(** What is written to standard output and standard error. *)
Inductive text : Type :=
| Note (s : string)
| Pid (n : Z)
| Tgid (n : Z)
| Delayacct (count real virt delay : Z) (average : Z * Z) (io swap reclaim : Z * Z * Z)
| Ioacct (comm : list Z) (read write cancelled : Z)
| Switches (voluntary nonvoluntary : Z)
| Cgroup (sleeping blocked running stopped uninterruptible : Z)
| UnknownNested (t : Z)
| Unknown (t : Z)
| Errno (what : string) (e : Z).

Inductive call : Type :=
| Uninit (size : Z)
| Getopt
| Socket (protocol : Z)
| SetRcvbuf (fd size : Z)
| Bind (fd : Z)
| Open (path : list Z) (write : bool)
| Close (fd : Z)
| Sendto (fd : Z) (buf : list Z)
| Recv (fd len : Z)
| Write (fd : Z) (buf : list Z)
| Getpid
| Sigemptyset | Sigaddset | Sigprocmask | Sigwait
| Fork
| Execvp
| Printf (t : text)
| Eprintf (t : text).

(** The options. *)
Record opts : Type := Opts {
  rcvbufsz : Z; print_delays : bool; print_io_accounting : bool;
  print_task_context_switch_counts : bool; loop : bool;
  cpumask : option (list Z); tid : Z; cmd_type : Z;
  logfile : option (list Z); containerpath : option (list Z); forking : bool
}.

Definition no_opts : opts :=
  Opts 0 false false false false None 0 TASKSTATS_CMD_ATTR_UNSPEC None None false.

(** ** Memory *)

Open Scope out_scope.

(** What [recv] leaves in a structure. *)
Definition recv_into (buf : list Z) (a : ans) : list Z :=
  if ret a <? 0 then buf
  else let got := ztake (zlen buf) (ztake (ret a) (data a)) in got ++ zdrop (zlen got) buf.

(** ** Requests *)

(** The message [send_cmd] builds, in the bytes its structure happens to hold, and
    its length. *)
Definition build_msg (junk : list Z) (nlmsg_type nlmsg_pid genl_cmd nla_type : Z) (nla_data : list Z)
    : outcome (list Z * Z) :=
  let nla_len := u16 (zlen nla_data + 1 + NLA_HDRLEN) in
  let nlmsg_len := NLMSG_HDRLEN + GENL_HDRLEN + NLMSG_ALIGN nla_len in
  let! m := poke junk 4 (le_bytes 2 nlmsg_type) in
  let! m := poke m 6 (le_bytes 2 NLM_F_REQUEST) in
  let! m := poke m 8 (le_bytes 4 0) in
  let! m := poke m 12 (le_bytes 4 nlmsg_pid) in
  let! m := poke m 16 [u8 genl_cmd] in
  let! m := poke m 17 [1] in
  let! m := poke m (GENLMSG_DATA + 2) (le_bytes 2 nla_type) in
  let! m := poke m GENLMSG_DATA (le_bytes 2 nla_len) in
  let! m := poke m (GENLMSG_DATA + NLA_HDRLEN) nla_data in
  let! m := poke m 0 (le_bytes 4 nlmsg_len) in
  Ret (m, nlmsg_len).

Close Scope out_scope.
Open Scope io_scope.

Fixpoint send_loop {S} (fuel : nat) (sd : Z) (msg : list Z) (buf buflen : Z) : io call S Z :=
  match fuel with
  | O => nofuel
  | Datatypes.S fuel =>
      let* b := lift (sub msg buf buflen) in
      let* a := sys (Sendto sd b) in
      let r := ret a in
      if r <? buflen then
        if 0 <? r then send_loop fuel sd msg (buf + r) (buflen - r)
        else if negb (errno a =? EAGAIN) then io_ret (-1)
        else send_loop fuel sd msg buf buflen
      else io_ret 0
  end.

Definition send_cmd {S} (fuel : nat) (sd nlmsg_type nlmsg_pid genl_cmd nla_type : Z) (nla_data : list Z)
    : io call S Z :=
  let* u := sys (Uninit sizeof_msgtemplate) in
  let* (msg, len) := lift (build_msg (uninit sizeof_msgtemplate u) nlmsg_type nlmsg_pid genl_cmd
                             nla_type nla_data) in
  send_loop fuel sd msg 0 len.

Definition create_nl_socket {S} (rcvbufsz protocol : Z) : io call S Z :=
  let* f := sys (Socket protocol) in
  let fd := ret f in
  let error := sys (Close fd) ;; io_ret (-1) in
  let bind_it := let* b := sys (Bind fd) in if ret b <? 0 then error else io_ret fd in
  if fd <? 0 then io_ret (-1)
  else if truthy rcvbufsz then
    let* s := sys (SetRcvbuf fd rcvbufsz) in
    if ret s <? 0 then sys (Eprintf (Note "Unable to set socket rcv buf size")) ;; error else bind_it
  else bind_it.

(** [NLMSG_OK] *)
Definition nlmsg_ok (nlmsg_len len : Z) : bool :=
  (NLMSG_HDRLEN <=? len) && (NLMSG_HDRLEN <=? nlmsg_len) && (nlmsg_len <=? len).

Definition get_family_id {S} (fuel : nat) (sd : Z) : io call S Z :=
  let* u := sys (Uninit sizeof_family_answer) in
  let* pid := sys Getpid in
  let* rc := send_cmd fuel sd GENL_ID_CTRL (ret pid) CTRL_CMD_GETFAMILY CTRL_ATTR_FAMILY_NAME
               (TASKSTATS_GENL_NAME ++ [0]) in
  if rc <? 0 then io_ret 0
  else
    let* r := sys (Recv sd sizeof_family_answer) in
    let answer := recv_into (uninit sizeof_family_answer u) r in
    let rep_len := i32 (ret r) in
    let* nlmsg_type := lift (rd 2 answer 4) in
    let* nlmsg_len := lift (rd 4 answer 0) in
    if (nlmsg_type =? NLMSG_ERROR) || (rep_len <? 0) || negb (nlmsg_ok nlmsg_len rep_len) then io_ret 0
    else
      let* nla_len := lift (rd 2 answer GENLMSG_DATA) in
      let na := GENLMSG_DATA + NLA_ALIGN nla_len in
      let* nla_type := lift (rd 2 answer (na + 2)) in
      if nla_type =? CTRL_ATTR_FAMILY_ID then lift (rd 2 answer (na + NLA_HDRLEN)) else io_ret 0.

(** ** Printing *)

Section Print.
Context `{Layout}.

(** A field of the structure at an address of the message. *)
Definition field {S} (msg : list Z) (t : Z) (f : ts_field) : io call S Z := lift (rd 8 msg (t + ts_offset f)).
Definition cfield {S} (msg : list Z) (c : Z) (f : cg_field) : io call S Z := lift (rd 8 msg (c + cg_offset f)).

Definition average_ms (t c : Z) : Z := t / 1000000 / (if truthy c then c else 1).

(** The first average is a floating-point quotient: the pair is its numerator (in
    nanoseconds) and denominator. *)
Definition print_delayacct {S} (msg : list Z) (t : Z) : io call S unit :=
  let* cc := field msg t cpu_count in
  let* cr := field msg t cpu_run_real_total in
  let* cv := field msg t cpu_run_virtual_total in
  let* cd := field msg t cpu_delay_total in
  let* bc := field msg t blkio_count in
  let* bd := field msg t blkio_delay_total in
  let* sc := field msg t swapin_count in
  let* sd := field msg t swapin_delay_total in
  let* fc := field msg t freepages_count in
  let* fd := field msg t freepages_delay_total in
  sys (Printf (Delayacct cc cr cv cd (cd, 1000000 * (if truthy cc then cc else 1))
    (bc, bd, average_ms bd bc) (sc, sd, average_ms sd sc) (fc, fd, average_ms fd fc))) ;;
  io_ret tt.

Definition task_context_switch_counts {S} (msg : list Z) (t : Z) : io call S unit :=
  let* v := field msg t nvcsw in
  let* n := field msg t nivcsw in
  sys (Printf (Switches v n)) ;; io_ret tt.

Definition print_cgroupstats {S} (msg : list Z) (c : Z) : io call S unit :=
  let* a := cfield msg c nr_sleeping in
  let* b := cfield msg c nr_io_wait in
  let* r := cfield msg c nr_running in
  let* t := cfield msg c nr_stopped in
  let* u := cfield msg c nr_uninterruptible in
  sys (Printf (Cgroup a b r t u)) ;; io_ret tt.

Definition print_ioacct {S} (msg : list Z) (t : Z) : io call S unit :=
  let* comm := lift (cstr msg (t + ac_comm)) in
  let* r := field msg t read_bytes in
  let* w := field msg t write_bytes in
  let* c := field msg t cancelled_write_bytes in
  sys (Printf (Ioacct comm r w c)) ;; io_ret tt.

(** ** Replies *)

(** One nested attribute; true is [goto done]. *)
Definition nested_attr (o : opts) (fd : Z) (na nla_len nla_type : Z) : io call (list Z) bool :=
  let* msg := get in
  let d := na + NLA_HDRLEN in
  if nla_type =? TASKSTATS_TYPE_PID then
    let* rtid := lift (rd 4 msg d) in
    (if print_delays o then sys (Printf (Pid (i32 rtid))) ;; io_ret tt else io_ret tt) ;; io_ret false
  else if nla_type =? TASKSTATS_TYPE_TGID then
    let* rtid := lift (rd 4 msg d) in
    (if print_delays o then sys (Printf (Tgid (i32 rtid))) ;; io_ret tt else io_ret tt) ;; io_ret false
  else if nla_type =? TASKSTATS_TYPE_STATS then
    (if print_delays o then print_delayacct msg d else io_ret tt) ;;
    (if print_io_accounting o then print_ioacct msg d else io_ret tt) ;;
    (if print_task_context_switch_counts o then task_context_switch_counts msg d else io_ret tt) ;;
    (if truthy fd then
       let* b := lift (sub msg d nla_len) in
       let* w := sys (Write fd b) in
       if ret w <? 0 then sys (Eprintf (Note "write error")) ;; exit_ 1 else io_ret tt
     else io_ret tt) ;;
    io_ret (negb (loop o))
  else sys (Eprintf (UnknownNested nla_type)) ;; io_ret false.

(** The attributes nested in an aggregate of [aggr_len] bytes. *)
Fixpoint nested (fuel : nat) (o : opts) (fd : Z) (na len2 aggr_len : Z) : io call (list Z) bool :=
  match fuel with
  | O => nofuel
  | Datatypes.S fuel =>
      if len2 <? aggr_len then
        let* msg := get in
        let* nla_type := lift (rd 2 msg (na + 2)) in
        let* nla_len := lift (rd 2 msg na) in
        let* stop := nested_attr o fd na nla_len nla_type in
        if stop : bool then io_ret true
        else
          let len2 := len2 + NLA_ALIGN nla_len in
          nested fuel o fd (na + len2) len2 aggr_len
      else io_ret false
  end.

(** The attributes of a reply with [rep_len] bytes of them. *)
Fixpoint walk (fuel : nat) (o : opts) (fd : Z) (na len rep_len : Z) : io call (list Z) bool :=
  match fuel with
  | O => nofuel
  | Datatypes.S fuel' =>
      if len <? rep_len then
        let* msg := get in
        let* nla_len := lift (rd 2 msg na) in
        let len := len + NLA_ALIGN nla_len in
        let* nla_type := lift (rd 2 msg (na + 2)) in
        let* stop :=
          if (nla_type =? TASKSTATS_TYPE_AGGR_TGID) || (nla_type =? TASKSTATS_TYPE_AGGR_PID) then
            nested fuel o fd (na + NLA_HDRLEN) 0 (nla_len - NLA_HDRLEN)
          else if nla_type =? CGROUPSTATS_TYPE_CGROUP_STATS then
            print_cgroupstats msg (na + NLA_HDRLEN) ;; io_ret false
          else if nla_type =? TASKSTATS_TYPE_NULL then io_ret false
          else sys (Eprintf (Unknown nla_type)) ;; io_ret false in
        if stop : bool then io_ret true
        else walk fuel' o fd (GENLMSG_DATA + len) len rep_len
      else io_ret false
  end.

(** The loop that receives replies. *)
Fixpoint recv_loop (fuel : nat) (o : opts) (nl_sd fd : Z) : io call (list Z) unit :=
  match fuel with
  | O => nofuel
  | Datatypes.S fuel' =>
      let again := if loop o then recv_loop fuel' o nl_sd fd else io_ret tt in
      let* r := sys (Recv nl_sd sizeof_msgtemplate) in
      modify (fun msg => recv_into msg r) ;;
      let* msg := get in
      let rep_len := i32 (ret r) in
      if rep_len <? 0 then sys (Eprintf (Errno "nonfatal reply error" (errno r))) ;; again
      else
        let* nlmsg_type := lift (rd 2 msg 4) in
        let* nlmsg_len := lift (rd 4 msg 0) in
        if (nlmsg_type =? NLMSG_ERROR) || negb (nlmsg_ok nlmsg_len rep_len) then
          let* e := lift (rd 4 msg NLMSG_HDRLEN) in
          sys (Eprintf (Errno "fatal reply error" (i32 e))) ;; io_ret tt
        else
          let rep_len := i32 (nlmsg_len - NLMSG_HDRLEN - GENL_HDRLEN) in
          let* stop := walk fuel o fd GENLMSG_DATA 0 rep_len in
          if stop : bool then io_ret tt else again
  end.

(** ** The program *)

(** The argument of an option, up to its terminating zero. *)
Fixpoint before_nul (l : list Z) : list Z :=
  match l with
  | b :: r => if b =? 0 then [] else b :: before_nul r
  | [] => []
  end.
Definition optarg (a : ans) : list Z := before_nul (data a).

(** [err] *)
Definition die {S A} (code : Z) (m : string) : io call S A := sys (Eprintf (Note m)) ;; exit_ code.

Definition usage {S} : io call S unit := sys (Eprintf (Note "usage")) ;; io_ret tt.

Definition set_tid (t c : Z) (o : opts) : opts :=
  Opts (rcvbufsz o) (print_delays o) (print_io_accounting o) (print_task_context_switch_counts o)
    (loop o) (cpumask o) t c (logfile o) (containerpath o) (forking o).

(** [-c]: run the rest of the command line and wait for it later. *)
Definition fork_child {S} (o : opts) : io call S opts :=
  let* e := sys Sigemptyset in
  if ret e =? -1 then die 1 "Failed to empty sigset"
  else
    let* a := sys Sigaddset in
    if truthy (ret a) then die 1 "Failed to set sigchld in sigset"
    else
      sys Sigprocmask ;;
      let* f := sys Fork in
      let tid := ret f in
      if tid <? 0 then die 1 "Fork failed"
      else
        (if tid =? 0 then let* x := sys Execvp in if ret x <? 0 then exit_ (-1) else io_ret tt
         else io_ret tt) ;;
        io_ret (Opts (rcvbufsz o) (print_delays o) (print_io_accounting o)
          (print_task_context_switch_counts o) (loop o) (cpumask o) tid TASKSTATS_CMD_ATTR_PID
          (logfile o) (containerpath o) true).

(** One option: its letter and argument. *)
Definition option_step {S} (c : Z) (arg : list Z) (o : opts) : io call S opts :=
  let '(Opts rb d i q l m t ct lf cp fk) := o in
  let opt (s : string) := c =? znth (bytes_of_string s) 0 in
  if opt "d" then sys (Printf (Note "print delayacct stats ON")) ;; io_ret (Opts rb true i q l m t ct lf cp fk)
  else if opt "i" then sys (Printf (Note "printing IO accounting")) ;; io_ret (Opts rb d true q l m t ct lf cp fk)
  else if opt "q" then sys (Printf (Note "printing task/process context switch rates")) ;;
    io_ret (Opts rb d i true l m t ct lf cp fk)
  else if opt "C" then io_ret (Opts rb d i q l m t ct lf (Some arg) fk)
  else if opt "w" then sys (Printf (Note "write to file")) ;; io_ret (Opts rb d i q l m t ct (Some arg) cp fk)
  else if opt "r" then
    sys (Printf (Note "receive buf size")) ;;
    if atoi arg <? 0 then die 1 "Invalid rcv buf size" else io_ret (Opts (atoi arg) d i q l m t ct lf cp fk)
  else if opt "m" then
    sys (Printf (Note "cpumask")) ;;
    io_ret (Opts rb d i q l (Some (ztake (sizeof_cpumask - 1) arg)) t ct lf cp fk)
  else if opt "t" then
    if atoi arg =? 0 then die 1 "Invalid tgid" else io_ret (set_tid (atoi arg) TASKSTATS_CMD_ATTR_TGID o)
  else if opt "p" then
    if atoi arg =? 0 then die 1 "Invalid pid" else io_ret (set_tid (atoi arg) TASKSTATS_CMD_ATTR_PID o)
  else if opt "c" then fork_child o
  else if opt "v" then sys (Printf (Note "debug on")) ;; io_ret o
  else if opt "l" then sys (Printf (Note "listen forever")) ;; io_ret (Opts rb d i q true m t ct lf cp fk)
  else usage ;; exit_ (-1).

Fixpoint getopt_loop {S} (fuel : nat) (o : opts) : io call S opts :=
  match fuel with
  | O => nofuel
  | Datatypes.S fuel =>
      if forking o then io_ret o
      else
        let* c := sys Getopt in
        if ret c <? 0 then io_ret o
        else let* o := option_step (ret c) (optarg c) o in getopt_loop fuel o
  end.

(** The two labels at the end of [main]. *)
Definition label_err {S} (nl_sd fd cfd : Z) : io call S Z :=
  sys (Close nl_sd) ;;
  (if truthy fd then sys (Close fd) ;; io_ret tt else io_ret tt) ;;
  (if truthy cfd then sys (Close cfd) ;; io_ret tt else io_ret tt) ;;
  io_ret 0.

Definition label_done {S} (fuel : nat) (o : opts) (nl_sd id mypid fd cfd : Z) : io call S Z :=
  match cpumask o with
  | Some m =>
      let* rc := send_cmd fuel nl_sd id mypid TASKSTATS_CMD_GET TASKSTATS_CMD_ATTR_DEREGISTER_CPUMASK (m ++ [0]) in
      sys (Printf (Errno "Sent deregister mask, retval" rc)) ;;
      if rc <? 0 then die rc "error sending deregister cpumask" else label_err nl_sd fd cfd
  | None => label_err nl_sd fd cfd
  end.

(** The container request: the descriptor, or nothing when [main] ends. *)
Definition ask_container {S} (fuel : nat) (o : opts) (nl_sd id mypid : Z) : io call S (Z * bool) :=
  match containerpath o with
  | None => io_ret (0, true)
  | Some path =>
      let* c := sys (Open path false) in
      let cfd := ret c in
      if cfd <? 0 then sys (Eprintf (Note "error opening container file")) ;; io_ret (cfd, false)
      else
        let* rc := send_cmd fuel nl_sd id mypid CGROUPSTATS_CMD_GET CGROUPSTATS_CMD_ATTR_FD (le_bytes 4 cfd) in
        if rc <? 0 then sys (Eprintf (Note "error sending cgroupstats command")) ;; io_ret (cfd, false)
        else io_ret (cfd, true)
  end.

(** [main] from the requests on. *)
Definition requests (fuel : nat) (o : opts) (nl_sd id mypid fd : Z) : io call (list Z) Z :=
  let* ok :=
    match cpumask o with
    | Some m =>
        let* rc := send_cmd fuel nl_sd id mypid TASKSTATS_CMD_GET TASKSTATS_CMD_ATTR_REGISTER_CPUMASK (m ++ [0]) in
        if rc <? 0 then sys (Eprintf (Note "error sending register cpumask")) ;; io_ret false else io_ret true
    | None => io_ret true
    end in
  if negb ok then label_err nl_sd fd 0
  else if truthy (tid o) && bool_decide (containerpath o <> None) then
    sys (Eprintf (Note "Select either -t or -C, not both")) ;; label_err nl_sd fd 0
  else
    (if truthy (tid o) && forking o then sys Sigwait ;; io_ret tt else io_ret tt) ;;
    let* rc :=
      if truthy (tid o) then send_cmd fuel nl_sd id mypid TASKSTATS_CMD_GET (cmd_type o) (le_bytes 4 (tid o))
      else io_ret 0 in
    if rc <? 0 then sys (Eprintf (Note "error sending tid/tgid cmd")) ;; label_done fuel o nl_sd id mypid fd 0
    else
      let* (cfd, ok) := ask_container fuel o nl_sd id mypid in
      if negb ok then label_err nl_sd fd cfd
      else if bool_decide (cpumask o = None) && negb (truthy (tid o)) && bool_decide (containerpath o = None)
      then usage ;; label_err nl_sd fd cfd
      else
        recv_loop fuel o nl_sd fd ;;
        label_done fuel o nl_sd id mypid fd cfd.

Definition main (fuel : nat) : io call (list Z) Z :=
  let* u := sys (Uninit sizeof_msgtemplate) in
  put (uninit sizeof_msgtemplate u) ;;
  let* o := getopt_loop fuel no_opts in
  let* fd :=
    match logfile o with
    | Some path =>
        let* f := sys (Open path true) in
        if ret f =? -1 then die 1 "Cannot open output file" else io_ret (ret f)
    | None => io_ret 0
    end in
  let* nl_sd := create_nl_socket (rcvbufsz o) NETLINK_GENERIC in
  if nl_sd <? 0 then die 1 "error creating Netlink socket"
  else
    let* mypid := sys Getpid in
    let* id := get_family_id fuel nl_sd in
    if u16 id =? 0 then sys (Eprintf (Note "Error getting family id")) ;; label_err nl_sd fd 0
    else requests fuel o nl_sd (u16 id) (ret mypid) fd.

End Print.

Close Scope io_scope.

#[local] Arguments wp : simpl never.
#[local] Arguments wp_k : simpl never.
#[local] Arguments io_bind : simpl never.

(** ** Requests *)

(** Overwrite the part [old] behind [pre]. *)
Ltac step_poke pre old new :=
  erewrite (poke_at pre old new); [|rewrite <- ?app_assoc; reflexivity|lens|lens]; cbn [out_bind].

(** A request: [pad] are the two reserved bytes of the generic netlink header, [tail]
    the bytes after the payload. *)
Definition request (nlmsg_type pid cmd nla_type : Z) (d pad tail : list Z) : list Z :=
  le_bytes 4 (20 + align_up (zlen d + 5) 4) ++ le_bytes 2 nlmsg_type ++ le_bytes 2 NLM_F_REQUEST ++
  le_bytes 4 0 ++ le_bytes 4 pid ++ [u8 cmd] ++ [1] ++ pad ++
  le_bytes 2 (zlen d + 5) ++ le_bytes 2 nla_type ++ d ++ tail.

Lemma build_msg_request junk t pid cmd at_ d :
  zlen junk = 1044 -> zlen d <= 1015 ->
  exists pad tail rest, zlen pad = 2 /\ zlen tail = align_up (zlen d + 5) 4 - zlen d - 4 /\
    build_msg junk t pid cmd at_ d = Ret (request t pid cmd at_ d pad tail ++ rest, 20 + align_up (zlen d + 5) 4).
Proof.
  intros Hj Hd. pose proof (zlen_nonneg d) as Hd0. destruct (align4 (zlen d + 5)) as [Ha _].
  unfold build_msg, GENLMSG_DATA, NLMSG_HDRLEN, GENL_HDRLEN, NLA_HDRLEN, NLMSG_ALIGN.
  assert (u16 (zlen d + 1 + 4) = zlen d + 5) as -> by (unfold u16; rewrite wrap_small by (unfold fits; lia); lia).
  destruct (cut 4 junk) as (x0 & j0 & -> & L0 & M0); [lia|].
  destruct (cut 2 j0) as (x1 & j1 & -> & L1 & M1); [lia|]. destruct (cut 2 j1) as (x2 & j2 & -> & L2 & M2); [lia|].
  destruct (cut 4 j2) as (x3 & j3 & -> & L3 & M3); [lia|]. destruct (cut 4 j3) as (x4 & j4 & -> & L4 & M4); [lia|].
  destruct (cut 1 j4) as (x5 & j5 & -> & L5 & M5); [lia|]. destruct (cut 1 j5) as (x6 & j6 & -> & L6 & M6); [lia|].
  destruct (cut 2 j6) as (pad & j7 & -> & L7 & M7); [lia|]. destruct (cut 2 j7) as (x8 & j8 & -> & L8 & M8); [lia|].
  destruct (cut 2 j8) as (x9 & j9 & -> & L9 & M9); [lia|]. destruct (cut (zlen d) j9) as (x10 & j10 & -> & L10 & M10); [lia|].
  destruct (cut (align_up (zlen d + 5) 4 - zlen d - 4) j10) as (tail & rest & -> & L11 & M11); [lia|].
  exists pad, tail, rest. split; [done|]. split; [done|].
  set (y1 := le_bytes 2 t). set (y2 := le_bytes 2 NLM_F_REQUEST). set (y3 := le_bytes 4 0). set (y4 := le_bytes 4 pid).
  set (y8 := le_bytes 2 (zlen d + 5)). set (y9 := le_bytes 2 at_).
  assert (zlen y1 = 2 /\ zlen y2 = 2 /\ zlen y3 = 4 /\ zlen y4 = 4 /\ zlen y8 = 2 /\ zlen y9 = 2) as (? & ? & ? & ? & ? & ?)
    by (unfold y1, y2, y3, y4, y8, y9; rewrite !zlen_le_bytes; done).
  step_poke x0 x1 y1. step_poke (x0 ++ y1) x2 y2. step_poke (x0 ++ y1 ++ y2) x3 y3.
  step_poke (x0 ++ y1 ++ y2 ++ y3) x4 y4. step_poke (x0 ++ y1 ++ y2 ++ y3 ++ y4) x5 [u8 cmd].
  step_poke (x0 ++ y1 ++ y2 ++ y3 ++ y4 ++ [u8 cmd]) x6 [1].
  step_poke (x0 ++ y1 ++ y2 ++ y3 ++ y4 ++ [u8 cmd] ++ [1] ++ pad ++ x8) x9 y9.
  step_poke (x0 ++ y1 ++ y2 ++ y3 ++ y4 ++ [u8 cmd] ++ [1] ++ pad) x8 y8.
  step_poke (x0 ++ y1 ++ y2 ++ y3 ++ y4 ++ [u8 cmd] ++ [1] ++ pad ++ y8 ++ y9) x10 d.
  step_poke (@nil Z) x0 (le_bytes 4 (16 + 4 + align_up (zlen d + 5) 4)).
  do 2 f_equal. unfold request. rewrite <- !app_assoc. reflexivity.
Qed.

(** The bytes [sendto] accepted, in order. *)
Definition accepted (h : list (event call)) : list Z :=
  concat (reverse (omap (fun e => match e.1 with Sendto _ b => Some (ztake (ret e.2) b) | _ => None end) h)).

Lemma accepted_cons e h : accepted (e :: h) =
  accepted h ++ match e.1 with Sendto _ b => ztake (ret e.2) b | _ => [] end.
Proof.
  unfold accepted. destruct e as [[] ?]; cbn [omap list_omap fst snd]; rewrite ?app_nil_r; try done.
  rewrite reverse_cons, concat_app. cbn. by rewrite app_nil_r.
Qed.

(** What [sendto] is documented to do: it takes at most what it is given, and a
    blocking socket never says EAGAIN. *)
Definition sends_ok (K : kernel call) : Prop := forall h fd b,
  let a := K h (Sendto fd b) in ret a <= zlen b /\ (ret a <= 0 -> errno a <> EAGAIN).

Lemma send_loop_wp {S} K (s : S) h fuel sd pre mid post buf n :
  sends_ok K -> zlen pre = buf -> zlen mid = n -> 0 < n -> n <= Z.of_nat fuel ->
  wp (send_loop fuel sd (pre ++ mid ++ post) buf n) K s h (fun o s' h' => s' = s /\
    ((o = Ret 0 /\ accepted h' = accepted h ++ mid) \/
     (o = Ret (-1) /\ exists x y, mid = x ++ y /\ y <> [] /\ accepted h' = accepted h ++ x))).
Proof.
  intros HK. revert pre mid buf n h. induction fuel as [|fuel IH]; intros pre mid buf n h Hp Hm Hn Hf; [lia|].
  cbn [send_loop]. rewrite (sub_at pre mid post _ buf n eq_refl Hp Hm).
  apply wp_bind, wp_lift. wp_step. wp_step. apply wp_sys_eq. intros a Ha.
  specialize (HK h sd mid) as HKa. rewrite Ha in HKa. destruct HKa as [Hle Heagain]. wp_step. cbv zeta.
  destruct (Z.ltb_spec (ret a) n) as [Hlt|Hge].
  2: { wp_step. split; [done|]. left. split; [done|]. rewrite accepted_cons. cbn. unfold ztake.
       rewrite take_ge; [done|]. unfold zlen in *. lia. }
  destruct (Z.ltb_spec 0 (ret a)) as [Hpos|Hneg].
  - destruct (cut (ret a) mid) as (x & y & -> & Lx & Ly); [lia|].
    rewrite zlen_app in Hm. eapply wp_wand.
    { rewrite <- app_assoc, (app_assoc pre). apply (IH (pre ++ x) y); [rewrite zlen_app; lia|lia|lia|lia]. }
    assert (accepted ((Sendto sd (x ++ y), a) :: h) = accepted h ++ x) as Hacc.
    { rewrite accepted_cons. cbn. unfold ztake, zlen in *. by rewrite take_app_length' by lia. }
    rewrite Hacc. intros o s' h' (-> & [[-> Hr]|(-> & x' & y' & -> & Hy & Hr)]); (split; [done|]).
    + left. split; [done|]. by rewrite Hr, <- app_assoc.
    + right. split; [done|]. exists (x ++ x'), y'. rewrite Hr, !app_assoc. done.
  - replace (negb (errno a =? EAGAIN)) with true by (symmetry; apply negb_true_iff, Z.eqb_neq; auto).
    wp_step. split; [done|]. right. split; [done|]. exists [], mid. split; [done|].
    split; [intros ->; change (zlen []) with 0 in Hm; lia|]. rewrite accepted_cons. cbn. unfold ztake.
    by replace (Z.to_nat (ret a)) with 0%nat by lia.
Qed.

(** C25: however the kernel splits the transfer, [send_cmd] returns; it returns 0 only
    when the whole request went out: the netlink and generic netlink headers, the
    attribute header and the payload, followed by one to four bytes of the stack.
    Otherwise it returns -1 after a proper prefix. *)
Theorem send_cmd_delivers {S} K (s : S) h fuel sd t pid cmd at_ d :
  sends_ok K -> zlen d <= 1015 -> 1044 <= Z.of_nat fuel ->
  exists rc h' pad tail, send_cmd fuel sd t pid cmd at_ d K s h = (Ret rc, s, h') /\
    zlen pad = 2 /\ 1 <= zlen tail <= 4 /\
    let msg := request t pid cmd at_ d pad tail in
    zlen msg mod 4 = 0 /\
    ((rc = 0 /\ accepted h' = accepted h ++ msg) \/
     (rc = -1 /\ exists x y, msg = x ++ y /\ y <> [] /\ accepted h' = accepted h ++ x)).
Proof.
  intros HK Hd Hf. pose proof (zlen_nonneg d). destruct (align4 (zlen d + 5)) as [Ha Hmod].
  destruct (build_msg_request (uninit sizeof_msgtemplate (K h (Uninit sizeof_msgtemplate))) t pid cmd at_ d)
    as (pad & tail & rest & Hpad & Htail & Hb); [by apply zlen_uninit|done|].
  assert (zlen (request t pid cmd at_ d pad tail) = 20 + align_up (zlen d + 5) 4) as Hlen
    by (unfold request; rewrite !zlen_app, !zlen_le_bytes, !zlen_one; lia).
  assert (align_up (zlen d + 5) 4 <= 1024) as Hmax.
  { apply Z.mod_divide in Hmod as [q Hq]; [|done]. rewrite Hq in *. lia. }
  enough (wp (send_cmd fuel sd t pid cmd at_ d) K s h (fun o s' h' => s' = s /\
    ((o = Ret 0 /\ accepted h' = accepted h ++ request t pid cmd at_ d pad tail) \/
     (o = Ret (-1) /\ exists x y, request t pid cmd at_ d pad tail = x ++ y /\ y <> [] /\
        accepted h' = accepted h ++ x)))) as Hwp.
  { unfold wp in Hwp. destruct (send_cmd fuel sd t pid cmd at_ d K s h) as [[o s'] h'].
    destruct Hwp as (-> & [[-> Hr]|(-> & Hr)]); eexists _, h', pad, tail.
    all: split; [done|]; split; [done|]; split; [lia|]; cbn zeta; split.
    1, 3: rewrite Hlen, Z.add_mod, Hmod by done; done.
    - by left.
    - by right. }
  unfold send_cmd. do 2 wp_step. wp_step. apply wp_bind, wp_lift. rewrite Hb. wp_step.
  eapply wp_wand; [apply (send_loop_wp K s _ fuel sd [] (request t pid cmd at_ d pad tail) rest); try done; lia|].
  intros o s' h' [-> Hr]. split; [done|]. rewrite accepted_cons in Hr. cbn [fst] in Hr.
  by rewrite app_nil_r in Hr.
Qed.

(** ** Replies *)

Section Replies.
Context `{Layout}.

(** The structure holds the fields. *)
Class LayoutOk : Prop := {
  ts_in f : 0 <= ts_offset f /\ ts_offset f + 8 <= sizeof_taskstats;
  comm_in : 0 <= ac_comm <= sizeof_taskstats;
  ts_aligned : sizeof_taskstats mod 4 = 0;
  ts_small : sizeof_taskstats < 60000
}.
Context {Hlay : LayoutOk}.

(** The statistics of a task as the kernel sends them: an aggregate with the
    identifier and the structure. *)
Record stat : Type := Stat { is_tgid : bool; task : Z; stats : list Z; comm : list Z }.

Definition stat_ok (x : stat) : Prop :=
  - 2 ^ 31 <= task x < 2 ^ 31 /\ zlen (stats x) = sizeof_taskstats /\ cstr (stats x) ac_comm = Ret (comm x).

Definition attr (type : Z) (payload : list Z) : list Z :=
  le_bytes 2 (zlen payload + 4) ++ le_bytes 2 type ++ payload.

Definition inner (x : stat) : list Z :=
  attr (if is_tgid x then TASKSTATS_TYPE_TGID else TASKSTATS_TYPE_PID) (le_bytes 4 (task x)) ++
  attr TASKSTATS_TYPE_STATS (stats x).

Definition aggregate (x : stat) : list Z :=
  attr (if is_tgid x then TASKSTATS_TYPE_AGGR_TGID else TASKSTATS_TYPE_AGGR_PID) (inner x).

(** What is printed for it. *)
Definition value (x : stat) (f : ts_field) : Z := le_val (ztake 8 (zdrop (ts_offset f) (stats x))).

Definition lines (o : opts) (x : stat) : list text :=
  let v := value x in
  let group c d := (v c, v d, average_ms (v d) (v c)) in
  (if print_delays o then
     [if is_tgid x then Tgid (task x) else Pid (task x);
      Delayacct (v cpu_count) (v cpu_run_real_total) (v cpu_run_virtual_total) (v cpu_delay_total)
        (v cpu_delay_total, 1000000 * (if truthy (v cpu_count) then v cpu_count else 1))
        (group blkio_count blkio_delay_total) (group swapin_count swapin_delay_total)
        (group freepages_count freepages_delay_total)]
   else []) ++
  (if print_io_accounting o
   then [Ioacct (comm x) (v read_bytes) (v write_bytes) (v cancelled_write_bytes)] else []) ++
  (if print_task_context_switch_counts o then [Switches (v nvcsw) (v nivcsw)] else []).

#[export] Instance delays_shows : Shows call text := fun c =>
  match c with Printf t => Some t | _ => None end.

(** Reading inside a part of the message. *)
Lemma upto_nul_app l post c : upto_nul l = Ret c -> upto_nul (l ++ post) = Ret c.
Proof.
  revert c. induction l as [|b l IH]; intros c; [done|]. cbn. destruct (b =? 0); [done|].
  destruct (upto_nul l) as [c'| | |]; cbn; try done. intros ?. rewrite (IH c') by done. done.
Qed.

Lemma cstr_mid pre mid post off k c :
  0 <= k <= zlen mid -> cstr mid k = Ret c -> off = zlen pre + k -> cstr (pre ++ mid ++ post) off = Ret c.
Proof.
  intros Hk Hc ->. pose proof (zlen_nonneg pre). pose proof (zlen_nonneg post). unfold cstr in *.
  rewrite !zlen_app. destruct (_ && _) eqn:E in Hc; [|done]. replace (_ && _) with true by lia.
  unfold zdrop, zlen in *. rewrite drop_app_ge by lia.
  replace (Z.to_nat _ - length pre)%nat with (Z.to_nat k) by lia. rewrite drop_app_le by lia. by apply upto_nul_app.
Qed.

Lemma zlen_attr t p : zlen (attr t p) = zlen p + 4.
Proof. unfold attr. rewrite !zlen_app, !zlen_le_bytes. lia. Qed.

(** The header of an attribute behind [pre]. *)
Lemma attr_header pre t p post na :
  zlen pre = na -> 0 <= t < 2 ^ 16 -> zlen p + 4 < 2 ^ 16 ->
  rd 2 (pre ++ attr t p ++ post) na = Ret (zlen p + 4) /\ rd 2 (pre ++ attr t p ++ post) (na + 2) = Ret t.
Proof.
  intros Hna Ht Hp. pose proof (zlen_nonneg p). unfold attr. split.
  - eapply (rd_at 2 _ pre); [by rewrite <- !app_assoc|lia|done|lia].
  - eapply (rd_at 2 _ (pre ++ le_bytes 2 (zlen p + 4))); [by rewrite <- !app_assoc|lia| |lia].
    rewrite zlen_app, zlen_le_bytes. lia.
Qed.

Section Stats.
Context (x : stat) (pre post : list Z).
Hypothesis Hx : stat_ok x.
Let msg := pre ++ stats x ++ post.

Lemma prints_field {A} f (k : Z -> io call (list Z) A) K a ts :
  prints (k (value x f)) K msg a ts -> prints (io_bind (field msg (zlen pre) f) k) K msg a ts.
Proof.
  intros Hk. change ts with ([] ++ ts). eapply prints_bind; [|exact Hk]. apply prints_lift. unfold msg.
  destruct Hx as (_ & Hs & _). destruct (ts_in f). apply rd_mid; lia.
Qed.

Ltac fields := repeat (apply prints_field); by apply prints_text.

Lemma prints_delayacct K :
  let v := value x in let group c d := (v c, v d, average_ms (v d) (v c)) in
  prints (print_delayacct msg (zlen pre)) K msg tt
    [Delayacct (v cpu_count) (v cpu_run_real_total) (v cpu_run_virtual_total) (v cpu_delay_total)
       (v cpu_delay_total, 1000000 * (if truthy (v cpu_count) then v cpu_count else 1))
       (group blkio_count blkio_delay_total) (group swapin_count swapin_delay_total)
       (group freepages_count freepages_delay_total)].
Proof. unfold print_delayacct. fields. Qed.

Lemma prints_switches K :
  prints (task_context_switch_counts msg (zlen pre)) K msg tt [Switches (value x nvcsw) (value x nivcsw)].
Proof. unfold task_context_switch_counts. fields. Qed.

Lemma prints_ioacct K :
  prints (print_ioacct msg (zlen pre)) K msg tt
    [Ioacct (comm x) (value x read_bytes) (value x write_bytes) (value x cancelled_write_bytes)].
Proof.
  unfold print_ioacct. change [Ioacct _ _ _ _] with ([] ++ [Ioacct (comm x) (value x read_bytes) (value x write_bytes) (value x cancelled_write_bytes)]).
  eapply prints_bind; [|fields]. apply prints_lift. destruct Hx as (_ & Hs & Hc).
  apply (cstr_mid _ _ _ _ ac_comm); [pose proof comm_in; lia|done|done].
Qed.

End Stats.

Definition id_type (x : stat) : Z := if is_tgid x then TASKSTATS_TYPE_TGID else TASKSTATS_TYPE_PID.
Definition id_line (x : stat) : text := if is_tgid x then Tgid (task x) else Pid (task x).

Lemma prints_id K o x pre post len :
  stat_ok x ->
  prints (nested_attr o 0 (zlen pre) len (id_type x)) K (pre ++ attr (id_type x) (le_bytes 4 (task x)) ++ post)
    false (if print_delays o then [id_line x] else []).
Proof.
  intros (Ht & _). set (msg := pre ++ _). unfold nested_attr. apply prints_get.
  assert (rd 4 msg (zlen pre + NLA_HDRLEN) = Ret (task x mod 2 ^ 32)) as Hr.
  { unfold msg, attr, NLA_HDRLEN. rewrite <- !app_assoc, (app_assoc pre), (app_assoc (pre ++ _)).
    rewrite (rd_mid 4 _ _ _ _ 0); [..|by lens|by lens|by rewrite !zlen_app, !zlen_le_bytes; lia]; [|lia].
    unfold zdrop, ztake. rewrite drop_0, take_ge by (rewrite length_le_bytes; lia).
    by rewrite le_val_bytes. }
  unfold id_type, id_line. destruct (is_tgid x); cbn [Z.eqb TASKSTATS_TYPE_TGID TASKSTATS_TYPE_PID Pos.eqb].
  all: eapply prints_read; [exact Hr|]; rewrite <- (app_nil_r (if print_delays o then _ else _)).
  all: eapply prints_bind; [|apply prints_ret]; apply prints_if; rewrite i32_wrap by done; by apply prints_text.
Qed.

Definition stat_lines (o : opts) (x : stat) : list text :=
  let v := value x in
  let group c d := (v c, v d, average_ms (v d) (v c)) in
  (if print_delays o then
     [Delayacct (v cpu_count) (v cpu_run_real_total) (v cpu_run_virtual_total) (v cpu_delay_total)
        (v cpu_delay_total, 1000000 * (if truthy (v cpu_count) then v cpu_count else 1))
        (group blkio_count blkio_delay_total) (group swapin_count swapin_delay_total)
        (group freepages_count freepages_delay_total)] else []) ++
  (if print_io_accounting o
   then [Ioacct (comm x) (v read_bytes) (v write_bytes) (v cancelled_write_bytes)] else []) ++
  (if print_task_context_switch_counts o then [Switches (v nvcsw) (v nivcsw)] else []).

Lemma lines_split o x : lines o x = (if print_delays o then [id_line x] else []) ++ stat_lines o x.
Proof. unfold lines, stat_lines, id_line. by destruct (print_delays o). Qed.

Lemma prints_stats K o x pre post len :
  stat_ok x ->
  prints (nested_attr o 0 (zlen pre) len TASKSTATS_TYPE_STATS) K
    (pre ++ attr TASKSTATS_TYPE_STATS (stats x) ++ post) (negb (loop o)) (stat_lines o x).
Proof.
  intros Hx. set (pre' := pre ++ le_bytes 2 (zlen (stats x) + 4) ++ le_bytes 2 TASKSTATS_TYPE_STATS).
  assert (pre ++ attr TASKSTATS_TYPE_STATS (stats x) ++ post = pre' ++ stats x ++ post) as ->
    by (unfold pre', attr; by rewrite <- !app_assoc).
  unfold nested_attr. apply prints_get.
  assert (zlen pre + NLA_HDRLEN = zlen pre') as -> by (unfold pre', NLA_HDRLEN; rewrite !zlen_app, !zlen_le_bytes; lia).
  cbn [Z.eqb TASKSTATS_TYPE_STATS TASKSTATS_TYPE_TGID TASKSTATS_TYPE_PID Pos.eqb truthy negb].
  unfold stat_lines. eapply prints_bind; [by apply prints_if, prints_delayacct|].
  eapply prints_bind; [by apply prints_if, prints_ioacct|].
  rewrite <- (app_nil_r (if print_task_context_switch_counts o then _ else _)).
  eapply prints_bind; [by apply prints_if, prints_switches|].
  rewrite <- (app_nil_l []). eapply prints_bind; apply prints_ret.
Qed.

(** Both attributes of an aggregate. *)
Lemma prints_nested K o x pre post fuel :
  stat_ok x -> (3 <= fuel)%nat ->
  prints (nested fuel o 0 (zlen pre) 0 (zlen (inner x))) K (pre ++ inner x ++ post) (negb (loop o)) (lines o x).
Proof.
  intros Hx Hf. destruct fuel as [|[|[|fuel]]]; [lia..|].
  pose proof Hx as (Ht & Hs & _). pose proof ts_aligned as Hal. pose proof ts_small. pose proof (zlen_nonneg (stats x)).
  assert (zlen (le_bytes 4 (task x)) = 4) as H4 by apply zlen_le_bytes.
  assert (zlen (inner x) = 12 + sizeof_taskstats) as Hin by (unfold inner; rewrite zlen_app, !zlen_attr; lia).
  set (msg := pre ++ inner x ++ post).
  assert (msg = pre ++ attr (id_type x) (le_bytes 4 (task x)) ++ (attr TASKSTATS_TYPE_STATS (stats x) ++ post)) as Hm1
    by (unfold msg, inner; by rewrite <- !app_assoc).
  set (pre2 := pre ++ attr (id_type x) (le_bytes 4 (task x))).
  assert (zlen pre2 = zlen pre + 8) as Hp2 by (unfold pre2; rewrite zlen_app, zlen_attr; lia).
  assert (msg = pre2 ++ attr TASKSTATS_TYPE_STATS (stats x) ++ post) as Hm2 by (rewrite Hm1; unfold pre2; by rewrite <- app_assoc).
  destruct (attr_header pre (id_type x) (le_bytes 4 (task x)) (attr TASKSTATS_TYPE_STATS (stats x) ++ post) (zlen pre))
    as [E1 E2]; [done|unfold id_type; by destruct (is_tgid x)|lia|]. rewrite <- Hm1 in E1, E2.
  destruct (attr_header pre2 TASKSTATS_TYPE_STATS (stats x) post (zlen pre2)) as [E3 E4]; [done|done|lia|].
  rewrite <- Hm2 in E3, E4. rewrite H4 in E1. cbn [nested].
  replace (0 <? zlen (inner x)) with true by lia. apply prints_get.
  eapply prints_read; [exact E2|]. eapply prints_read; [exact E1|].
  rewrite lines_split. eapply prints_bind; [rewrite Hm1; by apply prints_id|]. cbn iota zeta.
  assert (NLA_ALIGN (4 + 4) = 8) as -> by done. replace (zlen pre + (0 + 8)) with (zlen pre2) by lia.
  replace (0 + 8 <? zlen (inner x)) with true by lia. apply prints_get.
  eapply prints_read; [exact E4|]. eapply prints_read; [exact E3|].
  rewrite <- (app_nil_r (stat_lines o x)). eapply prints_bind; [rewrite Hm2; by apply prints_stats|].
  destruct (loop o); cbn [negb]; [|apply prints_ret]. cbn zeta.
  assert (NLA_ALIGN (zlen (stats x) + 4) = zlen (stats x) + 4) as ->
    by (apply align4_id; rewrite Hs, Z.add_mod, Hal by done; done).
  replace (_ <? zlen (inner x)) with false by lia. apply prints_ret.
Qed.

Definition aggregates (xs : list stat) : list Z := concat (aggregate <$> xs).

Lemma zlen_aggregate x : stat_ok x -> zlen (aggregate x) = 16 + sizeof_taskstats.
Proof.
  intros (_ & Hs & _). unfold aggregate, inner. rewrite zlen_attr, zlen_app, !zlen_attr, zlen_le_bytes. lia.
Qed.

Lemma aggregates_app xs ys : aggregates (xs ++ ys) = aggregates xs ++ aggregates ys.
Proof. unfold aggregates. by rewrite fmap_app, concat_app. Qed.

(** A walk stops at the first statistics unless the tool listens forever. *)
Definition shown (o : opts) (xs : list stat) : list stat := if loop o then xs else take 1 xs.

Lemma prints_walk K o xs1 xs2 hdr post fuel :
  zlen hdr = 20 -> Forall stat_ok xs2 -> (length xs2 + 3 <= fuel)%nat ->
  prints (walk fuel o 0 (20 + zlen (aggregates xs1)) (zlen (aggregates xs1)) (zlen (aggregates (xs1 ++ xs2)))) K
    (hdr ++ aggregates (xs1 ++ xs2) ++ post)
    (negb (loop o) && negb (bool_decide (xs2 = []))) (concat (lines o <$> shown o xs2)).
Proof.
  intros Hh Hxs. revert xs1 fuel. induction Hxs as [|x xs2 Hx Hxs IH]; intros xs1 fuel Hf.
  { destruct fuel as [|fuel]; [cbn in Hf; lia|]. rewrite app_nil_r. cbn [walk]. rewrite Z.ltb_irrefl.
    rewrite bool_decide_eq_true_2 by done. cbn [negb]. rewrite andb_false_r. unfold shown. rewrite take_nil.
    destruct (loop o); apply prints_ret. }
  destruct fuel as [|fuel]; [cbn in Hf; lia|]. cbn [walk]. cbn [length] in Hf.
  pose proof Hx as (_ & Hs & _). pose proof ts_small. pose proof ts_aligned as Hal. pose proof (zlen_nonneg (stats x)).
  assert (zlen (inner x) = 12 + sizeof_taskstats) as Hin by (unfold inner; rewrite zlen_app, !zlen_attr, zlen_le_bytes; lia).
  pose proof (zlen_aggregate x Hx) as Hagg. pose proof (zlen_nonneg (aggregates xs2)).
  assert (aggregates (xs1 ++ x :: xs2) = aggregates xs1 ++ aggregate x ++ aggregates xs2) as Heq by apply aggregates_app.
  set (pre := hdr ++ aggregates xs1). set (at_ := if is_tgid x then TASKSTATS_TYPE_AGGR_TGID else TASKSTATS_TYPE_AGGR_PID).
  assert (hdr ++ aggregates (xs1 ++ x :: xs2) ++ post = pre ++ attr at_ (inner x) ++ (aggregates xs2 ++ post)) as Hm
    by (rewrite Heq; unfold pre; by rewrite <- !app_assoc).
  assert (zlen pre = 20 + zlen (aggregates xs1)) as Hpre by (unfold pre; rewrite zlen_app; lia).
  destruct (attr_header pre at_ (inner x) (aggregates xs2 ++ post) _ Hpre) as [E1 E2];
    [unfold at_; by destruct (is_tgid x)|lia|]. rewrite <- Hm in E1, E2.
  replace (_ <? _) with true by (rewrite Heq, !zlen_app; lia). apply prints_get.
  eapply prints_read; [exact E1|]. cbv zeta. eapply prints_read; [exact E2|].
  assert (concat (lines o <$> shown o (x :: xs2)) = lines o x ++ (if loop o then concat (lines o <$> xs2) else [])) as ->
    by (unfold shown; by destruct (loop o)).
  replace ((at_ =? TASKSTATS_TYPE_AGGR_TGID) || (at_ =? TASKSTATS_TYPE_AGGR_PID)) with true
    by (unfold at_; by destruct (is_tgid x)).
  rewrite bool_decide_eq_false_2 by done. cbn [negb]. rewrite andb_true_r.
  eapply prints_bind.
  { set (pre2 := pre ++ le_bytes 2 (zlen (inner x) + 4) ++ le_bytes 2 at_).
    replace (20 + zlen (aggregates xs1) + NLA_HDRLEN) with (zlen pre2)
      by (unfold pre2, NLA_HDRLEN; rewrite !zlen_app, !zlen_le_bytes; lia).
    replace (zlen (inner x) + 4 - NLA_HDRLEN) with (zlen (inner x)) by (unfold NLA_HDRLEN; lia).
    replace (hdr ++ aggregates (xs1 ++ x :: xs2) ++ post) with (pre2 ++ inner x ++ (aggregates xs2 ++ post))
      by (rewrite Hm; unfold pre2, attr; by rewrite <- !app_assoc).
    apply prints_nested; [done|lia]. }
  destruct (loop o) eqn:El; cbn [negb]; [|apply prints_ret].
  assert (NLA_ALIGN (zlen (inner x) + 4) = zlen (inner x) + 4) as ->.
  { apply align4_id. rewrite Hin. replace (12 + sizeof_taskstats + 4) with (sizeof_taskstats + 4 * 4) by lia.
    by rewrite Z.mod_add. }
  assert (zlen (aggregates xs1) + (zlen (inner x) + 4) = zlen (aggregates (xs1 ++ [x]))) as ->.
  { rewrite aggregates_app, zlen_app. unfold aggregates at 3. cbn [fmap list_fmap concat]. rewrite app_nil_r. lia. }
  replace (xs1 ++ x :: xs2) with ((xs1 ++ [x]) ++ xs2) by (by rewrite <- app_assoc).
  change GENLMSG_DATA with 20. specialize (IH (xs1 ++ [x]) fuel ltac:(lia)). unfold shown in IH. rewrite El in IH.
  exact IH.
Qed.

(** A reply: [hdr] are the rest of the netlink header and the generic netlink
    header. *)
Definition message (type : Z) (hdr : list Z) (xs : list stat) : list Z :=
  le_bytes 4 (20 + zlen (aggregates xs)) ++ le_bytes 2 type ++ hdr ++ aggregates xs.

Definition error_message : list Z := le_bytes 4 36 ++ le_bytes 2 NLMSG_ERROR ++ replicate 30 0.

Definition nrecv (h : list (event call)) : nat :=
  length (omap (fun e => match e.1 with Recv _ _ => Some tt | _ => None end) h).

Definition reply (type : Z) (hdr : list Z) (ms : list (list stat)) (i : nat) : list Z :=
  match ms !! i with Some xs => message type hdr xs | None => error_message end.

(** The socket delivers the replies one by one, then an error message. *)
Definition feeds (K : kernel call) (sd type : Z) (hdr : list Z) (ms : list (list stat)) : Prop :=
  forall h, K h (Recv sd sizeof_msgtemplate) =
    Ans (zlen (reply type hdr ms (nrecv h))) 0 (reply type hdr ms (nrecv h)).

Lemma recv_into_eq msg m e : zlen m <= zlen msg ->
  recv_into msg (Ans (zlen m) e m) = m ++ zdrop (zlen m) msg.
Proof.
  intros Hm. pose proof (zlen_nonneg m). unfold recv_into. cbn [ret data]. replace (zlen m <? 0) with false by lia.
  assert (ztake (zlen m) m = m) as -> by (unfold ztake, zlen; apply take_ge; lia).
  assert (ztake (zlen msg) m = m) as -> by (unfold ztake, zlen in *; apply take_ge; lia). done.
Qed.

(** A message of statistics that fits the tool's buffer. *)
Definition message_ok (hdr : list Z) (xs : list stat) : Prop :=
  Forall stat_ok xs /\ 20 + zlen (aggregates xs) <= sizeof_msgtemplate.

Lemma message_fields type hdr xs rest :
  zlen hdr = 14 -> 0 <= type < 2 ^ 16 -> message_ok hdr xs ->
  zlen (message type hdr xs) = 20 + zlen (aggregates xs) /\
  rd 2 (message type hdr xs ++ rest) 4 = Ret type /\
  rd 4 (message type hdr xs ++ rest) 0 = Ret (20 + zlen (aggregates xs)).
Proof.
  intros Hh Ht [_ Hle]. pose proof (zlen_nonneg (aggregates xs)). unfold message. split_and!.
  - rewrite !zlen_app, !zlen_le_bytes. lia.
  - eapply (rd_at 2 _ (le_bytes 4 _)); [by rewrite <- !app_assoc|lia|done|lia].
  - eapply (rd_at 4 _ []); [by rewrite <- !app_assoc|lia|done|]. unfold sizeof_msgtemplate, MAX_MSG_SIZE, NLMSG_HDRLEN, GENL_HDRLEN in Hle. lia.
Qed.

(** Walking a received message. *)
Lemma message_walk K o type hdr xs rest fuel :
  zlen hdr = 14 -> message_ok hdr xs -> (length xs + 3 <= fuel)%nat ->
  prints (walk fuel o 0 GENLMSG_DATA 0 (zlen (aggregates xs))) K (message type hdr xs ++ rest)
    (negb (loop o) && negb (bool_decide (xs = []))) (concat (lines o <$> shown o xs)).
Proof.
  intros Hh [Hxs _] Hf. set (front := le_bytes 4 (20 + zlen (aggregates xs)) ++ le_bytes 2 type ++ hdr).
  replace (message type hdr xs ++ rest) with (front ++ aggregates ([] ++ xs) ++ rest)
    by (unfold message, front; by rewrite <- !app_assoc).
  apply (prints_walk K o [] xs front rest fuel); [|done|done].
  unfold front. rewrite !zlen_app, !zlen_le_bytes. lia.
Qed.

(** What the tool shows of a sequence of replies. *)
Definition shown_all (o : opts) (ms : list (list stat)) : list stat :=
  if loop o then concat ms else match ms with xs :: _ => take 1 xs | [] => [] end.

(** The first part of a turn of the loop. *)
Lemma recv_turn K o type hdr ms sd (msg : list Z) h fuel (Q : outcome unit -> list Z -> list (event call) -> Prop) :
  feeds K sd type hdr ms -> zlen msg = 1044 -> zlen (reply type hdr ms (nrecv h)) <= 1044 ->
  let m := reply type hdr ms (nrecv h) in
  let msg' := m ++ zdrop (zlen m) msg in
  let h' := (Recv sd sizeof_msgtemplate, Ans (zlen m) 0 m) :: h in
  (forall nlmsg_type nlmsg_len, rd 2 msg' 4 = Ret nlmsg_type -> rd 4 msg' 0 = Ret nlmsg_len ->
    wp (if (nlmsg_type =? NLMSG_ERROR) || negb (nlmsg_ok nlmsg_len (zlen m)) then
          io_bind (lift (rd 4 msg' NLMSG_HDRLEN)) (fun e =>
            io_bind (sys (Eprintf (Errno "fatal reply error" (i32 e)))) (fun _ => io_ret tt))
        else
          io_bind (walk (S fuel) o 0 GENLMSG_DATA 0 (i32 (nlmsg_len - NLMSG_HDRLEN - GENL_HDRLEN)))
            (fun stop : bool => if stop then io_ret tt else if loop o then recv_loop fuel o sd 0 else io_ret tt))
      K msg' h' Q) ->
  wp (recv_loop (S fuel) o sd 0) K msg h Q.
Proof.
  intros HK Hmsg Hle. cbn zeta. set (m := reply type hdr ms (nrecv h)) in *. intros Hq.
  pose proof (zlen_nonneg m). cbn [recv_loop]. wp_step. wp_step. rewrite (HK h). fold m. wp_step.
  wp_step. wp_step. wp_step. wp_step. wp_step. wp_step. rewrite recv_into_eq by lia. cbn [ret].
  assert (i32 (zlen m) = zlen m) as -> by (apply i32_small; lia).
  replace (zlen m <? 0) with false by lia.
  set (msg' := m ++ zdrop (zlen m) msg) in *.
  assert (zlen msg' = 1044) as Hl by (unfold msg'; rewrite zlen_app, zlen_zdrop; lia).
  apply wp_bind, wp_lift. rewrite (rd_in 2) by lia. wp_step.
  apply wp_bind, wp_lift. rewrite (rd_in 4 msg' 0) by lia. wp_step. apply Hq; rewrite rd_in by lia; done.
Qed.

Lemma nrecv_recv sd n a h : nrecv ((Recv sd n, a) :: h) = S (nrecv h).
Proof. done. Qed.

(** Printing does not receive. *)
Definition quiet (c : call) : Prop := match c with Recv _ _ => False | _ => True end.

Lemma nrecv_quiet t h : Forall (fun e => quiet e.1) t -> nrecv (t ++ h) = nrecv h.
Proof. induction 1 as [|[c a] t Hc _ IH]; [done|]. destruct c; done. Qed.

Lemma quiet_nested_attr o fd na len t : emits quiet (nested_attr o fd na len t).
Proof.
  unfold nested_attr, print_delayacct, print_ioacct, task_context_switch_counts, field. emits.
Qed.

Lemma quiet_nested fuel o fd na l2 al : emits quiet (nested fuel o fd na l2 al).
Proof.
  revert na l2. induction fuel as [|fuel IH]; intros na l2; cbn [nested]; emits. apply quiet_nested_attr.
Qed.

Lemma quiet_walk fuel o fd na l rl : emits quiet (walk fuel o fd na l rl).
Proof.
  revert na l. induction fuel as [|fuel IH]; intros na l; cbn [walk]; unfold print_cgroupstats, cfield; emits.
  apply quiet_nested.
Qed.

Lemma message_count hdr xs : message_ok hdr xs -> (length xs <= 64)%nat.
Proof.
  intros [Hxs Hle]. assert (zlen (aggregates xs) = (16 + sizeof_taskstats) * zlen xs) as Hz.
  { clear Hle. unfold aggregates. induction Hxs as [|x xs Hx _ IH]; [symmetry; apply Z.mul_0_r|]. cbn [fmap list_fmap concat].
    rewrite zlen_app, zlen_aggregate, zlen_cons, IH by done. lia. }
  change sizeof_msgtemplate with 1044 in Hle. pose proof comm_in. unfold zlen in *. nia.
Qed.

(** A turn of the loop on a reply of statistics, or on the error at the end. *)
Lemma recv_loop_wp K o type hdr ms sd fuel (msg : list Z) h :
  feeds K sd type hdr ms -> zlen hdr = 14 -> 2 < type < 2 ^ 16 -> Forall (message_ok hdr) ms ->
  zlen msg = 1044 -> (nrecv h <= length ms)%nat -> (67 + length ms < fuel + nrecv h)%nat ->
  wp (recv_loop fuel o sd 0) K msg h (fun r s' h' => r = Ret tt /\
    output h' = output h ++ concat (lines o <$> shown_all o (drop (nrecv h) ms))).
Proof.
  intros HK Hh Ht Hms. revert msg h. induction fuel as [|fuel IH]; intros msg h Hmsg Hn Hf; [lia|].
  destruct (ms !! nrecv h) as [xs|] eqn:Ei.
  2: { apply lookup_ge_None in Ei. assert (reply type hdr ms (nrecv h) = error_message) as Hr
         by (unfold reply; by rewrite lookup_ge_None_2).
       apply (recv_turn K o type hdr ms); [done|done|rewrite Hr; by vm_compute|]. rewrite Hr. intros t n E1 E2.
       erewrite (rd_at 2 NLMSG_ERROR (le_bytes 4 36)) in E1;
         [|unfold error_message; rewrite <- !app_assoc; reflexivity|lia|done|done].
       simplify_eq. cbn [Z.eqb NLMSG_ERROR Pos.eqb orb].
       rewrite rd_in; [|done|rewrite zlen_app, zlen_zdrop; change (zlen error_message) with 36;
                              change NLMSG_HDRLEN with 16; lia].
       apply wp_bind, wp_lift. wp_go. split; [done|]. rewrite drop_ge by lia. unfold shown_all.
       destruct (loop o); cbn; by rewrite app_nil_r. }
  assert (reply type hdr ms (nrecv h) = message type hdr xs) as Hr by (unfold reply; by rewrite Ei).
  pose proof (proj1 (Forall_lookup _ _) Hms _ _ Ei) as Hok. pose proof (message_count _ _ Hok) as Hc.
  pose proof (zlen_nonneg (aggregates xs)) as H0. pose proof (proj2 Hok) as Hle. change sizeof_msgtemplate with 1044 in Hle.
  destruct (message_fields type hdr xs (zdrop (zlen (message type hdr xs)) msg)) as (Hl & E1 & E2); [done|lia|done|].
  apply (recv_turn K o type hdr ms); [done|done|rewrite Hr; lia|]. rewrite Hr. intros t n E1' E2'.
  rewrite E1 in E1'. rewrite E2 in E2'. simplify_eq. rewrite Hl at 1.
  unfold nlmsg_ok, NLMSG_ERROR, NLMSG_HDRLEN. replace (_ || _) with false by lia.
  assert (i32 (20 + zlen (aggregates xs) - 16 - GENL_HDRLEN) = zlen (aggregates xs)) as ->
    by (unfold GENL_HDRLEN; rewrite i32_small; lia).
  apply wp_bind. eapply wp_wand.
  { apply wp_and; [apply message_walk; [done|done|lia]|apply quiet_walk]. }
  intros r s' h' [(-> & -> & Ho) (tr & Eh & Hq)]. apply (f_equal nrecv) in Eh as Hr2.
  rewrite (nrecv_quiet _ _ Hq), nrecv_recv in Hr2. clear Hq. rename Hr2 into Hq.
  assert (drop (nrecv h) ms = xs :: drop (S (nrecv h)) ms) as Hd by (by apply drop_S).
  assert (output ((Recv sd sizeof_msgtemplate, Ans (zlen (message t hdr xs)) 0 (message t hdr xs)) :: h) = output h) as Hrec by done.
  wp_step. destruct (loop o) eqn:El; cbn [negb andb].
  - eapply wp_wand; [apply IH; [|apply lookup_lt_Some in Ei; lia|lia]|].
    { rewrite zlen_app, zlen_zdrop; lia. }
    intros r s' h2 [-> Ho2]. split; [done|]. rewrite Ho2, Ho, Hrec, Hq, Hd. unfold shown, shown_all. rewrite El.
    cbn [concat]. by rewrite fmap_app, concat_app, app_assoc.
  - assert (output h' = output h ++ concat (lines o <$> shown_all o (drop (nrecv h) ms))) as Hfin.
    { rewrite Ho, Hrec, Hd. unfold shown, shown_all. by rewrite El. }
    destruct (negb (bool_decide (xs = []))); wp_step; done.
Qed.

(** C26: the tool receives any sequence of replies with the statistics of tasks, each
    an aggregate of identifier and statistics, followed by an error: listening
    forever it prints what it was asked for of every task, in order, and stops at
    the error; otherwise it prints the first task of the first reply and stops. *)
Theorem replies_printed K o type hdr ms sd fuel (msg : list Z) h :
  feeds K sd type hdr ms -> zlen hdr = 14 -> 2 < type < 2 ^ 16 -> Forall (message_ok hdr) ms ->
  zlen msg = 1044 -> nrecv h = 0%nat -> (67 + length ms < fuel)%nat ->
  exists s' h', recv_loop fuel o sd 0 K msg h = (Ret tt, s', h') /\
    output h' = output h ++ concat (lines o <$> (if loop o then concat ms else take 1 (concat (take 1 ms)))).
Proof.
  intros HK Hh Ht Hms Hmsg Hn Hf.
  assert (wp (recv_loop fuel o sd 0) K msg h (fun r s' h' => r = Ret tt /\
    output h' = output h ++ concat (lines o <$> shown_all o (drop (nrecv h) ms)))) as Hwp.
  { by apply (recv_loop_wp K o type hdr); [..|lia|lia]. }
  unfold wp in Hwp. destruct (recv_loop fuel o sd 0 K msg h) as [[r s'] h']. destruct Hwp as [-> Ho].
  exists s', h'. split; [done|]. rewrite Ho, Hn, drop_0. unfold shown_all. destruct (loop o); [done|].
  destruct ms as [|xs ms]; cbn; [done|]. by rewrite app_nil_r.
Qed.

End Replies.

(** ** Witnesses *)

(** A socket that takes ten bytes at a time. *)
Definition slow_socket : kernel call := fun _ c =>
  match c with Sendto _ b => aret (Z.min 10 (zlen b)) | _ => aret 0 end.

Lemma send_cmd_delivers_witness :
  exists h', send_cmd 2000 3 28 100 TASKSTATS_CMD_GET TASKSTATS_CMD_ATTR_PID (le_bytes 4 42) slow_socket tt [] =
    (Ret 0, tt, h') /\
    accepted h' = request 28 100 TASKSTATS_CMD_GET TASKSTATS_CMD_ATTR_PID (le_bytes 4 42) [0; 0] [0; 0; 0; 0].
Proof.
  destruct (send_cmd_delivers slow_socket tt [] 2000 3 28 100 TASKSTATS_CMD_GET TASKSTATS_CMD_ATTR_PID (le_bytes 4 42))
    as (rc & h' & pad & tail & E & _).
  - intros h fd b. split; [apply Z.le_min_r|done].
  - by vm_compute.
  - by vm_compute.
  - pose proof E as E'. vm_compute in E'. injection E' as <- <-. eexists. split; [exact E|].
    vm_compute. reflexivity.
Defined.

(** The layout of the 64-bit structure. *)
#[local] Instance sample_layout : Layout := {
  ts_offset f :=
    match f with
    | cpu_count => 16 | cpu_delay_total => 24 | blkio_count => 32 | blkio_delay_total => 40
    | swapin_count => 48 | swapin_delay_total => 56 | cpu_run_real_total => 64 | cpu_run_virtual_total => 72
    | read_bytes => 248 | write_bytes => 256 | cancelled_write_bytes => 264 | nvcsw => 272 | nivcsw => 280
    | freepages_count => 312 | freepages_delay_total => 320
    end;
  cg_offset f :=
    match f with nr_sleeping => 0 | nr_running => 8 | nr_stopped => 16 | nr_uninterruptible => 24 | nr_io_wait => 32 end;
  ac_comm := 80;
  sizeof_taskstats := 328
}.

#[local] Instance sample_layout_ok : LayoutOk.
Proof. split; [by intros []| | |]; done. Qed.

Definition sample_stat (pid : Z) : stat := Stat false pid (replicate 16 0 ++ le_bytes 8 5 ++ replicate 304 0) [].
Definition sample_hdr : list Z := replicate 14 0.
Definition sample_replies : list (list stat) := [[sample_stat 42]; [sample_stat 7]].
Definition listen : opts := Opts 0 true false false true None 42 TASKSTATS_CMD_ATTR_PID None None false.

Definition sample_netlink : kernel call := fun h c =>
  match c with
  | Recv _ _ => Ans (zlen (reply 28 sample_hdr sample_replies (nrecv h))) 0
                  (reply 28 sample_hdr sample_replies (nrecv h))
  | _ => aret 0
  end.

Lemma sample_replies_ok : Forall (message_ok sample_hdr) sample_replies.
Proof.
  repeat constructor; try (by vm_compute).
Qed.

Lemma replies_printed_witness :
  exists s' h', recv_loop 100 listen 3 0 sample_netlink (replicate 1044 0) [] = (Ret tt, s', h') /\
    output h' = [Pid 42; Delayacct 5 0 0 0 (0, 5000000) (0, 0, 0) (0, 0, 0) (0, 0, 0);
                 Pid 7; Delayacct 5 0 0 0 (0, 5000000) (0, 0, 0) (0, 0, 0) (0, 0, 0)].
Proof.
  destruct (replies_printed sample_netlink listen 28 sample_hdr sample_replies 3 100 (replicate 1044 0) [])
    as (s' & h' & E & Ho).
  - by intros h.
  - done.
  - done.
  - apply sample_replies_ok.
  - by vm_compute.
  - done.
  - cbn. lia.
  - exists s', h'. split; [exact E|]. rewrite Ho. vm_compute. reflexivity.
Defined.

End Delays.
