(* ===== verification/Configfs.v ===== *)
(** * The configfs example modules: Documentation/filesystems/configfs/

    configfs_example_explicit.c is the module [Explicit]; configfs_example_macros.c
    is [Macros], which differs in the attribute structures its macros define and in
    the test of one store function.  A page is the bytes before its
    terminating zero.  The items configfs makes live in a heap; an access to an item
    that is not in it is a [Crash].  [simple_strtoul] is part of the kernel and a
    class with what it is documented to do. *)

From stdpp Require Import gmap.
From S2P Require Import Prelude Posix CArray Resources.

Definition INT_MAX := 2 ^ 31 - 1.

(** Value and rest of the page. *)
Class KernelLib := { simple_strtoul : list Z -> Z * list Z }.

(** A byte that is not a digit, or the end. *)
Definition no_digit (rest : list Z) : Prop := match rest with [] => True | c :: _ => ~ digit c end.

(** It reads the leading digits, modulo the width of an [unsigned long]. *)
Class KernelLibOk `{KernelLib} : Prop :=
  strtoul_spec ds rest : Forall digit ds -> no_digit rest ->
    simple_strtoul (ds ++ rest) = (u64 (digits 0 ds), rest).

(** [*p] *)
Definition deref (p : list Z) : Z := znth p 0.

(** [sprintf(page, "%d\n", n)] *)
Definition line (n : Z) : list Z := bytes_of_string (pretty n) ++ [10].

Module Explicit.

(** ** 01-childless *)

Record childless : Type := Childless { showme : Z; storeme : Z }.

Definition childless_showme_read (c : childless) : Z * list Z * childless :=
  let page := line (showme c) in
  (zlen page, page, Childless (i32 (showme c + 1)) (storeme c)).

Definition childless_storeme_read (c : childless) : Z * list Z :=
  let page := line (storeme c) in (zlen page, page).

Definition childless_storeme_write `{KernelLib} (c : childless) (page : list Z) (count : Z) : Z * childless :=
  let (tmp, p) := simple_strtoul page in
  if negb (deref p =? 0) && negb (deref p =? 10) then (- EINVAL, c)
  else if INT_MAX <? tmp then (- ERANGE, c)
  else (count, Childless (showme c) (i32 tmp)).

Definition childless_description_read (c : childless) : Z * list Z :=
  let page := bytes_of_string ("[01-childless]" +:+ nl +:+ nl +:+
    "The childless subsystem is the simplest possible subsystem in" +:+ nl +:+
    "configfs.  It does not support the creation of child config_items." +:+ nl +:+
    "It only has a few attributes.  In fact, it isn't much different" +:+ nl +:+
    "than a directory in /proc." +:+ nl) in
  (zlen page, page).

Inductive childless_attr : Type := attr_showme | attr_storeme | attr_description.

Definition childless_attr_show (a : childless_attr) (c : childless) : Z * list Z * childless :=
  match a with
  | attr_showme => childless_showme_read c
  | attr_storeme => (childless_storeme_read c, c)
  | attr_description => (childless_description_read c, c)
  end.

(** Only one attribute has a store function. *)
Definition childless_attr_store `{KernelLib} (a : childless_attr) (c : childless) (page : list Z) (count : Z)
    : Z * childless :=
  match a with
  | attr_storeme => childless_storeme_write c page count
  | _ => (- EINVAL, c)
  end.

(** ** 02-simple-children *)

(** The items of the heap by address. *)
Inductive object : Type := SimpleChild (storeme : Z) | SimpleChildren.

Inductive subsystem : Type := childless_subsys | simple_children_subsys | group_children_subsys.

#[export] Instance subsystem_eq : EqDecision subsystem.
Proof. solve_decision. Defined.

Inductive call : Type :=
| Kzalloc
| Kfree (p : Z)
| GroupInit (s : subsystem)
| MutexInit (s : subsystem)
| Register (s : subsystem)
| Unregister (s : subsystem).

Abbreviation heap := (gmap Z object).

Section Items.
Context `{KernelLib}.
Open Scope io_scope.

Definition simple_child_attr_show (item : Z) : io call heap (Z * list Z) :=
  let* m := get in
  match m !! item with
  | Some (SimpleChild v) => let page := line v in io_ret (zlen page, page)
  | _ => crash
  end.

Definition simple_child_attr_store (item : Z) (page : list Z) (count : Z) : io call heap Z :=
  let* m := get in
  match m !! item with
  | Some (SimpleChild v) =>
      let (tmp, p) := simple_strtoul page in
      if truthy (deref p) && negb (deref p =? 10) then io_ret (- EINVAL)
      else if INT_MAX <? tmp then io_ret (- ERANGE)
      else put (<[item := SimpleChild (i32 tmp)]> m) ;; io_ret count
  | _ => crash
  end.

Definition kfree (item : Z) : io call heap unit :=
  let* m := get in
  match m !! item with
  | Some _ => sys (Kfree item) ;; put (delete item m)
  | None => crash
  end.

Definition simple_child_release (item : Z) : io call heap unit := kfree item.

(** The address, or the error in a pointer. *)
Definition simple_children_make_item : io call heap Z :=
  let* a := sys Kzalloc in
  if ret a =? 0 then io_ret (- ENOMEM)
  else modify <[ret a := SimpleChild 0]> ;; io_ret (ret a).

Definition simple_children_attr_show : Z * list Z :=
  let page := bytes_of_string ("[02-simple-children]" +:+ nl +:+ nl +:+
    "This subsystem allows the creation of child config_items.  These" +:+ nl +:+
    "items have only one attribute that is readable and writeable." +:+ nl) in
  (zlen page, page).

Definition simple_children_release (item : Z) : io call heap unit := kfree item.

(** ** 03-group-children *)

Definition group_children_make_group : io call heap Z :=
  let* a := sys Kzalloc in
  if ret a =? 0 then io_ret (- ENOMEM)
  else modify <[ret a := SimpleChildren]> ;; io_ret (ret a).

Definition group_children_attr_show : Z * list Z :=
  let page := bytes_of_string ("[03-group-children]" +:+ nl +:+ nl +:+
    "This subsystem allows the creation of child config_groups.  These" +:+ nl +:+
    "groups are like the subsystem simple-children." +:+ nl) in
  (zlen page, page).

(** ** The module *)

Definition example_subsys : list subsystem := [childless_subsys; simple_children_subsys; group_children_subsys].

Fixpoint unregister_all (l : list subsystem) : io call heap unit :=
  match l with
  | [] => io_ret tt
  | s :: l => sys (Unregister s) ;; unregister_all l
  end.

(** [registered] are the subsystems before the counter, the last one first. *)
Fixpoint register_from (registered todo : list subsystem) : io call heap Z :=
  match todo with
  | [] => io_ret 0
  | s :: todo =>
      sys (GroupInit s) ;;
      sys (MutexInit s) ;;
      let* r := sys (Register s) in
      if truthy (ret r) then unregister_all registered ;; io_ret (ret r)
      else register_from (s :: registered) todo
  end.

Definition configfs_example_init : io call heap Z := register_from [] example_subsys.
Definition configfs_example_exit : io call heap unit := unregister_all example_subsys.

Close Scope io_scope.
End Items.

End Explicit.

(** The text of most functions is that of the other module; only the attributes of
    01-childless are put together by macros, from structures with optional functions. *)
Module Macros.

Definition childless_showme_read := Explicit.childless_showme_read.
Definition childless_storeme_read := Explicit.childless_storeme_read.

(** The pointer [simple_strtoul] leaves is never null. *)
Definition childless_storeme_write `{KernelLib} (c : Explicit.childless) (page : list Z) (count : Z)
    : Z * Explicit.childless :=
  let (tmp, p) := simple_strtoul page in
  if truthy (deref p) && negb (deref p =? 10) then (- EINVAL, c)
  else if INT_MAX <? tmp then (- ERANGE, c)
  else (count, Explicit.Childless (Explicit.showme c) (i32 tmp)).

Definition childless_description_read := Explicit.childless_description_read.

(** CONFIGFS_ATTR_STRUCT *)
Record childless_attribute : Type := Attr {
  name : string;
  show : option (Explicit.childless -> Z * list Z * Explicit.childless);
  store : option (Explicit.childless -> list Z -> Z -> Z * Explicit.childless)
}.

Definition CHILDLESS_ATTR (n : string) show store : childless_attribute := Attr n (Some show) (Some store).
Definition CHILDLESS_ATTR_RO (n : string) show : childless_attribute := Attr n (Some show) None.

Definition childless_attr_showme : childless_attribute := CHILDLESS_ATTR_RO "showme" childless_showme_read.
Definition childless_attr_storeme `{KernelLib} : childless_attribute :=
  CHILDLESS_ATTR "storeme" (fun c => (childless_storeme_read c, c)) childless_storeme_write.
Definition childless_attr_description : childless_attribute :=
  CHILDLESS_ATTR_RO "description" (fun c => (childless_description_read c, c)).

Definition childless_attrs `{KernelLib} : list childless_attribute :=
  [childless_attr_showme; childless_attr_storeme; childless_attr_description].

(** CONFIGFS_ATTR_OPS: an attribute without the function gives nothing, or EINVAL. *)
Definition childless_attr_show (a : childless_attribute) (c : Explicit.childless) : Z * list Z * Explicit.childless :=
  match show a with Some f => f c | None => (0, [], c) end.
Definition childless_attr_store (a : childless_attribute) (c : Explicit.childless) (page : list Z) (count : Z)
    : Z * Explicit.childless :=
  match store a with Some f => f c page count | None => (- EINVAL, c) end.

Definition simple_child_attr_show := Explicit.simple_child_attr_show.
Definition simple_child_attr_store `{KernelLib} := Explicit.simple_child_attr_store.
Definition simple_child_release := Explicit.simple_child_release.
Definition simple_children_make_item := Explicit.simple_children_make_item.
Definition simple_children_attr_show := Explicit.simple_children_attr_show.
Definition simple_children_release := Explicit.simple_children_release.
Definition group_children_make_group := Explicit.group_children_make_group.
Definition group_children_attr_show := Explicit.group_children_attr_show.
Definition configfs_example_init := Explicit.configfs_example_init.
Definition configfs_example_exit := Explicit.configfs_example_exit.

End Macros.

(** ** The storeme files *)

Section Files.
Context `{KernelLib} {Hlib : KernelLibOk}.
Import Explicit.

Lemma page_split page : exists ds rest, page = ds ++ rest /\ Forall digit ds /\ no_digit rest.
Proof.
  induction page as [|c page IH]; [by exists [], []|].
  destruct (decide (48 <= c <= 57)) as [Hc|Hc]; [|by exists [], (c :: page)].
  destruct IH as (ds & rest & -> & Hd & Hr). exists (c :: ds), rest. split_and!; [done| |done]. by constructor.
Qed.

Lemma i32_int x : 0 <= x <= INT_MAX -> i32 x = x.
Proof. unfold INT_MAX. intros. apply sint_small; [done|]. change (32 - 1) with 31. lia. Qed.

(** Text is accepted when it ends after the digits or with a line feed. *)
Definition ends_well (rest : list Z) : bool := (deref rest =? 0) || (deref rest =? 10).

Lemma write_eq c ds rest count :
  Forall digit ds -> no_digit rest ->
  childless_storeme_write c (ds ++ rest) count =
    if negb (ends_well rest) then (- EINVAL, c)
    else if INT_MAX <? u64 (digits 0 ds) then (- ERANGE, c)
    else (count, Childless (showme c) (u64 (digits 0 ds))).
Proof.
  intros Hd Hr. unfold childless_storeme_write, ends_well. rewrite strtoul_spec by done.
  rewrite <- negb_orb. destruct (_ || _); cbn [negb]; [|done].
  destruct (Z.ltb_spec INT_MAX (u64 (digits 0 ds))); [done|].
  pose proof (wrap_range 64 (digits 0 ds) ltac:(lia)) as [? _]. by rewrite i32_int.
Qed.

Lemma line_split x : 0 <= x -> exists ds, line x = ds ++ [10] /\ Forall digit ds /\ digits 0 ds = x.
Proof.
  intros Hx. destruct (pretty_digits x Hx) as (d & ds & E1 & E2 & E3). exists (d :: ds).
  unfold line. by rewrite E1.
Qed.

(** Writing any text to storeme: text that goes on after its digits is refused
    with EINVAL and a value above INT_MAX with ERANGE, both without a change; anything
    else is stored, so that the next read gives the value back, and what a read gives
    can be written back.  Values wrap at 64 bits before the test.  The store functions
    of both modules and of the child items all do the same. *)
Theorem storeme_file c ds rest count v item m K h :
  Forall digit ds -> no_digit rest -> m !! item = Some (SimpleChild v) ->
  let value := u64 (digits 0 ds) in
  let r := if negb (ends_well rest) then - EINVAL else if INT_MAX <? value then - ERANGE else count in
  let ok := ends_well rest && (value <=? INT_MAX) in
  let c' := if ok then Childless (showme c) value else c in
  childless_attr_store attr_storeme c (ds ++ rest) count = (r, c') /\
  Macros.childless_storeme_write c (ds ++ rest) count = (r, c') /\
  simple_child_attr_store item (ds ++ rest) count K m h =
    (Ret r, (if ok then <[item := SimpleChild value]> m else m), h) /\
  (childless_storeme_read c').2 = line (if ok then value else storeme c) /\
  forall c0, 0 <= storeme c0 <= INT_MAX ->
    (childless_attr_store attr_storeme c (childless_storeme_read c0).2 count).2 =
    Childless (showme c) (storeme c0).
Proof.
  intros Hd Hr Hm. cbn zeta. set (value := u64 (digits 0 ds)).
  assert (forall x y : Z, (x <=? y) = negb (y <? x)) as Hle by lia.
  assert ((deref rest =? 0) = negb (truthy (deref rest))) as Htr by (unfold truthy; by rewrite negb_involutive).
  assert (0 <= value) as Hv0 by (apply (wrap_range 64); lia).
  split_and!.
  - cbn [childless_attr_store]. rewrite write_eq by done. fold value. rewrite Hle.
    by destruct (ends_well rest), (INT_MAX <? value).
  - unfold Macros.childless_storeme_write. rewrite strtoul_spec by done. fold value.
    unfold ends_well. rewrite Hle, Htr.
    destruct (truthy (deref rest)), (deref rest =? 10), (Z.ltb_spec INT_MAX value); try done; cbn.
    all: by rewrite i32_int.
  - unfold simple_child_attr_store, io_bind, get, put, io_ret. rewrite Hm, strtoul_spec by done. fold value.
    unfold ends_well. rewrite Hle, Htr.
    destruct (truthy (deref rest)), (deref rest =? 10), (Z.ltb_spec INT_MAX value); try done; cbn.
    all: by rewrite i32_int.
  - unfold childless_storeme_read. by destruct (_ && _).
  - intros c0 Hc0. unfold childless_storeme_read. cbn [snd childless_attr_store].
    destruct (line_split (storeme c0)) as (ds0 & -> & Hd0 & Hv); [lia|].
    rewrite write_eq by (done || (intros [? ?]; lia)). unfold ends_well, deref. cbn [znth].
    rewrite Hv. assert (u64 (storeme c0) = storeme c0) as -> by (apply wrap_small; unfold fits, INT_MAX in *; lia).
    replace (INT_MAX <? storeme c0) with false by lia. done.
Qed.

Definition attr_name (a : childless_attr) : string :=
  match a with attr_showme => "showme" | attr_storeme => "storeme" | attr_description => "description" end.

(** The two modules have the same files: for every attribute of 01-childless that the one lists, the other has one of the
    same name that reads and writes the same, whatever is written, and nothing else. *)
Theorem macros_equivalent :
  Macros.name <$> Macros.childless_attrs = attr_name <$> [attr_showme; attr_storeme; attr_description] /\
  forall a b c page count, b ∈ Macros.childless_attrs -> Macros.name b = attr_name a ->
    Macros.childless_attr_show b c = childless_attr_show a c /\
    Macros.childless_attr_store b c page count = childless_attr_store a c page count.
Proof.
  split; [done|]. intros a b c page count Hb Hn.
  assert (Macros.childless_storeme_write c page count = childless_storeme_write c page count) as E.
  { unfold Macros.childless_storeme_write, childless_storeme_write, truthy. by destruct (simple_strtoul page). }
  repeat apply elem_of_cons in Hb as [-> |Hb]; [..|by apply not_elem_of_nil in Hb]; destruct a; by try discriminate Hn.
Qed.

End Files.

(** ** The life of the module and its items *)

Section Lifecycle.
Context `{KernelLib} {Hlib : KernelLibOk}.
Import Explicit.

Inductive resource : Type := Mem (p : Z) | Sub (s : subsystem).

#[export] Instance resource_eq : EqDecision resource.
Proof. solve_decision. Defined.

#[export] Instance configfs_resources : Resources call resource := {
  acquires c a :=
    match c with
    | Kzalloc => if ret a =? 0 then None else Some (Mem (ret a))
    | Register s => if ret a =? 0 then Some (Sub s) else None
    | _ => None
    end;
  releases c _ :=
    match c with
    | Kfree p => Some (Mem p)
    | Unregister s => Some (Sub s)
    | _ => None
    end
}.

#[local] Arguments wp : simpl never.
#[local] Arguments wp_k : simpl never.
#[local] Arguments io_bind : simpl never.

(** What configfs calls: an item or group is made and removed, an attribute of an item
    is read or written. *)
Inductive op : Type :=
| MakeItem | MakeGroup
| ReleaseItem (p : Z) | ReleaseGroup (p : Z)
| Show (p : Z)
| Store (p : Z) (page : list Z) (count : Z).

Definition exec (o : op) : io call heap Z :=
  match o with
  | MakeItem => simple_children_make_item
  | MakeGroup => group_children_make_group
  | ReleaseItem p => io_bind (simple_child_release p) (fun _ => io_ret 0)
  | ReleaseGroup p => io_bind (simple_children_release p) (fun _ => io_ret 0)
  | Show p => io_bind (simple_child_attr_show p) (fun r => io_ret r.1)
  | Store p page count => simple_child_attr_store p page count
  end.

(** The directories configfs has, by the pointers it was given.  It keeps this table from
    the results of the calls alone. *)
Inductive kind : Type := Item | Group.
Abbreviation dirs := (gmap Z kind).

(** It calls only for directories that exist. *)
Definition legal (o : op) (live : dirs) : Prop :=
  match o with
  | MakeItem | MakeGroup => True
  | ReleaseItem p | Show p | Store p _ _ => live !! p = Some Item
  | ReleaseGroup p => live !! p = Some Group
  end.

(** A negative result of an allocating call is an error in a pointer. *)
Definition after (o : op) (r : Z) (live : dirs) : dirs :=
  match o with
  | MakeItem => if r <? 0 then live else <[r := Item]> live
  | MakeGroup => if r <? 0 then live else <[r := Group]> live
  | ReleaseItem p | ReleaseGroup p => delete p live
  | Show _ | Store _ _ _ => live
  end.

Abbreviation world := (dirs * heap * list (event call))%type.

Inductive step (K : kernel call) : world -> world -> Prop :=
| step_op o r live m h m' h' :
    legal o live -> exec o K m h = (Ret r, m', h') -> step K (live, m, h) (after o r live, m', h').

(** The allocator does not hand out memory that is in use. *)
Definition fresh (K : kernel call) : Prop :=
  forall h l, held h = Some l -> Mem (ret (K h Kzalloc)) ∉ l.

(** It returns NULL or an address, never an error in a pointer. *)
Definition pointers (K : kernel call) : Prop := forall h, 0 <= ret (K h Kzalloc).

Definition kind_of (x : object) : kind := match x with SimpleChild _ => Item | SimpleChildren => Group end.

Definition keys (m : heap) : list resource := (fun kx => Mem kx.1) <$> map_to_list m.

(** The resources held are the subsystems and one block for each item; the values of
    the items are in range. *)
Definition tree_ok (subs : list resource) (mh : heap * list (event call)) : Prop :=
  let (m, h) := mh in
  (exists l, held h = Some l /\ l ≡ₚ keys m ++ subs) /\
  (forall p v, m !! p = Some (SimpleChild v) -> 0 <= v <= INT_MAX).

Lemma drop_res_perm (r : resource) l : r ∈ l -> exists l', drop_res r l = Some l' /\ l ≡ₚ r :: l'.
Proof.
  induction l as [|x l IH]; [by intros ?%not_elem_of_nil|]. intros Hr.
  destruct (decide (r = x)) as [->|Hne]; [exists l; by rewrite drop_res_here|].
  apply elem_of_cons in Hr as [|Hr]; [done|]. destruct (IH Hr) as (l' & E & Hp).
  exists (x :: l'). rewrite drop_res_next, E by done. split; [done|]. rewrite Hp. apply Permutation_swap.
Qed.

Lemma keys_elem m p : Mem p ∈ keys m <-> exists x, m !! p = Some x.
Proof.
  unfold keys. rewrite list_elem_of_fmap. split.
  - intros ([q x] & E & Hin). cbn in E. simplify_eq. exists x. by apply elem_of_map_to_list.
  - intros [x Hx]. exists (p, x). split; [done|]. by apply elem_of_map_to_list.
Qed.

Lemma keys_insert m p x : m !! p = None -> keys (<[p := x]> m) ≡ₚ Mem p :: keys m.
Proof. intros Hp. unfold keys. by rewrite map_to_list_insert. Qed.

Lemma keys_update m p x y : m !! p = Some x -> keys (<[p := y]> m) ≡ₚ keys m.
Proof.
  intros Hp. rewrite <- (insert_delete_eq m p y), keys_insert by apply lookup_delete_eq.
  rewrite <- (insert_id m p x Hp) at 2. by rewrite <- (insert_delete_eq m p x), keys_insert by apply lookup_delete_eq.
Qed.

Lemma keys_delete m p x : m !! p = Some x -> Mem p :: keys (delete p m) ≡ₚ keys m.
Proof.
  intros Hp. rewrite <- (insert_id m p x Hp) at 2. rewrite <- (insert_delete_eq m p x).
  by rewrite keys_insert by apply lookup_delete_eq.
Qed.

(** What an allocating operation does. *)
Definition alloc (x : object) : io call heap Z :=
  io_bind (sys Kzalloc) (fun a => if ret a =? 0 then io_ret (- ENOMEM)
    else io_bind (modify <[ret a := x]>) (fun _ => io_ret (ret a))).

Lemma alloc_wp K subs m h x :
  fresh K -> tree_ok subs (m, h) -> (forall v, x = SimpleChild v -> 0 <= v <= INT_MAX) ->
  wp (alloc x) K m h (fun o m' h' => tree_ok subs (m', h') /\
    let p := ret (K h Kzalloc) in
    if p =? 0 then o = Ret (- ENOMEM) /\ m' = m else o = Ret p /\ m !! p = None /\ m' = <[p := x]> m).
Proof.
  intros HK [(l & Hl & Hp) Hv] Hx. unfold alloc. cbv zeta. wp_step. apply wp_sys_eq. intros a Ea. rewrite Ea. wp_step.
  destruct (ret a =? 0) eqn:E0; wp_go.
  - split; [|done]. split; [|done]. exists l. split; [held_solve|done].
  - assert (m !! ret a = None) as Hn.
    { apply eq_None_not_Some. intros Hs. specialize (HK h l Hl). rewrite Ea in HK. apply HK. rewrite Hp.
      apply elem_of_app. left. by apply keys_elem. }
    split; [|done]. split.
    + exists (Mem (ret a) :: l). split; [held_solve|]. rewrite keys_insert by done. cbn. by rewrite Hp.
    + intros p v Hpv. destruct (decide (p = ret a)) as [->|Hne].
      * rewrite lookup_insert_eq in Hpv. simplify_eq. by apply Hx.
      * rewrite lookup_insert_ne in Hpv by done. by eapply Hv.
Qed.

Lemma kfree_wp K subs m h p x :
  tree_ok subs (m, h) -> m !! p = Some x ->
  wp (kfree p) K m h (fun o m' h' => (o = Ret tt /\ tree_ok subs (m', h')) /\ m' = delete p m).
Proof.
  intros [(l & Hl & Hp) Hv] Hx. unfold kfree. wp_step. wp_step. wp_step. rewrite Hx. wp_go. split; [|done]. split; [done|].
  destruct (drop_res_perm (Mem p) l) as (l' & Hd & Hp').
  { rewrite Hp. apply elem_of_app. left. apply keys_elem. by eexists. }
  split.
  - exists l'. split; [by eapply held_release|]. apply (Permutation_cons_inv (a := Mem p)).
    rewrite <- Hp', Hp, <- (keys_delete m p x Hx). done.
  - intros q v Hq. apply lookup_delete_Some in Hq as [_ Hq]. by eapply Hv.
Qed.

Lemma keys_kinds (m : heap) : ((fun kx => Mem kx.1) <$> map_to_list (kind_of <$> m)) = keys m.
Proof. unfold keys. rewrite map_to_list_fmap, <- list_fmap_compose. apply list_fmap_ext. by intros i [p x] _. Qed.

(** What is in memory are the directories configfs has. *)
Definition world_ok (subs : list resource) (w : world) : Prop :=
  let '(live, m, h) := w in kind_of <$> m = live /\ tree_ok subs (m, h).

Lemma live_item (m : heap) p : (kind_of <$> m) !! p = Some Item -> exists v, m !! p = Some (SimpleChild v).
Proof. rewrite lookup_fmap. destruct (m !! p) as [[v|]|]; cbn; naive_solver. Qed.

Lemma live_group (m : heap) p : (kind_of <$> m) !! p = Some Group -> m !! p = Some SimpleChildren.
Proof. rewrite lookup_fmap. destruct (m !! p) as [[v|]|]; cbn; naive_solver. Qed.

Lemma make_wp K subs m h x o :
  fresh K -> pointers K -> tree_ok subs (m, h) -> (forall v, x = SimpleChild v -> 0 <= v <= INT_MAX) ->
  (forall r live, after o r live = if r <? 0 then live else <[r := kind_of x]> live) ->
  wp (alloc x) K m h (fun r m' h' => exists v, r = Ret v /\ world_ok subs (after o v (kind_of <$> m), m', h')).
Proof.
  intros HK HP Hok Hx Ha. eapply wp_wand; [by apply (alloc_wp K subs m h x HK Hok Hx)|].
  intros r m' h' [Ht Hr]. cbv zeta in Hr. specialize (HP h). destruct (_ =? 0) eqn:E0.
  - destruct Hr as [-> ->]. exists (- ENOMEM). by rewrite Ha.
  - destruct Hr as (-> & _ & ->). eexists. split; [done|]. rewrite Ha. replace (_ <? 0) with false by lia.
    split; [by rewrite fmap_insert|done].
Qed.

Lemma release_wp K subs m h p x o :
  tree_ok subs (m, h) -> m !! p = Some x -> (forall r live, after o r live = delete p live) ->
  wp (io_bind (kfree p) (fun _ => io_ret 0)) K m h
    (fun r m' h' => exists v, r = Ret v /\ world_ok subs (after o v (kind_of <$> m), m', h')).
Proof.
  intros Hok Hx Ha. wp_step. eapply wp_wand; [by eapply kfree_wp|]. intros r m' h' [[-> Ht] ->]. wp_go. eexists. split; [done|].
  rewrite Ha. split; [by rewrite fmap_delete|done].
Qed.

Lemma store_wp K subs m h p v page count :
  tree_ok subs (m, h) -> m !! p = Some (SimpleChild v) ->
  wp (simple_child_attr_store p page count) K m h
    (fun r m' h' => exists v, r = Ret v /\ world_ok subs (kind_of <$> m, m', h')).
Proof.
  intros Hok Hv. unfold simple_child_attr_store. wp_step. wp_step. wp_step. rewrite Hv.
  destruct (page_split page) as (ds & rest & -> & Hd & Hr). rewrite strtoul_spec by done.
  wp_go; eexists; (split; [done|]); try done.
  pose proof Hok as [(l & Hl & Hp) Hvs].
  assert (0 <= u64 (digits 0 ds)) by (apply (wrap_range 64); lia). split; [|split].
  - rewrite fmap_insert. apply insert_id. by rewrite lookup_fmap, Hv.
  - exists l. split; [done|]. by rewrite (keys_update m p _ _ Hv).
  - intros q w Hq. destruct (decide (q = p)) as [->|Hne].
    + rewrite lookup_insert_eq in Hq. injection Hq as <-. rewrite i32_int; lia.
    + rewrite lookup_insert_ne in Hq by done. by eapply Hvs.
Qed.

(** Every call configfs makes returns and keeps the invariant. *)
Lemma exec_wp K subs live m h o :
  fresh K -> pointers K -> world_ok subs (live, m, h) -> legal o live ->
  wp (exec o) K m h (fun r m' h' => exists v, r = Ret v /\ world_ok subs (after o v live, m', h')).
Proof.
  intros HK HP [<- Hok] Hleg. destruct o as [| |p|p|p|p page count]; cbn [exec legal] in *.
  - apply (make_wp K subs m h (SimpleChild 0)); try done. intros v [= <-]. unfold INT_MAX. lia.
  - by apply (make_wp K subs m h SimpleChildren).
  - apply live_item in Hleg as [v Hv]. by eapply release_wp.
  - apply live_group in Hleg. by eapply release_wp.
  - apply live_item in Hleg as [v Hv]. unfold simple_child_attr_show. wp_step. wp_step. wp_step. wp_step. rewrite Hv.
    wp_go. by eexists.
  - apply live_item in Hleg as [v Hv]. by eapply store_wp.
Qed.

Lemma unregister_wp K m (h : list (event call)) subs rest l :
  held h = Some l -> l ≡ₚ (Sub <$> subs) ++ rest ->
  wp (unregister_all subs) K m h (fun o m' h' => o = Ret tt /\ m' = m /\
    exists l', held h' = Some l' /\ l' ≡ₚ rest).
Proof.
  revert h l. induction subs as [|x subs IH]; intros h l Hh Hp; cbn [unregister_all].
  { wp_go. split_and!; [done|done|]. by exists l. }
  destruct (drop_res_perm (Sub x) l) as (l' & Hd & Hp'); [rewrite Hp; by left|].
  wp_step. apply wp_sys_any. intros a. wp_step. apply (IH _ l'); [by eapply held_release|].
  apply (Permutation_cons_inv (a := Sub x)). by rewrite <- Hp', Hp.
Qed.

Lemma register_wp K m (h : list (event call)) registered todo l :
  held h = Some l -> l ≡ₚ Sub <$> registered ->
  wp (register_from registered todo) K m h (fun o m' h' => m' = m /\ exists r l', o = Ret r /\ held h' = Some l' /\
    l' ≡ₚ (if r =? 0 then Sub <$> (registered ++ todo) else [])).
Proof.
  revert h registered l. induction todo as [|x todo IH]; intros h registered l Hh Hp; cbn [register_from].
  { wp_go. split; [done|]. exists 0, l. rewrite app_nil_r. done. }
  wp_step. apply wp_sys_any. intros a1. wp_step. wp_step. apply wp_sys_any. intros a2. wp_step.
  wp_step. apply wp_sys_any. intros a3. wp_step. destruct (truthy (ret a3)) eqn:Er; unfold truthy in Er.
  - apply negb_true_iff in Er. apply wp_bind. eapply wp_wand.
    { apply (unregister_wp _ _ _ registered [] l); [held_solve|by rewrite app_nil_r]. }
    intros o m' h' (-> & -> & l' & Hl' & Hp'). wp_go. split; [done|]. exists (ret a3), l'. rewrite Er. done.
  - apply negb_false_iff in Er. eapply wp_wand; [apply (IH _ (x :: registered) (Sub x :: l)); [held_solve|]|].
    { cbn. by rewrite Hp. }
    intros o m' h' (-> & r & l' & -> & Hl' & Hp'). split; [done|]. exists r, l'. split_and!; [done|done|].
    rewrite Hp'. destruct (r =? 0); [|done]. apply fmap_Permutation. cbn. by rewrite Permutation_middle.
Qed.

(** C5: a failed initialisation leaves nothing registered.  After a successful one,
    whatever items configfs makes, removes, reads and writes in whatever order, every
    call it may make returns without touching a freed item; the items in memory are those
    configfs has as directories, by the results of its calls, each of its kind; the blocks
    that are allocated and not yet freed are exactly one for each of them; and every stored
    value lies between 0 and INT_MAX.  When configfs has removed all and the module exits,
    nothing is left. *)
Theorem module_lifecycle K :
  fresh K -> pointers K ->
  exists r h0, configfs_example_init K ∅ [] = (Ret r, ∅, h0) /\
    (r <> 0 -> held h0 = Some []) /\
    (r = 0 -> forall live m h, star (step K) (∅, ∅, h0) (live, m, h) ->
      (exists l, held h = Some l /\ l ≡ₚ ((fun kx => Mem kx.1) <$> map_to_list live) ++ (Sub <$> example_subsys)) /\
      kind_of <$> m = live /\
      (forall p v, m !! p = Some (SimpleChild v) -> 0 <= v <= INT_MAX) /\
      (forall o, legal o live -> exists r m' h', exec o K m h = (Ret r, m', h')) /\
      (live = ∅ -> exists h', configfs_example_exit K m h = (Ret tt, ∅, h') /\ held h' = Some [])).
Proof.
  intros HK HP. pose proof (register_wp K ∅ [] [] example_subsys [] eq_refl (Permutation_refl _)) as Hinit.
  unfold wp in Hinit. fold configfs_example_init in Hinit.
  destruct (configfs_example_init K ∅ []) as [[o m0] h0]. destruct Hinit as (-> & r & l & -> & Hl & Hp).
  exists r, h0. split; [done|]. split.
  { intros Hr. replace (r =? 0) with false in Hp by lia. apply Permutation_nil_r in Hp. by subst. }
  intros -> live m h Hs.
  assert (world_ok (Sub <$> example_subsys) (live, m, h)) as Hw.
  { eapply (star_inv (step K) (world_ok (Sub <$> example_subsys))); [|exact Hs|].
    - intros a b Ha Hab. destruct Hab as [o r live1 m1 h1 m2 h2 Hleg E].
      destruct (wp_elim _ _ _ _ _ _ _ _ (exec_wp K _ live1 m1 h1 o HK HP Ha Hleg) E) as (v & [= ->] & Hb). done.
    - split; [apply fmap_empty|]. split; [by exists l|]. intros p v Hpv. by rewrite lookup_empty in Hpv. }
  pose proof Hw as [<- [Hheld Hv]]. split_and!; [|done|done|..].
  - destruct Hheld as (k & Hk & Hpk). exists k. split; [done|]. by rewrite keys_kinds.
  - intros o Hleg. pose proof (exec_wp K _ _ m h o HK HP Hw Hleg) as He. unfold wp in He.
    destruct (exec o K m h) as [[r m'] h']. destruct He as (v & -> & _). by eexists _, _, _.
  - intros He%fmap_empty_inv. subst m. destruct Hheld as (l1 & Hl1 & Hp1). unfold keys in Hp1. rewrite map_to_list_empty in Hp1.
    pose proof (unregister_wp K ∅ h example_subsys [] l1 Hl1) as Hex. rewrite app_nil_r in Hex. specialize (Hex Hp1).
    unfold wp in Hex. fold configfs_example_exit in Hex.
    destruct (configfs_example_exit K ∅ h) as [[o m'] h']. destruct Hex as (-> & -> & l2 & Hl2 & Hp2).
    apply Permutation_nil_r in Hp2. subst. by eexists.
Qed.

End Lifecycle.

(** ** Witnesses *)

Import Explicit.

Fixpoint skip_digits (l : list Z) : list Z :=
  match l with
  | c :: r => if (48 <=? c) && (c <=? 57) then skip_digits r else l
  | [] => []
  end.

#[local] Instance sample_lib : KernelLib := {
  simple_strtoul page := (u64 (digits 0 page), skip_digits page)
}.

#[local] Instance sample_lib_ok : KernelLibOk.
Proof.
  intros ds rest Hd Hr. unfold simple_strtoul, sample_lib. f_equal.
  - f_equal. rewrite digits_app by done. destruct rest as [|c r]; [done|]. by apply digits_stop.
  - induction Hd as [|c ds Hc _ IH]; cbn.
    + destruct rest as [|c r]; [done|]. cbn in *. unfold digit in Hr. by replace (_ && _) with false by lia.
    + unfold digit in Hc. by replace (_ && _) with true by lia.
Qed.

(** The text of 2 to the 64 plus 7, which is stored as 7. *)
Definition big_text : list Z := [49; 56; 52; 52; 54; 55; 52; 52; 48; 55; 51; 55; 48; 57; 53; 53; 49; 54; 50; 51].

Lemma big_text_digits : Forall digit big_text.
Proof. unfold big_text. repeat (constructor; [unfold digit; lia|]). constructor. Qed.

Lemma line_feed : no_digit [10].
Proof. unfold no_digit, digit. lia. Qed.

Lemma storeme_file_witness :
  childless_attr_store attr_storeme (Childless 0 3) (big_text ++ [10]) 21 = (21, Childless 0 7) /\
  (childless_attr_store attr_storeme (Childless 0 3) (childless_storeme_read (Childless 0 42)).2 21).2 =
    Childless 0 42.
Proof.
  pose proof (lookup_singleton_eq (M := gmap Z) 64 (SimpleChild 5)) as Hm.
  destruct (storeme_file (Childless 0 3) big_text [10] 21 5 64 _ (fun _ _ => aret 0) [] big_text_digits line_feed Hm)
    as (E & _ & _ & _ & Hr).
  split; [rewrite E; vm_compute; reflexivity|]. apply Hr. unfold INT_MAX. cbn. lia.
Defined.

Lemma macros_equivalent_witness :
  Macros.childless_attr_store Macros.childless_attr_storeme (Childless 0 3) [52; 50; 10] 3 = (3, Childless 0 42) /\
  Macros.childless_attr_store Macros.childless_attr_showme (Childless 0 3) [52; 50; 10] 3 = (- EINVAL, Childless 0 3).
Proof.
  split.
  - destruct (proj2 macros_equivalent attr_storeme Macros.childless_attr_storeme (Childless 0 3) [52; 50; 10] 3) as [_ E];
      [right; left|done|]. rewrite E. reflexivity.
  - destruct (proj2 macros_equivalent attr_showme Macros.childless_attr_showme (Childless 0 3) [52; 50; 10] 3) as [_ E];
      [left|done|]. rewrite E. reflexivity.
Defined.

(** An allocator that goes up. *)
Definition top (h : list (event call)) : Z := foldr (fun e b => Z.max b (ret e.2)) 0 h.

Definition sample_kernel : kernel call := fun h c =>
  match c with Kzalloc => aret (top h + 1) | _ => aret 0 end.

Lemma top_nonneg h : 0 <= top h.
Proof. induction h as [|e h IH]; cbn; [lia|]. fold (top h). lia. Qed.

Lemma drop_res_sub (r x : resource) l l' : drop_res r l = Some l' -> x ∈ l' -> x ∈ l.
Proof.
  revert l'. induction l as [|y l IH]; intros l' E Hx; [done|].
  destruct (decide (r = y)) as [->|Hne]; [rewrite drop_res_here in E; simplify_eq; by right|].
  rewrite drop_res_next in E by done. destruct (drop_res r l) as [k|] eqn:Ek; [|done]. simplify_eq.
  apply elem_of_cons in Hx as [->|Hx]; [by left|]. right. by apply (IH k).
Qed.

Lemma held_top h l p : held h = Some l -> Mem p ∈ l -> p <= top h.
Proof.
  unfold held. revert l. induction h as [|[c a] h IH]; intros l E Hp; cbn in E.
  { simplify_eq. by apply not_elem_of_nil in Hp. }
  destruct (held_from [] h) as [k|] eqn:Ek; [|done]. unfold held_step in E. cbn [top foldr snd]. fold (top h).
  destruct (releases c a) as [r|] eqn:Er.
  { specialize (IH k eq_refl (drop_res_sub _ _ _ _ E Hp)). lia. }
  destruct (acquires c a) as [r|] eqn:Ea; simplify_eq; [|specialize (IH l eq_refl Hp); lia].
  apply elem_of_cons in Hp as [<-|Hp]; [|specialize (IH k eq_refl Hp); lia].
  destruct c; cbn in Ea; try done; destruct (ret a =? 0) eqn:E0; try done. simplify_eq. lia.
Qed.

(** An item is made and written, a group is made, the item is removed. *)
Lemma module_lifecycle_witness :
  exists m h l, star (step sample_kernel) (∅, ∅, (configfs_example_init sample_kernel ∅ []).2) ({[2 := Group]}, m, h) /\
    m !! 1 = None /\ held h = Some l /\ l ≡ₚ Mem 2 :: (Sub <$> example_subsys).
Proof.
  destruct (module_lifecycle sample_kernel) as (r & h0 & E & _ & Hr).
  { intros h l Hh Hin. pose proof (held_top h l _ Hh Hin) as Hle. cbn in Hle. lia. }
  { intros h. cbn. pose proof (top_nonneg h). lia. }
  assert (r = 0) as -> by (vm_compute in E; by injection E). rewrite E. cbn [snd].
  assert (exists m h, star (step sample_kernel) (∅, ∅, h0) ({[2 := Group]}, m, h) /\ m !! 1 = None) as (m & h & Hs & Hm).
  { vm_compute in E. injection E as <-. eexists _, _. split.
    - eapply star_step; [apply (step_op _ MakeItem); [done|reflexivity]|].
      eapply star_step; [apply (step_op _ (Store 1 [52; 50; 10] 3)); reflexivity|].
      eapply star_step; [apply (step_op _ MakeGroup); [done|reflexivity]|].
      eapply star_step; [apply (step_op _ (ReleaseItem 1)); reflexivity|apply star_refl].
    - reflexivity. }
  destruct (Hr eq_refl _ _ _ Hs) as [(l & Hl & Hp) _]. exists m, h, l. split_and!; [exact Hs|exact Hm|exact Hl|].
  rewrite map_to_list_singleton in Hp. exact Hp.
Defined.
