(* ===== verification/ConfigfsTree.v ===== *)
(** * The configfs example as a file system: filesystems/configfs/configfs_example_explicit.c

    The types of the items say which attributes a directory of configfs has and what
    mkdir, rmdir, reading and writing in it call.  Configfs itself is the part that
    follows these tables, as configfs.txt describes it.  The refinement theorem says
    that the module and configfs together are a small tree of values. *)

From stdpp Require Import gmap.
From S2P Require Import Prelude Posix CArray Resources Configfs.
Import Explicit.

Open Scope Z_scope.

(** ** The tables *)

(** The types of items, by name. *)
Inductive config_item_type : Type := ChildlessType | SimpleChildType | SimpleChildrenType | GroupChildrenType.

#[export] Instance config_item_type_eq : EqDecision config_item_type.
Proof. solve_decision. Defined.

(** The modes are S_IRUGO or S_IRUGO | S_IWUSR. *)
Record configfs_attribute : Type := Attribute { ca_name : string; ca_writable : bool }.

(** The operations take the name of the attribute and the address of the item; the childless subsystem is static. *)
Record configfs_item_operations : Type := ItemOps {
  release : option (Z -> io call heap unit);
  show_attribute : string -> Z -> childless -> io call heap (Z * list Z * childless);
  store_attribute : option (string -> Z -> list Z -> Z -> childless -> io call heap (Z * childless))
}.

(** [make_item] or [make_group], with the type the new item gets. *)
Record configfs_group_operations : Type := GroupOps { make : io call heap Z * config_item_type }.

Record type_table : Type := Table {
  ct_item_ops : configfs_item_operations;
  ct_group_ops : option configfs_group_operations;
  ct_attrs : list configfs_attribute
}.

(** A module: its types, and the name and type of the directory of each subsystem. *)
Record example : Type := Example {
  type_of : config_item_type -> type_table;
  dir_of : subsystem -> string * config_item_type
}.

Module ExplicitTables.
Section Tables.
Context `{KernelLib}.
Open Scope io_scope.

Definition childless_attr_showme : configfs_attribute := Attribute "showme" false.
Definition childless_attr_storeme : configfs_attribute := Attribute "storeme" true.
Definition childless_attr_description : configfs_attribute := Attribute "description" false.

Definition childless_attrs : list configfs_attribute :=
  [childless_attr_showme; childless_attr_storeme; childless_attr_description].

(** The functions of an attribute. *)
Definition childless_of (name : string) : option childless_attr :=
  if String.eqb name (ca_name childless_attr_showme) then Some attr_showme
  else if String.eqb name (ca_name childless_attr_storeme) then Some attr_storeme
  else if String.eqb name (ca_name childless_attr_description) then Some attr_description
  else None.

Definition childless_item_ops : configfs_item_operations :=
  ItemOps None
    (fun name item c => match childless_of name with Some a => io_ret (childless_attr_show a c) | None => crash end)
    (Some (fun name item page count c =>
       match childless_of name with Some a => io_ret (childless_attr_store a c page count) | None => crash end)).

Definition childless_type : type_table := Table childless_item_ops None childless_attrs.

Definition childless_dir : string * config_item_type := ("01-childless"%string, ChildlessType).

Definition simple_child_attr_storeme : configfs_attribute := Attribute "storeme" true.
Definition simple_child_attrs : list configfs_attribute := [simple_child_attr_storeme].

Definition simple_child_item_ops : configfs_item_operations :=
  ItemOps (Some simple_child_release)
    (fun name item c => let* r := simple_child_attr_show item in io_ret (r, c))
    (Some (fun name item page count c => let* r := simple_child_attr_store item page count in io_ret (r, c))).

Definition simple_child_type : type_table := Table simple_child_item_ops None simple_child_attrs.

Definition simple_children_attr_description : configfs_attribute := Attribute "description" false.
Definition simple_children_attrs : list configfs_attribute := [simple_children_attr_description].

Definition simple_children_item_ops : configfs_item_operations :=
  ItemOps (Some simple_children_release) (fun name item c => io_ret (simple_children_attr_show, c)) None.

Definition simple_children_group_ops : configfs_group_operations := GroupOps (simple_children_make_item, SimpleChildType).

Definition simple_children_type : type_table :=
  Table simple_children_item_ops (Some simple_children_group_ops) simple_children_attrs.

Definition simple_children_dir : string * config_item_type := ("02-simple-children"%string, SimpleChildrenType).

Definition group_children_attr_description : configfs_attribute := Attribute "description" false.
Definition group_children_attrs : list configfs_attribute := [group_children_attr_description].

Definition group_children_item_ops : configfs_item_operations :=
  ItemOps None (fun name item c => io_ret (group_children_attr_show, c)) None.

Definition group_children_group_ops : configfs_group_operations := GroupOps (group_children_make_group, SimpleChildrenType).

Definition group_children_type : type_table :=
  Table group_children_item_ops (Some group_children_group_ops) group_children_attrs.

Definition group_children_dir : string * config_item_type := ("03-group-children"%string, GroupChildrenType).

Definition explicit : example :=
  Example
    (fun t => match t with
              | ChildlessType => childless_type
              | SimpleChildType => simple_child_type
              | SimpleChildrenType => simple_children_type
              | GroupChildrenType => group_children_type
              end)
    (fun s => match s with
              | childless_subsys => childless_dir
              | simple_children_subsys => simple_children_dir
              | group_children_subsys => group_children_dir
              end).

Close Scope io_scope.
End Tables.
End ExplicitTables.

(** The other module defines the attributes of 01-childless through the macros of configfs.h; the rest of its tables
    has the text of the first. *)
Module MacrosTables.
Section Tables.
Context `{KernelLib}.
Open Scope io_scope.

Definition attribute_of (a : Macros.childless_attribute) : configfs_attribute :=
  Attribute (Macros.name a) (match Macros.store a with Some _ => true | None => false end).

Definition childless_attrs : list configfs_attribute := attribute_of <$> Macros.childless_attrs.

Definition childless_of (name : string) : option Macros.childless_attribute :=
  List.find (fun a => String.eqb (Macros.name a) name) Macros.childless_attrs.

Definition childless_item_ops : configfs_item_operations :=
  ItemOps None
    (fun name item c => match childless_of name with Some a => io_ret (Macros.childless_attr_show a c) | None => crash end)
    (Some (fun name item page count c =>
       match childless_of name with Some a => io_ret (Macros.childless_attr_store a c page count) | None => crash end)).

Definition childless_type : type_table := Table childless_item_ops None childless_attrs.
Definition childless_dir := ExplicitTables.childless_dir.

Definition simple_child_attr_storeme := ExplicitTables.simple_child_attr_storeme.
Definition simple_child_attrs := ExplicitTables.simple_child_attrs.

Definition simple_child_item_ops : configfs_item_operations :=
  ItemOps (Some Macros.simple_child_release)
    (fun name item c => let* r := Macros.simple_child_attr_show item in io_ret (r, c))
    (Some (fun name item page count c => let* r := Macros.simple_child_attr_store item page count in io_ret (r, c))).

Definition simple_child_type : type_table := Table simple_child_item_ops None simple_child_attrs.

Definition simple_children_attr_description := ExplicitTables.simple_children_attr_description.
Definition simple_children_attrs := ExplicitTables.simple_children_attrs.

Definition simple_children_item_ops : configfs_item_operations :=
  ItemOps (Some Macros.simple_children_release) (fun name item c => io_ret (Macros.simple_children_attr_show, c)) None.

Definition simple_children_group_ops : configfs_group_operations := GroupOps (Macros.simple_children_make_item, SimpleChildType).

Definition simple_children_type : type_table :=
  Table simple_children_item_ops (Some simple_children_group_ops) simple_children_attrs.

Definition simple_children_dir := ExplicitTables.simple_children_dir.

Definition group_children_attr_description := ExplicitTables.group_children_attr_description.
Definition group_children_attrs := ExplicitTables.group_children_attrs.

Definition group_children_item_ops : configfs_item_operations :=
  ItemOps None (fun name item c => io_ret (Macros.group_children_attr_show, c)) None.

Definition group_children_group_ops : configfs_group_operations := GroupOps (Macros.group_children_make_group, SimpleChildrenType).

Definition group_children_type : type_table :=
  Table group_children_item_ops (Some group_children_group_ops) group_children_attrs.

Definition group_children_dir := ExplicitTables.group_children_dir.

Definition macros : example :=
  Example
    (fun t => match t with
              | ChildlessType => childless_type
              | SimpleChildType => simple_child_type
              | SimpleChildrenType => simple_children_type
              | GroupChildrenType => group_children_type
              end)
    (fun s => match s with
              | childless_subsys => childless_dir
              | simple_children_subsys => simple_children_dir
              | group_children_subsys => group_children_dir
              end).

Close Scope io_scope.
End Tables.
End MacrosTables.

Import ExplicitTables MacrosTables(macros).

(** ** Configfs *)

(** A path has its last component first. *)
Abbreviation path := (list string).

Record fs : Type := Fs { tree : gmap path (config_item_type * Z); items : heap; static : childless }.

Inductive op : Type :=
| Mkdir (parent : path) (name : string)
| Rmdir (dir : path)
| Read (dir : path) (attr : string)
| Write (dir : path) (attr : string) (page : list Z) (count : Z).

(** [Refused] by configfs, before anything of the module is called. *)
Inductive reply : Type := Refused | Reply (ret : Z) (page : list Z).

Definition child_of (dir p : path) : bool := match p with _ :: q => bool_decide (q = dir) | [] => false end.

Definition has_children {A} (t : gmap path A) (dir : path) : bool :=
  existsb (fun e => child_of dir e.1) (map_to_list t).

Definition find_attr (t : type_table) (name : string) : option configfs_attribute :=
  List.find (fun a => String.eqb (ca_name a) name) (ct_attrs t).

Section Fs.
Context (M : example).
Open Scope io_scope.

Abbreviation prog := (io call fs).

Definition on_items {A} (m : io call heap A) : prog A := fun K s h =>
  let '(o, m', h') := m K (items s) h in (o, Fs (tree s) m' (static s), h').

Definition set_tree (f : gmap path (config_item_type * Z) -> gmap path (config_item_type * Z)) (s : fs) : fs :=
  Fs (f (tree s)) (items s) (static s).
Definition set_static (c : childless) (s : fs) : fs := Fs (tree s) (items s) c.

Definition mkdir (parent : path) (name : string) : prog reply :=
  let* s := get in
  match tree s !! parent ≫= (fun e => make <$> ct_group_ops (type_of M e.1)), tree s !! (name :: parent) with
  | Some (mk, child), None =>
      let* p := on_items mk in
      if p <? 0 then io_ret (Reply p [])
      else modify (set_tree <[name :: parent := (child, p)]>) ;; io_ret (Reply 0 [])
  | _, _ => io_ret Refused
  end.

Definition rmdir (dir : path) : prog reply :=
  let* s := get in
  match tree s !! dir, dir with
  | Some (t, p), _ :: _ :: _ =>
      if has_children (tree s) dir then io_ret Refused
      else
        match release (ct_item_ops (type_of M t)) with Some f => on_items (f p) | None => io_ret tt end ;;
        modify (set_tree (delete dir)) ;;
        io_ret (Reply 0 [])
  | _, _ => io_ret Refused
  end.

Definition read_attr (dir : path) (attr : string) : prog reply :=
  let* s := get in
  match tree s !! dir with
  | Some (t, p) =>
      match find_attr (type_of M t) attr with
      | Some _ =>
          let* r := on_items (show_attribute (ct_item_ops (type_of M t)) attr p (static s)) in
          modify (set_static r.2) ;;
          io_ret (Reply r.1.1 r.1.2)
      | None => io_ret Refused
      end
  | None => io_ret Refused
  end.

Definition write_attr (dir : path) (attr : string) (page : list Z) (count : Z) : prog reply :=
  let* s := get in
  match tree s !! dir with
  | Some (t, p) =>
      match find_attr (type_of M t) attr, store_attribute (ct_item_ops (type_of M t)) with
      | Some a, Some store =>
          if ca_writable a then
            let* r := on_items (store attr p page count (static s)) in
            modify (set_static r.2) ;;
            io_ret (Reply r.1 [])
          else io_ret Refused
      | _, _ => io_ret Refused
      end
  | None => io_ret Refused
  end.

Definition exec_op (o : op) : prog reply :=
  match o with
  | Mkdir parent name => mkdir parent name
  | Rmdir dir => rmdir dir
  | Read dir attr => read_attr dir attr
  | Write dir attr page count => write_attr dir attr page count
  end.

Fixpoint exec_ops (l : list op) : prog (list reply) :=
  match l with
  | [] => io_ret []
  | o :: l => let* r := exec_op o in let* rs := exec_ops l in io_ret (r :: rs)
  end.

(** The module is loaded, used and unloaded if no item is left. *)
Definition start : fs :=
  Fs (list_to_map ((fun s => let d := dir_of M s in ([d.1], (d.2, 0))) <$> example_subsys)) ∅ (Childless 0 0).

Close Scope io_scope.
End Fs.

(** ** A tree of values *)

Inductive node : Type := Files | Item (value : Z) | Group | Groups.

Record afs : Type := Afs { nodes : gmap path node; counter : Z; stored : Z }.

Definition set_nodes (f : gmap path node -> gmap path node) (a : afs) : afs := Afs (f (nodes a)) (counter a) (stored a).

(** The number in a text, or why it is none. *)
Fixpoint after_digits (l : list Z) : list Z :=
  match l with
  | c :: r => if (48 <=? c) && (c <=? 57) then after_digits r else l
  | [] => []
  end.

Definition number (page : list Z) : Z + Z :=
  let value := u64 (digits 0 page) in
  if negb (ends_well (after_digits page)) then inl (- EINVAL)
  else if INT_MAX <? value then inl (- ERANGE)
  else inr value.

(** The children a directory takes. *)
Definition child_node (n : node) : option node :=
  match n with Group => Some (Item 0) | Groups => Some Group | _ => None end.

Definition a_mkdir (memory : bool) (parent : path) (name : string) (a : afs) : reply * afs :=
  match nodes a !! parent ≫= child_node, nodes a !! (name :: parent) with
  | Some n, None => if memory then (Reply 0 [], set_nodes <[name :: parent := n]> a) else (Reply (- ENOMEM) [], a)
  | _, _ => (Refused, a)
  end.

Definition a_rmdir (dir : path) (a : afs) : reply * afs :=
  match nodes a !! dir, dir with
  | Some _, _ :: _ :: _ => if has_children (nodes a) dir then (Refused, a) else (Reply 0 [], set_nodes (delete dir) a)
  | _, _ => (Refused, a)
  end.

Definition text (l : list Z) : reply := Reply (zlen l) l.

Definition a_read (dir : path) (attr : string) (a : afs) : reply * afs :=
  match nodes a !! dir with
  | Some Files =>
      if String.eqb attr "showme" then (text (line (counter a)), Afs (nodes a) (i32 (counter a + 1)) (stored a))
      else if String.eqb attr "storeme" then (text (line (stored a)), a)
      else if String.eqb attr "description" then (text (childless_description_read (Childless 0 0)).2, a)
      else (Refused, a)
  | Some (Item v) => if String.eqb attr "storeme" then (text (line v), a) else (Refused, a)
  | Some Group => if String.eqb attr "description" then (text simple_children_attr_show.2, a) else (Refused, a)
  | Some Groups => if String.eqb attr "description" then (text group_children_attr_show.2, a) else (Refused, a)
  | None => (Refused, a)
  end.

Definition a_write (dir : path) (attr : string) (page : list Z) (count : Z) (a : afs) : reply * afs :=
  match nodes a !! dir with
  | Some Files =>
      if String.eqb attr "storeme" then
        match number page with
        | inl e => (Reply e [], a)
        | inr v => (Reply count [], Afs (nodes a) (counter a) v)
        end
      else (Refused, a)
  | Some (Item _) =>
      if String.eqb attr "storeme" then
        match number page with
        | inl e => (Reply e [], a)
        | inr v => (Reply count [], set_nodes <[dir := Item v]> a)
        end
      else (Refused, a)
  | _ => (Refused, a)
  end.

Definition a_op (memory : bool) (o : op) (a : afs) : reply * afs :=
  match o with
  | Mkdir parent name => a_mkdir memory parent name a
  | Rmdir dir => a_rmdir dir a
  | Read dir attr => a_read dir attr a
  | Write dir attr page count => a_write dir attr page count a
  end.

(** Whether there is memory is decided anew for every operation. *)
Fixpoint a_ops (memory : list bool) (l : list op) (a : afs) : list reply * afs :=
  match l with
  | [] => ([], a)
  | o :: l =>
      let (r, a) := a_op (hd true memory) o a in
      let (rs, a) := a_ops (tail memory) l a in
      (r :: rs, a)
  end.

Definition a_start : afs :=
  Afs (list_to_map [(["01-childless"], Files); (["02-simple-children"], Group); (["03-group-children"], Groups)]%string) 0 0.

(** ** Refinement *)

(** Look up the tables. *)
Ltac tables :=
  cbn [explicit type_of ct_item_ops ct_group_ops ct_attrs release show_attribute store_attribute make fmap option_fmap option_map
    childless_type simple_child_type simple_children_type group_children_type childless_item_ops simple_child_item_ops
    simple_children_item_ops group_children_item_ops simple_children_group_ops group_children_group_ops childless_attrs
    simple_child_attrs simple_children_attrs group_children_attrs List.find ca_name ca_writable childless_attr_showme childless_attr_storeme
    childless_attr_description simple_child_attr_storeme simple_children_attr_description group_children_attr_description].

Section Refinement.
Context `{KernelLib} {Hlib : KernelLibOk} (K : kernel call) (HK : fresh K) (subs : list resource).
Context (Hpos : forall h, 0 <= ret (K h Kzalloc)).

(** A directory below a subsystem. *)
Definition dynamic (d : path) : Prop := (2 <= length d)%nat.

Definition node_ok (m : heap) (d : path) (t : config_item_type) (p : Z) (n : node) : Prop :=
  match n with
  | Files => t = ChildlessType /\ ~ dynamic d
  | Item v => t = SimpleChildType /\ dynamic d /\ m !! p = Some (SimpleChild v)
  | Group => t = SimpleChildrenType /\ (dynamic d -> m !! p = Some SimpleChildren)
  | Groups => t = GroupChildrenType /\ ~ dynamic d
  end.

(** The tree of configfs and the items in memory are the tree of values: every directory below a subsystem has a block of
    its own, and there are no others. *)
Record sim (s : fs) (a : afs) (h : list (event call)) : Prop := {
  sim_nodes : forall d, match tree s !! d, nodes a !! d with
    | Some (t, p), Some n => node_ok (items s) d t p n
    | None, None => True
    | _, _ => False
    end;
  sim_inj : forall d d' e e', dynamic d -> dynamic d' -> tree s !! d = Some e -> tree s !! d' = Some e' -> e.2 = e'.2 -> d = d';
  sim_root : tree s !! [] = None;
  sim_static : static s = Childless (counter a) (stored a);
  sim_mem : tree_ok subs (items s, h);
  sim_dom : forall p, is_Some (items s !! p) -> exists d t, dynamic d /\ tree s !! d = Some (t, p)
}.

Lemma wp_on_items {A} (m : io call heap A) s h Q :
  wp m K (items s) h (fun o m' h' => Q o (Fs (tree s) m' (static s)) h') -> wp (on_items m) K s h Q.
Proof. unfold wp, on_items. by destruct (m K (items s) h) as [[o m'] h']. Qed.

Lemma sim_lookup s a h d t p : sim s a h -> tree s !! d = Some (t, p) ->
  exists n, nodes a !! d = Some n /\ node_ok (items s) d t p n.
Proof. intros Hs Ht. pose proof (sim_nodes s a h Hs d) as Hn. rewrite Ht in Hn. destruct (nodes a !! d) as [n|]; [by exists n|done]. Qed.

Lemma sim_none s a h d : sim s a h -> tree s !! d = None <-> nodes a !! d = None.
Proof. intros Hs. pose proof (sim_nodes s a h Hs d) as Hn. by destruct (tree s !! d) as [[t p]|], (nodes a !! d). Qed.

Lemma has_children_iff {A} (t : gmap path A) d : has_children t d = true <-> exists name, is_Some (t !! (name :: d)).
Proof.
  unfold has_children. rewrite existsb_exists. split.
  - intros ([q x] & Hin & Hc). apply list_elem_of_In, elem_of_map_to_list in Hin. destruct q as [|name q]; [done|]. cbn in Hc.
    apply bool_decide_eq_true in Hc as ->. exists name. by exists x.
  - intros (name & x & Hx). exists (name :: d, x). split; [apply list_elem_of_In; by apply elem_of_map_to_list|]. cbn. by apply bool_decide_eq_true.
Qed.

Lemma sim_children s a h d : sim s a h -> has_children (tree s) d = has_children (nodes a) d.
Proof.
  intros Hs. apply eq_true_iff_eq. rewrite !has_children_iff. f_equiv. intros name.
  rewrite <- !not_eq_None_Some. by rewrite (sim_none s a h).
Qed.

(** *** Texts *)

Lemma number_split ds rest : Forall digit ds -> no_digit rest ->
  number (ds ++ rest) = if negb (ends_well rest) then inl (- EINVAL)
    else if INT_MAX <? u64 (digits 0 ds) then inl (- ERANGE) else inr (u64 (digits 0 ds)).
Proof.
  intros Hd Hr. unfold number. rewrite digits_app by done.
  assert (digits (digits 0 ds) rest = digits 0 ds) as -> by (destruct rest as [|c r]; [done|by apply digits_stop]).
  assert (after_digits (ds ++ rest) = rest) as ->; [|done].
  induction Hd as [|c ds Hc _ IH]; cbn.
  - destruct rest as [|c r]; [done|]. cbn in *. unfold digit in Hr. by replace (_ && _) with false by lia.
  - unfold digit in Hc. by replace (_ && _) with true by lia.
Qed.

Lemma childless_write_number c page count : childless_storeme_write c page count =
  match number page with inl e => (e, c) | inr v => (count, Childless (showme c) v) end.
Proof using Hlib.
  destruct (page_split page) as (ds & rest & -> & Hd & Hr). rewrite write_eq, number_split by done.
  by destruct (ends_well rest), (INT_MAX <? u64 (digits 0 ds)).
Qed.

Lemma child_store_number item page count m h v : m !! item = Some (SimpleChild v) ->
  wp (simple_child_attr_store item page count) K m h (fun o m' h' => h' = h /\
    match number page with
    | inl e => o = Ret e /\ m' = m
    | inr w => o = Ret count /\ m' = <[item := SimpleChild w]> m /\ 0 <= w <= INT_MAX
    end).
Proof using Hlib.
  intros Hm. destruct (page_split page) as (ds & rest & -> & Hd & Hr). rewrite number_split by done.
  unfold simple_child_attr_store. do 3 wp_step. rewrite Hm, strtoul_spec by done.
  replace (truthy (deref rest) && negb (deref rest =? 10)) with (negb (ends_well rest)) by (unfold ends_well, truthy; by rewrite negb_orb).
  destruct (negb (ends_well rest)); [by wp_step|]. destruct (Z.ltb_spec INT_MAX (u64 (digits 0 ds))); [by wp_step|].
  assert (0 <= u64 (digits 0 ds)) by (apply (wrap_range 64); lia). wp_go. rewrite i32_int by done. by split_and!.
Qed.

(** *** Changes of the tree *)

Lemma sim_history s a h h' : sim s a h -> tree_ok subs (items s, h') -> sim s a h'.
Proof. by intros [] ?. Qed.

Lemma sim_set_static_at s a h c n v : sim s a h -> sim (set_static (Childless n v) (Fs (tree s) (items s) c)) (Afs (nodes a) n v) h.
Proof. by intros []. Qed.

(** An entry keeps its meaning when the blocks it refers to are kept. *)
Lemma node_ok_kept m m' d t p n : (dynamic d -> is_Some (m !! p) -> m' !! p = m !! p) -> node_ok m d t p n -> node_ok m' d t p n.
Proof.
  intros Hk Hn. destruct n; cbn in *; try done.
  - destruct Hn as (-> & Hd & Hm). split_and!; [done|done|]. rewrite Hk by eauto. done.
  - destruct Hn as (-> & Hm). split; [done|]. intros Hd. rewrite Hk by eauto. auto.
Qed.

Lemma sim_insert s a h h' d t p n x : sim s a h -> tree s !! d = None -> dynamic d -> items s !! p = None ->
  tree_ok subs (<[p := x]> (items s), h') -> node_ok (<[p := x]> (items s)) d t p n ->
  sim (Fs (<[d := (t, p)]> (tree s)) (<[p := x]> (items s)) (static s)) (set_nodes <[d := n]> a) h'.
Proof.
  intros Hs Hd Hdyn Hp Hmem Hn. destruct (Hs) as [Hnodes Hinj Hroot Hst _ Hdom].
  assert (forall d' e, dynamic d' -> tree s !! d' = Some e -> e.2 <> p) as Hfresh.
  { intros d' [t' q] Hd' E Hq. cbn in Hq. subst q. destruct (sim_lookup s a h d' t' p Hs E) as (n' & _ & Hn').
    destruct n'; cbn in Hn'; destruct_and?; try done; try congruence. rewrite H1 in Hp by done. done. }
  split; cbn [tree items static set_nodes nodes counter stored]; [| |rewrite lookup_insert_ne; [done|intros ->; unfold dynamic in Hdyn; cbn in Hdyn; lia]|done|done|].
  - intros d'. destruct (decide (d' = d)) as [-> |Hne]; [by rewrite !lookup_insert_eq|]. rewrite !lookup_insert_ne by done.
    specialize (Hnodes d'). destruct (tree s !! d') as [[t' q]|] eqn:E, (nodes a !! d') as [n'|]; try done.
    eapply node_ok_kept; [|exact Hnodes]. intros Hd' [y Hy]. rewrite lookup_insert_ne; [done|]. intros ->. congruence.
  - intros d1 d2 e1 e2 H1 H2 E1 E2 E.
    destruct (decide (d1 = d)) as [-> |N1], (decide (d2 = d)) as [-> |N2]; try done;
      rewrite ?lookup_insert_eq in *; rewrite ?lookup_insert_ne in * by done; simplify_eq/=.
    + by apply Hfresh in E2.
    + by apply Hfresh in E1.
    + by eapply Hinj.
  - intros q Hq. destruct (decide (q = p)) as [-> |Hne]; [exists d, t; by rewrite lookup_insert_eq|].
    rewrite lookup_insert_ne in Hq by done. destruct (Hdom q Hq) as (d' & t' & Hd' & E). exists d', t'. split; [done|].
    rewrite lookup_insert_ne; [done|]. intros ->. congruence.
Qed.

Lemma sim_delete s a h h' d t p : sim s a h -> tree s !! d = Some (t, p) -> dynamic d ->
  tree_ok subs (delete p (items s), h') ->
  sim (Fs (delete d (tree s)) (delete p (items s)) (static s)) (set_nodes (delete d) a) h'.
Proof.
  intros Hs Hd Hdyn Hmem. destruct (Hs) as [Hnodes Hinj Hroot Hst _ Hdom].
  split; cbn [tree items static set_nodes nodes counter stored]; [| |apply lookup_delete_None; by right|done|done|].
  - intros d'. destruct (decide (d' = d)) as [-> |Hne]; [by rewrite !lookup_delete_eq|]. rewrite !lookup_delete_ne by done.
    specialize (Hnodes d'). destruct (tree s !! d') as [[t' q]|] eqn:E, (nodes a !! d') as [n'|]; try done.
    eapply node_ok_kept; [|exact Hnodes]. intros Hd' _. rewrite lookup_delete_ne; [done|]. intros ->.
    apply Hne. symmetry. by eapply (Hinj d d' (t, q) (t', q)).
  - intros d1 d2 e1 e2 H1 H2 E1 E2 E. apply lookup_delete_Some in E1 as [_ E1]. apply lookup_delete_Some in E2 as [_ E2]. by eapply Hinj.
  - intros q [y Hq]. apply lookup_delete_Some in Hq as [Hne Hq]. destruct (Hdom q ltac:(eauto)) as (d' & t' & Hd' & E).
    exists d', t'. split; [done|]. rewrite lookup_delete_ne; [done|]. intros ->. congruence.
Qed.

Lemma sim_update s a h d t p v w : sim s a h -> tree s !! d = Some (t, p) -> nodes a !! d = Some (Item v) ->
  0 <= w <= INT_MAX ->
  sim (Fs (tree s) (<[p := SimpleChild w]> (items s)) (static s)) (set_nodes <[d := Item w]> a) h.
Proof.
  intros Hs Hd Hv Hw. destruct (Hs) as [Hnodes Hinj Hroot Hst [(l & Hl & Hp) Hrange] Hdom].
  pose proof (Hnodes d) as Hn. rewrite Hd, Hv in Hn. destruct Hn as (-> & Hdyn & Hm).
  split; cbn [tree items static set_nodes nodes counter stored]; [|done|done|done| |].
  - intros d'. destruct (decide (d' = d)) as [-> |Hne]; [rewrite lookup_insert_eq, Hd; cbn; by rewrite lookup_insert_eq|].
    rewrite lookup_insert_ne by done. specialize (Hnodes d'). destruct (tree s !! d') as [[t' q]|] eqn:E, (nodes a !! d') as [n'|]; try done.
    eapply node_ok_kept; [|exact Hnodes]. intros Hd' _. rewrite lookup_insert_ne; [done|]. intros ->.
    apply Hne. symmetry. by eapply (Hinj d d' (SimpleChildType, q) (t', q)).
  - split; [exists l; split; [done|]; by rewrite (keys_update _ _ _ _ Hm)|].
    intros q u Hq. destruct (decide (q = p)) as [-> |Hne]; [rewrite lookup_insert_eq in Hq; by simplify_eq|].
    rewrite lookup_insert_ne in Hq by done. by eapply Hrange.
  - intros q Hq. apply Hdom. destruct (decide (q = p)) as [-> |Hne]; [by eexists|]. by rewrite lookup_insert_ne in Hq.
Qed.

(** *** The operations *)

Definition memory (h : list (event call)) : bool := negb (ret (K h Kzalloc) =? 0).

Lemma new_dir_wp s a h parent name t n x : sim s a h -> tree s !! (name :: parent) = None -> parent <> [] ->
  (forall m p, m !! p = Some x -> node_ok m (name :: parent) t p n) -> (forall v, x = SimpleChild v -> 0 <= v <= INT_MAX) ->
  wp (io_bind (on_items (alloc x)) (fun p => if p <? 0 then io_ret (Reply p [])
       else io_bind (modify (set_tree <[name :: parent := (t, p)]>)) (fun _ => io_ret (Reply 0 [])))) K s h
    (fun r s' h' =>
      let (r', a') := if memory h then (Reply 0 [], set_nodes <[name :: parent := n]> a) else (Reply (- ENOMEM) [], a) in
      r = Ret r' /\ sim s' a' h').
Proof using HK Hpos.
  intros Hs Ht Hp Hn Hx. wp_step. apply wp_on_items. eapply wp_wand; [apply (alloc_wp K subs _ h x HK (sim_mem _ _ _ Hs) Hx)|].
  intros r m' h' [Hok Hr]. cbv zeta in Hr. unfold memory. specialize (Hpos h). destruct (ret (K h Kzalloc) =? 0) eqn:E; cbn [negb].
  - destruct Hr as [-> ->]. wp_step. change (- ENOMEM <? 0) with true. cbn iota. wp_step. split; [done|]. destruct s. by eapply sim_history.
  - destruct Hr as (-> & Hnone & ->). wp_step. rewrite (proj2 (Z.ltb_ge _ _)) by lia. wp_go. split; [done|].
    apply (sim_insert s a h); [done|done| |done|done|]; [destruct parent; [done|]; unfold dynamic; cbn; lia|].
    apply Hn, lookup_insert_eq.
Qed.

Lemma mkdir_refines parent name h0 s a : sim s a h0 ->
  wp (mkdir explicit parent name) K s h0 (fun r s' h' => r = Ret (a_mkdir (memory h0) parent name a).1 /\ sim s' (a_mkdir (memory h0) parent name a).2 h').
Proof using HK Hpos.
  intros Hs. unfold mkdir, a_mkdir. do 3 wp_step.
  destruct (tree s !! parent) as [[t q]|] eqn:Et; cbn [mbind option_bind fst].
  2: { rewrite (proj1 (sim_none s a h0 parent Hs) Et). by wp_step. }
  assert (parent <> []) as Hp by (intros ->; rewrite (sim_root s a h0 Hs) in Et; done).
  destruct (sim_lookup s a h0 parent t q Hs Et) as (n & -> & Hn). cbn [mbind option_bind].
  destruct (tree s !! (name :: parent)) as [e|] eqn:Ec.
  { destruct (nodes a !! (name :: parent)) eqn:E; [|by apply (sim_none s a h0) in E; [congruence|]].
    destruct (make <$> ct_group_ops (type_of explicit t)) as [[? ?]|], (child_node n); by wp_step. }
  rewrite (proj1 (sim_none s a h0 _ Hs) Ec).
  destruct n; cbn in Hn; destruct Hn as [-> Hn]; tables; cbn [child_node]; [by wp_step|by wp_step|..].
  - eapply wp_wand; [apply (new_dir_wp s a h0 parent name _ (Item 0) (SimpleChild 0) Hs Ec Hp)|].
    + intros m p Hm. cbn. split_and!; [done| |done]. destruct parent; [done|]. unfold dynamic. cbn. lia.
    + intros v [= <-]. unfold INT_MAX. lia.
    + intros r s' h'. by destruct (memory h0).
  - eapply wp_wand; [apply (new_dir_wp s a h0 parent name _ Group SimpleChildren Hs Ec Hp)|].
    + intros m p Hm. cbn. by split.
    + done.
    + intros r s' h'. by destruct (memory h0).
Qed.

Lemma rmdir_refines dir s a h : sim s a h ->
  wp (rmdir explicit dir) K s h (fun r s' h' => r = Ret (a_rmdir dir a).1 /\ sim s' (a_rmdir dir a).2 h').
Proof.
  intros Hs. unfold rmdir, a_rmdir. do 3 wp_step. destruct (tree s !! dir) as [[t p]|] eqn:Et.
  2: { rewrite (proj1 (sim_none s a h dir Hs) Et). by wp_step. }
  destruct (sim_lookup s a h dir t p Hs Et) as (n & -> & Hn).
  destruct dir as [|x [|y dir]]; [by wp_step|by wp_step|]. rewrite (sim_children s a h _ Hs).
  destruct (has_children (nodes a) _); [by wp_step|].
  assert (dynamic (x :: y :: dir)) as Hd by (unfold dynamic; cbn; lia).
  assert (exists f, release (ct_item_ops (type_of explicit t)) = Some f /\ f = kfree /\ is_Some (items s !! p)) as (f & -> & -> & y' & Hy).
  { destruct n; cbn in Hn; destruct_and!; try done; subst t; eexists; eauto. }
  cbn iota. wp_step. apply wp_on_items. eapply wp_wand; [by apply (kfree_wp K subs _ h p y' (sim_mem s a h Hs))|].
  intros r m' h' [[-> Hok] ->]. wp_go. split; [done|]. by eapply (sim_delete s a h).
Qed.

Lemma read_refines dir attr s a h : sim s a h ->
  wp (read_attr explicit dir attr) K s h (fun r s' h' => r = Ret (a_read dir attr a).1 /\ sim s' (a_read dir attr a).2 h').
Proof.
  intros Hs. unfold read_attr, a_read. destruct a as [N c v]. set (a := Afs N c v) in *. do 3 wp_step. destruct (tree s !! dir) as [[t p]|] eqn:Et.
  2: { rewrite (proj1 (sim_none s a h dir Hs) Et). by wp_step. }
  destruct (sim_lookup s a h dir t p Hs Et) as (n & -> & Hn). pose proof (sim_static s a h Hs) as Hst.
  destruct n; cbn in Hn; destruct Hn as [-> Hn]; unfold find_attr; tables; rewrite ?(String.eqb_sym _ attr).
  - destruct (String.eqb attr "showme") eqn:E1; [|destruct (String.eqb attr "storeme") eqn:E2; [|destruct (String.eqb attr "description") eqn:E3; [|by wp_step]]];
      wp_step; apply wp_on_items; unfold childless_of; tables; rewrite ?E1, ?E2, ?E3, Hst; wp_go;
      (split; [done|]); by apply (sim_set_static_at s a h).
  - destruct (String.eqb attr "storeme"); [|by wp_step]. destruct Hn as [_ Hv]. wp_step. apply wp_on_items.
    unfold simple_child_attr_show. do 3 wp_step. wp_step. rewrite Hv. wp_go. split; [done|]. rewrite Hst. by apply (sim_set_static_at s a h).
  - destruct (String.eqb attr "description"); [|by wp_step]. wp_step. apply wp_on_items. wp_go.
    split; [done|]. rewrite Hst. by apply (sim_set_static_at s a h).
  - destruct (String.eqb attr "description"); [|by wp_step]. wp_step. apply wp_on_items. wp_go.
    split; [done|]. rewrite Hst. by apply (sim_set_static_at s a h).
Qed.

Lemma write_refines dir attr page count s a h : sim s a h ->
  wp (write_attr explicit dir attr page count) K s h (fun r s' h' => r = Ret (a_write dir attr page count a).1 /\ sim s' (a_write dir attr page count a).2 h').
Proof using Hlib.
  intros Hs. unfold write_attr, a_write. destruct a as [N c v]. set (a := Afs N c v) in *. do 3 wp_step. destruct (tree s !! dir) as [[t p]|] eqn:Et.
  2: { rewrite (proj1 (sim_none s a h dir Hs) Et). by wp_step. }
  destruct (sim_lookup s a h dir t p Hs Et) as (n & En & Hn). rewrite En. pose proof (sim_static s a h Hs) as Hst.
  destruct n; cbn in Hn; destruct Hn as [-> Hn]; unfold find_attr; tables; rewrite ?(String.eqb_sym _ attr).
  - destruct (String.eqb attr "storeme") eqn:E2.
    + apply String.eqb_eq in E2 as ->. cbn [String.eqb Ascii.eqb Bool.eqb]. tables. wp_step. apply wp_on_items. unfold childless_of. tables.
      cbn [String.eqb Ascii.eqb Bool.eqb childless_attr_store]. rewrite childless_write_number, Hst. cbn [showme].
      destruct (number page); wp_go; (split; [done|]); by apply (sim_set_static_at s a h).
    + destruct (String.eqb attr "showme"), (String.eqb attr "description"); by wp_step.
  - destruct (String.eqb attr "storeme") eqn:E2; [|by wp_step]. destruct Hn as [_ Hv]. tables. wp_step. apply wp_on_items.
    wp_step. eapply wp_wand; [by eapply child_store_number|]. intros r m' h' [-> Hr]. destruct (number page) as [e|w].
    + destruct Hr as [-> ->]. wp_go. split; [done|]. rewrite Hst. by apply (sim_set_static_at s a h).
    + destruct Hr as (-> & -> & Hw). wp_go. split; [done|]. rewrite Hst.
      exact (sim_set_static_at _ _ h (Childless c v) c v (sim_update s a h dir _ p value w Hs Et En Hw)).
  - destruct (String.eqb attr "description"); by wp_step.
  - destruct (String.eqb attr "description"); by wp_step.
Qed.

Lemma exec_op_refines o s a h : sim s a h ->
  wp (exec_op explicit o) K s h (fun r s' h' => r = Ret (a_op (memory h) o a).1 /\ sim s' (a_op (memory h) o a).2 h').
Proof using HK Hpos Hlib.
  intros Hs. destruct o; cbn [exec_op a_op]; [by apply mkdir_refines|by apply rmdir_refines|by apply read_refines|by apply write_refines].
Qed.

Lemma exec_ops_refine l : forall s a h, sim s a h ->
  wp (exec_ops explicit l) K s h (fun r s' h' => exists mem, r = Ret (a_ops mem l a).1 /\ sim s' (a_ops mem l a).2 h').
Proof using HK Hpos Hlib.
  induction l as [|o l IH]; intros s a h Hs; cbn [exec_ops].
  - wp_step. by exists [].
  - wp_step. eapply wp_wand; [by apply exec_op_refines|]. intros r s1 h1 [-> Hs1]. do 2 wp_step.
    eapply wp_wand; [by apply IH|]. intros r s2 h2 (mem & -> & Hs2). wp_go. exists (memory h :: mem). cbn [a_ops hd tail].
    destruct (a_op (memory h) o a) as [r1 a1]. cbn [fst snd] in *. by destruct (a_ops mem l a1).
Qed.

End Refinement.

Lemma start_lookup `{KernelLib} d e : tree (start explicit) !! d = Some e ->
  exists n, nodes a_start !! d = Some n /\ node_ok ∅ d e.1 e.2 n /\ length d = 1%nat.
Proof.
  change (tree (start explicit)) with (<[["01-childless"] := (ChildlessType, 0)]> (<[["02-simple-children"] := (SimpleChildrenType, 0)]>
    (<[["03-group-children"] := (GroupChildrenType, 0)]> (∅ : gmap path (config_item_type * Z)))))%string.
  intros Hd. repeat (apply lookup_insert_Some in Hd as [[<- <-]|[? Hd]]); [eexists; split; [reflexivity|]; cbn; unfold dynamic; cbn; split; [split; [done|intros Hlt; lia]|done]..|].
  by rewrite lookup_empty in Hd.
Qed.

Lemma start_none `{KernelLib} d : tree (start explicit) !! d = None -> nodes a_start !! d = None.
Proof.
  change (tree (start explicit)) with (<[["01-childless"] := (ChildlessType, 0)]> (<[["02-simple-children"] := (SimpleChildrenType, 0)]>
    (<[["03-group-children"] := (GroupChildrenType, 0)]> (∅ : gmap path (config_item_type * Z)))))%string.
  change (nodes a_start) with (<[["01-childless"] := Files]> (<[["02-simple-children"] := Group]>
    (<[["03-group-children"] := Groups]> (∅ : gmap path node))))%string.
  rewrite !lookup_insert_None. tauto.
Qed.

Lemma sim_start `{KernelLib} subs h : tree_ok subs (∅, h) -> sim subs (start explicit) a_start h.
Proof.
  intros Hok. split; [| |done|done|done|].
  - intros d. destruct (tree (start explicit) !! d) as [[t p]|] eqn:E; [|by rewrite (start_none d E)].
    destruct (start_lookup d _ E) as (n & -> & Hn & _). exact Hn.
  - intros d d' e e' Hd _ E. destruct (start_lookup d _ E) as (_ & _ & _ & Hl). unfold dynamic in Hd. lia.
  - intros p [x Hx]. cbn in Hx. by rewrite lookup_empty in Hx.
Qed.

(** The directories below the subsystems. *)
Definition dirs (a : afs) : gset path := filter dynamic (dom (nodes a)).

Definition address (s : fs) (d : path) : Z := match tree s !! d with Some e => e.2 | None => 0 end.

Lemma sim_dirs subs s a h : sim subs s a h -> (map_to_list (items s)).*1 ≡ₚ address s <$> elements (dirs a).
Proof.
  intros Hs. assert (forall d, d ∈ elements (dirs a) <-> dynamic d /\ exists e, tree s !! d = Some e) as Hd.
  { intros d. unfold dirs. rewrite elem_of_elements, elem_of_filter, elem_of_dom, <- not_eq_None_Some, <- (sim_none subs s a h d Hs).
    rewrite not_eq_None_Some. done. }
  apply NoDup_Permutation.
  - apply NoDup_fst_map_to_list.
  - apply NoDup_fmap_2_strong; [|apply NoDup_elements]. intros d d' (Hdy & e & E)%Hd (Hdy' & e' & E')%Hd Ha.
    unfold address in Ha. rewrite E, E' in Ha. by eapply (sim_inj subs s a h Hs).
  - intros p. rewrite !list_elem_of_fmap. split.
    + intros ([q x] & -> & Hin). apply elem_of_map_to_list in Hin. destruct (sim_dom subs s a h Hs q) as (d & t & Hdy & E); [by eexists|].
      exists d. unfold address. rewrite E. split; [done|]. apply Hd. eauto.
    + intros (d & -> & (Hdy & [t q] & E)%Hd). unfold address. rewrite E. cbn [snd].
      destruct (sim_lookup subs s a h d t q Hs E) as (n & _ & Hn).
      assert (is_Some (items s !! q)) as [x Hx] by (destruct n; cbn in Hn; destruct_and?; try done; eauto).
      exists (q, x). split; [done|]. by apply elem_of_map_to_list.
Qed.

(** ** The two modules *)

(** The same operations. *)
Record same_tables (M N : example) : Prop := {
  same_attrs t : ct_attrs (type_of M t) = ct_attrs (type_of N t);
  same_make t : make <$> ct_group_ops (type_of M t) = make <$> ct_group_ops (type_of N t);
  same_release t : release (ct_item_ops (type_of M t)) = release (ct_item_ops (type_of N t));
  same_show t name item c :
    show_attribute (ct_item_ops (type_of M t)) name item c = show_attribute (ct_item_ops (type_of N t)) name item c;
  same_store t : option_Forall2 (fun f g => forall name item page count c, f name item page count c = g name item page count c)
    (store_attribute (ct_item_ops (type_of M t))) (store_attribute (ct_item_ops (type_of N t)));
  same_dirs s : dir_of M s = dir_of N s
}.

Lemma same_exec M N o K s h : same_tables M N -> exec_op M o K s h = exec_op N o K s h.
Proof.
  intros HM. destruct o as [parent name|dir|dir attr|dir attr page count]; cbn [exec_op].
  - unfold mkdir, io_bind at 1 4, get. destruct (tree s !! parent) as [[t p]|]; cbn [mbind option_bind fst]; [|done].
    by rewrite (same_make M N HM).
  - unfold rmdir, io_bind at 1 4, get. destruct (tree s !! dir) as [[t p]|]; [|done]. by rewrite (same_release M N HM).
  - unfold read_attr, io_bind at 1 4, get. destruct (tree s !! dir) as [[t p]|]; [|done]. unfold find_attr.
    rewrite (same_attrs M N HM). by rewrite (same_show M N HM).
  - unfold write_attr, io_bind at 1 4, get. destruct (tree s !! dir) as [[t p]|]; [|done]. unfold find_attr.
    rewrite (same_attrs M N HM). destruct (List.find _ _) as [a|]; [|done]. destruct (same_store M N HM t) as [f g E|]; [|done].
    by rewrite E.
Qed.

Lemma same_exec_ops M N l K : same_tables M N -> forall s h, exec_ops M l K s h = exec_ops N l K s h.
Proof.
  intros HM. induction l as [|o l IH]; intros s h; [done|]. cbn [exec_ops]. unfold io_bind at 1 3. rewrite (same_exec M N) by done.
  destruct (exec_op N o K s h) as [[[r|c| |] s'] h']; try done. unfold io_bind. by rewrite IH.
Qed.

Lemma macros_same `{KernelLib} : same_tables macros explicit.
Proof.
  assert (forall c page count, Macros.childless_storeme_write c page count = childless_storeme_write c page count) as E.
  { intros. unfold Macros.childless_storeme_write, childless_storeme_write, truthy. by destruct (simple_strtoul page). }
  assert (forall name, match MacrosTables.childless_of name, childless_of name with
    | Some b, Some a => (forall c, Macros.childless_attr_show b c = childless_attr_show a c) /\
        forall c page count, Macros.childless_attr_store b c page count = childless_attr_store a c page count
    | None, None => True | _, _ => False end) as Ha.
  { intros name. unfold MacrosTables.childless_of, childless_of. cbn [Macros.childless_attrs List.find Macros.name].
    rewrite !(String.eqb_sym name). cbn [Macros.childless_attr_showme Macros.childless_attr_storeme Macros.childless_attr_description
      Macros.CHILDLESS_ATTR Macros.CHILDLESS_ATTR_RO Macros.name]. tables.
    repeat destruct (String.eqb _ name); done. }
  split; [by intros []|by intros []|by intros []| | |by intros []].
  - intros [] name item c; try done. specialize (Ha name). revert Ha.
    unfold macros, MacrosTables.childless_type, MacrosTables.childless_item_ops. tables.
    destruct (MacrosTables.childless_of name), (childless_of name); try done. intros [-> _]. done.
  - intros []; constructor; try done. intros name item page count c. specialize (Ha name). revert Ha. cbn beta.
    destruct (MacrosTables.childless_of name), (childless_of name); try done. intros [_ ->]. done.
Qed.

Lemma same_start M N : same_tables M N -> start M = start N.
Proof. intros HM. unfold start, example_subsys. cbn. by rewrite !(same_dirs M N HM). Qed.

(** C3: With either module loaded, configfs following its tables is a tree of values, whatever is made, removed, read and written
    in whatever order: every operation returns with the reply of the simple tree, in which directories take items or groups of items,
    an item is a number and only the counter changes by reading; a directory is refused only where the tree has
    no place for it or there is no memory.  No freed item is touched, every directory below the subsystems has one block of its own
    and there are no others, and when they are gone unloading leaves nothing. *)
Theorem tree_refines `{KernelLib} `{!KernelLibOk} M K l h0 : M = explicit \/ M = macros ->
  fresh K -> (forall h, 0 <= ret (K h Kzalloc)) -> configfs_example_init K ∅ [] = (Ret 0, ∅, h0) ->
  wp (exec_ops M l) K (start M) h0 (fun r s h => exists mem, let (rs, a) := a_ops mem l a_start in
    r = Ret rs /\
    (exists now, held h = Some now /\ now ≡ₚ (Mem ∘ address s <$> elements (dirs a)) ++ (Sub <$> example_subsys)) /\
    (dirs a = ∅ -> wp configfs_example_exit K (items s) h (fun r _ h' => r = Ret tt /\ held h' = Some []))).
Proof.
  intros HM HK Hpos Hi. pose proof (register_wp K ∅ [] [] example_subsys [] eq_refl (Permutation_refl _)) as Hinit.
  destruct (wp_elim _ _ _ _ _ _ _ _ Hinit Hi) as (_ & r & l0 & [= <-] & Hl0 & Hp0). cbn [Z.eqb app] in Hp0.
  assert (forall Q, wp (exec_ops explicit l) K (start explicit) h0 Q -> wp (exec_ops M l) K (start M) h0 Q) as Hsame.
  { destruct HM as [-> | ->]; [done|]. intros Q HQ. unfold wp in *.
    by rewrite (same_start macros explicit macros_same), (same_exec_ops macros explicit l K macros_same). }
  apply Hsame. eapply wp_wand; [apply (exec_ops_refine K HK (Sub <$> example_subsys) Hpos l (start explicit) a_start)|].
  { apply sim_start. split; [by exists l0|]. intros p v Hpv. by rewrite lookup_empty in Hpv. }
  intros r s h (mem & -> & Hs). exists mem. destruct (a_ops mem l a_start) as [rs a]. cbn [fst snd] in *. split; [done|].
  assert (exists now, held h = Some now /\ now ≡ₚ (Mem ∘ address s <$> elements (dirs a)) ++ (Sub <$> example_subsys)) as Hn.
  { destruct (sim_mem _ s a h Hs) as [(now & Hh & Hperm) _]. exists now. split; [done|]. rewrite Hperm. f_equiv.
    unfold keys. rewrite list_fmap_compose, <- (sim_dirs _ s a h Hs), <- list_fmap_compose. done. }
  split; [exact Hn|]. intros Hd. destruct Hn as (now & Hh & Hperm). rewrite Hd, elements_empty in Hperm.
  eapply wp_wand; [apply (unregister_wp K (items s) h example_subsys [] now Hh); by rewrite app_nil_r|].
  intros r m' h' (-> & _ & l' & Hl' & Hp'). split; [done|]. apply Permutation_nil_r in Hp'. by subst.
Qed.

(** ** A session *)

#[local] Existing Instance sample_lib.
#[local] Existing Instance sample_lib_ok.

Definition session : list op :=
  [Mkdir ["03-group-children"] "g"; Mkdir ["g"; "03-group-children"] "x"; Write ["x"; "g"; "03-group-children"] "storeme" [52; 50; 10] 3;
   Read ["x"; "g"; "03-group-children"] "storeme"; Rmdir ["g"; "03-group-children"]; Mkdir ["01-childless"] "y";
   Rmdir ["x"; "g"; "03-group-children"]; Rmdir ["g"; "03-group-children"]]%string.

Lemma tree_refines_witness :
  let h0 := (configfs_example_init sample_kernel ∅ []).2 in
  exists mem, (exec_ops macros session sample_kernel (start macros) h0).1.1 = Ret (a_ops mem session a_start).1 /\
    (exec_ops macros session sample_kernel (start macros) h0).1.1 =
      Ret [Reply 0 []; Reply 0 []; Reply 3 []; Reply 3 [52; 50; 10]; Refused; Refused; Reply 0 []; Reply 0 []].
Proof.
  intros h0. assert (fresh sample_kernel) as HK.
  { intros h l Hh Hin. pose proof (held_top h l _ Hh Hin) as Hle. cbn in Hle. lia. }
  assert (forall h, 0 <= ret (sample_kernel h Kzalloc)) as Hpos.
  { intros h. cbn. unfold top. induction h as [|e h IH]; cbn [foldr]; lia. }
  destruct (wp_result _ _ _ _ _ (tree_refines macros sample_kernel session h0 (or_intror eq_refl) HK Hpos eq_refl)) as (mem & Hm).
  exists mem. destruct (a_ops mem session a_start) as [rs a]. destruct Hm as [E _]. split; [exact E|]. vm_compute. reflexivity.
Defined.
