(* ===== verification/Timestamping.v ===== *)
(** * Time stamping of network packets: Documentation/networking/timestamping/timestamping.c

    The tool joins a multicast group, sends a PTP packet every five seconds and
    prints whatever the socket and its error queue deliver, with the time stamps the
    kernel attached.  Structures are bytes in host (little-endian) order; an object
    that is not initialised holds what the call that fills it stores, and zeros.
    A [struct timeval] or [struct timespec] is a pair of integers.  The texts are the
    arguments of the calls of [printf], one constructor for each. *)

From S2P Require Import Prelude Posix CArray Output Cmsg.

Module Ts.

Open Scope Z_scope.

(** ** Constants of the headers *)

Definition SOL_SOCKET := 1.
Definition SO_TIMESTAMP := 29.
Definition SO_TIMESTAMPNS := 35.
Definition SO_TIMESTAMPING := 37.
Definition IPPROTO_IP := 0.
Definition SOL_IP := 0.
Definition IP_PKTINFO := 8.
Definition IP_RECVERR := 11.
Definition IP_MULTICAST_IF := 32.
Definition IP_MULTICAST_LOOP := 34.
Definition IP_ADD_MEMBERSHIP := 35.
Definition MSG_DONTWAIT := 0x40.
Definition MSG_ERRQUEUE := 0x2000.
Definition SO_EE_ORIGIN_TIMESTAMPING := 4.
Definition SOF_TIMESTAMPING_TX_HARDWARE := 1.
Definition SOF_TIMESTAMPING_TX_SOFTWARE := 2.
Definition SOF_TIMESTAMPING_RX_HARDWARE := 4.
Definition SOF_TIMESTAMPING_RX_SOFTWARE := 8.
Definition SOF_TIMESTAMPING_SOFTWARE := 16.
Definition SOF_TIMESTAMPING_RAW_HARDWARE := 64.
Definition HWTSTAMP_TX_OFF := 0.
Definition HWTSTAMP_TX_ON := 1.
Definition HWTSTAMP_FILTER_NONE := 0.
Definition HWTSTAMP_FILTER_PTP_V1_L4_SYNC := 4.
Definition SIOCGSTAMP := 0x8906.
Definition SIOCGSTAMPNS := 0x8907.

(** ** Data *)

Inductive text : Type :=
| InvalidOption (s : string)
| Usage
| Errno (what : string) (e : Z)
| Sent (now : time) (n : Z)
| Received (now : time) (error : bool) (n : Z) (from : list Z) (controllen : Z)
| CmsgLen (n : Z)
| Word (s : string)
| StampUs (what : string) (t : time)
| StampNs (what : string) (t : time)
| Type_ (t : Z)
| LevelType (l t : Z)
| Recverr (e origin : Z) (expected : bool)
| Ifindex (i : Z)
| Hwtstamp (tx tx' rx rx' : Z)
| Value (what : string) (v : Z)
| SelectFor (now : time) (us : Z)
| SelectReturned (now : time) (res e : Z).

Inductive call : Type :=
| Printf (t : text)
| Gettimeofday
| Socket
| GetIfAddr (fd : Z) (name : list Z)
| SetHwtstamp (fd : Z) (name cfg : list Z)
| Bind (fd : Z) (addr : list Z) (port : Z)
| Setsockopt (fd level opt : Z) (val : list Z)
| Getsockopt (fd level opt : Z)
| Ioctl (fd req : Z)
| Select (fd : Z) (timeout : time)
| Recvmsg (fd flags : Z)
| Sendto (fd : Z) (buf addr : list Z) (port : Z).

(** The "fake uuid". *)
Definition uuid : list Z := [0x00; 0x01] ++ [0x02; 0x03; 0x04; 0x05].

Definition sync : list Z :=
  [0x00; 0x01; 0x00; 0x01] ++ [0x5f; 0x44; 0x46; 0x4c] ++ [0x54; 0x00; 0x00; 0x00] ++ [0x00; 0x00; 0x00; 0x00] ++
  [0x00; 0x00; 0x00; 0x00] ++ [0x01; 0x01] ++
  uuid ++
  [0x00; 0x01; 0x00; 0x37] ++ [0x00; 0x00; 0x00; 0x08] ++ [0x00; 0x00; 0x00; 0x00] ++ [0x49; 0x05; 0xcd; 0x01] ++
  [0x29; 0xb1; 0x8d; 0xb0] ++ [0x00; 0x00; 0x00; 0x00] ++ [0x00; 0x01] ++
  uuid ++
  [0x00; 0x00; 0x00; 0x37] ++ [0x00; 0x00; 0x00; 0x04] ++ [0x44; 0x46; 0x4c; 0x54] ++ [0x00; 0x00; 0xf0; 0x60] ++
  [0x00; 0x01; 0x00; 0x00] ++ [0x00; 0x00; 0x00; 0x01] ++ [0x00; 0x00; 0xf0; 0x60] ++ [0x00; 0x00; 0x00; 0x00] ++
  [0x00; 0x00; 0x00; 0x04] ++ [0x44; 0x46; 0x4c; 0x54] ++ [0x00; 0x01] ++
  uuid ++
  [0x00; 0x00; 0x00; 0x00] ++ [0x00; 0x00; 0x00; 0x00] ++ [0x00; 0x00; 0x00; 0x00] ++ [0x00; 0x00; 0x00; 0x00].

(** ** Programs *)

Abbreviation prog := (io call unit).

Open Scope io_scope.

Definition printf (t : text) : prog unit := sys (Printf t) ;; io_ret tt.

Definition usage {A} (error : option string) : prog A :=
  (match error with Some e => printf (InvalidOption e) | None => io_ret tt end) ;;
  printf Usage ;;
  exit_ 1.

Definition bail {A} (error : string) (e : Z) : prog A := printf (Errno error e) ;; exit_ 1.

Definition gettimeofday : prog time :=
  let* a := sys Gettimeofday in
  lift (time_at (uninit 16 a) 0).

Definition sendpacket (sock : Z) (addr : list Z) (port : Z) : prog unit :=
  let* r := sys (Sendto sock sync addr port) in
  let res := i32 (ret r) in
  let* now := gettimeofday in
  if res <? 0 then printf (Errno "send" (errno r)) else printf (Sent now res).

(** The message printed for one control message. *)
Definition print_cmsg (ctrl dat : list Z) (res : Z) (cmsg : Z) : prog unit :=
  let* len := lift (cmsg_len ctrl cmsg) in
  printf (CmsgLen len) ;;
  let* level := lift (cmsg_level ctrl cmsg) in
  let* type := lift (cmsg_type ctrl cmsg) in
  (if level =? SOL_SOCKET then
     printf (Word "SOL_SOCKET ") ;;
     if type =? SO_TIMESTAMP then
       let* stamp := lift (time_at ctrl (CMSG_DATA cmsg)) in
       printf (StampUs "SO_TIMESTAMP " stamp)
     else if type =? SO_TIMESTAMPNS then
       let* stamp := lift (time_at ctrl (CMSG_DATA cmsg)) in
       printf (StampNs "SO_TIMESTAMPNS " stamp)
     else if type =? SO_TIMESTAMPING then
       printf (Word "SO_TIMESTAMPING ") ;;
       let* stamp := lift (time_at ctrl (CMSG_DATA cmsg)) in
       printf (StampNs "SW " stamp) ;;
       let* stamp := lift (time_at ctrl (CMSG_DATA cmsg + 32)) in
       printf (StampNs "HW raw " stamp)
     else printf (Type_ type)
   else if level =? IPPROTO_IP then
     printf (Word "IPPROTO_IP ") ;;
     if type =? IP_RECVERR then
       let* ee_errno := lift (rd 4 ctrl (CMSG_DATA cmsg)) in
       let* ee_origin := lift (rd 1 ctrl (CMSG_DATA cmsg + 4)) in
       printf (Recverr (i32 ee_errno) ee_origin (ee_origin =? SO_EE_ORIGIN_TIMESTAMPING)) ;;
       if res <? zlen sync then printf (Word " => truncated data?!")
       else
         let* tail := lift (sub dat (res - zlen sync) (zlen sync)) in
         if bool_decide (sync = tail) then printf (Word " => GOT OUR DATA BACK (HURRAY!)") else io_ret tt
     else if type =? IP_PKTINFO then
       let* i := lift (rd 4 ctrl (CMSG_DATA cmsg)) in
       printf (Ifindex i)
     else printf (Type_ type)
   else printf (LevelType level type)) ;;
  printf (Word nl).

(** The result of the ioctls that report the stamp of the last packet. *)
Definition last_stamp (sock req : Z) (what : string) (show : time -> text) : prog unit :=
  let* a := sys (Ioctl sock req) in
  if truthy (ret a) then printf (Errno what (errno a))
  else
    let* t := lift (time_at (uninit 16 a) 0) in
    printf (show t).

(** The control buffer is a header and 512 bytes: at most 33 messages. *)
Definition sizeof_control := 528.
Definition cmsg_fuel : nat := 34.

Definition printpacket (from ctrl : list Z) (controllen res : Z) (dat : list Z) (sock recvmsg_flags : Z)
    (siocgstamp siocgstampns : bool) : prog unit :=
  let* now := gettimeofday in
  printf (Received now (has recvmsg_flags MSG_ERRQUEUE) res from controllen) ;;
  each_cmsg cmsg_fuel (fun _ => true) ctrl controllen (CMSG_FIRSTHDR controllen) (print_cmsg ctrl dat res) ;;
  (if siocgstamp then last_stamp sock SIOCGSTAMP "SIOCGSTAMP" (StampUs "SIOCGSTAMP ") else io_ret tt) ;;
  (if siocgstampns then last_stamp sock SIOCGSTAMPNS "SIOCGSTAMPNS" (StampNs "SIOCGSTAMPNS ") else io_ret tt).

(** What [recvmsg] leaves in the four objects it is handed: the address of the sender,
    [msg_controllen], the control buffer and the packet. *)
Definition parts (a : ans) : list Z * Z * list Z * list Z :=
  let buf := uninit (4 + 8 + sizeof_control + 256) a in
  (ztake 4 buf, le_val (ztake 8 (zdrop 4 buf)), ztake sizeof_control (zdrop 12 buf), zdrop (12 + sizeof_control) buf).

Definition recvpacket (sock recvmsg_flags : Z) (siocgstamp siocgstampns : bool) : prog unit :=
  let* a := sys (Recvmsg sock (Z.lor recvmsg_flags MSG_DONTWAIT)) in
  let res := i32 (ret a) in
  if res <? 0 then
    printf (Errno (if has recvmsg_flags MSG_ERRQUEUE then "recvmsg error" else "recvmsg regular") (errno a))
  else
    let '(from, controllen, ctrl, dat) := parts a in
    printpacket from ctrl controllen res dat sock recvmsg_flags siocgstamp siocgstampns.

(** ** Options *)

Record opts : Type := Opts {
  so_timestamp : bool; so_timestampns : bool; siocgstamp : bool; siocgstampns : bool;
  ip_multicast_loop : bool; so_timestamping_flags : Z
}.

Definition no_opts : opts := Opts false false false false false 0.

Definition flag (o : opts) (f : Z) : opts :=
  Opts (so_timestamp o) (so_timestampns o) (siocgstamp o) (siocgstampns o) (ip_multicast_loop o)
    (Z.lor (so_timestamping_flags o) f).

Definition parse_option (o : opts) (arg : string) : option opts :=
  let 'Opts t n g gn l f := o in
  if same_word arg "SO_TIMESTAMP" then Some (Opts true n g gn l f)
  else if same_word arg "SO_TIMESTAMPNS" then Some (Opts t true g gn l f)
  else if same_word arg "SIOCGSTAMP" then Some (Opts t n true gn l f)
  else if same_word arg "SIOCGSTAMPNS" then Some (Opts t n g true l f)
  else if same_word arg "IP_MULTICAST_LOOP" then Some (Opts t n g gn true f)
  else if same_word arg "SOF_TIMESTAMPING_TX_HARDWARE" then Some (flag o SOF_TIMESTAMPING_TX_HARDWARE)
  else if same_word arg "SOF_TIMESTAMPING_TX_SOFTWARE" then Some (flag o SOF_TIMESTAMPING_TX_SOFTWARE)
  else if same_word arg "SOF_TIMESTAMPING_RX_HARDWARE" then Some (flag o SOF_TIMESTAMPING_RX_HARDWARE)
  else if same_word arg "SOF_TIMESTAMPING_RX_SOFTWARE" then Some (flag o SOF_TIMESTAMPING_RX_SOFTWARE)
  else if same_word arg "SOF_TIMESTAMPING_SOFTWARE" then Some (flag o SOF_TIMESTAMPING_SOFTWARE)
  else if same_word arg "SOF_TIMESTAMPING_RAW_HARDWARE" then Some (flag o SOF_TIMESTAMPING_RAW_HARDWARE)
  else None.

Fixpoint parse_options (o : opts) (args : list string) : prog opts :=
  match args with
  | [] => io_ret o
  | arg :: rest =>
      match parse_option o arg with
      | Some o => parse_options o rest
      | None => usage (Some arg)
      end
  end.

(** ** Setting the socket up *)

(** [strncpy] into an [ifr_name] of zeros. *)
Definition ifr_name (interface : string) : list Z := ztake 16 (bytes_of_string interface ++ replicate 16 0).

Definition int (v : Z) : list Z := le_bytes 4 v.
Definition any_addr : list Z := [0; 0; 0; 0].
Definition group : list Z := [224; 0; 1; 130].
Definition ptp_port := 319.

Definition hwconfig_bytes (tx rx : Z) : list Z := int 0 ++ int tx ++ int rx.

Definition hw_setup (sock : Z) (interface : string) (flags : Z) : prog unit :=
  let tx := if has flags SOF_TIMESTAMPING_TX_HARDWARE then HWTSTAMP_TX_ON else HWTSTAMP_TX_OFF in
  let rx := if has flags SOF_TIMESTAMPING_RX_HARDWARE then HWTSTAMP_FILTER_PTP_V1_L4_SYNC
            else HWTSTAMP_FILTER_NONE in
  let* a := sys (SetHwtstamp sock (ifr_name interface) (hwconfig_bytes tx rx)) in
  (if ret a <? 0 then
     if ((errno a =? EINVAL) || (errno a =? ENOTSUP)) && (tx =? HWTSTAMP_TX_OFF) && (rx =? HWTSTAMP_FILTER_NONE)
     then printf (Word "SIOCSHWTSTAMP: disabling hardware time stamping not possible")
     else bail "SIOCSHWTSTAMP" (errno a)
   else io_ret tt) ;;
  let hwconfig := overlay (hwconfig_bytes tx rx) (data a) in
  let* tx' := lift (rd 4 hwconfig 4) in
  let* rx' := lift (rd 4 hwconfig 8) in
  printf (Hwtstamp tx (i32 tx') rx (i32 rx')).

(** [setsockopt] that has to succeed. *)
Definition require_opt (sock level opt : Z) (val : list Z) (error : string) : prog unit :=
  let* a := sys (Setsockopt sock level opt val) in
  if ret a <? 0 then bail error (errno a) else io_ret tt.

(** [getsockopt] for the value to print. *)
Definition show_opt (sock opt : Z) (what error : string) (more : Z -> prog unit) : prog unit :=
  let* a := sys (Getsockopt sock SOL_SOCKET opt) in
  if ret a <? 0 then printf (Errno error (errno a))
  else
    let* v := lift (rd 4 (uninit 4 a) 0) in
    printf (Value what (i32 v)) ;;
    more (i32 v).

Definition setup (interface : string) (o : opts) : prog Z :=
  let flags := so_timestamping_flags o in
  let* s := sys Socket in
  let sock := ret s in
  (if sock <? 0 then bail "socket" (errno s) else io_ret tt) ;;
  let* d := sys (GetIfAddr sock (ifr_name interface)) in
  (if ret d <? 0 then bail "getting interface IP address" (errno d) else io_ret tt) ;;
  hw_setup sock interface flags ;;
  let* b := sys (Bind sock any_addr ptp_port) in
  (if ret b <? 0 then bail "bind" (errno b) else io_ret tt) ;;
  let imr_interface := ztake 4 (zdrop 4 (uninit 16 d)) in
  require_opt sock IPPROTO_IP IP_MULTICAST_IF imr_interface "set multicast" ;;
  require_opt sock IPPROTO_IP IP_ADD_MEMBERSHIP (group ++ imr_interface) "join multicast group" ;;
  require_opt sock IPPROTO_IP IP_MULTICAST_LOOP (int (if ip_multicast_loop o then 1 else 0)) "loop multicast" ;;
  (if so_timestamp o then require_opt sock SOL_SOCKET SO_TIMESTAMP (int 1) "setsockopt SO_TIMESTAMP" else io_ret tt) ;;
  (if so_timestampns o then require_opt sock SOL_SOCKET SO_TIMESTAMPNS (int 1) "setsockopt SO_TIMESTAMPNS"
   else io_ret tt) ;;
  (if truthy flags then require_opt sock SOL_SOCKET SO_TIMESTAMPING (int flags) "setsockopt SO_TIMESTAMPING"
   else io_ret tt) ;;
  let* p := sys (Setsockopt sock SOL_IP IP_PKTINFO (int 1)) in
  (if ret p <? 0 then printf (Errno "setsockopt IP_PKTINFO" (errno p)) else io_ret tt) ;;
  show_opt sock SO_TIMESTAMP "SO_TIMESTAMP" "getsockopt SO_TIMESTAMP" (fun _ => io_ret tt) ;;
  show_opt sock SO_TIMESTAMPNS "SO_TIMESTAMPNS" "getsockopt SO_TIMESTAMPNS" (fun _ => io_ret tt) ;;
  show_opt sock SO_TIMESTAMPING "SO_TIMESTAMPING" "getsockopt SO_TIMESTAMPING" (fun v =>
    if negb (v =? flags) then printf (Value "not the expected value" flags) else io_ret tt) ;;
  io_ret sock.

(** ** The loop *)

Definition turn (sock : Z) (o : opts) (next : time) : prog time :=
  let* now := gettimeofday in
  let delta_us := i64 (i64 ((next.1 - now.1) * 1000000) + (next.2 - now.2)) in
  if 0 <? delta_us then
    let delta := (Z.quot delta_us 1000000, Z.rem delta_us 1000000) in
    printf (SelectFor now delta_us) ;;
    let* r := sys (Select sock delta) in
    let res := i32 (ret r) in
    let* now := gettimeofday in
    printf (SelectReturned now res (errno r)) ;;
    (if 0 <? res then
       let sets := uninit 2 r in
       (if truthy (znth sets 0) then printf (Word "ready for reading") else io_ret tt) ;;
       (if truthy (znth sets 1) then printf (Word "has error") else io_ret tt) ;;
       recvpacket sock 0 (siocgstamp o) (siocgstampns o) ;;
       recvpacket sock MSG_ERRQUEUE (siocgstamp o) (siocgstampns o)
     else io_ret tt) ;;
    io_ret next
  else
    sendpacket sock group ptp_port ;;
    io_ret (next.1 + 5, next.2).

Fixpoint turns (fuel : nat) (sock : Z) (o : opts) (next : time) : prog Z :=
  match fuel with
  | O => nofuel
  | S fuel =>
      let* next := turn sock o next in
      turns fuel sock o next
  end.

Definition main (fuel : nat) (argv : list string) : prog Z :=
  match argv with
  | _ :: interface :: args =>
      let* o := parse_options no_opts args in
      let* sock := setup interface o in
      let* t := gettimeofday in
      turns fuel sock o (Z.quot (t.1 + 1) 5 * 5, 0)
  | _ => usage None
  end.

(** ** What the control messages say *)

(** A control message the kernel attaches, by what it reports. *)
Inductive report : Type :=
| Stamp (t : time)
| Stamp_ns (t : time)
| Stamping (sw legacy raw : time)
| Bounced (e origin : Z) (rest : list Z)
| Pktinfo (ifindex : Z) (addresses : list Z)
| Other (m : cmsg).

Definition report_cmsg (r : report) : cmsg :=
  match r with
  | Stamp t => Cmsg SOL_SOCKET SO_TIMESTAMP (time_bytes t)
  | Stamp_ns t => Cmsg SOL_SOCKET SO_TIMESTAMPNS (time_bytes t)
  | Stamping a b c => Cmsg SOL_SOCKET SO_TIMESTAMPING (time_bytes a ++ time_bytes b ++ time_bytes c)
  | Bounced e origin rest => Cmsg IPPROTO_IP IP_RECVERR (le_bytes 4 e ++ [origin] ++ rest)
  | Pktinfo i rest => Cmsg IPPROTO_IP IP_PKTINFO (le_bytes 4 i ++ rest)
  | Other m => m
  end.

Definition known (m : cmsg) : bool :=
  (c_level m =? SOL_SOCKET) &&
    ((c_type m =? SO_TIMESTAMP) || (c_type m =? SO_TIMESTAMPNS) || (c_type m =? SO_TIMESTAMPING)) ||
  (c_level m =? IPPROTO_IP) && ((c_type m =? IP_RECVERR) || (c_type m =? IP_PKTINFO)).

Definition report_ok (r : report) : Prop :=
  cmsg_ok (report_cmsg r) /\
  match r with
  | Stamp t | Stamp_ns t => time_ok t
  | Stamping a _ c => time_ok a /\ time_ok c
  | Bounced e origin _ => 0 <= e < 2 ^ 31 /\ byte_ok origin
  | Pktinfo i _ => 0 <= i < 2 ^ 32
  | Other m => known m = false
  end.

(** The texts for a report that came with a packet. *)
Definition report_texts (pkt : list Z) (r : report) : list text :=
  CmsgLen (16 + zlen (c_data (report_cmsg r))) ::
  match r with
  | Stamp t => [Word "SOL_SOCKET "; StampUs "SO_TIMESTAMP " t]
  | Stamp_ns t => [Word "SOL_SOCKET "; StampNs "SO_TIMESTAMPNS " t]
  | Stamping sw _ raw =>
      [Word "SOL_SOCKET "; Word "SO_TIMESTAMPING "; StampNs "SW " sw; StampNs "HW raw " raw]
  | Bounced e origin _ =>
      [Word "IPPROTO_IP "; Recverr e origin (origin =? SO_EE_ORIGIN_TIMESTAMPING)] ++
      (if zlen pkt <? zlen sync then [Word " => truncated data?!"]
       else if bool_decide (sync `suffix_of` pkt) then [Word " => GOT OUR DATA BACK (HURRAY!)"] else [])
  | Pktinfo i _ => [Word "IPPROTO_IP "; Ifindex i]
  | Other m =>
      if c_level m =? SOL_SOCKET then [Word "SOL_SOCKET "; Type_ (c_type m)]
      else if c_level m =? IPPROTO_IP then [Word "IPPROTO_IP "; Type_ (c_type m)]
      else [LevelType (c_level m) (c_type m)]
  end ++ [Word nl].

#[export] Instance ts_shows : Shows call text := fun c => match c with Printf t => Some t | _ => None end.

#[local] Arguments wp : simpl never.
#[local] Arguments wp_k : simpl never.
#[local] Arguments io_bind : simpl never.

Lemma prints_printf {A} t (k : unit -> prog A) K s r ts :
  prints (k tt) K s r ts -> prints (io_bind (printf t) k) K s r (t :: ts).
Proof. intros Hk. apply prints_line; [by apply prints_text|done]. Qed.

Lemma prints_last t K s : prints (printf t) K s tt [t].
Proof. by apply prints_text. Qed.

Section Report.
Context (m : cmsg) (pre post ctrl : list Z).
Context (Hm : cmsg_ok m) (Hc : ctrl = pre ++ encode m ++ post).

Lemma prints_cmsg K s (mid : list text) body :
  (forall len level type, len = 16 + zlen (c_data m) -> level = c_level m -> type = c_type m ->
     prints (body level type) K s tt mid) ->
  prints (let* len := lift (cmsg_len ctrl (zlen pre)) in
          printf (CmsgLen len) ;;
          let* level := lift (cmsg_level ctrl (zlen pre)) in
          let* type := lift (cmsg_type ctrl (zlen pre)) in
          body level type ;; printf (Word nl)) K s tt (CmsgLen (16 + zlen (c_data m)) :: mid ++ [Word nl]).
Proof using All.
  intros Hb. eapply prints_read; [by eapply cmsg_len_at|]. apply prints_printf.
  eapply prints_read; [by eapply cmsg_level_at|]. eapply prints_read; [by eapply cmsg_type_at|].
  eapply prints_bind; [by eapply Hb|]. apply prints_last.
Qed.
End Report.

Lemma sync_at_end dat res : zlen sync <= res -> res <= zlen dat ->
  exists tail, sub dat (res - zlen sync) (zlen sync) = Ret tail /\ (sync = tail <-> sync `suffix_of` ztake res dat).
Proof.
  intros Hs Hr. exists (ztake (zlen sync) (zdrop (res - zlen sync) dat)). unfold sub. change (zlen sync) with 124 in *.
  replace (_ && _) with true by lia. split; [done|].
  assert (ztake res dat = ztake (res - 124) dat ++ ztake 124 (zdrop (res - 124) dat)) as ->.
  { unfold ztake, zdrop. rewrite take_take_drop. f_equal. lia. }
  split; [intros ->; by eexists|]. intros [k Hk]. apply app_inj_2 in Hk as [_ ->]; [done|].
  apply Nat2Z.inj. change (Z.of_nat (length sync)) with 124. apply zlen_ztake. rewrite zlen_zdrop; lia.
Qed.

Lemma prints_bounced dat res K s :
  0 <= res <= zlen dat ->
  prints (if res <? zlen sync then printf (Word " => truncated data?!")
          else
            let* tail := lift (sub dat (res - zlen sync) (zlen sync)) in
            if bool_decide (sync = tail) then printf (Word " => GOT OUR DATA BACK (HURRAY!)") else io_ret tt) K s tt
    (if zlen (ztake res dat) <? zlen sync then [Word " => truncated data?!"]
     else if bool_decide (sync `suffix_of` ztake res dat) then [Word " => GOT OUR DATA BACK (HURRAY!)"] else []).
Proof.
  intros Hr. rewrite zlen_ztake by lia. destruct (Z.ltb_spec res (zlen sync)) as [Hlt|Hge]; [apply prints_last|].
  destruct (sync_at_end dat res) as (tail & E & Hiff); [lia|lia|]. eapply prints_read; [exact E|].
  rewrite <- (bool_decide_ext _ _ Hiff). apply (prints_if _ _ tt _ _ [_]), prints_last.
Qed.

(** The texts of one control message. *)
Lemma prints_report r pre post ctrl dat res K s :
  report_ok r -> ctrl = pre ++ encode (report_cmsg r) ++ post -> 0 <= res <= zlen dat ->
  prints (print_cmsg ctrl dat res (zlen pre)) K s tt (report_texts (ztake res dat) r).
Proof.
  intros [Hm Hr] Hc Hres. unfold print_cmsg. apply (prints_cmsg (report_cmsg r) pre post ctrl Hm Hc).
  intros _ ? ? _ -> ->. set (p := zlen pre).
  assert (forall k t a b, c_data (report_cmsg r) = a ++ time_bytes t ++ b -> zlen a = k -> time_ok t ->
    time_at ctrl (CMSG_DATA p + k) = Ret t) as Ht.
  { intros k t a b Hd Ha Hto. pose proof (zlen_nonneg a). pose proof (zlen_nonneg b).
    unfold p. rewrite (time_in_cmsg (report_cmsg r) pre post ctrl (zlen pre)) by (try done; rewrite ?Hd, ?zlen_app, ?zlen_time; lia).
    by eapply time_at_le. }
  assert (forall n k, 0 <= n -> 0 <= k -> k + n <= zlen (c_data (report_cmsg r)) ->
    rd n ctrl (CMSG_DATA p + k) = rd n (c_data (report_cmsg r)) k) as Hf.
  { intros. by eapply cmsg_data_at. }
  assert (forall n, 0 <= n -> n <= zlen (c_data (report_cmsg r)) ->
    rd n ctrl (CMSG_DATA p) = rd n (c_data (report_cmsg r)) 0) as Hf0.
  { intros. rewrite <- Hf by lia. f_equal. lia. }
  destruct r as [t|t|sw x raw|e origin rest|i rest|m]; cbn [report_cmsg c_level c_type c_data] in *;
    cbn [Z.eqb SOL_SOCKET SO_TIMESTAMP SO_TIMESTAMPNS SO_TIMESTAMPING IPPROTO_IP IP_RECVERR IP_PKTINFO Pos.eqb].
  - apply prints_printf. eapply prints_read; [|apply prints_last].
    specialize (Ht 0 t [] []). rewrite Z.add_0_r in Ht. apply Ht; [by rewrite app_nil_r|done|done].
  - apply prints_printf. eapply prints_read; [|apply prints_last].
    specialize (Ht 0 t [] []). rewrite Z.add_0_r in Ht. apply Ht; [by rewrite app_nil_r|done|done].
  - do 2 apply prints_printf. eapply prints_read.
    { specialize (Ht 0 sw []). rewrite Z.add_0_r in Ht. eapply Ht; [reflexivity|done|by destruct Hr]. }
    apply prints_printf. eapply prints_read; [|apply prints_last].
    eapply (Ht 32 raw (time_bytes sw ++ time_bytes x) []); [by rewrite app_nil_r, app_assoc| |by destruct Hr].
    by rewrite zlen_app, !zlen_time.
  - destruct Hr as [He Ho]. pose proof (zlen_nonneg rest). apply prints_printf.
    rewrite Hf0, Hf by (try lia; rewrite !zlen_app, zlen_le_bytes; change (zlen [origin]) with 1; lia).
    eapply prints_read; [eapply (rd_at 4 e []); [done|lia|done|change (2 ^ (8 * 4)) with (2 ^ 32); lia]|].
    eapply prints_read; [by eapply (rd_byte origin (le_bytes 4 e))|].
    rewrite i32_small by lia. by apply prints_printf, prints_bounced.
  - pose proof (zlen_nonneg rest). apply prints_printf.
    eapply prints_read; [|apply prints_last].
    rewrite Hf0 by (try lia; rewrite !zlen_app, zlen_le_bytes; lia).
    eapply (rd_at 4 i []); [done|lia|done|change (2 ^ (8 * 4)) with (2 ^ 32); lia].
  - unfold known in Hr. destruct (c_level m =? SOL_SOCKET) eqn:E1, (c_level m =? IPPROTO_IP) eqn:E2;
      cbn [andb orb] in Hr; [zbool; unfold SOL_SOCKET, IPPROTO_IP in *; lia|..|apply prints_last].
    all: rewrite ?orb_false_r in Hr; apply orb_false_iff in Hr as [Hr H2].
    + apply orb_false_iff in Hr as [-> ->]. rewrite H2. apply prints_printf, prints_last.
    + rewrite Hr, H2. apply prints_printf, prints_last.
Qed.

(** The loop over the control messages of a packet. *)
Lemma prints_control rs rest dat res K s :
  Forall report_ok rs -> (length rs < cmsg_fuel)%nat -> 0 <= res <= zlen dat ->
  let cs := encode_all (report_cmsg <$> rs) in
  prints (each_cmsg cmsg_fuel (fun _ => true) (cs ++ rest) (zlen cs) (CMSG_FIRSTHDR (zlen cs))
    (print_cmsg (cs ++ rest) dat res)) K s tt (concat (report_texts (ztake res dat) <$> rs)).
Proof.
  intros Hrs Hn Hres cs h.
  eapply wp_wand; [apply (walk_cmsg_wp (fun pre s' h' => s' = s /\ output h' = output h ++
    concat (report_texts (ztake res dat) <$> take (length pre) rs)))|].
  - done.
  - apply Forall_fmap. eapply Forall_impl; [exact Hrs|]. by intros r [].
  - by rewrite length_fmap.
  - by rewrite app_nil_r.
  - intros pre m post s' h' E [-> Ho]. assert ((report_cmsg <$> rs) !! length pre = Some m) as Hl.
    { rewrite E. by apply list_lookup_middle. }
    rewrite list_lookup_fmap in Hl. destruct (rs !! length pre) as [r|] eqn:Er; [|done]. injection Hl as <-.
    eapply wp_wand; [apply (prints_report r (encode_all pre) (encode_all post ++ rest))|].
    + rewrite Forall_lookup in Hrs. eauto.
    + unfold cs. by rewrite E, encode_all_app, encode_all_cons, <- !app_assoc.
    + done.
    + intros o s' h2 (-> & -> & Ho2). split_and!; [done|done|]. rewrite Ho2, Ho, <- app_assoc. f_equal.
      rewrite length_app, Nat.add_1_r, (take_S_r _ _ r) by done. rewrite fmap_app, concat_app. cbn [fmap list_fmap concat].
      by rewrite app_nil_r.
  - intros o s' h' [-> [-> Ho]]. split_and!; [done|done|]. by rewrite Ho, length_fmap, firstn_all.
Qed.

(** Zero or one more text. *)
Lemma last_stamp_wp (b : bool) sock req what show K h :
  wp (if b then last_stamp sock req what show else io_ret tt) K tt h (fun o s' h' => o = Ret tt /\
    exists l, output h' = output h ++ l /\ length l = if b then 1%nat else 0%nat).
Proof.
  destruct b; [|wp_step; split; [done|]; exists []; by rewrite app_nil_r]. unfold last_stamp, printf. wp_step.
  apply wp_sys_any. intros a. wp_step. wp_step.
  - wp_go. split; [done|]. exists [Errno what (errno a)]. by rewrite !output_cons, app_nil_r.
  - destruct (time_at_uninit a) as [t Ht]. wp_step. apply wp_lift. rewrite Ht. wp_go. split; [done|].
    exists [show t]. by rewrite !output_cons, app_nil_r.
Qed.

Lemma parts_at from cs rest pkt junk r e :
  zlen from = 4 -> zlen (cs ++ rest) = sizeof_control -> zlen (pkt ++ junk) = 256 ->
  parts (Ans r e (from ++ le_bytes 8 (zlen cs) ++ (cs ++ rest) ++ pkt ++ junk)) =
  (from, zlen cs, cs ++ rest, pkt ++ junk).
Proof.
  intros Hf Hc Hp. unfold parts, uninit. cbn [data].
  set (l := from ++ _). assert (zlen l = 4 + 8 + sizeof_control + 256) as Hl.
  { unfold l. rewrite (zlen_app from), (zlen_app (le_bytes _ _)), (zlen_app (cs ++ rest)), zlen_le_bytes. lia. }
  assert (ztake (4 + 8 + sizeof_control + 256) (l ++ replicate (Z.to_nat (4 + 8 + sizeof_control + 256)) 0) = l) as ->.
  { unfold ztake, zlen in *. apply take_app_length'. lia. }
  unfold l, ztake, zdrop. pose proof (zlen_nonneg rest). pose proof (zlen_nonneg cs). rewrite zlen_app in Hc.
  unfold sizeof_control in *. f_equal; [f_equal; [f_equal|]|].
  - apply take_app_length'. unfold zlen in *. lia.
  - rewrite drop_app_length' by (unfold zlen in *; lia). rewrite take_app_length' by (rewrite length_le_bytes; lia).
    rewrite le_val_bytes. apply Z.mod_small. change (2 ^ (8 * Z.of_nat 8)) with (2 ^ 64). lia.
  - rewrite app_assoc, drop_app_length' by (rewrite length_app, length_le_bytes; unfold zlen in *; lia).
    apply take_app_length'. rewrite length_app. unfold zlen in *. lia.
  - rewrite !app_assoc, <- (app_assoc _ pkt).
    apply drop_app_length'. rewrite !length_app, length_le_bytes. unfold zlen in *. lia.
Qed.

(** C22: whatever time stamps, bounced packets and interface indices the kernel attaches
    to a packet, the tool prints one line for each control message, in the order they
    came, with the values the kernel wrote, and says whether the packet it sent came
    back.  The lines of the stamp ioctls follow when they were asked for. *)
Theorem control_printed K sock flags g gn rs from rest pkt junk e h :
  let cs := encode_all (report_cmsg <$> rs) in
  Forall report_ok rs -> zlen from = 4 -> zlen (cs ++ rest) = sizeof_control -> zlen (pkt ++ junk) = 256 ->
  K h (Recvmsg sock (Z.lor flags MSG_DONTWAIT)) =
    Ans (zlen pkt) e (from ++ le_bytes 8 (zlen cs) ++ (cs ++ rest) ++ pkt ++ junk) ->
  exists now stamps h', recvpacket sock flags g gn K tt h = (Ret tt, tt, h') /\
    output h' = output h ++ Received now (has flags MSG_ERRQUEUE) (zlen pkt) from (zlen cs) ::
      concat (report_texts pkt <$> rs) ++ stamps /\
    length stamps = ((if g then 1 else 0) + (if gn then 1 else 0))%nat.
Proof.
  intros cs Hrs Hfrom Hcs Hpkt HK. pose proof (zlen_nonneg pkt). pose proof (zlen_nonneg rest). pose proof (zlen_nonneg junk).
  assert (length rs < cmsg_fuel)%nat as Hn.
  { pose proof (encode_all_length (report_cmsg <$> rs)) as Hl. fold cs in Hl. rewrite zlen_app in Hcs.
    unfold zlen at 1 in Hl. rewrite length_fmap in Hl. unfold sizeof_control, cmsg_fuel in *. lia. }
  assert (ztake (zlen pkt) (pkt ++ junk) = pkt) as Ht by (unfold ztake, zlen; apply take_app_length'; lia).
  assert (wp (recvpacket sock flags g gn) K tt h (fun o _ h' => o = Ret tt /\ exists now stamps,
    output h' = output h ++ Received now (has flags MSG_ERRQUEUE) (zlen pkt) from (zlen cs) ::
      concat (report_texts pkt <$> rs) ++ stamps /\
    length stamps = ((if g then 1 else 0) + (if gn then 1 else 0))%nat)) as Hwp.
  { rewrite zlen_app in Hpkt. unfold recvpacket. wp_step. wp_step. rewrite HK. wp_step. cbn [ret].
    rewrite i32_small by lia. replace (zlen pkt <? 0) with false by lia.
    rewrite parts_at by (rewrite ?zlen_app in *; done). unfold printpacket, gettimeofday.
    wp_step. wp_step. apply wp_sys_any. intros a. wp_step. apply wp_lift. destruct (time_at_uninit a) as [now ->].
    wp_step. unfold printf at 1. wp_go. eapply wp_wand; [apply prints_control; [done|done|rewrite zlen_app; lia]|].
    intros ? ? h1 (-> & -> & O1). rewrite Ht in O1. wp_step. wp_step. eapply wp_wand; [apply last_stamp_wp|].
    intros ? [] h2 (-> & l2 & H2 & L2). wp_step. eapply wp_wand; [apply last_stamp_wp|].
    intros ? [] h3 (-> & l3 & H3 & L3). split; [done|]. exists now, (l2 ++ l3). rewrite length_app, L2, L3. split; [|done].
    rewrite H3, H2, O1, !output_cons. cbn. by rewrite !app_nil_r, <- !app_assoc. }
  unfold wp in Hwp. destruct (recvpacket _ _ _ _ _ _ _) as [[o []] h']. destruct Hwp as (-> & now & l & E1 & E2). eauto 6.
Qed.

(** ** The schedule *)

Definition us (t : time) : Z := t.1 * 1000000 + t.2.

(** How many packets a history sent, and the last time it read. *)
Fixpoint sent (h : list (event call)) : Z :=
  match h with
  | [] => 0
  | (Sendto _ _ _ _, _) :: h => 1 + sent h
  | _ :: h => sent h
  end.

Fixpoint reading (h : list (event call)) : option time :=
  match h with
  | [] => None
  | (Gettimeofday, a) :: _ => match time_at (uninit 16 a) 0 with Ret t => Some t | _ => None end
  | _ :: h => reading h
  end.

(** The [n]-th packet, counted from 0, is due at [start + 5 n] seconds. *)
Definition due (start : Z) (n : Z) : Z := start + 5 * n.

(** A call after a history: a packet goes to the group when it is due; the tool waits
    only when every packet that is due is sent, and exactly until the next one is. *)
Definition timely (start : Z) (c : call) (h : list (event call)) : Prop :=
  match c with
  | Sendto _ buf addr port =>
      buf = sync /\ addr = group /\ port = ptp_port /\
      exists now, reading h = Some now /\ due start (sent h) <= now.1
  | Select _ d =>
      exists now, reading h = Some now /\ sent h = Z.max 0 ((now.1 - start) / 5 + 1) /\
        0 <= d.2 < 1000000 /\ us now + us d = due start (sent h) * 1000000
  | _ => True
  end.

Fixpoint on_schedule (start : Z) (h : list (event call)) : Prop :=
  match h with
  | [] => True
  | (c, _) :: h => timely start c h /\ on_schedule start h
  end.

(** A clock that does not go backwards. *)
Record clock_ok (K : kernel call) (clock : list (event call) -> time) : Prop := {
  clock_read h : data (K h Gettimeofday) = time_bytes (clock h);
  clock_range h : 0 <= (clock h).1 < 2 ^ 40 /\ 0 <= (clock h).2 < 1000000;
  clock_mono t h : us (clock h) <= us (clock (t ++ h))
}.

Definition idle (c : call) : Prop := match c with Sendto _ _ _ _ | Select _ _ => False | _ => True end.

Lemma sent_idle t h : Forall (fun e => idle e.1) t -> sent (t ++ h) = sent h.
Proof. induction 1 as [|[c a] t Hc _ IH]; [done|]. by destruct c. Qed.

Lemma sent_nonneg h : 0 <= sent h.
Proof. induction h as [|[c a] h IH]; [done|]. destruct c; cbn [sent]; lia. Qed.

Lemma schedule_idle start t h : Forall (fun e => idle e.1) t -> on_schedule start h -> on_schedule start (t ++ h).
Proof. induction 1 as [|[c a] t Hc _ IH]; [done|]. intros Hh. split; [by destruct c|auto]. Qed.

Definition receiving (c : call) : Prop :=
  match c with Printf _ | Gettimeofday | Ioctl _ _ | Recvmsg _ _ => True | _ => False end.

Lemma recvpacket_emits sock flags g gn : emits receiving (recvpacket sock flags g gn).
Proof.
  unfold recvpacket, printpacket, last_stamp, gettimeofday, printf. emits. apply each_cmsg_emits. intros c.
  unfold print_cmsg, printf. emits.
Qed.

Lemma recvpacket_idle sock flags g gn : emits idle (recvpacket sock flags g gn).
Proof. eapply emits_mono; [|apply recvpacket_emits]. by intros []. Qed.

Section Schedule.
Context (K : kernel call) (clock : list (event call) -> time) (start : Z).
Hypothesis HK : clock_ok K clock.

Lemma wp_clock {A} (k : time -> prog A) h Q :
  (forall a, reading ((Gettimeofday, a) :: h) = Some (clock h) -> wp (k (clock h)) K tt ((Gettimeofday, a) :: h) Q) ->
  wp (io_bind gettimeofday k) K tt h Q.
Proof using HK.
  intros Hk. unfold gettimeofday. wp_step. wp_step. wp_step. wp_step. apply wp_lift.
  assert (time_at (uninit 16 (K h Gettimeofday)) 0 = Ret (clock h)) as E.
  { unfold uninit. rewrite (clock_read _ _ HK). destruct (clock_range _ _ HK h) as [H1 H2].
    unfold ztake. rewrite take_app_length' by (pose proof (zlen_time (clock h)); unfold zlen in *; lia).
    eapply (time_at_le (clock h) [] []); [by rewrite app_nil_r|done|]. unfold time_ok. lia. }
  rewrite E. wp_step. apply Hk. cbn [reading]. by rewrite E.
Qed.

(** At the head of the loop: the next packet is due at [next], and the one before was
    due when it was sent. *)
Definition ready (next : time) (h : list (event call)) : Prop :=
  next = (due start (sent h), 0) /\ - 10 <= due start (sent h) <= 2 ^ 40 + 10 /\
  (0 < sent h -> forall t, due start (sent h - 1) * 1000000 <= us (clock (t ++ h))) /\
  on_schedule start h.

Lemma ready_idle next t h : Forall (fun e => idle e.1) t -> ready next h -> ready next (t ++ h).
Proof.
  intros Ht (-> & Hb & Hs & Ho). unfold ready. rewrite sent_idle by done. split_and!; [done|lia|lia| |].
  - intros Hp u. rewrite app_assoc. by apply Hs.
  - by apply schedule_idle.
Qed.

Lemma ready_cons next c a h : idle c -> ready next h -> ready next ((c, a) :: h).
Proof. intros Hc. apply (ready_idle next [(c, a)]). by constructor. Qed.

Lemma delta_eq (next now : time) :
  next.2 = 0 -> - 10 <= next.1 <= 2 ^ 40 + 10 -> 0 <= now.1 < 2 ^ 40 -> 0 <= now.2 < 1000000 ->
  i64 (i64 ((next.1 - now.1) * 1000000) + (next.2 - now.2)) = us next - us now.
Proof. unfold us. intros. rewrite (i64_small (_ * _)) by lia. rewrite i64_small; lia. Qed.

(** Calls that neither send nor wait, then [next]. *)
Lemma wp_idle {A} next (m : prog A) h Q :
  ready next h -> emits idle m ->
  (forall r h', ready next h' -> Q r tt h') -> wp m K tt h Q.
Proof.
  intros Hr Hm HQ. eapply wp_wand; [apply Hm|]. intros r [] h' (t & -> & Ht). by apply HQ, ready_idle.
Qed.

Lemma slots (now : time) n :
  0 <= n -> 0 <= now.2 < 1000000 -> us now < due start n * 1000000 ->
  (0 < n -> due start (n - 1) * 1000000 <= us now) -> n = Z.max 0 ((now.1 - start) / 5 + 1).
Proof.
  unfold us, due. intros Hn Hu Hlt Hge. pose proof (Z.div_mod (now.1 - start) 5).
  pose proof (Z.mod_pos_bound (now.1 - start) 5). destruct (decide (0 < n)) as [Hp|]; [specialize (Hge Hp)|]; lia.
Qed.

Lemma turn_ready sock o next h :
  ready next h ->
  wp (turn sock o next) K tt h (fun r _ h' => on_schedule start h' /\ forall next', r = Ret next' -> ready next' h').
Proof using HK.
  intros Hr. unfold turn. apply wp_clock. intros a Ea. destruct (clock_range _ _ HK h) as [Hs Hu].
  assert (ready next ((Gettimeofday, a) :: h)) as Hr1 by (by apply ready_cons).
  pose proof Hr as (Hn & Hb & Hp & Ho). set (now := clock h) in *. pose proof (sent_nonneg h).
  rewrite delta_eq by (rewrite ?Hn; done). assert (us next = due start (sent h) * 1000000) as Hun by (rewrite Hn; unfold us; cbn; lia).
  destruct (Z.ltb_spec 0 (us next - us now)) as [Hd|Hd].
  - unfold printf. wp_step. wp_step. wp_step. apply wp_sys_any. intros b. do 2 wp_step. wp_step. wp_step. apply wp_sys_any. intros r.
    assert (timely start (Select sock (Z.quot (us next - us now) 1000000, Z.rem (us next - us now) 1000000))
      ((Printf (SelectFor now (us next - us now)), b) :: (Gettimeofday, a) :: h)) as Ht.
    { exists now. cbn [sent fst snd]. split_and!; [done| |apply Z.rem_bound_pos; lia..|].
      - apply (slots now (sent h)); [done|done|unfold us in *; lia|].
        intros Hpos. specialize (Hp Hpos []). change (clock ([] ++ h)) with now in Hp. done.
      - unfold us at 2. cbn [fst snd]. pose proof (Z.quot_rem' (us next - us now) 1000000). lia. }
    assert (ready next ((Select sock (Z.quot (us next - us now) 1000000, Z.rem (us next - us now) 1000000), r) ::
      (Printf (SelectFor now (us next - us now)), b) :: (Gettimeofday, a) :: h)) as Hr2.
    { apply (ready_cons _ (Printf (SelectFor now (us next - us now))) b) in Hr1 as (H1 & H2 & H3 & H4); [|done].
      unfold ready. cbn [sent] in *. split_and!; [done|lia|lia| |done]. intros Hpos t.
      rewrite cons_middle, app_assoc. by apply (H3 Hpos). }
    assert (forall h', ready next h' -> on_schedule start h' /\ ready next h') as Hfin by (by intros h' (? & ? & ? & ?)).
    wp_step. wp_step. eapply (wp_idle next); [exact Hr2|unfold gettimeofday; emits|]. intros w h' [Hw Hr3]%Hfin.
    destruct w as [t| | |]; wp_step; [|done..]. wp_step. eapply (wp_idle next); [exact Hr3|emits|]. intros w h2 [Hw2 Hr4]%Hfin.
    destruct w as [[]| | |]; wp_step; [|done..]. wp_step. eapply (wp_idle next); [exact Hr4|emits; apply recvpacket_idle|].
    intros w h3 [Hw3 Hr5]%Hfin. destruct w as [[]| | |]; wp_step; [|done..]. wp_step. split; [done|]. by intros ? [= <-].
  - unfold sendpacket. wp_step. wp_step. wp_step. apply wp_sys_any. intros r.
    assert (ready (next.1 + 5, next.2) ((Sendto sock sync group ptp_port, r) :: (Gettimeofday, a) :: h)) as Hr2.
    { unfold ready, due in *. cbn [sent on_schedule timely]. subst next. cbn [fst snd] in *. split_and!.
      - f_equal. lia.
      - lia.
      - unfold us in *. lia.
      - intros _ t. pose proof (clock_mono _ _ HK (t ++ [(Sendto sock sync group ptp_port, r); (Gettimeofday, a)]) h) as Hm.
        rewrite <- app_assoc in Hm. cbn [app] in Hm. fold now in Hm. etrans; [|exact Hm]. lia.
      - done.
      - done.
      - done.
      - exists now. split; [done|]. unfold us, due in *. lia.
      - done.
      - done. }
    assert (forall h', ready (next.1 + 5, next.2) h' -> on_schedule start h') as Hfin by (by intros h' (? & ? & ? & ?)).
    wp_step. eapply (wp_idle (next.1 + 5, next.2)); [exact Hr2|unfold gettimeofday, printf; emits|]. intros w h' Hr3.
    destruct w as [[]| | |]; wp_step; [|split; [auto|done]..]. wp_step. split; [auto|]. by intros ? [= <-].
Qed.

Lemma turns_schedule fuel sock o next h :
  ready next h -> wp (turns fuel sock o next) K tt h (fun _ _ h' => on_schedule start h').
Proof using HK.
  revert next h. induction fuel as [|fuel IH]; intros next h Hr; cbn [turns]; [wp_step; by destruct Hr as (? & ? & ? & ?)|].
  wp_step. eapply wp_wand; [by apply turn_ready|]. intros r [] h' [Ho Hn].
  destruct r; wp_step; try done. by apply IH, Hn.
Qed.

End Schedule.

Lemma setup_idle interface o : emits idle (setup interface o).
Proof. unfold setup, hw_setup, require_opt, show_opt, bail, printf. emits. Qed.

Lemma parse_options_idle o args : emits idle (parse_options o args).
Proof.
  revert o. induction args as [|arg args IH]; intros o; cbn [parse_options]; unfold usage, printf; emits.
Qed.

(** The calls that configure the interface and the socket. *)
Definition config_call (c : call) : option call :=
  match c with Setsockopt _ _ _ _ | SetHwtstamp _ _ _ => Some c | _ => None end.

Lemma turns_emits fuel sock o next : emits (fun c => config_call c = None) (turns fuel sock o next).
Proof.
  revert next. induction fuel as [|fuel IH]; intros next; cbn [turns]; unfold turn, sendpacket, gettimeofday, printf; emits.
  all: eapply emits_mono; [|apply recvpacket_emits]; by intros [].
Qed.

(** C36: with a clock that does not go backwards, every packet goes out when it is due,
    at five-second steps from a multiple of five seconds at most three before and one
    after the start, and whenever the tool waits it has sent all the packets that are
    due, no more, and waits exactly until the next one is. *)
Theorem packets_on_schedule K clock fuel argv o s h :
  clock_ok K clock -> main fuel argv K tt [] = (o, s, h) ->
  exists start, on_schedule start h /\ start mod 5 = 0 /\
    (0 < sent h -> exists h0, h0 `suffix_of` h /\ (clock h0).1 - 3 <= start <= (clock h0).1 + 1).
Proof.
  intros HK.
  set (Q := fun h : list (event call) => exists start, on_schedule start h /\ start mod 5 = 0 /\
    (0 < sent h -> exists h0, h0 `suffix_of` h /\ (clock h0).1 - 3 <= start <= (clock h0).1 + 1)).
  apply (wp_elim _ _ _ _ (fun _ _ h => Q h)).
  assert (forall t, Forall (fun e => idle e.1) t -> Q t) as Hidle.
  { intros t Ht. exists 0. rewrite <- (app_nil_r t). rewrite sent_idle by done. split; [by apply schedule_idle|].
    split; [done|]. cbn [sent]. lia. }
  unfold main. destruct argv as [|name [|interface args]].
  1, 2: unfold usage, printf; wp_go; apply Hidle; by repeat constructor.
  eapply wp_emits; [apply parse_options_idle|]. intros r [] t1 H1. destruct r as [opt| | |]; wp_step.
  2-4: rewrite app_nil_r; by apply Hidle.
  eapply wp_emits; [apply setup_idle|]. intros r [] t2 H2. rewrite app_nil_r.
  assert (Forall (fun e : event call => idle e.1) (t2 ++ t1)) as H12 by (by apply Forall_app).
  destruct r as [sock| | |]; wp_step; [|by apply Hidle..].
  apply (wp_clock K clock HK). intros a _. set (h0 := t2 ++ t1) in *. destruct (clock_range _ _ HK h0) as [Hs _].
  set (start := Z.quot ((clock h0).1 + 1) 5 * 5). pose proof (Z.quot_rem' ((clock h0).1 + 1) 5).
  pose proof (Z.rem_bound_pos ((clock h0).1 + 1) 5).
  eapply wp_wand; [apply wp_and; [apply (turns_schedule K clock start HK)|apply turns_emits]|].
  - unfold ready. cbn [sent on_schedule timely]. pose proof (sent_idle h0 [] H12) as E. rewrite app_nil_r in E. rewrite E.
    unfold due. cbn [sent]. split_and!; [f_equal; lia|lia|lia|lia|done|]. rewrite <- (app_nil_r h0). by apply schedule_idle.
  - intros _ _ h' [Ho (t & -> & _)]. exists start. split; [done|]. split; [by apply Z.mod_mul|]. intros _. exists h0.
    split; [|lia]. exists (t ++ [(Gettimeofday, a)]). by rewrite <- app_assoc.
Qed.

(** ** The options *)

(** Whether a name is among the arguments, in whatever case. *)
Definition given (args : list string) (name : string) : bool := existsb (fun a => same_word a name) args.

Definition flag_names : list (string * Z) :=
  [("SOF_TIMESTAMPING_TX_HARDWARE", SOF_TIMESTAMPING_TX_HARDWARE);
   ("SOF_TIMESTAMPING_TX_SOFTWARE", SOF_TIMESTAMPING_TX_SOFTWARE);
   ("SOF_TIMESTAMPING_RX_HARDWARE", SOF_TIMESTAMPING_RX_HARDWARE);
   ("SOF_TIMESTAMPING_RX_SOFTWARE", SOF_TIMESTAMPING_RX_SOFTWARE);
   ("SOF_TIMESTAMPING_SOFTWARE", SOF_TIMESTAMPING_SOFTWARE);
   ("SOF_TIMESTAMPING_RAW_HARDWARE", SOF_TIMESTAMPING_RAW_HARDWARE)].

Definition option_names : list string :=
  ["SO_TIMESTAMP"; "SO_TIMESTAMPNS"; "SIOCGSTAMP"; "SIOCGSTAMPNS"; "IP_MULTICAST_LOOP"] ++ flag_names.*1.

Definition given_flags (args : list string) : Z :=
  foldr (fun p f => Z.lor (if given args p.1 then p.2 else 0) f) 0 flag_names.

Definition opts_of (args : list string) : opts :=
  Opts (given args "SO_TIMESTAMP") (given args "SO_TIMESTAMPNS") (given args "SIOCGSTAMP") (given args "SIOCGSTAMPNS")
    (given args "IP_MULTICAST_LOOP") (given_flags args).

Definition merge (a b : opts) : opts :=
  Opts (so_timestamp a || so_timestamp b) (so_timestampns a || so_timestampns b) (siocgstamp a || siocgstamp b)
    (siocgstampns a || siocgstampns b) (ip_multicast_loop a || ip_multicast_loop b)
    (Z.lor (so_timestamping_flags a) (so_timestamping_flags b)).

Definition is_option (a : string) : bool := existsb (same_word a) option_names.

Lemma parse_option_merge o a :
  parse_option o a = if is_option a then Some (merge o (opts_of [a])) else None.
Proof.
  destruct o as [t n g gn l f].
  unfold parse_option, is_option, opts_of, given_flags, given, flag_names, option_names, merge, flag.
  cbn [existsb foldr fmap list_fmap app fst snd so_timestamp so_timestampns siocgstamp siocgstampns ip_multicast_loop so_timestamping_flags].
  repeat match goal with
  | |- context [if same_word a ?x then Some _ else _] =>
      destruct (same_word a x) eqn:?; [|cbn [orb]]
  end.
  all: try match goal with H : same_word _ _ = true |- _ =>
    apply String.eqb_eq in H; unfold same_word; rewrite H; cbn; rewrite ?orb_false_r, ?orb_true_r, ?Z.lor_0_r; reflexivity end.
  replace (existsb (same_word a) flag_names.*1) with false; [done|].
  unfold flag_names. cbn [fmap list_fmap existsb fst]. by repeat match goal with H : _ = false |- _ => rewrite H end.
Qed.

Lemma testbit_if (b : bool) x i : Z.testbit (if b then x else 0) i = b && Z.testbit x i.
Proof. destruct b; [done|apply Z.bits_0]. Qed.

Lemma merge_cons o a args : merge (merge o (opts_of [a])) (opts_of args) = merge o (opts_of (a :: args)).
Proof.
  unfold merge, opts_of. cbn [so_timestamp so_timestampns siocgstamp siocgstampns ip_multicast_loop so_timestamping_flags].
  assert (forall n, given (a :: args) n = given [a] n || given args n) as E.
  { intros n. unfold given. cbn [existsb]. by rewrite orb_false_r. }
  rewrite !E. f_equal; try btauto. unfold given_flags, flag_names. cbn [foldr fst snd]. rewrite !E.
  bitwise i. rewrite !testbit_if. btauto.
Qed.

(** The result is the set of names given; the first unknown argument stops the tool. *)
Lemma parse_options_spec o args K h :
  if forallb is_option args then parse_options o args K tt h = (Ret (merge o (opts_of args)), tt, h)
  else exists h', parse_options o args K tt h = (Exit 1, tt, h').
Proof.
  revert o h. induction args as [|a args IH]; intros o h; cbn [forallb parse_options].
  - unfold io_ret. destruct o as [t n g gn l f]. unfold merge. cbn. by rewrite !orb_false_r, Z.lor_0_r.
  - rewrite parse_option_merge. destruct (is_option a); cbn [andb].
    + specialize (IH (merge o (opts_of [a])) h). by rewrite merge_cons in IH.
    + eexists. reflexivity.
Qed.

(** The configuration a history requested, oldest first. *)
Definition configuration (h : list (event call)) : list call := trace config_call h.

(** What the options ask for. *)
Definition wanted (sock : Z) (interface : string) (addr : list Z) (args : list string) : list call :=
  let opt (b : bool) c := if b then [c] else [] in
  [SetHwtstamp sock (ifr_name interface)
     (int 0 ++ int (if given args "SOF_TIMESTAMPING_TX_HARDWARE" then HWTSTAMP_TX_ON else HWTSTAMP_TX_OFF) ++
      int (if given args "SOF_TIMESTAMPING_RX_HARDWARE" then HWTSTAMP_FILTER_PTP_V1_L4_SYNC else HWTSTAMP_FILTER_NONE));
   Setsockopt sock IPPROTO_IP IP_MULTICAST_IF addr;
   Setsockopt sock IPPROTO_IP IP_ADD_MEMBERSHIP (group ++ addr);
   Setsockopt sock IPPROTO_IP IP_MULTICAST_LOOP (int (if given args "IP_MULTICAST_LOOP" then 1 else 0))] ++
  opt (given args "SO_TIMESTAMP") (Setsockopt sock SOL_SOCKET SO_TIMESTAMP (int 1)) ++
  opt (given args "SO_TIMESTAMPNS") (Setsockopt sock SOL_SOCKET SO_TIMESTAMPNS (int 1)) ++
  opt (existsb (given args) flag_names.*1) (Setsockopt sock SOL_SOCKET SO_TIMESTAMPING (int (given_flags args))) ++
  [Setsockopt sock SOL_IP IP_PKTINFO (int 1)].

Definition asks (m : prog unit) (cs : list call) : Prop :=
  forall K h, wp m K tt h (fun r _ h' => r = Exit 1 \/ r = Ret tt /\ configuration h' = configuration h ++ cs).

Lemma asks_bind {A} m cs (k : unit -> prog A) K h (Q : outcome A -> unit -> list (event call) -> Prop) :
  asks m cs -> (forall h', Q (Exit 1) tt h') ->
  (forall h', configuration h' = configuration h ++ cs -> wp (k tt) K tt h' Q) -> wp (io_bind m k) K tt h Q.
Proof.
  intros Hm HQ Hk. wp_step. eapply wp_wand; [apply Hm|]. intros r [] h' [-> |[-> Hc]]; wp_step; auto.
Qed.

Lemma configuration_cons c a h :
  configuration ((c, a) :: h) = configuration h ++ match config_call c with Some c => [c] | None => [] end.
Proof. apply trace_cons. Qed.

Ltac asked := right; split; [done|]; rewrite ?configuration_cons; cbn [config_call]; by rewrite ?app_nil_r.

Lemma asks_require sock level opt val e : asks (require_opt sock level opt val e) [Setsockopt sock level opt val].
Proof. intros K h. unfold require_opt, bail, printf. wp_go; [by left|asked]. Qed.

Lemma asks_check (a : ans) e : asks (if ret a <? 0 then bail e (errno a) else io_ret tt) [].
Proof. intros K h. unfold bail, printf. wp_go; [by left|asked]. Qed.

Lemma asks_report (a : ans) e : asks (if ret a <? 0 then printf (Errno e (errno a)) else io_ret tt) [].
Proof. intros K h. unfold printf. wp_go; asked. Qed.

Lemma asks_if (b : bool) m cs : asks m cs -> asks (if b then m else io_ret tt) (if b then cs else []).
Proof. destruct b; [done|]. intros _ K h. wp_step. asked. Qed.

Lemma asks_show sock opt what e more : (forall v, asks (more v) []) -> asks (show_opt sock opt what e more) [].
Proof.
  intros Hm K h. unfold show_opt, printf. wp_step. apply wp_sys_any. intros a. wp_step. wp_step; [wp_go; asked|].
  wp_step. apply wp_lift. rewrite rd_in by (rewrite ?zlen_uninit; lia). do 3 wp_step. apply wp_sys_any. intros b.
  do 3 wp_step. eapply wp_wand; [apply Hm|]. intros r [] h' [-> |[-> E]]; [by left|]. right. split; [done|].
  rewrite E, !configuration_cons. cbn [config_call]. by rewrite !app_nil_r.
Qed.

Lemma asks_hw sock interface flags :
  asks (hw_setup sock interface flags)
    [SetHwtstamp sock (ifr_name interface)
       (int 0 ++ int (if has flags SOF_TIMESTAMPING_TX_HARDWARE then HWTSTAMP_TX_ON else HWTSTAMP_TX_OFF) ++
        int (if has flags SOF_TIMESTAMPING_RX_HARDWARE then HWTSTAMP_FILTER_PTP_V1_L4_SYNC else HWTSTAMP_FILTER_NONE))].
Proof.
  intros K h. unfold hw_setup. set (tx := if has flags SOF_TIMESTAMPING_TX_HARDWARE then _ else _).
  set (rx := if has flags SOF_TIMESTAMPING_RX_HARDWARE then _ else _). wp_step. apply wp_sys_any. intros a. wp_step.
  eapply (asks_bind _ []).
  - intros K' h'. unfold bail, printf. wp_go; first [by left|asked].
  - by left.
  - intros h' E. assert (zlen (overlay (hwconfig_bytes tx rx) (data a)) = 12) as Hl by (by rewrite zlen_overlay).
    cbv zeta. rewrite !rd_in by (rewrite ?Hl; lia). wp_step. apply wp_lift. do 2 wp_step. apply wp_lift.
    unfold printf. wp_go. right. split; [done|]. rewrite configuration_cons, E, configuration_cons. cbn [config_call].
    by rewrite !app_nil_r.
Qed.

Lemma asks_nothing : asks (io_ret tt) [].
Proof. intros K h. wp_step. asked. Qed.

Lemma asks_unexpected v flags :
  asks (if negb (v =? flags) then printf (Value "not the expected value" flags) else io_ret tt) [].
Proof. intros K h. unfold printf. wp_go; asked. Qed.

Lemma given_bits args :
  has (given_flags args) SOF_TIMESTAMPING_TX_HARDWARE = given args "SOF_TIMESTAMPING_TX_HARDWARE" /\
  has (given_flags args) SOF_TIMESTAMPING_RX_HARDWARE = given args "SOF_TIMESTAMPING_RX_HARDWARE" /\
  truthy (given_flags args) = existsb (given args) flag_names.*1.
Proof.
  unfold given_flags, flag_names. cbn [foldr fst snd fmap list_fmap existsb].
  by repeat (destruct (given args _)).
Qed.

Lemma setup_asks interface args K h :
  configuration h = [] ->
  wp (setup interface (opts_of args)) K tt h (fun r _ h' => r = Exit 1 \/
    exists sock addr, configuration h' = wanted sock interface addr args).
Proof.
  intros Hc. unfold setup. cbn [opts_of so_timestamp so_timestampns ip_multicast_loop so_timestamping_flags].
  wp_step. apply wp_sys_any. intros s. wp_step. eapply asks_bind; [apply asks_check|by left|]. intros h1 E1.
  wp_step. apply wp_sys_any. intros d. wp_step. eapply asks_bind; [apply asks_check|by left|]. intros h2 E2.
  eapply asks_bind; [apply asks_hw|by left|]. intros h3 E3.
  wp_step. apply wp_sys_any. intros b. wp_step. eapply asks_bind; [apply asks_check|by left|]. intros h4 E4.
  set (addr := ztake 4 _).
  eapply asks_bind; [apply asks_require|by left|]. intros h5 E5. eapply asks_bind; [apply asks_require|by left|]. intros h6 E6.
  eapply asks_bind; [apply asks_require|by left|]. intros h7 E7.
  eapply asks_bind; [apply asks_if, asks_require|by left|]. intros h8 E8.
  eapply asks_bind; [apply asks_if, asks_require|by left|]. intros h9 E9.
  eapply asks_bind; [apply asks_if, asks_require|by left|]. intros h10 E10.
  wp_step. apply wp_sys_any. intros p. wp_step. eapply asks_bind; [apply asks_report|by left|]. intros h11 E11.
  eapply asks_bind; [apply asks_show; intros _; apply asks_nothing|by left|]. intros h12 E12.
  eapply asks_bind; [apply asks_show; intros _; apply asks_nothing|by left|]. intros h13 E13.
  eapply asks_bind; [apply asks_show; intros v; apply asks_unexpected|by left|]. intros h14 E14.
  wp_step. right. exists (ret s), addr. destruct (given_bits args) as (B1 & B2 & B3).
  rewrite E14, E13, E12, E11, configuration_cons, E10, E9, E8, E7, E6, E5, E4, configuration_cons, E3, E2, configuration_cons,
    E1, configuration_cons, Hc. cbn [config_call]. rewrite B1, B2, B3, !app_nil_r, <- !app_assoc. done.
Qed.

(** The tool either stops with status 1, as it does for an unknown option, or has
    requested of the interface and the socket exactly what the options name, in any
    case and order, before its loop starts. *)
Theorem options_take_effect K fuel name interface args o s h :
  main fuel (name :: interface :: args) K tt [] = (o, s, h) ->
  o = Exit 1 \/ forallb is_option args = true /\ exists sock addr, configuration h = wanted sock interface addr args.
Proof.
  apply (wp_elim _ _ _ _ (fun o _ h => o = Exit 1 \/ forallb is_option args = true /\
    exists sock addr, configuration h = wanted sock interface addr args)).
  unfold main. wp_step. pose proof (parse_options_spec no_opts args K []) as Hp. unfold wp at 1.
  destruct (forallb is_option args); [|destruct Hp as [h' ->]; wp_step; by left]. rewrite Hp. wp_step.
  replace (merge no_opts (opts_of args)) with (opts_of args) by (unfold merge, no_opts; cbn; by destruct (given_flags args)).
  wp_step. eapply wp_wand; [by apply setup_asks|]. intros r [] h' [-> |(sock & addr & Hc)]; [wp_step; by left|].
  destruct r as [v| | |]; wp_step; [|right; eauto..].
  assert (emits (fun c => config_call c = None)
    (let* t := gettimeofday in turns fuel v (opts_of args) (Z.quot (t.1 + 1) 5 * 5, 0))) as He
    by (unfold gettimeofday; emits; apply turns_emits).
  eapply wp_wand; [apply He|]. intros r [] h2 (t & -> & Ht). right. split; [done|]. exists sock, addr.
  rewrite <- Hc. by apply trace_quiet.
Qed.

(** ** Witnesses *)

(** A clock that advances with every call, a socket that works, and a packet that comes
    back through the error queue. *)
Definition sample_clock (h : list (event call)) : time := (Z.min (1000 + zlen h) 2000, 0).

Definition sample_reports : list report := [Stamping (7, 250) (0, 0) (0, 0); Bounced 42 4 (replicate 11 0); Pktinfo 2 (replicate 8 0)].
Definition sample_control : list Z := encode_all (report_cmsg <$> sample_reports).
Definition sample_rest : list Z := replicate (Z.to_nat (sizeof_control - zlen sample_control)) 0.
Definition sample_junk : list Z := replicate (Z.to_nat (256 - zlen sync)) 0.

Definition sample_kernel : kernel call := fun h c =>
  match c with
  | Gettimeofday => Ans 0 0 (time_bytes (sample_clock h))
  | Socket => aret 3
  | Select _ _ => Ans 1 0 [0; 1]
  | Recvmsg _ _ =>
      Ans (zlen sync) 0 ([10; 0; 0; 1] ++ le_bytes 8 (zlen sample_control) ++ (sample_control ++ sample_rest) ++ sync ++ sample_junk)
  | Sendto _ buf _ _ => aret (zlen buf)
  | _ => aret 0
  end.

Lemma sample_clock_ok : clock_ok sample_kernel sample_clock.
Proof.
  split; [done|..]; unfold sample_clock; cbn [fst snd].
  - intros h. pose proof (zlen_nonneg h). lia.
  - intros t h. unfold us. cbn [fst snd]. rewrite zlen_app. pose proof (zlen_nonneg t). lia.
Qed.

Lemma sample_reports_ok : Forall report_ok sample_reports.
Proof. repeat constructor; vm_compute; intuition congruence. Qed.

Lemma control_printed_witness : exists now stamps h',
  recvpacket 3 MSG_ERRQUEUE false false sample_kernel tt [] = (Ret tt, tt, h') /\
  output h' = Received now true 124 [10; 0; 0; 1] (zlen sample_control) ::
    [CmsgLen 64; Word "SOL_SOCKET "; Word "SO_TIMESTAMPING "; StampNs "SW " (7, 250); StampNs "HW raw " (0, 0); Word nl;
     CmsgLen 32; Word "IPPROTO_IP "; Recverr 42 4 true; Word " => GOT OUR DATA BACK (HURRAY!)"; Word nl;
     CmsgLen 28; Word "IPPROTO_IP "; Ifindex 2; Word nl] ++ stamps /\ length stamps = 0%nat.
Proof.
  destruct (control_printed sample_kernel 3 MSG_ERRQUEUE false false sample_reports [10; 0; 0; 1] sample_rest sync sample_junk 0 [])
    as (now & stamps & h' & E1 & E2 & E3).
  - apply sample_reports_ok.
  - done.
  - done.
  - done.
  - done.
  - exists now, stamps, h'. split; [exact E1|]. split; [|exact E3]. etransitivity; [exact E2|]. reflexivity.
Defined.

Lemma packets_on_schedule_witness : exists o s h start,
  main 6 ["timestamping"; "eth0"; "so_timestamp"] sample_kernel tt [] = (o, s, h) /\ 0 < sent h /\
  on_schedule start h /\ start mod 5 = 0.
Proof.
  assert (0 < sent (main 6 ["timestamping"; "eth0"; "so_timestamp"] sample_kernel tt []).2) as Hs by (vm_compute; reflexivity).
  destruct (main 6 ["timestamping"; "eth0"; "so_timestamp"] sample_kernel tt []) as [[o s] h] eqn:E.
  destruct (packets_on_schedule sample_kernel sample_clock _ _ _ _ _ sample_clock_ok E) as (start & H1 & H2 & _).
  exists o, s, h, start. exact (conj eq_refl (conj Hs (conj H1 H2))).
Defined.

Lemma options_take_effect_witness : exists sock addr,
  configuration (main 1 ["timestamping"; "eth0"; "so_timestamp"; "SOF_TIMESTAMPING_tx_hardware"] sample_kernel tt []).2 =
    [SetHwtstamp sock (ifr_name "eth0") (int 0 ++ int 1 ++ int 0);
     Setsockopt sock IPPROTO_IP IP_MULTICAST_IF addr; Setsockopt sock IPPROTO_IP IP_ADD_MEMBERSHIP (group ++ addr);
     Setsockopt sock IPPROTO_IP IP_MULTICAST_LOOP (int 0); Setsockopt sock SOL_SOCKET SO_TIMESTAMP (int 1);
     Setsockopt sock SOL_SOCKET SO_TIMESTAMPING (int 1); Setsockopt sock SOL_IP IP_PKTINFO (int 1)].
Proof.
  destruct (main 1 _ sample_kernel tt []) as [[o s] h] eqn:E.
  destruct (options_take_effect _ _ _ _ _ _ _ _ E) as [Ho|(_ & sock & addr & Hc)].
  - exfalso. assert (o = (main 1 ["timestamping"; "eth0"; "so_timestamp"; "SOF_TIMESTAMPING_tx_hardware"] sample_kernel tt []).1.1) as Ho'
      by (by rewrite E). vm_compute in Ho'. congruence.
  - exists sock, addr. exact Hc.
Defined.

End Ts.
