(* ===== verification/TxTimestamp.v ===== *)
(** * Transmit time stamps: Documentation/networking/timestamping/txtimestamp.c

    The tool sends four packets for every kind of transmit time stamp and reads the
    stamps back from the error queue of the socket.  The command-line parameters, global
    variables in the source, are the record [cfg]; the state of a program is the
    variable [ts_prev] and the two pointers of [__recv_errmsg_cmsg].  Structures are bytes in
    host (little-endian, 64-bit) order, addresses into a buffer are offsets. *)

From S2P Require Import Prelude Posix CArray Output Cmsg.

Module Tx.

Open Scope Z_scope.

(** ** Constants of the headers *)

Definition SOCK_STREAM := 1.
Definition SOCK_DGRAM := 2.
Definition SOCK_RAW := 3.
Definition IPPROTO_TCP := 6.
Definition IPPROTO_UDP := 17.
Definition IPPROTO_IPV6 := 41.
Definition IPPROTO_RAW := 255.
Definition PF_INET := 2.
Definition PF_INET6 := 10.
Definition SOL_SOCKET := 1.
Definition SO_TIMESTAMPING := 37.
Definition SCM_TIMESTAMPING := 37.
Definition TCP_NODELAY := 1.
Definition SOL_IP := 0.
Definition SOL_IPV6 := 41.
Definition IP_RECVERR := 11.
Definition IPV6_RECVERR := 25.
Definition SO_EE_ORIGIN_TIMESTAMPING := 4.
Definition SCM_TSTAMP_SND := 0.
Definition SCM_TSTAMP_SCHED := 1.
Definition SCM_TSTAMP_ACK := 2.
Definition SOF_TIMESTAMPING_TX_SOFTWARE := 2.
Definition SOF_TIMESTAMPING_SOFTWARE := 16.
Definition SOF_TIMESTAMPING_OPT_ID := 128.
Definition SOF_TIMESTAMPING_TX_SCHED := 256.
Definition SOF_TIMESTAMPING_TX_ACK := 512.

(** ** Data *)

Record cfg : Type := Cfg {
  cfg_proto : Z; cfg_ipproto : Z; do_ipv4 : bool; do_ipv6 : bool; cfg_payload_len : Z; dest_port : Z;
  daddr : list Z; daddr6 : list Z
}.

Definition cfg_num_pkts : nat := 4.

Definition default_cfg : cfg :=
  Cfg SOCK_STREAM IPPROTO_TCP true true 10 9000 (replicate 16 0) (replicate 28 0).

Record st : Type := St { ts_prev : time; serr : option Z; tss : option Z }.

Definition start : st := St (0, 0) None None.

Inductive text : Type :=
| Line (s : string)
| Error (what : string) (e : Z)
| Stamp (name : string) (sec usec seq len : Z)
| Delta (us : Z)
| UnknownIpError (e origin : Z)
| UnknownCmsg (level type : Z)
| UnknownType (t : Z)
| Value (what : string) (v : Z)
| Usage.

Inductive call : Type :=
| Eprintf (t : text)
| Malloc (n : Z)
| Free (p : Z)
| Gettimeofday
| Getopt
| Optind
| Getaddrinfo (host : string)
| Freeaddrinfo
| Socket (family proto ipproto : Z)
| Setsockopt (fd level opt val : Z)
| Connect (fd : Z) (addr : list Z)
| Sendto (fd : Z) (buf addr : list Z)
| Send (fd : Z) (buf : list Z)
| Usleep (us : Z)
| Poll (fd timeout : Z)
| Recvmsg (fd : Z)
| Close (fd : Z).

Abbreviation prog := (io call st).

Open Scope io_scope.

Definition fprintf (t : text) : prog unit := sys (Eprintf t) ;; io_ret tt.

(** [error(1, e, what)] *)
Definition error {A} (e : Z) (what : string) : prog A := fprintf (Error what e) ;; exit_ 1.

(** ** Printing time stamps *)

Definition set_prev (t : time) : prog unit := modify (fun s => St t (serr s) (tss s)).

(** [!(t.tv_sec | t.tv_nsec)] *)
Definition zero_time (t : time) : bool := Z.lor t.1 t.2 =? 0.

Definition micros (t : time) : Z := i64 (i64 (t.1 * 1000 * 1000) + Z.quot t.2 1000).

Definition print_stamp (name : string) (cur : time) (key payload_len : Z) : prog unit :=
  if zero_time cur then io_ret tt
  else
    fprintf (Stamp name (u64 cur.1) (u64 (Z.quot cur.2 1000)) key (u32 payload_len)) ;;
    let* s := get in
    (if zero_time (ts_prev s) then io_ret tt
     else fprintf (Delta (i64 (micros cur - micros (ts_prev s))))) ;;
    set_prev cur ;;
    fprintf (Line nl).

Definition print_timestamp_usr : prog unit :=
  let* a := sys Gettimeofday in
  let* tv := lift (time_at (uninit 16 a) 0) in
  print_stamp "  USR" (tv.1, i64 (tv.2 * 1000)) 0 0.

(** The stamp is the first of the three at the address. *)
Definition print_timestamp (ctrl : list Z) (tss : Z) (tstype tskey payload_len : Z) : prog unit :=
  let* tsname :=
    if tstype =? SCM_TSTAMP_SCHED then io_ret "  ENQ"
    else if tstype =? SCM_TSTAMP_SND then io_ret "  SND"
    else if tstype =? SCM_TSTAMP_ACK then io_ret "  ACK"
    else fprintf (UnknownType (u32 tstype)) ;; exit_ 1 in
  let* cur := lift (time_at ctrl tss) in
  print_stamp tsname cur (u32 tskey) payload_len.

(** ** The error queue *)

Definition poll_once (fd : Z) : prog unit :=
  let* r := sys (Poll fd 100) in
  if negb (ret r =? 1) then error (errno r) "poll" else io_ret tt.

Definition set_serr (p : option Z) : prog unit := modify (fun s => St (ts_prev s) p (tss s)).
Definition set_tss (p : option Z) : prog unit := modify (fun s => St (ts_prev s) (serr s) p).

(** The body of the loop over control messages. *)
Definition errmsg_cmsg (ctrl : list Z) (cm : Z) : prog unit :=
  let* level := lift (cmsg_level ctrl cm) in
  let* type := lift (cmsg_type ctrl cm) in
  if (level =? SOL_SOCKET) && (type =? SCM_TIMESTAMPING) then set_tss (Some (CMSG_DATA cm))
  else if (level =? SOL_IP) && (type =? IP_RECVERR) || (level =? SOL_IPV6) && (type =? IPV6_RECVERR) then
    set_serr (Some (CMSG_DATA cm)) ;;
    let* ee_errno := lift (rd 4 ctrl (CMSG_DATA cm)) in
    let* ee_origin := lift (rd 1 ctrl (CMSG_DATA cm + 4)) in
    if negb (ee_errno =? ENOMSG) || negb (ee_origin =? SO_EE_ORIGIN_TIMESTAMPING) then
      fprintf (UnknownIpError (i32 ee_errno) ee_origin) ;;
      set_serr None
    else io_ret tt
  else fprintf (UnknownCmsg level type).

Definition sizeof_ctrl := 1024.
Definition cmsg_fuel : nat := 66.

Definition recv_errmsg_cmsg (ctrl : list Z) (controllen payload_len : Z) : prog unit :=
  set_serr None ;;
  set_tss None ;;
  each_cmsg cmsg_fuel truthy ctrl controllen (CMSG_FIRSTHDR controllen) (errmsg_cmsg ctrl) ;;
  let* s := get in
  match serr s, tss s with
  | Some e, Some t =>
      let* ee_info := lift (rd 4 ctrl (e + 8)) in
      let* ee_data := lift (rd 4 ctrl (e + 12)) in
      print_timestamp ctrl t (i32 ee_info) (i32 ee_data) payload_len
  | _, _ => io_ret tt
  end.

(** [msg_controllen] and the control buffer, as [recvmsg] leaves them. *)
Definition control (a : ans) : Z * list Z :=
  let buf := overlay (le_bytes 8 sizeof_ctrl ++ replicate (Z.to_nat sizeof_ctrl) 0) (data a) in
  (le_val (ztake 8 buf), zdrop 8 buf).

Definition recv_errmsg (c : cfg) (fd : Z) : prog bool :=
  let* p := sys (Malloc (u64 (cfg_payload_len c))) in
  (if ret p =? 0 then error 0 "malloc" else io_ret tt) ;;
  let* a := sys (Recvmsg fd) in
  let r := i32 (ret a) in
  (if (r =? -1) && negb (errno a =? EAGAIN) then error (errno a) "recvmsg" else io_ret tt) ;;
  let '(controllen, ctrl) := control a in
  recv_errmsg_cmsg ctrl controllen r ;;
  sys (Free (ret p)) ;;
  io_ret (r =? -1).

(** [while (!recv_errmsg(fd)) {}] *)
Fixpoint drain (fuel : nat) (c : cfg) (fd : Z) : prog unit :=
  match fuel with
  | O => nofuel
  | S fuel =>
      let* stop := recv_errmsg c fd in
      if stop : bool then io_ret tt else drain fuel c fd
  end.

(** ** Packets *)

Definition be16 (x : Z) : list Z := [u8 (x / 256); u8 x].

Definition sizeof_udphdr := 8.
Definition sizeof_iphdr := 20.

Definition total_len (c : cfg) : Z :=
  if cfg_proto c =? SOCK_RAW then
    cfg_payload_len c + sizeof_udphdr + (if cfg_ipproto c =? IPPROTO_RAW then sizeof_iphdr else 0)
  else cfg_payload_len c.

(** Version 4, five words, time to live 2, UDP; the kernel fills in the rest. *)
Definition iphdr (dst : list Z) : list Z :=
  [0x45; 0; 0; 0; 0; 0; 0; 0; 2; IPPROTO_UDP; 0; 0; 0; 0; 0; 0] ++ dst.

Definition udphdr (c : cfg) : list Z :=
  be16 9000 ++ be16 (dest_port c) ++ be16 (sizeof_udphdr + cfg_payload_len c) ++ [0; 0].

Open Scope out_scope.

(** The buffer for packet [i]. *)
Definition fill (c : cfg) (i : Z) : outcome (list Z) :=
  let buf := replicate (Z.to_nat (total_len c)) (u8 (97 + i)) in
  let! buf := store buf (total_len c - 2) 10 in
  let! buf := store buf (total_len c - 1) 0 in
  if cfg_proto c =? SOCK_RAW then
    if cfg_ipproto c =? IPPROTO_RAW then
      let! buf := poke buf 0 (iphdr (ztake 4 (zdrop 4 (daddr c)))) in
      poke buf sizeof_iphdr (udphdr c)
    else poke buf 0 (udphdr c)
  else Ret buf.

Close Scope out_scope.

Definition send_packet (c : cfg) (family fd : Z) (i : Z) : prog unit :=
  set_prev (0, 0) ;;
  let* buf := lift (fill c i) in
  print_timestamp_usr ;;
  let* a :=
    if negb (cfg_proto c =? SOCK_STREAM) then
      if family =? PF_INET then sys (Sendto fd buf (daddr c)) else sys (Sendto fd buf (daddr6 c))
    else sys (Send fd (ztake (cfg_payload_len c) buf)) in
  if negb (i32 (ret a) =? total_len c) then error (errno a) "send" else io_ret tt.

(** The loop over packets [i], [i + 1], ..., [n] of them. *)
Fixpoint packets (fuel n : nat) (c : cfg) (family fd : Z) (i : Z) : prog unit :=
  match n with
  | O => io_ret tt
  | S n =>
      send_packet c family fd i ;;
      sys (Usleep (50 * 1000)) ;;
      poll_once fd ;;
      drain fuel c fd ;;
      packets fuel n c family fd (i + 1)
  end.

Definition do_test (fuel : nat) (c : cfg) (family opt : Z) : prog unit :=
  if (family =? IPPROTO_IPV6) && negb (cfg_proto c =? SOCK_STREAM) then
    fprintf (Line "test: skipping datagram over IPv6")
  else
    let* p := sys (Malloc (u64 (total_len c))) in
    (if ret p =? 0 then error 0 "malloc" else io_ret tt) ;;
    let* s := sys (Socket family (cfg_proto c) (cfg_ipproto c)) in
    let fd := ret s in
    (if fd <? 0 then error (errno s) "socket" else io_ret tt) ;;
    (if cfg_proto c =? SOCK_STREAM then
       let* a := sys (Setsockopt fd IPPROTO_TCP TCP_NODELAY 1) in
       (if truthy (ret a) then error 0 "setsockopt no nagle" else io_ret tt) ;;
       if family =? PF_INET then
         let* a := sys (Connect fd (daddr c)) in
         if truthy (ret a) then error (errno a) "connect ipv4" else io_ret tt
       else
         let* a := sys (Connect fd (daddr6 c)) in
         if truthy (ret a) then error (errno a) "connect ipv6" else io_ret tt
     else io_ret tt) ;;
    let opt := Z.lor opt (Z.lor SOF_TIMESTAMPING_SOFTWARE SOF_TIMESTAMPING_OPT_ID) in
    let* a := sys (Setsockopt fd SOL_SOCKET SO_TIMESTAMPING opt) in
    (if truthy (ret a) then error 0 "setsockopt timestamping" else io_ret tt) ;;
    packets fuel cfg_num_pkts c family fd 0 ;;
    let* a := sys (Close fd) in
    (if truthy (ret a) then error (errno a) "close" else io_ret tt) ;;
    sys (Free (ret p)) ;;
    sys (Usleep (400 * 1000)) ;;
    io_ret tt.

(** ** The command line *)

Definition usage {A} : prog A := fprintf Usage ;; exit_ 1.

(** The options: the parameters and [proto_count]. *)
Fixpoint getopt_loop (fuel : nat) (c : cfg) (proto_count : Z) : prog (cfg * Z) :=
  match fuel with
  | O => nofuel
  | S fuel =>
      let* a := sys Getopt in
      let opt := sint 8 (ret a) in
      let 'Cfg proto ipproto v4 v6 len port a4 a6 := c in
      if opt =? -1 then io_ret (c, proto_count)
      else if opt =? 52 then getopt_loop fuel (Cfg proto ipproto v4 false len port a4 a6) proto_count
      else if opt =? 54 then getopt_loop fuel (Cfg proto ipproto false v6 len port a4 a6) proto_count
      else if opt =? 114 then getopt_loop fuel (Cfg SOCK_RAW IPPROTO_UDP v4 v6 len port a4 a6) (proto_count + 1)
      else if opt =? 82 then getopt_loop fuel (Cfg SOCK_RAW IPPROTO_RAW v4 v6 len port a4 a6) (proto_count + 1)
      else if opt =? 117 then getopt_loop fuel (Cfg SOCK_DGRAM IPPROTO_UDP v4 v6 len port a4 a6) (proto_count + 1)
      else if opt =? 108 then
        getopt_loop fuel (Cfg proto ipproto v4 v6 (i32 (strtoul (data a))) port a4 a6) proto_count
      else if opt =? 112 then
        getopt_loop fuel (Cfg proto ipproto v4 v6 len (u16 (strtoul (data a))) a4 a6) proto_count
      else usage
  end.

Definition parse_opt (fuel : nat) (argc : Z) : prog cfg :=
  let* (c, proto_count) := getopt_loop fuel default_cfg 0 in
  (if cfg_payload_len c =? 0 then error 0 "payload may not be nonzero" else io_ret tt) ;;
  (if negb (cfg_proto c =? SOCK_STREAM) && (1472 <? cfg_payload_len c)
   then error 0 "udp packet might exceed expected MTU" else io_ret tt) ;;
  (if negb (do_ipv4 c) && negb (do_ipv6 c) then error 0 "pass -4 or -6, not both" else io_ret tt) ;;
  (if 1 <? proto_count then error 0 "pass -r, -R or -u, not multiple" else io_ret tt) ;;
  let* o := sys Optind in
  (if negb (ret o =? argc - 1) then error 0 "missing required hostname argument" else io_ret tt) ;;
  io_ret c.

(** The list [getaddrinfo] returns: records of a family and 28 bytes of address. *)
Fixpoint addrinfo (fuel : nat) (l : list Z) : list (Z * list Z) :=
  match fuel, l with
  | S fuel, family :: rest => (family, ztake 28 rest) :: addrinfo fuel (zdrop 28 rest)
  | _, _ => []
  end.

Definition set_port (addr : list Z) (port : Z) : list Z := ztake 2 addr ++ be16 port ++ zdrop 4 addr.

(** The loop of [resolve_hostname]: the parameters, [have_ipv4] and [have_ipv6]. *)
Fixpoint pick (c : cfg) (addrs : list (Z * list Z)) (have4 have6 : bool) : cfg * bool * bool :=
  match addrs with
  | [] => (c, have4, have6)
  | (family, addr) :: rest =>
      if negb have4 && negb have6 then
        let 'Cfg proto ipproto v4 v6 len port a4 a6 := c in
        if negb have4 && (family =? PF_INET) then
          pick (Cfg proto ipproto v4 v6 len port (set_port (ztake 16 addr) port) a6) rest true have6
        else if negb have6 && (family =? PF_INET6) then
          pick (Cfg proto ipproto v4 v6 len port a4 (set_port addr port)) rest have4 true
        else pick c rest have4 have6
      else (c, have4, have6)
  end.

Definition resolve_hostname (c : cfg) (hostname : string) : prog cfg :=
  let* a := sys (Getaddrinfo hostname) in
  (if truthy (ret a) then error (errno a) "getaddrinfo" else io_ret tt) ;;
  let addrs := addrinfo (length (data a)) (data a) in
  let '(Cfg proto ipproto v4 v6 len port a4 a6, have4, have6) := pick c addrs false false in
  (match addrs with [] => io_ret tt | _ => sys Freeaddrinfo ;; io_ret tt end) ;;
  io_ret (Cfg proto ipproto (v4 && have4) (v6 && have6) len port a4 a6).

(** ** Main *)

Definition do_main (fuel : nat) (c : cfg) (family : Z) : prog unit :=
  fprintf (Line (if family =? PF_INET then "family:       INET" else "family:       INET6")) ;;
  fprintf (Line "test SND") ;;
  do_test fuel c family SOF_TIMESTAMPING_TX_SOFTWARE ;;
  fprintf (Line "test ENQ") ;;
  do_test fuel c family SOF_TIMESTAMPING_TX_SCHED ;;
  fprintf (Line "test ENQ + SND") ;;
  do_test fuel c family (Z.lor SOF_TIMESTAMPING_TX_SCHED SOF_TIMESTAMPING_TX_SOFTWARE) ;;
  if cfg_proto c =? SOCK_STREAM then
    fprintf (Line "test ACK") ;;
    do_test fuel c family SOF_TIMESTAMPING_TX_ACK ;;
    fprintf (Line "test SND + ACK") ;;
    do_test fuel c family (Z.lor SOF_TIMESTAMPING_TX_SOFTWARE SOF_TIMESTAMPING_TX_ACK) ;;
    fprintf (Line "test ENQ + SND + ACK") ;;
    do_test fuel c family
      (Z.lor SOF_TIMESTAMPING_TX_SCHED (Z.lor SOF_TIMESTAMPING_TX_SOFTWARE SOF_TIMESTAMPING_TX_ACK))
  else io_ret tt.

Definition sock_names (proto : Z) : string :=
  if proto =? SOCK_STREAM then "TCP" else if proto =? SOCK_DGRAM then "UDP" else "RAW".

Definition main (fuel : nat) (argv : list string) : prog Z :=
  (if zlen argv =? 1 then usage else io_ret tt) ;;
  let* c := parse_opt fuel (zlen argv) in
  let* c := resolve_hostname c (default ""%string (last argv)) in
  fprintf (Line (sock_names (cfg_proto c))) ;;
  fprintf (Value "payload:      " (u32 (cfg_payload_len c))) ;;
  fprintf (Value "server port:  " (dest_port c)) ;;
  fprintf (Line nl) ;;
  (if do_ipv4 c then do_main fuel c PF_INET else io_ret tt) ;;
  (if do_ipv6 c then do_main fuel c PF_INET6 else io_ret tt) ;;
  io_ret 0.

(** ** What the error queue says *)

(** A control message of the error queue: three time stamps, an extended error (over
    IPv4 or IPv6), or something else. *)
Inductive qmsg : Type :=
| Stamps (sw legacy raw : time)
| Err (v6 : bool) (e origin : Z) (mid : list Z) (info key : Z) (offender : list Z)
| Other (m : cmsg).

Definition err_data (e origin : Z) (mid : list Z) (info key : Z) (offender : list Z) : list Z :=
  le_bytes 4 e ++ [origin] ++ mid ++ le_bytes 4 info ++ le_bytes 4 key ++ offender.

Definition q_cmsg (q : qmsg) : cmsg :=
  match q with
  | Stamps a b c => Cmsg SOL_SOCKET SCM_TIMESTAMPING (time_bytes a ++ time_bytes b ++ time_bytes c)
  | Err v6 e o mid i k r =>
      Cmsg (if v6 then SOL_IPV6 else SOL_IP) (if v6 then IPV6_RECVERR else IP_RECVERR) (err_data e o mid i k r)
  | Other m => m
  end.

Definition q_ok (q : qmsg) : Prop :=
  cmsg_ok (q_cmsg q) /\
  match q with
  | Stamps a _ _ => time_ok a
  | Err _ e o mid i k _ => 0 <= e < 2 ^ 31 /\ byte_ok o /\ zlen mid = 3 /\ 0 <= i < 2 ^ 31 /\ 0 <= k < 2 ^ 31
  | Other m =>
      ~ (c_level m = SOL_SOCKET /\ c_type m = SCM_TIMESTAMPING) /\ ~ (c_level m = SOL_IP /\ c_type m = IP_RECVERR) /\
      ~ (c_level m = SOL_IPV6 /\ c_type m = IPV6_RECVERR)
  end.

(** The type and key of the error that counts, the stamp that counts, and the
    complaints about the rest. *)
Record digest : Type := Digest { d_err : option (Z * Z); d_stamp : option time; d_notes : list text }.

Definition digest_step (d : digest) (q : qmsg) : digest :=
  match q with
  | Stamps t _ _ => Digest (d_err d) (Some t) (d_notes d)
  | Err _ e o _ i k _ =>
      if (e =? ENOMSG) && (o =? SO_EE_ORIGIN_TIMESTAMPING) then Digest (Some (i, k)) (d_stamp d) (d_notes d)
      else Digest None (d_stamp d) (d_notes d ++ [UnknownIpError e o])
  | Other m => Digest (d_err d) (d_stamp d) (d_notes d ++ [UnknownCmsg (c_level m) (c_type m)])
  end.

Definition digest_of (qs : list qmsg) : digest := foldl digest_step (Digest None None []) qs.

Definition stamp_name (type : Z) : option string :=
  if type =? SCM_TSTAMP_SCHED then Some "  ENQ" else if type =? SCM_TSTAMP_SND then Some "  SND"
  else if type =? SCM_TSTAMP_ACK then Some "  ACK" else None.

(** The line of a stamp, with the distance to the one before. *)
Definition stamp_texts (name : string) (prev t : time) (key len : Z) : list text :=
  if zero_time t then []
  else Stamp name (u64 t.1) (u64 (Z.quot t.2 1000)) key len ::
       (if zero_time prev then [] else [Delta (i64 (micros t - micros prev))]) ++ [Line nl].

(** How a call of [recv_errmsg] ends, the stamp it leaves in [ts_prev] and what it
    prints. *)
Definition expected (prev : time) (qs : list qmsg) (len : Z) : outcome bool * time * list text :=
  let d := digest_of qs in
  match d_err d, d_stamp d with
  | Some (info, key), Some t =>
      match stamp_name info with
      | Some name => (Ret false, if zero_time t then prev else t, d_notes d ++ stamp_texts name prev t key len)
      | None => (Exit 1, prev, d_notes d ++ [UnknownType info])
      end
  | _, _ => (Ret false, prev, d_notes d)
  end.

#[export] Instance tx_shows : Shows call text := fun c => match c with Eprintf t => Some t | _ => None end.

#[local] Arguments wp : simpl never.
#[local] Arguments wp_k : simpl never.
#[local] Arguments io_bind : simpl never.

(** What a pointer to an extended error, or to a stamp, points to. *)
Definition err_at (ctrl : list Z) (p : option Z) (d : option (Z * Z)) : Prop :=
  match p, d with
  | Some p, Some (info, key) =>
      0 <= info < 2 ^ 31 /\ 0 <= key < 2 ^ 31 /\ rd 4 ctrl (p + 8) = Ret info /\ rd 4 ctrl (p + 12) = Ret key
  | None, None => True
  | _, _ => False
  end.

Definition stamp_at (ctrl : list Z) (p : option Z) (d : option time) : Prop :=
  match p, d with Some p, Some t => time_at ctrl p = Ret t | None, None => True | _, _ => False end.

Definition digested (ctrl : list Z) (prev : time) (h0 : list (event call)) (qs : list qmsg) (s : st)
    (h : list (event call)) : Prop :=
  let d := digest_of qs in
  ts_prev s = prev /\ err_at ctrl (serr s) (d_err d) /\ stamp_at ctrl (tss s) (d_stamp d) /\
  output h = output h0 ++ d_notes d.

Lemma digest_snoc qs q : digest_of (qs ++ [q]) = digest_step (digest_of qs) q.
Proof. unfold digest_of. by rewrite foldl_snoc. Qed.

Lemma rd_err (e o i k : Z) mid r n x off :
  zlen mid = 3 -> 0 <= n -> 0 <= x < 2 ^ (8 * n) ->
  (n, x, off) = (4, e, 0) \/ (n, x, off) = (4, i, 8) \/ (n, x, off) = (4, k, 12) ->
  rd n (err_data e o mid i k r) off = Ret x.
Proof.
  intros Hm Hn Hx [E|[E|E]]; injection E as -> -> ->; unfold err_data.
  - by eapply (rd_at 4 e []).
  - rewrite !app_assoc. rewrite <- (app_assoc _ (le_bytes 4 k)), <- (app_assoc _ (le_bytes 4 i)).
    eapply (rd_at 4 i); [reflexivity|done| |done]. rewrite !zlen_app, zlen_le_bytes, Hm. done.
  - rewrite !app_assoc. rewrite <- (app_assoc _ (le_bytes 4 k)).
    eapply (rd_at 4 k); [reflexivity|done| |done]. rewrite !zlen_app, !zlen_le_bytes, Hm. done.
Qed.

Lemma zlen_err e o mid i k r : zlen mid = 3 -> zlen (err_data e o mid i k r) = 16 + zlen r.
Proof. intros Hm. unfold err_data. rewrite !zlen_app, !zlen_le_bytes, Hm. change (zlen [o]) with 1. lia. Qed.

Lemma errmsg_digest q pre post ctrl prev h0 qs K s h :
  q_ok q -> ctrl = pre ++ encode (q_cmsg q) ++ post -> digested ctrl prev h0 qs s h ->
  wp (errmsg_cmsg ctrl (zlen pre)) K s h (fun o s' h' => o = Ret tt /\ digested ctrl prev h0 (qs ++ [q]) s' h').
Proof.
  intros [Hm Hq] Hc (Hp & He & Ht & Ho). unfold errmsg_cmsg, digested. rewrite digest_snoc.
  wp_step. apply wp_lift. rewrite (cmsg_level_at (q_cmsg q) pre post ctrl (zlen pre)) by done. do 2 wp_step. apply wp_lift.
  rewrite (cmsg_type_at (q_cmsg q) pre post ctrl (zlen pre)) by done. wp_step.
  assert (forall n k, 0 <= n -> 0 <= k -> k + n <= zlen (c_data (q_cmsg q)) ->
    rd n ctrl (CMSG_DATA (zlen pre) + k) = rd n (c_data (q_cmsg q)) k) as Hf by (intros; by eapply cmsg_data_at).
  destruct q as [t b c|v6 e o mid i k r|m]; cbn [q_cmsg c_level c_type c_data] in *.
  - cbn [Z.eqb SOL_SOCKET SCM_TIMESTAMPING Pos.eqb andb]. unfold set_tss. wp_step. split; [done|]. cbn [ts_prev serr tss digest_step d_err d_stamp d_notes].
    split_and!; [done|done| |done]. cbn [stamp_at]. rewrite <- (Z.add_0_r (CMSG_DATA _)).
    rewrite (time_in_cmsg _ _ _ _ _ Hm Hc eq_refl 0) by (cbn [c_data]; rewrite ?zlen_app, ?zlen_time; lia).
    by eapply (time_at_le t []).
  - destruct Hq as (He' & Hb & Hmid & Hi & Hk). pose proof (zlen_nonneg r). pose proof (zlen_err e o mid i k r Hmid) as Hl.
    assert (2 ^ 31 < 2 ^ (8 * 4)) by done.
    replace (_ && _) with false by (by destruct v6). replace (_ || _) with true by (by destruct v6).
    assert (rd 4 ctrl (CMSG_DATA (zlen pre)) = Ret e) as R0.
    { rewrite <- (Z.add_0_r (CMSG_DATA _)), Hf by lia. apply rd_err; [done|done|lia|by left]. }
    assert (rd 1 ctrl (CMSG_DATA (zlen pre) + 4) = Ret o) as R4.
    { rewrite Hf by lia. unfold err_data. by eapply (rd_byte o (le_bytes 4 e)). }
    assert (err_at ctrl (Some (CMSG_DATA (zlen pre))) (Some (i, k))) as Ha.
    { split_and!; [lia..| |]; rewrite Hf by lia; apply rd_err; auto; lia. }
    wp_step. unfold set_serr at 1. do 2 wp_step. wp_step. apply wp_lift. rewrite R0. do 2 wp_step. apply wp_lift. rewrite R4. wp_step.
    cbn [digest_step]. rewrite <- negb_andb. destruct (_ && _); cbn [negb].
    + wp_step. split; [done|]. by cbn [ts_prev serr tss d_err d_stamp d_notes].
    + unfold fprintf, set_serr. rewrite i32_small by lia. wp_go. split; [done|]. cbn [ts_prev serr tss d_err d_stamp d_notes].
      split_and!; [done..|]. by rewrite output_cons, Ho, app_assoc.
  - destruct Hq as (H1 & H2 & H3). replace (_ && _) with false by lia. replace (_ || _) with false by lia.
    unfold fprintf. wp_go. split; [done|]. cbn [digest_step d_err d_stamp d_notes]. split_and!; [done..|].
    by rewrite output_cons, Ho, app_assoc.
Qed.

Lemma print_stamp_wp name cur key len K s h :
  wp (print_stamp name cur key len) K s h (fun o s' h' => o = Ret tt /\
    ts_prev s' = (if zero_time cur then ts_prev s else cur) /\
    output h' = output h ++ stamp_texts name (ts_prev s) cur key (u32 len)).
Proof.
  unfold print_stamp, stamp_texts, fprintf, set_prev. destruct (zero_time cur); [wp_step; by rewrite app_nil_r|].
  wp_go; (split; [done|]); (split; [done|]); rewrite !output_cons; cbn; by rewrite <- !app_assoc.
Qed.

Lemma control_at r e cs rest :
  zlen (cs ++ rest) = sizeof_ctrl ->
  control (Ans r e (le_bytes 8 (zlen cs) ++ cs ++ rest)) = (zlen cs, cs ++ rest).
Proof.
  intros Hl. unfold control. cbn [data]. set (l := le_bytes 8 (zlen cs) ++ cs ++ rest).
  assert (zlen l = 1032) as Hz by (unfold l; rewrite zlen_app, zlen_le_bytes, Hl; done).
  assert (overlay (le_bytes 8 sizeof_ctrl ++ replicate (Z.to_nat sizeof_ctrl) 0) l = l) as ->.
  { apply overlay_same. by rewrite Hz. }
  pose proof (zlen_nonneg cs). pose proof (zlen_nonneg rest). rewrite zlen_app in Hl. unfold sizeof_ctrl in *.
  unfold l, ztake, zdrop. rewrite take_app_length', drop_app_length' by (rewrite length_le_bytes; lia).
  rewrite le_val_bytes. f_equal. apply Z.mod_small. change (2 ^ (8 * Z.of_nat 8)) with (2 ^ 64). lia.
Qed.

(** The control messages of one message of the queue. *)
Lemma recv_cmsg_wp qs rest len K s h :
  let cs := encode_all (q_cmsg <$> qs) in
  Forall q_ok qs -> (length qs < cmsg_fuel)%nat ->
  wp (recv_errmsg_cmsg (cs ++ rest) (zlen cs) len) K s h (fun o s' h' =>
    (match o with Ret _ => Ret false | Exit c => Exit c | Crash => Crash | NoFuel => NoFuel end,
     ts_prev s', output h') = let '(r, t, l) := expected (ts_prev s) qs (u32 len) in (r, t, output h ++ l)).
Proof.
  intros cs Hqs Hn. unfold recv_errmsg_cmsg, set_serr, set_tss. do 6 wp_step. wp_step.
  set (ctrl := cs ++ rest).
  eapply wp_wand; [apply (walk_cmsg_wp (fun pre s' h' => digested ctrl (ts_prev s) h (take (length pre) qs) s' h'))|].
  - intros n Hg. unfold truthy. lia.
  - apply Forall_fmap. eapply Forall_impl; [exact Hqs|]. by intros q [].
  - by rewrite length_fmap.
  - split_and!; [done..|]. by rewrite app_nil_r.
  - intros pre m post s' h' E Hd. assert ((q_cmsg <$> qs) !! length pre = Some m) as Hl.
    { rewrite E. by apply list_lookup_middle. }
    rewrite list_lookup_fmap in Hl. destruct (qs !! length pre) as [q|] eqn:Eq; [|done]. injection Hl as <-.
    rewrite length_app, Nat.add_1_r, (take_S_r _ _ q) by done.
    apply (errmsg_digest q (encode_all pre) (encode_all post ++ rest)); [|unfold ctrl, cs|done].
    + rewrite Forall_lookup in Hqs. eauto.
    + by rewrite E, encode_all_app, encode_all_cons, <- !app_assoc.
  - intros o s' h' [-> Hd]. rewrite length_fmap, firstn_all in Hd. destruct Hd as (Hp & He & Ht & Ho).
    unfold expected. do 3 wp_step. wp_step.
    destruct (serr s') as [pe|], (d_err (digest_of qs)) as [[info key]|]; try done; [|wp_step; by rewrite Hp, Ho].
    destruct (tss s') as [pt|], (d_stamp (digest_of qs)) as [t|]; try done; [|wp_step; by rewrite Hp, Ho].
    destruct He as (Hi & Hk & Ri & Rk). cbn [stamp_at] in Ht.
    wp_step. apply wp_lift. rewrite Ri. do 2 wp_step. apply wp_lift. rewrite Rk. wp_step. rewrite !i32_small by lia.
    unfold print_timestamp. rewrite Ht. unfold fprintf.
    assert (u32 info = info) as -> by (apply wrap_small; unfold fits; lia).
    assert (u32 key = key) as -> by (apply wrap_small; unfold fits; lia).
    unfold stamp_name. wp_step. repeat (destruct (info =? _); [wp_step; wp_step; wp_step; apply wp_lift; wp_step;
      eapply wp_wand; [apply print_stamp_wp|]; intros ? ? ? (-> & E1 & E2); rewrite E1, E2, Hp, Ho; by rewrite <- app_assoc|]).
    wp_go. rewrite output_cons, Hp, Ho. by rewrite <- app_assoc.
Qed.

Lemma q_count qs rest :
  zlen (encode_all (q_cmsg <$> qs) ++ rest) = sizeof_ctrl -> (length qs < cmsg_fuel)%nat.
Proof.
  intros Hl. pose proof (encode_all_length (q_cmsg <$> qs)) as He. rewrite zlen_app in Hl. pose proof (zlen_nonneg rest).
  unfold zlen at 1 in He. rewrite length_fmap in He. unfold sizeof_ctrl, cmsg_fuel in *. lia.
Qed.

(** Whatever control messages a message of the error queue carries, one call of
    [recv_errmsg] reports the last time stamp under the name of the last valid
    extended error, with its sequence number and the distance to the stamp before, and
    complains about every other control message; only a stamp of unknown type stops
    the tool. *)
Theorem timestamps_printed K c fd qs rest len e s h :
  let cs := encode_all (q_cmsg <$> qs) in
  let h1 := (Malloc (u64 (cfg_payload_len c)), K h (Malloc (u64 (cfg_payload_len c)))) :: h in
  Forall q_ok qs -> zlen (cs ++ rest) = sizeof_ctrl -> 0 <= len < 2 ^ 31 ->
  ret (K h (Malloc (u64 (cfg_payload_len c)))) <> 0 ->
  K h1 (Recvmsg fd) = Ans len e (le_bytes 8 (zlen cs) ++ cs ++ rest) ->
  exists r s' h' texts, recv_errmsg c fd K s h = (r, s', h') /\
    output h' = output h ++ texts /\ (r, ts_prev s', texts) = expected (ts_prev s) qs len.
Proof.
  intros cs h1 Hqs Hl Hlen Hp HK.
  assert (wp (recv_errmsg c fd) K s h (fun r s' h' => exists texts, output h' = output h ++ texts /\
    (r, ts_prev s', texts) = expected (ts_prev s) qs len)) as Hwp.
  { unfold recv_errmsg. do 3 wp_step. fold h1. replace (ret _ =? 0) with false by lia. do 4 wp_step. wp_step. rewrite HK. wp_step.
    cbn [ret errno]. rewrite i32_small by lia. replace (len =? -1) with false by lia. cbn [andb]. do 3 wp_step.
    rewrite control_at by done. wp_step. eapply wp_wand; [apply recv_cmsg_wp; [done|by eapply q_count]|].
    assert (u32 len = len) as -> by (apply wrap_small; unfold fits; lia).
    intros o s' h' E. destruct (expected (ts_prev s) qs len) as [[r t] l]. injection E as E1 E2 E3.
    assert (forall a b n, output ((Recvmsg fd, a) :: (Malloc n, b) :: h) = output h) as E4
      by (intros; by rewrite !output_cons, !app_nil_r).
    unfold h1 in E3.
    rewrite E4 in E3. destruct o as [[]| | |]; wp_step; [|exists l; by rewrite E1, E2..].
    wp_go. exists l. by rewrite output_cons, E3, E2, app_nil_r, <- E1. }
  unfold wp in Hwp. destruct (recv_errmsg c fd K s h) as [[r s'] h']. destruct Hwp as (texts & E1 & E2). eauto 7.
Qed.

(** ** Packets *)

(** The packet: headers for a raw socket, then letters, a line feed and a zero. *)
Definition payload (len i : Z) : list Z := replicate (Z.to_nat (len - 2)) (97 + i) ++ [10; 0].

Definition packet (c : cfg) (i : Z) : list Z :=
  (if cfg_proto c =? SOCK_RAW then
     (if cfg_ipproto c =? IPPROTO_RAW then iphdr (ztake 4 (zdrop 4 (daddr c))) else []) ++ udphdr c
   else []) ++ payload (cfg_payload_len c) i.

Definition cfg_ok (c : cfg) : Prop := 2 <= cfg_payload_len c < 2 ^ 31 - 28 /\ zlen (daddr c) = 16.

Lemma store_tail {A} n x (k : list Z -> outcome A) : 2 <= n ->
  out_bind (store (replicate (Z.to_nat n) x) (n - 2) 10) (fun b => out_bind (store b (n - 1) 0) k) =
  k (replicate (Z.to_nat (n - 2)) x ++ [10; 0]).
Proof.
  intros Hn. rewrite store_in by (rewrite zlen_replicate; lia). cbn [out_bind].
  rewrite store_in by (rewrite zlen_zset, zlen_replicate; lia). cbn [out_bind]. f_equal.
  replace (Z.to_nat n) with (Z.to_nat (n - 2) + 2)%nat by lia. rewrite replicate_add. unfold zset.
  rewrite insert_app_r_alt by (rewrite length_replicate; lia). rewrite insert_app_r_alt by (rewrite length_replicate; lia).
  f_equal. rewrite length_replicate. replace (Z.to_nat (n - 2) - _)%nat with 0%nat by lia.
  by replace (Z.to_nat (n - 1) - _)%nat with 1%nat by lia.
Qed.

Lemma replicate_split n k (x : Z) : 0 <= k <= n ->
  replicate (Z.to_nat n) x = replicate (Z.to_nat k) x ++ replicate (Z.to_nat (n - k)) x.
Proof. intros. rewrite <- replicate_add. f_equal. lia. Qed.

Lemma fill_packet c i : cfg_ok c -> 0 <= i < 4 -> fill c i = Ret (packet c i).
Proof.
  intros [Hl Hd] Hi. unfold fill, packet, payload, total_len.
  assert (u8 (97 + i) = 97 + i) as -> by (apply wrap_small; unfold fits; lia).
  assert (zlen (iphdr (ztake 4 (zdrop 4 (daddr c)))) = 20) as Hip.
  { unfold iphdr. rewrite zlen_app, zlen_ztake; [done|]. rewrite zlen_zdrop; lia. }
  set (len := cfg_payload_len c) in *. set (x := 97 + i). set (ip := iphdr _) in *. set (udp := udphdr c).
  assert (zlen udp = 8) as Hudp by done. unfold sizeof_udphdr, sizeof_iphdr.
  destruct (cfg_proto c =? SOCK_RAW); [|by rewrite store_tail by lia].
  destruct (cfg_ipproto c =? IPPROTO_RAW); rewrite store_tail by lia; cbn [app].
  - rewrite (replicate_split (len + 8 + 20 - 2) 28 x), (replicate_split 28 20 x) by lia.
    replace (len + 8 + 20 - 2 - 28) with (len - 2) by lia. change (28 - 20) with 8.
    pose proof (zlen_replicate 20 x) as H1. pose proof (zlen_replicate 8 x) as H2.
    set (a := replicate (Z.to_nat 20) x) in *. set (b := replicate (Z.to_nat 8) x) in *. set (r := replicate _ x ++ [10; 0]).
    rewrite <- !app_assoc. rewrite (poke_at [] a ip (b ++ r)) by (done || lia). cbn [out_bind app].
    rewrite (poke_at ip b udp r) by (done || lia). done.
  - rewrite (replicate_split (len + 8 + 0 - 2) 8 x) by lia. replace (len + 8 + 0 - 2 - 8) with (len - 2) by lia.
    pose proof (zlen_replicate 8 x) as H2. set (b := replicate (Z.to_nat 8) x) in *. set (r := replicate _ x ++ [10; 0]).
    rewrite <- app_assoc. rewrite (poke_at [] b udp r) by (done || lia). done.
Qed.

(** Messages read since the last [poll]. *)
Fixpoint pending (h : list (event call)) : nat :=
  match h with
  | [] => O
  | (Poll _ _, _) :: _ => O
  | (Recvmsg _, _) :: h => S (pending h)
  | _ :: h => pending h
  end.

(** The error queue: a read fails, or delivers well-formed control messages, and at
    most [n] messages wait at a time. *)
Definition queue_ok (K : kernel call) (n : nat) : Prop := forall h fd,
  (exists e, K h (Recvmsg fd) = aerr e) \/
  (pending h < n)%nat /\ exists qs rest len e,
    let cs := encode_all (q_cmsg <$> qs) in
    Forall q_ok qs /\ zlen (cs ++ rest) = sizeof_ctrl /\ 0 <= len < 2 ^ 31 /\
    K h (Recvmsg fd) = Ans len e (le_bytes 8 (zlen cs) ++ cs ++ rest).

(** The messages of the queue tell what their stamps are of. *)
Definition known (qs : list qmsg) : Prop :=
  match d_err (digest_of qs), d_stamp (digest_of qs) with
  | Some (info, _), Some _ => stamp_name info <> None
  | _, _ => True
  end.

(** A kernel on which no call fails, that sends what it is given and has nothing but time stamps
    in the queue. *)
Record works (K : kernel call) : Prop := {
  w_malloc : forall h n, ret (K h (Malloc n)) <> 0;
  w_socket : forall h f p i, 0 <= ret (K h (Socket f p i));
  w_sockopt : forall h fd l o v, ret (K h (Setsockopt fd l o v)) = 0;
  w_connect : forall h fd a, ret (K h (Connect fd a)) = 0;
  w_sendto : forall h fd b a, ret (K h (Sendto fd b a)) = zlen b;
  w_send : forall h fd b, ret (K h (Send fd b)) = zlen b;
  w_poll : forall h fd t, ret (K h (Poll fd t)) = 1;
  w_empty : forall h fd e, K h (Recvmsg fd) = aerr e -> e = EAGAIN;
  w_known : forall h fd qs rest len e,
    let cs := encode_all (q_cmsg <$> qs) in
    Forall q_ok qs -> K h (Recvmsg fd) = Ans len e (le_bytes 8 (zlen cs) ++ cs ++ rest) -> known qs;
  w_close : forall h fd, ret (K h (Close fd)) = 0
}.

(** The buffers sent, with their addresses. *)
Definition sent (h : list (event call)) : list (list Z * list Z) :=
  trace (fun c => match c with Sendto _ b a => Some (b, a) | Send _ b => Some (b, []) | _ => None end) h.

(** Calls that neither send nor read the queue. *)
Definition local_call (c : call) : Prop :=
  match c with Sendto _ _ _ | Send _ _ | Recvmsg _ | Poll _ _ => False | _ => True end.

Lemma local_pending t h : Forall (fun e => local_call e.1) t -> pending (t ++ h) = pending h.
Proof. induction 1 as [|[c a] t Hc _ IH]; [done|]. by destruct c. Qed.

Lemma local_sent t h : Forall (fun e => local_call e.1) t -> sent (t ++ h) = sent h.
Proof.
  intros Ht. apply trace_quiet. eapply Forall_impl; [exact Ht|]. by intros [[] a].
Qed.

Definition printing (c : call) : Prop := match c with Eprintf _ => True | _ => False end.

Lemma print_stamp_emits name t k l : emits printing (print_stamp name t k l).
Proof. unfold print_stamp, set_prev, fprintf. emits. Qed.

Lemma recv_cmsg_emits ctrl n l : emits printing (recv_errmsg_cmsg ctrl n l).
Proof.
  unfold recv_errmsg_cmsg, set_serr, set_tss, print_timestamp, fprintf. emits; [|apply print_stamp_emits..].
  apply each_cmsg_emits. intros p. unfold errmsg_cmsg, set_serr, set_tss, fprintf. emits.
Qed.

Lemma print_stamp_local name t k l : emits local_call (print_stamp name t k l).
Proof. eapply emits_mono; [|apply print_stamp_emits]. by intros []. Qed.

Lemma recv_cmsg_local ctrl n l : emits local_call (recv_errmsg_cmsg ctrl n l).
Proof. eapply emits_mono; [|apply recv_cmsg_emits]. by intros []. Qed.

(** An empty control buffer holds no message. *)
Lemma no_control K s h len e :
  let '(n, ctrl) := control (aerr e) in
  wp (recv_errmsg_cmsg ctrl n len) K s h (fun o s' h' => o = Ret tt /\ h' = h).
Proof. by vm_compute. Qed.

Lemma recv_errmsg_wp K n c fd s h :
  queue_ok K n ->
  wp (recv_errmsg c fd) K s h (fun r _ h' => sent h' = sent h /\
    (r = Exit 1 /\ ~ works K \/ r = Ret true \/ r = Ret false /\ (pending h < n)%nat /\ pending h' = S (pending h))).
Proof.
  intros HK. unfold recv_errmsg, error, fprintf. wp_step. apply wp_sys_eq. intros p Ep. wp_step. wp_step.
  destruct (Z.eqb_spec (ret p) 0) as [E0|E0].
  { wp_go. split; [done|]. left. split; [done|]. intros Hw. apply (w_malloc K Hw h (u64 (cfg_payload_len c))). by rewrite Ep. }
  do 3 wp_step. apply wp_sys_eq. intros a Ea. wp_step. wp_step.
  set (h1 := (Malloc _, p) :: h) in *.
  destruct (HK h1 fd) as [[e He]|(Hp & qs & rest & len & e & Hqs & Hl & Hlen & He)]; rewrite He in Ea; subst a.
  - cbn [ret errno aerr]. destruct (_ && _) eqn:Eb.
    { wp_go. split; [done|]. left. split; [done|]. intros Hw. rewrite (w_empty K Hw _ _ _ He) in Eb. done. }
    do 2 wp_step.
    pose proof (no_control K s ((Recvmsg fd, aerr e) :: h1) (i32 (-1)) e) as Hn. destruct (control (aerr e)) as [n' ctrl].
    wp_step. eapply wp_wand; [exact Hn|]. intros o s' h' [-> ->]. wp_go. split; [done|]. right. by left.
  - cbn [ret errno]. rewrite i32_small by lia. replace (len =? -1) with false by lia. cbn [andb]. do 2 wp_step.
    rewrite control_at by done. wp_step.
    eapply wp_wand; [apply wp_and; [apply recv_cmsg_wp; [done|by eapply q_count]|apply recv_cmsg_local]|].
    intros o s' h' [E (t & -> & Ht)].
    assert (sent (t ++ (Recvmsg fd, Ans len e (le_bytes 8 (zlen (encode_all (q_cmsg <$> qs))) ++ encode_all (q_cmsg <$> qs) ++ rest)) :: h1)
      = sent h) as Hs by (by rewrite local_sent).
    destruct o; wp_step.
    + wp_go. split; [done|]. right. right. split; [done|]. split; [done|]. cbn [pending]. by rewrite local_pending.
    + split; [done|]. left. split; [unfold expected in E; repeat case_match; by simplify_eq|].
      intros Hw. pose proof (w_known K Hw h1 fd qs rest len e Hqs He) as Hk. unfold expected in E. unfold known in Hk.
      repeat case_match; by simplify_eq.
    + exfalso. unfold expected in E. repeat case_match; by simplify_eq.
    + exfalso. unfold expected in E. repeat case_match; by simplify_eq.
Qed.

(** Reading until the queue is empty. *)
Lemma drain_wp K n c fd fuel s h :
  queue_ok K n -> (pending h <= n < fuel + pending h)%nat ->
  wp (drain fuel c fd) K s h (fun r _ h' => sent h' = sent h /\ (r = Exit 1 /\ ~ works K \/ r = Ret tt)).
Proof.
  intros HK. revert s h. induction fuel as [|fuel IH]; intros s h Hf; cbn [drain].
  - lia.
  - wp_step. eapply wp_wand; [by apply (recv_errmsg_wp K n)|].
    intros r s' h' [Hs [[-> Hw]|[-> |(-> & Hlt & Hp)]]]; wp_step; [auto|wp_step; auto|].
    rewrite <- Hs. apply IH. lia.
Qed.

Definition dest (c : cfg) (family : Z) : list Z :=
  if cfg_proto c =? SOCK_STREAM then [] else if family =? PF_INET then daddr c else daddr6 c.

Definition sends (c : cfg) (family i n : Z) : list (list Z * list Z) :=
  (fun i => (packet c i, dest c family)) <$> seqZ i n.

Lemma usr_local : emits local_call print_timestamp_usr.
Proof. unfold print_timestamp_usr. emits. apply print_stamp_local. Qed.

Lemma usr_returns K s h : wp print_timestamp_usr K s h (fun r _ _ => r = Ret tt).
Proof.
  unfold print_timestamp_usr. wp_step. apply wp_sys_any. intros a. do 2 wp_step. apply wp_lift.
  destruct (time_at_uninit a) as [t ->]. wp_step. eapply wp_wand; [apply print_stamp_wp|]. by intros ? ? ? [].
Qed.

Lemma packet_stream c i : cfg_ok c -> (cfg_proto c =? SOCK_STREAM) = true ->
  ztake (cfg_payload_len c) (packet c i) = packet c i.
Proof.
  intros [Hl _] Hp. unfold packet, payload, ztake. apply Z.eqb_eq in Hp as ->. cbn [Z.eqb SOCK_STREAM SOCK_RAW Pos.eqb app].
  apply take_ge. rewrite length_app, length_replicate. simpl. lia.
Qed.

Lemma zlen_packet c i : cfg_ok c -> zlen (packet c i) = total_len c /\ i32 (total_len c) = total_len c.
Proof.
  intros [Hl Hd]. assert (zlen (packet c i) = total_len c) as E.
  { unfold packet, total_len, payload. rewrite !zlen_app, zlen_replicate by lia. change (zlen [10; 0]) with 2.
    destruct (cfg_proto c =? SOCK_RAW); [|change (zlen []) with 0; lia]. rewrite zlen_app. change (zlen (udphdr c)) with 8.
    unfold sizeof_udphdr, sizeof_iphdr. destruct (cfg_ipproto c =? IPPROTO_RAW); [|change (zlen []) with 0; lia].
    unfold iphdr. rewrite zlen_app, zlen_ztake; [|rewrite zlen_zdrop; lia]. change (zlen [_; _; _; _; _; _; _; _; _; _; _; _; _; _; _; _]) with 16. lia. }
  split; [done|]. apply i32_small. unfold total_len, sizeof_udphdr, sizeof_iphdr. repeat case_match; lia.
Qed.

Lemma send_packet_wp K c family fd i s h :
  cfg_ok c -> 0 <= i < 4 ->
  wp (send_packet c family fd i) K s h (fun r _ h' =>
    sent h' = sent h ++ [(packet c i, dest c family)] /\ (r = Exit 1 /\ ~ works K \/ r = Ret tt)).
Proof.
  intros Hc Hi. unfold send_packet, set_prev, error, fprintf. do 4 wp_step. apply wp_lift. rewrite fill_packet by done.
  do 2 wp_step. eapply wp_wand; [apply wp_and; [apply usr_returns|apply usr_local]|]. intros r s' h' [-> (t & -> & Ht)].
  wp_step. unfold dest.
  destruct (cfg_proto c =? SOCK_STREAM) eqn:Ep; cbn [negb]; [rewrite packet_stream by done|destruct (family =? PF_INET)].
  all: destruct (zlen_packet c i Hc) as [El Ei].
  all: wp_name; unfold sent; rewrite !trace_cons; fold sent; rewrite ?local_sent by done; rewrite ?app_nil_r; (split; [done|]); auto.
  all: left; split; [done|]; intros Hw; zbool; match goal with E : _ _ _ = ?a, H : context [ret ?a] |- _ => rewrite <- E in H end.
  all: rewrite ?(w_send K Hw), ?(w_sendto K Hw), El, Ei in *; done.
Qed.

(** A program that sends a prefix of a list of packets, all of them when it returns, which it
    does when everything works. *)
Definition sends_all (K : kernel call) (l : list (list Z * list Z)) (h : list (event call)) (r : outcome unit)
    (h' : list (event call)) : Prop :=
  exists k, sent h' = sent h ++ take k l /\ (r = Exit 1 /\ ~ works K \/ r = Ret tt /\ (length l <= k)%nat).

Lemma sends_nothing K l h r h' : sent h' = sent h -> r = Exit 1 /\ ~ works K \/ r = Ret tt /\ l = [] -> sends_all K l h r h'.
Proof. intros Hs Hr. exists 0%nat. rewrite app_nil_r. split; [done|]. destruct Hr as [[-> Hw]|[-> ->]]; [by left|by right]. Qed.

Lemma sends_after K x l h r h1 h' : sent h1 = sent h ++ [x] -> sends_all K l h1 r h' -> sends_all K (x :: l) h r h'.
Proof.
  intros H1 (k & Hs & Hr). exists (S k). rewrite Hs, H1, <- app_assoc. split; [done|]. cbn [length].
  destruct Hr as [[-> Hw]|[-> ?]]; [by left|right; split; [done|lia]].
Qed.

Lemma packets_wp K q fuel n c family fd i s h :
  queue_ok K q -> (q < fuel)%nat -> cfg_ok c -> 0 <= i -> i + Z.of_nat n <= 4 ->
  wp (packets fuel n c family fd i) K s h (fun r _ h' => sends_all K (sends c family i (Z.of_nat n)) h r h').
Proof.
  intros HK Hf Hc. revert i s h. induction n as [|n IH]; intros i s h Hi Hn; cbn [packets].
  - wp_step. apply sends_nothing; [done|]. by right.
  - assert (sends c family i (Z.of_nat (S n)) = (packet c i, dest c family) :: sends c family (i + 1) (Z.of_nat n)) as ->.
    { unfold sends. rewrite seqZ_cons by lia. cbn [fmap list_fmap]. do 3 f_equal; lia. }
    wp_step. eapply wp_wand; [apply send_packet_wp; [done|lia]|]. intros r s1 h1 [Hs1 [[-> Hw]| ->]]; wp_step.
    { eapply sends_after; [exact Hs1|]. apply sends_nothing; [done|by left]. }
    unfold poll_once, error, fprintf. wp_step. apply wp_sys_any. intros u. do 3 wp_step. apply wp_sys_eq. intros p Ep. wp_step.
    destruct (negb _) eqn:E1.
    { wp_go. eapply sends_after; [exact Hs1|]. apply sends_nothing; [done|]. left. split; [done|]. intros Hw.
      rewrite <- Ep, (w_poll K Hw) in E1. done. }
    do 3 wp_step. eapply wp_wand; [apply (drain_wp K q); [done|cbn [pending]; lia]|].
    intros r s2 h2 [Hs2 [[-> Hw]| ->]]; wp_step.
    { eapply sends_after; [exact Hs1|]. apply sends_nothing; [done|by left]. }
    eapply wp_wand; [apply IH; lia|]. intros r s3 h3 H3. eapply sends_after; [|exact H3]. by rewrite Hs2.
Qed.

(** Programs that send nothing and return, or stop with status 1 because something failed. *)
Definition silent {A} (K : kernel call) (m : prog A) : Prop :=
  forall s h, wp m K s h (fun r _ h' => sent h' = sent h /\ (r = Exit 1 /\ ~ works K \/ exists a, r = Ret a)).

Lemma wp_silent {A B} (m : prog A) (k : A -> prog B) K s h (Q : outcome B -> st -> list (event call) -> Prop) :
  silent K m -> (forall s' h', ~ works K -> sent h' = sent h -> Q (Exit 1) s' h') ->
  (forall a s' h', sent h' = sent h -> wp (k a) K s' h' Q) -> wp (io_bind m k) K s h Q.
Proof. intros Hm HQ Hk. wp_step. eapply wp_wand; [apply Hm|]. intros r s' h' [Hs [[-> Hw]|[a ->]]]; wp_step; auto. Qed.

(** The setup of the socket up to the loop. *)
Lemma setup_silent K c family fd :
  silent K (if cfg_proto c =? SOCK_STREAM then
       let* a := sys (Setsockopt fd IPPROTO_TCP TCP_NODELAY 1) in
       (if truthy (ret a) then error 0 "setsockopt no nagle" else io_ret tt) ;;
       if family =? PF_INET then
         let* a := sys (Connect fd (daddr c)) in
         if truthy (ret a) then error (errno a) "connect ipv4" else io_ret tt
       else
         let* a := sys (Connect fd (daddr6 c)) in
         if truthy (ret a) then error (errno a) "connect ipv6" else io_ret tt
     else io_ret tt)%io.
Proof.
  intros s h. unfold error, fprintf. wp_name; (split; [reflexivity|]); try (right; by eexists).
  all: left; split; [done|]; intros Hw; match goal with E : _ _ _ = ?a, H : truthy (ret ?a) = true |- _ => rewrite <- E in H end.
  all: rewrite ?(w_sockopt K Hw), ?(w_connect K Hw) in *; done.
Qed.

(** A test of an answer that a working kernel passes. *)
Lemma check_silent K (b : bool) e what : (works K -> b = false) -> silent K (if b then error e what else io_ret tt).
Proof.
  intros Hb s h. unfold error, fprintf. destruct b; wp_go; (split; [reflexivity|]); [left|right; by eexists].
  split; [done|]. intros Hw. by specialize (Hb Hw).
Qed.

Lemma do_test_sends K q c family opt fuel s h :
  queue_ok K q -> (q < fuel)%nat -> cfg_ok c -> family = PF_INET \/ family = PF_INET6 ->
  wp (do_test fuel c family opt) K s h (fun r _ h' => sends_all K (sends c family 0 4) h r h').
Proof.
  intros HK Hf Hc Hfam. unfold do_test. replace (family =? IPPROTO_IPV6) with false by (by destruct Hfam as [-> | ->]).
  cbn [andb]. assert (forall h', ~ works K -> sent h' = sent h -> sends_all K (sends c family 0 4) h (Exit 1) h') as Hex
    by (intros; apply sends_nothing; [done|by left]).
  wp_step. apply wp_sys_eq. intros p Ep. wp_step.
  apply wp_silent; [apply check_silent; intros Hw; apply Z.eqb_neq; rewrite <- Ep; apply (w_malloc K Hw)|by intros; apply Hex|]. intros [] s1 h1 H1.
  wp_step. apply wp_sys_eq. intros f Ef. wp_step.
  apply wp_silent; [apply check_silent; intros Hw; apply Z.ltb_ge; rewrite <- Ef; apply (w_socket K Hw)
    |by intros ? ? ? E; apply Hex; [done|rewrite E; exact H1]|]. intros [] s2 h2 H2.
  apply wp_silent; [apply setup_silent|by intros ? ? ? E; apply Hex; [done|rewrite E, H2; exact H1]|]. intros [] s3 h3 H3.
  cbv zeta. wp_step. apply wp_sys_eq. intros o Eo. wp_step.
  assert (sent h3 = sent h) as E3 by (rewrite H3, H2; exact H1).
  apply wp_silent; [apply check_silent; intros Hw; by rewrite <- Eo, (w_sockopt K Hw)
    |by intros ? ? ? E; apply Hex; [done|rewrite E; exact E3]|]. intros [] s4 h4 H4.
  assert (sent h4 = sent h) as E4 by (rewrite H4; exact E3).
  wp_step. eapply wp_wand; [apply (packets_wp K q); [done|done|done|done|done]|]. intros r s5 h5 H5.
  assert (sends_all K (sends c family 0 4) h r h5) as Hr by (destruct H5 as (k & E & ?); exists k; by rewrite E, E4).
  destruct Hr as (k & E & [[-> Hw]|[-> Hk]]); wp_step; [by exists k; eauto|].
  wp_step. apply wp_sys_eq. intros cl Ecl. wp_step.
  apply wp_silent; [apply check_silent; intros Hw; by rewrite <- Ecl, (w_close K Hw)
    |by intros ? ? ? E'; exists k; rewrite E'; eauto|]. intros [] s6 h6 H6.
  wp_go. exists k. split; [rewrite <- E; exact H6|auto].
Qed.

(** ** Reading the packets *)

(** Numbers on the network have their high byte first. *)
Definition be (l : list Z) : Z := foldl (fun n b => 256 * n + b) 0 l.
Definition bytes_at (off n : nat) (b : list Z) : list Z := take n (drop off b).

(** A UDP datagram (RFC 768) and an IPv4 packet (RFC 791). *)
Record udp : Type := Udp { u_source : Z; u_dest : Z; u_len : Z; u_check : Z; u_data : list Z }.

Definition read_udp (b : list Z) : option udp :=
  if zlen b <? 8 then None
  else Some (Udp (be (bytes_at 0 2 b)) (be (bytes_at 2 2 b)) (be (bytes_at 4 2 b)) (be (bytes_at 6 2 b)) (drop 8 b)).

Record ip4 : Type := Ip4 {
  i_version : Z; i_ihl : Z; i_tos : Z; i_len : Z; i_id : Z; i_frag : Z; i_ttl : Z; i_protocol : Z; i_check : Z;
  i_source : list Z; i_dest : list Z; i_data : list Z
}.

Definition read_ip4 (b : list Z) : option ip4 :=
  match b with
  | vi :: _ =>
      let ihl := vi mod 16 in
      if zlen b <? 4 * ihl then None
      else Some (Ip4 (vi / 16) ihl (be (bytes_at 1 1 b)) (be (bytes_at 2 2 b)) (be (bytes_at 4 2 b)) (be (bytes_at 6 2 b))
        (be (bytes_at 8 1 b)) (be (bytes_at 9 1 b)) (be (bytes_at 10 2 b)) (bytes_at 12 4 b) (bytes_at 16 4 b)
        (drop (Z.to_nat (4 * ihl)) b))
  | [] => None
  end.

(** The address in a sockaddr_in, behind the family and the port. *)
Definition sin_addr (sa : list Z) : list Z := bytes_at 4 4 sa.

(** Packet [i] of a test: letters, a line feed and a zero; on a raw socket in a datagram with the
    destination port and its length, and that, with its own header, in an IPv4 packet to the address. *)
Definition packet_ok (c : cfg) (i : Z) (b : list Z) : Prop :=
  let len := cfg_payload_len c in
  let datagram u := read_udp u = Some (Udp 9000 (dest_port c mod 65536) ((8 + len) mod 65536) 0 (payload len i)) in
  if cfg_proto c =? SOCK_RAW then
    if cfg_ipproto c =? IPPROTO_RAW then
      exists u, read_ip4 b = Some (Ip4 4 5 0 0 0 0 2 17 0 [0; 0; 0; 0] (sin_addr (daddr c)) u) /\ datagram u
    else datagram b
  else b = payload len i.

Lemma be_be16 x : be (be16 x) = x mod 65536.
Proof.
  unfold be, be16, u8, wrap. cbn [foldl]. rewrite Z.mul_0_r, Z.add_0_l.
  change 65536 with (256 * 256). rewrite (Z.rem_mul_r x 256 256) by lia. change (2 ^ 8) with 256. lia.
Qed.

Lemma packet_udp c i : read_udp (udphdr c ++ payload (cfg_payload_len c) i) =
  Some (Udp 9000 (dest_port c mod 65536) ((8 + cfg_payload_len c) mod 65536) 0 (payload (cfg_payload_len c) i)).
Proof.
  unfold read_udp. replace (_ <? 8) with false.
  2: { symmetry. apply Z.ltb_ge. rewrite zlen_app. change (zlen (udphdr c)) with 8. pose proof (zlen_nonneg (payload (cfg_payload_len c) i)). lia. }
  rewrite <- (be_be16 (dest_port c)), <- (be_be16 (8 + cfg_payload_len c)). reflexivity.
Qed.

Lemma packet_reads c i : cfg_ok c -> packet_ok c i (packet c i).
Proof.
  intros [Hl Hd]. unfold packet_ok, packet. cbv zeta. destruct (cfg_proto c =? SOCK_RAW); [|done].
  destruct (cfg_ipproto c =? IPPROTO_RAW); [|apply packet_udp].
  exists (udphdr c ++ payload (cfg_payload_len c) i). split; [|apply packet_udp].
  set (u := udphdr c ++ _). rewrite <- app_assoc. fold u.
  assert (exists a b d e, ztake 4 (zdrop 4 (daddr c)) = [a; b; d; e]) as (a & b & d & e & E).
  { assert (length (daddr c) = 16)%nat as Hn by (unfold zlen in Hd; lia). unfold ztake, zdrop.
    destruct (daddr c) as [|? [|? [|? [|? [|? [|? [|? [|? ?]]]]]]]]; try done. by eexists _, _, _, _. }
  unfold sin_addr, bytes_at. change (take 4 (drop 4 (daddr c))) with (ztake 4 (zdrop 4 (daddr c))). rewrite E. unfold iphdr, read_ip4.
  cbn [app]. change (0x45 mod 16) with 5. replace (_ <? 4 * 5) with false; [reflexivity|].
  symmetry. apply Z.ltb_ge. rewrite !zlen_cons. pose proof (zlen_nonneg u). lia.
Qed.

(** C23: for payloads of two bytes and more, a test over IPv4 or IPv6 returns, or stops the
    tool with status 1, however many messages wait in the error queue; it stops only when
    a call fails or a message of the queue has an unknown type.  What went out by then, one
    after the other to the destination, reads as packets 0, 1, ...: letters, a line
    feed and a zero, for raw sockets in a UDP datagram with the ports and the length of the
    datagram, and with the own header in an IPv4 packet to the address; when the test
    returns they are four.  The message that datagrams over IPv6 are skipped is never
    printed for these families: they are sent as well. *)
Theorem packets_sent K q c family opt fuel s h :
  queue_ok K q -> (q < fuel)%nat -> cfg_ok c -> family = PF_INET \/ family = PF_INET6 ->
  exists r s' h' l, do_test fuel c family opt K s h = (r, s', h') /\ sent h' = sent h ++ l /\
    (forall i x, l !! i = Some x -> packet_ok c (Z.of_nat i) x.1 /\ x.2 = dest c family) /\
    (r = Ret tt /\ zlen l = 4 \/ r = Exit 1 /\ zlen l <= 4 /\ ~ works K).
Proof.
  intros HK Hf Hc Hfam. pose proof (do_test_sends K q c family opt fuel s h HK Hf Hc Hfam) as Hwp.
  unfold wp in Hwp. destruct (do_test _ _ _ _ _ _ _) as [[r s'] h']. destruct Hwp as (k & E & Hr).
  exists r, s', h', (take k (sends c family 0 4)). split_and!; [done|done| |].
  - intros i x Hx. rewrite lookup_take_Some in Hx. destruct Hx as [Hx _]. unfold sends in Hx. rewrite list_lookup_fmap in Hx.
    destruct (seqZ 0 4 !! i) as [j|] eqn:Ej; [|done]. injection Hx as <-. apply lookup_seqZ in Ej as [-> _]. cbn [fst snd].
    split; [|done]. by apply packet_reads.
  - destruct Hr as [[-> Hw]|[-> Hk]]; [right|left]; (split; [done|]); unfold zlen; rewrite length_take; cbn [length sends fmap list_fmap] in *.
    + split; [|done]. change (length (sends c family 0 4)) with 4%nat. lia.
    + change (length (sends c family 0 4)) with 4%nat in *. lia.
Qed.

Lemma wp_check {B} (b : bool) e what (k : unit -> prog B) K s h (Q : outcome B -> st -> list (event call) -> Prop) :
  (forall s' h', Q (Exit 1) s' h') -> (forall s' h', wp (k tt) K s' h' Q) ->
  wp (io_bind (if b then error e what else io_ret tt) k) K s h Q.
Proof. intros H1 Hk. unfold error, fprintf. destruct b; wp_go; auto. Qed.

(** With a payload of one byte and no raw headers the buffer is one byte long and
    the line feed goes in front of it: once the socket is set up the test always makes
    the invalid access. *)
Theorem one_byte_payload K c family opt fuel s h r s' h' :
  cfg_payload_len c = 1 -> cfg_proto c <> SOCK_RAW -> family = PF_INET \/ family = PF_INET6 ->
  do_test fuel c family opt K s h = (r, s', h') -> r = Exit 1 \/ r = Crash.
Proof.
  intros Hl Hp Hfam. apply (wp_elim _ _ _ _ (fun r _ _ => r = Exit 1 \/ r = Crash)).
  unfold do_test. replace (family =? IPPROTO_IPV6) with false by (by destruct Hfam as [-> | ->]). cbn [andb].
  wp_step. apply wp_sys_any. intros p. wp_step. apply wp_check; [by left|]. intros s1 h1.
  wp_step. apply wp_sys_any. intros f. wp_step. apply wp_check; [by left|]. intros s2 h2.
  apply wp_silent; [apply setup_silent|by left|]. intros [] s3 h3 _. cbv zeta. wp_step. apply wp_sys_any. intros o. wp_step.
  apply wp_check; [by left|]. intros s4 h4. cbn [packets cfg_num_pkts].
  unfold send_packet, set_prev, fill, total_len. apply Z.eqb_neq in Hp. rewrite Hp, Hl. cbn. by right.
Qed.

(** ** Which addresses are used *)

Definition usable (x : Z * list Z) : bool := (x.1 =? PF_INET) || (x.1 =? PF_INET6).

Lemma pick_stops c addrs a b : a || b = true -> pick c addrs a b = (c, a, b).
Proof. destruct addrs as [|[f l] r]; [done|]. cbn [pick]. destruct a, b; by intros. Qed.

(** The loop stops at the first address of either family. *)
Lemma pick_first c addrs :
  let '(c', have4, have6) := pick c addrs false false in
  match List.find usable addrs with
  | Some (f, a) =>
      have4 = (f =? PF_INET) /\ have6 = (f =? PF_INET6) /\
      (have4 = true -> daddr c' = set_port (ztake 16 a) (dest_port c)) /\
      (have6 = true -> daddr6 c' = set_port a (dest_port c))
  | None => have4 = false /\ have6 = false
  end.
Proof.
  induction addrs as [|[f a] addrs IH]; [done|]. cbn [pick negb andb List.find]. unfold usable at 1. cbn [fst].
  destruct c as [p ip v4 v6 len port a4 a6]. destruct (f =? PF_INET) eqn:E4; cbn [orb].
  - rewrite pick_stops by done. apply Z.eqb_eq in E4 as ->. done.
  - destruct (f =? PF_INET6) eqn:E6; [|apply IH]. rewrite pick_stops by done. done.
Qed.

Definition family_is (f : Z) (c : call) : Prop := match c with Socket g _ _ => g = f | _ => True end.

(** The calls of the tests: the host name is resolved by then. *)
Definition testing (f : Z) (c : call) : Prop := match c with Socket g _ _ => g = f | Getaddrinfo _ => False | _ => True end.

(** The calls before the tests. *)
Definition early (c : call) : Prop := match c with Socket _ _ _ | Getaddrinfo _ => False | _ => True end.

Lemma do_test_testing fuel c family opt : emits (testing family) (do_test fuel c family opt).
Proof.
  assert (forall fd, emits (testing family) (drain fuel c fd)) as Hd.
  { intros fd. induction fuel as [|fuel IH]; cbn [drain]; unfold recv_errmsg, error, fprintf; emits.
    eapply emits_mono; [|apply recv_cmsg_emits]. by intros []. }
  assert (forall n fd i, emits (testing family) (packets fuel n c family fd i)) as Hp.
  { intros n fd. induction n as [|n IH]; intros i; cbn [packets]; unfold send_packet, poll_once, print_timestamp_usr, set_prev, error, fprintf;
      emits; (eapply emits_mono; [|apply print_stamp_emits]); by intros []. }
  unfold do_test, error, fprintf. emits.
Qed.

Lemma do_main_testing fuel c family : emits (testing family) (do_main fuel c family).
Proof. unfold do_main, fprintf. emits; apply do_test_testing. Qed.

Lemma getopt_emits P fuel c n : P Getopt -> (forall t, P (Eprintf t)) -> emits P (getopt_loop fuel c n).
Proof.
  intros HG HP. revert c n. induction fuel as [|fuel IH]; intros c n; cbn [getopt_loop]; unfold usage, fprintf; emits; auto.
Qed.

Lemma parse_opt_early fuel argc : emits early (parse_opt fuel argc).
Proof. unfold parse_opt, error, fprintf. emits. by apply getopt_emits. Qed.

(** The resolver's answer and the families it leaves. *)
Lemma resolve_wp K c host s h :
  wp (resolve_hostname c host) K s h (fun r _ h' => exists t a, h' = t ++ (Getaddrinfo host, a) :: h /\
    Forall (fun e => early e.1) t /\
    forall c', r = Ret c' ->
      match List.find usable (addrinfo (length (data a)) (data a)) with
      | Some (g, _) => (do_ipv4 c' = true -> g = PF_INET) /\ (do_ipv6 c' = true -> g = PF_INET6)
      | None => do_ipv4 c' = false /\ do_ipv6 c' = false
      end).
Proof.
  unfold resolve_hostname, error, fprintf. wp_step. apply wp_sys_any. intros a. do 2 wp_step.
  destruct (truthy (ret a)).
  { wp_go. exists [(Eprintf (Error "getaddrinfo" (errno a)), a0)], a. split; [done|]. split; [by repeat constructor|done]. }
  do 2 wp_step. cbv zeta. pose proof (pick_first c (addrinfo (length (data a)) (data a))) as Hp.
  destruct (pick c _ false false) as [[[p ip v4 v6 len port a4 a6] h4] h6].
  assert (match List.find usable (addrinfo (length (data a)) (data a)) with
      | Some (g, _) => (v4 && h4 = true -> g = PF_INET) /\ (v6 && h6 = true -> g = PF_INET6)
      | None => v4 && h4 = false /\ v6 && h6 = false
      end) as Hf.
  { destruct (List.find usable (addrinfo (length (data a)) (data a))) as [[g l]|].
    - destruct Hp as (-> & -> & _). split; intros [_ E%Z.eqb_eq]%andb_true_iff; done.
    - destruct Hp as [-> ->]. by rewrite !andb_false_r. }
  clear Hp. wp_step. destruct (addrinfo _ _) eqn:El in |- *; wp_go.
  - exists [], a. split; [done|]. split; [done|]. by intros c' [= <-].
  - eexists [_], a. split; [done|]. split; [by repeat constructor|]. by intros c' [= <-].
Qed.

(** The sockets of a history belong to the family of the first address resolved. *)
Definition one_family (h : list (event call)) : Prop :=
  exists f, Forall (fun e => family_is f e.1) h /\
    forall host a, (Getaddrinfo host, a) ∈ h ->
      match List.find usable (addrinfo (length (data a)) (data a)) with
      | Some (g, _) => f = g
      | None => Forall (fun e => forall g, family_is g e.1) h
      end.

Lemma early_one t : Forall (fun e => early e.1) t -> one_family t.
Proof.
  intros Ht. exists 0. split; [eapply Forall_impl; [exact Ht|]; by intros [[] ?]|]. intros host a Hin.
  rewrite Forall_forall in Ht. by specialize (Ht _ Hin).
Qed.

(** Sockets of family [f] after the host name is resolved. *)
Lemma resolved_one t host a t0 f :
  Forall (fun e => early e.1) t0 -> Forall (fun e => testing f e.1) t ->
  match List.find usable (addrinfo (length (data a)) (data a)) with
  | Some (g, _) => f = g
  | None => Forall (fun e => early e.1) t
  end -> one_family (t ++ (Getaddrinfo host, a) :: t0).
Proof.
  intros H0 Ht Hf. exists f. split.
  - rewrite Forall_app, Forall_cons. split_and!; [|done|]; (eapply Forall_impl; [eassumption|]); by intros [[] ?].
  - intros host' a' Hin. apply elem_of_app in Hin as [Hin|[E|Hin]%elem_of_cons].
    + rewrite Forall_forall in Ht. by specialize (Ht _ Hin).
    + injection E as -> ->. destruct (List.find _ _) as [[g l]|]; [done|].
      rewrite Forall_app, Forall_cons. split_and!; [|done|]; (eapply Forall_impl; [eassumption|]); by intros [[] ?].
    + rewrite Forall_forall in H0. by specialize (H0 _ Hin).
Qed.

(** What [main] does with the parameters. *)
Lemma tests_emit g fuel c :
  (do_ipv4 c = true -> g = PF_INET) -> (do_ipv6 c = true -> g = PF_INET6) ->
  emits (testing g)
    (fprintf (Line (sock_names (cfg_proto c))) ;;
     fprintf (Value "payload:      " (u32 (cfg_payload_len c))) ;;
     fprintf (Value "server port:  " (dest_port c)) ;;
     fprintf (Line nl) ;;
     (if do_ipv4 c then do_main fuel c PF_INET else io_ret tt) ;;
     (if do_ipv6 c then do_main fuel c PF_INET6 else io_ret tt) ;;
     io_ret 0).
Proof.
  intros H4 H6. unfold fprintf. destruct (do_ipv4 c), (do_ipv6 c); emits.
  all: first [rewrite H4 by done; apply do_main_testing | rewrite H6 by done; apply do_main_testing].
Qed.

Lemma emits_early c :
  emits early
    (fprintf (Line (sock_names (cfg_proto c))) ;;
     fprintf (Value "payload:      " (u32 (cfg_payload_len c))) ;;
     fprintf (Value "server port:  " (dest_port c)) ;;
     fprintf (Line nl) ;; io_ret tt ;; io_ret tt ;; io_ret 0).
Proof. unfold fprintf. emits. Qed.

(** A run of the tool opens sockets of one family only, that of the first address
    the resolver returns, although both families are wanted by default; when that
    family was switched off it tests nothing. *)
Theorem one_family_tested K fuel argv s r s' h : main fuel argv K s [] = (r, s', h) -> one_family h.
Proof.
  apply (wp_elim _ _ _ _ (fun _ _ h => one_family h)).
  unfold main. eapply (wp_emits early); [unfold usage, fprintf; emits|]. intros r0 s0 t0 H0. rewrite app_nil_r.
  destruct r0 as [[]| | |]; wp_step; [|by apply early_one..].
  eapply (wp_emits early); [apply parse_opt_early|]. intros r1 s1 t1 H1.
  assert (Forall (fun e => early e.1) (t1 ++ t0)) as H01 by (by apply Forall_app).
  destruct r1 as [c| | |]; wp_step; [|by apply early_one..].
  wp_step. eapply wp_wand; [apply resolve_wp|]. intros r2 s2 h2 (t2 & a & -> & H2 & Hr).
  destruct (List.find usable _) as [[g l]|] eqn:Ef in Hr.
  - assert (forall t, Forall (fun e => testing g e.1) t ->
      one_family (t ++ (Getaddrinfo (default ""%string (last argv)), a) :: t1 ++ t0)) as Hq.
    { intros t Ht. apply (resolved_one _ _ _ _ g); [done|done|by rewrite Ef]. }
    assert (Forall (fun e => testing g e.1) t2) as H2' by (eapply Forall_impl; [exact H2|]; by intros [[] ?]).
    destruct r2 as [c'| | |]; wp_step; [|by apply Hq..]. destruct (Hr c' eq_refl) as [Hr4 Hr6].
    eapply wp_wand; [eapply (tests_emit g); [exact Hr4|exact Hr6]|].
    intros ? ? ? (t & -> & Ht). rewrite app_assoc. by apply Hq, Forall_app.
  - assert (forall t, Forall (fun e => early e.1) t ->
      one_family (t ++ (Getaddrinfo (default ""%string (last argv)), a) :: t1 ++ t0)) as Hq.
    { intros t Ht. apply (resolved_one _ _ _ _ 0); [done|eapply Forall_impl; [exact Ht|]; by intros [[] ?]|by rewrite Ef]. }
    destruct r2 as [c'| | |]; wp_step; [|by apply Hq..]. destruct (Hr c' eq_refl) as [-> ->].
    eapply wp_wand; [apply (emits_early c')|]. intros ? ? ? (t & -> & Ht). rewrite app_assoc. by apply Hq, Forall_app.
Qed.

(** ** Witnesses *)

Definition sample_queue : list qmsg := [Stamps (5, 2000) (0, 0) (0, 0); Err false 42 4 [0; 0; 0] 1 7 []].
Definition sample_control : list Z := encode_all (q_cmsg <$> sample_queue).
Definition sample_rest : list Z := replicate (Z.to_nat (sizeof_ctrl - zlen sample_control)) 0.

(** Every packet is stamped once; the host has an IPv4 and an IPv6 address. *)
Definition sample_kernel : kernel call := fun h c =>
  match c with
  | Malloc _ => aret 4096
  | Socket _ _ _ => aret 3
  | Send _ b | Sendto _ b _ => aret (zlen b)
  | Poll _ _ => aret 1
  | Recvmsg _ =>
      if (pending h <? 1)%nat then Ans 10 0 (le_bytes 8 (zlen sample_control) ++ sample_control ++ sample_rest) else aerr EAGAIN
  | Getopt => aret (-1)
  | Optind => aret 1
  | Getaddrinfo _ => Ans 0 0 (2 :: replicate 28 1 ++ 10 :: replicate 28 2)
  | _ => aret 0
  end.

Lemma sample_queue_ok : Forall q_ok sample_queue.
Proof. repeat constructor; vm_compute; intuition congruence. Qed.

Lemma sample_kernel_ok : queue_ok sample_kernel 1.
Proof.
  intros h fd. cbn [sample_kernel]. destruct (Nat.ltb_spec (pending h) 1) as [Hl|_]; [right|left; by exists EAGAIN].
  split; [done|]. exists sample_queue, sample_rest, 10, 0. split; [apply sample_queue_ok|]. done.
Qed.

Lemma timestamps_printed_witness : exists r s' h',
  recv_errmsg default_cfg 3 sample_kernel start [] = (r, s', h') /\
  output h' = [Stamp "  ENQ" 5 2 7 10; Line nl] /\ r = Ret false /\ ts_prev s' = (5, 2000).
Proof.
  destruct (timestamps_printed sample_kernel default_cfg 3 sample_queue sample_rest 10 0 start []) as (r & s' & h' & ts & E1 & E2 & E3).
  - apply sample_queue_ok.
  - done.
  - lia.
  - done.
  - done.
  - vm_compute in E3. injection E3 as -> E4 ->. exists (Ret false), s', h'. exact (conj E1 (conj E2 (conj eq_refl E4))).
Defined.

(** The same with nothing in the queue, and packets with headers of their own. *)
Definition quiet_kernel : kernel call := fun h c => match c with Recvmsg _ => aerr EAGAIN | _ => sample_kernel h c end.
Definition raw_cfg : cfg := Cfg SOCK_RAW IPPROTO_RAW true false 4 9000 ([2; 0; 35; 40; 127; 0; 0; 1] ++ replicate 8 0) (replicate 28 0).

Lemma quiet_works : works quiet_kernel.
Proof. split; try done. by intros h fd e [=]. Qed.

Lemma packets_sent_witness : exists s' h' l,
  do_test 1 raw_cfg PF_INET SOF_TIMESTAMPING_TX_SOFTWARE quiet_kernel start [] = (Ret tt, s', h') /\ sent h' = l /\ zlen l = 4 /\
  forall i x, l !! i = Some x -> packet_ok raw_cfg (Z.of_nat i) x.1 /\ x.2 = daddr raw_cfg.
Proof.
  destruct (packets_sent quiet_kernel 0 raw_cfg PF_INET SOF_TIMESTAMPING_TX_SOFTWARE 1 start []) as (r & s' & h' & l & E & Hs & Hl & Hr).
  - intros h fd. left. by exists EAGAIN.
  - lia.
  - by vm_compute.
  - by left.
  - destruct Hr as [[-> Hn]|(_ & _ & Hw)]; [|destruct (Hw quiet_works)]. exists s', h', l. exact (conj E (conj Hs (conj Hn Hl))).
Defined.

Lemma one_byte_payload_witness :
  let r := (do_test 3 (Cfg SOCK_STREAM IPPROTO_TCP true true 1 9000 (replicate 16 0) (replicate 28 0)) PF_INET 2 sample_kernel start []).1.1 in
  (r = Exit 1 \/ r = Crash) /\ r = Crash.
Proof.
  destruct (do_test _ _ _ _ _ _ _) as [[r s] h] eqn:E. split.
  - by apply (one_byte_payload sample_kernel (Cfg SOCK_STREAM IPPROTO_TCP true true 1 9000 (replicate 16 0) (replicate 28 0))
      PF_INET 2 3 start [] r s h eq_refl ltac:(done) ltac:(by left) E).
  - assert (r = (r, s, h).1.1) as -> by done. rewrite <- E. by vm_compute.
Defined.

Lemma one_family_tested_witness : exists r s' h,
  main 3 ["txtimestamp"; "host"] sample_kernel start [] = (r, s', h) /\ one_family h.
Proof.
  destruct (main 3 ["txtimestamp"; "host"] sample_kernel start []) as [[r s] h] eqn:E.
  exists r, s, h. exact (conj eq_refl (one_family_tested _ _ _ _ _ _ _ E)).
Defined.

End Tx.
