(* ===== verification/Hwtstamp.v ===== *)
(** * Hardware time stamping of an interface: Documentation/networking/timestamping/hwtstamp_config.c

    The tool reads or sets the configuration of an interface; the types and filters
    have names in two tables.  A table is a list of optional names by value. *)

From S2P Require Import Prelude Posix CArray Output.

Module Hw.

Open Scope Z_scope.

(** ** Tables *)

Abbreviation table := (list (option string)).

Fixpoint lookup_from (value : Z) (names : table) (name : string) : Z :=
  match names with
  | [] => -1
  | n :: rest =>
      match n with
      | Some s => if same_word s name then value else lookup_from (value + 1) rest name
      | None => lookup_from (value + 1) rest name
      end
  end.

Definition lookup_value (names : table) (name : string) : Z := lookup_from 0 names name.

Definition lookup_name (names : table) (value : Z) : option string :=
  if (0 <=? value) && (value <? zlen names) then mjoin (names !! Z.to_nat value) else None.

Definition tx_types : table := [Some "OFF"; Some "ON"; Some "ONESTEP_SYNC"]%string.

Definition rx_filters : table :=
  [Some "NONE"; Some "ALL"; Some "SOME"; Some "PTP_V1_L4_EVENT"; Some "PTP_V1_L4_SYNC"; Some "PTP_V1_L4_DELAY_REQ";
   Some "PTP_V2_L4_EVENT"; Some "PTP_V2_L4_SYNC"; Some "PTP_V2_L4_DELAY_REQ"; Some "PTP_V2_L2_EVENT";
   Some "PTP_V2_L2_SYNC"; Some "PTP_V2_L2_DELAY_REQ"; Some "PTP_V2_EVENT"; Some "PTP_V2_SYNC"; Some "PTP_V2_DELAY_REQ"]%string.

(** ** The program *)

Inductive text : Type :=
| Puts (s : string)
| Perror (what : string) (e : Z)
| Flags (v : Z)
| Named (what name : string)
| Numbered (what : string) (v : Z).

Inductive call : Type :=
| Fputs (t : text)
| Printf (t : text)
| Socket
| Ioctl (fd request : Z) (name cfg : list Z).

Definition SIOCSHWTSTAMP := 0x89b0.
Definition SIOCGHWTSTAMP := 0x89b1.
Definition IFNAMSIZ := 16.

Abbreviation prog := (io call unit).

Open Scope io_scope.

Fixpoint list_names (names : table) : prog unit :=
  match names with
  | [] => io_ret tt
  | Some n :: rest => sys (Fputs (Puts n)) ;; list_names rest
  | None :: rest => list_names rest
  end.

Definition usage : prog unit :=
  sys (Fputs (Puts "Usage: hwtstamp_config if_name [tx_type rx_filter]; tx_type is any of")) ;;
  list_names tx_types ;;
  sys (Fputs (Puts "rx_filter is any of")) ;;
  list_names rx_filters.

Definition show (names : table) (what : string) (v : Z) : prog unit :=
  match lookup_name names v with
  | Some name => sys (Printf (Named what name)) ;; io_ret tt
  | None => sys (Printf (Numbered what v)) ;; io_ret tt
  end.

(** The rest of [main] with the bytes of [config]. *)
Definition run (if_name : string) (get : bool) (config : list Z) : prog Z :=
  let* s := sys Socket in
  let sock := ret s in
  if sock <? 0 then sys (Fputs (Perror "socket" (errno s))) ;; io_ret 1
  else
    let* a := sys (Ioctl sock (if get then SIOCGHWTSTAMP else SIOCSHWTSTAMP) (bytes_of_string if_name ++ [0]) config) in
    if truthy (ret a) then sys (Fputs (Perror "ioctl" (errno a))) ;; io_ret 1
    else
      let config := overlay config (data a) in
      let* flags := lift (rd 4 config 0) in
      let* tx := lift (rd 4 config 4) in
      let* rx := lift (rd 4 config 8) in
      sys (Printf (Flags flags)) ;;
      show tx_types "tx_type" (i32 tx) ;;
      show rx_filters "rx_filter" (i32 rx) ;;
      io_ret 0.

(** [junk] are the bytes of [config] before anything is stored. *)
Definition main (junk : list Z) (argv : list string) : prog Z :=
  match argv with
  | [_; if_name] =>
      if IFNAMSIZ <=? strlen if_name then usage ;; io_ret 2 else run if_name true junk
  | [_; if_name; tx; rx] =>
      if IFNAMSIZ <=? strlen if_name then usage ;; io_ret 2
      else
        let tx_type := lookup_value tx_types tx in
        let rx_filter := lookup_value rx_filters rx in
        if (tx_type <? 0) || (rx_filter <? 0) then usage ;; io_ret 2
        else run if_name false (le_bytes 4 0 ++ le_bytes 4 tx_type ++ le_bytes 4 rx_filter)
  | _ => usage ;; io_ret 2
  end.

(** ** Tables are read both ways *)

Lemma lookup_from_spec names k name :
  0 <= k ->
  match List.find (fun n => match n with Some s => same_word s name | None => false end) names with
  | Some (Some s) => exists i : nat, lookup_from k names name = k + Z.of_nat i /\ names !! i = Some (Some s) /\
      same_word s name = true
  | _ => lookup_from k names name = -1
  end.
Proof.
  revert k. induction names as [|[s|] names IH]; intros k Hk; cbn [List.find lookup_from]; [done|..].
  - destruct (same_word s name) eqn:E; [exists 0%nat; split; [lia|done]|]. specialize (IH (k + 1) ltac:(lia)).
    destruct (List.find _ names) as [[s'|]|]; [|done..]. destruct IH as (i & -> & Hi). exists (S i). split; [lia|done].
  - specialize (IH (k + 1) ltac:(lia)). destruct (List.find _ names) as [[s'|]|]; [|done..].
    destruct IH as (i & -> & Hi). exists (S i). split; [lia|done].
Qed.

(** The name in a table that an argument spells. *)
Definition spelled (names : table) (arg : string) : option string :=
  mjoin (List.find (fun n => match n with Some s => same_word s arg | None => false end) names).

Lemma lookup_value_name names arg :
  match spelled names arg with
  | Some s => 0 <= lookup_value names arg < zlen names /\ lookup_name names (lookup_value names arg) = Some s /\
      same_word s arg = true
  | None => lookup_value names arg = -1
  end.
Proof.
  pose proof (lookup_from_spec names 0 arg ltac:(lia)) as H. unfold spelled, lookup_value, lookup_name.
  destruct (List.find _ names) as [[s|]|]; cbn [mjoin option_join]; [|done..]. destruct H as (i & -> & Hi & Hs).
  pose proof (lookup_lt_Some _ _ _ Hi). unfold zlen. replace (_ && _) with true by lia.
  split; [lia|]. replace (Z.to_nat (0 + Z.of_nat i)) with i by lia. by rewrite Hi.
Qed.

#[export] Instance hw_shows : Shows call text := fun c => match c with Printf t => Some t | _ => None end.

#[local] Arguments wp : simpl never.
#[local] Arguments wp_k : simpl never.
#[local] Arguments io_bind : simpl never.

Definition only_stderr (c : call) : Prop := match c with Fputs _ => True | _ => False end.

Lemma list_names_emits names : emits only_stderr (list_names names).
Proof. induction names as [|[n|] names IH]; cbn [list_names]; emits. Qed.

Lemma list_names_returns names K h : wp (list_names names) K tt h (fun r _ _ => r = Ret tt).
Proof.
  revert h. induction names as [|[n|] names IH]; intros h; cbn [list_names]; [done| |apply IH].
  wp_step. apply wp_sys_any. intros a. wp_step. apply IH.
Qed.

Lemma usage_wp K h :
  wp (usage ;; io_ret 2) K tt h (fun r _ h' => r = Ret 2 /\ exists t, h' = t ++ h /\ Forall (fun e => only_stderr e.1) t).
Proof.
  assert (emits only_stderr (usage ;; io_ret 2)) as He by (unfold usage; emits; apply list_names_emits).
  assert (wp (usage ;; io_ret 2) K tt h (fun r _ _ => r = Ret 2)) as Hr.
  { unfold usage. do 2 wp_step. apply wp_sys_any. intros a. do 2 wp_step.
    eapply wp_wand; [apply list_names_returns|]. intros ? [] h1 ->. do 2 wp_step. apply wp_sys_any. intros b. wp_step.
    eapply wp_wand; [apply list_names_returns|]. intros ? [] h2 ->. by do 2 wp_step. }
  eapply wp_wand; [exact (wp_and _ _ _ _ _ _ Hr (He K tt h))|]. intros o s' h' [E1 E2]. exact (conj E1 E2).
Qed.

(** The interface takes the configuration it is given. *)
Definition takes (K : kernel call) : Prop :=
  (forall h, 0 <= ret (K h Socket)) /\ (forall h fd req n cfg, K h (Ioctl fd req n cfg) = Ans 0 0 cfg).

Definition shown_as (names : table) (what : string) (v : Z) : text :=
  match lookup_name names v with Some n => Named what n | None => Numbered what v end.

Lemma show_name_wp names what v K h :
  wp (show names what v) K tt h (fun r _ h' => r = Ret tt /\ output h' = output h ++ [shown_as names what v]).
Proof. unfold show, shown_as. destruct (lookup_name names v); wp_go; (split; [done|]); by rewrite output_cons. Qed.

Lemma run_wp K if_name x y h :
  takes K -> 0 <= x < 2 ^ 31 -> 0 <= y < 2 ^ 31 ->
  wp (run if_name false (le_bytes 4 0 ++ le_bytes 4 x ++ le_bytes 4 y)) K tt h (fun r _ h' => r = Ret 0 /\
    output h' = output h ++ [Flags 0; shown_as tx_types "tx_type" x; shown_as rx_filters "rx_filter" y]).
Proof.
  intros [Hs Hi] Hx Hy. set (cfg := le_bytes 4 0 ++ le_bytes 4 x ++ le_bytes 4 y). assert (2 ^ 31 < 2 ^ (8 * 4)) by done.
  assert (overlay cfg cfg = cfg) as Ec by (by apply overlay_same).
  assert (rd 4 cfg 0 = Ret 0) as R0 by (by eapply (rd_at 4 0 [])).
  assert (rd 4 cfg 4 = Ret x) as R1 by (eapply (rd_at 4 x (le_bytes 4 0)); [reflexivity|lia|done|lia]).
  assert (rd 4 cfg 8 = Ret y) as R2.
  { eapply (rd_at 4 y (le_bytes 4 0 ++ le_bytes 4 x) []); [|lia|done|lia]. unfold cfg. by rewrite app_nil_r, <- app_assoc. }
  unfold run. wp_step. apply wp_sys_eq. intros s Es. wp_step. specialize (Hs h). rewrite Es in Hs.
  replace (ret s <? 0) with false by lia. wp_step. wp_step. rewrite Hi. wp_step. cbn [ret data truthy Z.eqb negb]. rewrite Ec.
  wp_step. apply wp_lift. rewrite R0. do 2 wp_step. apply wp_lift. rewrite R1. do 2 wp_step. apply wp_lift. rewrite R2.
  do 2 wp_step. apply wp_sys_any. intros p. do 2 wp_step. eapply wp_wand; [apply show_name_wp|]. intros ? [] h1 [-> E1].
  do 2 wp_step. eapply wp_wand; [apply show_name_wp|]. intros ? [] h2 [-> E2]. do 2 wp_step. split; [done|].
  rewrite E2, E1, !output_cons, !i32_small by lia. cbn. by rewrite !app_nil_r, <- !app_assoc.
Qed.

(** An argument names a type or a filter when it spells its name in any case: the
    tool then requests its value, and what it prints, when the interface takes the
    configuration, is the name in the table.  Arguments that spell nothing, or a name
    too long for an interface, give the usage text and status 2 before any call. *)
Theorem names_roundtrip K junk prog_ if_name tx rx h :
  takes K ->
  exists r h', main junk [prog_; if_name; tx; rx] K tt h = (Ret r, tt, h') /\
    match spelled tx_types tx, spelled rx_filters rx with
    | Some t, Some f =>
        if strlen if_name <? IFNAMSIZ
        then r = 0 /\ output h' = output h ++ [Flags 0; Named "tx_type" t; Named "rx_filter" f]
        else r = 2 /\ exists l, h' = l ++ h /\ Forall (fun e => only_stderr e.1) l
    | _, _ => r = 2 /\ exists l, h' = l ++ h /\ Forall (fun e => only_stderr e.1) l
    end.
Proof.
  intros [Hs Hi].
  assert (forall Q : Z -> list (event call) -> Prop, wp (main junk [prog_; if_name; tx; rx]) K tt h (fun o _ h' => exists r, o = Ret r /\ Q r h') ->
    exists r h', main junk [prog_; if_name; tx; rx] K tt h = (Ret r, tt, h') /\ Q r h') as Hwp.
  { intros Q. unfold wp. destruct (main _ _ _ _ _) as [[o []] h']. intros (r & -> & HQ). eauto. }
  apply Hwp. clear Hwp. unfold main. cbv zeta.
  pose proof (lookup_value_name tx_types tx) as Ht. pose proof (lookup_value_name rx_filters rx) as Hr.
  destruct (Z.leb_spec IFNAMSIZ (strlen if_name)) as [Hl|Hl].
  { eapply wp_wand; [apply usage_wp|]. intros ? ? ? [-> Hu]. exists 2. split; [done|].
    rewrite (proj2 (Z.ltb_ge _ _) Hl). by destruct (spelled tx_types tx), (spelled rx_filters rx). }
  rewrite (proj2 (Z.ltb_lt _ _) Hl).
  destruct (spelled tx_types tx) as [t|], (spelled rx_filters rx) as [f|].
  2-4: replace (_ || _) with true by lia; eapply wp_wand; [apply usage_wp|]; intros ? ? ? [-> Hu]; by exists 2.
  destruct Ht as (Bt & Lt & _), Hr as (Br & Lr & _).
  change (zlen tx_types) with 3 in *. change (zlen rx_filters) with 15 in *. replace (_ || _) with false by lia.
  set (x := lookup_value tx_types tx) in *. set (y := lookup_value rx_filters rx) in *.
  eapply wp_wand; [apply run_wp; [by split|lia|lia]|]. intros ? ? h' [-> Ho]. exists 0. split; [done|]. split; [done|].
  rewrite Ho. unfold shown_as. by rewrite Lt, Lr.
Qed.

Definition sample_kernel : kernel call := fun _ c =>
  match c with Socket => aret 3 | Ioctl _ _ _ cfg => Ans 0 0 cfg | _ => aret 0 end.

Lemma names_roundtrip_witness : exists h',
  main [] ["hwtstamp_config"; "eth0"; "on"; "ptp_v2_Event"]%string sample_kernel tt [] = (Ret 0, tt, h') /\
  output h' = [Flags 0; Named "tx_type" "ON"; Named "rx_filter" "PTP_V2_EVENT"].
Proof.
  destruct (names_roundtrip sample_kernel [] "hwtstamp_config" "eth0" "on" "ptp_v2_Event" []) as (r & h' & E & H).
  - by split.
  - assert (spelled tx_types "on" = Some "ON"%string) as E1 by (by vm_compute).
    assert (spelled rx_filters "ptp_v2_Event" = Some "PTP_V2_EVENT"%string) as E2 by (by vm_compute).
    rewrite E1, E2 in H. destruct H as [-> Ho]. exists h'. exact (conj E Ho).
Defined.

End Hw.
