(* ===== verification/TestPtp.v ===== *)
(** * PTP clock test program: Documentation/ptp/testptp.c

    Each option is one operation on a PTP hardware clock; [main] performs those that
    were given in a fixed order.  Structures are bytes in host (little-endian, 64-bit)
    order.  A [return] from [main] before its end is [exit_] with the same status.
    The frequency adjustment is computed in double precision, which is modelled by
    exact integer arithmetic with the rounding of IEEE 754. *)

From S2P Require Import Prelude Posix CArray Output.

Module Ptp.

Open Scope Z_scope.

(** ** Data *)

Definition time : Type := Z * Z.

Inductive text : Type :=
| Usage
| Puts (s : string)
| Perror (what : string) (e : Z)
| Opening (device : list Z) (e : Z)
| Caps (max_adj n_alarm n_ext_ts n_per_out pps n_pins : Z)
| ClockTime (t : time)
| Event (index : Z) (t : time)
| Pin (name : list Z) (index func chan : Z)
| SystemTime (t : time)
| PhcTime (t : time)
| Offset (offset interval : Z).

Inductive call : Type :=
| Printf (t : text)
| Eprintf (t : text)
| Getopt
| Open (device : list Z)
| Close (fd : Z)
| GetCaps (fd : Z)
| AdjFreq (clk freq : Z)
| SetOffset (clk sec : Z)
| ClockGettime (clk : Z)
| ClockSettime (clk : Z) (t : time)
| ExttsRequest (fd index flags : Z)
| Read (fd n : Z)
| PinGetfunc (fd index : Z)
| PinSetfunc (fd index func chan : Z)
| PeroutRequest (fd index start period : Z)
| EnablePps (fd enable : Z)
| SysOffset (fd : Z) (sysoff : list Z)
| Calloc (n : Z)
| Free (p : Z)
| Sigprocmask (sig : Z)
| Sigaction (sig : Z)
| TimerCreate (clk : Z)
| TimerSettime (interval value : Z)
| TimerDelete
| Pause.

Definition CLOCK_REALTIME := 0.
Definition CLOCK_INVALID := -1.
Definition CLOCKFD := 3.
Definition PTP_ENABLE_FEATURE := 1.
Definition SIGALRM := 14.
Definition PTP_MAX_SAMPLES := 25.

Abbreviation prog := (io call unit).

(** ** Arithmetic *)

(** [FD_TO_CLOCKID] *)
Definition get_clockid (fd : Z) : Z := i32 (Z.lor (Z.shiftl (Z.lnot fd) 3) CLOCKFD).

(** The double nearest to 65.536 is [scale / 2^44]. *)
Definition scale : Z := 1152921504606847.

(** [p] rounded to 53 significant bits, ties to even. *)
Definition round53 (p : Z) : Z :=
  let k := Z.max 0 (Z.log2 (Z.abs p) - 52) in
  let q := Z.abs p / 2 ^ k in
  let r := Z.abs p mod 2 ^ k in
  let up := (2 ^ k <? 2 * r) || (2 * r =? 2 ^ k) && Z.odd q in
  Z.sgn p * ((if up then q + 1 else q) * 2 ^ k).

(** [(long) (ppb * 65.536)] *)
Definition ppb_to_scaled_ppm (ppb : Z) : Z := Z.quot (round53 (ppb * scale)) (2 ^ 44).

Definition pctns (t : time) : Z := i64 (t.1 * 1000000000 + t.2).

(** ** Options *)

Record opts : Type := Opts {
  device : list Z; adjfreq : Z; adjtime : Z; capabilities : bool; extts : Z; gettime : bool; index : Z;
  list_pins : bool; oneshot : Z; pct_offset : bool; n_samples : Z; periodic : Z; perout : Z; pin_index : Z;
  pin_func : Z; pps : Z; seconds : Z; settime : Z
}.

Definition default_opts : opts :=
  Opts (bytes_of_string "/dev/ptp0") 0x7fffffff 0 false 0 false 0 false 0 false 0 0 (-1) (-1) 0 (-1) 0 0.

Fixpoint drop_spaces (l : list Z) : list Z :=
  match l with c :: r => if is_space c then drop_spaces r else l | [] => [] end.
Definition is_digit (c : Z) : bool := (48 <=? c) && (c <=? 57).
Fixpoint drop_digits (l : list Z) : list Z :=
  match l with c :: r => if is_digit c then drop_digits r else l | [] => [] end.

(** The conversion [%d]. *)
Definition scan_int (l : list Z) : option (Z * list Z) :=
  let l := drop_spaces l in
  let '(sign, l) :=
    match l with
    | c :: r => if c =? 45 then (-1, r) else if c =? 43 then (1, r) else (1, l)
    | [] => (1, [])
    end in
  match l with
  | c :: _ => if is_digit c then Some (i32 (clamp64 (sign * digits 0 l)), drop_digits l) else None
  | [] => None
  end.

(** [sscanf(optarg, "%d,%d", ...) == 2] *)
Definition scan_pair (l : list Z) : option (Z * Z) :=
  match scan_int l with
  | Some (a, c :: r) => if c =? 44 then match scan_int r with Some (b, _) => Some (a, b) | None => None end else None
  | _ => None
  end.

Open Scope io_scope.

Definition printf (t : text) : prog unit := sys (Printf t) ;; io_ret tt.
Definition eprintf (t : text) : prog unit := sys (Eprintf t) ;; io_ret tt.
Definition usage : prog unit := eprintf Usage.
Definition puts (s : string) : prog unit := printf (Puts s).
Definition perror (what : string) (a : ans) : prog unit := eprintf (Perror what (errno a)).

Definition letter (s : string) : Z := znth (bytes_of_string s) 0.

Definition option_step (o : opts) (c : Z) (optarg : list Z) : prog opts :=
  let 'Opts dv af at_ ca ex gt ix lp os po ns pe pr pi pf pp se st := o in
  let opt s := c =? letter s in
  if opt "a" then io_ret (Opts dv af at_ ca ex gt ix lp (atoi optarg) po ns pe pr pi pf pp se st)
  else if opt "A" then io_ret (Opts dv af at_ ca ex gt ix lp os po ns (atoi optarg) pr pi pf pp se st)
  else if opt "c" then io_ret (Opts dv af at_ true ex gt ix lp os po ns pe pr pi pf pp se st)
  else if opt "d" then io_ret (Opts optarg af at_ ca ex gt ix lp os po ns pe pr pi pf pp se st)
  else if opt "e" then io_ret (Opts dv af at_ ca (atoi optarg) gt ix lp os po ns pe pr pi pf pp se st)
  else if opt "f" then io_ret (Opts dv (atoi optarg) at_ ca ex gt ix lp os po ns pe pr pi pf pp se st)
  else if opt "g" then io_ret (Opts dv af at_ ca ex true ix lp os po ns pe pr pi pf pp se st)
  else if opt "i" then io_ret (Opts dv af at_ ca ex gt (atoi optarg) lp os po ns pe pr pi pf pp se st)
  else if opt "k" then io_ret (Opts dv af at_ ca ex gt ix lp os true (atoi optarg) pe pr pi pf pp se st)
  else if opt "l" then io_ret (Opts dv af at_ ca ex gt ix true os po ns pe pr pi pf pp se st)
  else if opt "L" then
    match scan_pair optarg with
    | Some (i, f) => io_ret (Opts dv af at_ ca ex gt ix lp os po ns pe pr i f pp se st)
    | None => usage ;; exit_ (-1)
    end
  else if opt "p" then io_ret (Opts dv af at_ ca ex gt ix lp os po ns pe (atoi optarg) pi pf pp se st)
  else if opt "P" then io_ret (Opts dv af at_ ca ex gt ix lp os po ns pe pr pi pf (atoi optarg) se st)
  else if opt "s" then io_ret (Opts dv af at_ ca ex gt ix lp os po ns pe pr pi pf pp se 1)
  else if opt "S" then io_ret (Opts dv af at_ ca ex gt ix lp os po ns pe pr pi pf pp se 2)
  else if opt "t" then io_ret (Opts dv af (atoi optarg) ca ex gt ix lp os po ns pe pr pi pf pp se st)
  else if opt "T" then io_ret (Opts dv af at_ ca ex gt ix lp os po ns pe pr pi pf pp (atoi optarg) 3)
  else if opt "h" then usage ;; exit_ 0
  else usage ;; exit_ (-1).

Fixpoint getopt_loop (fuel : nat) (o : opts) : prog opts :=
  match fuel with
  | O => nofuel
  | S fuel =>
      let* a := sys Getopt in
      if ret a =? -1 then io_ret o
      else
        let* o := option_step o (ret a) (data a) in
        getopt_loop fuel o
  end.

(** ** Operations *)

(** A call that reports failure with [perror], success with [puts]. *)
Definition report (c : call) (failed : ans -> bool) (what ok : string) : prog unit :=
  let* a := sys c in
  if failed a then perror what a else puts ok.

Definition nonzero (a : ans) : bool := truthy (ret a).

(** Integers of a structure. *)
Definition int_at {A} (buf : list Z) (off : Z) (k : Z -> prog A) : prog A := let* v := lift (rd 4 buf off) in k (i32 v).

Definition sizeof_caps := 80.

Definition get_capabilities (fd : Z) : prog unit :=
  let* a := sys (GetCaps fd) in
  if nonzero a then perror "PTP_CLOCK_GETCAPS" a
  else
    let caps := uninit sizeof_caps a in
    int_at caps 0 (fun m => int_at caps 4 (fun al => int_at caps 8 (fun ex => int_at caps 12 (fun po =>
    int_at caps 16 (fun pp => int_at caps 20 (fun pi => printf (Caps m al ex po pp pi))))))).

(** The [struct timespec] a call stored, or what the variable held. *)
Definition timespec (a : ans) : prog time :=
  let* s := lift (rd 8 (uninit 16 a) 0) in
  let* n := lift (rd 8 (uninit 16 a) 8) in
  io_ret (i64 s, i64 n).

Definition get_time (clkid : Z) : prog unit :=
  let* a := sys (ClockGettime clkid) in
  if nonzero a then perror "clock_gettime" a
  else let* ts := timespec a in printf (ClockTime ts).

Definition set_time (clkid : Z) (o : opts) : prog unit :=
  let set clk ts := report (ClockSettime clk ts) nonzero "clock_settime" "set time okay" in
  if settime o =? 1 then
    let* a := sys (ClockGettime CLOCK_REALTIME) in
    let* ts := timespec a in set clkid ts
  else if settime o =? 2 then
    let* a := sys (ClockGettime clkid) in
    let* ts := timespec a in set CLOCK_REALTIME ts
  else if settime o =? 3 then set clkid (seconds o, 0)
  else io_ret tt.

(** A [struct ptp_clock_time]. *)
Definition sizeof_clock_time := 16.
Definition clock_time {A} (buf : list Z) (off : Z) (k : time -> prog A) : prog A :=
  let* s := lift (rd 8 buf off) in
  let* n := lift (rd 4 buf (off + 8)) in
  k (i64 s, n).

Definition sizeof_event := 32.

(** [for (; extts; extts--)] *)
Fixpoint read_events (fuel : nat) (fd n : Z) : prog unit :=
  match fuel with
  | O => nofuel
  | S fuel =>
      if n =? 0 then io_ret tt
      else
        let* a := sys (Read fd sizeof_event) in
        if negb (i32 (ret a) =? sizeof_event) then perror "read" a
        else
          let event := uninit sizeof_event a in
          let* i := lift (rd 4 event 16) in
          clock_time event 0 (fun t => printf (Event i t)) ;;
          read_events fuel fd (i32 (n - 1))
  end.

Definition external_stamps (fuel : nat) (fd : Z) (o : opts) : prog unit :=
  let* a := sys (ExttsRequest fd (u32 (index o)) PTP_ENABLE_FEATURE) in
  (if nonzero a then perror "PTP_EXTTS_REQUEST" a
   else puts "external time stamp request okay" ;; read_events fuel fd (extts o)) ;;
  let* a := sys (ExttsRequest fd (u32 (index o)) 0) in
  if nonzero a then perror "PTP_EXTTS_REQUEST" a else io_ret tt.

Definition sizeof_pin_desc := 96.

(** [n] more pins from [i]. *)
Fixpoint show_pins (n : nat) (fd i : Z) : prog unit :=
  match n with
  | O => io_ret tt
  | S n =>
      let* a := sys (PinGetfunc fd i) in
      if nonzero a then perror "PTP_PIN_GETFUNC" a
      else
        let desc := uninit sizeof_pin_desc a in
        let* name := lift (cstr desc 0) in
        let* ix := lift (rd 4 desc 64) in
        let* fn := lift (rd 4 desc 68) in
        let* ch := lift (rd 4 desc 72) in
        printf (Pin name ix fn ch) ;;
        show_pins n fd (i + 1)
  end.

Definition pins (fd : Z) : prog unit :=
  let* a := sys (GetCaps fd) in
  let* n_pins := if nonzero a then perror "PTP_CLOCK_GETCAPS" a ;; io_ret 0
                 else int_at (uninit sizeof_caps a) 20 io_ret in
  show_pins (Z.to_nat n_pins) fd 0.

Definition install_handler (signum : Z) : prog unit :=
  sys (Sigprocmask signum) ;; sys (Sigaction signum) ;; io_ret tt.

(** Create a timer and start it. *)
Definition start_timer (clkid interval value : Z) : prog unit :=
  install_handler SIGALRM ;;
  let* a := sys (TimerCreate clkid) in
  (if nonzero a then perror "timer_create" a ;; exit_ (-1) else io_ret tt) ;;
  let* a := sys (TimerSettime interval value) in
  if nonzero a then perror "timer_settime" a ;; exit_ (-1) else io_ret tt.

Definition oneshot_alarm (clkid : Z) (o : opts) : prog unit :=
  start_timer clkid 0 (oneshot o) ;;
  sys Pause ;;
  sys TimerDelete ;;
  io_ret tt.

(** [while (1) pause();] *)
Fixpoint pause_forever (fuel : nat) : prog unit :=
  match fuel with O => nofuel | S fuel => sys Pause ;; pause_forever fuel end.

Definition periodic_alarm (fuel : nat) (clkid : Z) (o : opts) : prog unit :=
  start_timer clkid (periodic o) (periodic o) ;;
  pause_forever fuel ;;
  sys TimerDelete ;;
  io_ret tt.

Definition periodic_output (fd clkid : Z) (o : opts) : prog unit :=
  let* a := sys (ClockGettime clkid) in
  (if nonzero a then perror "clock_gettime" a ;; exit_ (-1) else io_ret tt) ;;
  let* ts := timespec a in
  report (PeroutRequest fd (u32 (index o)) (ts.1 + 2) (perout o)) nonzero "PTP_PEROUT_REQUEST"
    "periodic output request okay".

(** [struct ptp_sys_offset]: the number of samples, three reserved words, 51 times. *)
Definition sizeof_sys_offset := 16 + (2 * PTP_MAX_SAMPLES + 1) * sizeof_clock_time.
Definition ts_at (i : Z) : Z := 16 + i * sizeof_clock_time.

(** One sample: two system times around a time of the hardware clock. *)
Definition show_sample (sysoff : list Z) (i : Z) : prog unit :=
  clock_time sysoff (ts_at (2 * i)) (fun c1 =>
  clock_time sysoff (ts_at (2 * i + 1)) (fun cp =>
  clock_time sysoff (ts_at (2 * i + 2)) (fun c2 =>
  let t1 := pctns c1 in
  let tp := pctns cp in
  let t2 := pctns c2 in
  let interval := i64 (t2 - t1) in
  let offset := i64 (Z.quot (i64 (t2 + t1)) 2 - tp) in
  printf (SystemTime c1) ;; printf (PhcTime cp) ;; printf (SystemTime c2) ;;
  printf (Offset offset interval)))).

Fixpoint show_samples (n : nat) (sysoff : list Z) (i : Z) : prog unit :=
  match n with
  | O => io_ret tt
  | S n => show_sample sysoff i ;; show_samples n sysoff (i + 1)
  end.

Definition measure_offset (fd : Z) (o : opts) : prog unit :=
  (if (n_samples o <=? 0) || (PTP_MAX_SAMPLES <? n_samples o)
   then puts "n_samples should be between 1 and 25" ;; usage ;; exit_ (-1) else io_ret tt) ;;
  let* p := sys (Calloc sizeof_sys_offset) in
  (if ret p =? 0 then perror "calloc" p ;; exit_ (-1) else io_ret tt) ;;
  let sysoff := le_bytes 4 (n_samples o) ++ replicate (Z.to_nat (sizeof_sys_offset - 4)) 0 in
  let* a := sys (SysOffset fd sysoff) in
  (if nonzero a then perror "PTP_SYS_OFFSET" a else puts "system and phc clock time offset request okay") ;;
  let sysoff := overlay sysoff (data a) in
  let* n := lift (rd 4 sysoff 0) in
  show_samples (Z.to_nat n) sysoff 0 ;;
  sys (Free (ret p)) ;;
  io_ret tt.

Definition adjust_frequency (clkid : Z) (o : opts) : prog unit :=
  report (AdjFreq clkid (ppb_to_scaled_ppm (adjfreq o))) nonzero "clock_adjtime" "frequency adjustment okay".

Definition shift_time (clkid : Z) (o : opts) : prog unit :=
  report (SetOffset clkid (adjtime o)) (fun a => ret a <? 0) "clock_adjtime" "time shift okay".

Definition set_pin (fd : Z) (o : opts) : prog unit :=
  report (PinSetfunc fd (u32 (pin_index o)) (u32 (pin_func o)) (u32 (index o))) nonzero "PTP_PIN_SETFUNC"
    "set pin function okay".

Definition enable_pps (fd : Z) (o : opts) : prog unit :=
  report (EnablePps fd (if truthy (pps o) then 1 else 0)) nonzero "PTP_ENABLE_PPS"
    "pps for system time request okay".

Definition when (b : bool) (m : prog unit) : prog unit := if b then m else io_ret tt.

Definition main (fuel : nat) : prog Z :=
  let* o := getopt_loop fuel default_opts in
  let* f := sys (Open (device o)) in
  let fd := ret f in
  (if fd <? 0 then eprintf (Opening (device o) (errno f)) ;; exit_ (-1) else io_ret tt) ;;
  let clkid := get_clockid fd in
  (if CLOCK_INVALID =? clkid then eprintf (Puts "failed to read clock id") ;; exit_ (-1) else io_ret tt) ;;
  when (capabilities o) (get_capabilities fd) ;;
  when (negb (0x7fffffff =? adjfreq o)) (adjust_frequency clkid o) ;;
  when (truthy (adjtime o)) (shift_time clkid o) ;;
  when (gettime o) (get_time clkid) ;;
  set_time clkid o ;;
  when (truthy (extts o)) (external_stamps fuel fd o) ;;
  when (list_pins o) (pins fd) ;;
  when (truthy (oneshot o)) (oneshot_alarm clkid o) ;;
  when (truthy (periodic o)) (periodic_alarm fuel clkid o) ;;
  when (0 <=? perout o) (periodic_output fd clkid o) ;;
  when (0 <=? pin_index o) (set_pin fd o) ;;
  when (negb (pps o =? -1)) (enable_pps fd o) ;;
  when (pct_offset o) (measure_offset fd o) ;;
  sys (Close fd) ;;
  io_ret 0.

(** ** Frequencies *)

Lemma round53_opp p : round53 (- p) = - round53 p.
Proof. unfold round53. rewrite Z.abs_opp, Z.sgn_opp. lia. Qed.

Lemma round53_near p k : 0 < p < 2 ^ 82 -> k = Z.max 0 (Z.log2 p - 52) ->
  0 <= k <= 29 /\ p / 2 ^ k * 2 ^ k <= round53 p <= (p / 2 ^ k + 1) * 2 ^ k.
Proof.
  intros Hp ->. set (k := Z.max 0 (Z.log2 p - 52)). assert (Z.log2 p <= 81).
  { apply Z.lt_succ_r. apply Z.log2_lt_pow2; [lia|]. apply Hp. }
  assert (0 <= k <= 29) as Hk by lia. split; [done|]. pose proof (pow2_pos k (proj1 Hk)).
  unfold round53. rewrite Z.abs_eq, Z.sgn_pos by lia. fold k. set (q := p / 2 ^ k) in *.
  destruct ((2 ^ k <? _) || _); nia.
Qed.

(** The double nearest to 65.536 is slightly larger: 3 parts in [125 * 2^44]. *)
Lemma scale_eq : 125 * scale = 8192 * 2 ^ 44 + 3.
Proof. done. Qed.

Lemma scaled_pos p : 0 < p <= 2 ^ 31 -> ppb_to_scaled_ppm p = p * 8192 / 125.
Proof.
  intros Hp. unfold ppb_to_scaled_ppm. pose proof scale_eq as Hs.
  assert (0 < p * scale < 2 ^ 82) as HP by (unfold scale in *; lia).
  destruct (round53_near (p * scale) _ HP eq_refl) as [Hk [Hlo Hhi]].
  set (k := Z.max 0 _) in *. set (R := round53 _) in *. set (P := p * scale) in *.
  assert (125 * P = p * 8192 * 2 ^ 44 + 3 * p) as H125 by (unfold P; nia).
  pose proof (Z.div_mod (p * 8192) 125 ltac:(lia)) as Hd. pose proof (Z.mod_pos_bound (p * 8192) 125 ltac:(lia)) as Hm.
  set (N := p * 8192 / 125) in *. set (r := (p * 8192) mod 125) in *.
  assert (2 ^ k <= 2 ^ 29) as Hk28 by (apply Z.pow_le_mono_r; lia).
  pose proof (pow2_pos k ltac:(lia)) as Hkp.
  pose proof (Z.div_mod P (2 ^ k) ltac:(lia)) as HdP. pose proof (Z.mod_pos_bound P (2 ^ k) ltac:(lia)) as HmP.
  set (q := P / 2 ^ k) in *.
  assert (N * 2 ^ 44 <= R) as HR1.
  { assert (2 ^ 44 = 2 ^ (44 - k) * 2 ^ k) as E by (rewrite <- Z.pow_add_r by lia; f_equal; lia).
    assert (N * 2 ^ 44 <= P) as HNP by lia.
    assert (N * 2 ^ (44 - k) <= q) as Hq.
    { apply Z.div_le_lower_bound; [lia|]. rewrite E in HNP. lia. }
    rewrite E. nia. }
  assert (R < (N + 1) * 2 ^ 44) as HR2 by lia.
  rewrite Z.quot_div_nonneg by lia. symmetry. apply Z.div_unique_pos with (R - N * 2 ^ 44); lia.
Qed.

(** C24: in double precision the frequency is exactly [(ppb << 16) / 1000], truncated
    towards zero, for every [int]. *)
Theorem ppb_exact ppb : - 2 ^ 31 <= ppb < 2 ^ 31 -> ppb_to_scaled_ppm ppb = Z.quot (Z.shiftl ppb 16) 1000.
Proof.
  intros Hp. rewrite Z.shiftl_mul_pow2 by lia.
  assert (forall p, 0 < p <= 2 ^ 31 -> ppb_to_scaled_ppm p = Z.quot (p * 2 ^ 16) 1000) as Hpos.
  { intros p H. rewrite scaled_pos by done. replace (p * 2 ^ 16) with (p * 8192 * 8) by lia. change 1000 with (125 * 8).
    rewrite Z.quot_mul_cancel_r by lia. rewrite Z.quot_div_nonneg by lia. done. }
  destruct (Z.lt_trichotomy ppb 0) as [Hn|[-> |Hn]]; [|done|apply Hpos; lia].
  replace ppb with (- (- ppb)) by lia. rewrite Z.mul_opp_l, Z.quot_opp_l, <- Hpos by lia.
  unfold ppb_to_scaled_ppm. by rewrite Z.mul_opp_l, round53_opp, Z.quot_opp_l by lia.
Qed.

(** The kernel's [CLOCKID_TO_FD] undoes [FD_TO_CLOCKID], and no descriptor gives the
    invalid clock. *)
Lemma clockid_fd fd : 0 <= fd < 2 ^ 28 ->
  Z.lnot (Z.shiftr (get_clockid fd) 3) = fd /\ Z.land (get_clockid fd) 7 = CLOCKFD /\ get_clockid fd <> CLOCK_INVALID.
Proof.
  intros Hfd. assert (get_clockid fd = -8 * fd - 5) as E.
  { unfold get_clockid, CLOCKFD. assert (Z.lor (Z.shiftl (Z.lnot fd) 3) 3 = -8 * fd - 5) as ->.
    - assert (Z.land (Z.shiftl (Z.lnot fd) 3) 3 = 0) as E0.
      { bitwise i. destruct (Z.ltb_spec i 3); [by rewrite Z.testbit_neg_r by lia|].
        change 3 with (Z.ones 2) at 2. rewrite Z.ones_spec_high by lia. apply andb_false_r. }
      rewrite <- Z.lxor_lor, <- Z.add_nocarry_lxor by done. rewrite Z.shiftl_mul_pow2 by lia. unfold Z.lnot. lia.
    - apply i32_small. lia. }
  rewrite E. split; [|split].
  - rewrite Z.shiftr_div_pow2 by lia. unfold Z.lnot. replace (-8 * fd - 5) with (3 + (- fd - 1) * 8) by lia.
    change (2 ^ 3) with 8. rewrite Z.div_add by lia. change (3 / 8) with 0. lia.
  - change 7 with (Z.ones 3). rewrite Z.land_ones by lia. replace (-8 * fd - 5) with (3 + (- fd - 1) * 2 ^ 3) by lia.
    by rewrite Z.mod_add by lia.
  - unfold CLOCK_INVALID. lia.
Qed.

(** ** Offsets *)

Definition clock_bytes (t : time) : list Z := le_bytes 8 t.1 ++ le_bytes 4 t.2 ++ le_bytes 4 0.
Definition clock_ok (t : time) : Prop := 0 <= t.1 < 2 ^ 32 /\ 0 <= t.2 < 1000000000.
Definition ns (t : time) : Z := t.1 * 1000000000 + t.2.

(** The samples in a sequence of times: system, hardware, system, hardware, ... *)
Fixpoint samples (ts : list time) : list (time * time * time) :=
  match ts with
  | a :: rest =>
      match rest with
      | b :: r => match r with c :: _ => (a, b, c) :: samples r | [] => [] end
      | [] => []
      end
  | [] => []
  end.

Definition sample_texts (x : time * time * time) : list text :=
  let '(c1, cp, c2) := x in
  [SystemTime c1; PhcTime cp; SystemTime c2; Offset ((ns c1 + ns c2) / 2 - ns cp) (ns c2 - ns c1)].

#[export] Instance ptp_shows : Shows call text := fun c => match c with Printf t => Some t | _ => None end.

#[local] Arguments wp : simpl never.
#[local] Arguments wp_k : simpl never.
#[local] Arguments io_bind : simpl never.

Lemma ptp_prints_printf {A} t (k : unit -> prog A) K s r ts :
  prints (k tt) K s r ts -> prints (io_bind (printf t) k) K s r (t :: ts).
Proof. intros Hk. apply prints_line; [by apply prints_text|done]. Qed.

Lemma ptp_prints_last t K s : prints (printf t) K s tt [t].
Proof. by apply prints_text. Qed.

Lemma zlen_clock t : zlen (clock_bytes t) = 16.
Proof. unfold clock_bytes. by rewrite !zlen_app, !zlen_le_bytes. Qed.

Lemma zlen_clocks ts : zlen (concat (clock_bytes <$> ts)) = 16 * zlen ts.
Proof.
  induction ts as [|t ts IH]; [done|]. change (concat (clock_bytes <$> t :: ts)) with (clock_bytes t ++ concat (clock_bytes <$> ts)).
  rewrite zlen_app, zlen_clock, zlen_cons, IH. lia.
Qed.

Lemma prints_clock {A} t pre post buf off (k : time -> prog A) K s r l :
  buf = pre ++ clock_bytes t ++ post -> zlen pre = off -> clock_ok t ->
  prints (k t) K s r l -> prints (clock_time buf off k) K s r l.
Proof.
  intros -> Hp [H1 H2] Hk. unfold clock_time, clock_bytes. assert (2 ^ 32 < 2 ^ 63) by done.
  eapply prints_read. { rewrite <- !app_assoc. eapply (rd_at 8); [reflexivity|lia|done|]. change (2 ^ (8 * 8)) with (2 ^ 64). lia. }
  eapply prints_read.
  { rewrite <- !app_assoc, (app_assoc pre). eapply (rd_at 4); [reflexivity|lia|rewrite zlen_app, zlen_le_bytes; lia|].
    change (2 ^ (8 * 4)) with (2 ^ 32). lia. }
  rewrite i64_small by lia. by destruct t.
Qed.

(** One sample, at any place of the structure. *)
Lemma prints_sample a b c pre post i K s :
  clock_ok a -> clock_ok b -> clock_ok c -> zlen pre = 16 + 2 * i * 16 ->
  prints (show_sample (pre ++ clock_bytes a ++ clock_bytes b ++ clock_bytes c ++ post) i) K s tt (sample_texts (a, b, c)).
Proof.
  intros Ha Hb Hc Hp. unfold show_sample, ts_at, sizeof_clock_time.
  eapply prints_clock; [reflexivity|lia|done|].
  eapply (prints_clock b (pre ++ clock_bytes a)); [by rewrite <- !app_assoc|rewrite zlen_app, zlen_clock; lia|done|].
  eapply (prints_clock c (pre ++ clock_bytes a ++ clock_bytes b)); [by rewrite <- !app_assoc|rewrite !zlen_app, !zlen_clock; lia|done|].
  cbv zeta. destruct Ha as [], Hb as [], Hc as []. unfold sample_texts, pctns. fold (ns a) (ns b) (ns c).
  assert (forall t, 0 <= t.1 < 2 ^ 32 -> 0 <= t.2 < 1000000000 -> 0 <= ns t < 2 ^ 62) as Hns by (unfold ns; lia).
  pose proof (Hns a). pose proof (Hns b). pose proof (Hns c). pose proof (Z.div_mod (ns c + ns a) 2).
  pose proof (Z.mod_pos_bound (ns c + ns a) 2).
  rewrite !(i64_small (ns _)), (i64_small (ns c + ns a)), (i64_small (ns c - ns a)) by lia.
  rewrite Z.quot_div_nonneg, i64_small by lia. do 3 apply ptp_prints_printf. rewrite (Z.add_comm (ns a)). apply ptp_prints_last.
Qed.

Lemma prints_samples n ts pre post buf i K s :
  Forall clock_ok ts -> zlen ts = 2 * Z.of_nat n + 1 -> zlen pre = 16 + 2 * i * 16 ->
  buf = pre ++ concat (clock_bytes <$> ts) ++ post ->
  prints (show_samples n buf i) K s tt (concat (sample_texts <$> samples ts)).
Proof.
  revert ts pre i. induction n as [|n IH]; intros ts pre i Hts Hl Hp Hb.
  - destruct ts as [|a [|b ts]]; [done|apply prints_ret|rewrite !zlen_cons in Hl; pose proof (zlen_nonneg ts); lia].
  - destruct ts as [|a [|b [|c ts]]]; [done|done|done|]. rewrite !Forall_cons in Hts. destruct Hts as (Ha & Hbb & Hc & Hts).
    change (concat (sample_texts <$> samples (a :: b :: c :: ts))) with
      (sample_texts (a, b, c) ++ concat (sample_texts <$> samples (c :: ts))).
    cbn [show_samples]. eapply prints_bind.
    + assert (buf = pre ++ clock_bytes a ++ clock_bytes b ++ clock_bytes c ++ concat (clock_bytes <$> ts) ++ post) as ->
        by (rewrite Hb; cbn [fmap list_fmap concat]; by rewrite <- !app_assoc).
      by apply prints_sample.
    + apply (IH (c :: ts) (pre ++ clock_bytes a ++ clock_bytes b) (i + 1)).
      * by constructor.
      * rewrite !zlen_cons in *. lia.
      * rewrite !zlen_app, !zlen_clock. lia.
      * rewrite Hb. cbn [fmap list_fmap concat]. by rewrite <- !app_assoc.
Qed.

(** The samples the kernel takes are all printed, inside the structure it filled, and
    every offset is half the sum of the two system times minus the hardware time,
    without overflow before the year 2106. *)
Theorem offsets_printed K fd o ts reserved rest h :
  let n := n_samples o in
  let request := le_bytes 4 n ++ replicate (Z.to_nat (sizeof_sys_offset - 4)) 0 in
  let h1 := (Calloc sizeof_sys_offset, K h (Calloc sizeof_sys_offset)) :: h in
  1 <= n <= PTP_MAX_SAMPLES -> zlen ts = 2 * n + 1 -> Forall clock_ok ts -> zlen reserved = 12 ->
  zlen (le_bytes 4 n ++ reserved ++ concat (clock_bytes <$> ts) ++ rest) = sizeof_sys_offset ->
  ret (K h (Calloc sizeof_sys_offset)) <> 0 ->
  K h1 (SysOffset fd request) = Ans 0 0 (le_bytes 4 n ++ reserved ++ concat (clock_bytes <$> ts) ++ rest) ->
  exists h', measure_offset fd o K tt h = (Ret tt, tt, h') /\
    output h' = output h ++ Puts "system and phc clock time offset request okay" :: concat (sample_texts <$> samples ts).
Proof.
  intros n request h1 Hn Hts Hok Hres Hlen Hp HK.
  assert (wp (measure_offset fd o) K tt h (fun r _ h' => r = Ret tt /\
    output h' = output h ++ Puts "system and phc clock time offset request okay" :: concat (sample_texts <$> samples ts))) as Hwp.
  { unfold measure_offset, puts, printf. fold n. unfold PTP_MAX_SAMPLES in Hn. replace (_ || _) with false by (unfold PTP_MAX_SAMPLES; lia).
    do 4 wp_step. wp_step. wp_step. replace (_ =? 0) with false by lia. do 3 wp_step. cbv zeta. fold request. do 2 wp_step.
    fold h1. rewrite HK. wp_step. cbn [nonzero ret truthy Z.eqb negb data]. do 2 wp_step. apply wp_sys_any. intros pr. do 3 wp_step.
    set (new := le_bytes 4 n ++ reserved ++ _) in *.
    rewrite overlay_same by (rewrite Hlen; unfold request; rewrite zlen_app, zlen_le_bytes, zlen_replicate; done).
    wp_step. apply wp_lift. unfold new at 1. erewrite (rd_at 4 n []); [|reflexivity|lia|done|].
    2: { change (2 ^ (8 * 4)) with (2 ^ 32). lia. }
    do 2 wp_step. eapply wp_wand; [apply (prints_samples (Z.to_nat n) ts (le_bytes 4 n ++ reserved) rest)|].
    - done.
    - rewrite Hts. lia.
    - rewrite zlen_app, zlen_le_bytes, Hres. lia.
    - unfold new. by rewrite <- app_assoc.
    - intros ? [] h' (-> & _ & Ho). wp_go. split; [done|]. rewrite output_cons, Ho, !output_cons. unfold h1. rewrite output_cons. cbn.
      by rewrite !app_nil_r, <- !app_assoc. }
  unfold wp in Hwp. destruct (measure_offset fd o K tt h) as [[r []] h']. destruct Hwp as [-> Ho]. eauto.
Qed.

(** ** External time stamps *)

Definition stamp_call (c : call) : option call :=
  match c with ExttsRequest _ _ _ | Read _ _ => Some c | _ => None end.

Definition stamps (h : list (event call)) : list call := trace stamp_call h.

Definition reads_complete (K : kernel call) (fd : Z) : Prop := forall h, ret (K h (Read fd sizeof_event)) = sizeof_event.

Lemma clock_time_wp buf off K h t : zlen buf = sizeof_event -> 0 <= off <= 16 ->
  wp (clock_time buf off (fun c => printf (Event t c))) K tt h (fun r _ h' => r = Ret tt /\ stamps h' = stamps h).
Proof.
  intros Hb Ho. unfold sizeof_event in Hb. unfold clock_time. rewrite !rd_in by lia. wp_step. apply wp_lift. do 2 wp_step. apply wp_lift.
  unfold printf. wp_go. split; [done|]. unfold stamps. by rewrite trace_cons, app_nil_r.
Qed.

Lemma read_events_wp K fuel fd n h :
  0 <= n < 2 ^ 31 -> n < Z.of_nat fuel ->
  wp (read_events fuel fd n) K tt h (fun r _ h' => r = Ret tt /\ exists k, Z.of_nat k <= n /\
    stamps h' = stamps h ++ replicate k (Read fd sizeof_event) /\ (reads_complete K fd -> Z.of_nat k = n)).
Proof.
  revert n h. induction fuel as [|fuel IH]; intros n h Hn Hf; [lia|]. cbn [read_events].
  destruct (Z.eqb_spec n 0) as [-> |Hn0].
  { wp_step. split; [done|]. exists 0%nat. by rewrite app_nil_r. }
  wp_step. apply wp_sys_eq. intros a Ea. wp_step. destruct (Z.eqb_spec (i32 (ret a)) sizeof_event) as [Er|Er]; cbn [negb].
  - wp_step. apply wp_lift. rewrite rd_in by (rewrite ?zlen_uninit; unfold sizeof_event; lia). do 2 wp_step.
    eapply wp_wand; [apply clock_time_wp; [by apply zlen_uninit|lia]|]. intros ? [] h1 [-> E1]. wp_step.
    rewrite i32_small by lia. eapply wp_wand; [apply IH; lia|]. intros ? [] h2 (-> & k & Hk & E2 & Hc). split; [done|].
    exists (S k). split; [lia|]. split; [|intros HK; specialize (Hc HK); lia].
    rewrite E2, E1. unfold stamps at 1. rewrite trace_cons. cbn [stamp_call]. by rewrite <- app_assoc.
  - unfold perror, eprintf. wp_go. split; [done|]. exists 1%nat. split; [lia|]. split.
    + unfold stamps. by rewrite !trace_cons, app_nil_r.
    + intros HK. specialize (HK h). rewrite Ea in HK. by rewrite HK in Er.
Qed.

(** For a count that is not negative, reading external time stamps ends, the
    request is switched off again as the last thing on every path, and in between
    there are at most as many reads as asked for, exactly as many when the clock
    accepts the request and no read is cut short. *)
Theorem extts_protocol K fuel fd o h :
  0 <= extts o < 2 ^ 31 -> extts o < Z.of_nat fuel ->
  exists h' k, external_stamps fuel fd o K tt h = (Ret tt, tt, h') /\
    stamps h' = stamps h ++ ExttsRequest fd (u32 (index o)) 1 :: replicate k (Read fd sizeof_event) ++
      [ExttsRequest fd (u32 (index o)) 0] /\ Z.of_nat k <= extts o /\
    (ret (K h (ExttsRequest fd (u32 (index o)) 1)) = 0 -> reads_complete K fd -> Z.of_nat k = extts o).
Proof.
  intros Hn Hf.
  assert (wp (external_stamps fuel fd o) K tt h (fun r _ h' => r = Ret tt /\ exists k,
    stamps h' = stamps h ++ ExttsRequest fd (u32 (index o)) 1 :: replicate k (Read fd sizeof_event) ++
      [ExttsRequest fd (u32 (index o)) 0] /\ Z.of_nat k <= extts o /\
    (ret (K h (ExttsRequest fd (u32 (index o)) 1)) = 0 -> reads_complete K fd -> Z.of_nat k = extts o))) as Hwp.
  { unfold external_stamps, puts, perror, printf, eprintf. wp_step. apply wp_sys_eq. intros a Ea. wp_step. wp_step.
    change PTP_ENABLE_FEATURE with 1 in *. rewrite Ea. unfold nonzero at 1. destruct (truthy (ret a)) eqn:Et.
    - wp_go; (split; [done|]); exists 0%nat; (split; [unfold stamps; by rewrite !trace_cons, ?app_nil_r, <- ?app_assoc|]).
      all: split; [lia|]; intros E0; by rewrite E0 in Et.
    - do 2 wp_step. apply wp_sys_any. intros p. do 3 wp_step. eapply wp_wand; [apply read_events_wp; lia|].
      intros ? [] h1 (-> & k & Hk & E1 & Hc).
      wp_go; (split; [done|]); exists k; (split; [|auto]); unfold stamps in *; rewrite !trace_cons, E1, !trace_cons;
        cbn; by rewrite ?app_nil_r, <- ?app_assoc. }
  unfold wp in Hwp. destruct (external_stamps fuel fd o K tt h) as [[r []] h']. destruct Hwp as (-> & k & ?). eauto.
Qed.

(** ** Witnesses *)

Lemma ppb_exact_witness : ppb_to_scaled_ppm (-1001) = -65601 /\ ppb_to_scaled_ppm (-1001) = Z.quot (Z.shiftl (-1001) 16) 1000.
Proof. split; [reflexivity|apply (ppb_exact (-1001)); lia]. Defined.

Definition two_samples : opts :=
  Opts [] 0x7fffffff 0 false 2 false 1 false 0 true 2 0 (-1) (-1) 0 (-1) 0 0.

Definition sample_times : list time := [(100, 10); (99, 500); (100, 30); (99, 520); (100, 50)].

Definition sample_sysoff : list Z :=
  le_bytes 4 2 ++ replicate 12 0 ++ concat (clock_bytes <$> sample_times) ++ replicate 736 0.

Definition sample_kernel : kernel call := fun _ c =>
  match c with
  | Calloc _ => aret 4096
  | SysOffset _ _ => Ans 0 0 sample_sysoff
  | Read _ _ => Ans sizeof_event 0 (replicate 32 0)
  | _ => aret 0
  end.

Lemma offsets_printed_witness : exists h',
  measure_offset 3 two_samples sample_kernel tt [] = (Ret tt, tt, h') /\
  output h' = [Puts "system and phc clock time offset request okay";
    SystemTime (100, 10); PhcTime (99, 500); SystemTime (100, 30); Offset 999999520 20;
    SystemTime (100, 30); PhcTime (99, 520); SystemTime (100, 50); Offset 999999520 20].
Proof.
  apply (offsets_printed sample_kernel 3 two_samples sample_times (replicate 12 0) (replicate 736 0) []).
  - by vm_compute.
  - done.
  - repeat constructor; vm_compute; congruence.
  - done.
  - by vm_compute.
  - done.
  - done.
Defined.

Lemma extts_protocol_witness : exists h' k,
  external_stamps 5 3 two_samples sample_kernel tt [] = (Ret tt, tt, h') /\
  stamps h' = ExttsRequest 3 1 1 :: replicate k (Read 3 32) ++ [ExttsRequest 3 1 0] /\ Z.of_nat k = 2.
Proof.
  destruct (extts_protocol sample_kernel 5 3 two_samples []) as (h' & k & E1 & E2 & _ & E3); [by vm_compute|by vm_compute|].
  exists h', k. split; [exact E1|]. split; [exact E2|]. apply E3; [done|]. by intros h.
Defined.

End Ptp.
