(* ===== verification/Hpet.v ===== *)
(** * HPET example: Documentation/timers/hpet_example.c

    Four commands on a timer device.  The state of a program is the counter the signal
    handler increments; the handler runs while the program waits in [pause], whose
    answer holds one byte for every signal delivered until it returns. *)

From S2P Require Import Prelude Posix CArray Output Resources.

Module Hpet.

Open Scope Z_scope.

(** ** Data *)

Inductive text : Type :=
| Msg (s : string)
| MsgStr (s : string) (arg : string)
| Info (ireqfreq flags : Z)
| Info2 (hpet timer : Z)
| Hex (what : string) (v : Z)
| Count (n : Z).

Inductive call : Type :=
| Eprintf (t : text)
| Open (path : string)
| Close (fd : Z)
| IoctlInfo (fd : Z)
| IoctlIrqfreq (fd freq : Z)
| IoctlEpi (fd : Z)
| IoctlIeOn (fd : Z)
| Gettimeofday
| Poll (fd : Z)
| Read (fd n : Z)
| SignalHandler
| SignalOld (old : Z)
| Getpid
| SetOwn (fd pid : Z)
| GetFl (fd : Z)
| SetFl (fd flags : Z)
| Pause.

Definition SIG_ERR := -1.
Definition O_ASYNC := 0x2000.
Definition sizeof_hpet_info := 24.
Definition sizeof_long := 8.

(** The state is [hpet_sigio_count]. *)
Abbreviation prog := (io call Z).

Open Scope io_scope.

Definition eprintf (t : text) : prog unit := sys (Eprintf t) ;; io_ret tt.
Definition close (fd : Z) : prog unit := sys (Close fd) ;; io_ret tt.

(** ** Commands *)

Definition hpet_open_close (argv : list string) : prog unit :=
  match argv with
  | [path] =>
      let* f := sys (Open path) in
      if ret f <? 0 then eprintf (Msg "hpet_open_close: open failed") else close (ret f)
  | _ => eprintf (Msg "hpet_open_close: device-name")
  end.

Definition info_field {A} (a : ans) (n off : Z) (k : Z -> prog A) : prog A :=
  let* v := lift (rd n (uninit sizeof_hpet_info a) off) in k v.

Definition hpet_info (argv : list string) : prog unit :=
  match argv with
  | [path] =>
      let* f := sys (Open path) in
      let fd := ret f in
      if fd <? 0 then eprintf (MsgStr "hpet_info: open failed" path)
      else
        let* a := sys (IoctlInfo fd) in
        (if ret a <? 0 then eprintf (Msg "hpet_info: failed to get info")
         else
           info_field a 8 0 (fun freq => info_field a 8 8 (fun flags => eprintf (Info freq flags))) ;;
           info_field a 2 16 (fun hpet => info_field a 2 18 (fun timer => eprintf (Info2 hpet timer)))) ;;
        close fd
  | _ => eprintf (Msg "hpet_info: device-name")
  end.

Definition timeval (a : ans) : prog (Z * Z) :=
  let* s := lift (rd 8 (uninit 16 a) 0) in
  let* u := lift (rd 8 (uninit 16 a) 8) in
  io_ret (i64 s, i64 u).

Definition usecs (t : Z * Z) : Z := i64 (i64 (t.1 * 1000000) + t.2).

(** The pollfd's [revents] are the two bytes [poll] stores. *)
Definition poll_turn (fd : Z) : prog unit :=
  let* g := sys Gettimeofday in
  let* stv := timeval g in
  let* p := sys (Poll fd) in
  if ret p <? 0 then eprintf (Msg "hpet_poll: poll failed")
  else
    let* g := sys Gettimeofday in
    let* etv := timeval g in
    eprintf (Hex "hpet_poll: expired time" (u64 (usecs etv - usecs stv))) ;;
    let* revents := lift (rd 2 (uninit 2 p) 0) in
    eprintf (Hex "hpet_poll: revents" revents) ;;
    let* r := sys (Read fd sizeof_long) in
    if negb (ret r =? sizeof_long) then eprintf (Msg "hpet_poll: read failed")
    else
      let* data := lift (rd 8 (uninit sizeof_long r) 0) in
      eprintf (Hex "hpet_poll: data" data).

Fixpoint repeat_ (n : nat) (m : prog unit) : prog unit :=
  match n with O => io_ret tt | S n => m ;; repeat_ n m end.

(** The interrupts are set up and switched on, then the loop runs. *)
Definition irq_loop (name : string) (fd freq : Z) (iterations : Z) (turn : prog unit) : prog unit :=
  let* a := sys (IoctlIrqfreq fd freq) in
  if ret a <? 0 then eprintf (MsgStr name "HPET_IRQFREQ failed")
  else
    let* i := sys (IoctlInfo fd) in
    if ret i <? 0 then eprintf (MsgStr name "failed to get info")
    else
      info_field i 8 8 (fun flags =>
      eprintf (Hex "info.hi_flags" flags) ;;
      let* stop := if truthy flags then let* e := sys (IoctlEpi fd) in io_ret (ret e <? 0) else io_ret false in
      if stop : bool then eprintf (MsgStr name "HPET_EPI failed")
      else
        let* e := sys (IoctlIeOn fd) in
        if ret e <? 0 then eprintf (MsgStr name "HPET_IE_ON failed")
        else repeat_ (Z.to_nat iterations) turn).

(** [atoi] to an [unsigned long]. *)
Definition freq_arg (s : string) : Z := u64 (atoi (bytes_of_string s)).
Definition count_arg (s : string) : Z := atoi (bytes_of_string s).

Definition hpet_poll (argv : list string) : prog unit :=
  match argv with
  | [path; freq; iterations] =>
      let* f := sys (Open path) in
      let fd := ret f in
      if fd <? 0 then eprintf (MsgStr "hpet_poll: open failed" path)
      else
        irq_loop "hpet_poll" fd (freq_arg freq) (count_arg iterations) (poll_turn fd) ;;
        close fd
  | _ => eprintf (Msg "hpet_poll: device-name freq iterations")
  end.

(** The signal handler, run [n] times. *)
Fixpoint hpet_sigio (n : nat) : prog unit :=
  match n with
  | O => io_ret tt
  | S n => eprintf (Msg "hpet_sigio: called") ;; modify (fun c => i32 (c + 1)) ;; hpet_sigio n
  end.

Definition fasync_turn : prog unit :=
  let* p := sys Pause in
  hpet_sigio (length (data p)) ;;
  let* c := get in
  eprintf (Count c).

(** The three calls of [fcntl]; true when one is found to have failed. *)
Definition set_async (fd : Z) : prog bool :=
  let* p := sys Getpid in
  let* a := sys (SetOwn fd (ret p)) in
  if ret a =? 1 then io_ret true
  else
    let* v := sys (GetFl fd) in
    if ret v =? 1 then io_ret true
    else
      let* b := sys (SetFl fd (Z.lor (ret v) O_ASYNC)) in
      io_ret (ret b =? 1).

Definition hpet_fasync (argv : list string) : prog unit :=
  put 0 ;;
  let* old := sys SignalHandler in
  let out (fd : Z) := sys (SignalOld (ret old)) ;; (if 0 <=? fd then close fd else io_ret tt) in
  if ret old =? SIG_ERR then eprintf (Msg "hpet_fasync: failed to set signal handler")
  else
    match argv with
    | [path; freq; iterations] =>
        let* f := sys (Open path) in
        let fd := ret f in
        if fd <? 0 then eprintf (MsgStr "hpet_fasync: failed to open" path)
        else
          let* failed := set_async fd in
          (if failed : bool then eprintf (Msg "hpet_fasync: fcntl failed")
           else irq_loop "hpet_fasync" fd (freq_arg freq) (count_arg iterations) fasync_turn) ;;
          out fd
    | _ => eprintf (Msg "hpet_fasync: device-name freq iterations") ;; out (-1)
    end.

(** ** Main *)

Definition hpet_command : list (string * (list string -> prog unit)) :=
  [("open-close"%string, hpet_open_close); ("info"%string, hpet_info); ("poll"%string, hpet_poll);
   ("fasync"%string, hpet_fasync)].

Fixpoint run_command (table : list (string * (list string -> prog unit))) (name : string) (args : list string) : prog Z :=
  match table with
  | [] => eprintf (MsgStr "do_hpet: not implemented" name) ;; io_ret (-1)
  | (command, func) :: rest =>
      if String.eqb name command then eprintf (MsgStr "-hpet: executing" command) ;; func args ;; io_ret 0
      else run_command rest name args
  end.

Definition main (argv : list string) : prog Z :=
  match argv with
  | _ :: name :: args => run_command hpet_command name args
  | _ => eprintf (Msg "-hpet: requires command") ;; io_ret (-1)
  end.

(** ** Descriptors and the signal handler *)

Inductive resource : Type := Fd (n : Z) | Handler.

#[export] Instance resource_eq_dec : EqDecision resource.
Proof. solve_decision. Defined.

#[export] Instance hpet_resources : Resources call resource := {
  acquires c a :=
    match c with
    | Open _ => if ret a <? 0 then None else Some (Fd (ret a))
    | SignalHandler => if ret a =? SIG_ERR then None else Some Handler
    | _ => None
    end;
  releases c a := match c with Close fd => Some (Fd fd) | SignalOld _ => Some Handler | _ => None end
}.

#[local] Arguments wp : simpl never.
#[local] Arguments wp_k : simpl never.
#[local] Arguments io_bind : simpl never.

(** Programs that return and hold as much as before. *)
Definition balanced (m : prog unit) : Prop :=
  forall K s h l, held h = Some l -> wp m K s h (fun r _ h' => r = Ret tt /\ held h' = Some l).

Lemma balanced_bind {A} m (k : unit -> prog A) K s h l Q :
  balanced m -> held h = Some l -> (forall s' h', held h' = Some l -> wp (k tt) K s' h' Q) -> wp (io_bind m k) K s h Q.
Proof. intros Hm Hh Hk. wp_step. eapply wp_wand; [by apply Hm|]. intros ? s' h' [-> H']. wp_step. by apply Hk. Qed.

Lemma repeat_balanced n m : balanced m -> balanced (repeat_ n m).
Proof.
  intros Hm. induction n as [|n IH]; intros K s h l Hh; cbn [repeat_]; [by wp_step|].
  eapply balanced_bind; [done|done|]. intros s' h' H'. by apply IH.
Qed.

Lemma eprintf_balanced t : balanced (eprintf t).
Proof. intros K s h l Hh. unfold eprintf. wp_go. split; [done|]. held_solve. Qed.

Lemma sigio_balanced n : balanced (hpet_sigio n).
Proof.
  induction n as [|n IH]; intros K s h l Hh; cbn [hpet_sigio]; [by wp_step|].
  eapply balanced_bind; [apply eprintf_balanced|done|]. intros s' h' H'. do 3 wp_step. by apply IH.
Qed.

Lemma fasync_turn_balanced : balanced fasync_turn.
Proof.
  intros K s h l Hh. unfold fasync_turn. wp_step. apply wp_sys_any. intros p. wp_step.
  eapply balanced_bind; [apply sigio_balanced|held_solve|]. intros s' h' H'. do 3 wp_step. by apply eprintf_balanced.
Qed.

Lemma timeval_wp {A} a (k : Z * Z -> prog A) K s h Q :
  (forall t, wp (k t) K s h Q) -> wp (io_bind (timeval a) k) K s h Q.
Proof.
  intros Hk. unfold timeval. rewrite !rd_in by (rewrite ?zlen_uninit; lia). wp_step. wp_step. apply wp_lift. do 2 wp_step.
  apply wp_lift. do 3 wp_step. apply Hk.
Qed.

Lemma poll_turn_balanced fd : balanced (poll_turn fd).
Proof.
  intros K s h l Hh. unfold poll_turn. wp_step. apply wp_sys_any. intros g. wp_step. apply timeval_wp. intros t.
  wp_step. apply wp_sys_any. intros p. wp_step. wp_step; [apply eprintf_balanced; held_solve|].
  wp_step. apply wp_sys_any. intros g2. wp_step. apply timeval_wp. intros t2.
  eapply balanced_bind; [apply eprintf_balanced|held_solve|]. intros s1 h1 H1. wp_step. apply wp_lift.
  rewrite rd_in by (rewrite ?zlen_uninit; lia). wp_step.
  eapply balanced_bind; [apply eprintf_balanced|done|]. intros s2 h2 H2. wp_step. apply wp_sys_any. intros r. wp_step.
  wp_step; [apply eprintf_balanced; held_solve|]. wp_step. apply wp_lift.
  rewrite rd_in by (rewrite ?zlen_uninit; unfold sizeof_long; lia). wp_step. apply eprintf_balanced. held_solve.
Qed.

Lemma irq_loop_balanced name fd freq n turn : balanced turn -> balanced (irq_loop name fd freq n turn).
Proof.
  intros Ht K s h l Hh. unfold irq_loop, info_field. wp_step. apply wp_sys_any. intros a. wp_step.
  wp_step; [apply eprintf_balanced; held_solve|]. wp_step. apply wp_sys_any. intros i. wp_step.
  wp_step; [apply eprintf_balanced; held_solve|]. wp_step. apply wp_lift.
  rewrite rd_in by (rewrite ?zlen_uninit; unfold sizeof_hpet_info; lia). wp_step.
  eapply balanced_bind; [apply eprintf_balanced|held_solve|]. intros s1 h1 H1.
  wp_go; try (apply eprintf_balanced; held_solve). all: apply repeat_balanced; [done|held_solve].
Qed.

Lemma open_close_balanced argv : balanced (hpet_open_close argv).
Proof.
  intros K s h l Hh. unfold hpet_open_close, close. destruct argv as [|path [|]]; try by apply eprintf_balanced.
  wp_step. apply wp_sys_any. intros f. wp_step. wp_step; [apply eprintf_balanced; held_solve|].
  wp_go. split; [done|]. held_solve.
Qed.

Lemma info_balanced argv : balanced (hpet_info argv).
Proof.
  intros K s h l Hh. unfold hpet_info, close, info_field. destruct argv as [|path [|]]; try by apply eprintf_balanced.
  wp_step. apply wp_sys_any. intros f. wp_step. wp_step; [apply eprintf_balanced; held_solve|].
  wp_step. apply wp_sys_any. intros a. wp_step.
  eapply (balanced_bind _ _ _ _ _ (Fd (ret f) :: l)); [|held_solve|].
  - intros K' s1 h1 l1 H1. wp_step; [by apply eprintf_balanced|].
    rewrite !rd_in by (rewrite ?zlen_uninit; unfold sizeof_hpet_info; lia).
    wp_step. wp_step. apply wp_lift. wp_step. wp_step. apply wp_lift. wp_step. eapply wp_wand; [by apply eprintf_balanced|].
    intros ? s2 h2 [-> H2]. do 2 wp_step. apply wp_lift. do 2 wp_step. apply wp_lift. wp_step. by apply eprintf_balanced.
  - intros s2 h2 H2. wp_go. split; [done|]. held_solve.
Qed.

Lemma poll_balanced argv : balanced (hpet_poll argv).
Proof.
  intros K s h l Hh. unfold hpet_poll, close. destruct argv as [|path [|freq [|n [|]]]]; try by apply eprintf_balanced.
  wp_step. apply wp_sys_any. intros f. wp_step. wp_step; [apply eprintf_balanced; held_solve|].
  eapply (balanced_bind _ _ _ _ _ (Fd (ret f) :: l)); [apply irq_loop_balanced, poll_turn_balanced|held_solve|].
  intros s2 h2 H2. wp_go. split; [done|]. held_solve.
Qed.

(** The handler stays installed when the device cannot be opened. *)
Definition handler_left (argv : list string) (l : list resource) (h : list (event call)) : Prop :=
  held h = Some (Handler :: l) /\ exists path freq n a, argv = [path; freq; n] /\ (Open path, a) ∈ h /\ ret a < 0.

Lemma set_async_wp fd K s h l :
  held h = Some l -> wp (set_async fd) K s h (fun r _ h' => exists b, r = Ret b /\ held h' = Some l).
Proof. intros Hh. unfold set_async. wp_go; eexists; (split; [done|]); held_solve. Qed.

Lemma fasync_wp argv K s h l :
  held h = Some l ->
  wp (hpet_fasync argv) K s h (fun r _ h' => r = Ret tt /\ (held h' = Some l \/ handler_left argv l h')).
Proof.
  intros Hh. unfold hpet_fasync, close. do 3 wp_step. wp_step. apply wp_sys_any. intros old. wp_step. cbv zeta.
  wp_step. { eapply wp_wand; [apply eprintf_balanced; held_solve|]. intros ? ? ? [-> ?]. auto. }
  destruct argv as [|path [|freq [|n [|]]]].
  all: try (eapply (balanced_bind _ _ _ _ _ (Handler :: l)); [apply eprintf_balanced|held_solve|]; intros s1 h1 H1;
    change (0 <=? -1) with false; wp_go; split; [done|]; left; held_solve).
  wp_step. apply wp_sys_any. intros f. wp_step. wp_step.
  { unfold eprintf. wp_go. split; [done|]. right. split; [held_solve|]. exists path, freq, n, f. split_and!; [done|set_solver|lia]. }
  assert (forall (failed : bool) s1 h1, held h1 = Some (Fd (ret f) :: Handler :: l) ->
    wp ((if failed then eprintf (Msg "hpet_fasync: fcntl failed")
         else irq_loop "hpet_fasync" (ret f) (freq_arg freq) (count_arg n) fasync_turn) ;;
        sys (SignalOld (ret old)) ;; (if 0 <=? ret f then sys (Close (ret f)) ;; io_ret tt else io_ret tt)) K s1 h1
      (fun r _ h' => r = Ret tt /\ (held h' = Some l \/ handler_left [path; freq; n] l h'))) as Hrest.
  { intros failed s1 h1 H1. eapply balanced_bind; [|exact H1|].
    - destruct failed; [apply eprintf_balanced|apply irq_loop_balanced, fasync_turn_balanced].
    - intros s2 h2 H2. replace (0 <=? ret f) with true by lia. wp_go. split; [done|]. left. held_solve. }
  wp_step. eapply wp_wand; [eapply set_async_wp; held_solve|]. intros ? s1 h1 (b & -> & H1). wp_step. by apply Hrest.
Qed.

(** Every command returns, with whatever answers, and gives back the descriptor it
    opened and the signal handler it installed; only [fasync] on a device that cannot
    be opened leaves its handler behind. *)
Theorem commands_release K argv s h l :
  held h = Some l ->
  exists r s' h', main argv K s h = (Ret r, s', h') /\
    (held h' = Some l \/ exists name args, argv = name :: "fasync"%string :: args /\ handler_left args l h').
Proof.
  intros Hh.
  assert (wp (main argv) K s h (fun o _ h' => exists r, o = Ret r /\
    (held h' = Some l \/ exists name args, argv = name :: "fasync"%string :: args /\ handler_left args l h'))) as Hwp.
  { unfold main, hpet_command. destruct argv as [|name [|cmd args]].
    1, 2: eapply balanced_bind; [apply eprintf_balanced|done|]; intros; wp_step; eauto.
    cbn [run_command].
    repeat match goal with |- context [String.eqb cmd ?c] =>
      destruct (String.eqb_spec cmd c) as [-> |];
      [eapply balanced_bind; [apply eprintf_balanced|done|]; intros s1 h1 H1|] end.
    - eapply balanced_bind; [apply open_close_balanced|done|]. intros. wp_step. eauto.
    - eapply balanced_bind; [apply info_balanced|done|]. intros. wp_step. eauto.
    - eapply balanced_bind; [apply poll_balanced|done|]. intros. wp_step. eauto.
    - wp_step. eapply wp_wand; [by apply fasync_wp|]. intros ? s2 h2 [-> H2]. do 2 wp_step. exists 0. split; [done|].
      destruct H2; [by left|right; eauto].
    - eapply balanced_bind; [apply eprintf_balanced|done|]. intros. wp_step. eauto. }
  unfold wp in Hwp. destruct (main argv K s h) as [[o s'] h']. destruct Hwp as (r & -> & H). eauto.
Qed.

(** ** Witnesses *)

Definition no_device : kernel call := fun _ c => match c with Open _ => aerr 2 | _ => aret 0 end.

Lemma commands_release_witness : exists r s' h',
  main ["hpet"; "fasync"; "/dev/hpet"; "64"; "2"]%string no_device 0 [] = (Ret r, s', h') /\
  (held h' = Some [] \/ exists name args,
     ["hpet"; "fasync"; "/dev/hpet"; "64"; "2"]%string = name :: "fasync"%string :: args /\ handler_left args [] h') /\
  held h' = Some [Handler].
Proof.
  destruct (commands_release no_device ["hpet"; "fasync"; "/dev/hpet"; "64"; "2"]%string 0 [] [] eq_refl) as (r & s' & h' & E & H).
  exists r, s', h'. split; [exact E|]. split; [exact H|]. change h' with (Ret r, s', h').2. rewrite <- E. by vm_compute.
Defined.

End Hpet.
