(* ===== verification/Laptop.v ===== *)
(** * Disk tools for laptops: Documentation/laptops/freefall.c and dslm.c

    [Freefall] parks the heads of a disk when the machine falls: a sensor, an alarm
    signal and two files of the kernel.  The signal can arrive at any time its alarm is
    set: behind every call of the loop the program asks the kernel whether it did
    ([Deliver]), which covers a signal that ends a [read].
    [Dslm] measures how long a disk is active or asleep. *)

From S2P Require Import Prelude Posix CArray Output.

Module Freefall.

Open Scope Z_scope.

(** ** Data *)

Inductive call : Type :=
| Open (path : list Z)
| Write (fd : Z) (buf : list Z)
| Close (fd : Z)
| Perror (what : list Z)
| Usage (argv0 : list Z)
| Stat (path : list Z)
| Daemon
| Openlog
| Closelog
| Syslog (str : string) (device : list Z)
| SchedGetPriorityMax
| SchedSetscheduler (prio : Z)
| Mlockall
| SignalAlarm
| Alarm (seconds : Z)
| Read (fd : Z)
| Deliver.

(** The global variables. *)
Record st : Type := St { noled : bool; unload_heads_path : list Z; device_path : list Z }.

Definition start : st := St false [] [].

Abbreviation prog := (io call st).

Definition led_path : list Z := bytes_of_string "/sys/class/leds/hp::hddprotect/brightness".
Definition sensor_path : list Z := bytes_of_string "/dev/freefall".
Definition dev_prefix : list Z := bytes_of_string "/dev/".

Open Scope io_scope.

(** ** Writing to the kernel *)

Definition unload_path (device : list Z) : list Z :=
  ztake 62 (bytes_of_string "/sys/block/" ++ zdrop 5 device ++ bytes_of_string "/device/unload_heads").

Definition set_unload_heads_path (device : list Z) : prog Z :=
  if (zlen device <=? 5) || negb (bool_decide (ztake 5 device = dev_prefix)) then io_ret (- EINVAL)
  else
    let* s := get in
    put (St (noled s) (unload_path device) (ztake 31 device)) ;;
    io_ret 0.

Definition valid_disk : prog bool :=
  let* s := get in
  let* f := sys (Open (unload_heads_path s)) in
  if ret f <? 0 then sys (Perror (unload_heads_path s)) ;; io_ret false
  else sys (Close (ret f)) ;; io_ret true.

(** [sprintf(buf, "%d", i)] *)
Definition decimal (i : Z) : list Z := bytes_of_string (pretty i).

(** [write_int], [set_led] and [protect] run in the loop, where the alarm signal may arrive
    at any time, and in its handler, where it is blocked.  [pause] is what may happen
    behind each call: the handler, or nothing. *)
Section Interruptible.
Context (pause : prog unit).

Definition call_ (c : call) : prog ans :=
  let* a := sys c in
  pause ;;
  io_ret a.

Definition write_int (path : list Z) (i : Z) : prog unit :=
  let* f := call_ (Open path) in
  let fd := ret f in
  (if fd <? 0 then call_ (Perror (bytes_of_string "open")) ;; exit_ 1 else io_ret tt) ;;
  let* w := call_ (Write fd (decimal i)) in
  (if negb (ret w =? zlen (decimal i)) then call_ (Perror (bytes_of_string "write")) ;; exit_ 1 else io_ret tt) ;;
  call_ (Close fd) ;;
  io_ret tt.

Definition set_led (on : Z) : prog unit :=
  let* s := get in
  if noled s then io_ret tt else write_int led_path on.

Definition protect (seconds : Z) : prog unit :=
  let* s := get in
  write_int (unload_heads_path s) (i32 (seconds * 1000)) ;;
  call_ (Syslog (if seconds =? 0 then "Unparked" else "Parked") (device_path s)) ;;
  io_ret tt.
End Interruptible.

Definition on_ac : bool := true.
Definition lid_open : bool := true.

(** The signal handler. *)
Definition ignore_me : prog unit := protect (io_ret tt) 0 ;; set_led (io_ret tt) 0.

(** ** The loop *)

(** The signal arrives, or not. *)
Definition deliver : prog unit :=
  let* a := sys Deliver in
  if ret a =? 1 then ignore_me else io_ret tt.

(** One turn; true is [break].  The signal may arrive behind every call; for [read] that is
    also when it arrives while the program waits. *)
Definition turn (fd : Z) : prog bool :=
  let* r := call_ deliver (Read fd) in
  call_ deliver (Alarm 0) ;;
  if (ret r =? -1) && (errno r =? EINTR) then io_ret false
  else if negb (ret r =? 1) then call_ deliver (Perror (bytes_of_string "read")) ;; io_ret true
  else
    protect deliver 21 ;;
    set_led deliver 1 ;;
    call_ deliver (Alarm (if true || on_ac || lid_open then 2 else 20)) ;;
    io_ret false.

Fixpoint turns (fuel : nat) (fd : Z) : prog unit :=
  match fuel with
  | O => nofuel
  | S fuel =>
      let* stop := turn fd in
      if stop : bool then io_ret tt else turns fuel fd
  end.

Definition set_path (argv : list (list Z)) : prog Z :=
  match argv with
  | [_] => set_unload_heads_path (bytes_of_string "/dev/sda")
  | [_; device] => set_unload_heads_path device
  | _ => io_ret (- EINVAL)
  end.

Definition main (fuel : nat) (argv : list (list Z)) : prog Z :=
  let* r := set_path argv in
  let* ok := if truthy r then io_ret false else valid_disk in
  (if negb ok then sys (Usage (default [] (head argv))) ;; exit_ 1 else io_ret tt) ;;
  let* f := sys (Open sensor_path) in
  let fd := ret f in
  if fd <? 0 then sys (Perror (bytes_of_string "/dev/freefall")) ;; io_ret 1
  else
    let* a := sys (Stat led_path) in
    (if truthy (ret a) then modify (fun s => St true (unload_heads_path s) (device_path s)) else io_ret tt) ;;
    let* d := sys Daemon in
    if truthy (ret d) then sys (Perror (bytes_of_string "daemon")) ;; io_ret 1
    else
      sys Openlog ;;
      let* p := sys SchedGetPriorityMax in
      sys (SchedSetscheduler (ret p)) ;;
      sys Mlockall ;;
      sys SignalAlarm ;;
      turns fuel fd ;;
      call_ deliver Closelog ;;
      call_ deliver (Close fd) ;;
      io_ret 0.

(** ** The heads follow the sensor *)

(** What a history amounts to: whether the alarm is set, the path opened last, what was
    last written to the file [hp] of the heads and to the light, and whether the heads
    were parked since the last fall. *)
Record view : Type := View {
  armed : bool; opened : list Z; heads : option (list Z); light : option (list Z); handled : bool
}.

Definition view0 : view := View false [] None None true.

Section View.
Context (hp : list Z).

Definition view_step (c : call) (a : ans) (v : view) : view :=
  let 'View ar op he li ha := v in
  match c with
  | Open p => View ar p he li ha
  | Write _ buf =>
      if negb (ret a =? zlen buf) then v
      else if bool_decide (op = hp) then View ar op (Some buf) li (ha || bool_decide (buf = decimal 21000))
      else if bool_decide (op = led_path) then View ar op he (Some buf) ha
      else v
  | Alarm n => View (0 <? n) op he li ha
  | Deliver => if ret a =? 1 then View false op he li ha else v
  | Read _ => View ar op he li (if ret a =? 1 then false else ha)
  | _ => v
  end.

Fixpoint view_of (h : list (event call)) : view :=
  match h with [] => view0 | (c, a) :: h => view_step c a (view_of h) end.

(** Every fall was answered, the heads are parked exactly while the alarm is set, and
    so is the light on, if there is one. *)
Definition at_rest (no_led : bool) (v : view) : Prop :=
  handled v = true /\ (no_led = true -> light v = None) /\
  if armed v then heads v = Some (decimal 21000) /\ (no_led = false -> light v = Some (decimal 1))
  else heads v <> Some (decimal 21000) /\ light v <> Some (decimal 1).

(** Every time the sensor is read. *)
Fixpoint guarded (no_led : bool) (h : list (event call)) : Prop :=
  match h with
  | [] => True
  | (c, _) :: h => match c with Read _ => at_rest no_led (view_of h) | _ => True end /\ guarded no_led h
  end.

(** The signal arrives only when the alarm is set and has not arrived before, and nothing
    else interrupts [read]. *)
Definition signals_ok (K : kernel call) : Prop := forall h,
  (ret (K h Deliver) = 1 -> armed (view_of h) = true) /\
  forall fd, let a := K h (Read fd) in ret a = -1 -> errno a = EINTR -> ret (K ((Read fd, a) :: h) Deliver) = 1.

(** A value written to a file. *)
Definition wrote (path : list Z) (i : Z) (v : view) : view :=
  let 'View ar op he li ha := v in
  if bool_decide (path = hp) then View ar path (Some (decimal i)) li (ha || bool_decide (decimal i = decimal 21000))
  else if bool_decide (path = led_path) then View ar path he (Some (decimal i)) ha
  else View ar path he li ha.

#[local] Arguments wp : simpl never.
#[local] Arguments wp_k : simpl never.
#[local] Arguments io_bind : simpl never.

(** A call that reads no sensor and leaves the alarm alone. *)
Definition plain (c : call) : Prop := match c with Read _ | Alarm _ | Deliver => False | _ => True end.

(** A property of the alarm only. *)
Definition of_alarm (quiet : view -> Prop) : Prop :=
  forall ar op op' he he' li li' ha ha', quiet (View ar op he li ha) -> quiet (View ar op' he' li' ha').

Lemma plain_quiet quiet c a v : of_alarm quiet -> plain c -> quiet v -> quiet (view_step c a v).
Proof.
  intros Hal Hc Hv. destruct v as [ar op he li ha], c; try done; cbn [view_step]; try by eapply Hal.
  repeat case_match; by eapply Hal.
Qed.

Context (nl_ : bool) (dp : list Z).
Let s0 : st := St nl_ hp dp.

(** A program that leaves the variables alone, reads no sensor, and stops with status 1
    or changes the view by [f]; [quiet] says what is known of the view before. *)
Definition acts (quiet : view -> Prop) (m : prog unit) (f : view -> view) : Prop := forall K h,
  signals_ok K -> quiet (view_of h) -> guarded nl_ h -> wp m K s0 h (fun r s' h' => s' = s0 /\ guarded nl_ h' /\
    (r = Exit 1 \/ r = Ret tt /\ view_of h' = f (view_of h))).

Lemma acts_bind {A} quiet m f (k : unit -> prog A) K h (Q : outcome A -> st -> list (event call) -> Prop) :
  acts quiet m f -> signals_ok K -> quiet (view_of h) -> guarded nl_ h -> (forall h', guarded nl_ h' -> Q (Exit 1) s0 h') ->
  (forall h', guarded nl_ h' -> view_of h' = f (view_of h) -> wp (k tt) K s0 h' Q) -> wp (io_bind m k) K s0 h Q.
Proof.
  intros Hm HK Hq Hg HQ Hk. wp_step. eapply wp_wand; [by apply Hm|]. intros r s' h' (-> & Hg' & [-> |[-> Hv]]); wp_step; auto.
Qed.

Lemma acts_then quiet m f g n : (forall v, quiet v -> quiet (f v)) ->
  acts quiet m f -> acts quiet n g -> acts quiet (m ;; n) (fun v => g (f v)).
Proof.
  intros Hf Hm Hn K h HK Hq Hg. eapply acts_bind; [done|done|done|done| |].
  - intros h' Hg'. split_and!; [done|done|by left].
  - intros h' Hg' Hv. eapply wp_wand; [apply Hn; [done|rewrite Hv; by apply Hf|done]|].
    intros r s' h2 (-> & Hg2 & Hr). rewrite Hv in Hr. done.
Qed.

(** ** What runs behind a call leaves the view alone *)

Section Writes.
Context (pause : prog unit) (quiet : view -> Prop).
Hypothesis pause_quiet : acts quiet pause (fun v => v).
Hypothesis quiet_opened : of_alarm quiet.

Lemma wp_call {A} c (k : ans -> prog A) K h (Q : outcome A -> st -> list (event call) -> Prop) :
  plain c -> signals_ok K -> quiet (view_of h) -> guarded nl_ h -> (forall h', guarded nl_ h' -> Q (Exit 1) s0 h') ->
  (forall a h', guarded nl_ h' -> quiet (view_of h') -> view_of h' = view_step c a (view_of h) -> wp (k a) K s0 h' Q) ->
  wp (io_bind (call_ pause c) k) K s0 h Q.
Proof using pause_quiet quiet_opened.
  intros Hc HK Hq Hg HQ Hk. unfold call_. do 2 wp_step. apply wp_sys_any. intros a. wp_step.
  assert (guarded nl_ ((c, a) :: h)) as Hg1 by (by split; [destruct c|]).
  pose proof (plain_quiet quiet c a _ quiet_opened Hc Hq) as Hq1.
  eapply acts_bind; [apply pause_quiet|done|done|done|by auto|]. intros h' Hg' Hv. do 2 wp_step. apply Hk; [done| |done].
  by rewrite Hv.
Qed.

Lemma acts_write path i : acts quiet (write_int pause path i) (wrote path i).
Proof using pause_quiet quiet_opened.
  intros K h HK Hq Hg. unfold write_int. assert (forall h', guarded nl_ h' ->
    s0 = s0 /\ guarded nl_ h' /\ (Exit (A := unit) 1 = Exit 1 \/ Exit 1 = Ret tt /\ view_of h' = wrote path i (view_of h))) as Hex
    by (intros; split_and!; auto).
  apply wp_call; [done..|]. intros a1 h1 Hg1 Hq1 Hv1. wp_step. destruct (ret a1 <? 0).
  { apply wp_call; [done|done|done|done|by intros; wp_step; apply Hex|]. intros. wp_go. by apply Hex. }
  do 2 wp_step. apply wp_call; [done..|]. intros a2 h2 Hg2 Hq2 Hv2. wp_step.
  destruct (Z.eqb_spec (ret a2) (zlen (decimal i))) as [E|E]; cbn [negb].
  2: { apply wp_call; [done|done|done|done|by intros; wp_step; apply Hex|]. intros. wp_go. by apply Hex. }
  do 2 wp_step. apply wp_call; [done..|]. intros a3 h3 Hg3 Hq3 Hv3. wp_step. split_and!; [done|done|]. right. split; [done|].
  rewrite Hv3, Hv2, Hv1. destruct (view_of h) as [ar op he li ha]. cbn [view_step wrote]. rewrite E, Z.eqb_refl. cbn [negb].
  by repeat case_bool_decide.
Qed.

Lemma acts_led on : acts quiet (set_led pause on) (fun v => if nl_ then v else wrote led_path on v).
Proof using pause_quiet quiet_opened.
  intros K h HK Hq Hg. unfold set_led. do 3 wp_step. cbn [noled s0].
  assert (nl_ = true \/ nl_ = false) as [E|E] by (case nl_; auto); rewrite E at 1.
  - wp_step. split; [done|split; [done|]]. right. by rewrite E.
  - eapply wp_wand; [by apply acts_write|]. intros r s' h'. by rewrite E.
Qed.

Lemma acts_protect n : acts quiet (protect pause n) (wrote hp (i32 (n * 1000))).
Proof using pause_quiet quiet_opened.
  intros K h HK Hq Hg. unfold protect. do 3 wp_step. cbn [unload_heads_path s0]. eapply acts_bind; [apply acts_write|done|done|done| |].
  - intros h' Hg'. split; [done|split; [done|by left]].
  - intros h' Hg' Hv. apply wp_call; [done|done| |done| |].
    + rewrite Hv. destruct (view_of h) as [ar op he li ha]. cbn [wrote]. repeat case_bool_decide; by eapply quiet_opened.
    + intros. split_and!; auto.
    + intros a h2 Hg2 Hq2 Hv2. wp_step. split_and!; [done|done|]. right. split; [done|]. rewrite Hv2, Hv. cbn [view_step].
      by destruct (wrote hp _ (view_of h)).
Qed.
End Writes.

Hypothesis Hne : hp <> led_path.

(** The heads are released and the light is off. *)
Definition released (v : view) : view :=
  View (armed v) (if nl_ then hp else led_path) (Some (decimal 0)) (if nl_ then light v else Some (decimal 0)) (handled v).

(** Nothing runs behind the calls of the handler. *)
Lemma acts_nothing : acts (fun _ => True) (io_ret tt) (fun v => v).
Proof. intros K h _ _ Hg. wp_step. split_and!; auto. Qed.

Lemma acts_handler : acts (fun _ => True) ignore_me released.
Proof using Hne.
  intros K h HK _ Hg. eapply wp_wand; [apply (acts_then (fun _ => True) _ _ _ _ ltac:(done)
    (acts_protect _ _ acts_nothing ltac:(done) 0) (acts_led _ _ acts_nothing ltac:(done) 0)); done|].
  intros r s' h' (-> & Hg' & Hr). split; [done|split; [done|]]. destruct Hr as [-> |[-> Hv]]; [by left|right]. split; [done|].
  rewrite Hv. destruct (view_of h) as [ar op he li ha]. cbn [wrote]. rewrite bool_decide_true by done.
  change (bool_decide (decimal _ = decimal 21000)) with false. rewrite orb_false_r. unfold released.
  destruct nl_; [done|]. cbn [wrote]. rewrite bool_decide_false by done. by rewrite bool_decide_true.
Qed.

(** The heads are parked and the light is on. *)
Definition parked (v : view) : view :=
  View (armed v) (if nl_ then hp else led_path) (Some (decimal 21000)) (if nl_ then light v else Some (decimal 1)) true.

Lemma park_view v :
  (if nl_ then wrote hp (i32 (21 * 1000)) v else wrote led_path 1 (wrote hp (i32 (21 * 1000)) v)) = parked v.
Proof using Hne.
  clear s0. destruct v as [ar op he li ha]. unfold parked. cbn [wrote]. rewrite (bool_decide_true (hp = hp)) by done.
  change (bool_decide (decimal _ = decimal 21000)) with true. rewrite orb_true_r.
  destruct nl_; [done|]. cbn [wrote]. rewrite bool_decide_false by done. by rewrite bool_decide_true.
Qed.

Definition disarm (v : view) : view := View false (opened v) (heads v) (light v) (handled v).

(** The view after a place where the signal may have arrived. *)
Definition delivered (b : bool) (v : view) : view := if b then released (disarm v) else v.

Lemma deliver_wp {A} (k : unit -> prog A) K h (Q : outcome A -> st -> list (event call) -> Prop) :
  signals_ok K -> guarded nl_ h -> (forall h', guarded nl_ h' -> Q (Exit 1) s0 h') ->
  (forall h', (ret (K h Deliver) = 1 -> armed (view_of h) = true) -> guarded nl_ h' ->
     view_of h' = delivered (ret (K h Deliver) =? 1) (view_of h) -> wp (k tt) K s0 h' Q) ->
  wp (io_bind deliver k) K s0 h Q.
Proof using Hne.
  intros HK Hg HQ Hk. pose proof (proj1 (HK h)) as Hd. unfold deliver. do 2 wp_step. apply wp_sys_eq. intros a Ea. wp_step.
  rewrite Ea in *. destruct (Z.eqb_spec (ret a) 1) as [E|E].
  - eapply wp_wand; [by apply acts_handler|]. intros r s' h' (-> & Hg' & [-> |[-> Hv]]); wp_step; [by apply HQ|].
    apply Hk; [auto|done|]. rewrite Hv. cbn [view_of]. unfold view_step. rewrite E. by destruct (view_of h).
  - do 2 wp_step. apply Hk; [done|by split|]. cbn [view_of]. unfold view_step.
    destruct (view_of h); by rewrite (proj2 (Z.eqb_neq _ _) E).
Qed.

(** Without an alarm no signal arrives. *)
Definition unarmed (v : view) : Prop := armed v = false.

Lemma deliver_unarmed : acts unarmed deliver (fun v => v).
Proof using Hne.
  intros K h HK Hq Hg. pose proof (proj1 (HK h)) as Hd. unfold deliver. wp_step. apply wp_sys_eq. intros a Ea. wp_step.
  rewrite Ea in Hd. destruct (Z.eqb_spec (ret a) 1) as [E|E]; [unfold unarmed in Hq; rewrite Hd in Hq; done|]. wp_step.
  split_and!; [done|by split|]. right. split; [done|]. cbn [view_of]. unfold view_step. destruct (view_of h).
  by rewrite (proj2 (Z.eqb_neq _ _) E).
Qed.

Lemma unarmed_opened : of_alarm unarmed.
Proof. by intros ar op op' he he' li li' ha ha'. Qed.

(** Reading the sensor, and a fall that was answered. *)
Lemma rest_read fd a v : at_rest nl_ v -> ret a <> 1 -> at_rest nl_ (view_step (Read fd) a v).
Proof. destruct v as [ar op he li ha]. intros Hr Ha. cbn [view_step]. by rewrite (proj2 (Z.eqb_neq _ _) Ha). Qed.

Lemma rest_released v : at_rest nl_ v -> at_rest nl_ (released (disarm v)).
Proof using.
  clear s0. destruct v as [ar op he li ha]. unfold at_rest, released, disarm. cbn. intros (-> & Hl & _).
  destruct nl_; [by rewrite Hl|]. by split_and!.
Qed.

Lemma rest_parked v : (nl_ = true -> light v = None) -> armed v = true -> at_rest nl_ (parked v).
Proof using.
  clear s0. destruct v as [ar op he li ha]. unfold at_rest, parked. cbn. intros Hl ->.
  destruct nl_; [by rewrite Hl|]. by split_and!.
Qed.

Lemma rest_delivered b v : at_rest nl_ v -> at_rest nl_ (delivered b v).
Proof. intros Hv. destruct b; [by apply rest_released|done]. Qed.

(** A turn behind the sensor. *)
Lemma park_guarded K h :
  signals_ok K -> guarded nl_ h -> unarmed (view_of h) -> (nl_ = true -> light (view_of h) = None) ->
  wp (protect deliver 21 ;; set_led deliver 1 ;; call_ deliver (Alarm (if true || on_ac || lid_open then 2 else 20)) ;; io_ret false)
    K s0 h (fun r s' h' => s' = s0 /\ guarded nl_ h' /\ (r = Ret false -> at_rest nl_ (view_of h'))).
Proof using Hne.
  intros HK Hg Hu Hl.
  assert (forall h', guarded nl_ h' -> s0 = s0 /\ guarded nl_ h' /\ (Exit (A := bool) 1 = Ret false -> at_rest nl_ (view_of h'))) as Hex
    by (intros; split_and!; done).
  eapply acts_bind; [apply (acts_protect _ _ deliver_unarmed unarmed_opened)|done|done|done|exact Hex|]. intros h1 Hg1 Hv1.
  eapply acts_bind; [apply (acts_led _ _ deliver_unarmed unarmed_opened)|done| |done|exact Hex|].
  { rewrite Hv1. unfold unarmed in *. destruct (view_of h). cbn [wrote]. by repeat case_bool_decide. }
  intros h2 Hg2 Hv2. rewrite Hv1, park_view in Hv2. unfold call_. do 2 wp_step. apply wp_sys_any. intros al. wp_step.
  eapply deliver_wp; [done|by split|exact Hex|]. intros h3 _ Hg3 Hv3. do 3 wp_step. split_and!; [done|done|]. intros _.
  rewrite Hv3. apply rest_delivered. cbn [view_of]. rewrite Hv2. apply (rest_parked (View true (opened (view_of h)) (heads (view_of h))
    (light (view_of h)) (handled (view_of h)))); done.
Qed.

Lemma turn_guarded K fd h :
  signals_ok K -> guarded nl_ h -> at_rest nl_ (view_of h) ->
  wp (turn fd) K s0 h (fun r s' h' => s' = s0 /\ guarded nl_ h' /\ (r = Ret false -> at_rest nl_ (view_of h'))).
Proof using Hne.
  intros HK Hg Hr. unfold turn. wp_step. unfold call_ at 1. wp_step. apply wp_sys_eq. intros a Ea. wp_step.
  pose proof (proj2 (HK h) fd) as Hi. cbv zeta in Hi. rewrite Ea in Hi.
  set (h1 := (Read fd, a) :: h) in *. assert (guarded nl_ h1) as Hg1 by done.
  assert (forall h', guarded nl_ h' -> s0 = s0 /\ guarded nl_ h' /\ (Exit (A := bool) 1 = Ret false -> at_rest nl_ (view_of h'))) as Hex
    by (intros; split_and!; done).
  eapply deliver_wp; [done|done|intros; wp_step; by apply Hex|]. intros h2 Hb Hg2 Hv2. do 3 wp_step.
  unfold call_ at 1. wp_step. apply wp_sys_any. intros al. wp_step.
  eapply acts_bind; [apply deliver_unarmed|done| |by split|intros; wp_step; by apply Hex|].
  { cbn [view_of view_step]. by destruct (view_of h2). }
  intros h3 Hg3 Hv3. cbn [view_of] in Hv3. do 2 wp_step.
  assert (view_of h3 = disarm (view_of h2)) as Hd by (rewrite Hv3; by destruct (view_of h2)).
  assert (nl_ = true -> light (view_of h3) = None) as Hl.
  { intros E. rewrite Hd, Hv2. destruct Hr as (_ & Hl & _). specialize (Hl E). unfold h1. cbn [view_of view_step].
    destruct (view_of h) as [ar op he li ha]. cbn in *. destruct (_ =? 1); cbn; by rewrite ?E. }
  destruct (_ && _) eqn:Ei.
  { zbool. wp_step. split_and!; [done|done|]. intros _. rewrite Hd, Hv2, (Hi ltac:(done) ltac:(done)).
    cbn [delivered Z.eqb Pos.eqb]. apply (rest_released (view_of h1)), rest_read; [done|lia]. }
  destruct (Z.eqb_spec (ret a) 1) as [E1|E1]; cbn [negb].
  - apply park_guarded; [done|done|by rewrite Hd|done].
  - apply (wp_call _ _ deliver_unarmed unarmed_opened); [done|done|by rewrite Hd|done|exact Hex|]. intros. wp_step.
    by split_and!.
Qed.

Lemma turns_guarded K fd fuel h :
  signals_ok K -> guarded nl_ h -> at_rest nl_ (view_of h) ->
  wp (turns fuel fd) K s0 h (fun _ s' h' => s' = s0 /\ guarded nl_ h').
Proof using Hne.
  intros HK. revert h. induction fuel as [|fuel IH]; intros h Hg Hr; cbn [turns]; [by wp_step|].
  wp_step. eapply wp_wand; [by apply turn_guarded|]. intros r s' h' (-> & Hg' & Hr').
  destruct r as [[]| | |]; [by do 2 wp_step|wp_step; by apply IH, Hr'|by wp_step..].
Qed.

(** A call that neither reads the sensor nor changes anything in view. *)
Definition idle (c : call) : Prop :=
  match c with Write _ _ | Alarm _ | Deliver | Read _ => False | _ => True end.

Lemma idle_guarded h : Forall (fun e => idle (fst e)) h ->
  guarded nl_ h /\ at_rest nl_ (view_of h).
Proof using.
  clear s0. intros Hh. assert (guarded nl_ h) as Hg. { induction Hh as [|[[] a] h Hc Hh IH]; by try split. }
  split; [done|]. assert (view_of h = View false (opened (view_of h)) None None true) as ->.
  { clear Hg. induction Hh as [|[c a] h Hc Hh IH]; [done|]. cbn [view_of]. rewrite IH. by destruct c. }
  by split_and!.
Qed.

End View.

(** The file the program writes the time to. *)
Definition heads_path (argv : list (list Z)) : list Z :=
  unload_path match argv with [_; device] => device | _ => bytes_of_string "/dev/sda" end.

Lemma unload_not_led device : unload_path device <> led_path.
Proof. intros E. apply (f_equal (fun l => nth 5 l 0)) in E. by vm_compute in E. Qed.

Lemma set_path_wp argv K h (Q : outcome Z -> st -> list (event call) -> Prop) :
  Q (Ret (- EINVAL)) start h -> (forall dp, Q (Ret 0) (St false (heads_path argv) dp) h) -> wp (set_path argv) K start h Q.
Proof.
  intros H1 H2. assert (forall d, (forall dp, Q (Ret 0) (St false (unload_path d) dp) h) -> wp (set_unload_heads_path d) K start h Q) as Hd.
  { intros d Hd. unfold set_unload_heads_path. destruct (_ || _); wp_go; auto. }
  unfold set_path. destruct argv as [|a [|b [|]]]; try (by wp_step); by apply Hd.
Qed.

Lemma loop_guarded K fd fuel nl dp h argv :
  signals_ok (heads_path argv) K -> Forall (fun e => idle (fst e)) h ->
  wp (turns fuel fd) K (St nl (heads_path argv) dp) h
    (wp_k K (fun _ => call_ deliver Closelog ;; call_ deliver (Close fd) ;; io_ret 0)
      (fun _ s h => guarded (heads_path argv) (noled s) h)).
Proof.
  intros HK Hh. destruct (idle_guarded (heads_path argv) nl h Hh) as [Hg Hr].
  eapply wp_wand; [apply turns_guarded; auto using unload_not_led|].
  intros r s h' [-> Hg']. destruct r; [|by wp_step..]. wp_step. unfold call_.
  do 2 wp_step. apply wp_sys_any. intros x. wp_step.
  eapply deliver_wp; [apply unload_not_led|done|by split|done|]. intros h1 _ Hg1 _. do 4 wp_step. wp_step.
  apply wp_sys_any. intros y. wp_step.
  eapply deliver_wp; [apply unload_not_led|done|by split|done|]. intros h2 _ Hg2 _. by wp_run.
Qed.

(** C19: Whenever the sensor is read, every fall reported so far has been answered by parking the
    heads, the heads are parked and the light is on exactly while the alarm that
    releases them is set: for every disk, sensor and light, whatever fails, and behind whichever call of
    the loop the signal of an alarm that is set arrives. *)
Theorem heads_follow_sensor K fuel argv :
  signals_ok (heads_path argv) K ->
  wp (main fuel argv) K start [] (fun _ s h => guarded (heads_path argv) (noled s) h).
Proof.
  intros HK. unfold main. wp_step.
  apply set_path_wp; [wp_go; first [discriminate|by apply idle_guarded; repeat constructor]|]. intros dp.
  unfold valid_disk. wp_go.
  all: first [discriminate | by apply idle_guarded; repeat constructor | apply loop_guarded; [done|by repeat constructor]].
Qed.

(** One fall, the alarm, and a sensor that fails. *)
Definition one_fall (argv : list (list Z)) : kernel call := fun h c =>
  match c with
  | Open _ => Ans 3 0 []
  | Write _ buf => Ans (zlen buf) 0 []
  | Read _ =>
      if armed (view_of (heads_path argv) h) then Ans (-1) EINTR []
      else if existsb (fun e => match fst e with Read _ => true | _ => false end) h then Ans (-1) 5 []
      else Ans 1 0 [1]
  | Deliver =>
      match h with
      | (Read _, _) :: _ => if armed (view_of (heads_path argv) h) then aret 1 else aret 0
      | _ => aret 0
      end
  | _ => Ans 0 0 []
  end.

Lemma heads_follow_sensor_witness : let argv := [bytes_of_string "freefall"] in let K := one_fall argv in
  signals_ok (heads_path argv) K /\
  wp (main 5 argv) K start [] (fun _ s h => guarded (heads_path argv) (noled s) h) /\
  let '(r, s, h) := main 5 argv K start [] in
  r = Ret 0 /\ heads (view_of (heads_path argv) h) = Some (decimal 0) /\
  Exists (fun e => fst e = Write 3 (decimal 21000)) h.
Proof.
  assert (signals_ok (heads_path [bytes_of_string "freefall"]) (one_fall [bytes_of_string "freefall"])) as HK.
  { intros h. split.
    - unfold one_fall. destruct h as [|[[] ?] ?]; try done. by destruct (armed _).
    - intros fd. cbn zeta. unfold one_fall. destruct (armed (view_of _ h)) eqn:E; [|by case_match].
      intros _ _. cbn [view_of]. destruct (view_of _ h). cbn [view_step armed] in *. by rewrite E. }
  cbn zeta. split; [exact HK|]. split; [apply heads_follow_sensor; exact HK|]. vm_compute. split_and!; [done|done|].
  repeat first [by apply Exists_cons_hd | apply Exists_cons_tl].
Defined.

End Freefall.

Module Dslm.

Open Scope Z_scope.
Open Scope io_scope.

(** ** Data *)

(** What is printed.  A share is printed in seconds and in percent of the total. *)
Inductive text : Type :=
| UsageText
| CantOpen (disk : string) (errno : Z)
| Waiting (seconds : Z)
| NotWaiting
| Starting
| InState (name : string)
| ChangeTo (time : Z) (name : string)
| Running (seconds : Z)
| Changed (times : Z)
| Share (state : string) (seconds total : Z).

(** [Hdio fd args] leaves the four bytes of [args] in the answer; [Deliver] asks whether
    the user interrupted the program. *)
Inductive call : Type :=
| Open (disk : string)
| Hdio (fd : Z) (args : list Z)
| Time
| Sleep (seconds : Z)
| SignalInt
| Deliver
| Close (fd : Z)
| Puts (t : text).

#[export] Instance shows : Shows call text := fun c => match c with Puts t => Some t | _ => None end.

(** The state is the variable [endit]. *)
Abbreviation prog := (io call bool).

Definition puts (t : text) : prog unit := sys (Puts t) ;; io_ret tt.

(** The signal handler. *)
Definition ender : prog unit := put true.

(** A read of [endit]: the signal may have arrived before it. *)
Definition endit : prog bool :=
  let* a := sys Deliver in
  (if ret a =? 1 then ender else io_ret tt) ;;
  get.

(** ** The state of the disk *)

Definition WIN_CHECKPOWERMODE1 := 0xE5.
Definition WIN_CHECKPOWERMODE2 := 0x98.

Definition check_powermode (fd : Z) : prog Z :=
  let* a := sys (Hdio fd [WIN_CHECKPOWERMODE1; 0; 0; 0]) in
  let active (a : ans) := io_ret (if znth (data a) 2 =? 255 then 1 else 0) in
  if truthy (ret a) then
    let* b := sys (Hdio fd (WIN_CHECKPOWERMODE2 :: zdrop 1 (data a))) in
    if truthy (ret b) then
      if negb (errno b =? EIO) || negb (znth (data b) 0 =? 0) || negb (znth (data b) 1 =? 0)
      then io_ret (-1) else io_ret 0
    else active b
  else active a.

Definition state_name (i : Z) : string :=
  if i =? -1 then "unknown" else if i =? 0 then "sleeping" else if i =? 1 then "active" else "internal error".

(** ** Measuring *)

(** The local variables of [measure] that change in its loop. *)
Record counts : Type := Counts {
  last_state : Z; last_time : Z; curr_time : Z;
  active_time : Z; sleep_time : Z; unknown_time : Z; changes : Z
}.

(** The interval since [last_time] is added to the state the disk was in. *)
Definition account (c : counts) (curr_state now : Z) : counts :=
  let 'Counts ls lt _ ac sl un n := c in
  let time_diff := i64 (now - lt) in
  let n := i32 (n + 1) in
  if ls =? 1 then Counts curr_state now now (i64 (ac + time_diff)) sl un n
  else if ls =? 0 then Counts curr_state now now ac (i64 (sl + time_diff)) un n
  else Counts curr_state now now ac sl (i64 (un + time_diff)) n.

Fixpoint watch (fuel : nat) (fd : Z) (c : counts) : prog counts :=
  match fuel with
  | O => nofuel
  | S fuel =>
      let* stop := endit in
      if stop : bool then io_ret c
      else
        sys (Sleep 1) ;;
        let* curr_state := check_powermode fd in
        let* update := if negb (curr_state =? last_state c) then io_ret true else endit in
        if update : bool then
          let* a := sys Time in
          puts (ChangeTo (ret a) (state_name curr_state)) ;;
          watch fuel fd (account c curr_state (ret a))
        else watch fuel fd c
  end.

Definition measure (fuel : nat) (fd : Z) : prog unit :=
  puts Starting ;;
  let* last_state := check_powermode fd in
  let* a := sys Time in
  let start_time := ret a in
  puts (InState (state_name last_state)) ;;
  let* c := watch fuel fd (Counts last_state start_time 0 0 0 0 0) in
  let* b := sys Time in
  let total_time := i64 (ret b - start_time) in
  puts (Running (u64 (curr_time c - start_time))) ;;
  puts (Changed (i32 (changes c - 1))) ;;
  puts (Share "sleep" (u64 (sleep_time c)) total_time) ;;
  puts (Share "active" (u64 (active_time c)) total_time) ;;
  puts (Share "unknown" (u64 (unknown_time c)) total_time).

Definition usage {A} : prog A := puts UsageText ;; exit_ 0.

(** [main] behind its arguments. *)
Definition run (fuel : nat) (disk : string) (settle_time : Z) : prog Z :=
  let* f := sys (Open disk) in
  let fd := ret f in
  (if fd =? 0 then puts (CantOpen disk (errno f)) ;; exit_ (-1) else io_ret tt) ;;
  (if truthy settle_time then puts (Waiting settle_time) ;; sys (Sleep settle_time) ;; io_ret tt
   else puts NotWaiting) ;;
  sys SignalInt ;;
  measure fuel fd ;;
  sys (Close fd) ;;
  io_ret 0.

Definition main (fuel : nat) (argv : list string) : prog Z :=
  match argv with
  | [_; disk] => run fuel disk 60
  | [_; _; time; disk] => run fuel disk (atoi (bytes_of_string time))
  | _ => usage
  end.

(** ** The times add up *)

(** The clock as last seen, and how often the program slept. *)
Fixpoint latest (h : list (event call)) : Z :=
  match h with [] => 0 | (c, a) :: h => match c with Time => ret a | _ => latest h end end.

Fixpoint sleeps (h : list (event call)) : Z :=
  match h with [] => 0 | (c, _) :: h => match c with Sleep _ => sleeps h + 1 | _ => sleeps h end end.

(** The clock starts after 1970, does not run backwards and does not run out of [time_t]. *)
Definition clock_ok (K : kernel call) : Prop := forall h,
  latest h < 2 ^ 62 -> latest h <= ret (K h Time) < 2 ^ 62.

(** The user interrupts the program once it slept [n] times. *)
Definition interrupts (K : kernel call) (n : Z) : Prop := forall h, n <= sleeps h -> ret (K h Deliver) = 1.

Definition named (s : string) : Prop := s = "unknown"%string \/ s = "sleeping"%string \/ s = "active"%string.
Definition is_change (t : text) : Prop := match t with ChangeTo _ s => named s | _ => False end.

(** The variables of the loop after [n] lines, for a measurement that began at [start]. *)
Record tallied (start n : Z) (c : counts) : Prop := Tallied {
  tallied_last : start <= last_time c < 2 ^ 62;
  tallied_start : n = 0 -> last_time c = start;
  tallied_parts : 0 <= active_time c /\ 0 <= sleep_time c /\ 0 <= unknown_time c;
  tallied_sum : active_time c + sleep_time c + unknown_time c = last_time c - start;
  tallied_curr : curr_time c = if n =? 0 then 0 else last_time c;
  tallied_changes : changes c = i32 n
}.

Lemma account_tallied start n c st now :
  0 <= start -> 0 <= n -> tallied start n c -> last_time c <= now < 2 ^ 62 ->
  tallied start (n + 1) (account c st now) /\ last_time (account c st now) = now.
Proof.
  intros Hs Hn [H1 _ H2 H3 H4 H5] Ht. destruct c as [ls lt ct ac sl un ch]. cbn [last_time active_time sleep_time unknown_time curr_time changes] in *.
  unfold account. rewrite H5, i32_add_l. rewrite (i64_small (now - lt)), !i64_small by lia.
  destruct (ls =? 1), (ls =? 0); (split; [constructor; cbn [last_time active_time sleep_time unknown_time curr_time changes];
    [lia..| |done]; by replace (n + 1 =? 0) with false by lia|done]).
Qed.

Lemma named_state r : -1 <= r <= 1 -> named (state_name r).
Proof. intros. assert (r = -1 \/ r = 0 \/ r = 1) as [-> |[-> | ->]] by lia; unfold named; auto. Qed.

Lemma check_powermode_wp {A} fd (k : Z -> prog A) K s h (Q : outcome A -> bool -> list (event call) -> Prop) :
  (forall r h', named (state_name r) -> output h' = output h -> latest h' = latest h -> sleeps h' = sleeps h -> wp (k r) K s h' Q) ->
  wp (io_bind (check_powermode fd) k) K s h Q.
Proof.
  intros Hk. unfold check_powermode. wp_go; (apply Hk; [apply named_state|by rewrite !output_silent|done..]).
  all: try case_match; lia.
Qed.

Lemma endit_wp {A} (k : bool -> prog A) K m s h (Q : outcome A -> bool -> list (event call) -> Prop) :
  interrupts K m ->
  (forall b s' h', (b = false -> sleeps h < m) -> output h' = output h -> latest h' = latest h -> sleeps h' = sleeps h ->
     wp (k b) K s' h' Q) ->
  wp (io_bind endit k) K s h Q.
Proof.
  intros HK Hk. unfold endit, ender. wp_step. wp_step. apply wp_sys_eq. intros a Ea. specialize (HK h). rewrite Ea in HK.
  wp_go; (apply Hk; [|by rewrite output_silent|done..]); zbool; intros; destruct (Z_lt_le_dec (sleeps h) m); auto; lia.
Qed.

(** The loop ended after more lines. *)
Definition tallies (start n : Z) (h : list (event call)) (r : outcome counts) (h' : list (event call)) : Prop :=
  exists c' lines, r = Ret c' /\ output h' = output h ++ lines /\
    Forall is_change lines /\ tallied start (n + zlen lines) c' /\ last_time c' <= latest h' < 2 ^ 62.

Lemma watch_tallied K m fd start fuel : clock_ok K -> interrupts K m -> 0 <= start -> forall c n s h,
  m < sleeps h + Z.of_nat fuel -> (0 < fuel)%nat -> 0 <= n -> tallied start n c -> last_time c <= latest h < 2 ^ 62 ->
  wp (watch fuel fd c) K s h (fun r _ h' => tallies start n h r h').
Proof.
  intros Hc Hi Hs. induction fuel as [|fuel IH]; intros c n s h Hm Hf Hn Ht Hl; [lia|]. cbn [watch].
  eapply endit_wp; [done|]. intros stop s1 h1 Hb Ho1 Hl1 Hs1. destruct stop.
  { wp_step. exists c, []. rewrite app_nil_r, Z.add_0_r. do 2 (split; [done|]). split; [by apply Forall_nil|]. split; [done|lia]. }
  specialize (Hb eq_refl). wp_step. apply wp_sys_any. intros sl. wp_step. apply check_powermode_wp.
  intros st h2 Hst Ho2 Hl2 Hs2. rewrite output_silent, Ho1 in Ho2 by done. cbn [latest sleeps] in Hl2, Hs2.
  assert (forall s h3, output h3 = output h -> latest h3 = latest h2 -> sleeps h3 = sleeps h2 ->
    wp (watch fuel fd c) K s h3 (fun r _ h' => tallies start n h r h')) as Hkeep.
  { intros s' h3 Ho3 Hl3 Hs3. unfold tallies. rewrite <- Ho3. apply IH; try done; lia. }
  assert (forall s h3, output h3 = output h -> latest h3 = latest h2 -> sleeps h3 = sleeps h2 ->
    wp (let* a := sys Time in puts (ChangeTo (ret a) (state_name st)) ;; watch fuel fd (account c st (ret a))) K s h3
      (fun r _ h' => tallies start n h r h')) as Hupd.
  { intros s' h3 Ho3 Hl3 Hs3. wp_step. apply wp_sys_eq. intros a Ea. pose proof (Hc h3 ltac:(lia)) as Hn'. rewrite Ea in Hn'.
    destruct (account_tallied start n c st (ret a)) as [Ht' Hl']; [done..|lia|]. unfold puts. do 3 wp_step. apply wp_sys_any. intros pa. do 3 wp_step.
    eapply wp_wand; [apply (IH _ (n + 1)); cbn [latest sleeps]; try done; lia|].
    intros r s2 h4 (c' & lines & -> & Ho & Hall & Htal & Hlast). exists c', (ChangeTo (ret a) (state_name st) :: lines).
    split; [done|]. split. { rewrite Ho, output_cons, output_silent, Ho3, <- app_assoc by done. done. }
    split; [by constructor|]. rewrite zlen_cons. split; [|done]. by replace (n + (1 + zlen lines)) with (n + 1 + zlen lines) by lia. }
  destruct (st =? last_state c) eqn:E; cbn [negb].
  - eapply endit_wp; [done|]. intros b s3 h3 _ Ho3 Hl3 Hs3. destruct b; [apply Hupd|apply Hkeep]; congruence.
  - do 2 wp_step. by apply Hupd.
Qed.

(** A complete report: the times in the three states are the running time, except
    that without a line about a change no time was accounted and the running time is
    that of a clock at 0. *)
Definition report (ts : list text) : Prop :=
  exists first lines running slept active unknown total,
    ts = Starting :: InState first :: lines ++
         [Running running; Changed (i32 (zlen lines - 1)); Share "sleep" slept total;
          Share "active" active total; Share "unknown" unknown total] /\
    named first /\ Forall is_change lines /\
    0 <= slept /\ 0 <= active /\ 0 <= unknown /\ slept + active + unknown <= total /\
    match lines with
    | [] => slept + active + unknown = 0 /\ exists start, 0 <= start < 2 ^ 62 /\ running = u64 (- start)
    | _ => slept + active + unknown = running
    end.

Lemma measure_reports K m fd fuel s h :
  clock_ok K -> interrupts K m -> m < sleeps h + Z.of_nat fuel -> (0 < fuel)%nat -> 0 <= latest h < 2 ^ 62 ->
  wp (measure fuel fd) K s h (fun r _ h' => r = Ret tt /\ exists ts, output h' = output h ++ ts /\ report ts).
Proof.
  intros Hc Hi Hm Hf Hl. unfold measure, puts. do 3 wp_step. apply wp_sys_any. intros a0. do 2 wp_step.
  wp_step. apply check_powermode_wp. intros st h1 Hst Ho1 Hl1 Hs1. cbn [latest sleeps] in Hl1, Hs1. rewrite output_cons in Ho1. cbn in Ho1.
  wp_step. apply wp_sys_eq. intros a1 Ea1. pose proof (Hc h1 ltac:(lia)) as H1. rewrite Ea1 in H1. do 4 wp_step. apply wp_sys_any. intros a2.
  do 4 wp_step. eapply wp_wand.
  { eapply (watch_tallied K m fd (ret a1) fuel Hc Hi ltac:(lia) _ 0); cbn [sleeps latest last_time]; [lia|done|done| |lia].
    constructor; cbn; [lia..|done|done]. }
  intros r s' h2 (c & lines & -> & Ho2 & Hall & Ht & Hlast). wp_step. wp_step. apply wp_sys_eq. intros a3 Ea3.
  pose proof (Hc h2 ltac:(lia)) as H3. rewrite Ea3 in H3. destruct Ht as [Hb Hz Hp Hsum Hcur Hch]. wp_go. split; [done|].
  eexists. split.
  { rewrite !output_cons, Ho2, !output_cons, Ho1. cbn [shown shows]. rewrite app_nil_r, <- !app_assoc. done. }
  unfold u64. rewrite (wrap_small 64 (sleep_time c)), (wrap_small 64 (active_time c)), (wrap_small 64 (unknown_time c)) by (unfold fits; lia).
  rewrite i64_small by lia. replace (i32 (changes c - 1)) with (i32 (zlen lines - 1)) by (rewrite Hch; symmetry; apply i32_add_l).
  exists (state_name st), lines, (u64 (curr_time c - ret a1)), (sleep_time c), (active_time c), (unknown_time c), (ret a3 - ret a1).
  split; [done|]. split_and!; [done|done|lia..|]. destruct lines as [|t lines]; cbn [zlen] in *.
  - specialize (Hz eq_refl). split; [lia|]. exists (ret a1). split; [lia|]. rewrite Hcur. done.
  - pose proof (zlen_nonneg lines). rewrite zlen_cons in Hcur. replace (_ =? 0) with false in Hcur by lia.
    rewrite Hcur. unfold u64. rewrite wrap_small; unfold fits; lia.
Qed.

(** What a run on a disk ends with. *)
Definition run_result (K : kernel call) (disk : string) (settle : Z) (r : outcome Z) (h : list (event call)) : Prop :=
  let f := K [] (Open disk) in
  if ret f =? 0 then r = Exit (-1) /\ output h = [CantOpen disk (errno f)]
  else r = Ret 0 /\ exists ts, report ts /\ output h = (if truthy settle then Waiting settle else NotWaiting) :: ts.

(** C37: The monitor stops once it is interrupted and reports: the times asleep, active and in
    an unknown state are never negative and add up to the running time, the number of changes is
    one less than the lines printed, and every state has its name.  Interrupted before any
    line was printed it accounts for no time and shows the running time of a clock at 0.
    All this for every disk, also one that could not be opened with -1. *)
Theorem times_add_up K m fuel argv :
  clock_ok K -> interrupts K m -> m < Z.of_nat fuel -> (0 < fuel)%nat ->
  wp (main fuel argv) K false [] (fun r _ h =>
    match argv with
    | [_; disk] => run_result K disk 60 r h
    | [_; _; time; disk] => run_result K disk (atoi (bytes_of_string time)) r h
    | _ => r = Exit 0 /\ output h = [UsageText]
    end).
Proof.
  intros Hc Hi Hm Hf.
  assert (forall disk settle, wp (run fuel disk settle) K false [] (fun r _ h => run_result K disk settle r h)) as Hrun.
  { intros disk settle. unfold run. wp_step. apply wp_sys_eq. intros f Ef. unfold run_result. rewrite Ef. wp_step. wp_step.
    destruct (ret f =? 0); unfold puts; [by wp_go|]. wp_step. wp_step.
    assert (forall h, sleeps h >= 0 -> latest h = 0 -> output h = [if truthy settle then Waiting settle else NotWaiting] ->
      wp (measure fuel (ret f)) K false h (wp_k K (fun _ => sys (Close (ret f)) ;; io_ret 0) (fun r _ h' => r = Ret 0 /\
        exists ts, report ts /\ output h' = (if truthy settle then Waiting settle else NotWaiting) :: ts))) as Hend.
    { intros h Hs Hl Ho. eapply wp_wand; [apply (measure_reports K m); [done|done|lia|done|lia]|].
      intros r s h' [-> (ts & Ho' & Hts)]. wp_go. split; [done|]. exists ts. split; [done|]. by rewrite output_silent, Ho', Ho. }
    destruct (truthy settle); wp_step; wp_go; apply Hend; done. }
  unfold main. destruct argv as [|a [|b [|c [|d [|]]]]]; unfold usage, puts; try (by wp_go); wp_step; wp_step; apply Hrun.
Qed.

(** A disk that falls asleep, interrupted after the fourth pause. *)
Definition idle_disk : kernel call := fun h c =>
  match c with
  | Open _ => Ans (-1) 2 []
  | Hdio _ _ => Ans 0 0 [0; 0; if sleeps h <? 3 then 255 else 0; 0]
  | Time => Ans (if (latest h <? 1000 + 10 * sleeps h) && (1000 + 10 * sleeps h <? 2 ^ 62) then 1000 + 10 * sleeps h else latest h) 0 []
  | Deliver => Ans (if sleeps h <? 5 then 0 else 1) 0 []
  | _ => Ans 0 0 []
  end.

Lemma times_add_up_witness :
  clock_ok idle_disk /\ interrupts idle_disk 5 /\
  wp (main 9 ["dslm"; "/dev/sda"]%string) idle_disk false [] (fun r _ h => run_result idle_disk "/dev/sda" 60 r h) /\
  output (main 9 ["dslm"; "/dev/sda"]%string idle_disk false []).2 =
    [Waiting 60; Starting; InState "active"; ChangeTo 1030 "sleeping"; ChangeTo 1050 "sleeping";
     Running 40; Changed 1; Share "sleep" 20 40; Share "active" 20 40; Share "unknown" 0 40].
Proof.
  assert (clock_ok idle_disk) as Hc by (intros h Hh; cbn; case_match; zbool; lia).
  assert (interrupts idle_disk 5) as Hi by (intros h Hh; cbn; case_match; zbool; lia).
  split; [exact Hc|]. split; [exact Hi|]. split; [|vm_compute; reflexivity].
  apply (times_add_up idle_disk 5 9 ["dslm"; "/dev/sda"]%string Hc Hi); lia.
Defined.

End Dslm.
