(* ===== verification/Aliasing.v ===== *)
(** * Mapping legacy memory: Documentation/ia64/aliasing-test.c

    The program maps pieces of /dev/mem and of every file with a given name below
    some directories, and reads every expansion ROM below /sys/devices.  [scan] is
    the walk its two scanners share.  A [machine] says what can be opened, mapped and
    read; on a finite tree of directories the theorem gives every line the program prints
    from the machine and the tree alone. *)

From S2P Require Import Prelude Posix CArray Output Resources.

Module Aliasing.

Open Scope Z_scope.
Open Scope io_scope.

(** ** Data *)

Inductive verdict : Type := Readable | Mappable | NotMappable | NotAccessible.

Inductive text : Type :=
| Range (pass : bool) (path : list Z) (lo hi : Z) (v : verdict)
| RomRead (path : list Z) (bytes : Z)
| RomNotReadable (path : list Z).

(** [Scandir] leaves the names, each ended by a zero; [Lstat] leaves 1 for a directory;
    [Load] gives the integer at an address of a mapping. *)
Inductive call : Type :=
| Open (path : list Z)
| IsMem (fd : Z)
| Mmap (length fd offset : Z)
| Load (addr : Z)
| Munmap (addr length : Z)
| Write (fd : Z) (buf : list Z)
| Read (fd : Z)
| Close (fd : Z)
| Scandir (path : list Z)
| Lstat (path : list Z)
| Malloc (size : Z)
| Free (p : Z)
| FreeEntry (name : list Z)
| FreeNames
| Perror (what : list Z)
| Eprintf (t : text).

#[export] Instance shows : Shows call text := fun c => match c with Eprintf t => Some t | _ => None end.

(** The state is the variable [sum]. *)
Abbreviation prog := (io call Z).

Definition eprintf (t : text) : prog unit := sys (Eprintf t) ;; io_ret tt.
Definition perror (s : string) : prog unit := sys (Perror (bytes_of_string s)) ;; io_ret tt.

(** [fnmatch(pattern, name, 0) == 0] for patterns of characters, [?] and [*]. *)
Fixpoint fnmatch (pattern name : list Z) : bool :=
  match pattern with
  | [] => bool_decide (name = [])
  | c :: pattern =>
      if c =? 42 then
        (fix star (name : list Z) : bool :=
           fnmatch pattern name || match name with [] => false | _ :: name => star name end) name
      else match name with
           | [] => false
           | d :: name => ((c =? 63) || (c =? d)) && fnmatch pattern name
           end
  end.

(** The names [scandir] found. *)
Fixpoint names_from (acc l : list Z) : list (list Z) :=
  match l with
  | [] => []
  | c :: l => if c =? 0 then acc :: names_from [] l else names_from (acc ++ [c]) l
  end.
Definition names (l : list Z) : list (list Z) := names_from [] l.

(** ** Mapping memory *)

Fixpoint sum_ints (n : nat) (c : Z) : prog unit :=
  match n with
  | O => io_ret tt
  | S n =>
      let* v := sys (Load c) in
      modify (fun sum => i32 (sum + ret v)) ;;
      sum_ints n (c + 4)
  end.

(** How many integers begin before the end of a mapping. *)
Definition ints (length : Z) : nat := Z.to_nat ((length + 3) / 4).

Definition MAP_FAILED := -1.

Definition map_mem (path : list Z) (offset length : Z) (touch : bool) : prog Z :=
  let* f := sys (Open path) in
  let fd := ret f in
  if fd =? -1 then sys (Perror path) ;; io_ret (-1)
  else
    (if fnmatch (bytes_of_string "/proc/bus/pci/*") path then
       let* r := sys (IsMem fd) in
       if ret r =? -1 then perror "PCIIOC_MMAP_IS_MEM ioctl" else io_ret tt
     else io_ret tt) ;;
    let* a := sys (Mmap length fd offset) in
    let addr := ret a in
    if addr =? MAP_FAILED then io_ret 1
    else
      (if touch then sum_ints (ints length) addr else io_ret tt) ;;
      let* r := sys (Munmap addr length) in
      if ret r =? -1 then perror "munmap" ;; io_ret (-1)
      else sys (Close fd) ;; io_ret 0.

(** ** Reading a ROM *)

Fixpoint read_all (fuel : nat) (fd size : Z) : prog Z :=
  match fuel with
  | O => nofuel
  | S fuel =>
      let* r := sys (Read fd) in
      if 0 <? ret r then read_all fuel fd (u64 (size + ret r)) else io_ret size
  end.

Definition read_rom (fuel : nat) (path : list Z) : prog Z :=
  let* f := sys (Open path) in
  let fd := ret f in
  if fd =? -1 then sys (Perror path) ;; io_ret (-1)
  else
    let* w := sys (Write fd (bytes_of_string "1" ++ [0])) in
    if ret w <=? 0 then sys (Close fd) ;; perror "write" ;; io_ret (-1)
    else
      let* size := read_all fuel fd 0 in
      sys (Close fd) ;;
      io_ret (i32 size).

(** ** Scanning *)

Definition dot : list Z := bytes_of_string ".".
Definition dotdot : list Z := bytes_of_string "..".
Definition join (path name : list Z) : list Z := path ++ bytes_of_string "/" ++ name.

Section Scan.
(** What to do with a matching file: its result, and whether to return at once. *)
Context (visit : list Z -> prog (Z * bool)) (file : list Z).

Section Loop.
Context (rec : list Z -> prog Z) (path : list Z).

Fixpoint entries (l : list (list Z)) (rc result : Z) : prog Z :=
  match l with
  | [] => sys FreeNames ;; io_ret result
  | name :: l =>
      if fnmatch dot name || fnmatch dotdot name then sys (FreeEntry name) ;; entries l rc result
      else
        let* p := sys (Malloc (zlen path + zlen name + 3)) in
        let next rc := sys (Free (ret p)) ;; sys (FreeEntry name) ;; entries l rc (Z.lor result rc) in
        let path2 := join path name in
        if ret p =? 0 then crash
        else if fnmatch file name then
          let* v := visit path2 in
          let '(rc, stop) := v : Z * bool in
          if stop then io_ret rc else next rc
        else
          let* r := sys (Lstat path2) in
          if (ret r =? 0) && (znth (data r) 0 =? 1) then
            let* rc := rec path2 in
            if rc <? 0 then io_ret rc else next rc
          else next rc
  end.
End Loop.

Fixpoint scan (fuel : nat) (path : list Z) : prog Z :=
  match fuel with
  | O => nofuel
  | S fuel =>
      let* n := sys (Scandir path) in
      if ret n <? 0 then perror "scandir" ;; io_ret (-1)
      else entries (scan fuel) path (names (data n)) 0 0
  end.
End Scan.

Definition map_verdict (path : list Z) (offset length : Z) (touch : bool) (rc : Z) : text :=
  if rc =? 0 then Range true path offset (offset + length) (if touch then Readable else Mappable)
  else if 0 <? rc then Range true path offset (offset + length) NotMappable
  else Range false path offset (offset + length) NotAccessible.

Definition test_map (offset length : Z) (touch : bool) (path2 : list Z) : prog (Z * bool) :=
  let* rc := map_mem path2 offset length touch in
  eprintf (map_verdict path2 offset length touch rc) ;;
  io_ret (rc, rc <? 0).

Definition scan_tree (fuel : nat) (path file : list Z) (offset length : Z) (touch : bool) : prog Z :=
  scan (test_map offset length touch) file fuel path.

Definition rom_verdict (path : list Z) (rc : Z) : text := if 0 <? rc then RomRead path rc else RomNotReadable path.

Definition test_rom (fuel : nat) (path2 : list Z) : prog (Z * bool) :=
  let* rc := read_rom fuel path2 in
  eprintf (rom_verdict path2 rc) ;;
  io_ret (rc, negb (0 <? rc)).

Definition scan_rom (fuel : nat) (path file : list Z) : prog Z :=
  scan (test_rom fuel) file fuel path.

(** ** The program *)

Definition dev_mem : list Z := bytes_of_string "/dev/mem".

Definition test_mem (offset length : Z) (touch : bool) : prog unit :=
  let* rc := map_mem dev_mem offset length touch in
  eprintf (if rc =? 0 then Range true dev_mem offset (offset + length) (if touch then Readable else Mappable)
           else Range false dev_mem offset (offset + length) NotAccessible).

(** The four pieces, of a file or of every file below a directory. *)
Definition scan_pieces (fuel : nat) (path file : string) : prog unit :=
  let path := bytes_of_string path in
  let file := bytes_of_string file in
  scan_tree fuel path file 0 0xA0000 true ;;
  scan_tree fuel path file 0xA0000 0x20000 false ;;
  scan_tree fuel path file 0xC0000 0x40000 true ;;
  scan_tree fuel path file 0 (1024 * 1024) false ;;
  io_ret tt.

Definition main (fuel : nat) : prog Z :=
  test_mem 0 0xA0000 true ;;
  test_mem 0xA0000 0x20000 false ;;
  test_mem 0xC0000 0x40000 true ;;
  let* rc := map_mem dev_mem 0 (1024 * 1024) false in
  eprintf (map_verdict dev_mem 0 (1024 * 1024) false rc) ;;
  scan_pieces fuel "/sys/class/pci_bus" "legacy_mem" ;;
  scan_rom fuel (bytes_of_string "/sys/devices") (bytes_of_string "rom") ;;
  scan_pieces fuel "/proc/bus/pci" "??.?" ;;
  io_ret rc.

(** ** What the walk is to report *)

(** What the kernel says a path is. *)
Inductive listing : Type := NotDir | Unreadable | Names (l : list (list Z)).

(** What a scan comes across: a file to test, or a directory with what is in it, if it can be listed. *)
Inductive node : Type := Test (path : list Z) | Dir (path : list Z) (l : option (list node)).

Section Plan.
Context (dirs : list Z -> listing) (file : list Z).

Fixpoint plan_entries (rec : list Z -> option node) (path : list Z) (l : list (list Z)) : option (list node) :=
  match l with
  | [] => Some []
  | name :: l =>
      if fnmatch dot name || fnmatch dotdot name then plan_entries rec path l
      else
        let path2 := join path name in
        if fnmatch file name then (fun b => Test path2 :: b) <$> plan_entries rec path l
        else match dirs path2 with
             | NotDir => plan_entries rec path l
             | _ => match rec path2, plan_entries rec path l with
                    | Some a, Some b => Some (a :: b)
                    | _, _ => None
                    end
             end
  end.

(** The tree below a path; [None] if it is deeper than [n]. *)
Fixpoint plan (n : nat) (path : list Z) : option node :=
  match n with
  | O => None
  | S n => match dirs path with
           | Names l => (fun x => Dir path (Some x)) <$> plan_entries (plan n) path l
           | _ => Some (Dir path None)
           end
  end.

(** The kernel shows this tree, and there is memory. *)
Record shows_tree (K : kernel call) : Prop := {
  shows_list : forall h p, match dirs p with
    | Names l => 0 <= ret (K h (Scandir p)) /\ names (data (K h (Scandir p))) = l
    | _ => ret (K h (Scandir p)) < 0
    end;
  shows_dir : forall h p, (ret (K h (Lstat p)) =? 0) && (znth (data (K h (Lstat p))) 0 =? 1) =
    match dirs p with NotDir => false | _ => true end;
  shows_memory : forall h n, ret (K h (Malloc n)) <> 0
}.

(** [result] is what the test of a file gives, [line] what is printed of it; a result that
    [stops] ends the scan of its directory. *)
Context (result : list Z -> Z) (line : list Z -> Z -> text) (stops : Z -> bool).

(** What is printed for the rest of a directory and its result, where the results so far
    are [acc].  A negative result of a directory ends the one it is in as well. *)
Section Reports.
Context (report : node -> list text * Z * bool).
Fixpoint reports (l : list node) (acc : Z) : list text * Z :=
  match l with
  | [] => ([], acc)
  | x :: l =>
      let '(out, r, stop) := report x in
      if stop then (out, r) else let (out', r') := reports l (Z.lor acc r) in (out ++ out', r')
  end.
End Reports.

Fixpoint report (x : node) : list text * Z * bool :=
  match x with
  | Test p => ([line p (result p)], result p, stops (result p))
  | Dir _ None => ([], -1, true)
  | Dir _ (Some l) => let (out, r) := reports report l 0 in (out, r, r <? 0)
  end.

(** ** The scanner does that *)

Context (visit : list Z -> prog (Z * bool)) (K : kernel call) (HK : shows_tree K).

(** A visit has the result and prints one line. *)
Hypothesis Hvisit : forall p s h, wp (visit p) K s h (fun r _ h' =>
  r = Ret (result p, stops (result p)) /\ output h' = output h ++ [line p (result p)]).

Definition scanned (o : list text * Z) (h : list (event call)) (r : outcome Z) (h' : list (event call)) : Prop :=
  r = Ret o.2 /\ output h' = output h ++ o.1.

Lemma scanned_after o o1 out1 h h1 r h' :
  output h1 = output h ++ out1 -> o = (out1 ++ o1.1, o1.2) -> scanned o1 h1 r h' -> scanned o h r h'.
Proof. intros Ho -> [-> Ho']. split; [done|]. cbn [fst]. by rewrite Ho', Ho, <- app_assoc. Qed.

#[local] Arguments entries : simpl never.

Section Entries.
Context (prec : list Z -> option node) (srec : list Z -> prog Z) (path : list Z).
Hypothesis Hrec : forall p x s h, prec p = Some x -> wp (srec p) K s h (fun r _ h' => scanned (report x).1 h r h').
Hypothesis Hdir : forall p x, prec p = Some x -> (report x).2 = ((report x).1.2 <? 0).

(** The rest of the directory. *)
Definition rest_ok (l : list (list Z)) : Prop := forall its rc acc s h,
  plan_entries prec path l = Some its -> Z.lor acc rc = acc ->
  wp (entries visit file srec path l rc acc) K s h (fun r _ h' => scanned (reports report its acc) h r h').

Lemma next_ok l p name its out rc acc s h h1 :
  rest_ok l -> plan_entries prec path l = Some its -> output h1 = output h ++ out ->
  wp (sys (Free p) ;; sys (FreeEntry name) ;; entries visit file srec path l rc (Z.lor acc rc)) K s h1
    (fun r _ h' => scanned (let (out', r') := reports report its (Z.lor acc rc) in (out ++ out', r')) h r h').
Proof.
  intros Hl Hp Ho. wp_step. apply wp_sys_any. intros a. do 2 wp_step. apply wp_sys_any. intros b. wp_step.
  eapply wp_wand; [apply (Hl its); [done|by rewrite <- Z.lor_assoc, Z.lor_diag]|].
  intros r s' h'. destruct (reports report its (Z.lor acc rc)) as [out' r']. by apply (scanned_after _ _ out); [rewrite !output_silent|].
Qed.

Lemma entries_ok l : rest_ok l.
Proof using HK Hrec Hvisit Hdir.
  induction l as [|name l IH]; intros its rc acc s h Hp E; unfold entries; fold (entries visit file srec path).
  { cbn in Hp. injection Hp as <-. wp_go. split; [done|]. by rewrite output_silent, app_nil_r. }
  cbn [plan_entries] in Hp. destruct (fnmatch dot name || fnmatch dotdot name).
  { wp_step. apply wp_sys_any. intros a. wp_step. eapply wp_wand; [by apply IH|].
    intros r s' h'. by apply (scanned_after _ _ []); [rewrite output_silent, app_nil_r|destruct (reports _ _ _)]. }
  wp_step. apply wp_sys_eq. intros p Ep. wp_step. cbv zeta. pose proof (shows_memory K HK h (zlen path + zlen name + 3)) as Hm.
  rewrite Ep in Hm. apply Z.eqb_neq in Hm. rewrite Hm. set (h1 := (Malloc _, p) :: h).
  assert (output h1 = output h) as Ho1 by (by apply output_silent).
  destruct (fnmatch file name).
  - destruct (plan_entries prec path l) as [its2|] eqn:El; [|done]. injection Hp as <-.
    wp_step. eapply wp_wand; [apply Hvisit|]. intros r s' h2 (-> & Ho2). rewrite Ho1 in Ho2. wp_step. cbn [reports report].
    destruct (stops (result (join path name))); [by wp_step; split|]. by apply next_ok.
  - wp_step. apply wp_sys_eq. intros ls Els. wp_step. pose proof (shows_dir K HK h1 (join path name)) as Hd. rewrite Els in Hd. rewrite Hd.
    assert (output ((Lstat (join path name), ls) :: h1) = output h) as Ho2 by (by rewrite output_silent).
    assert (dirs (join path name) = NotDir \/ match dirs (join path name) with NotDir => false | _ => true end = true) as [En|En]
      by (destruct (dirs _); auto).
    + rewrite En in Hp |- *. eapply wp_wand; [apply (next_ok _ _ _ its []); [done|done|by rewrite app_nil_r]|].
      intros r s' h'. rewrite E. by destruct (reports report its acc).
    + rewrite En. assert (exists x its2, prec (join path name) = Some x /\ plan_entries prec path l = Some its2 /\ its = x :: its2)
        as (x & its2 & Hx & El & ->).
      { destruct (dirs (join path name)); [done|..]; destruct (prec _) as [x|], (plan_entries _ _ _) as [its2|]; try done;
          injection Hp as <-; eauto. }
      wp_step. eapply wp_wand; [by apply Hrec|]. intros r s' h2 [-> Ho3]. rewrite Ho2 in Ho3. wp_step.
      pose proof (Hdir _ _ Hx) as Hs. cbn [reports]. destruct (report x) as [[out rc'] stop]. cbn [fst snd] in *. subst stop.
      destruct (rc' <? 0); [by wp_step; split|]. by apply next_ok.
Qed.

End Entries.

Lemma plan_stop n p x : plan n p = Some x -> (report x).2 = ((report x).1.2 <? 0).
Proof.
  destruct n as [|n]; cbn [plan]; [done|]. destruct (dirs p); try (intros [= <-]; done).
  destruct (plan_entries _ _ _) as [l'|]; [|done]. intros [= <-]. cbn [report]. by destruct (reports report l' 0).
Qed.

Lemma scan_ok n : forall path x s h, plan n path = Some x ->
  wp (scan visit file n path) K s h (fun r _ h' => scanned (report x).1 h r h').
Proof using HK Hvisit.
  induction n as [|n IH]; intros path x s h Hp; [done|]. cbn [plan] in Hp. cbn [scan].
  wp_step. apply wp_sys_eq. intros a Ea. wp_step. pose proof (shows_list K HK h path) as Hl. rewrite Ea in Hl.
  assert (ret a < 0 -> x = Dir path None -> wp (perror "scandir" ;; io_ret (-1)) K s ((Scandir path, a) :: h)
    (fun r _ h' => scanned (report x).1 h r h')) as Hbad.
  { intros _ ->. unfold perror. wp_go. split; [done|]. by rewrite !output_silent, app_nil_r. }
  destruct (dirs path) as [| |l]; [| |destruct Hl as [Hl <-]].
  1, 2: replace (ret a <? 0) with true by lia; apply Hbad; [done|congruence].
  replace (ret a <? 0) with false by lia. destruct (plan_entries _ _ _) as [l'|] eqn:El; [|done]. injection Hp as <-.
  eapply wp_wand; [by apply (entries_ok (plan n) (scan visit file n) path IH (plan_stop n))|].
  intros r s' h'. cbn [report]. destruct (reports report l' 0) as [out rc] eqn:Er. cbn [fst].
  by apply (scanned_after _ _ []); [rewrite output_silent, app_nil_r|].
Qed.

End Plan.

(** ** The tests *)

Inductive res : Type := Fd (fd : Z) | Map (addr : Z).
#[export] Instance res_eq : EqDecision res.
Proof. solve_decision. Defined.

#[export] Instance resources : Resources call res := {
  acquires c a := match c with
    | Open _ => if ret a =? -1 then None else Some (Fd (ret a))
    | Mmap _ _ _ => if ret a =? MAP_FAILED then None else Some (Map (ret a))
    | _ => None end;
  releases c a := match c with
    | Munmap addr _ => if ret a =? -1 then None else Some (Map addr)
    | Close fd => Some (Fd fd)
    | _ => None end
}.

(** The addresses that were read. *)
Definition loads : list (event call) -> list Z := trace (fun c => match c with Load p => Some p | _ => None end).

(** The addresses of the integers of a mapping. *)
Definition ints_at (addr length : Z) : list Z := (fun i => addr + 4 * i) <$> seqZ 0 ((length + 3) / 4).

Lemma ints_cons c n : (fun i => c + 4 * i) <$> seqZ 0 (Z.of_nat (S n)) = c :: ((fun i => c + 4 + 4 * i) <$> seqZ 0 (Z.of_nat n)).
Proof.
  rewrite Nat2Z.inj_succ, seqZ_cons, Z.pred_succ by lia. cbn [fmap list_fmap]. rewrite Z.mul_0_r, Z.add_0_r. f_equal.
  change (Z.succ 0) with (1 + 0). rewrite <- fmap_add_seqZ, <- list_fmap_compose. apply list_fmap_ext. intros i x _. unfold compose. lia.
Qed.

(** The history [h'] holds what [h] held and [leaked]. *)
Definition leaves (leaked : list res) (h h' : list (event call)) : Prop :=
  forall l, held h = Some l -> held h' = Some (leaked ++ l).

Ltac leaves :=
  let l := fresh "l" in let Hl := fresh "Hheld" in intros l Hl;
  repeat match goal with H : leaves _ _ _ |- _ => specialize (H l Hl) end; cbn [app] in *; held_solve.

Lemma loads_silent c a h : match c with Load _ => false | _ => true end = true -> loads ((c, a) :: h) = loads h.
Proof. intros Hc. unfold loads. rewrite trace_cons. destruct c; by rewrite ?app_nil_r. Qed.

Lemma sum_ints_wp K n : forall c s h,
  wp (sum_ints n c) K s h (fun r _ h' => r = Ret tt /\ output h' = output h /\ leaves [] h h' /\
    loads h' = loads h ++ ((fun i => c + 4 * i) <$> seqZ 0 (Z.of_nat n))).
Proof.
  induction n as [|n IH]; intros c s h; cbn [sum_ints].
  { wp_step. split_and!; [done..|leaves|]. by rewrite app_nil_r. }
  wp_step. apply wp_sys_any. intros a. do 4 wp_step. eapply wp_wand; [apply IH|].
  intros r s' h' (-> & Ho & Hh & Hl). split; [done|]. split; [by rewrite Ho, output_silent|]. split.
  - intros l Hh'. apply Hh. held_solve.
  - unfold loads in Hl |- *. by rewrite Hl, trace_cons, <- app_assoc, ints_cons.
Qed.

(** What [map_mem] can end with. *)
Definition map_outcome (length : Z) (touch : bool) (h : list (event call)) (rc : Z) (h' : list (event call)) : Prop :=
  output h' = output h /\
  (rc = 0 /\ leaves [] h h' /\ (exists addr, loads h' = loads h ++ if touch then ints_at addr length else []) \/
   rc = 1 /\ (exists fd, leaves [Fd fd] h h') \/
   rc = -1 /\ (leaves [] h h' \/ exists fd addr, leaves [Map addr; Fd fd] h h')).

Lemma map_mem_wp K path offset length touch s h : 0 <= length ->
  wp (map_mem path offset length touch) K s h (fun r _ h' => exists rc, r = Ret rc /\ map_outcome length touch h rc h').
Proof.
  intros Hlen. unfold map_mem, perror. wp_step. apply wp_sys_any. intros f. do 2 wp_step.
  { wp_go. exists (-1). split; [done|]. split; [by rewrite !output_silent|]. right. right. split; [done|]. left. leaves. }
  wp_step. eapply (wp_wand _ _ _ _ (fun r s' h' => r = Ret tt /\ output h' = output h /\ leaves [Fd (ret f)] h h' /\ loads h' = loads h)).
  { wp_go; (split_and!; [done|by rewrite !output_silent|leaves|by rewrite !loads_silent]). }
  intros r s' h1 (-> & Ho & Hh1 & Hl). do 2 wp_step. apply wp_sys_any. intros a. do 2 wp_step.
  { wp_step. exists 1. split; [done|]. split; [by rewrite output_silent|]. right. left. split; [done|]. exists (ret f). leaves. }
  wp_step. eapply (wp_wand _ _ _ _ (fun r s' h' => r = Ret tt /\ output h' = output h /\ leaves [Map (ret a); Fd (ret f)] h h' /\
    loads h' = loads h ++ if touch then ints_at (ret a) length else [])).
  { destruct touch.
    - eapply wp_wand; [apply sum_ints_wp|]. intros r2 s2 h2 (-> & Ho2 & Hh2 & Hl2).
      rewrite output_silent in Ho2 by done. rewrite loads_silent in Hl2 by done. split; [done|]. split; [congruence|].
      split; [intros l Hh; apply Hh2; specialize (Hh1 l Hh); cbn [app] in *; held_solve|].
      rewrite Hl2, Hl. unfold ints_at, ints. by rewrite Z2Nat.id by (apply Z.div_pos; lia).
    - wp_step. split_and!; [done|by rewrite output_silent|leaves|by rewrite loads_silent, app_nil_r]. }
  intros r2 s2 h2 (-> & Ho2 & Hh2 & Hl2). do 2 wp_step. apply wp_sys_any. intros m. do 2 wp_step; wp_go.
  - exists (-1). split; [done|]. split; [by rewrite !output_silent|]. right. right. split; [done|]. right. exists (ret f), (ret a). leaves.
  - exists 0. split; [done|]. split; [by rewrite !output_silent|]. left. split; [done|]. split; [leaves|].
    exists (ret a). by rewrite !loads_silent.
Qed.

(** ** The machine *)

(** What can be opened, mapped and unmapped, by path, offset and length; the ROMs that can be
    enabled, and the sizes of the pieces they are read in. *)
Record machine : Type := Machine {
  opens : list Z -> bool;
  mmaps : list Z -> Z -> Z -> bool;
  munmaps : list Z -> Z -> Z -> bool;
  enables : list Z -> bool;
  pieces : list Z -> list Z
}.

(** The path and descriptor of the file opened last, the range mapped last, and the reads
    since a file was opened. *)
Fixpoint last_open (h : list (event call)) : option (list Z * Z) :=
  match h with [] => None | (Open p, a) :: _ => Some (p, ret a) | _ :: h => last_open h end.

Fixpoint last_map (h : list (event call)) : option (Z * Z) :=
  match h with [] => None | (Mmap length _ offset, _) :: _ => Some (offset, length) | _ :: h => last_map h end.

Fixpoint reads (h : list (event call)) : nat :=
  match h with
  | [] => O
  | (c, _) :: h => match c with Read _ => S (reads h) | Open _ => O | _ => reads h end
  end.

(** The kernel answers as the machine says, for the file opened last. *)
Record agrees (m : machine) (K : kernel call) : Prop := {
  a_open : forall h p, (ret (K h (Open p)) =? -1) = negb (opens m p);
  a_mmap : forall h p fd offset length, last_open h = Some (p, fd) ->
    (ret (K h (Mmap length fd offset)) =? MAP_FAILED) = negb (mmaps m p offset length);
  a_munmap : forall h p fd offset length addr, last_open h = Some (p, fd) -> last_map h = Some (offset, length) ->
    (ret (K h (Munmap addr length)) =? -1) = negb (munmaps m p offset length);
  a_write : forall h p fd buf, last_open h = Some (p, fd) -> (ret (K h (Write fd buf)) <=? 0) = negb (enables m p);
  a_read : forall h p fd, last_open h = Some (p, fd) ->
    match pieces m p !! reads h with
    | Some n => 0 < n /\ ret (K h (Read fd)) = n
    | None => ret (K h (Read fd)) <= 0
    end
}.

(** The result of mapping a range of a file: 0 when it was mapped and unmapped, 1 when it cannot be mapped, -1 when
    the file cannot be opened or the range cannot be unmapped. *)
Definition map_result (m : machine) (offset length : Z) (p : list Z) : Z :=
  if negb (opens m p) then -1
  else if negb (mmaps m p offset length) then 1
  else if negb (munmaps m p offset length) then -1
  else 0.

(** The bytes read of a ROM, as an int, -1 when it cannot be opened or enabled. *)
Definition rom_result (m : machine) (p : list Z) : Z :=
  if negb (opens m p) then -1
  else if negb (enables m p) then -1
  else i32 (foldl (fun size n => u64 (size + n)) 0 (pieces m p)).

Section Machine.
Context (m : machine) (K : kernel call) (HK : agrees m K).

Lemma sum_ints_last n : forall c s h, wp (sum_ints n c) K s h (fun r _ h' => r = Ret tt /\ output h' = output h /\
  last_open h' = last_open h /\ last_map h' = last_map h).
Proof.
  induction n as [|n IH]; intros c s h; cbn [sum_ints]; [by wp_step|].
  wp_step. apply wp_sys_any. intros a. do 4 wp_step. eapply wp_wand; [apply IH|].
  intros r s' h' (-> & Ho & Hl & Hm). rewrite Ho, Hl, Hm. split_and!; [done|by rewrite output_silent|done|done].
Qed.

Lemma map_mem_ok path offset length touch s h :
  wp (map_mem path offset length touch) K s h (fun r _ h' =>
    r = Ret (map_result m offset length path) /\ output h' = output h).
Proof using HK.
  unfold map_mem, perror, map_result. wp_step. apply wp_sys_eq. intros f Ef. wp_step.
  pose proof (a_open m K HK h path) as Ho. rewrite Ef in Ho. rewrite Ho. destruct (opens m path); cbn [negb].
  2: { wp_go. split; [done|]. by rewrite !output_silent. }
  wp_step. eapply (wp_wand _ _ _ _ (fun r s' h' => r = Ret tt /\ output h' = output h /\ last_open h' = Some (path, ret f))).
  { wp_go; (split_and!; [done|by rewrite !output_silent|done]). }
  intros r s' h1 (-> & Ho1 & Hl1). do 2 wp_step. apply wp_sys_eq. intros a Ea. wp_step.
  pose proof (a_mmap m K HK h1 path (ret f) offset length Hl1) as Hm. rewrite Ea in Hm. rewrite Hm.
  destruct (mmaps m path offset length); cbn [negb]; [|wp_step; split; [done|by rewrite output_silent]].
  wp_step. set (h2 := (Mmap length (ret f) offset, a) :: h1).
  eapply (wp_wand _ _ _ _ (fun r s' h' => r = Ret tt /\ output h' = output h /\ last_open h' = Some (path, ret f) /\
    last_map h' = Some (offset, length))).
  { destruct touch; [|wp_step; split_and!; [done|unfold h2; by rewrite output_silent|done|done]].
    eapply wp_wand; [apply sum_ints_last|]. intros r2 s2 h3 (-> & Ho3 & Hl3 & Hm3). rewrite Ho3, Hl3, Hm3.
    split_and!; [done|unfold h2; by rewrite output_silent|done|done]. }
  intros r2 s2 h3 (-> & Ho3 & Hl3 & Hm3). do 2 wp_step. apply wp_sys_eq. intros u Eu. wp_step.
  pose proof (a_munmap m K HK h3 path (ret f) offset length (ret a) Hl3 Hm3) as Hu. rewrite Eu in Hu. rewrite Hu.
  destruct (munmaps m path offset length); cbn [negb]; wp_go; (split; [done|by rewrite !output_silent]).
Qed.

Lemma read_all_ok p fd fuel : forall size s h, last_open h = Some (p, fd) -> (length (pieces m p) < reads h + fuel)%nat ->
  (reads h <= length (pieces m p))%nat ->
  wp (read_all fuel fd size) K s h (fun r _ h' =>
    r = Ret (foldl (fun size n => u64 (size + n)) size (drop (reads h) (pieces m p))) /\ output h' = output h).
Proof using HK.
  induction fuel as [|fuel IH]; intros size s h Hl Hf Hr; [lia|]. cbn [read_all].
  wp_step. apply wp_sys_eq. intros a Ea. wp_step. pose proof (a_read m K HK h p fd Hl) as Hk. rewrite Ea in Hk.
  destruct (pieces m p !! reads h) as [n|] eqn:En.
  - destruct Hk as [Hn Hk]. replace (0 <? ret a) with true by lia. rewrite (drop_S _ _ _ En). cbn [foldl]. rewrite Hk.
    eapply wp_wand; [apply (IH _ _ ((Read fd, a) :: h)); [done|cbn [reads]; lia|apply lookup_lt_Some in En; cbn [reads]; lia]|].
    intros r s' h' [-> Ho]. split; [done|]. by rewrite Ho, output_silent.
  - replace (0 <? ret a) with false by lia. wp_step. apply lookup_ge_None in En. rewrite drop_ge by done.
    split; [done|]. by rewrite output_silent.
Qed.

Lemma read_rom_ok fuel path s h : (length (pieces m path) < fuel)%nat ->
  wp (read_rom fuel path) K s h (fun r _ h' => r = Ret (rom_result m path) /\ output h' = output h).
Proof using HK.
  intros Hf. unfold read_rom, perror, rom_result. wp_step. apply wp_sys_eq. intros f Ef. wp_step.
  pose proof (a_open m K HK h path) as Ho. rewrite Ef in Ho. rewrite Ho. destruct (opens m path); cbn [negb].
  2: { wp_go. split; [done|]. by rewrite !output_silent. }
  set (h1 := (Open path, f) :: h). wp_step. apply wp_sys_eq. intros w Ew. wp_step.
  pose proof (a_write m K HK h1 path (ret f) (bytes_of_string "1" ++ [0]) eq_refl) as Hw. rewrite Ew in Hw. rewrite Hw.
  destruct (enables m path); cbn [negb]; [|wp_go; split; [done|unfold h1; by rewrite !output_silent]].
  wp_step. eapply wp_wand; [apply (read_all_ok path); [done|unfold h1; cbn [reads]; lia|unfold h1; cbn [reads]; lia]|]. intros r s' h' [-> Ho2].
  wp_go. split; [done|]. unfold h1 in Ho2. by rewrite output_silent, Ho2, !output_silent.
Qed.

(** ** The program as a whole *)

Definition map_report (offset length : Z) (touch : bool) (x : node) : list text :=
  (report (map_result m offset length) (fun p => map_verdict p offset length touch) (fun rc => rc <? 0) x).1.1.

Definition rom_report (x : node) : list text :=
  (report (rom_result m) rom_verdict (fun rc => negb (0 <? rc)) x).1.1.

(** The four pieces of every file of a tree. *)
Definition pieces_report (x : node) : list text :=
  map_report 0 0xA0000 true x ++ map_report 0xA0000 0x20000 false x ++
  map_report 0xC0000 0x40000 true x ++ map_report 0 0x100000 false x.

(** A piece of /dev/mem that should be there. *)
Definition mem_line (offset length : Z) (touch : bool) : text :=
  if map_result m offset length dev_mem =? 0
  then Range true dev_mem offset (offset + length) (if touch then Readable else Mappable)
  else Range false dev_mem offset (offset + length) NotAccessible.

Context (dirs : list Z -> listing) (HD : shows_tree dirs K).

Lemma scan_tree_ok file fuel path x offset length touch s h :
  plan dirs file fuel path = Some x ->
  wp (scan_tree fuel path file offset length touch) K s h (fun r _ h' =>
    (exists rc, r = Ret rc) /\ output h' = output h ++ map_report offset length touch x).
Proof using HK HD.
  intros Hp. eapply wp_wand.
  - eapply (scan_ok dirs file (map_result m offset length) (fun p => map_verdict p offset length touch) (fun rc => rc <? 0)); [done| |done].
    clear s h. intros p s h. unfold test_map, eprintf.
    wp_step. eapply wp_wand; [by apply map_mem_ok|]. intros r s' h' [-> Ho]. wp_go. split; [done|]. by rewrite output_cons, Ho.
  - intros r s' h' [-> Ho]. split; [by eexists|done].
Qed.

Lemma scan_rom_ok file fuel path x s h :
  (forall p, length (pieces m p) < fuel)%nat -> plan dirs file fuel path = Some x ->
  wp (scan_rom fuel path file) K s h (fun r _ h' => (exists rc, r = Ret rc) /\ output h' = output h ++ rom_report x).
Proof using HK HD.
  intros Hf Hp. eapply wp_wand.
  - eapply (scan_ok dirs file (rom_result m) rom_verdict (fun rc => negb (0 <? rc))); [done| |done].
    clear s h. intros p s h. unfold test_rom, eprintf.
    wp_step. eapply wp_wand; [by apply read_rom_ok|]. intros r s' h' [-> Ho]. wp_go. split; [done|]. by rewrite output_cons, Ho.
  - intros r s' h' [-> Ho]. split; [by eexists|done].
Qed.

Lemma scan_pieces_ok file fuel path x s h :
  plan dirs (bytes_of_string file) fuel (bytes_of_string path) = Some x ->
  wp (scan_pieces fuel path file) K s h (fun r _ h' => r = Ret tt /\ output h' = output h ++ pieces_report x).
Proof using HK HD.
  intros Hp. unfold scan_pieces. cbv zeta.
  wp_step. eapply wp_wand; [by eapply scan_tree_ok|]. intros r s1 h1 [[ra ->] Ha]. wp_step.
  wp_step. eapply wp_wand; [by eapply scan_tree_ok|]. intros r s2 h2 [[rb ->] Hb]. wp_step.
  wp_step. eapply wp_wand; [by eapply scan_tree_ok|]. intros r s3 h3 [[rc ->] Hc]. wp_step.
  wp_step. eapply wp_wand; [by eapply scan_tree_ok|]. intros r s4 h4 [[rd ->] Hd]. do 2 wp_step.
  split; [done|]. unfold pieces_report. by rewrite Hd, Hc, Hb, Ha, <- !app_assoc.
Qed.

Lemma test_mem_ok offset length touch s h :
  wp (test_mem offset length touch) K s h (fun r _ h' => r = Ret tt /\ output h' = output h ++ [mem_line offset length touch]).
Proof using HK.
  unfold test_mem, eprintf. wp_step. eapply wp_wand; [by apply map_mem_ok|].
  intros r s' h' [-> Ho]. wp_go. split; [done|]. by rewrite output_cons, Ho.
Qed.

(** C20: On a finite tree of directories the program ends, and the tree and what can be opened, mapped and read on the machine
    determine what it prints.  It reports the four pieces of /dev/mem, then for every file of the given names below the two
    directories, in the order of the walk, whether each piece can be mapped, and the size of every ROM.  A scan of files ends at
    the first one that cannot be opened or unmapped and at the first directory that cannot be listed; a scan of ROMs ends at the first
    one that cannot be opened or enabled, and an empty ROM ends the scan of its directory.  The status is
    the result of the last map of /dev/mem. *)
Theorem main_reports fuel x1 x2 x3 s :
  (forall p, length (pieces m p) < fuel)%nat ->
  plan dirs (bytes_of_string "legacy_mem") fuel (bytes_of_string "/sys/class/pci_bus") = Some x1 ->
  plan dirs (bytes_of_string "rom") fuel (bytes_of_string "/sys/devices") = Some x2 ->
  plan dirs (bytes_of_string "??.?") fuel (bytes_of_string "/proc/bus/pci") = Some x3 ->
  wp (main fuel) K s [] (fun r _ h =>
    r = Ret (map_result m 0 0x100000 dev_mem) /\
    output h = [mem_line 0 0xA0000 true; mem_line 0xA0000 0x20000 false; mem_line 0xC0000 0x40000 true;
                map_verdict dev_mem 0 0x100000 false (map_result m 0 0x100000 dev_mem)] ++
               pieces_report x1 ++ rom_report x2 ++ pieces_report x3).
Proof using HK HD.
  intros Hf H1 H2 H3. unfold main, eprintf.
  wp_step. eapply wp_wand; [by apply test_mem_ok|]. intros r s1 h1 (-> & Ha). wp_step.
  wp_step. eapply wp_wand; [by apply test_mem_ok|]. intros r s2 h2 (-> & Hb). wp_step.
  wp_step. eapply wp_wand; [by apply test_mem_ok|]. intros r s3 h3 (-> & Hc). wp_step.
  wp_step. eapply wp_wand; [by apply map_mem_ok|]. intros r s4 h4 [-> Hd]. do 3 wp_step.
  apply wp_sys_any. intros e. do 3 wp_step.
  wp_step. eapply wp_wand; [by eapply scan_pieces_ok|]. intros r s5 h5 (-> & Ho1). wp_step.
  wp_step. eapply wp_wand; [by eapply scan_rom_ok|]. intros r s6 h6 ([rom ->] & Ho2). wp_step.
  wp_step. eapply wp_wand; [by eapply scan_pieces_ok|]. intros r s7 h7 (-> & Ho3). do 2 wp_step.
  split; [done|]. rewrite Ho3, Ho2, Ho1, output_cons, Hd, Hc, Hb, Ha. cbn [shown shows]. by rewrite <- !app_assoc.
Qed.

End Machine.

(** A mapping that succeeds releases what it took and, asked to touch the memory, has
    read every integer of the range in order.  One that is refused leaves the descriptor open, one that
    cannot be undone leaves both behind. *)
Theorem map_mem_result K path offset length touch s h : 0 <= length ->
  wp (map_mem path offset length touch) K s h (fun r _ h' => exists rc, r = Ret rc /\ map_outcome length touch h rc h').
Proof. apply map_mem_wp. Qed.

(** ** Witnesses *)

(** A machine with one legacy file, two functions on its bus and one ROM. *)
Definition small_machine (p : list Z) : listing :=
  let at_ (s : string) := bool_decide (p = bytes_of_string s) in
  let dir (l : list string) := Names (bytes_of_string <$> l) in
  if at_ "/sys/class/pci_bus" then dir ["."; ".."; "0000:00"]
  else if at_ "/sys/class/pci_bus/0000:00" then dir ["."; ".."; "legacy_mem"; "uevent"]
  else if at_ "/sys/devices" then dir ["."; ".."; "rom"]
  else if at_ "/proc/bus/pci" then dir ["."; ".."; "00"; "devices"]
  else if at_ "/proc/bus/pci/00" then dir ["."; ".."; "00.0"; "1f.2"]
  else NotDir.

(** Everything can be opened; the file of the second function can be mapped; ROMs have 64 bytes. *)
Definition second : list Z := bytes_of_string "/proc/bus/pci/00/1f.2".

Definition small : machine :=
  Machine (fun _ => true) (fun p _ _ => bool_decide (p = second)) (fun _ _ _ => true) (fun _ => true) (fun _ => [64]).

Definition small_kernel : kernel call := fun h c =>
  match c with
  | Scandir p => match small_machine p with
                 | Names l => Ans (zlen l) 0 (concat ((fun n => n ++ [0]) <$> l))
                 | _ => aerr 20
                 end
  | Lstat p => Ans 0 0 [match small_machine p with NotDir => 0 | _ => 1 end]
  | Malloc _ => aret 4096
  | Open _ => aret 3
  | Mmap _ _ _ => match last_open h with Some (p, _) => if bool_decide (p = second) then aret 4096 else aerr 22 | None => aerr 22 end
  | Write _ buf => aret 2
  | Read _ => aret (if (reads h <? 1)%nat then 64 else 0)
  | _ => aret 0
  end.

Lemma small_kernel_shows : shows_tree small_machine small_kernel.
Proof.
  split; [|intros h p; cbn; by destruct (small_machine p)|done].
  intros h p. cbn [small_kernel]. unfold small_machine. repeat case_bool_decide; vm_compute; done.
Qed.

Lemma small_kernel_agrees : agrees small small_kernel.
Proof.
  split; try done.
  - intros h p fd offset length Hl. cbn. rewrite Hl. by case_bool_decide.
  - intros h p fd Hl. cbn. by destruct (reads h) as [|[|]].
Qed.

Lemma main_reports_witness :
  let '(r, _, h) := main 4 small_kernel 0 [] in
  r = Ret 1 /\ length (output h) = 17%nat /\ Exists (eq (RomRead (bytes_of_string "/sys/devices/rom") 64)) (output h) /\
  Exists (eq (Range true second 0 0xA0000 Readable)) (output h).
Proof.
  assert (forall p, length (pieces small p) < 4)%nat as Hf by (intros p; cbn; lia).
  pose proof (wp_result _ _ _ _ _ (main_reports small small_kernel small_kernel_agrees small_machine small_kernel_shows 4 _ _ _ 0 Hf
    eq_refl eq_refl eq_refl)) as H.
  destruct (main 4 small_kernel 0 []) as [[r s] h]. cbn [fst snd] in H. destruct H as [-> ->].
  split; [reflexivity|]. split; [vm_compute; reflexivity|].
  split; vm_compute; repeat first [by apply Exists_cons_hd | apply Exists_cons_tl].
Defined.

(** A kernel that maps memory and knows no files. *)
Definition open_memory : kernel call := fun _ c => match c with Open _ => aret 3 | Mmap _ _ _ => aret 4096 | _ => aret 0 end.

Lemma map_mem_result_witness :
  wp (map_mem dev_mem 0 10 true) open_memory 0 [] (fun r _ h' => exists rc, r = Ret rc /\ map_outcome 10 true [] rc h') /\
  loads (map_mem dev_mem 0 10 true open_memory 0 []).2 = [4096; 4100; 4104].
Proof. split; [apply map_mem_result; lia|reflexivity]. Defined.

End Aliasing.
