(* ===== verification/Connector.v ===== *)
(** * The connector examples: Documentation/connector/cn_test.c and ucon.c

    [CnTest] is the kernel module that sends a message every second; [Ucon] is the
    program that listens to it, or floods it with messages.  Both speak in [cn_msg]
    structures; the theorem at the end runs the one against the other. *)

From S2P Require Import Prelude Posix CArray Output.

(** ** Messages *)

(** The first index for users of the connector, from its header. *)
Class Connector := { CN_NETLINK_USERS : Z; users_range : 0 <= CN_NETLINK_USERS < 2 ^ 31 }.

Definition sizeof_cn_msg := 20.
Definition NLMSG_DONE := 3.
Definition NLMSG_ERROR := 2.

(** The fields of a message in memory order; [flags] is not used. *)
Record cn_msg : Type := CnMsg { idx : Z; val : Z; seqno : Z; ack : Z; payload : list Z }.

Definition cn_bytes (m : cn_msg) : list Z :=
  le_bytes 4 (idx m) ++ le_bytes 4 (val m) ++ le_bytes 4 (seqno m) ++ le_bytes 4 (ack m) ++
  le_bytes 2 (zlen (payload m)) ++ le_bytes 2 0 ++ payload m.

Definition word_ok (x : Z) : Prop := 0 <= x < 2 ^ 32.
Definition cn_ok (m : cn_msg) : Prop :=
  word_ok (idx m) /\ word_ok (val m) /\ word_ok (seqno m) /\ word_ok (ack m) /\ zlen (payload m) < 2 ^ 16.

(** A netlink message of any kind. *)
Definition nl_bytes (len ty flags seq pid : Z) (body : list Z) : list Z :=
  le_bytes 4 len ++ le_bytes 2 ty ++ le_bytes 2 flags ++ le_bytes 4 seq ++ le_bytes 4 pid ++ body.

Module CnTest.

Section Module_.
Context `{Connector}.

Open Scope Z_scope.
Open Scope io_scope.

(** ** Data *)

Inductive text : Type :=
| Received (jiffies idx val seq ack len : Z) (s : list Z)
| Initialized (idx val : Z).

Inductive call : Type :=
| AddCallback (id : Z * Z)
| DelCallback (id : Z * Z)
| SetupTimer
| ModTimer
| DelTimer
| SockRelease (sk : Z)
| Jiffies
| Uninit (size : Z)
| Kzalloc (size : Z)
| Kfree (p : Z)
| NetlinkSend (m : list Z)
| PrInfo (t : text).

(** The static variables; [nls] is never assigned. *)
Record st : Type := St { cn_test_id : Z * Z; cn_test_timer_counter : Z }.

Definition loaded : st := St (CN_NETLINK_USERS + 3, 0x456) 0.
Definition nls : option Z := None.

Abbreviation prog := (io call st).

(** ** The module *)

Definition cn_test_callback (msg : list Z) : prog unit :=
  let* j := sys Jiffies in
  let* idx := lift (rd 4 msg 0) in
  let* val := lift (rd 4 msg 4) in
  let* seq := lift (rd 4 msg 8) in
  let* ack := lift (rd 4 msg 12) in
  let* len := lift (rd 2 msg 16) in
  let* s := if truthy len then lift (cstr msg sizeof_cn_msg) else io_ret [] in
  sys (PrInfo (Received (ret j) idx val seq ack len s)) ;;
  io_ret tt.

(** [scnprintf(data, sizeof(data), "counter = %u", counter)]: what it writes. *)
Definition counter_text (counter : Z) : list Z :=
  ztake 31 (bytes_of_string "counter = " ++ bytes_of_string (pretty counter)).

Definition fill (id : Z * Z) (counter : Z) (data : list Z) : outcome (list Z) :=
  (let m := replicate (Z.to_nat (sizeof_cn_msg + 32)) 0 in
   let! m := poke m 0 (le_bytes 4 (fst id) ++ le_bytes 4 (snd id)) in
   let! m := poke m 8 (le_bytes 4 counter) in
   let! m := poke m 16 (le_bytes 2 32) in
   let! data := poke data 0 (counter_text counter ++ [0]) in
   let len := zlen (counter_text counter) + 1 in
   let! m := poke m 16 (le_bytes 2 len) in
   let! d := sub data 0 len in
   poke m sizeof_cn_msg d)%out.

Definition cn_test_timer_func : prog unit :=
  let* s := get in
  let* u := sys (Uninit 32) in
  let* p := sys (Kzalloc (sizeof_cn_msg + 32)) in
  (if truthy (ret p) then
     let* m := lift (fill (cn_test_id s) (cn_test_timer_counter s) (uninit 32 u)) in
     sys (NetlinkSend m) ;;
     sys (Kfree (ret p)) ;;
     io_ret tt
   else io_ret tt) ;;
  modify (fun s => St (cn_test_id s) (u32 (cn_test_timer_counter s + 1))) ;;
  sys ModTimer ;;
  io_ret tt.

Definition release_nls : prog unit :=
  match nls with Some sk => sys (SockRelease sk) ;; io_ret tt | None => io_ret tt end.

Definition val_add (n : Z) (s : st) : st :=
  St (fst (cn_test_id s), u32 (snd (cn_test_id s) + n)) (cn_test_timer_counter s).

Definition cn_test_init : prog Z :=
  let* s := get in
  let* a := sys (AddCallback (cn_test_id s)) in
  if truthy (ret a) then release_nls ;; io_ret (ret a)
  else
    modify (val_add 1) ;;
    let* s := get in
    let* b := sys (AddCallback (cn_test_id s)) in
    if truthy (ret b) then
      sys (DelCallback (cn_test_id s)) ;;
      release_nls ;;
      io_ret (ret b)
    else
      sys SetupTimer ;;
      sys ModTimer ;;
      sys (PrInfo (Initialized (fst (cn_test_id s)) (snd (cn_test_id s)))) ;;
      io_ret 0.

Definition cn_test_fini : prog unit :=
  sys DelTimer ;;
  let* s := get in
  sys (DelCallback (cn_test_id s)) ;;
  modify (val_add (-1)) ;;
  let* s := get in
  sys (DelCallback (cn_test_id s)) ;;
  release_nls.

(** ** What it sends *)

(** The buffer of one tick: the message, and zeros behind it. *)
Definition tick_msg (id : Z * Z) (counter : Z) : cn_msg :=
  CnMsg (fst id) (snd id) counter 0 (counter_text counter ++ [0]).
Definition tick_bytes (id : Z * Z) (counter : Z) : list Z :=
  cn_bytes (tick_msg id counter) ++ replicate (Z.to_nat (31 - zlen (counter_text counter))) 0.

Lemma counter_text_len c : 0 <= zlen (counter_text c) <= 31.
Proof. unfold counter_text. pose proof (zlen_nonneg (counter_text c)). unfold ztake, zlen. rewrite length_take. lia. Qed.

Lemma fill_tick id c junk : zlen junk = 32 -> fill id c junk = Ret (tick_bytes id c).
Proof.
  intros Hj. pose proof (counter_text_len c) as Hc. unfold fill. cbv zeta.
  set (z := fun n => replicate (Z.to_nat n) 0). change (replicate _ 0) with (z 52).
  assert (forall n, 0 <= n -> zlen (z n) = n) as Hz by (intros; by apply zlen_replicate).
  assert (forall a b, 0 <= a -> 0 <= b -> z (a + b) = z a ++ z b) as Happ.
  { intros. by apply replicate_zapp. }
  set (text := counter_text c) in *. set (len := zlen text) in *.
  set (i := le_bytes 4 (fst id) ++ le_bytes 4 (snd id)).
  rewrite (poke_at [] (z 8) i (z 44)); [|by apply (Happ 8 44)|done|by rewrite Hz; lens]. cbn [out_bind app].
  rewrite (poke_at i (z 4) _ (z 40)); [|by rewrite <- (Happ 4 40)|unfold i; lens|by rewrite Hz; lens]. cbn [out_bind].
  rewrite (poke_at (i ++ le_bytes 4 c ++ z 4) (z 2) (le_bytes 2 32) (z 34));
    [|by rewrite <- !app_assoc, <- (Happ 2 34), <- (Happ 4 (2 + 34))|unfold i; rewrite !zlen_app, Hz; lens|by rewrite Hz; lens]. cbn [out_bind].
  destruct (cut (len + 1) junk) as (x & y & -> & Hx & Hy); [lia|].
  rewrite (poke_at [] x (text ++ [0]) y); [|done|done|rewrite Hx; unfold len; lens]. cbn [out_bind app].
  rewrite (poke_at (i ++ le_bytes 4 c ++ z 4) (le_bytes 2 32) (le_bytes 2 (len + 1)) (z 34));
    [|done|unfold i; rewrite !zlen_app, Hz; lens|by rewrite !zlen_le_bytes]. cbn [out_bind].
  rewrite (sub_at [] (text ++ [0]) y); [|done|done|unfold len; lens]. cbn [out_bind].
  rewrite (poke_at (i ++ le_bytes 4 c ++ z 4 ++ le_bytes 2 (len + 1) ++ z 2) (z (len + 1)) (text ++ [0]) (z (31 - len))).
  - unfold tick_bytes, cn_bytes, tick_msg. cbn [idx val seqno ack payload]. fold text. rewrite zlen_app. fold len. change (zlen [0]) with 1.
    unfold i. by rewrite <- !app_assoc.
  - rewrite <- !app_assoc, <- Happ, <- (Happ 2) by lia. do 4 f_equal. f_equal. lia.
  - unfold i. rewrite !zlen_app, !Hz; lens.
  - rewrite Hz by lia. unfold len. lens.
Qed.

(** The buffers handed to the connector. *)
Definition sent : list (event call) -> list (list Z) := trace (fun c => match c with NetlinkSend m => Some m | _ => None end).

(** The callbacks that are registered and whether the timer is armed.  Removing an id
    that is not registered does nothing. *)
Fixpoint registered (h : list (event call)) : list (Z * Z) :=
  match h with
  | [] => []
  | (c, a) :: h =>
      match c with
      | AddCallback id => if ret a =? 0 then id :: registered h else registered h
      | DelCallback id => filter (fun id' => id' <> id) (registered h)
      | _ => registered h
      end
  end.

Fixpoint armed (h : list (event call)) : bool :=
  match h with
  | [] => false
  | (c, _) :: h => match c with ModTimer => true | DelTimer => false | _ => armed h end
  end.

Fixpoint ticks (n : nat) : prog unit :=
  match n with O => io_ret tt | S n => cn_test_timer_func ;; ticks n end.

(** The module is loaded, the timer fires [n] times, the module is removed. *)
Definition lifetime (n : nat) : prog Z :=
  let* r := cn_test_init in
  if r =? 0 then ticks n ;; cn_test_fini ;; io_ret 0 else io_ret r.

Definition memory (K : kernel call) : Prop := forall h n, ret (K h (Kzalloc n)) <> 0.

Lemma sent_silent c a h : match c with NetlinkSend _ => false | _ => true end = true -> sent ((c, a) :: h) = sent h.
Proof. intros Hc. unfold sent. rewrite trace_cons. destruct c; by rewrite ?app_nil_r. Qed.

Lemma tick_wp K id c h :
  wp cn_test_timer_func K (St id c) h (fun r s' h' => r = Ret tt /\ s' = St id (u32 (c + 1)) /\
    registered h' = registered h /\ armed h' = true /\
    exists ok : bool, sent h' = sent h ++ (if ok then [tick_bytes id c] else []) /\ (memory K -> ok = true)).
Proof.
  unfold cn_test_timer_func. do 3 wp_step. wp_step. apply wp_sys_any. intros u. wp_step. wp_step. apply wp_sys_eq. intros p Ep.
  do 3 wp_step.
  - wp_step. rewrite fill_tick by (by apply zlen_uninit). apply wp_lift. wp_go. do 4 (split; [done|]). exists true. split; [|done].
    rewrite !sent_silent by done. unfold sent at 1. rewrite trace_cons. fold (sent ((Kzalloc (sizeof_cn_msg + 32), p) :: (Uninit 32, u) :: h)).
    by rewrite !sent_silent.
  - wp_go. do 4 (split; [done|]). exists false. split; [by rewrite !sent_silent, app_nil_r|].
    intros HM. specialize (HM ((Uninit 32, u) :: h) (sizeof_cn_msg + 32)). rewrite Ep in HM. unfold truthy in *. zbool. lia.
Qed.

Lemma ticks_wp K id n : forall c h, 0 <= c ->
  wp (ticks n) K (St id (u32 c)) h (fun r s' h' => r = Ret tt /\ s' = St id (u32 (c + Z.of_nat n)) /\
    registered h' = registered h /\ (armed h = true -> armed h' = true) /\
    exists js, sent h' = sent h ++ ((fun i => tick_bytes id (u32 i)) <$> js) /\ js `sublist_of` seqZ c (Z.of_nat n) /\
      (memory K -> js = seqZ c (Z.of_nat n))).
Proof.
  induction n as [|n IH]; intros c h Hc; cbn [ticks].
  { wp_step. rewrite Z.add_0_r. do 4 (split; [done|]). exists []. by rewrite app_nil_r. }
  wp_step. eapply wp_wand; [apply tick_wp|]. intros r s' h1 (-> & -> & Hr & Ha & ok & Hs & Hok). wp_step.
  replace (u32 (u32 c + 1)) with (u32 (c + 1)) by (symmetry; apply Zplus_mod_idemp_l).
  eapply wp_wand; [apply IH; lia|]. intros r s' h2 (-> & -> & Hr2 & Ha2 & js & Hs2 & Hsub & Hall).
  split; [done|]. split; [do 2 f_equal; lia|]. split; [congruence|]. split; [auto|].
  exists ((if ok then [c] else []) ++ js). rewrite seqZ_cons by lia. replace (Z.pred (Z.of_nat (S n))) with (Z.of_nat n) by lia.
  split; [rewrite Hs2, Hs, fmap_app, <- app_assoc; by destruct ok|]. split.
  - destruct ok; [by apply sublist_skip|by apply sublist_cons].
  - intros HM. by rewrite (Hok HM), (Hall HM).
Qed.

Definition first_id : Z * Z := (CN_NETLINK_USERS + 3, 0x456).
Definition second_id : Z * Z := (CN_NETLINK_USERS + 3, 0x457).

(** A module that loads sends one message per tick for which there is memory, numbered from 0 and
    under its second id, and removing it leaves no callback and no timer behind.  When the first
    registration fails nothing is left behind either; when the second fails the first
    callback stays registered, because the id that is removed is the second. *)
Theorem module_lifetime K n :
  wp (lifetime n) K loaded [] (fun r s h => armed h = false /\
    let a := K [] (AddCallback first_id) in
    let b := K [(AddCallback first_id, a)] (AddCallback second_id) in
    if truthy (ret a) then r = Ret (ret a) /\ registered h = [] /\ sent h = []
    else if truthy (ret b) then r = Ret (ret b) /\ registered h = [first_id] /\ sent h = []
    else r = Ret 0 /\ registered h = [] /\ cn_test_id s = cn_test_id loaded /\
         exists js, sent h = (fun i => tick_bytes second_id (u32 i)) <$> js /\ js `sublist_of` seqZ 0 (Z.of_nat n) /\
           (memory K -> js = seqZ 0 (Z.of_nat n))).
Proof.
  unfold lifetime, cn_test_init, release_nls. change (nls) with (@None Z). cbn zeta. do 4 wp_step. change (cn_test_id loaded) with first_id.
  wp_step. apply wp_sys_eq. intros a Ea. rewrite Ea. wp_step. destruct (truthy (ret a)) eqn:Ta.
  { wp_go; unfold truthy in *; zbool; [lia|]. split; [done|]. split; [done|]. cbn. by replace (ret a =? 0) with false by lia. }
  do 6 wp_step. change (cn_test_id (val_add 1 loaded)) with second_id. wp_step. apply wp_sys_eq. intros b Eb. unfold event in *. rewrite Eb. wp_step.
  unfold truthy in *. zbool. assert (ret a = 0) as Ra by lia. destruct (ret b =? 0) eqn:Tb; cbn [negb].
  - wp_step. apply wp_sys_any. intros c1. do 2 wp_step. apply wp_sys_any. intros c2. do 2 wp_step. apply wp_sys_any. intros c3. do 3 wp_step.
    change (0 =? 0) with true. cbn iota. set (h1 := [_; _; _; _; _]). wp_step. change (val_add 1 loaded) with (St second_id (u32 0)).
    assert (registered h1 = [second_id; first_id]) as Hreg1. { unfold h1. cbn. rewrite Tb. by replace (ret a =? 0) with true by lia. }
    eapply wp_wand; [by apply ticks_wp|]. intros r s h2 (-> & -> & Hreg & _ & js & Hs & Hjs). rewrite Hreg1 in Hreg. clear Hreg1.
    unfold cn_test_fini, release_nls. wp_go; [done|]. change (cn_test_id (val_add (-1) (St second_id _))) with first_id. split; [done|].
    split; [done|]. split; [|split; [done|]].
    + cbn [registered]. rewrite Hreg. unfold second_id, first_id. cbn [cn_test_id]. by repeat (rewrite filter_cons; case_decide; simplify_eq).
    + exists js. by rewrite !sent_silent, Hs.
  - wp_go; [zbool; lia|]. split; [done|]. split; [done|]. split; [|done]. cbn [registered]. rewrite Heqb0.
    replace (ret a =? 0) with true by lia. rewrite filter_cons, decide_True; [done|]. unfold first_id, second_id. congruence.
Qed.

End Module_.
End CnTest.

Module Ucon.

Section Program.
Context `{Connector}.

Open Scope Z_scope.
Open Scope io_scope.

(** ** Data *)

Definition NETLINK_CONNECTOR := 11.
Definition CN_TEST_IDX := CN_NETLINK_USERS + 3.
Definition CN_TEST_VAL := 0x456.
Definition NLMSG_HDRLEN := 16.
Definition NLMSG_SPACE (len : Z) : Z := align_up (len + NLMSG_HDRLEN) 4.

Inductive text : Type :=
| Usage (idx val : Z)
| Unable (path : option string) (errno : Z)
| Subscribing (idx val : Z)
| Failed (errno : Z)
| Sent (n idx val : Z)
| ErrorReceived
| Line (tm idx val seq ack : Z).

Inductive call : Type :=
| Getopt
| Fopen (path : string)
| Socket (protocol : Z)
| Bind (fd groups : Z)
| Close (fd : Z)
| Perror (s : string)
| Getpid
| Uninit (size : Z)
| Send (fd : Z) (buf : list Z)
| Poll (fd : Z)
| Recv (fd len : Z)
| Time
| Fflush (out : Z)
| Fprintf (out : Z) (t : text).

#[export] Instance shows : Shows call text := fun c => match c with Fprintf _ t => Some t | _ => None end.

(** The global variables. *)
Record st : Type := St { need_exit : bool; seq : Z }.

Definition start : st := St false 0.

Abbreviation prog := (io call st).

(** Standard output; another file is what [fopen] gave, which is not 0. *)
Definition stdout := 0.
Definition fprintf (out : Z) (t : text) : prog unit := sys (Fprintf out t) ;; io_ret tt.
Definition ulog (t : text) : prog unit := fprintf stdout t.

(** ** Sending *)

(** The message in the 128 bytes of [buf]. *)
Definition build (junk msg : list Z) (len seq pid : Z) : outcome (list Z) :=
  (let size := NLMSG_SPACE (sizeof_cn_msg + len) in
   let! b := poke junk 8 (le_bytes 4 seq) in
   let! b := poke b 12 (le_bytes 4 pid) in
   let! b := poke b 4 (le_bytes 2 NLMSG_DONE) in
   let! b := poke b 0 (le_bytes 4 size) in
   let! b := poke b 6 (le_bytes 2 0) in
   let! m := sub msg 0 (sizeof_cn_msg + len) in
   let! b := poke b NLMSG_HDRLEN m in
   sub b 0 size)%out.

Definition netlink_send (s : Z) (msg : list Z) : prog Z :=
  let* u := sys (Uninit 128) in
  let* len := lift (rd 2 msg 16) in
  let* g := get in
  put (St (need_exit g) (u32 (seq g + 1))) ;;
  let* pid := sys Getpid in
  let* b := lift (build (uninit 128 u) msg len (seq g) (ret pid)) in
  let* e := sys (Send s b) in
  (if ret e =? -1 then ulog (Failed (errno e)) else io_ret tt) ;;
  io_ret (ret e).

Fixpoint repeat (n : nat) (body : prog unit) : prog unit :=
  match n with O => io_ret tt | S n => body ;; repeat n body end.

(** The message to send, in the 1024 bytes of [buf]. *)
Definition fill_data (seq : Z) : outcome (list Z) :=
  (let b := replicate 1024 0 in
   let! b := poke b 0 (le_bytes 4 CN_TEST_IDX) in
   let! b := poke b 4 (le_bytes 4 CN_TEST_VAL) in
   let! b := poke b 8 (le_bytes 4 seq) in
   let! b := poke b 12 (le_bytes 4 0) in
   poke b 16 (le_bytes 2 0))%out.

Definition send_all (s : Z) : prog unit :=
  let* g := get in
  let* data := lift (fill_data (seq g)) in
  put (St (need_exit g) (u32 (seq g + 1))) ;;
  repeat 10 (
    repeat 1000 (netlink_send s data ;; io_ret tt) ;;
    ulog (Sent 1000 CN_TEST_IDX CN_TEST_VAL)).

(** ** Listening *)

Definition show_reply (out : Z) (buf : list Z) : prog unit :=
  let* ty := lift (rd 2 buf 4) in
  if ty =? NLMSG_ERROR then fprintf out ErrorReceived ;; sys (Fflush out) ;; io_ret tt
  else if ty =? NLMSG_DONE then
    let* t := sys Time in
    let data := NLMSG_HDRLEN in
    let* idx := lift (rd 4 buf data) in
    let* val := lift (rd 4 buf (data + 4)) in
    let* seq := lift (rd 4 buf (data + 8)) in
    let* ack := lift (rd 4 buf (data + 12)) in
    fprintf out (Line (ret t) idx val seq ack) ;;
    sys (Fflush out) ;;
    io_ret tt
  else io_ret tt.

Definition set_exit : prog unit := modify (fun g => St true (seq g)).

(** The loop; [Some] is a [return] from inside it. *)
Fixpoint listen (fuel : nat) (s out : Z) : prog (option Z) :=
  match fuel with
  | O => nofuel
  | S fuel =>
      let* g := get in
      if need_exit g then io_ret None
      else
        let* p := sys (Poll s) in
        if (ret p =? -1) && (errno p =? EINTR) then listen fuel s out
        else
          (if (ret p =? 0) || (ret p =? -1) then set_exit else io_ret tt) ;;
          let* g := get in
          if need_exit g then io_ret None
          else
            let* r := sys (Recv s 1024) in
            if ret r =? -1 then sys (Perror "recv buf") ;; sys (Close s) ;; io_ret (Some (-1))
            else
              show_reply out (overlay (replicate 1024 0) (ztake (ret r) (data r))) ;;
              listen fuel s out
  end.

(** ** The program *)

(** [getopt] gives a letter, or -1 and the index of the first argument that is no option. *)
Fixpoint options (fuel : nat) (send_msgs : bool) : prog (Z + bool * Z) :=
  match fuel with
  | O => nofuel
  | S fuel =>
      let* a := sys Getopt in
      if ret a =? -1 then io_ret (inr (send_msgs, znth (data a) 0))
      else if ret a =? 115 then options fuel true
      else ulog (Usage CN_TEST_IDX CN_TEST_VAL) ;; io_ret (inl (if ret a =? 104 then 0 else 1))
  end.

Definition open_out (argv : list string) (optind : Z) : prog Z :=
  match argv !! Z.to_nat optind with
  | Some path =>
      let* f := sys (Fopen path) in
      if ret f =? 0 then ulog (Unable (argv !! 1%nat) (errno f)) ;; io_ret stdout else io_ret (ret f)
  | None => io_ret stdout
  end.

Definition main (fuel : nat) (argv : list string) : prog Z :=
  let* o := options fuel false in
  match o : Z + bool * Z with
  | inl status => io_ret status
  | inr (send_msgs, optind) =>
      let* out := open_out argv optind in
      let* f := sys (Socket NETLINK_CONNECTOR) in
      let s := ret f in
      if s =? -1 then sys (Perror "socket") ;; io_ret (-1)
      else
        ulog (Subscribing CN_TEST_IDX CN_TEST_VAL) ;;
        let* b := sys (Bind s (-1)) in
        if ret b =? -1 then sys (Perror "bind") ;; sys (Close s) ;; io_ret (-1)
        else if send_msgs then send_all s ;; io_ret 0
        else
          let* r := listen fuel s out in
          match r : option Z with
          | Some status => io_ret status
          | None => sys (Close s) ;; io_ret 0
          end
  end.

(** ** What is sent *)

Lemma zlen_cn_bytes m : zlen (cn_bytes m) = sizeof_cn_msg + zlen (payload m).
Proof. unfold cn_bytes, sizeof_cn_msg. rewrite !zlen_app, !zlen_le_bytes. lia. Qed.

(** The message of [netlink_send]; up to three bytes of the stack fill it up. *)
Lemma build_bytes junk m rest seq pid : zlen junk = 128 -> zlen (payload m) <= 92 ->
  let size := NLMSG_SPACE (sizeof_cn_msg + zlen (payload m)) in
  exists pad, zlen pad = size - 36 - zlen (payload m) /\
    build junk (cn_bytes m ++ rest) (zlen (payload m)) seq pid = Ret (nl_bytes size NLMSG_DONE 0 seq pid (cn_bytes m ++ pad)).
Proof.
  intros Hj Hp. pose proof (zlen_nonneg (payload m)) as Hp0. pose proof (zlen_cn_bytes m) as Hm. unfold build, NLMSG_SPACE, NLMSG_HDRLEN, sizeof_cn_msg in *.
  cbv zeta. set (len := zlen (payload m)) in *. set (size := align_up (20 + len + 16) 4). destruct (align4 (20 + len + 16)) as [Hs _]. fold size in Hs.
  assert (size <= 128) as Hs'. { destruct (align4 (20 + len + 16)) as [_ Hmod]. fold size in Hmod. apply Z.mod_divide in Hmod as [q Hq]; lia. }
  destruct (cut 4 junk) as (j0 & r0 & -> & H0 & H0'); [lia|]. destruct (cut 2 r0) as (j1 & r1 & -> & H1 & H1'); [lia|].
  destruct (cut 2 r1) as (j2 & r2 & -> & H2 & H2'); [lia|]. destruct (cut 4 r2) as (j3 & r3 & -> & H3 & H3'); [lia|].
  destruct (cut 4 r3) as (j4 & r4 & -> & H4 & H4'); [lia|]. destruct (cut (20 + len) r4) as (j5 & r5 & -> & H5 & H5'); [lia|].
  destruct (cut (size - 36 - len) r5) as (pad & r6 & -> & H6 & H6'); [lia|]. exists pad. split; [done|].
  rewrite (poke_at (j0 ++ j1 ++ j2) j3 (le_bytes 4 seq) (j4 ++ j5 ++ pad ++ r6)); [|by rewrite <- !app_assoc|lens|lens]. cbn [out_bind].
  rewrite (poke_at (j0 ++ j1 ++ j2 ++ le_bytes 4 seq) j4 (le_bytes 4 pid) (j5 ++ pad ++ r6)); [|by rewrite <- !app_assoc|lens|lens]. cbn [out_bind].
  rewrite (poke_at j0 j1 (le_bytes 2 NLMSG_DONE) (j2 ++ le_bytes 4 seq ++ le_bytes 4 pid ++ j5 ++ pad ++ r6)); [|by rewrite <- !app_assoc|lens|lens]. cbn [out_bind].
  rewrite (poke_at [] j0 (le_bytes 4 size) (le_bytes 2 NLMSG_DONE ++ j2 ++ le_bytes 4 seq ++ le_bytes 4 pid ++ j5 ++ pad ++ r6)); [|done|done|lens]. cbn [out_bind app].
  rewrite (poke_at (le_bytes 4 size ++ le_bytes 2 NLMSG_DONE) j2 (le_bytes 2 0) (le_bytes 4 seq ++ le_bytes 4 pid ++ j5 ++ pad ++ r6)); [|by rewrite <- !app_assoc|lens|lens]. cbn [out_bind].
  rewrite (sub_at [] (cn_bytes m) rest); [|done|done|done]. cbn [out_bind].
  rewrite (poke_at (le_bytes 4 size ++ le_bytes 2 NLMSG_DONE ++ le_bytes 2 0 ++ le_bytes 4 seq ++ le_bytes 4 pid) j5 (cn_bytes m) (pad ++ r6));
    [|by rewrite <- !app_assoc|lens|lens]. cbn [out_bind].
  rewrite (sub_at [] (nl_bytes size NLMSG_DONE 0 seq pid (cn_bytes m ++ pad)) r6); [done| |done|].
  - unfold nl_bytes. by rewrite <- !app_assoc.
  - unfold nl_bytes. rewrite !zlen_app, !zlen_le_bytes. lia.
Qed.

Definition sends : list (event call) -> list (list Z) := trace (fun c => match c with Send _ b => Some b | _ => None end).

Lemma sends_silent c a h : match c with Send _ _ => false | _ => true end = true -> sends ((c, a) :: h) = sends h.
Proof. intros Hc. unfold sends. rewrite trace_cons. destruct c; by rewrite ?app_nil_r. Qed.

(** A message [m] under the number [sq]. *)
Definition sent_as (m : cn_msg) (sq : Z) (b : list Z) : Prop := exists pid pad,
  let size := NLMSG_SPACE (sizeof_cn_msg + zlen (payload m)) in
  b = nl_bytes size NLMSG_DONE 0 sq pid (cn_bytes m ++ pad) /\ zlen pad = size - 36 - zlen (payload m).

(** A program that sends [m] [k] times, each under the next number. *)
Definition burst (m : cn_msg) (k : Z) (body : prog unit) : Prop := forall K ne q h,
  wp body K (St ne (u32 q)) h (fun r s' h' => r = Ret tt /\ s' = St ne (u32 (q + k)) /\
    exists bs, sends h' = sends h ++ bs /\ Forall2 (sent_as m) (u32 <$> seqZ q k) bs).

Lemma netlink_send_burst s m rest : zlen (payload m) <= 92 -> burst m 1 (netlink_send s (cn_bytes m ++ rest) ;; io_ret tt).
Proof.
  intros Hp K ne q h. pose proof (zlen_nonneg (payload m)) as Hp0. unfold netlink_send, ulog, fprintf. do 2 wp_step. wp_step. apply wp_sys_any. intros u. do 2 wp_step.
  rewrite (rd_le 2 (zlen (payload m)) (le_bytes 4 (idx m) ++ le_bytes 4 (val m) ++ le_bytes 4 (seqno m) ++ le_bytes 4 (ack m)) (le_bytes 2 0 ++ payload m ++ rest));
    [|unfold cn_bytes; by rewrite <- !app_assoc|done|done].
  apply wp_lift. rewrite Z.mod_small by (change (2 ^ (8 * 2)) with 65536; lia). do 8 wp_step. apply wp_sys_any. intros pid. wp_step. wp_step.
  destruct (build_bytes (uninit 128 u) m rest (u32 q) (ret pid)) as (pad & Hpad & Hb); [by apply zlen_uninit|done|]. cbn [seq]. rewrite Hb.
  apply wp_lift. wp_step. wp_step. apply wp_sys_any. intros e. wp_step.
  set (b := nl_bytes _ NLMSG_DONE 0 _ _ _). assert (Forall2 (sent_as m) (u32 <$> seqZ q 1) [b]) as Hsent.
  { rewrite seqZ_cons by done. constructor; [by exists (ret pid), pad|constructor]. }
  wp_go; (split; [done|split; [cbn [need_exit seq]; f_equal; apply Zplus_mod_idemp_l|exists [b]; split; [|done]]]);
    rewrite ?(sends_silent (Fprintf _ _)) by done; unfold sends at 1; by rewrite trace_cons, !sends_silent.
Qed.

Lemma burst_then m k body c t : burst m k body -> burst m k (body ;; fprintf c t).
Proof.
  intros Hb K ne q h. wp_step. eapply wp_wand; [apply Hb|]. intros r s' h' (-> & -> & bs & Hs & Hf). unfold fprintf. wp_go.
  split; [done|]. split; [done|]. exists bs. by rewrite sends_silent.
Qed.

Lemma burst_repeat m k body n : 0 <= k -> burst m k body -> burst m (Z.of_nat n * k) (repeat n body).
Proof.
  intros Hk Hb. induction n as [|n IH]; intros K ne q h; cbn [repeat].
  { wp_step. rewrite Z.add_0_r. split; [done|]. split; [done|]. exists []. by rewrite app_nil_r. }
  wp_step. eapply wp_wand; [apply Hb|]. intros r s' h1 (-> & -> & bs & Hs & Hf). wp_step.
  eapply wp_wand; [apply IH|]. intros r s' h2 (-> & -> & bs2 & Hs2 & Hf2). split; [done|]. split; [do 2 f_equal; lia|].
  exists (bs ++ bs2). split; [by rewrite Hs2, Hs, app_assoc|]. replace (Z.of_nat (S n) * k) with (k + Z.of_nat n * k) by lia.
  rewrite seqZ_app, fmap_app by lia. by apply Forall2_app.
Qed.

(** The message of [-s]. *)
Definition flood_msg : cn_msg := CnMsg CN_TEST_IDX CN_TEST_VAL 0 0 [].

Lemma fill_data_bytes q :
  fill_data q = Ret (cn_bytes (CnMsg CN_TEST_IDX CN_TEST_VAL q 0 []) ++ replicate (Z.to_nat 1004) 0).
Proof.
  unfold fill_data. cbv zeta. set (z := fun n => replicate (Z.to_nat n) 0). change (replicate 1024 0) with (z 1024).
  assert (forall a b, 0 <= a -> 0 <= b -> z (a + b) = z a ++ z b) as Happ by (intros; by apply replicate_zapp).
  set (i := le_bytes 4 CN_TEST_IDX). set (v := le_bytes 4 CN_TEST_VAL). set (sq := le_bytes 4 q). set (ac := le_bytes 4 0).
  rewrite (poke_at [] (z 4) i (z 1020)); [|by apply (Happ 4 1020)|done|done]. cbn [out_bind app].
  rewrite (poke_at i (z 4) v (z 1016)); [|by rewrite <- (Happ 4 1016)|done|done]. cbn [out_bind].
  rewrite (poke_at (i ++ v) (z 4) sq (z 1012)); [|by rewrite <- app_assoc, <- (Happ 4 1012)|done|done]. cbn [out_bind].
  rewrite (poke_at (i ++ v ++ sq) (z 4) ac (z 1008)); [|by rewrite <- !app_assoc, <- (Happ 4 1008)|done|done]. cbn [out_bind].
  rewrite (poke_at (i ++ v ++ sq ++ ac) (z 2) (le_bytes 2 0) (z 1006)); [|by rewrite <- !app_assoc, <- (Happ 2 1006)|done|done].
  f_equal.
Qed.

(** With [-s] the program sends ten thousand messages of 36 bytes, numbered from 1 on, each the
    same empty message to the test module, and succeeds whatever the kernel answers. *)
Theorem flood_sent K s h :
  wp (send_all s) K start h (fun r _ h' => r = Ret tt /\
    exists bs, sends h' = sends h ++ bs /\
      Forall2 (fun i b => exists pid, b = nl_bytes 36 NLMSG_DONE 0 i pid (cn_bytes flood_msg)) (seqZ 1 10000) bs).
Proof.
  unfold send_all, ulog. do 4 wp_step. rewrite fill_data_bytes. apply wp_lift. do 4 wp_step.
  change (u32 (seq start + 1)) with (u32 1). eapply wp_wand.
  { apply (burst_repeat flood_msg 1000 _ 10), burst_then; [done|]. apply (burst_repeat flood_msg 1 _ 1000); [done|]. by apply netlink_send_burst. }
  intros r s' h' (-> & -> & bs & Hs & Hf). split; [done|]. exists bs. split; [done|].
  assert (u32 <$> seqZ 1 10000 = seqZ 1 10000) as E.
  { transitivity (id <$> seqZ 1 10000); [|apply list_fmap_id]. apply list_fmap_ext. intros j x [-> Hj]%lookup_seqZ. unfold u32, wrap. rewrite Z.mod_small; [done|lia]. }
  change (Z.of_nat 10 * 1000) with 10000 in Hf. rewrite E in Hf. eapply Forall2_impl; [exact Hf|].
  intros i b (pid & pad & Hb & Hpad). exists pid. rewrite Hb. change (NLMSG_SPACE _) with 36.
  change (zlen pad = 0) in Hpad. assert (pad = []) as -> by (apply nil_length_inv; unfold zlen in Hpad; lia). by rewrite app_nil_r.
Qed.

(** ** What is shown *)

(** What [poll] can report: an interruption, a connector message, or another netlink message. *)
Inductive arrival : Type :=
| Interrupted
| Message (m : cn_msg) (len flags sq pid : Z)
| Other (len ty : Z) (rest : list Z).

Definition arrival_bytes (a : arrival) : list Z :=
  match a with
  | Interrupted => []
  | Message m len flags sq pid => nl_bytes len NLMSG_DONE flags sq pid (cn_bytes m)
  | Other len ty rest => le_bytes 4 len ++ le_bytes 2 ty ++ rest
  end.

Definition arrival_ok (a : arrival) : Prop := zlen (arrival_bytes a) <= 1024 /\
  match a with
  | Interrupted => True
  | Message m _ _ _ _ => cn_ok m
  | Other _ ty _ => 0 <= ty < 2 ^ 16 /\ ty <> NLMSG_DONE
  end.

Inductive shown_as : arrival -> list text -> Prop :=
| shown_interrupted : shown_as Interrupted []
| shown_message m len flags sq pid tm :
    shown_as (Message m len flags sq pid) [Line tm (idx m) (val m) (seqno m) (ack m)]
| shown_other len ty rest : shown_as (Other len ty rest) (if ty =? NLMSG_ERROR then [ErrorReceived] else []).

Fixpoint polls (h : list (event call)) : nat :=
  match h with [] => 0 | (c, _) :: h => match c with Poll _ => S (polls h) | _ => polls h end end.

(** The kernel delivers these arrivals one after the other, then [poll] fails. *)
Record delivers (K : kernel call) (l : list arrival) : Prop := {
  delivers_poll : forall h s, let p := K h (Poll s) in
    match l !! polls h with
    | None => ret p = 0 \/ ret p = -1 /\ errno p <> EINTR
    | Some Interrupted => ret p = -1 /\ errno p = EINTR
    | Some _ => ret p = 1
    end;
  delivers_recv : forall h s n k a, polls h = S k -> l !! k = Some a -> a <> Interrupted ->
    ret (K h (Recv s n)) = zlen (arrival_bytes a) /\ data (K h (Recv s n)) = arrival_bytes a
}.

Lemma received_bytes d : zlen d <= 1024 -> exists rest, overlay (replicate 1024 0) (ztake (zlen d) d) = d ++ rest.
Proof.
  intros Hd. exists (zdrop (zlen d) (replicate 1024 0)). unfold overlay. change (zlen (replicate 1024 0)) with 1024.
  assert (forall n, zlen d <= n -> ztake n d = d) as Ht by (intros n Hn; unfold ztake, zlen in *; apply take_ge; lia).
  by rewrite (Ht (zlen d)), (Ht 1024) by lia.
Qed.

Lemma rd_word x pre post buf off : buf = pre ++ le_bytes 4 x ++ post -> zlen pre = off -> word_ok x -> rd 4 buf off = Ret x.
Proof. intros Hb Hp Hx. rewrite (rd_le 4 x pre post); [|done|done|done]. by rewrite Z.mod_small. Qed.

Lemma show_wp K out a rest g h : a <> Interrupted -> arrival_ok a ->
  wp (show_reply out (arrival_bytes a ++ rest)) K g h (fun r s' h' => r = Ret tt /\ s' = g /\ polls h' = polls h /\
    exists ts, shown_as a ts /\ output h' = output h ++ ts).
Proof.
  intros Hne [_ Ha]. destruct a as [|m len flags sq pid|len ty tail]; [done| |]; unfold show_reply, fprintf; cbn [arrival_bytes]; wp_step.
  - unfold nl_bytes, cn_bytes. rewrite <- !app_assoc. set (buf := le_bytes 4 len ++ _). destruct Ha as (H1 & H2 & H3 & H4 & _).
    rewrite (rd_le 2 NLMSG_DONE (le_bytes 4 len) (zdrop 6 buf)) by done. apply wp_lift. wp_step.
    change (NLMSG_DONE mod _ =? NLMSG_ERROR) with false. change (NLMSG_DONE mod _ =? NLMSG_DONE) with true. cbn iota.
    wp_step. apply wp_sys_any. intros t. do 2 wp_step.
    rewrite (rd_word (idx m) (ztake 16 buf) (zdrop 20 buf)) by done. apply wp_lift. do 2 wp_step.
    rewrite (rd_word (val m) (ztake 20 buf) (zdrop 24 buf)) by done. apply wp_lift. do 2 wp_step.
    rewrite (rd_word (seqno m) (ztake 24 buf) (zdrop 28 buf)) by done. apply wp_lift. do 2 wp_step.
    rewrite (rd_word (ack m) (ztake 28 buf) (zdrop 32 buf)) by done. apply wp_lift. wp_go.
    do 3 (split; [done|]). eexists. split; [apply shown_message|]. by rewrite output_silent, output_cons, output_silent.
  - rewrite <- app_assoc. rewrite (rd_le 2 ty (le_bytes 4 len) (tail ++ rest)) by (rewrite <- ?app_assoc; done). apply wp_lift.
    change (2 ^ (8 * 2)) with (2 ^ 16). rewrite Z.mod_small by lia. wp_step. destruct Ha as [_ Ha].
    pose proof (shown_other len ty tail) as Hs. destruct (ty =? NLMSG_ERROR).
    + wp_go. do 3 (split; [done|]). exists [ErrorReceived]. split; [done|]. by rewrite output_silent, output_cons.
    + replace (ty =? NLMSG_DONE) with false by lia. wp_go. do 3 (split; [done|]). exists []. by rewrite app_nil_r.
Qed.

Lemma listen_wp K l s out fuel : delivers K l -> Forall arrival_ok l -> forall g h,
  need_exit g = false -> (length l < polls h + fuel)%nat -> (polls h <= length l)%nat ->
  wp (listen fuel s out) K g h (fun r _ h' => r = Ret None /\
    exists tss, Forall2 shown_as (drop (polls h) l) tss /\ output h' = output h ++ concat tss).
Proof.
  intros HK Hok. induction fuel as [|fuel IH]; intros g h Hg Hf Hl; [lia|]. cbn [listen]. do 3 wp_step. rewrite Hg.
  wp_step. apply wp_sys_eq. intros p Ep. wp_step. pose proof (delivers_poll K l HK h s) as Hp. cbn zeta in Hp. rewrite Ep in Hp.
  destruct (l !! polls h) as [a|] eqn:Ea.
  - rewrite (drop_S l a (polls h)) by done. pose proof (lookup_lt_Some _ _ _ Ea) as Hlt.
    assert (forall g2 h2 ts, need_exit g2 = false -> polls h2 = S (polls h) -> output h2 = output h ++ ts -> shown_as a ts ->
      wp (listen fuel s out) K g2 h2 (fun r _ h' => r = Ret None /\
        exists tss, Forall2 shown_as (a :: drop (S (polls h)) l) tss /\ output h' = output h ++ concat tss)) as Hnext.
    { intros g2 h2 ts Hg2 Hp2 Ho2 Hs. eapply wp_wand; [apply IH; [done|lia..]|]. intros r g3 h3 [-> (tss & Hall & Ho)].
      split; [done|]. exists (ts :: tss). rewrite Hp2 in Hall. split; [by constructor|]. by rewrite Ho, Ho2, <- app_assoc. }
    assert (a = Interrupted \/ a <> Interrupted) as [-> |Hne] by (destruct a; [by left|by right..]).
    + destruct Hp as [-> ->]. change ((-1 =? -1) && _) with true. cbn iota. apply (Hnext g _ []); [done|done|by rewrite output_silent, app_nil_r|constructor].
    + assert (ret p = 1) as -> by (by destruct a). change ((1 =? -1) && _) with false. change ((1 =? 0) || (1 =? -1)) with false.
      wp_const. do 6 wp_step. rewrite Hg. wp_step. apply wp_sys_eq. intros r Er. wp_step.
      destruct (delivers_recv K l HK ((Poll s, p) :: h) s 1024 (polls h) a) as [Hr Hd]; [done..|]. rewrite Er in Hr, Hd.
      pose proof (zlen_nonneg (arrival_bytes a)). replace (ret r =? -1) with false by lia. rewrite Hr, Hd.
      pose proof (Forall_lookup_1 _ _ _ _ Hok Ea) as Ha. destruct (received_bytes (arrival_bytes a)) as [rest ->]; [by destruct Ha|].
      wp_step. eapply wp_wand; [by apply show_wp|]. intros o g2 h2 (-> & -> & Hp2 & ts & Hs & Ho). wp_step.
      eapply Hnext; [done|done| |done]. by rewrite Ho, !output_silent.
  - assert ((ret p =? -1) && (errno p =? EINTR) = false) as -> by lia. assert ((ret p =? 0) || (ret p =? -1) = true) as -> by lia.
    unfold set_exit. wp_go; [|discriminate..]. split; [done|]. exists []. rewrite drop_ge by (by apply lookup_ge_None_1). split; [constructor|].
    by rewrite output_silent, app_nil_r.
Qed.

End Program.
End Ucon.

(** ** The two together *)

Module Together.

Section Together.
Context `{Connector}.
#[local] Existing Instance Ucon.shows.

Open Scope out_scope.

(** The message in a buffer: what the connector copies of it. *)
Definition decode (b : list Z) : outcome cn_msg :=
  let! i := rd 4 b 0 in
  let! v := rd 4 b 4 in
  let! s := rd 4 b 8 in
  let! a := rd 4 b 12 in
  let! n := rd 2 b 16 in
  let! p := sub b sizeof_cn_msg n in
  Ret (CnMsg i v s a p).

Lemma decode_bytes m rest : cn_ok m -> decode (cn_bytes m ++ rest) = Ret m.
Proof.
  intros (H1 & H2 & H3 & H4 & H5). pose proof (zlen_nonneg (payload m)) as H6. unfold decode, cn_bytes. rewrite <- !app_assoc. set (b := le_bytes 4 (idx m) ++ _).
  rewrite (Ucon.rd_word (idx m) [] (zdrop 4 b)) by done. cbn [out_bind].
  rewrite (Ucon.rd_word (val m) (ztake 4 b) (zdrop 8 b)) by done. cbn [out_bind].
  rewrite (Ucon.rd_word (seqno m) (ztake 8 b) (zdrop 12 b)) by done. cbn [out_bind].
  rewrite (Ucon.rd_word (ack m) (ztake 12 b) (zdrop 16 b)) by done. cbn [out_bind].
  rewrite (rd_le 2 (zlen (payload m)) (ztake 16 b) (zdrop 18 b)) by done. cbn [out_bind].
  change (2 ^ (8 * 2)) with (2 ^ 16). rewrite Z.mod_small by lia.
  rewrite (sub_at (ztake 20 b) (payload m) rest) by done. by destruct m.
Qed.

(** The connector relays a buffer as a netlink message with the same [cn_msg]. *)
Definition carries (b : list Z) (a : Ucon.arrival) : Prop := exists m len flags sq pid,
  decode b = Ret m /\ a = Ucon.Message m len flags sq pid.

Definition packets (l : list Ucon.arrival) : list Ucon.arrival :=
  omap (fun a => match a with Ucon.Interrupted => None | _ => Some a end) l.

(** A listener without arguments whose socket works. *)
Record plain (K : kernel Ucon.call) : Prop := {
  plain_options : forall h, ret (K h Ucon.Getopt) = -1 /\ znth (data (K h Ucon.Getopt)) 0 = 1;
  plain_socket : forall h p, ret (K h (Ucon.Socket p)) <> -1;
  plain_bind : forall h s g, ret (K h (Ucon.Bind s g)) <> -1
}.

Lemma tick_ok id c : word_ok (fst id) -> word_ok (snd id) -> word_ok c -> cn_ok (CnTest.tick_msg id c).
Proof.
  intros H1 H2 H3. pose proof (CnTest.counter_text_len c). unfold cn_ok, CnTest.tick_msg. cbn [idx val seqno ack payload].
  rewrite zlen_app. change (zlen [0]) with 1. split_and!; [done..|lia].
Qed.

(** A line about the tick number [i]. *)
Definition tick_line (id : Z * Z) (i : Z) (t : Ucon.text) : Prop := exists tm, t = Ucon.Line tm (fst id) (snd id) (u32 i) 0.
Definition tick_arrival (id : Z * Z) (i : Z) (a : Ucon.arrival) : Prop :=
  exists len flags sq pid, a = Ucon.Message (CnTest.tick_msg id (u32 i)) len flags sq pid.

Lemma carried_ticks id js l : word_ok (fst id) -> word_ok (snd id) ->
  Forall2 carries ((fun i => CnTest.tick_bytes id (u32 i)) <$> js) l -> Forall2 (tick_arrival id) js l.
Proof.
  intros H1 H2 Hc. rewrite Forall2_fmap_l in Hc. eapply Forall2_impl; [exact Hc|].
  intros i a (m & len & flags & sq & pid & Hm & ->). exists len, flags, sq, pid. unfold CnTest.tick_bytes in Hm.
  rewrite decode_bytes in Hm by (apply tick_ok; [done|done|apply Z.mod_pos_bound; lia]). congruence.
Qed.

Lemma tick_lines id l : forall js tss,
  Forall2 (tick_arrival id) js (packets l) -> Forall2 Ucon.shown_as l tss -> Forall2 (tick_line id) js (concat tss).
Proof.
  induction l as [|a l IH]; intros js tss Hp Hs.
  - apply Forall2_nil_inv_l in Hs as ->. by apply Forall2_nil_inv_r in Hp as ->.
  - apply Forall2_cons_inv_l in Hs as (ts & tss' & Ha & Hs & ->). destruct Ha as [|m len flags sq pid tm|]; cbn [packets omap list_omap concat app] in *.
    + by apply IH.
    + apply Forall2_cons_inv_r in Hp as (i & js' & (? & ? & ? & ? & E) & Hp & ->). injection E as -> _ _ _ _.
      constructor; [by exists tm|by apply IH].
    + by apply Forall2_cons_inv_r in Hp as (i & js' & (? & ? & ? & ? & E) & Hp & ->).
Qed.

Lemma ticks_fit id l js : word_ok (fst id) -> word_ok (snd id) -> Forall2 (tick_arrival id) js (packets l) -> Forall Ucon.arrival_ok l.
Proof.
  intros H1 H2. revert js. induction l as [|a l IH]; intros js Hp; [done|].
  assert (a = Ucon.Interrupted \/ a <> Ucon.Interrupted) as [-> |Hne] by (destruct a; [by left|by right..]).
  { constructor; [done|by apply (IH js)]. }
  assert (packets (a :: l) = a :: packets l) as E by (by destruct a). rewrite E in Hp.
  apply Forall2_cons_inv_r in Hp as (i & js' & (len & flags & sq & pid & ->) & Hp & ->). constructor; [|by apply (IH js')].
  pose proof (CnTest.counter_text_len (u32 i)). split; [|apply tick_ok; [done|done|apply Z.mod_pos_bound; lia]].
  cbn [Ucon.arrival_bytes]. unfold nl_bytes. rewrite !zlen_app, !zlen_le_bytes, Ucon.zlen_cn_bytes. unfold CnTest.tick_msg, sizeof_cn_msg. cbn [payload].
  rewrite zlen_app. change (zlen [0]) with 1. lia.
Qed.

(** C21: Let the test module tick [n] times.  A listener to which the kernel delivers these messages in order, interrupted as
    often as it likes, prints one line for each, with the id under which the module sends, the number
    of the tick and acknowledgement 0, and returns 0 when the connection ends. *)
Theorem ticks_shown KM hM K fuel l n h0 :
  CnTest.memory KM -> CnTest.sent h0 = [] ->
  CnTest.ticks n KM (CnTest.St CnTest.second_id 0) h0 = (Ret tt, CnTest.St CnTest.second_id (u32 (Z.of_nat n)), hM) ->
  Forall2 carries (CnTest.sent hM) (packets l) ->
  plain K -> Ucon.delivers K l -> (length l < fuel)%nat ->
  wp (Ucon.main fuel ["ucon"%string]) K Ucon.start [] (fun r _ h => r = Ret 0 /\ exists lines,
    output h = Ucon.Subscribing Ucon.CN_TEST_IDX Ucon.CN_TEST_VAL :: lines /\
    Forall2 (tick_line CnTest.second_id) (seqZ 0 (Z.of_nat n)) lines).
Proof.
  intros HM Hs0 Hrun Hc HK Hd Hf. destruct users_range as [Hu1 Hu2].
  pose proof (wp_elim _ _ _ _ _ _ _ _ (CnTest.ticks_wp KM CnTest.second_id n 0 h0 ltac:(lia)) Hrun) as (_ & _ & _ & _ & js & Hjs & _ & Hall).
  rewrite Hs0, (Hall HM) in Hjs. cbn [app] in Hjs. rewrite Hjs in Hc. clear Hjs Hall js Hrun.
  assert (word_ok (fst CnTest.second_id)) as Hw1 by (unfold CnTest.second_id, word_ok; cbn [fst]; lia).
  assert (word_ok (snd CnTest.second_id)) as Hw2 by done.
  apply carried_ticks in Hc; [|done|done]. pose proof (ticks_fit _ _ _ Hw1 Hw2 Hc) as Hok.
  unfold Ucon.main. wp_step. destruct fuel as [|fuel]; [lia|]. cbn [Ucon.options]. wp_step. apply wp_sys_eq. intros o Eo. wp_step.
  destruct (plain_options K HK []) as [E1 E2]. rewrite Eo in E1, E2. rewrite E1, E2. change (-1 =? -1) with true. cbn iota.
  do 3 wp_step. unfold Ucon.open_out. change (["ucon"%string] !! Z.to_nat 1) with (@None string). cbn iota. do 3 wp_step.
  apply wp_sys_eq. intros s Es. assert (ret s <> -1) as Hs by (rewrite <- Es; by apply plain_socket). clear Es.
  do 2 wp_step; [zbool; done|]. unfold Ucon.ulog, Ucon.fprintf. do 2 wp_step. wp_step. apply wp_sys_any. intros pa. do 4 wp_step.
  apply wp_sys_eq. intros b Eb. assert (ret b <> -1) as Hb by (rewrite <- Eb; by apply plain_bind). clear Eb. do 2 wp_step; [zbool; done|]. wp_step.
  eapply wp_wand; [apply (Ucon.listen_wp K l); [done|done|done|cbn [Ucon.polls]; lia|cbn [Ucon.polls]; lia]|].
  intros r g h [-> (tss & Hts & Ho)]. wp_go. split; [done|]. exists (concat tss). split.
  - rewrite output_silent, Ho, output_silent, output_cons, !output_silent by done. done.
  - by apply (tick_lines _ l).
Qed.

End Together.

(** *** Witness *)

Program Definition ten_users : Connector := {| CN_NETLINK_USERS := 10 |}.
Solve Obligations with lia.
#[local] Existing Instances ten_users Ucon.shows.

Definition module_kernel : kernel CnTest.call := fun _ _ => aret 1.

(** A kernel that delivers a list of arrivals. *)
Definition delivering (l : list Ucon.arrival) : kernel Ucon.call := fun h c =>
  match c with
  | Ucon.Getopt => Ans (-1) 0 [1]
  | Ucon.Socket _ => aret 3
  | Ucon.Poll _ => match l !! Ucon.polls h with
                   | None => aret 0
                   | Some Ucon.Interrupted => aerr EINTR
                   | Some _ => aret 1
                   end
  | Ucon.Recv _ _ => match l !! pred (Ucon.polls h) with
                     | Some a => Ans (zlen (Ucon.arrival_bytes a)) 0 (Ucon.arrival_bytes a)
                     | None => aerr 5
                     end
  | _ => aret 0
  end.

Lemma delivering_ok l : Ucon.delivers (delivering l) l.
Proof.
  split.
  - intros h s. cbn [delivering]. cbv zeta. destruct (l !! Ucon.polls h) as [[]|]; auto.
  - intros h s n k a Hp Ha _. cbn [delivering]. rewrite Hp. cbn [pred]. by rewrite Ha.
Qed.

Lemma ticks_shown_witness :
  let l := [Ucon.Message (CnTest.tick_msg CnTest.second_id 0) 0 0 0 0; Ucon.Interrupted;
            Ucon.Message (CnTest.tick_msg CnTest.second_id 1) 0 0 1 0] in
  let K := delivering l in
  wp (Ucon.main 9 ["ucon"%string]) K Ucon.start [] (fun r _ h => r = Ret 0 /\ exists lines,
    output h = Ucon.Subscribing Ucon.CN_TEST_IDX Ucon.CN_TEST_VAL :: lines /\
    Forall2 (tick_line CnTest.second_id) (seqZ 0 2) lines) /\
  output (Ucon.main 9 ["ucon"%string] K Ucon.start []).2 =
    [Ucon.Subscribing 13 0x456; Ucon.Line 0 13 0x457 0 0; Ucon.Line 0 13 0x457 1 0].
Proof.
  cbn zeta. split; [|vm_compute; reflexivity].
  apply (ticks_shown module_kernel (CnTest.ticks 2 module_kernel (CnTest.St CnTest.second_id 0) []).2 _ _
    [Ucon.Message (CnTest.tick_msg CnTest.second_id 0) 0 0 0 0; Ucon.Interrupted;
     Ucon.Message (CnTest.tick_msg CnTest.second_id 1) 0 0 1 0] 2 []).
  - done.
  - done.
  - vm_compute. reflexivity.
  - vm_compute. do 2 (constructor; [by do 5 eexists|]). constructor.
  - by split.
  - apply delivering_ok.
  - cbn. lia.
Defined.

End Together.
