(* ===== verification/Spi.v ===== *)
(** * SPI tools: Documentation/spi/spidev_fdx.c and spidev_test.c

    Two programs for spidev devices.  [Fdx] reads and exchanges a few bytes, [SpiTest] sends
    38 bytes in the mode its options ask for and prints what came back. *)

From S2P Require Import Prelude Posix CArray Output Resources.

(** ** Modes of the bus (linux/spi/spidev.h) *)

Definition SPI_CPHA := 0x01.
Definition SPI_CPOL := 0x02.
Definition SPI_CS_HIGH := 0x04.
Definition SPI_LSB_FIRST := 0x08.
Definition SPI_3WIRE := 0x10.
Definition SPI_LOOP := 0x20.
Definition SPI_NO_CS := 0x40.
Definition SPI_READY := 0x80.
Definition SPI_TX_DUAL := 0x100.
Definition SPI_TX_QUAD := 0x200.
Definition SPI_RX_DUAL := 0x400.
Definition SPI_RX_QUAD := 0x800.

Module Fdx.

Open Scope Z_scope.
Open Scope io_scope.

(** ** Data *)

Inductive text : Type :=
| Usage (argv0 : string)
| ShortRead
| ReadLine (len status : Z) (bytes : list Z)
| Response (len status : Z) (bytes : list Z)
| Stat (name : string) (mode bits lsb speed : Z).

Inductive attr : Type := RdMode32 | RdLsbFirst | RdBitsPerWord | RdMaxSpeedHz.

(** The two transfers of [Message2]: the byte to send and the number to receive. *)
Inductive call : Type :=
| Getopt
| Open (name : string)
| Ioctl (fd : Z) (a : attr)
| Message2 (fd : Z) (tx : list Z) (rx_len : Z)
| Read (fd len : Z)
| Close (fd : Z)
| Perror (s : string)
| Printf (t : text)
| Eprintf (t : text).

#[export] Instance shows : Shows call text :=
  fun c => match c with Printf t | Eprintf t => Some t | _ => None end.

(** The state is the variable [verbose]. *)
Abbreviation prog := (io call Z).

Definition printf (t : text) : prog unit := sys (Printf t) ;; io_ret tt.
Definition perror (s : string) : prog unit := sys (Perror s) ;; io_ret tt.

Definition sizeof_buf := 32.
Definition zeros (n : Z) : list Z := replicate (Z.to_nat n) 0.

(** ** The operations *)

(** [n] bytes from [bp] on. *)
Fixpoint print_bytes (n : nat) (buf : list Z) (bp : Z) : outcome (list Z) :=
  match n with
  | O => Ret []
  | S n => (let! b := load buf bp in let! r := print_bytes n buf (bp + 1) in Ret (b :: r))%out
  end.

Definition do_read (fd len : Z) : prog unit :=
  let len := if len <? 2 then 2 else if sizeof_buf <? u64 len then sizeof_buf else len in
  let* r := sys (Read fd len) in
  let status := ret r in
  if status <? 0 then perror "read"
  else if negb (status =? len) then sys (Eprintf ShortRead) ;; io_ret tt
  else
    let buf := overlay (zeros sizeof_buf) (ztake status (data r)) in
    let* first := lift (print_bytes 2 buf 0) in
    let* rest := lift (print_bytes (Z.to_nat (status - 2)) buf 2) in
    printf (ReadLine len status (first ++ rest)).

Definition do_msg (fd len : Z) : prog unit :=
  let len := if sizeof_buf <? u64 len then sizeof_buf else len in
  let* r := sys (Message2 fd [0xaa] len) in
  let status := ret r in
  if status <? 0 then perror "SPI_IOC_MESSAGE"
  else
    let buf := overlay (0xaa :: zeros (sizeof_buf - 1)) (ztake len (data r)) in
    let* bytes := lift (print_bytes (Z.to_nat len) buf 0) in
    printf (Response len status bytes).

(** The ioctls store the attribute at the start of their answer. *)
Definition dumpstat (name : string) (fd : Z) : prog unit :=
  let* m := sys (Ioctl fd RdMode32) in
  if ret m <? 0 then perror "SPI rd_mode"
  else
    let* l := sys (Ioctl fd RdLsbFirst) in
    if ret l <? 0 then perror "SPI rd_lsb_fist"
    else
      let* b := sys (Ioctl fd RdBitsPerWord) in
      if ret b <? 0 then perror "SPI bits_per_word"
      else
        let* s := sys (Ioctl fd RdMaxSpeedHz) in
        if ret s <? 0 then perror "SPI max_speed_hz"
        else printf (Stat name (znth (data m) 0) (znth (data b) 0) (znth (data l) 0) (znth (data s) 0)).

(** ** The program *)

Definition usage (argv : list string) : prog (option (Z * Z * Z)) :=
  sys (Eprintf (Usage (default EmptyString (head argv)))) ;; io_ret None.

(** [getopt] gives a letter and its argument, or -1 and the index of the next argument.
    [None] is [return 1]. *)
Fixpoint options (fuel : nat) (argv : list string) (readcount msglen : Z) : prog (option (Z * Z * Z)) :=
  match fuel with
  | O => nofuel
  | S fuel =>
      let* a := sys Getopt in
      let c := ret a in
      if c =? -1 then io_ret (Some (readcount, msglen, znth (data a) 0))
      else if c =? 109 then
        let msglen := atoi (data a) in
        if msglen <? 0 then usage argv else options fuel argv readcount msglen
      else if c =? 114 then
        let readcount := atoi (data a) in
        if readcount <? 0 then usage argv else options fuel argv readcount msglen
      else if c =? 118 then modify (fun v => i32 (v + 1)) ;; options fuel argv readcount msglen
      else if (c =? 104) || (c =? 63) then usage argv
      else options fuel argv readcount msglen
  end.

Definition main (fuel : nat) (argv : list string) : prog Z :=
  let* o := options fuel argv 0 0 in
  match o : option (Z * Z * Z) with
  | None => io_ret 1
  | Some (readcount, msglen, optind) =>
      if negb (optind + 1 =? zlen argv) then usage argv ;; io_ret 1
      else
        let name := default EmptyString (argv !! Z.to_nat optind) in
        let* f := sys (Open name) in
        let fd := ret f in
        if fd <? 0 then perror "open" ;; io_ret 1
        else
          dumpstat name fd ;;
          (if truthy msglen then do_msg fd msglen else io_ret tt) ;;
          (if truthy readcount then do_read fd readcount else io_ret tt) ;;
          sys (Close fd) ;;
          io_ret 0
  end.

(** ** What it shows *)

Lemma print_bytes_in n : forall buf bp, 0 <= bp -> bp + Z.of_nat n <= zlen buf ->
  print_bytes n buf bp = Ret (ztake (Z.of_nat n) (zdrop bp buf)).
Proof.
  induction n as [|n IH]; intros buf bp Hb Hl; cbn [print_bytes]; [done|].
  rewrite load_in by lia. cbn [out_bind]. rewrite IH by lia. cbn [out_bind]. f_equal. unfold ztake, zdrop, znth, zlen in *.
  rewrite Nat2Z.id. replace (Z.to_nat (Z.of_nat (S n))) with (S n) by lia. replace (Z.to_nat (bp + 1)) with (S (Z.to_nat bp)) by lia.
  destruct (lookup_lt_is_Some_2 buf (Z.to_nat bp)) as [x Hx]; [lia|].
  rewrite (drop_S buf x (Z.to_nat bp)) by done. cbn [take]. f_equal. by apply nth_lookup_Some.
Qed.

#[export] Instance fd_resources : Resources call Z := {
  acquires c a := match c with Open _ => if ret a <? 0 then None else Some (ret a) | _ => None end;
  releases c a := match c with Close fd => Some fd | _ => None end
}.

(** [body] prints lines that satisfy [P] and neither opens nor closes anything. *)
Definition reports (P : list text -> Prop) (body : prog unit) : Prop := forall K s h l, held h = Some l ->
  wp body K s h (fun r s' h' => r = Ret tt /\ s' = s /\ held h' = Some l /\ exists ts, output h' = output h ++ ts /\ P ts).

Definition stat_report (name : string) (ts : list text) : Prop := ts = [] \/ exists m b l v, ts = [Stat name m b l v].

Lemma dumpstat_reports name fd : reports (stat_report name) (dumpstat name fd).
Proof.
  intros K s h l Hh. unfold dumpstat, perror, printf. wp_go; (split; [done|]); (split; [done|]); (split; [held_solve|]).
  all: first [exists []; split; [by rewrite !output_silent, app_nil_r|by left]
             |eexists; split; [rewrite output_cons, !output_silent by done; reflexivity|right; by do 4 eexists]].
Qed.

(** A complete answer is shown byte by byte; a short one is not shown. *)
Definition read_report (len : Z) (ts : list text) : Prop :=
  let n := Z.max 2 (Z.min len 32) in
  ts = [] \/ ts = [ShortRead] \/ exists bytes, zlen bytes = n /\ ts = [ReadLine n n bytes].

Lemma zlen_zeros n : 0 <= n -> zlen (zeros n) = n.
Proof. apply zlen_replicate. Qed.

Lemma do_read_reports fd len : - 2 ^ 31 <= len < 2 ^ 31 -> reports (read_report len) (do_read fd len).
Proof.
  intros Hlen K s h l Hh. unfold do_read, perror, printf, read_report.
  assert ((if len <? 2 then 2 else if sizeof_buf <? u64 len then sizeof_buf else len) = Z.max 2 (Z.min len 32)) as ->.
  { destruct (Z.ltb_spec len 2); [lia|]. unfold sizeof_buf, u64. rewrite wrap_small by (unfold fits; lia). destruct (Z.ltb_spec 32 len); lia. }
  set (n := Z.max 2 (Z.min len 32)). assert (2 <= n <= 32) as Hn by lia. wp_step. apply wp_sys_any. intros a. do 2 wp_step.
  { wp_go. split; [done|]. split; [done|]. split; [held_solve|]. exists []. split; [by rewrite !output_silent, app_nil_r|by left]. }
  wp_step.
  { wp_go. split; [done|]. split; [done|]. split; [held_solve|]. exists [ShortRead].
    split; [by rewrite output_cons, output_silent|by right; left]. }
  assert (ret a = n) as Ea by (zbool; lia). rewrite Ea. set (buf := overlay _ _).
  assert (zlen buf = 32) as Hb by (unfold buf; rewrite zlen_overlay; by apply zlen_zeros).
  wp_step. rewrite print_bytes_in by lia. apply wp_lift. do 2 wp_step. rewrite print_bytes_in by lia. apply wp_lift. wp_go.
  split; [done|]. split; [done|]. split; [held_solve|]. eexists. split; [by rewrite output_cons, output_silent|]. right. right.
  eexists. split; [|reflexivity]. rewrite zlen_app, !zlen_ztake; [lia|rewrite zlen_zdrop; lia|].
  split; [lia|]. rewrite zlen_zdrop by lia. lia.
Qed.

Definition msg_report (len : Z) (ts : list text) : Prop :=
  let n := Z.min len 32 in ts = [] \/ exists status bytes, zlen bytes = n /\ ts = [Response n status bytes].

Lemma do_msg_reports fd len : 0 <= len < 2 ^ 31 -> reports (msg_report len) (do_msg fd len).
Proof.
  intros Hlen K s h l Hh. unfold do_msg, perror, printf, msg_report.
  assert ((if sizeof_buf <? u64 len then sizeof_buf else len) = Z.min len 32) as ->.
  { unfold sizeof_buf, u64. rewrite wrap_small by (unfold fits; lia). destruct (Z.ltb_spec 32 len); lia. }
  set (n := Z.min len 32). assert (0 <= n <= 32) as Hn by lia. wp_step. apply wp_sys_any. intros a. do 2 wp_step.
  { wp_go. split; [done|]. split; [done|]. split; [held_solve|]. exists []. split; [by rewrite !output_silent, app_nil_r|by left]. }
  set (buf := overlay _ _). assert (zlen buf = 32) as Hb by (unfold buf; by rewrite zlen_overlay).
  wp_step. rewrite print_bytes_in by lia. apply wp_lift. wp_go. split; [done|]. split; [done|]. split; [held_solve|].
  eexists. split; [by rewrite output_cons, output_silent|]. right. eexists _, _. split; [|reflexivity].
  rewrite zlen_ztake; [lia|]. rewrite zlen_zdrop by lia. lia.
Qed.

(** *** Options *)

Fixpoint gets (h : list (event call)) : nat :=
  match h with [] => 0 | (c, _) :: h => match c with Getopt => S (gets h) | _ => gets h end end.

(** [getopt] finds these letters with their arguments, and the device at [optind]. *)
Definition getopt_finds (K : kernel call) (script : list (Z * list Z)) (optind : Z) : Prop := forall h,
  let a := K h Getopt in
  match script !! gets h with
  | Some (c, arg) => ret a = c /\ data a = arg /\ c <> -1
  | None => ret a = -1 /\ znth (data a) 0 = optind
  end.

(** The counts the letters ask for; [None] when they ask for help or a negative count. *)
Fixpoint counts (script : list (Z * list Z)) (readcount msglen : Z) : option (Z * Z) :=
  match script with
  | [] => Some (readcount, msglen)
  | (c, arg) :: script =>
      if c =? 109 then if atoi arg <? 0 then None else counts script readcount (atoi arg)
      else if c =? 114 then if atoi arg <? 0 then None else counts script (atoi arg) msglen
      else if (c =? 104) || (c =? 63) then None
      else counts script readcount msglen
  end.

Lemma atoi_range l : - 2 ^ 31 <= atoi l < 2 ^ 31.
Proof. unfold atoi, i32, sint. pose proof (Z.mod_pos_bound (strtol l + 2 ^ (32 - 1)) (2 ^ 32)). lia. Qed.

Lemma counts_range script : forall rc ml rc' ml', 0 <= rc < 2 ^ 31 -> 0 <= ml < 2 ^ 31 -> counts script rc ml = Some (rc', ml') ->
  0 <= rc' < 2 ^ 31 /\ 0 <= ml' < 2 ^ 31.
Proof.
  induction script as [|[c arg] script IH]; intros rc ml rc' ml' Hr Hm E; cbn [counts] in E; [by simplify_eq|].
  pose proof (atoi_range arg). repeat case_match; zbool; try done; (eapply IH; [| |exact E]); lia.
Qed.

Lemma options_wp K script optind argv fuel : getopt_finds K script optind -> forall rc ml s h,
  (length script < gets h + fuel)%nat -> (gets h <= length script)%nat -> held h = Some [] -> output h = [] ->
  wp (options fuel argv rc ml) K s h (fun r _ h' => held h' = Some [] /\
    match counts (drop (gets h) script) rc ml with
    | Some (rc', ml') => r = Ret (Some (rc', ml', optind)) /\ output h' = []
    | None => r = Ret None /\ output h' = [Usage (default EmptyString (head argv))]
    end).
Proof.
  intros HK. induction fuel as [|fuel IH]; intros rc ml s h Hf Hg Hh Ho; [lia|]. cbn [options]. wp_step. apply wp_sys_eq. intros a Ea. wp_step.
  specialize (HK h). cbn zeta in HK. rewrite Ea in HK. destruct (script !! gets h) as [[c arg]|] eqn:Es.
  - destruct HK as (-> & -> & Hc). rewrite (drop_S script (c, arg) (gets h)) by done. pose proof (lookup_lt_Some _ _ _ Es). cbn [counts].
    assert (forall rc ml s, wp (options fuel argv rc ml) K s ((Getopt, a) :: h) (fun r _ h' => held h' = Some [] /\
      match counts (drop (S (gets h)) script) rc ml with
      | Some (rc', ml') => r = Ret (Some (rc', ml', optind)) /\ output h' = []
      | None => r = Ret None /\ output h' = [Usage (default EmptyString (head argv))]
      end)) as Hrec.
    { intros rc' ml' s'. apply (IH rc' ml' s' ((Getopt, a) :: h)); cbn [gets]; [lia|lia|held_solve|by rewrite output_silent]. }
    assert (wp (usage argv) K s ((Getopt, a) :: h) (fun r _ h' => held h' = Some [] /\
      r = Ret None /\ output h' = [Usage (default EmptyString (head argv))])) as Hus.
    { unfold usage. wp_go. split; [held_solve|]. split; [done|]. rewrite output_cons, output_silent, Ho by done. done. }
    replace (c =? -1) with false by lia. destruct (c =? 109); [by destruct (atoi arg <? 0)|].
    destruct (c =? 114); [by destruct (atoi arg <? 0)|]. destruct (Z.eqb_spec c 118) as [-> |].
    + do 3 wp_step. apply Hrec.
    + by destruct ((c =? 104) || (c =? 63)).
  - destruct HK as [-> <-]. rewrite drop_ge by (by apply lookup_ge_None_1). change (-1 =? -1) with true. cbn iota. wp_step. cbn [counts]. split; [held_solve|].
    split; [done|]. by rewrite output_silent.
Qed.

(** The program shows the settings of the device, then for a message length the bytes of one
    exchange, at most 32, then for a read count the bytes of one read, between 2 and 32: all of them, or nothing
    for an exchange that failed, or a remark on a short read.  The device is closed again. *)
Theorem fdx_reports K script optind argv fuel :
  getopt_finds K script optind -> 0 <= optind -> (length script < fuel)%nat ->
  wp (main fuel argv) K 0 [] (fun r _ h => held h = Some [] /\
    match counts script 0 0 with
    | None => r = Ret 1 /\ output h = [Usage (default EmptyString (head argv))]
    | Some (readcount, msglen) =>
        r = Ret 1 /\ (output h = [] \/ output h = [Usage (default EmptyString (head argv))]) \/
        r = Ret 0 /\ exists name a b c, argv !! Z.to_nat optind = Some name /\ output h = a ++ b ++ c /\ stat_report name a /\
          (if truthy msglen then msg_report msglen b else b = []) /\ (if truthy readcount then read_report readcount c else c = [])
    end).
Proof.
  intros HK Hopt Hf. unfold main. wp_step. eapply wp_wand; [apply (options_wp K script optind argv fuel HK 0 0 0 []); [done|cbn; lia|done|done]|].
  intros r s h [Hh Ho]. change (drop (gets []) script) with script in Ho. destruct (counts script 0 0) as [[rc ml]|] eqn:Ec; destruct Ho as [-> Ho]; [|wp_go; done].
  destruct (counts_range script 0 0 rc ml) as [Hrc Hml]; [lia|lia|done|]. wp_step.
  destruct (negb (optind + 1 =? zlen argv)) eqn:Ei.
  { unfold usage. wp_go. split; [held_solve|]. left. split; [done|]. right. by rewrite output_cons, Ho. }
  destruct (lookup_lt_is_Some_2 argv (Z.to_nat optind)) as [name En]; [zbool; unfold zlen in *; lia|]. rewrite En. cbn [default].
  cbv zeta. wp_step. apply wp_sys_any. intros f. do 2 wp_step.
  { unfold perror. wp_go. split; [held_solve|]. left. split; [done|]. left. by rewrite !output_silent. }
  wp_step. eapply wp_wand; [apply (dumpstat_reports name (ret f) K s _ [ret f]); held_solve|]. intros r1 s1 h1 (-> & -> & Hh1 & a & Ho1 & Ha).
  rewrite output_silent, Ho in Ho1 by done. do 2 wp_step.
  eapply (wp_wand _ _ _ _ (fun r s' h' => r = Ret tt /\ held h' = Some [ret f] /\ exists b, output h' = output h1 ++ b /\
    if truthy ml then msg_report ml b else b = [])).
  { destruct (truthy ml).
    - eapply wp_wand; [by apply do_msg_reports|]. intros ? ? ? (-> & _ & ? & ?). eauto.
    - wp_step. split; [done|]. split; [done|]. exists []. by rewrite app_nil_r. }
  intros r2 s2 h2 (-> & Hh2 & b & Ho2 & Hb). do 2 wp_step.
  eapply (wp_wand _ _ _ _ (fun r s' h' => r = Ret tt /\ held h' = Some [ret f] /\ exists c, output h' = output h2 ++ c /\
    if truthy rc then read_report rc c else c = [])).
  { destruct (truthy rc).
    - eapply wp_wand; [apply do_read_reports; [lia|done]|]. intros ? ? ? (-> & _ & ? & ?). eauto.
    - wp_step. split; [done|]. split; [done|]. exists []. by rewrite app_nil_r. }
  intros r3 s3 h3 (-> & Hh3 & c & Ho3 & Hc). wp_go. split; [held_solve|]. right. split; [done|]. exists name, a, b, c.
  split_and!; [done| |done|done|done]. by rewrite output_silent, Ho3, Ho2, Ho1, <- app_assoc.
Qed.

(** A device that answers in full, asked for a message of 40 bytes and a read of one. *)
Definition echo_device : kernel call := fun h c =>
  match c with
  | Getopt => match [(109, bytes_of_string "40"); (114, bytes_of_string "1")] !! gets h with
              | Some (c, arg) => Ans c 0 arg
              | None => Ans (-1) 0 [5]
              end
  | Open _ => aret 3
  | Read _ n => Ans n 0 (replicate (Z.to_nat n) 7)
  | Message2 _ _ n => Ans (n + 1) 0 (replicate (Z.to_nat n) 9)
  | _ => Ans 0 0 [1]
  end.

Lemma fdx_reports_witness :
  let argv := ["fdx"; "-m"; "40"; "-r"; "1"; "/dev/spidev1.0"]%string in
  let h := (main 9 argv echo_device 0 []).2 in
  held h = Some [] /\ (main 9 argv echo_device 0 []).1.1 = Ret 0 /\
  output h = [Stat "/dev/spidev1.0" 1 1 1 1; Response 32 33 (replicate 32 9); ReadLine 2 2 [7; 7]].
Proof.
  assert (getopt_finds echo_device [(109, bytes_of_string "40"); (114, bytes_of_string "1")] 5) as Hg.
  { intros h'. cbn [echo_device]. cbv zeta. destruct (gets h') as [|[|n]]; cbn [lookup list_lookup]; split; try split; done. }
  cbv zeta. split; [|by vm_compute].
  refine (proj1 (wp_elim _ _ _ _ _ _ _ _ (fdx_reports echo_device _ 5 ["fdx"; "-m"; "40"; "-r"; "1"; "/dev/spidev1.0"]%string 9 Hg _ _) _)).
  - lia.
  - cbn. lia.
  - vm_compute. reflexivity.
Defined.

End Fdx.

Module SpiTest.

Open Scope Z_scope.
Open Scope io_scope.

(** ** Data *)

Inductive text : Type :=
| Usage (prog : string)
| Mode (mode : Z)
| Bits (bits : Z)
| Speed (hz khz : Z)
| NewLine
| Byte (b : Z).

(** A transfer as the kernel sees it; a buffer of 0 is not given. *)
Record xfer : Type := Xfer {
  tx_buf : option (list Z); has_rx : bool; len : Z; delay_usecs : Z; speed_hz : Z; bits_per_word : Z;
  tx_nbits : Z; rx_nbits : Z
}.

Inductive setting : Type := Mode32 | BitsPerWord | MaxSpeedHz.

Inductive call : Type :=
| Getopt
| Open (device : list Z)
| WrSetting (fd : Z) (s : setting) (v : Z)
| RdSetting (fd : Z) (s : setting)
| Message1 (fd : Z) (t : xfer)
| Close (fd : Z)
| Perror (s : string)
| Printf (t : text).

#[export] Instance shows : Shows call text := fun c => match c with Printf t => Some t | _ => None end.

(** The static variables. *)
Record st : Type := St { device : list Z; mode : Z; bits : Z; speed : Z; delay : Z }.

Definition start : st := St (bytes_of_string "/dev/spidev1.1") 0 8 500000 0.

Abbreviation prog := (io call st).

Definition printf (t : text) : prog unit := sys (Printf t) ;; io_ret tt.

(** [abort] *)
Definition pabort {A} (s : string) : prog A := sys (Perror s) ;; crash.

(** ** The transfer *)

Definition tx : list Z :=
  replicate 6 0xFF ++
  [0x40; 0x00; 0x00; 0x00; 0x00; 0x95] ++
  replicate 6 0xFF ++
  replicate 6 0xFF ++
  replicate 6 0xFF ++
  [0xDE; 0xAD; 0xBE; 0xEF; 0xBA; 0xAD] ++
  [0xF0; 0x0D].

Definition make_xfer (s : st) : xfer :=
  let m := mode s in
  let txb := if has m SPI_TX_QUAD then 4 else if has m SPI_TX_DUAL then 2 else 0 in
  let rxb := if has m SPI_RX_QUAD then 4 else if has m SPI_RX_DUAL then 2 else 0 in
  let one_way_tx := negb (has m SPI_LOOP) && has m (Z.lor SPI_TX_QUAD SPI_TX_DUAL) in
  let one_way_rx := negb (has m SPI_LOOP) && negb (has m (Z.lor SPI_TX_QUAD SPI_TX_DUAL)) &&
                    has m (Z.lor SPI_RX_QUAD SPI_RX_DUAL) in
  Xfer (if one_way_rx then None else Some tx) (negb one_way_tx) (zlen tx) (delay s) (speed s) (bits s) txb rxb.

Fixpoint print_rx (n : nat) (rx : list Z) (i : Z) : prog unit :=
  match n with
  | O => io_ret tt
  | S n =>
      (if Z.rem i 6 =? 0 then printf NewLine else io_ret tt) ;;
      let* b := lift (load rx i) in
      printf (Byte b) ;;
      print_rx n rx (i + 1)
  end.

Definition transfer (fd : Z) : prog unit :=
  let* s := get in
  let tr := make_xfer s in
  let* r := sys (Message1 fd tr) in
  if ret r <? 1 then pabort "can't send spi message"
  else
    let zero := replicate (length tx) 0 in
    let rx := if has_rx tr then overlay zero (data r) else zero in
    print_rx (length tx) rx 0 ;;
    printf NewLine.

(** ** Options *)

Definition set_mode (m : Z) : prog unit :=
  modify (fun s => St (device s) (Z.lor (mode s) m) (bits s) (speed s) (delay s)).

(** The mode bit of a letter. *)
Definition mode_of (c : Z) : option Z :=
  if c =? 108 then Some SPI_LOOP
  else if c =? 72 then Some SPI_CPHA
  else if c =? 79 then Some SPI_CPOL
  else if c =? 76 then Some SPI_LSB_FIRST
  else if c =? 67 then Some SPI_CS_HIGH
  else if c =? 51 then Some SPI_3WIRE
  else if c =? 78 then Some SPI_NO_CS
  else if c =? 82 then Some SPI_READY
  else if c =? 50 then Some SPI_TX_DUAL
  else if c =? 52 then Some SPI_TX_QUAD
  else None.

Definition print_usage (argv0 : string) : prog unit := printf (Usage argv0) ;; exit_ 1.

Definition option_step (argv0 : string) (c : Z) (optarg : list Z) : prog unit :=
  if c =? 68 then modify (fun s => St optarg (mode s) (bits s) (speed s) (delay s))
  else if c =? 115 then modify (fun s => St (device s) (mode s) (bits s) (u32 (atoi optarg)) (delay s))
  else if c =? 100 then modify (fun s => St (device s) (mode s) (bits s) (speed s) (u16 (atoi optarg)))
  else if c =? 98 then modify (fun s => St (device s) (mode s) (u8 (atoi optarg)) (speed s) (delay s))
  else match mode_of c with
       | Some m => set_mode m
       | None => print_usage argv0
       end.

Fixpoint options (fuel : nat) (argv0 : string) : prog unit :=
  match fuel with
  | O => nofuel
  | S fuel =>
      let* a := sys Getopt in
      if ret a =? -1 then io_ret tt
      else option_step argv0 (ret a) (data a) ;; options fuel argv0
  end.

(** Loopback needs both directions of a wide transfer. *)
Definition loop_widths (m : Z) : Z :=
  if has m SPI_LOOP then
    let m := if has m SPI_TX_DUAL then Z.lor m SPI_RX_DUAL else m in
    if has m SPI_TX_QUAD then Z.lor m SPI_RX_QUAD else m
  else m.

Definition parse_opts (fuel : nat) (argv0 : string) : prog unit :=
  options fuel argv0 ;;
  modify (fun s => St (device s) (loop_widths (mode s)) (bits s) (speed s) (delay s)).

(** ** The program *)

Definition write_setting (fd : Z) (s : setting) (v : Z) (what : string) : prog unit :=
  let* a := sys (WrSetting fd s v) in
  if ret a =? -1 then pabort what else io_ret tt.

(** The status and the value the kernel stores. *)
Definition read_setting (fd : Z) (s : setting) (what : string) : prog (Z * Z) :=
  let* a := sys (RdSetting fd s) in
  if ret a =? -1 then pabort what else io_ret (ret a, znth (data a) 0).

Definition main (fuel : nat) (argv0 : string) : prog Z :=
  parse_opts fuel argv0 ;;
  let* s := get in
  let* f := sys (Open (device s)) in
  let fd := ret f in
  (if fd <? 0 then pabort "can't open device" else io_ret tt) ;;
  write_setting fd Mode32 (mode s) "can't set spi mode" ;;
  let* (_, m) := read_setting fd Mode32 "can't get spi mode" in
  modify (fun s => St (device s) (u32 m) (bits s) (speed s) (delay s)) ;;
  write_setting fd BitsPerWord (bits s) "can't set bits per word" ;;
  let* (_, b) := read_setting fd BitsPerWord "can't get bits per word" in
  modify (fun s => St (device s) (mode s) (u8 b) (speed s) (delay s)) ;;
  write_setting fd MaxSpeedHz (speed s) "can't set max speed hz" ;;
  let* (r, v) := read_setting fd MaxSpeedHz "can't get max speed hz" in
  modify (fun s => St (device s) (mode s) (bits s) (u32 v) (delay s)) ;;
  let* s := get in
  printf (Mode (mode s)) ;;
  printf (Bits (bits s)) ;;
  printf (Speed (i32 (speed s)) (i32 (speed s / 1000))) ;;
  transfer fd ;;
  sys (Close fd) ;;
  io_ret r.

(** ** The transfer follows the options *)

Fixpoint gets (h : list (event call)) : nat :=
  match h with [] => 0 | (c, _) :: h => match c with Getopt => S (gets h) | _ => gets h end end.

(** The value written last. *)
Fixpoint written (s : setting) (h : list (event call)) : Z :=
  match h with
  | [] => 0
  | (c, _) :: h =>
      match c, s with
      | WrSetting _ Mode32 v, Mode32 | WrSetting _ BitsPerWord v, BitsPerWord | WrSetting _ MaxSpeedHz v, MaxSpeedHz => v
      | _, _ => written s h
      end
  end.

(** A device that takes every setting and answers in full, and letters on the command line. *)
Record cooperative (K : kernel call) (letters : list Z) : Prop := {
  coop_getopt : forall h, ret (K h Getopt) = default (-1) (letters !! gets h);
  coop_open : forall h d, 0 <= ret (K h (Open d));
  coop_write : forall h fd s v, ret (K h (WrSetting fd s v)) = 0;
  coop_read : forall h fd s, ret (K h (RdSetting fd s)) = 0 /\ znth (data (K h (RdSetting fd s))) 0 = written s h;
  coop_message : forall h fd t, 1 <= ret (K h (Message1 fd t)) /\ zlen (data (K h (Message1 fd t))) = zlen tx
}.

Definition messages : list (event call) -> list xfer := trace (fun c => match c with Message1 _ t => Some t | _ => None end).

Definition mode_bits (letters : list Z) : Z := foldl (fun m c => Z.lor m (default 0 (mode_of c))) 0 letters.

(** Bytes in rows of six. *)
Fixpoint rows_from (i : Z) (l : list Z) : list text :=
  match l with
  | [] => [NewLine]
  | b :: l => (if Z.rem i 6 =? 0 then [NewLine] else []) ++ Byte b :: rows_from (i + 1) l
  end.
Definition rows (l : list Z) : list text := rows_from 0 l.

(** In loopback both directions are as wide; otherwise a wide transfer goes one way, and
    what is shown are zeros. *)
Definition xfer_ok (m : Z) : bool :=
  let t := make_xfer (St [] (loop_widths m) 8 500000 0) in
  bool_decide (tx_buf t = Some tx) && (len t =? 38) &&
  (tx_nbits t =? if has m SPI_TX_QUAD then 4 else if has m SPI_TX_DUAL then 2 else 0) &&
  if has m SPI_LOOP then has_rx t && (rx_nbits t =? tx_nbits t)
  else Bool.eqb (has_rx t) (tx_nbits t =? 0) && (rx_nbits t =? 0).

Lemma mode_bits_fits letters : fits 10 (mode_bits letters).
Proof.
  unfold mode_bits. assert (fits 10 0) as H0 by (by unfold fits). revert H0. generalize 0 at 1 3.
  induction letters as [|c l IH]; intros m Hm; [done|]. cbn [foldl]. apply IH. apply fits_lor; [done|done|].
  unfold mode_of. repeat case_match; by unfold fits.
Qed.

Lemma xfer_ok_all m : fits 10 m -> xfer_ok m = true.
Proof.
  intros Hm. apply (seqZ_forallb xfer_ok 0 1024); [|unfold fits in Hm; lia]. vm_compute. reflexivity.
Qed.

Lemma messages_silent c a h : match c with Message1 _ _ => false | _ => true end = true -> messages ((c, a) :: h) = messages h.
Proof. intros Hc. unfold messages. rewrite trace_cons. destruct c; by rewrite ?app_nil_r. Qed.

Definition with_mode (m : Z) : st := St (device start) m 8 500000 0.

Lemma mode_options_wp K letters argv0 fuel : cooperative K letters -> Forall (fun c => is_Some (mode_of c)) letters ->
  forall m h, (length letters < gets h + fuel)%nat -> (gets h <= length letters)%nat -> output h = [] -> messages h = [] ->
  wp (options fuel argv0) K (with_mode m) h (fun r s' h' => r = Ret tt /\ output h' = [] /\ messages h' = [] /\
    s' = with_mode (foldl (fun m c => Z.lor m (default 0 (mode_of c))) m (drop (gets h) letters))).
Proof.
  intros HK Hl. induction fuel as [|fuel IH]; intros m h Hf Hg Ho Hm; [lia|]. cbn [options]. wp_step. apply wp_sys_eq. intros a Ea. wp_step.
  pose proof (coop_getopt K letters HK h) as Hc. rewrite Ea in Hc. destruct (letters !! gets h) as [c|] eqn:Es; cbn in Hc; rewrite Hc.
  - destruct (Forall_lookup_1 _ _ _ _ Hl Es) as [b Hb]. rewrite (drop_S letters c (gets h)) by done. cbn [foldl]. rewrite Hb. change (default 0 (Some b)) with b. change (id c) with c.
    pose proof (lookup_lt_Some _ _ _ Es). assert (c <> -1 /\ c <> 68 /\ c <> 115 /\ c <> 100 /\ c <> 98) as Hne
      by (unfold mode_of in Hb; repeat case_match; zbool; simplify_eq; lia).
    replace (c =? -1) with false by lia. unfold option_step. replace (c =? 68) with false by lia. replace (c =? 115) with false by lia.
    replace (c =? 100) with false by lia. replace (c =? 98) with false by lia. rewrite Hb. unfold set_mode. do 3 wp_step.
    apply (IH (Z.lor m b) ((Getopt, a) :: h)); cbn [gets]; [lia|lia|by rewrite output_silent|by rewrite messages_silent].
  - change (-1 =? -1) with true. cbn iota. wp_step. rewrite drop_ge by (by apply lookup_ge_None_1).
    split; [done|]. by rewrite output_silent, messages_silent.
Qed.

Lemma print_rx_wp K n rx : forall i s h, 0 <= i -> i + Z.of_nat n = zlen rx ->
  wp (print_rx n rx i) K s h (fun r s' h' => r = Ret tt /\ s' = s /\ messages h' = messages h /\
    output h' ++ [NewLine] = output h ++ rows_from i (zdrop i rx)).
Proof.
  induction n as [|n IH]; intros i s h Hi Hn; cbn [print_rx].
  { wp_step. split_and!; [done..|]. unfold zdrop, zlen in *. by rewrite drop_ge by lia. }
  destruct (lookup_lt_is_Some_2 rx (Z.to_nat i)) as [b Hb]; [unfold zlen in Hn; lia|]. unfold printf.
  assert (zdrop i rx = b :: zdrop (i + 1) rx) as Hd.
  { unfold zdrop. rewrite (drop_S rx b (Z.to_nat i)) by done. by replace (Z.to_nat (i + 1)) with (S (Z.to_nat i)) by lia. }
  rewrite Hd. cbn [rows_from]. rewrite load_in by lia. replace (znth rx i) with b by (symmetry; by apply nth_lookup_Some).
  wp_step. eapply (wp_wand _ _ _ _ (fun r s' h' => r = Ret tt /\ s' = s /\ messages h' = messages h /\
    output h' = output h ++ if Z.rem i 6 =? 0 then [NewLine] else [])).
  { destruct (Z.rem i 6 =? 0); wp_go; (split_and!; [done|done|by rewrite ?messages_silent|]); [by rewrite output_cons|by rewrite app_nil_r]. }
  intros r s' h1 (-> & -> & Hm & Ho). do 2 wp_step. apply wp_lift. wp_step. wp_step. wp_step. apply wp_sys_any. intros a. do 3 wp_step.
  eapply wp_wand; [apply (IH (i + 1)); lia|]. intros r s' h2 (-> & -> & Hm2 & Ho2). split; [done|]. split; [done|].
  split; [by rewrite Hm2, messages_silent|]. by rewrite Ho2, output_cons, Ho, <- !app_assoc.
Qed.

Lemma xfer_facts m : xfer_ok m = true ->
  let t := make_xfer (with_mode (loop_widths m)) in
  tx_buf t = Some tx /\ tx_nbits t = (if has m SPI_TX_QUAD then 4 else if has m SPI_TX_DUAL then 2 else 0) /\
  if has m SPI_LOOP then has_rx t = true /\ rx_nbits t = tx_nbits t else has_rx t = (tx_nbits t =? 0) /\ rx_nbits t = 0.
Proof.
  unfold xfer_ok. change (make_xfer (St [] (loop_widths m) 8 500000 0)) with (make_xfer (with_mode (loop_widths m))).
  cbv zeta. intros [[[H1 _]%andb_prop H3]%andb_prop H4]%andb_prop. apply bool_decide_eq_true in H1. apply Z.eqb_eq in H3.
  split; [done|]. split; [done|]. destruct (has m SPI_LOOP); apply andb_prop in H4 as [H4 H5]; apply Z.eqb_eq in H5; [done|].
  by apply eqb_prop in H4.
Qed.

Lemma write_setting_wp {A} K letters fd x v what (k : unit -> prog A) s h Q : cooperative K letters ->
  (forall a, wp (k tt) K s ((WrSetting fd x v, a) :: h) Q) -> wp (io_bind (write_setting fd x v what) k) K s h Q.
Proof.
  intros HK Hk. unfold write_setting. do 2 wp_step. apply wp_sys_eq. intros a Ea. pose proof (coop_write K letters HK h fd x v) as Hr.
  rewrite Ea in Hr. wp_step. rewrite Hr. change (0 =? -1) with false. cbn iota. do 2 wp_step. apply Hk.
Qed.

Lemma read_setting_wp {A} K letters fd x what (k : Z * Z -> prog A) s h Q : cooperative K letters ->
  (forall a, wp (k (0, written x h)) K s ((RdSetting fd x, a) :: h) Q) -> wp (io_bind (read_setting fd x what) k) K s h Q.
Proof.
  intros HK Hk. unfold read_setting. do 2 wp_step. apply wp_sys_eq. intros a Ea. destruct (coop_read K letters HK h fd x) as [Hr Hv].
  rewrite Ea in Hr, Hv. wp_step. rewrite Hr. change (0 =? -1) with false. cbn iota. do 2 wp_step. rewrite Hv. apply Hk.
Qed.

Lemma transfer_wp {A} K letters fd (k : unit -> prog A) s h Q : cooperative K letters ->
  (forall rx h', zlen rx = zlen tx -> messages h' = messages h ++ [make_xfer s] ->
     output h' = output h ++ rows (if has_rx (make_xfer s) then rx else replicate (length tx) 0) -> wp (k tt) K s h' Q) ->
  wp (io_bind (transfer fd) k) K s h Q.
Proof.
  intros HK Hk. unfold transfer. do 4 wp_step. cbv zeta. wp_step. apply wp_sys_eq. intros a Ea. wp_step.
  destruct (coop_message K letters HK h fd (make_xfer s)) as [Hr Hd]. rewrite Ea in Hr, Hd. replace (ret a <? 1) with false by lia.
  rewrite (overlay_same (replicate (length tx) 0) (data a)) by (rewrite Hd; done).
  set (rx := if has_rx (make_xfer s) then _ else _). assert (zlen rx = zlen tx) as Hrx by (unfold rx; by destruct (has_rx _)).
  wp_step. eapply wp_wand; [apply (print_rx_wp K (length tx) rx 0); [done|by rewrite Hrx]|]. intros r s' h1 (-> & -> & Hm & Ho).
  unfold printf. do 3 wp_step. apply wp_sys_any. intros b. do 3 wp_step. apply (Hk (data a)).
  - by rewrite Hd.
  - rewrite messages_silent, Hm by done. unfold messages at 1. by rewrite trace_cons.
  - rewrite output_cons. cbn [shown shows]. rewrite Ho. by rewrite output_silent.
Qed.

(** With any mode letters on its command line and a device that takes its settings, the program sets that mode, makes exactly one
    transfer of its 38 bytes, as wide as the letters ask, and prints the 38 bytes received in rows of six.
    In loopback the transfer is as wide in both directions; otherwise a wide one receives nothing, and
    38 zeros are shown. *)
Theorem transfer_matches_options K letters argv0 fuel :
  cooperative K letters -> Forall (fun c => is_Some (mode_of c)) letters -> (length letters < fuel)%nat ->
  wp (main fuel argv0) K start [] (fun r _ h =>
    let m := mode_bits letters in
    let t := make_xfer (with_mode (loop_widths m)) in
    r = Ret 0 /\ messages h = [t] /\
    (tx_buf t = Some tx /\ tx_nbits t = (if has m SPI_TX_QUAD then 4 else if has m SPI_TX_DUAL then 2 else 0) /\
     if has m SPI_LOOP then has_rx t = true /\ rx_nbits t = tx_nbits t else has_rx t = (tx_nbits t =? 0) /\ rx_nbits t = 0) /\
    exists rx, zlen rx = 38 /\
      output h = [Mode (loop_widths m); Bits 8; Speed 500000 500] ++ rows (if has_rx t then rx else replicate 38 0)).
Proof.
  intros HK Hl Hf. cbv zeta. pose proof (mode_bits_fits letters) as Hfit. pose proof (xfer_ok_all _ Hfit) as Hok.
  unfold main, parse_opts, printf. do 2 wp_step. change start with (with_mode 0).
  eapply wp_wand; [apply (mode_options_wp K letters argv0 fuel HK Hl 0 []); [done|cbn; lia|done|done]|].
  intros r s h (-> & Ho & Hm & ->). do 6 wp_step. change (drop (gets []) letters) with letters. fold (mode_bits letters).
  set (m := mode_bits letters) in *. cbn [with_mode device mode bits speed delay].
  assert (fits 12 (loop_widths m)) as Hw.
  { assert (fits 12 m) as H12 by (unfold fits in *; lia). unfold loop_widths. repeat case_match; auto using fits_lor. all: by repeat apply fits_lor. }
  wp_step. apply wp_sys_eq. intros f Ef. pose proof (coop_open K letters HK) as Hop. wp_step.
  assert (0 <= ret f) as Hfd by (rewrite <- Ef; apply Hop). replace (ret f <? 0) with false by lia. do 3 wp_step.
  apply (write_setting_wp K letters); [done|]. intros a1. apply (read_setting_wp K letters); [done|]. intros a2. cbn [written]. do 3 wp_step.
  apply (write_setting_wp K letters); [done|]. intros a3. apply (read_setting_wp K letters); [done|]. intros a4. cbn [written]. do 3 wp_step.
  apply (write_setting_wp K letters); [done|]. intros a5. apply (read_setting_wp K letters); [done|]. intros a6. cbn [written]. do 5 wp_step.
  cbn [device mode bits speed delay]. change (u8 8) with 8. change (u32 500000) with 500000.
  assert (u32 (loop_widths m) = loop_widths m) as -> by (apply wrap_small; unfold fits in *; lia).
  fold (with_mode (loop_widths m)). set (s := with_mode (loop_widths m)) in *. wp_step.
  wp_step. wp_step. wp_step. apply wp_sys_any. intros p1. do 3 wp_step. wp_step. wp_step. apply wp_sys_any. intros p2. do 3 wp_step.
  wp_step. wp_step. apply wp_sys_any. intros p3. do 3 wp_step.
  apply (transfer_wp K letters); [done|]. intros rx h' Hrx Hm' Ho'. wp_go. split; [done|].
  split; [rewrite messages_silent, Hm', !messages_silent, Hm by done; done|]. split; [by apply xfer_facts|]. exists rx. split; [done|].
  rewrite output_silent, Ho', 3!output_cons, !output_silent, Ho by done. done.
Qed.

(** Loopback on two wires; the device answers with the bytes it gets. *)
Definition loop_device : kernel call := fun h c =>
  match c with
  | Getopt => aret (default (-1) ([108; 50] !! gets h))
  | Open _ => aret 3
  | RdSetting _ s => Ans 0 0 [written s h]
  | Message1 _ _ => Ans 38 0 tx
  | _ => aret 0
  end.

Lemma transfer_matches_options_witness :
  let h := (main 5 "spidev_test" loop_device start []).2 in
  messages h = [Xfer (Some tx) true 38 0 500000 8 2 2] /\ length (output h) = 49%nat.
Proof.
  assert (cooperative loop_device [108; 50]) as HK by (split; intros; cbn; try split; try lia; done).
  assert (Forall (fun c => is_Some (mode_of c)) [108; 50]) as Hl by (repeat constructor; by eexists).
  cbv zeta. split; [|by vm_compute].
  refine (proj1 (proj2 (wp_elim _ _ _ _ _ _ _ _ (transfer_matches_options loop_device [108; 50] "spidev_test" 5 HK Hl _) _))).
  - cbn. lia.
  - vm_compute. reflexivity.
Defined.

End SpiTest.
