(* ===== verification/Tsc.v ===== *)
(** * Tests of the time stamp counter switch: Documentation/prctl/

    disable-tsc-test.c, disable-tsc-on-off-stress-test.c and
    disable-tsc-ctxt-sw-stress-test.c switch the instruction rdtsc off and on with prctl and watch
    whether it faults.  An rdtsc that faults runs the handler that was installed and is tried
    again, or kills the process when there is none.  Once the alarm is set it may kill the process
    before each of its calls.  The theorems say that the stress tests are exact: a child complains
    when the kernel did not do what was last set, and is killed by the alarm otherwise. *)

From S2P Require Import Prelude Posix CArray Output.

Module Tsc.

Open Scope Z_scope.
Open Scope io_scope.

(** ** Data *)

Definition PR_TSC_ENABLE := 1.
Definition PR_TSC_SIGSEGV := 2.
Definition SIGSEGV := 11.
Definition SIGALRM := 14.

Inductive text : Type :=
| Banner
| FailedEnabled
| SucceededDisabled
| PrctlError
| SigSegv
| CallGet
| Value (name : string)
| CallSet (v : Z)
| Counter
| CounterIs (v : Z).

(** [Rdtsc] answers 1 when it faults, otherwise 0 and the two halves of the counter; [Expired]
    whether the time of the alarm is over. *)
Inductive call : Type :=
| Rdtsc
| SetTsc (v : Z)
| GetTsc
| Signal
| Alarm (seconds : Z)
| Expired
| Fork
| Wait
| Print (t : text).

#[export] Instance shows : Shows call text := fun c => match c with Print t => Some t | _ => None end.

(** The variable [should_segv] and the signals of a process: the handler of SIGSEGV, one of those
    of the program, and whether there is an alarm. *)
Record st (H : Type) : Type := St { should_segv : bool; on_segv : option H; armed : bool }.
Arguments St {H} should_segv on_segv armed.
Arguments should_segv {H} s.
Arguments on_segv {H} s.
Arguments armed {H} s.

Definition start {H} : st H := St false None false.

Abbreviation prog H := (io call (st H)).

Section Calls.
Context {H : Type}.

(** The end of a process by a signal. *)
Definition killed {A} (sig : Z) : prog H A := exit_ (128 + sig).

(** The alarm has no handler. *)
Definition tick : prog H unit :=
  let* s := get in
  if armed s then
    let* a := sys Expired in
    if truthy (ret a) then killed SIGALRM else io_ret tt
  else io_ret tt.

Definition call_ (c : call) : prog H ans := tick ;; sys c.

Definition print (t : text) : prog H unit := call_ (Print t) ;; io_ret tt.

Definition signal (h : H) : prog H unit :=
  call_ Signal ;; modify (fun s => St (should_segv s) (Some h) (armed s)).

Definition alarm (seconds : Z) : prog H unit :=
  call_ (Alarm seconds) ;; modify (fun s => St (should_segv s) (on_segv s) (truthy seconds)).

Definition set_should_segv (b : bool) : prog H unit := modify (fun s => St b (on_segv s) (armed s)).

(** [prctl(PR_SET_TSC, v)], leaving the program when it fails. *)
Definition set_tsc (v : Z) : prog H unit :=
  let* a := call_ (SetTsc v) in
  if ret a <? 0 then print PrctlError ;; exit_ 0 else io_ret tt.

Context (run : H -> prog H unit).

Fixpoint rdtsc (fuel : nat) : prog H Z :=
  match fuel with
  | O => nofuel
  | S fuel =>
      let* a := call_ Rdtsc in
      if ret a =? 1 then
        let* s := get in
        match on_segv s with
        | Some h => run h ;; rdtsc fuel
        | None => killed SIGSEGV
        end
      else io_ret (Z.lor (Z.shiftl (u32 (znth (data a) 1)) 32) (u32 (znth (data a) 0)))
  end.
End Calls.

(** ** Switching on and off *)

Module OnOff.

Inductive handler : Type := Sigsegv_cb.

(** The handler.  Its own rdtsc has the signal blocked: another fault kills the process. *)
Definition sigsegv_cb : prog handler unit :=
  let* s := get in
  (if negb (should_segv s) then print FailedEnabled ;; exit_ 0 else io_ret tt) ;;
  set_tsc PR_TSC_ENABLE ;;
  set_should_segv false ;;
  let* a := call_ Rdtsc in
  if ret a =? 1 then killed SIGSEGV else io_ret tt.

Definition run (h : handler) : prog handler unit := match h with Sigsegv_cb => sigsegv_cb end.

Definition turn (fuel : nat) : prog handler unit :=
  rdtsc run fuel ;;
  let* s := get in
  (if should_segv s then print SucceededDisabled ;; exit_ 0 else io_ret tt) ;;
  set_tsc PR_TSC_SIGSEGV ;;
  set_should_segv true.

Fixpoint turns (fuel : nat) : prog handler unit :=
  match fuel with
  | O => nofuel
  | S fuel => turn fuel ;; turns fuel
  end.

Definition task (fuel : nat) : prog handler unit :=
  signal Sigsegv_cb ;;
  alarm 10 ;;
  turns fuel.

End OnOff.

(** ** Context switches *)

Module Switch.

Inductive handler : Type := Sigsegv_expect | Sigsegv_fail.

Definition sigsegv_expect : prog handler unit := io_ret tt.

Definition sigsegv_fail : prog handler unit := print FailedEnabled ;; exit_ 0.

Definition run (h : handler) : prog handler unit :=
  match h with Sigsegv_expect => sigsegv_expect | Sigsegv_fail => sigsegv_fail end.

Definition segvtask (fuel : nat) : prog handler unit :=
  set_tsc PR_TSC_SIGSEGV ;;
  signal Sigsegv_expect ;;
  alarm 10 ;;
  rdtsc run fuel ;;
  print SucceededDisabled ;;
  exit_ 0.

Fixpoint rdtsc_loop (fuel : nat) : prog handler unit :=
  match fuel with
  | O => nofuel
  | S fuel => rdtsc run fuel ;; rdtsc_loop fuel
  end.

Definition rdtsctask (fuel : nat) : prog handler unit :=
  set_tsc PR_TSC_ENABLE ;;
  signal Sigsegv_fail ;;
  alarm 10 ;;
  rdtsc_loop fuel.

Definition task (fuel : nat) (i : Z) : prog handler unit :=
  if has i 1 then segvtask fuel else rdtsctask fuel.

End Switch.

(** ** Both programs *)

Section Main.
Context {H : Type} (task : Z -> prog H unit).

(** [n] more children from number [i] on. *)
Fixpoint forks (n : nat) (i : Z) : prog H unit :=
  match n with
  | O => io_ret tt
  | S n =>
      let* f := call_ Fork in
      (if ret f =? 0 then task i else io_ret tt) ;;
      forks n (i + 1)
  end.

Fixpoint waits (n : nat) : prog H unit :=
  match n with O => io_ret tt | S n => call_ Wait ;; waits n end.

Definition stress_main : prog H unit :=
  print Banner ;;
  forks 100 0 ;;
  waits 100 ;;
  exit_ 0.
End Main.

Definition on_off_main (fuel : nat) : prog OnOff.handler unit := stress_main (fun _ => OnOff.task fuel).
Definition switch_main (fuel : nat) : prog Switch.handler unit := stress_main (Switch.task fuel).

(** ** The basic test *)

Definition tsc_names (i : Z) : outcome string :=
  if i =? 0 then Ret "[not set]"%string
  else if i =? PR_TSC_ENABLE then Ret "PR_TSC_ENABLE"%string
  else if i =? PR_TSC_SIGSEGV then Ret "PR_TSC_SIGSEGV"%string
  else Crash.

Inductive handler : Type := Sigsegv_cb.

(** [prctl] as the basic test calls it. *)
Definition get_tsc : prog handler Z :=
  let* a := call_ GetTsc in
  if ret a =? -1 then print PrctlError ;; io_ret 0 else io_ret (znth (data a) 0).

Definition set_tsc_warn (v : Z) : prog handler unit :=
  let* a := call_ (SetTsc v) in
  if ret a =? -1 then print PrctlError else io_ret tt.

Definition sigsegv_cb : prog handler unit :=
  print SigSegv ;;
  print CallGet ;;
  let* tsc_val := get_tsc in
  let* n := lift (tsc_names tsc_val) in
  print (Value n) ;;
  print (CallSet PR_TSC_ENABLE) ;;
  set_tsc_warn PR_TSC_ENABLE ;;
  print Counter.

Definition run (h : handler) : prog handler unit := match h with Sigsegv_cb => sigsegv_cb end.

Definition main (fuel : nat) : prog handler unit :=
  signal Sigsegv_cb ;;
  let* t := rdtsc run fuel in
  print (CounterIs t) ;;
  print CallGet ;;
  let* tsc_val := get_tsc in
  let* n := lift (tsc_names tsc_val) in
  print (Value n) ;;
  let* t := rdtsc run fuel in
  print (CounterIs t) ;;
  print (CallSet PR_TSC_ENABLE) ;;
  set_tsc_warn PR_TSC_ENABLE ;;
  let* t := rdtsc run fuel in
  print (CounterIs t) ;;
  print (CallSet PR_TSC_SIGSEGV) ;;
  set_tsc_warn PR_TSC_SIGSEGV ;;
  print Counter ;;
  let* t := rdtsc run fuel in
  print (CounterIs t) ;;
  exit_ 0.

(** ** The stress tests are exact *)

(** What was set last; the instruction works at first. *)
Fixpoint disabled (h : list (event call)) : bool :=
  match h with
  | [] => false
  | (c, a) :: h => match c with SetTsc v => if ret a <? 0 then disabled h else v =? PR_TSC_SIGSEGV | _ => disabled h end
  end.

(** The kernel did what it was asked for: every rdtsc what was set, and every prctl. *)
Fixpoint good (h : list (event call)) : bool :=
  match h with
  | [] => true
  | (c, a) :: h =>
      good h && match c with Rdtsc => Bool.eqb (ret a =? 1) (disabled h) | SetTsc _ => 0 <=? ret a | _ => true end
  end.

(** The complaint about an event. *)
Definition blame (e : event call) : text :=
  match e.1 with
  | SetTsc _ => PrctlError
  | _ => if ret e.2 =? 1 then FailedEnabled else SucceededDisabled
  end.

(** Whether it is the history of a child. *)
Fixpoint child (h : list (event call)) : bool :=
  match h with
  | [] => false
  | (c, a) :: h => match c with Fork => (ret a =? 0) || child h | _ => child h end
  end.

Fixpoint polls (h : list (event call)) : nat :=
  match h with [] => O | (c, _) :: h => match c with Expired => S (polls h) | _ => polls h end end.

(** Ten seconds are over after a number of calls. *)
Definition alarm_rings (K : kernel call) (N : nat) : Prop :=
  forall h, (N <= polls h)%nat -> truthy (ret (K h Expired)) = true.

(** The end of a child.  While the kernel does as it is told, it says nothing and the alarm kills it.  Otherwise the first thing the kernel got
    wrong, [e], is its last but for the complaint about it; the complaint is missing when the alarm comes in between, and when
    it is an rdtsc of the handler, whose fault kills the process. *)
Definition child_end (status : Z) (h : list (event call)) : Prop :=
  child h = true /\
  (good h = true /\ output h = [Banner] /\ status = 128 + SIGALRM \/
   exists e h0, good h0 = true /\ good (e :: h0) = false /\ output h0 = [Banner] /\
     ((exists a p, h = (Print (blame e), a) :: p ++ e :: h0 /\ (p = [] \/ exists b, p = [(Expired, b)]) /\ status = 0) \/
      (exists b, h = (Expired, b) :: e :: h0 /\ status = 128 + SIGALRM) \/
      (h = e :: h0 /\ (exists a, e = (Rdtsc, a)) /\ status = 128 + SIGSEGV))).

(** The parent waits for its children and leaves quietly. *)
Definition process (r : outcome unit) (h : list (event call)) : Prop :=
  if child h then exists status, r = Exit status /\ child_end status h else r = Exit 0 /\ output h = [Banner].

Section Exact.
Context {H : Type} (K : kernel call) (N : nat) (HK : alarm_rings K N).

(** A child that goes on. *)
Definition live (h : list (event call)) : Prop :=
  good h = true /\ output h = [Banner] /\ (polls h <= N)%nat /\ child h = true.

(** A child that goes on behind what the kernel got wrong. *)
Definition wrong (e : event call) (h0 : list (event call)) : Prop :=
  good h0 = true /\ good (e :: h0) = false /\ output h0 = [Banner] /\ child (e :: h0) = true.

Lemma call_unarmed {A} c (k : ans -> prog H A) s h Q : armed s = false ->
  (forall a, wp (k a) K s ((c, a) :: h) Q) -> wp (io_bind (call_ c) k) K s h Q.
Proof. intros Hs Hk. unfold call_, tick. do 5 wp_step. rewrite Hs. do 2 wp_step. apply wp_sys_any. intros a. wp_step. apply Hk. Qed.

Lemma call_live {A} c (k : ans -> prog H A) s h Q : armed s = true -> live h ->
  (forall c h', child_end c h' -> Q (Exit c) s h') ->
  (forall a b, live ((Expired, b) :: h) -> wp (k a) K s ((c, a) :: (Expired, b) :: h) Q) -> wp (io_bind (call_ c) k) K s h Q.
Proof using HK.
  intros Hs (Hg & Ho & Hp & Hc) HQ Hk. unfold call_, tick. do 5 wp_step. rewrite Hs. wp_step. apply wp_sys_eq. intros b Hb. wp_step.
  destruct (truthy (ret b)) eqn:Eb.
  - unfold killed. wp_go. apply HQ. split; [done|]. left. split; [cbn [good]; by rewrite Hg|]. by rewrite output_silent.
  - do 2 wp_step. apply wp_sys_any. intros a. wp_step. apply Hk. split; [cbn [good]; by rewrite Hg|]. split; [by rewrite output_silent|]. split; [|done].
    cbn [polls]. destruct (Nat.le_gt_cases N (polls h)) as [Hn|Hn]; [|lia]. specialize (HK h Hn). rewrite Hb in HK. congruence.
Qed.

(** The complaint of a child about what the kernel got wrong. *)
Lemma complain {A} t e h0 s (Q : outcome A -> st H -> list (event call) -> Prop) : wrong e h0 -> t = blame e ->
  (forall c h', child_end c h' -> Q (Exit c) s h') -> wp (print t ;; exit_ 0) K s (e :: h0) Q.
Proof.
  intros (Hg & Hb & Ho & Hc) -> HQ. unfold print, call_, tick. do 6 wp_step. destruct (armed s).
  - wp_step. apply wp_sys_any. intros b. wp_step. destruct (truthy (ret b)); unfold killed; wp_go; apply HQ; (split; [done|]); right; exists e, h0;
      (split; [done|]); (split; [done|]); (split; [done|]); [right; left; by exists b|].
    left. eexists _, [(Expired, b)]. split; [done|]. split; [right; by exists b|done].
  - wp_go. apply HQ. split; [done|]. right. exists e, h0. split; [done|]. split; [done|]. split; [done|]. left. eexists _, []. split; [done|]. split; [by left|done].
Qed.

Lemma live_wrong c a h : live h -> child ((c, a) :: h) = true -> good ((c, a) :: h) = false -> wrong (c, a) h.
Proof. intros (Hg & Ho & _ & _) Hc Hb. by split_and!. Qed.

Lemma live_cons c a h : live h -> (forall t, c <> Print t) -> c <> Expired -> good ((c, a) :: h) = true -> child ((c, a) :: h) = true -> live ((c, a) :: h).
Proof.
  intros (Hg & Ho & Hp & Hc) Ht He Hb Hc'. split; [done|]. split; [|split; [|done]].
  - rewrite output_silent; [done|]. destruct c; try done. by destruct (Ht t).
  - by destruct c.
Qed.

(** prctl goes through, or the child complains. *)
Lemma set_tsc_live {A} v (k : unit -> prog H A) s h Q : live h ->
  (forall c h', child_end c h' -> Q (Exit c) s h') ->
  (forall h', live h' -> disabled h' = (v =? PR_TSC_SIGSEGV) -> (polls h <= polls h')%nat -> wp (k tt) K s h' Q) ->
  wp (io_bind (set_tsc v) k) K s h Q.
Proof using HK.
  intros Hl HQ Hk. unfold set_tsc.
  assert (forall a h1, live h1 -> (polls h <= polls h1)%nat ->
    wp (if ret a <? 0 then print PrctlError ;; exit_ 0 else io_ret tt) K s ((SetTsc v, a) :: h1) (wp_k K k Q)) as Hrest.
  { intros a h1 Hl1 Hp1. pose proof Hl1 as (Hg & Ho & _ & Hc). destruct (Z.ltb_spec (ret a) 0) as [Ha|Ha].
    - apply complain; [|done|].
      + apply live_wrong; [done|done|]. cbn [good]. rewrite Hg. cbn. lia.
      + intros c h' Hr. wp_step. by apply HQ.
    - do 2 wp_step. apply Hk.
      + apply live_cons; try done. cbn [good]. rewrite Hg. cbn. lia.
      + cbn [disabled]. by replace (ret a <? 0) with false by lia.
      + done. }
  wp_step. destruct (armed s) eqn:Es.
  - apply call_live; [done|done| |].
    + intros c h' Hr. wp_step. by apply HQ.
    + intros a b Hl1. apply Hrest; [done|]. cbn [polls]. lia.
  - apply call_unarmed; [done|]. intros a. by apply Hrest.
Qed.

End Exact.

(** The whole run of a child. *)
Definition ends {H} (r : outcome unit) (_ : st H) (h : list (event call)) : Prop := exists c, r = Exit c /\ child_end c h.

Section OnOffExact.
Context (K : kernel call) (N : nat) (HK : alarm_rings K N).

(** The variable says what was set. *)
Definition tracking (h : list (event call)) : st OnOff.handler := St (disabled h) (Some OnOff.Sigsegv_cb) true.

(** The instruction comes back enabled, or it worked although it was disabled. *)
Lemma on_off_rdtsc fuel : forall h (Q : outcome Z -> st OnOff.handler -> list (event call) -> Prop),
  live N h -> (N < fuel + polls h)%nat ->
  (forall c s h', child_end c h' -> Q (Exit c) s h') ->
  (forall v h', live N h' -> disabled h' = false -> (polls h < polls h')%nat -> Q (Ret v) (tracking h') h') ->
  (forall v e h0, wrong e h0 -> blame e = SucceededDisabled -> disabled (e :: h0) = true -> Q (Ret v) (tracking (e :: h0)) (e :: h0)) ->
  wp (rdtsc OnOff.run fuel) K (tracking h) h Q.
Proof using HK.
  induction fuel as [|fuel IH]; intros h Q Hl Hf HE HR HW; [destruct Hl as (_ & _ & Hp & _); lia|]. cbn [rdtsc].
  apply (call_live K N HK); [done|done|by intros; apply HE|]. intros a b Hl1. pose proof Hl1 as (Hg1 & _ & _ & Hc1).
  destruct (ret a =? 1) eqn:Ea.
  - do 3 wp_step. cbn [tracking on_segv OnOff.run]. unfold OnOff.sigsegv_cb at 1. wp_step. do 4 wp_step. cbn [tracking should_segv].
    destruct (disabled h) eqn:Hd; cbn [negb].
    + do 2 wp_step. apply (set_tsc_live K N HK).
      { apply live_cons; try done. cbn [good disabled]. cbn [good] in Hg1. by rewrite Hg1, Ea, Hd. }
      { intros c h' Hr. wp_step. by apply HE. }
      intros h2 Hl2 Hd2 Hp2. cbn [polls] in Hp2. unfold set_should_segv. do 3 wp_step. cbn [on_segv armed tracking].
      apply (call_live K N HK); [done|done|by intros; wp_step; apply HE|]. intros c b' Hl3. pose proof Hl3 as (Hg3 & Ho3 & _ & Hc3).
      destruct (ret c =? 1) eqn:Ec.
      * unfold killed. do 2 wp_step. apply HE. split; [done|]. right. exists (Rdtsc, c), ((Expired, b') :: h2).
        split; [done|]. split; [cbn [good disabled] in Hg3 |- *; by rewrite Hg3, Ec, Hd2|]. split; [done|]. right. right. split; [done|]. split; [by exists c|done].
      * do 2 wp_step. replace (St false (Some OnOff.Sigsegv_cb) true) with (tracking ((Rdtsc, c) :: (Expired, b') :: h2))
          by (unfold tracking; cbn [disabled]; by rewrite Hd2).
        apply IH; [|cbn [polls]; lia|done| |done].
        { apply live_cons; try done. cbn [good disabled] in Hg3 |- *. by rewrite Hg3, Ec, Hd2. }
        intros v h' Hl' Hd' Hp'. apply HR; [done|done|]. cbn [polls] in Hp'. lia.
    + apply complain; [|cbn; by rewrite Ea|by intros; wp_step; wp_step; apply HE].
      apply live_wrong with N; [done|done|]. cbn [good disabled] in Hg1 |- *. by rewrite Hg1, Ea, Hd.
  - wp_step. replace (tracking h) with (tracking ((Rdtsc, a) :: (Expired, b) :: h)) by done. destruct (disabled h) eqn:Hd.
    + apply HW; [|cbn; by rewrite Ea|done]. apply live_wrong with N; [done|done|]. cbn [good disabled] in Hg1 |- *. by rewrite Hg1, Ea, Hd.
    + apply HR; [|done|cbn [polls]; lia]. apply live_cons; try done. cbn [good disabled] in Hg1 |- *. by rewrite Hg1, Ea, Hd.
Qed.

Lemma on_off_turns fuel : forall h, live N h -> (S N < fuel + polls h)%nat -> wp (OnOff.turns fuel) K (tracking h) h ends.
Proof using HK.
  induction fuel as [|fuel IH]; intros h Hl Hf; [destruct Hl as (_ & _ & Hp & _); lia|]. cbn [OnOff.turns]. unfold OnOff.turn.
  do 2 wp_step. apply on_off_rdtsc; [done|lia| | |].
  - intros c s h' Hr. do 2 wp_step. by exists c.
  - intros v h' Hl' Hd' Hp'. do 5 wp_step. cbn [tracking should_segv]. rewrite Hd'. do 2 wp_step. apply (set_tsc_live K N HK); [done| |].
    { intros c h2 Hr. wp_step. by exists c. }
    intros h2 Hl2 Hd2 Hp2. unfold set_should_segv. do 2 wp_step. cbn [on_segv armed tracking].
    replace (St true (Some OnOff.Sigsegv_cb) true) with (tracking h2) by (unfold tracking; by rewrite Hd2). apply IH; [done|lia].
  - intros v e h0 Hw Hb Hd. do 5 wp_step. unfold tracking. cbn [should_segv]. rewrite Hd. apply complain; [done|done|]. intros c h' Hr. do 2 wp_step. by exists c.
Qed.

Lemma on_off_task fuel h : live N h -> disabled h = false -> (S N < fuel)%nat -> wp (OnOff.task fuel) K start h ends.
Proof using HK.
  intros Hl Hd Hf. unfold OnOff.task, signal, alarm. wp_step. apply call_unarmed; [done|]. intros a. do 3 wp_step. apply call_unarmed; [done|]. intros b. do 2 wp_step.
  pose proof Hl as (Hg & _ & _ & Hc). cbn [start should_segv on_segv]. change (truthy 10) with true.
  replace (St false (Some OnOff.Sigsegv_cb) true) with (tracking ((Alarm 10, b) :: (Signal, a) :: h)) by (unfold tracking; cbn [disabled]; by rewrite Hd).
  apply on_off_turns; [|lia]. apply live_cons; try done; [|cbn [good]; by rewrite Hg]. apply live_cons; try done. cbn [good]. by rewrite Hg.
Qed.
End OnOffExact.

Section SwitchExact.
Context (K : kernel call) (N : nat) (HK : alarm_rings K N).

(** While it is disabled the instruction faults until the alarm comes, or works although it should not. *)
Lemma expect_rdtsc fuel : forall b h (Q : outcome Z -> st Switch.handler -> list (event call) -> Prop),
  let s := St b (Some Switch.Sigsegv_expect) true in
  live N h -> disabled h = true -> (N < fuel + polls h)%nat -> (forall c h', child_end c h' -> Q (Exit c) s h') ->
  (forall v e h0, wrong e h0 -> blame e = SucceededDisabled -> Q (Ret v) s (e :: h0)) -> wp (rdtsc Switch.run fuel) K s h Q.
Proof using HK.
  induction fuel as [|fuel IH]; intros b h Q s Hl Hd Hf HE HW; [destruct Hl as (_ & _ & Hp & _); lia|]. cbn [rdtsc].
  apply (call_live K N HK); [done|done|by intros; apply HE|]. intros a x Hl1. pose proof Hl1 as (Hg1 & _ & _ & Hc1).
  destruct (ret a =? 1) eqn:Ea.
  - do 3 wp_step. unfold s at 1. cbn [on_segv Switch.run]. unfold Switch.sigsegv_expect. do 3 wp_step.
    apply IH; [|done|cbn [polls]; lia|done|done]. apply live_cons; try done. cbn [good disabled] in Hg1 |- *. by rewrite Hg1, Ea, Hd.
  - wp_step. apply HW; [|cbn; by rewrite Ea]. apply live_wrong with N; [done|done|]. cbn [good disabled] in Hg1 |- *. by rewrite Hg1, Ea, Hd.
Qed.

(** While it is enabled it works, or the test complains. *)
Lemma fail_loop fuel : forall b h, let s := St b (Some Switch.Sigsegv_fail) true in
  live N h -> disabled h = false -> (S N < fuel + polls h)%nat -> wp (Switch.rdtsc_loop fuel) K s h ends.
Proof using HK.
  induction fuel as [|fuel IH]; intros b h s Hl Hd Hf; [destruct Hl as (_ & _ & Hp & _); lia|]. cbn [Switch.rdtsc_loop]. wp_step.
  destruct fuel as [|fuel]; [destruct Hl as (_ & _ & Hp & _); lia|]. cbn [rdtsc].
  apply (call_live K N HK); [done|done|by intros c h' Hr; wp_step; exists c|]. intros a x Hl1. pose proof Hl1 as (Hg1 & _ & _ & Hc1).
  destruct (ret a =? 1) eqn:Ea.
  - do 3 wp_step. unfold s at 1. cbn [on_segv Switch.run]. unfold Switch.sigsegv_fail. wp_step.
    apply complain; [|cbn; by rewrite Ea|intros c h' Hr; do 2 wp_step; by exists c].
    apply live_wrong with N; [done|done|]. cbn [good disabled] in Hg1 |- *. by rewrite Hg1, Ea, Hd.
  - do 2 wp_step. apply IH; [|done|cbn [polls]; lia]. apply live_cons; try done. cbn [good disabled] in Hg1 |- *. by rewrite Hg1, Ea, Hd.
Qed.

Lemma switch_task fuel i h : live N h -> (S N < fuel)%nat -> wp (Switch.task fuel i) K start h ends.
Proof using HK.
  intros Hl Hf. assert (forall c1 c2 a b h1, live N h1 -> c1 = Signal -> c2 = Alarm 10 -> live N ((c2, a) :: (c1, b) :: h1)) as Hlive.
  { intros ? ? a b h1 Hl1 -> ->. pose proof Hl1 as (Hg & _ & _ & Hc).
    apply live_cons; try done; [|cbn [good]; by rewrite Hg]. apply live_cons; try done. cbn [good]. by rewrite Hg. }
  unfold Switch.task. destruct (has i 1).
  - unfold Switch.segvtask, signal, alarm. apply (set_tsc_live K N HK); [done|by intros c h' Hr; exists c|]. intros h1 Hl1 Hd1 Hp1.
    wp_step. apply call_unarmed; [done|]. intros a. do 3 wp_step. apply call_unarmed; [done|]. intros b. do 3 wp_step. cbn [start should_segv on_segv]. change (truthy 10) with true.
    apply (expect_rdtsc fuel); [by apply Hlive|done|cbn [polls]; lia|by intros c h' Hr; wp_step; exists c|].
    intros v e h0 Hw Hb. wp_step. apply complain; [done|done|]. intros c h' Hr. by exists c.
  - unfold Switch.rdtsctask, signal, alarm. apply (set_tsc_live K N HK); [done|by intros c h' Hr; exists c|]. intros h1 Hl1 Hd1 Hp1.
    wp_step. apply call_unarmed; [done|]. intros a. do 3 wp_step. apply call_unarmed; [done|]. intros b. do 2 wp_step. cbn [start should_segv on_segv]. change (truthy 10) with true.
    apply fail_loop; [by apply Hlive|done|cbn [polls]; lia].
Qed.
End SwitchExact.

(** The parent between its calls. *)
Definition parent (h : list (event call)) : Prop :=
  good h = true /\ disabled h = false /\ output h = [Banner] /\ polls h = 0%nat /\ child h = false.

Lemma forks_wp {H} K N (task : Z -> prog H unit) n :
  (forall i h, live N h -> disabled h = false -> wp (task i) K start h ends) -> forall i h, parent h ->
  wp (forks task n i) K start h (fun r s' h' => r = Ret tt /\ s' = start /\ parent h' \/ ends r s' h').
Proof.
  intros Ht. induction n as [|n IH]; intros i h Hp; cbn [forks]; [wp_step; by left|].
  apply call_unarmed; [done|]. intros a. pose proof Hp as (Hg & Hd & Ho & Hpo & Hc). wp_step. destruct (ret a =? 0) eqn:Ea.
  - eapply wp_wand; [apply Ht; [|done]|].
    + split; [cbn [good]; by rewrite Hg|]. split; [by rewrite output_silent|]. split; [cbn [polls]; lia|]. cbn [child]. by rewrite Ea.
    + intros r s' h' (c & -> & Hr). wp_step. right. by exists c.
  - do 2 wp_step. apply IH. split; [cbn [good]; by rewrite Hg|]. split; [done|]. split; [by rewrite output_silent|]. split; [done|]. cbn [child]. by rewrite Ea.
Qed.

Lemma waits_wp {H} K n : forall h, parent h -> wp (waits n) K (@start H) h (fun r s' h' => r = Ret tt /\ parent h').
Proof.
  induction n as [|n IH]; intros h Hp; cbn [waits]; [by wp_step|]. apply call_unarmed; [done|]. intros a. apply IH.
  destruct Hp as (Hg & Hd & Ho & Hpo & Hc). split; [cbn [good]; by rewrite Hg|]. split; [done|]. by rewrite output_silent.
Qed.

Lemma stress_main_wp {H} K N (task : Z -> prog H unit) :
  (forall i h, live N h -> disabled h = false -> wp (task i) K start h ends) ->
  wp (stress_main task) K start [] (fun r _ h => process r h).
Proof.
  intros Ht. unfold stress_main, print. wp_step. apply call_unarmed; [done|]. intros a. do 3 wp_step.
  eapply wp_wand; [by apply (forks_wp K N task)|]. intros r s h [(-> & -> & Hp)|(c & -> & Hr)]; wp_step.
  - wp_step. eapply wp_wand; [by apply waits_wp|]. intros r s' h' (-> & _ & _ & Ho & _ & Hc). do 2 wp_step. unfold process. by rewrite Hc.
  - unfold process. pose proof Hr as [-> _]. by exists c.
Qed.


(** ** The transcript of the basic test *)

(** A kernel that keeps to what it is told. *)
Record obeys (K : kernel call) : Prop := {
  obeys_rdtsc : forall h, (ret (K h Rdtsc) =? 1) = disabled h;
  obeys_set : forall h v, ret (K h (SetTsc v)) = 0;
  obeys_get : forall h, ret (K h GetTsc) = 0 /\ znth (data (K h GetTsc)) 0 = if disabled h then PR_TSC_SIGSEGV else PR_TSC_ENABLE
}.

Section Basic.
Context (K : kernel call) (HK : obeys K).

(** There is no alarm. *)
Let s : st handler := St false (Some Sigsegv_cb) false.

Lemma call_answer {A} c (k : ans -> prog handler A) h Q :
  (forall a, K h c = a -> wp (k a) K s ((c, a) :: h) Q) -> wp (io_bind (call_ c) k) K s h Q.
Proof.
  intros Hk. unfold call_, tick. do 5 wp_step. change (armed s) with false. cbv iota.
  do 2 wp_step. apply wp_sys_eq. intros a Ha. wp_step. by apply Hk.
Qed.

Lemma get_tsc_wp {A} (k : Z -> prog handler A) h Q :
  (forall a, wp (k (if disabled h then PR_TSC_SIGSEGV else PR_TSC_ENABLE)) K s ((GetTsc, a) :: h) Q) -> wp (io_bind get_tsc k) K s h Q.
Proof using HK.
  intros Hk. unfold get_tsc. wp_step. apply call_answer. intros a Ea. destruct (obeys_get K HK h) as [Hr Hv]. rewrite Ea in Hr, Hv.
  rewrite Hr. change (0 =? -1) with false. cbn iota. do 2 wp_step. rewrite Hv. apply Hk.
Qed.

Lemma set_tsc_warn_wp {A} v (k : unit -> prog handler A) h Q :
  (forall a, ret a = 0 -> wp (k tt) K s ((SetTsc v, a) :: h) Q) -> wp (io_bind (set_tsc_warn v) k) K s h Q.
Proof using HK.
  intros Hk. unfold set_tsc_warn. wp_step. apply call_answer. intros a Ea. pose proof (obeys_set K HK h v) as Hr. rewrite Ea in Hr.
  rewrite Hr. change (0 =? -1) with false. cbn iota. do 2 wp_step. by apply Hk.
Qed.

Lemma print_text_wp {A} t (k : unit -> prog handler A) h Q :
  (forall a, wp (k tt) K s ((Print t, a) :: h) Q) -> wp (io_bind (print t) k) K s h Q.
Proof. intros Hk. unfold print. wp_step. apply call_answer. intros a _. do 2 wp_step. apply Hk. Qed.

Lemma rdtsc_works fuel h Q : disabled h = false -> (0 < fuel)%nat ->
  (forall v a, Q (Ret v) s ((Rdtsc, a) :: h)) -> wp (rdtsc run fuel) K s h Q.
Proof using HK.
  intros Hd Hf Hk. destruct fuel as [|fuel]; [lia|]. cbn [rdtsc]. apply call_answer. intros a Ea.
  pose proof (obeys_rdtsc K HK h) as Hr. rewrite Ea, Hd in Hr. rewrite Hr. wp_step. apply Hk.
Qed.

(** The disabled instruction: the handler enables it and it is tried again. *)
Lemma rdtsc_handled fuel h Q : disabled h = true -> (1 < fuel)%nat ->
  (forall v h', output h' = output h ++ [SigSegv; CallGet; Value "PR_TSC_SIGSEGV"; CallSet PR_TSC_ENABLE; Counter] -> Q (Ret v) s h') ->
  wp (rdtsc run fuel) K s h Q.
Proof using HK.
  intros Hd Hf Hk. destruct fuel as [|fuel]; [lia|]. cbn [rdtsc]. apply call_answer. intros a Ea.
  pose proof (obeys_rdtsc K HK h) as Hr. rewrite Ea, Hd in Hr. rewrite Hr. do 3 wp_step. cbn [s on_segv run]. unfold sigsegv_cb at 1. wp_step.
  apply print_text_wp. intros p1. apply print_text_wp. intros p2. apply get_tsc_wp. intros g. cbn [disabled]. rewrite Hd. wp_step. apply wp_lift. wp_step.
  apply print_text_wp. intros p3. apply print_text_wp. intros p4. apply set_tsc_warn_wp. intros b Hb. unfold print. apply call_answer. intros p5 _.
  do 2 wp_step. apply rdtsc_works; [cbn [disabled]; by rewrite Hb|lia|]. intros v c. apply Hk.
  rewrite output_silent, output_cons, output_silent, 2!output_cons, output_silent, 2!output_cons, output_silent by done. by rewrite <- !app_assoc.
Qed.

(** On a kernel that keeps to what it is told the basic test prints its whole transcript, with the one signal at the end, and succeeds. *)
Theorem basic_transcript fuel : (1 < fuel)%nat ->
  wp (main fuel) K start [] (fun r _ h => r = Exit 0 /\ exists a b c d,
    output h = [CounterIs a; CallGet; Value "PR_TSC_ENABLE"; CounterIs b; CallSet PR_TSC_ENABLE; CounterIs c;
                CallSet PR_TSC_SIGSEGV; Counter;
                SigSegv; CallGet; Value "PR_TSC_SIGSEGV"; CallSet PR_TSC_ENABLE; Counter; CounterIs d]).
Proof using HK.
  intros Hf. unfold main, signal. wp_step. apply call_unarmed; [done|]. intros a0. do 3 wp_step.
  change (St (should_segv (@start handler)) (Some Sigsegv_cb) (armed (@start handler))) with s.
  apply rdtsc_works; [done|lia|]. intros a a1. wp_step. apply print_text_wp. intros p1. apply print_text_wp. intros p2. apply get_tsc_wp. intros g.
  cbn [disabled]. wp_step. apply wp_lift. wp_step. apply print_text_wp. intros p3. wp_step. apply rdtsc_works; [done|lia|]. intros b b1. wp_step.
  apply print_text_wp. intros p4. apply print_text_wp. intros p5. apply set_tsc_warn_wp. intros s1 E1. wp_step.
  apply rdtsc_works; [cbn [disabled]; by rewrite E1|lia|]. intros c c1. wp_step.
  apply print_text_wp. intros p6. apply print_text_wp. intros p7. apply set_tsc_warn_wp. intros s2 E2. apply print_text_wp. intros p8. wp_step.
  apply rdtsc_handled; [cbn [disabled]; by rewrite E2|lia|]. intros d h' Ho. wp_step. apply print_text_wp. intros p9. wp_step. split; [done|]. exists a, b, c, d.
  rewrite output_cons, Ho, output_cons, output_silent, 2!output_cons, !output_silent, 2!output_cons, !output_silent, output_cons by done.
  rewrite output_silent, 2!output_cons, !output_silent by done. done.
Qed.

End Basic.

(** A kernel that does what it is told, seen by the first child; the alarm comes after twenty calls. *)
Definition good_kernel : kernel call := fun h c =>
  match c with Rdtsc => aret (if disabled h then 1 else 0) | Expired => aret (if (20 <=? polls h)%nat then 1 else 0) | _ => aret 0 end.
(** One on which the switch has no effect. *)
Definition bad_kernel : kernel call := fun h c => match c with Rdtsc => aret 0 | _ => good_kernel h c end.


(** The same with an answer to PR_GET_TSC. *)
Definition plain_kernel : kernel call := fun h c =>
  match c with
  | Rdtsc => Ans (if disabled h then 1 else 0) 0 [5; 1]
  | GetTsc => Ans 0 0 [if disabled h then PR_TSC_SIGSEGV else PR_TSC_ENABLE]
  | _ => aret 0
  end.

Lemma basic_transcript_witness :
  (main 3 plain_kernel start []).1.1 = Exit 0 /\ length (output (main 3 plain_kernel start []).2) = 14%nat.
Proof.
  assert (obeys plain_kernel) as HK by (split; intros; cbn; [by destruct (disabled h)|done|done]).
  split; [|vm_compute; reflexivity].
  exact (proj1 (wp_result _ _ _ _ _ (basic_transcript plain_kernel HK 3 ltac:(lia)))).
Defined.

End Tsc.
