(* ===== verification/Samples.v ===== *)
(** * Small samples: watchdog/src, blackfin/gptimers-example.c and
    filesystems/dnotify_test.c

    Programs and a driver of one loop or one handler each; what there is to show is in
    which order they call the kernel and what they leave behind. *)

From Stdlib Require Import Ascii.
From S2P Require Import Prelude Posix CArray Output Resources.

Open Scope Z_scope.

(** ** Watchdogs *)

Module Watchdog.

Open Scope io_scope.

Inductive text : Type := NotEnabled | Disabled | Enabled | Help1 | Help2 | Ticking | Stopping.

(** [Deliver] asks whether SIGINT arrived. *)
Inductive call : Type :=
| Open
| Perror
| Write (fd : Z) (buf : list Z)
| Sleep (seconds : Z)
| Close (fd : Z)
| SetOptions (fd flags : Z)
| KeepAlive (fd : Z)
| Signal
| Deliver
| Eprintf (t : text).

#[export] Instance shows : Shows call text := fun c => match c with Eprintf t => Some t | _ => None end.

Abbreviation prog := (io call unit).

(** watchdog-simple.c *)
Fixpoint write_loop (fuel : nat) (fd : Z) : prog Z :=
  match fuel with
  | O => nofuel
  | S fuel =>
      let* r := sys (Write fd [0]) in
      if negb (ret r =? 1) then io_ret (-1)
      else sys (Sleep 10) ;; write_loop fuel fd
  end.

Definition simple_main (fuel : nat) : prog Z :=
  let* f := sys Open in
  let fd := ret f in
  (if fd =? -1 then sys Perror ;; exit_ 1 else io_ret tt) ;;
  let* r := write_loop fuel fd in
  sys (Close fd) ;;
  io_ret r.

(** watchdog-test.c *)
Definition WDIOS_DISABLECARD := 1.
Definition WDIOS_ENABLECARD := 2.

Definition eprintf (t : text) : prog unit := sys (Eprintf t) ;; io_ret tt.
Definition keep_alive (fd : Z) : prog unit := sys (KeepAlive fd) ;; io_ret tt.

Definition term (fd : Z) : prog unit :=
  sys (Close fd) ;;
  eprintf Stopping ;;
  exit_ 0.

(** A place where the signal may arrive. *)
Definition deliver (fd : Z) : prog unit :=
  let* a := sys Deliver in
  if ret a =? 1 then term fd else io_ret tt.

Fixpoint tick_loop (fuel : nat) (fd : Z) : prog Z :=
  match fuel with
  | O => nofuel
  | S fuel =>
      keep_alive fd ;;
      deliver fd ;;
      sys (Sleep 1) ;;
      deliver fd ;;
      tick_loop fuel fd
  end.

(** [strncasecmp(arg, "-x", 2) == 0] *)
Definition is_flag (c : Ascii.ascii) (arg : string) : bool :=
  match arg with
  | String a (String b _) => Ascii.eqb a "-"%char && Ascii.eqb (lower b) c
  | _ => false
  end.

Definition set_card (fd flags : Z) (t : text) : prog Z :=
  sys (SetOptions fd flags) ;;
  eprintf t ;;
  sys (Close fd) ;;
  io_ret 0.

Definition test_main (fuel : nat) (argv : list string) : prog Z :=
  let* f := sys Open in
  let fd := ret f in
  (if fd =? -1 then eprintf NotEnabled ;; exit_ (-1) else io_ret tt) ;;
  match argv with
  | _ :: arg :: _ =>
      if is_flag "d"%char arg then set_card fd WDIOS_DISABLECARD Disabled
      else if is_flag "e"%char arg then set_card fd WDIOS_ENABLECARD Enabled
      else eprintf Help1 ;; eprintf Help2 ;; sys (Close fd) ;; io_ret 0
  | _ =>
      eprintf Ticking ;;
      sys Signal ;;
      tick_loop fuel fd
  end.

(** *** They stop with the device closed *)

#[export] Instance resources : Resources call Z := {
  acquires c a := match c with Open => if ret a =? -1 then None else Some (ret a) | _ => None end;
  releases c a := match c with Close fd => Some fd | _ => None end
}.

(** The calls of a history, oldest first. *)
Definition calls (h : list (event call)) : list call := reverse (fst <$> h).

(** [n] rounds of a loop. *)
Definition rounds (n : nat) (body : list call) : list call := concat (replicate n body).

Lemma rounds_S n body : rounds (S n) body = body ++ rounds n body.
Proof. done. Qed.

Lemma calls_cons c a h : calls ((c, a) :: h) = calls h ++ [c].
Proof. unfold calls. cbn [fmap list_fmap fst]. apply reverse_cons. Qed.

Lemma write_loop_wp K fd fuel : forall h,
  wp (write_loop fuel fd) K tt h (fun r _ h' => exists n, held h' = held h /\
    (r = NoFuel /\ n = fuel /\ calls h' = calls h ++ rounds n [Write fd [0]; Sleep 10] \/
     r = Ret (-1) /\ calls h' = calls h ++ rounds n [Write fd [0]; Sleep 10] ++ [Write fd [0]])).
Proof.
  induction fuel as [|fuel IH]; intros h; cbn [write_loop].
  { wp_step. exists O. split; [done|]. left. by rewrite app_nil_r. }
  wp_step. apply wp_sys_any. intros a. do 2 wp_step.
  - wp_step. exists O. split; [rewrite held_cons; by destruct (held h)|]. right. by rewrite calls_cons.
  - wp_step. apply wp_sys_any. intros b. wp_step. eapply wp_wand; [apply IH|]. intros r s h' (n & Hh & Hr). exists (S n).
    split; [rewrite Hh, !held_cons; by destruct (held h)|]. rewrite rounds_S, !calls_cons in *. rewrite <- !app_assoc in Hr. cbn [app] in *.
    destruct Hr as [(-> & -> & ->)|(-> & ->)]; [left|right]; by rewrite <- ?app_assoc.
Qed.

(** The simple daemon feeds the watchdog every ten seconds until a write fails, and only then closes the device and
    fails; it has no other way to stop once the device is open. *)
Theorem simple_feeds K fuel :
  let fd := ret (K [] Open) in
  wp (simple_main fuel) K tt [] (fun r _ h =>
    if fd =? -1 then r = Exit 1 /\ held h = Some []
    else exists n, let fed := Open :: rounds n [Write fd [0]; Sleep 10] in
      r = NoFuel /\ n = fuel /\ calls h = fed \/
      r = Ret (-1) /\ calls h = fed ++ [Write fd [0]; Close fd] /\ held h = Some []).
Proof.
  assert (@held call Z _ _ [] = Some []) as H0 by done. cbv zeta. unfold simple_main. wp_step. apply wp_sys_eq. intros f Ef. rewrite Ef. do 2 wp_step. destruct (ret f =? -1) eqn:E.
  { wp_go. split; [done|]. held_solve. }
  do 3 wp_step. eapply wp_wand; [apply write_loop_wp|]. intros r s h' (n & Hh & Hr).
  assert (held h' = Some [ret f]) as Hh' by (rewrite Hh; held_solve).
  destruct Hr as [(-> & -> & Hc)|(-> & Hc)]; wp_go.
  - exists fuel. by left.
  - exists n. right. split; [done|]. rewrite calls_cons, Hc. split; [by rewrite <- !app_assoc|]. held_solve.
Qed.

Lemma tick_loop_wp K fd fuel : forall h, held h = Some [fd] ->
  wp (tick_loop fuel fd) K tt h (fun r _ h' => r = NoFuel \/ r = Exit 0 /\ held h' = Some [] /\ output h' = output h ++ [Stopping]).
Proof.
  induction fuel as [|fuel IH]; intros h Hh; cbn [tick_loop]; [wp_step; by left|]. unfold keep_alive, deliver, term, eprintf.
  wp_go.
  1, 2: right; split; [done|]; split; [held_solve|]; by rewrite output_cons, !output_silent.
  eapply wp_wand; [apply IH; held_solve|]. intros r s h' [-> |(-> & Hh' & Ho)]; [by left|right]. by rewrite Ho, !output_silent.
Qed.

(** However the test program stops, the device is closed, and only a signal stops its ticking. *)
Theorem test_closes K fuel argv :
  wp (test_main fuel argv) K tt [] (fun r _ h =>
    r = NoFuel \/ held h = Some [] /\ match output h with
      | [NotEnabled] => r = Exit (-1)
      | [Ticking; Stopping] => r = Exit 0
      | [Disabled] | [Enabled] | [Help1; Help2] => r = Ret 0
      | _ => False
      end).
Proof.
  assert (@held call Z _ _ [] = Some []) as H0 by done. unfold test_main, set_card, eprintf. wp_step. apply wp_sys_any. intros f. do 3 wp_step.
  { wp_go. right. split; [held_solve|]. by rewrite output_cons, output_silent. }
  wp_step. wp_step.
  destruct argv as [|x [|arg argv]].
  1, 2: do 2 wp_step; wp_step; apply wp_sys_any; intros a; do 3 wp_step; wp_step; apply wp_sys_any; intros b; wp_step;
    (eapply wp_wand; [apply tick_loop_wp; held_solve|]); intros r s h' [-> |(-> & Hh & Ho)]; [by left|right];
    (split; [done|]); by rewrite Ho, output_silent, output_cons, output_silent.
  wp_go; right; (split; [held_solve|]).
  - by rewrite output_silent, output_cons, !output_silent.
  - by rewrite output_silent, output_cons, !output_silent.
  - by rewrite output_silent, 2!output_cons, !output_silent.
Qed.

End Watchdog.

(** ** A timer driver *)

Module Gptimers.

Open Scope io_scope.

Inductive call : Type :=
| PeripheralRequest
| PeripheralFree
| RequestIrq
| FreeIrq
| SetConfig
| Enable
| Disable
| GetIntr
| GetPwidth
| GetPeriod
| ClearIntr
| Printk (s : string).

(** The captured values. *)
Record gptimer_data : Type := Data { period : Z; width : Z }.

Abbreviation prog := (io call gptimer_data).

(** true is IRQ_HANDLED. *)
Definition gptimer_example_irq : prog bool :=
  let* i := sys GetIntr in
  if ret i =? 0 then io_ret false
  else
    let* w := sys GetPwidth in
    modify (fun d => Data (period d) (u32 (ret w))) ;;
    let* p := sys GetPeriod in
    modify (fun d => Data (u32 (ret p)) (width d)) ;;
    sys ClearIntr ;;
    io_ret true.

Definition gptimer_example_init : prog Z :=
  let* p := sys PeripheralRequest in
  if truthy (ret p) then sys (Printk "peripheral request failed") ;; io_ret (ret p)
  else
    let* i := sys RequestIrq in
    if truthy (ret i) then sys (Printk "IRQ request failed") ;; sys PeripheralFree ;; io_ret (ret i)
    else
      sys SetConfig ;;
      sys Enable ;;
      io_ret 0.

Definition gptimer_example_exit : prog unit :=
  sys Disable ;;
  sys FreeIrq ;;
  sys PeripheralFree ;;
  io_ret tt.

(** The module's life: loaded, interrupted [n] times, unloaded. *)
Fixpoint interrupts (n : nat) : prog (list bool) :=
  match n with
  | O => io_ret []
  | S n => let* b := gptimer_example_irq in let* bs := interrupts n in io_ret (b :: bs)
  end.

Definition lifetime (n : nat) : prog Z :=
  let* r := gptimer_example_init in
  if r =? 0 then interrupts n ;; gptimer_example_exit ;; io_ret 0 else io_ret r.

(** *** What the module takes it gives back *)

Inductive grip : Type := Pins | Irq | Timer.

#[export] Instance grip_eq : EqDecision grip.
Proof. solve_decision. Defined.

#[export] Instance resources : Resources call grip := {
  acquires c a := match c with
    | PeripheralRequest => if ret a =? 0 then Some Pins else None
    | RequestIrq => if ret a =? 0 then Some Irq else None
    | Enable => Some Timer
    | _ => None
    end;
  releases c a := match c with
    | PeripheralFree => Some Pins
    | FreeIrq => Some Irq
    | Disable => Some Timer
    | _ => None
    end
}.

(** The interrupts raised and the ones acknowledged. *)
Fixpoint raised (h : list (event call)) : nat :=
  match h with
  | [] => 0
  | (GetIntr, a) :: h => (if ret a =? 0 then 0 else 1) + raised h
  | _ :: h => raised h
  end.

Fixpoint acknowledged (h : list (event call)) : nat :=
  match h with
  | [] => 0
  | (ClearIntr, _) :: h => S (acknowledged h)
  | _ :: h => acknowledged h
  end.

Lemma irq_wp K d h l : held h = Some l -> raised h = acknowledged h ->
  wp gptimer_example_irq K d h (fun r d' h' => held h' = Some l /\ raised h' = acknowledged h' /\
    if ret (K h GetIntr) =? 0 then r = Ret false /\ d' = d
    else r = Ret true /\ exists h1 h2, d' = Data (u32 (ret (K h1 GetPeriod))) (u32 (ret (K h2 GetPwidth)))).
Proof.
  intros Hh Ha. unfold gptimer_example_irq. wp_step. apply wp_sys_eq. intros i Ei. rewrite Ei. wp_step. destruct (ret i =? 0) eqn:E.
  - wp_step. split; [held_solve|]. split; [|done]. cbn. by rewrite E.
  - wp_step. apply wp_sys_eq. intros w Ew. do 5 wp_step. apply wp_sys_eq. intros p Ep. wp_go.
    split; [held_solve|]. split; [|split; [done|]; cbn; do 2 eexists; by rewrite Ew, Ep].
    cbn. rewrite E. cbn. by f_equal.
Qed.

Lemma interrupts_wp K n : forall d h l, held h = Some l -> raised h = acknowledged h ->
  wp (interrupts n) K d h (fun r _ h' => held h' = Some l /\ raised h' = acknowledged h' /\ exists bs, r = Ret bs /\ length bs = n).
Proof.
  induction n as [|n IH]; intros d h l Hh Ha; cbn [interrupts]; wp_step.
  - split; [done|]. split; [done|]. by exists [].
  - eapply wp_wand; [by apply irq_wp|]. intros r s h1 (Hh1 & Ha1 & Hr).
    assert (exists b, r = Ret b) as [b ->] by (destruct (ret _ =? 0); destruct Hr; eauto). do 2 wp_step.
    eapply wp_wand; [by apply IH|]. intros r s' h2 (Hh2 & Ha2 & bs & -> & Hn). wp_go. split; [done|]. split; [done|].
    exists (b :: bs). cbn. auto with lia.
Qed.

(** Whatever fails while the module is loaded and however many interrupts come in while it is, nothing is left
    behind when it is gone, every interrupt its timer raised was acknowledged exactly once, and only the error of a
    failed request is returned. *)
Theorem lifetime_balanced K n :
  wp (lifetime n) K (Data 0 0) [] (fun r _ h => held h = Some [] /\ raised h = acknowledged h /\
    (r = Ret 0 \/ r = Ret (ret (K [] PeripheralRequest)) \/ exists a, r = Ret (ret (K [(PeripheralRequest, a)] RequestIrq)))).
Proof.
  assert (@held call grip _ _ [] = Some []) as H0 by done. unfold lifetime, gptimer_example_init, truthy. do 2 wp_step.
  apply wp_sys_eq. intros p Ep. rewrite Ep. wp_step. destruct (ret p =? 0) eqn:E; cbn [negb].
  2: { wp_go; [lia|]. split; [held_solve|]. split; [done|]. auto. }
  wp_step. apply wp_sys_eq. intros i Ei. wp_step. destruct (ret i =? 0) eqn:E1; cbn [negb].
  2: { wp_go; [lia|]. split; [held_solve|]. split; [done|]. right. right. exists p. by rewrite <- Ei. }
  wp_go; [|done]. eapply wp_wand; [apply (interrupts_wp K n _ _ [Timer; Irq; Pins]); [held_solve|done]|].
  intros r s h (Hh & Ha & bs & -> & Hn). unfold gptimer_example_exit. wp_go. split; [held_solve|]. split; auto.
Qed.

End Gptimers.

(** ** Directory notification *)

Module Dnotify.

Open Scope io_scope.

(** [Pause] returns when a signal was handled, and [Between] stands for the time from there to the next [pause]; the data
    of both answers are the descriptors in the signals that arrive meanwhile. *)
Inductive call : Type :=
| Sigaction
| Open
| SetSig (fd : Z)
| Notify (fd : Z)
| Pause
| Between
| Printf (fd : Z).

#[export] Instance shows : Shows call Z := fun c => match c with Printf fd => Some fd | _ => None end.

(** The state is the variable [event_fd]. *)
Abbreviation prog := (io call Z).

Definition handler (si_fd : Z) : prog unit := put si_fd.

Fixpoint handle (fds : list Z) : prog unit :=
  match fds with
  | [] => io_ret tt
  | fd :: fds => handler fd ;; handle fds
  end.

Definition signals (c : call) : prog unit :=
  let* a := sys c in
  handle (data a).

Fixpoint watch (fuel : nat) : prog unit :=
  match fuel with
  | O => nofuel
  | S fuel =>
      signals Pause ;;
      let* event_fd := get in
      sys (Printf event_fd) ;;
      signals Between ;;
      watch fuel
  end.

Definition main (fuel : nat) : prog unit :=
  sys Sigaction ;;
  let* f := sys Open in
  sys (SetSig (ret f)) ;;
  sys (Notify (ret f)) ;;
  signals Between ;;
  watch fuel.

(** *** The lines are the signals that ended a pause *)

(** The last descriptor of every pause of a history, oldest first. *)
Fixpoint woken (h : list (event call)) : list Z :=
  match h with
  | [] => []
  | (Pause, a) :: h => woken h ++ [List.last (data a) 0]
  | _ :: h => woken h
  end.

Lemma handle_wp K fds : forall e h,
  wp (handle fds) K e h (fun r e' h' => r = Ret tt /\ e' = List.last (e :: fds) 0 /\ h' = h).
Proof.
  induction fds as [|fd fds IH]; intros e h; cbn [handle].
  - by wp_step.
  - unfold handler. do 2 wp_step. wp_step. eapply wp_wand; [apply IH|]. intros r e' h' (-> & -> & ->).
    split; [done|]. split; [|done]. by destruct fds.
Qed.

Lemma last_cons (e x : Z) l : l <> [] -> List.last (e :: l) x = List.last l x.
Proof. by destruct l. Qed.

Lemma watch_wp K fuel : (forall h, data (K h Pause) <> []) -> forall e h, output h = woken h ->
  wp (watch fuel) K e h (fun r _ h' => r = NoFuel /\ output h' = woken h' /\ length (output h') = (length (output h) + fuel)%nat).
Proof.
  intros HK. induction fuel as [|fuel IH]; intros e h Ho; cbn [watch].
  { wp_step. rewrite Ho. auto with lia. }
  unfold signals. do 2 wp_step. apply wp_sys_eq. intros a Ea. wp_step. eapply wp_wand; [apply handle_wp|].
  intros r e1 h1 (-> & -> & ->). rewrite last_cons by (rewrite <- Ea; apply HK). do 5 wp_step. apply wp_sys_any. intros b.
  do 3 wp_step. apply wp_sys_any. intros c. wp_step. eapply wp_wand; [apply handle_wp|].
  intros r e2 h2 (-> & -> & ->). wp_step. eapply wp_wand; [apply IH|].
  - rewrite output_silent, output_cons, output_silent by done. cbn. by rewrite Ho.
  - intros r s h' (-> & Ho' & Hn). split; [done|]. split; [done|]. rewrite Hn, output_silent, output_cons, output_silent by done.
    cbn. rewrite length_app. cbn. lia.
Qed.

(** Every return from a pause prints one line, with the descriptor of the last signal that ended it; signals that
    arrive between two pauses print nothing. *)
Theorem events_printed K fuel : (forall h, data (K h Pause) <> []) ->
  wp (main fuel) K 0 [] (fun r _ h => r = NoFuel /\ output h = woken h /\ length (output h) = fuel).
Proof.
  intros HK. unfold main, signals. wp_step. apply wp_sys_any. intros a. do 2 wp_step. apply wp_sys_any. intros f. do 2 wp_step.
  apply wp_sys_any. intros b. do 2 wp_step. apply wp_sys_any. intros c. do 3 wp_step. apply wp_sys_any. intros d. wp_step.
  eapply wp_wand; [apply handle_wp|]. intros r e h (-> & -> & ->). wp_step. eapply wp_wand; [by apply watch_wp|].
  intros r s h' (-> & Ho & Hn). done.
Qed.

(** A directory in which three files change, one of them while a line is printed: the second line is that of the third
    change. *)
Definition three_changes : kernel call := fun h c =>
  match c with
  | Open => aret 3
  | Pause => Ans (-1) 4 [3]
  | Between => if (length h =? 7)%nat then Ans 0 0 [3] else aret 0
  | _ => aret 0
  end.

Lemma events_printed_witness : output (main 2 three_changes 0 []).2 = [3; 3] /\
  length (output (main 2 three_changes 0 []).2) = 2%nat.
Proof.
  split; [by vm_compute|]. apply (wp_result _ _ _ _ _ (events_printed three_changes 2 (fun h => ltac:(done)))).
Defined.

End Dnotify.
