(* ===== verification/Xc3028.v ===== *)
(** * Tuner firmware: video4linux/extract_xc3028.pl

    The script cuts the firmwares of a tuner out of two Windows drivers, checked by
    their MD5 sums, and writes them with their types and sizes to files the tuner
    driver loads.  The theorems say that what it writes is read back by the
    format of those files, with every declared size and count right, and that no
    output is opened before its source was checked. *)

From S2P Require Import Prelude Posix CArray Output.

Module Xc3028.

Open Scope Z_scope.
Open Scope io_scope.

(** ** Calls *)

(** [Die] answers the exit status. *)
Inductive call : Type :=
| Which
| Md5sum (filename : string)
| Exists (filename : string)
| OpenIn (filename : string)
| CloseIn
| OpenOut (filename : string)
| Sysseek (offset : Z)
| Sysread (n : Z)
| Syswrite (b : list Z)
| Die (msg : string)
| Printf (s : string).

#[export] Instance shows : Shows call (list Z) := fun c => match c with Syswrite b => Some b | _ => None end.

Abbreviation prog := (io call unit).

Definition die {A} (msg : string) : prog A :=
  let* a := sys (Die msg) in
  exit_ (ret a).

Definition syswrite (b : list Z) : prog unit := sys (Syswrite b) ;; io_ret tt.

(** ** Checking a source *)

(** A letter or a digit. *)
Definition is_alnum (b : Z) : bool :=
  (97 <=? b) && (b <=? 122) || (65 <=? b) && (b <=? 90) || (48 <=? b) && (b <=? 57).

(** What the pattern for any number of them captures: it matches at the start. *)
Fixpoint captured (l : list Z) : list Z :=
  match l with
  | [] => []
  | b :: l => if is_alnum b then b :: captured l else []
  end.

Definition verify (filename hash : string) : prog unit :=
  let* w := sys Which in
  (if truthy (ret w) then die "This firmware requires the md5sum command" else io_ret tt) ;;
  let* line := sys (Md5sum filename) in
  let testhash := captured (data line) in
  if negb (bool_decide (testhash = bytes_of_string hash)) then die "Hash of extracted file does not match"
  else io_ret tt.

(** ** Copying *)

Fixpoint get_loop (fuel : nat) (length : Z) (out : list Z) : prog (list Z) :=
  match fuel with
  | O => nofuel
  | S fuel =>
      if 0 <? length then
        let chunklength := if length <? 2048 then length else 2048 in
        let* r := sys (Sysread chunklength) in
        let rcount := ret r in
        if negb (rcount =? chunklength) then die "Ran out of data"
        else get_loop fuel (length - rcount) (out ++ data r)
      else io_ret out
  end.

(** Every turn reads at least one byte. *)
Definition get_hunk (offset length : Z) : prog (list Z) :=
  sys (Sysseek offset) ;;
  get_loop (S (Z.to_nat length)) length [].

Definition write_le16 (val : Z) : prog unit :=
  let msb := Z.land (Z.shiftr val 8) 0xff in
  let lsb := Z.land val 0xff in
  syswrite [lsb; msb].

Definition write_le32 (val : Z) : prog unit :=
  let l3 := Z.land (Z.shiftr val 24) 0xff in
  let l2 := Z.land (Z.shiftr val 16) 0xff in
  let l1 := Z.land (Z.shiftr val 8) 0xff in
  let l0 := Z.land val 0xff in
  syswrite [l0; l1; l2; l3].

Definition write_le64 (msb_val lsb_val : Z) : prog unit :=
  let l7 := Z.land (Z.shiftr msb_val 24) 0xff in
  let l6 := Z.land (Z.shiftr msb_val 16) 0xff in
  let l5 := Z.land (Z.shiftr msb_val 8) 0xff in
  let l4 := Z.land msb_val 0xff in
  let l3 := Z.land (Z.shiftr lsb_val 24) 0xff in
  let l2 := Z.land (Z.shiftr lsb_val 16) 0xff in
  let l1 := Z.land (Z.shiftr lsb_val 8) 0xff in
  let l0 := Z.land lsb_val 0xff in
  syswrite [l0; l1; l2; l3; l4; l5; l6; l7].

Definition write_hunk (offset length : Z) : prog unit :=
  let* out := get_hunk offset length in
  syswrite out.

(** [substr($out, $i, 1)]: nothing past the end.  [ord] of nothing is 0. *)
Definition substr1 (out : list Z) (i : Z) : list Z :=
  match out !! Z.to_nat i with Some b => [b] | None => [] end.

Definition ord (s : list Z) : Z := match s with b :: _ => b | [] => 0 end.

Fixpoint copy_loop (n : nat) (out : list Z) (i j : Z) : prog unit :=
  match n with
  | O => io_ret tt
  | S n => syswrite (substr1 out (j + i)) ;; copy_loop n out i (j + 1)
  end.

Fixpoint fix_loop (fuel : nat) (out : list Z) (length i : Z) : prog unit :=
  match fuel with
  | O => nofuel
  | S fuel =>
      if i <? length then
        let size := ord (substr1 out i) * 256 + ord (substr1 out (i + 1)) in
        syswrite (substr1 out (i + 1)) ;;
        syswrite (substr1 out i) ;;
        let i := i + 2 in
        if (0 <? size) && (size <? 0x8000) then
          copy_loop (Z.to_nat size) out i 0 ;;
          fix_loop fuel out length (i + size)
        else fix_loop fuel out length i
      else io_ret tt
  end.

Definition write_hunk_fix_endian (offset length : Z) : prog unit :=
  let* out := get_hunk offset length in
  fix_loop (S (Z.to_nat length)) out length 0.

(** ** The firmwares *)

(** The statements [main_firmware_24] and [main_firmware_27] are made of, by firmware. *)
Inductive stmt : Type :=
| Le16 (val : Z)
| Le32 (val : Z)
| Le64 (msb_val lsb_val : Z)
| Hunk (offset length : Z)
| HunkFixEndian (offset length : Z).

Definition exec (s : stmt) : prog unit :=
  match s with
  | Le16 val => write_le16 val
  | Le32 val => write_le32 val
  | Le64 msb_val lsb_val => write_le64 msb_val lsb_val
  | Hunk offset length => write_hunk offset length
  | HunkFixEndian offset length => write_hunk_fix_endian offset length
  end.

Fixpoint run (l : list stmt) : prog unit :=
  match l with
  | [] => io_ret tt
  | s :: l => exec s ;; run l
  end.

Definition firmwares_24_a : list (list stmt) := [
  [Le32 0x00000003; Le64 0x00000000 0x00000000; Le32 6635; HunkFixEndian 257752 6635];
  [Le32 0x00000007; Le64 0x00000000 0x00000000; Le32 6635; HunkFixEndian 264392 6635];
  [Le32 0x00000401; Le64 0x00000000 0x00000000; Le32 6525; HunkFixEndian 271040 6525];
  [Le32 0x00000c01; Le64 0x00000000 0x00000000; Le32 6539; HunkFixEndian 277568 6539];
  [Le32 0x00000001; Le64 0x00000000 0x00000000; Le32 6633; HunkFixEndian 284120 6633];
  [Le32 0x00000005; Le64 0x00000000 0x00000000; Le32 6617; HunkFixEndian 290760 6617];
  [Le32 0x00000000; Le64 0x00000001 0x00000007; Le32 161; HunkFixEndian 297384 161];
  [Le32 0x00000004; Le64 0x00000001 0x00000007; Le32 169; HunkFixEndian 297552 169];
  [Le32 0x00000000; Le64 0x00000002 0x00000007; Le32 161; HunkFixEndian 297728 161];
  [Le32 0x00000004; Le64 0x00000002 0x00000007; Le32 169; HunkFixEndian 297896 169];
  [Le32 0x00000000; Le64 0x00000004 0x00000007; Le32 161; HunkFixEndian 298072 161];
  [Le32 0x00000004; Le64 0x00000004 0x00000007; Le32 169; HunkFixEndian 298240 169];
  [Le32 0x00000000; Le64 0x00000008 0x00000007; Le32 161; HunkFixEndian 298416 161];
  [Le32 0x00000004; Le64 0x00000008 0x00000007; Le32 169; HunkFixEndian 298584 169]
].

Definition firmwares_24_b : list (list stmt) := [
  [Le32 0x00000000; Le64 0x00000003 0x000000e0; Le32 161; HunkFixEndian 298760 161];
  [Le32 0x00000004; Le64 0x00000003 0x000000e0; Le32 169; HunkFixEndian 298928 169];
  [Le32 0x00000000; Le64 0x0000000c 0x000000e0; Le32 161; HunkFixEndian 299104 161];
  [Le32 0x00000004; Le64 0x0000000c 0x000000e0; Le32 169; HunkFixEndian 299272 169];
  [Le32 0x00000000; Le64 0x00000000 0x00200000; Le32 161; HunkFixEndian 299448 161];
  [Le32 0x00000004; Le64 0x00000000 0x00200000; Le32 169; HunkFixEndian 299616 169];
  [Le32 0x00000000; Le64 0x00000000 0x04000000; Le32 161; HunkFixEndian 299792 161];
  [Le32 0x00000004; Le64 0x00000000 0x04000000; Le32 169; HunkFixEndian 299960 169];
  [Le32 0x00010030; Le64 0x00000000 0x00000000; Le32 149; HunkFixEndian 300136 149];
  [Le32 0x00000068; Le64 0x00000000 0x00000000; Le32 149; HunkFixEndian 300296 149];
  [Le32 0x00000070; Le64 0x00000000 0x00000000; Le32 149; HunkFixEndian 300448 149];
  [Le32 0x00000088; Le64 0x00000000 0x00000000; Le32 149; HunkFixEndian 300608 149];
  [Le32 0x00000090; Le64 0x00000000 0x00000000; Le32 149; HunkFixEndian 300760 149];
  [Le32 0x00000108; Le64 0x00000000 0x00000000; Le32 149; HunkFixEndian 300920 149]
].

Definition firmwares_24_c : list (list stmt) := [
  [Le32 0x00000110; Le64 0x00000000 0x00000000; Le32 149; HunkFixEndian 301072 149];
  [Le32 0x00000208; Le64 0x00000000 0x00000000; Le32 149; HunkFixEndian 301232 149];
  [Le32 0x00000210; Le64 0x00000000 0x00000000; Le32 149; HunkFixEndian 301384 149];
  [Le32 0x00000400; Le64 0x00000000 0x00000000; Le32 135; HunkFixEndian 301554 135];
  [Le32 0x00000000; Le64 0x00000000 0x00000010; Le32 161; HunkFixEndian 301688 161];
  [Le32 0x00000004; Le64 0x00000000 0x00000010; Le32 169; HunkFixEndian 301856 169];
  [Le32 0x00000000; Le64 0x0000000c 0x00400000; Le32 161; HunkFixEndian 302032 161];
  [Le32 0x00000000; Le64 0x00000000 0x00800000; Le32 161; HunkFixEndian 302200 161];
  [Le32 0x00000000; Le64 0x00000000 0x00008000; Le32 161; HunkFixEndian 302368 161];
  [Le32 0x00001000; Le64 0x00000000 0x00008000; Le32 161; HunkFixEndian 302536 161];
  [Le32 0x00003000; Le64 0x00000000 0x00008000; Le32 161; HunkFixEndian 302704 161];
  [Le32 0x00000004; Le64 0x00000000 0x00008000; Le32 169; HunkFixEndian 302872 169];
  [Le32 0x00000000; Le64 0x00000000 0x0000b700; Le32 161; HunkFixEndian 303048 161];
  [Le32 0x00001000; Le64 0x00000000 0x0000b700; Le32 161; HunkFixEndian 303216 161]
].

Definition firmwares_24_d : list (list stmt) := [
  [Le32 0x00003000; Le64 0x00000000 0x0000b700; Le32 161; HunkFixEndian 303384 161];
  [Le32 0x00000000; Le64 0x00000000 0x00002000; Le32 161; HunkFixEndian 303552 161];
  [Le32 0x00000004; Le64 0x00000000 0x0000b700; Le32 169; HunkFixEndian 303720 169];
  [Le32 0x00001004; Le64 0x00000000 0x0000b700; Le32 169; HunkFixEndian 303896 169];
  [Le32 0x00003004; Le64 0x00000000 0x0000b700; Le32 169; HunkFixEndian 304072 169];
  [Le32 0x60000000; Le64 0x00000000 0x00000000; Le16 3280; Le32 192; Hunk 309048 192];
  [Le32 0x60000000; Le64 0x00000000 0x00000000; Le16 3440; Le32 192; Hunk 309432 192];
  [Le32 0x60000000; Le64 0x00000000 0x00000000; Le16 3460; Le32 192; Hunk 309624 192];
  [Le32 0x60210020; Le64 0x00000000 0x00000000; Le16 3800; Le32 192; Hunk 306936 192];
  [Le32 0x60000000; Le64 0x00000000 0x00000000; Le16 4000; Le32 192; Hunk 309240 192];
  [Le32 0x60410020; Le64 0x00000000 0x00000000; Le16 4080; Le32 192; Hunk 307128 192];
  [Le32 0x60000000; Le64 0x00000000 0x00000000; Le16 4200; Le32 192; Hunk 308856 192];
  [Le32 0x60008000; Le64 0x00000000 0x00008000; Le16 4320; Le32 192; Hunk 305208 192];
  [Le32 0x60000000; Le64 0x00000000 0x00000000; Le16 4450; Le32 192; Hunk 309816 192]
].

Definition firmwares_24_e : list (list stmt) := [
  [Le32 0x6002b004; Le64 0x00000000 0x0000b700; Le16 4500; Le32 192; Hunk 304824 192];
  [Le32 0x60023000; Le64 0x00000000 0x00008000; Le16 4600; Le32 192; Hunk 305016 192];
  [Le32 0x620003e0; Le64 0x00000000 0x00000000; Le16 4760; Le32 192; Hunk 304440 192];
  [Le32 0x60000000; Le64 0x00000000 0x00000000; Le16 4940; Le32 192; Hunk 308664 192];
  [Le32 0x60000000; Le64 0x00000000 0x00000000; Le16 5260; Le32 192; Hunk 307704 192];
  [Le32 0x60008000; Le64 0x0000000f 0x00000007; Le16 5320; Le32 192; Hunk 307896 192];
  [Le32 0x65000380; Le64 0x00000000 0x00000000; Le16 5400; Le32 192; Hunk 304248 192];
  [Le32 0x60110020; Le64 0x00000000 0x00000000; Le16 5580; Le32 192; Hunk 306744 192];
  [Le32 0x60000000; Le64 0x00000003 0x00000007; Le16 5640; Le32 192; Hunk 305592 192];
  [Le32 0x60000000; Le64 0x0000000c 0x00000007; Le16 5740; Le32 192; Hunk 305784 192];
  [Le32 0x60000000; Le64 0x00000000 0x00000000; Le16 5900; Le32 192; Hunk 307512 192];
  [Le32 0x60008000; Le64 0x0000000c 0x04c000f0; Le16 6000; Le32 192; Hunk 305576 192];
  [Le32 0x68050060; Le64 0x00000000 0x00000000; Le16 6200; Le32 192; Hunk 306552 192];
  [Le32 0x60000000; Le64 0x00000000 0x00000010; Le16 6240; Le32 192; Hunk 305400 192]
].

Definition firmwares_24_f : list (list stmt) := [
  [Le32 0x60008000; Le64 0x00000000 0x00200000; Le16 6320; Le32 192; Hunk 308472 192];
  [Le32 0x60000000; Le64 0x00000000 0x00200000; Le16 6340; Le32 192; Hunk 306360 192];
  [Le32 0x60008000; Le64 0x0000000c 0x044000e0; Le16 6500; Le32 192; Hunk 308280 192];
  [Le32 0x60090020; Le64 0x00000000 0x00000000; Le16 6580; Le32 192; Hunk 304632 192];
  [Le32 0x60000000; Le64 0x00000003 0x000000e0; Le16 6600; Le32 192; Hunk 306168 192];
  [Le32 0x60008000; Le64 0x00000003 0x000000e0; Le16 6680; Le32 192; Hunk 308088 192];
  [Le32 0x60810020; Le64 0x00000000 0x00000000; Le16 8140; Le32 192; Hunk 307320 192]
].

Definition firmwares_24 : list (list stmt) :=
  firmwares_24_a ++ firmwares_24_b ++ firmwares_24_c ++ firmwares_24_d ++ firmwares_24_e ++ firmwares_24_f.

Definition firmwares_27_a : list (list stmt) := [
  [Le32 0x00000003; Le64 0x00000000 0x00000000; Le32 8718; HunkFixEndian 813432 8718];
  [Le32 0x00000007; Le64 0x00000000 0x00000000; Le32 8712; HunkFixEndian 822152 8712];
  [Le32 0x00000401; Le64 0x00000000 0x00000000; Le32 8562; HunkFixEndian 830872 8562];
  [Le32 0x00000c01; Le64 0x00000000 0x00000000; Le32 8576; HunkFixEndian 839440 8576];
  [Le32 0x00000001; Le64 0x00000000 0x00000000; Le32 8706; HunkFixEndian 848024 8706];
  [Le32 0x00000005; Le64 0x00000000 0x00000000; Le32 8682; HunkFixEndian 856736 8682];
  [Le32 0x00000000; Le64 0x00000001 0x00000007; Le32 161; HunkFixEndian 865424 161];
  [Le32 0x00000004; Le64 0x00000001 0x00000007; Le32 169; HunkFixEndian 865592 169];
  [Le32 0x00000000; Le64 0x00000002 0x00000007; Le32 161; HunkFixEndian 865424 161];
  [Le32 0x00000004; Le64 0x00000002 0x00000007; Le32 169; HunkFixEndian 865592 169];
  [Le32 0x00000000; Le64 0x00000004 0x00000007; Le32 161; HunkFixEndian 866112 161];
  [Le32 0x00000004; Le64 0x00000004 0x00000007; Le32 169; HunkFixEndian 866280 169];
  [Le32 0x00000000; Le64 0x00000008 0x00000007; Le32 161; HunkFixEndian 866112 161];
  [Le32 0x00000004; Le64 0x00000008 0x00000007; Le32 169; HunkFixEndian 866280 169]
].

Definition firmwares_27_b : list (list stmt) := [
  [Le32 0x00000000; Le64 0x00000003 0x000000e0; Le32 161; HunkFixEndian 866800 161];
  [Le32 0x00000004; Le64 0x00000003 0x000000e0; Le32 169; HunkFixEndian 866968 169];
  [Le32 0x00000000; Le64 0x0000000c 0x000000e0; Le32 161; HunkFixEndian 867144 161];
  [Le32 0x00000004; Le64 0x0000000c 0x000000e0; Le32 169; HunkFixEndian 867312 169];
  [Le32 0x00000000; Le64 0x00000000 0x00200000; Le32 161; HunkFixEndian 867488 161];
  [Le32 0x00000004; Le64 0x00000000 0x00200000; Le32 169; HunkFixEndian 867656 169];
  [Le32 0x00000000; Le64 0x00000000 0x04000000; Le32 161; HunkFixEndian 867832 161];
  [Le32 0x00000004; Le64 0x00000000 0x04000000; Le32 169; HunkFixEndian 868000 169];
  [Le32 0x00010030; Le64 0x00000000 0x00000000; Le32 149; HunkFixEndian 868176 149];
  [Le32 0x00000068; Le64 0x00000000 0x00000000; Le32 149; HunkFixEndian 868336 149];
  [Le32 0x00000070; Le64 0x00000000 0x00000000; Le32 149; HunkFixEndian 868488 149];
  [Le32 0x00000088; Le64 0x00000000 0x00000000; Le32 149; HunkFixEndian 868648 149];
  [Le32 0x00000090; Le64 0x00000000 0x00000000; Le32 149; HunkFixEndian 868800 149];
  [Le32 0x00000108; Le64 0x00000000 0x00000000; Le32 149; HunkFixEndian 868960 149]
].

Definition firmwares_27_c : list (list stmt) := [
  [Le32 0x00000110; Le64 0x00000000 0x00000000; Le32 149; HunkFixEndian 869112 149];
  [Le32 0x00000208; Le64 0x00000000 0x00000000; Le32 149; HunkFixEndian 868648 149];
  [Le32 0x00000210; Le64 0x00000000 0x00000000; Le32 149; HunkFixEndian 868800 149];
  [Le32 0x00000400; Le64 0x00000000 0x00000000; Le32 135; HunkFixEndian 869584 135];
  [Le32 0x00000000; Le64 0x00000000 0x00000010; Le32 161; HunkFixEndian 869728 161];
  [Le32 0x00000004; Le64 0x00000000 0x00000010; Le32 169; HunkFixEndian 869896 169];
  [Le32 0x00000000; Le64 0x00000010 0x00400000; Le32 169; HunkFixEndian 870072 169];
  [Le32 0x00000000; Le64 0x0000000c 0x00400000; Le32 161; HunkFixEndian 870248 161];
  [Le32 0x00000000; Le64 0x00000000 0x00800000; Le32 161; HunkFixEndian 870416 161];
  [Le32 0x00000000; Le64 0x00000000 0x00008000; Le32 161; HunkFixEndian 870584 161];
  [Le32 0x00001000; Le64 0x00000000 0x00008000; Le32 161; HunkFixEndian 870752 161];
  [Le32 0x00003000; Le64 0x00000000 0x00008000; Le32 161; HunkFixEndian 870920 161];
  [Le32 0x00000004; Le64 0x00000000 0x00008000; Le32 169; HunkFixEndian 871088 169];
  [Le32 0x00000000; Le64 0x00000000 0x0000b700; Le32 161; HunkFixEndian 871264 161]
].

Definition firmwares_27_d : list (list stmt) := [
  [Le32 0x00001000; Le64 0x00000000 0x0000b700; Le32 161; HunkFixEndian 871432 161];
  [Le32 0x00003000; Le64 0x00000000 0x0000b700; Le32 161; HunkFixEndian 871600 161];
  [Le32 0x00000000; Le64 0x00000000 0x00002000; Le32 161; HunkFixEndian 871264 161];
  [Le32 0x00000004; Le64 0x00000000 0x0000b700; Le32 169; HunkFixEndian 871936 169];
  [Le32 0x00001004; Le64 0x00000000 0x0000b700; Le32 169; HunkFixEndian 872112 169];
  [Le32 0x00003004; Le64 0x00000000 0x0000b700; Le32 169; HunkFixEndian 872288 169];
  [Le32 0x60000000; Le64 0x00000000 0x00000000; Le16 3280; Le32 192; Hunk 811896 192];
  [Le32 0x60000000; Le64 0x00000000 0x00000000; Le16 3300; Le32 192; Hunk 813048 192];
  [Le32 0x60000000; Le64 0x00000000 0x00000000; Le16 3440; Le32 192; Hunk 812280 192];
  [Le32 0x60000000; Le64 0x00000000 0x00000000; Le16 3460; Le32 192; Hunk 812472 192];
  [Le32 0x60210020; Le64 0x00000000 0x00000000; Le16 3800; Le32 192; Hunk 809784 192];
  [Le32 0x60000000; Le64 0x00000000 0x00000000; Le16 4000; Le32 192; Hunk 812088 192];
  [Le32 0x60410020; Le64 0x00000000 0x00000000; Le16 4080; Le32 192; Hunk 809976 192];
  [Le32 0x60000000; Le64 0x00000000 0x00000000; Le16 4200; Le32 192; Hunk 811704 192]
].

Definition firmwares_27_e : list (list stmt) := [
  [Le32 0x60008000; Le64 0x00000000 0x00008000; Le16 4320; Le32 192; Hunk 808056 192];
  [Le32 0x60000000; Le64 0x00000000 0x00000000; Le16 4450; Le32 192; Hunk 812664 192];
  [Le32 0x6002b004; Le64 0x00000000 0x0000b700; Le16 4500; Le32 192; Hunk 807672 192];
  [Le32 0x60023000; Le64 0x00000000 0x00008000; Le16 4600; Le32 192; Hunk 807864 192];
  [Le32 0x620003e0; Le64 0x00000000 0x00000000; Le16 4760; Le32 192; Hunk 807288 192];
  [Le32 0x60000000; Le64 0x00000000 0x00000000; Le16 4940; Le32 192; Hunk 811512 192];
  [Le32 0x60000000; Le64 0x00000000 0x00000000; Le16 5260; Le32 192; Hunk 810552 192];
  [Le32 0x60008000; Le64 0x0000000f 0x00000007; Le16 5320; Le32 192; Hunk 810744 192];
  [Le32 0x65000380; Le64 0x00000000 0x00000000; Le16 5400; Le32 192; Hunk 807096 192];
  [Le32 0x60110020; Le64 0x00000000 0x00000000; Le16 5580; Le32 192; Hunk 809592 192];
  [Le32 0x60000000; Le64 0x00000003 0x00000007; Le16 5640; Le32 192; Hunk 808440 192];
  [Le32 0x60000000; Le64 0x0000000c 0x00000007; Le16 5740; Le32 192; Hunk 808632 192];
  [Le32 0x60000000; Le64 0x00000000 0x00000000; Le16 5900; Le32 192; Hunk 810360 192];
  [Le32 0x60008000; Le64 0x0000000c 0x04c000f0; Le16 6000; Le32 192; Hunk 808824 192]
].

Definition firmwares_27_f : list (list stmt) := [
  [Le32 0x68050060; Le64 0x00000000 0x00000000; Le16 6200; Le32 192; Hunk 809400 192];
  [Le32 0x60000000; Le64 0x00000000 0x00000010; Le16 6240; Le32 192; Hunk 808248 192];
  [Le32 0x60008000; Le64 0x00000000 0x00200000; Le16 6320; Le32 192; Hunk 811320 192];
  [Le32 0x60000000; Le64 0x00000000 0x00200000; Le16 6340; Le32 192; Hunk 809208 192];
  [Le32 0x60008000; Le64 0x0000000c 0x044000e0; Le16 6500; Le32 192; Hunk 811128 192];
  [Le32 0x60090020; Le64 0x00000000 0x00000000; Le16 6580; Le32 192; Hunk 807480 192];
  [Le32 0x60000000; Le64 0x00000003 0x000000e0; Le16 6600; Le32 192; Hunk 809016 192];
  [Le32 0x60008000; Le64 0x00000003 0x000000e0; Le16 6680; Le32 192; Hunk 810936 192];
  [Le32 0x60810020; Le64 0x00000000 0x00000000; Le16 8140; Le32 192; Hunk 810168 192];
  [Le32 0x60000000; Le64 0x00000000 0x00000000; Le16 8200; Le32 192; Hunk 812856 192]
].

Definition firmwares_27 : list (list stmt) :=
  firmwares_27_a ++ firmwares_27_b ++ firmwares_27_c ++ firmwares_27_d ++ firmwares_27_e ++ firmwares_27_f.

Definition main_firmware (firmwares : list (list stmt)) (outfile name : string) (version nr_desc : Z) : prog unit :=
  let name := bytes_of_string name ++ replicate (32 - String.length name) 0 in
  sys (OpenOut outfile) ;;
  syswrite name ;;
  write_le16 version ;;
  write_le16 nr_desc ;;
  run (concat firmwares).

Definition main_firmware_24 : string -> string -> Z -> Z -> prog unit := main_firmware firmwares_24.
Definition main_firmware_27 : string -> string -> Z -> Z -> prog unit := main_firmware firmwares_27.

Definition extract (sourcefile hash : string) (main_firmware : prog unit) : prog unit :=
  let* e := sys (Exists sourcefile) in
  if truthy (ret e) then
    verify sourcefile hash ;;
    sys (OpenIn sourcefile) ;;
    main_firmware ;;
    sys CloseIn ;;
    io_ret tt
  else io_ret tt.

Definition sourcefile_24 : string := "UDXTTM6000.sys".
Definition hash_24 : string := "cb9deb5508a5e150af2880f5b0066d78".
Definition outfile_24 : string := "xc3028-v24.fw".
Definition sourcefile_27 : string := "hcw85bda.sys".
Definition hash_27 : string := "0e44dbf63bb0169d57446aec21881ff2".
Definition outfile_27 : string := "xc3028-v27.fw".
Definition firmware_name : string := "xc2028 firmware".

Definition extract_firmware : prog unit :=
  extract sourcefile_24 hash_24 (main_firmware_24 outfile_24 firmware_name 516 77) ;;
  extract sourcefile_27 hash_27 (main_firmware_27 outfile_27 firmware_name 519 80).

Definition script : prog unit :=
  extract_firmware ;;
  sys (Printf "Firmwares generated.") ;;
  io_ret tt.

(** ** What is written *)

(** The swap of a hunk: every record starts with its length, high byte first, or a value that is none. *)
Fixpoint swapped (fuel : nat) (l : list Z) : list Z :=
  match fuel, l with
  | S fuel, hi :: lo :: l =>
      let size := hi * 256 + lo in
      let n := if (0 <? size) && (size <? 0x8000) then Z.to_nat size else O in
      lo :: hi :: take n l ++ swapped fuel (drop n l)
  | _, _ => l
  end.

Definition fix_endian (l : list Z) : list Z := swapped (length l) l.

Lemma swapped_perm fuel : forall l, swapped fuel l ≡ₚ l.
Proof.
  induction fuel as [|fuel IH]; intros [|hi [|lo l]]; cbn [swapped]; try done.
  rewrite IH, take_drop. apply Permutation_swap.
Qed.

Lemma zlen_fix_endian l : zlen (fix_endian l) = zlen l.
Proof. unfold zlen, fix_endian. by rewrite swapped_perm. Qed.

Definition plain (e : event call) : Prop :=
  match e.1 with Sysseek _ | Sysread _ | Syswrite _ => True | _ => False end.

(** The open source and the position in it. *)
Fixpoint infile (h : list (event call)) : option string :=
  match h with
  | [] => None
  | (OpenIn f, _) :: _ => Some f
  | (CloseIn, _) :: _ => None
  | _ :: h => infile h
  end.

Fixpoint position (h : list (event call)) : Z :=
  match h with
  | [] => 0
  | (OpenIn _, _) :: _ => 0
  | (Sysseek o, _) :: _ => o
  | (Sysread _, a) :: h => position h + zlen (data a)
  | _ :: h => position h
  end.

Lemma infile_plain t h : Forall plain t -> infile (t ++ h) = infile h.
Proof. induction 1 as [|[c a] t Hc Ht IH]; [done|]. by destruct c. Qed.

Section Writes.
Context (K : kernel call).

(** [m] only reads, and writes [b]. *)
Definition writes (m : prog unit) (h : list (event call)) (b : list Z) : Prop :=
  wp m K tt h (fun r _ h' => r = Ret tt /\ exists t, h' = t ++ h /\ Forall plain t /\ concat (output t) = b).

Lemma writes_done h : writes (io_ret tt) h [].
Proof. unfold writes. wp_step. split; [done|]. by exists []. Qed.

Lemma writes_bind m k h b1 b2 :
  writes m h b1 -> (forall t, Forall plain t -> writes k (t ++ h) b2) -> writes (m ;; k) h (b1 ++ b2).
Proof.
  intros Hm Hk. unfold writes. wp_step. eapply wp_wand; [exact Hm|]. intros r [] h' (-> & t & -> & Ht & <-). wp_step.
  eapply wp_wand; [by apply Hk|]. intros r [] h' (-> & u & -> & Hu & <-). split; [done|]. exists (u ++ t).
  split; [by rewrite app_assoc|]. split; [by apply Forall_app|]. unfold output. by rewrite trace_app, concat_app.
Qed.

Lemma writes_syswrite b h : writes (syswrite b) h b.
Proof. unfold writes, syswrite. wp_go. split; [done|]. exists [(Syswrite b, a)]. cbn. rewrite app_nil_r. split; [done|]. by repeat constructor. Qed.

Lemma substr1_take out k n : 0 <= k ->
  substr1 out k ++ take n (drop (Z.to_nat (k + 1)) out) = take (S n) (drop (Z.to_nat k) out).
Proof.
  intros Hk. unfold substr1. replace (Z.to_nat (k + 1)) with (S (Z.to_nat k)) by lia.
  destruct (out !! Z.to_nat k) as [b|] eqn:E; [by rewrite (drop_S _ _ _ E)|].
  apply lookup_ge_None in E. rewrite !drop_ge by lia. by destruct n.
Qed.

Lemma copy_writes out i : 0 <= i -> forall n j h, 0 <= j ->
  writes (copy_loop n out i j) h (take n (drop (Z.to_nat (j + i)) out)).
Proof.
  intros Hi n. induction n as [|n IH]; intros j h Hj; cbn [copy_loop]; [apply writes_done|].
  rewrite <- substr1_take by lia. replace (j + i + 1) with (j + 1 + i) by lia.
  apply writes_bind; [apply writes_syswrite|]. intros t _. apply IH. lia.
Qed.

Lemma substr1_drop out i k : 0 <= i -> 0 <= k -> substr1 out (i + k) = substr1 (drop (Z.to_nat i) out) k.
Proof. intros. unfold substr1. rewrite lookup_drop. by rewrite Z2Nat.inj_add by lia. Qed.

(** The loop past the end. *)
Lemma fix_end out fuel i h : (0 < fuel)%nat -> zlen out <= i -> writes (fix_loop fuel out (zlen out) i) h [].
Proof. intros Hf Hi. destruct fuel as [|fuel]; [lia|]. cbn [fix_loop]. rewrite (proj2 (Z.ltb_ge _ _)) by lia. apply writes_done. Qed.

Lemma fix_writes out : forall fuel n l i h, 0 <= i -> drop (Z.to_nat i) out = l -> (length l < fuel)%nat -> (length l <= n)%nat ->
  writes (fix_loop fuel out (zlen out) i) h (swapped n l).
Proof.
  intros fuel. induction fuel as [|fuel IH]; intros n l i h Hi Hl Hf Hn; [lia|].
  assert (length l = length out - Z.to_nat i)%nat as Hlen by (by rewrite <- Hl, length_drop).
  destruct (decide (l = [])) as [-> |Hne]; [destruct n; cbn [swapped]; apply fix_end; unfold zlen; cbn in Hlen; lia|].
  cbn [fix_loop]. rewrite (proj2 (Z.ltb_lt _ _)) by (unfold zlen; destruct l; cbn in *; [done|lia]).
  assert (substr1 out i = substr1 l 0) as E0 by (rewrite <- (Z.add_0_r i), substr1_drop, Hl by lia; done).
  rewrite substr1_drop, E0, Hl by lia.
  destruct l as [|hi [|lo l]]; [done| |]; cbn [length] in *; (destruct n as [|n]; [lia|]); cbn [swapped].
  - change (substr1 [hi] (0 + 1)) with (@nil Z). change (substr1 [hi] 1) with (@nil Z). change (substr1 [hi] 0) with [hi]. cbn [ord].
    change [hi] with ([] ++ [hi] ++ [] ++ @nil Z). apply writes_bind; [apply writes_syswrite|]. intros t1 _.
    apply writes_bind; [apply writes_syswrite|]. intros t2 _.
    destruct (_ && _) eqn:E; [|apply fix_end; [lia|unfold zlen; lia]].
    apply writes_bind; [|intros t3 _; apply fix_end; [lia|unfold zlen; lia]].
    replace (@nil Z) with (take (Z.to_nat (hi * 256 + 0)) (drop (Z.to_nat (0 + (i + 2))) out)); [apply copy_writes; lia|].
    rewrite drop_ge by lia. by destruct (Z.to_nat (hi * 256 + 0)).
  - change (substr1 (hi :: lo :: l) 1) with [lo]. change (substr1 (hi :: lo :: l) 0) with [hi]. cbn [ord].
    change (lo :: hi :: ?r) with ([lo] ++ [hi] ++ r). apply writes_bind; [apply writes_syswrite|]. intros t1 _.
    apply writes_bind; [apply writes_syswrite|]. intros t2 _.
    assert (drop (Z.to_nat (i + 2)) out = l) as Hd by (replace (Z.to_nat (i + 2)) with (Z.to_nat i + 2)%nat by lia; by rewrite <- drop_drop, Hl).
    destruct (_ && _) eqn:E.
    + apply writes_bind; [rewrite <- Hd; apply (copy_writes out (i + 2)); lia|]. intros t3 _.
      apply IH; [lia| |rewrite length_drop; lia..]. rewrite <- Hd, drop_drop. f_equal. lia.
    + rewrite take_0, drop_0. cbn [app]. apply IH; [lia|done|lia..].
Qed.

End Writes.

(** ** Reading the sources *)

(** The files there are, with their contents and MD5 sums. *)
Record world : Type := World { image : string -> option (list Z); sum : string -> list Z }.

(** Files are read as they are; a read is short at their end only. *)
Record lives_in (K : kernel call) (W : world) : Prop := {
  in_which : forall h, ret (K h Which) = 0;
  in_exists : forall h f, ret (K h (Exists f)) = match image W f with Some _ => 1 | None => 0 end;
  in_sum : forall h f, captured (data (K h (Md5sum f))) = sum W f;
  in_read : forall h n f img, infile h = Some f -> image W f = Some img -> 0 <= n ->
    K h (Sysread n) = Ans (zlen (ztake n (zdrop (position h) img))) 0 (ztake n (zdrop (position h) img))
}.

Definition slice (img : list Z) (offset length : Z) : list Z := ztake length (zdrop offset img).

Section Reads.
Context (K : kernel call) (W : world) (HK : lives_in K W) (f : string) (img : list Z) (Himg : image W f = Some img).

Lemma get_loop_wp : forall fuel p n out h, infile h = Some f -> position h = p -> 0 <= p -> 0 <= n -> p + n <= zlen img ->
  (Z.to_nat n < fuel)%nat ->
  wp (get_loop fuel n out) K tt h (fun r _ h' => r = Ret (out ++ slice img p n) /\
    exists t, h' = t ++ h /\ Forall plain t /\ output t = []).
Proof using HK Himg.
  induction fuel as [|fuel IH]; intros p n out h Hf Hp H0 Hn Hle Hfuel; [lia|]. cbn [get_loop].
  destruct (Z.ltb_spec 0 n) as [Hpos|Hz].
  2: { wp_step. assert (n = 0) as -> by lia. split; [by rewrite app_nil_r|]. by exists []. }
  set (c := if n <? 2048 then n else 2048). assert (0 < c <= n) as Hc by (unfold c; destruct (Z.ltb_spec n 2048); lia).
  wp_step. apply wp_sys_eq. intros r Er. rewrite (in_read K W HK h c f img Hf Himg) in Er by lia. rewrite Hp in Er. subst r. wp_step. cbn [ret data].
  rewrite zlen_ztake by (rewrite zlen_zdrop; lia). rewrite Z.eqb_refl. cbn [negb].
  eapply wp_wand; [apply (IH (p + c) (n - c))|].
  - done.
  - cbn [position data]. rewrite zlen_ztake by (rewrite zlen_zdrop; lia). lia.
  - lia.
  - lia.
  - lia.
  - lia.
  - intros r s h' (-> & t & -> & Ht & Ho). split.
    + f_equal. rewrite <- app_assoc. f_equal. unfold slice, ztake, zdrop.
      rewrite <- (take_drop (Z.to_nat c) (take (Z.to_nat n) _)), take_take, skipn_firstn_comm, drop_drop.
      f_equal; [f_equal; lia|]. f_equal; [lia|]. f_equal. lia.
    + eexists (t ++ [_]). split; [by rewrite <- app_assoc|]. split; [apply Forall_app; by repeat constructor|].
      unfold output in *. by rewrite trace_app, Ho.
Qed.

Lemma get_hunk_wp offset n h : infile h = Some f -> 0 <= offset -> 0 <= n -> offset + n <= zlen img ->
  wp (get_hunk offset n) K tt h (fun r _ h' => r = Ret (slice img offset n) /\
    exists t, h' = t ++ h /\ Forall plain t /\ output t = []).
Proof using HK Himg.
  intros Hf Ho Hn Hle. unfold get_hunk. wp_step. apply wp_sys_any. intros a. wp_step.
  eapply wp_wand; [apply (get_loop_wp _ offset); [done|done|lia..]|]. intros r s h' (-> & t & -> & Ht & Hout). split; [done|].
  eexists (t ++ [_]). split; [by rewrite <- app_assoc|]. split; [apply Forall_app; by repeat constructor|].
  unfold output in *. by rewrite trace_app, Hout.
Qed.

(** What a statement writes. *)
Definition bytes (s : stmt) : list Z :=
  match s with
  | Le16 val => le_bytes 2 val
  | Le32 val => le_bytes 4 val
  | Le64 msb_val lsb_val => le_bytes 4 lsb_val ++ le_bytes 4 msb_val
  | Hunk offset length => slice img offset length
  | HunkFixEndian offset length => fix_endian (slice img offset length)
  end.

Definition in_image (s : stmt) : Prop :=
  match s with
  | Hunk offset length | HunkFixEndian offset length => 0 <= offset /\ 0 <= length /\ offset + length <= zlen img
  | _ => True
  end.

Lemma le16_bytes v : [Z.land v 0xff; Z.land (Z.shiftr v 8) 0xff] = le_bytes 2 v.
Proof. reflexivity. Qed.

Lemma le32_bytes v :
  [Z.land v 0xff; Z.land (Z.shiftr v 8) 0xff; Z.land (Z.shiftr v 16) 0xff; Z.land (Z.shiftr v 24) 0xff] = le_bytes 4 v.
Proof.
  change (le_bytes 4 v) with [Z.land v 0xff; Z.land (Z.shiftr v 8) 0xff; Z.land (Z.shiftr (Z.shiftr v 8) 8) 0xff;
    Z.land (Z.shiftr (Z.shiftr (Z.shiftr v 8) 8) 8) 0xff].
  by rewrite !Z.shiftr_shiftr by lia.
Qed.

Lemma exec_writes s h : infile h = Some f -> in_image s -> writes K (exec s) h (bytes s).
Proof using HK Himg.
  intros Hf Hs. destruct s as [v|v|hi lo|o n|o n]; cbn [exec bytes in_image] in *.
  - rewrite <- le16_bytes. apply writes_syswrite.
  - rewrite <- le32_bytes. apply writes_syswrite.
  - rewrite <- !le32_bytes. apply writes_syswrite.
  - destruct Hs as (Ho & Hn & Hle). unfold write_hunk, writes. wp_step. eapply wp_wand; [by apply get_hunk_wp|].
    intros r [] h' (-> & t & -> & Ht & Hout). wp_step. eapply wp_wand; [apply writes_syswrite|].
    intros r [] h' (-> & u & -> & Hu & Hb). split; [done|]. exists (u ++ t). split; [by rewrite app_assoc|].
    split; [by apply Forall_app|]. unfold output in *. by rewrite trace_app, Hout.
  - destruct Hs as (Ho & Hn & Hle). unfold write_hunk_fix_endian, writes. wp_step. eapply wp_wand; [by apply get_hunk_wp|].
    intros r [] h' (-> & t & -> & Ht & Hout). wp_step.
    assert (zlen (slice img o n) = n) as Hlen by (unfold slice; rewrite zlen_ztake by (rewrite zlen_zdrop; lia); done).
    pose proof (fix_writes K (slice img o n) (S (Z.to_nat n)) (length (slice img o n)) _ 0 (t ++ h) ltac:(lia) eq_refl) as Hw.
    rewrite Hlen in Hw. eapply wp_wand; [apply Hw; rewrite length_drop; unfold zlen in Hlen; lia|].
    intros r [] h' (-> & u & -> & Hu & Hb). split; [done|]. exists (u ++ t). split; [by rewrite app_assoc|].
    split; [by apply Forall_app|]. unfold output in *. by rewrite trace_app, Hout.
Qed.

Lemma run_writes l : Forall in_image l -> forall h, infile h = Some f -> writes K (run l) h (concat (bytes <$> l)).
Proof using HK Himg.
  induction 1 as [|s l Hs Hl IH]; intros h Hf; cbn [run]; [apply writes_done|]. cbn [fmap list_fmap concat].
  apply writes_bind; [by apply exec_writes|]. intros t Ht. apply IH. by rewrite infile_plain.
Qed.

End Reads.

(** ** The format *)

(** The bit of a type whose entries carry a frequency: the HAS IF of the comments. *)
Definition HAS_IF := 0x40000000.

Record entry : Type := Entry { e_type : Z; e_id : Z; e_if : option Z; e_data : list Z }.

Definition take_le (n : Z) (l : list Z) : option (Z * list Z) :=
  if n <=? zlen l then Some (le_val (ztake n l), zdrop n l) else None.

Definition take_if (t : Z) (l : list Z) : option (option Z * list Z) :=
  if has t HAS_IF then '(f, l) ← take_le 2 l; Some (Some f, l) else Some (None, l).

Definition parse_entry (l : list Z) : option (entry * list Z) :=
  '(t, l) ← take_le 4 l;
  '(lo, l) ← take_le 4 l;
  '(hi, l) ← take_le 4 l;
  '(f, l) ← take_if t l;
  '(size, l) ← take_le 4 l;
  if size <=? zlen l then Some (Entry t (hi * 2 ^ 32 + lo) f (ztake size l), zdrop size l) else None.

Fixpoint parse_entries (n : nat) (l : list Z) : option (list entry * list Z) :=
  match n with
  | O => Some ([], l)
  | S n =>
      '(e, l) ← parse_entry l;
      '(es, l) ← parse_entries n l;
      Some (e :: es, l)
  end.

(** A name of 32 bytes, version, number of entries, and the entries up to the end of the file. *)
Definition parse_file (l : list Z) : option (list Z * Z * list entry) :=
  '(version, r) ← take_le 2 (zdrop 32 l);
  '(n, r) ← take_le 2 r;
  '(es, r) ← parse_entries (Z.to_nat n) r;
  match r with [] => Some (ztake 32 l, version, es) | _ => None end.

(** What a firmware of the tables should be read as. *)
Definition entry_of (img : list Z) (l : list stmt) : entry :=
  match l with
  | [Le32 t; Le64 hi lo; Le32 size; HunkFixEndian o n] => Entry t (hi * 2 ^ 32 + lo) None (fix_endian (slice img o n))
  | [Le32 t; Le64 hi lo; Le16 f; Le32 size; Hunk o n] => Entry t (hi * 2 ^ 32 + lo) (Some f) (slice img o n)
  | _ => Entry 0 0 None []
  end.

Definition fits (w v : Z) : bool := (0 <=? v) && (v <? 2 ^ w).

(** A firmware whose declared size is the length of its hunk, with a frequency if its type says so, cut out of the
    first [limit] bytes. *)
Definition fw_ok (limit : Z) (l : list stmt) : bool :=
  match l with
  | [Le32 t; Le64 hi lo; Le32 size; HunkFixEndian o n] =>
      fits 32 t && fits 32 hi && fits 32 lo && negb (has t HAS_IF) && fits 32 size && (size =? n) && (0 <=? o) && (o + n <=? limit)
  | [Le32 t; Le64 hi lo; Le16 f; Le32 size; Hunk o n] =>
      fits 32 t && fits 32 hi && fits 32 lo && has t HAS_IF && fits 16 f && fits 32 size && (size =? n) && (0 <=? o) && (o + n <=? limit)
  | _ => false
  end.

Lemma take_le_bytes k v rest : take_le (Z.of_nat k) (le_bytes k v ++ rest) = Some (v mod 2 ^ (8 * Z.of_nat k), rest).
Proof.
  unfold take_le. rewrite zlen_app, zlen_le_bytes. pose proof (zlen_nonneg rest). rewrite (proj2 (Z.leb_le _ _)) by lia.
  unfold ztake, zdrop. rewrite Nat2Z.id, take_app_length', drop_app_length' by (by rewrite length_le_bytes). by rewrite le_val_bytes.
Qed.

Lemma take_le32 v rest : fits 32 v = true -> take_le 4 (le_bytes 4 v ++ rest) = Some (v, rest).
Proof. unfold fits. intros Hv. rewrite (take_le_bytes 4). by rewrite Z.mod_small by (change (8 * Z.of_nat 4) with 32; lia). Qed.

Lemma take_le16 v rest : fits 16 v = true -> take_le 2 (le_bytes 2 v ++ rest) = Some (v, rest).
Proof. unfold fits. intros Hv. rewrite (take_le_bytes 2). by rewrite Z.mod_small by (change (8 * Z.of_nat 2) with 16; lia). Qed.

Lemma zlen_slice img o n : 0 <= o -> 0 <= n -> o + n <= zlen img -> zlen (slice img o n) = n.
Proof. intros. unfold slice. rewrite zlen_ztake; [done|]. rewrite zlen_zdrop; lia. Qed.

Lemma slice_off n (a r : list Z) : zlen a = n -> ztake n (a ++ r) = a /\ zdrop n (a ++ r) = r.
Proof.
  unfold zlen, ztake, zdrop. intros <-. by rewrite Nat2Z.id, take_app_length, drop_app_length.
Qed.

(** The size and the data at the end of an entry. *)
Lemma parse_data t id f size d rest : fits 32 size = true -> zlen d = size ->
  ('(size, l) ← take_le 4 (le_bytes 4 size ++ d ++ rest);
   if size <=? zlen l then Some (Entry t id f (ztake size l), zdrop size l) else None) = Some (Entry t id f d, rest).
Proof.
  intros Hs Hd. rewrite take_le32 by done. cbn [mbind option_bind]. pose proof (zlen_nonneg rest).
  rewrite zlen_app, (proj2 (Z.leb_le _ _)) by lia. by destruct (slice_off size d rest Hd) as [-> ->].
Qed.

Lemma parse_entry_bytes img limit l rest : fw_ok limit l = true -> limit <= zlen img ->
  parse_entry (concat (bytes img <$> l) ++ rest) = Some (entry_of img l, rest).
Proof.
  intros Hok Hl. unfold fw_ok in Hok. repeat case_match; try discriminate; subst; cbn [fmap list_fmap concat bytes entry_of];
    repeat rewrite andb_true_iff in Hok; destruct_and!; rewrite ?app_nil_r, <- !app_assoc; unfold parse_entry, take_if;
    rewrite !take_le32 by done; cbn [mbind option_bind]; rewrite !take_le32 by done; cbn [mbind option_bind];
    rewrite !take_le32 by done; cbn [mbind option_bind].
  - match goal with H : has _ _ = true |- _ => rewrite H end. rewrite take_le16 by done. cbn [mbind option_bind]. apply parse_data; [done|].
    rewrite zlen_slice; unfold fits in *; lia.
  - match goal with H : negb _ = true |- _ => rewrite (proj1 (negb_true_iff _) H) end. cbn [mbind option_bind]. apply parse_data; [done|].
    rewrite zlen_fix_endian, zlen_slice; unfold fits in *; lia.
Qed.

Lemma parse_entries_bytes img limit fws rest : forallb (fw_ok limit) fws = true -> limit <= zlen img ->
  parse_entries (length fws) (concat (bytes img <$> concat fws) ++ rest) = Some (entry_of img <$> fws, rest).
Proof.
  intros Hok Hl. induction fws as [|l fws IH]; [done|]. cbn [forallb] in Hok. apply andb_true_iff in Hok as [H1 H2].
  cbn [concat parse_entries length]. rewrite fmap_app, concat_app, <- app_assoc, (parse_entry_bytes img limit) by done.
  cbn [mbind option_bind]. by rewrite IH.
Qed.

Lemma fw_ok_in_image img limit fws : forallb (fw_ok limit) fws = true -> limit <= zlen img ->
  Forall (in_image img) (concat fws).
Proof.
  intros Hok Hl. induction fws as [|l fws IH]; [constructor|]. cbn [forallb concat] in *. apply andb_true_iff in Hok as [H1 H2].
  apply Forall_app. split; [|by apply IH]. unfold fw_ok, fits in H1. repeat case_match; try discriminate; repeat constructor; lia.
Qed.

Lemma parse_file_bytes img limit fws name version : zlen name = 32 -> fits 16 version = true -> fits 16 (zlen fws) = true ->
  forallb (fw_ok limit) fws = true -> limit <= zlen img ->
  parse_file (name ++ le_bytes 2 version ++ le_bytes 2 (zlen fws) ++ concat (bytes img <$> concat fws)) =
  Some (name, version, entry_of img <$> fws).
Proof.
  intros Hn Hv Hz Hok Hl. unfold parse_file. destruct (slice_off 32 name (le_bytes 2 version ++ le_bytes 2 (zlen fws) ++
    concat (bytes img <$> concat fws)) Hn) as [-> ->].
  rewrite take_le16 by done. cbn [mbind option_bind]. rewrite take_le16 by done. cbn [mbind option_bind].
  unfold zlen at 1. rewrite Nat2Z.id. pose proof (parse_entries_bytes img limit fws [] Hok Hl) as Hp. rewrite app_nil_r in Hp.
  rewrite Hp. done.
Qed.

(** ** The files *)

Fixpoint outfile (h : list (event call)) : option string :=
  match h with
  | [] => None
  | (OpenOut f, _) :: _ => Some f
  | _ :: h => outfile h
  end.

(** What a file holds that the script opened. *)
Fixpoint contents (f : string) (h : list (event call)) : option (list Z) :=
  match h with
  | [] => None
  | (OpenOut g, _) :: h => if String.eqb g f then Some [] else contents f h
  | (Syswrite b, _) :: h => if bool_decide (outfile h = Some f) then (fun c => c ++ b) <$> contents f h else contents f h
  | _ :: h => contents f h
  end.

Lemma outfile_plain t h : Forall plain t -> outfile (t ++ h) = outfile h.
Proof. induction 1 as [|[c a] t Hc Ht IH]; [done|]. by destruct c. Qed.

Lemma contents_plain f t h : Forall plain t ->
  contents f (t ++ h) = if bool_decide (outfile h = Some f) then (fun c => c ++ concat (output t)) <$> contents f h else contents f h.
Proof.
  intros Ht. induction Ht as [|[c a] t Hc Ht IH].
  - cbn [app]. case_bool_decide; [|done]. destruct (contents f h); [|done]. cbn. by rewrite app_nil_r.
  - pose proof (output_cons c a t) as Eo. unfold event in *.
    destruct c; try done; cbn [app contents]; rewrite ?outfile_plain by done; rewrite IH, Eo; cbn [shown shows];
      rewrite ?app_nil_r; try done. case_bool_decide; [|done]. destruct (contents f h); [|done]. cbn.
    rewrite concat_app, app_assoc. cbn. by rewrite ?app_nil_r.
Qed.

Lemma main_firmware_wp K W f img fws out name version limit h :
  lives_in K W -> image W f = Some img -> infile h = Some f -> (String.length name <= 32)%nat ->
  fits 16 version = true -> fits 16 (zlen fws) = true -> forallb (fw_ok limit) fws = true -> limit <= zlen img ->
  wp (main_firmware fws out name version (zlen fws)) K tt h (fun r _ h' => r = Ret tt /\
    (exists b, contents out h' = Some b /\
       parse_file b = Some (bytes_of_string name ++ replicate (32 - String.length name) 0, version, entry_of img <$> fws)) /\
    (forall g, g <> out -> contents g h' = contents g h)).
Proof.
  intros HK Himg Hf Hn Hv Hz Hok Hl. unfold main_firmware. wp_step. apply wp_sys_any. intros a. wp_step.
  set (nm := bytes_of_string name ++ _). pose proof (fw_ok_in_image img limit fws Hok Hl) as Hin.
  eapply wp_wand; [apply (writes_bind K _ _ _ nm); [apply writes_syswrite|]; intros t1 Ht1;
    apply (writes_bind K _ _ _ (le_bytes 2 version)); [rewrite <- le16_bytes; apply writes_syswrite|]; intros t2 Ht2;
    apply (writes_bind K _ _ _ (le_bytes 2 (zlen fws))); [rewrite <- le16_bytes; apply writes_syswrite|]; intros t3 Ht3;
    apply (run_writes K W HK f img Himg _ Hin); by rewrite !infile_plain|].
  intros r [] h' (-> & t & -> & Ht & Hb). split; [done|]. split.
  - eexists. rewrite contents_plain by done. cbn [outfile contents]. rewrite bool_decide_true, String.eqb_refl by done.
    split; [reflexivity|]. rewrite Hb. cbn [app]. apply (parse_file_bytes img limit); try done.
    unfold nm. rewrite zlen_app. unfold zlen. rewrite length_bytes_of_string, length_replicate. lia.
  - intros g Hg. rewrite contents_plain by done. cbn [outfile contents].
    rewrite bool_decide_false by congruence. by rewrite (proj2 (String.eqb_neq _ _)) by done.
Qed.

(** One of the two extractions; [reach] is how far into its source the tables go. *)
Definition extracts (W : world) (src hash out name : string) (version reach : Z) (fws : list (list stmt))
    (h h' : list (event call)) : Prop :=
  match image W src with
  | None => contents out h' = contents out h
  | Some img => exists b, contents out h' = Some b /\
      parse_file b = Some (bytes_of_string name ++ replicate (32 - String.length name) 0, version, entry_of img <$> fws)
  end.

(** The source, where there is one, is the one the tables are made for. *)
Definition genuine (W : world) (src hash : string) (reach : Z) : Prop :=
  forall img, image W src = Some img -> sum W src = bytes_of_string hash /\ reach <= zlen img.

Lemma extract_wp K W src hash out name version reach fws h :
  lives_in K W -> genuine W src hash reach -> (String.length name <= 32)%nat ->
  fits 16 version = true -> fits 16 (zlen fws) = true -> forallb (fw_ok reach) fws = true ->
  wp (extract src hash (main_firmware fws out name version (zlen fws))) K tt h (fun r _ h' => r = Ret tt /\
    extracts W src hash out name version reach fws h h' /\ (forall g, g <> out -> contents g h' = contents g h)).
Proof.
  intros HK Hg Hn Hv Hz Hok. unfold extract, extracts. wp_step. apply wp_sys_eq. intros e Ee.
  assert (ret e = match image W src with Some _ => 1 | None => 0 end) as He by (rewrite <- Ee; apply (in_exists K W HK)).
  wp_step. rewrite He. destruct (image W src) as [img|] eqn:Himg; cbn [truthy Z.eqb negb]; [|by wp_step].
  destruct (Hg img Himg) as [Hsum Hreach]. unfold verify. do 3 wp_step. apply wp_sys_eq. intros w Ew.
  assert (ret w = 0) as Hw by (rewrite <- Ew; apply (in_which K W HK)). wp_step. rewrite Hw. cbn [truthy Z.eqb negb].
  do 4 wp_step. apply wp_sys_eq. intros l El.
  assert (captured (data l) = bytes_of_string hash) as Hl by (rewrite <- El, (in_sum K W HK); done).
  wp_step. rewrite Hl, bool_decide_true by done. cbn [negb]. do 3 wp_step. apply wp_sys_any. intros o. do 2 wp_step.
  eapply wp_wand; [by eapply main_firmware_wp|]. intros r [] h' (-> & (b & Hb & Hp) & Hrest). wp_go.
  split; [done|]. split; [by exists b|]. intros g Hne. exact (Hrest g Hne).
Qed.

(** The limits are those of the tables. *)
Lemma firmwares_24_ok : forallb (fw_ok 310008) firmwares_24 = true /\ zlen firmwares_24 = 77.
Proof. by vm_compute. Qed.

Lemma firmwares_27_ok : forallb (fw_ok 872457) firmwares_27 = true /\ zlen firmwares_27 = 80.
Proof. by vm_compute. Qed.

(** C15: With any of the two drivers the tables are made for at hand, the script ends well and the file it writes for it
    is read back completely by the format: as many entries as announced, each with the type, id and frequency of the table and with
    as many bytes as its size says, those of its hunk with every record length swapped.  Without a driver its file is
    not touched. *)
Theorem firmwares_readable K W : lives_in K W ->
  genuine W sourcefile_24 hash_24 310008 -> genuine W sourcefile_27 hash_27 872457 ->
  wp script K tt [] (fun r _ h => r = Ret tt /\
    extracts W sourcefile_24 hash_24 outfile_24 firmware_name 516 310008 firmwares_24 [] h /\
    extracts W sourcefile_27 hash_27 outfile_27 firmware_name 519 872457 firmwares_27 [] h).
Proof.
  intros HK H24 H27. unfold script, extract_firmware, main_firmware_24, main_firmware_27.
  destruct firmwares_24_ok as [Ht24 Hz24]. destruct firmwares_27_ok as [Ht27 Hz27]. do 2 wp_step.
  rewrite <- Hz24, <- Hz27. eapply wp_wand; [apply (extract_wp K W _ _ _ _ _ 310008); try done; cbn; try lia; by rewrite Hz24|].
  intros r [] h1 (-> & Hx1 & Hr1). wp_step.
  eapply wp_wand; [apply (extract_wp K W _ _ _ _ _ 872457); try done; cbn; try lia; by rewrite Hz27|].
  intros r [] h2 (-> & Hx2 & Hr2). wp_go. split; [done|]. unfold extracts in *. cbn [contents].
  rewrite (Hr2 outfile_24) by done. rewrite (Hr1 outfile_27) in Hx2 by done. done.
Qed.

(** *** Records *)

(** A record: a length and as many bytes, or a command, which has none. *)
Definition rec_ok (r : Z * list Z) : Prop :=
  0 <= r.1 < 65536 /\ zlen r.2 = if (0 <? r.1) && (r.1 <? 0x8000) then r.1 else 0.

Definition be_record (r : Z * list Z) : list Z := [r.1 / 256; r.1 mod 256] ++ r.2.
Definition le_record (r : Z * list Z) : list Z := le_bytes 2 r.1 ++ r.2.

Lemma swapped_records rs : Forall rec_ok rs -> forall fuel, (length (concat (be_record <$> rs)) <= fuel)%nat ->
  swapped fuel (concat (be_record <$> rs)) = concat (le_record <$> rs).
Proof.
  induction 1 as [|[v d] rs [Hv Hd] Hrs IH]; intros fuel Hf; [by destruct fuel|]. cbn [fst snd] in *.
  cbn [fmap list_fmap concat be_record le_record fst snd app length] in *. destruct fuel as [|fuel]; [lia|]. cbn [swapped].
  replace (v / 256 * 256 + v mod 256) with v by (pose proof (Z.div_mod v 256); lia).
  replace (if (0 <? v) && (v <? 0x8000) then Z.to_nat v else 0%nat) with (length d) by (unfold zlen in Hd; destruct (_ && _); lia).
  rewrite take_app_length, drop_app_length, IH by (rewrite length_app in Hf; lia).
  unfold le_record. cbn [fst snd]. change (le_bytes 2 v) with [Z.land v (Z.ones 8); Z.land (Z.shiftr v 8) (Z.ones 8)].
  rewrite !Z.land_ones, Z.shiftr_div_pow2 by lia. change (2 ^ 8) with 256. rewrite (Z.mod_small (v / 256)) by (split; [apply Z.div_pos|apply Z.div_lt_upper_bound]; lia).
  done.
Qed.

(** A hunk of records whose lengths have the high byte first is written with the low byte first and the bytes of the records as they are. *)
Theorem hunk_records_swapped K W f img offset rs h : lives_in K W -> image W f = Some img -> infile h = Some f ->
  Forall rec_ok rs -> 0 <= offset <= zlen img -> slice img offset (zlen (concat (be_record <$> rs))) = concat (be_record <$> rs) ->
  writes K (write_hunk_fix_endian offset (zlen (concat (be_record <$> rs)))) h (concat (le_record <$> rs)).
Proof.
  intros HK Himg Hf Hrs Ho Hs. rewrite <- (swapped_records rs Hrs (length (concat (be_record <$> rs)))) by lia.
  set (l := concat (be_record <$> rs)) in *. replace (swapped (length l) l) with (bytes img (HunkFixEndian offset (zlen l))) by (cbn [bytes]; by rewrite Hs).
  apply (exec_writes K W HK f img Himg (HunkFixEndian offset (zlen l)) h Hf). cbn [in_image]. split; [lia|].
  split; [apply zlen_nonneg|]. apply (f_equal zlen) in Hs. unfold slice, zlen, ztake, zdrop in *.
  rewrite length_take, length_drop in Hs. lia.
Qed.

(** *** Sources are checked *)

Definition keeps (c : call) : Prop := match c with OpenOut _ => False | _ => True end.

Lemma emits_syswrite b : emits keeps (syswrite b).
Proof. unfold syswrite. emits. Qed.

Lemma emits_die {A} msg : emits keeps (@die A msg).
Proof. unfold die. emits. Qed.

#[local] Hint Resolve emits_syswrite emits_die : emits.

Lemma emits_get_loop fuel : forall n out, emits keeps (get_loop fuel n out).
Proof. induction fuel as [|fuel IH]; intros n out; cbn [get_loop]; emits; auto with emits. Qed.

Lemma emits_get_hunk o n : emits keeps (get_hunk o n).
Proof. unfold get_hunk. emits. apply emits_get_loop. Qed.

Lemma emits_copy_loop n : forall out i j, emits keeps (copy_loop n out i j).
Proof. induction n as [|n IH]; intros out i j; cbn [copy_loop]; emits; auto with emits. Qed.

Lemma emits_fix_loop fuel : forall out n i, emits keeps (fix_loop fuel out n i).
Proof. induction fuel as [|fuel IH]; intros out n i; cbn [fix_loop]; emits; auto using emits_copy_loop with emits. Qed.

#[local] Hint Resolve emits_get_hunk emits_fix_loop : emits.

Lemma emits_run l : emits keeps (run l).
Proof.
  induction l as [|s l IH]; cbn [run]; emits.
  destruct s; cbn [exec]; unfold write_le16, write_le32, write_le64, write_hunk, write_hunk_fix_endian; emits; auto with emits.
Qed.

(** The outputs with their sources and the sums of those. *)
Definition sources : list (string * (string * string)) :=
  [(outfile_24, (sourcefile_24, hash_24)); (outfile_27, (sourcefile_27, hash_27))].

(** When an output was opened its source had been checked. *)
Fixpoint checked (h : list (event call)) : Prop :=
  match h with
  | [] => True
  | (OpenOut out, _) :: h =>
      (exists src hash line, (out, (src, hash)) ∈ sources /\ (Md5sum src, line) ∈ h /\ captured (data line) = bytes_of_string hash) /\
      checked h
  | _ :: h => checked h
  end.

Lemma checked_app t h : Forall (fun e => keeps e.1) t -> checked h -> checked (t ++ h).
Proof. induction 1 as [|[c a] t Hc Ht IH]; [done|]. intros Hh. destruct c; try done; by apply IH. Qed.

Lemma extract_checked K src hash out fws name version n h : (out, (src, hash)) ∈ sources -> checked h ->
  wp (extract src hash (main_firmware fws out name version n)) K tt h (fun _ _ h' => checked h').
Proof.
  intros Hs Hh. unfold extract, verify. wp_step. apply wp_sys_any. intros e. do 2 wp_step; [|by wp_step].
  do 3 wp_step. apply wp_sys_any. intros w. do 3 wp_step; [unfold die; by wp_go|]. do 3 wp_step. apply wp_sys_any. intros l.
  wp_step. case_bool_decide as Hl; cbn [negb]; [|unfold die; by wp_go]. do 3 wp_step. apply wp_sys_any. intros o. do 2 wp_step.
  unfold main_firmware. wp_step. apply wp_sys_any. intros p. wp_step. cbv zeta.
  eapply wp_wand; [apply (emits_bind keeps); [apply emits_syswrite|intros _]; apply (emits_bind keeps); [apply emits_syswrite|intros _];
    apply (emits_bind keeps); [apply emits_syswrite|intros _; apply emits_run]|].
  intros r s h' (t & -> & Ht).
  assert (checked (t ++ (OpenOut out, p) :: (OpenIn src, o) :: (Md5sum src, l) :: (Which, w) :: (Exists src, e) :: h)) as Hc.
  { apply checked_app; [done|]. cbn [checked]. split; [|done]. exists src, hash, l. split; [done|]. split; [|done].
    right. left. }
  destruct r; wp_go; done.
Qed.

(** Whatever the commands and files answer and however the script ends, no output file was opened before the MD5 sum of its
    source was found right. *)
Theorem outputs_checked K : wp script K tt [] (fun _ _ h => checked h).
Proof.
  unfold script, extract_firmware, main_firmware_24, main_firmware_27. do 2 wp_step.
  eapply wp_wand; [apply extract_checked; [left|done]|]. intros r [] h Hh.
  destruct r; wp_step; [|by wp_step..]. eapply wp_wand; [apply extract_checked; [right; left|done]|]. intros r [] h' Hh'.
  destruct r; wp_go; done.
Qed.

(** *** A kernel with files *)

Definition kernel_of (W : world) : kernel call := fun h c =>
  match c with
  | Exists f => aret (match image W f with Some _ => 1 | None => 0 end)
  | Md5sum f => Ans 0 0 (sum W f ++ [32])
  | Sysread n =>
      match infile h ≫= image W with
      | Some img => let d := ztake n (zdrop (position h) img) in Ans (zlen d) 0 d
      | None => aerr 9
      end
  | _ => aret 0
  end.

Lemma kernel_of_lives W : (forall f, captured (sum W f ++ [32]) = sum W f) -> lives_in (kernel_of W) W.
Proof. intros Hs. split; intros; cbn; [done|done|apply Hs|]. rewrite H. cbn. by rewrite H0. Qed.

(** The first driver alone. *)
Definition first_driver : world := World
  (fun f => if String.eqb f sourcefile_24 then Some (replicate (Z.to_nat 310008) 0) else None)
  (fun f => bytes_of_string (if String.eqb f sourcefile_24 then hash_24 else EmptyString)).

Lemma firmwares_readable_witness :
  let h := (script (kernel_of first_driver) tt []).2 in
  (exists b, contents outfile_24 h = Some b /\
     (fun p => (p.1.2, length p.2)) <$> parse_file b = Some (516, 77%nat)) /\ contents outfile_27 h = None.
Proof.
  pose proof (firmwares_readable (kernel_of first_driver) first_driver) as Hw.
  assert (lives_in (kernel_of first_driver) first_driver) as HK.
  { apply kernel_of_lives. intros f. cbn [sum first_driver]. by destruct (String.eqb f sourcefile_24). }
  assert (genuine first_driver sourcefile_24 hash_24 310008) as H1.
  { intros img Hi. cbn [image sum first_driver] in *. rewrite String.eqb_refl in *. apply (inj Some) in Hi as <-. split; [reflexivity|].
    rewrite zlen_replicate; lia. }
  assert (genuine first_driver sourcefile_27 hash_27 872457) as H2 by done.
  pose proof (wp_result _ _ _ _ _ (Hw HK H1 H2)) as (_ & Hx & Hy). cbv zeta. unfold extracts in Hx, Hy. cbn [image first_driver] in Hx, Hy.
  rewrite String.eqb_refl in Hx. destruct Hx as (b & Hb & Hp). split; [|exact Hy]. exists b. split; [exact Hb|].
  rewrite Hp. cbn [fmap option_fmap option_map fst snd]. rewrite length_fmap. reflexivity.
Defined.

(** Two records and a command in the middle of a file. *)
Definition few_records : list (Z * list Z) := [(3, [1; 2; 3]); (0x8001, []); (256, replicate 256 7)].

Lemma hunk_records_swapped_witness :
  let W := World (fun _ => Some ([9; 9] ++ concat (be_record <$> few_records) ++ [9])) (fun _ => []) in
  writes (kernel_of W) (write_hunk_fix_endian 2 265) [(OpenIn sourcefile_24, aret 3)] (concat (le_record <$> few_records)).
Proof.
  intros W. refine (hunk_records_swapped (kernel_of W) W sourcefile_24 ([9; 9] ++ concat (be_record <$> few_records) ++ [9]) 2 few_records
    [(OpenIn sourcefile_24, aret 3)] _ eq_refl eq_refl _ _ _).
  - by apply kernel_of_lives.
  - repeat constructor; cbn; lia.
  - split; [lia|]. vm_compute. discriminate.
  - vm_compute. reflexivity.
Defined.

End Xc3028.
