(* ===== verification/Edid.v ===== *)
(** * Monitor descriptions: EDID/edid.S

    The assembler template makes the 128 bytes a monitor describes itself by out of the
    macros a mode file such as 1024x768.S defines.  The theorems read the bytes back as the
    EDID 1.3 standard lays them out, for any mode in the range of the template and
    for the six modes that come with it. *)

From S2P Require Import Prelude CArray.

Module Edid.

Open Scope Z_scope.

(** ** Macros of a mode file *)

Record timing : Type := Timing {
  VERSION : Z; REVISION : Z;
  CLOCK : Z; XPIX : Z; YPIX : Z; XY_RATIO : Z; XBLANK : Z; YBLANK : Z;
  XOFFSET : Z; XPULSE : Z; YOFFSET : Z; YPULSE : Z;
  DPI : Z; VFREQ : Z; TIMING_NAME : string;
  ESTABLISHED_TIMING1_BITS : Z; ESTABLISHED_TIMING2_BITS : Z; ESTABLISHED_TIMING3_BITS : Z;
  HSYNC_POL : Z; VSYNC_POL : Z; CRC : Z
}.

Definition XY_RATIO_16_10 := 0.
Definition XY_RATIO_4_3 := 1.
Definition XY_RATIO_5_4 := 2.
Definition XY_RATIO_16_9 := 3.

Definition _800x600 : timing :=
  Timing 1 3 40000 800 600 XY_RATIO_4_3 256 28 40 128 (63 + 1) (63 + 4) 72 60 "Linux SVGA" 0x01 0 0 1 1 0xc2.
Definition _1024x768 : timing :=
  Timing 1 3 65000 1024 768 XY_RATIO_4_3 320 38 8 144 (63 + 3) (63 + 6) 72 60 "Linux XGA" 0 0x08 0 0 0 0x55.
Definition _1280x1024 : timing :=
  Timing 1 3 108000 1280 1024 XY_RATIO_5_4 408 42 48 112 (63 + 1) (63 + 3) 72 60 "Linux SXGA" 0 0 0 1 1 0xa0.
Definition _1600x1200 : timing :=
  Timing 1 3 162000 1600 1200 XY_RATIO_4_3 560 50 64 192 (63 + 1) (63 + 3) 72 60 "Linux UXGA" 0 0 0 1 1 0x9d.
Definition _1680x1050 : timing :=
  Timing 1 3 146250 1680 1050 XY_RATIO_16_10 560 39 104 176 (63 + 3) (63 + 6) 96 60 "Linux WSXGA" 0 0 0 1 1 0x26.
Definition _1920x1080 : timing :=
  Timing 1 3 148500 1920 1080 XY_RATIO_16_9 280 45 88 44 (63 + 4) (63 + 5) 96 60 "Linux FHD" 0 0 0 1 1 0x05.

(** ** The template *)

Definition SERIAL := 0.
Definition YEAR := 2012.
Definition WEEK := 5.

(** Directives: a value is cut to the size of its place. *)
Definition byte (v : Z) : list Z := [u8 v].
Definition word (v : Z) : list Z := le_bytes 2 v.
Definition long (v : Z) : list Z := le_bytes 4 v.
Definition fill (n : Z) (v : list Z) : list Z := concat (replicate (Z.to_nat n) v).

Definition mfgname2id (v1 v2 v3 : Z) : Z :=
  Z.shiftl (Z.land (v1 - 64) 0x1f) 10 + Z.shiftl (Z.land (v2 - 64) 0x1f) 5 + Z.land (v3 - 64) 0x1f.
Definition swap16 (v1 : Z) : Z := Z.shiftr v1 8 + Z.shiftl (Z.land v1 0xff) 8.
Definition msbs2 (v1 v2 : Z) : Z := Z.shiftl (Z.land (Z.shiftr v1 8) 0x0f) 4 + Z.land (Z.shiftr v2 8) 0x0f.
Definition msbs4 (v1 v2 v3 v4 : Z) : Z :=
  Z.shiftr (Z.land v1 0x03) 2 + Z.shiftr (Z.land v2 0x03) 4 + Z.shiftr (Z.land v3 0x03) 6 + Z.shiftr (Z.land v4 0x03) 8.
Definition pixdpi2mm (pix dpi : Z) : Z := Z.quot (pix * 25) dpi.

Section Template.
Context (t : timing).

Definition xsize : Z := pixdpi2mm (XPIX t) (DPI t).
Definition ysize : Z := pixdpi2mm (YPIX t) (DPI t).

(** From [header] to [revision]; the name is LNX. *)
Definition vendor : list Z :=
  byte 0x00 ++ byte 0xff ++ byte 0xff ++ byte 0xff ++ byte 0xff ++ byte 0xff ++ byte 0xff ++ byte 0x00 ++
  word (swap16 (mfgname2id 76 78 88)) ++
  word 0 ++
  long SERIAL ++
  byte WEEK ++
  byte (YEAR - 1990) ++
  byte (VERSION t) ++
  byte (REVISION t).

(** From [video_parms] to [dsp_features]. *)
Definition basic : list Z :=
  byte 0x6d ++ byte (Z.quot xsize 10) ++ byte (Z.quot ysize 10) ++ byte 120 ++ byte 0xea.

(** From [red_green_lsb] to [white_x_y_msb]. *)
Definition chromaticity : list Z :=
  byte 0x5e ++ byte 0xc0 ++ byte 0xa4 ++ byte 0x59 ++ byte 0x4a ++ byte 0x98 ++ byte 0x25 ++ byte 0x20 ++ byte 0x50 ++ byte 0x54.

Definition established : list Z :=
  byte (ESTABLISHED_TIMING1_BITS t) ++ byte (ESTABLISHED_TIMING2_BITS t) ++ byte (ESTABLISHED_TIMING3_BITS t).

(** From [std_xres] on. *)
Definition standard : list Z :=
  byte (Z.quot (XPIX t) 8 - 31) ++
  byte (Z.shiftl (XY_RATIO t) 6 + VFREQ t - 60) ++
  fill 7 (word 0x0101).

Definition descriptor1 : list Z :=
  word (Z.quot (CLOCK t) 10) ++
  byte (Z.land (XPIX t) 0xff) ++
  byte (Z.land (XBLANK t) 0xff) ++
  byte (msbs2 (XPIX t) (XBLANK t)) ++
  byte (Z.land (YPIX t) 0xff) ++
  byte (Z.land (YBLANK t) 0xff) ++
  byte (msbs2 (YPIX t) (YBLANK t)) ++
  byte (Z.land (XOFFSET t) 0xff) ++
  byte (Z.land (XPULSE t) 0xff) ++
  byte (Z.shiftl (YOFFSET t - 63) 4 + (YPULSE t - 63)) ++
  byte (msbs4 (XOFFSET t) (XPULSE t) (YOFFSET t) (YPULSE t)) ++
  byte (Z.land xsize 0xff) ++
  byte (Z.land ysize 0xff) ++
  byte (msbs2 xsize ysize) ++
  byte 0 ++
  byte 0 ++
  byte (0x18 + Z.shiftl (VSYNC_POL t) 2 + Z.shiftl (HSYNC_POL t) 1).

(** A field of text with its end marker and padding. *)
Definition padded (text : list Z) : list Z := text ++ byte 0x0a ++ fill (12 - zlen text) (byte 0x20).

Definition descriptor2 : list Z :=
  byte 0 ++ byte 0 ++ byte 0 ++ byte 0xff ++ byte 0 ++ padded (bytes_of_string "Linux #0").

Definition descriptor3 : list Z :=
  byte 0 ++ byte 0 ++ byte 0 ++ byte 0xfd ++ byte 0 ++
  padded (byte (VFREQ t - 1) ++
          byte (VFREQ t + 1) ++
          byte (Z.quot (CLOCK t) (XPIX t + XBLANK t) - 1) ++
          byte (Z.quot (CLOCK t) (XPIX t + XBLANK t) + 1) ++
          byte (Z.quot (CLOCK t) 10000 + 1) ++
          byte 0).

Definition descriptor4 : list Z :=
  byte 0 ++ byte 0 ++ byte 0 ++ byte 0xfc ++ byte 0 ++ padded (bytes_of_string (TIMING_NAME t)).

Definition edid : list Z :=
  vendor ++ basic ++ chromaticity ++ established ++ standard ++
  descriptor1 ++ descriptor2 ++ descriptor3 ++ descriptor4 ++
  byte 0 ++
  byte (CRC t).

End Template.

(** ** Reading a block *)

(** What a driver learns from it. *)
Record mode : Type := Mode {
  clock : Z;
  hactive : Z; hblank : Z; vactive : Z; vblank : Z;
  hsync_offset : Z; hsync_pulse : Z; vsync_offset : Z; vsync_pulse : Z;
  hsize_mm : Z; vsize_mm : Z;
  interlaced : bool; separate_sync : bool; hsync_positive : bool; vsync_positive : bool;
  name : option (list Z)
}.

(** Text up to its end marker. *)
Fixpoint upto (e : Z) (l : list Z) : list Z := match l with c :: l => if c =? e then [] else c :: upto e l | [] => [] end.

(** The text of the first of the four descriptors that is no timing and has the tag. *)
Definition text_with (tag : Z) (b : list Z) : option (list Z) :=
  match List.find (fun k => (znth b k =? 0) && (znth b (k + 1) =? 0) && (znth b (k + 3) =? tag)) [54; 72; 90; 108] with
  | Some k => Some (upto 0x0a (ztake 13 (zdrop (k + 5) b)))
  | None => None
  end.

(** The first detailed timing descriptor, at byte 54, and the name of the monitor. *)
Definition decode (b : list Z) : mode :=
  let d k := znth b (54 + k) in
  Mode (10 * (d 0 + 256 * d 1))
    (d 2 + 256 * (d 4 / 16)) (d 3 + 256 * (d 4 mod 16))
    (d 5 + 256 * (d 7 / 16)) (d 6 + 256 * (d 7 mod 16))
    (d 8 + 256 * (d 11 / 64)) (d 9 + 256 * (d 11 / 16 mod 4))
    (d 10 / 16 + 16 * (d 11 / 4 mod 4)) (d 10 mod 16 + 16 * (d 11 mod 4))
    (d 12 + 256 * (d 14 / 16)) (d 13 + 256 * (d 14 mod 16))
    (Z.testbit (d 17) 7) (d 17 / 8 mod 4 =? 3) (Z.testbit (d 17) 1) (Z.testbit (d 17) 2)
    (text_with 0xfc b).

(** 128 bytes, the header and a sum of 0. *)
Definition valid (b : list Z) : bool :=
  (zlen b =? 128) && bool_decide (ztake 8 b = [0] ++ replicate 6 255 ++ [0]) && (foldr Z.add 0 b mod 256 =? 0) &&
  forallb (fun x => (0 <=? x) && (x <? 256)) b.

Definition shipped : list timing := [_800x600; _1024x768; _1280x1024; _1600x1200; _1680x1050; _1920x1080].

(** ** The theorems *)

(** The ranges the comments of the template give for the places of the values. *)
Definition in_range (t : timing) : Prop :=
  10 <= CLOCK t <= 655359 /\
  0 <= XPIX t < 4096 /\ 0 <= XBLANK t < 4096 /\ 0 <= YPIX t < 4096 /\ 0 <= YBLANK t < 4096 /\
  0 <= XOFFSET t < 1024 /\ 0 <= XPULSE t < 1024 /\ 63 <= YOFFSET t < 127 /\ 63 <= YPULSE t < 127 /\
  0 <= xsize t < 4096 /\ 0 <= ysize t < 4096 /\ HSYNC_POL t ∈ [0; 1] /\ VSYNC_POL t ∈ [0; 1] /\
  (String.length (TIMING_NAME t) <= 12)%nat /\ (10 ∉ bytes_of_string (TIMING_NAME t)).

(** The offsets and widths of the synchronisation pulse fit the places of their low bits. *)
Definition short_sync (t : timing) : Prop :=
  XOFFSET t < 256 /\ XPULSE t < 256 /\ YOFFSET t - 63 < 16 /\ YPULSE t - 63 < 16.

(** The mode a block is made for, with the pulse that is read from the block. *)
Definition mode_of (t : timing) (hoff hpulse voff vpulse : Z) : mode :=
  Mode (CLOCK t / 10 * 10) (XPIX t) (XBLANK t) (YPIX t) (YBLANK t) hoff hpulse voff vpulse (xsize t) (ysize t)
    false true (HSYNC_POL t =? 1) (VSYNC_POL t =? 1) (Some (bytes_of_string (TIMING_NAME t))).

Lemma low8 v : u8 (Z.land v 0xff) = v mod 256.
Proof. unfold u8, wrap. change 0xff with (Z.ones 8). rewrite Z.land_ones by lia. change (2 ^ 8) with 256. apply Z.mod_mod. lia. Qed.

Lemma msbs2_spec v1 v2 : 0 <= v1 < 4096 -> 0 <= v2 < 4096 -> u8 (msbs2 v1 v2) = 16 * (v1 / 256) + v2 / 256.
Proof.
  intros H1 H2. unfold msbs2, u8, wrap. change 0x0f with (Z.ones 4). rewrite !Z.land_ones, !Z.shiftr_div_pow2, Z.shiftl_mul_pow2 by lia.
  change (2 ^ 8) with 256. change (2 ^ 4) with 16. Z.to_euclidean_division_equations. lia.
Qed.

(** The masks keep the two bits the shifts drop. *)
Lemma msbs4_zero v1 v2 v3 v4 : msbs4 v1 v2 v3 v4 = 0.
Proof.
  unfold msbs4. change 0x03 with (Z.ones 2). rewrite !Z.land_ones, !Z.shiftr_div_pow2 by lia.
  rewrite !Z.div_small; [done|..]; (split; [apply Z.mod_pos_bound; lia|]; eapply Z.lt_le_trans; [apply Z.mod_pos_bound; lia|lia]).
Qed.

Lemma zlen_padded text : zlen text <= 12 -> zlen (padded text) = 13.
Proof.
  intros Ht. unfold padded, fill, byte. rewrite !zlen_app.
  assert (forall n, zlen (concat (replicate n [u8 32])) = Z.of_nat n) as Hf.
  { induction n as [|n IH]; [done|]. cbn [replicate concat]. rewrite zlen_app, IH, zlen_one. lia. }
  rewrite Hf, zlen_one. lia.
Qed.

Lemma zlen_edid t : (String.length (TIMING_NAME t) <= 12)%nat -> zlen (edid t) = 128.
Proof.
  intros Hn. unfold edid, descriptor4. rewrite !zlen_app, zlen_padded by (unfold zlen; rewrite length_bytes_of_string; lia). reflexivity.
Qed.

Lemma upto_app e l r : e ∉ l -> upto e (l ++ e :: r) = l.
Proof.
  induction l as [|c l IH]; intros H; [cbn; by rewrite Z.eqb_refl|]. apply not_elem_of_cons in H as [Hc H]. cbn.
  rewrite (proj2 (Z.eqb_neq c e)) by congruence. by rewrite IH.
Qed.

Lemma name_read t : in_range t -> text_with 0xfc (edid t) = Some (bytes_of_string (TIMING_NAME t)).
Proof.
  intros (Hc & _ & _ & _ & _ & _ & _ & _ & _ & _ & _ & _ & _ & Hn & H10).
  assert (ztake 13 (zdrop 113 (edid t)) = padded (bytes_of_string (TIMING_NAME t))) as Ht.
  { change (zdrop 113 (edid t)) with (padded (bytes_of_string (TIMING_NAME t)) ++ byte 0 ++ byte (CRC t)).
    pose proof (zlen_padded (bytes_of_string (TIMING_NAME t))) as Hz. unfold zlen in Hz. rewrite length_bytes_of_string in Hz.
    unfold ztake. rewrite take_app_le by lia. apply take_ge. lia. }
  unfold text_with. set (q := fun k => _).
  assert (q 54 = false) as H54.
  { change (q 54) with ((Z.land (Z.quot (CLOCK t) 10) (Z.ones 8) =? 0) && (Z.land (Z.shiftr (Z.quot (CLOCK t) 10) 8) (Z.ones 8) =? 0) &&
      (u8 (Z.land (XBLANK t) 0xff) =? 0xfc)).
    rewrite !Z.land_ones, Z.shiftr_div_pow2, Z.quot_div_nonneg by lia. change (2 ^ 8) with 256.
    apply andb_false_iff. left. apply andb_false_iff.
    rewrite !Z.eqb_neq. Z.to_euclidean_division_equations. lia. }
  cbn [List.find]. rewrite H54. change (q 72) with false. change (q 90) with false. change (q 108) with true. cbv iota.
  change (108 + 5) with 113. rewrite Ht. unfold padded, byte. f_equal. by apply upto_app.
Qed.

(** C32: Any block the template makes is 128 bytes long and is read back as the mode it was made for: the clock to 10 kHz, the resolution and blanking, the
    size, separate synchronisation with the two polarities, no interlacing, and the name.  The offset and width of the synchronisation pulse are
    those of the mode when they are below 256 pixels and 16 lines; otherwise the horizontal ones lose what exceeds 8 bits, and the
    vertical ones 4, the overflow of the width going into the offset. *)
Theorem block_decodes t : in_range t ->
  zlen (edid t) = 128 /\
  (short_sync t -> decode (edid t) = mode_of t (XOFFSET t) (XPULSE t) (YOFFSET t - 63) (YPULSE t - 63)) /\
  decode (edid t) = mode_of t (XOFFSET t mod 256) (XPULSE t mod 256)
    ((YOFFSET t - 63 + (YPULSE t - 63) / 16) mod 16) ((YPULSE t - 63) mod 16).
Proof.
  intros Hr. pose proof (name_read t Hr) as Hname. destruct Hr as (Hc & Hx & Hxb & Hy & Hyb & Hxo & Hxp & Hyo & Hyp & Hxs & Hys & Hhp & Hvp & Hn & _).
  split; [by apply zlen_edid|].
  assert (decode (edid t) = mode_of t (XOFFSET t mod 256) (XPULSE t mod 256)
    ((YOFFSET t - 63 + (YPULSE t - 63) / 16) mod 16) ((YPULSE t - 63) mod 16)) as E; [|split; [|exact E]].
  2: { intros (S1 & S2 & S3 & S4). rewrite E, (Z.mod_small (XOFFSET t)), (Z.mod_small (XPULSE t)), (Z.div_small (YPULSE t - 63)),
         (Z.mod_small (YPULSE t - 63)), Z.add_0_r, (Z.mod_small (YOFFSET t - 63)) by lia. done. }
  change (decode (edid t)) with
    (let c := Z.quot (CLOCK t) 10 in let x := u8 (msbs2 (XPIX t) (XBLANK t)) in let y := u8 (msbs2 (YPIX t) (YBLANK t)) in
     let s := u8 (msbs4 (XOFFSET t) (XPULSE t) (YOFFSET t) (YPULSE t)) in let m := u8 (msbs2 (xsize t) (ysize t)) in
     let v := u8 (Z.shiftl (YOFFSET t - 63) 4 + (YPULSE t - 63)) in let f := u8 (0x18 + Z.shiftl (VSYNC_POL t) 2 + Z.shiftl (HSYNC_POL t) 1) in
     Mode (10 * (Z.land c (Z.ones 8) + 256 * Z.land (Z.shiftr c 8) (Z.ones 8)))
       (u8 (Z.land (XPIX t) 0xff) + 256 * (x / 16)) (u8 (Z.land (XBLANK t) 0xff) + 256 * (x mod 16))
       (u8 (Z.land (YPIX t) 0xff) + 256 * (y / 16)) (u8 (Z.land (YBLANK t) 0xff) + 256 * (y mod 16))
       (u8 (Z.land (XOFFSET t) 0xff) + 256 * (s / 64)) (u8 (Z.land (XPULSE t) 0xff) + 256 * (s / 16 mod 4))
       (v / 16 + 16 * (s / 4 mod 4)) (v mod 16 + 16 * (s mod 4))
       (u8 (Z.land (xsize t) 0xff) + 256 * (m / 16)) (u8 (Z.land (ysize t) 0xff) + 256 * (m mod 16))
       (Z.testbit f 7) (f / 8 mod 4 =? 3) (Z.testbit f 1) (Z.testbit f 2) (text_with 0xfc (edid t))).
  cbv zeta. rewrite Hname, msbs4_zero, !low8, !msbs2_spec by done. change (u8 0) with 0. unfold mode_of.
  rewrite !elem_of_cons, elem_of_nil in Hhp, Hvp. destruct Hhp as [-> |[-> |[]]], Hvp as [-> |[-> |[]]]; cbn [Z.eqb Z.shiftl Pos.eqb]; unfold u8, wrap.
  all: rewrite Z.shiftl_mul_pow2, !Z.land_ones, Z.shiftr_div_pow2, Z.quot_div_nonneg by lia.
  all: change (2 ^ 8) with 256; change (2 ^ 4) with 16.
  all: f_equal; try reflexivity; Z.to_euclidean_division_equations; lia.
Qed.

(** The range limits of descriptor 3: field rate in Hz, line rate in kHz and clock in 10 MHz, around those of the mode. *)
Definition in_limits (b : list Z) : bool :=
  let m := decode b in
  let line := hactive m + hblank m in
  let frame := line * (vactive m + vblank m) in
  let l k := znth b (95 + k) in
  (l 0 * frame <=? 1000 * clock m) && (1000 * clock m <=? l 1 * frame) &&
  (l 2 * line <=? clock m) && (clock m <=? l 3 * line) && (clock m <=? l 4 * 10000).

(** Each of the six blocks that come with the template is valid: 128 bytes with the header and the right checksum; it is read
    back as its mode without any loss, its range limits contain the mode, and its standard timing names the same
    resolution and rate. *)
Theorem shipped_blocks : Forall (fun t =>
  valid (edid t) = true /\
  decode (edid t) = Mode (CLOCK t) (XPIX t) (XBLANK t) (YPIX t) (YBLANK t) (XOFFSET t) (XPULSE t)
    (YOFFSET t - 63) (YPULSE t - 63) (xsize t) (ysize t) false true (HSYNC_POL t =? 1) (VSYNC_POL t =? 1)
    (Some (bytes_of_string (TIMING_NAME t))) /\
  in_limits (edid t) = true /\
  (znth (edid t) 38 + 31) * 8 = XPIX t /\ znth (edid t) 39 mod 64 + 60 = VFREQ t /\
  XPIX t * nth (Z.to_nat (znth (edid t) 39 / 64)) [10; 3; 4; 9] 0 = YPIX t * nth (Z.to_nat (znth (edid t) 39 / 64)) [16; 4; 5; 16] 0) shipped.
Proof. repeat constructor. Qed.

Lemma block_decodes_witness : in_range _1600x1200 /\ zlen (edid _1600x1200) = 128 /\
  decode (edid _1600x1200) = mode_of _1600x1200 64 192 1 3.
Proof.
  assert (in_range _1600x1200) as H.
  { unfold in_range. repeat split; try (vm_compute; discriminate); try (apply (bool_decide_unpack _); vm_compute; exact I). }
  split; [exact H|]. destruct (block_decodes _1600x1200 H) as (H1 & H2 & _). split; [exact H1|]. apply H2. unfold short_sync. cbn. lia.
Defined.

End Edid.
