(* ===== verification/Scripts.v ===== *)
(** * Conversion scripts: networking/cxacru-cf.py and filesystems/cifs/winucase_convert.pl

    Two scripts that turn one file into another.  The theorems read their output
    back: the configuration values of a modem, and the two-level upper case tables
    of a file system. *)

From stdpp Require Import gmap.
From S2P Require Import Prelude CArray Numbers.

Open Scope Z_scope.

(** ** Modem configuration *)

Module Cxacru.

(** What a run prints to standard output and standard error, and its exit status. *)
Record result : Type := Result { stdout : list Z; stderr : list Z; status : Z }.

Definition nl_byte := 10.

(** [{0:x}={1}] *)
Definition pair_text (i v : Z) : list Z := print_number 16 i ++ [61] ++ print_number 10 v.

(** The loop from number [i] on; [out] was written before. *)
Fixpoint loop (i : Z) (out input : list Z) : result :=
  match input with
  | [] => Result (out ++ [nl_byte]) [] 0
  | a :: b :: c :: d :: input =>
      loop (i + 1) (out ++ (if 0 <? i then [32] else []) ++ pair_text i (le_val [a; b; c; d])) input
  | _ => Result (out ++ [nl_byte])
           (bytes_of_string "Error: read " ++ print_number 10 (zlen input) ++ bytes_of_string (" not 4 bytes" ++ nl)) 1
  end.

Definition cxacru_cf (input : list Z) : result := loop 0 [] input.

(** *** Reading the values back *)

(** The pairs of the attribute: number in hexadecimal, value in decimal. *)
Fixpoint parse_pairs (fuel : nat) (l : list Z) : option (list (Z * Z)) :=
  match fuel with
  | O => None
  | S fuel =>
      let (i, l) := read_base 16 0 l in
      match l with
      | 61 :: l =>
          let (v, l) := read_base 10 0 l in
          match l with
          | [10] => Some [(i, v)]
          | 32 :: l => cons (i, v) <$> parse_pairs fuel l
          | _ => None
          end
      | _ => None
      end
  end.

(** The values numbered from [i] on. *)
Fixpoint numbered (i : Z) (vs : list Z) : list (Z * Z) :=
  match vs with [] => [] | v :: vs => (i, v) :: numbered (i + 1) vs end.

Definition pairs_text (i : Z) (vs : list Z) : list Z :=
  concat ((fun p => (if 0 <? p.1 then [32] else []) ++ pair_text p.1 p.2) <$> numbered i vs).

Lemma loop_values vs : forall i out tail, 0 <= i -> (length tail < 4)%nat -> Forall (fun v => 0 <= v < 2 ^ 32) vs ->
  loop i out (concat (le_bytes 4 <$> vs) ++ tail) =
  Result (out ++ pairs_text i vs ++ [nl_byte])
    (match tail with [] => [] | _ => bytes_of_string "Error: read " ++ print_number 10 (zlen tail) ++ bytes_of_string (" not 4 bytes" ++ nl) end)
    (match tail with [] => 0 | _ => 1 end).
Proof.
  induction vs as [|v vs IH]; intros i out tail Hi Ht Hvs.
  - cbn [fmap list_fmap concat app]. unfold pairs_text. cbn. by destruct tail as [|? [|? [|? [|? ?]]]]; cbn in Ht; try lia.
  - inversion_clear Hvs as [|? ? Hv Hvs']. cbn [fmap list_fmap concat]. rewrite <- app_assoc.
    pose proof (length_le_bytes 4 v) as Hl. pose proof (le_val_bytes 4 v) as Hval. rewrite Z.mod_small in Hval by (cbn; lia).
    destruct (le_bytes 4 v) as [|a [|b [|c [|d [|? ?]]]]]; try done. cbn [app loop]. rewrite Hval, IH by (done || lia).
    f_equal. unfold pairs_text. cbn [numbered fmap list_fmap concat fst snd]. by rewrite <- !app_assoc.
Qed.

Lemma parse_pair v vs : forall i fuel, 0 <= i -> Forall (fun v => 0 <= v < 2 ^ 32) (v :: vs) -> (length vs < fuel)%nat ->
  parse_pairs fuel (pair_text i v ++ pairs_text (i + 1) vs ++ [nl_byte]) = Some (numbered i (v :: vs)).
Proof.
  revert v. induction vs as [|w vs IH]; intros v i [|fuel] Hi Hvs Hf; cbn [length] in Hf; try lia;
    inversion_clear Hvs as [|? ? Hv Hvs']; cbn [parse_pairs]; unfold pair_text; rewrite <- !app_assoc; cbn [app];
    rewrite read_print by (done || lia); cbn iota beta.
  - unfold pairs_text. cbn [numbered fmap list_fmap concat app]. rewrite read_print by (done || lia). done.
  - unfold pairs_text. cbn [numbered fmap list_fmap concat fst snd]. rewrite (proj2 (Z.ltb_lt _ _)) by lia. cbn [app].
    rewrite read_print by (done || lia). cbn iota beta. rewrite <- app_assoc. fold (pairs_text (i + 1 + 1) vs).
    rewrite IH by (done || lia). done.
Qed.

(** A file of whole 32-bit values gives, with status 0, a line that lists them all in order, numbered from 0; a rest of one to
    three bytes is an error with status 1 after the line for the values before it. *)
Theorem values_listed vs tail : Forall (fun v => 0 <= v < 2 ^ 32) vs -> (length tail < 4)%nat ->
  let r := cxacru_cf (concat (le_bytes 4 <$> vs) ++ tail) in
  (vs = [] /\ stdout r = [nl_byte] \/ parse_pairs (length vs) (stdout r) = Some (numbered 0 vs)) /\
  (status r = 0 <-> tail = []) /\ (status r = 1 <-> tail <> []) /\ (stderr r = [] <-> tail = []).
Proof.
  intros Hvs Ht. cbv zeta. unfold cxacru_cf. rewrite loop_values by (done || lia). cbn [stdout stderr status app].
  split; [|destruct tail; repeat split; done || discriminate]. destruct vs as [|v vs]; [by left|right].
  unfold pairs_text. cbn [numbered fmap list_fmap concat fst snd Z.ltb Z.compare app]. rewrite <- app_assoc.
  apply (parse_pair v vs 0); [lia|done|cbn; lia].
Qed.

Lemma values_listed_witness :
  cxacru_cf ([1; 0; 0; 0; 255; 255; 0; 1] ++ [7]) =
    Result (bytes_of_string ("0=1 1=16842751" ++ nl)) (bytes_of_string ("Error: read 1 not 4 bytes" ++ nl)) 1 /\
  status (cxacru_cf (concat (le_bytes 4 <$> [1; 16842751]) ++ [7])) = 1.
Proof.
  split; [by vm_compute|]. refine (proj2 (proj1 (proj2 (proj2 (values_listed [1; 16842751] [7] _ _)))) _).
  - repeat constructor; lia.
  - cbn. lia.
  - discriminate.
Defined.

End Cxacru.

(** ** Upper case tables *)

Module Winucase.

(** *** The script *)

(** Perl's [hex]: an optional prefix, then digits, which single underscores may separate, up to anything else. *)
Fixpoint hex_digits (acc : Z) (l : list Z) : Z :=
  match l with
  | [] => acc
  | c :: r =>
      match char_digit 16 c with
      | Some d => hex_digits (acc * 16 + d) r
      | None =>
          match r with
          | d :: _ => if (c =? 95) && bool_decide (is_Some (char_digit 16 d)) then hex_digits acc r else acc
          | [] => acc
          end
      end
  end.

Definition is_x (c : Z) : bool := (c =? 120) || (c =? 88).

Definition hex (l : list Z) : Z :=
  match l with
  | c :: r =>
      if is_x c then hex_digits 0 r
      else match r with d :: r' => if (c =? 48) && is_x d then hex_digits 0 r' else hex_digits 0 l | [] => hex_digits 0 l end
  | [] => 0
  end.

(** Any character but a line feed. *)
Definition dot (c : Z) : bool := negb (c =? 10).

(** [/^0x(..)(..)\t0x(....)\t/], with the three numbers captured. *)
Definition matched (line : list Z) : option (Z * Z * Z) :=
  match line with
  | z0 :: x0 :: a :: b :: c :: d :: t0 :: z1 :: x1 :: e :: f :: g :: h :: t1 :: _ =>
      if bool_decide ([z0; x0; t0; z1; x1; t1] = [48; 120; 9; 48; 120; 9]) && forallb dot [a; b; c; d; e; f; g; h] then Some (hex [a; b], hex [c; d], hex [e; f; g; h]) else None
  | _ => None
  end.

(** The array of arrays [@top]. *)
Abbreviation table := (gmap Z (gmap Z Z)).

Definition read_line (top : table) (line : list Z) : table :=
  match matched line with
  | Some (firstchar, secondchar, uppercase) => <[firstchar := <[secondchar := uppercase]> (default ∅ (top !! firstchar))]> top
  | None => top
  end.

Definition read_lines (lines : list (list Z)) : table := foldl read_line ∅ lines.

(** [%2.2x] and [%4.4x] *)
Definition pad_hex (n : nat) (v : Z) : list Z :=
  replicate (n - length (print_number 16 v)) 48 ++ print_number 16 v.

Definition newline_tab : list Z := [10; 9].

Definition print_value (row : gmap Z Z) (j : Z) : list Z :=
  (if j mod 8 =? 0 then newline_tab else [32]) ++
  bytes_of_string "0x" ++ pad_hex 4 (default 0 (row !! j)) ++ [44].

Definition end_of_array : list Z := [10] ++ bytes_of_string "};" ++ [10; 10].

Definition print_row (top : table) (i : Z) : list Z :=
  match top !! i with
  | None => []
  | Some row =>
      bytes_of_string "static const wchar_t t2_" ++ pad_hex 2 i ++ bytes_of_string "[256] = {" ++
      concat (print_value row <$> seqZ 0 256) ++
      end_of_array
  end.

Definition print_top (top : table) (i : Z) : list Z :=
  (if i mod 8 =? 0 then newline_tab
   else match top !! i with Some _ => [32] | None => [32; 32] end) ++
  (match top !! i with
   | Some _ => bytes_of_string "t2_" ++ pad_hex 2 i ++ [44]
   | None => bytes_of_string "NULL,"
   end).

Definition winucase_convert (lines : list (list Z)) : list Z :=
  let top := read_lines lines in
  concat (print_row top <$> seqZ 0 256) ++
  bytes_of_string "static const wchar_t *const toplevel[256] = {" ++
  concat (print_top top <$> seqZ 0 256) ++
  end_of_array.

(** *** Reading the arrays *)

(** C text without blanks. *)
Definition strip (l : list Z) : list Z := filter (fun c => c ∉ [9; 10; 32]) l.

Fixpoint expect (p l : list Z) : option (list Z) :=
  match p, l with
  | [], _ => Some l
  | c :: p, d :: l => if c =? d then expect p l else None
  | _, _ => None
  end.

(** [n] items in a row. *)
Fixpoint items {A} (item : list Z -> option (A * list Z)) (n : nat) (l : list Z) : option (list A * list Z) :=
  match n with
  | O => Some ([], l)
  | S n => '(a, l) ← item l; '(r, l) ← items item n l; Some (a :: r, l)
  end.

Definition number (l : list Z) : option (Z * list Z) := Some (read_base 16 0 l).

Definition value (l : list Z) : option (Z * list Z) :=
  l ← expect (bytes_of_string "0x") l; '(v, l) ← number l; l ← expect [44] l; Some (v, l).

Definition row_text (l : list Z) : option ((Z * list Z) * list Z) :=
  l ← expect (strip (bytes_of_string "static const wchar_t t2_")) l;
  '(i, l) ← number l;
  l ← expect (strip (bytes_of_string "[256] = {")) l;
  '(vs, l) ← items value 256 l;
  l ← expect (bytes_of_string "};") l;
  Some ((i, vs), l).

Definition pointer (l : list Z) : option (option Z * list Z) :=
  match expect (bytes_of_string "NULL,") l with
  | Some l => Some (None, l)
  | None => l ← expect (bytes_of_string "t2_") l; '(i, l) ← number l; l ← expect [44] l; Some (Some i, l)
  end.

Definition top_text (l : list Z) : option (list (option Z) * list Z) :=
  l ← expect (strip (bytes_of_string "static const wchar_t *const toplevel[256] = {")) l;
  '(ps, l) ← items pointer 256 l;
  l ← expect (bytes_of_string "};") l;
  Some (ps, l).

(** The second-level arrays, then the first-level one. *)
Fixpoint arrays (fuel : nat) (l : list Z) : option (list (Z * list Z) * list (option Z)) :=
  match fuel with
  | O => None
  | S fuel =>
      match row_text l with
      | Some (r, l) => '(rs, ps) ← arrays fuel l; Some (r :: rs, ps)
      | None => '(ps, l) ← top_text l; match l with [] => Some ([], ps) | _ => None end
      end
  end.

(** What a program with these arrays finds for a character: [toplevel[c >> 8][c & 0xff]], 0 without a second level
    and -1 outside an array. *)
Definition upcase (a : list (Z * list Z) * list (option Z)) (c : Z) : Z :=
  match a.2 !! Z.to_nat (c / 256) with
  | Some (Some i) =>
      match List.find (fun r => r.1 =? i) a.1 with
      | Some r => default (-1) (r.2 !! Z.to_nat (c mod 256))
      | None => -1
      end
  | Some None => 0
  | None => -1
  end.

(** The last line of the file for a character. *)
Definition mapping (lines : list (list Z)) (c : Z) : option Z :=
  last (omap (fun line => '(f, s, u) ← matched line; if 256 * f + s =? c then Some u else None) lines).

(** *** The text *)

Lemma strip_app l k : strip (l ++ k) = strip l ++ strip k.
Proof. apply filter_app. Qed.

Lemma strip_none l : Forall (fun c => 48 <= c) l -> strip l = l.
Proof. induction 1 as [|c l Hc Hl IH]; [done|]. unfold strip. rewrite filter_cons_True by (rewrite !not_elem_of_cons; split_and!; [lia..|apply not_elem_of_nil]). f_equal. exact IH. Qed.

Lemma print_base_ge fuel b : 0 < b -> forall v, Forall (fun c => 48 <= c) (print_base fuel b v).
Proof.
  intros Hb. induction fuel as [|fuel IH]; intros v; cbn [print_base]; [done|].
  apply Forall_app. split; [destruct (v <? b); auto|]. repeat constructor. unfold digit_char.
  pose proof (Z.mod_pos_bound v b Hb). destruct (_ <? _); lia.
Qed.

Lemma strip_pad n v : strip (pad_hex n v) = pad_hex n v.
Proof.
  apply strip_none. unfold pad_hex, print_number. apply Forall_app. split; [apply Forall_replicate; lia|]. apply print_base_ge. lia.
Qed.

Lemma number_pad n v c rest : 0 <= v -> char_digit 16 c = None -> number (pad_hex n v ++ c :: rest) = Some (v, c :: rest).
Proof.
  intros Hv Hc. unfold number, pad_hex. rewrite <- app_assoc. f_equal.
  induction (n - _)%nat as [|k IH]; [by apply read_print|]. exact IH.
Qed.

Lemma number_before n v l : 0 <= v -> char_digit 16 (hd 48 l) = None -> number (pad_hex n v ++ l) = Some (v, l).
Proof. destruct l as [|c l]; [done|]. apply number_pad. Qed.

Lemma items_map {A B} (item : list Z -> option (B * list Z)) (text : A -> list Z) (g : A -> B) l rest :
  (forall a r, a ∈ l -> item (text a ++ r) = Some (g a, r)) ->
  items item (length l) (concat (text <$> l) ++ rest) = Some (g <$> l, rest).
Proof.
  induction l as [|a l IH]; intros Hi; [done|]. cbn [length items fmap list_fmap concat]. rewrite <- app_assoc, Hi by set_solver.
  cbn [mbind option_bind]. rewrite IH by set_solver. done.
Qed.

Lemma strip_concat {A} (text : A -> list Z) l : strip (concat (text <$> l)) = concat ((fun a => strip (text a)) <$> l).
Proof. induction l as [|a l IH]; [done|]. cbn [fmap list_fmap concat]. by rewrite strip_app, IH. Qed.

Lemma expect_app p l : expect p (p ++ l) = Some l.
Proof. induction p as [|c p IH]; [done|]. cbn [app expect]. by rewrite Z.eqb_refl. Qed.

Lemma value_read row j rest : 0 <= default 0 (row !! j) -> value (strip (print_value row j) ++ rest) = Some (default 0 (row !! j), rest).
Proof.
  intros Hv. unfold print_value. rewrite !strip_app, strip_pad.
  replace (strip (if j mod 8 =? 0 then newline_tab else [32])) with (@nil Z) by (by destruct (_ =? 0)).
  change (strip (bytes_of_string "0x")) with (bytes_of_string "0x"). change (strip [44]) with [44]. rewrite <- !app_assoc. cbn [app].
  unfold value. rewrite expect_app. cbn [mbind option_bind]. rewrite number_pad by done. done.
Qed.

Lemma row_read top i row rest : top !! i = Some row -> 0 <= i -> (forall j, 0 <= default 0 (row !! j)) ->
  row_text (strip (print_row top i) ++ rest) = Some ((i, (fun j => default 0 (row !! j)) <$> seqZ 0 256), rest).
Proof.
  intros Ht Hi Hv. unfold print_row. rewrite Ht, !strip_app, strip_pad, strip_concat, <- !app_assoc. unfold row_text.
  rewrite expect_app. cbn [mbind option_bind]. rewrite number_before by done. cbn [mbind option_bind].
  rewrite expect_app. cbn [mbind option_bind].
  rewrite (items_map value (fun a => strip (print_value row a)) (fun j => default 0 (row !! j)) (seqZ 0 256)) by (intros; apply value_read, Hv).
  cbn [mbind option_bind]. change (strip end_of_array) with (bytes_of_string "};"). by rewrite expect_app.
Qed.

Lemma pointer_read top i rest : 0 <= i -> pointer (strip (print_top top i) ++ rest) = Some ((fun _ => i) <$> top !! i, rest).
Proof.
  intros Hi. unfold print_top. rewrite strip_app.
  replace (strip (if i mod 8 =? 0 then newline_tab else _)) with (@nil Z) by (by destruct (_ =? 0), (top !! i)). cbn [app].
  destruct (top !! i) as [row|].
  - rewrite !strip_app, strip_pad, <- !app_assoc. change (strip (bytes_of_string "t2_")) with (bytes_of_string "t2_"). unfold pointer.
    change (expect (bytes_of_string "NULL,") _) with (@None (list Z)). rewrite expect_app. cbn [mbind option_bind].
    change (strip [44]) with [44]. cbn [app]. rewrite number_pad by done. done.
  - change (strip (bytes_of_string "NULL,")) with (bytes_of_string "NULL,"). unfold pointer. by rewrite expect_app.
Qed.

(** What the printed arrays hold. *)
Definition rows (top : table) (ks : list Z) : list (Z * list Z) :=
  omap (fun i => (fun row => (i, (fun j => default 0 (row !! j)) <$> seqZ 0 256)) <$> top !! i) ks.

Definition tops (top : table) : list (option Z) := (fun i => (fun _ => i) <$> top !! i) <$> seqZ 0 256.

Definition values_ok (top : table) : Prop := forall i row j, top !! i = Some row -> 0 <= default 0 (row !! j).

Lemma arrays_read top ks : values_ok top -> Forall (fun i => 0 <= i) ks -> forall fuel, (length ks < fuel)%nat ->
  arrays fuel (strip (concat (print_row top <$> ks) ++
    bytes_of_string "static const wchar_t *const toplevel[256] = {" ++ concat (print_top top <$> seqZ 0 256) ++ end_of_array)) =
  Some (rows top ks, tops top).
Proof.
  intros Hv. rewrite !strip_app. induction ks as [|i ks IH]; intros Hi [|fuel] Hf; cbn [length] in Hf; try lia; cbn [arrays].
  - rewrite !strip_concat. cbn [fmap list_fmap concat app].
    set (l := concat _ ++ strip end_of_array).
    change (row_text (strip (bytes_of_string "static const wchar_t *const toplevel[256] = {") ++ l)) with
      (@None (Z * list Z * list Z)). unfold top_text. rewrite expect_app. cbn [mbind option_bind]. unfold l.
    rewrite (items_map pointer (fun i => strip (print_top top i)) (fun i => (fun _ => i) <$> top !! i) (seqZ 0 256)).
    2: { intros i r Hin%elem_of_seqZ. apply pointer_read. lia. }
    cbn [mbind option_bind]. change (strip end_of_array) with (bytes_of_string "};" ++ []). by rewrite expect_app.
  - inversion_clear Hi as [|? ? H0 Hi']. cbn [fmap list_fmap concat omap list_omap]. rewrite strip_app, <- app_assoc.
    change (rows top (i :: ks)) with (match (fun row => (i, (fun j => default 0 (row !! j)) <$> seqZ 0 256)) <$> top !! i with Some r => r :: rows top ks | None => rows top ks end).
    destruct (top !! i) as [row|] eqn:E.
    + rewrite (row_read top i row) by (done || (intros; by eapply Hv)). rewrite IH by (done || lia). done.
    + replace (strip (print_row top i)) with (@nil Z) by (unfold print_row; by rewrite E). apply (IH Hi' (S fuel)). lia.
Qed.

Lemma hex_digits_bound l : forall acc, 0 <= acc -> 0 <= hex_digits acc l < (acc + 1) * 16 ^ zlen l.
Proof.
  induction l as [|c l IH]; intros acc Ha; [cbn [hex_digits]; change (16 ^ zlen []) with 1; lia|]. rewrite zlen_cons, Z.pow_add_r by (pose proof (zlen_nonneg l); lia).
  change (16 ^ 1) with 16. pose proof (zlen_nonneg l). assert (0 < 16 ^ zlen l) by (apply Z.pow_pos_nonneg; lia).
  cbn [hex_digits]. destruct (char_digit 16 c) as [d|] eqn:E.
  - assert (0 <= d < 16) by (unfold char_digit in E; repeat case_match; simplify_eq; lia).
    specialize (IH (acc * 16 + d)). nia.
  - destruct l as [|e l']; [nia|]. destruct (_ && _); [specialize (IH acc Ha); nia|nia].
Qed.

Lemma hex_bound l : 0 <= hex l < 16 ^ zlen l.
Proof.
  assert (forall k, 0 <= hex_digits 0 k < 16 ^ zlen k) as Hd by (intros k; pose proof (hex_digits_bound k 0); lia).
  destruct l as [|c [|d r]]; cbn [hex]; [done| |].
  - destruct (is_x c); [split; [done|by vm_compute]|apply Hd].
  - assert (forall k : list Z, (length k <= S (S (length r)))%nat -> 16 ^ zlen k <= 16 ^ zlen (c :: d :: r)) as Hm
      by (intros k Hk; apply Z.pow_le_mono_r; unfold zlen in *; cbn [length] in *; lia).
    destruct (is_x c); [pose proof (Hd (d :: r)); specialize (Hm (d :: r)); cbn [length] in Hm; lia|].
    destruct (_ && _); [pose proof (Hd r); specialize (Hm r); lia|apply Hd].
Qed.

Lemma matched_bounds line f s u : matched line = Some (f, s, u) -> 0 <= f < 256 /\ 0 <= s < 256 /\ 0 <= u < 65536.
Proof.
  unfold matched. do 14 (destruct line as [|? line]; [discriminate|]). destruct (_ && _); [|discriminate]. intros E.
  apply (inj Some), pair_equal_spec in E as [E <-]. apply pair_equal_spec in E as [<- <-].
  exact (conj (hex_bound [_; _]) (conj (hex_bound [_; _]) (hex_bound [_; _; _; _]))).
Qed.

(** The table holds the last line for every character, and nothing else. *)
Definition holds (lines : list (list Z)) (top : table) : Prop :=
  (forall f s, 0 <= s < 256 -> top !! f ≫= (fun row => row !! s) = mapping lines (256 * f + s)) /\
  (forall f row s u, top !! f = Some row -> row !! s = Some u -> 0 <= u).

Lemma mapping_snoc lines line c :
  mapping (lines ++ [line]) c =
  match ('(f, s, u) ← matched line; if 256 * f + s =? c then Some u else None) with Some u => Some u | None => mapping lines c end.
Proof.
  unfold mapping. rewrite omap_app. cbn [omap list_omap].
  destruct ('(f, s, u) ← matched line; if 256 * f + s =? c then Some u else None) as [u|]; [by rewrite last_snoc|by rewrite app_nil_r].
Qed.

Lemma read_lines_holds lines : holds lines (read_lines lines).
Proof.
  unfold read_lines. induction lines as [|line lines [IH1 IH2]] using rev_ind; [split; [by intros|by intros ? ? ? ? ?]|].
  rewrite foldl_app. cbn [foldl]. set (top := foldl _ _ _) in *. unfold read_line.
  destruct (matched line) as [[[f s] u]|] eqn:E.
  2: { split; [|exact IH2]. intros g r Hr. by rewrite mapping_snoc, E, IH1. }
  apply matched_bounds in E as Hb. destruct Hb as (Hf & Hs & Hu). split.
  - intros g r Hr. rewrite mapping_snoc, E. cbn [mbind option_bind]. specialize (IH1 g r Hr).
    destruct (decide (f = g)) as [-> |Hg].
    + rewrite lookup_insert_eq. cbn [mbind option_bind]. destruct (decide (s = r)) as [-> |Hne].
      * by rewrite lookup_insert_eq, Z.eqb_refl.
      * rewrite lookup_insert_ne, (proj2 (Z.eqb_neq _ _)) by (done || lia). rewrite <- IH1. by destruct (top !! g).
    + rewrite lookup_insert_ne, (proj2 (Z.eqb_neq _ _)) by (done || lia). exact IH1.
  - intros g row r v Hg Hr. destruct (decide (f = g)) as [-> |Hne].
    + rewrite lookup_insert_eq in Hg. injection Hg as <-. destruct (decide (s = r)) as [-> |Hne].
      * rewrite lookup_insert_eq in Hr. injection Hr as <-. lia.
      * rewrite lookup_insert_ne in Hr by done. destruct (top !! g) as [row|] eqn:Eg; [by eapply IH2|done].
    + rewrite lookup_insert_ne in Hg by done. by eapply IH2.
Qed.

Lemma find_rows top i row : top !! i = Some row -> 0 <= i < 256 ->
  List.find (fun r => r.1 =? i) (rows top (seqZ 0 256)) = Some (i, (fun j => default 0 (row !! j)) <$> seqZ 0 256).
Proof.
  intros Ht Hi. assert (i ∈ seqZ 0 256) as Hin by (apply elem_of_seqZ; lia). revert Hin. generalize (seqZ 0 256) at 1 2 as ks.
  induction ks as [|k ks IH]; intros Hin; [by apply elem_of_nil in Hin|].
  change (rows top (k :: ks)) with (match (fun row => (k, (fun j => default 0 (row !! j)) <$> seqZ 0 256)) <$> top !! k with Some r => r :: rows top ks | None => rows top ks end).
  destruct (decide (i = k)) as [-> |Hne].
  - rewrite Ht. cbn. by rewrite Z.eqb_refl.
  - apply elem_of_cons in Hin as [?|Hin]; [done|]. destruct (top !! k); cbn; [|by apply IH]. rewrite (proj2 (Z.eqb_neq _ _)) by lia. by apply IH.
Qed.

(** C29: The arrays the script prints, read as C, give every 16-bit character the upper case of its last line in the file, and 0 when it has none. *)
Theorem tables_correct lines : exists a, arrays 257 (strip (winucase_convert lines)) = Some a /\
  forall c, 0 <= c < 65536 -> upcase a c = default 0 (mapping lines c).
Proof.
  destruct (read_lines_holds lines) as [H1 H2]. unfold winucase_convert. set (top := read_lines lines) in *.
  exists (rows top (seqZ 0 256), tops top). split.
  - apply arrays_read; [|apply Forall_forall; intros i Hi%elem_of_seqZ; lia|rewrite length_seqZ; lia].
    intros i row j Ht. destruct (row !! j) as [u|] eqn:E; [by eapply H2|done].
  - intros c Hc. assert (0 <= c / 256 < 256 /\ 0 <= c mod 256 < 256) as [Hq Hr] by (Z.to_euclidean_division_equations; lia).
    specialize (H1 (c / 256) (c mod 256) Hr). replace (256 * (c / 256) + c mod 256) with c in H1 by (pose proof (Z.div_mod c 256); lia).
    unfold upcase, tops. cbn [fst snd]. rewrite list_lookup_fmap, lookup_seqZ_lt by lia. cbn [fmap option_fmap option_map].
    rewrite Z2Nat.id, Z.add_0_l by lia. rewrite <- H1. destruct (top !! (c / 256)) as [row|] eqn:E; [|done]. cbn [fmap option_fmap option_map mbind option_bind].
    rewrite (find_rows top (c / 256) row) by (done || lia). cbn [snd].
    rewrite list_lookup_fmap, lookup_seqZ_lt by lia. cbn. by rewrite Z2Nat.id by lia.
Qed.

End Winucase.
