(* ===== verification/Config3270.v ===== *)
(** * Terminal configuration: s390/config3270.sh

    The script prints another script, which makes the device nodes of the 3270
    terminals and a new inittab.  [config3270] is the script, [sh] runs what it
    printed: the part of a shell those lines use, in a directory where [3270/tty*]
    names nothing.  A command that fails does not stop it.  The theorem is about the two
    together. *)

From stdpp Require Import gmap.
From S2P Require Import Prelude.

Module Config3270.

Open Scope Z_scope.

Abbreviation text := (list Z).

Definition B (s : string) : text := bytes_of_string s.

(** ** The script *)

Definition D : text := B "/dev".
Definition SUBD : text := B "3270".
Definition TTY : text := SUBD ++ B "/tty".
Definition TUB : text := SUBD ++ B "/tub".
Definition GETTYLINE : text := B ":2345:respawn:/sbin/mingetty".
Definition INITTAB : text := B "/etc/inittab".
Definition NINITTAB : text := B "/etc/NEWinittab".
Definition OINITTAB : text := B "/etc/OLDinittab".

(** Two backslashes are one, outside the quotes and inside. *)
Definition ADDNOTE : text := [92] ++ B "# Additional mingettys for the 3270/tty* driver, tub3270 ---" ++ [92].

(** The two files being written, by lines, and the major number of the full-screen devices. *)
Record files : Type := Files { SCR : list text; SCRTMP : list text; fsmaj : text }.

Definition to_scr (l : list text) (s : files) : files := Files (SCR s ++ l) (SCRTMP s) (fsmaj s).
Definition to_scrtmp (l : list text) (s : files) : files := Files (SCR s) (SCRTMP s ++ l) (fsmaj s).

(** The script before the second file is made.  [dasd]: /dev/dasd is a directory, so the device
    file system makes the nodes. *)
Definition begin (dasd : bool) : files :=
  let s := Files [B "#!/bin/sh"; B " "; B "# Script built by /sbin/config3270"] [] [] in
  if negb dasd then to_scr [B "rm -rf " ++ D ++ B "/" ++ SUBD ++ B "/*"] s else s.

Definition header (dasd : bool) : files :=
  let s := begin dasd in
  let s := to_scrtmp [B "grep -v " ++ TTY ++ B " " ++ INITTAB ++ B " > " ++ NINITTAB] s in
  let s := to_scrtmp [B "echo " ++ ADDNOTE ++ B " >> " ++ NINITTAB] s in
  if negb dasd then to_scr [B "mkdir -p " ++ D ++ B "/" ++ SUBD] s else s.

Definition mknod (path maj min : text) : text := B "mknod " ++ D ++ B "/" ++ path ++ B " c " ++ maj ++ B " " ++ min.

(** One line of the driver's answer: device number, major and minor number. *)
Definition device (dasd : bool) (s : files) (row : text * text * text) : files :=
  let '(devno, maj, min) := row in
  if bool_decide (min = B "0") then
    let s := Files (SCR s) (SCRTMP s) maj in
    if negb dasd then to_scr [mknod TUB (fsmaj s) (B "0"); B "chmod 666 " ++ D ++ B "/" ++ TUB] s else s
  else if bool_decide (maj = B "CONSOLE") then
    if negb dasd then to_scr [mknod (TUB ++ devno) (fsmaj s) min] s else s
  else
    let s := if negb dasd then to_scr [mknod (TTY ++ devno) maj min; mknod (TUB ++ devno) (fsmaj s) min] s else s in
    to_scrtmp [B "echo t" ++ min ++ GETTYLINE ++ B " " ++ TTY ++ devno ++ B " >> " ++ NINITTAB] s.

Definition trailer : list text :=
  [B "mv " ++ INITTAB ++ B " " ++ OINITTAB; B "mv " ++ NINITTAB ++ B " " ++ INITTAB].

Definition blank (c : Z) : bool := (c =? 32) || (c =? 9).

Fixpoint drop_blanks (l : text) : text :=
  match l with c :: r => if blank c then drop_blanks r else l | [] => [] end.

(** The first word and what is behind it. *)
Fixpoint first_word (l : text) : text * text :=
  match l with
  | c :: r => if blank c then ([], l) else let '(w, rest) := first_word r in (c :: w, rest)
  | [] => ([], [])
  end.

(** [read devno maj min]: the last variable takes the rest of the line. *)
Definition read_row (l : text) : text * text * text :=
  let '(devno, r) := first_word (drop_blanks l) in
  let '(maj, r) := first_word (drop_blanks r) in
  (devno, maj, reverse (drop_blanks (reverse (drop_blanks r)))).

Definition output (dasd : bool) (rows : list (text * text * text)) : list text :=
  let s := to_scrtmp trailer (foldl (device dasd) (header dasd) rows) in
  SCR s ++ SCRTMP s.

(** The status, and what is in /tmp/mkdev3270 if it was made.  [driver], [loaded]: the driver's file is there, before or
    after the module is loaded; [scr_ok], [tmp_ok]: the two files can be made; [proc]: the lines of the driver's file, behind
    what was last written to it. *)
Definition config3270 (driver loaded scr_ok tmp_ok dasd : bool) (proc : option text -> list text) : Z * option (list text) :=
  if negb (driver || loaded) then (1, None)
  else if negb scr_ok then (1, None)
  else if negb tmp_ok then (1, Some (SCR (begin dasd)))
  else
    let written := Some (B "what=config") in
    (0, Some (output dasd (read_row <$> proc written))).

(** ** Running what it printed *)

Definition finish (cur : option text) (rest : list text) : list text := match cur with Some w => w :: rest | None => rest end.

(** The words of a line: blanks separate, a backslash keeps the next character, and the redirections are words of their own. *)
Fixpoint words_from (cur : option text) (l : text) : list text :=
  match l with
  | [] => finish cur []
  | c :: r =>
      if c =? 32 then finish cur (words_from None r)
      else if c =? 92 then
        match r with
        | [] => finish cur []
        | c' :: r' => words_from (Some (default [] cur ++ [c'])) r'
        end
      else if c =? 62 then
        finish cur
          match r with
          | 62 :: r' => B ">>" :: words_from None r'
          | _ => B ">" :: words_from None r
          end
      else words_from (Some (default [] cur ++ [c])) r
  end.

Definition words (l : text) : list text := words_from None l.

(** The lines of the files, the device nodes with their numbers and the mode that was set, and the directories. *)
Record world : Type := World {
  disk : gmap text (list text);
  nodes : gmap text (text * text);
  modes : gmap text text;
  dirs : gset text
}.

Definition set_disk (m : gmap text (list text)) (w : world) : world := World m (nodes w) (modes w) (dirs w).
Definition set_file (f : text) (l : list text) (w : world) : world := set_disk (<[f := l]> (disk w)) w.

Definition lines_of (f : text) (w : world) : list text := default [] (disk w !! f).

Fixpoint join (ws : list text) : text := match ws with [] => [] | [w] => w | w :: r => w ++ [32] ++ join r end.

Definition below (dir p : text) : bool := bool_decide (take (length dir) p = dir).

(** [dir/*] for [rm]: names that begin with a dot are left out. *)
Definition strip_glob (p : text) : option text :=
  match reverse p with 42 :: 47 :: r => Some (reverse (47 :: r)) | _ => None end.

Definition globbed (dir p : text) : bool :=
  below dir p && match drop (length dir) p with c :: _ => negb (c =? 46) | [] => false end.

Definition sweep {A} (dir : text) (m : gmap text A) : gmap text A := filter (fun e => globbed dir e.1 = false) m.

(** The directory a path is in: the part before the last slash. *)
Fixpoint drop_name (l : text) : text :=
  match l with c :: r => if c =? 47 then r else drop_name r | [] => [] end.
Definition parent (p : text) : text := reverse (drop_name (reverse p)).

(** Every directory on a path, and the path. *)
Fixpoint prefixes (seen l : text) : list text :=
  match l with
  | [] => [seen]
  | c :: r => (if c =? 47 then match seen with [] => [] | _ => [seen] end else []) ++ prefixes (seen ++ [c]) r
  end.

Definition is_dir (w : world) (p : text) : bool := bool_decide (p ∈ dirs w).
Definition is_node (w : world) (p : text) : bool := match nodes w !! p with Some _ => true | None => false end.
Definition is_file (w : world) (p : text) : bool := match disk w !! p with Some _ => true | None => false end.

(** A redirection to a file: the file can be made. *)
Definition writable (w : world) (f : text) : bool := is_dir w (parent f) && negb (is_dir w f) && negb (is_node w f).

(** A command: whether it succeeds, and the world behind it. *)
Definition run (w : world) (ws : list text) : bool * world :=
  match ws with
  | [] => (true, w)
  | cmd :: args =>
      if bool_decide (cmd = B "echo") then
        match reverse args with
        | f :: op :: rest =>
            if bool_decide (op = B ">>") && writable w f then (true, set_file f (lines_of f w ++ [join (reverse rest)]) w) else (false, w)
        | _ => (false, w)
        end
      else if bool_decide (cmd = B "grep") then
        match args with
        | [opt; pat; f; op; g] =>
            if bool_decide (opt = B "-v") && bool_decide (op = B ">") && writable w g then
              let found := filter (fun x => contains pat x = false) (lines_of f (set_file g [] w)) in
              (is_file w f && match found with [] => false | _ => true end, set_file g found w)
            else (false, w)
        | _ => (false, w)
        end
      else if bool_decide (cmd = B "mv") then
        match args with
        | [f; g] =>
            match disk w !! f with
            | Some l => if writable w g then (true, set_disk (<[g := l]> (delete f (disk w))) w) else (false, w)
            | None => (false, w)
            end
        | _ => (false, w)
        end
      else if bool_decide (cmd = B "mknod") then
        match args with
        | [p; k; maj; min] =>
            if bool_decide (k = B "c") && writable w p && negb (is_file w p) then
              (true, World (disk w) (<[p := (maj, min)]> (nodes w)) (modes w) (dirs w))
            else (false, w)
        | _ => (false, w)
        end
      else if bool_decide (cmd = B "chmod") then
        match args with
        | [mode; p] => if is_node w p then (true, World (disk w) (nodes w) (<[p := mode]> (modes w)) (dirs w)) else (false, w)
        | _ => (false, w)
        end
      else if bool_decide (cmd = B "mkdir") then
        match args with
        | [opt; p] =>
            let path := prefixes [] p in
            if bool_decide (opt = B "-p") && negb (existsb (fun d => is_file w d || is_node w d) path) then
              (true, World (disk w) (nodes w) (modes w) (list_to_set path ∪ dirs w))
            else (false, w)
        | _ => (false, w)
        end
      else if bool_decide (cmd = B "rm") then
        match args with
        | [opt; p] =>
            match strip_glob p with
            | Some dir =>
                if bool_decide (opt = B "-rf") then
                  (true, World (sweep dir (disk w)) (sweep dir (nodes w)) (sweep dir (modes w)) (filter (fun d => globbed dir d = false) (dirs w)))
                else (false, w)
            | None => (false, w)
            end
        | _ => (false, w)
        end
      else (false, w)
  end.

(** A line; a comment is none. *)
Definition sh (w : world) (l : text) : bool * world :=
  if bool_decide (head l = Some 35) then (true, w) else run w (words l).

(** All lines: the ones that failed, and the world at the end. *)
Fixpoint sh_all (w : world) (ls : list text) : list text * world :=
  match ls with
  | [] => ([], w)
  | l :: r =>
      let '(ok, w) := sh w l in
      let '(bad, w) := sh_all w r in
      ((if ok then bad else l :: bad), w)
  end.

(** ** Lines and words *)

(** A character that means itself. *)
Definition plain (c : Z) : bool := negb (c =? 32) && negb (c =? 92) && negb (c =? 62).

Definition word (w : text) : Prop := w <> [] /\ forallb plain w = true.

Lemma words_plain w : forall cur r, forallb plain w = true ->
  words_from (Some cur) (w ++ r) = words_from (Some (cur ++ w)) r.
Proof.
  induction w as [|c w IH]; intros cur r Hw; [by rewrite app_nil_r|]. cbn in Hw. apply andb_true_iff in Hw as [Hc Hw].
  unfold plain in Hc. cbn [app words_from]. replace (c =? 32) with false by lia. replace (c =? 92) with false by lia.
  replace (c =? 62) with false by lia. cbn [default]. rewrite IH by done. by rewrite <- app_assoc.
Qed.

Lemma words_start w r : word w -> words_from None (w ++ r) = words_from (Some w) r.
Proof.
  intros [Hn Hw]. destruct w as [|c w]; [done|]. cbn in Hw. apply andb_true_iff in Hw as [Hc Hw]. unfold plain in Hc.
  cbn [app words_from]. replace (c =? 32) with false by lia. replace (c =? 92) with false by lia.
  replace (c =? 62) with false by lia. by rewrite words_plain.
Qed.

Lemma words_join ws : Forall word ws -> words (join ws) = ws.
Proof.
  unfold words. induction 1 as [|w ws Hw Hws IH]; [done|]. destruct ws as [|v ws].
  - cbn [join]. by rewrite <- (app_nil_r w), words_start, app_nil_r.
  - change (join (w :: v :: ws)) with (w ++ [32] ++ join (v :: ws)). rewrite words_start by done. cbn [app words_from finish].
    change (32 =? 32) with true. cbn iota. by rewrite IH.
Qed.

(** The same with a redirection at the end. *)
Lemma words_append ws f : Forall word ws -> ws <> [] -> word f -> words (join ws ++ B " >> " ++ f) = ws ++ [B ">>"; f].
Proof.
  intros Hws Hne Hf. unfold words. induction Hws as [|w ws Hw Hws IH]; [done|]. destruct ws as [|v ws].
  - cbn [join]. rewrite words_start by done. change (B " >> " ++ f) with (32 :: 62 :: 62 :: 32 :: f).
    cbn [words_from finish Z.eqb Pos.eqb app]. rewrite <- (app_nil_r f), words_start by done. by rewrite app_nil_r.
  - change (join (w :: v :: ws)) with (w ++ [32] ++ join (v :: ws)). rewrite <- !app_assoc, words_start by done. cbn [app words_from finish].
    change (32 =? 32) with true. cbn iota. f_equal. by apply IH.
Qed.

(** ** What the script does *)

Definition safe (c : Z) : bool :=
  (48 <=? c) && (c <=? 57) || (65 <=? c) && (c <=? 90) || (97 <=? c) && (c <=? 122) || (c =? 46).

Definition safe_word (w : text) : Prop := w <> [] /\ forallb safe w = true.

Lemma safe_plain w : forallb safe w = true -> forallb plain w = true.
Proof. rewrite !forallb_forall. intros Hw c Hc. specialize (Hw c Hc). unfold safe in Hw. unfold plain. lia. Qed.

(** A word with such an end. *)
Lemma word_app p w : forallb plain p = true -> safe_word w -> word (p ++ w).
Proof.
  intros Hp [Hn Hw]. split; [by destruct p|]. rewrite forallb_app, Hp. by apply safe_plain.
Qed.

Lemma safe_word_word w : safe_word w -> word w.
Proof. intros Hw. exact (word_app [] w eq_refl Hw). Qed.

Lemma sh_words w l ws : head l <> Some 35 -> words l = ws -> sh w l = run w ws.
Proof. intros Hh <-. unfold sh. by rewrite bool_decide_eq_false_2. Qed.

Lemma sh_all_ok w l k w1 : sh w l = (true, w1) -> sh_all w (l :: k) = sh_all w1 k.
Proof. intros E. cbn [sh_all]. rewrite E. by destruct (sh_all w1 k). Qed.

Lemma sh_all_app l k : forall w w1, sh_all w l = ([], w1) -> sh_all w (l ++ k) = sh_all w1 k.
Proof.
  induction l as [|x l IH]; intros w w1 E; cbn [app sh_all] in *; [by injection E as ->|].
  destruct (sh w x) as [ok w2]. destruct (sh_all w2 l) as [bad w3] eqn:E2. destruct ok; [|done]. injection E as -> ->.
  rewrite (IH _ _ E2). by destruct (sh_all w1 k).
Qed.

Definition node (path : text) : text := D ++ B "/" ++ path.

(** A node can be made there. *)
Definition vacant (w : world) (p : text) : Prop :=
  parent p ∈ dirs w /\ (p ∉ dirs w) /\ nodes w !! p = None /\ disk w !! p = None.

Definition add_node (p : text) (v : text * text) (w : world) : world := World (disk w) (<[p := v]> (nodes w)) (modes w) (dirs w).

Lemma vacant_add w p q v : vacant w p -> p <> q -> vacant (add_node q v w) p.
Proof. intros (H1 & H2 & H3 & H4) Hne. split_and!; [done|done| |done]. cbn. by rewrite lookup_insert_ne. Qed.

Lemma sh_mknod w path maj min : word path -> safe_word maj -> safe_word min -> vacant w (node path) ->
  sh w (mknod path maj min) = (true, add_node (node path) (maj, min) w).
Proof.
  intros [Hpn Hp] Hmaj Hmin (H1 & H2 & H3 & H4). rewrite (sh_words w _ [B "mknod"; node path; B "c"; maj; min]).
  - cbn [run]. rewrite !bool_decide_eq_false_2 by done. rewrite !bool_decide_eq_true_2 by done.
    unfold writable, is_dir, is_node, is_file. by rewrite (bool_decide_eq_true_2 _ H1), (bool_decide_eq_false_2 _ H2), H3, H4.
  - done.
  - replace (mknod path maj min) with (join [B "mknod"; node path; B "c"; maj; min])
      by (unfold mknod, node; cbn [join]; by rewrite <- !app_assoc).
    apply words_join. repeat constructor; try done; try (by apply safe_word_word); try apply safe_plain; by destruct Hmaj, Hmin.
Qed.

Lemma node_inj p q : node p = node q -> p = q.
Proof. intros E. unfold node in E. by apply app_inv_head, app_inv_head in E. Qed.

(** The node map of a list. *)
Definition node_map (L : list (text * (text * text))) : gmap text (text * text) := list_to_map ((fun e => (node e.1, e.2)) <$> L).

Lemma node_map_cons (p : text) (v : text * text) (L : list (text * (text * text))) (N : gmap text (text * text)) : p ∉ L.*1 ->
  node_map L ∪ <[node p := v]> N = node_map ((p, v) :: L) ∪ N.
Proof.
  intros Hp. unfold node_map. rewrite fmap_cons.
  change (list_to_map ((node (p, v).1, (p, v).2) :: ?l)) with (<[node p := v]> (list_to_map l : gmap text (text * text))).
  rewrite <- insert_union_l, insert_union_r; [done|]. apply not_elem_of_list_to_map_1. intros Hin.
  rewrite <- list_fmap_compose in Hin. apply list_elem_of_fmap in Hin as ([q u] & E & Hq).
  apply Hp, list_elem_of_fmap. exists (q, u). split; [by apply node_inj|done].
Qed.

(** The nodes of a list, made one after the other. *)
Lemma sh_mknods L : forall w, NoDup L.*1 -> Forall (fun e => word e.1 /\ safe_word e.2.1 /\ safe_word e.2.2) L ->
  (forall p, p ∈ L.*1 -> vacant w (node p)) ->
  sh_all w ((fun e => mknod e.1 e.2.1 e.2.2) <$> L) = ([], World (disk w) (node_map L ∪ nodes w) (modes w) (dirs w)).
Proof.
  induction L as [|[p [maj min]] L IH]; intros w Hd HL Hn.
  - unfold node_map. cbn. rewrite map_empty_union. by destruct w.
  - apply NoDup_cons in Hd as [Hp Hd]. apply Forall_cons in HL as [(Hw & Hmaj & Hmin) HL]. cbn [fmap list_fmap fst snd] in *.
    rewrite (sh_all_ok _ _ _ _ (sh_mknod w p maj min Hw Hmaj Hmin (Hn p ltac:(by left)))), IH; [|done|done|].
    + cbn [add_node disk nodes modes dirs]. by rewrite node_map_cons.
    + intros q Hq. apply vacant_add; [apply Hn; by right|]. intros E%node_inj. by subst.
Qed.

Definition row : Type := text * text * text.

(** A device the driver lists behind the first: its words are plain, and its minor number is not 0. *)
Definition row_ok (r : row) : Prop :=
  let '(devno, maj, min) := r in safe_word devno /\ safe_word maj /\ safe_word min /\ min <> B "0".

Definition console (r : row) : bool := bool_decide (r.1.2 = B "CONSOLE").

(** The nodes of a device: the terminal, unless it is the console, and the full-screen device. *)
Definition dev_nodes (fs : text) (r : row) : list (text * (text * text)) :=
  let '(devno, maj, min) := r in
  (if console r then [] else [(TTY ++ devno, (maj, min))]) ++ [(TUB ++ devno, (fs, min))].

Definition note : text := B "# Additional mingettys for the 3270/tty* driver, tub3270 --- ".

Definition getty (r : row) : text := let '(devno, maj, min) := r in B "t" ++ min ++ GETTYLINE ++ B " " ++ TTY ++ devno.

Definition terminals (rows : list row) : list row := filter (fun r => console r = false) rows.

Lemma terminals_cons devno maj min rows : terminals ((devno, maj, min) :: rows) =
  if bool_decide (maj = B "CONSOLE") then terminals rows else (devno, maj, min) :: terminals rows.
Proof.
  unfold terminals. rewrite filter_cons.
  change (console (devno, maj, min)) with (bool_decide (maj = B "CONSOLE")). by case_bool_decide.
Qed.

Definition make_node (e : text * (text * text)) : text := mknod e.1 e.2.1 e.2.2.
Definition add_getty (r : row) : text := B "echo " ++ getty r ++ B " >> " ++ NINITTAB.

(** The lines of the generated script for the devices behind the first. *)
Lemma foldl_device dasd fs rows : Forall row_ok rows -> forall s, fsmaj s = fs ->
  foldl (device dasd) s rows =
  Files (SCR s ++ if dasd then [] else make_node <$> concat (dev_nodes fs <$> rows)) (SCRTMP s ++ (add_getty <$> terminals rows)) fs.
Proof.
  induction 1 as [|[[devno maj] min] rows (Hd & Hmaj & Hmin & H0) _ IH]; intros s Hs.
  - cbn. destruct s, dasd; cbn in *; by rewrite !app_nil_r, Hs.
  - rewrite terminals_cons. cbn [foldl]. rewrite fmap_cons. cbn [concat].
    change (dev_nodes fs (devno, maj, min)) with ((if bool_decide (maj = B "CONSOLE") then [] else [(TTY ++ devno, (maj, min))]) ++
      [(TUB ++ devno, (fs, min))]).
    unfold device at 2. rewrite bool_decide_eq_false_2 by done.
    case_bool_decide as Hc; (rewrite IH by (by destruct dasd)); destruct dasd; cbn [negb to_scr to_scrtmp SCR SCRTMP fsmaj app];
      rewrite ?fmap_cons, <- ?app_assoc, ?Hs; cbn [app]; unfold add_getty, getty; rewrite <- ?app_assoc; done.
Qed.

Ltac in_list := solve [repeat first [left | right]].

(** The three files are or can be made. *)
Definition etc_ready (w : world) : Prop :=
  B "/etc" ∈ dirs w /\ Forall (fun f => (f ∉ dirs w) /\ nodes w !! f = None) [INITTAB; NINITTAB; OINITTAB].

Lemma etc_writable w f : etc_ready w -> f ∈ [INITTAB; NINITTAB; OINITTAB] -> writable w f = true.
Proof.
  intros [He Hall] Hf. pose proof (proj1 (Forall_forall _ _) Hall f Hf) as [H1 H2].
  assert (parent f = B "/etc") as Ep by (repeat (apply elem_of_cons in Hf as [->|Hf]; [reflexivity|]); by apply not_elem_of_nil in Hf).
  unfold writable, is_dir, is_node. by rewrite Ep, (bool_decide_eq_true_2 _ He), (bool_decide_eq_false_2 _ H1), H2.
Qed.

Lemma sh_append w l ws f : head l <> Some 35 -> words l = B "echo" :: ws ++ [B ">>"; f] -> writable w f = true ->
  sh w l = (true, set_file f (lines_of f w ++ [join ws]) w).
Proof.
  intros Hh Hl Hw. rewrite (sh_words w l _ Hh Hl). cbn [run]. rewrite bool_decide_eq_true_2 by done.
  rewrite reverse_app. change (reverse [B ">>"; f]) with [f; B ">>"]. cbn [app].
  rewrite bool_decide_eq_true_2 by done. by rewrite Hw, reverse_involutive.
Qed.

Definition grep_line : text := B "grep -v 3270/tty /etc/inittab > /etc/NEWinittab".

(** Whether it fails: no line is left. *)
Definition keeps_none (old : list text) : bool := match filter (fun x => contains TTY x = false) old with [] => true | _ => false end.

Lemma sh_grep w old : etc_ready w -> disk w !! INITTAB = Some old ->
  sh w grep_line = (negb (keeps_none old), set_file NINITTAB (filter (fun x => contains TTY x = false) old) w).
Proof.
  intros He Ho. rewrite (sh_words w _ [B "grep"; B "-v"; TTY; INITTAB; B ">"; NINITTAB]) by done.
  cbn [run]. rewrite bool_decide_eq_false_2 by done. rewrite !bool_decide_eq_true_2 by done.
  rewrite etc_writable by (done || in_list). cbn [andb]. unfold is_file. rewrite Ho.
  unfold lines_of, set_file. cbn [set_disk disk]. rewrite lookup_insert_ne, Ho by done. cbn [default andb].
  unfold id, keeps_none. by destruct (filter _ old).
Qed.

Lemma sh_note w : etc_ready w -> sh w (B "echo " ++ ADDNOTE ++ B " >> " ++ NINITTAB) =
  (true, set_file NINITTAB (lines_of NINITTAB w ++ [note]) w).
Proof.
  intros He. apply (sh_append w _ [B "#"; B "Additional"; B "mingettys"; B "for"; B "the"; B "3270/tty*"; B "driver,"; B "tub3270"; B "--- "]);
    [done|reflexivity|]. apply etc_writable; [done|in_list].
Qed.

Lemma sh_getty w r : etc_ready w -> row_ok r -> sh w (add_getty r) = (true, set_file NINITTAB (lines_of NINITTAB w ++ [getty r]) w).
Proof.
  destruct r as [[devno maj] min]. intros He (Hd & _ & Hmin & _).
  rewrite (sh_append w _ [(B "t" ++ min) ++ GETTYLINE; TTY ++ devno] NINITTAB); [|done| |apply etc_writable; [done|in_list]].
  - do 3 f_equal. f_equal. unfold getty. cbn [join]. by rewrite <- !app_assoc.
  - assert (word ((B "t" ++ min) ++ GETTYLINE)) as Hw.
    { split; [done|]. destruct Hmin as [_ Hmin]. by rewrite !forallb_app, (safe_plain min Hmin). }
    change (B "echo" :: ?l ++ ?k) with ((B "echo" :: l) ++ k).
    rewrite <- words_append; [|by repeat apply Forall_cons_2; [|exact Hw|by apply word_app|]|done|done].
    f_equal. unfold add_getty, getty. cbn [join]. by rewrite <- !app_assoc.
Qed.

Lemma sh_gettys l : forall w k, etc_ready w -> Forall row_ok l -> disk w !! NINITTAB = Some k ->
  sh_all w (add_getty <$> l) = ([], set_file NINITTAB (k ++ (getty <$> l)) w).
Proof.
  induction l as [|r l IH]; intros w k He Hl Hk.
  - cbn. unfold set_file, set_disk. rewrite app_nil_r, insert_id by done. by destruct w.
  - apply Forall_cons in Hl as [Hr Hl]. rewrite fmap_cons, (sh_all_ok _ _ _ _ (sh_getty w r He Hr)).
    unfold lines_of. rewrite Hk. cbn [default]. rewrite (IH _ (k ++ [getty r])); [|exact He|done|apply lookup_insert_eq].
    unfold set_file. cbn [set_disk disk]. rewrite <- app_assoc. unfold set_disk. cbn [disk nodes modes dirs]. by rewrite insert_insert_eq.
Qed.

Lemma sh_mv w f g l : word f -> word g -> disk w !! f = Some l -> writable w g = true ->
  sh w (B "mv " ++ f ++ B " " ++ g) = (true, set_disk (<[g := l]> (delete f (disk w))) w).
Proof.
  intros Hf Hg Hl Hw. rewrite (sh_words w _ [B "mv"; f; g]).
  - cbn [run]. rewrite !(bool_decide_eq_false_2 (B "mv" = _)) by done. rewrite bool_decide_eq_true_2 by done. by rewrite Hl, Hw.
  - done.
  - change (B "mv " ++ f ++ B " " ++ g) with (join [B "mv"; f; g]). apply words_join. by repeat constructor; try apply Hf; try apply Hg.
Qed.

(** The new inittab. *)
Definition new_inittab (old : list text) (rows : list row) : list text :=
  filter (fun x => contains TTY x = false) old ++ [note] ++ (getty <$> terminals rows).

Lemma sh_trailer w old new : etc_ready w -> disk w !! INITTAB = Some old -> disk w !! NINITTAB = Some new ->
  sh_all w trailer = ([], set_disk (<[INITTAB := new]> (<[OINITTAB := old]> (delete NINITTAB (disk w)))) w).
Proof.
  intros He Ho Hn. unfold trailer.
  rewrite (sh_all_ok _ _ _ _ (sh_mv w INITTAB OINITTAB old ltac:(done) ltac:(done) Ho (etc_writable w OINITTAB He ltac:(in_list)))).
  erewrite sh_all_ok; [|apply (sh_mv _ NINITTAB INITTAB new); [done|done| |apply etc_writable; [exact He|in_list]]].
  - cbn [sh_all]. unfold set_disk. cbn [disk nodes modes dirs]. do 2 f_equal. apply map_eq. intros f.
    destruct (decide (f = INITTAB)) as [-> |]; [by rewrite !lookup_insert_eq|]. rewrite !(lookup_insert_ne _ INITTAB) by done.
    destruct (decide (f = NINITTAB)) as [-> |]; [by rewrite lookup_delete_eq, lookup_insert_ne, lookup_delete_eq|].
    rewrite lookup_delete_ne by done. destruct (decide (f = OINITTAB)) as [-> |]; [by rewrite !lookup_insert_eq|].
    rewrite !(lookup_insert_ne _ OINITTAB), !lookup_delete_ne by done. done.
  - cbn [set_disk disk]. by rewrite lookup_insert_ne, lookup_delete_ne.
Qed.

(** The lines that fail: the first, when it leaves nothing. *)
Definition failing (old : list text) : list text := if keeps_none old then [grep_line] else [].

Lemma sh_inittab w rows old : etc_ready w -> Forall row_ok rows -> disk w !! INITTAB = Some old ->
  sh_all w (grep_line :: (B "echo " ++ ADDNOTE ++ B " >> " ++ NINITTAB) :: (add_getty <$> terminals rows) ++ trailer) =
  (failing old, set_disk (<[INITTAB := new_inittab old rows]> (<[OINITTAB := old]> (delete NINITTAB (disk w)))) w).
Proof.
  intros He Hr Ho. assert (Forall row_ok (terminals rows)) as Ht.
  { apply Forall_forall. intros r [_ Hin]%list_elem_of_filter. by eapply Forall_forall in Hr. }
  cbn [sh_all]. rewrite (sh_grep w old He Ho). fold (@sh_all). set (w1 := set_file _ _ w).
  rewrite (sh_note w1) by exact He. unfold lines_of at 1, w1, set_file at 2. cbn [set_disk disk]. rewrite lookup_insert_eq. cbn [default].
  fold w1. set (kept := filter _ old) in *. set (w2 := set_file NINITTAB (kept ++ [note]) w1).
  rewrite (sh_all_app _ _ _ _ (sh_gettys (terminals rows) w2 (kept ++ [note]) He Ht (lookup_insert_eq _ _ _))).
  rewrite (sh_trailer _ old (new_inittab old rows)); [|exact He| |].
  - unfold failing. destruct (keeps_none old); cbn [negb]; f_equal; unfold w2, w1, set_file, set_disk; cbn [disk nodes modes dirs]; f_equal;
      by rewrite !insert_insert_eq, delete_insert_eq.
  - unfold w2, w1, set_file. cbn [set_disk disk]. by rewrite !lookup_insert_ne.
  - cbn [set_file set_disk disk]. rewrite lookup_insert_eq. f_equal. unfold new_inittab. fold kept. by rewrite <- app_assoc.
Qed.

(** Every node the script makes. *)
Definition all_nodes (fs : text) (rows : list row) : list (text * (text * text)) :=
  (TUB, (fs, B "0")) :: concat (dev_nodes fs <$> rows).

Definition devno (r : row) : text := r.1.1.

Lemma nodes_of fs rows p : p ∈ (concat (dev_nodes fs <$> rows)).*1 ->
  exists r, r ∈ rows /\ (p = TTY ++ devno r \/ p = TUB ++ devno r).
Proof.
  intros ([q v] & -> & Hin)%list_elem_of_fmap. apply list_elem_of_In, in_concat in Hin as (l & Hl & Hin).
  apply list_elem_of_In, list_elem_of_fmap in Hl as ([[d maj] min] & -> & Hr). exists (d, maj, min). split; [done|].
  unfold dev_nodes in Hin. destruct (console _); cbn [app] in Hin; repeat destruct Hin as [Hin|Hin]; try done;
    apply (f_equal fst) in Hin; cbn [fst] in Hin |- *; subst q; first [by left | by right].
Qed.

Lemma tty_tub d d' : TTY ++ d <> TUB ++ d'.
Proof. done. Qed.

Lemma nodes_distinct fs rows : Forall row_ok rows -> NoDup (devno <$> rows) -> NoDup (all_nodes fs rows).*1.
Proof.
  intros Hr Hd. unfold all_nodes. rewrite fmap_cons. constructor.
  { intros (r & Hin & [E|E])%nodes_of; [done|]. eapply Forall_forall in Hr; [|exact Hin]. destruct r as [[d maj] min]. cbn [fst] in E.
    rewrite <- (app_nil_r TUB) in E at 1. apply app_inv_head in E. by destruct Hr as ([] & _). }
  induction Hr as [|[[d maj] min] rows _ Hr IH]; [constructor|]. rewrite fmap_cons in Hd. apply NoDup_cons in Hd as [Hn Hd].
  rewrite fmap_cons. cbn [concat]. rewrite fmap_app. apply NoDup_app. split_and!; [| |by apply IH].
  - unfold dev_nodes. destruct (console _); cbn [app fmap list_fmap fst]; [apply NoDup_singleton|].
    apply NoDup_cons. split; [|apply NoDup_singleton]. by intros Hin%list_elem_of_singleton.
  - intros p Hp (r & Hin & E)%nodes_of. apply Hn. apply list_elem_of_fmap. exists r. split; [|done].
    assert (p = TTY ++ d \/ p = TUB ++ d) as Hp'.
    { unfold dev_nodes in Hp. destruct (console _); cbn [app fmap list_fmap fst] in Hp;
        repeat (apply elem_of_cons in Hp as [->|Hp]); auto; by apply not_elem_of_nil in Hp. }
    cbn. by destruct E as [-> | ->], Hp' as [E|E]; try done; apply app_inv_head in E.
Qed.

Lemma nodes_words fs rows : safe_word fs -> Forall row_ok rows ->
  Forall (fun e => word e.1 /\ safe_word e.2.1 /\ safe_word e.2.2) (concat (dev_nodes fs <$> rows)).
Proof.
  intros Hf Hr. induction Hr as [|[[d maj] min] rows (Hd & Hmaj & Hmin & _) _ IH]; [constructor|].
  rewrite fmap_cons. cbn [concat]. apply Forall_app. split; [|done]. unfold dev_nodes.
  assert (word (TTY ++ d) /\ word (TUB ++ d)) as [Ht Hu] by (split; by apply word_app).
  destruct (console _); cbn [app]; repeat apply Forall_cons_2; done.
Qed.

(** What [3270/*] is short for, in full. *)
Definition devdir : text := B "/dev/3270/".

Lemma drop_name_app l r : forallb (fun c => negb (c =? 47)) l = true -> drop_name (l ++ 47 :: r) = r.
Proof.
  induction l as [|c l IH]; [done|]. cbn [forallb app drop_name]. intros [Hc Hl]%andb_true_iff. destruct (c =? 47); [done|]. by apply IH.
Qed.

Lemma parent_app d l : forallb (fun c => negb (c =? 47)) l = true -> parent (d ++ 47 :: l) = d.
Proof.
  intros Hl. unfold parent. rewrite reverse_app, reverse_cons, <- app_assoc. cbn [app]. rewrite drop_name_app; [by rewrite reverse_involutive|].
  apply forallb_forall. intros c Hc. rewrite forallb_forall in Hl. apply Hl. apply list_elem_of_In, elem_of_reverse. by apply list_elem_of_In.
Qed.

(** Every node of the script is in that directory, under a name without a dot in front. *)
Lemma node_place fs rows p : Forall row_ok rows -> p ∈ (all_nodes fs rows).*1 ->
  globbed devdir (node p) = true /\ parent (node p) = B "/dev/3270".
Proof.
  intros Hr Hp. assert (exists c q, p = SUBD ++ B "/t" ++ c :: q /\ forallb (fun c => negb (c =? 47)) (c :: q) = true) as (c & q & -> & Hq).
  { unfold all_nodes in Hp. rewrite fmap_cons in Hp. apply elem_of_cons in Hp as [-> | (r & Hin & E)%nodes_of]; [by eexists _, _|].
    eapply Forall_forall in Hr; [|exact Hin]. destruct r as [[d maj] min]. destruct Hr as ([_ Hd] & _).
    assert (forallb (fun c => negb (c =? 47)) d = true) as Hn.
    { rewrite forallb_forall in Hd |- *. intros c Hc. specialize (Hd c Hc). unfold safe in Hd. lia. }
    destruct E as [-> | ->]; eexists _, _; (split; [reflexivity|]); exact Hn. }
  split; [reflexivity|]. exact (parent_app (B "/dev/3270") (116 :: c :: q) Hq).
Qed.

Lemma sweep_kept {A} (m : gmap text A) p : globbed devdir p = false -> sweep devdir m !! p = m !! p.
Proof.
  intros Hp. unfold sweep. rewrite map_lookup_filter. destruct (m !! p); [|done]. cbn. by rewrite option_guard_True.
Qed.

Lemma sweep_gone {A} (m : gmap text A) p : globbed devdir p = true -> sweep devdir m !! p = None.
Proof. intros Hp. apply map_lookup_filter_None_2. right. intros x _ Hk. cbn [fst] in Hk. by rewrite Hp in Hk. Qed.

Definition swept_dirs (w : world) : gset text := filter (fun d => globbed devdir d = false) (dirs w).

(** The world behind [rm] and behind the nodes. *)
Definition swept (w : world) : world := World (sweep devdir (disk w)) (sweep devdir (nodes w)) (sweep devdir (modes w)) (swept_dirs w).

Definition made (fs : text) (rows : list row) (w : world) : world :=
  World (sweep devdir (disk w)) (node_map (all_nodes fs rows) ∪ sweep devdir (nodes w))
    (<[B "/dev/3270/tub" := B "666"]> (sweep devdir (modes w))) ({[B "/dev"; B "/dev/3270"]} ∪ swept_dirs w).

(** Nothing else is where the directory is to be. *)
Definition dev_ready (w : world) : Prop := Forall (fun d => disk w !! d = None /\ nodes w !! d = None) [B "/dev"; B "/dev/3270"].

Lemma sh_start w dasd : sh_all w (SCR (begin dasd)) = ([], if dasd then w else swept w).
Proof. destruct dasd; reflexivity. Qed.

Lemma sh_mkdir w : dev_ready w ->
  sh (swept w) (B "mkdir -p " ++ D ++ B "/" ++ SUBD) =
  (true, World (disk (swept w)) (nodes (swept w)) (modes (swept w)) ({[B "/dev"; B "/dev/3270"]} ∪ swept_dirs w)).
Proof.
  intros [[H1 H2] [[H3 H4] _]%Forall_cons]%Forall_cons. rewrite (sh_words _ _ [B "mkdir"; B "-p"; B "/dev/3270"]) by done.
  cbn [run]. rewrite !(bool_decide_eq_false_2 (B "mkdir" = _)) by done. rewrite !bool_decide_eq_true_2 by done.
  change (prefixes [] (B "/dev/3270")) with [B "/dev"; B "/dev/3270"]. cbn [existsb]. unfold is_file, is_node. cbn [swept disk nodes].
  rewrite !sweep_kept, H1, H2, H3, H4 by done. reflexivity.
Qed.

(** The first part of the script where nodes are made. *)
Lemma sh_nodes w fs rows : safe_word fs -> Forall row_ok rows -> NoDup (devno <$> rows) -> dev_ready w ->
  sh_all w (SCR (begin false) ++ [B "mkdir -p " ++ D ++ B "/" ++ SUBD] ++ [mknod TUB fs (B "0"); B "chmod 666 " ++ D ++ B "/" ++ TUB] ++
    (make_node <$> concat (dev_nodes fs <$> rows))) = ([], made fs rows w).
Proof.
  intros Hf Hr Hd Hw. pose proof (nodes_distinct fs rows Hr Hd) as Hnd. pose proof (nodes_words fs rows Hf Hr) as Hws.
  rewrite (sh_all_app _ _ _ _ (sh_start w false)). cbn [app]. rewrite (sh_all_ok _ _ _ _ (sh_mkdir w Hw)). set (w1 := World _ _ _ _).
  assert (forall p, p ∈ (all_nodes fs rows).*1 -> vacant w1 (node p)) as Hv.
  { intros p Hp. destruct (node_place fs rows p Hr Hp) as [Hg Ep]. split_and!; cbn [w1 swept disk nodes modes dirs].
    - rewrite Ep. apply elem_of_union_l, elem_of_union_r. by apply elem_of_singleton.
    - rewrite elem_of_union. unfold swept_dirs. rewrite elem_of_filter, Hg. intros [Hin | Hin]; [|by destruct Hin].
      apply elem_of_union in Hin as [Hin%elem_of_singleton | Hin%elem_of_singleton]; rewrite Hin in Hg; discriminate Hg.
    - by apply sweep_gone.
    - by apply sweep_gone. }
  unfold all_nodes in Hnd, Hv. rewrite fmap_cons in Hnd, Hv. apply NoDup_cons in Hnd as [Ht Hnd]. cbn [fst] in Ht.
  assert (sh w1 (mknod TUB fs (B "0")) = (true, add_node (node TUB) (fs, B "0") w1)) as E by (apply sh_mknod; [done|done|done|apply Hv; by left]).
  cbn [app]. rewrite (sh_all_ok _ _ _ _ E). set (w2 := add_node _ _ w1).
  assert (sh w2 (B "chmod 666 " ++ D ++ B "/" ++ TUB) = (true, World (disk w2) (nodes w2) (<[B "/dev/3270/tub" := B "666"]> (modes w2)) (dirs w2))) as E2.
  { rewrite (sh_words _ _ [B "chmod"; B "666"; node TUB]) by done. cbn [run]. rewrite !(bool_decide_eq_false_2 (B "chmod" = _)) by done.
    rewrite bool_decide_eq_true_2 by done. unfold is_node. cbn [w2 add_node nodes]. by rewrite lookup_insert_eq. }
  rewrite (sh_all_ok _ _ _ _ E2). unfold make_node. rewrite sh_mknods; [|done|done|].
  - cbn [w2 w1 add_node swept disk nodes modes dirs]. rewrite node_map_cons by done. done.
  - intros p Hp. apply (vacant_add w1); [apply Hv; by right|]. intros ->%node_inj. done.
Qed.

(** The generated script on a system with an inittab. *)
Lemma output_runs (dasd : bool) d0 fs rows w old : safe_word fs -> Forall row_ok rows -> NoDup (devno <$> rows) ->
  etc_ready w -> etc_ready (made fs rows w) -> dev_ready w -> disk w !! INITTAB = Some old ->
  let w1 := if dasd then w else made fs rows w in
  sh_all w (output dasd ((d0, fs, B "0") :: rows)) =
  (failing old, set_disk (<[INITTAB := new_inittab old rows]> (<[OINITTAB := old]> (delete NINITTAB (disk w1)))) w1).
Proof.
  intros Hf Hr Hd He He' Hw Ho w1. unfold output. cbn [foldl].
  rewrite (foldl_device dasd fs rows Hr (device dasd (header dasd) (d0, fs, B "0"))) by (by destruct dasd).
  cbn [to_scrtmp SCR SCRTMP]. unfold w1. destruct dasd.
  - rewrite (sh_all_app _ _ _ _ (sh_start w true)). exact (sh_inittab w rows old He Hr Ho).
  - rewrite (sh_all_app _ _ _ _ (sh_nodes w fs rows Hf Hr Hd Hw)). apply (sh_inittab _ rows old He' Hr). cbn [made disk]. by rewrite sweep_kept.
Qed.

Lemma node_map_other fs rows p : Forall row_ok rows -> globbed devdir p = false -> node_map (all_nodes fs rows) !! p = None.
Proof.
  intros Hr Hp. apply not_elem_of_list_to_map_1. intros Hin. rewrite <- list_fmap_compose in Hin.
  apply list_elem_of_fmap in Hin as ([q v] & E & Hq). change (p = node q) in E. subst p.
  destruct (node_place fs rows q Hr) as [Hg _]; [apply list_elem_of_fmap; by exists (q, v)|]. by rewrite Hg in Hp.
Qed.

Lemma made_ready fs rows w : Forall row_ok rows -> etc_ready w -> etc_ready (made fs rows w).
Proof.
  intros Hr [He Hall]. split.
  - cbn [made dirs]. apply elem_of_union_r. unfold swept_dirs. by apply elem_of_filter.
  - apply Forall_forall. intros f Hf. pose proof (proj1 (Forall_forall _ _) Hall f Hf) as [H1 H2]. cbn [made dirs nodes].
    assert (globbed devdir f = false /\ f <> B "/dev" /\ f <> B "/dev/3270") as (Hg & Hn1 & Hn2)
      by (repeat (apply elem_of_cons in Hf as [->|Hf]; [done|]); by apply not_elem_of_nil in Hf).
    split.
    + rewrite !elem_of_union, !elem_of_singleton. unfold swept_dirs. rewrite elem_of_filter. tauto.
    + rewrite lookup_union, node_map_other, sweep_kept, H2 by done. done.
Qed.

(** ** A second run *)

Lemma getty_contains r : contains TTY (getty r) = true.
Proof.
  destruct r as [[d maj] min]. unfold getty.
  replace (B "t" ++ min ++ GETTYLINE ++ B " " ++ TTY ++ d) with ((B "t" ++ min ++ GETTYLINE ++ B " ") ++ TTY ++ d) by (by rewrite <- !app_assoc).
  apply contains_app.
Qed.

Lemma new_inittab_again old rows : new_inittab (new_inittab old rows) rows = new_inittab old rows.
Proof.
  unfold new_inittab at 1 2. f_equal. rewrite filter_app. rewrite list_filter_filter_l by tauto.
  change ([note] ++ ?l) with (note :: l). rewrite filter_cons. change (contains TTY note) with true. cbn.
  replace (filter _ (getty <$> terminals rows)) with (@nil text); [by rewrite app_nil_r|].
  induction (terminals rows) as [|r l IH]; [done|]. rewrite fmap_cons, filter_cons, getty_contains. done.
Qed.

Lemma nodes_again (L N : gmap text (text * text)) : L ∪ sweep devdir (L ∪ sweep devdir N) = L ∪ sweep devdir N.
Proof.
  apply map_eq. intros p. rewrite !lookup_union. destruct (globbed devdir p) eqn:Hg.
  - by rewrite !(sweep_gone _ p Hg).
  - rewrite !(sweep_kept _ p Hg), lookup_union, (sweep_kept _ p Hg). by destruct (L !! p), (N !! p).
Qed.

Lemma mode_again (m : gmap text text) k v : globbed devdir k = true -> <[k := v]> (sweep devdir (<[k := v]> (sweep devdir m))) = <[k := v]> (sweep devdir m).
Proof.
  intros Hk. apply map_eq. intros p. destruct (decide (p = k)) as [-> |]; [by rewrite !lookup_insert_eq|]. rewrite !(lookup_insert_ne _ k) by done.
  destruct (globbed devdir p) eqn:Hg; [by rewrite !(sweep_gone _ p Hg)|]. by rewrite (sweep_kept _ p Hg), lookup_insert_ne.
Qed.

Lemma dirs_again (S X : gset text) : S ∪ filter (fun d => globbed devdir d = false) (S ∪ filter (fun d => globbed devdir d = false) X) =
  S ∪ filter (fun d => globbed devdir d = false) X.
Proof. apply set_eq. intros d. rewrite !elem_of_union, !elem_of_filter, !elem_of_union, !elem_of_filter. tauto. Qed.

Lemma keeps_again old rows : keeps_none (new_inittab old rows) = keeps_none old.
Proof.
  pose proof (new_inittab_again old rows) as E. unfold new_inittab at 1 3 in E. apply app_inv_tail in E. unfold keeps_none. by rewrite E.
Qed.

(** A system is ready for the script behind it. *)
Lemma again_ready (dasd : bool) fs rows w old : Forall row_ok rows -> etc_ready w -> dev_ready w ->
  let w1 := if dasd then w else made fs rows w in
  let w' := set_disk (<[INITTAB := new_inittab old rows]> (<[OINITTAB := old]> (delete NINITTAB (disk w1)))) w1 in
  etc_ready w' /\ dev_ready w'.
Proof.
  intros Hr He Hw w1 w'. split.
  - unfold w', w1. destruct dasd; [exact He|]. exact (made_ready fs rows w Hr He).
  - apply Forall_forall. intros d Hd. pose proof (proj1 (Forall_forall _ _) Hw d Hd) as [H1 H2].
    assert (globbed devdir d = false /\ d <> INITTAB /\ d <> OINITTAB /\ d <> NINITTAB) as (Hg & Hn1 & Hn2 & Hn3)
      by (repeat (apply elem_of_cons in Hd as [->|Hd]; [done|]); by apply not_elem_of_nil in Hd).
    unfold w', w1. cbn [set_disk disk nodes]. rewrite !lookup_insert_ne, lookup_delete_ne by done.
    destruct dasd; [done|]. cbn [made disk nodes]. by rewrite lookup_union, node_map_other, !sweep_kept, H1, H2.
Qed.

(** ** What the driver says *)

(** A line of the driver about a device: three words with blanks around them. *)
Definition says (l : text) (r : row) : Prop :=
  let '(devno, maj, min) := r in
  exists b0 b1 b2 b3, Forall (fun b => forallb blank b = true) [b0; b1; b2; b3] /\ b1 <> [] /\ b2 <> [] /\
    l = b0 ++ devno ++ b1 ++ maj ++ b2 ++ min ++ b3.

Lemma safe_nonblank w : forallb safe w = true -> forallb (fun c => negb (blank c)) w = true.
Proof. rewrite !forallb_forall. intros Hw c Hc. specialize (Hw c Hc). unfold safe in Hw. unfold blank. lia. Qed.

Lemma drop_blanks_app b w r : forallb blank b = true -> safe_word w -> drop_blanks (b ++ w ++ r) = w ++ r.
Proof.
  intros Hb [Hn Hw%safe_nonblank]. induction b as [|c b IH].
  - destruct w as [|c w]; [done|]. cbn in Hw |- *. by destruct (blank c).
  - cbn in Hb |- *. apply andb_true_iff in Hb as [-> Hb]. by apply IH.
Qed.

Lemma first_word_app w b r : safe_word w -> b <> [] -> forallb blank b = true -> first_word (w ++ b ++ r) = (w, b ++ r).
Proof.
  intros [_ Hw%safe_nonblank] Hn Hb. induction w as [|c w IH].
  - destruct b as [|c b]; [done|]. cbn in Hb |- *. by destruct (blank c).
  - cbn [forallb] in Hw. apply andb_true_iff in Hw as [Hc Hw]. cbn [app first_word]. rewrite IH by done. by destruct (blank c).
Qed.

Lemma forallb_reverse {A} (f : A -> bool) l : forallb f l = true -> forallb f (reverse l) = true.
Proof. rewrite !forallb_forall. intros H x Hx. apply H. apply list_elem_of_In, elem_of_reverse. by apply list_elem_of_In. Qed.

Lemma read_row_says l r : says l r -> safe_word r.1.1 -> safe_word r.1.2 -> safe_word r.2 -> read_row l = r.
Proof.
  destruct r as [[devno maj] min]. cbn [fst snd]. intros (b0 & b1 & b2 & b3 & Hb & Hn1 & Hn2 & ->) Hd Hmaj Hmin.
  rewrite !Forall_cons in Hb. destruct Hb as (H0 & H1 & H2 & H3 & _). unfold read_row.
  rewrite drop_blanks_app, first_word_app, drop_blanks_app, first_word_app, drop_blanks_app by done.
  rewrite reverse_app, <- (app_nil_r (reverse min)), drop_blanks_app, app_nil_r, reverse_involutive; [done|by apply forallb_reverse|].
  destruct Hmin as [Hn Hs]. split; [|by apply forallb_reverse]. intros E. apply Hn. rewrite <- (reverse_involutive min), E. done.
Qed.

Lemma rows_read ls d0 fs rows : safe_word d0 -> safe_word fs -> Forall row_ok rows -> Forall2 says ls ((d0, fs, B "0") :: rows) ->
  read_row <$> ls = (d0, fs, B "0") :: rows.
Proof.
  intros Hd Hf Hr Hl. assert (Forall (fun r : row => safe_word r.1.1 /\ safe_word r.1.2 /\ safe_word r.2) ((d0, fs, B "0") :: rows)) as Hs.
  { apply Forall_cons_2; [by split_and!|]. eapply Forall_impl; [exact Hr|]. intros [[d maj] min] (H1 & H2 & H3 & _). by split_and!. }
  induction Hl as [|l r ls rs Hsay _ IH]; [done|]. apply Forall_cons in Hs as [(H1 & H2 & H3) Hs]. rewrite fmap_cons. f_equal; [|by apply IH].
  by apply read_row_says.
Qed.


(** ** A console and two terminals *)

Definition sample_rows : list row :=
  [(B "0.0.0009", B "CONSOLE", B "1"); (B "0.0.0620", B "227", B "2"); (B "0.0.0621", B "227", B "3")].

Definition sample_inittab : list text := [B "id:3:initdefault:"; B "t2:2345:respawn:/sbin/mingetty 3270/tty0.0.0620"].

(** The driver's file: it lists the devices only when it was asked to. *)
Definition sample_proc (written : option text) : list text :=
  if bool_decide (written = Some (B "what=config")) then
    [B "0.0.0009 228 0"; B "0.0.0009 CONSOLE 1"; B "0.0.0620  227  2"; B "0.0.0621  227  3"]
  else [].

Definition sample_world (inittab : list text) : world := World {[INITTAB := inittab]} ∅ ∅ {[B "/etc"; B "/dev"]}.


End Config3270.
