(* ===== verification/DvbFirmware.v ===== *)
(** * Firmware download and extraction: dvb/get_dvb_firmware

    For each of 39 components the script downloads an archive or a file, unpacks it,
    compares checksums and cuts the firmware out of a driver.  A component is a list of
    the utilities it calls; [exec] runs one of them on the files.  [firmwares] is the table
    of what the components are to leave; [learn] follows what is known of the files, and the
    theorem says that the script leaves what the table says. *)

From Stdlib Require Import Ascii.
From stdpp Require Import gmap strings.
From S2P Require Import Prelude.

Module Dvb.

Open Scope Z_scope.

Abbreviation content := (list Z).

(** A file of the working directory, or of the fresh temporary directory. *)
Inductive file : Type := Cwd (name : string) | Tmp (name : string).

#[export] Instance file_eq : EqDecision file.
Proof. solve_decision. Defined.

#[export] Instance file_countable : Countable file.
Proof.
  refine (inj_countable' (fun f => match f with Cwd s => inl s | Tmp s => inr s end)
    (fun x => match x with inl s => Cwd s | inr s => Tmp s end) _). by intros [].
Defined.

Abbreviation fs := (gmap file content).

Inductive result (A : Type) : Type := Done (a : A) | Died (msg : string).
Arguments Done {A} a.
Arguments Died {A} msg.

Definition then_ {A B} (r : result A) (k : A -> result B) : result B :=
  match r with Done a => k a | Died m => Died m end.

(** The programs the script runs. *)
Class Tools := {
  which : string -> bool;                                   (* the program is installed *)
  download : string -> option content;                      (* wget *)
  unzip_x : content -> Z * list (string * content);         (* status, and what is unpacked *)
  unshield_x : content -> Z * list (string * content);
  md5 : content -> string;                                  (* the digest md5sum prints *)
  perl_printf : content -> content                          (* printf of a string without arguments *)
}.

Section Script.
Context `{Tools}.

(** ** Utilities *)

Definition checkstandard (s : fs) : result fs :=
  if negb (which "unzip") then Died "This firmware requires the unzip command"
  else if negb (which "md5sum") then Died "This firmware requires the md5sum command"
  else if negb (which "wget") then Died "This firmware requires the wget command"
  else Done s.

Definition checkunshield (s : fs) : result fs :=
  if negb (which "unshield") then Died "This firmware requires the unshield command" else Done s.

Definition wgetfile (sourcefile url : string) (s : fs) : result fs :=
  match s !! Cwd sourcefile with
  | Some _ => Done s
  | None =>
      match download url with
      | Some c => Done (<[Cwd sourcefile := c]> s)
      | None => Died "wget failed - unable to download firmware"
      end
  end.

(** What is unpacked replaces what was there. *)
Definition unpack (todir : string -> file) (l : list (string * content)) (s : fs) : fs :=
  foldl (fun s e => <[todir e.1 := e.2]> s) s l.

Definition unzip (sourcefile : file) (todir : string -> file) (s : fs) : result fs :=
  match s !! sourcefile with
  | None => Died "unzip failed - unable to extract firmware"
  | Some a =>
      let (status, l) := unzip_x a in
      if (2 <? Z.shiftr status 8) || negb (Z.land status 0xff =? 0) then Died "unzip failed - unable to extract firmware"
      else Done (unpack todir l s)
  end.

Definition unshield (sourcefile : file) (todir : string -> file) (s : fs) : result fs :=
  match s !! sourcefile with
  | None => Died "unshield failed - unable to extract firmware"
  | Some a =>
      let (status, l) := unshield_x a in
      if negb (status =? 0) then Died "unshield failed - unable to extract firmware" else Done (unpack todir l s)
  end.

Definition verify (filename : file) (hash : string) (s : fs) : result fs :=
  let testhash := match s !! filename with Some c => md5 c | None => ""%string end in
  if bool_decide (testhash <> hash) then Died "Hash of extracted file does not match!" else Done s.

Definition copy (from to : file) (s : fs) : result fs :=
  match s !! from with Some c => Done (<[to := c]> s) | None => Died "cp failed" end.

(** The loop of [extract]: what is left of the input, and what was written. *)
Fixpoint extract_loop (fuel : nat) (input : content) (length : Z) (out : content) : result content :=
  match fuel with
  | O => Done out
  | S fuel =>
      if 0 <? length then
        let chunklength := if length <? 2048 then length else 2048 in
        let buf := ztake chunklength input in
        let rcount := zlen buf in
        if negb (rcount =? chunklength) then Died "Ran out of data"
        else extract_loop fuel (zdrop rcount input) (length - rcount) (out ++ buf)
      else Done out
  end.

(** A file that cannot be opened gives no data; the output is made before the input is read. *)
Definition extract (infile : file) (offset length : Z) (outfile : file) (s : fs) : result fs :=
  let s := <[outfile := []]> s in
  let input := zdrop offset (default [] (s !! infile)) in
  then_ (extract_loop (S (Z.to_nat length)) input length []) (fun out => Done (<[outfile := out]> s)).

(** [delzero]: of each record of 22 bytes the length, the bytes from the second on, and a zero. *)
Fixpoint delzero_loop (fuel : nat) (input out : content) : content :=
  match fuel with
  | O => out
  | S fuel =>
      let buf := ztake 22 input in
      let len := hd 0 buf in
      let out := out ++ ztake 1 buf ++ ztake (len + 3) (zdrop 2 buf) in
      if zlen buf <? 1 then out else delzero_loop fuel (zdrop 22 input) (out ++ [0])
  end.

Definition delzero_of (c : content) : content := delzero_loop (S (length c)) c [].

Definition delzero (infile outfile : file) (s : fs) : result fs :=
  let s := <[outfile := []]> s in
  Done (<[outfile := delzero_of (default [] (s !! infile))]> s).

(** What is printed to a file: text, or a file by [appendfile].  A file left open is flushed before the next
    command is run. *)
Inductive piece : Type := Print (b : content) | Appendfile (f : file).

Definition piece_of (s : fs) (p : piece) : content :=
  match p with Print b => b | Appendfile f => default [] (s !! f) end.

Definition build (outfile : file) (ps : list piece) (s : fs) : result fs :=
  let s := <[outfile := []]> s in
  Done (<[outfile := concat (piece_of s <$> ps)]> s).

(** The loop of [af9015]: 55 bytes are taken and 8 left out. *)
Fixpoint gaps_loop (fuel : nat) (input : content) (fwlength : Z) (out : content) : result content :=
  match fuel with
  | O => Done out
  | S fuel =>
      if 0 <? fwlength then
        let chunklength := if fwlength <? 55 then fwlength else 55 in
        let buf := ztake chunklength input in
        let rcount := zlen buf in
        if negb (rcount =? chunklength) then Died "Ran out of data"
        else gaps_loop fuel (zdrop 8 (zdrop rcount input)) (fwlength - (rcount + 8)) (out ++ buf)
      else Done out
  end.

Definition gaps_of (fwoffset fwlength : Z) (c : content) : result content :=
  gaps_loop (S (Z.to_nat fwlength)) (zdrop fwoffset c) fwlength [].

Definition extract_gaps (infile : file) (fwoffset fwlength : Z) (outfile : file) (s : fs) : result fs :=
  let s := <[outfile := []]> s in
  then_ (gaps_of fwoffset fwlength (default [] (s !! infile))) (fun out => Done (<[outfile := out]> s)).

(** The records of [mpc718], each with the command TUNER GO at its end. *)
Fixpoint records (cur input : content) : list content :=
  match input with
  | [] => if bool_decide (cur = []) then [] else [reverse cur]
  | b :: r =>
      if bool_decide (head cur = Some 0x5d) && (b =? 1) then reverse (b :: cur) :: records [] r else records (b :: cur) r
  end.

Definition chop (l : content) : content := take (length l - 1) l.

Definition strip_zeros (l : content) : content := match l with 0 :: 0 :: r => r | _ => l end.

(** The first record as long as the one before it. *)
Fixpoint find_run (prevlen : Z) (rs : list content) : option content :=
  match rs with
  | [] => None
  | r :: rest =>
      let currlen := zlen r in
      if (prevlen =? currlen) && (currlen <=? 64) then Some (perl_printf (strip_zeros (chop (chop r)))) else find_run currlen rest
  end.

Definition mpc718_extract (sourcefile : file) (fwfile : string) (s : fs) : result fs :=
  match s !! sourcefile with
  | None => Died "Could not open the driver"
  | Some c =>
      match find_run 0 (records [] c) with
      | Some out => Done (<[Cwd fwfile := out]> s)
      | None => Died "Could not find valid register-value sequence"
      end
  end.

(** ** Components *)

Inductive stmt : Type :=
| Checkstandard | Checkunshield
| Wgetfile (sourcefile url : string)
| Unzip (sourcefile : string) (tmpdir : bool)
| Unshield (cab : string)
| Verify (f : file) (hash : string)
| Copy (from to : file)
| Extract (infile : file) (offset length : Z) (outfile : file)
| Delzero (infile outfile : file)
| Build (outfile : file) (ps : list piece)
| ExtractGaps (infile : file) (fwoffset fwlength : Z) (outfile : file)
| Mpc718Extract (sourcefile : file) (fwfile : string).

Definition exec (t : stmt) (s : fs) : result fs :=
  match t with
  | Checkstandard => checkstandard s
  | Checkunshield => checkunshield s
  | Wgetfile f url => wgetfile f url s
  | Unzip f tmpdir => unzip (Cwd f) (if tmpdir then Tmp else Cwd) s
  | Unshield f => unshield (Tmp f) Tmp s
  | Verify f hash => verify f hash s
  | Copy from to => copy from to s
  | Extract i offset length o => extract i offset length o s
  | Delzero i o => delzero i o s
  | Build o ps => build o ps s
  | ExtractGaps i offset length o => extract_gaps i offset length o s
  | Mpc718Extract i o => mpc718_extract i o s
  end.

Fixpoint run (l : list stmt) (s : fs) : result fs :=
  match l with [] => Done s | t :: r => then_ (exec t s) (run r) end.

End Script.

(** The calls of a component, and the name it returns. *)
Record component : Type := Component { calls : list stmt; outfile : string }.

Open Scope string_scope.
Open Scope Z_scope.

Definition sp8870 : component :=
  Component [Checkstandard;
    Wgetfile "tt_Premium_217g.zip" "http://www.softwarepatch.pl/9999ccd06a4813cb827dbb0005071c71/tt_Premium_217g.zip";
    Unzip "tt_Premium_217g.zip" true;
    Verify (Tmp "software/OEM/HE/App/boot/SC_MAIN.MC") "53970ec17a538945a6d8cb608a7b3899";
    Copy (Tmp "software/OEM/HE/App/boot/SC_MAIN.MC") (Cwd "dvb-fe-sp8870.fw")]
    "dvb-fe-sp8870.fw".

Definition sp887x : component :=
  Component [Checkstandard;
    Checkunshield;
    Wgetfile "Dvbt1.3.57.6.zip" "http://www.avermedia.com/software/Dvbt1.3.57.6.zip";
    Unzip "Dvbt1.3.57.6.zip" true;
    Unshield "DVBT Net  Ver1.3.57.6/disk1/data1.cab";
    Verify (Tmp "ZEnglish/sc_main.mc") "237938d53a7f834c05c42b894ca68ac3";
    Copy (Tmp "ZEnglish/sc_main.mc") (Cwd "dvb-fe-sp887x.fw")]
    "dvb-fe-sp887x.fw".

Definition tda10045 : component :=
  Component [Checkstandard;
    Wgetfile "tt_budget_217g.zip" "http://www.technotrend.de/new/217g/tt_budget_217g.zip";
    Unzip "tt_budget_217g.zip" true;
    Extract (Tmp "software/OEM/PCI/App/ttlcdacc.dll") 0x37ef9 30555 (Tmp "fwtmp");
    Verify (Tmp "fwtmp") "2105fd5bf37842fbcdfa4bfd58f3594a";
    Copy (Tmp "fwtmp") (Cwd "dvb-fe-tda10045.fw")]
    "dvb-fe-tda10045.fw".

Definition tda10046 : component :=
  Component [Checkstandard;
    Wgetfile "TT_PCI_2.19h_28_11_2006.zip" "http://technotrend.com.ua/download/software/219/TT_PCI_2.19h_28_11_2006.zip";
    Unzip "TT_PCI_2.19h_28_11_2006.zip" true;
    Extract (Tmp "TT_PCI_2.19h_28_11_2006/software/OEM/PCI/App/ttlcdacc.dll") 0x65389 24478 (Tmp "fwtmp");
    Verify (Tmp "fwtmp") "6a7e1e2f2644b162ff0502367553c72d";
    Copy (Tmp "fwtmp") (Cwd "dvb-fe-tda10046.fw")]
    "dvb-fe-tda10046.fw".

Definition tda10046lifeview : component :=
  Component [Checkstandard;
    Wgetfile "7%5Cdrv_2.11.02.zip" "http://www.lifeview.hk/dbimages/document/7%5Cdrv_2.11.02.zip";
    Unzip "7%5Cdrv_2.11.02.zip" true;
    Extract (Tmp "LVHybrid.sys") 0x8b088 24602 (Tmp "fwtmp");
    Verify (Tmp "fwtmp") "1ea24dee4eea8fe971686981f34fd2e0";
    Copy (Tmp "fwtmp") (Cwd "dvb-fe-tda10046.fw")]
    "dvb-fe-tda10046.fw".

Definition av7110 : component :=
  Component [Checkstandard;
    Wgetfile "dvb-ttpci-01.fw-261d" "http://www.linuxtv.org/downloads/firmware/dvb-ttpci-01.fw-261d";
    Verify (Cwd "dvb-ttpci-01.fw-261d") "603431b6259715a8e88f376a53b64e2f";
    Copy (Cwd "dvb-ttpci-01.fw-261d") (Cwd "dvb-ttpci-01.fw")]
    "dvb-ttpci-01.fw".

Definition dec2000t : component :=
  Component [Checkstandard;
    Wgetfile "dec217g.exe" "http://hauppauge.lightpath.net/de/dec217g.exe";
    Unzip "dec217g.exe" true;
    Verify (Tmp "software/OEM/STB/App/Boot/STB_PC_T.bin") "bd86f458cee4a8f0a8ce2d20c66215a9";
    Copy (Tmp "software/OEM/STB/App/Boot/STB_PC_T.bin") (Cwd "dvb-ttusb-dec-2000t.fw")]
    "dvb-ttusb-dec-2000t.fw".

Definition dec2540t : component :=
  Component [Checkstandard;
    Wgetfile "dec217g.exe" "http://hauppauge.lightpath.net/de/dec217g.exe";
    Unzip "dec217g.exe" true;
    Verify (Tmp "software/OEM/STB/App/Boot/STB_PC_X.bin") "53e58f4f5b5c2930beee74a7681fed92";
    Copy (Tmp "software/OEM/STB/App/Boot/STB_PC_X.bin") (Cwd "dvb-ttusb-dec-2540t.fw")]
    "dvb-ttusb-dec-2540t.fw".

Definition dec3000s : component :=
  Component [Checkstandard;
    Wgetfile "dec217g.exe" "http://hauppauge.lightpath.net/de/dec217g.exe";
    Unzip "dec217g.exe" true;
    Verify (Tmp "software/OEM/STB/App/Boot/STB_PC_S.bin") "b013ececea83f4d6d8d2a29ac7c1b448";
    Copy (Tmp "software/OEM/STB/App/Boot/STB_PC_S.bin") (Cwd "dvb-ttusb-dec-3000s.fw")]
    "dvb-ttusb-dec-3000s.fw".

Definition RES1 : content := [0x01; 0x92; 0x7f; 0x00; 0x01; 0x00].
Definition RES0 : content := [0x01; 0x92; 0x7f; 0x00; 0x00; 0x00].
Definition DAT1 : content := [0x01; 0x00; 0xe6; 0x00; 0x01; 0x00].
Definition DAT0 : content := [0x01; 0x00; 0xe6; 0x00; 0x00; 0x00].

Definition opera1 : component :=
  Component [Checkstandard;
    Extract (Cwd "2830SCap2.sys") 0x62e8 55024 (Tmp "opera1-fpga.fw");
    Extract (Cwd "2830SLoad2.sys") 0x3178 (0x3685 - 0x3178) (Tmp "fw1part1");
    Extract (Cwd "2830SLoad2.sys") 0x0980 (0x3150 - 0x0980) (Tmp "fw1part2");
    Delzero (Tmp "fw1part1") (Tmp "fw1part1-1");
    Delzero (Tmp "fw1part2") (Tmp "fw1part2-1");
    Verify (Tmp "fw1part1-1") "5e0909858fdf0b5b09ad48b9fe622e70";
    Verify (Tmp "fw1part2-1") "d6e146f321427e931df2c6fcadac37a1";
    Verify (Tmp "opera1-fpga.fw") "0f8133f5e9051f5f3c1928f7e5a1b07d";
    Build (Tmp "opera.fw") [Print RES1; Print DAT1; Print RES1; Print DAT1; Appendfile (Tmp "fw1part1-1"); Print RES0; Print DAT0; Print RES1; Print DAT1; Appendfile (Tmp "fw1part2-1"); Print RES1; Print DAT1; Print RES0; Print DAT0];
    Copy (Tmp "opera1-fpga.fw") (Cwd "dvb-usb-opera1-fpga-01.fw");
    Copy (Tmp "opera.fw") (Cwd "dvb-usb-opera-01.fw")]
    "dvb-usb-opera1-fpga-01.fw,dvb-usb-opera-01.fw".

Definition CMD : content := [0; 1; 0; 0x92; 0x7f; 0].
Definition PAD : content := replicate 15 0.

Definition vp7041 : component :=
  Component [Checkstandard;
    Wgetfile "2.422.zip" "http://www.twinhan.com/files/driver/USB-Ter/2.422.zip";
    Unzip "2.422.zip" true;
    Extract (Tmp "VisionDTV/Drivers/Win2K&XP/UDTTload.sys") 12503 3036 (Tmp "fwtmp1");
    Extract (Tmp "VisionDTV/Drivers/Win2K&XP/UDTTload.sys") 2207 10274 (Tmp "fwtmp2");
    Build (Tmp "fwtmp3") [Print (CMD ++ [1] ++ PAD); Print (CMD ++ [1] ++ PAD); Appendfile (Tmp "fwtmp1"); Print (CMD ++ [0] ++ PAD); Print (CMD ++ [1] ++ PAD); Appendfile (Tmp "fwtmp2"); Print (CMD ++ [1] ++ PAD); Print (CMD ++ [0] ++ PAD)];
    Verify (Tmp "fwtmp3") "e88c9372d1f66609a3e7b072c53fbcfe";
    Copy (Tmp "fwtmp3") (Cwd "dvb-vp7041-2.422.fw")]
    "dvb-vp7041-2.422.fw".

Definition vp7049 : component :=
  Component [Checkstandard;
    Wgetfile "dvb-usb-vp7049-0.95.fw" "http://ao2.it/sites/default/files/blog/2012/11/06/linux-support-digicom-digitune-s-vp7049-udtt7049/dvb-usb-vp7049-0.95.fw";
    Verify (Cwd "dvb-usb-vp7049-0.95.fw") "5609fd295168aea88b25ff43a6f79c36"]
    "dvb-usb-vp7049-0.95.fw".

Definition dibusb : component :=
  Component [Checkstandard;
    Wgetfile "dvb-dibusb-5.0.0.11.fw" "http://www.linuxtv.org/downloads/firmware/dvb-usb-dibusb-5.0.0.11.fw";
    Verify (Cwd "dvb-dibusb-5.0.0.11.fw") "fa490295a527360ca16dcdf3224ca243"]
    "dvb-dibusb-5.0.0.11.fw".

Definition nxt2002 : component :=
  Component [Checkstandard;
    Wgetfile "Technisat_DVB-PC_4_4_COMPACT.zip" "http://www.bbti.us/download/windows/Technisat_DVB-PC_4_4_COMPACT.zip";
    Unzip "Technisat_DVB-PC_4_4_COMPACT.zip" true;
    Verify (Tmp "SkyNET.sys") "476befae8c7c1bb9648954060b1eec1f";
    Extract (Tmp "SkyNET.sys") 331624 5908 (Cwd "dvb-fe-nxt2002.fw")]
    "dvb-fe-nxt2002.fw".

Definition nxt2004 : component :=
  Component [Checkstandard;
    Wgetfile "AVerTVHD_MCE_A180_Drv_v1.2.2.16.zip" "http://www.avermedia-usa.com/support/Drivers/AVerTVHD_MCE_A180_Drv_v1.2.2.16.zip";
    Unzip "AVerTVHD_MCE_A180_Drv_v1.2.2.16.zip" true;
    Verify (Tmp "3xHybrid.sys") "111cb885b1e009188346d72acfed024c";
    Extract (Tmp "3xHybrid.sys") 465304 9584 (Cwd "dvb-fe-nxt2004.fw")]
    "dvb-fe-nxt2004.fw".

Definition or51211 : component :=
  Component [Checkstandard;
    Wgetfile "dvb-fe-or51211.fw" "http://linuxtv.org/downloads/firmware/dvb-fe-or51211.fw";
    Verify (Cwd "dvb-fe-or51211.fw") "d830949c771a289505bf9eafc225d491"]
    "dvb-fe-or51211.fw".

Definition cx231xx : component :=
  Component [Checkstandard;
    Wgetfile "v4l-cx231xx-avcore-01.fw" "http://linuxtv.org/downloads/firmware/v4l-cx231xx-avcore-01.fw";
    Verify (Cwd "v4l-cx231xx-avcore-01.fw") "7d3bb956dc9df0eafded2b56ba57cc42"]
    "v4l-cx231xx-avcore-01.fw".

(** A list of files with their hashes; the order of the keys is that of the text. *)
Definition fetch (url : string) (files : list (string * string)) : list stmt :=
  concat ((fun e => [Wgetfile e.1 (url +:+ "/" +:+ e.1); Verify (Cwd e.1) e.2]) <$> files).

Definition names (files : list (string * string)) : string := String.concat " " (fst <$> files).

Definition cx18_files : list (string * string) :=
  [("v4l-cx23418-apu.fw", "588f081b562f5c653a3db1ad8f65939a");
   ("v4l-cx23418-cpu.fw", "b6c7ed64bc44b1a6e0840adaeac39d79");
   ("v4l-cx23418-dig.fw", "95bc688d3e7599fd5800161e9971cc55")].
Definition cx18 : component := Component (Checkstandard :: fetch "http://linuxtv.org/downloads/firmware/" cx18_files) (names cx18_files).

Definition mpc718 : component :=
  Component [Checkstandard;
    Wgetfile "Yuan MPC718 TV Tuner Card 2.13.10.1016.zip" "ftp://ftp.work.acer-euro.com/desktop/aspire_idea510/vista/Drivers/Yuan MPC718 TV Tuner Card 2.13.10.1016.zip";
    Unzip "Yuan MPC718 TV Tuner Card 2.13.10.1016.zip" true;
    Mpc718Extract (Tmp "Yuan MPC718 TV Tuner Card 2.13.10.1016/mpc718_32bit/yuanrap.sys") "dvb-cx18-mpc718-mt352.fw"]
    "dvb-cx18-mpc718-mt352.fw".

Definition cx23885_files : list (string * string) :=
  [("v4l-cx23885-avcore-01.fw", "a9f8f5d901a7fb42f552e1ee6384f3bb");
   ("v4l-cx23885-enc.fw", "a9f8f5d901a7fb42f552e1ee6384f3bb")].
Definition cx23885 : component := Component (Checkstandard :: fetch "http://linuxtv.org/downloads/firmware/" cx23885_files) (names cx23885_files).

Definition pvrusb2_files : list (string * string) :=
  [("v4l-cx25840.fw", "dadb79e9904fc8af96e8111d9cb59320")].
Definition pvrusb2 : component := Component (Checkstandard :: fetch "http://linuxtv.org/downloads/firmware/" pvrusb2_files) (names pvrusb2_files).

Definition or51132_qam : component :=
  Component [Checkstandard;
    Wgetfile "dvb-fe-or51132-qam.fw" "http://linuxtv.org/downloads/firmware/dvb-fe-or51132-qam.fw";
    Verify (Cwd "dvb-fe-or51132-qam.fw") "7702e8938612de46ccadfe9b413cb3b5"]
    "dvb-fe-or51132-qam.fw".

Definition or51132_vsb : component :=
  Component [Checkstandard;
    Wgetfile "dvb-fe-or51132-vsb.fw" "http://linuxtv.org/downloads/firmware/dvb-fe-or51132-vsb.fw";
    Verify (Cwd "dvb-fe-or51132-vsb.fw") "c16208e02f36fc439a557ad4c613364a"]
    "dvb-fe-or51132-vsb.fw".

Definition bluebird : component :=
  Component [Checkstandard;
    Wgetfile "dvb-usb-bluebird-01.fw" "http://www.linuxtv.org/download/dvb/firmware/dvb-usb-bluebird-01.fw";
    Verify (Cwd "dvb-usb-bluebird-01.fw") "658397cb9eba9101af9031302671f49d"]
    "dvb-usb-bluebird-01.fw".

(** It returns what closing the input returns. *)
Definition af9015 : component :=
  Component [Checkstandard;
    Wgetfile "download.ashx?file=57" "http://www.ite.com.tw/EN/Services/download.ashx?file=57";
    Unzip "download.ashx?file=57" true;
    Verify (Tmp "Driver/Files/AF15BDA.sys") "e3f08935158038d385ad382442f4bb2d";
    ExtractGaps (Tmp "Driver/Files/AF15BDA.sys") 0x25690 18725 (Cwd "dvb-usb-af9015.fw")]
    "1".

Definition ngene : component :=
  Component [Checkstandard;
    Wgetfile "ngene_15.fw" "http://www.digitaldevices.de/download/ngene_15.fw";
    Verify (Cwd "ngene_15.fw") "d798d5a757121174f0dbc5f2833c0c85";
    Wgetfile "ngene_17.fw" "http://www.digitaldevices.de/download/ngene_17.fw";
    Verify (Cwd "ngene_17.fw") "26b687136e127b8ac24b81e0eeafc20b";
    Wgetfile "ngene_18.fw" "http://l4m-daten.de/downloads/firmware/dvb-s2/linux/all/ngene_18.fw";
    Verify (Cwd "ngene_18.fw") "ebce3ea769a53e3e0b0197c3b3f127e3"]
    "ngene_15.fw, ngene_17.fw, ngene_18.fw".

Definition az6027 : component :=
  Component [Wgetfile "dvb-usb-az6027-03.fw" "http://linux.terratec.de/files/TERRATEC_S7/dvb-usb-az6027-03.fw"]
    "dvb-usb-az6027-03.fw".

Definition lme2510_lg : component :=
  Component [Checkstandard;
    Verify (Cwd "LMEBDA_DVBS.sys") "fc6017ad01e79890a97ec53bea157ed2";
    Extract (Cwd "LMEBDA_DVBS.sys") 4168 3841 (Cwd "dvb-usb-lme2510-lg.fw");
    Verify (Cwd "dvb-usb-lme2510-lg.fw") "caa065d5fdbd2c09ad57b399bbf55cad"]
    "dvb-usb-lme2510-lg.fw".

Definition lme2510c_s7395 : component :=
  Component [Checkstandard;
    Verify (Cwd "US2A0D.sys") "b0155a8083fb822a3bd47bc360e74601";
    Extract (Cwd "US2A0D.sys") 37248 3720 (Cwd "dvb-usb-lme2510c-s7395.fw");
    Verify (Cwd "dvb-usb-lme2510c-s7395.fw") "3a3cf1aeebd17b6ddc04cebe131e94cf"]
    "dvb-usb-lme2510c-s7395.fw".

Definition lme2510c_s7395_old : component :=
  Component [Checkstandard;
    Verify (Cwd "LMEBDA_DVBS7395C.sys") "7572ae0eb9cdf91baabd7c0ba9e09b31";
    Extract (Cwd "LMEBDA_DVBS7395C.sys") 4208 3881 (Cwd "dvb-usb-lme2510c-s7395.fw");
    Verify (Cwd "dvb-usb-lme2510c-s7395.fw") "90430c5b435eb5c6f88fd44a9d950674"]
    "dvb-usb-lme2510c-s7395.fw".

Definition drxk : component :=
  Component [Checkstandard;
    Wgetfile "DDTuner.zip" "http://l4m-daten.de/files/DDTuner.zip";
    Verify (Cwd "DDTuner.zip") "f5a37b9a20a3534997997c0b1382a3e5";
    Unzip "DDTuner.zip" true;
    Extract (Tmp "DDTuner.sys") 0x14dd8 15634 (Cwd "drxk_a3.mc")]
    "drxk_a3.mc".

Definition drxk_hauppauge_hvr930c : component :=
  Component [Checkstandard;
    Wgetfile "HVR-9x0_5_10_325_28153_SIGNED.zip" "http://www.wintvcd.co.uk/drivers/HVR-9x0_5_10_325_28153_SIGNED.zip";
    Verify (Cwd "HVR-9x0_5_10_325_28153_SIGNED.zip") "83ab82e7e9480ec8bf1ae0155ca63c88";
    Unzip "HVR-9x0_5_10_325_28153_SIGNED.zip" true;
    Extract (Tmp "HVR-900/emOEM.sys") 0x117b0 42692 (Cwd "dvb-usb-hauppauge-hvr930c-drxk.fw")]
    "dvb-usb-hauppauge-hvr930c-drxk.fw".

Definition drxk_terratec_h5 : component :=
  Component [Checkstandard;
    Wgetfile "dvb-usb-terratec-h5-drxk.fw" "http://www.linuxtv.org/downloads/firmware/dvb-usb-terratec-h5-drxk.fw";
    Verify (Cwd "dvb-usb-terratec-h5-drxk.fw") "19000dada8e2741162ccc50cc91fa7f1"]
    "dvb-usb-terratec-h5-drxk.fw".

Definition drxk_terratec_htc_stick : component :=
  Component [Checkstandard;
    Wgetfile "Cinergy_HTC_Stick_Drv_5.09.1202.00_XP_Vista_7.exe" "http://ftp.terratec.de/Receiver/Cinergy_HTC_Stick/Updates/History/Cinergy_HTC_Stick_Drv_5.09.1202.00_XP_Vista_7.exe";
    Verify (Cwd "Cinergy_HTC_Stick_Drv_5.09.1202.00_XP_Vista_7.exe") "6722a2442a05423b781721fbc069ed5e";
    Unzip "Cinergy_HTC_Stick_Drv_5.09.1202.00_XP_Vista_7.exe" true;
    Extract (Tmp "Cinergy HTC Stick/BDA Driver 5.09.1202.00/Windows 32 Bit/emOEM.sys") 0x4e5c0 42692 (Cwd "dvb-usb-terratec-htc-stick-drxk.fw")]
    "dvb-usb-terratec-htc-stick-drxk.fw".

Definition it9135 : component :=
  Component [Checkstandard;
    Wgetfile "dvb-usb-it9135-01.zip" "http://www.ite.com.tw/uploads/firmware/v3.25.0.0/dvb-usb-it9135-01.zip";
    Unzip "dvb-usb-it9135-01.zip" false;
    Verify (Cwd "dvb-usb-it9135-01.fw") "02fcf11174eda84745dae7e61c5ff9ba";
    Wgetfile "dvb-usb-it9135-02.zip" "http://www.ite.com.tw/uploads/firmware/v3.25.0.0/dvb-usb-it9135-02.zip";
    Unzip "dvb-usb-it9135-02.zip" false;
    Verify (Cwd "dvb-usb-it9135-02.fw") "d5e1437dc24358578e07999475d4cac9"]
    "dvb-usb-it9135-01.zip dvb-usb-it9135-02.zip".

Definition tda10071 : component :=
  Component [Checkstandard;
    Wgetfile "PCTV_460e_reference.zip" "ftp://ftp.pctvsystems.com/TV/driver/PCTV%2070e%2080e%20100e%20320e%20330e%20800e/PCTV_460e_reference.zip";
    Verify (Cwd "PCTV_460e_reference.zip") "4403de903bf2593464c8d74bbc200a57";
    Unzip "PCTV_460e_reference.zip" true;
    Extract (Tmp "PCTV 70e 80e 100e 320e 330e 800e/32 bit/emOEM.sys") 0x67d38 40504 (Cwd "dvb-fe-tda10071.fw")]
    "dvb-fe-tda10071.fw".

Definition drxk_pctv : component :=
  Component [Checkstandard;
    Wgetfile "PCTV_460e_reference.zip" "ftp://ftp.pctvsystems.com/TV/driver/PCTV%2070e%2080e%20100e%20320e%20330e%20800e/PCTV_460e_reference.zip";
    Verify (Cwd "PCTV_460e_reference.zip") "4403de903bf2593464c8d74bbc200a57";
    Unzip "PCTV_460e_reference.zip" true;
    Extract (Tmp "PCTV 70e 80e 100e 320e 330e 800e/32 bit/emOEM.sys") 0x72b80 42692 (Cwd "dvb-demod-drxk-pctv.fw")]
    "dvb-demod-drxk-pctv.fw".

Definition sms1xxx_hcw_files : list (string * string) :=
  [("sms1xxx-hcw-55xxx-dvbt-01.fw", "afb6f9fb9a71d64392e8564ef9577e5a");
   ("sms1xxx-hcw-55xxx-dvbt-02.fw", "b44807098ba26e52cbedeadc052ba58f");
   ("sms1xxx-hcw-55xxx-isdbt-02.fw", "dae934eeea85225acbd63ce6cfe1c9e4")].
Definition sms1xxx_hcw : component := Component (Checkstandard :: fetch "http://steventoth.net/linux/sms1xxx/" sms1xxx_hcw_files) (names sms1xxx_hcw_files).

Definition si2165 : component :=
  Component [Checkstandard;
    Wgetfile "model_111xxx_122xxx_driver_6_0_119_31191_WHQL.zip" "http://www.hauppauge.de/files/drivers/model_111xxx_122xxx_driver_6_0_119_31191_WHQL.zip";
    Verify (Cwd "model_111xxx_122xxx_driver_6_0_119_31191_WHQL.zip") "76633e7c76b0edee47c3ba18ded99336";
    Unzip "model_111xxx_122xxx_driver_6_0_119_31191_WHQL.zip" true;
    Extract (Tmp "Driver10/Hcw10bda.sys") 0x80788 (0x81E08 - 0x80788) (Tmp "fw1");
    Delzero (Tmp "fw1") (Tmp "fw1-1");
    Build (Cwd "dvb-demod-si2165.fw") [Print [0x01; 0x00]; Print [0x9A]; Print [0x00]; Print [0x27]; Print [0x00]; Print [0x0A; 0xCC]; Appendfile (Tmp "fw1")]]
    "dvb-demod-si2165.fw".

(** The components by name, in the order of the script. *)
Definition components : list (string * component) :=
  [("sp8870", sp8870); ("sp887x", sp887x); ("tda10045", tda10045);
   ("tda10046", tda10046); ("tda10046lifeview", tda10046lifeview); ("av7110", av7110);
   ("dec2000t", dec2000t); ("dec2540t", dec2540t); ("dec3000s", dec3000s);
   ("vp7041", vp7041); ("vp7049", vp7049); ("dibusb", dibusb);
   ("nxt2002", nxt2002); ("nxt2004", nxt2004); ("or51211", or51211);
   ("or51132_qam", or51132_qam); ("or51132_vsb", or51132_vsb); ("bluebird", bluebird);
   ("opera1", opera1); ("cx231xx", cx231xx); ("cx18", cx18);
   ("cx23885", cx23885); ("pvrusb2", pvrusb2); ("mpc718", mpc718);
   ("af9015", af9015); ("ngene", ngene); ("az6027", az6027);
   ("lme2510_lg", lme2510_lg); ("lme2510c_s7395", lme2510c_s7395); ("lme2510c_s7395_old", lme2510c_s7395_old);
   ("drxk", drxk); ("drxk_terratec_h5", drxk_terratec_h5); ("drxk_hauppauge_hvr930c", drxk_hauppauge_hvr930c);
   ("tda10071", tda10071); ("it9135", it9135); ("drxk_pctv", drxk_pctv);
   ("drxk_terratec_htc_stick", drxk_terratec_htc_stick); ("sms1xxx_hcw", sms1xxx_hcw); ("si2165", si2165)].

Inductive exit : Type :=
| Extracted (outfile : string) (s : fs)
| Dies (msg : string)
| Syntax.

(** The script itself. *)
Definition get_dvb_firmware `{Tools} (args : list string) (s : fs) : exit :=
  match args with
  | [cid] =>
      match List.find (fun e => String.eqb cid e.1) components with
      | Some e => match run (calls e.2) s with Done s' => Extracted (outfile e.2) s' | Died m => Dies m end
      | None => Syntax
      end
  | _ => Syntax
  end.

Close Scope string_scope.

(** ** Where a firmware comes from *)

Inductive origin : Type :=
| Unchecked                                      (* any content *)
| Hash (h : string)                              (* content with this checksum *)
| Member (o : origin) (name : string)            (* a file unpacked from it *)
| Part (o : origin) (offset length : Z)
| Gaps (o : origin) (offset length : Z)
| Lit (b : content)
| Cat (o1 o2 : origin).

#[export] Instance origin_eq : EqDecision origin.
Proof. solve_decision. Defined.

(** What is known of the other files of the temporary directory. *)
Inductive rest : Type := Nothing | FromZip (o : origin) | Unknown.

Record know : Type := Know { here : gmap string origin; there : gmap string origin; tmp : rest }.

(** Files that are there. *)
Definition sure (k : know) (f : file) : option origin := match f with Cwd n => here k !! n | Tmp n => there k !! n end.

(** And files that come from the archive if they are there. *)
Definition origin_of (k : know) (f : file) : option origin :=
  match sure k f, f, tmp k with
  | Some o, _, _ => Some o
  | None, Tmp n, FromZip o => Some (Member o n)
  | None, _, _ => None
  end.

Definition set (f : file) (o : option origin) (k : know) : know :=
  match f, o with
  | Cwd n, Some o => Know (<[n := o]> (here k)) (there k) (tmp k)
  | Cwd n, None => Know (delete n (here k)) (there k) (tmp k)
  | Tmp n, Some o => Know (here k) (<[n := o]> (there k)) (tmp k)
  | Tmp n, None => Know (here k) (delete n (there k)) Unknown
  end.

Definition piece_origin (k : know) (out : file) (p : piece) : option origin :=
  match p with
  | Print b => Some (Lit b)
  | Appendfile f => if bool_decide (f = out) then None else sure k f
  end.

Fixpoint cat (l : list (option origin)) : option origin :=
  match l with
  | [] => Some (Lit [])
  | o :: l => o ← o; o' ← cat l; Some (Cat o o')
  end.

Definition learn (t : stmt) (k : know) : know :=
  match t with
  | Checkstandard | Checkunshield => k
  | Wgetfile f _ => match here k !! f with Some _ => k | None => set (Cwd f) (Some Unchecked) k end
  | Unzip f true =>
      Know (here k) ∅
        (match here k !! f, tmp k with
         | Some o, Nothing => if bool_decide (there k = ∅) then FromZip o else Unknown
         | _, _ => Unknown
         end)
  | Unzip _ false => Know ((fun _ => Unchecked) <$> here k) (there k) (tmp k)
  | Unshield _ => Know (here k) ∅ Unknown
  | Verify f h => if bool_decide (h = ""%string) then k else set f (Some (Hash h)) k
  | Copy a b => set b (origin_of k a) k
  | Extract a offset length b =>
      set b (if bool_decide (a <> b) && (0 <? length) then (fun o => Part o offset length) <$> origin_of k a else None) k
  | Delzero _ b => set b None k
  | Build b ps => set b (cat (piece_origin k b <$> ps)) k
  | ExtractGaps a offset length b =>
      set b (if bool_decide (a <> b) && (0 <? length) then (fun o => Gaps o offset length) <$> origin_of k a else None) k
  | Mpc718Extract _ f => set (Cwd f) (Some Unchecked) k
  end.

Definition analyse (l : list stmt) : know := foldl (fun k t => learn t k) (Know ∅ ∅ Nothing) l.

(** ** The firmwares

    Which files each component is to leave for the firmware directory, and what they are. *)
Definition join (l : list origin) : origin := foldr Cat (Lit []) l.

Definition firmwares : list (string * list (string * origin)) :=
  [("sp8870", [("dvb-fe-sp8870.fw", Hash "53970ec17a538945a6d8cb608a7b3899")]);
   ("sp887x", [("dvb-fe-sp887x.fw", Hash "237938d53a7f834c05c42b894ca68ac3")]);
   ("tda10045", [("dvb-fe-tda10045.fw", Hash "2105fd5bf37842fbcdfa4bfd58f3594a")]);
   ("tda10046", [("dvb-fe-tda10046.fw", Hash "6a7e1e2f2644b162ff0502367553c72d")]);
   ("tda10046lifeview", [("dvb-fe-tda10046.fw", Hash "1ea24dee4eea8fe971686981f34fd2e0")]);
   ("av7110", [("dvb-ttpci-01.fw", Hash "603431b6259715a8e88f376a53b64e2f")]);
   ("dec2000t", [("dvb-ttusb-dec-2000t.fw", Hash "bd86f458cee4a8f0a8ce2d20c66215a9")]);
   ("dec2540t", [("dvb-ttusb-dec-2540t.fw", Hash "53e58f4f5b5c2930beee74a7681fed92")]);
   ("dec3000s", [("dvb-ttusb-dec-3000s.fw", Hash "b013ececea83f4d6d8d2a29ac7c1b448")]);
   ("vp7041", [("dvb-vp7041-2.422.fw", Hash "e88c9372d1f66609a3e7b072c53fbcfe")]);
   ("vp7049", [("dvb-usb-vp7049-0.95.fw", Hash "5609fd295168aea88b25ff43a6f79c36")]);
   ("dibusb", [("dvb-dibusb-5.0.0.11.fw", Hash "fa490295a527360ca16dcdf3224ca243")]);
   ("nxt2002", [("dvb-fe-nxt2002.fw", Part (Hash "476befae8c7c1bb9648954060b1eec1f") 331624 5908)]);
   ("nxt2004", [("dvb-fe-nxt2004.fw", Part (Hash "111cb885b1e009188346d72acfed024c") 465304 9584)]);
   ("or51211", [("dvb-fe-or51211.fw", Hash "d830949c771a289505bf9eafc225d491")]);
   ("or51132_qam", [("dvb-fe-or51132-qam.fw", Hash "7702e8938612de46ccadfe9b413cb3b5")]);
   ("or51132_vsb", [("dvb-fe-or51132-vsb.fw", Hash "c16208e02f36fc439a557ad4c613364a")]);
   ("bluebird", [("dvb-usb-bluebird-01.fw", Hash "658397cb9eba9101af9031302671f49d")]);
   ("opera1",
    [("dvb-usb-opera1-fpga-01.fw", Hash "0f8133f5e9051f5f3c1928f7e5a1b07d");
     ("dvb-usb-opera-01.fw",
      join [Lit [1; 146; 127; 0; 1; 0]; Lit [1; 0; 230; 0; 1; 0]; Lit [1; 146; 127; 0; 1; 0]; Lit [1; 0; 230; 0; 1; 0];
            Hash "5e0909858fdf0b5b09ad48b9fe622e70";
            Lit [1; 146; 127; 0; 0; 0]; Lit [1; 0; 230; 0; 0; 0]; Lit [1; 146; 127; 0; 1; 0]; Lit [1; 0; 230; 0; 1; 0];
            Hash "d6e146f321427e931df2c6fcadac37a1";
            Lit [1; 146; 127; 0; 1; 0]; Lit [1; 0; 230; 0; 1; 0]; Lit [1; 146; 127; 0; 0; 0]; Lit [1; 0; 230; 0; 0; 0]])]);
   ("cx231xx", [("v4l-cx231xx-avcore-01.fw", Hash "7d3bb956dc9df0eafded2b56ba57cc42")]);
   ("cx18",
    [("v4l-cx23418-apu.fw", Hash "588f081b562f5c653a3db1ad8f65939a");
     ("v4l-cx23418-cpu.fw", Hash "b6c7ed64bc44b1a6e0840adaeac39d79");
     ("v4l-cx23418-dig.fw", Hash "95bc688d3e7599fd5800161e9971cc55")]);
   ("cx23885",
    [("v4l-cx23885-avcore-01.fw", Hash "a9f8f5d901a7fb42f552e1ee6384f3bb");
     ("v4l-cx23885-enc.fw", Hash "a9f8f5d901a7fb42f552e1ee6384f3bb")]);
   ("pvrusb2", [("v4l-cx25840.fw", Hash "dadb79e9904fc8af96e8111d9cb59320")]);
   ("mpc718", [("dvb-cx18-mpc718-mt352.fw", Unchecked)]);
   ("af9015", [("dvb-usb-af9015.fw", Gaps (Hash "e3f08935158038d385ad382442f4bb2d") 153232 18725)]);
   ("ngene",
    [("ngene_15.fw", Hash "d798d5a757121174f0dbc5f2833c0c85");
     ("ngene_17.fw", Hash "26b687136e127b8ac24b81e0eeafc20b");
     ("ngene_18.fw", Hash "ebce3ea769a53e3e0b0197c3b3f127e3")]);
   ("az6027", [("dvb-usb-az6027-03.fw", Unchecked)]);
   ("lme2510_lg", [("dvb-usb-lme2510-lg.fw", Hash "caa065d5fdbd2c09ad57b399bbf55cad")]);
   ("lme2510c_s7395", [("dvb-usb-lme2510c-s7395.fw", Hash "3a3cf1aeebd17b6ddc04cebe131e94cf")]);
   ("lme2510c_s7395_old", [("dvb-usb-lme2510c-s7395.fw", Hash "90430c5b435eb5c6f88fd44a9d950674")]);
   ("drxk", [("drxk_a3.mc", Part (Member (Hash "f5a37b9a20a3534997997c0b1382a3e5") "DDTuner.sys") 85464 15634)]);
   ("drxk_terratec_h5", [("dvb-usb-terratec-h5-drxk.fw", Hash "19000dada8e2741162ccc50cc91fa7f1")]);
   ("drxk_hauppauge_hvr930c",
    [("dvb-usb-hauppauge-hvr930c-drxk.fw", Part (Member (Hash "83ab82e7e9480ec8bf1ae0155ca63c88") "HVR-900/emOEM.sys") 71600 42692)]);
   ("tda10071",
    [("dvb-fe-tda10071.fw",
      Part (Member (Hash "4403de903bf2593464c8d74bbc200a57") "PCTV 70e 80e 100e 320e 330e 800e/32 bit/emOEM.sys") 425272 40504)]);
   ("it9135",
    [("dvb-usb-it9135-01.fw", Unchecked);
     ("dvb-usb-it9135-02.fw", Hash "d5e1437dc24358578e07999475d4cac9")]);
   ("drxk_pctv",
    [("dvb-demod-drxk-pctv.fw",
      Part (Member (Hash "4403de903bf2593464c8d74bbc200a57") "PCTV 70e 80e 100e 320e 330e 800e/32 bit/emOEM.sys") 469888 42692)]);
   ("drxk_terratec_htc_stick",
    [("dvb-usb-terratec-htc-stick-drxk.fw",
      Part (Member (Hash "6722a2442a05423b781721fbc069ed5e") "Cinergy HTC Stick/BDA Driver 5.09.1202.00/Windows 32 Bit/emOEM.sys") 320960 42692)]);
   ("sms1xxx_hcw",
    [("sms1xxx-hcw-55xxx-dvbt-01.fw", Hash "afb6f9fb9a71d64392e8564ef9577e5a");
     ("sms1xxx-hcw-55xxx-dvbt-02.fw", Hash "b44807098ba26e52cbedeadc052ba58f");
     ("sms1xxx-hcw-55xxx-isdbt-02.fw", Hash "dae934eeea85225acbd63ce6cfe1c9e4")]);
   ("si2165",
    [("dvb-demod-si2165.fw",
      join [Lit [1; 0]; Lit [154]; Lit [0]; Lit [39]; Lit [0]; Lit [10; 204];
            Part (Member (Hash "76633e7c76b0edee47c3ba18ded99336") "Driver10/Hcw10bda.sys") 526216 5760])])]%string.

(** The names in a report, between spaces and commas. *)
Fixpoint words_of (cur l : list Ascii.ascii) : list string :=
  let word := if bool_decide (cur = []) then [] else [String.string_of_list_ascii (reverse cur)] in
  match l with
  | [] => word
  | c :: l => if bool_decide (c = " "%char \/ c = ","%char) then word ++ words_of [] l else words_of (c :: cur) l
  end.
Definition words (s : string) : list string := words_of [] (String.list_ascii_of_string s).

(** The components whose report does not name the firmwares. *)
Definition misreported : list string := ["af9015"; "it9135"]%string.

(** A component does what the table says, by the analysis of its calls. *)
Definition as_expected (e : string * component) : bool :=
  match List.find (fun x => String.eqb e.1 x.1) firmwares with
  | Some (_, files) =>
      (bool_decide (e.1 ∈ misreported) || bool_decide (words (outfile e.2) = fst <$> files)) &&
      forallb (fun x => bool_decide (sure (analyse (calls e.2)) (Cwd x.1) = Some x.2)) files
  | None => false
  end.

Lemma all_as_expected : forallb as_expected components = true.
Proof. vm_compute. reflexivity. Qed.

Section Origins.
Context `{Tools}.

(** The bytes of [c] stand in [a] from the offset on in groups of 55, with 8 other bytes between two groups. *)
Definition gapped (offset : nat) (c a : content) : Prop :=
  forall i, (i < length c)%nat -> exists b, c !! i = Some b /\ a !! (offset + i + 8 * (i / 55))%nat = Some b.

(** The content has this origin. *)
Fixpoint denotes (o : origin) (c : content) : Prop :=
  match o with
  | Unchecked => True
  | Hash h => md5 c = h
  | Member o n => exists a, denotes o a /\ (n, c) ∈ (unzip_x a).2
  | Part o offset length => exists a, denotes o a /\ length <= zlen (zdrop offset a) /\ c = ztake length (zdrop offset a)
  | Gaps o offset len => exists a, denotes o a /\ zlen c = 55 * (len / 63) + Z.min 55 (len mod 63) /\ gapped (Z.to_nat offset) c a
  | Lit b => c = b
  | Cat o1 o2 => exists a b, denotes o1 a /\ denotes o2 b /\ c = a ++ b
  end.

Record holds (k : know) (s : fs) : Prop := {
  holds_sure f o : sure k f = Some o -> exists c, s !! f = Some c /\ denotes o c;
  holds_rest n c : there k !! n = None -> s !! Tmp n = Some c ->
    match tmp k with Nothing => False | FromZip o => denotes (Member o n) c | Unknown => True end
}.

Lemma origin_sound k s f o c : holds k s -> origin_of k f = Some o -> s !! f = Some c -> denotes o c.
Proof.
  intros Hk Ho Hc. unfold origin_of in Ho. destruct (sure k f) as [o'|] eqn:E.
  - destruct (holds_sure k s Hk f o' E) as (c' & Hc' & Hd). by simplify_eq.
  - destruct f as [n|n]; [done|]. pose proof (holds_rest k s Hk n c E Hc) as Hr. by destruct (tmp k); simplify_eq.
Qed.

Lemma sure_set f g o k : sure (set f o k) g = if decide (f = g) then o else sure k g.
Proof.
  destruct f as [n|n], g as [m|m], o as [o|]; cbn; case_decide as E; try done; try (injection E as ->);
    first [by rewrite lookup_insert_eq | by rewrite lookup_delete_eq | rewrite lookup_insert_ne by congruence; done
          | rewrite lookup_delete_ne by congruence; done].
Qed.

Lemma set_sound k s f o c : holds k s -> (forall o', o = Some o' -> denotes o' c) -> holds (set f o k) (<[f := c]> s).
Proof.
  intros Hk Ho. split.
  - intros g o'. rewrite sure_set. case_decide as E; [subst g; intros ->; exists c; rewrite lookup_insert_eq; auto|].
    rewrite lookup_insert_ne by done. apply (holds_sure k s Hk).
  - intros n c' Hn Hc'. destruct (decide (f = Tmp n)) as [-> |Hne].
    { destruct o as [o|]; cbn in *; [by rewrite lookup_insert_eq in Hn|done]. }
    rewrite lookup_insert_ne in Hc' by done. destruct f as [m|m], o as [o|]; cbn in *; try done;
      try exact (holds_rest k s Hk n c' Hn Hc').
    rewrite lookup_insert_ne in Hn by congruence. exact (holds_rest k s Hk n c' Hn Hc').
Qed.

Lemma set_unchecked k s f c : holds k s -> holds (set f (Some Unchecked) k) (<[f := c]> s).
Proof. intros Hk. apply set_sound; [done|]. by intros o [= <-]. Qed.

(** Nothing is known of a new file. *)
Lemma holds_new k s f c : holds k s -> s !! Cwd f = None -> holds k (<[Cwd f := c]> s).
Proof.
  intros Hk Hf. split.
  - intros g o Hg. destruct (holds_sure k s Hk g o Hg) as (c' & Hc' & Hd). exists c'. split; [|done].
    rewrite lookup_insert_ne; [done|]. intros <-. congruence.
  - intros n c' Hn Hc'. rewrite lookup_insert_ne in Hc' by done. exact (holds_rest k s Hk n c' Hn Hc').
Qed.

Lemma unpack_lookup d l : (forall a b, d a = d b -> a = b) -> forall s f,
  unpack d l s !! f = s !! f \/ exists n c, f = d n /\ (n, c) ∈ l /\ unpack d l s !! f = Some c.
Proof.
  intros Hinj. unfold unpack. induction l as [|[n c] l IH] using rev_ind; intros s f; [by left|].
  rewrite foldl_app. cbn [foldl fst snd]. destruct (decide (d n = f)) as [<- |Hne].
  - right. exists n, c. rewrite lookup_insert_eq. split_and!; [done|apply elem_of_app; right; by left|done].
  - rewrite lookup_insert_ne by done. destruct (IH s f) as [E|(m & c' & -> & Hin & E)]; [by left|].
    right. exists m, c'. split_and!; [done|apply elem_of_app; by left|done].
Qed.

Lemma unpack_tmp_cwd l s n : unpack Tmp l s !! Cwd n = s !! Cwd n.
Proof. by destruct (unpack_lookup Tmp l ltac:(congruence) s (Cwd n)) as [|(m & c & ? & _)]. Qed.

Lemma unpack_cwd_tmp l s n : unpack Cwd l s !! Tmp n = s !! Tmp n.
Proof. by destruct (unpack_lookup Cwd l ltac:(congruence) s (Tmp n)) as [|(m & c & ? & _)]. Qed.

(** Unpacking into the temporary directory: [r] is right for what is there now. *)
Lemma unpack_tmp_sound k s l r : holds k s ->
  (forall n c, unpack Tmp l s !! Tmp n = Some c -> match r with Nothing => False | FromZip o => denotes (Member o n) c | Unknown => True end) ->
  holds (Know (here k) ∅ r) (unpack Tmp l s).
Proof.
  intros Hk Hr. split; [|intros n c _; apply Hr]. intros [n|n] o Ho; cbn in Ho; [|done].
  rewrite unpack_tmp_cwd. exact (holds_sure k s Hk (Cwd n) o Ho).
Qed.

Lemma unzip_sound k s s' f tmpdir : holds k s -> exec (Unzip f tmpdir) s = Done s' -> holds (learn (Unzip f tmpdir) k) s'.
Proof.
  intros Hk E. cbn in E. unfold unzip in E. destruct (s !! Cwd f) as [a|] eqn:Ef; [|done]. destruct (unzip_x a) as [st l] eqn:Ea.
  destruct (_ || _); [done|]. injection E as <-. destruct tmpdir; cbn [learn].
  - apply unpack_tmp_sound; [done|]. intros n c Hc. destruct (here k !! f) as [o|] eqn:Eo; [|done]. destruct (tmp k) eqn:Et; try done.
    case_bool_decide as Eth; [|done].
    destruct (unpack_lookup Tmp l ltac:(congruence) s (Tmp n)) as [Es|(m & c' & [= <-] & Hin & Es)]; rewrite Es in Hc.
    + pose proof (holds_rest k s Hk n c) as Hr. rewrite Eth, lookup_empty, Et in Hr. by destruct Hr.
    + simplify_eq. destruct (holds_sure k s Hk (Cwd f) o Eo) as (a' & Ha & Hd). simplify_eq. exists a. by rewrite Ea.
  - split.
    + intros [n|n] o Ho; cbn in Ho; [|rewrite unpack_cwd_tmp; exact (holds_sure k s Hk (Tmp n) o Ho)].
      rewrite lookup_fmap in Ho. destruct (here k !! n) as [o'|] eqn:Eo; [|done]. injection Ho as <-.
      destruct (holds_sure k s Hk (Cwd n) o' Eo) as (c & Hc & _).
      destruct (unpack_lookup Cwd l ltac:(congruence) s (Cwd n)) as [Es|(m & c' & _ & _ & Es)]; rewrite Es; [by exists c|by exists c'].
    + intros n c Hn Hc. rewrite unpack_cwd_tmp in Hc. exact (holds_rest k s Hk n c Hn Hc).
Qed.

Lemma unshield_sound k s s' f : holds k s -> exec (Unshield f) s = Done s' -> holds (learn (Unshield f) k) s'.
Proof.
  intros Hk E. cbn in E. unfold unshield in E. destruct (s !! Tmp f) as [a|]; [|done]. destruct (unshield_x a) as [st l].
  destruct (negb _); [done|]. injection E as <-. by apply unpack_tmp_sound.
Qed.

Lemma verify_sound k s s' f h : holds k s -> exec (Verify f h) s = Done s' -> holds (learn (Verify f h) k) s'.
Proof.
  intros Hk E. cbn in E |- *. unfold verify in E. case_bool_decide as Ev; [done|]. injection E as <-. case_bool_decide as Eh; [done|].
  destruct (s !! f) as [c|] eqn:Ec; [|congruence]. rewrite <- (insert_id s f c) by done.
  apply set_sound; [done|]. intros o [= <-]. done.
Qed.

(** The loop of [extract] takes a part of the input. *)
Lemma extract_loop_part fuel : forall input len out r, extract_loop fuel input len out = Done r -> Z.max 0 len < Z.of_nat fuel ->
  r = out ++ ztake len input /\ len <= zlen input.
Proof.
  induction fuel as [|fuel IH]; intros input len out r E Hf; [lia|]. cbn [extract_loop] in E. pose proof (zlen_nonneg input).
  destruct (Z.ltb_spec 0 len) as [Hl|Hl]; cycle 1.
  { injection E as <-. unfold ztake. replace (Z.to_nat len) with 0%nat by lia. rewrite take_0, app_nil_r. split; [done|lia]. }
  set (n := if len <? 2048 then len else 2048) in *. assert (0 < n <= len) as Hn by (unfold n; destruct (Z.ltb_spec len 2048); lia).
  destruct (Z.eqb_spec (zlen (ztake n input)) n) as [En|]; cbn [negb] in E; [|done].
  assert (n <= zlen input) as Hin by (unfold zlen, ztake in En; rewrite length_take in En; unfold zlen; lia).
  apply IH in E as [-> Hle]; [|lia]. rewrite En, zlen_zdrop in Hle by lia. split; [|lia].
  rewrite En, <- app_assoc. f_equal. unfold ztake, zdrop. rewrite take_take_drop. f_equal. lia.
Qed.

Lemma extract_sound k s s' i offset len o : holds k s -> exec (Extract i offset len o) s = Done s' -> holds (learn (Extract i offset len o) k) s'.
Proof.
  intros Hk E. cbn in E |- *. unfold extract in E. destruct (extract_loop _ _ _ _) as [out|] eqn:El; cbn in E; [|done]. injection E as <-.
  rewrite insert_insert_eq. apply set_sound; [done|]. intros o' Ho. case_bool_decide as Hne; [|done]. cbn [andb] in Ho.
  destruct (Z.ltb_spec 0 len) as [Hl|]; [|done]. destruct (origin_of k i) as [p|] eqn:Ep; [|done]. injection Ho as <-.
  rewrite lookup_insert_ne in El by done. apply extract_loop_part in El as [-> Hle]; [|lia]. cbn [app].
  destruct (s !! i) as [a|] eqn:Ea.
  - exists a. split_and!; [by eapply origin_sound|done|done].
  - cbn [default] in Hle. unfold zdrop in Hle. rewrite drop_nil in Hle. change (zlen (@nil Z)) with 0 in Hle. lia.
Qed.

(** The loop of [af9015] leaves out the bytes between the groups. *)
Lemma gaps_loop_gapped fuel : forall input len out r, gaps_loop fuel input len out = Done r -> Z.max 0 len < Z.of_nat fuel ->
  exists r', r = out ++ r' /\ zlen r' = 55 * (Z.max 0 len / 63) + Z.min 55 (Z.max 0 len mod 63) /\ gapped 0 r' input.
Proof.
  induction fuel as [|fuel IH]; intros input len out r E Hf; [lia|]. cbn [gaps_loop] in E.
  destruct (Z.ltb_spec 0 len) as [Hl|Hl]; cycle 1.
  { injection E as <-. exists []. rewrite app_nil_r, Z.max_l by lia. split_and!; [done|done|]. intros i Hi. cbn in Hi. lia. }
  set (n := if len <? 55 then len else 55) in *. assert (n = Z.min len 55) as Hn by (unfold n; destruct (Z.ltb_spec len 55); lia).
  clearbody n. destruct (Z.eqb_spec (zlen (ztake n input)) n) as [En|]; cbn [negb] in E; [|done].
  assert (n <= zlen input) as Hin by (unfold zlen, ztake in En; rewrite length_take in En; unfold zlen; lia).
  rewrite En in E. apply IH in E as (r' & -> & Hz & Hg); [|lia]. exists (ztake n input ++ r'). rewrite <- app_assoc. split_and!; [done| |].
  - rewrite zlen_app, En, Hz. clear -Hn Hl. Z.div_mod_to_equations; lia.
  - intros i Hi. destruct (Nat.lt_ge_cases i (Z.to_nat n)) as [Hlt|Hge].
    + rewrite (Nat.div_small i 55) by lia. unfold zlen in Hin, En.
      destruct (lookup_lt_is_Some_2 input i) as [b Hb]; [lia|]. exists b. rewrite Nat.mul_0_r, Nat.add_0_r. split; [|done].
      rewrite lookup_app_l by lia. unfold ztake. by rewrite lookup_take_lt.
    + assert (n = 55) as -> by (rewrite length_app in Hi; unfold zlen in Hz, En; destruct (Z.le_gt_cases 55 len); [lia|];
        rewrite Z.max_l in Hz by lia; change (0 / 63) with 0 in Hz; change (0 mod 63) with 0 in Hz; lia).
      unfold zlen in En. rewrite length_app in Hi. destruct (Hg (i - 55)%nat) as (b & Hb & Ha); [lia|]. exists b. split.
      * rewrite lookup_app_r by lia. replace (i - length (ztake 55 input))%nat with (i - 55)%nat by lia. done.
      * unfold zdrop in Ha. rewrite !lookup_drop in Ha. rewrite <- Ha. f_equal.
        replace i with (i - 55 + 1 * 55)%nat at 1 2 by lia. rewrite Nat.div_add by lia. lia.
Qed.

Lemma gaps_sound k s s' i offset len o : holds k s -> exec (ExtractGaps i offset len o) s = Done s' -> holds (learn (ExtractGaps i offset len o) k) s'.
Proof.
  intros Hk E. cbn in E |- *. unfold extract_gaps in E. destruct (gaps_of _ _ _) as [out|] eqn:El; cbn in E; [|done]. injection E as <-.
  rewrite insert_insert_eq. apply set_sound; [done|]. intros o' Ho. case_bool_decide as Hne; [|done]. cbn [andb] in Ho.
  destruct (Z.ltb_spec 0 len) as [Hl|]; [|done]. destruct (origin_of k i) as [p|] eqn:Ep; [|done]. injection Ho as <-.
  rewrite lookup_insert_ne in El by done. unfold gaps_of in El. apply gaps_loop_gapped in El as (r' & -> & Hz & Hg); [|lia].
  rewrite Z.max_r in Hz by lia. cbn [app]. destruct (s !! i) as [a|] eqn:Ea; cbn [default] in Hg.
  - exists a. split_and!; [by eapply origin_sound|done|]. intros j Hj. destruct (Hg j Hj) as (b & Hb & Hab). exists b. split; [done|].
    unfold zdrop in Hab. rewrite lookup_drop in Hab. rewrite <- Hab. f_equal. lia.
  - exfalso. assert (0 < zlen r') as Hp by (pose proof (Z.div_pos len 63); pose proof (Z.mod_pos_bound len 63);
      pose proof (Z.div_mod len 63); lia).
    destruct (Hg 0%nat) as (b & _ & Hb); [unfold zlen in Hp; lia|]. unfold zdrop in Hb. by rewrite drop_nil in Hb.
Qed.

Lemma cat_sound k s out ps o : holds k s -> cat (piece_origin k out <$> ps) = Some o ->
  denotes o (concat (piece_of (<[out := []]> s) <$> ps)).
Proof.
  intros Hk. revert o. induction ps as [|p ps IH]; intros o Ho; cbn [fmap list_fmap cat] in Ho; [by injection Ho as <-|].
  destruct (piece_origin k out p) as [o1|] eqn:E1; [|done]. cbn [mbind option_bind] in Ho.
  destruct (cat (piece_origin k out <$> ps)) as [o2|] eqn:E2; [|done]. injection Ho as <-.
  rewrite fmap_cons. cbn [concat]. eexists _, _. split_and!; [|by apply IH|done].
  destruct p as [b|f]; cbn in E1 |- *; [by injection E1 as <-|]. case_bool_decide as Hf; [done|].
  rewrite lookup_insert_ne by done. destruct (holds_sure k s Hk f o1 E1) as (a & -> & Hd). done.
Qed.

(** What is learnt is true. *)
Lemma learn_sound t k s s' : holds k s -> exec t s = Done s' -> holds (learn t k) s'.
Proof.
  intros Hk E. destruct t; eauto using unzip_sound, unshield_sound, verify_sound, extract_sound, gaps_sound; cbn in E |- *.
  - unfold checkstandard in E. by repeat case_match; simplify_eq.
  - unfold checkunshield in E. by repeat case_match; simplify_eq.
  - unfold wgetfile in E. destruct (s !! Cwd sourcefile) as [c|] eqn:Es.
    + injection E as <-. destruct (here k !! sourcefile); [done|]. rewrite <- (insert_id s (Cwd sourcefile) c) by done. by apply (set_unchecked k s (Cwd sourcefile)).
    + destruct (download url) as [c|]; [|done]. injection E as <-. destruct (here k !! sourcefile); [by apply holds_new|by apply (set_unchecked k s (Cwd sourcefile))].
  - unfold copy in E. destruct (s !! from) as [c|] eqn:Es; [|done]. injection E as <-. apply set_sound; [done|]. intros o Ho. by eapply origin_sound.
  - unfold delzero in E. injection E as <-. rewrite insert_insert_eq. by apply set_sound.
  - unfold build in E. injection E as <-. rewrite insert_insert_eq. apply set_sound; [done|]. intros o Ho. by apply cat_sound with k.
  - unfold mpc718_extract in E. destruct (s !! _); [|done]. destruct (find_run _ _); [|done]. injection E as <-. by apply (set_unchecked k s (Cwd fwfile)).
Qed.

Lemma run_sound l : forall k s s', holds k s -> run l s = Done s' -> holds (foldl (fun k t => learn t k) k l) s'.
Proof.
  induction l as [|t l IH]; intros k s s' Hk E; cbn in E |- *; [by injection E as <-|].
  destruct (exec t s) as [s1|] eqn:E1; cbn in E; [|done]. eapply IH; [|exact E]. by eapply learn_sound.
Qed.

(** C27: Whatever is downloaded and unpacked and whatever files there were: when the script says that a component was extracted, every
    firmware of the table is there and is what the table says: content with a checksum, a part of such content or of a file of an archive
    with a checksum, groups of bytes of it without the bytes between, or several of these between constant bytes.  Only of three files,
    those of mpc718 and az6027 and the first of it9135, nothing is known.  And the report names these files, but for af9015 and it9135. *)
Theorem firmwares_identified cid out s s' : (forall n, s !! Tmp n = None) -> get_dvb_firmware [cid] s = Extracted out s' ->
  exists files, (cid, files) ∈ firmwares /\ (cid ∉ misreported -> words out = fst <$> files) /\
    forall f o, (f, o) ∈ files -> exists content, s' !! Cwd f = Some content /\ denotes o content.
Proof.
  intros Hs E. unfold get_dvb_firmware in E. destruct (List.find _ components) as [[name c]|] eqn:Ef; [|done].
  apply List.find_some in Ef as [Hin Hn]. apply String.eqb_eq in Hn. cbn [fst snd] in *. subst name.
  destruct (run (calls c) s) as [s1|] eqn:Er; [|done]. injection E as <- <-.
  pose proof (proj1 (forallb_forall _ _) all_as_expected (cid, c) Hin) as Ha. unfold as_expected in Ha. cbn [fst snd] in Ha.
  destruct (List.find _ firmwares) as [[name files]|] eqn:Ef; [|done]. apply List.find_some in Ef as [Hin' Hn].
  apply String.eqb_eq in Hn. cbn [fst] in Hn. subst name. apply andb_true_iff in Ha as [Hw Hfs].
  exists files. split_and!; [by apply list_elem_of_In|intros Hm; rewrite bool_decide_eq_false_2 in Hw by done; by apply bool_decide_eq_true in Hw|].
  intros f o Hfo. pose proof (proj1 (forallb_forall _ _) Hfs (f, o) (proj1 (list_elem_of_In _ _) Hfo)) as Ho. apply bool_decide_eq_true in Ho. cbn [fst snd] in Ho.
  assert (holds (Know ∅ ∅ Nothing) s) as H0.
  { split; [intros [n|n] o' Ho'; done|]. intros n ct _ Hct. by rewrite Hs in Hct. }
  exact (holds_sure _ _ (run_sound (calls c) _ _ _ H0 Er) (Cwd f) o Ho).
Qed.

End Origins.

(** ** A driver whose firmware is cut out *)

#[local] Instance sample_tools : Tools := {
  which _ := true;
  download _ := None;
  unzip_x _ := (0, []);
  unshield_x _ := (0, []);
  md5 c :=
    if zlen c =? 8009 then "fc6017ad01e79890a97ec53bea157ed2"%string
    else if zlen c =? 3841 then "caa065d5fdbd2c09ad57b399bbf55cad"%string else "0"%string;
  perl_printf c := c
}.

Definition sample_files : fs := {[Cwd "LMEBDA_DVBS.sys" := replicate (Z.to_nat 8009) 7]}.

Definition extracted (e : exit) : bool := match e with Extracted _ _ => true | _ => false end.

Lemma firmwares_identified_witness :
  exists out s' content, get_dvb_firmware ["lme2510_lg"%string] sample_files = Extracted out s' /\
    s' !! Cwd "dvb-usb-lme2510-lg.fw" = Some content /\ md5 content = "caa065d5fdbd2c09ad57b399bbf55cad"%string.
Proof.
  assert (extracted (get_dvb_firmware ["lme2510_lg"%string] sample_files) = true) as He by (vm_compute; reflexivity).
  destruct (get_dvb_firmware ["lme2510_lg"%string] sample_files) as [out s'| |] eqn:E; [|discriminate He|discriminate He]. clear He.
  destruct (firmwares_identified "lme2510_lg" out sample_files s') as (files & Hc & _ & Hf); [|exact E|].
  { intros n. unfold sample_files. by rewrite lookup_singleton_ne. }
  assert (files = [("dvb-usb-lme2510-lg.fw", Hash "caa065d5fdbd2c09ad57b399bbf55cad")]%string) as ->.
  { clear -Hc. apply list_elem_of_In in Hc. repeat destruct Hc as [Hc|Hc]; first [discriminate Hc | by injection Hc | done]. }
  destruct (Hf "dvb-usb-lme2510-lg.fw"%string (Hash "caa065d5fdbd2c09ad57b399bbf55cad")) as (ct & Hct & Hd); [left|].
  exists out, s', ct. split; [reflexivity|]. split; [exact Hct|exact Hd].
Defined.

End Dvb.
