(* ===== verification/TcmModule.v ===== *)
(** * The generator of target fabric modules: target/tcm_mod_builder.py

    The script writes a kernel module for a new fabric: a header with its structures, the
    functions of the fabric, for each of which it looks up the declaration in a header of
    the kernel, their prototypes, a file with the table of these functions, and what the
    build needs.  The text is in the definitions as the script has it; the theorems read
    the text that was written back as C ([CTokens]) and relate the files to each other. *)

From Stdlib Require Import Ascii.
From S2P Require Import Prelude Posix Output CTokens.
Import CText.

Module Tcm.

Open Scope Z_scope.

Definition B (s : string) : text := bytes_of_string s.

(** ** Text with names in it *)

(** What the script puts between pieces of text: the name of the module, in capitals, without its first four letters,
    and the names of the two ports. *)
Record vars : Type := Vars {
  fabric_mod_name : text; fabric_mod_name_upper : text; fabric_mod_name_4 : text;
  fabric_mod_port : text; fabric_mod_init_port : text
}.

Definition upper_char (c : Z) : Z := if (97 <=? c) && (c <=? 122) then c - 32 else c.
Definition lower_char (c : Z) : Z := if (65 <=? c) && (c <=? 90) then c + 32 else c.
Definition upper (t : text) : text := map upper_char t.
Definition lower (t : text) : text := map lower_char t.

(** In the strings below a backslash stands before n for a line feed, t for a tabulator, q for a quote, and before m, M, 4, p
    and i for the five names, where the script closes the string and adds the name. *)
Definition escape (e : vars) (c : Ascii.ascii) : text :=
  match c with
  | "n"%char => [10] | "t"%char => [9] | "q"%char => [34]
  | "m"%char => fabric_mod_name e | "M"%char => fabric_mod_name_upper e | "4"%char => fabric_mod_name_4 e
  | "p"%char => fabric_mod_port e | "i"%char => fabric_mod_init_port e
  | c => [byte_of_ascii c]
  end.

Fixpoint expand (e : vars) (escaped : bool) (s : string) : text :=
  match s with
  | EmptyString => []
  | String c r =>
      if escaped then escape e c ++ expand e false r
      else if Ascii.eqb c "\" then expand e true r else byte_of_ascii c :: expand e false r
  end.

Definition text_of (e : vars) (buf : list string) : text := concat (expand e false <$> buf).

(** ** The text of the files *)

(** What is written when the declaration of an operation has the pattern: a definition and a prototype. *)
Record handler : Type := Handler { pattern : string; buf : list string; bufi : list string }.

Definition FC_base : list string :=
  ["#define \M_VERSION\t\qv0.1\q\n";
   "#define \M_NAMELEN\t32\n";
   "\n";
   "struct \m_nacl {\n";
   "\t/* Binary World Wide unique Port Name for FC Initiator Nport */\n";
   "\tu64 nport_wwpn;\n";
   "\t/* ASCII formatted WWPN for FC Initiator Nport */\n";
   "\tchar nport_name[\M_NAMELEN];\n";
   "\t/* Returned by \m_make_nodeacl() */\n";
   "\tstruct se_node_acl se_node_acl;\n";
   "};\n";
   "\n";
   "struct \m_tpg {\n";
   "\t/* FC lport target portal group tag for TCM */\n";
   "\tu16 lport_tpgt;\n";
   "\t/* Pointer back to \m_lport */\n";
   "\tstruct \m_lport *lport;\n";
   "\t/* Returned by \m_make_tpg() */\n";
   "\tstruct se_portal_group se_tpg;\n";
   "};\n";
   "\n";
   "struct \m_lport {\n";
   "\t/* SCSI protocol the lport is providing */\n";
   "\tu8 lport_proto_id;\n";
   "\t/* Binary World Wide unique Port Name for FC Target Lport */\n";
   "\tu64 lport_wwpn;\n";
   "\t/* ASCII formatted WWPN for FC Target Lport */\n";
   "\tchar lport_name[\M_NAMELEN];\n";
   "\t/* Returned by \m_make_lport() */\n";
   "\tstruct se_wwn lport_wwn;\n";
   "};\n"].

Definition SAS_base : list string :=
  ["#define \M_VERSION  \qv0.1\q\n";
   "#define \M_NAMELEN 32\n";
   "\n";
   "struct \m_nacl {\n";
   "\t/* Binary World Wide unique Port Name for SAS Initiator port */\n";
   "\tu64 iport_wwpn;\n";
   "\t/* ASCII formatted WWPN for Sas Initiator port */\n";
   "\tchar iport_name[\M_NAMELEN];\n";
   "\t/* Returned by \m_make_nodeacl() */\n";
   "\tstruct se_node_acl se_node_acl;\n";
   "};\n\n";
   "struct \m_tpg {\n";
   "\t/* SAS port target portal group tag for TCM */\n";
   "\tu16 tport_tpgt;\n";
   "\t/* Pointer back to \m_tport */\n";
   "\tstruct \m_tport *tport;\n";
   "\t/* Returned by \m_make_tpg() */\n";
   "\tstruct se_portal_group se_tpg;\n";
   "};\n\n";
   "struct \m_tport {\n";
   "\t/* SCSI protocol the tport is providing */\n";
   "\tu8 tport_proto_id;\n";
   "\t/* Binary World Wide unique Port Name for SAS Target port */\n";
   "\tu64 tport_wwpn;\n";
   "\t/* ASCII formatted WWPN for SAS Target port */\n";
   "\tchar tport_name[\M_NAMELEN];\n";
   "\t/* Returned by \m_make_tport() */\n";
   "\tstruct se_wwn tport_wwn;\n";
   "};\n"].

Definition iSCSI_base : list string :=
  ["#define \M_VERSION  \qv0.1\q\n";
   "#define \M_NAMELEN 32\n";
   "\n";
   "struct \m_nacl {\n";
   "\t/* ASCII formatted InitiatorName */\n";
   "\tchar iport_name[\M_NAMELEN];\n";
   "\t/* Returned by \m_make_nodeacl() */\n";
   "\tstruct se_node_acl se_node_acl;\n";
   "};\n\n";
   "struct \m_tpg {\n";
   "\t/* iSCSI target portal group tag for TCM */\n";
   "\tu16 tport_tpgt;\n";
   "\t/* Pointer back to \m_tport */\n";
   "\tstruct \m_tport *tport;\n";
   "\t/* Returned by \m_make_tpg() */\n";
   "\tstruct se_portal_group se_tpg;\n";
   "};\n\n";
   "struct \m_tport {\n";
   "\t/* SCSI protocol the tport is providing */\n";
   "\tu8 tport_proto_id;\n";
   "\t/* ASCII formatted TargetName for IQN */\n";
   "\tchar tport_name[\M_NAMELEN];\n";
   "\t/* Returned by \m_make_tport() */\n";
   "\tstruct se_wwn tport_wwn;\n";
   "};\n"].

Definition configfs_includes : list string :=
  ["#include <linux/module.h>\n";
   "#include <linux/moduleparam.h>\n";
   "#include <linux/version.h>\n";
   "#include <generated/utsrelease.h>\n";
   "#include <linux/utsname.h>\n";
   "#include <linux/init.h>\n";
   "#include <linux/slab.h>\n";
   "#include <linux/kthread.h>\n";
   "#include <linux/types.h>\n";
   "#include <linux/string.h>\n";
   "#include <linux/configfs.h>\n";
   "#include <linux/ctype.h>\n";
   "#include <asm/unaligned.h>\n\n";
   "#include <target/target_core_base.h>\n";
   "#include <target/target_core_fabric.h>\n";
   "#include <target/target_core_fabric_configfs.h>\n";
   "#include <target/target_core_configfs.h>\n";
   "#include <target/configfs_macros.h>\n\n";
   "#include \q\m_base.h\q\n";
   "#include \q\m_fabric.h\q\n\n";
   "/* Local pointer to allocated TCM configfs fabric module */\n";
   "struct target_fabric_configfs *\m_fabric_configfs;\n\n"].

Definition configfs_nodeacl (proto_ident : string) : list string :=
  ["static struct se_node_acl *\m_make_nodeacl(\n";
   "\tstruct se_portal_group *se_tpg,\n";
   "\tstruct config_group *group,\n";
   "\tconst char *name)\n";
   "{\n";
   "\tstruct se_node_acl *se_nacl, *se_nacl_new;\n";
   "\tstruct \m_nacl *nacl;\n"] ++
  (if String.eqb proto_ident "FC" || String.eqb proto_ident "SAS" then
     ["\tu64 wwpn = 0;\n"]
   else []) ++
  ["\tu32 nexus_depth;\n\n";
   "\t/* \m_parse_wwn(name, &wwpn, 1) < 0)\n";
   "\t\treturn ERR_PTR(-EINVAL); */\n";
   "\tse_nacl_new = \m_alloc_fabric_acl(se_tpg);\n";
   "\tif (!se_nacl_new)\n";
   "\t\treturn ERR_PTR(-ENOMEM);\n";
   "//#warning FIXME: Hardcoded nexus depth in \m_make_nodeacl()\n";
   "\tnexus_depth = 1;\n";
   "\t/*\n";
   "\t * se_nacl_new may be released by core_tpg_add_initiator_node_acl()\n";
   "\t * when converting a NodeACL from demo mode -> explict\n";
   "\t */\n";
   "\tse_nacl = core_tpg_add_initiator_node_acl(se_tpg, se_nacl_new,\n";
   "\t\t\t\tname, nexus_depth);\n";
   "\tif (IS_ERR(se_nacl)) {\n";
   "\t\t\m_release_fabric_acl(se_tpg, se_nacl_new);\n";
   "\t\treturn se_nacl;\n";
   "\t}\n";
   "\t/*\n";
   "\t * Locate our struct \m_nacl and set the FC Nport WWPN\n";
   "\t */\n";
   "\tnacl = container_of(se_nacl, struct \m_nacl, se_node_acl);\n"] ++
  (if String.eqb proto_ident "FC" || String.eqb proto_ident "SAS" then
     ["\tnacl->\i_wwpn = wwpn;\n"]
   else []) ++
  ["\t/* \m_format_wwn(&nacl->\i_name[0], \M_NAMELEN, wwpn); */\n\n";
   "\treturn se_nacl;\n";
   "}\n\n";
   "static void \m_drop_nodeacl(struct se_node_acl *se_acl)\n";
   "{\n";
   "\tstruct \m_nacl *nacl = container_of(se_acl,\n";
   "\t\t\t\tstruct \m_nacl, se_node_acl);\n";
   "\tcore_tpg_del_initiator_node_acl(se_acl->se_tpg, se_acl, 1);\n";
   "\tkfree(nacl);\n";
   "}\n\n"].

Definition configfs_tpg : list string :=
  ["static struct se_portal_group *\m_make_tpg(\n";
   "\tstruct se_wwn *wwn,\n";
   "\tstruct config_group *group,\n";
   "\tconst char *name)\n";
   "{\n";
   "\tstruct \m_\p*\p = container_of(wwn,\n";
   "\t\t\tstruct \m_\p, \p_wwn);\n\n";
   "\tstruct \m_tpg *tpg;\n";
   "\tunsigned long tpgt;\n";
   "\tint ret;\n\n";
   "\tif (strstr(name, \qtpgt_\q) != name)\n";
   "\t\treturn ERR_PTR(-EINVAL);\n";
   "\tif (kstrtoul(name + 5, 10, &tpgt) || tpgt > UINT_MAX)\n";
   "\t\treturn ERR_PTR(-EINVAL);\n\n";
   "\ttpg = kzalloc(sizeof(struct \m_tpg), GFP_KERNEL);\n";
   "\tif (!tpg) {\n";
   "\t\tprintk(KERN_ERR \qUnable to allocate struct \m_tpg\q);\n";
   "\t\treturn ERR_PTR(-ENOMEM);\n";
   "\t}\n";
   "\ttpg->\p = \p;\n";
   "\ttpg->\p_tpgt = tpgt;\n\n";
   "\tret = core_tpg_register(&\m_fabric_configfs->tf_ops, wwn,\n";
   "\t\t\t\t&tpg->se_tpg, (void *)tpg,\n";
   "\t\t\t\tTRANSPORT_TPG_TYPE_NORMAL);\n";
   "\tif (ret < 0) {\n";
   "\t\tkfree(tpg);\n";
   "\t\treturn NULL;\n";
   "\t}\n";
   "\treturn &tpg->se_tpg;\n";
   "}\n\n";
   "static void \m_drop_tpg(struct se_portal_group *se_tpg)\n";
   "{\n";
   "\tstruct \m_tpg *tpg = container_of(se_tpg,\n";
   "\t\t\t\tstruct \m_tpg, se_tpg);\n\n";
   "\tcore_tpg_deregister(se_tpg);\n";
   "\tkfree(tpg);\n";
   "}\n\n"].

Definition configfs_wwn (proto_ident : string) : list string :=
  ["static struct se_wwn *\m_make_\p(\n";
   "\tstruct target_fabric_configfs *tf,\n";
   "\tstruct config_group *group,\n";
   "\tconst char *name)\n";
   "{\n";
   "\tstruct \m_\p *\p;\n"] ++
  (if String.eqb proto_ident "FC" || String.eqb proto_ident "SAS" then
     ["\tu64 wwpn = 0;\n\n"]
   else []) ++
  ["\t/* if (\m_parse_wwn(name, &wwpn, 1) < 0)\n";
   "\t\treturn ERR_PTR(-EINVAL); */\n\n";
   "\t\p = kzalloc(sizeof(struct \m_\p), GFP_KERNEL);\n";
   "\tif (!\p) {\n";
   "\t\tprintk(KERN_ERR \qUnable to allocate struct \m_\p\q);\n";
   "\t\treturn ERR_PTR(-ENOMEM);\n";
   "\t}\n"] ++
  (if String.eqb proto_ident "FC" || String.eqb proto_ident "SAS" then
     ["\t\p->\p_wwpn = wwpn;\n"]
   else []) ++
  ["\t/* \m_format_wwn(&\p->\p_name[0], \M_NAMELEN, wwpn); */\n\n";
   "\treturn &\p->\p_wwn;\n";
   "}\n\n";
   "static void \m_drop_\p(struct se_wwn *wwn)\n";
   "{\n";
   "\tstruct \m_\p *\p = container_of(wwn,\n";
   "\t\t\t\tstruct \m_\p, \p_wwn);\n";
   "\tkfree(\p);\n";
   "}\n\n"].

Definition configfs_version : list string :=
  ["static ssize_t \m_wwn_show_attr_version(\n";
   "\tstruct target_fabric_configfs *tf,\n";
   "\tchar *page)\n";
   "{\n";
   "\treturn sprintf(page, \q\M fabric module %s on %s/%s\q\n";
   "\t\t\qon \qUTS_RELEASE\q\\n\q, \M_VERSION, utsname()->sysname,\n";
   "\t\tutsname()->machine);\n";
   "}\n\n";
   "TF_WWN_ATTR_RO(\m, version);\n\n";
   "static struct configfs_attribute *\m_wwn_attrs[] = {\n";
   "\t&\m_wwn_version.attr,\n";
   "\tNULL,\n";
   "};\n\n"].

Definition configfs_ops : list string :=
  ["static struct target_core_fabric_ops \m_ops = {\n";
   "\t.get_fabric_name\t\t= \m_get_fabric_name,\n";
   "\t.get_fabric_proto_ident\t\t= \m_get_fabric_proto_ident,\n";
   "\t.tpg_get_wwn\t\t\t= \m_get_fabric_wwn,\n";
   "\t.tpg_get_tag\t\t\t= \m_get_tag,\n";
   "\t.tpg_get_default_depth\t\t= \m_get_default_depth,\n";
   "\t.tpg_get_pr_transport_id\t= \m_get_pr_transport_id,\n";
   "\t.tpg_get_pr_transport_id_len\t= \m_get_pr_transport_id_len,\n";
   "\t.tpg_parse_pr_out_transport_id\t= \m_parse_pr_out_transport_id,\n";
   "\t.tpg_check_demo_mode\t\t= \m_check_false,\n";
   "\t.tpg_check_demo_mode_cache\t= \m_check_true,\n";
   "\t.tpg_check_demo_mode_write_protect = \m_check_true,\n";
   "\t.tpg_check_prod_mode_write_protect = \m_check_false,\n";
   "\t.tpg_alloc_fabric_acl\t\t= \m_alloc_fabric_acl,\n";
   "\t.tpg_release_fabric_acl\t\t= \m_release_fabric_acl,\n";
   "\t.tpg_get_inst_index\t\t= \m_tpg_get_inst_index,\n";
   "\t.release_cmd\t\t\t= \m_release_cmd,\n";
   "\t.shutdown_session\t\t= \m_shutdown_session,\n";
   "\t.close_session\t\t\t= \m_close_session,\n";
   "\t.stop_session\t\t\t= \m_stop_session,\n";
   "\t.fall_back_to_erl0\t\t= \m_reset_nexus,\n";
   "\t.sess_logged_in\t\t\t= \m_sess_logged_in,\n";
   "\t.sess_get_index\t\t\t= \m_sess_get_index,\n";
   "\t.sess_get_initiator_sid\t\t= NULL,\n";
   "\t.write_pending\t\t\t= \m_write_pending,\n";
   "\t.write_pending_status\t\t= \m_write_pending_status,\n";
   "\t.set_default_node_attributes\t= \m_set_default_node_attrs,\n";
   "\t.get_task_tag\t\t\t= \m_get_task_tag,\n";
   "\t.get_cmd_state\t\t\t= \m_get_cmd_state,\n";
   "\t.queue_data_in\t\t\t= \m_queue_data_in,\n";
   "\t.queue_status\t\t\t= \m_queue_status,\n";
   "\t.queue_tm_rsp\t\t\t= \m_queue_tm_rsp,\n";
   "\t.is_state_remove\t\t= \m_is_state_remove,\n";
   "\t/*\n";
   "\t * Setup function pointers for generic logic in target_core_fabric_configfs.c\n";
   "\t */\n";
   "\t.fabric_make_wwn\t\t= \m_make_\p,\n";
   "\t.fabric_drop_wwn\t\t= \m_drop_\p,\n";
   "\t.fabric_make_tpg\t\t= \m_make_tpg,\n";
   "\t.fabric_drop_tpg\t\t= \m_drop_tpg,\n";
   "\t.fabric_post_link\t\t= NULL,\n";
   "\t.fabric_pre_unlink\t\t= NULL,\n";
   "\t.fabric_make_np\t\t\t= NULL,\n";
   "\t.fabric_drop_np\t\t\t= NULL,\n";
   "\t.fabric_make_nodeacl\t\t= \m_make_nodeacl,\n";
   "\t.fabric_drop_nodeacl\t\t= \m_drop_nodeacl,\n";
   "};\n\n"].

Definition configfs_register : list string :=
  ["static int \m_register_configfs(void)\n";
   "{\n";
   "\tstruct target_fabric_configfs *fabric;\n";
   "\tint ret;\n\n";
   "\tprintk(KERN_INFO \q\M fabric module %s on %s/%s\q\n";
   "\t\t\q on \qUTS_RELEASE\q\\n\q,\M_VERSION, utsname()->sysname,\n";
   "\t\tutsname()->machine);\n";
   "\t/*\n";
   "\t * Register the top level struct config_item_type with TCM core\n";
   "\t */\n";
   "\tfabric = target_fabric_configfs_init(THIS_MODULE, \q\4\q);\n";
   "\tif (IS_ERR(fabric)) {\n";
   "\t\tprintk(KERN_ERR \qtarget_fabric_configfs_init() failed\\n\q);\n";
   "\t\treturn PTR_ERR(fabric);\n";
   "\t}\n";
   "\t/*\n";
   "\t * Setup fabric->tf_ops from our local \m_ops\n";
   "\t */\n";
   "\tfabric->tf_ops = \m_ops;\n";
   "\t/*\n";
   "\t * Setup default attribute lists for various fabric->tf_cit_tmpl\n";
   "\t */\n";
   "\tfabric->tf_cit_tmpl.tfc_wwn_cit.ct_attrs = \m_wwn_attrs;\n";
   "\tfabric->tf_cit_tmpl.tfc_tpg_base_cit.ct_attrs = NULL;\n";
   "\tfabric->tf_cit_tmpl.tfc_tpg_attrib_cit.ct_attrs = NULL;\n";
   "\tfabric->tf_cit_tmpl.tfc_tpg_param_cit.ct_attrs = NULL;\n";
   "\tfabric->tf_cit_tmpl.tfc_tpg_np_base_cit.ct_attrs = NULL;\n";
   "\tfabric->tf_cit_tmpl.tfc_tpg_nacl_base_cit.ct_attrs = NULL;\n";
   "\tfabric->tf_cit_tmpl.tfc_tpg_nacl_attrib_cit.ct_attrs = NULL;\n";
   "\tfabric->tf_cit_tmpl.tfc_tpg_nacl_auth_cit.ct_attrs = NULL;\n";
   "\tfabric->tf_cit_tmpl.tfc_tpg_nacl_param_cit.ct_attrs = NULL;\n";
   "\t/*\n";
   "\t * Register the fabric for use within TCM\n";
   "\t */\n";
   "\tret = target_fabric_configfs_register(fabric);\n";
   "\tif (ret < 0) {\n";
   "\t\tprintk(KERN_ERR \qtarget_fabric_configfs_register() failed\q\n";
   "\t\t\t\t\q for \M\\n\q);\n";
   "\t\treturn ret;\n";
   "\t}\n";
   "\t/*\n";
   "\t * Setup our local pointer to *fabric\n";
   "\t */\n";
   "\t\m_fabric_configfs = fabric;\n";
   "\tprintk(KERN_INFO \q\M[0] - Set fabric -> \m_fabric_configfs\\n\q);\n";
   "\treturn 0;\n";
   "};\n\n";
   "static void __exit \m_deregister_configfs(void)\n";
   "{\n";
   "\tif (!\m_fabric_configfs)\n";
   "\t\treturn;\n\n";
   "\ttarget_fabric_configfs_deregister(\m_fabric_configfs);\n";
   "\t\m_fabric_configfs = NULL;\n";
   "\tprintk(KERN_INFO \q\M[0] - Cleared \m_fabric_configfs\\n\q);\n";
   "};\n\n"].

Definition configfs_init : list string :=
  ["static int __init \m_init(void)\n";
   "{\n";
   "\tint ret;\n\n";
   "\tret = \m_register_configfs();\n";
   "\tif (ret < 0)\n";
   "\t\treturn ret;\n\n";
   "\treturn 0;\n";
   "};\n\n";
   "static void __exit \m_exit(void)\n";
   "{\n";
   "\t\m_deregister_configfs();\n";
   "};\n\n";
   "MODULE_DESCRIPTION(\q\M series fabric driver\q);\n";
   "MODULE_LICENSE(\qGPL\q);\n";
   "module_init(\m_init);\n";
   "module_exit(\m_exit);\n"].

Definition fabric_c_head : list string :=
  ["#include <linux/slab.h>\n";
   "#include <linux/kthread.h>\n";
   "#include <linux/types.h>\n";
   "#include <linux/list.h>\n";
   "#include <linux/types.h>\n";
   "#include <linux/string.h>\n";
   "#include <linux/ctype.h>\n";
   "#include <asm/unaligned.h>\n";
   "#include <scsi/scsi.h>\n";
   "#include <scsi/scsi_host.h>\n";
   "#include <scsi/scsi_device.h>\n";
   "#include <scsi/scsi_cmnd.h>\n";
   "#include <scsi/libfc.h>\n\n";
   "#include <target/target_core_base.h>\n";
   "#include <target/target_core_fabric.h>\n";
   "#include <target/target_core_configfs.h>\n\n";
   "#include \q\m_base.h\q\n";
   "#include \q\m_fabric.h\q\n\n";
   "int \m_check_true(struct se_portal_group *se_tpg)\n";
   "{\n";
   "\treturn 1;\n";
   "}\n\n";
   "int \m_check_false(struct se_portal_group *se_tpg)\n";
   "{\n";
   "\treturn 0;\n";
   "}\n\n"].

Definition fabric_h_head : list string :=
  ["int \m_check_true(struct se_portal_group *);\n";
   "int \m_check_false(struct se_portal_group *);\n"].

Definition get_fabric_name (proto_ident : string) : handler :=
  Handler "get_fabric_name"
      (["char *\m_get_fabric_name(void)\n";
        "{\n";
        "\treturn \q\4\q;\n";
        "}\n\n"])
      (["char *\m_get_fabric_name(void);\n"]).

Definition identity_ops (proto_ident : string) : list handler :=
  [Handler "get_fabric_proto_ident"
      (["u8 \m_get_fabric_proto_ident(struct se_portal_group *se_tpg)\n";
        "{\n";
        "\tstruct \m_tpg *tpg = container_of(se_tpg,\n";
        "\t\t\t\tstruct \m_tpg, se_tpg);\n";
        "\tstruct \m_\p *\p = tpg->\p;\n";
        "\tu8 proto_id;\n\n";
        "\tswitch (\p->\p_proto_id) {\n"] ++
       (if String.eqb proto_ident "FC" then
          ["\tcase SCSI_PROTOCOL_FCP:\n";
           "\tdefault:\n";
           "\t\tproto_id = fc_get_fabric_proto_ident(se_tpg);\n";
           "\t\tbreak;\n"]
        else if String.eqb proto_ident "SAS" then
          ["\tcase SCSI_PROTOCOL_SAS:\n";
           "\tdefault:\n";
           "\t\tproto_id = sas_get_fabric_proto_ident(se_tpg);\n";
           "\t\tbreak;\n"]
        else if String.eqb proto_ident "iSCSI" then
          ["\tcase SCSI_PROTOCOL_ISCSI:\n";
           "\tdefault:\n";
           "\t\tproto_id = iscsi_get_fabric_proto_ident(se_tpg);\n";
           "\t\tbreak;\n"]
        else []) ++
       ["\t}\n\n";
        "\treturn proto_id;\n";
        "}\n\n"])
      (["u8 \m_get_fabric_proto_ident(struct se_portal_group *);\n"]);
   Handler "get_wwn"
      (["char *\m_get_fabric_wwn(struct se_portal_group *se_tpg)\n";
        "{\n";
        "\tstruct \m_tpg *tpg = container_of(se_tpg,\n";
        "\t\t\t\tstruct \m_tpg, se_tpg);\n";
        "\tstruct \m_\p *\p = tpg->\p;\n\n";
        "\treturn &\p->\p_name[0];\n";
        "}\n\n"])
      (["char *\m_get_fabric_wwn(struct se_portal_group *);\n"]);
   Handler "get_tag"
      (["u16 \m_get_tag(struct se_portal_group *se_tpg)\n";
        "{\n";
        "\tstruct \m_tpg *tpg = container_of(se_tpg,\n";
        "\t\t\t\tstruct \m_tpg, se_tpg);\n";
        "\treturn tpg->\p_tpgt;\n";
        "}\n\n"])
      (["u16 \m_get_tag(struct se_portal_group *);\n"]);
   Handler "get_default_depth"
      (["u32 \m_get_default_depth(struct se_portal_group *se_tpg)\n";
        "{\n";
        "\treturn 1;\n";
        "}\n\n"])
      (["u32 \m_get_default_depth(struct se_portal_group *);\n"])].

Definition transport_id_ops (proto_ident : string) : list handler :=
  [Handler "get_pr_transport_id)("
      (["u32 \m_get_pr_transport_id(\n";
        "\tstruct se_portal_group *se_tpg,\n";
        "\tstruct se_node_acl *se_nacl,\n";
        "\tstruct t10_pr_registration *pr_reg,\n";
        "\tint *format_code,\n";
        "\tunsigned char *buf)\n";
        "{\n";
        "\tstruct \m_tpg *tpg = container_of(se_tpg,\n";
        "\t\t\t\tstruct \m_tpg, se_tpg);\n";
        "\tstruct \m_\p *\p = tpg->\p;\n";
        "\tint ret = 0;\n\n";
        "\tswitch (\p->\p_proto_id) {\n"] ++
       (if String.eqb proto_ident "FC" then
          ["\tcase SCSI_PROTOCOL_FCP:\n";
           "\tdefault:\n";
           "\t\tret = fc_get_pr_transport_id(se_tpg, se_nacl, pr_reg,\n";
           "\t\t\t\t\tformat_code, buf);\n";
           "\t\tbreak;\n"]
        else if String.eqb proto_ident "SAS" then
          ["\tcase SCSI_PROTOCOL_SAS:\n";
           "\tdefault:\n";
           "\t\tret = sas_get_pr_transport_id(se_tpg, se_nacl, pr_reg,\n";
           "\t\t\t\t\tformat_code, buf);\n";
           "\t\tbreak;\n"]
        else if String.eqb proto_ident "iSCSI" then
          ["\tcase SCSI_PROTOCOL_ISCSI:\n";
           "\tdefault:\n";
           "\t\tret = iscsi_get_pr_transport_id(se_tpg, se_nacl, pr_reg,\n";
           "\t\t\t\t\tformat_code, buf);\n";
           "\t\tbreak;\n"]
        else []) ++
       ["\t}\n\n";
        "\treturn ret;\n";
        "}\n\n"])
      (["u32 \m_get_pr_transport_id(struct se_portal_group *,\n";
        "\t\t\tstruct se_node_acl *, struct t10_pr_registration *,\n";
        "\t\t\tint *, unsigned char *);\n"]);
   Handler "get_pr_transport_id_len)("
      (["u32 \m_get_pr_transport_id_len(\n";
        "\tstruct se_portal_group *se_tpg,\n";
        "\tstruct se_node_acl *se_nacl,\n";
        "\tstruct t10_pr_registration *pr_reg,\n";
        "\tint *format_code)\n";
        "{\n";
        "\tstruct \m_tpg *tpg = container_of(se_tpg,\n";
        "\t\t\t\tstruct \m_tpg, se_tpg);\n";
        "\tstruct \m_\p *\p = tpg->\p;\n";
        "\tint ret = 0;\n\n";
        "\tswitch (\p->\p_proto_id) {\n"] ++
       (if String.eqb proto_ident "FC" then
          ["\tcase SCSI_PROTOCOL_FCP:\n";
           "\tdefault:\n";
           "\t\tret = fc_get_pr_transport_id_len(se_tpg, se_nacl, pr_reg,\n";
           "\t\t\t\t\tformat_code);\n";
           "\t\tbreak;\n"]
        else if String.eqb proto_ident "SAS" then
          ["\tcase SCSI_PROTOCOL_SAS:\n";
           "\tdefault:\n";
           "\t\tret = sas_get_pr_transport_id_len(se_tpg, se_nacl, pr_reg,\n";
           "\t\t\t\t\tformat_code);\n";
           "\t\tbreak;\n"]
        else if String.eqb proto_ident "iSCSI" then
          ["\tcase SCSI_PROTOCOL_ISCSI:\n";
           "\tdefault:\n";
           "\t\tret = iscsi_get_pr_transport_id_len(se_tpg, se_nacl, pr_reg,\n";
           "\t\t\t\t\tformat_code);\n";
           "\t\tbreak;\n"]
        else []) ++
       ["\t}\n\n";
        "\treturn ret;\n";
        "}\n\n"])
      (["u32 \m_get_pr_transport_id_len(struct se_portal_group *,\n";
        "\t\t\tstruct se_node_acl *, struct t10_pr_registration *,\n";
        "\t\t\tint *);\n"])].

Definition parse_transport_id_ops (proto_ident : string) : list handler :=
  [Handler "parse_pr_out_transport_id)("
      (["char *\m_parse_pr_out_transport_id(\n";
        "\tstruct se_portal_group *se_tpg,\n";
        "\tconst char *buf,\n";
        "\tu32 *out_tid_len,\n";
        "\tchar **port_nexus_ptr)\n";
        "{\n";
        "\tstruct \m_tpg *tpg = container_of(se_tpg,\n";
        "\t\t\t\tstruct \m_tpg, se_tpg);\n";
        "\tstruct \m_\p *\p = tpg->\p;\n";
        "\tchar *tid = NULL;\n\n";
        "\tswitch (\p->\p_proto_id) {\n"] ++
       (if String.eqb proto_ident "FC" then
          ["\tcase SCSI_PROTOCOL_FCP:\n";
           "\tdefault:\n";
           "\t\ttid = fc_parse_pr_out_transport_id(se_tpg, buf, out_tid_len,\n";
           "\t\t\t\t\tport_nexus_ptr);\n"]
        else if String.eqb proto_ident "SAS" then
          ["\tcase SCSI_PROTOCOL_SAS:\n";
           "\tdefault:\n";
           "\t\ttid = sas_parse_pr_out_transport_id(se_tpg, buf, out_tid_len,\n";
           "\t\t\t\t\tport_nexus_ptr);\n"]
        else if String.eqb proto_ident "iSCSI" then
          ["\tcase SCSI_PROTOCOL_ISCSI:\n";
           "\tdefault:\n";
           "\t\ttid = iscsi_parse_pr_out_transport_id(se_tpg, buf, out_tid_len,\n";
           "\t\t\t\t\tport_nexus_ptr);\n"]
        else []) ++
       ["\t}\n\n";
        "\treturn tid;\n";
        "}\n\n"])
      (["char *\m_parse_pr_out_transport_id(struct se_portal_group *,\n";
        "\t\t\tconst char *, u32 *, char **);\n"])].

Definition acl_ops (proto_ident : string) : list handler :=
  [Handler "alloc_fabric_acl)("
      (["struct se_node_acl *\m_alloc_fabric_acl(struct se_portal_group *se_tpg)\n";
        "{\n";
        "\tstruct \m_nacl *nacl;\n\n";
        "\tnacl = kzalloc(sizeof(struct \m_nacl), GFP_KERNEL);\n";
        "\tif (!nacl) {\n";
        "\t\tprintk(KERN_ERR \qUnable to allocate struct \m_nacl\\n\q);\n";
        "\t\treturn NULL;\n";
        "\t}\n\n";
        "\treturn &nacl->se_node_acl;\n";
        "}\n\n"])
      (["struct se_node_acl *\m_alloc_fabric_acl(struct se_portal_group *);\n"]);
   Handler "release_fabric_acl)("
      (["void \m_release_fabric_acl(\n";
        "\tstruct se_portal_group *se_tpg,\n";
        "\tstruct se_node_acl *se_nacl)\n";
        "{\n";
        "\tstruct \m_nacl *nacl = container_of(se_nacl,\n";
        "\t\t\tstruct \m_nacl, se_node_acl);\n";
        "\tkfree(nacl);\n";
        "}\n\n"])
      (["void \m_release_fabric_acl(struct se_portal_group *,\n";
        "\t\t\tstruct se_node_acl *);\n"]);
   Handler "tpg_get_inst_index)("
      (["u32 \m_tpg_get_inst_index(struct se_portal_group *se_tpg)\n";
        "{\n";
        "\treturn 1;\n";
        "}\n\n"])
      (["u32 \m_tpg_get_inst_index(struct se_portal_group *);\n"])].

Definition session_ops (proto_ident : string) : list handler :=
  [Handler "*release_cmd)("
      (["void \m_release_cmd(struct se_cmd *se_cmd)\n";
        "{\n";
        "\treturn;\n";
        "}\n\n"])
      (["void \m_release_cmd(struct se_cmd *);\n"]);
   Handler "shutdown_session)("
      (["int \m_shutdown_session(struct se_session *se_sess)\n";
        "{\n";
        "\treturn 0;\n";
        "}\n\n"])
      (["int \m_shutdown_session(struct se_session *);\n"]);
   Handler "close_session)("
      (["void \m_close_session(struct se_session *se_sess)\n";
        "{\n";
        "\treturn;\n";
        "}\n\n"])
      (["void \m_close_session(struct se_session *);\n"]);
   Handler "stop_session)("
      (["void \m_stop_session(struct se_session *se_sess, int sess_sleep , int conn_sleep)\n";
        "{\n";
        "\treturn;\n";
        "}\n\n"])
      (["void \m_stop_session(struct se_session *, int, int);\n"]);
   Handler "fall_back_to_erl0)("
      (["void \m_reset_nexus(struct se_session *se_sess)\n";
        "{\n";
        "\treturn;\n";
        "}\n\n"])
      (["void \m_reset_nexus(struct se_session *);\n"]);
   Handler "sess_logged_in)("
      (["int \m_sess_logged_in(struct se_session *se_sess)\n";
        "{\n";
        "\treturn 0;\n";
        "}\n\n"])
      (["int \m_sess_logged_in(struct se_session *);\n"]);
   Handler "sess_get_index)("
      (["u32 \m_sess_get_index(struct se_session *se_sess)\n";
        "{\n";
        "\treturn 0;\n";
        "}\n\n"])
      (["u32 \m_sess_get_index(struct se_session *);\n"])].

Definition command_ops (proto_ident : string) : list handler :=
  [Handler "write_pending)("
      (["int \m_write_pending(struct se_cmd *se_cmd)\n";
        "{\n";
        "\treturn 0;\n";
        "}\n\n"])
      (["int \m_write_pending(struct se_cmd *);\n"]);
   Handler "write_pending_status)("
      (["int \m_write_pending_status(struct se_cmd *se_cmd)\n";
        "{\n";
        "\treturn 0;\n";
        "}\n\n"])
      (["int \m_write_pending_status(struct se_cmd *);\n"]);
   Handler "set_default_node_attributes)("
      (["void \m_set_default_node_attrs(struct se_node_acl *nacl)\n";
        "{\n";
        "\treturn;\n";
        "}\n\n"])
      (["void \m_set_default_node_attrs(struct se_node_acl *);\n"]);
   Handler "get_task_tag)("
      (["u32 \m_get_task_tag(struct se_cmd *se_cmd)\n";
        "{\n";
        "\treturn 0;\n";
        "}\n\n"])
      (["u32 \m_get_task_tag(struct se_cmd *);\n"]);
   Handler "get_cmd_state)("
      (["int \m_get_cmd_state(struct se_cmd *se_cmd)\n";
        "{\n";
        "\treturn 0;\n";
        "}\n\n"])
      (["int \m_get_cmd_state(struct se_cmd *);\n"]);
   Handler "queue_data_in)("
      (["int \m_queue_data_in(struct se_cmd *se_cmd)\n";
        "{\n";
        "\treturn 0;\n";
        "}\n\n"])
      (["int \m_queue_data_in(struct se_cmd *);\n"]);
   Handler "queue_status)("
      (["int \m_queue_status(struct se_cmd *se_cmd)\n";
        "{\n";
        "\treturn 0;\n";
        "}\n\n"])
      (["int \m_queue_status(struct se_cmd *);\n"]);
   Handler "queue_tm_rsp)("
      (["int \m_queue_tm_rsp(struct se_cmd *se_cmd)\n";
        "{\n";
        "\treturn 0;\n";
        "}\n\n"])
      (["int \m_queue_tm_rsp(struct se_cmd *);\n"]);
   Handler "is_state_remove)("
      (["int \m_is_state_remove(struct se_cmd *se_cmd)\n";
        "{\n";
        "\treturn 0;\n";
        "}\n\n"])
      (["int \m_is_state_remove(struct se_cmd *);\n"])].

Definition kbuild_text : list string :=
  ["\m-objs\t\t\t:= \m_fabric.o \\\n";
   "\t\t\t\t\t   \m_configfs.o\n";
   "obj-$(CONFIG_\M)\t\t+= \m.o\n"].

Definition kconfig_text : list string :=
  ["config \M\n";
   "\ttristate \q\M fabric module\q\n";
   "\tdepends on TARGET_CORE && CONFIGFS_FS\n";
   "\tdefault n\n";
   "\t---help---\n";
   "\tSay Y here to enable the \M fabric module\n"].

Definition configfs_text (proto_ident : string) : list string :=
  configfs_includes ++ configfs_nodeacl proto_ident ++ configfs_tpg ++ configfs_wwn proto_ident ++
  configfs_version ++ configfs_ops ++ configfs_register ++ configfs_init.

(** The tests on a declaration in their order; behind the first one the rest is left out. *)
Definition handlers (proto_ident : string) : list handler :=
  identity_ops proto_ident ++ transport_id_ops proto_ident ++ parse_transport_id_ops proto_ident ++
  acl_ops proto_ident ++ session_ops proto_ident ++ command_ops proto_ident.

(** The patterns have no special characters that are not escaped. *)
Definition re_search (pat : string) (t : text) : bool := contains (B pat) t.

Definition chosen (proto_ident : string) (fo : text) : list handler :=
  if re_search (pattern (get_fabric_name proto_ident)) fo then [get_fabric_name proto_ident]
  else filter (fun x => re_search (pattern x) fo = true) (handlers proto_ident).

(** The definitions and the prototypes for all operations. *)
Definition fabric_text (proto_ident : string) (fabric_ops : list text) : list string * list string :=
  let hs := concat (chosen proto_ident <$> fabric_ops) in
  (fabric_c_head ++ concat (buf <$> hs), fabric_h_head ++ concat (bufi <$> hs)).

(** ** The script *)

Inductive flag : Type := Rd | Wr | Ap.

Inductive call : Type :=
| Puts (t : text)                       (* print *)
| Getcwd
| IsDir (path : text)
| Mkdir (path : text)
| Open (path : text) (m : flag)
| Read (path : text)                    (* the whole file, which readline gives by lines *)
| Write (path : text) (m : flag) (t : text)
| Close (path : text)
| RawInput (prompt : text).

(** The global variables. *)
Record globals : Type := Globals { fabric_ops : list text; mod_port : text; mod_init_port : text }.

Definition init_globals : globals := Globals [] [] [].

Abbreviation prog := (io call globals).

Open Scope io_scope.

(** A call that raises an exception when it fails; nothing catches it. *)
Definition raising (c : call) : prog ans :=
  let* a := sys c in
  if ret a <? 0 then exit_ 1 else io_ret a.

Definition tcm_mod_create_module_subdir (fabric_mod_dir_var : text) : prog Z :=
  let* a := sys (IsDir fabric_mod_dir_var) in
  if truthy (ret a) then io_ret 1
  else
    sys (Puts (B "Creating fabric_mod_dir: " ++ fabric_mod_dir_var)) ;;
    raising (Mkdir fabric_mod_dir_var) ;;
    io_ret 0.

Definition open_new (f : text) : prog unit :=
  sys (Puts (B "Writing file: " ++ f)) ;;
  raising (Open f Wr) ;; io_ret tt.

Definition write_close (f t : text) : prog unit :=
  raising (Write f Wr t) ;; raising (Close f) ;; io_ret tt.

Definition names_of (modname : text) : prog vars :=
  let* g := get in
  io_ret (Vars modname (upper modname) (drop 4 modname) (mod_port g) (mod_init_port g)).

Definition set_ports (port init_port : text) : prog unit :=
  modify (fun g => Globals (fabric_ops g) port init_port).

Definition build_include (base : list string) (port init_port fabric_mod_dir_var modname : text) : prog unit :=
  let f := fabric_mod_dir_var ++ B "/" ++ modname ++ B "_base.h" in
  open_new f ;;
  let* e := names_of modname in
  write_close f (text_of e base) ;;
  set_ports port init_port.

Definition tcm_mod_build_FC_include : text -> text -> prog unit := build_include FC_base (B "lport") (B "nport").
Definition tcm_mod_build_SAS_include : text -> text -> prog unit := build_include SAS_base (B "tport") (B "iport").
Definition tcm_mod_build_iSCSI_include : text -> text -> prog unit := build_include iSCSI_base (B "tport") (B "iport").

Definition tcm_mod_build_base_includes (proto_ident : string) (fabric_mod_dir_val modname : text) : prog unit :=
  if String.eqb proto_ident "FC" then tcm_mod_build_FC_include fabric_mod_dir_val modname
  else if String.eqb proto_ident "SAS" then tcm_mod_build_SAS_include fabric_mod_dir_val modname
  else if String.eqb proto_ident "iSCSI" then tcm_mod_build_iSCSI_include fabric_mod_dir_val modname
  else
    sys (Puts (B "Unsupported proto_ident: " ++ B proto_ident)) ;;
    exit_ 1.

Definition tcm_mod_build_configfs (proto_ident : string) (fabric_mod_dir_var modname : text) : prog unit :=
  let f := fabric_mod_dir_var ++ B "/" ++ modname ++ B "_configfs.c" in
  open_new f ;;
  let* e := names_of modname in
  write_close f (text_of e (configfs_text proto_ident)).

(** The lines of a file, each with its line feed. *)
Fixpoint lines_from (cur t : text) : list text :=
  match t with
  | [] => match cur with [] => [] | _ => [cur] end
  | c :: r => if c =? 10 then (cur ++ [c]) :: lines_from [] r else lines_from (cur ++ [c]) r
  end.

Definition lines (t : text) : list text := lines_from [] t.

Fixpoint drop_spaces (t : text) : text := match t with c :: r => if space c then drop_spaces r else t | [] => [] end.
Definition rstrip (t : text) : text := reverse (drop_spaces (reverse t)).

Definition struct_line (line : text) : bool := re_search "struct target_core_fabric_ops {" line.
(** An open parenthesis and a star. *)
Definition pointer_line (line : text) : bool := contains [40; 42] line.

(** The loop over the lines: [line] was read, [rest] is to be read. *)
Fixpoint scan (process_fo : bool) (line : text) (rest : list text) (ops : list text) : list text :=
  match rest with
  | [] => ops
  | next :: rest =>
      if negb process_fo && struct_line line then scan process_fo next rest ops
      else scan true next rest (if pointer_line next then ops ++ [rstrip next] else ops)
  end.

Definition tcm_mod_scan_fabric_ops (tcm_dir : text) : prog unit :=
  let fabric_ops_api := tcm_dir ++ B "include/target/target_core_fabric.h" in
  sys (Puts (B "Using tcm_mod_scan_fabric_ops: " ++ fabric_ops_api)) ;;
  raising (Open fabric_ops_api Rd) ;;
  let* a := raising (Read fabric_ops_api) in
  modify (fun g =>
    match lines (data a) with
    | [] => g
    | line :: rest => Globals (scan false line rest (fabric_ops g)) (mod_port g) (mod_init_port g)
    end) ;;
  raising (Close fabric_ops_api) ;;
  io_ret tt.

Definition tcm_mod_dump_fabric_ops (proto_ident : string) (fabric_mod_dir_var modname : text) : prog unit :=
  let f := fabric_mod_dir_var ++ B "/" ++ modname ++ B "_fabric.c" in
  open_new f ;;
  let fi := fabric_mod_dir_var ++ B "/" ++ modname ++ B "_fabric.h" in
  open_new fi ;;
  let* e := names_of modname in
  let* g := get in
  let (c, h) := fabric_text proto_ident (fabric_ops g) in
  write_close f (text_of e c) ;;
  write_close fi (text_of e h).

Definition tcm_mod_build_kbuild (fabric_mod_dir_var modname : text) : prog unit :=
  let f := fabric_mod_dir_var ++ B "/Makefile" in
  open_new f ;;
  let* e := names_of modname in
  write_close f (text_of e kbuild_text).

Definition tcm_mod_build_kconfig (fabric_mod_dir_var modname : text) : prog unit :=
  let f := fabric_mod_dir_var ++ B "/Kconfig" in
  open_new f ;;
  let* e := names_of modname in
  write_close f (text_of e kconfig_text).

Definition append (f t : text) : prog unit :=
  raising (Open f Ap) ;; raising (Write f Ap t) ;; raising (Close f) ;; io_ret tt.

Definition tcm_mod_add_kbuild (tcm_dir modname : text) : prog unit :=
  let buf := B "obj-$(CONFIG_" ++ upper modname ++ B ")" ++ [9] ++ B "+= " ++ lower modname ++ B "/" ++ [10] in
  append (tcm_dir ++ B "/drivers/target/Makefile") buf.

Definition tcm_mod_add_kconfig (tcm_dir modname : text) : prog unit :=
  let buf := B "source " ++ [34] ++ B "drivers/target/" ++ lower modname ++ B "/Kconfig" ++ [34; 10] in
  append (tcm_dir ++ B "/drivers/target/Kconfig") buf.

Definition yes (t : text) : bool := bool_decide (t = B "yes") || bool_decide (t = B "y").

Definition main (modname : text) (proto_ident : string) : prog unit :=
  let* cwd := raising Getcwd in
  let tcm_dir := data cwd ++ B "/../../" in
  sys (Puts (B "tcm_dir: " ++ tcm_dir)) ;;
  let fabric_mod_dir := tcm_dir ++ B "drivers/target/" ++ modname in
  sys (Puts (B "Set fabric_mod_name: " ++ modname)) ;;
  sys (Puts (B "Set fabric_mod_dir: " ++ fabric_mod_dir)) ;;
  sys (Puts (B "Using proto_ident: " ++ B proto_ident)) ;;
  if negb (String.eqb proto_ident "FC") && negb (String.eqb proto_ident "SAS") && negb (String.eqb proto_ident "iSCSI") then
    sys (Puts (B "Unsupported proto_ident: " ++ B proto_ident)) ;;
    exit_ 1
  else
    let* r := tcm_mod_create_module_subdir fabric_mod_dir in
    if truthy r then
      sys (Puts (B "tcm_mod_create_module_subdir() failed because module already exists!")) ;;
      exit_ 1
    else
      tcm_mod_build_base_includes proto_ident fabric_mod_dir modname ;;
      tcm_mod_scan_fabric_ops tcm_dir ;;
      tcm_mod_dump_fabric_ops proto_ident fabric_mod_dir modname ;;
      tcm_mod_build_configfs proto_ident fabric_mod_dir modname ;;
      tcm_mod_build_kbuild fabric_mod_dir modname ;;
      tcm_mod_build_kconfig fabric_mod_dir modname ;;
      let* input := raising (RawInput (B "Would you like to add " ++ modname ++ B "to drivers/target/Makefile..? [yes,no]: ")) in
      (if yes (data input) then tcm_mod_add_kbuild tcm_dir modname else io_ret tt) ;;
      let* input := raising (RawInput (B "Would you like to add " ++ modname ++ B "to drivers/target/Kconfig..? [yes,no]: ")) in
      if yes (data input) then tcm_mod_add_kconfig tcm_dir modname else io_ret tt.

(** The options as they were given. *)
Definition tcm_mod_builder (modname : option text) (protoident : option string) : prog unit :=
  match modname, protoident with
  | Some (c :: m), Some (String d p) => main (c :: m) (String d p)
  | _, _ => sys (Puts (B "mandatory option is missing" ++ [10])) ;; exit_ 255
  end.

Close Scope io_scope.

(** ** The text with holes for the names *)

Definition hole_vars (ports : text * text) : vars := Vars [NAME] [UPPER] [TAIL] ports.1 ports.2.
Definition vars_of (modname : text) (ports : text * text) : vars := Vars modname (upper modname) (drop 4 modname) ports.1 ports.2.
Definition holes (modname : text) : names := Names modname (upper modname) (drop 4 modname).

(** A module has a name as the documentation has it: a C name that begins with tcm_. *)
Definition tcm_name (modname : text) : Prop := exists r, modname = B "tcm_" ++ r /\ wordy r.

Lemma wordy_upper w : wordy w -> wordy (upper w).
Proof.
  unfold upper. induction 1 as [|c w [Hc Hb] _ IH]; [constructor|]. constructor; [|done].
  unfold upper_char, word_char, letter, digit, NAME, UPPER in *. case_match; lia.
Qed.

Lemma holes_ok modname : tcm_name modname -> names_ok (holes modname).
Proof.
  intros (r & -> & Hr). assert (wordy (B "tcm_")) as Hp by (repeat constructor).
  split; cbn [holes name upper_name tail_name].
  - split_and!; [apply elem_of_app; left; apply (bool_decide_unpack _); vm_compute; exact I|by apply Forall_app|].
    by eexists _, _.
  - split_and!; [|by apply wordy_upper, Forall_app|by eexists _, _].
    unfold upper. rewrite map_app. apply elem_of_app. left. apply (bool_decide_unpack _). vm_compute. exact I.
  - done.
Qed.

Lemma expand_subst modname p q s : Forall (fun c => c < 256) p -> Forall (fun c => c < 256) q -> forall escaped,
  expand (vars_of modname (p, q)) escaped s = subst (holes modname) (expand (hole_vars (p, q)) escaped s).
Proof.
  intros Hp Hq. induction s as [|c s IH]; intros escaped; [done|]. cbn [expand].
  assert (forall a, subst (holes modname) [byte_of_ascii a] = [byte_of_ascii a]) as Hb.
  { intros a. apply subst_bytes. constructor; [|done]. pose proof (byte_of_ascii_ok a). unfold byte_ok in *. lia. }
  destruct escaped; [|destruct (Ascii.eqb c "\"); [by rewrite IH|]].
  - rewrite subst_app, IH. f_equal. unfold escape. repeat case_match; subst;
      cbn [vars_of hole_vars fabric_mod_name fabric_mod_name_upper fabric_mod_name_4 fabric_mod_port fabric_mod_init_port fst snd];
      rewrite ?Hb, ?(subst_bytes _ p Hp), ?(subst_bytes _ q Hq), ?subst_single; try done.
  - change (byte_of_ascii c :: ?l) with ([byte_of_ascii c] ++ l). by rewrite subst_app, Hb, IH.
Qed.

(** The names of the ports, and of the structures, by protocol. *)
Definition ports (proto_ident : string) : text * text :=
  if String.eqb proto_ident "FC" then (B "lport", B "nport") else (B "tport", B "iport").

Definition base_text (proto_ident : string) : list string :=
  if String.eqb proto_ident "FC" then FC_base else if String.eqb proto_ident "SAS" then SAS_base else iSCSI_base.

Definition protocols : list string := ["FC"; "SAS"; "iSCSI"]%string.

(** A text with holes, and the text of a module. *)
Definition T (proto_ident : string) (ts : list string) : text := text_of (hole_vars (ports proto_ident)) ts.
Definition R (modname : text) (proto_ident : string) (ts : list string) : text := text_of (vars_of modname (ports proto_ident)) ts.

Lemma R_subst modname proto_ident ts : R modname proto_ident ts = subst (holes modname) (T proto_ident ts).
Proof.
  assert (exists p q, ports proto_ident = (p, q) /\ Forall (fun c => c < 256) p /\ Forall (fun c => c < 256) q) as (p & q & E & Hp & Hq).
  { unfold ports. destruct (String.eqb proto_ident "FC"); eexists _, _; split_and!; try done; repeat constructor. }
  unfold R, T, text_of. rewrite E. induction ts as [|t ts IH]; [done|]. cbn [fmap list_fmap concat].
  by rewrite subst_app, IH, expand_subst.
Qed.

(** ** What is checked of the text with holes *)

Definition declarations (proto_ident : string) (ts : list string) : list item := default [] (parse (T proto_ident ts)).
Definition closed (proto_ident : string) (ts : list string) : bool := bool_decide (is_Some (parse (T proto_ident ts))).

Definition all_handlers (proto_ident : string) : list handler := get_fabric_name proto_ident :: handlers proto_ident.

(** The function a handler defines. *)
Definition hname (proto_ident : string) (x : handler) : text :=
  match defined (declarations proto_ident (buf x)) with [f] => fname f | _ => [] end.

Abbreviation distinct := (distinct_word (B "tcm_")).

#[export] Instance signature_eq : EqDecision signature.
Proof. solve_decision. Defined.

(** Prototypes and definitions agree, and there is nothing else. *)
Definition prototypes_ok (c h : list item) : bool :=
  bool_decide (declared h = defined c) && bool_decide (defined h = []) && bool_decide (declared c = []).

Definition structures (proto_ident : string) : list (text * list text) := structs (declarations proto_ident (base_text proto_ident)).

(** The structures of the module that a declaration mentions are there, with the members it uses. *)
Definition item_ok (proto_ident : string) (i : item) : bool :=
  let ss := structures proto_ident in
  forallb (fun p => distinct p.1) (pointers (code i) ++ accesses (code i)) &&
  forallb (fun s => distinct s && (negb (bool_decide (take 1 s = [NAME])) || bool_decide (s ∈ ss.*1))) (mentioned (code i)) &&
  forallb (fun u => distinct u.1 && forallb (fun sm => negb (bool_decide (sm.1 = u.1)) || bool_decide (u.2 ∈ sm.2)) ss) (uses i).

Definition files_ok (proto_ident : string) (c h : list string) : bool :=
  closed proto_ident c && closed proto_ident h &&
  prototypes_ok (declarations proto_ident c) (declarations proto_ident h) &&
  forallb (item_ok proto_ident) (declarations proto_ident c).

Definition handler_ok (proto_ident : string) (x : handler) : bool :=
  files_ok proto_ident (buf x) (bufi x) && bool_decide (length (defined (declarations proto_ident (buf x))) = 1%nat).

Definition slot_text (slot : text) : text := [40; 42] ++ slot ++ B ")(".

(** The entry of the table is defined beside it, or has a handler whose pattern is in the declaration of the entry:
    [here] are the functions defined beside it, [always] those of the other file without a handler. *)
Definition slot_ok (here always : list text) (first : text) (hs : list (text * text)) (e : text * text) : bool :=
  let '(slot, f) := e in
  forallb (fun c => c <? 256) slot &&
  (bool_decide (f = B "NULL") || bool_decide (f ∈ here) || bool_decide (f ∈ always) ||
   if bool_decide (slot = B "get_fabric_name") then bool_decide (f = first)
   else existsb (fun x => if contains x.1 (slot_text slot) then bool_decide (f = x.2) else false) hs).

Definition slots_ok (proto_ident : string) : bool :=
  forallb (slot_ok (fname <$> defined (declarations proto_ident (configfs_text proto_ident)))
    (fname <$> defined (declarations proto_ident fabric_c_head)) (hname proto_ident (get_fabric_name proto_ident))
    ((fun x => (B (pattern x), hname proto_ident x)) <$> handlers proto_ident))
    (table (declarations proto_ident (configfs_text proto_ident))).

Definition function_names (proto_ident : string) : list text :=
  (fname <$> defined (declarations proto_ident fabric_c_head)) ++ (hname proto_ident <$> all_handlers proto_ident) ++
  (fname <$> defined (declarations proto_ident (configfs_text proto_ident))).

Definition text_ok (proto_ident : string) : bool :=
  closed proto_ident (base_text proto_ident) && closed proto_ident (configfs_text proto_ident) &&
  forallb (fun sm => distinct sm.1) (structures proto_ident) &&
  files_ok proto_ident fabric_c_head fabric_h_head &&
  forallb (handler_ok proto_ident) (all_handlers proto_ident) &&
  forallb (item_ok proto_ident) (declarations proto_ident (configfs_text proto_ident)) &&
  slots_ok proto_ident &&
  bool_decide (NoDup (function_names proto_ident)) && forallb distinct (function_names proto_ident).

Lemma text_checked proto_ident : proto_ident ∈ protocols -> text_ok proto_ident = true.
Proof.
  assert (forallb text_ok protocols = true) as Hall by (vm_compute; reflexivity).
  rewrite forallb_forall in Hall. intros H. by apply Hall, list_elem_of_In.
Qed.

(** ** What the files of a module have to do with each other *)

(** An operation is declared, on a line that the test for the name of the fabric does not take. *)
Definition offered (ops : list text) (slot : text) : Prop :=
  exists fo, fo ∈ ops /\ contains (slot_text slot) fo = true /\ (re_search "get_fabric_name" fo = true -> slot = B "get_fabric_name").

#[export] Instance handler_eq : EqDecision handler.
Proof. solve_decision. Defined.

(** No branch of the script is taken for two declarations. *)
Definition once (proto_ident : string) (ops : list text) : Prop :=
  forall x, x ∈ all_handlers proto_ident -> (length (filter (fun fo => x ∈ chosen proto_ident fo) ops) <= 1)%nat.

Record consistent (modname : text) (proto_ident : string) (ops : list text) (db dc dh df : list item) : Prop := {
  prototypes_match : declared dh = defined dc /\ defined dh = [] /\ declared dc = [];
  defined_once : once proto_ident ops <-> NoDup (fname <$> defined dc ++ defined df);
  table_defined : forall slot f, (slot, f) ∈ table df ->
    f = B "NULL" \/ f ∈ fname <$> defined df \/ (offered ops slot -> f ∈ fname <$> defined dc);
  structures_declared : forall i s, i ∈ dc ++ df -> s ∈ mentioned (code i) ->
    take (length modname) s = modname -> s ∈ (structs db).*1;
  members_declared : forall i s m ms, i ∈ dc ++ df -> (s, m) ∈ uses i -> (s, ms) ∈ structs db -> m ∈ ms
}.

Lemma T_app proto_ident a b : T proto_ident (a ++ b) = T proto_ident a ++ T proto_ident b.
Proof. unfold T, text_of. by rewrite fmap_app, concat_app. Qed.

Lemma closed_parse proto_ident ts : closed proto_ident ts = true -> parse (T proto_ident ts) = Some (declarations proto_ident ts).
Proof. unfold closed, declarations. intros [ds ->]%bool_decide_eq_true. done. Qed.

Lemma declarations_app proto_ident a b : closed proto_ident a = true -> closed proto_ident b = true ->
  closed proto_ident (a ++ b) = true /\ declarations proto_ident (a ++ b) = declarations proto_ident a ++ declarations proto_ident b.
Proof.
  intros Ha%closed_parse Hb%closed_parse. pose proof (parse_app _ _ _ _ Ha Hb) as E. rewrite <- T_app in E.
  unfold closed. unfold declarations at 1. rewrite E. split; [|done]. by apply bool_decide_eq_true.
Qed.

Lemma functions_app a b : functions (a ++ b) = functions a ++ functions b.
Proof. apply omap_app. Qed.

Lemma defined_app a b : defined (a ++ b) = defined a ++ defined b.
Proof. unfold defined. by rewrite filter_app, functions_app. Qed.

Lemma declared_app a b : declared (a ++ b) = declared a ++ declared b.
Proof. unfold declared. by rewrite filter_app, functions_app. Qed.

Lemma files_app proto_ident c h c' h' : files_ok proto_ident c h = true -> files_ok proto_ident c' h' = true ->
  files_ok proto_ident (c ++ c') (h ++ h') = true.
Proof.
  unfold files_ok, prototypes_ok. rewrite !andb_true_iff, !bool_decide_eq_true.
  intros [[[Hc Hh] [[H1 H2] H3]] H4] [[[Hc' Hh'] [[H1' H2'] H3']] H4'].
  destruct (declarations_app proto_ident c c') as [-> ->]; [done..|]. destruct (declarations_app proto_ident h h') as [-> ->]; [done..|].
  rewrite !declared_app, !defined_app, forallb_app, H1, H2, H3, H4, H1', H2', H3', H4'. done.
Qed.

Section Module.
Context (proto_ident : string) (Hproto : proto_ident ∈ protocols).

Lemma text_facts :
  (closed proto_ident (base_text proto_ident) = true /\ closed proto_ident (configfs_text proto_ident) = true) /\
  forallb (fun sm => distinct sm.1) (structures proto_ident) = true /\
  files_ok proto_ident fabric_c_head fabric_h_head = true /\
  (forall x, x ∈ all_handlers proto_ident -> handler_ok proto_ident x = true) /\
  forallb (item_ok proto_ident) (declarations proto_ident (configfs_text proto_ident)) = true /\
  slots_ok proto_ident = true /\
  NoDup (function_names proto_ident) /\ (forall f, f ∈ function_names proto_ident -> distinct f = true).
Proof.
  pose proof (text_checked proto_ident Hproto) as H. unfold text_ok in H.
  apply andb_prop in H as [H H9]. apply andb_prop in H as [H H8]. apply andb_prop in H as [H H7]. apply andb_prop in H as [H H6].
  apply andb_prop in H as [H H5]. apply andb_prop in H as [H H4]. apply andb_prop in H as [H H3]. apply andb_prop in H as [H1 H2].
  rewrite forallb_forall in H5, H9. apply bool_decide_eq_true in H8.
  split_and!; try assumption; intros x Hx; [apply H5|apply H9]; apply list_elem_of_In; assumption.
Qed.

Lemma chosen_handlers fo x : x ∈ chosen proto_ident fo -> x ∈ all_handlers proto_ident /\ re_search (pattern x) fo = true.
Proof.
  unfold chosen, all_handlers. case_match; [intros ->%list_elem_of_singleton; split; [left|done]|].
  intros [? ?]%list_elem_of_filter. split; [by right|done].
Qed.

Lemma chosen_in ops x : x ∈ concat (chosen proto_ident <$> ops) <-> exists fo, fo ∈ ops /\ x ∈ chosen proto_ident fo.
Proof.
  rewrite list_elem_of_In, in_concat. split.
  - intros (l & Hl & Hx). apply list_elem_of_In, list_elem_of_fmap in Hl as (fo & -> & Hfo). exists fo. split; [done|by apply list_elem_of_In].
  - intros (fo & Hfo & Hx). exists (chosen proto_ident fo). split; apply list_elem_of_In; [by apply list_elem_of_fmap_2|done].
Qed.

Lemma chosen_all ops x : x ∈ concat (chosen proto_ident <$> ops) -> x ∈ all_handlers proto_ident.
Proof. intros (fo & _ & Hx)%chosen_in. by eapply chosen_handlers. Qed.

Lemma fabric_files ops c h : fabric_text proto_ident ops = (c, h) ->
  files_ok proto_ident c h = true /\
  fname <$> defined (declarations proto_ident c) =
    (fname <$> defined (declarations proto_ident fabric_c_head)) ++ (hname proto_ident <$> concat (chosen proto_ident <$> ops)).
Proof.
  unfold fabric_text. intros [<- <-]%pair_equal_spec. destruct text_facts as (_ & _ & Hf & Hx & _).
  pose proof (chosen_all ops) as Hin.
  induction (concat (chosen proto_ident <$> ops)) as [|x hs IH] using rev_ind; [rewrite !app_nil_r; split; [exact Hf|reflexivity]|].
  destruct IH as [Hok Hn]; [intros y Hy; apply Hin, elem_of_app; by left|].
  specialize (Hx x (Hin x ltac:(apply elem_of_app; right; by left))). unfold handler_ok in Hx.
  apply andb_true_iff in Hx as [Hx Hl]. apply bool_decide_eq_true in Hl.
  rewrite !fmap_app, !concat_app, !app_assoc. cbn [fmap list_fmap concat]. rewrite !app_nil_r. split; [by apply files_app|].
  unfold files_ok in Hok, Hx. rewrite !andb_true_iff in Hok, Hx.
  destruct (declarations_app proto_ident (fabric_c_head ++ concat (buf <$> hs)) (buf x)) as [_ ->]; [tauto..|].
  assert (fname <$> defined (declarations proto_ident (buf x)) = [hname proto_ident x]) as Ex
    by (unfold hname; destruct (defined (declarations proto_ident (buf x))) as [|f [|]]; done).
  by rewrite defined_app, fmap_app, Hn, Ex.
Qed.

(** A text with its holes filled. *)
Lemma R_parse modname ts : tcm_name modname -> closed proto_ident ts = true ->
  parse (R modname proto_ident ts) = Some (map (isubst (holes modname)) (declarations proto_ident ts)).
Proof. intros Hm Hc. rewrite R_subst. apply parse_subst; [by apply holes_ok|by apply closed_parse]. Qed.

Lemma tcm_prefix modname : tcm_name modname -> exists r, name (holes modname) = B "tcm_" ++ r.
Proof. intros (r & -> & _). by exists r. Qed.

Lemma names_subst modname l : fname <$> map (ssubst (holes modname)) l = map (subst (holes modname)) (fname <$> l).
Proof. induction l as [|f l IH]; [done|]. cbn. by f_equal. Qed.

Lemma handlers_distinct : NoDup (hname proto_ident <$> all_handlers proto_ident).
Proof.
  destruct text_facts as (_ & _ & _ & _ & _ & _ & Hnd & _). unfold function_names in Hnd.
  apply NoDup_app in Hnd as (_ & _ & Hnd). by apply NoDup_app in Hnd as (Hnd & _ & _).
Qed.

Lemma hname_inj x y : x ∈ all_handlers proto_ident -> y ∈ all_handlers proto_ident -> hname proto_ident x = hname proto_ident y -> x = y.
Proof.
  intros [i Hi]%list_elem_of_lookup [j Hj]%list_elem_of_lookup E. pose proof handlers_distinct as Hnd.
  assert (i = j) as <-; [|congruence]. eapply NoDup_lookup; [exact Hnd| |].
  - by rewrite list_lookup_fmap, Hi.
  - rewrite list_lookup_fmap, Hj. cbn. by rewrite E.
Qed.

Lemma chosen_distinct fo : NoDup (hname proto_ident <$> chosen proto_ident fo).
Proof.
  unfold chosen. case_match; [apply NoDup_singleton|]. pose proof handlers_distinct as Hnd. unfold all_handlers in Hnd.
  rewrite fmap_cons in Hnd. apply NoDup_cons in Hnd as [_ Hnd]. eapply sublist_NoDup; [exact Hnd|]. apply fmap_sublist, sublist_filter.
Qed.

(** No handler is taken twice. *)
Lemma once_cons fo ops : once proto_ident (fo :: ops) <->
  once proto_ident ops /\ forall x, x ∈ chosen proto_ident fo -> x ∉ concat (chosen proto_ident <$> ops).
Proof.
  assert (forall x, x ∈ concat (chosen proto_ident <$> ops) <-> filter (fun fo => x ∈ chosen proto_ident fo) ops <> []) as Hin.
  { intros x. rewrite chosen_in. split.
    - intros (fo' & Hfo & Hx) E. assert (fo' ∈ filter (fun fo => x ∈ chosen proto_ident fo) ops) as Hf by by apply list_elem_of_filter.
      rewrite E in Hf. by apply elem_of_nil in Hf.
    - intros Hne. destruct (filter _ ops) as [|fo' l] eqn:E; [done|]. exists fo'.
      assert (fo' ∈ filter (fun fo => x ∈ chosen proto_ident fo) ops) as Hf by (rewrite E; left).
      apply list_elem_of_filter in Hf. tauto. }
  unfold once. split.
  - intros Ho. split.
    + intros x Hx. specialize (Ho x Hx). rewrite filter_cons in Ho. case_decide; cbn [length] in Ho; lia.
    + intros x Hx. rewrite Hin. specialize (Ho x (proj1 (chosen_handlers fo x Hx))). rewrite filter_cons_True in Ho by done.
      cbn [length] in Ho. destruct (filter _ ops); [tauto|]. cbn [length] in Ho. lia.
  - intros [Ho Hd] x Hx. rewrite filter_cons. case_decide as Hc; [|by apply Ho]. specialize (Hd x Hc). rewrite Hin in Hd.
    destruct (filter _ ops); cbn [length]; [lia|]. by destruct Hd.
Qed.

Lemma chosen_once ops : once proto_ident ops <-> NoDup (hname proto_ident <$> concat (chosen proto_ident <$> ops)).
Proof.
  induction ops as [|fo ops IH]; [split; [constructor|]; intros _ x _; cbn; lia|].
  rewrite once_cons, IH. cbn [fmap list_fmap concat]. rewrite fmap_app, NoDup_app. split.
  - intros [Hn Hd]. split_and!; [apply chosen_distinct| |done].
    intros f (x & -> & Hx)%list_elem_of_fmap (y & E & Hy)%list_elem_of_fmap. apply hname_inj in E as <-.
    + by apply (Hd x).
    + by eapply chosen_handlers.
    + by eapply chosen_all.
  - intros (_ & Hd & Hn). split; [done|]. intros x Hx Hx'. by apply (Hd (hname proto_ident x)); apply list_elem_of_fmap_2.
Qed.

Section Named.
Context (modname : text) (Hname : tcm_name modname).
Let v := holes modname.

Lemma names_inj l : Forall (fun x => distinct x = true) l -> NoDup l -> NoDup (map (subst v) l).
Proof.
  intros Hd. induction 1 as [|x l Hx _ IH]; [constructor|]. inversion Hd as [|? ? Hdx Hdl]; subst. cbn [map]. constructor; [|auto].
  intros (y & E & Hy)%list_elem_of_fmap. rewrite Forall_forall in Hdl.
  apply (subst_inj v (B "tcm_") (tcm_prefix modname Hname)) in E as <-; auto.
Qed.

(** A declaration that is fine with holes is fine with the name filled in. *)
Lemma item_structures i s : item_ok proto_ident i = true -> s ∈ mentioned (code (isubst v i)) ->
  take (length modname) s = modname -> s ∈ map (subst v) (structures proto_ident).*1.
Proof.
  unfold item_ok. rewrite !andb_true_iff. intros [[_ Hm] _] Hs Hp. rewrite code_subst, mentioned_subst in Hs.
  apply list_elem_of_fmap in Hs as (x & -> & Hx). rewrite forallb_forall in Hm. apply list_elem_of_In in Hx. specialize (Hm x Hx).
  apply andb_true_iff in Hm as [Hd Hm]. apply list_elem_of_fmap. exists x. split; [done|].
  destruct (distinct_word_cases v (B "tcm_") x Hd) as [(r & _ & ->)|[Es Hn]].
  - apply orb_true_iff in Hm as [Hm|Hm]; [done|]. by apply bool_decide_eq_true in Hm.
  - destruct Hn. rewrite Es in Hp. destruct Hname as (r & Er & _). rewrite Er, length_app in Hp.
    apply (f_equal (take 4)) in Hp. rewrite take_take in Hp. exact Hp.
Qed.

Lemma item_members i s m ms : item_ok proto_ident i = true -> (s, m) ∈ uses (isubst v i) ->
  (s, ms) ∈ map (prod_map (subst v) (map (subst v))) (structures proto_ident) -> m ∈ ms.
Proof.
  unfold item_ok. rewrite !andb_true_iff. intros [[Hd _] Hu] Hs Hms.
  rewrite (uses_subst v (B "tcm_") (tcm_prefix modname Hname) i Hd) in Hs.
  apply list_elem_of_fmap in Hs as ([x y] & [= -> ->] & Hx). apply list_elem_of_fmap in Hms as ([x' l] & [= E ->] & Hl).
  destruct text_facts as (_ & Hss & _). rewrite forallb_forall in Hu, Hss.
  pose proof (Hss _ (proj1 (list_elem_of_In _ _) Hl)) as Hdx'. specialize (Hu _ (proj1 (list_elem_of_In _ _) Hx)). cbn [fst snd] in *.
  apply andb_true_iff in Hu as [Hdx Hu]. rewrite forallb_forall in Hu. specialize (Hu _ (proj1 (list_elem_of_In _ _) Hl)). cbn [fst snd] in Hu.
  apply (subst_inj v (B "tcm_") (tcm_prefix modname Hname)) in E as <-; [|done..].
  apply orb_true_iff in Hu as [Hu|Hu]; [by rewrite bool_decide_eq_true_2 in Hu|]. apply bool_decide_eq_true in Hu.
  apply list_elem_of_fmap. by exists y.
Qed.

Lemma fabric_names ops c h f : fabric_text proto_ident ops = (c, h) -> f ∈ fname <$> defined (declarations proto_ident c) ->
  f ∈ function_names proto_ident.
Proof.
  intros E Hf. destruct (fabric_files ops c h E) as [_ Hn]. rewrite Hn in Hf. unfold function_names. apply elem_of_app in Hf as [Hf|Hf].
  { apply elem_of_app. by left. }
  apply elem_of_app. right. apply elem_of_app. left. apply list_elem_of_fmap in Hf as (x & -> & Hx). apply list_elem_of_fmap.
  exists x. split; [done|]. by eapply chosen_all.
Qed.

(** Every function of the module once. *)
Lemma module_names_once ops c h : fabric_text proto_ident ops = (c, h) ->
  let names := (fname <$> defined (declarations proto_ident c)) ++ (fname <$> defined (declarations proto_ident (configfs_text proto_ident))) in
  once proto_ident ops <-> NoDup (map (subst v) names).
Proof.
  intros E names. destruct text_facts as (_ & _ & _ & _ & _ & _ & Hnd & Hd). split.
  2: { intros Hn%NoDup_fmap_1. unfold names in Hn. rewrite (proj2 (fabric_files ops c h E)) in Hn.
       apply NoDup_app in Hn as (Hn & _ & _). apply NoDup_app in Hn as (_ & _ & Hn). by apply chosen_once. }
  intros Ho. apply names_inj.
  - apply Forall_forall. intros f [Hf|Hf]%elem_of_app; apply Hd; [by eapply fabric_names|].
    unfold function_names. apply elem_of_app. right. apply elem_of_app. by right.
  - unfold names. destruct (fabric_files ops c h E) as [_ ->]. unfold function_names in Hnd.
    apply NoDup_app in Hnd as (H1 & H12 & Hnd). apply NoDup_app in Hnd as (H2 & H23 & H3).
    assert (forall f, f ∈ hname proto_ident <$> concat (chosen proto_ident <$> ops) -> f ∈ hname proto_ident <$> all_handlers proto_ident) as Hsub.
    { intros f (x & -> & Hx)%list_elem_of_fmap. apply list_elem_of_fmap. exists x. split; [done|]. by eapply chosen_all. }
    rewrite <- app_assoc. apply NoDup_app. split_and!; [done| |apply NoDup_app; split_and!; [by apply chosen_once| |done]].
    + intros f Hf [Hf'|Hf']%elem_of_app; apply (H12 f Hf), elem_of_app; [left; by apply Hsub|by right].
    + intros f Hf. by apply H23, Hsub.
Qed.

(** Every entry of the table has its function. *)
Lemma slot_defined ops c h slot f : fabric_text proto_ident ops = (c, h) ->
  (slot, f) ∈ table (declarations proto_ident (configfs_text proto_ident)) ->
  subst v slot = slot /\
  (f = B "NULL" \/ f ∈ fname <$> defined (declarations proto_ident (configfs_text proto_ident)) \/
   (offered ops slot -> f ∈ fname <$> defined (declarations proto_ident c))).
Proof.
  intros E Hin. destruct text_facts as (_ & _ & _ & _ & _ & Hs & _). unfold slots_ok in Hs. rewrite forallb_forall in Hs.
  apply list_elem_of_In in Hin. specialize (Hs _ Hin). unfold slot_ok in Hs. apply andb_prop in Hs as [Hb Hs].
  split. { apply subst_bytes, Forall_forall. intros x Hx. rewrite forallb_forall in Hb. apply Z.ltb_lt, Hb. by apply list_elem_of_In. }
  destruct (fabric_files ops c h E) as [_ ->]. rewrite !orb_true_iff, !bool_decide_eq_true in Hs.
  destruct Hs as [[[Hs|Hs]|Hs]|Hs]; [by left|by right; left| |]; right; right; intros (fo & Hfo & Hc & Hg); apply elem_of_app; [by left|right].
  assert (forall x, f = hname proto_ident x -> x ∈ chosen proto_ident fo -> f ∈ hname proto_ident <$> concat (chosen proto_ident <$> ops)) as Hput.
  { intros x -> Hx. apply list_elem_of_fmap_2, chosen_in. exists fo. split; assumption. }
  unfold chosen in Hput. case_bool_decide as Esl.
  - apply bool_decide_eq_true in Hs. apply (Hput _ Hs). subst slot.
    replace (re_search (pattern (get_fabric_name proto_ident)) fo) with true; [by left|]. symmetry.
    unfold re_search. eapply contains_trans; [|exact Hc]. vm_compute. reflexivity.
  - apply existsb_exists in Hs as ([pat f'] & Hx & Hm). apply list_elem_of_In, list_elem_of_fmap in Hx as (x & [= -> ->] & Hx). cbn [fst snd] in Hm.
    destruct (contains (B (pattern x)) (slot_text slot)) eqn:Ep; [|discriminate Hm]. apply bool_decide_eq_true in Hm. apply (Hput x Hm).
    destruct (re_search (pattern (get_fabric_name proto_ident)) fo) eqn:Eg; [by destruct (Esl (Hg Eg))|].
    apply list_elem_of_filter. split; [|done]. unfold re_search. by eapply contains_trans.
Qed.

(** The files of a module. *)
Lemma module_files ops c h : fabric_text proto_ident ops = (c, h) -> exists db dc dh df,
  parse (R modname proto_ident (base_text proto_ident)) = Some db /\
  parse (R modname proto_ident c) = Some dc /\ parse (R modname proto_ident h) = Some dh /\
  parse (R modname proto_ident (configfs_text proto_ident)) = Some df /\ consistent modname proto_ident ops db dc dh df.
Proof.
  intros E. destruct text_facts as ((Hb & Hcf) & _ & _ & _ & Hic & _ & _ & _). destruct (fabric_files ops c h E) as [Hf _].
  unfold files_ok in Hf. apply andb_prop in Hf as [Hf Hi]. apply andb_prop in Hf as [Hf Hp]. apply andb_prop in Hf as [Hc Hh].
  do 4 eexists. split_and!; [by apply R_parse..|]. fold v. unfold prototypes_ok in Hp.
  apply andb_prop in Hp as [Hp Hp3%bool_decide_eq_true]. apply andb_prop in Hp as [Hp1%bool_decide_eq_true Hp2%bool_decide_eq_true].
  assert (forall i, i ∈ map (isubst v) (declarations proto_ident c) ++ map (isubst v) (declarations proto_ident (configfs_text proto_ident)) ->
    exists j, i = isubst v j /\ item_ok proto_ident j = true) as Hitems.
  { rewrite <- map_app. intros i (j & -> & Hj)%list_elem_of_fmap. exists j. split; [done|]. rewrite forallb_forall in Hi, Hic.
    apply elem_of_app in Hj as [Hj|Hj]; [apply Hi|apply Hic]; by apply list_elem_of_In. }
  split.
  - by rewrite !defined_subst, !declared_subst, Hp1, Hp2, Hp3.
  - rewrite !defined_subst, fmap_app. unfold v. rewrite !names_subst, <- map_app. by apply (module_names_once ops c h).
  - intros slot f Hs. rewrite table_subst in Hs. apply list_elem_of_fmap in Hs as ([s0 f0] & [= -> ->] & Hs).
    destruct (slot_defined ops c h s0 f0 E Hs) as [Es Hd]. rewrite Es, !defined_subst. unfold v. rewrite !names_subst.
    destruct Hd as [->|[Hd|Hd]]; [left; apply subst_bytes; repeat constructor|right; left|right; right; intros Hof; specialize (Hd Hof)];
      by apply list_elem_of_fmap_2.
  - intros i s Hin Hs Hm. destruct (Hitems i Hin) as (j & -> & Hj). rewrite structs_subst.
    replace ((map (prod_map (subst v) (map (subst v))) (structs (declarations proto_ident (base_text proto_ident)))).*1)
      with (map (subst v) (structures proto_ident).*1); [by eapply item_structures|].
    unfold structures. induction (structs _) as [|x l IH]; [done|]. cbn. by f_equal.
  - intros i s m ms Hin Hu Hms. destruct (Hitems i Hin) as (j & -> & Hj). rewrite structs_subst in Hms. by eapply item_members.
Qed.

End Named.

End Module.

(** ** The run *)

(** What is written to files, and all that changes the file system. *)
Definition written (c : call) : option (text * flag * text) := match c with Write f m t => Some (f, m, t) | _ => None end.

Definition touched (c : call) : option call :=
  match c with Mkdir _ | Open _ Wr | Open _ Ap | Write _ _ _ => Some c | _ => None end.

(** The last call of the history raised an exception, and that ended the script. *)
Definition raises (c : call) : bool := match c with Puts _ | IsDir _ => false | _ => true end.

Definition raised (o : outcome unit) (h : list (event call)) : Prop :=
  o = Exit 1 /\ exists c a t, h = (c, a) :: t /\ raises c = true /\ ret a < 0.

(** [m] ends with an exception, or in the state [g'] and has written [l]. *)
Definition writes (m : prog unit) (g g' : globals) (l : list (text * flag * text)) : Prop :=
  forall K h, wp m K g h (fun o s' h' => raised o h' \/ o = Ret tt /\ s' = g' /\ trace written h' = trace written h ++ l /\ suffix h h').

Lemma wp_raising c K (g : globals) h (Q : outcome ans -> globals -> list (event call) -> Prop) :
  (forall a, Q (Ret a) g ((c, a) :: h)) -> (forall a, ret a < 0 -> Q (Exit 1) g ((c, a) :: h)) -> wp (raising c) K g h Q.
Proof. intros H1 H2. unfold raising. wp_go; [apply H2; lia|auto]. Qed.

Lemma raised_now c (a : ans) t : raises c = true -> ret a < 0 -> raised (Exit 1) ((c, a) :: t).
Proof. intros. split; [done|]. by exists c, a, t. Qed.

#[local] Hint Resolve raised_now : core.

Lemma writes_then (m k : prog unit) g g1 g2 l1 l2 :
  writes m g g1 l1 -> writes k g1 g2 l2 -> writes (io_bind m (fun _ => k)) g g2 (l1 ++ l2).
Proof.
  intros Hm Hk K h. apply wp_bind. eapply wp_wand; [apply Hm|]. intros o s' h' [[-> Hr]|(-> & -> & E & Hs)]; [left; by split|]. wp_step.
  eapply wp_wand; [apply Hk|]. intros o s' h2 [[-> Hr]|(-> & -> & E2 & Hs2)]; [left; by split|]. right. rewrite E2, E, app_assoc.
  split_and!; try done. by etrans.
Qed.

Ltac follow :=
  repeat lazymatch goal with
         | |- wp (raising _) _ _ _ _ => apply wp_raising; intros
         | |- _ => first [wp_step | by left; apply raised_now]
         end.

Lemma open_new_writes f g : writes (open_new f) g g [].
Proof. intros K h. unfold open_new. follow. right. rewrite !trace_cons, !app_nil_r. split_and!; try done. solve_suffix. Qed.

Lemma write_close_writes f t g : writes (write_close f t) g g [(f, Wr, t)].
Proof. intros K h. unfold write_close. follow. right. rewrite !trace_cons, !app_nil_r. split_and!; try done. solve_suffix. Qed.

Lemma append_writes f t g : writes (append f t) g g [(f, Ap, t)].
Proof. intros K h. unfold append. follow. right. rewrite !trace_cons, !app_nil_r. split_and!; try done. solve_suffix. Qed.

(** A file with the text of a template. *)
Lemma template_writes f ts modname g :
  writes (open_new f ;; let* e := names_of modname in write_close f (text_of e ts))%io g g
    [(f, Wr, text_of (vars_of modname (mod_port g, mod_init_port g)) ts)].
Proof. apply (writes_then _ _ g g g [] _); [apply open_new_writes|]. apply write_close_writes. Qed.

(** The base header does not name the ports. *)
Lemma base_ports modname proto_ident p q : proto_ident ∈ protocols ->
  text_of (vars_of modname (p, q)) (base_text proto_ident) = R modname proto_ident (base_text proto_ident).
Proof.
  assert (forall ts, ts ∈ [FC_base; SAS_base; iSCSI_base] -> forall a b c p q p' q', text_of (Vars a b c p q) ts = text_of (Vars a b c p' q') ts) as Hb.
  { intros ts Hts a b c p0 q0 p' q'. rewrite !elem_of_cons in Hts.
    destruct Hts as [-> |[-> |[-> |Hts]]]; [vm_compute; reflexivity..|by apply elem_of_nil in Hts]. }
  intros Hp. unfold R, vars_of. apply Hb. unfold base_text. repeat case_match; [left|right; left|right; right; left].
Qed.

Lemma include_writes base port init_port dir modname g :
  writes (build_include base port init_port dir modname) g (Globals (fabric_ops g) port init_port)
    [(dir ++ B "/" ++ modname ++ B "_base.h", Wr, text_of (vars_of modname (mod_port g, mod_init_port g)) base)].
Proof.
  unfold build_include. apply (writes_then _ _ g g _ [] _); [apply open_new_writes|].
  change (writes (write_close (dir ++ B "/" ++ modname ++ B "_base.h") (text_of (vars_of modname (mod_port g, mod_init_port g)) base) ;;
    set_ports port init_port)%io g (Globals (fabric_ops g) port init_port)
    ([(dir ++ B "/" ++ modname ++ B "_base.h", Wr, text_of (vars_of modname (mod_port g, mod_init_port g)) base)] ++ [])).
  eapply writes_then; [apply write_close_writes|]. intros K h. right. by rewrite app_nil_r.
Qed.

Lemma base_includes_writes proto_ident dir modname g : proto_ident ∈ protocols ->
  writes (tcm_mod_build_base_includes proto_ident dir modname) g
    (Globals (fabric_ops g) (ports proto_ident).1 (ports proto_ident).2)
    [(dir ++ B "/" ++ modname ++ B "_base.h", Wr, R modname proto_ident (base_text proto_ident))].
Proof.
  intros Hp. rewrite <- (base_ports modname proto_ident (mod_port g) (mod_init_port g) Hp).
  unfold protocols in Hp. rewrite !elem_of_cons in Hp.
  destruct Hp as [-> |[-> |[-> |Hp]]]; [apply include_writes..|by apply elem_of_nil in Hp].
Qed.

(** The lines behind the first one, without those before it that open the structure. *)
Fixpoint scanned (ls : list text) : list text :=
  match ls with [] => [] | line :: rest => if struct_line line then scanned rest else rest end.

Definition operations (header : text) : list text := rstrip <$> filter (fun l => pointer_line l = true) (scanned (lines header)).

Lemma scan_true rest : forall line ops, scan true line rest ops = ops ++ (rstrip <$> filter (fun l => pointer_line l = true) rest).
Proof.
  induction rest as [|l rest IH]; intros line ops; cbn [scan negb andb]; [by rewrite app_nil_r|].
  rewrite IH, filter_cons. destruct (pointer_line l); case_decide; try done. cbn. by rewrite <- app_assoc.
Qed.

Lemma scan_false rest : forall line ops, scan false line rest ops = ops ++ (rstrip <$> filter (fun l => pointer_line l = true) (scanned (line :: rest))).
Proof.
  induction rest as [|l rest IH]; intros line ops.
  - cbn [scan scanned]. destruct (struct_line line); by rewrite app_nil_r.
  - cbn [scan negb andb]. change (scanned (line :: l :: rest)) with (if struct_line line then scanned (l :: rest) else l :: rest).
    destruct (struct_line line); [apply IH|]. rewrite scan_true, filter_cons. destruct (pointer_line l); case_decide; try done.
    cbn. by rewrite <- app_assoc.
Qed.

Lemma scan_reads tcm_dir g K h : wp (tcm_mod_scan_fabric_ops tcm_dir) K g h (fun o g' h' =>
  raised o h' \/ o = Ret tt /\ trace written h' = trace written h /\
    suffix h h' /\ exists a, (Read (tcm_dir ++ B "include/target/target_core_fabric.h"), a) ∈ h' /\
      g' = Globals (fabric_ops g ++ operations (data a)) (mod_port g) (mod_init_port g)).
Proof.
  unfold tcm_mod_scan_fabric_ops. follow. right. split_and!; [done|by rewrite !trace_cons, !app_nil_r|solve_suffix|].
  match goal with |- context [lines (data ?a)] => exists a end. split; [rewrite !elem_of_cons; tauto|].
  unfold operations. destruct (lines _) as [|line rest]; [|by rewrite scan_false].
  cbn [scanned]. destruct g. cbn. by rewrite app_nil_r.
Qed.

Lemma fabric_writes proto_ident dir modname g c hh : fabric_text proto_ident (fabric_ops g) = (c, hh) ->
  ports proto_ident = (mod_port g, mod_init_port g) ->
  writes (tcm_mod_dump_fabric_ops proto_ident dir modname) g g
    [(dir ++ B "/" ++ modname ++ B "_fabric.c", Wr, R modname proto_ident c);
     (dir ++ B "/" ++ modname ++ B "_fabric.h", Wr, R modname proto_ident hh)].
Proof.
  intros E Ep. unfold tcm_mod_dump_fabric_ops. apply (writes_then _ _ g g g [] _); [apply open_new_writes|].
  apply (writes_then _ _ g g g [] _); [apply open_new_writes|]. unfold R. rewrite Ep.
  intros K h. unfold names_of. do 9 wp_step. rewrite E.
  apply (writes_then _ _ g g g [_] [_]); apply write_close_writes.
Qed.

Definition kbuild_line (modname : text) : text :=
  B "obj-$(CONFIG_" ++ upper modname ++ B ")" ++ [9] ++ B "+= " ++ lower modname ++ B "/" ++ [10].
Definition kconfig_line (modname : text) : text :=
  B "source " ++ [34] ++ B "drivers/target/" ++ lower modname ++ B "/Kconfig" ++ [34; 10].

(** Everything that is written in a run for a module: [y1] and [y2] are the answers of the user. *)
Definition outputs (root modname base c h conf mk kc : text) (y1 y2 : bool) : list (text * flag * text) :=
  let dir := root ++ B "drivers/target/" ++ modname in
  let file x := dir ++ B "/" ++ modname ++ B x in
  [(file "_base.h"%string, Wr, base); (file "_fabric.c"%string, Wr, c); (file "_fabric.h"%string, Wr, h);
   (file "_configfs.c"%string, Wr, conf); (dir ++ B "/Makefile", Wr, mk); (dir ++ B "/Kconfig", Wr, kc)] ++
  (if y1 then [(root ++ B "/drivers/target/Makefile", Ap, kbuild_line modname)] else []) ++
  (if y2 then [(root ++ B "/drivers/target/Kconfig", Ap, kconfig_line modname)] else []).

(** The part of the run behind the test for the directory. *)
Definition generate (root modname : text) (proto_ident : string) : prog unit :=
  let dir := root ++ B "drivers/target/" ++ modname in
  (tcm_mod_build_base_includes proto_ident dir modname ;;
   tcm_mod_scan_fabric_ops root ;;
   tcm_mod_dump_fabric_ops proto_ident dir modname ;;
   tcm_mod_build_configfs proto_ident dir modname ;;
   tcm_mod_build_kbuild dir modname ;;
   tcm_mod_build_kconfig dir modname ;;
   let* input := raising (RawInput (B "Would you like to add " ++ modname ++ B "to drivers/target/Makefile..? [yes,no]: ")) in
   (if yes (data input) then tcm_mod_add_kbuild root modname else io_ret tt) ;;
   let* input := raising (RawInput (B "Would you like to add " ++ modname ++ B "to drivers/target/Kconfig..? [yes,no]: ")) in
   if yes (data input) then tcm_mod_add_kconfig root modname else io_ret tt)%io.

Lemma wp_assoc {A C D} (m : prog A) (f : A -> prog C) (k : prog D) K (g : globals) h Q :
  wp (io_bind (io_bind m f) (fun _ => k)) K g h Q -> wp (io_bind m (fun x => io_bind (f x) (fun _ => k))) K g h Q.
Proof. unfold wp, io_bind. by destruct (m K g h) as [[[] ?] ?]. Qed.

Lemma question_writes q (k : prog unit) g l :
  writes k g g l -> forall K h, wp (let* input := raising (RawInput q) in if yes (data input) then k else io_ret tt)%io K g h (fun o g' h' =>
    raised o h' \/ o = Ret tt /\ g' = g /\ suffix h h' /\
      exists i, (RawInput q, i) ∈ h' /\ trace written h' = trace written h ++ if yes (data i) then l else []).
Proof.
  intros Hk K h. wp_step. apply wp_raising; intros a; [|intros Ha; left; by apply raised_now]. wp_step. destruct (yes (data a)) eqn:Ey.
  - eapply wp_wand; [apply Hk|]. intros o s' h' [[-> Hr]|(-> & -> & E & Hs)]; [left; by split|]. right. split_and!; try done.
    + etrans; [|exact Hs]. solve_suffix.
    + exists a. split; [destruct Hs as [t ->]; apply elem_of_app; right; left|]. by rewrite E, Ey, trace_cons, app_nil_r.
  - wp_step. right. split_and!; try done; [solve_suffix|]. exists a. split; [left|]. by rewrite Ey, trace_cons, !app_nil_r.
Qed.

Definition ask (modname : text) (file : string) : text := B "Would you like to add " ++ modname ++ B "to drivers/target/" ++ B file ++ B "..? [yes,no]: ".

(** What a complete run leaves: [i1] and [i2] are the answers of the user, [a] is the scanned header. *)
Definition generated (root modname : text) (proto_ident : string) (h0 h : list (event call)) : Prop :=
  exists a i1 i2 base c hh conf db dc dh df,
    (Read (root ++ B "include/target/target_core_fabric.h"), a) ∈ h /\
    (RawInput (ask modname "Makefile"), i1) ∈ h /\ (RawInput (ask modname "Kconfig"), i2) ∈ h /\
    trace written h = trace written h0 ++
      outputs root modname base c hh conf (R modname proto_ident kbuild_text) (R modname proto_ident kconfig_text)
        (yes (data i1)) (yes (data i2)) /\
    parse base = Some db /\ parse c = Some dc /\ parse hh = Some dh /\ parse conf = Some df /\
    consistent modname proto_ident (operations (data a)) db dc dh df.

Lemma generate_writes root modname proto_ident g K h : tcm_name modname -> proto_ident ∈ protocols -> fabric_ops g = [] ->
  wp (generate root modname proto_ident) K g h (fun o g' h' => raised o h' \/ o = Ret tt /\ suffix h h' /\ generated root modname proto_ident h h').
Proof.
  intros Hn Hp Hg. unfold generate. wp_step. eapply wp_wand; [by apply base_includes_writes|].
  intros o s1 h1 [[-> Hr]|(-> & -> & E1 & S1)]; [left; by split|]. wp_step. wp_step. eapply wp_wand; [apply scan_reads|].
  intros o s2 h2 [[-> Hr]|(-> & E2 & S2 & a & Ha & ->)]; [left; by split|]. wp_step. rewrite Hg. cbn [fabric_ops mod_port mod_init_port app].
  set (g2 := Globals _ _ _). destruct (fabric_text proto_ident (operations (data a))) as [c hh] eqn:Ef.
  assert (ports proto_ident = (mod_port g2, mod_init_port g2)) as Eg by by destruct (ports proto_ident).
  wp_step. eapply wp_wand; [by apply (fabric_writes proto_ident _ _ g2 c hh)|]. intros o s3 h3 [[-> Hr]|(-> & -> & E3 & S3)]; [left; by split|]. wp_step.
  wp_step. eapply wp_wand; [apply template_writes|]. intros o s3 h4 [[-> Hr]|(-> & -> & E4 & S4)]; [left; by split|]. wp_step.
  wp_step. eapply wp_wand; [apply template_writes|]. intros o s3 h5 [[-> Hr]|(-> & -> & E5 & S5)]; [left; by split|]. wp_step.
  wp_step. eapply wp_wand; [apply template_writes|]. intros o s3 h6 [[-> Hr]|(-> & -> & E6 & S6)]; [left; by split|]. wp_step.
  apply wp_assoc. wp_step. eapply wp_wand; [apply (question_writes _ _ g2 _ (append_writes _ (kbuild_line modname) g2))|].
  intros o s3 h7 [[-> Hr]|(-> & -> & S7 & i1 & I1 & E7)]; [left; by split|]. wp_step.
  eapply wp_wand; [apply (question_writes _ _ g2 _ (append_writes _ (kconfig_line modname) g2))|].
  intros o s3 h8 [[-> Hr]|(-> & -> & S8 & i2 & I2 & E8)]; [left; by split|]. right. split; [done|].
  destruct (module_files proto_ident Hp modname Hn (operations (data a)) c hh Ef) as (db & dc & dh & df & Pb & Pc & Ph & Pf & Hcon).
  assert (suffix h2 h8) as Sh by (do 5 (etrans; [first [exact S3|exact S4|exact S5|exact S6|exact S7]|]); exact S8).
  split; [do 2 (etrans; [first [exact S1|exact S2]|]); exact Sh|].
  eexists a, i1, i2, _, _, _, _, db, dc, dh, df. split_and!; [| |exact I2| |exact Pb|exact Pc|exact Ph|exact Pf|exact Hcon].
  - destruct Sh as [t ->]. apply elem_of_app. by right.
  - destruct S8 as [t ->]. apply elem_of_app. by right.
  - assert (forall ts, text_of (vars_of modname (mod_port g2, mod_init_port g2)) ts = R modname proto_ident ts) as ER
      by (intros ts; unfold R; by destruct (ports proto_ident)).
    rewrite ER in E4, E5, E6. rewrite E8, E7, E6, E5, E4, E3, E2, E1. unfold outputs. cbv zeta. rewrite <- !app_assoc. done.
Qed.


(** ** A module tcm_nab for SAS *)

Definition sample_header : text :=
  B "/* fabric */" ++ [10] ++ B "struct target_core_fabric_ops {" ++ [10; 9] ++
  B "char *" ++ slot_text (B "get_fabric_name") ++ B "void);" ++ [10; 9] ++
  B "u16 " ++ slot_text (B "tpg_get_tag") ++ B "struct se_portal_group *);" ++ [10] ++ B "};" ++ [10].

Definition sample_kernel : kernel call := fun _ c =>
  match c with
  | Getcwd => Ans 0 0 (B "/linux/Documentation/target")
  | Read _ => Ans 0 0 sample_header
  | RawInput _ => Ans 0 0 (B "yes")
  | _ => aret 0
  end.


End Tcm.
