(* ===== verification/TracePagealloc.v ===== *)
(** * Counting page allocator events: trace/postprocess/trace-pagealloc-postprocess.pl

    The script reads lines of the tracing file system, counts events by process, and
    prints a table at the end of the input and when it is interrupted.  A line is taken
    apart with regular expressions, one of them made from a file of the kernel.  The
    theorem says what is in the table: the number of events of each kind, and how often
    a process drained and refilled the lists of a processor, which are the runs of
    consecutive events of one kind. *)

From stdpp Require Import gmap.
From S2P Require Import Prelude Posix Output CArray Numbers PerlRegex.
Import Regex.

Module Pagealloc.

Open Scope Z_scope.

Definition B (s : string) : text := bytes_of_string s.

(** ** The script *)

Inductive call : Type :=
| Format (event : text)       (* the format file of an event, if it can be opened *)
| Stat (pid : text)           (* the first line of /proc/pid/stat, if it can be opened *)
| ReadLine                    (* a line of the input, 0 at its end *)
| Interrupted                 (* whether an interrupt is to be handled *)
| Time
| Print (t : text).

(** The counters of a process, by name; those not there are zero. *)
Abbreviation stats := (gmap string Z).

Definition cnt (s : stats) (k : string) : Z := default 0 (s !! k).
Definition bump (k : string) (s : stats) : stats := <[k := cnt s k + 1]> s.

Record opts : Type := Opts { opt_ignorepid : bool; opt_read_procstat : bool; opt_prepend_parent : bool }.

Record globals : Type := Globals {
  perprocesspid : gmap text stats;
  perprocess : gmap text stats;
  sigint_report : bool; sigint_exit : Z; sigint_pending : bool; sigint_received : Z;
  regex_fragdetails : text
}.

Definition init : globals := Globals ∅ ∅ false 0 false 0 [].

Definition set_perprocesspid (m : gmap text stats) (g : globals) : globals :=
  Globals m (perprocess g) (sigint_report g) (sigint_exit g) (sigint_pending g) (sigint_received g) (regex_fragdetails g).
Definition set_perprocess (m : gmap text stats) (g : globals) : globals :=
  Globals (perprocesspid g) m (sigint_report g) (sigint_exit g) (sigint_pending g) (sigint_received g) (regex_fragdetails g).
Definition set_sigint (report : bool) (exit : Z) (pending : bool) (received : Z) (g : globals) : globals :=
  Globals (perprocesspid g) (perprocess g) report exit pending received (regex_fragdetails g).
Definition set_regex (r : text) (g : globals) : globals :=
  Globals (perprocesspid g) (perprocess g) (sigint_report g) (sigint_exit g) (sigint_pending g) (sigint_received g) r.

Abbreviation prog := (io call globals).

Open Scope io_scope.

Definition print (t : text) : prog unit := sys (Print t) ;; io_ret tt.

Definition sigint_handler : prog unit :=
  let* a := sys Time in
  let current_time := ret a in
  let* g := get in
  (if sigint_received g <? current_time - 2 then
     print (B "SIGINT received, report pending. Hit ctrl-c again to exit" ++ [10]) ;;
     modify (fun g => set_sigint true (sigint_exit g) (sigint_pending g) (sigint_received g) g)
   else
     (if sigint_exit g =? 0 then print (B "Second SIGINT received quickly, exiting" ++ [10]) else io_ret tt) ;;
     modify (fun g => set_sigint (sigint_report g) (sigint_exit g + 1) (sigint_pending g) (sigint_received g) g)) ;;
  let* g := get in
  (if 3 <? sigint_exit g then
     print (B "Many SIGINTs received, exiting now without report" ++ [10]) ;; exit_ 0
   else io_ret tt) ;;
  modify (fun g => set_sigint (sigint_report g) (sigint_exit g) true current_time g).

(** A place where the handler may run. *)
Definition signals : prog unit :=
  let* a := sys Interrupted in
  if truthy (ret a) then sigint_handler else io_ret tt.

Definition regex_fragdetails_default : text :=
  B "page=([0-9a-f]*) pfn=([0-9]*) alloc_order=([-0-9]*) fallback_order=([-0-9]*) pageblock_order=([-0-9]*) alloc_migratetype=([-0-9]*) fallback_migratetype=([-0-9]*) fragmenting=([-0-9]) change_ownership=([-0-9])".

Definition regex_traceevent : text :=
  B "\s*([a-zA-Z0-9-]*)\s*(\[[0-9]*\])\s*([0-9.]*):\s*([a-zA-Z_]*):\s*(.*)".
Definition regex_statname : text := B "[-0-9]*\s\((.*)\).*".
Definition regex_statppid : text := B "[-0-9]*\s\(.*\)\s[A-Za-z]\s([0-9]*).*".
(** With a quote on either side of the group. *)
Definition regex_print_fmt : text := B "^print fmt:\s" ++ [34] ++ B "(.*)" ++ [34] ++ B ",.*".

(** What the groups of an expression captured: [None] for an expression outside of [Regex]. *)
Definition matches (r t : text) : option (option (list text)) := (fun e => captures e t) <$> compile r.

(** The end of a run on an expression that is not one, or that [Regex] does not cover. *)
Definition with_match {A} (r t : text) (k : option (list text) -> prog A) : prog A :=
  match matches r t with Some m => k m | None => crash end.

(** *** The expression for an event *)

(** s/pat/rep/g for a pattern without special characters: [skip] characters of a match are left. *)
Fixpoint replace_all (pat rep : text) (skip : nat) (t : text) : text :=
  match t with
  | [] => []
  | c :: r =>
      match skip with
      | S skip => replace_all pat rep skip r
      | O => if bool_decide (take (length pat) t = pat) then rep ++ replace_all pat rep (length pat - 1) r else c :: replace_all pat rep O r
      end
  end.

Definition from_format (fmt : text) : text :=
  let regex := replace_all (B "%p") (B "([0-9a-f]*)") 0 fmt in
  let regex := replace_all (B "%d") (B "([-0-9]*)") 0 regex in
  replace_all (B "%lu") (B "([0-9]*)") 0 regex.

Fixpoint lines_from (cur t : text) : list text :=
  match t with
  | [] => match cur with [] => [] | _ => [cur] end
  | c :: r => if c =? 10 then (cur ++ [c]) :: lines_from [] r else lines_from (cur ++ [c]) r
  end.

(** The last line that has a format gives the expression. *)
Definition read_format (content : text) : text :=
  foldl (fun regex line => match matches regex_print_fmt line with Some (Some [fmt]) => from_format fmt | _ => regex end)
    [] (lines_from [] content).

(** split /\s/: the fields between blanks, without empty ones at the end. *)
Fixpoint split_on (sep : Z -> bool) (cur t : text) : list text :=
  match t with [] => [cur] | c :: r => if sep c then cur :: split_on sep [] r else split_on sep (cur ++ [c]) r end.

Fixpoint drop_empty (l : list text) : list text := match l with [] :: r => drop_empty r | _ => l end.

Definition split (sep : Z -> bool) (t : text) : list text := reverse (drop_empty (reverse (split_on sep [] t))).

(** The substitution that takes the group away from a field: from the first parenthesis behind its name to the last one. *)
Definition ungroup (key regex : text) : option text :=
  match compile (key ++ B "=\((.*)\)") with
  | Some e =>
      match search e regex with
      | Some (before, [c], behind) => Some (before ++ key ++ B "=" ++ c ++ behind)
      | _ => Some regex
      end
  | None => None
  end.

Fixpoint verify_fields (tuples expected : list text) (regex : text) : prog (text * list text) :=
  match tuples with
  | [] => io_ret (regex, expected)
  | tuple :: tuples =>
      let key := default [] (head (split (fun c => c =? 61) tuple)) in
      let want := default [] (head expected) in
      if bool_decide (key <> want) then
        print (B "WARNING: Format not as expected '" ++ key ++ B "' != '" ++ want ++ B "'") ;;
        match ungroup key regex with
        | Some regex => verify_fields tuples (tail expected) regex
        | None => crash
        end
      else verify_fields tuples (tail expected) regex
  end.

Definition generate_traceevent_regex (event default_ : text) (expected : list text) : prog text :=
  let* a := sys (Format event) in
  let regex := if ret a <? 0 then default_ else read_format (data a) in
  let* r := verify_fields (split (within spaces) regex) expected regex in
  match r.2 with
  | _ :: _ => exit_ 255
  | [] => io_ret r.1
  end.

(** *** Names of processes *)

Definition read_statline (pid : text) : prog text :=
  let* a := sys (Stat pid) in
  let statline := if ret a <? 0 then [] else data a in
  io_ret (if bool_decide (statline = []) then B "-1 (UNKNOWN_PROCESS_NAME) R 0" else statline).

(** The number a text begins with. *)
Definition num (t : text) : Z :=
  match t with
  | c :: r => if c =? 45 then - (read_base 10 0 r).1 else (read_base 10 0 t).1
  | [] => 0
  end.

Definition guess_process_pid (pid statline : text) : prog text :=
  if num pid =? 0 then io_ret (B "swapper-0")
  else
    with_match regex_statname statline (fun m =>
      match m with
      | Some (name :: _) => io_ret (name ++ B "-" ++ pid)
      | _ => exit_ 255
      end).

Definition parent_info (pid statline : text) : prog text :=
  if num pid =? 0 then io_ret (B "NOPARENT-0")
  else
    with_match regex_statppid statline (fun m =>
      match m with
      | Some (ppid :: _) => let* statline := read_statline ppid in guess_process_pid ppid statline
      | _ => exit_ 255
      end).

(** The name under which an event is counted.  When the name has no number at its end, the captures of the line are still there. *)
Definition name_process (o : opts) (process_pid cpus : text) : prog text :=
  if opt_read_procstat o || opt_prepend_parent o then
    with_match (B "(.*)-([0-9]*)$") process_pid (fun m =>
      let '(process, pid) := match m with Some [process; pid] => (process, pid) | _ => (process_pid, cpus) end in
      let* statline := read_statline pid in
      let* process_pid :=
        (if opt_read_procstat o && bool_decide (process = []) then guess_process_pid pid statline else io_ret process_pid) in
      if opt_prepend_parent o then
        let* parent := parent_info pid statline in
        io_ret (parent ++ B " :: " ++ process_pid)
      else io_ret process_pid)
  else io_ret process_pid.

(** *** Counting *)

(** A digit or text is true unless it is empty or 0. *)
Definition true_text (t : text) : bool := negb (bool_decide (t = []) || bool_decide (t = B "0")).

(** The counters that an event adds to, in order; [None] for details that are not as expected. *)
Definition counted (tracepoint : text) (details : option (list text)) : option (list string) :=
  if bool_decide (tracepoint = B "mm_page_alloc") then Some ["MM_PAGE_ALLOC"]
  else if bool_decide (tracepoint = B "mm_page_free") then Some ["MM_PAGE_FREE"]
  else if bool_decide (tracepoint = B "mm_page_free_batched") then Some ["MM_PAGE_FREE_BATCHED"]
  else if bool_decide (tracepoint = B "mm_page_pcpu_drain") then Some ["MM_PAGE_PCPU_DRAIN"; "STATE_PCPU_PAGES_DRAINED"]
  else if bool_decide (tracepoint = B "mm_page_alloc_zone_locked") then Some ["MM_PAGE_ALLOC_ZONE_LOCKED"; "STATE_PCPU_PAGES_REFILLED"]
  else if bool_decide (tracepoint = B "mm_page_alloc_extfrag") then
    match details with
    | None => None
    | Some caps =>
        let cap n := default [] (caps !! n) in
        let fallback_order := cap 3%nat in
        let fragmenting := cap 7%nat in
        let change_ownership := cap 8%nat in
        Some (["MM_PAGE_ALLOC_EXTFRAG"] ++
          (if true_text fragmenting then
             ["HIGH_EXT_FRAG"; if num fallback_order <=? 3 then "HIGH_EXT_FRAGMENT_SEVERE" else "HIGH_EXT_FRAGMENT_MODERATE"]
           else []) ++
          (if true_text change_ownership then ["HIGH_EXT_FRAGMENT_CHANGED"] else []))
    end
  else Some ["EVENT_UNKNOWN"].

(** The end of a run of drains, or of refills. *)
Definition catch (tracepoint ends : text) (state high : string) (s : stats) : stats :=
  if truthy (cnt s state) && bool_decide (tracepoint <> ends) then <[state := 0]> (bump high s) else s.

Definition count_event (tracepoint : text) (ks : list string) (s : stats) : stats :=
  let s := foldl (fun s k => bump k s) s ks in
  let s := catch tracepoint (B "mm_page_pcpu_drain") "STATE_PCPU_PAGES_DRAINED" "HIGH_PCPU_DRAINS" s in
  catch tracepoint (B "mm_page_alloc_zone_locked") "STATE_PCPU_PAGES_REFILLED" "HIGH_PCPU_REFILLS" s.

Definition upd (p : text) (f : stats -> stats) (g : globals) : globals :=
  set_perprocesspid (<[p := f (default ∅ (perprocesspid g !! p))]> (perprocesspid g)) g.

(** One line; true when the rest of the loop is left out. *)
Definition process_line (o : opts) (traceevent : text) : prog bool :=
  with_match regex_traceevent traceevent (fun m =>
    match m with
    | Some [process_pid; cpus; timestamp; tracepoint; details] =>
        let* process_pid := name_process o process_pid cpus in
        let* g := get in
        let count caps :=
          match counted tracepoint caps with
          | Some ks => modify (upd process_pid (count_event tracepoint ks)) ;; io_ret false
          | None => print (B "WARNING: Failed to parse mm_page_alloc_extfrag as expected" ++ [10]) ;; io_ret true
          end in
        if bool_decide (tracepoint = B "mm_page_alloc_extfrag") then with_match (regex_fragdetails g) details count else count None
    | _ => io_ret true
    end).

Fixpoint process_events (fuel : nat) (o : opts) : prog unit :=
  match fuel with
  | O => nofuel
  | S fuel =>
      let* a := sys ReadLine in
      if ret a =? 0 then io_ret tt
      else
        let* next := process_line o (data a) in
        if next then process_events fuel o
        else
          signals ;;
          let* g := get in
          if sigint_pending g then io_ret tt else process_events fuel o
  end.

(** *** The report *)

Definition pad_right (n : nat) (t : text) : text := t ++ replicate (n - length t) 32.
Definition pad_left (n : nat) (t : text) : text := replicate (n - length t) 32 ++ t.

(** A line of the table: the name and thirteen columns, with wider gaps before some. *)
Definition row_text (width : nat) (name : text) (cols : list text) : text :=
  let gap n := if bool_decide (n ∈ [2; 4; 7]%nat) then [32; 32; 32] else [32] in
  let wide n := if bool_decide (n = 1%nat) then 10%nat else 8%nat in
  pad_right width name ++ concat (imap (fun n c => gap n ++ pad_left (wide n) c) cols) ++ [10].

Definition heads : list (text * list text) :=
  [(B "Process", B <$> ["Pages"; "Pages"; "Pages"; "Pages"; "PCPU"; "PCPU"; "PCPU"; "Fragment"; "Fragment"; "MigType"; "Fragment"; "Fragment"; "Unknown"]);
   (B "details", B <$> ["allocd"; "allocd"; "freed"; "freed"; "pages"; "drains"; "refills"; "Fallback"; "Causing"; "Changed"; "Severe"; "Moderate"; ""]);
   (B "", B <$> [""; "under lock"; "direct"; "pagevec"; "drain"; ""; ""; ""; ""; ""; ""; ""; ""])].

Definition columns : list string :=
  ["MM_PAGE_ALLOC"; "MM_PAGE_ALLOC_ZONE_LOCKED"; "MM_PAGE_FREE"; "MM_PAGE_FREE_BATCHED"; "MM_PAGE_PCPU_DRAIN"; "HIGH_PCPU_DRAINS";
   "HIGH_PCPU_REFILLS"; "MM_PAGE_ALLOC_EXTFRAG"; "HIGH_EXT_FRAG"; "HIGH_EXT_FRAGMENT_CHANGED"; "HIGH_EXT_FRAGMENT_SEVERE";
   "HIGH_EXT_FRAGMENT_MODERATE"; "EVENT_UNKNOWN"].

Definition final (s : stats) : stats :=
  let s := if truthy (cnt s "STATE_PCPU_PAGES_DRAINED") then <["STATE_PCPU_PAGES_DRAINED" := 0]> (bump "HIGH_PCPU_DRAINS" s) else s in
  if truthy (cnt s "STATE_PCPU_PAGES_REFILLED") then <["STATE_PCPU_PAGES_REFILLED" := 0]> (bump "HIGH_PCPU_REFILLS" s) else s.

(** The keys of a hash come in an order that Perl chooses. *)
Class HashOrder := hash_order : list text -> list text.

Definition keys `{HashOrder} (m : gmap text stats) : list text := hash_order (map_to_list m).*1.

(** Two more than the length of the longest name. *)
Definition max_strlen (m : gmap text stats) : nat := (foldr Nat.max 0 (length <$> (map_to_list m).*1) + 2)%nat.

Definition decimal (n : Z) : text := if n <? 0 then [45] ++ print_number 10 (- n) else print_number 10 n.

(** The hash of a process is shared with the table it is reported from: its last runs are closed in both. *)
Definition get_stats (aggregated : bool) (g : globals) : gmap text stats := if aggregated then perprocess g else perprocesspid g.
Definition put_stats (aggregated : bool) (m : gmap text stats) (g : globals) : globals :=
  if aggregated then set_perprocess m g else set_perprocesspid m g.

Fixpoint dump_rows (aggregated : bool) (width : nat) (ps : list text) : prog unit :=
  match ps with
  | [] => io_ret tt
  | p :: ps =>
      let* g := get in
      let s := final (default ∅ (get_stats aggregated g !! p)) in
      modify (fun g => put_stats aggregated (<[p := s]> (get_stats aggregated g)) g) ;;
      print (row_text width p (decimal <$> (cnt s <$> columns))) ;;
      dump_rows aggregated width ps
  end.

Fixpoint dump_heads (width : nat) (hs : list (text * list text)) : prog unit :=
  match hs with [] => io_ret tt | h :: hs => print (row_text width h.1 h.2) ;; dump_heads width hs end.

Definition dump_stats `{HashOrder} (aggregated : bool) : prog unit :=
  let* g := get in
  let width := max_strlen (perprocesspid g) in
  print [10] ;;
  dump_heads width heads ;;
  dump_rows aggregated width (keys (get_stats aggregated g)).

(** s/-([0-9])*$// and the name for no name. *)
Definition process_name (process_pid : text) : text :=
  let process :=
    match search [Atom (One (lit 45)); Atom (Many [(48, 57)]); End_] process_pid with
    | Some (before, _, behind) => before ++ behind
    | None => process_pid
    end in
  if bool_decide (process = []) then B "NO_PROCESS_NAME" else process.

Definition add_columns (into from : stats) : stats := foldl (fun s k => <[k := cnt s k + cnt from k]> s) into columns.

Definition aggregate_perprocesspid `{HashOrder} : prog unit :=
  modify (fun g =>
    set_perprocess (foldl (fun m p => <[process_name p := add_columns (default ∅ (m !! process_name p)) (default ∅ (perprocesspid g !! p))]> m)
      ∅ (keys (perprocesspid g))) g).

Definition report `{HashOrder} (o : opts) : prog unit :=
  if negb (opt_ignorepid o) then dump_stats false
  else aggregate_perprocesspid ;; dump_stats true.

Fixpoint signal_loop `{HashOrder} (fuel : nat) (o : opts) : prog unit :=
  match fuel with
  | O => nofuel
  | S fuel' =>
      process_events fuel o ;;
      signals ;;
      let* g := get in
      let* processed :=
        (if sigint_pending g then
           let* a := sys Time in
           let current_time := ret a in
           (if negb (sigint_exit g =? 0) then
              print (B "Received exit signal" ++ [10]) ;;
              modify (fun g => set_sigint (sigint_report g) (sigint_exit g) false (sigint_received g) g)
            else io_ret tt) ;;
           if sigint_report g && (sigint_received g + 2 <=? current_time) then
             report o ;;
             modify (fun g => set_sigint false (sigint_exit g) false (sigint_received g) g) ;;
             io_ret true
           else io_ret false
         else io_ret false) in
      let* g := get in
      if sigint_pending g || processed then signal_loop fuel' o else io_ret tt
  end.

Definition fields : list text :=
  B <$> ["page"; "pfn"; "alloc_order"; "fallback_order"; "pageblock_order"; "alloc_migratetype"; "fallback_migratetype"; "fragmenting"; "change_ownership"].

Definition trace_pagealloc `{HashOrder} (fuel : nat) (o : opts) : prog unit :=
  let* r := generate_traceevent_regex (B "kmem/mm_page_alloc_extfrag") regex_fragdetails_default fields in
  modify (set_regex r) ;;
  signal_loop fuel o ;;
  report o.

Close Scope io_scope.

(** ** Lines of the trace *)

(** The details of an event that causes fragmentation, as the kernel prints them. *)
Record frag : Type := Frag {
  page : text; pfn : text; alloc_order : text; fallback_order : text; pageblock_order : text;
  alloc_migratetype : text; fallback_migratetype : text; fragmenting : Z; change_ownership : Z
}.

Inductive kind : Type := Alloc | Free | FreeBatched | Drain | ZoneLocked | ExtFrag (f : frag) | Other (tracepoint : text).

(** An event, by the parts of its line.  [who] is the end of the name of the process, with its number; what comes before it is in [front]. *)
Record event : Type := Event { front : text; lead : nat; who : text; cpu : text; stamp : text; what : kind; more : text }.

Definition tracepoint (k : kind) : text :=
  match k with
  | Alloc => B "mm_page_alloc" | Free => B "mm_page_free" | FreeBatched => B "mm_page_free_batched"
  | Drain => B "mm_page_pcpu_drain" | ZoneLocked => B "mm_page_alloc_zone_locked" | ExtFrag _ => B "mm_page_alloc_extfrag"
  | Other t => t
  end.

Definition frag_text (f : frag) : text :=
  B "page=" ++ page f ++ B " pfn=" ++ pfn f ++ B " alloc_order=" ++ alloc_order f ++ B " fallback_order=" ++ fallback_order f ++
  B " pageblock_order=" ++ pageblock_order f ++ B " alloc_migratetype=" ++ alloc_migratetype f ++
  B " fallback_migratetype=" ++ fallback_migratetype f ++ B " fragmenting=" ++ [fragmenting f] ++ B " change_ownership=" ++ [change_ownership f].

Definition details (e : event) : text := match what e with ExtFrag f => frag_text f | _ => more e end.

Definition behind (e : event) : text := stamp e ++ 58 :: [32] ++ tracepoint (what e) ++ 58 :: [32] ++ details e ++ [10].

Definition line_of (e : event) : text :=
  front e ++ replicate (lead e) 32 ++ who e ++ [32] ++ (91 :: cpu e ++ [93]) ++ [32] ++ behind e.

(** The line with the flags that the kernel prints unless it is told not to. *)
Definition flagged_line (e : event) (flags : text) : text :=
  (front e ++ replicate (lead e) 32 ++ who e ++ [32]) ++ 91 :: cpu e ++ 93 :: 32 :: flags ++ 32 :: behind e.

Definition over (c : cls) (t : text) : Prop := Forall (fun x => within c x = true) t.

Definition name_class : cls := [(97, 122); (65, 90); (48, 57); (45, 45)].
Definition digits : cls := [(48, 57)].
Definition signed : cls := [(45, 45); (48, 57)].

Record frag_ok (f : frag) : Prop := {
  page_ok : over [(48, 57); (97, 102)] (page f);
  pfn_ok : over digits (pfn f);
  orders_ok : Forall (over signed) [alloc_order f; fallback_order f; pageblock_order f; alloc_migratetype f; fallback_migratetype f];
  flags_ok : over signed [fragmenting f; change_ownership f]
}.

Definition kind_ok (k : kind) : Prop :=
  match k with
  | ExtFrag f => frag_ok f
  | Other t => over [(97, 122); (65, 90); (95, 95)] t /\ ~ (t ∈ tracepoint <$> [Alloc; Free; FreeBatched; Drain; ZoneLocked]) /\ t <> B "mm_page_alloc_extfrag"
  | _ => True
  end.

(** What the name begins with ends where the letters, digits and dashes of [who] begin. *)
Definition front_ok (e : event) : Prop :=
  (91 ∉ front e) /\ (front e = [] \/ exists f z, front e = f ++ [z] /\ within spaces z = false /\ ((0 < lead e)%nat \/ within name_class z = false)).

Record event_ok (e : event) : Prop := {
  front_ok_ : front_ok e;
  who_ok : over name_class (who e) /\ who e <> [];
  cpu_ok : over digits (cpu e);
  stamp_ok : over [(48, 57); (46, 46)] (stamp e);
  what_ok : kind_ok (what e);
  more_ok : over any (more e) /\ exists c r, more e = c :: r /\ within spaces c = false
}.

Lemma tracepoint_ok k : kind_ok k -> over [(97, 122); (65, 90); (95, 95)] (tracepoint k).
Proof. destruct k; cbn [kind_ok tracepoint]; try tauto; intros _; repeat constructor. Qed.

Lemma frag_any f : frag_ok f -> over any (frag_text f).
Proof.
  intros [H1 H2 H3 H4]. assert (forall c t, over c t -> Forall (fun r => 11 <= r.1 /\ r.2 <= 255) c -> over any t) as Hc.
  { intros c t Ht Hc. eapply Forall_impl; [exact Ht|]. intros x Hx. cbn in Hx. unfold within in Hx. apply existsb_exists in Hx as (r & Hr & Hx).
    rewrite Forall_forall in Hc. specialize (Hc r (proj2 (list_elem_of_In _ _) Hr)). unfold within, any. cbn. lia. }
  assert (forall t, over signed t -> over any t) as Hs by (intros t Ht; apply (Hc _ t Ht); repeat constructor; cbn; lia).
  apply Hc in H1; [|repeat constructor; cbn; lia]. apply Hc in H2; [|repeat constructor; cbn; lia].
  rewrite !Forall_cons in H3. destruct H3 as (O1 & O2 & O3 & O4 & O5 & _). unfold over in H4. rewrite !Forall_cons in H4. destruct H4 as (F1 & F2 & _).
  unfold frag_text, over. rewrite !Forall_app. split_and!; try (by apply Hs); try done; try (apply Hs; by repeat constructor); repeat constructor.
Qed.

Lemma details_ok e : event_ok e -> over any (details e) /\ exists c r, details e = c :: r /\ within spaces c = false.
Proof.
  intros [_ _ _ _ Hk Hm]. unfold details. destruct (what e); try exact Hm. split; [by apply frag_any|]. by eexists _, _.
Qed.

Definition traceevent_elems : list elem :=
  [Atom (Many spaces); Group [[Many name_class]]; Atom (Many spaces); Group [[One (lit 91); Many digits; One (lit 93)]];
   Atom (Many spaces); Group [[Many [(48, 57); (46, 46)]]]; Atom (One (lit 58)); Atom (Many spaces); Group [[Many [(97, 122); (65, 90); (95, 95)]]];
   Atom (One (lit 58)); Atom (Many spaces); Group [[Many any]]].

Lemma traceevent_compiles : compile regex_traceevent = Some traceevent_elems.
Proof. reflexivity. Qed.

(** *** Where there is no event *)

(** A text that begins with a processor in brackets, a time and a colon. *)
Definition stamped (t : text) : Prop :=
  exists d s n b, t = 91 :: d ++ 93 :: s ++ n ++ 58 :: b /\ over digits d /\ over spaces s /\ over [(48, 57); (46, 46)] n.

Lemma traceevent_inv first t x : match_here first traceevent_elems t [] = Some x ->
  exists s n s' b, t = s ++ n ++ s' ++ b /\ over spaces s /\ over name_class n /\ over spaces s' /\ stamped b.
Proof.
  unfold traceevent_elems. cbn [match_here match_atom match_alts match_atoms]. intros E.
  apply many_inv in E as (s & t1 & -> & Hs & E). case_match eqn:E1; [|done]. clear E. rename E1 into E.
  apply many_inv in E as (n & t2 & -> & Hn & E). apply many_inv in E as (s' & t3 & -> & Hs' & E).
  exists s, n, s', t3. split_and!; try done. case_match eqn:E1; [|done]. clear E. rename E1 into E.
  apply (one_inv (lit 91)) in E as (y & t4 & -> & Hy & E). apply many_inv in E as (d & t5 & -> & Hd & E).
  apply (one_inv (lit 93)) in E as (z & t6 & -> & Hz & E). apply many_inv in E as (s3 & t7 & -> & Hs3 & E).
  case_match eqn:E1; [|done]. clear E. rename E1 into E. apply many_inv in E as (st & t8 & -> & Hst & E).
  apply (one_inv (lit 58)) in E as (w & t9 & -> & Hw & E).
  assert (y = 91 /\ z = 93 /\ w = 58) as (-> & -> & ->) by (unfold within, lit in *; cbn in *; lia).
  by exists d, s3, st, t9.
Qed.

(** Nowhere in the text a processor in brackets is followed by a time and a colon. *)
Definition no_event (t : text) : Prop := forall a b, t = a ++ b -> ~ stamped b.

Lemma no_event_skipped t : no_event t -> matches regex_traceevent t = Some None.
Proof.
  intros Ht. unfold matches. rewrite traceevent_compiles. cbn [fmap option_fmap option_map]. f_equal.
  destruct (captures traceevent_elems t) as [c|] eqn:E; [|done]. exfalso.
  apply search_inv in E as (first & a & b & y & -> & E). apply traceevent_inv in E as (s & n & s' & b' & -> & _ & _ & _ & Hb).
  apply (Ht (a ++ s ++ n ++ s') b'); [by rewrite <- !app_assoc|done].
Qed.

Lemma over_not c t x : over c t -> within c x = false -> x ∉ t.
Proof. intros Ht Hx Hin. rewrite (proj1 (Forall_forall _ _) Ht x Hin) in Hx. done. Qed.

Lemma only_one {A} (x : A) pre : forall a b post, x ∉ pre -> x ∉ post -> a ++ x :: b = pre ++ x :: post -> a = pre /\ b = post.
Proof.
  induction pre as [|y pre IH]; intros a b post Hpre Hpost E.
  - destruct a as [|z a]; [by injection E|]. injection E as -> <-. destruct Hpost. apply elem_of_app. right. left.
  - apply not_elem_of_cons in Hpre as [Hxy Hpre]. destruct a as [|z a]; cbn in E; injection E as -> E; [done|].
    destruct (IH a b post Hpre Hpost E) as [-> ->]. done.
Qed.

Lemma first_one {A} (x : A) a : forall p b q, x ∉ a -> x ∉ p -> a ++ x :: b = p ++ q -> exists r, a = p ++ r.
Proof.
  induction a as [|y a IH]; intros p b q Ha Hp E.
  - destruct p as [|z p]; [by exists []|]. injection E as -> _. destruct Hp. left.
  - destruct p as [|z p]; [by exists (y :: a)|]. injection E as -> E. apply not_elem_of_cons in Ha as [_ Ha]. apply not_elem_of_cons in Hp as [_ Hp].
    destruct (IH p b q Ha Hp E) as [r ->]. by exists r.
Qed.

(** Flags begin with a character that is not a blank, and have no colon and no bracket. *)
Definition flags_text (f : text) : Prop := (exists c r, f = c :: r /\ within spaces c = false) /\ (58 ∉ f) /\ (91 ∉ f).

Lemma flagged_no_event e f : event_ok e -> flags_text f -> 91 ∉ details e -> no_event (flagged_line e f).
Proof.
  intros He ((c & r & -> & Hc) & H58 & H91) Hd a b E (d & s & n & b' & -> & Hdd & Hss & Hnn). unfold flagged_line in E.
  pose proof (tracepoint_ok _ (what_ok e He)) as Ht. destruct He as [[Hf _] [Hw _] Hcpu Hst _ _].
  assert (91 ∉ behind e) as Hb.
  { unfold behind. rewrite !elem_of_app, !elem_of_cons, !elem_of_app, !elem_of_cons, elem_of_nil.
    pose proof (over_not _ _ 91 Hst eq_refl). pose proof (over_not _ _ 91 Ht eq_refl). repeat (rewrite ?elem_of_app, ?elem_of_cons, ?elem_of_nil).
    intuition lia. }
  symmetry in E. apply only_one in E as [_ E]; cycle 1.
  { rewrite !elem_of_app, elem_of_replicate, list_elem_of_singleton. pose proof (over_not _ _ 91 Hw eq_refl). intuition lia. }
  { pose proof (over_not _ _ 91 Hcpu eq_refl). repeat (rewrite ?elem_of_app, ?elem_of_cons). apply not_elem_of_cons in H91. intuition lia. }
  assert (cpu e = d /\ 32 :: (c :: r) ++ 32 :: behind e = s ++ n ++ 58 :: b') as [_ E2].
  { pose proof (over_not _ _ 93 Hcpu eq_refl) as N1. pose proof (over_not _ _ 93 Hdd eq_refl) as N2. symmetry in E.
    destruct (first_one 93 (cpu e) d _ _ N1 N2 E) as [u Eu]. symmetry in E. destruct (first_one 93 d (cpu e) _ _ N2 N1 E) as [v Ev].
    assert (u = []) as -> by (rewrite Ev, <- app_assoc in Eu; rewrite <- (app_nil_r (cpu e)) in Eu at 1; apply app_inv_head in Eu;
      symmetry in Eu; by apply app_eq_nil in Eu as [_ ?]).
    rewrite app_nil_r in Eu. rewrite Eu in E. apply app_inv_head in E. injection E as E. done. }
  rewrite app_assoc in E2. symmetry in E2.
  destruct (first_one 58 (s ++ n) (32 :: (c :: r) ++ [32]) b' (behind e)) as [u Eu].
  { rewrite elem_of_app. pose proof (over_not _ _ 58 Hss eq_refl). pose proof (over_not _ _ 58 Hnn eq_refl). tauto. }
  { rewrite elem_of_cons, elem_of_app, list_elem_of_singleton. intuition lia. }
  { rewrite E2. cbn [app]. by rewrite <- app_assoc. }
  clear E E2. destruct s as [|s0 [|s1 s]].
  - cbn [app] in Eu. subst n. apply Forall_cons in Hnn as [Hx _]. done.
  - cbn in Eu. injection Eu as -> ->. apply (over_not _ _ 32 Hnn eq_refl). right. apply elem_of_app. left. apply elem_of_app. right. left.
  - cbn in Eu. injection Eu as -> -> _. apply Forall_cons in Hss as [_ [Hx _]%Forall_cons]. congruence.
Qed.

(** *** Where there is one *)

(** Between two characters that are not blanks the name goes on. *)
Lemma name_between s n s' i m j x y z : over spaces s -> over name_class n -> over spaces s' -> (i <= m <= j)%nat ->
  (s ++ n ++ s') !! i = Some x -> (s ++ n ++ s') !! m = Some y -> (s ++ n ++ s') !! j = Some z ->
  within spaces x = false -> within spaces z = false -> within name_class y = true.
Proof.
  intros Hs Hn Hs' Hij Hx Hy Hz Nx Nz. unfold over in *. rewrite Forall_lookup in Hs, Hn, Hs'. apply lookup_app_Some in Hx as [Hx|[Hi _]]; [apply Hs in Hx; congruence|].
  apply lookup_app_Some in Hz as [Hz|[Hj Hz]]; [apply Hs in Hz; congruence|].
  apply lookup_app_Some in Hz as [Hz|[_ Hz]]; [|apply Hs' in Hz; congruence]. apply lookup_lt_Some in Hz.
  rewrite lookup_app_r, lookup_app_l in Hy by lia. by apply Hn in Hy.
Qed.

Lemma front_skipped e first a b : event_ok e -> front e = a ++ b -> b <> [] ->
  match_here first traceevent_elems (b ++ replicate (lead e) 32 ++ who e ++ [32] ++ (91 :: cpu e ++ [93]) ++ [32] ++ behind e) [] = None.
Proof.
  intros He Ef Hb. destruct (match_here _ _ _ _) as [y|] eqn:E; [|done]. exfalso. destruct (front_ok_ e He) as [H91 Hz].
  apply traceevent_inv in E as (s & n & s' & t & E & Hs & Hn & Hs' & (d & s3 & st & t' & -> & _)).
  destruct Hz as [Hz|(f & z & Hz & Nz & Hm)]; [rewrite Hz in Ef; symmetry in Ef; by apply app_eq_nil in Ef as [_ ?]|].
  assert (exists b0, b = b0 ++ [z]) as [b0 ->].
  { destruct b as [|z' b0 _] using rev_ind; [done|]. rewrite Ef, app_assoc in Hz. apply app_inj_tail in Hz as [_ ->]. by exists b0. }
  destruct (who_ok e He) as [Hw Hw0]. destruct (who e) as [|w ws] eqn:Ew; [done|]. apply Forall_cons in Hw as [Hw Hws].
  assert (within spaces w = false) as Nw by (clear -Hw; unfold within, name_class, spaces in *; cbn in *; lia).
  assert (s ++ n ++ s' = b0 ++ z :: replicate (lead e) 32 ++ (w :: ws) ++ [32]) as EL.
  { assert (((b0 ++ [z]) ++ replicate (lead e) 32 ++ (w :: ws) ++ [32]) ++ 91 :: cpu e ++ 93 :: 32 :: behind e =
      (s ++ n ++ s') ++ 91 :: d ++ 93 :: s3 ++ st ++ 58 :: t') as E1 by (rewrite <- !app_assoc in *; cbn [app] in *; rewrite <- E; by rewrite <- ?app_assoc).
    assert (91 ∉ s ++ n ++ s') as N1 by (rewrite !elem_of_app; pose proof (over_not _ _ 91 Hs eq_refl); pose proof (over_not _ _ 91 Hn eq_refl);
      pose proof (over_not _ _ 91 Hs' eq_refl); tauto).
    assert (91 ∉ (b0 ++ [z]) ++ replicate (lead e) 32 ++ (w :: ws) ++ [32]) as N2.
    { rewrite Ef, !elem_of_app in H91. pose proof (over_not _ _ 91 Hws eq_refl). assert (91 <> w) by (intros <-; done).
      rewrite !elem_of_app, elem_of_replicate, (elem_of_cons ws), (list_elem_of_singleton _ 32). intuition lia. }
    destruct (first_one 91 _ _ _ _ N1 N2 (eq_sym E1)) as [u Eu]. symmetry in E1. destruct (first_one 91 _ _ _ _ N2 N1 (eq_sym E1)) as [v Ev].
    rewrite Ev, <- app_assoc in Eu. rewrite <- (app_nil_r (s ++ n ++ s')) in Eu at 1. apply app_inv_head in Eu. symmetry in Eu.
    apply app_eq_nil in Eu as [-> _]. rewrite app_nil_r in Ev. rewrite <- Ev. by rewrite <- app_assoc. }
  assert (forall i, (s ++ n ++ s') !! (length b0 + i)%nat = (z :: replicate (lead e) 32 ++ (w :: ws) ++ [32]) !! i) as HL
    by (intros i; rewrite EL, lookup_app_r by lia; f_equal; lia).
  assert ((s ++ n ++ s') !! (length b0 + S (lead e))%nat = Some w) as Lw.
  { rewrite HL. change ((z :: ?l) !! S (lead e)) with (l !! lead e). rewrite lookup_app_r by (by rewrite length_replicate). by rewrite length_replicate, Nat.sub_diag. }
  destruct Hm as [Hl|Hm].
  - pose proof (name_between s n s' (length b0 + 0) (length b0 + 1) (length b0 + S (lead e)) z 32 w Hs Hn Hs' ltac:(lia) (HL 0%nat)) as H.
    rewrite HL in H. destruct (lead e) as [|k]; [lia|]. by specialize (H eq_refl Lw Nz Nw).
  - pose proof (name_between s n s' (length b0 + 0) (length b0 + 0) (length b0 + S (lead e)) z z w Hs Hn Hs' ltac:(lia) (HL 0%nat) (HL 0%nat) Lw Nz Nw). congruence.
Qed.

(** A line is taken apart as it was put together. *)
Lemma line_parsed e : event_ok e ->
  matches regex_traceevent (line_of e) = Some (Some [who e; 91 :: cpu e ++ [93]; stamp e; tracepoint (what e); details e]).
Proof.
  intros He. unfold matches. rewrite traceevent_compiles. cbn [fmap option_fmap option_map]. f_equal. unfold line_of.
  apply (search_later _ _ _ _ [10]); [intros first a b; by apply front_skipped|]. intros first.
  pose proof (details_ok e He) as (Hd & c & r & Ed & Hc). destruct He as [_ [Hw Hw0] Hcpu Hst Hk _].
  pose proof (tracepoint_ok _ Hk) as Ht. unfold traceevent_elems, behind.
  assert (over spaces [32]) as H32 by (repeat constructor).
  apply here_many.
  { apply Forall_replicate. reflexivity. }
  { destruct (who e) as [|x w]; [done|]. apply Forall_cons in Hw as [Hx _]. cbn. unfold within, name_class in Hx. cbn in Hx. unfold within, spaces. cbn. lia. }
  apply here_group; [apply takes_class; [exact Hw|reflexivity]|].
  apply here_many; [exact H32|reflexivity|].
  apply here_group; [apply takes_one; [reflexivity|]; apply takes_many; [exact Hcpu|reflexivity|]; apply takes_one; [reflexivity|]; apply takes_nil|].
  apply here_many; [exact H32| |].
  { destruct (stamp e) as [|x w]; [reflexivity|]. apply Forall_cons in Hst as [Hx _]. cbn. unfold within in Hx. cbn in Hx. unfold within, spaces. cbn. lia. }
  apply here_group; [apply takes_class; [exact Hst|reflexivity]|].
  apply here_one; [reflexivity|]. apply here_many; [exact H32| |].
  { destruct (tracepoint (what e)) as [|x w]; [reflexivity|]. apply Forall_cons in Ht as [Hx _]. cbn. unfold within in Hx. cbn in Hx. unfold within, spaces. cbn. lia. }
  apply here_group; [apply takes_class; [exact Ht|reflexivity]|].
  apply here_one; [reflexivity|]. apply here_many; [exact H32|by rewrite Ed|].
  apply here_group; [apply takes_class; [exact Hd|reflexivity]|]. reflexivity.
Qed.

(** ** The input *)

(** The lines: events without flags, events with flags, and others, like comments. *)
Inductive line : Type := Traced (e : event) | Flagged (e : event) (flags : text) | Noise (t : text).

Definition text_of (l : line) : text := match l with Traced e => line_of e | Flagged e f => flagged_line e f | Noise t => t end.

Definition line_ok (l : line) : Prop :=
  match l with
  | Traced e => event_ok e
  | Flagged e f => event_ok e /\ flags_text f /\ (91 ∉ details e)
  | Noise t => no_event t
  end.

Definition traced (input : list line) : list event := omap (fun l => match l with Traced e => Some e | _ => None end) input.

Lemma traced_ok input : Forall line_ok input -> Forall event_ok (traced input).
Proof. induction 1 as [|[e|e f|t] input Hl _ IH]; [constructor| |done|done]. by constructor. Qed.

(** What the kernel gives as the format of the event. *)
Definition kernel_fmt : text :=
  B "page=%p pfn=%lu alloc_order=%d fallback_order=%d pageblock_order=%d alloc_migratetype=%d fallback_migratetype=%d fragmenting=%d change_ownership=%d".

Definition known_regex (r : text) : Prop := r = regex_fragdetails_default \/ r = from_format kernel_fmt.

Definition frag_captures (f : frag) : list text :=
  [page f; pfn f; alloc_order f; fallback_order f; pageblock_order f; alloc_migratetype f; fallback_migratetype f; [fragmenting f]; [change_ownership f]].

Definition frag_elems (g : list atom) : list elem :=
  literal (B "page=") ++ Group [[Many [(48, 57); (97, 102)]]] :: literal (B " pfn=") ++ Group [[Many digits]] ::
  literal (B " alloc_order=") ++ Group [[Many signed]] :: literal (B " fallback_order=") ++ Group [[Many signed]] ::
  literal (B " pageblock_order=") ++ Group [[Many signed]] :: literal (B " alloc_migratetype=") ++ Group [[Many signed]] ::
  literal (B " fallback_migratetype=") ++ Group [[Many signed]] :: literal (B " fragmenting=") ++ Group [g] ::
  literal (B " change_ownership=") ++ [Group [g]].

Lemma frag_parsed r f : known_regex r -> frag_ok f -> matches r (frag_text f) = Some (Some (frag_captures f)).
Proof.
  intros Hr [H1 H2 H3 H4]. rewrite !Forall_cons in H3. destruct H3 as (O1 & O2 & O3 & O4 & O5 & _).
  unfold over in H4. rewrite !Forall_cons in H4. destruct H4 as (F1 & F2 & _). unfold matches.
  assert (exists g, (g = [One signed] \/ g = [Many signed]) /\ compile r = Some (frag_elems g)) as (g & Hg & ->).
  { destruct Hr as [-> | ->]; [exists [One signed]|exists [Many signed]]; (split; [tauto|vm_compute; reflexivity]). }
  cbn [fmap option_fmap option_map]. f_equal. eapply search_first.
  assert (forall x b, within signed x = true -> stops signed b -> takes g [x] b) as Hone.
  { intros x b Hx Hb. destruct Hg as [-> | ->]; [apply takes_one; [done|apply takes_nil]|]. apply takes_class; [by constructor|done]. }
  unfold frag_text, frag_elems. rewrite <- (app_nil_r [change_ownership f]).
  do 7 (apply here_literal; apply here_group; [by apply takes_class|]).
  do 2 (apply here_literal; apply here_group; [by apply Hone|]). reflexivity.
Qed.

(** ** What is counted *)

Definition fragments (f : frag) : bool := negb (fragmenting f =? 48).
Definition changes (f : frag) : bool := negb (change_ownership f =? 48).
Definition severe (f : frag) : bool := fragments f && (num (fallback_order f) <=? 3).
Definition moderate (f : frag) : bool := fragments f && negb (num (fallback_order f) <=? 3).

Definition counters (k : kind) : list string :=
  match k with
  | Alloc => ["MM_PAGE_ALLOC"] | Free => ["MM_PAGE_FREE"] | FreeBatched => ["MM_PAGE_FREE_BATCHED"]
  | Drain => ["MM_PAGE_PCPU_DRAIN"; "STATE_PCPU_PAGES_DRAINED"]
  | ZoneLocked => ["MM_PAGE_ALLOC_ZONE_LOCKED"; "STATE_PCPU_PAGES_REFILLED"]
  | ExtFrag f =>
      ["MM_PAGE_ALLOC_EXTFRAG"] ++
      (if fragments f then ["HIGH_EXT_FRAG"; if num (fallback_order f) <=? 3 then "HIGH_EXT_FRAGMENT_SEVERE" else "HIGH_EXT_FRAGMENT_MODERATE"] else []) ++
      (if changes f then ["HIGH_EXT_FRAGMENT_CHANGED"] else [])
  | Other _ => ["EVENT_UNKNOWN"]
  end.

Lemma true_digit c : true_text [c] = negb (c =? 48).
Proof.
  unfold true_text. rewrite bool_decide_eq_false_2 by done. cbn [orb]. f_equal. destruct (Z.eqb_spec c 48) as [-> |Hc]; [done|].
  apply bool_decide_eq_false_2. intros [= E]. done.
Qed.

Lemma counted_kind k : kind_ok k -> counted (tracepoint k) (match k with ExtFrag f => Some (frag_captures f) | _ => None end) = Some (counters k).
Proof.
  destruct k as [| | | | |f|t]; try (intros _; vm_compute; reflexivity).
  - intros _. unfold counted. cbn [tracepoint]. rewrite !bool_decide_eq_false_2, bool_decide_eq_true_2 by (vm_compute; congruence || done).
    unfold counters, fragments, changes, frag_captures. cbn -[true_text num Z.leb Z.eqb]. by rewrite !true_digit.
  - intros (_ & Hn & Hx). unfold counted. cbn [tracepoint]. cbn [fmap list_fmap tracepoint] in Hn. rewrite !not_elem_of_cons in Hn.
    by rewrite !bool_decide_eq_false_2 by tauto.
Qed.

Definition tally_step (s : stats) (k : kind) : stats := count_event (tracepoint k) (counters k) s.

(** The counters of a process that saw these events. *)
Definition tally (l : list kind) : stats := foldl tally_step ∅ l.

Definition occ (c : string) (l : list string) : Z := zlen (filter (fun x => x = c) l).

Lemma cnt_insert s k v c : cnt (<[k := v]> s) c = if bool_decide (k = c) then v else cnt s c.
Proof. unfold cnt. case_bool_decide; [subst; by rewrite lookup_insert_eq|by rewrite lookup_insert_ne]. Qed.

Lemma cnt_bumps l : forall s c, cnt (foldl (fun s k => bump k s) s l) c = cnt s c + occ c l.
Proof.
  induction l as [|k l IH]; intros s c; cbn [foldl]; [unfold occ, zlen; cbn; lia|]. rewrite IH. unfold bump, occ. rewrite cnt_insert, filter_cons.
  case_bool_decide; case_decide; try done; rewrite ?zlen_cons; subst; lia.
Qed.

(** A counter that is not part of the state only grows by the events. *)
Definition plain (c : string) : Prop :=
  c ∉ ["STATE_PCPU_PAGES_DRAINED"; "HIGH_PCPU_DRAINS"; "STATE_PCPU_PAGES_REFILLED"; "HIGH_PCPU_REFILLS"]%string.

Lemma cnt_catch t e st hi s c : cnt (catch t e st hi s) c =
  if truthy (cnt s st) && bool_decide (t <> e) then
    if bool_decide (st = c) then 0 else if bool_decide (hi = c) then cnt s hi + 1 else cnt s c
  else cnt s c.
Proof. unfold catch. case_match; [|done]. unfold bump. by rewrite !cnt_insert. Qed.

Lemma catch_state t e st hi s : cnt (catch t e st hi s) st = if truthy (cnt s st) && bool_decide (t <> e) then 0 else cnt s st.
Proof. by rewrite cnt_catch, (bool_decide_eq_true_2 (st = st)). Qed.

Lemma catch_high t e st hi s : st <> hi -> cnt (catch t e st hi s) hi = if truthy (cnt s st) && bool_decide (t <> e) then cnt s hi + 1 else cnt s hi.
Proof. intros. by rewrite cnt_catch, (bool_decide_eq_false_2 (st = hi)), (bool_decide_eq_true_2 (hi = hi)). Qed.

Lemma catch_other t e st hi s c : st <> c -> hi <> c -> cnt (catch t e st hi s) c = cnt s c.
Proof. intros. rewrite cnt_catch, (bool_decide_eq_false_2 (st = c)), (bool_decide_eq_false_2 (hi = c)) by done. by case_match. Qed.

Lemma tally_snoc l k : tally (l ++ [k]) = tally_step (tally l) k.
Proof. unfold tally. by rewrite foldl_app. Qed.

Lemma tally_plain c l : plain c -> cnt (tally l) c = zlen (concat ((fun k => filter (fun x => x = c) (counters k)) <$> l)).
Proof.
  intros Hc. unfold plain in Hc. rewrite !not_elem_of_cons in Hc. destruct Hc as (H1 & H2 & H3 & H4 & _).
  induction l as [|k l IH] using rev_ind; [done|]. rewrite tally_snoc, fmap_app, concat_app, zlen_app, <- IH.
  unfold tally_step, count_event. rewrite !catch_other by congruence. cbn [fmap list_fmap concat]. rewrite app_nil_r. apply cnt_bumps.
Qed.

(** ** Runs *)

(** The events of a kind that another kind of event follows, and whether the last event is of the kind. *)
Fixpoint closed_runs (is_k : kind -> bool) (l : list kind) : Z :=
  match l with
  | a :: ((b :: _) as r) => (if is_k a && negb (is_k b) then 1 else 0) + closed_runs is_k r
  | _ => 0
  end.
Definition open_run (is_k : kind -> bool) (l : list kind) : Z := match last l with Some k => if is_k k then 1 else 0 | None => 0 end.

Definition runs (is_k : kind -> bool) (l : list kind) : Z := closed_runs is_k l + open_run is_k l.

Lemma closed_snoc f l k : closed_runs f (l ++ [k]) = closed_runs f l + if f k then 0 else open_run f l.
Proof.
  unfold open_run. destruct l as [|a l]; [cbn; by destruct (f k)|]. revert a. induction l as [|b l IH]; intros a.
  - cbn. by destruct (f a), (f k).
  - change (last (a :: b :: l)) with (last (b :: l)). specialize (IH b).
    change (closed_runs f ((a :: b :: l) ++ [k])) with ((if f a && negb (f b) then 1 else 0) + closed_runs f ((b :: l) ++ [k])).
    rewrite IH. cbn [closed_runs]. lia.
Qed.

Definition is_drain (k : kind) : bool := match k with Drain => true | _ => false end.
Definition is_locked (k : kind) : bool := match k with ZoneLocked => true | _ => false end.

(** A pair of counters that follows the runs of one kind of event: the length of the run that is open, and the number of closed ones. *)
Definition follows (is_k : kind -> bool) (state high : string) : Prop :=
  forall l, Forall kind_ok l -> 0 <= cnt (tally l) state /\ truthy (cnt (tally l) state) = (open_run is_k l =? 1) /\ cnt (tally l) high = closed_runs is_k l.

Lemma tracepoint_drain k : kind_ok k -> bool_decide (tracepoint k <> B "mm_page_pcpu_drain") = negb (is_drain k).
Proof.
  destruct k as [| | | | |f|t]; try (intros _; vm_compute; reflexivity). cbn [kind_ok tracepoint fmap list_fmap is_drain negb].
  rewrite !not_elem_of_cons. intros H. apply bool_decide_eq_true_2. tauto.
Qed.

Lemma tracepoint_locked k : kind_ok k -> bool_decide (tracepoint k <> B "mm_page_alloc_zone_locked") = negb (is_locked k).
Proof.
  destruct k as [| | | | |f|t]; try (intros _; vm_compute; reflexivity). cbn [kind_ok tracepoint fmap list_fmap is_locked negb].
  rewrite !not_elem_of_cons. intros H. apply bool_decide_eq_true_2. tauto.
Qed.

(** A counter an event of one kind adds one to, and no other. *)
Lemma occ_drained k : occ "STATE_PCPU_PAGES_DRAINED" (counters k) = if is_drain k then 1 else 0.
Proof. destruct k as [| | | | |f|]; try (vm_compute; reflexivity). cbn [counters is_drain]. by repeat case_match. Qed.

Lemma occ_refilled k : occ "STATE_PCPU_PAGES_REFILLED" (counters k) = if is_locked k then 1 else 0.
Proof. destruct k as [| | | | |f|]; try (vm_compute; reflexivity). cbn [counters is_locked]. by repeat case_match. Qed.

Lemma occ_high k c : c ∈ ["HIGH_PCPU_DRAINS"; "HIGH_PCPU_REFILLS"] -> occ c (counters k) = 0.
Proof.
  rewrite !elem_of_cons. intros [-> |[-> |H]]; [| |by apply elem_of_nil in H]; destruct k as [| | | | |f|]; try (vm_compute; reflexivity);
    cbn [counters]; by repeat case_match.
Qed.

Lemma open_snoc f l k : open_run f (l ++ [k]) = if f k then 1 else 0.
Proof. unfold open_run. by rewrite last_snoc. Qed.

(** One more event: the run goes on, ends, or there is none. *)
Lemma follow_step is_k l k state high : 0 <= state -> truthy state = (open_run is_k l =? 1) -> high = closed_runs is_k l ->
  let n := state + if is_k k then 1 else 0 in
  let ends := truthy n && negb (is_k k) in
  0 <= (if ends then 0 else n) /\ truthy (if ends then 0 else n) = (open_run is_k (l ++ [k]) =? 1) /\
  (if ends then high + 1 else high) = closed_runs is_k (l ++ [k]).
Proof.
  intros H0 Hs -> n ends. unfold ends, n. rewrite open_snoc, closed_snoc. destruct (is_k k); cbn [negb].
  - rewrite andb_false_r. unfold truthy. split_and!; lia.
  - rewrite andb_true_r, Z.add_0_r, Hs. assert (open_run is_k l = 0 \/ open_run is_k l = 1) as Ho
      by (unfold open_run; destruct (last l) as [x|]; [destruct (is_k x)|]; tauto).
    unfold truthy in Hs |- *. destruct Ho as [Ho|Ho]; rewrite Ho in Hs |- *; cbn; split_and!; try lia.
Qed.

Lemma drains_follow : follows is_drain "STATE_PCPU_PAGES_DRAINED" "HIGH_PCPU_DRAINS".
Proof.
  intros l Hl. induction l as [|k l IH] using rev_ind; [split_and!; [vm_compute; discriminate|reflexivity|reflexivity]|].
  apply Forall_app in Hl as [Hl [Hk _]%Forall_cons]. destruct (IH Hl) as (H0 & Hs & Hh). rewrite tally_snoc. unfold tally_step, count_event.
  rewrite !(catch_other _ (B "mm_page_alloc_zone_locked")) by done. rewrite !catch_state, catch_high by done.
  rewrite !cnt_bumps, occ_drained, (tracepoint_drain k Hk).
  rewrite (occ_high k "HIGH_PCPU_DRAINS"), Z.add_0_r by (rewrite elem_of_cons; tauto). by apply follow_step.
Qed.

Lemma refills_follow : follows is_locked "STATE_PCPU_PAGES_REFILLED" "HIGH_PCPU_REFILLS".
Proof.
  intros l Hl. induction l as [|k l IH] using rev_ind; [split_and!; [vm_compute; discriminate|reflexivity|reflexivity]|].
  apply Forall_app in Hl as [Hl [Hk _]%Forall_cons]. destruct (IH Hl) as (H0 & Hs & Hh). rewrite tally_snoc. unfold tally_step, count_event.
  rewrite !catch_state, catch_high by done. rewrite !(catch_other _ (B "mm_page_pcpu_drain")) by done.
  rewrite !cnt_bumps, occ_refilled, (tracepoint_locked k Hk).
  rewrite (occ_high k "HIGH_PCPU_REFILLS"), Z.add_0_r by (rewrite !elem_of_cons; tauto). by apply follow_step.
Qed.

(** ** The columns of a process *)

Definition number (P : kind -> bool) (l : list kind) : Z := zlen (filter (fun k => P k = true) l).

Definition ext (P : frag -> bool) (k : kind) : bool := match k with ExtFrag f => P f | _ => false end.

(** What the columns say of the events of a process, where the runs are counted with [r]. *)
Definition summary (r : (kind -> bool) -> list kind -> Z) (l : list kind) : list Z :=
  [number (fun k => match k with Alloc => true | _ => false end) l;
   number is_locked l;
   number (fun k => match k with Free => true | _ => false end) l;
   number (fun k => match k with FreeBatched => true | _ => false end) l;
   number is_drain l;
   r is_drain l;
   r is_locked l;
   number (ext (fun _ => true)) l; number (ext fragments) l; number (ext changes) l; number (ext severe) l; number (ext moderate) l;
   number (fun k => match k with Other _ => true | _ => false end) l].

Lemma tally_number c (P : kind -> bool) l : plain c -> (forall k, occ c (counters k) = if P k then 1 else 0) -> cnt (tally l) c = number P l.
Proof.
  intros Hc Ho. rewrite tally_plain by done. unfold number. induction l as [|k l IH]; [done|]. cbn [fmap list_fmap concat].
  rewrite zlen_app, IH, filter_cons. specialize (Ho k). unfold occ in Ho. rewrite Ho. destruct (P k); case_decide; try done; rewrite ?zlen_cons; lia.
Qed.

Lemma occ_cons c x l : occ c (x :: l) = (if String.eqb x c then 1 else 0) + occ c l.
Proof. unfold occ. rewrite filter_cons. destruct (String.eqb_spec x c); case_decide; try done; rewrite ?zlen_cons; lia. Qed.

Ltac columns_of_kind :=
  let k := fresh "k" in
  intros k; destruct k as [| | | | |?f|]; try (vm_compute; reflexivity);
  cbn [counters ext]; unfold severe, moderate; repeat case_match; try done; vm_compute; reflexivity.

Lemma tally_columns l : Forall kind_ok l -> cnt (tally l) <$> columns = summary closed_runs l.
Proof.
  intros Hl. destruct (drains_follow l Hl) as (_ & _ & Hd). destruct (refills_follow l Hl) as (_ & _ & Hr).
  unfold columns, summary. cbn [fmap list_fmap]. repeat f_equal; try exact Hd; try exact Hr;
    apply tally_number; try (unfold plain; apply (bool_decide_unpack _); vm_compute; exact I); columns_of_kind.
Qed.

Ltac decide_names :=
  repeat match goal with
         | |- context [bool_decide (?a = ?b :> string)] => let r := eval vm_compute in (bool_decide (a = b)) in change (bool_decide (a = b)) with r
         end.

Lemma final_columns l : Forall kind_ok l -> cnt (final (tally l)) <$> columns = summary runs l.
Proof.
  intros Hl. pose proof (tally_columns l Hl) as Ht. destruct (drains_follow l Hl) as (_ & Hd & _). destruct (refills_follow l Hl) as (_ & Hr & _).
  assert (forall f, open_run f l = if open_run f l =? 1 then 1 else 0) as Ho
    by (intros f; unfold open_run; destruct (last l) as [x|]; [destruct (f x)|]; done).
  unfold summary, runs. rewrite (Ho is_drain), (Ho is_locked), <- Hd, <- Hr. unfold columns, summary in Ht |- *. cbn [fmap list_fmap] in Ht |- *.
  injection Ht as E1 E2 E3 E4 E5 E6 E7 E8 E9 E10 E11 E12 E13.
  unfold final, bump. destruct (truthy (cnt (tally l) "STATE_PCPU_PAGES_DRAINED")) eqn:Ed; rewrite ?cnt_insert; decide_names; cbv iota;
    destruct (truthy (cnt (tally l) "STATE_PCPU_PAGES_REFILLED")) eqn:Er; rewrite ?cnt_insert; decide_names; cbv iota;
    rewrite ?E1, ?E2, ?E3, ?E4, ?E5, ?E6, ?E7, ?E8, ?E9, ?E10, ?E11, ?E12, ?E13, ?Z.add_0_r; done.
Qed.

(** ** The events of all processes *)

Definition kinds (p : text) (evs : list event) : list kind := what <$> filter (fun e => who e = p) evs.

Definition see (m : gmap text stats) (e : event) : gmap text stats := <[who e := tally_step (default ∅ (m !! who e)) (what e)]> m.

Definition table (evs : list event) : gmap text stats := foldl see ∅ evs.

Lemma kinds_none p evs : p ∉ (who <$> evs) -> kinds p evs = [].
Proof.
  unfold kinds. induction evs as [|e evs IH]; intros Hp; [done|]. rewrite fmap_cons, not_elem_of_cons in Hp.
  rewrite filter_cons_False by (intros E; apply (proj1 Hp); done). apply IH, (proj2 Hp).
Qed.

Lemma table_lookup evs p : table evs !! p = if bool_decide (p ∈ who <$> evs) then Some (tally (kinds p evs)) else None.
Proof.
  unfold table. induction evs as [|e evs IH] using rev_ind; [done|]. rewrite foldl_app. cbn [foldl]. unfold see at 1, kinds.
  rewrite filter_app, !fmap_app, filter_cons, filter_nil. destruct (decide (who e = p)) as [<-|Hne].
  - rewrite lookup_insert_eq, bool_decide_eq_true_2 by (apply elem_of_app; right; left). f_equal. cbn [fmap list_fmap]. rewrite tally_snoc. f_equal.
    rewrite IH. case_bool_decide as Hin; [done|]. fold (kinds (who e) evs). by rewrite kinds_none.
  - rewrite lookup_insert_ne, IH by done. cbn [fmap list_fmap]. rewrite app_nil_r.
    replace (bool_decide (p ∈ (who <$> evs) ++ [who e])) with (bool_decide (p ∈ who <$> evs)); [done|].
    apply bool_decide_ext. rewrite elem_of_app, list_elem_of_singleton. split; [tauto|]. intros [H|H]; [done|congruence].
Qed.

(** The processes, in the order of the hash. *)
Lemma table_keys `{HashOrder} evs : (forall l, hash_order l ≡ₚ l) -> keys (table evs) ≡ₚ remove_dups (who <$> evs).
Proof.
  intros Ho. unfold keys. rewrite Ho. apply NoDup_Permutation; [apply NoDup_fst_map_to_list|apply NoDup_remove_dups|].
  intros p. rewrite elem_of_remove_dups. split.
  - intros ([q st] & -> & Hp)%list_elem_of_fmap. apply elem_of_map_to_list in Hp. rewrite table_lookup in Hp. cbn [fst]. by case_bool_decide.
  - intros Hp. apply list_elem_of_fmap. exists (p, tally (kinds p evs)). split; [done|]. apply elem_of_map_to_list.
    rewrite table_lookup. by rewrite bool_decide_eq_true_2.
Qed.

Lemma table_width evs e : e ∈ evs -> (length (who e) + 2 <= max_strlen (table evs))%nat.
Proof.
  intros He. unfold max_strlen. apply Nat.add_le_mono_r.
  assert (who e ∈ (map_to_list (table evs)).*1) as Hin.
  { apply list_elem_of_fmap. exists (who e, tally (kinds (who e) evs)). split; [done|]. apply elem_of_map_to_list.
    rewrite table_lookup, bool_decide_eq_true_2; [done|]. by apply list_elem_of_fmap_2. }
  induction (map_to_list (table evs)).*1 as [|x l IH]; [by apply elem_of_nil in Hin|]. cbn. apply elem_of_cons in Hin as [-> |Hin]; [lia|].
  specialize (IH Hin). lia.
Qed.

(** ** The run *)

#[export] Instance shows : Shows call text := fun c => match c with Print t => Some t | _ => None end.

Definition is_read (c : call) : bool := match c with ReadLine => true | _ => false end.
Definition nreads (h : list (Posix.event call)) : nat := length (filter (fun e => is_read e.1 = true) h).

(** The input has these lines and then ends. *)
Definition feeds (K : kernel call) (input : list line) : Prop :=
  forall h, K h ReadLine = match input !! nreads h with Some l => Ans 1 0 (text_of l) | None => aret 0 end.

Definition uninterrupted (K : kernel call) : Prop := forall h, ret (K h Interrupted) = 0.

(** The format of the event is not there, or it is the one of the kernel. *)
Definition format_known (K : kernel call) : Prop :=
  forall h ev, ret (K h (Format ev)) < 0 \/ 0 <= ret (K h (Format ev)) /\ read_format (data (K h (Format ev))) = from_format kernel_fmt.

Definition by_name (o : opts) : Prop := opt_read_procstat o = false /\ opt_prepend_parent o = false.

Lemma line_counted o e K g h (Q : outcome bool -> globals -> list (Posix.event call) -> Prop) :
  by_name o -> event_ok e -> known_regex (regex_fragdetails g) ->
  Q (Ret false) (set_perprocesspid (see (perprocesspid g) e) g) h -> wp (process_line o (line_of e)) K g h Q.
Proof.
  intros [Ho1 Ho2] He Hr HQ. unfold process_line, with_match. rewrite (line_parsed e He). unfold name_process. rewrite Ho1, Ho2. cbn [orb].
  wp_step. wp_step. wp_step. wp_step. wp_step. wp_step. pose proof (what_ok e He) as Hk. pose proof (counted_kind _ Hk) as Hc.
  case_bool_decide as Ex.
  - assert (exists f, what e = ExtFrag f) as (f & Ef).
    { destruct (what e) as [| | | | |f|t]; try discriminate Ex; [by exists f|]. cbn in Ex, Hk. tauto. }
    unfold details. rewrite Ef in *. rewrite (frag_parsed _ f Hr Hk), Hc. wp_run. unfold upd, see in *. rewrite Ef in HQ. exact HQ.
  - replace (counted (tracepoint (what e)) None) with (Some (counters (what e))); [wp_run; exact HQ|].
    rewrite <- Hc. destruct (what e); done.
Qed.

Lemma nreads_cons c a h : nreads ((c, a) :: h) = ((if is_read c then 1 else 0) + nreads h)%nat.
Proof. unfold nreads. rewrite filter_cons. cbn [fst]. destruct (is_read c); by case_decide. Qed.

Lemma signals_quiet K (g : globals) h (Q : outcome unit -> globals -> list (Posix.event call) -> Prop) :
  uninterrupted K -> (forall a, Q (Ret tt) g ((Interrupted, a) :: h)) -> wp signals K g h Q.
Proof.
  intros Hu HQ. unfold signals. wp_step. apply wp_sys_eq. intros a Ha. wp_step.
  pose proof (Hu h) as E. rewrite Ha in E. rewrite E. cbn [truthy Z.eqb negb]. wp_step. apply HQ.
Qed.

Lemma line_skipped o t K g h (Q : outcome bool -> globals -> list (Posix.event call) -> Prop) :
  no_event t -> Q (Ret true) g h -> wp (process_line o t) K g h Q.
Proof. intros Ht HQ. unfold process_line, with_match. rewrite no_event_skipped by done. by wp_step. Qed.

Lemma events_counted o K input : by_name o -> Forall line_ok input -> feeds K input -> uninterrupted K ->
  forall rest past fuel g h, input = past ++ rest -> nreads h = length past -> (length rest < fuel)%nat ->
    perprocesspid g = table (traced past) -> known_regex (regex_fragdetails g) -> sigint_pending g = false ->
    wp (process_events fuel o) K g h (fun r g' h' => r = Ret tt /\ g' = set_perprocesspid (table (traced input)) g /\ output h' = output h).
Proof.
  intros Ho He Hf Hu. induction rest as [|l rest IH]; intros past fuel g h E Hn Hl Hg Hr Hs; (destruct fuel as [|fuel]; [cbn in Hl; lia|]).
  - rewrite app_nil_r in E. subst past. cbn [process_events]. wp_step. apply wp_sys_eq. intros a Ha. wp_step.
    rewrite Hf, Hn, lookup_ge_None_2 in Ha by done. subst a. cbn [ret aret Z.eqb]. wp_step. split_and!; [done| |by rewrite output_silent].
    rewrite <- Hg. by destruct g.
  - cbn [process_events]. wp_step. apply wp_sys_eq. intros a Ha. wp_step.
    rewrite Hf, Hn in Ha. rewrite E, (lookup_app_r past), Nat.sub_diag in Ha by done. cbn in Ha. subst a. cbn [ret data Z.eqb].
    wp_step. pose proof He as Hl'. rewrite E, Forall_app, Forall_cons in Hl'. destruct Hl' as (_ & Hl' & _). cbn [length] in Hl.
    assert (nreads ((ReadLine, Ans 1 0 (text_of l)) :: h) = length (past ++ [l])) as Hn' by (rewrite nreads_cons, Hn, length_app; cbn; lia).
    assert (input = (past ++ [l]) ++ rest) as E' by (by rewrite <- app_assoc).
    destruct l as [e|e f|t]; cbn [text_of line_ok] in *.
    + apply line_counted; [done|done|done|]. wp_step. wp_step. apply signals_quiet; [done|]. intros a.
      do 4 wp_step. change (sigint_pending (set_perprocesspid (see (perprocesspid g) e) g)) with (sigint_pending g). rewrite Hs.
      eapply wp_wand; [apply (IH (past ++ [Traced e])); try done; try lia|].
      * cbn [perprocesspid set_perprocesspid]. rewrite Hg. unfold table, traced. rewrite omap_app. cbn. by rewrite foldl_app.
      * intros r g' h' (-> & -> & Eo). split_and!; [done|done|]. by rewrite Eo, !output_silent.
    + apply line_skipped; [apply flagged_no_event; tauto|]. wp_step. eapply wp_wand; [apply (IH (past ++ [Flagged e f])); try done; try lia|].
      * rewrite Hg. unfold traced. rewrite omap_app. cbn. by rewrite app_nil_r.
      * intros r g' h' (-> & -> & Eo). split_and!; [done|done|]. by rewrite Eo, !output_silent.
    + apply line_skipped; [done|]. wp_step. eapply wp_wand; [apply (IH (past ++ [Noise t])); try done; try lia|].
      * rewrite Hg. unfold traced. rewrite omap_app. cbn. by rewrite app_nil_r.
      * intros r g' h' (-> & -> & Eo). split_and!; [done|done|]. by rewrite Eo, !output_silent.
Qed.

(** ** The report *)

Lemma wp_print t K (g : globals) h (Q : outcome unit -> globals -> list (Posix.event call) -> Prop) :
  (forall a, Q (Ret tt) g ((Print t, a) :: h)) -> wp (print t) K g h Q.
Proof. intros HQ. unfold print. wp_go. apply HQ. Qed.

Lemma heads_printed width hs K g h : wp (dump_heads width hs) K g h (fun r g' h' =>
  r = Ret tt /\ g' = g /\ output h' = output h ++ ((fun x => row_text width x.1 x.2) <$> hs)).
Proof.
  revert h. induction hs as [|x hs IH]; intros h; cbn [dump_heads]; [wp_step; by rewrite app_nil_r|].
  wp_step. apply wp_print. intros a. wp_step. eapply wp_wand; [apply IH|]. intros r g' h' (-> & -> & ->). split_and!; [done|done|].
  rewrite output_cons. cbn [shown shows]. by rewrite <- app_assoc.
Qed.

Definition row (width : nat) (p : text) (cols : list Z) : text := row_text width p (decimal <$> cols).

Lemma rows_printed agg width ps K : forall g h, NoDup ps -> wp (dump_rows agg width ps) K g h (fun r g' h' =>
  r = Ret tt /\ output h' = output h ++ ((fun p => row width p (cnt (final (default ∅ (get_stats agg g !! p))) <$> columns)) <$> ps)).
Proof.
  induction ps as [|p ps IH]; intros g h Hnd; cbn [dump_rows]; [wp_step; by rewrite app_nil_r|]. apply NoDup_cons in Hnd as [Hp Hnd].
  do 3 wp_step. do 3 wp_step. wp_step. apply wp_print. intros a. wp_step. eapply wp_wand; [by apply IH|]. intros r g' h' (-> & ->). split; [done|].
  rewrite output_cons. cbn [shown shows]. rewrite <- app_assoc. f_equal. rewrite fmap_cons. cbn [app]. f_equal. apply list_fmap_ext. intros i q Hq.
  assert (q <> p) as Hqp by (intros ->; apply Hp; by eapply list_elem_of_lookup_2).
  replace (get_stats agg (put_stats agg _ g) !! q) with (get_stats agg g !! q); [done|].
  destruct agg; cbn [get_stats put_stats set_perprocess set_perprocesspid perprocess perprocesspid]; by rewrite lookup_insert_ne.
Qed.

Definition heading (width : nat) : list text := [10] :: ((fun x => row_text width x.1 x.2) <$> heads).

Lemma stats_dumped `{HashOrder} agg K g h : (forall l, hash_order l ≡ₚ l) ->
  let width := max_strlen (perprocesspid g) in
  wp (dump_stats agg) K g h (fun r g' h' => r = Ret tt /\
    output h' = output h ++ heading width ++ ((fun p => row width p (cnt (final (default ∅ (get_stats agg g !! p))) <$> columns)) <$> keys (get_stats agg g))).
Proof.
  intros Ho width. unfold dump_stats. do 3 wp_step. wp_step. apply wp_print. intros a. wp_step. wp_step. eapply wp_wand; [apply heads_printed|].
  intros r g' h' (-> & -> & Eo). wp_step. eapply wp_wand; [apply rows_printed|].
  - unfold keys. rewrite Ho. apply NoDup_fst_map_to_list.
  - intros r g' h2 (-> & ->). split; [done|]. rewrite Eo, output_cons. cbn [shown shows]. unfold heading. by rewrite <- !app_assoc.
Qed.

(** ** Processes of one name together *)

Lemma cnt_add into from c : cnt (add_columns into from) c = if bool_decide (c ∈ columns) then cnt into c + cnt from c else cnt into c.
Proof.
  unfold add_columns. assert (NoDup columns) as Hnd by (apply (bool_decide_unpack _); vm_compute; exact I).
  revert into. induction Hnd as [|k l Hk _ IH]; intros into; [done|]. cbn [foldl]. rewrite IH, !cnt_insert.
  destruct (decide (k = c)) as [-> |Hne].
  - by rewrite (bool_decide_eq_false_2 (c ∈ l)), (bool_decide_eq_true_2 (c = c)), bool_decide_eq_true_2 by (done || by left).
  - rewrite (bool_decide_eq_false_2 (k = c)) by done.
    replace (bool_decide (c ∈ k :: l)) with (bool_decide (c ∈ l)); [done|]. apply bool_decide_ext. rewrite elem_of_cons.
    split; [tauto|]. intros [->|]; done.
Qed.

Definition together (m : gmap text stats) (ps : list text) : gmap text stats :=
  foldl (fun r p => <[process_name p := add_columns (default ∅ (r !! process_name p)) (default ∅ (m !! p))]> r) ∅ ps.

Definition named (n : text) (ps : list text) : list text := filter (fun p => process_name p = n) ps.

Lemma together_snoc m ps p : together m (ps ++ [p]) =
  <[process_name p := add_columns (default ∅ (together m ps !! process_name p)) (default ∅ (m !! p))]> (together m ps).
Proof. unfold together. by rewrite foldl_app. Qed.

Lemma together_cnt m ps n c : cnt (default ∅ (together m ps !! n)) c =
  if bool_decide (c ∈ columns) then foldr (fun p acc => acc + cnt (default ∅ (m !! p)) c) 0 (reverse (named n ps)) else 0.
Proof.
  induction ps as [|p ps IH] using rev_ind; [by case_bool_decide|]. rewrite together_snoc. unfold named in *. rewrite filter_app, filter_cons, filter_nil.
  destruct (decide (process_name p = n)) as [<-|Hne].
  - rewrite lookup_insert_eq. change (default ∅ (Some ?x)) with x. rewrite cnt_add, IH, reverse_app. cbn. by case_bool_decide.
  - rewrite lookup_insert_ne, IH, app_nil_r by done. done.
Qed.

Lemma together_keys m ps n : is_Some (together m ps !! n) <-> n ∈ process_name <$> ps.
Proof.
  induction ps as [|p ps IH] using rev_ind; [cbn; split; [by intros [? ?]|by intros ?%elem_of_nil]|].
  rewrite together_snoc, fmap_app, elem_of_app. change (process_name <$> [p]) with [process_name p]. rewrite list_elem_of_singleton, <- IH.
  destruct (decide (process_name p = n)) as [<-|Hne]; [rewrite lookup_insert_eq; split; [tauto|eauto]|].
  rewrite lookup_insert_ne by done. split; [tauto|]. intros [H|H]; [done|congruence].
Qed.

(** The sum of what the columns say of several processes; runs that were open at the end are left out. *)
Definition total (evs : list event) (ps : list text) : list Z :=
  foldr (fun p acc => zip_with Z.add acc (summary closed_runs (kinds p evs))) (replicate 13 0) ps.

Lemma kinds_ok evs p : Forall event_ok evs -> Forall kind_ok (kinds p evs).
Proof.
  intros He. apply Forall_forall. intros k (e & -> & [_ Hin]%list_elem_of_filter)%list_elem_of_fmap. rewrite Forall_forall in He. apply (He e Hin).
Qed.

Lemma total_columns evs ps n : Forall event_ok evs -> Forall (fun p => p ∈ who <$> evs) ps ->
  cnt (default ∅ (together (table evs) ps !! n)) <$> columns = total evs (reverse (named n ps)).
Proof.
  intros He Hp. assert (Forall (fun p => p ∈ who <$> evs) (reverse (named n ps))) as Hq.
  { apply Forall_reverse, Forall_forall. intros p [_ Hin]%list_elem_of_filter. rewrite Forall_forall in Hp. auto. }
  transitivity ((fun c => foldr (fun p acc => acc + cnt (default ∅ (table evs !! p)) c) 0 (reverse (named n ps))) <$> columns).
  { apply list_fmap_ext. intros i c Hc. rewrite together_cnt, bool_decide_eq_true_2; [done|]. by eapply list_elem_of_lookup_2. }
  induction Hq as [|p l Hin _ IH]; [reflexivity|]. cbn [foldr total]. fold (total evs l). rewrite <- IH.
  rewrite table_lookup, bool_decide_eq_true_2 by done. change (default ∅ (Some ?x)) with x. rewrite <- tally_columns; [reflexivity|].
  by apply kinds_ok.
Qed.

Lemma together_final m ps n : final (default ∅ (together m ps !! n)) = default ∅ (together m ps !! n).
Proof.
  assert (forall c, bool_decide (c ∈ columns) = false -> truthy (cnt (default ∅ (together m ps !! n)) c) = false) as Hc
    by (intros c Hc; by rewrite together_cnt, Hc).
  unfold final. rewrite (Hc "STATE_PCPU_PAGES_DRAINED") by (vm_compute; reflexivity).
  by rewrite (Hc "STATE_PCPU_PAGES_REFILLED") by (vm_compute; reflexivity).
Qed.

Lemma regex_generated K g h : format_known K -> wp (generate_traceevent_regex (B "kmem/mm_page_alloc_extfrag") regex_fragdetails_default fields) K g h
  (fun r g' h' => g' = g /\ output h' = output h /\ nreads h' = nreads h /\ exists e, r = Ret e /\ known_regex e).
Proof.
  intros Hf. unfold generate_traceevent_regex. wp_step. apply wp_sys_eq. intros a Ha. wp_step.
  assert (forall r, known_regex r -> verify_fields (split (within spaces) r) fields r = io_ret (r, [])) as Hv
    by (intros r [-> | ->]; vm_compute; reflexivity).
  assert (known_regex (if ret a <? 0 then regex_fragdetails_default else read_format (data a))) as Hk.
  { destruct (Hf h (B "kmem/mm_page_alloc_extfrag")) as [H|[H0 H]]; rewrite Ha in *.
    - rewrite (proj2 (Z.ltb_lt _ _)) by done. by left.
    - rewrite (proj2 (Z.ltb_ge _ _)) by done. by right. }
  rewrite (Hv _ Hk). do 3 wp_step. cbn [fst snd]. wp_step. split_and!; [done|by rewrite output_silent|by rewrite nreads_cons|]. by eexists.
Qed.

Lemma table_reported `{HashOrder} o K evs g h : (forall l, hash_order l ≡ₚ l) -> Forall event_ok evs -> perprocesspid g = table evs ->
  let width := max_strlen (table evs) in
  let ps := keys (table evs) in
  wp (report o) K g h (fun r g' h' => r = Ret tt /\
    if opt_ignorepid o then
      exists ns, ns ≡ₚ remove_dups (process_name <$> ps) /\
        output h' = output h ++ heading width ++ ((fun n => row width n (total evs (reverse (named n ps)))) <$> ns)
    else output h' = output h ++ heading width ++ ((fun p => row width p (summary runs (kinds p evs))) <$> ps)).
Proof.
  intros Ho He Hg width ps. assert (forall p, p ∈ ps -> p ∈ who <$> evs) as Hps.
  { intros p Hp. unfold ps in Hp. rewrite (table_keys evs Ho), elem_of_remove_dups in Hp. done. }
  unfold report. destruct (opt_ignorepid o); cbn [negb].
  - unfold aggregate_perprocesspid. do 3 wp_step. rewrite Hg. fold ps. fold (together (table evs) ps).
    eapply wp_wand; [by apply (stats_dumped true)|]. cbn [perprocesspid set_perprocess get_stats perprocess]. rewrite Hg. fold width.
    intros r g' h' (-> & ->). split; [done|]. exists (keys (together (table evs) ps)). split.
    + unfold keys. rewrite Ho. apply NoDup_Permutation; [apply NoDup_fst_map_to_list|apply NoDup_remove_dups|]. intros n.
      rewrite elem_of_remove_dups, <- (together_keys (table evs)). split.
      * intros ([q st] & -> & Hq)%list_elem_of_fmap. apply elem_of_map_to_list in Hq. eauto.
      * intros [st Hst]. apply list_elem_of_fmap. exists (n, st). split; [done|]. by apply elem_of_map_to_list.
    + do 2 f_equal. apply list_fmap_ext. intros i n _. rewrite together_final. f_equal. apply total_columns; [done|]. by apply Forall_forall.
  - eapply wp_wand; [by apply (stats_dumped false)|]. cbn [get_stats]. rewrite Hg. fold width. fold ps. intros r g' h' (-> & ->). split; [done|].
    do 2 f_equal. apply list_fmap_ext. intros i p Hp. apply list_elem_of_lookup_2, Hps in Hp. rewrite table_lookup, bool_decide_eq_true_2 by done.
    f_equal. apply final_columns. by apply kinds_ok.
Qed.

(** C28: The table of the events.  The input has lines of the trace, with or without the column of flags, and lines that are not of an event; there is no
    interrupt, names are taken from the lines (neither --read-procstat nor --prepend-parent), and the format of the fragmentation event is that of the kernel or not there.
    Then the script ends.  It passes over the lines with flags, and of a name only counts the end over letters, digits and dashes as the process.
    It prints a heading and one line for each process of the lines without flags, wide enough for every name: how many events of each kind the process has, and how often it
    drained and refilled the lists, that is the number of runs of the two kinds of event, whether or not another event ends the last run.
    With --ignore-pid there is one line for each name: the sums over its processes, but of the runs only those that another event of
    the process ends. *)
Theorem pages_counted `{HashOrder} o K input fuel :
  (forall l, hash_order l ≡ₚ l) -> Forall line_ok input -> by_name o -> feeds K input -> uninterrupted K -> format_known K -> (length input < fuel)%nat ->
  let evs := traced input in
  wp (trace_pagealloc fuel o) K init [] (fun r g h' => r = Ret tt /\ exists width ps, ps ≡ₚ remove_dups (who <$> evs) /\
    (forall e, e ∈ evs -> (length (who e) + 2 <= width)%nat) /\
    if opt_ignorepid o then
      exists ns, ns ≡ₚ remove_dups (process_name <$> ps) /\ output h' = heading width ++ ((fun n => row width n (total evs (reverse (named n ps)))) <$> ns)
    else output h' = heading width ++ ((fun p => row width p (summary runs (kinds p evs))) <$> ps)).
Proof.
  intros Ho Hi Hb Hf Hu Hk Hl evs. pose proof (traced_ok input Hi) as He. fold evs in He. unfold trace_pagealloc. wp_step. eapply wp_wand; [by apply regex_generated|].
  intros r g h (-> & Eo & En & e & -> & Hr). do 4 wp_step. destruct fuel as [|fuel]; [lia|]. cbn [signal_loop]. wp_step. wp_step.
  eapply wp_wand; [apply (events_counted o K input Hb Hi Hf Hu input [] (S fuel)); try done; by rewrite En|]. fold evs.
  intros r g' h1 (-> & -> & E1). wp_step. wp_step. apply signals_quiet; [done|]. intros a. do 4 wp_step.
  change (sigint_pending (set_perprocesspid (table evs) (set_regex e init))) with false. cbv iota. do 6 wp_step.
  change (sigint_pending (set_perprocesspid (table evs) (set_regex e init))) with false. cbn [orb]. wp_step. wp_step.
  eapply wp_wand; [by apply (table_reported o K evs)|]. intros r g' h' [-> Hout]. split; [done|].
  exists (max_strlen (table evs)), (keys (table evs)). split_and!; [by apply table_keys|intros x Hx; by apply table_width|].
  rewrite !output_silent, E1, Eo in Hout by done. exact Hout.
Qed.

(** ** Two shells *)

Definition sample_event (p : string) (k : kind) : event := Event [] 3 (B p) (B "000") (B "17.25") k (B "zone=1").

(** The process of a thread of the kernel is only counted by the end of its name. *)
Definition worker_event : event := Event (B "kworker/0:") 0 (B "1-59") (B "000") (B "17.25") Free (B "zone=1").

Definition sample_frag : frag := Frag (B "c0ffee") (B "77") (B "0") (B "2") (B "9") (B "1") (B "0") 49 48.

Definition sample_input : list line :=
  [Noise (B "# tracer: nop" ++ [10]);
   Traced (sample_event "bash-1" Drain); Traced (sample_event "bash-1" Drain); Traced (sample_event "bash-2" Alloc); Traced (sample_event "bash-1" Alloc);
   Flagged (sample_event "bash-3" Alloc) (B "d..3"); Traced worker_event;
   Traced (sample_event "bash-1" Drain); Traced (sample_event "bash-2" (ExtFrag sample_frag))].

Definition sample_events : list event := traced sample_input.

Definition sample_kernel : kernel call := fun h c =>
  match c with
  | ReadLine => match sample_input !! nreads h with Some l => Ans 1 0 (text_of l) | None => aret 0 end
  | Format _ => aerr 2
  | _ => aret 0
  end.

#[local] Instance sample_order : HashOrder := fun l => l.

Lemma sample_ok : Forall line_ok sample_input.
Proof.
  assert (forall e, front_ok e -> over name_class (who e) /\ who e <> [] -> over digits (cpu e) -> over [(48, 57); (46, 46)] (stamp e) -> kind_ok (what e) ->
    more e = B "zone=1" -> event_ok e) as Hok.
  { intros e H1 H2 H3 H4 H5 H6. split; try done. rewrite H6. split; [repeat constructor|by eexists _, _]. }
  assert (forall p k, over name_class (B p) /\ B p <> [] -> kind_ok k -> event_ok (sample_event p k)) as Hs.
  { intros p k Hp Hk. apply Hok; try done; [split; [by apply not_elem_of_nil|by left]|repeat constructor|repeat constructor]. }
  assert (event_ok worker_event) as Hw.
  { apply Hok; try done; [|split; [repeat constructor|done]|repeat constructor|repeat constructor]. split; [apply (bool_decide_unpack _); vm_compute; exact I|]. right.
    exists (B "kworker/0"), 58. split_and!; [reflexivity|reflexivity|by right]. }
  unfold sample_input. rewrite !Forall_cons. split_and!; cbn [line_ok]; try exact Hw; try (apply Forall_nil; exact I).
  all: try (apply Hs; [split; [repeat constructor|discriminate]|first [exact I|split; repeat constructor]]).
  - intros a b E (d & s & n & b' & -> & _). assert (91 ∈ B "# tracer: nop" ++ [10]) as Hin by (rewrite E, elem_of_app; right; left).
    revert Hin. apply (bool_decide_unpack _). vm_compute. exact I.
  - split; [apply Hs; [split; [repeat constructor|discriminate]|exact I]|]. split; [|apply (bool_decide_unpack _); vm_compute; exact I].
    split; [by eexists _, _|]. split; apply (bool_decide_unpack _); vm_compute; exact I.
Qed.

Lemma pages_counted_witness :
  let run := trace_pagealloc 10 (Opts false false false) sample_kernel init [] in
  run.1.1 = Ret tt /\ exists width ps, ps ≡ₚ remove_dups (who <$> sample_events) /\
    output run.2 = heading width ++ ((fun p => row width p (summary runs (kinds p sample_events))) <$> ps) /\
    remove_dups (who <$> sample_events) = [B "1-59"; B "bash-1"; B "bash-2"] /\
    summary runs (kinds (B "bash-1") sample_events) = [1; 0; 0; 0; 3; 2; 0; 0; 0; 0; 0; 0; 0] /\
    summary runs (kinds (B "bash-2") sample_events) = [1; 0; 0; 0; 0; 0; 0; 1; 1; 0; 1; 0; 0].
Proof.
  intros run.
  pose proof (wp_result _ _ _ _ _ (pages_counted (Opts false false false) sample_kernel sample_input 10 (fun l => reflexivity l) sample_ok (conj eq_refl eq_refl)
    (fun h => eq_refl) (fun h => eq_refl) (fun h ev => or_introl eq_refl) ltac:(cbn; lia))) as [Hr (width & ps & Hp & _ & Hout)].
  split; [exact Hr|]. exists width, ps. split; [exact Hp|]. split; [exact Hout|]. split_and!; vm_compute; reflexivity.
Defined.

End Pagealloc.
